(* ===== verification/_CoqProject ===== *)
-Q . S2P
Prelude.v
JsNumber.v
JsValue.v
JsDate.v
MarketSession.v
Prisma.v
OrderStatus.v
DeliveryEvidence.v
Schema.v
RuntimeConfig.v
SessionGuard.v
AlpacaApiUsage.v
AlpacaClient.v
LifecycleAuthority.v
AuthoritySafety.v
EntryLimits.v
BrokerAccount.v
ExactDecimal.v
ClientOrderId.v
RiskGate.v
ExposureClaim.v
ExposureSafety.v
ExitWorld.v
ExitState.v
WorkflowLock.v
VerifiedExit.v
ClosePosition.v
TrailingStop.v
ExitEvaluator.v
WorkerHealth.v
AdaptivePolling.v
AccountWorkflow.v
EntryWorld.v
DispatchEvidence.v
DispatchRecovery.v
EntrySubmission.v
EntryMoves.v
SubmissionSafety.v
RecoverySafety.v
OrderWorker.v
StaleRecovery.v
SubmittedSync.v
WorkerMoves.v
OutcomeMoves.v
SyncMoves.v
SyncOutcomes.v
WorkerSafety.v
StaleSafety.v
SubmittedSafety.v
