(* ===== verification/Prelude.v ===== *)
(** Verification of the AI Trader backend.

    The program (src/src/) trades equities for several broker accounts. Signals
    become entry orders if a risk gate allows them; an exposure claim gives one
    order at a time the right to open a position of an account in a security;
    orders reach the broker (Alpaca) through one HTTP client that authorizes
    writes and classifies how they were delivered; open positions are watched by
    an exit evaluator that closes them or protects them by a trailing stop, and
    every sell goes through a verified exit submission. Background workers run
    these services per account, under a database lock, with back-off and health
    records. State is PostgreSQL rows behind Prisma.

    This comment says what is modelled, how it corresponds to the code, what the
    theorems show, and what is not modelled. All source paths are below src/src/
    unless they start at src/.

    ** How the code is modelled

    - Effects. A service function is a program of the error and state monad
      [eff S A] (JsValue): it returns [Ok x] or [Throw e] and a new state.
      [transaction] restores the state when its body throws, [try_catch] does
      not. Pure code is plain functions; thrown errors are the constructors of
      [js_error], one per class the code distinguishes.
    - Numbers. JavaScript numbers that carry prices, quantities and percentages
      are binary64 values computed with correctly rounded operations (JsNumber);
      ids, counts and millisecond times, which stay far below 2^53, are [Z], and
      JsNumber proves that binary64 arithmetic is exact there. Exit quantities
      are the code's own big-integer decimals (ExactDecimal).
    - Strings are ASCII; [Number(s)], number printing, [trim], case mapping and
      ISO date parsing are written out (JsValue, JsDate).
    - Rows. Each Prisma model is a record with the columns the modelled services
      use (Schema, with enums and nullable columns as the schema has them); a
      table is a list of rows, the database a record of tables ([Db]), the exit
      side's state that with exit states, events and the log of requests handed
      to the broker ([ExitWorld]), the entry side's with events and the log of
      invocations of the entry adapter ([EntryWorld]).
    - Code that is not in the repository is a parameter: PostgreSQL/Prisma
      (class [Prisma]: the order of unordered queries; laws [PrismaLaws]: a
      query returns a permutation of the matching rows, new ids are fresh), the
      broker's answers ([ExitBroker], the HTTP [fetch] of AlpacaClient), time
      zones, string collation, dates in unspecified formats. Services of the
      repository that are not modelled yet are parameters too where modelled
      code calls them ([ExitServices], [ExitAuthority], [EntryServices],
      [OrderWorkerServices], policy and approval answers). Every witness instantiates them with concrete functions.
    - Concurrency. Other sessions act between the statements of the claim,
      recovery and worker services: an arbitrary [interfere] step at every
      await, constrained only by what a theorem says it assumes of them (where a
      theorem speaks of evidence that was read, the database it was read from is
      reached from the caller's by such steps alone), and an
      arbitrary [outage] that makes a statement fail; the commit of a
      transaction may also go unacknowledged. The exit side runs serializable transactions;
      broker answers there may depend on the program point and on the state.
      One service call reads one clock value.

    ** Files

    Shared: Prelude (tactics, lists, sorting, sums), JsNumber, JsValue, JsDate,
    Prisma, Schema.

    - OrderStatus: services/broker-order-lifecycle-status.service.ts and
      entry-lifecycle-status.service.ts. Claim transitions never move backwards;
      the stored-status filter agrees with the predicate.
    - DeliveryEvidence: services/entry-delivery-evidence.service.ts. The
      never-submitted release rule is exactly its documented one (C16), the
      summary ignores event order, uncertain deliveries are not overwritten.
    - RuntimeConfig: services/config.service.ts. Settings keep the session
      window invariant and read back what was written (C21).
    - MarketSession, SessionGuard: integrations/alpaca/market-session.adapter.ts
      and services/entry-session-guard.service.ts. The guard allows exactly the
      open session less its buffers (C17), for every snapshot the adapter makes.
    - AlpacaApiUsage: services/alpaca-api-usage.service.ts. The ring of sixty
      minute buckets refines the log of completed requests (C29), persisted and
      pending deltas conserve every request, back-off is honoured.
    - AlpacaClient: integrations/alpaca/client.ts and the order and position
      adapters. Writes are sent only when authorized (C31), every failure of a
      write is classified as the code documents (C30), and the paging of open
      orders ends with all of them or an error (C35).
    - EntryLimits, BrokerAccount, RiskGate: services/risk-gate.service.ts with
      limits, usage and account normalisation. An allowed entry meets every
      guard (C2), the capital limits hold exactly (C15), exits are not limited,
      the daily window is the local day (C18).
    - ExposureClaim, ExposureSafety: services/entry-exposure-claim.service.ts.
      At most one unreleased claim per account and security under every
      interference (C1), exact conditions of acquisition (C9) and of the
      releases (C6, C7), and the lifecycle of each claim (C8).
    - ExactDecimal, ExitWorld, VerifiedExit:
      services/verified-exit-submission.service.ts and
      trading-account-workflow-lock.service.ts. Decimal arithmetic and parsing
      are exact (C25); a verified exit never sells more than is held (C23)
      and a sellable position is sold (C24).
    - ExitState: services/position-exit-state.service.ts. The table keeps its
      type (C26), and broker statuses are mirrored exactly.
    - ClosePosition: services/close-position.service.ts. One close at a time
      (C27), and what each failure leaves behind (C28).
    - TrailingStop: services/trailing-stop-exit.service.ts. A settled delivery
      is not submitted again (C36), every protective request is accounted for
      (C37).
    - ExitEvaluator: services/exit-evaluator.service.ts and
      protective-order-sync.service.ts. One position's failure does not stop the
      others (C38), and only due positions are sold (C39).
    - WorkflowLock, WorkerHealth, AccountWorkflow:
      services/trading-account-workflow-lock.service.ts,
      trading-account-worker-health.service.ts,
      trading-account-workflow-runner.service.ts,
      lifecycle-account-eligibility.service.ts and the account loop of
      exit-evaluator.service.ts. A run answers exactly, once, with back-off
      (C40); no account with exposure is passed over
      (every_account_answered).
    - EntryWorld, EntrySubmission, SubmissionSafety: the entry broker boundary
      of services/place-order.service.ts (submitOrderToBroker). The phase a
      submission ends in tells the truth about the adapter
      (C10).
    - DispatchEvidence, DispatchRecovery, RecoverySafety:
      services/entry-dispatch-recovery.service.ts, its reading and its acting
      half. The claim of a dispatched entry is released only on conclusive
      evidence, read again before the commit (C4).
    - EntryMoves: what the entry side's programs do to the database, for any
      relation their statements respect; shared by the files that follow it.
    - OrderWorker, WorkerSafety: processPendingOrdersForAccount of
      workers/order.worker.ts. An intent is handed to the adapter at most once
      (C3), a delivery that may have happened keeps its claim
      and is recorded as one (C11), and a batch counts
      exactly how its attempts ended (C12). OutcomeMoves
      holds which delivery records the handling of a failure adds to a claim.
    - StaleRecovery, StaleSafety: recoverStaleSubmittingIntentsForAccount of the
      same worker. A stale intent's claim is released only on evidence that
      nothing was ever sent (C5). WorkerMoves holds what the
      programs of the worker do to the database.
    - AdaptivePolling: services/adaptive-polling.service.ts. A broker read is due
      exactly when the replay of the calls says so (C19), within
      five minutes and at most every five seconds (C20).
    - ClientOrderId: services/client-order-id.service.ts. Ids read back what they
      were built from (C22).
    - SubmittedSync, SubmittedSafety: syncSubmittedOrdersForAccountUnlocked of
      the order worker and services/submitted-order-sync-selection.service.ts.
      The account's orders take turns however long some of them fail
      (C13), and a run counts exactly the items it
      mirrored and reports exactly those that failed
      (C14). SyncMoves holds what its programs do to the
      database, and makes it one of the activities of C3;
      SyncOutcomes what one item comes to.
    - LifecycleAuthority, AuthoritySafety: services/lifecycle-authority.service.ts.
      A history is a list of the calls' parts between awaits, in any order. A
      grant that is validated was issued on a verified, unrevoked assessment at
      most five minutes old (C32); a dead grant stays
      dead (C33); authority can be regained
      (C34).

    ** Bounds and fuel

    Recursion is structural except: number printing searches the shortest of at
    most 17 digits, which suffices for binary64, with exponents of at most 650
    decimal places, more than its range; replacement chains of broker orders are
    followed to the code's own depth of 10, open orders read in the code's own
    20 pages of 500; the usage ring has the code's 60 buckets. Where the code
    has a limit the model stops as the code stops, with its error.

    ** Not modelled

    Loggers and metrics (no state the code reads back). Of the order worker the
    loops over accounts; the admission of signals (submitOrder) and the read-only describe
    functions of the recovery. Position tracking, reconciliation, account
    readiness and risk health, live-entry approval and market policy, the
    market-state assessments, momentum research and market-data ingestion are
    further components over the same rows: the plan takes position tracking and
    reconciliation next, then the pure calculations of the assessments. Users and access, HTTP controllers,
    validators and serializers, the web application (src/apps/web), migrations,
    scripts and offline research tools are glue or presentation and stay out. *)

From Stdlib Require Import ZArith Lia Sorting.Sorted.
From stdpp Require Import base list strings pretty.

(** * Tactics shared by the development *)

(** Split every boolean conjunction, disjunction and negation found in the
    hypotheses and turn integer comparisons into propositions. *)
Ltac bool_hyps :=
  repeat match goal with
  | H : andb _ _ = true |- _ => apply andb_prop in H; destruct H
  | H : andb _ _ = false |- _ => apply Bool.andb_false_iff in H; destruct H
  | H : orb _ _ = false |- _ => apply Bool.orb_false_iff in H; destruct H
  | H : orb _ _ = true |- _ => apply Bool.orb_prop in H; destruct H
  | H : negb _ = true |- _ => apply Bool.negb_true_iff in H
  | H : negb _ = false |- _ => apply Bool.negb_false_iff in H
  | H : bool_decide _ = true |- _ => apply bool_decide_eq_true_1 in H
  | H : bool_decide _ = false |- _ => apply bool_decide_eq_false_1 in H
  | H : Z.ltb _ _ = true |- _ => apply Z.ltb_lt in H
  | H : Z.ltb _ _ = false |- _ => apply Z.ltb_ge in H
  | H : Z.leb _ _ = true |- _ => apply Z.leb_le in H
  | H : Z.leb _ _ = false |- _ => apply Z.leb_gt in H
  | H : Z.eqb _ _ = true |- _ => apply Z.eqb_eq in H
  | H : Z.eqb _ _ = false |- _ => apply Z.eqb_neq in H
  end.

(** Case analysis on the scrutinee of an [if] or [match] of a hypothesis,
    discarding the branches that contradict the hypothesis' right-hand side. *)
Ltac branch_in H :=
  match type of H with
  | context [match ?x with _ => _ end] =>
      let E := fresh "E" in destruct x eqn:E; try discriminate H
  end.

Ltac branches H := repeat (branch_in H; simplify_eq/=).

(** Case analysis on the innermost scrutinee of the goal. *)
Ltac branch_goal :=
  match goal with
  | |- context [match ?x with _ => _ end] =>
      lazymatch x with
      | context [match _ with _ => _ end] => fail
      | _ => let E := fresh "E" in destruct x eqn:E
      end
  end.

(** * Lists *)

Section ListFacts.
Context {A : Type}.
Implicit Types (l : list A) (p q : A -> bool).

(** The boolean filter of the source's [Array.prototype.filter]. *)
Definition filterb (p : A -> bool) (l : list A) : list A := List.filter p l.

Lemma filterb_In p l x : In x (filterb p l) <-> In x l /\ p x = true.
Proof. apply List.filter_In. Qed.

Lemma filterb_ext p q l :
  (forall x, In x l -> p x = q x) -> filterb p l = filterb q l.
Proof. apply List.filter_ext_in. Qed.

Lemma existsb_false_In p l :
  existsb p l = false <-> forall x, In x l -> p x = false.
Proof.
  split.
  - intros H x Hx. destruct (p x) eqn:E; [|done].
    assert (existsb p l = true) by (apply existsb_exists; eauto). congruence.
  - intros H. destruct (existsb p l) eqn:E; [|done].
    apply existsb_exists in E as (x & Hx & Hp). by rewrite H in Hp.
Qed.

Lemma find_Some_In p l x : List.find p l = Some x -> In x l /\ p x = true.
Proof. apply List.find_some. Qed.

Lemma find_None_In p l x : List.find p l = None -> In x l -> p x = false.
Proof. intros H. by apply List.find_none. Qed.

Lemma take_In n l x : In x (take n l) -> In x l.
Proof. intros Hx. rewrite <- (take_drop n l). apply in_or_app. by left. Qed.

Lemma filterb_length_le p l : (length (filterb p l) <= length l)%nat.
Proof. apply List.filter_length_le. Qed.

Lemma filterb_none p l : (forall x, In x l -> p x = false) -> filterb p l = [].
Proof.
  unfold filterb. induction l as [|x l IH]; intros Hp; cbn; [done|]. rewrite (Hp x) by by left.
  apply IH. intros y Hy. apply Hp. by right.
Qed.

Lemma filterb_app p l l' : filterb p (l ++ l') = (filterb p l ++ filterb p l')%list.
Proof. apply List.filter_app. Qed.

(** How many elements satisfy [p]. *)
Definition how_many p l : Z := Z.of_nat (length (filterb p l)).

Lemma how_many_cons p x l : how_many p (x :: l) = ((if p x then 1 else 0) + how_many p l)%Z.
Proof. unfold how_many, filterb. cbn [List.filter]. destruct (p x); cbn [length]; lia. Qed.
End ListFacts.

(** * Runs over a list

    [run_over P l s es s']: from [s] the elements of [l] are worked on one after
    the other, each by [P] from the state the one before left, with the
    outcomes [es], up to [s']. *)
Inductive run_over {X S E : Type} (P : X -> S -> E -> S -> Prop) : list X -> S -> list E -> S -> Prop :=
| run_nil s : run_over P [] s [] s
| run_cons x l s e s1 es s2 : P x s e s1 -> run_over P l s1 es s2 -> run_over P (x :: l) s (e :: es) s2.

Lemma run_over_length {X S E : Type} (P : X -> S -> E -> S -> Prop) l s es s' :
  run_over P l s es s' -> length es = length l.
Proof. induction 1; cbn; congruence. Qed.

Create HintDb lists.
Create Rewrite HintDb lists_rw.
#[export] Hint Rewrite @filterb_In @existsb_false_In : lists_rw.
#[export] Hint Resolve filterb_length_le : lists.

(** * Stable sorting by an integer key, as [Array.prototype.sort] *)

Section SortBy.
Context {A : Type}.
Variable key : A -> Z.
Implicit Types (l : list A).

Fixpoint insert_by (x : A) l : list A :=
  match l with
  | nil => x :: nil
  | y :: l' => if (key y <=? key x)%Z then y :: insert_by x l' else x :: l
  end.

Definition sort_by l : list A := fold_left (fun acc x => insert_by x acc) l nil.

Inductive sorted_by : list A -> Prop :=
| sorted_nil : sorted_by nil
| sorted_cons x l : (forall y, In y l -> (key x <= key y)%Z) -> sorted_by l -> sorted_by (x :: l).

Lemma insert_by_perm x l : Permutation (insert_by x l) (x :: l).
Proof.
  induction l as [|y l IH]; cbn; [done|]. destruct (key y <=? key x)%Z; [|done].
  rewrite IH. apply perm_swap.
Qed.

Lemma insert_by_sorted x l : sorted_by l -> sorted_by (insert_by x l).
Proof.
  induction 1 as [|y l Hy Hl IH]; cbn.
  - constructor; [done|constructor].
  - destruct (Z.leb_spec (key y) (key x)) as [E|E].
    + constructor; [|done]. intros z Hz.
      apply (Permutation_in _ (insert_by_perm x l)) in Hz as [<-|Hz]; [done|]. by apply Hy.
    + constructor; [|by constructor]. intros z [<-|Hz]; [lia|]. apply Hy in Hz. lia.
Qed.

Lemma fold_insert_perm l acc :
  Permutation (fold_left (fun acc x => insert_by x acc) l acc) (l ++ acc).
Proof.
  revert acc. induction l as [|x l IH]; intros acc; cbn; [done|].
  rewrite IH, insert_by_perm. by rewrite <- Permutation_middle.
Qed.

Lemma sort_by_perm l : Permutation (sort_by l) l.
Proof. unfold sort_by. rewrite fold_insert_perm. by rewrite app_nil_r. Qed.

Lemma sort_by_In x l : In x (sort_by l) <-> In x l.
Proof. split; apply Permutation_in; [|symmetry]; apply sort_by_perm. Qed.

Lemma sort_by_sorted l : sorted_by (sort_by l).
Proof.
  unfold sort_by.
  assert (G : forall l acc, sorted_by acc ->
    sorted_by (fold_left (fun acc x => insert_by x acc) l acc)).
  { clear l. induction l as [|x l IH]; cbn; intros acc Ha; [done|]. apply IH. by apply insert_by_sorted. }
  apply G. constructor.
Qed.

(** With pairwise distinct keys the sorted list does not depend on the
    order of the input. *)
Lemma sorted_unique l l' :
  NoDup (map key l) -> sorted_by l -> sorted_by l' -> Permutation l l' -> l = l'.
Proof.
  intros Hnd Hl. revert l'. induction Hl as [|x l Hx Hl IH]; intros l' Hl' P.
  - by apply Permutation_nil in P.
  - destruct Hl' as [|y l' Hy Hl'].
    { symmetry in P. by apply Permutation_nil in P. }
    cbn in Hnd. apply NoDup_cons in Hnd as [Hni Hnd].
    assert (x = y) as <-.
    { assert (Hxin : In x (y :: l')) by (apply (Permutation_in _ P); by left).
      assert (Hyin : In y (x :: l)) by (apply (Permutation_in _ (Permutation_sym P)); by left).
      destruct Hyin as [|Hyin]; [done|]. destruct Hxin as [|Hxin]; [done|].
      destruct Hni. apply list_elem_of_In, in_map_iff. exists y. split; [|done].
      apply Hx in Hyin. apply Hy in Hxin. lia. }
    f_equal. apply IH; [done|done|]. by apply Permutation_cons_inv in P.
Qed.

Lemma sort_by_permutation l l' :
  NoDup (map key l) -> Permutation l l' -> sort_by l = sort_by l'.
Proof.
  intros Hnd P. apply sorted_unique; try apply sort_by_sorted.
  - assert (Q : Permutation (map key (sort_by l)) (map key l))
      by apply Permutation_map, sort_by_perm.
    by rewrite Q.
  - rewrite !sort_by_perm. done.
Qed.

Lemma sorted_by_filterb p l : sorted_by l -> sorted_by (filterb p l).
Proof.
  induction 1 as [|x l Hx Hl IH]; cbn; [constructor|].
  destruct (p x); [|done]. constructor; [|done].
  intros y Hy. apply filterb_In in Hy as [Hy _]. by apply Hx.
Qed.

Lemma NoDup_map_filterb p l : NoDup (map key l) -> NoDup (map key (filterb p l)).
Proof.
  induction l as [|x l IH]; cbn; [done|]. intros [Hni Hnd]%NoDup_cons.
  destruct (p x); cbn; [|by apply IH]. apply NoDup_cons. split; [|by apply IH].
  intros (y & Hy & Hin)%list_elem_of_In%in_map_iff. apply Hni, list_elem_of_In, in_map_iff.
  apply filterb_In in Hin as [Hin _]. by exists y.
Qed.

(** Selecting rows and then sorting them is sorting and then selecting. *)
Lemma sort_by_filterb p l :
  NoDup (map key l) -> sort_by (filterb p l) = filterb p (sort_by l).
Proof.
  intros Hnd. apply sorted_unique.
  - assert (Q : Permutation (map key (sort_by (filterb p l))) (map key (filterb p l)))
      by apply Permutation_map, sort_by_perm.
    rewrite Q. by apply NoDup_map_filterb.
  - apply sort_by_sorted.
  - apply sorted_by_filterb, sort_by_sorted.
  - rewrite sort_by_perm. unfold filterb. clear Hnd.
    induction (sort_by_perm l) as [|x l1 l2 P IH|x y l1|l1 l2 l3 _ IH1 _ IH2]; cbn.
    + done.
    + destruct (p x); [by constructor|done].
    + destruct (p x), (p y); try done. apply perm_swap.
    + by transitivity (List.filter p l2).
Qed.

Lemma sorted_head_unique x l :
  NoDup (map key (x :: l)) -> sorted_by (x :: l) ->
  forall y, In y l -> (key x < key y)%Z.
Proof.
  intros [Hni Hnd]%NoDup_cons Hs y Hy. inversion Hs as [|? ? Hle _]; subst.
  specialize (Hle y Hy). assert (key x <> key y); [|lia].
  intros E. apply Hni, list_elem_of_In, in_map_iff. by exists y.
Qed.
End SortBy.

(** * Stable sorting by a comparison, as [Array.prototype.sort] with one *)

Section SortWith.
Context {A : Type}.
(** [before x y]: the comparison orders [x] strictly before [y]. *)
Variable before : A -> A -> bool.

Fixpoint insert_with (x : A) (l : list A) : list A :=
  match l with
  | nil => x :: nil
  | y :: l' => if before x y then x :: l else y :: insert_with x l'
  end.

Definition sort_with (l : list A) : list A := fold_left (fun acc x => insert_with x acc) l nil.

Lemma insert_with_perm x l : Permutation (insert_with x l) (x :: l).
Proof.
  induction l as [|y l IH]; cbn; [done|]. destruct (before x y); [done|].
  rewrite IH. apply perm_swap.
Qed.

Lemma sort_with_perm l : Permutation (sort_with l) l.
Proof.
  unfold sort_with.
  assert (G : forall l acc, Permutation (fold_left (fun acc x => insert_with x acc) l acc) (l ++ acc)).
  { clear l. induction l as [|x l IH]; intros acc; cbn; [done|].
    rewrite IH, insert_with_perm. by rewrite <- Permutation_middle. }
  rewrite G. by rewrite app_nil_r.
Qed.
End SortWith.

(** * Insertion-ordered maps, as [Map] with string keys *)

Section JsMap.
Context {K V : Type} `{!EqDecision K}.

Fixpoint map_get (k : K) (m : list (K * V)) : option V :=
  match m with
  | nil => None
  | (k', v) :: m => if decide (k = k') then Some v else map_get k m
  end.

(** [set]: in place for a known key, at the end otherwise. *)
Fixpoint map_set (k : K) (v : V) (m : list (K * V)) : list (K * V) :=
  match m with
  | nil => (k, v) :: nil
  | (k', v') :: m => if decide (k = k') then (k, v) :: m else (k', v') :: map_set k v m
  end.

Lemma map_get_set k v m k' : map_get k' (map_set k v m) = if decide (k' = k) then Some v else map_get k' m.
Proof.
  induction m as [|[k0 v0] m IH]; cbn; [done|].
  destruct (decide (k = k0)) as [->|Hne]; cbn.
  - by destruct (decide (k' = k0)).
  - rewrite IH. destruct (decide (k' = k0)) as [->|]; [|done]. by rewrite decide_False by done.
Qed.
End JsMap.

(** * Integer sums *)

Definition zsum {A} (f : A -> Z) (l : list A) : Z := fold_right (fun x acc => (f x + acc)%Z) 0%Z l.

Lemma zsum_perm {A} (f : A -> Z) l l' : Permutation l l' -> zsum f l = zsum f l'.
Proof. unfold zsum. induction 1; cbn; lia. Qed.

Lemma zsum_nonneg {A} (f : A -> Z) l : (forall x, In x l -> 0 <= f x)%Z -> (0 <= zsum f l)%Z.
Proof.
  unfold zsum. induction l as [|x l IH]; cbn; [lia|]. intros H.
  specialize (IH (fun y Hy => H y (or_intror Hy))). specialize (H x (or_introl eq_refl)). lia.
Qed.

Lemma zsum_filterb_le {A} (f : A -> Z) p l :
  (forall x, In x l -> 0 <= f x)%Z -> (zsum f (filterb p l) <= zsum f l)%Z.
Proof.
  unfold zsum, filterb. induction l as [|x l IH]; cbn; [lia|]. intros H.
  specialize (IH (fun y Hy => H y (or_intror Hy))). specialize (H x (or_introl eq_refl)).
  destruct (p x); cbn; lia.
Qed.

Lemma filterb_filterb {A} (p q : A -> bool) l :
  filterb p (filterb q l) = filterb (fun x => q x && p x) l.
Proof.
  unfold filterb. induction l as [|x l IH]; cbn; [done|].
  destruct (q x); cbn; [|done]. destruct (p x); by rewrite IH.
Qed.

(** A key without duplicates picks at most one row. *)
Lemma filterb_unique {A} (key : A -> Z) (p : A -> bool) l x :
  NoDup (map key l) -> In x l -> p x = true ->
  (forall y, In y l -> p y = true -> key y = key x) -> filterb p l = [x].
Proof.
  intros Hnd Hx Hp Hk.
  assert (Hall : forall y, In y (filterb p l) -> key y = key x)
    by (intros y [Hy Py]%filterb_In; by apply Hk).
  assert (Hnd' : NoDup (map key (filterb p l))) by by apply NoDup_map_filterb.
  assert (Hin : In x (filterb p l)) by by apply filterb_In.
  destruct (filterb p l) as [|y [|z k]]; [done|by destruct Hin as [->|[]]|].
  exfalso. cbn in Hnd'. apply NoDup_cons in Hnd' as [Hn _]. apply Hn.
  rewrite (Hall y (or_introl eq_refl)), <- (Hall z (or_intror (or_introl eq_refl))). by left.
Qed.

Lemma NoDup_key_inj {A} (key : A -> Z) l x y :
  NoDup (map key l) -> In x l -> In y l -> key x = key y -> x = y.
Proof.
  intros Hnd Hx Hy E. set (p := fun z => (key z =? key y)%Z).
  assert (Fx : filterb p l = [x]).
  { apply (filterb_unique key); [done..| |]; unfold p; [by rewrite E, Z.eqb_refl|].
    intros z _ Hz%Z.eqb_eq. congruence. }
  assert (Fy : filterb p l = [y]).
  { apply (filterb_unique key); [done..| |]; unfold p; [by rewrite Z.eqb_refl|].
    by intros z _ Hz%Z.eqb_eq. }
  rewrite Fx in Fy. by injection Fy.
Qed.

(** * Sorted lists and element-wise relations *)

Section SortWithSorted.
Context {A : Type} (before : A -> A -> bool).
Hypothesis before_asym : forall x y, before x y = true -> before y x = false.
Hypothesis before_trans : forall x y z, before x y = false -> before y z = false -> before x z = false.

Definition ordered_with (l : list A) : Prop := StronglySorted (fun x y => before y x = false) l.

Lemma insert_with_ordered x l : ordered_with l -> ordered_with (insert_with before x l).
Proof.
  induction 1 as [|y l Hl IH Hy]; cbn; [repeat constructor|]. destruct (before x y) eqn:E.
  - constructor; [by constructor|]. constructor; [by apply before_asym|].
    revert Hy. apply List.Forall_impl. intros z Hz. apply before_trans with y; [done|by apply before_asym].
  - constructor; [done|]. apply List.Forall_forall. intros z Hz.
    apply (Permutation_in _ (insert_with_perm before x l)) in Hz as [<-|Hz]; [done|].
    by apply (proj1 (List.Forall_forall _ _) Hy).
Qed.

Lemma sort_with_ordered l : ordered_with (sort_with before l).
Proof.
  unfold sort_with. assert (G : forall acc, ordered_with acc -> ordered_with (fold_left (fun acc x => insert_with before x acc) l acc)).
  { induction l as [|x l IH]; intros acc Ha; [done|]. cbn. by apply IH, insert_with_ordered. }
  apply G. constructor.
Qed.

(** What a sorted list's first elements leave behind does not go before them. *)
Lemma ordered_take n l x y : ordered_with l -> In x (take n l) -> In y (drop n l) -> before y x = false.
Proof.
  intros Hl. revert n. induction Hl as [|z l Hl IH Hz]; intros [|n]; cbn; try done.
  intros [<-|Hx] Hy; [|by apply (IH n)].
  apply (proj1 (List.Forall_forall _ _) Hz). rewrite <- (take_drop n l). apply in_or_app. by right.
Qed.
End SortWithSorted.

Lemma Forall2_trans_of {A} (P : A -> A -> Prop) : (forall x y z, P x y -> P y z -> P x z) ->
  forall l k m, Forall2 P l k -> Forall2 P k m -> Forall2 P l m.
Proof.
  intros Ht l k m Hl. revert m. induction Hl as [|x y l k Hx _ IH]; intros m Hm; inversion Hm; subst; constructor; eauto.
Qed.
Lemma Forall2_refl_of {A} (P : A -> A -> Prop) : (forall x, P x x) -> forall l, Forall2 P l l.
Proof. intros Hr l. induction l; by constructor. Qed.

Lemma Forall2_In_r {A} (P : A -> A -> Prop) l k : Forall2 P l k -> forall y, In y k -> exists x, In x l /\ P x y.
Proof.
  induction 1 as [|x y l k Hx _ IH]; [done|]. intros z [<-|Hz]; [by exists x; split; [left|]|].
  destruct (IH z Hz) as (w & Hw & Hp). exists w. split; [by right|done].
Qed.
Lemma Forall2_In_l {A} (P : A -> A -> Prop) l k : Forall2 P l k -> forall x, In x l -> exists y, In y k /\ P x y.
Proof.
  induction 1 as [|x y l k Hx _ IH]; [done|]. intros z [<-|Hz]; [by exists y; split; [left|]|].
  destruct (IH z Hz) as (w & Hw & Hp). exists w. split; [by right|done].
Qed.

Lemma filterb_split {A} (p q : A -> bool) l :
  length (filterb p l) = (length (filterb (fun x => p x && q x) l) + length (filterb (fun x => p x && negb (q x)) l))%nat.
Proof.
  induction l as [|x l IH]; [done|]. cbn. unfold filterb in IH. destruct (p x), (q x); cbn; rewrite ?IH; lia.
Qed.

Lemma Forall2_filterb {A} (P : A -> A -> Prop) (p q : A -> bool) l k : Forall2 P l k ->
  (forall x y, In y k -> P x y -> q y = true -> p x = true) -> (length (filterb q k) <= length (filterb p l))%nat.
Proof.
  induction 1 as [|x y l k Hx _ IH]; intros Hpq; [done|]. cbn.
  assert (Hl : (length (filterb q k) <= length (filterb p l))%nat) by (apply IH; intros u v Hv; apply Hpq; by right).
  unfold filterb in Hl. destruct (q y) eqn:E; [rewrite (Hpq x y) by (by (left) || done); cbn; lia|].
  destruct (p x); cbn; lia.
Qed.
