(* ===== verification/JsNumber.v ===== *)
(** JavaScript numbers: IEEE-754 binary64 values computed with the
    correctly-rounded operations of the standard library's [SpecFloat].
    The second half proves that arithmetic and comparison on integers below
    2^53 in magnitude is exact, which is what lets integer counts, minutes and
    whole-dollar amounts be reasoned about as [Z]. *)

From Stdlib Require Import ZArith Lia.
From Stdlib Require Import Floats.SpecFloat.
From stdpp Require Import base list.
From S2P Require Import Prelude.

Open Scope Z_scope.

(** * The type and its operations *)

Abbreviation num := spec_float.

Definition prec64 : Z := 53.
Definition emax64 : Z := 1024.

Definition nadd (x y : num) : num := SFadd prec64 emax64 x y.
Definition nsub (x y : num) : num := SFsub prec64 emax64 x y.
Definition nmul (x y : num) : num := SFmul prec64 emax64 x y.
Definition ndiv (x y : num) : num := SFdiv prec64 emax64 x y.
Definition nneg (x : num) : num := SFopp x.
(** [Math.abs] *)
Definition nabs (x : num) : num := SFabs x.

(** [x < y], [x <= y] and [x === y]; every comparison with NaN is false. *)
Definition nltb (x y : num) : bool := SFltb x y.
Definition nleb (x y : num) : bool := SFleb x y.
Definition neqb (x y : num) : bool := SFeqb x y.
Definition ngtb (x y : num) : bool := nltb y x.
Definition ngeb (x y : num) : bool := nleb y x.

Definition is_nan (x : num) : bool :=
  match x with S754_nan => true | _ => false end.
(** [Number.isFinite] *)
Definition is_finite (x : num) : bool :=
  match x with S754_zero _ | S754_finite _ _ _ => true | _ => false end.
(** ToBoolean: zeros and NaN are falsy. *)
Definition truthy (x : num) : bool :=
  match x with S754_zero _ | S754_nan => false | _ => true end.

(** The double nearest to an integer (exact below 2^53). *)
Definition num_of_Z (z : Z) : num := binary_normalize prec64 emax64 z 0 false.

(** An integer as an unrounded [spec_float], for correctly rounded quotients. *)
Definition raw_of_Z (z : Z) : num :=
  match z with
  | Z0 => S754_zero false
  | Zpos p => S754_finite false p 0
  | Zneg p => S754_finite true p 0
  end.

(** The decimal literal [m] * 10^-[k], correctly rounded: the literal 0.45 is
    [num_dec 45 2]. *)
Definition num_dec (m : Z) (k : nat) : num :=
  ndiv (raw_of_Z m) (raw_of_Z (10 ^ Z.of_nat k)).

(** Greatest integer not above a finite number. *)
Definition floor_Z (x : num) : option Z :=
  match x with
  | S754_zero _ => Some 0
  | S754_finite s m e =>
      let v := if s then Zneg m else Zpos m in
      Some (match e with
            | Zneg k => Z.div v (2 ^ Zpos k)
            | _ => v * 2 ^ e
            end)
  | _ => None
  end.

(** [Math.floor], [Math.ceil] and [Math.round] (ties toward plus infinity);
    the sign of a zero result is not distinguished from plus zero. *)
Definition nfloor (x : num) : num :=
  match floor_Z x with Some z => num_of_Z z | None => x end.
Definition nceil (x : num) : num :=
  match floor_Z (nneg x) with Some z => num_of_Z (- z) | None => x end.
Definition round_Z (x : num) : option Z :=
  match x with
  | S754_zero _ => Some 0
  | S754_finite s m e =>
      let v := if s then Zneg m else Zpos m in
      Some (match e with
            | Zneg k => Z.div (2 * v + 2 ^ Zpos k) (2 ^ (Zpos k + 1))
            | _ => v * 2 ^ e
            end)
  | _ => None
  end.
Definition nround (x : num) : num :=
  match round_Z x with Some z => num_of_Z z | None => x end.

(** [Math.max] and [Math.min]: NaN if an argument is NaN. *)
Definition nmax (x y : num) : num :=
  if is_nan x || is_nan y then S754_nan else if nltb x y then y else x.
Definition nmin (x y : num) : num :=
  if is_nan x || is_nan y then S754_nan else if nltb y x then y else x.

(** [typeof value === 'number' && Number.isFinite(value) && value > 0] *)
Definition positive_finite (x : num) : bool :=
  is_finite x && ngtb x (num_of_Z 0).

(** A left-to-right sum started at 0, as [reduce] computes it. *)
Definition nsum (l : list num) : num := fold_left nadd l (num_of_Z 0).

#[export] Instance num_eq_dec : EqDecision num.
Proof. solve_decision. Defined.

Example literal_045 : num_dec 45 2 = S754_finite false 8106479329266893 (-54).
Proof. vm_compute. reflexivity. Qed.
Example tenth_plus_fifth : neqb (nadd (num_dec 1 1) (num_dec 2 1)) (num_dec 3 1) = false.
Proof. vm_compute. reflexivity. Qed.
Example round_half : nround (num_dec 25 1) = num_of_Z 3 /\ nround (num_dec (-25) 1) = num_of_Z (-2).
Proof. split; vm_compute; reflexivity. Qed.
Example ceil_12 : nceil (num_dec 12 1) = num_of_Z 2.
Proof. vm_compute. reflexivity. Qed.

(** * Exactness on integers *)

Lemma digits2_log2 p : Zpos (digits2_pos p) = Z.log2 (Zpos p) + 1.
Proof.
  induction p as [p IH|p IH|]; simpl digits2_pos; [| |reflexivity].
  - rewrite Pos2Z.inj_succ, IH, (Pos2Z.inj_xI p).
    rewrite Z.log2_succ_double by lia. lia.
  - rewrite Pos2Z.inj_succ, IH, (Pos2Z.inj_xO p), Z.log2_double by lia. lia.
Qed.

Definition digits (p : positive) : Z := Zpos (digits2_pos p).

Lemma digits_pos p : 1 <= digits p.
Proof. unfold digits. lia. Qed.

Lemma digits_bounds p : 2 ^ (digits p - 1) <= Zpos p < 2 ^ digits p.
Proof.
  unfold digits. rewrite digits2_log2, Z.add_simpl_r.
  pose proof (Z.log2_spec (Zpos p)) as H. rewrite <- Z.add_1_r in H. lia.
Qed.

Lemma digits_le p k : 0 <= k -> Zpos p < 2 ^ k <-> digits p <= k.
Proof.
  intros Hk. unfold digits. rewrite digits2_log2, Z.log2_lt_pow2; lia.
Qed.

Lemma digits_mono p q : Zpos p <= Zpos q -> digits p <= digits q.
Proof.
  intros H. unfold digits. rewrite !digits2_log2.
  pose proof (Z.log2_le_mono _ _ H). lia.
Qed.

(** [p] * 2^[k] as a positive number. *)
Definition shiftp (p : positive) (k : Z) : positive := Z.to_pos (Zpos p * 2 ^ k).

Lemma shiftp_Z p k : 0 <= k -> Zpos (shiftp p k) = Zpos p * 2 ^ k.
Proof. intros Hk. unfold shiftp. rewrite Z2Pos.id; [done|]. pose proof (Z.pow_pos_nonneg 2 k). lia. Qed.

Lemma shiftp_0 p : shiftp p 0 = p.
Proof. apply Pos2Z.inj. rewrite shiftp_Z by lia. lia. Qed.

Lemma shiftp_shiftp p j k :
  0 <= j -> 0 <= k -> shiftp (shiftp p j) k = shiftp p (j + k).
Proof.
  intros Hj Hk. apply Pos2Z.inj. rewrite !shiftp_Z, Z.pow_add_r by lia. lia.
Qed.

Lemma digits_shiftp p k : 0 <= k -> digits (shiftp p k) = digits p + k.
Proof.
  intros Hk. unfold digits. rewrite !digits2_log2, shiftp_Z by lia.
  rewrite Z.log2_mul_pow2 by lia. lia.
Qed.

Lemma iter_xO_shiftp p d : Pos.iter xO p d = shiftp p (Zpos d).
Proof.
  apply Pos2Z.inj. rewrite shiftp_Z by lia.
  induction d as [|d IH] using Pos.peano_ind.
  - simpl. lia.
  - rewrite Pos.iter_succ, Pos2Z.inj_xO, IH, Pos2Z.inj_succ, Z.pow_succ_r by lia. lia.
Qed.

Lemma iter_pos_iter {A} (f : A -> A) (n : positive) (x : A) :
  SpecFloat.iter_pos f n x = BinPos.Pos.iter f x n.
Proof.
  revert x. induction n as [n IH|n IH|]; intros x; cbn; [| |done].
  - rewrite !IH. rewrite <- !Pos.iter_swap. done.
  - by rewrite !IH.
Qed.

Definition exact_rec (m : positive) : shr_record :=
  {| shr_m := Zpos m; shr_r := false; shr_s := false |}.

Lemma shr_exact m k e :
  0 <= k -> shr (exact_rec (shiftp m k)) e k = (exact_rec m, e + k).
Proof.
  intros Hk. destruct k as [|k|k]; [|clear Hk|lia].
  - cbn. by rewrite shiftp_0, Z.add_0_r.
  - cbn. f_equal. rewrite iter_pos_iter.
    induction k as [|k IH] using Pos.peano_ind.
    + cbn. unfold shiftp, exact_rec.
      replace (Zpos m * 2 ^ 1) with (Zpos (xO m)) by lia. reflexivity.
    + rewrite Pos.iter_succ_r.
      replace (shiftp m (Z.pos (Pos.succ k))) with (xO (shiftp m (Zpos k))); [exact IH|].
      apply Pos2Z.inj. rewrite Pos2Z.inj_xO, !shiftp_Z, Pos2Z.inj_succ, Z.pow_succ_r by lia. lia.
Qed.

Lemma fexp_int d : 1 <= d -> fexp prec64 emax64 d = d - 53.
Proof. unfold fexp, emin, prec64, emax64. lia. Qed.

(** The binary64 representation of a positive integer below 2^53. *)
Definition canon (s : bool) (p : positive) : num :=
  S754_finite s (shiftp p (53 - digits p)) (digits p - 53).

Section Exactness.
Variable p : positive.
Hypothesis Hp : digits p <= 53.

Lemma shr_fexp_exact k :
  53 - digits p <= k ->
  shr_fexp prec64 emax64 (Zpos (shiftp p k)) (- k) loc_Exact
  = (exact_rec (shiftp p (53 - digits p)), digits p - 53).
Proof.
  intros Hk. pose proof (digits_pos p) as Hd. unfold shr_fexp.
  replace (Zdigits2 (Zpos (shiftp p k)) + - k) with (digits p)
    by (cbn; fold (digits (shiftp p k)); rewrite digits_shiftp by lia; lia).
  rewrite fexp_int by lia. cbn [shr_record_of_loc].
  replace k with ((53 - digits p) + (digits p - 53 + k)) at 1 by lia.
  rewrite <- shiftp_shiftp by lia.
  change {| shr_m := Z.pos ?m; shr_r := false; shr_s := false |} with (exact_rec m).
  replace (digits p - 53 - - k) with (digits p - 53 + k) by lia.
  rewrite shr_exact by lia. f_equal. lia.
Qed.

Lemma round_aux_exact s k :
  53 - digits p <= k ->
  binary_round_aux prec64 emax64 s (Zpos (shiftp p k)) (- k) loc_Exact = canon s p.
Proof.
  intros Hk. pose proof (digits_pos p) as Hd. unfold binary_round_aux.
  rewrite shr_fexp_exact by lia. cbn [exact_rec shr_m loc_of_shr_record round_nearest_even].
  replace (digits p - 53) with (- (53 - digits p)) at 1 by lia.
  rewrite shr_fexp_exact by lia. cbn [exact_rec shr_m].
  replace (digits p - 53 <=? emax64 - prec64) with true; [done|].
  symmetry. apply Z.leb_le. unfold emax64, prec64. lia.
Qed.

Lemma round_exact s k :
  0 <= k -> binary_round prec64 emax64 s (shiftp p k) (- k) = canon s p.
Proof.
  intros Hk. pose proof (digits_pos p) as Hd. unfold binary_round.
  fold (digits (shiftp p k)). rewrite digits_shiftp by lia.
  replace (digits p + k + - k) with (digits p) by lia. rewrite fexp_int by lia.
  unfold shl_align.
  destruct (digits p - 53 - - k) as [|j|j] eqn:E.
  - apply round_aux_exact. lia.
  - apply round_aux_exact. lia.
  - rewrite iter_xO_shiftp, shiftp_shiftp by lia.
    replace (digits p - 53) with (- (53 - digits p)) by lia.
    replace (k + Z.pos j) with (53 - digits p) by lia.
    apply round_aux_exact. lia.
Qed.
End Exactness.

(** Integers represented exactly: the JavaScript safe integers. *)
Definition safe (z : Z) : Prop := Z.abs z < 2 ^ 53.

Lemma safe_digits p : safe (Zpos p) -> digits p <= 53.
Proof. unfold safe. intros H. apply digits_le; lia. Qed.

Lemma num_of_Z_pos p : safe (Zpos p) -> num_of_Z (Zpos p) = canon false p.
Proof.
  intros H. unfold num_of_Z, binary_normalize.
  rewrite <- (shiftp_0 p) at 1. apply (round_exact p (safe_digits p H) false 0). lia.
Qed.

Lemma num_of_Z_neg p : safe (Zneg p) -> num_of_Z (Zneg p) = canon true p.
Proof.
  intros H. unfold num_of_Z, binary_normalize.
  rewrite <- (shiftp_0 p) at 1. apply (round_exact p (safe_digits p H) true 0). lia.
Qed.

(** Scaling the integer and lowering the exponent does not change the value. *)
Lemma normalize_scaled z k :
  safe z -> 0 <= k -> binary_normalize prec64 emax64 (z * 2 ^ k) (- k) false = num_of_Z z.
Proof.
  intros Hz Hk. destruct z as [|p|p]; [done| |].
  - rewrite <- shiftp_Z by lia. cbn [binary_normalize].
    rewrite (round_exact p (safe_digits p Hz)) by lia. by rewrite num_of_Z_pos.
  - replace (Zneg p * 2 ^ k) with (Zneg (shiftp p k))
      by (rewrite <- !Pos2Z.opp_pos, shiftp_Z by lia; lia).
    cbn [binary_normalize].
    rewrite (round_exact p (safe_digits p Hz)) by lia. by rewrite num_of_Z_neg.
Qed.

Lemma num_of_Z_finite z : safe z -> is_finite (num_of_Z z) = true.
Proof.
  intros H. destruct z as [|p|p]; [done| |].
  - by rewrite num_of_Z_pos.
  - by rewrite num_of_Z_neg.
Qed.

(** A non-zero safe integer, aligned to a lower exponent. *)
Lemma shl_align_canon p ez :
  digits p <= 53 -> ez <= digits p - 53 ->
  Zpos (fst (shl_align (shiftp p (53 - digits p)) (digits p - 53) ez))
  = Zpos p * 2 ^ (- ez).
Proof.
  intros Hp Hez. unfold shl_align.
  destruct (ez - (digits p - 53)) as [|j|j] eqn:E; cbn [fst].
  - rewrite shiftp_Z by lia. f_equal. f_equal. lia.
  - lia.
  - rewrite iter_xO_shiftp, shiftp_shiftp, shiftp_Z by lia. f_equal. f_equal. lia.
Qed.

(** Sign and magnitude of the representation of a non-zero safe integer. *)
Lemma num_of_Z_canon z :
  safe z -> z <> 0 ->
  exists s p, num_of_Z z = canon s p /\ digits p <= 53 /\ z = cond_Zopp s (Zpos p).
Proof.
  intros Hz Hnz. destruct z as [|p|p]; [done| |].
  - exists false, p. rewrite num_of_Z_pos by done. auto using safe_digits.
  - exists true, p. rewrite num_of_Z_neg by done. auto using safe_digits.
Qed.

Theorem nadd_exact a b :
  safe a -> safe b -> safe (a + b) -> nadd (num_of_Z a) (num_of_Z b) = num_of_Z (a + b).
Proof.
  intros Ha Hb Hab.
  destruct (Z.eq_dec a 0) as [->|Ha0].
  { rewrite Z.add_0_l.
    destruct b as [|q|q]; [done| |]; [rewrite num_of_Z_pos by done|rewrite num_of_Z_neg by done]; done. }
  destruct (Z.eq_dec b 0) as [->|Hb0].
  { rewrite Z.add_0_r. destruct a as [|q|q]; [done| |];
      [rewrite num_of_Z_pos by done|rewrite num_of_Z_neg by done]; done. }
  destruct (num_of_Z_canon a Ha Ha0) as (s & p & -> & Hp & Ea).
  destruct (num_of_Z_canon b Hb Hb0) as (t & q & -> & Hq & Eb).
  unfold nadd, canon. cbn [SFadd]. cbv zeta.
  set (ez := Z.min (digits p - 53) (digits q - 53)).
  rewrite !shl_align_canon by lia.
  rewrite <- (normalize_scaled (a + b) (- ez)) by (done || lia).
  rewrite Z.opp_involutive. f_equal. rewrite Ea, Eb. destruct s, t; cbn [cond_Zopp]; lia.
Qed.

Theorem nsub_exact a b :
  safe a -> safe b -> safe (a - b) -> nsub (num_of_Z a) (num_of_Z b) = num_of_Z (a - b).
Proof.
  intros Ha Hb Hab.
  destruct (Z.eq_dec a 0) as [->|Ha0].
  { destruct b as [|q|q]; [done| |].
    - change (0 - Zpos q) with (Zneg q). by rewrite num_of_Z_pos, num_of_Z_neg by done.
    - change (0 - Zneg q) with (Zpos q). by rewrite num_of_Z_pos, num_of_Z_neg by done. }
  destruct (Z.eq_dec b 0) as [->|Hb0].
  { rewrite Z.sub_0_r. destruct a as [|q|q]; [done| |];
      [rewrite num_of_Z_pos by done|rewrite num_of_Z_neg by done]; done. }
  destruct (num_of_Z_canon a Ha Ha0) as (s & p & -> & Hp & Ea).
  destruct (num_of_Z_canon b Hb Hb0) as (t & q & -> & Hq & Eb).
  unfold nsub, canon. cbn [SFsub]. cbv zeta.
  set (ez := Z.min (digits p - 53) (digits q - 53)).
  rewrite !shl_align_canon by lia.
  rewrite <- (normalize_scaled (a - b) (- ez)) by (done || lia).
  rewrite Z.opp_involutive. f_equal. rewrite Ea, Eb. destruct s, t; cbn [cond_Zopp]; lia.
Qed.

Theorem nmul_exact a b :
  safe a -> safe b -> safe (a * b) -> 0 <= a -> 0 <= b ->
  nmul (num_of_Z a) (num_of_Z b) = num_of_Z (a * b).
Proof.
  intros Ha Hb Hab Ha0 Hb0.
  destruct a as [|p|p]; [|clear Ha0|lia].
  { destruct b as [|q|q]; [done| |lia]. by rewrite num_of_Z_pos. }
  destruct b as [|q|q]; [|clear Hb0|lia].
  { rewrite Z.mul_0_r, num_of_Z_pos by done. done. }
  rewrite !num_of_Z_pos by done. unfold nmul, canon. cbn [SFmul xorb].
  pose proof (safe_digits p Ha) as Hp. pose proof (safe_digits q Hb) as Hq.
  rewrite <- Pos2Z.inj_mul in Hab. pose proof (safe_digits _ Hab) as Hpq.
  rewrite <- Pos2Z.inj_mul, num_of_Z_pos by done.
  replace (Z.pos (shiftp p (53 - digits p) * shiftp q (53 - digits q)))
    with (Zpos (shiftp (p * q) ((53 - digits p) + (53 - digits q)))).
  2: { rewrite Pos2Z.inj_mul, !shiftp_Z, Z.pow_add_r, Pos2Z.inj_mul by lia. lia. }
  replace (digits p - 53 + (digits q - 53)) with (- ((53 - digits p) + (53 - digits q))) by lia.
  apply round_aux_exact; [done|].
  assert (digits p <= digits (p * q)) by (apply digits_mono; nia). lia.
Qed.

Lemma compare_canon p q :
  digits p <= 53 -> digits q <= 53 ->
  match digits p - 53 ?= digits q - 53 with
  | Lt => Lt | Gt => Gt
  | Eq => Pos.compare_cont Eq (shiftp p (53 - digits p)) (shiftp q (53 - digits q))
  end = (Zpos p ?= Zpos q).
Proof.
  intros Hp Hq. pose proof (digits_bounds p) as Bp. pose proof (digits_bounds q) as Bq.
  pose proof (digits_pos p). pose proof (digits_pos q).
  destruct (Z.compare_spec (digits p - 53) (digits q - 53)) as [E|E|E].
  - assert (digits p = digits q) as Ed by lia. rewrite Ed.
    change (Pos.compare_cont Eq ?x ?y) with (Zpos x ?= Zpos y).
    rewrite !shiftp_Z by lia. symmetry. apply Zmult_compare_compat_r.
    pose proof (Z.pow_pos_nonneg 2 (53 - digits q)). lia.
  - symmetry. apply Z.compare_lt_iff.
    assert (2 ^ digits p <= 2 ^ (digits q - 1)) by (apply Z.pow_le_mono_r; lia). lia.
  - symmetry. apply Z.compare_gt_iff.
    assert (2 ^ digits q <= 2 ^ (digits p - 1)) by (apply Z.pow_le_mono_r; lia). lia.
Qed.

Theorem ncompare_exact a b :
  safe a -> safe b -> SFcompare (num_of_Z a) (num_of_Z b) = Some (a ?= b).
Proof.
  intros Ha Hb.
  destruct a as [|p|p], b as [|q|q];
    rewrite ?num_of_Z_pos, ?num_of_Z_neg by done; try done;
    unfold canon; cbn [SFcompare]; f_equal.
  - apply compare_canon; by apply safe_digits.
  - change (Zneg p ?= Zneg q) with (CompOpp (Zpos p ?= Zpos q)).
    rewrite <- (compare_canon p q) by (by apply safe_digits).
    destruct (digits p - 53 ?= digits q - 53); done.
Qed.

Lemma nltb_exact a b : safe a -> safe b -> nltb (num_of_Z a) (num_of_Z b) = (a <? b).
Proof.
  intros Ha Hb. unfold nltb, SFltb, Z.ltb. rewrite ncompare_exact by done.
  by destruct (a ?= b).
Qed.

Lemma nleb_exact a b : safe a -> safe b -> nleb (num_of_Z a) (num_of_Z b) = (a <=? b).
Proof.
  intros Ha Hb. unfold nleb, SFleb, Z.leb. rewrite ncompare_exact by done.
  by destruct (a ?= b).
Qed.

Lemma ngtb_exact a b : safe a -> safe b -> ngtb (num_of_Z a) (num_of_Z b) = (b <? a).
Proof. intros. unfold ngtb. by apply nltb_exact. Qed.

Lemma ngeb_exact a b : safe a -> safe b -> ngeb (num_of_Z a) (num_of_Z b) = (b <=? a).
Proof. intros. unfold ngeb. by apply nleb_exact. Qed.

Lemma floor_canon p : digits p <= 53 -> floor_Z (canon false p) = Some (Zpos p).
Proof.
  intros Hp. unfold canon, floor_Z. pose proof (digits_pos p) as Hd.
  f_equal. destruct (digits p - 53) as [|k|k] eqn:E; [|lia|].
  - replace (53 - digits p) with 0 by lia. rewrite shiftp_0. lia.
  - rewrite shiftp_Z by lia. replace (53 - digits p) with (Zpos k) by lia.
    by rewrite Z.div_mul by (apply Z.pow_nonzero; lia).
Qed.

Lemma floor_num_of_Z z : safe z -> 0 <= z -> floor_Z (num_of_Z z) = Some z.
Proof.
  intros Hz Hpos. destruct (Z.eq_dec z 0) as [->|Hnz]; [done|].
  destruct (num_of_Z_canon z Hz Hnz) as (s & p & -> & Hp & ->).
  destruct s; cbn in Hpos |- *; [lia|]. by apply floor_canon.
Qed.

(** * Exact sums *)

Lemma nsum_acc_exact l a :
  0 <= a -> (forall z, In z l -> 0 <= z) -> safe (a + zsum id l) ->
  fold_left nadd (map num_of_Z l) (num_of_Z a) = num_of_Z (a + zsum id l).
Proof.
  revert a. induction l as [|z l IH]; intros a Ha Hl Hs; cbn.
  - by rewrite Z.add_0_r.
  - assert (Hz : 0 <= z) by (apply Hl; by left).
    assert (Hn : 0 <= zsum id l) by (apply zsum_nonneg; intros y Hy; apply Hl; by right).
    change (zsum id (z :: l)) with (z + zsum id l) in Hs. unfold safe in *.
    rewrite nadd_exact by (unfold safe; lia). rewrite IH; [|lia| |].
    + f_equal. unfold zsum. cbn. unfold id. lia.
    + intros y Hy. apply Hl. by right.
    + unfold safe. lia.
Qed.

Lemma nsum_exact l :
  (forall z, In z l -> 0 <= z) -> safe (zsum id l) ->
  nsum (map num_of_Z l) = num_of_Z (zsum id l).
Proof. intros Hl Hs. unfold nsum. by rewrite nsum_acc_exact. Qed.
