(* ===== verification/JsValue.v ===== *)
(** JavaScript values and control flow shared by the components: strings over
    the ASCII range, the numeric string grammar of [Number(s)], JSON values
    with [isDeepStrictEqual], thrown errors, and the monads in which stateful
    and fallible code is written. *)

From Stdlib Require Import ZArith Lia.
From Stdlib Require Import Strings.String Strings.Ascii.
From Stdlib Require Import Floats.SpecFloat.
From stdpp Require Import base list strings pretty.
From S2P Require Import Prelude JsNumber.

Open Scope string_scope.
Open Scope Z_scope.

(** * Strings *)

Definition lower_char (c : ascii) : ascii :=
  let n := nat_of_ascii c in
  if (65 <=? n)%nat && (n <=? 90)%nat then ascii_of_nat (n + 32) else c.
Definition upper_char (c : ascii) : ascii :=
  let n := nat_of_ascii c in
  if (97 <=? n)%nat && (n <=? 122)%nat then ascii_of_nat (n - 32) else c.

Fixpoint map_chars (f : ascii -> ascii) (s : string) : string :=
  match s with
  | EmptyString => EmptyString
  | String c s => String (f c) (map_chars f s)
  end.

(** [toLowerCase] and [toUpperCase], on ASCII text. *)
Definition to_lower (s : string) : string := map_chars lower_char s.
Definition to_upper (s : string) : string := map_chars upper_char s.

Definition is_space (c : ascii) : bool :=
  let n := nat_of_ascii c in ((9 <=? n)%nat && (n <=? 13)%nat) || (n =? 32)%nat.

Fixpoint trim_start (s : string) : string :=
  match s with
  | String c s' => if is_space c then trim_start s' else s
  | EmptyString => EmptyString
  end.
Definition rev_string (s : string) : string :=
  string_of_list_ascii (rev (list_ascii_of_string s)).
(** [trim] *)
Definition trim (s : string) : string :=
  rev_string (trim_start (rev_string (trim_start s))).

(** [includes] on an array of strings. *)
Definition member (s : string) (l : list string) : bool := existsb (String.eqb s) l.

(** [includes] on a string. *)
Fixpoint contains (needle s : string) : bool :=
  String.prefix needle s ||
  match s with
  | EmptyString => false
  | String _ s => contains needle s
  end.

Definition z_str (z : Z) : string := pretty z.

Lemma lower_char_idem c : lower_char (lower_char c) = lower_char c.
Proof. destruct c as [[] [] [] [] [] [] [] []]; vm_compute; reflexivity. Qed.

Lemma upper_char_idem c : upper_char (upper_char c) = upper_char c.
Proof. destruct c as [[] [] [] [] [] [] [] []]; vm_compute; reflexivity. Qed.

Lemma map_chars_idem f s :
  (forall c, f (f c) = f c) -> map_chars f (map_chars f s) = map_chars f s.
Proof. intros Hf. induction s as [|c s IH]; cbn; [done|]. by rewrite Hf, IH. Qed.

Lemma to_lower_idem s : to_lower (to_lower s) = to_lower s.
Proof. apply map_chars_idem, lower_char_idem. Qed.

Lemma to_upper_idem s : to_upper (to_upper s) = to_upper s.
Proof. apply map_chars_idem, upper_char_idem. Qed.

Lemma lower_char_space c : is_space (lower_char c) = is_space c.
Proof. destruct c as [[] [] [] [] [] [] [] []]; vm_compute; reflexivity. Qed.

Lemma member_In s l : member s l = true <-> In s l.
Proof.
  unfold member. rewrite existsb_exists. split.
  - intros (x & Hx & E). apply String.eqb_eq in E. by subst.
  - intros H. exists s. split; [done|]. apply String.eqb_refl.
Qed.

Lemma rev_string_involutive s : rev_string (rev_string s) = s.
Proof.
  unfold rev_string. rewrite list_ascii_of_string_of_list_ascii, rev_involutive.
  apply string_of_list_ascii_of_string.
Qed.

Lemma trim_start_idem s : trim_start (trim_start s) = trim_start s.
Proof.
  induction s as [|c s IH]; cbn; [done|].
  destruct (is_space c) eqn:E; [done|]. cbn. by rewrite E.
Qed.

(** The first character of a string, if any, is not white space. *)
Definition no_lead_space (s : string) : Prop :=
  match s with EmptyString => True | String c _ => is_space c = false end.

Lemma trim_start_lead s : no_lead_space (trim_start s).
Proof.
  induction s as [|c s IH]; cbn; [done|]. destruct (is_space c) eqn:E; done.
Qed.

Lemma trim_start_id s : no_lead_space s -> trim_start s = s.
Proof. destruct s as [|c s]; cbn; [done|]. by intros ->. Qed.

(** Trimming the end keeps the first character or empties the string. *)
Lemma trim_start_rev_suffix s :
  exists l, list_ascii_of_string s = (l ++ list_ascii_of_string (trim_start s))%list.
Proof.
  induction s as [|c s [l IH]]; cbn.
  - by exists nil.
  - destruct (is_space c).
    + exists (c :: l). cbn. by rewrite <- IH.
    + by exists nil.
Qed.

Lemma no_lead_space_end s :
  no_lead_space s -> no_lead_space (rev_string (trim_start (rev_string s))).
Proof.
  intros Hs. destruct (trim_start_rev_suffix (rev_string s)) as [l Hl].
  assert (E : list_ascii_of_string s =
    (list_ascii_of_string (rev_string (trim_start (rev_string s))) ++ rev l)%list).
  { unfold rev_string in *. rewrite !list_ascii_of_string_of_list_ascii in *.
    rewrite <- rev_app_distr, <- Hl. by rewrite rev_involutive. }
  destruct (rev_string (trim_start (rev_string s))) as [|c r]; [done|].
  destruct s as [|c' s]; cbn in E; [done|]. by injection E as <- _.
Qed.

Lemma trim_idem s : trim (trim s) = trim s.
Proof.
  unfold trim. set (t := trim_start s).
  assert (Ht : no_lead_space t) by apply trim_start_lead.
  rewrite (trim_start_id (rev_string (trim_start (rev_string t))))
    by by apply no_lead_space_end.
  by rewrite rev_string_involutive, trim_start_idem.
Qed.

Lemma map_chars_list f s : list_ascii_of_string (map_chars f s) = map f (list_ascii_of_string s).
Proof. induction s as [|c s IH]; cbn; [done|]. by rewrite IH. Qed.

Lemma map_chars_of_list f l : map_chars f (string_of_list_ascii l) = string_of_list_ascii (map f l).
Proof. induction l as [|c l IH]; cbn; [done|]. by rewrite IH. Qed.

Lemma rev_string_lower s : rev_string (to_lower s) = to_lower (rev_string s).
Proof. unfold rev_string, to_lower. by rewrite map_chars_list, map_chars_of_list, map_rev. Qed.

Lemma trim_start_lower s : trim_start (to_lower s) = to_lower (trim_start s).
Proof.
  unfold to_lower. induction s as [|c s IH]; cbn; [done|].
  rewrite lower_char_space. by destruct (is_space c).
Qed.

(** Trimming and lower-casing commute. *)
Lemma trim_lower s : trim (to_lower s) = to_lower (trim s).
Proof. unfold trim. by rewrite trim_start_lower, rev_string_lower, trim_start_lower, rev_string_lower. Qed.

Lemma lower_trim_fix s : to_lower (trim (to_lower (trim s))) = to_lower (trim s).
Proof. by rewrite trim_lower, trim_idem, to_lower_idem. Qed.

(** * [Number(s)] *)

Definition is_digit (c : ascii) : bool :=
  let n := nat_of_ascii c in (48 <=? n)%nat && (n <=? 57)%nat.
Definition digit_value (c : ascii) : Z := Z.of_nat (nat_of_ascii c) - 48.

(** Longest digit prefix: its value, its length and the rest. *)
Fixpoint digit_run (acc len : Z) (s : string) : Z * Z * string :=
  match s with
  | String c s' =>
      if is_digit c then digit_run (acc * 10 + digit_value c) (len + 1) s'
      else (acc, len, s)
  | EmptyString => (acc, len, s)
  end.

Definition split_sign (s : string) : bool * string :=
  match s with
  | String "-" s' => (true, s')
  | String "+" s' => (false, s')
  | _ => (false, s)
  end.

(** [m] * 10^[e], correctly rounded. *)
Definition num_scaled (m e : Z) : num :=
  if e <? 0 then ndiv (raw_of_Z m) (raw_of_Z (10 ^ (- e))) else num_of_Z (m * 10 ^ e).

Definition parse_exponent (s : string) : option Z :=
  match s with
  | EmptyString => Some 0
  | String c s' =>
      if Ascii.eqb c "e" || Ascii.eqb c "E" then
        let '(neg, s') := split_sign s' in
        let '(v, len, rest) := digit_run 0 0 s' in
        if (0 <? len) && String.eqb rest "" then Some (if neg then - v else v) else None
      else None
  end.

Definition parse_unsigned (s : string) : num :=
  if String.eqb s "Infinity" then S754_infinity false else
  let '(ip, ilen, rest) := digit_run 0 0 s in
  let '(m, flen, rest) :=
    match rest with
    | String "." rest' =>
        let '(m, flen, rest'') := digit_run ip 0 rest' in (m, flen, rest'')
    | _ => (ip, 0, rest)
    end in
  if ilen + flen =? 0 then S754_nan else
  match parse_exponent rest with
  | Some e => num_scaled m (e - flen)
  | None => S754_nan
  end.

(** [Number(s)] on decimal literals; the hexadecimal, octal and binary
    prefixes of the grammar are not interpreted and give NaN here. *)
Definition number_of_string (s : string) : num :=
  let t := trim s in
  if String.eqb t "" then num_of_Z 0 else
  let '(neg, u) := split_sign t in
  let v := parse_unsigned u in
  if neg then nneg v else v.

Example number_12_5 : number_of_string " 12.50 " = num_dec 125 1.
Proof. vm_compute. reflexivity. Qed.
Example number_exp : number_of_string "-2.5e3" = num_of_Z (-2500).
Proof. vm_compute. reflexivity. Qed.
Example number_bad : number_of_string "12a" = S754_nan /\ number_of_string "." = S754_nan.
Proof. split; vm_compute; reflexivity. Qed.

(** * JSON *)

Inductive json :=
| JNull
| JBool (b : bool)
| JNum (n : num)
| JStr (s : string)
| JArr (items : list json)
| JObj (fields : list (string * json)).

Definition jint (z : Z) : json := JNum (num_of_Z z).
Definition jopt {A} (f : A -> json) (o : option A) : json :=
  match o with Some x => f x | None => JNull end.
Definition jstrs (l : list string) : json := JArr (map JStr l).

(** Property access on a value that is an object and not an array. *)
Definition jfield (k : string) (v : json) : option json :=
  match v with
  | JObj fs => option_map snd (List.find (fun kv => String.eqb (fst kv) k) fs)
  | _ => None
  end.

(** [Object.is] on numbers. *)
Definition num_same (x y : num) : bool := bool_decide (x = y).

(** [isDeepStrictEqual] on JSON values: objects are compared up to key order. *)
Fixpoint deep_equal (x y : json) {struct x} : bool :=
  match x, y with
  | JNull, JNull => true
  | JBool a, JBool b => Bool.eqb a b
  | JNum a, JNum b => num_same a b
  | JStr a, JStr b => String.eqb a b
  | JArr l, JArr r =>
      (fix go l r := match l, r with
                     | nil, nil => true
                     | a :: l, b :: r => deep_equal a b && go l r
                     | _, _ => false
                     end) l r
  | JObj fs, JObj gs =>
      Nat.eqb (List.length fs) (List.length gs) &&
      (fix go fs := match fs with
                    | nil => true
                    | (k, a) :: fs =>
                        match List.find (fun kv => String.eqb (fst kv) k) gs with
                        | Some (_, b) => deep_equal a b && go fs
                        | None => false
                        end
                    end) fs
  | _, _ => false
  end.

(** * [String(value)] *)

Definition abs_fraction (m : positive) (e : Z) : Z * Z :=
  if e <? 0 then (Zpos m, 2 ^ (- e)) else (Zpos m * 2 ^ e, 1).

(** The [n] with 10^(n-1) <= a/b < 10^n, searched upward from [n]. *)
Fixpoint decimal_exponent (fuel : nat) (n a b : Z) : Z :=
  match fuel with
  | O => n
  | S fuel =>
      if (if n <? 0 then a * 10 ^ (- n) <? b else a <? b * 10 ^ n) then n
      else decimal_exponent fuel (n + 1) a b
  end.

(** The shortest digit string that rounds back to [x]: its digits [s] and
    their number [k], for the first [k] (at most 17 are ever needed). *)
Fixpoint shortest (fuel : nat) (k n a b : Z) (x : num) : Z * Z :=
  let p := k - n in
  let a' := if p <? 0 then a else a * 10 ^ p in
  let b' := if p <? 0 then b * 10 ^ (- p) else b in
  let s := (2 * a' + b') / (2 * b') in
  match fuel with
  | O => (s, k)
  | S fuel =>
      if bool_decide (num_scaled s (n - k) = x) then (s, k)
      else shortest fuel (k + 1) n a b x
  end.

Fixpoint zeros (n : nat) : string :=
  match n with O => "" | S n => "0" ++ zeros n end.

Definition format_decimal (s k n : Z) : string :=
  let ds := z_str s in
  if (k <=? n) && (n <=? 21) then ds ++ zeros (Z.to_nat (n - k))
  else if (0 <? n) && (n <=? 21) then
    String.substring 0 (Z.to_nat n) ds ++ "." ++
    String.substring (Z.to_nat n) (Z.to_nat (k - n)) ds
  else if (-6 <? n) && (n <=? 0) then "0." ++ zeros (Z.to_nat (- n)) ++ ds
  else
    let ex := (if n - 1 <? 0 then "e-" else "e+") ++ z_str (Z.abs (n - 1)) in
    if k =? 1 then ds ++ ex
    else String.substring 0 1 ds ++ "." ++
         String.substring 1 (Z.to_nat (k - 1)) ds ++ ex.

(** Number::toString, radix 10. *)
Definition num_to_string (x : num) : string :=
  match x with
  | S754_nan => "NaN"
  | S754_zero _ => "0"
  | S754_infinity s => if s then "-Infinity" else "Infinity"
  | S754_finite sg m e =>
      let x' := S754_finite false m e in
      let '(a, b) := abs_fraction m e in
      let n := decimal_exponent 650 (-330) a b in
      let '(s, k) := shortest 16 1 n a b x' in
      (if sg then "-" else "") ++ format_decimal s k n
  end.

Example str_05 : num_to_string (num_dec 5 1) = "0.5".
Proof. vm_compute. reflexivity. Qed.
Example str_390 : num_to_string (num_of_Z 390) = "390".
Proof. vm_compute. reflexivity. Qed.
Example str_neg : num_to_string (num_dec (-1234567) 4) = "-123.4567".
Proof. vm_compute. reflexivity. Qed.
Example str_big : num_to_string (num_scaled 15 22) = "1.5e+23".
Proof. vm_compute. reflexivity. Qed.

(** [String(value)] on a JSON value; arrays join with commas. *)
Fixpoint js_to_string (v : json) : string :=
  match v with
  | JNull => "null"
  | JBool b => if b then "true" else "false"
  | JNum n => num_to_string n
  | JStr s => s
  | JArr l =>
      (fix go l := match l with
                   | nil => ""
                   | JNull :: nil => ""
                   | v :: nil => js_to_string v
                   | JNull :: l => "," ++ go l
                   | v :: l => js_to_string v ++ "," ++ go l
                   end) l
  | JObj _ => "[object Object]"
  end.

(** * Errors and effects *)

(** What the modelled code throws: [HttpError] with its status, [Error],
    [RangeError], the classified broker write failure, the block of an exit
    before its submission, or the broker's error answer. *)
Inductive js_error :=
| HttpError (statusCode : Z) (message : string) (details : json)
| PlainError (message : string)
| RangeError (message : string)
| DeliveryError (classification : string) (message : string) (statusCode : option Z)
| PreSubmissionError (statusCode : Z) (message : string) (details : json) (classification : string)
| AlpacaApiError (statusCode : Z) (responseBody : string)
(** The broker-time guard refused a dispatch; the dispatch record of this intent
    already committed. *)
| MarketPolicyBrokerDispatchRefusedError (outcome reasonCode : string) (decisionId : option Z)
    (diagnostic : option string)
| EntryDispatchRecordedNotSentError (record : string) (recordId : Z)
(** An error of a library with a [code], as the database client's are. *)
| CodedError (code name message : string)
(** Any other error, of the given [name]. *)
| NamedError (name : string) (message : string).

(** [error.name] *)
Definition error_name (e : js_error) : string :=
  match e with
  | HttpError _ _ _ => "HttpError"
  | PlainError _ => "Error"
  | RangeError _ => "RangeError"
  | DeliveryError _ _ _ => "BrokerWriteDeliveryError"
  | PreSubmissionError _ _ _ _ => "VerifiedExitPreSubmissionError"
  | AlpacaApiError _ _ => "AlpacaApiError"
  | MarketPolicyBrokerDispatchRefusedError _ _ _ _ => "MarketPolicyBrokerDispatchRefusedError"
  | EntryDispatchRecordedNotSentError _ _ => "EntryDispatchRecordedNotSentError"
  | CodedError _ name _ => name
  | NamedError name _ => name
  end.

(** [error.message] *)
Definition error_message (e : js_error) : string :=
  match e with
  | HttpError _ m _ | PlainError m | RangeError m | DeliveryError _ m _ | PreSubmissionError _ m _ _
  | CodedError _ _ m | NamedError _ m => m
  | AlpacaApiError status body => "Alpaca request failed (" ++ z_str status ++ "): " ++ body
  | MarketPolicyBrokerDispatchRefusedError outcome reasonCode _ diagnostic =>
      "Broker-time market policy refused the entry dispatch (" ++ outcome ++ ": " ++ reasonCode ++ ")" ++
      match diagnostic with
      | Some d => if String.eqb d "" then "" else ": " ++ d
      | None => ""
      end ++ "."
  | EntryDispatchRecordedNotSentError record _ =>
      "A " ++ record ++ " for this entry already committed; no further POST is permitted and this attempt did not invoke the adapter."
  end.

Inductive res (A : Type) :=
| Ok (x : A)
| Throw (e : js_error).
Arguments Ok {A} x.
Arguments Throw {A} e.

#[export] Instance res_ret : MRet res := fun A x => Ok x.
#[export] Instance res_bind : MBind res := fun A B f m =>
  match m with Ok x => f x | Throw e => Throw e end.

(** Stateful code that may throw; the state reached is kept when it throws. *)
Definition eff (S A : Type) : Type := S -> res A * S.

#[export] Instance eff_ret {S} : MRet (eff S) := fun A x s => (Ok x, s).
#[export] Instance eff_bind {S} : MBind (eff S) := fun A B f m s =>
  match m s with
  | (Ok x, s') => f x s'
  | (Throw e, s') => (Throw e, s')
  end.

Definition throw {S A} (e : js_error) : eff S A := fun s => (Throw e, s).
Definition get {S} : eff S S := fun s => (Ok s, s).
Definition modify {S} (f : S -> S) : eff S unit := fun s => (Ok tt, f s).
Definition asks {S A} (f : S -> A) : eff S A := fun s => (Ok (f s), s).

(** [try { m } catch (e) { h e }]: what [m] wrote before it threw stays. *)
Definition try_catch {S A} (m : eff S A) (h : js_error -> eff S A) : eff S A := fun s =>
  match m s with
  | (Ok x, s') => (Ok x, s')
  | (Throw e, s') => h e s'
  end.

(** A call whose answer depends on the state and that changes nothing here. *)
Definition lift {S A} (f : S -> res A) : eff S A := fun s => (f s, s).

(** [prisma.$transaction]: a throw rolls the state back. *)
Definition transaction {S A} (m : eff S A) : eff S A := fun s =>
  match m s with
  | (Ok x, s') => (Ok x, s')
  | (Throw e, _) => (Throw e, s)
  end.

Lemma eff_bind_ok {S A B} (m : eff S A) (f : A -> eff S B) s s' y :
  (m ≫= f) s = (Ok y, s') ->
  exists x s1, m s = (Ok x, s1) /\ f x s1 = (Ok y, s').
Proof.
  unfold mbind, eff_bind. destruct (m s) as [[x|e] s1] eqn:E; [|done].
  intros H. exists x, s1. done.
Qed.

Lemma transaction_throw {S A} (m : eff S A) s e s' :
  transaction m s = (Throw e, s') -> s' = s.
Proof. unfold transaction. destruct (m s) as [[x|e'] s1]; congruence. Qed.

Lemma transaction_ok {S A} (m : eff S A) s x s' :
  transaction m s = (Ok x, s') -> m s = (Ok x, s').
Proof. unfold transaction. destruct (m s) as [[y|e'] s1]; congruence. Qed.

(** * What a program does to the state

    [moves R m]: whatever [m] returns or throws, the state it reaches is
    related to the one it started in. With [R] a preorder, programs built from
    moving statements move; an invariant [I] is the preorder [keeps I]. *)

Definition moves {S A} (R : S -> S -> Prop) (m : eff S A) : Prop := forall s, R s (snd (m s)).

Definition keeps {S} (I : S -> Prop) : S -> S -> Prop := fun s s' => I s -> I s'.

#[export] Instance keeps_preorder {S} (I : S -> Prop) : PreOrder (keeps I).
Proof. split; [intros s H; exact H|intros s t u H1 H2 Hs; exact (H2 (H1 Hs))]. Qed.

Section Moves.
Context {S : Type} (R : S -> S -> Prop) `{!PreOrder R}.

Lemma moves_ret {A} (x : A) : moves R (mret x).
Proof. intros s. cbn. reflexivity. Qed.

Lemma moves_throw {A} e : moves R (throw (A := A) e).
Proof. intros s. cbn. reflexivity. Qed.

Lemma moves_get : moves R get.
Proof. intros s. cbn. reflexivity. Qed.

Lemma moves_asks {A} (f : S -> A) : moves R (asks f).
Proof. intros s. cbn. reflexivity. Qed.

Lemma moves_modify f : (forall s, R s (f s)) -> moves R (modify f).
Proof. intros H s. apply H. Qed.

Lemma moves_bind {A B} (m : eff S A) (f : A -> eff S B) :
  moves R m -> (forall x, moves R (f x)) -> moves R (m ≫= f).
Proof.
  intros Hm Hf s. unfold mbind, eff_bind. specialize (Hm s).
  destruct (m s) as [[x|e] s']; cbn in *; [|done]. transitivity s'; [done|apply Hf].
Qed.

Lemma moves_transaction {A} (m : eff S A) : moves R m -> moves R (transaction m).
Proof.
  intros Hm s. unfold transaction. specialize (Hm s).
  destruct (m s) as [[x|e] s']; cbn in *; [done|reflexivity].
Qed.

Lemma moves_try_catch {A} (m : eff S A) h :
  moves R m -> (forall e, moves R (h e)) -> moves R (try_catch m h).
Proof.
  intros Hm Hh s. unfold try_catch. specialize (Hm s).
  destruct (m s) as [[x|e] s']; cbn in *; [done|]. transitivity s'; [done|apply Hh].
Qed.

Lemma moves_lift {A} (f : S -> res A) : moves R (lift f).
Proof. intros s. cbn. reflexivity. Qed.
End Moves.

Create HintDb moves.
#[export] Hint Resolve moves_ret moves_throw moves_get moves_asks moves_transaction moves_lift : moves.

(** Walk through a program, statement by statement and branch by branch. *)
Ltac moves_step :=
  match goal with
  | |- moves _ (mbind _ _) => apply moves_bind; [typeclasses eauto| |intros ?]
  | |- moves _ (try_catch _ _) => apply moves_try_catch; [typeclasses eauto| |intros ?]
  | |- moves _ (transaction _) => apply moves_transaction; [typeclasses eauto|]
  | |- moves _ (match ?x with _ => _ end) => destruct x
  | |- moves _ (let '(_, _) := ?x in _) => destruct x
  | |- moves _ _ => solve [eauto with moves typeclass_instances]
  end.
Ltac solve_moves := repeat (cbv zeta; moves_step).

(** ** What a program ends with

    [wp m Q s]: run in [s], [m] ends with an answer and a state that satisfy
    [Q]. *)

Definition wp {S A} (m : eff S A) (Q : res A -> S -> Prop) (s : S) : Prop := Q (fst (m s)) (snd (m s)).

Definition failed {A} (r : res A) : Prop := exists e, r = Throw e.

Section Wp.
Context {S : Type}.

Lemma wp_mono {A} (m : eff S A) (Q Q' : res A -> S -> Prop) s :
  wp m Q s -> (forall r s', Q r s' -> Q' r s') -> wp m Q' s.
Proof. intros H HQ. by apply HQ. Qed.

Lemma wp_bind {A B} (m : eff S A) (f : A -> eff S B) (Q : res B -> S -> Prop) s :
  wp m (fun r s' => match r with Ok x => wp (f x) Q s' | Throw e => Q (Throw e) s' end) s ->
  wp (m ≫= f) Q s.
Proof. unfold wp, mbind, eff_bind. by destruct (m s) as [[x|e] s']. Qed.

Lemma wp_try_catch {A} (m : eff S A) h (Q : res A -> S -> Prop) s :
  wp m (fun r s' => match r with Ok x => Q (Ok x) s' | Throw e => wp (h e) Q s' end) s ->
  wp (try_catch m h) Q s.
Proof. unfold wp, try_catch. by destruct (m s) as [[x|e] s']. Qed.

Lemma wp_moves {A} (R : S -> S -> Prop) (m : eff S A) (Q : res A -> S -> Prop) s :
  moves R m -> (forall r s', R s s' -> Q r s') -> wp m Q s.
Proof. intros Hm HQ. apply HQ, Hm. Qed.

Lemma wp_modify f (Q : res unit -> S -> Prop) s : Q (Ok tt) (f s) -> wp (modify f) Q s.
Proof. done. Qed.

Lemma wp_lift {A} (f : S -> res A) (Q : res A -> S -> Prop) s : Q (f s) s -> wp (lift f) Q s.
Proof. done. Qed.

Lemma wp_holds {A} (m : eff S A) (Q : res A -> S -> Prop) s r s' : m s = (r, s') -> wp m Q s -> Q r s'.
Proof. unfold wp. by intros ->. Qed.
End Wp.

(** ** Programs that never throw *)

Definition total {S A} (m : eff S A) : Prop := forall s, exists x s', m s = (Ok x, s').

Section Total.
Context {S : Type}.

Lemma total_ret {A} (x : A) : total (S := S) (mret x).
Proof. intros s. by exists x, s. Qed.

Lemma total_bind {A B} (m : eff S A) (f : A -> eff S B) : total m -> (forall x, total (f x)) -> total (m ≫= f).
Proof.
  intros Hm Hf s. destruct (Hm s) as (x & s' & E). unfold mbind, eff_bind. rewrite E. apply Hf.
Qed.

Lemma total_try_catch {A} (m : eff S A) h : (forall e, total (h e)) -> total (try_catch m h).
Proof. intros Hh s. unfold try_catch. destruct (m s) as [[x|e] s']; [by exists x, s'|apply Hh]. Qed.
End Total.

Create HintDb total discriminated.
#[export] Hint Constants Opaque : total.
#[export] Hint Resolve total_ret : total.

Ltac total_step :=
  match goal with
  | |- total (mbind _ _) => apply total_bind; [|intros ?]
  | |- total (try_catch _ _) => apply total_try_catch; intros ?
  | |- total (match ?x with _ => _ end) => destruct x
  | |- total (let '(_, _) := ?x in _) => destruct x
  | |- total _ => solve [eauto with total]
  end.
Ltac solve_total := repeat (cbv zeta; total_step).
