(* ===== verification/JsDate.v ===== *)
(** JavaScript [Date] on UTC: time values in milliseconds, the proleptic
    Gregorian calendar, [Date.UTC], [toISOString] and the parsing of the
    ECMAScript date-time string format. Formats outside it are parsed in an
    implementation-defined way and stay a parameter. *)

From Stdlib Require Import ZArith Lia.
From Stdlib Require Import Strings.String Strings.Ascii.
From Stdlib Require Import Floats.SpecFloat.
From stdpp Require Import base list list_numbers strings.
From S2P Require Import Prelude JsNumber JsValue.

Open Scope string_scope.
Open Scope Z_scope.

Definition ms_per_day : Z := 86400000.

(** * The calendar *)

Definition leap (y : Z) : bool :=
  (y mod 4 =? 0) && (negb (y mod 100 =? 0) || (y mod 400 =? 0)).

Definition days_in_month (y m : Z) : Z :=
  if m =? 2 then (if leap y then 29 else 28)
  else if (m =? 4) || (m =? 6) || (m =? 9) || (m =? 11) then 30 else 31.

(** Within a 400-year era starting on 1 March: the year of the era, the
    calendar month and the day of the month, from the day of the era. *)
Definition era_civil (doe : Z) : Z * Z * Z :=
  let yoe := (doe - doe / 1460 + doe / 36524 - doe / 146096) / 365 in
  let doy := doe - (365 * yoe + yoe / 4 - yoe / 100) in
  let mp := (5 * doy + 2) / 153 in
  let d := doy - (153 * mp + 2) / 5 + 1 in
  (yoe, (if mp <? 10 then mp + 3 else mp - 9), d).

Definition era_day (yoe m d : Z) : Z :=
  let mp := if 2 <? m then m - 3 else m + 9 in
  yoe * 365 + yoe / 4 - yoe / 100 + (153 * mp + 2) / 5 + d - 1.

(** Year, month (1-12) and day of a day number; day 0 is 1 January 1970. *)
Definition civil_of_days (z : Z) : Z * Z * Z :=
  let z := z + 719468 in
  let era := z / 146097 in
  let '(yoe, m, d) := era_civil (z mod 146097) in
  (yoe + era * 400 + (if m <=? 2 then 1 else 0), m, d).

Definition days_of_civil (y m d : Z) : Z :=
  let y := if m <=? 2 then y - 1 else y in
  y / 400 * 146097 + era_day (y mod 400) m d - 719468.

(** * Time values *)

(** A Date: its time value in milliseconds, none for an Invalid Date. *)
Abbreviation date := (option Z).

Definition time_clip (t : Z) : date :=
  if Z.abs t <=? 8640000000000000 then Some t else None.

(** [new Date(value)] on a number: NaN and infinities are invalid, fractions
    are truncated. *)
Definition date_of_num (x : num) : date :=
  match x with
  | S754_zero _ => Some 0
  | S754_finite s _ _ =>
      match floor_Z (nabs x) with
      | Some v => time_clip (if s then - v else v)
      | None => None
      end
  | _ => None
  end.

(** [getTime()] *)
Definition get_time (d : date) : num :=
  match d with Some t => num_of_Z t | None => S754_nan end.

(** [Date.UTC(year, month, day, hour, minute, second)] on integers: months
    count from 0 and overflow into years, two-digit years are 19xx, days and
    times overflow freely. *)
Definition date_utc (year month day hour minute second : Z) : date :=
  let year := if (0 <=? year) && (year <=? 99) then 1900 + year else year in
  let days := days_of_civil (year + month / 12) (month mod 12 + 1) 1 + day - 1 in
  time_clip (days * ms_per_day + hour * 3600000 + minute * 60000 + second * 1000).

(** [getUTCFullYear()], [getUTCMonth() + 1], [getUTCDate()] *)
Definition utc_date (t : Z) : Z * Z * Z := civil_of_days (t / ms_per_day).

(** * [toISOString] *)

Definition digit_char (d : Z) : ascii := ascii_of_nat (48 + Z.to_nat d).

(** The last [k] decimal digits of [z], padded with zeros. *)
Fixpoint pad_digits (k : nat) (z : Z) : string :=
  match k with
  | O => ""
  | S k => String (digit_char (z / 10 ^ Z.of_nat k mod 10)) (pad_digits k z)
  end.

Definition iso_year (y : Z) : string :=
  if (0 <=? y) && (y <=? 9999) then pad_digits 4 y
  else (if y <? 0 then "-" else "+") ++ pad_digits 6 (Z.abs y).

Definition iso_of_time (t : Z) : string :=
  let '(y, m, d) := utc_date t in
  let r := t mod ms_per_day in
  iso_year y ++ "-" ++ pad_digits 2 m ++ "-" ++ pad_digits 2 d ++ "T" ++
  pad_digits 2 (r / 3600000) ++ ":" ++ pad_digits 2 (r / 60000 mod 60) ++ ":" ++
  pad_digits 2 (r / 1000 mod 60) ++ "." ++ pad_digits 3 (r mod 1000) ++ "Z".

(** [toISOString()] throws on an Invalid Date. *)
Definition to_iso_string (d : date) : res string :=
  match d with
  | Some t => Ok (iso_of_time t)
  | None => Throw (RangeError "Invalid time value")
  end.

(** * [new Date(text)] *)

Fixpoint read_digits (k : nat) (acc : Z) (s : string) : option (Z * string) :=
  match k, s with
  | O, _ => Some (acc, s)
  | S k, String c s => if is_digit c then read_digits k (acc * 10 + digit_value c) s else None
  | S _, EmptyString => None
  end.

Definition read_char (c : ascii) (s : string) : option string :=
  match s with
  | String c' s => if Ascii.eqb c c' then Some s else None
  | EmptyString => None
  end.

Definition read_year (s : string) : option (Z * string) :=
  match s with
  | String "+" s => read_digits 6 0 s
  | String "-" s =>
      '(y, s) ← read_digits 6 0 s; if y =? 0 then None else Some (- y, s)
  | _ => read_digits 4 0 s
  end.

(** [:ss] with optional [.sss], defaulting to zero. *)
Definition read_seconds (s : string) : option (Z * Z * string) :=
  match read_char ":" s with
  | None => Some (0, 0, s)
  | Some s =>
      '(sec, s) ← read_digits 2 0 s;
      match read_char "." s with
      | None => Some (sec, 0, s)
      | Some s => '(ms, s) ← read_digits 3 0 s; Some (sec, ms, s)
      end
  end.

(** [Z] or [+HH:mm] or [-HH:mm], in minutes. *)
Definition read_offset (s : string) : option Z :=
  match s with
  | "Z" => Some 0
  | String c s =>
      if Ascii.eqb c "+" || Ascii.eqb c "-" then
        '(h, s) ← read_digits 2 0 s; s ← read_char ":" s; '(m, s) ← read_digits 2 0 s;
        if String.eqb s "" && (h <=? 23) && (m <=? 59) then
          Some (if Ascii.eqb c "-" then - (h * 60 + m) else h * 60 + m)
        else None
      else None
  | EmptyString => None
  end.

Definition read_time (s : string) : option (Z * Z) :=
  '(h, s) ← read_digits 2 0 s; s ← read_char ":" s; '(mi, s) ← read_digits 2 0 s;
  '(sec, ms, s) ← read_seconds s; off ← read_offset s;
  if (mi <=? 59) && (sec <=? 59) &&
     ((h <=? 23) || ((h =? 24) && (mi =? 0) && (sec =? 0) && (ms =? 0)))
  then Some (h * 3600000 + mi * 60000 + sec * 1000 + ms, off) else None.

(** The time value of a string of the ECMAScript date-time format with a day
    and, when it has a time, an explicit offset; none when the text is not of
    that form. *)
Definition parse_iso (s : string) : option date :=
  '(y, s) ← read_year s; s ← read_char "-" s; '(m, s) ← read_digits 2 0 s;
  s ← read_char "-" s; '(d, s) ← read_digits 2 0 s;
  if (1 <=? m) && (m <=? 12) && (1 <=? d) && (d <=? days_in_month y m) then
    let midnight := days_of_civil y m d * ms_per_day in
    if String.eqb s "" then Some (time_clip midnight)
    else s ← read_char "T" s; '(t, off) ← read_time s;
         Some (time_clip (midnight + t - off * 60000))
  else None.

(** Parsing of every other text: implementation-defined (ECMA-262, Date.parse),
    within the range of time values. *)
Class DateParse := parse_other : string -> option Z.

Definition date_of_string `{DateParse} (s : string) : date :=
  match parse_iso s with
  | Some d => d
  | None => match parse_other s with Some t => time_clip t | None => None end
  end.

Example iso_epoch : iso_of_time 1704205800123 = "2024-01-02T14:30:00.123Z".
Proof. vm_compute. reflexivity. Qed.
Example parse_offset : parse_iso "2024-01-02T09:30:00-05:00" = Some (Some 1704205800000).
Proof. vm_compute. reflexivity. Qed.
Example parse_feb30 : parse_iso "2024-02-30" = None /\ parse_iso "2024-02-29" <> None.
Proof. vm_compute. split; [reflexivity|discriminate]. Qed.

(** * Calendar correctness *)

Definition era_day_ok (doe : Z) : bool :=
  let '(yoe, m, d) := era_civil doe in
  (0 <=? yoe) && (yoe <=? 399) && (1 <=? m) && (m <=? 12) && (1 <=? d) &&
  (d <=? days_in_month (yoe + (if m <=? 2 then 1 else 0)) m) && (era_day yoe m d =? doe).

Fixpoint all_from (f : Z -> bool) (n : nat) (z : Z) : bool :=
  match n with O => true | S n => if f z then all_from f n (z + 1) else false end.

Lemma all_from_spec f n z w :
  all_from f n z = true -> z <= w < z + Z.of_nat n -> f w = true.
Proof.
  revert z. induction n as [|n IH]; intros z H Hw; [lia|]. cbn in H.
  destruct (f z) eqn:E; [|done]. destruct (Z.eq_dec z w) as [->|]; [done|].
  apply (IH (z + 1)); [done|lia].
Qed.

Lemma era_days_ok : all_from era_day_ok (Z.to_nat 146097) 0 = true.
Proof. vm_compute. reflexivity. Qed.

Lemma era_civil_spec doe : 0 <= doe < 146097 -> era_day_ok doe = true.
Proof. intros H. apply (all_from_spec _ _ _ _ era_days_ok). lia. Qed.

Lemma leap_era y e : leap (y + e * 400) = leap y.
Proof.
  unfold leap.
  replace ((y + e * 400) mod 4) with (y mod 4)
    by (replace (e * 400) with (e * 100 * 4) by lia; by rewrite Z_mod_plus_full).
  replace ((y + e * 400) mod 100) with (y mod 100)
    by (replace (e * 400) with (e * 4 * 100) by lia; by rewrite Z_mod_plus_full).
  by rewrite Z_mod_plus_full.
Qed.

Lemma days_in_month_era y e m : days_in_month (y + e * 400) m = days_in_month y m.
Proof. unfold days_in_month. by rewrite leap_era. Qed.

(** The calendar date of a day number is valid and maps back to it. *)
Lemma civil_of_days_spec z :
  let '(y, m, d) := civil_of_days z in
  1 <= m <= 12 /\ 1 <= d <= days_in_month y m /\ days_of_civil y m d = z.
Proof.
  unfold civil_of_days. set (w := z + 719468).
  pose proof (Z.mod_pos_bound w 146097 ltac:(lia)) as Hw.
  pose proof (era_civil_spec _ Hw) as E. unfold era_day_ok in E.
  destruct (era_civil (w mod 146097)) as [[yoe m] d]. bool_hyps.
  split; [lia|].
  replace (yoe + w / 146097 * 400 + (if m <=? 2 then 1 else 0))
    with (yoe + (if m <=? 2 then 1 else 0) + w / 146097 * 400) by lia.
  rewrite days_in_month_era. split; [lia|].
  unfold days_of_civil.
  replace (if m <=? 2 then yoe + (if m <=? 2 then 1 else 0) + w / 146097 * 400 - 1
           else yoe + (if m <=? 2 then 1 else 0) + w / 146097 * 400)
    with (yoe + w / 146097 * 400) by (destruct (m <=? 2); lia).
  rewrite Z.div_add, Z_mod_plus_full by lia.
  rewrite (Z.div_small yoe), (Z.mod_small yoe) by lia.
  pose proof (Z.div_mod w 146097 ltac:(lia)). lia.
Qed.

#[global] Arguments iso_of_time : simpl never.

(** * Round trip of [toISOString] *)

#[local] Arguments String.append !_ _ : simpl nomatch.

Lemma digit_char_spec d :
  0 <= d <= 9 -> is_digit (digit_char d) = true /\ digit_value (digit_char d) = d.
Proof.
  intros H. assert (d = 0 \/ d = 1 \/ d = 2 \/ d = 3 \/ d = 4 \/ d = 5 \/ d = 6 \/ d = 7
    \/ d = 8 \/ d = 9) as G by lia.
  by destruct_or! G; subst.
Qed.

Lemma read_pad k z acc s :
  read_digits k acc (pad_digits k z ++ s) = Some (acc * 10 ^ Z.of_nat k + z mod 10 ^ Z.of_nat k, s).
Proof.
  revert acc. induction k as [|k IH]; intros acc.
  - cbn. f_equal. f_equal. rewrite Z.mod_1_r. lia.
  - cbn [pad_digits read_digits String.append].
    pose proof (Z.mod_pos_bound (z / 10 ^ Z.of_nat k) 10 ltac:(lia)) as Hd.
    destruct (digit_char_spec (z / 10 ^ Z.of_nat k mod 10)) as [-> ->]; [lia|].
    rewrite IH. do 2 f_equal. rewrite Nat2Z.inj_succ, Z.pow_succ_r by lia.
    pose proof (Z.pow_pos_nonneg 10 (Z.of_nat k)) as Hp.
    rewrite (Z.mul_comm 10), (Z.rem_mul_r z (10 ^ Z.of_nat k) 10) by lia. lia.
Qed.

Lemma read_pad_small k z s :
  0 <= z < 10 ^ Z.of_nat k -> read_digits k 0 (pad_digits k z ++ s) = Some (z, s).
Proof. intros H. rewrite read_pad, Z.mod_small by lia. done. Qed.

Lemma read_year_pad y s :
  Z.abs y <= 999999 -> read_year (iso_year y ++ s) = Some (y, s).
Proof.
  intros H. unfold iso_year. destruct ((0 <=? y) && (y <=? 9999)) eqn:E.
  - bool_hyps. rewrite <- (read_pad_small 4 y s) by lia.
    cbn [pad_digits String.append read_year].
    pose proof (digit_char_spec (y / 10 ^ Z.of_nat 3 mod 10)) as [Hd _];
      [pose proof (Z.mod_pos_bound (y / 10 ^ Z.of_nat 3) 10); lia|].
    destruct (digit_char _) as [[] [] [] [] [] [] [] []]; first [discriminate Hd | reflexivity].
  - destruct (Z.ltb_spec y 0); cbn [String.append read_year]; rewrite read_pad_small by lia;
      cbn [mbind option_bind]; [|do 2 f_equal; lia].
    destruct (Z.eqb_spec (Z.abs y) 0); [lia|]. do 2 f_equal. lia.
Qed.

Lemma utc_year_bound t :
  Z.abs t <= 8640000000000000 -> let '(y, _, _) := utc_date t in Z.abs y <= 999999.
Proof.
  intros H. unfold utc_date, civil_of_days. set (w := t / ms_per_day + 719468).
  assert (Hw : -100000000 <= t / ms_per_day <= 100000000).
  { unfold ms_per_day. split; [apply Z.div_le_lower_bound|apply Z.div_le_upper_bound]; lia. }
  pose proof (Z.mod_pos_bound w 146097 ltac:(lia)) as Hm.
  pose proof (era_civil_spec _ Hm) as E. unfold era_day_ok in E.
  destruct (era_civil (w mod 146097)) as [[yoe m] d]. bool_hyps.
  assert (-1000 <= w / 146097 <= 1000).
  { split; [apply Z.div_le_lower_bound|apply Z.div_le_upper_bound]; lia. }
  destruct (m <=? 2); lia.
Qed.

Lemma parse_iso_roundtrip t :
  Z.abs t <= 8640000000000000 ->
  parse_iso (iso_of_time t) = Some (Some t).
Proof.
  intros Ht. pose proof (utc_year_bound t Ht) as Hy. unfold iso_of_time, utc_date in *.
  pose proof (civil_of_days_spec (t / ms_per_day)) as C.
  destruct (civil_of_days (t / ms_per_day)) as [[y m] d]. destruct C as (Hm & Hd & Hdays).
  assert (Hd31 : days_in_month y m <= 31)
    by (unfold days_in_month; repeat case_match; lia).
  pose proof (Z.div_mod t ms_per_day ltac:(done)) as Hdiv.
  pose proof (Z.mod_pos_bound t ms_per_day ltac:(done)) as Hr.
  remember (t mod ms_per_day) as r eqn:Er. clear Er. unfold ms_per_day in Hr.
  assert (Hh : 0 <= r / 3600000 < 24) by (split; [apply Z.div_pos|apply Z.div_lt_upper_bound]; lia).
  pose proof (Z.mod_pos_bound (r / 60000) 60 ltac:(lia)) as Hmi.
  pose proof (Z.mod_pos_bound (r / 1000) 60 ltac:(lia)) as Hs.
  pose proof (Z.mod_pos_bound r 1000 ltac:(lia)) as Hms.
  unfold parse_iso. rewrite read_year_pad by lia.
  cbn [mbind option_bind String.append read_char Ascii.eqb Bool.eqb].
  rewrite read_pad_small by lia. cbn [mbind option_bind String.append read_char Ascii.eqb Bool.eqb].
  rewrite read_pad_small by lia. cbn [mbind option_bind].
  replace ((1 <=? m) && (m <=? 12) && (1 <=? d) && (d <=? days_in_month y m)) with true
    by (symmetry; lia).
  cbn [String.append String.eqb mbind option_bind read_char Ascii.eqb Bool.eqb].
  unfold read_time.
  rewrite read_pad_small by lia. cbn [mbind option_bind String.append read_char Ascii.eqb Bool.eqb].
  rewrite read_pad_small by lia. cbn [mbind option_bind].
  unfold read_seconds. cbn [String.append read_char Ascii.eqb Bool.eqb].
  rewrite read_pad_small by lia. cbn [mbind option_bind String.append read_char Ascii.eqb Bool.eqb].
  rewrite read_pad_small by lia. cbn [mbind option_bind read_offset].
  replace ((r / 60000 mod 60 <=? 59) && (r / 1000 mod 60 <=? 59) && _) with true
    by (symmetry; lia).
  rewrite Hdays. cbn [mbind option_bind]. f_equal.
  assert (E : r = r / 3600000 * 3600000 + (r / 60000) mod 60 * 60000 + (r / 1000) mod 60 * 1000 + r mod 1000).
  { replace (r / 3600000) with (r / 60000 / 60) by (rewrite Z.div_div by lia; done).
    pose proof (Z.div_mod (r / 60000) 60 ltac:(lia)). pose proof (Z.div_mod r 1000 ltac:(lia)).
    replace (r / 60000) with (r / 1000 / 60) in * by (rewrite Z.div_div by lia; done).
    pose proof (Z.div_mod (r / 1000) 60 ltac:(lia)). lia. }
  match goal with |- time_clip ?x = _ => replace x with t by lia end.
  unfold time_clip. destruct (Z.leb_spec (Z.abs t) 8640000000000000); [done|lia].
Qed.

Lemma date_of_iso `{DateParse} t :
  Z.abs t <= 8640000000000000 -> date_of_string (iso_of_time t) = Some t.
Proof. intros Ht. unfold date_of_string. by rewrite parse_iso_roundtrip. Qed.

Lemma time_clip_some t v : time_clip t = Some v -> v = t /\ Z.abs t <= 8640000000000000.
Proof. unfold time_clip. case_match; [|done]. intros [= <-]. split; [done|lia]. Qed.

Lemma parse_iso_bound s v : parse_iso s = Some (Some v) -> Z.abs v <= 8640000000000000.
Proof.
  unfold parse_iso. intros E.
  apply bind_Some in E as ([y s1] & _ & E). apply bind_Some in E as (s2 & _ & E).
  apply bind_Some in E as ([m s3] & _ & E). apply bind_Some in E as (s4 & _ & E).
  apply bind_Some in E as ([d s5] & _ & E). destruct (_ && _); [|done].
  destruct (String.eqb s5 "").
  - apply (inj Some) in E. by apply time_clip_some in E as [-> ?].
  - apply bind_Some in E as (s6 & _ & E). apply bind_Some in E as ([t off] & _ & E).
    apply (inj Some) in E. by apply time_clip_some in E as [-> ?].
Qed.

Lemma date_of_string_bound `{DateParse} s v :
  date_of_string s = Some v -> Z.abs v <= 8640000000000000.
Proof.
  unfold date_of_string. destruct (parse_iso s) as [d|] eqn:E.
  - intros ->. by apply parse_iso_bound in E.
  - destruct (parse_other s); [|done]. intros F. by apply time_clip_some in F as [-> ?].
Qed.

Lemma date_of_num_bound x v : date_of_num x = Some v -> Z.abs v <= 8640000000000000.
Proof.
  destruct x as [s|s| |s m e]; cbn; try done; [intros [= <-]; lia|].
  intros E. destruct s; by apply time_clip_some in E as [-> ?].
Qed.

Lemma to_iso_string_ok d s :
  to_iso_string d = Ok s -> exists t, d = Some t /\ s = iso_of_time t.
Proof. destruct d as [t|]; [|done]. intros [= <-]. by exists t. Qed.

(** * Time zones *)

(** Wall-clock fields of an instant in America/New_York, as
    [Intl.DateTimeFormat.formatToParts] reports them: the time-zone data base
    is not part of the repository. [hourCycle: 'h23'] and [hour12: false] may
    report midnight differently. *)
Record zoned := {
  z_year : Z; z_month : Z; z_day : Z; z_hour : Z; z_minute : Z; z_second : Z
}.

Class TimeZone := {
  parts_h23 : Z -> zoned;
  parts_hour12_false : Z -> zoned
}.

(** [Date.UTC] of the reported fields. *)
Definition zoned_utc (p : zoned) : date :=
  date_utc (z_year p) (z_month p - 1) (z_day p) (z_hour p) (z_minute p) (z_second p).

(** [new Date(a.getTime() - offset)], NaN operands giving an Invalid Date. *)
Definition date_minus (a : date) (offset : option Z) : date :=
  match a, offset with
  | Some x, Some y => time_clip (x - y)
  | _, _ => None
  end.

(** The fields of a wall-clock reading given as milliseconds. *)
Definition zoned_of (w : Z) : zoned :=
  let '(y, m, d) := utc_date w in
  let r := w mod ms_per_day in
  {| z_year := y; z_month := m; z_day := d; z_hour := r / 3600000;
     z_minute := r / 60000 mod 60; z_second := r / 1000 mod 60 |}.

(** A clock [hours] behind UTC all year: a concrete zone for witnesses. *)
Definition fixed_zone (hours : Z) : TimeZone :=
  {| parts_h23 t := zoned_of (t - hours * 3600000);
     parts_hour12_false t := zoned_of (t - hours * 3600000) |}.

(** From September 1969 to the year 255000. *)
Definition zone_range (t : Z) : Prop := -10000000000 <= t <= 8000000000000000.

(** What the services rely on of America/New_York: wall clocks differ from UTC
    by whole seconds and less than a day, every calendar day begins at one
    instant and days follow each other in time, and the offset changes neither
    at midnight nor in the hours around it that a first guess can miss by. *)
Class TimeZoneLaws (T : TimeZone) := {
  tz_offset : Z -> Z;
  tz_day_start : Z -> Z;
  tz_parts : forall t, zone_range t -> parts_h23 t = zoned_of (t + tz_offset t);
  tz_offset_bound : forall t, Z.abs (tz_offset t) < ms_per_day;
  tz_offset_seconds : forall t, tz_offset t mod 1000 = 0;
  tz_day_order : forall t day, zone_range t ->
    tz_day_start day <= t <-> day <= (t + tz_offset t) / ms_per_day;
  tz_midnight : forall day,
    tz_day_start day + tz_offset (tz_day_start day) = day * ms_per_day;
  tz_stable : forall day,
    tz_offset (day * ms_per_day - tz_offset (day * ms_per_day)) = tz_offset (tz_day_start day)
}.

#[export] Instance fixed_zone_laws : TimeZoneLaws (fixed_zone 5).
Proof.
  refine {| tz_offset := fun _ => - 18000000; tz_day_start := fun d => d * ms_per_day + 18000000 |}.
  - intros t _. cbn. f_equal; lia.
  - intros t. unfold ms_per_day. lia.
  - reflexivity.
  - intros t day _. unfold ms_per_day. split; intros Hd.
    + apply Z.div_le_lower_bound; lia.
    + assert (day * 86400000 <= t + -18000000); [|lia].
      pose proof (Z.mul_div_le (t + -18000000) 86400000). lia.
  - intros day. unfold ms_per_day. lia.
  - reflexivity.
Defined.

(** * Exact time arithmetic *)

Lemma date_of_num_exact z : safe z -> date_of_num (num_of_Z z) = time_clip z.
Proof.
  intros Hz. destruct (Z.eq_dec z 0) as [->|Hnz]; [done|].
  destruct (num_of_Z_canon z Hz Hnz) as (s & p & -> & Hp & ->).
  pose proof (floor_canon p Hp) as F. unfold canon in *. cbn [date_of_num nabs SFabs].
  rewrite F. by destruct s.
Qed.

Lemma time_clip_id t : Z.abs t <= 8640000000000000 -> time_clip t = Some t.
Proof. intros H. unfold time_clip. by destruct (Z.leb_spec (Z.abs t) 8640000000000000); [|lia]. Qed.

(** * Wall-clock arithmetic *)

Lemma days_of_civil_day y m d k : days_of_civil y m 1 + (d + k) - 1 = days_of_civil y m d + k.
Proof. unfold days_of_civil, era_day. lia. Qed.

Lemma utc_year_modern t : -20000000000 <= t -> let '(y, _, _) := utc_date t in 100 <= y.
Proof.
  intros H. unfold utc_date, civil_of_days. set (w := t / ms_per_day + 719468).
  assert (Hw : -1000 <= t / ms_per_day).
  { unfold ms_per_day. apply Z.div_le_lower_bound; lia. }
  pose proof (Z.mod_pos_bound w 146097 ltac:(lia)) as Hm.
  pose proof (era_civil_spec _ Hm) as E. unfold era_day_ok in E.
  destruct (era_civil (w mod 146097)) as [[yoe m] d]. bool_hyps.
  assert (4 <= w / 146097) by (apply Z.div_le_lower_bound; lia).
  destruct (m <=? 2); lia.
Qed.

Lemma time_fields r :
  0 <= r < ms_per_day ->
  r / 3600000 * 3600000 + r / 60000 mod 60 * 60000 + r / 1000 mod 60 * 1000 = r - r mod 1000.
Proof.
  intros Hr. replace (r / 3600000) with (r / 60000 / 60) by (rewrite Z.div_div by lia; done).
  pose proof (Z.div_mod (r / 60000) 60 ltac:(lia)). pose proof (Z.div_mod r 1000 ltac:(lia)).
  replace (r / 60000) with (r / 1000 / 60) in * by (rewrite Z.div_div by lia; done).
  pose proof (Z.div_mod (r / 1000) 60 ltac:(lia)). lia.
Qed.

(** [Date.UTC] of a calendar day moved by [k] days and its time fields. *)
Lemma date_utc_fields w k h mi s :
  -20000000000 <= w ->
  let '(y, m, d) := utc_date w in
  date_utc y (m - 1) (d + k) h mi s =
  time_clip ((w / ms_per_day + k) * ms_per_day + h * 3600000 + mi * 60000 + s * 1000).
Proof.
  intros Hw. pose proof (utc_year_modern w Hw) as Hy.
  pose proof (civil_of_days_spec (w / ms_per_day)) as C. unfold utc_date in *.
  destruct (civil_of_days (w / ms_per_day)) as [[y m] d]. destruct C as (Hm & Hd & Hday).
  unfold date_utc. replace ((0 <=? y) && (y <=? 99)) with false by (symmetry; lia).
  rewrite (Z.div_small (m - 1)), (Z.mod_small (m - 1)), Z.add_0_r by lia.
  replace (m - 1 + 1) with m by lia. by rewrite days_of_civil_day, Hday.
Qed.

Lemma zoned_utc_of w :
  -20000000000 <= w <= 8640000000000000 -> zoned_utc (zoned_of w) = Some (w - w mod 1000).
Proof.
  intros Hw. unfold zoned_utc, zoned_of.
  pose proof (fun h mi s => date_utc_fields w 0 h mi s ltac:(lia)) as F.
  destruct (utc_date w) as [[y m] d]. cbn [z_year z_month z_day z_hour z_minute z_second].
  specialize (F (w mod ms_per_day / 3600000) (w mod ms_per_day / 60000 mod 60)
    (w mod ms_per_day / 1000 mod 60)).
  rewrite Z.add_0_r in F. rewrite F. clear F.
  pose proof (time_fields (w mod ms_per_day) (Z.mod_pos_bound w ms_per_day ltac:(done))) as T.
  pose proof (Z.div_mod w ms_per_day ltac:(done)) as D.
  assert (E : (w mod ms_per_day) mod 1000 = w mod 1000).
  { rewrite D at 2. unfold ms_per_day.
    replace (86400000 * (w / 86400000) + w mod 86400000)
      with (w mod 86400000 + (86400 * (w / 86400000)) * 1000) by lia.
    by rewrite Z_mod_plus_full. }
  pose proof (Z.mod_pos_bound w 1000 ltac:(lia)).
  match goal with |- time_clip ?x = _ => replace x with (w - w mod 1000) by lia end.
  apply time_clip_id. lia.
Qed.
