(* ===== verification/MarketSession.v ===== *)
(** Market session snapshots: the pure part of
    integrations/alpaca/market-session.adapter.ts, from what the clock and
    calendar lookups returned to the normalized snapshot the session guard
    reads, and the interface the guard relies on. *)

From Stdlib Require Import ZArith Lia.
From Stdlib Require Import Strings.String Strings.Ascii.
From Stdlib Require Import Floats.SpecFloat.
From stdpp Require Import base list strings.
From S2P Require Import Prelude JsNumber JsValue JsDate.

Open Scope string_scope.
Open Scope Z_scope.

Inductive CacheStatus := fresh | cached.

Record AlpacaClock := {
  timestamp : string;
  is_open : bool;
  next_open : string;
  next_close : string
}.

Record AlpacaCalendarSession := {
  cal_open : option string;
  cal_close : option string;
  cal_session_open : option string;
  cal_session_close : option string
}.

Record ClockCache := {
  cc_raw : AlpacaClock;
  cc_fetchedAtMs : Z;
  cc_fetchedAtIso : string
}.

Record NormalizedMarketSessionSnapshot := {
  brokerTimestamp : string;
  evaluatedTimestamp : string;
  marketOpen : bool;
  tradingDate : string;
  sessionOpenAt : option string;
  sessionCloseAt : option string;
  nextOpenAt : option string;
  nextCloseAt : option string;
  fetchedAt : string;
  clock_cache : CacheStatus;
  calendar_cache : CacheStatus
}.

(** * The interface of the session guard *)

(** A session lookup for an account at an instant; it may throw. *)
Class MarketSession := market_session : Z -> Z -> res NormalizedMarketSessionSnapshot.

(** A text is null or a printed valid instant. *)
Definition iso_or_null (o : option string) : Prop :=
  match o with
  | None => True
  | Some s => exists t, s = iso_of_time t /\ Z.abs t <= 8640000000000000
  end.

(** Every instant of a snapshot is printed by [toISOString]. *)
Class MarketSessionLaws (M : MarketSession) : Prop := {
  snapshot_evaluated : forall account now s, market_session account now = Ok s ->
    iso_or_null (Some (evaluatedTimestamp s));
  snapshot_open : forall account now s, market_session account now = Ok s ->
    iso_or_null (sessionOpenAt s);
  snapshot_close : forall account now s, market_session account now = Ok s ->
    iso_or_null (sessionCloseAt s)
}.

(** * The adapter *)

Section Adapter.
Context `{DateParse} `{TimeZone}.

Definition toIsoOrNull (value : option string) : option string :=
  match value with
  | None | Some "" => None
  | Some v => match date_of_string v with Some t => Some (iso_of_time t) | None => None end
  end.

Definition toTimeMs (value : option string) : option Z :=
  match value with
  | None | Some "" => None
  | Some v => date_of_string v
  end.

Definition isClockUsable (cache : ClockCache) (nowMs : Z) : bool :=
  match toTimeMs (Some (next_close (cc_raw cache))) with
  | Some nextCloseMs => nowMs <? nextCloseMs
  | None => false
  end.

(** [getTimeZoneOffsetMs]: formatting an Invalid Date throws. *)
Definition getTimeZoneOffsetMs (d : date) : res (option Z) :=
  match d with
  | None => Throw (RangeError "Invalid time value")
  | Some t => Ok (option_map (fun u => u - t) (zoned_utc (parts_hour12_false t)))
  end.

(** [Number.isInteger(Number(part))], with the integer it denotes. *)
Definition integer_part (part : option string) : option Z :=
  match part with
  | None => None
  | Some s =>
      let x := number_of_string s in
      match floor_Z x with
      | Some z => if neqb (nfloor x) x then Some z else None
      | None => None
      end
  end.

Fixpoint split_on (c : ascii) (s : string) : list string :=
  match s with
  | EmptyString => [""]
  | String c' s' =>
      if Ascii.eqb c c' then "" :: split_on c s'
      else match split_on c s' with
           | w :: ws => String c' w :: ws
           | nil => [String c' ""]
           end
  end.

Definition zonedDateTimeToIso (datePart timePart : string) : res (option string) :=
  let dateValues := split_on "-" datePart in
  let timeValues := split_on ":" timePart in
  match integer_part (dateValues !! 0%nat), integer_part (dateValues !! 1%nat),
        integer_part (dateValues !! 2%nat), integer_part (timeValues !! 0%nat),
        integer_part (timeValues !! 1%nat),
        match timeValues !! 2%nat with None => Some 0 | s => integer_part s end with
  | Some y, Some m, Some d, Some h, Some min, Some sec =>
      let utcGuess := date_utc y (m - 1) d h min sec in
      firstOffset ← getTimeZoneOffsetMs utcGuess;
      let firstPass := date_minus utcGuess firstOffset in
      secondOffset ← getTimeZoneOffsetMs firstPass;
      mret (option_map iso_of_time (date_minus utcGuess secondOffset))
  | _, _, _, _, _, _ => mret None
  end.

Definition tradingDateFromIso (iso : string) : string := String.substring 0 10 iso.

Definition advanceTimestamp (rawTimestamp : string) (fetchedAtMs nowMs : Z) : res date :=
  match date_of_string rawTimestamp with
  | None => Throw (PlainError "Alpaca clock timestamp is invalid.")
  | Some t => Ok (time_clip (t + Z.max 0 (nowMs - fetchedAtMs)))
  end.

(** [/^(?:(\d{2}):(\d{2})|(\d{2})(\d{2}))$/] *)
Definition match_hhmm (value : string) : option (Z * Z) :=
  '(hour, s) ← read_digits 2 0 value;
  '(minute, s) ← read_digits 2 0 (match read_char ":" s with Some s' => s' | None => s end);
  if String.eqb s "" then Some (hour, minute) else None.

Fixpoint includes_char (c : ascii) (s : string) : bool :=
  match s with
  | EmptyString => false
  | String c' s => Ascii.eqb c c' || includes_char c s
  end.

Definition normalizeCalendarTimestamp (tradingDate : string) (value : option string)
    : res (option string) :=
  match value with
  | None | Some "" => mret None
  | Some v =>
      if includes_char "T" v then mret (toIsoOrNull value)
      else match match_hhmm v with
           | None => mret None
           | Some (hour, minute) =>
               if (23 <? hour) || (59 <? minute) then mret None
               else zonedDateTimeToIso tradingDate (pad_digits 2 hour ++ ":" ++ pad_digits 2 minute)
           end
  end.

Definition deriveMarketOpen (clock : AlpacaClock) (evaluatedMs : Z) : bool :=
  match toTimeMs (Some (next_open clock)), toTimeMs (Some (next_close clock)) with
  | Some nextOpenMs, Some nextCloseMs =>
      if (nextOpenMs <=? evaluatedMs) && (evaluatedMs <? nextCloseMs) then true
      else is_open clock && (evaluatedMs <? nextCloseMs)
  | None, Some nextCloseMs => is_open clock && (evaluatedMs <? nextCloseMs)
  | _, None => false
  end.

Definition deriveClockSessionWindow (clock : AlpacaClock) (evaluatedMs : Z)
    : option string * option string :=
  let nextOpenAt := toIsoOrNull (Some (next_open clock)) in
  let nextCloseAt := toIsoOrNull (Some (next_close clock)) in
  match toTimeMs nextOpenAt, toTimeMs nextCloseAt with
  | Some nextOpenMs, Some nextCloseMs =>
      if (nextOpenMs <=? evaluatedMs) && (evaluatedMs <? nextCloseMs)
      then (nextOpenAt, nextCloseAt) else (None, None)
  | _, _ => (None, None)
  end.

(** The body of [getAlpacaMarketSessionSnapshot] after [getClock] returned
    [clock], with the cache entry [getClock] left for the account, the
    calendar lookup [calendar] it may make and the time [wall] of a second
    [new Date()]. *)
Definition snapshot_of (clock : AlpacaClock) (clockStatus : CacheStatus)
    (accountClockCache : option ClockCache)
    (calendar : string -> res (option AlpacaCalendarSession * CacheStatus))
    (nowMs wall : Z) : res NormalizedMarketSessionSnapshot :=
  let fetchedAt := match accountClockCache with
                   | Some c => cc_fetchedAtIso c
                   | None => iso_of_time wall
                   end in
  evaluated ← advanceTimestamp (timestamp clock)
    (match accountClockCache with Some c => cc_fetchedAtMs c | None => nowMs end) nowMs;
  evaluatedTimestamp ← to_iso_string evaluated;
  let evaluatedMs := default 0 evaluated in
  let tradingDate := tradingDateFromIso evaluatedTimestamp in
  let marketOpen := deriveMarketOpen clock evaluatedMs in
  let '(openAt, closeAt) := deriveClockSessionWindow clock evaluatedMs in
  let truthy_text (o : option string) := match o with None | Some "" => false | _ => true end in
  '(openAt, closeAt, calendarStatus) ←
    (if marketOpen && (negb (truthy_text openAt) || negb (truthy_text closeAt)) then
       '(cal, cacheStatus) ← calendar tradingDate;
       let pick (f g : AlpacaCalendarSession -> option string) :=
         match cal with
         | None => None
         | Some c => match f c with Some v => Some v | None => g c end
         end in
       openAt ← normalizeCalendarTimestamp tradingDate (pick cal_open cal_session_open);
       closeAt ← normalizeCalendarTimestamp tradingDate (pick cal_close cal_session_close);
       match cal with
       | Some _ =>
           if negb (truthy_text openAt) || negb (truthy_text closeAt) then
             Throw (PlainError "Alpaca calendar session is missing valid open or close timestamps.")
           else mret (openAt, closeAt, cacheStatus)
       | None => mret (openAt, closeAt, cacheStatus)
       end
     else mret (openAt, closeAt, cached));
  mret {| brokerTimestamp := timestamp clock; evaluatedTimestamp := evaluatedTimestamp;
          marketOpen := marketOpen; tradingDate := tradingDate;
          sessionOpenAt := openAt; sessionCloseAt := closeAt;
          nextOpenAt := toIsoOrNull (Some (next_open clock));
          nextCloseAt := toIsoOrNull (Some (next_close clock));
          fetchedAt := fetchedAt; clock_cache := clockStatus; calendar_cache := calendarStatus |}.

(** The lookup assembled from what [getClock] and [getCalendarSession] return. *)
Definition session_from (getClock : Z -> Z -> res (AlpacaClock * CacheStatus * option ClockCache))
    (getCalendarSession : Z -> string -> Z -> res (option AlpacaCalendarSession * CacheStatus))
    (wall : Z) : MarketSession := fun account nowMs =>
  '(clock, status, entry) ← getClock account nowMs;
  snapshot_of clock status entry (fun day => getCalendarSession account day nowMs) nowMs wall.

(** * Every instant of a snapshot is printed by [toISOString] *)

Lemma iso_or_null_date d v : d = Some v -> Z.abs v <= 8640000000000000 ->
  iso_or_null (option_map iso_of_time d).
Proof. intros -> Hv. by exists v. Qed.

Lemma toIsoOrNull_iso v : iso_or_null (toIsoOrNull v).
Proof.
  destruct v as [[|c s]|]; try done. unfold toIsoOrNull.
  destruct (date_of_string (String c s)) as [t|] eqn:E; [|done].
  exists t. split; [done|]. by eapply date_of_string_bound.
Qed.

Lemma date_minus_iso a off : iso_or_null (option_map iso_of_time (date_minus a off)).
Proof.
  destruct (date_minus a off) as [v|] eqn:E; [|done].
  apply (iso_or_null_date _ v); [done|]. destruct a, off; try done.
  by apply time_clip_some in E as [-> ?].
Qed.

Lemma zonedDateTimeToIso_iso dp tp o : zonedDateTimeToIso dp tp = Ok o -> iso_or_null o.
Proof.
  unfold zonedDateTimeToIso. repeat (case_match; [|by intros [= <-]]).
  unfold mbind, res_bind. destruct (getTimeZoneOffsetMs _); [|done].
  destruct (getTimeZoneOffsetMs _); [|done]. intros [= <-]. apply date_minus_iso.
Qed.

Lemma normalizeCalendarTimestamp_iso day v o :
  normalizeCalendarTimestamp day v = Ok o -> iso_or_null o.
Proof.
  unfold normalizeCalendarTimestamp. destruct v as [[|c s]|]; try by intros [= <-].
  destruct (includes_char _ _); [intros [= <-]; apply (toIsoOrNull_iso (Some (String c s)))|].
  destruct (match_hhmm _) as [[h m]|]; [|by intros [= <-]].
  destruct (_ || _); [by intros [= <-]|]. apply zonedDateTimeToIso_iso.
Qed.

Lemma deriveClockSessionWindow_iso clock e :
  iso_or_null (fst (deriveClockSessionWindow clock e)) /\
  iso_or_null (snd (deriveClockSessionWindow clock e)).
Proof.
  unfold deriveClockSessionWindow.
  generalize (toIsoOrNull_iso (Some (next_open clock))) (toIsoOrNull_iso (Some (next_close clock))).
  generalize (toIsoOrNull (Some (next_open clock))) (toIsoOrNull (Some (next_close clock))).
  intros o c Ho Hc. by destruct (toTimeMs o), (toTimeMs c); try destruct (_ && _).
Qed.

Lemma snapshot_of_iso clock st entry cal now wall s :
  snapshot_of clock st entry cal now wall = Ok s ->
  iso_or_null (Some (evaluatedTimestamp s)) /\ iso_or_null (sessionOpenAt s) /\
  iso_or_null (sessionCloseAt s).
Proof.
  unfold snapshot_of. unfold mbind, res_bind, mret, res_ret.
  destruct (advanceTimestamp _ _ _) as [d|] eqn:Ed; [|done].
  destruct (to_iso_string d) as [iso|] eqn:Ei; [|done].
  apply to_iso_string_ok in Ei as (t & -> & ->).
  assert (Ht : Z.abs t <= 8640000000000000).
  { unfold advanceTimestamp in Ed. destruct (date_of_string _); [|done].
    injection Ed as Ed. by apply time_clip_some in Ed as [-> ?]. }
  pose proof (deriveClockSessionWindow_iso clock (default 0 (Some t))) as [Ho Hc].
  destruct (deriveClockSessionWindow _ _) as [o c]. cbn [fst snd] in Ho, Hc.
  assert (He : iso_or_null (Some (iso_of_time t))) by by exists t.
  destruct (_ && _); [|intros [= <-]; done].
  destruct (cal _) as [[day cs]|]; [|done].
  destruct (normalizeCalendarTimestamp _ _) as [o'|] eqn:Eo; [|done].
  match goal with |- context [match normalizeCalendarTimestamp ?a ?b with _ => _ end] =>
    destruct (normalizeCalendarTimestamp a b) as [c'|] eqn:Ec; [|done] end.
  apply normalizeCalendarTimestamp_iso in Eo, Ec.
  destruct day; [destruct (_ || _); [done|]|]; intros [= <-]; done.
Qed.

#[export] Instance session_from_laws getClock getCalendarSession wall :
  MarketSessionLaws (session_from getClock getCalendarSession wall).
Proof.
  split; intros account now s; unfold market_session, session_from, mbind, res_bind;
    (destruct (getClock account now) as [[[clock st] entry]|]; [|done]);
    intros E; apply snapshot_of_iso in E; tauto.
Qed.
End Adapter.
