(* ===== verification/Prisma.v ===== *)
(** The database client as an interface. Prisma and PostgreSQL are not part of
    the repository: the operations the services call are parameters, and what
    the services rely on is the documented behaviour stated as [PrismaLaws].
    [findMany] without [orderBy] promises no order, [findFirst] without
    [orderBy] promises no particular row, and autoincrement ids come from an
    increasing sequence. *)

From Stdlib Require Import ZArith Lia.
From stdpp Require Import base list.
From S2P Require Import Prelude.

Open Scope Z_scope.

Class Prisma := {
  find_many : forall {A : Type}, (A -> bool) -> list A -> list A;
  find_first : forall {A : Type}, (A -> bool) -> list A -> option A;
  (** [orderBy]: the boolean relation tells which row may come before which. *)
  find_first_by : forall {A : Type}, (A -> A -> bool) -> (A -> bool) -> list A -> option A;
  count : forall {A : Type}, (A -> bool) -> list A -> Z;
  (** Rows after the update and the number of rows it matched. *)
  update_many : forall {A : Type}, (A -> bool) -> (A -> A) -> list A -> list A * Z;
  next_id : list Z -> Z
}.

(** An order by a column: every two rows are comparable, transitively. *)
Definition total_order {A} (le : A -> A -> bool) : Prop :=
  (forall x y, le x y = true \/ le y x = true) /\
  (forall x y z, le x y = true -> le y z = true -> le x z = true).

Class PrismaLaws (P : Prisma) : Prop := {
  find_many_perm : forall A (p : A -> bool) t, Permutation (find_many p t) (filterb p t);
  find_first_some : forall A (p : A -> bool) t x,
    find_first p t = Some x -> In x t /\ p x = true;
  find_first_none : forall A (p : A -> bool) t x,
    find_first p t = None -> In x t -> p x = false;
  find_first_by_some : forall A le (p : A -> bool) t x,
    find_first_by le p t = Some x -> In x t /\ p x = true;
  find_first_by_least : forall A le (p : A -> bool) t x y,
    total_order le -> find_first_by le p t = Some x ->
    In y t -> p y = true -> le x y = true;
  find_first_by_none : forall A le (p : A -> bool) t x,
    find_first_by le p t = None -> In x t -> p x = false;
  count_eq : forall A (p : A -> bool) t, count p t = Z.of_nat (length (filterb p t));
  update_many_eq : forall A (p : A -> bool) f t,
    update_many p f t =
    (map (fun r => if p r then f r else r) t, Z.of_nat (length (filterb p t)));
  next_id_above : forall ids x, In x ids -> x < next_id ids
}.

(** * Derived facts *)

Section Derived.
Context `{PrismaLaws}.
Context {A : Type}.
Implicit Types (p : A -> bool) (t : list A).

Lemma find_many_In p t x : In x (find_many p t) <-> In x t /\ p x = true.
Proof.
  rewrite <- filterb_In. split; apply Permutation_in;
    [|symmetry]; apply find_many_perm.
Qed.

Lemma find_many_length p t : length (find_many p t) = length (filterb p t).
Proof. apply Permutation_length, find_many_perm. Qed.

Lemma find_first_exists p t x :
  In x t -> p x = true -> exists y, find_first p t = Some y.
Proof.
  intros Hx Hp. destruct (find_first p t) as [y|] eqn:E; [by exists y|].
  by rewrite (find_first_none _ _ _ _ E Hx) in Hp.
Qed.

Lemma find_first_unique p t x :
  In x t -> p x = true -> (forall y, In y t -> p y = true -> y = x) ->
  find_first p t = Some x.
Proof.
  intros Hx Hp Hu. destruct (find_first_exists p t x Hx Hp) as [y E].
  rewrite E. f_equal. apply find_first_some in E as [? ?]. by apply Hu.
Qed.

Lemma find_first_absent p t :
  (forall x, In x t -> p x = false) -> find_first p t = None.
Proof.
  intros Hn. destruct (find_first p t) as [x|] eqn:E; [|done].
  apply find_first_some in E as [Hx Hp]. by rewrite Hn in Hp.
Qed.

Lemma next_id_fresh ids : ~ In (next_id ids) ids.
Proof. intros Hin. apply next_id_above in Hin. lia. Qed.

Lemma count_nonneg p t : 0 <= count p t.
Proof. rewrite count_eq. lia. Qed.

Lemma count_zero p t : count p t = 0 <-> forall x, In x t -> p x = false.
Proof.
  rewrite count_eq. split.
  - intros E x Hx. destruct (p x) eqn:Ep; [|done].
    assert (Hf : In x (filterb p t)) by by apply filterb_In.
    destruct (filterb p t); [done|]. cbn in E. lia.
  - intros Hn. destruct (filterb p t) as [|x l] eqn:E; [done|].
    assert (Hf : In x (filterb p t)) by (rewrite E; by left).
    apply filterb_In in Hf as [Hx Hp]. by rewrite Hn in Hp.
Qed.

Lemma count_pos_exists p t : 0 < count p t -> exists x, In x t /\ p x = true.
Proof.
  rewrite count_eq. destruct (filterb p t) as [|x l] eqn:E; cbn; [lia|].
  intros _. exists x. apply filterb_In. rewrite E. by left.
Qed.

(** Membership after an update: every row is the image of an old one. *)
Lemma update_many_In p f t x :
  In x (fst (update_many p f t)) <->
  exists y, In y t /\ x = if p y then f y else y.
Proof.
  rewrite update_many_eq. cbn. rewrite in_map_iff.
  split; intros (y & ? & ?); exists y; done.
Qed.
End Derived.

(** * A concrete client

    Rows are returned in table order, ids are one above the largest. *)

Fixpoint min_by {A} (le : A -> A -> bool) (x : A) (l : list A) : A :=
  match l with
  | nil => x
  | y :: l => if le x y then min_by le x l else min_by le y l
  end.

Definition in_order : Prisma := {|
  find_many A p t := filterb p t;
  find_first A p t := List.find p t;
  find_first_by A le p t :=
    match filterb p t with nil => None | x :: l => Some (min_by le x l) end;
  count A p t := Z.of_nat (length (filterb p t));
  update_many A p f t :=
    (map (fun r => if p r then f r else r) t, Z.of_nat (length (filterb p t)));
  next_id ids := fold_right Z.max 0 ids + 1
|}.

Lemma min_by_In {A} (le : A -> A -> bool) x l : In (min_by le x l) (x :: l).
Proof.
  revert x. induction l as [|y l IH]; intros x; cbn; [by left|].
  destruct (le x y).
  - destruct (IH x) as [<-|?]; auto.
  - destruct (IH y) as [<-|?]; auto.
Qed.

Lemma min_by_least {A} (le : A -> A -> bool) x l y :
  total_order le -> In y (x :: l) -> le (min_by le x l) y = true.
Proof.
  intros [Htot Htr]. assert (Hrefl : forall z, le z z = true) by (intros z; by destruct (Htot z z)).
  revert x y. induction l as [|z l IH]; intros x y; cbn [min_by].
  - intros [<-|[]]. apply Hrefl.
  - destruct (le x z) eqn:E.
    + intros [<-|[<-|Hy]]; [| |apply IH; by right].
      * apply IH. by left.
      * apply Htr with x; [|done]. apply IH. by left.
    + assert (Hzx : le z x = true) by (destruct (Htot x z); congruence).
      intros [<-|[<-|Hy]]; [| |apply IH; by right].
      * apply Htr with z; [|done]. apply IH. by left.
      * apply IH. by left.
Qed.

Lemma fold_max_ge ids x : In x ids -> x <= fold_right Z.max 0 ids.
Proof.
  induction ids as [|y ids IH]; cbn; [done|]. intros [->|Hx]; [lia|]. apply IH in Hx. lia.
Qed.

#[export] Instance in_order_laws : PrismaLaws in_order.
Proof.
  split; cbn; intros.
  - done.
  - by apply find_Some_In.
  - by apply (find_None_In p t).
  - destruct (filterb p t) as [|z l] eqn:E; simplify_eq.
    apply filterb_In. rewrite E. apply min_by_In.
  - destruct (filterb p t) as [|z l] eqn:E; simplify_eq.
    apply min_by_least; [done|]. rewrite <- E. by apply filterb_In.
  - destruct (filterb p t) as [|z l] eqn:E; [|done].
    destruct (p x) eqn:Ep; [|done].
    assert (Hf : In x (filterb p t)) by by apply filterb_In. by rewrite E in Hf.
  - done.
  - done.
  - by apply Zle_lt_succ, fold_max_ge.
Qed.
