(* ===== verification/OrderStatus.v ===== *)
(** Broker-order statuses and the entry-exposure claim state machine:
    services/broker-order-lifecycle-status.service.ts and
    services/entry-lifecycle-status.service.ts. *)

From Stdlib Require Import ZArith Lia.
From Stdlib Require Import Strings.String.
From stdpp Require Import base list sets strings.
From S2P Require Import Prelude JsValue.

Open Scope string_scope.

(** * Broker order statuses *)

Definition TERMINAL_BROKER_ORDER_STATUSES : list string :=
  ["filled"; "canceled"; "expired"; "rejected"; "replaced"; "done_for_day"; "calculated"].

Definition normalizeBrokerOrderStatus (status : string) : string :=
  let normalized := to_lower (trim status) in
  if String.eqb normalized "cancelled" then "canceled" else normalized.

Definition isTerminalBrokerOrderStatus (status : string) : bool :=
  member (normalizeBrokerOrderStatus status) TERMINAL_BROKER_ORDER_STATUSES.

Definition isNonterminalBrokerOrderStatus (status : string) : bool :=
  negb (isTerminalBrokerOrderStatus status).

(** The same notion as a database filter: [notIn] over the stored text. *)
Definition NONTERMINAL_BROKER_ORDER_PRISMA_FILTER (status : string) : bool :=
  negb (member status (TERMINAL_BROKER_ORDER_STATUSES ++ ["cancelled"])).

(** * Entry lifecycle *)

Definition UNRESOLVED_ORDER_INTENT_STATUSES : list string :=
  ["received"; "pending"; "submitting"; "submitted"].

Definition BROKER_ACTIVE_ENTRY_STATUSES : list string :=
  ["received"; "pending"; "submitting"; "submitted"; "new"; "accepted"; "pending_new";
   "accepted_for_bidding"; "held"; "pending_cancel"; "pending_replace";
   "partially_filled"; "stopped"; "suspended"].

Definition TERMINAL_ENTRY_ORDER_STATUSES : list string :=
  ["filled"; "canceled"; "cancelled"; "expired"; "rejected"; "replaced"; "done_for_day";
   "calculated"].

Inductive EntryExposureClaimStatus :=
| ENTRY_PENDING | ENTRY_SUBMITTING | BROKER_ORDER_ACTIVE | PARTIALLY_FILLED
| FILLED_AWAITING_POSITION | POSITION_OPEN | POSITION_CLOSING | ADMISSION_BLOCKED
| UNRESOLVED | RELEASED.

#[export] Instance claim_status_eq_dec : EqDecision EntryExposureClaimStatus.
Proof. solve_decision. Defined.

Definition CLAIM_STATUSES : list EntryExposureClaimStatus :=
  [ENTRY_PENDING; ENTRY_SUBMITTING; BROKER_ORDER_ACTIVE; PARTIALLY_FILLED;
   FILLED_AWAITING_POSITION; POSITION_OPEN; POSITION_CLOSING; ADMISSION_BLOCKED;
   UNRESOLVED; RELEASED].

(** The text stored in the claim's status column. *)
Definition claim_status_str (s : EntryExposureClaimStatus) : string :=
  match s with
  | ENTRY_PENDING => "ENTRY_PENDING"
  | ENTRY_SUBMITTING => "ENTRY_SUBMITTING"
  | BROKER_ORDER_ACTIVE => "BROKER_ORDER_ACTIVE"
  | PARTIALLY_FILLED => "PARTIALLY_FILLED"
  | FILLED_AWAITING_POSITION => "FILLED_AWAITING_POSITION"
  | POSITION_OPEN => "POSITION_OPEN"
  | POSITION_CLOSING => "POSITION_CLOSING"
  | ADMISSION_BLOCKED => "ADMISSION_BLOCKED"
  | UNRESOLVED => "UNRESOLVED"
  | RELEASED => "RELEASED"
  end.

(** [isEntryExposureClaimStatus] as the type guard it is: the status the text
    denotes, if any. *)
Definition claim_status_of (value : string) : option EntryExposureClaimStatus :=
  List.find (fun s => String.eqb (claim_status_str s) value) CLAIM_STATUSES.

Definition isEntryExposureClaimStatus (value : string) : bool :=
  member value (map claim_status_str CLAIM_STATUSES).

Definition transitions (from : EntryExposureClaimStatus) : list EntryExposureClaimStatus :=
  match from with
  | ENTRY_PENDING => [ENTRY_SUBMITTING; ADMISSION_BLOCKED; UNRESOLVED; RELEASED]
  | ENTRY_SUBMITTING => [BROKER_ORDER_ACTIVE; UNRESOLVED; RELEASED]
  | BROKER_ORDER_ACTIVE =>
      [PARTIALLY_FILLED; FILLED_AWAITING_POSITION; POSITION_OPEN; UNRESOLVED; RELEASED]
  | PARTIALLY_FILLED => [FILLED_AWAITING_POSITION; POSITION_OPEN; UNRESOLVED; RELEASED]
  | FILLED_AWAITING_POSITION => [POSITION_OPEN; UNRESOLVED; RELEASED]
  | POSITION_OPEN => [POSITION_CLOSING; UNRESOLVED; RELEASED]
  | POSITION_CLOSING => [POSITION_OPEN; UNRESOLVED; RELEASED]
  | ADMISSION_BLOCKED => [UNRESOLVED; RELEASED]
  | UNRESOLVED => []
  | RELEASED => []
  end.

Definition canTransitionEntryExposureClaim (from to : string) : bool :=
  String.eqb from to ||
  match claim_status_of from, claim_status_of to with
  | Some f, Some t => bool_decide (t ∈ transitions f)
  | _, _ => false
  end.

Definition isBuyIntent (side : string) : bool := String.eqb (to_lower (trim side)) "buy".
Definition isSellIntent (side : string) : bool := String.eqb (to_lower (trim side)) "sell".

(** * Lemmas *)

Lemma claim_status_of_str s : claim_status_of (claim_status_str s) = Some s.
Proof. by destruct s. Qed.

Lemma claim_status_of_some v s : claim_status_of v = Some s -> v = claim_status_str s.
Proof.
  unfold claim_status_of. intros H. apply List.find_some in H as [_ H].
  by apply String.eqb_eq in H.
Qed.

Lemma isEntryExposureClaimStatus_of v :
  isEntryExposureClaimStatus v = true <-> exists s, claim_status_of v = Some s.
Proof.
  unfold isEntryExposureClaimStatus. rewrite member_In, in_map_iff. split.
  - intros (s & <- & _). exists s. apply claim_status_of_str.
  - intros [s Hs]. exists s. split; [by rewrite (claim_status_of_some _ _ Hs)|].
    apply List.find_some in Hs as [Hs _]. done.
Qed.

Lemma canTransition_str f t :
  canTransitionEntryExposureClaim (claim_status_str f) (claim_status_str t) = true <->
  f = t \/ t ∈ transitions f.
Proof.
  unfold canTransitionEntryExposureClaim. rewrite !claim_status_of_str, orb_true_iff.
  rewrite bool_decide_eq_true, String.eqb_eq. split; intros [H|H]; auto.
  - left. assert (Some f = Some t) as [=]; [|done].
    rewrite <- !claim_status_of_str. by rewrite H.
  - left. by subst.
Qed.

Lemma lower_trim_cancelled s :
  to_lower (trim s) = s -> String.eqb s "cancelled" = false ->
  normalizeBrokerOrderStatus s = s.
Proof. unfold normalizeBrokerOrderStatus. intros -> ->. done. Qed.

(** A move of the state machine, and the statuses a claim can reach. *)
Definition claim_step (f t : EntryExposureClaimStatus) : Prop :=
  canTransitionEntryExposureClaim (claim_status_str f) (claim_status_str t) = true.

Inductive claim_reaches : EntryExposureClaimStatus -> EntryExposureClaimStatus -> Prop :=
| reaches_refl s : claim_reaches s s
| reaches_step s t u : claim_step s t -> claim_reaches t u -> claim_reaches s u.

(** How far an entry has progressed towards the broker: strictly increasing
    until a position exists. *)
Definition claim_rank (s : EntryExposureClaimStatus) : nat :=
  match s with
  | ENTRY_PENDING => 0
  | ENTRY_SUBMITTING => 1
  | ADMISSION_BLOCKED => 1
  | BROKER_ORDER_ACTIVE => 2
  | PARTIALLY_FILLED => 3
  | FILLED_AWAITING_POSITION => 4
  | POSITION_OPEN | POSITION_CLOSING => 5
  | UNRESOLVED => 6
  | RELEASED => 6
  end.

Lemma claim_step_rank f t : claim_step f t -> (claim_rank f <= claim_rank t)%nat.
Proof.
  unfold claim_step. rewrite canTransition_str. intros [->|H]; [done|].
  apply (bool_decide_eq_true_2 _) in H.
  destruct f, t; cbn; lia || discriminate H.
Qed.

Lemma claim_reaches_rank f t : claim_reaches f t -> (claim_rank f <= claim_rank t)%nat.
Proof.
  induction 1 as [s|s t u Hst _ IH]; [done|]. apply claim_step_rank in Hst. lia.
Qed.

Lemma terminal_reaches s t :
  s = UNRESOLVED \/ s = RELEASED -> claim_reaches s t -> t = s.
Proof.
  intros Hs H. induction H as [s|s t u Hst _ IH]; [done|].
  unfold claim_step in Hst. apply canTransition_str in Hst as [<-|Hin]; [by apply IH|].
  destruct Hs as [-> | ->]; cbn in Hin; by apply elem_of_nil in Hin.
Qed.

(** * Properties *)

(** The claim state machine never moves backwards: along any sequence of
    permitted transitions the claim's stage never decreases, so a claim that
    reached the broker or a position never returns to a pre-broker status, and
    UNRESOLVED and RELEASED are final, while from every other status a release
    is one permitted step away. *)
Theorem claim_state_machine_monotone s t (H : claim_reaches s t) :
  (claim_rank s <= claim_rank t)%nat /\
  (s = UNRESOLVED \/ s = RELEASED -> t = s) /\
  (t <> UNRESOLVED -> claim_step t RELEASED).
Proof.
  split; [by apply claim_reaches_rank|]. split; [intros Hs; by apply (terminal_reaches s t)|].
  intros Ht. apply canTransition_str. destruct t; try done; cbn; set_solver.
Qed.

Lemma claim_state_machine_monotone_witness :
  claim_reaches ENTRY_PENDING POSITION_OPEN /\
  (claim_rank ENTRY_PENDING <= claim_rank POSITION_OPEN)%nat.
Proof.
  assert (H : claim_reaches ENTRY_PENDING POSITION_OPEN).
  { apply reaches_step with ENTRY_SUBMITTING; [reflexivity|].
    apply reaches_step with BROKER_ORDER_ACTIVE; [reflexivity|].
    apply reaches_step with POSITION_OPEN; [reflexivity|]. apply reaches_refl. }
  split; [exact H|]. exact (proj1 (claim_state_machine_monotone _ _ H)).
Defined.

(** On stored statuses already in lower case and trimmed, the database
    filter used to count working broker orders agrees with the in-memory
    terminal test, the British spelling included. *)
Theorem nonterminal_filter_agrees s (H : to_lower (trim s) = s) :
  NONTERMINAL_BROKER_ORDER_PRISMA_FILTER s = isNonterminalBrokerOrderStatus s.
Proof.
  unfold NONTERMINAL_BROKER_ORDER_PRISMA_FILTER, isNonterminalBrokerOrderStatus,
    isTerminalBrokerOrderStatus. f_equal.
  destruct (String.eqb s "cancelled") eqn:E.
  - apply String.eqb_eq in E as ->. reflexivity.
  - rewrite lower_trim_cancelled by done. unfold member. rewrite existsb_app. cbn [existsb].
    rewrite E. by rewrite !orb_false_r.
Qed.

Lemma nonterminal_filter_agrees_witness :
  NONTERMINAL_BROKER_ORDER_PRISMA_FILTER "cancelled" = isNonterminalBrokerOrderStatus "cancelled".
Proof. apply nonterminal_filter_agrees. reflexivity. Defined.
