(* ===== verification/DeliveryEvidence.v ===== *)
(** Delivery evidence of an entry claim and the never-submitted release rule:
    services/entry-delivery-evidence.service.ts. *)

From Stdlib Require Import ZArith Lia.
From Stdlib Require Import Strings.String Strings.Ascii.
From stdpp Require Import base list sets strings.
From S2P Require Import Prelude JsNumber JsValue Prisma OrderStatus.

Open Scope string_scope.
Open Scope Z_scope.

(** * Vocabulary *)

Definition NOT_SENT_EVIDENCE_EVENT : string := "NOT_SENT_EVIDENCE_RECORDED".
Definition ADAPTER_INVOCATION_STARTED_EVENT : string := "ADAPTER_INVOCATION_STARTED".
Definition WORKER_CLAIMED_EVENT : string := "WORKER_CLAIMED_FOR_SUBMISSION".
Definition ADAPTER_MARKER_PROTOCOL : string := "ADAPTER_MARKER_V1".
Definition DISPATCH_OUTCOME_EVENT_TYPES : list string :=
  ["DISPATCH_OUTCOME_RECORDED"; "BROKER_DELIVERY_UNCERTAIN"].
Definition DELIVERY_EVIDENCE_EVENT_TYPES : list string :=
  DISPATCH_OUTCOME_EVENT_TYPES ++
  [NOT_SENT_EVIDENCE_EVENT; ADAPTER_INVOCATION_STARTED_EVENT; WORKER_CLAIMED_EVENT].

Definition RECOVERY_ATTEMPT_RESULT_EVENT_TYPES : list string :=
  ["DISPATCH_RECOVERY_RELEASE_BLOCKED"; "DISPATCH_RECOVERY_REVALIDATION_BLOCKED";
   "DISPATCH_RECOVERY_ERROR"; "RECOVERY_ATTEMPT_FAILED"; "UNSUBMITTED_RELEASE_REFUSED";
   "PRE_BOUNDARY_FAILURE_WITH_PRIOR_DISPATCH_RECORD"; "DISPATCH_RECOVERY_ATTEMPT_RESULT"].

Definition LOCAL_NON_SEND_CLASSIFICATIONS : list string :=
  ["NOT_SENT_PRE_DISPATCH"; "NOT_SENT_LOCAL_BLOCKED"; "NOT_SENT_LOCAL_RETRYABLE";
   "NOT_SENT_DISPATCH_RECORD_ACK_LOST"].

Inductive NotSentClassification :=
| NOT_SENT_PRE_DISPATCH | NOT_SENT_LOCAL_BLOCKED | NOT_SENT_LOCAL_RETRYABLE.

Definition not_sent_str (c : NotSentClassification) : string :=
  match c with
  | NOT_SENT_PRE_DISPATCH => "NOT_SENT_PRE_DISPATCH"
  | NOT_SENT_LOCAL_BLOCKED => "NOT_SENT_LOCAL_BLOCKED"
  | NOT_SENT_LOCAL_RETRYABLE => "NOT_SENT_LOCAL_RETRYABLE"
  end.

Inductive OutcomeObservation := OBSERVED | INFERRED.
Inductive OutcomeKind := OUTCOME | NOT_SENT | UNPAIRED_ADAPTER_MARKER.

#[export] Instance observation_eq_dec : EqDecision OutcomeObservation.
Proof. solve_decision. Defined.
#[export] Instance kind_eq_dec : EqDecision OutcomeKind.
Proof. solve_decision. Defined.

Record DeliveryEvidenceEvent := {
  ev_id : Z;
  ev_type : string;
  ev_json : json;
  ev_createdAt : Z
}.

Record DeliveryOutcome := {
  out_eventId : Z;
  out_kind : OutcomeKind;
  out_classification : string;
  out_statusCode : option num;
  out_observation : OutcomeObservation;
  (** Read from stored JSON without validation, hence any text. *)
  out_adapterInvocation : string;
  out_source : option string;
  out_recordedAt : Z
}.

(** * Reading one event *)

(** [record]: the value itself when it is an object, the empty object else. *)
Definition record_ (v : json) : json := match v with JObj _ => v | _ => JObj nil end.

Definition string_field (k : string) (v : json) : option string :=
  match jfield k v with Some (JStr s) => Some s | _ => None end.

(** [String(evidence[k] ?? d)] *)
Definition string_or (k d : string) (v : json) : string :=
  match jfield k v with
  | None | Some JNull => d
  | Some x => js_to_string x
  end.

Definition outcomeOf (event : DeliveryEvidenceEvent) : DeliveryOutcome :=
  let evidence := record_ (ev_json event) in
  if String.eqb (ev_type event) NOT_SENT_EVIDENCE_EVENT then
    {| out_eventId := ev_id event; out_kind := NOT_SENT;
       out_classification := string_or "classification" "NOT_SENT_PRE_DISPATCH" evidence;
       out_statusCode := None; out_observation := OBSERVED;
       out_adapterInvocation :=
         if bool_decide (string_field "adapterInvocation" evidence
                         = Some "LOCAL_GUARD_BEFORE_REQUEST")
         then "LOCAL_GUARD_BEFORE_REQUEST" else "NOT_INVOKED";
       out_source := string_field "source" evidence;
       out_recordedAt := ev_createdAt event |}
  else
    let legacyUncertain := String.eqb (ev_type event) "BROKER_DELIVERY_UNCERTAIN" in
    let classification :=
      if legacyUncertain then "DELIVERY_UNCERTAIN"
      else string_or "classification" "DISPATCH_OUTCOME_UNKNOWN" evidence in
    let source :=
      match string_field "source" evidence with
      | Some s => Some s
      | None => if legacyUncertain then Some "WORKER" else None
      end in
    let observation :=
      match string_field "observation" evidence with
      | Some "INFERRED" => INFERRED
      | Some "OBSERVED" => OBSERVED
      | _ => if bool_decide (source = Some "WORKER") then OBSERVED else INFERRED
      end in
    let adapterInvocation :=
      match string_field "adapterInvocation" evidence with
      | Some s => s
      | None =>
          if String.eqb classification "BROKER_REJECTED" then "HTTP_RESPONSE_RECEIVED"
          else if String.eqb classification "NOT_SENT_DISPATCH_RECORD_ACK_LOST" then "NOT_INVOKED"
          else if String.prefix "NOT_SENT_LOCAL" classification then "LOCAL_GUARD_BEFORE_REQUEST"
          else "UNKNOWN"
      end in
    {| out_eventId := ev_id event; out_kind := OUTCOME; out_classification := classification;
       out_statusCode :=
         match jfield "statusCode" evidence with Some (JNum n) => Some n | _ => None end;
       out_observation := observation; out_adapterInvocation := adapterInvocation;
       out_source := source; out_recordedAt := ev_createdAt event |}.

(** * Summary *)

Record DeliveryEvidenceSummary := {
  sum_outcomes : list DeliveryOutcome;
  sum_notSent : list DeliveryOutcome;
  sum_dispatchOutcomes : list DeliveryOutcome;
  sum_ambiguous : list DeliveryOutcome;
  sum_adapterMarkers : Z;
  sum_markerProtocol : bool;
  sum_adapterRequestObserved : bool
}.

Definition is_recorded (event : DeliveryEvidenceEvent) : bool :=
  member (ev_type event) DISPATCH_OUTCOME_EVENT_TYPES ||
  String.eqb (ev_type event) NOT_SENT_EVIDENCE_EVENT.

Definition is_marker (event : DeliveryEvidenceEvent) : bool :=
  String.eqb (ev_type event) ADAPTER_INVOCATION_STARTED_EVENT.

(** The markers not closed by a record before the next marker; [next] is the
    id of the following marker, none meaning infinity. *)
Fixpoint unpaired_markers (recorded : list DeliveryOutcome)
    (markers : list DeliveryEvidenceEvent) : list DeliveryEvidenceEvent :=
  match markers with
  | nil => nil
  | marker :: rest =>
      let closed := existsb (fun outcome =>
        (ev_id marker <? out_eventId outcome) &&
        match rest with
        | nil => true
        | next :: _ => out_eventId outcome <? ev_id next
        end) recorded in
      if closed then unpaired_markers recorded rest
      else marker :: unpaired_markers recorded rest
  end.

Definition unpaired_outcome (marker : DeliveryEvidenceEvent) : DeliveryOutcome :=
  {| out_eventId := ev_id marker; out_kind := UNPAIRED_ADAPTER_MARKER;
     out_classification := "DISPATCH_OUTCOME_UNKNOWN"; out_statusCode := None;
     out_observation := INFERRED; out_adapterInvocation := "UNKNOWN";
     out_source := Some "ADAPTER_INVOCATION_MARKER";
     out_recordedAt := ev_createdAt marker |}.

Definition is_ambiguous (outcome : DeliveryOutcome) : bool :=
  negb (member (out_classification outcome) LOCAL_NON_SEND_CLASSIFICATIONS).

Definition summarizeDeliveryEvidence (events : list DeliveryEvidenceEvent)
    : DeliveryEvidenceSummary :=
  let sorted := sort_by ev_id events in
  let recorded := map outcomeOf (filterb is_recorded sorted) in
  let markers := filterb is_marker sorted in
  let unpaired := map unpaired_outcome (unpaired_markers recorded markers) in
  let outcomes := sort_by out_eventId (recorded ++ unpaired) in
  {| sum_outcomes := outcomes;
     sum_notSent := filterb (fun o => bool_decide (out_kind o = NOT_SENT)) outcomes;
     sum_dispatchOutcomes := filterb (fun o => negb (bool_decide (out_kind o = NOT_SENT))) outcomes;
     sum_ambiguous := filterb is_ambiguous outcomes;
     sum_adapterMarkers := Z.of_nat (length markers);
     sum_markerProtocol := existsb (fun event =>
       String.eqb (ev_type event) WORKER_CLAIMED_EVENT &&
       bool_decide (string_field "markerProtocol" (record_ (ev_json event))
                    = Some ADAPTER_MARKER_PROTOCOL)) sorted;
     sum_adapterRequestObserved := existsb (fun o =>
       bool_decide (out_observation o = OBSERVED) &&
       member (out_adapterInvocation o) ["HTTP_RESPONSE_RECEIVED"; "UNKNOWN"]) outcomes |}.

(** * Block reasons *)

(** First match of [prefix:(alternative|...)] in a text. *)
Fixpoint match_prefixed (prefix : string) (alternatives : list string) (s : string)
    : option string :=
  match List.find (fun a => String.prefix (prefix ++ a) s) alternatives with
  | Some a => Some a
  | None =>
      match s with
      | EmptyString => None
      | String _ s' => match_prefixed prefix alternatives s'
      end
  end.

Definition DELIVERY_BLOCK_REASON : string -> option string :=
  match_prefixed "BROKER_WRITE_DELIVERY:"
    ["NOT_SENT_RETRYABLE"; "NOT_SENT_BLOCKED"; "BROKER_REJECTED"; "DELIVERY_UNCERTAIN"].

Definition UNKNOWN_OUTCOME_BLOCK_REASON (s : string) : bool :=
  String.prefix "DISPATCH_STARTED_OUTCOME_UNKNOWN" s ||
  String.prefix "STALE_SUBMISSION_OUTCOME_UNKNOWN" s.

Definition blockReasonDeliveryClassification (blockReason : option string) : option string :=
  blockReason ≫= DELIVERY_BLOCK_REASON.

Definition blockReasonCarriesDeliveryUncertainty (blockReason : option string) : bool :=
  let classification := blockReasonDeliveryClassification blockReason in
  bool_decide (classification = Some "BROKER_REJECTED") ||
  bool_decide (classification = Some "DELIVERY_UNCERTAIN") ||
  UNKNOWN_OUTCOME_BLOCK_REASON (default "" blockReason).

Definition preserveBlockReason (prior : option string) (next : string) : string :=
  if blockReasonCarriesDeliveryUncertainty prior then default next prior else next.

(** * The never-submitted release rule *)

Record ReleaseEvidence := {
  proven : bool;
  basis : option string;
  blocker : option string
}.

Definition evaluateNeverSubmittedRelease (claimStatus : string)
    (summary : DeliveryEvidenceSummary) (blockReason : option string) : ReleaseEvidence :=
  match sum_ambiguous summary with
  | _ :: _ => {| proven := false; basis := None; blocker := Some "DELIVERY_EVIDENCE_AMBIGUOUS" |}
  | nil =>
      if blockReasonCarriesDeliveryUncertainty blockReason then
        {| proven := false; basis := None; blocker := Some "BLOCK_REASON_DELIVERY_UNCERTAIN" |}
      else if member claimStatus ["ENTRY_PENDING"; "ADMISSION_BLOCKED"] &&
              (sum_adapterMarkers summary =? 0) then
        {| proven := true; basis := Some "CLAIM_NEVER_REACHED_BROKER_BOUNDARY"; blocker := None |}
      else match sum_notSent summary with
           | _ :: _ =>
               {| proven := true; basis := Some "RECORDED_NOT_SENT_EVIDENCE"; blocker := None |}
           | nil =>
               {| proven := false; basis := None;
                  blocker := Some "NOT_SENT_EVIDENCE_NOT_RECORDED" |}
           end
  end.

(** * The claim event table *)

Record EntryExposureClaimEvent := {
  ce_id : Z;
  ce_claimId : Z;
  ce_eventType : string;
  ce_evidenceJson : json;
  ce_createdAt : Z
}.

(** The columns [loadDeliveryEvidenceEvents] selects. *)
Definition evidence_event (r : EntryExposureClaimEvent) : DeliveryEvidenceEvent :=
  {| ev_id := ce_id r; ev_type := ce_eventType r; ev_json := ce_evidenceJson r;
     ev_createdAt := ce_createdAt r |}.

Section EventTable.
Context `{Prisma}.
Variable now : Z.
Implicit Types t : list EntryExposureClaimEvent.

(** [entryExposureClaimEvent.create] *)
Definition create_event (claimId : Z) (eventType : string) (evidence : json) t
    : list EntryExposureClaimEvent :=
  (t ++ [{| ce_id := next_id (map ce_id t); ce_claimId := claimId; ce_eventType := eventType;
           ce_evidenceJson := evidence; ce_createdAt := now |}])%list.

Definition recordAdapterInvocationStarted (claimId orderIntentId : Z) (clientOrderId : string) t :=
  create_event claimId ADAPTER_INVOCATION_STARTED_EVENT
    (JObj [("protocol", JStr ADAPTER_MARKER_PROTOCOL); ("orderIntentId", jint orderIntentId);
           ("clientOrderId", JStr clientOrderId)]) t.

Definition loadDeliveryEvidenceEvents (claimId : Z) t : list DeliveryEvidenceEvent :=
  map evidence_event (sort_by ce_id (find_many (fun r =>
    (ce_claimId r =? claimId) && member (ce_eventType r) DELIVERY_EVIDENCE_EVENT_TYPES) t)).

Definition appendNotSentEvidence (claimId orderIntentId : Z)
    (classification : NotSentClassification) (producer source reason : string)
    (message : option string) (proof : option json) t :=
  create_event claimId NOT_SENT_EVIDENCE_EVENT
    (JObj ([("classification", JStr (not_sent_str classification)); ("producer", JStr producer);
            ("source", JStr source); ("orderIntentId", jint orderIntentId);
            ("adapterInvocation",
              JStr (match classification with
                    | NOT_SENT_PRE_DISPATCH => "NOT_INVOKED"
                    | _ => "LOCAL_GUARD_BEFORE_REQUEST"
                    end));
            ("networkRequestIssued", JBool false); ("reason", JStr reason);
            ("message",
              match message with
              | Some m => if String.eqb m "" then JNull else JStr (String.substring 0 300 m)
              | None => JNull
              end);
            ("executionAuthority", JStr "NONE")] ++
           match proof with Some p => [("proof", p)] | None => nil end)%list) t.
End EventTable.

(** * Lemmas *)

Definition is_evidence (e : DeliveryEvidenceEvent) : bool :=
  member (ev_type e) DELIVERY_EVIDENCE_EVENT_TYPES.
#[local] Arguments is_evidence : simpl never.

(** The attempt started by a marker was closed: some record follows it and
    precedes every later marker. *)
Definition marker_closed (events : list DeliveryEvidenceEvent) (m : DeliveryEvidenceEvent) : Prop :=
  exists e, In e events /\ is_recorded e = true /\ ev_id m < ev_id e /\
    forall m', In m' events -> is_marker m' = true -> ev_id m < ev_id m' -> ev_id e < ev_id m'.

Lemma outcomeOf_id e : out_eventId (outcomeOf e) = ev_id e.
Proof. unfold outcomeOf. by destruct (String.eqb _ _). Qed.

Lemma outcomeOf_kind e :
  out_kind (outcomeOf e) =
  if String.eqb (ev_type e) NOT_SENT_EVIDENCE_EVENT then NOT_SENT else OUTCOME.
Proof. unfold outcomeOf. by destruct (String.eqb _ _). Qed.

Lemma unpaired_markers_In recorded ms m :
  NoDup (map ev_id ms) -> sorted_by ev_id ms ->
  In m (unpaired_markers recorded ms) <->
  In m ms /\ forall o, In o recorded -> ev_id m < out_eventId o ->
    exists m', In m' ms /\ ev_id m < ev_id m' /\ ev_id m' <= out_eventId o.
Proof.
  induction ms as [|x ms IH]; intros Hnd Hs; [cbn; tauto|].
  pose proof (sorted_head_unique _ _ _ Hnd Hs) as Hlt.
  cbn in Hnd. apply NoDup_cons in Hnd as [_ Hnd]. inversion Hs as [|? ? _ Hs']; subst.
  specialize (IH Hnd Hs').
  assert (Htail : forall o, In m ms ->
    (exists m', In m' ms /\ ev_id m < ev_id m' /\ ev_id m' <= out_eventId o) <->
    (exists m', In m' (x :: ms) /\ ev_id m < ev_id m' /\ ev_id m' <= out_eventId o)).
  { intros o Hin. split; intros (m' & Hm' & ?); exists m'; (split; [|done]).
    - by right.
    - destruct Hm' as [<-|]; [|done]. specialize (Hlt m Hin). lia. }
  assert (Hrest : In m ms -> In m (unpaired_markers recorded ms) <->
    In m (x :: ms) /\ forall o, In o recorded -> ev_id m < out_eventId o ->
      exists m', In m' (x :: ms) /\ ev_id m < ev_id m' /\ ev_id m' <= out_eventId o).
  { intros Hin. rewrite IH. split; intros [_ H]; (split; [first [by right | done]|]);
      intros o Ho Hlo; apply (Htail o Hin); auto. }
  cbn [unpaired_markers]. match goal with |- context [existsb ?f ?l] =>
    destruct (existsb f l) eqn:E end.
  - split; [intros H; apply Hrest; [by apply IH in H as [H _]|done]|].
    intros [Hin H]. destruct Hin as [->|Hin]; [exfalso|apply Hrest; [done|]; split; [by right|done]].
    apply existsb_exists in E as (o & Ho & E). bool_hyps.
    destruct (H o Ho ltac:(lia)) as (m' & [<-|Hm'] & ? & ?); [lia|].
    destruct ms as [|y ms]; [done|]. bool_hyps.
    destruct Hm' as [<-|Hm']; [lia|].
    pose proof (sorted_head_unique _ _ _ Hnd Hs' m' Hm'). lia.
  - cbn [In]. split.
    + intros [<-|H]; [|by apply Hrest; [apply IH in H as [H _]|]].
      split; [by left|]. intros o Ho Hlo.
      pose proof (proj1 (existsb_false_In _ _) E o Ho) as E'. cbn beta in E'.
      apply Z.ltb_lt in Hlo as Hlo'. rewrite Hlo' in E'. cbn in E'.
      destruct ms as [|y ms]; [done|]. bool_hyps.
      exists y. split; [by right; left|]. split; [apply Hlt; by left|done].
    + intros [[<-|Hin] H]; [by left|]. right. apply Hrest; [done|]. split; [by right|done].
Qed.

Lemma summary_ambiguous_nil events :
  NoDup (map ev_id events) ->
  sum_ambiguous (summarizeDeliveryEvidence events) = [] <->
  (forall e, In e events -> is_recorded e = true ->
     member (out_classification (outcomeOf e)) LOCAL_NON_SEND_CLASSIFICATIONS = true) /\
  (forall m, In m events -> is_marker m = true -> marker_closed events m).
Proof.
  intros Hnd. unfold summarizeDeliveryEvidence. cbn [sum_ambiguous].
  rewrite <- !(sort_by_filterb ev_id) by done.
  set (rec := map outcomeOf _). set (ms := sort_by ev_id (filterb is_marker events)).
  assert (Hms : forall m, In m ms <-> In m events /\ is_marker m = true)
    by (intros m; unfold ms; by rewrite sort_by_In, filterb_In).
  assert (Hrec : forall o, In o rec <->
    exists e, In e events /\ is_recorded e = true /\ o = outcomeOf e).
  { intros o. unfold rec. rewrite in_map_iff. setoid_rewrite sort_by_In.
    setoid_rewrite filterb_In. naive_solver. }
  assert (Hndm : NoDup (map ev_id ms)).
  { assert (Q : Permutation (map ev_id ms) (map ev_id (filterb is_marker events)))
      by apply Permutation_map, sort_by_perm.
    rewrite Q. by apply NoDup_map_filterb. }
  assert (Hsm : sorted_by ev_id ms) by apply sort_by_sorted.
  assert (Hnil : forall l : list DeliveryOutcome, l = [] <-> forall o, ~ In o l).
  { intros [|o l]; [naive_solver|]. split; [done|]. intros H. destruct (H o). by left. }
  rewrite Hnil. setoid_rewrite filterb_In. setoid_rewrite sort_by_In.
  setoid_rewrite in_app_iff. setoid_rewrite Hrec.
  split.
  - intros H. split.
    + intros e He Hr. destruct (member _ _) eqn:E; [done|]. exfalso.
      apply (H (outcomeOf e)). split; [left; by exists e|]. unfold is_ambiguous. by rewrite E.
    + intros m Hm Hmk.
      destruct (existsb (fun o => (ev_id m <? out_eventId o) &&
        forallb (fun m' => negb (ev_id m <? ev_id m') || (out_eventId o <? ev_id m')) ms) rec) eqn:E.
      * apply existsb_exists in E as (o & Ho & E). bool_hyps.
        apply Hrec in Ho as (e & He & Hr & ->). rewrite outcomeOf_id in *.
        exists e. do 3 (split; [done|]). intros m' Hm' Hk Hlt.
        pose proof (proj1 (forallb_forall _ _) H1 m' (proj2 (Hms m') (conj Hm' Hk))) as G.
        apply Z.ltb_lt in Hlt. cbn beta in G. rewrite Hlt in G. cbn in G. by bool_hyps.
      * exfalso. apply (H (unpaired_outcome m)). split; [|done]. right. apply in_map.
        apply unpaired_markers_In; [done|done|]. split; [by apply Hms|].
        intros o Ho Hlo. pose proof (proj1 (existsb_false_In _ _) E o Ho) as E'.
        apply Z.ltb_lt in Hlo. cbn beta in E'. rewrite Hlo in E'. cbn in E'.
        apply not_true_iff_false in E'. rewrite forallb_forall in E'.
        destruct (existsb (fun m' => (ev_id m <? ev_id m') && negb (out_eventId o <? ev_id m')) ms)
          eqn:Ex.
        -- apply existsb_exists in Ex as (m' & Hm' & Ex). bool_hyps. by exists m'.
        -- destruct E'. intros m' Hm'. pose proof (proj1 (existsb_false_In _ _) Ex m' Hm') as G.
           cbn beta in G. by destruct (ev_id m <? ev_id m'), (out_eventId o <? ev_id m').
  - intros [H1 H2] o [Hin Hamb]. destruct Hin as [(e & He & Hr & ->)|Hin].
    + unfold is_ambiguous in Hamb. by rewrite H1 in Hamb.
    + apply in_map_iff in Hin as (m & <- & Hm).
      apply unpaired_markers_In in Hm as [Hm Hopen]; [|done|done].
      apply Hms in Hm as [Hm Hk]. destruct (H2 m Hm Hk) as (e & He & Hr & Hlt & Hnext).
      destruct (Hopen (outcomeOf e)) as (m' & Hm' & ? & Hle).
      { apply Hrec. by exists e. } { by rewrite outcomeOf_id. }
      apply Hms in Hm' as [? ?]. rewrite outcomeOf_id in Hle.
      specialize (Hnext m' ltac:(done) ltac:(done) ltac:(done)). lia.
Qed.

(** The condition of the never-submitted release, stated on the events:
    no record leaves a request possible, every adapter invocation was closed
    by a record of its own attempt, the block reason carries no uncertainty,
    and either the claim never reached the broker boundary or a not-sent
    record exists. *)
Definition never_submitted (events : list DeliveryEvidenceEvent) (claimStatus : string)
    (blockReason : option string) : Prop :=
  (forall e, In e events -> is_recorded e = true ->
     member (out_classification (outcomeOf e)) LOCAL_NON_SEND_CLASSIFICATIONS = true) /\
  (forall m, In m events -> is_marker m = true -> marker_closed events m) /\
  blockReasonCarriesDeliveryUncertainty blockReason = false /\
  ((member claimStatus ["ENTRY_PENDING"; "ADMISSION_BLOCKED"] = true /\
    forall m, In m events -> is_marker m = false) \/
   exists e, In e events /\ ev_type e = NOT_SENT_EVIDENCE_EVENT).

Lemma no_markers_zero events :
  sum_adapterMarkers (summarizeDeliveryEvidence events) = 0 <->
  forall m, In m events -> is_marker m = false.
Proof.
  cbn [sum_adapterMarkers summarizeDeliveryEvidence].
  split.
  - intros H m Hm. destruct (is_marker m) eqn:E; [|done].
    assert (Hin : In m (filterb is_marker (sort_by ev_id events)))
      by (apply filterb_In; by rewrite sort_by_In).
    destruct (filterb _ _); [done|]. cbn in H. lia.
  - intros H. destruct (filterb is_marker (sort_by ev_id events)) as [|m l] eqn:E; [done|].
    assert (Hin : In m (filterb is_marker (sort_by ev_id events))) by (rewrite E; by left).
    apply filterb_In in Hin as [Hin Hm]. apply sort_by_In in Hin. by rewrite H in Hm.
Qed.

Lemma no_not_sent events :
  sum_notSent (summarizeDeliveryEvidence events) = [] <->
  forall e, In e events -> ev_type e <> NOT_SENT_EVIDENCE_EVENT.
Proof.
  cbn [sum_notSent summarizeDeliveryEvidence].
  match goal with |- filterb ?p ?l = [] <-> _ =>
    assert (Hnil : filterb p l = [] <-> forall o, In o l -> p o = false) end.
  { match goal with |- filterb ?p ?l = [] <-> _ => destruct (filterb p l) as [|x k] eqn:E end.
    - split; [|done]. intros _ o Ho. apply not_true_is_false. intros Hp.
      match type of E with ?f = _ => assert (Hin : In o f) by by apply filterb_In end.
      by rewrite E in Hin.
    - split; [done|]. intros H. exfalso.
      match type of E with ?f = _ => assert (Hin : In x f) by (rewrite E; by left) end.
      apply filterb_In in Hin as [Hin Hp]. by rewrite H in Hp. }
  rewrite Hnil. setoid_rewrite sort_by_In. setoid_rewrite in_app_iff.
  setoid_rewrite in_map_iff. setoid_rewrite filterb_In. setoid_rewrite sort_by_In. split.
  - intros H e He Ht. specialize (H (outcomeOf e)). rewrite outcomeOf_kind, Ht in H.
    discriminate H. left. exists e. split; [done|]. split; [done|].
    unfold is_recorded. rewrite Ht. reflexivity.
  - intros H o [(e & <- & He & _)|(m & <- & _)]; [|done].
    rewrite outcomeOf_kind. destruct (String.eqb _ _) eqn:E; [|done].
    apply String.eqb_eq in E. by destruct (H e He).
Qed.

Lemma some_not_sent events o l :
  sum_notSent (summarizeDeliveryEvidence events) = o :: l ->
  exists e, In e events /\ ev_type e = NOT_SENT_EVIDENCE_EVENT.
Proof.
  intros Hs. destruct (existsb (fun e => String.eqb (ev_type e) NOT_SENT_EVIDENCE_EVENT) events) eqn:Ex.
  - apply existsb_exists in Ex as (e & He & Ht). apply String.eqb_eq in Ht. by exists e.
  - assert (H : sum_notSent (summarizeDeliveryEvidence events) = []); [|by rewrite Hs in H].
    apply no_not_sent. intros e He Ht.
    pose proof (proj1 (existsb_false_In _ _) Ex e He) as E'. cbn beta in E'.
    by apply String.eqb_neq in E'.
Qed.

Lemma filterb_evidence p l l' :
  (forall e, p e = true -> is_evidence e = true) ->
  filterb is_evidence l = filterb is_evidence l' -> filterb p l = filterb p l'.
Proof.
  intros Hp E.
  assert (G : forall k, filterb p k = filterb p (filterb is_evidence k)); [|by rewrite (G l), (G l'), E].
  unfold filterb. induction k as [|e k IH]; cbn; [done|]. destruct (is_evidence e) eqn:Ee; cbn; [by rewrite IH|].
  destruct (p e) eqn:Ep; [by rewrite Hp in Ee|done].
Qed.

Lemma existsb_evidence p l l' :
  (forall e, p e = true -> is_evidence e = true) ->
  filterb is_evidence l = filterb is_evidence l' -> existsb p l = existsb p l'.
Proof.
  intros Hp E.
  assert (G : forall k, existsb p k = existsb p (filterb is_evidence k)); [|by rewrite (G l), (G l'), E].
  unfold filterb. induction k as [|e k IH]; cbn; [done|]. destruct (is_evidence e) eqn:Ee; cbn; [by rewrite IH|].
  destruct (p e) eqn:Ep; [by rewrite Hp in Ee|done].
Qed.

Lemma evidence_type_In e : is_evidence e = true <-> In (ev_type e) DELIVERY_EVIDENCE_EVENT_TYPES.
Proof. apply member_In. Qed.

Lemma recorded_evidence e : is_recorded e = true -> is_evidence e = true.
Proof.
  unfold is_recorded. rewrite evidence_type_In. intros H. apply orb_prop in H as [H|H].
  - apply in_or_app. left. by apply member_In.
  - apply String.eqb_eq in H as ->. apply member_In. reflexivity.
Qed.

Lemma typed_evidence e t :
  member t DELIVERY_EVIDENCE_EVENT_TYPES = true -> String.eqb (ev_type e) t = true ->
  is_evidence e = true.
Proof. intros Ht E. apply String.eqb_eq in E. unfold is_evidence. by rewrite E. Qed.

Lemma marker_evidence e : is_marker e = true -> is_evidence e = true.
Proof. by apply typed_evidence. Qed.

Lemma release_rule_exact events claimStatus blockReason
    (Hids : NoDup (map ev_id events)) :
  proven (evaluateNeverSubmittedRelease claimStatus (summarizeDeliveryEvidence events) blockReason)
    = true <->
  never_submitted events claimStatus blockReason.
Proof.
  unfold never_submitted.
  pose proof (summary_ambiguous_nil events Hids) as Ha.
  pose proof (no_markers_zero events) as Hm. pose proof (no_not_sent events) as Hn.
  pose proof (some_not_sent events) as Hs.
  unfold evaluateNeverSubmittedRelease.
  destruct (sum_ambiguous (summarizeDeliveryEvidence events)); cbn [proven]; [|naive_solver].
  destruct (blockReasonCarriesDeliveryUncertainty blockReason); cbn [proven]; [naive_solver|].
  destruct (member claimStatus _), (Z.eqb_spec (sum_adapterMarkers
    (summarizeDeliveryEvidence events)) 0), (sum_notSent (summarizeDeliveryEvidence events));
    cbn [andb proven]; naive_solver.
Qed.

(** * Properties *)

(** C16. The never-submitted release is exactly justified by the recorded
    evidence: [evaluateNeverSubmittedRelease] answers "proven" if and only if
    every recorded outcome is a local non-send, every adapter invocation
    marker is closed by a record of its own attempt, the block reason carries
    no delivery uncertainty, and the claim never reached the broker boundary
    or a not-sent record exists. *)
Theorem never_submitted_release_exact events claimStatus blockReason
    (Hids : NoDup (map ev_id events)) :
  proven (evaluateNeverSubmittedRelease claimStatus (summarizeDeliveryEvidence events) blockReason)
    = true <->
  never_submitted events claimStatus blockReason.
Proof. by apply release_rule_exact. Qed.

Definition sample_events : list DeliveryEvidenceEvent :=
  [{| ev_id := 9; ev_type := NOT_SENT_EVIDENCE_EVENT;
      ev_json := JObj [("classification", JStr "NOT_SENT_LOCAL_BLOCKED")]; ev_createdAt := 90 |};
   {| ev_id := 4; ev_type := ADAPTER_INVOCATION_STARTED_EVENT; ev_json := JNull;
      ev_createdAt := 40 |}].

Definition unrelated_event : DeliveryEvidenceEvent :=
  {| ev_id := 7; ev_type := "CLAIM_ACQUIRED"; ev_json := JNull; ev_createdAt := 70 |}.

Lemma never_submitted_release_exact_witness :
  never_submitted sample_events "ENTRY_SUBMITTING" None.
Proof.
  apply never_submitted_release_exact.
  - apply (bool_decide_eq_true_1 _). vm_compute. reflexivity.
  - vm_compute. reflexivity.
Defined.

(** The summary depends only on the set of evidence events: not on the
    order in which they were read, and not on events of other types mixed in. *)
Theorem summary_order_independent events events'
    (Hids : NoDup (map ev_id events)) (Hids' : NoDup (map ev_id events'))
    (Hsame : Permutation (filterb is_evidence events) (filterb is_evidence events')) :
  summarizeDeliveryEvidence events = summarizeDeliveryEvidence events'.
Proof.
  assert (E : filterb is_evidence (sort_by ev_id events)
            = filterb is_evidence (sort_by ev_id events')).
  { rewrite <- !sort_by_filterb by done. apply sort_by_permutation; [|done].
    by apply NoDup_map_filterb. }
  unfold summarizeDeliveryEvidence.
  rewrite (filterb_evidence is_recorded _ _ recorded_evidence E).
  rewrite (filterb_evidence is_marker _ _ marker_evidence E).
  f_equal. apply existsb_evidence; [|done].
  intros e H. bool_hyps. by apply (typed_evidence e WORKER_CLAIMED_EVENT).
Qed.

Lemma summary_order_independent_witness :
  summarizeDeliveryEvidence sample_events
  = summarizeDeliveryEvidence (unrelated_event :: rev sample_events).
Proof.
  apply summary_order_independent.
  - apply (bool_decide_eq_true_1 _). vm_compute. reflexivity.
  - apply (bool_decide_eq_true_1 _). vm_compute. reflexivity.
  - apply Permutation_swap.
Defined.

(** A block reason that carries delivery uncertainty survives every later
    block: whatever sequence of new reasons is written through
    [preserveBlockReason], the first uncertain reason is the one that stays. *)
Theorem uncertainty_never_overwritten prior nexts
    (Hu : blockReasonCarriesDeliveryUncertainty (Some prior) = true) :
  fold_left (fun reason next => Some (preserveBlockReason reason next)) nexts (Some prior)
    = Some prior /\
  forall events claimStatus,
    proven (evaluateNeverSubmittedRelease claimStatus (summarizeDeliveryEvidence events)
      (fold_left (fun reason next => Some (preserveBlockReason reason next)) nexts (Some prior)))
    = false.
Proof.
  assert (E : fold_left (fun reason next => Some (preserveBlockReason reason next)) nexts
    (Some prior) = Some prior).
  { induction nexts as [|n nexts IH]; cbn [fold_left]; [done|].
    unfold preserveBlockReason at 2. rewrite Hu. exact IH. }
  split; [exact E|]. intros events st. rewrite E. unfold evaluateNeverSubmittedRelease.
  rewrite Hu. by destruct (sum_ambiguous _).
Qed.

Lemma uncertainty_never_overwritten_witness :
  Some (preserveBlockReason (Some "STALE_SUBMISSION_OUTCOME_UNKNOWN: attempt 2") "RISK_BLOCKED")
  = Some "STALE_SUBMISSION_OUTCOME_UNKNOWN: attempt 2".
Proof.
  exact (proj1 (uncertainty_never_overwritten
    "STALE_SUBMISSION_OUTCOME_UNKNOWN: attempt 2" ["RISK_BLOCKED"] eq_refl)).
Defined.
