(* ===== verification/Schema.v ===== *)
(** Rows of the database the entry pipeline reads and writes
    (prisma/schema.prisma): one record per model with the columns the modelled
    services use, nullable columns as options, and the tables as one state. *)

From Stdlib Require Import ZArith.
From Stdlib Require Import Strings.String.
From Stdlib Require Import Floats.SpecFloat.
From stdpp Require Import base list strings.
From S2P Require Import Prelude JsNumber JsValue OrderStatus DeliveryEvidence.

Open Scope string_scope.
Open Scope Z_scope.

Record Security := { sec_id : Z; sec_symbol : string; sec_enabled : bool }.

Record Strategy := { strat_key : string; strat_enabled : bool }.

Record ExitProfileRow := {
  exit_key : string;
  exit_enabled : bool;
  exit_exitMode : string;
  exit_takeProfitBehavior : string;
  exit_targetPct : option num;
  exit_stopLossPct : option num;
  exit_trailingStopPct : option num
}.

(** A subscription with the relations the services include. *)
Record Subscription := {
  sub_id : Z;
  sub_key : string;
  sub_enabled : bool;
  sub_strategy : Strategy;
  sub_exitProfile : ExitProfileRow;
  sub_security : Security
}.

Record TradingAccount := {
  ta_id : Z;
  ta_displayName : string;
  ta_broker : string;
  ta_environment : string;
  ta_status : string;
  (** The status of its credential row, when it has one. *)
  ta_credentialStatus : option string;
  ta_maxDeployableNotional : option num
}.

Record TradingAccountRiskSettings := {
  rs_tradingAccountId : Z;
  rs_enabled : bool;
  rs_maxDailyEntryOrders : option num;
  rs_maxDailyEntryNotional : option num;
  rs_maxOpenPositions : option num;
  rs_maxTotalOpenNotional : option num;
  rs_maxSymbolOpenNotional : option num;
  rs_maxSubscriptionOpenNotional : option num
}.

Record TradingAccountAllocation := {
  al_id : Z;
  al_key : string;
  al_name : string;
  al_enabled : bool;
  al_maxAllocatedNotional : option num;
  al_maxOpenPositions : option num;
  al_maxPositionNotional : option num
}.

(** An account subscription with its allocation. *)
Record TradingAccountSubscription := {
  tas_id : Z;
  tas_tradingAccountId : Z;
  tas_subscriptionId : Z;
  tas_allocationId : option Z;
  tas_allocation : option TradingAccountAllocation;
  tas_enabled : bool;
  tas_entriesEnabled : bool;
  tas_exitsEnabled : bool;
  tas_reservedNotional : option num
}.

Record OrderIntent := {
  oi_id : Z;
  oi_source : string;
  oi_symbol : string;
  oi_side : string;
  oi_orderType : string;
  oi_timeInForce : string;
  oi_qty : option num;
  oi_notional : option num;
  oi_limitPrice : option num;
  oi_clientOrderId : option string;
  oi_status : string;
  oi_blockReason : option string;
  oi_rawRequestJson : json;
  oi_createdAt : Z;
  oi_updatedAt : Z;
  oi_subscriptionId : option Z;
  oi_subscriptionKey : option string;
  oi_trackedPositionId : option Z;
  oi_tradingAccountId : option Z;
  oi_tradingAccountSubscriptionId : option Z;
  oi_liveEntryAcceptanceRunId : option Z;
  oi_lastSubmittedOrderSyncAt : option Z
}.

Record BrokerOrder := {
  bo_id : Z;
  bo_orderIntentId : Z;
  bo_broker : string;
  bo_brokerOrderId : string;
  bo_clientOrderId : string;
  bo_symbol : string;
  bo_side : string;
  bo_status : string;
  bo_securityId : Z;
  bo_trackedPositionId : option Z;
  bo_tradingAccountId : option Z;
  bo_rawBrokerJson : json;
  bo_createdAt : Z
}.

Record BrokerActivity := {
  ba_id : Z;
  ba_activityType : string;
  ba_qty : option num;
  ba_orderIntentId : option Z;
  ba_brokerOrderRecordId : option Z;
  ba_trackedPositionId : option Z;
  ba_tradingAccountId : option Z;
  ba_side : option string;
  ba_symbol : option string;
  ba_transactionTime : option Z
}.

Record TrackedPosition := {
  tp_id : Z;
  tp_symbol : string;
  tp_side : string;
  tp_qty : num;
  tp_marketValue : num;
  tp_costBasis : num;
  tp_currentPrice : num;
  tp_unrealizedPnLPct : option num;
  tp_status : string;
  tp_securityId : Z;
  tp_subscriptionId : option Z;
  tp_tradingAccountId : option Z;
  tp_tradingAccountSubscriptionId : option Z
}.

Record EntryExposureClaim := {
  cl_id : Z;
  cl_tradingAccountId : Z;
  cl_securityId : Z;
  cl_orderIntentId : option Z;
  cl_trackedPositionId : option Z;
  cl_ownerKey : string;
  cl_status : string;
  cl_acquiredAt : Z;
  cl_releasedAt : option Z;
  cl_releaseReason : option string;
  cl_lastDiagnosedAt : option Z
}.

(** Rows that evidence a dispatch of an intent: broker-opportunity events,
    consumed dispatch authorizations, unenforced dispatches and terminations of
    a live arming. *)
Record BrokerOpportunityEvent := { oe_orderIntentId : Z; oe_eventType : string }.

(** The decision a consumption consumes. *)
Record DispatchDecision := {
  dd_id : Z;
  dd_outcome : string;
  dd_orderIntentId : Z;
  dd_tradingAccountId : Z;
  dd_securityId : option Z;
  dd_clientOrderId : string
}.

Record DispatchConsumption := {
  dc_id : Z;
  dc_orderIntentId : Z;
  dc_clientOrderId : string;
  dc_consumedAt : Z;
  dc_decision : DispatchDecision
}.

Record UnenforcedDispatch := {
  ud_id : Z;
  ud_orderIntentId : Z;
  ud_clientOrderId : string;
  ud_tradingAccountId : Z;
  ud_securityId : Z;
  ud_basis : string;
  ud_authorizedAt : Z
}.

Record LiveArmingTermination := {
  lt_id : Z;
  lt_liveEntryArmingId : Z;
  lt_type : string;
  lt_orderIntentId : option Z;
  lt_clientOrderId : option string;
  lt_occurredAt : Z
}.

(** A one-shot live entry acceptance run. *)
Record LiveEntryAcceptanceRun := {
  la_id : Z;
  la_executionClaimedAt : option Z;
  la_executionUncertainAt : option Z;
  la_executionFailureJson : option json;
  la_terminalAt : option Z
}.

Record Db := {
  securities : list Security;
  subscriptions : list Subscription;
  tradingAccounts : list TradingAccount;
  riskSettings : list TradingAccountRiskSettings;
  accountSubscriptions : list TradingAccountSubscription;
  orderIntents : list OrderIntent;
  brokerOrders : list BrokerOrder;
  brokerActivities : list BrokerActivity;
  trackedPositions : list TrackedPosition;
  claims : list EntryExposureClaim;
  claimEvents : list EntryExposureClaimEvent;
  opportunityEvents : list BrokerOpportunityEvent;
  dispatchConsumptions : list DispatchConsumption;
  unenforcedDispatches : list UnenforcedDispatch;
  armingTerminations : list LiveArmingTermination;
  acceptanceRuns : list LiveEntryAcceptanceRun
}.

Definition set_claims (f : list EntryExposureClaim -> list EntryExposureClaim) (db : Db) : Db :=
  {| securities := securities db; subscriptions := subscriptions db;
     tradingAccounts := tradingAccounts db; riskSettings := riskSettings db;
     accountSubscriptions := accountSubscriptions db; orderIntents := orderIntents db;
     brokerOrders := brokerOrders db; brokerActivities := brokerActivities db;
     trackedPositions := trackedPositions db; claims := f (claims db);
     claimEvents := claimEvents db; opportunityEvents := opportunityEvents db;
     dispatchConsumptions := dispatchConsumptions db;
     unenforcedDispatches := unenforcedDispatches db;
     armingTerminations := armingTerminations db; acceptanceRuns := acceptanceRuns db |}.

Definition set_claimEvents (f : list EntryExposureClaimEvent -> list EntryExposureClaimEvent)
    (db : Db) : Db :=
  {| securities := securities db; subscriptions := subscriptions db;
     tradingAccounts := tradingAccounts db; riskSettings := riskSettings db;
     accountSubscriptions := accountSubscriptions db; orderIntents := orderIntents db;
     brokerOrders := brokerOrders db; brokerActivities := brokerActivities db;
     trackedPositions := trackedPositions db; claims := claims db;
     claimEvents := f (claimEvents db); opportunityEvents := opportunityEvents db;
     dispatchConsumptions := dispatchConsumptions db;
     unenforcedDispatches := unenforcedDispatches db;
     armingTerminations := armingTerminations db; acceptanceRuns := acceptanceRuns db |}.

Definition set_orderIntents (f : list OrderIntent -> list OrderIntent) (db : Db) : Db :=
  {| securities := securities db; subscriptions := subscriptions db;
     tradingAccounts := tradingAccounts db; riskSettings := riskSettings db;
     accountSubscriptions := accountSubscriptions db; orderIntents := f (orderIntents db);
     brokerOrders := brokerOrders db; brokerActivities := brokerActivities db;
     trackedPositions := trackedPositions db; claims := claims db;
     claimEvents := claimEvents db; opportunityEvents := opportunityEvents db;
     dispatchConsumptions := dispatchConsumptions db;
     unenforcedDispatches := unenforcedDispatches db;
     armingTerminations := armingTerminations db; acceptanceRuns := acceptanceRuns db |}.

Definition set_brokerOrders (f : list BrokerOrder -> list BrokerOrder) (db : Db) : Db :=
  {| securities := securities db; subscriptions := subscriptions db;
     tradingAccounts := tradingAccounts db; riskSettings := riskSettings db;
     accountSubscriptions := accountSubscriptions db; orderIntents := orderIntents db;
     brokerOrders := f (brokerOrders db); brokerActivities := brokerActivities db;
     trackedPositions := trackedPositions db; claims := claims db;
     claimEvents := claimEvents db; opportunityEvents := opportunityEvents db;
     dispatchConsumptions := dispatchConsumptions db;
     unenforcedDispatches := unenforcedDispatches db;
     armingTerminations := armingTerminations db; acceptanceRuns := acceptanceRuns db |}.

Definition set_trackedPositions (f : list TrackedPosition -> list TrackedPosition) (db : Db) : Db :=
  {| securities := securities db; subscriptions := subscriptions db;
     tradingAccounts := tradingAccounts db; riskSettings := riskSettings db;
     accountSubscriptions := accountSubscriptions db; orderIntents := orderIntents db;
     brokerOrders := brokerOrders db; brokerActivities := brokerActivities db;
     trackedPositions := f (trackedPositions db); claims := claims db;
     claimEvents := claimEvents db; opportunityEvents := opportunityEvents db;
     dispatchConsumptions := dispatchConsumptions db;
     unenforcedDispatches := unenforcedDispatches db;
     armingTerminations := armingTerminations db; acceptanceRuns := acceptanceRuns db |}.

Definition set_opportunityEvents (f : list BrokerOpportunityEvent -> list BrokerOpportunityEvent)
    (db : Db) : Db :=
  {| securities := securities db; subscriptions := subscriptions db;
     tradingAccounts := tradingAccounts db; riskSettings := riskSettings db;
     accountSubscriptions := accountSubscriptions db; orderIntents := orderIntents db;
     brokerOrders := brokerOrders db; brokerActivities := brokerActivities db;
     trackedPositions := trackedPositions db; claims := claims db;
     claimEvents := claimEvents db; opportunityEvents := f (opportunityEvents db);
     dispatchConsumptions := dispatchConsumptions db;
     unenforcedDispatches := unenforcedDispatches db;
     armingTerminations := armingTerminations db; acceptanceRuns := acceptanceRuns db |}.

Definition set_acceptanceRuns (f : list LiveEntryAcceptanceRun -> list LiveEntryAcceptanceRun)
    (db : Db) : Db :=
  {| securities := securities db; subscriptions := subscriptions db;
     tradingAccounts := tradingAccounts db; riskSettings := riskSettings db;
     accountSubscriptions := accountSubscriptions db; orderIntents := orderIntents db;
     brokerOrders := brokerOrders db; brokerActivities := brokerActivities db;
     trackedPositions := trackedPositions db; claims := claims db;
     claimEvents := claimEvents db; opportunityEvents := opportunityEvents db;
     dispatchConsumptions := dispatchConsumptions db;
     unenforcedDispatches := unenforcedDispatches db;
     armingTerminations := armingTerminations db; acceptanceRuns := f (acceptanceRuns db) |}.

Definition empty_db : Db :=
  {| securities := []; subscriptions := []; tradingAccounts := []; riskSettings := [];
     accountSubscriptions := []; orderIntents := []; brokerOrders := []; brokerActivities := [];
     trackedPositions := []; claims := []; claimEvents := [];
     opportunityEvents := []; dispatchConsumptions := []; unenforcedDispatches := [];
     armingTerminations := []; acceptanceRuns := [] |}.

(** Nullable column equality, [where: { column: value }]. *)
Definition opt_eqb {A} `{EqDecision A} (o : option A) (x : A) : bool := bool_decide (o = Some x).
