(* ===== verification/RuntimeConfig.v ===== *)
(** Runtime trading settings: services/config.service.ts.
    Settings are text rows with a unique key; reading parses them with
    per-field defaults, writing serialises them back. *)

From Stdlib Require Import ZArith Lia.
From Stdlib Require Import Strings.String Strings.Ascii.
From Stdlib Require Import Floats.SpecFloat.
From stdpp Require Import base gmap list strings.
From S2P Require Import Prelude JsNumber JsValue.

Open Scope string_scope.

(** The Setting table: [key] is unique, so the rows are a finite map. *)
Abbreviation settings := (gmap string string).

Record RuntimeTradingConfig := {
  tradingEnabled : bool;
  paperMode : bool;
  killSwitchEnabled : bool;
  maxDailyEntryOrders : option num;
  maxDailyEntryNotional : option num;
  maxOpenPositions : option num;
  maxTotalOpenNotional : option num;
  maxSymbolOpenNotional : option num;
  maxSubscriptionOpenNotional : option num;
  entrySessionGuardEnabled : bool;
  entryStartMinutesAfterOpen : num;
  entryCutoffMinutesBeforeClose : option num;
  failClosedOnMarketClockError : bool;
  reconciliationWorkerEnabled : bool;
  reconciliationWorkerIntervalMinutes : num
}.

(** Fields of the update: [None] is undefined, [Some None] is null. *)
Record UpdateRuntimeSettingsInput := {
  in_tradingEnabled : option bool;
  in_paperMode : option bool;
  in_killSwitchEnabled : option bool;
  in_maxDailyEntryOrders : option (option num);
  in_maxDailyEntryNotional : option (option num);
  in_maxOpenPositions : option (option num);
  in_maxTotalOpenNotional : option (option num);
  in_maxSymbolOpenNotional : option (option num);
  in_maxSubscriptionOpenNotional : option (option num);
  in_entrySessionGuardEnabled : option bool;
  in_entryStartMinutesAfterOpen : option num;
  in_entryCutoffMinutesBeforeClose : option (option num);
  in_failClosedOnMarketClockError : option bool;
  in_reconciliationWorkerEnabled : option bool;
  in_reconciliationWorkerIntervalMinutes : option (option num)
}.

(** * Parsing and serialising *)

Definition parseBoolean (value : option string) (fallback : bool) : bool :=
  match value with
  | None => fallback
  | Some v => String.eqb (to_lower v) "true"
  end.

Definition parseNullableNumber (value : option string) (fallback : option num) : option num :=
  match value with
  | None => fallback
  | Some v =>
      let normalized := to_lower (trim v) in
      if String.eqb normalized "" || String.eqb normalized "null" then None
      else
        let parsed := number_of_string v in
        if is_finite parsed then Some parsed else fallback
  end.

(** A setting's value: boolean, number or null. *)
Inductive setting_value :=
| SBool (b : bool)
| SNum (n : option num).

Definition serializeSettingValue (value : setting_value) : string :=
  match value with
  | SNum None => ""
  | SNum (Some n) => num_to_string n
  | SBool b => if b then "true" else "false"
  end.

Definition upsertSetting (key : string) (value : setting_value) (db : settings) : settings :=
  <[key := serializeSettingValue value]> db.

Definition getRuntimeTradingConfig (db : settings) : RuntimeTradingConfig :=
  let d z := Some (num_of_Z z) in
  {| tradingEnabled := parseBoolean (db !! "tradingEnabled") false;
     paperMode := parseBoolean (db !! "paperMode") true;
     killSwitchEnabled := parseBoolean (db !! "killSwitchEnabled") false;
     maxDailyEntryOrders := parseNullableNumber (db !! "maxDailyEntryOrders") (d 5%Z);
     maxDailyEntryNotional := parseNullableNumber (db !! "maxDailyEntryNotional") (d 10000%Z);
     maxOpenPositions := parseNullableNumber (db !! "maxOpenPositions") (d 5%Z);
     maxTotalOpenNotional := parseNullableNumber (db !! "maxTotalOpenNotional") (d 25000%Z);
     maxSymbolOpenNotional := parseNullableNumber (db !! "maxSymbolOpenNotional") (d 5000%Z);
     maxSubscriptionOpenNotional :=
       parseNullableNumber (db !! "maxSubscriptionOpenNotional") (d 5000%Z);
     entrySessionGuardEnabled := parseBoolean (db !! "entrySessionGuardEnabled") false;
     entryStartMinutesAfterOpen :=
       default (num_of_Z 15) (parseNullableNumber (db !! "entryStartMinutesAfterOpen") (d 15%Z));
     entryCutoffMinutesBeforeClose :=
       parseNullableNumber (db !! "entryCutoffMinutesBeforeClose") (d 30%Z);
     failClosedOnMarketClockError := parseBoolean (db !! "failClosedOnMarketClockError") true;
     reconciliationWorkerEnabled := parseBoolean (db !! "reconciliationWorkerEnabled") false;
     reconciliationWorkerIntervalMinutes :=
       default (num_of_Z 15)
         (parseNullableNumber (db !! "reconciliationWorkerIntervalMinutes") (d 15%Z)) |}.

(** One conditional push: [if (v !== undefined) updates.push(...)]. *)
Definition opt_update (key : string) (v : option setting_value) : list (string * setting_value) :=
  match v with Some x => [(key, x)] | None => [] end.

(** The pairs of one update, in the order the source pushes them. *)
Definition setting_updates (input : UpdateRuntimeSettingsInput) : list (string * setting_value) :=
  (opt_update "tradingEnabled" (SBool <$> in_tradingEnabled input) ++
   opt_update "paperMode" (SBool <$> in_paperMode input) ++
   opt_update "killSwitchEnabled" (SBool <$> in_killSwitchEnabled input) ++
   opt_update "maxDailyEntryOrders" (SNum <$> in_maxDailyEntryOrders input) ++
   opt_update "maxDailyEntryNotional" (SNum <$> in_maxDailyEntryNotional input) ++
   opt_update "maxOpenPositions" (SNum <$> in_maxOpenPositions input) ++
   opt_update "maxTotalOpenNotional" (SNum <$> in_maxTotalOpenNotional input) ++
   opt_update "maxSymbolOpenNotional" (SNum <$> in_maxSymbolOpenNotional input) ++
   opt_update "maxSubscriptionOpenNotional" (SNum <$> in_maxSubscriptionOpenNotional input) ++
   opt_update "entrySessionGuardEnabled" (SBool <$> in_entrySessionGuardEnabled input) ++
   opt_update "entryStartMinutesAfterOpen"
     ((fun x => SNum (Some x)) <$> in_entryStartMinutesAfterOpen input) ++
   opt_update "entryCutoffMinutesBeforeClose" (SNum <$> in_entryCutoffMinutesBeforeClose input) ++
   opt_update "failClosedOnMarketClockError" (SBool <$> in_failClosedOnMarketClockError input) ++
   opt_update "reconciliationWorkerEnabled" (SBool <$> in_reconciliationWorkerEnabled input) ++
   opt_update "reconciliationWorkerIntervalMinutes"
     (SNum <$> in_reconciliationWorkerIntervalMinutes input))%list.

Definition apply_updates (updates : list (string * setting_value)) (db : settings) : settings :=
  foldl (fun db kv => upsertSetting (fst kv) (snd kv) db) db updates.

(** The buffers an update would leave: its own values, else the current ones. *)
Definition buffers_after (input : UpdateRuntimeSettingsInput) (current : RuntimeTradingConfig)
    : num * option num :=
  (default (entryStartMinutesAfterOpen current) (in_entryStartMinutesAfterOpen input),
   default (entryCutoffMinutesBeforeClose current) (in_entryCutoffMinutesBeforeClose input)).

(** [closingBuffer !== null && openingBuffer + closingBuffer >= 390] *)
Definition buffers_too_long (openingBuffer : num) (closingBuffer : option num) : bool :=
  match closingBuffer with
  | Some c => ngeb (nadd openingBuffer c) (num_of_Z 390)
  | None => false
  end.

Definition updates_buffers (input : UpdateRuntimeSettingsInput) : bool :=
  match in_entryStartMinutesAfterOpen input, in_entryCutoffMinutesBeforeClose input with
  | None, None => false
  | _, _ => true
  end.

Definition updateRuntimeSettings (input : UpdateRuntimeSettingsInput)
    : eff settings RuntimeTradingConfig := fun db =>
  let '(openingBuffer, closingBuffer) := buffers_after input (getRuntimeTradingConfig db) in
  if updates_buffers input && buffers_too_long openingBuffer closingBuffer then
    (Throw (HttpError 400 "Opening and closing entry buffers must leave part of a normal 390-minute session available." JNull), db)
  else
    let db' := apply_updates (setting_updates input) db in
    (Ok (getRuntimeTradingConfig db'), db').

(** * Lemmas *)

(** [Number(String(x))] is [x]: what ECMA-262 promises for every finite
    number except minus zero. *)
Definition prints_exactly (x : num) : Prop :=
  is_finite x = true /\ number_of_string (num_to_string x) = x.

Lemma lower_null s :
  to_lower s = "null" -> number_of_string s = S754_nan \/ trim s <> s.
Proof.
  intros H. destruct s as [|a [|b [|c [|d [|]]]]]; try discriminate H.
  injection H as Ha Hb Hc Hd. left.
  assert (G : forall x y, lower_char x = y ->
    (65 <=? nat_of_ascii x)%nat && (nat_of_ascii x <=? 90)%nat = true \/ x = y).
  { intros x y <-. unfold lower_char. destruct (_ && _); auto. }
  assert (K : forall x y, lower_char x = y -> x = y \/ x = upper_char y).
  { intros x y <-. destruct x as [[] [] [] [] [] [] [] []]; vm_compute; auto. }
  apply K in Ha as [-> | ->], Hb as [-> | ->], Hc as [-> | ->], Hd as [-> | ->]; reflexivity.
Qed.

Lemma number_of_string_trim s : number_of_string (trim s) = number_of_string s.
Proof. unfold number_of_string. by rewrite trim_idem. Qed.

Lemma parse_printed x fallback :
  prints_exactly x -> parseNullableNumber (Some (num_to_string x)) fallback = Some x.
Proof.
  intros [Hf Hx]. unfold parseNullableNumber. rewrite Hx, Hf.
  destruct (String.eqb (to_lower (trim (num_to_string x))) "") eqn:E0; cbn [orb].
  - apply String.eqb_eq in E0.
    assert (E : trim (num_to_string x) = "") by (by destruct (trim (num_to_string x))).
    unfold number_of_string in Hx. rewrite E in Hx. cbn in Hx. subst x. discriminate E.
  - destruct (String.eqb _ "null") eqn:E1; [|done].
    apply String.eqb_eq, lower_null in E1 as [E|E].
    + rewrite number_of_string_trim, Hx in E. by rewrite E in Hf.
    + by rewrite trim_idem in E.
Qed.

Lemma parse_serialized_num o fallback :
  (forall x, o = Some x -> prints_exactly x) ->
  parseNullableNumber (Some (serializeSettingValue (SNum o))) fallback = o.
Proof. destruct o as [x|]; [|done]. intros H. by apply parse_printed, H. Qed.

Lemma parse_serialized_bool b fallback :
  parseBoolean (Some (serializeSettingValue (SBool b))) fallback = b.
Proof. by destruct b. Qed.

Lemma apply_updates_app l l' db :
  apply_updates (l ++ l') db = apply_updates l' (apply_updates l db).
Proof. apply foldl_app. Qed.

Lemma apply_opt_update_ne key v db k :
  String.eqb key k = false -> apply_updates (opt_update key v) db !! k = db !! k.
Proof.
  intros Hk. apply String.eqb_neq in Hk.
  destruct v as [x|]; cbn; [|done]. by apply lookup_insert_ne.
Qed.

Lemma apply_opt_update_eq key v db :
  apply_updates (opt_update key v) db !! key =
  match v with Some x => Some (serializeSettingValue x) | None => db !! key end.
Proof. destruct v as [x|]; cbn; [|done]. apply lookup_insert_eq. Qed.

(** Reduce a lookup after the conditional updates to the one of its key. *)
Ltac setting_lookup :=
  unfold setting_updates; rewrite !apply_updates_app;
  repeat match goal with
  | |- context [apply_updates (opt_update ?key ?v) ?db !! ?k] =>
      let b := eval vm_compute in (String.eqb key k) in
      lazymatch b with
      | true => rewrite (apply_opt_update_eq key v db)
      | false => rewrite (apply_opt_update_ne key v db k eq_refl)
      end
  end.

(** The numbers of an update print exactly. *)
Record valid_input (input : UpdateRuntimeSettingsInput) : Prop := {
  vi_numbers : forall x,
    In (Some x) [in_maxDailyEntryOrders input; in_maxDailyEntryNotional input;
      in_maxOpenPositions input; in_maxTotalOpenNotional input;
      in_maxSymbolOpenNotional input; in_maxSubscriptionOpenNotional input;
      in_entryCutoffMinutesBeforeClose input;
      in_reconciliationWorkerIntervalMinutes input] ->
    forall n, x = Some n -> prints_exactly n;
  vi_start : forall n, in_entryStartMinutesAfterOpen input = Some n -> prints_exactly n
}.

Lemma read_bool input fallback old :
  parseBoolean (match SBool <$> input with
                | Some x => Some (serializeSettingValue x) | None => old end) fallback =
  default (parseBoolean old fallback) input.
Proof. destruct input as [b|]; cbn [fmap option_fmap option_map default]; [by apply parse_serialized_bool|done]. Qed.

Lemma read_num input fallback old :
  (forall x, input = Some x -> forall n, x = Some n -> prints_exactly n) ->
  parseNullableNumber (match SNum <$> input with
                       | Some x => Some (serializeSettingValue x) | None => old end) fallback =
  default (parseNullableNumber old fallback) input.
Proof.
  destruct input as [x|]; cbn [fmap option_fmap option_map default]; [|done].
  intros H. apply parse_serialized_num. intros n. by apply H.
Qed.

Lemma read_start input fallback old :
  (forall n, input = Some n -> prints_exactly n) ->
  parseNullableNumber (match (fun x => SNum (Some x)) <$> input with
                       | Some x => Some (serializeSettingValue x) | None => old end) fallback =
  match input with Some x => Some x | None => parseNullableNumber old fallback end.
Proof.
  destruct input as [x|]; cbn [fmap option_fmap option_map]; [|done].
  intros H. apply parse_serialized_num. intros n [= <-]. by apply H.
Qed.

(** The configuration a valid update denotes. *)
Definition merge_config (current : RuntimeTradingConfig) (input : UpdateRuntimeSettingsInput)
    : RuntimeTradingConfig :=
  {| tradingEnabled := default (tradingEnabled current) (in_tradingEnabled input);
     paperMode := default (paperMode current) (in_paperMode input);
     killSwitchEnabled := default (killSwitchEnabled current) (in_killSwitchEnabled input);
     maxDailyEntryOrders := default (maxDailyEntryOrders current) (in_maxDailyEntryOrders input);
     maxDailyEntryNotional :=
       default (maxDailyEntryNotional current) (in_maxDailyEntryNotional input);
     maxOpenPositions := default (maxOpenPositions current) (in_maxOpenPositions input);
     maxTotalOpenNotional :=
       default (maxTotalOpenNotional current) (in_maxTotalOpenNotional input);
     maxSymbolOpenNotional :=
       default (maxSymbolOpenNotional current) (in_maxSymbolOpenNotional input);
     maxSubscriptionOpenNotional :=
       default (maxSubscriptionOpenNotional current) (in_maxSubscriptionOpenNotional input);
     entrySessionGuardEnabled :=
       default (entrySessionGuardEnabled current) (in_entrySessionGuardEnabled input);
     entryStartMinutesAfterOpen :=
       default (entryStartMinutesAfterOpen current) (in_entryStartMinutesAfterOpen input);
     entryCutoffMinutesBeforeClose :=
       default (entryCutoffMinutesBeforeClose current) (in_entryCutoffMinutesBeforeClose input);
     failClosedOnMarketClockError :=
       default (failClosedOnMarketClockError current) (in_failClosedOnMarketClockError input);
     reconciliationWorkerEnabled :=
       default (reconciliationWorkerEnabled current) (in_reconciliationWorkerEnabled input);
     reconciliationWorkerIntervalMinutes :=
       match in_reconciliationWorkerIntervalMinutes input with
       | Some v => default (num_of_Z 15) v
       | None => reconciliationWorkerIntervalMinutes current
       end |}.

Lemma get_after_updates input db :
  valid_input input ->
  getRuntimeTradingConfig (apply_updates (setting_updates input) db) =
  merge_config (getRuntimeTradingConfig db) input.
Proof.
  intros [Hn Hs]. unfold getRuntimeTradingConfig at 1, merge_config.
  assert (Hn' : forall f, In f
    [in_maxDailyEntryOrders input; in_maxDailyEntryNotional input;
      in_maxOpenPositions input; in_maxTotalOpenNotional input;
      in_maxSymbolOpenNotional input; in_maxSubscriptionOpenNotional input;
      in_entryCutoffMinutesBeforeClose input;
      in_reconciliationWorkerIntervalMinutes input] ->
    forall x, f = Some x -> forall n, x = Some n -> prints_exactly n).
  { intros f Hin x -> . by apply Hn. }
  f_equal; setting_lookup;
    first [ by rewrite read_bool | rewrite read_num by (apply Hn'; cbn; tauto); try done
          | rewrite read_start by done ].
  - by destruct (in_entryStartMinutesAfterOpen input).
  - by destruct (in_reconciliationWorkerIntervalMinutes input).
Qed.

(** Both entry buffers leave part of a 390-minute session. *)
Definition session_left (config : RuntimeTradingConfig) : Prop :=
  buffers_too_long (entryStartMinutesAfterOpen config) (entryCutoffMinutesBeforeClose config)
  = false.

(** * Properties *)

(** C21. Settings round trip: an accepted update is read back exactly, field by
    field, with every field it did not mention unchanged (a null worker
    interval reads as its default), and a rejected update changes nothing. *)
Theorem settings_roundtrip input db (Hv : valid_input input) :
  match updateRuntimeSettings input db with
  | (Ok config, db') =>
      config = merge_config (getRuntimeTradingConfig db) input /\
      getRuntimeTradingConfig db' = config
  | (Throw _, db') => db' = db
  end.
Proof.
  unfold updateRuntimeSettings, buffers_after.
  destruct (_ && _); [done|]. by rewrite get_after_updates.
Qed.

(** The two entry buffers always leave part of a normal session open: from
    settings where they do, no sequence of updates, accepted or rejected,
    reaches settings where opening and closing buffer together cover all 390
    minutes. *)
Theorem session_window_invariant inputs db
    (Hv : forall input, In input inputs -> valid_input input)
    (Hdb : session_left (getRuntimeTradingConfig db)) :
  session_left (getRuntimeTradingConfig
    (foldl (fun db input => snd (updateRuntimeSettings input db)) db inputs)).
Proof.
  revert db Hdb. induction inputs as [|input inputs IH]; intros db Hdb; [done|].
  cbn [foldl]. apply IH; [intros i Hi; apply Hv; by right|].
  specialize (Hv input (or_introl eq_refl)).
  unfold updateRuntimeSettings, buffers_after.
  destruct (updates_buffers input && _) eqn:E; [done|].
  cbn [snd]. rewrite get_after_updates by done.
  unfold session_left, merge_config. cbn [entryStartMinutesAfterOpen entryCutoffMinutesBeforeClose].
  apply andb_false_iff in E as [E|E]; [|done]. unfold updates_buffers in E.
  by destruct (in_entryStartMinutesAfterOpen input), (in_entryCutoffMinutesBeforeClose input).
Qed.

(** Buffers of 200 and 189 minutes: one minute is left. *)
Definition sample_update : UpdateRuntimeSettingsInput :=
  {| in_tradingEnabled := Some true; in_paperMode := None; in_killSwitchEnabled := None;
     in_maxDailyEntryOrders := Some (Some (num_of_Z 7));
     in_maxDailyEntryNotional := Some (Some (num_dec 12345 1));
     in_maxOpenPositions := Some None; in_maxTotalOpenNotional := None;
     in_maxSymbolOpenNotional := None; in_maxSubscriptionOpenNotional := None;
     in_entrySessionGuardEnabled := Some true;
     in_entryStartMinutesAfterOpen := Some (num_of_Z 200);
     in_entryCutoffMinutesBeforeClose := Some (Some (num_of_Z 189));
     in_failClosedOnMarketClockError := None;
     in_reconciliationWorkerEnabled := None;
     in_reconciliationWorkerIntervalMinutes := Some None |}.

Lemma sample_update_valid : valid_input sample_update.
Proof.
  split; cbn.
  - intros x Hx n ->.
    repeat destruct Hx as [Hx|Hx];
      first [ done | apply (inj Some) in Hx; first [discriminate Hx | apply (inj Some) in Hx];
              rewrite <- Hx; split; vm_compute; reflexivity ].
  - intros n Hn. apply (inj Some) in Hn. rewrite <- Hn. split; vm_compute; reflexivity.
Qed.

Lemma settings_roundtrip_witness :
  match updateRuntimeSettings sample_update ∅ with
  | (Ok config, db') =>
      config = merge_config (getRuntimeTradingConfig ∅) sample_update /\
      getRuntimeTradingConfig db' = config
  | (Throw _, db') => db' = ∅
  end.
Proof. apply settings_roundtrip. exact sample_update_valid. Defined.

Lemma session_window_invariant_witness :
  session_left (getRuntimeTradingConfig
    (foldl (fun db input => snd (updateRuntimeSettings input db)) ∅ [sample_update; sample_update])).
Proof.
  apply session_window_invariant.
  - intros input [<-|[<-|[]]]; exact sample_update_valid.
  - vm_compute. reflexivity.
Defined.
