(* ===== verification/SessionGuard.v ===== *)
(** The entry session guard: services/entry-session-guard.service.ts.
    Whether a new entry is inside the allowed window of the regular session. *)

From Stdlib Require Import ZArith Lia.
From Stdlib Require Import Strings.String.
From Stdlib Require Import Floats.SpecFloat.
From stdpp Require Import base list gmap strings.
From S2P Require Import Prelude JsNumber JsValue JsDate MarketSession RuntimeConfig.

Open Scope string_scope.
Open Scope Z_scope.

Inductive EntrySessionBlockRule :=
| rule_market_closed | entry_open_buffer_active | entry_close_buffer_active
| market_clock_unavailable | entry_window_unavailable.

Definition block_rule_str (r : EntrySessionBlockRule) : string :=
  match r with
  | rule_market_closed => "market_closed"
  | entry_open_buffer_active => "entry_open_buffer_active"
  | entry_close_buffer_active => "entry_close_buffer_active"
  | market_clock_unavailable => "market_clock_unavailable"
  | entry_window_unavailable => "entry_window_unavailable"
  end.

Inductive EntrySessionStatus :=
| st_disabled | st_allowed | st_market_closed | st_open_buffer | st_close_buffer
| st_unavailable | st_degraded | st_invalid_window.

Definition session_status_str (s : EntrySessionStatus) : string :=
  match s with
  | st_disabled => "disabled" | st_allowed => "allowed" | st_market_closed => "market_closed"
  | st_open_buffer => "open_buffer" | st_close_buffer => "close_buffer"
  | st_unavailable => "unavailable" | st_degraded => "degraded"
  | st_invalid_window => "invalid_window"
  end.

Record EntrySessionBaseDetails := {
  d_enabled : bool;
  d_rule : option EntrySessionBlockRule;
  d_status : EntrySessionStatus;
  d_currentTimestamp : string;
  d_evaluatedAt : string;
  d_sessionOpenAt : option string;
  d_sessionCloseAt : option string;
  d_entryAllowedAt : option string;
  d_entryCutoffAt : option string;
  d_openingBufferMinutes : num;
  d_closingBufferMinutes : option num;
  d_marketOpen : option bool;
  d_nextOpenAt : option string;
  d_nextCloseAt : option string;
  d_failClosed : bool;
  (** source, tradingDate and cache: present once a session was read. *)
  d_session : option (string * CacheStatus * CacheStatus);
  (** name and message of the lookup error. *)
  d_error : option (string * string)
}.

Inductive EntrySessionDecision :=
| EntrySessionAllowed (degraded : bool) (details : EntrySessionBaseDetails)
| EntrySessionBlocked (statusCode : Z) (reason : string) (details : EntrySessionBaseDetails).

Definition decision_details (d : EntrySessionDecision) : EntrySessionBaseDetails :=
  match d with EntrySessionAllowed _ x => x | EntrySessionBlocked _ _ x => x end.

Definition session_allowed (d : EntrySessionDecision) : bool :=
  match d with EntrySessionAllowed _ _ => true | EntrySessionBlocked _ _ _ => false end.

Definition isEntrySessionBlocked (d : EntrySessionDecision) : bool := negb (session_allowed d).

(** [name] and [message] of a thrown error. *)
Definition normalizeError (e : js_error) : string * string :=
  (error_name e, error_message e).

Definition cache_str (c : CacheStatus) : string :=
  match c with fresh => "fresh" | cached => "cached" end.

Definition entrySessionDetailsAsJson (decision : EntrySessionDecision) : json :=
  let d := decision_details decision in
  JObj ([("enabled", JBool (d_enabled d))] ++
    match d_rule d with Some r => [("rule", JStr (block_rule_str r))] | None => [] end ++
    [("status", JStr (session_status_str (d_status d)));
     ("currentTimestamp", JStr (d_currentTimestamp d));
     ("evaluatedAt", JStr (d_evaluatedAt d));
     ("sessionOpenAt", jopt JStr (d_sessionOpenAt d));
     ("sessionCloseAt", jopt JStr (d_sessionCloseAt d));
     ("entryAllowedAt", jopt JStr (d_entryAllowedAt d));
     ("entryCutoffAt", jopt JStr (d_entryCutoffAt d));
     ("openingBufferMinutes", JNum (d_openingBufferMinutes d));
     ("closingBufferMinutes", jopt JNum (d_closingBufferMinutes d));
     ("marketOpen", jopt JBool (d_marketOpen d));
     ("nextOpenAt", jopt JStr (d_nextOpenAt d));
     ("nextCloseAt", jopt JStr (d_nextCloseAt d));
     ("failClosed", JBool (d_failClosed d))] ++
    match d_session d with
    | Some (day, c, k) =>
        [("source", JStr "alpaca"); ("tradingDate", JStr day);
         ("cache", JObj [("clock", JStr (cache_str c)); ("calendar", JStr (cache_str k))])]
    | None => []
    end ++
    match d_error d with
    | Some (n, m) => [("error", JObj [("name", JStr n); ("message", JStr m)])]
    | None => []
    end)%list.

Definition set_status (s : EntrySessionStatus) (d : EntrySessionBaseDetails) :=
  {| d_enabled := d_enabled d; d_rule := d_rule d; d_status := s;
     d_currentTimestamp := d_currentTimestamp d; d_evaluatedAt := d_evaluatedAt d;
     d_sessionOpenAt := d_sessionOpenAt d; d_sessionCloseAt := d_sessionCloseAt d;
     d_entryAllowedAt := d_entryAllowedAt d; d_entryCutoffAt := d_entryCutoffAt d;
     d_openingBufferMinutes := d_openingBufferMinutes d;
     d_closingBufferMinutes := d_closingBufferMinutes d; d_marketOpen := d_marketOpen d;
     d_nextOpenAt := d_nextOpenAt d; d_nextCloseAt := d_nextCloseAt d;
     d_failClosed := d_failClosed d; d_session := d_session d; d_error := d_error d |}.

Definition set_rule (r : EntrySessionBlockRule) (d : EntrySessionBaseDetails) :=
  {| d_enabled := d_enabled d; d_rule := Some r; d_status := d_status d;
     d_currentTimestamp := d_currentTimestamp d; d_evaluatedAt := d_evaluatedAt d;
     d_sessionOpenAt := d_sessionOpenAt d; d_sessionCloseAt := d_sessionCloseAt d;
     d_entryAllowedAt := d_entryAllowedAt d; d_entryCutoffAt := d_entryCutoffAt d;
     d_openingBufferMinutes := d_openingBufferMinutes d;
     d_closingBufferMinutes := d_closingBufferMinutes d; d_marketOpen := d_marketOpen d;
     d_nextOpenAt := d_nextOpenAt d; d_nextCloseAt := d_nextCloseAt d;
     d_failClosed := d_failClosed d; d_session := d_session d; d_error := d_error d |}.

Definition set_window (allowedAt : string) (cutoffAt : option string) (d : EntrySessionBaseDetails) :=
  {| d_enabled := d_enabled d; d_rule := d_rule d; d_status := d_status d;
     d_currentTimestamp := d_currentTimestamp d; d_evaluatedAt := d_evaluatedAt d;
     d_sessionOpenAt := d_sessionOpenAt d; d_sessionCloseAt := d_sessionCloseAt d;
     d_entryAllowedAt := Some allowedAt; d_entryCutoffAt := cutoffAt;
     d_openingBufferMinutes := d_openingBufferMinutes d;
     d_closingBufferMinutes := d_closingBufferMinutes d; d_marketOpen := d_marketOpen d;
     d_nextOpenAt := d_nextOpenAt d; d_nextCloseAt := d_nextCloseAt d;
     d_failClosed := d_failClosed d; d_session := d_session d; d_error := d_error d |}.

Definition block (rule : EntrySessionBlockRule) (statusCode : Z) (reason : string)
    (details : EntrySessionBaseDetails) : EntrySessionDecision :=
  EntrySessionBlocked statusCode reason (set_rule rule details).

Section Guard.
Context `{DateParse} `{MarketSession}.

Definition addMinutes (iso : string) (minutes : num) : res string :=
  to_iso_string (date_of_num (nadd (get_time (date_of_string iso)) (nmul minutes (num_of_Z 60000)))).

Definition subtractMinutes (iso : string) (minutes : num) : res string :=
  to_iso_string (date_of_num (nsub (get_time (date_of_string iso)) (nmul minutes (num_of_Z 60000)))).

Definition toComparableTime (value : string) : num := get_time (date_of_string value).

(** The details before any session was read. *)
Definition sessionless_details (config : RuntimeTradingConfig) (enabled : bool)
    (status : EntrySessionStatus) (currentTimestamp : string) (error : option (string * string))
    : EntrySessionBaseDetails :=
  {| d_enabled := enabled; d_rule := None; d_status := status;
     d_currentTimestamp := currentTimestamp; d_evaluatedAt := currentTimestamp;
     d_sessionOpenAt := None; d_sessionCloseAt := None;
     d_entryAllowedAt := None; d_entryCutoffAt := None;
     d_openingBufferMinutes := entryStartMinutesAfterOpen config;
     d_closingBufferMinutes := entryCutoffMinutesBeforeClose config;
     d_marketOpen := None; d_nextOpenAt := None; d_nextCloseAt := None;
     d_failClosed := failClosedOnMarketClockError config;
     d_session := None; d_error := error |}.

Definition session_details (config : RuntimeTradingConfig)
    (session : NormalizedMarketSessionSnapshot) : EntrySessionBaseDetails :=
  {| d_enabled := true; d_rule := None; d_status := st_allowed;
     d_currentTimestamp := evaluatedTimestamp session; d_evaluatedAt := evaluatedTimestamp session;
     d_sessionOpenAt := sessionOpenAt session; d_sessionCloseAt := sessionCloseAt session;
     d_entryAllowedAt := None; d_entryCutoffAt := None;
     d_openingBufferMinutes := entryStartMinutesAfterOpen config;
     d_closingBufferMinutes := entryCutoffMinutesBeforeClose config;
     d_marketOpen := Some (marketOpen session);
     d_nextOpenAt := nextOpenAt session; d_nextCloseAt := nextCloseAt session;
     d_failClosed := failClosedOnMarketClockError config;
     d_session := Some (tradingDate session, clock_cache session, calendar_cache session);
     d_error := None |}.

(** The decision from a session that was read. *)
Definition evaluate_session (config : RuntimeTradingConfig)
    (session : NormalizedMarketSessionSnapshot) : res EntrySessionDecision :=
  let evaluatedAt := evaluatedTimestamp session in
  let baseDetails := session_details config session in
  if negb (marketOpen session) then
    mret (block rule_market_closed 409 "Regular market is closed. New entries are blocked."
      (set_status st_market_closed baseDetails))
  else
  match sessionOpenAt session, sessionCloseAt session with
  | Some (String _ _ as openAt), Some (String _ _ as closeAt) =>
      entryAllowedAt ← addMinutes openAt (entryStartMinutesAfterOpen config);
      entryCutoffAt ←
        match entryCutoffMinutesBeforeClose config with
        | None => mret None
        | Some m => s ← subtractMinutes closeAt m; mret (Some s)
        end;
      let details := set_window entryAllowedAt entryCutoffAt baseDetails in
      let evaluatedMs := toComparableTime evaluatedAt in
      let allowedMs := toComparableTime entryAllowedAt in
      let cutoffMs := option_map toComparableTime entryCutoffAt in
      if match cutoffMs with Some c => ngeb allowedMs c | None => false end then
        mret (block entry_window_unavailable 409
          "Configured entry buffers leave no valid regular-session entry window."
          (set_status st_invalid_window details))
      else if nltb evaluatedMs allowedMs then
        mret (block entry_open_buffer_active 409
          "Opening entry buffer is still active. New entries are blocked."
          (set_status st_open_buffer details))
      else if match cutoffMs with Some c => ngeb evaluatedMs c | None => false end then
        mret (block entry_close_buffer_active 409
          "Pre-close entry cutoff is active. New entries are blocked."
          (set_status st_close_buffer details))
      else mret (EntrySessionAllowed false details)
  | _, _ =>
      mret (block entry_window_unavailable 409
        "Regular-session entry window is unavailable. New entries are blocked."
        (set_status st_unavailable baseDetails))
  end.

Definition evaluateEntrySessionGuard (config : RuntimeTradingConfig) (now : Z)
    (tradingAccountId : option Z) : res EntrySessionDecision :=
  let currentTimestamp := iso_of_time now in
  if negb (entrySessionGuardEnabled config) then
    mret (EntrySessionAllowed false
      (sessionless_details config false st_disabled currentTimestamp None))
  else
    let lookup := match tradingAccountId with
                  | None => Throw (PlainError
                      "tradingAccountId is required for account-routed market session lookup.")
                  | Some account => market_session account now
                  end in
    match lookup with
    | Throw error =>
        let failClosed := failClosedOnMarketClockError config in
        let details := sessionless_details config true
          (if failClosed then st_unavailable else st_degraded) currentTimestamp
          (Some (normalizeError error)) in
        if failClosed then
          mret (block market_clock_unavailable 503
            "Alpaca market session could not be verified. Entry blocked fail-closed." details)
        else mret (EntrySessionAllowed true details)
    | Ok session => evaluate_session config session
    end.

(** * Exactness of the buffers *)

Lemma buffer_ms a : 0 <= a <= 1000000 -> nmul (num_of_Z a) (num_of_Z 60000) = num_of_Z (a * 60000).
Proof. intros H1. apply nmul_exact; unfold safe; lia. Qed.

Lemma addMinutes_exact t a :
  Z.abs t <= 8000000000000000 -> 0 <= a <= 1000000 ->
  addMinutes (iso_of_time t) (num_of_Z a) = Ok (iso_of_time (t + a * 60000)).
Proof.
  intros Ht Ha. unfold addMinutes. rewrite date_of_iso by lia. cbn [get_time].
  rewrite buffer_ms, nadd_exact, date_of_num_exact, time_clip_id by (unfold safe; lia). done.
Qed.

Lemma subtractMinutes_exact t a :
  Z.abs t <= 8000000000000000 -> 0 <= a <= 1000000 ->
  subtractMinutes (iso_of_time t) (num_of_Z a) = Ok (iso_of_time (t - a * 60000)).
Proof.
  intros Ht Ha. unfold subtractMinutes. rewrite date_of_iso by lia. cbn [get_time].
  rewrite buffer_ms, nsub_exact, date_of_num_exact, time_clip_id by (unfold safe; lia). done.
Qed.

Lemma toComparableTime_iso t :
  Z.abs t <= 8640000000000000 -> toComparableTime (iso_of_time t) = num_of_Z t.
Proof. intros Ht. unfold toComparableTime. by rewrite date_of_iso. Qed.

Lemma iso_nonempty t : exists c s, iso_of_time t = String c s.
Proof.
  unfold iso_of_time. destruct (utc_date t) as [[y m] d]. unfold iso_year.
  destruct (_ && _); [|destruct (y <? 0)]; cbn; eauto.
Qed.

(** The window of a session: opening at [o], closing at [c], with opening
    buffer [a] and closing buffer [b] in minutes. *)
Definition in_window (o c a : Z) (b : option Z) (e : Z) : Prop :=
  o + a * 60000 <= e /\
  match b with None => True | Some b => e < c - b * 60000 end.

Definition integer_buffers (config : RuntimeTradingConfig) (a : Z) (b : option Z) : Prop :=
  entryStartMinutesAfterOpen config = num_of_Z a /\ 0 <= a <= 1000000 /\
  entryCutoffMinutesBeforeClose config = option_map num_of_Z b /\
  match b with None => True | Some b => 0 <= b <= 1000000 end.

(** Null, or a printed instant before the year 255000. *)
Definition bounded_instant (o : option string) : Prop :=
  match o with
  | None => True
  | Some s => exists t, s = iso_of_time t /\ Z.abs t <= 8000000000000000
  end.

Lemma evaluate_session_exact config s a b e o c :
  integer_buffers config a b ->
  evaluatedTimestamp s = iso_of_time e -> Z.abs e <= 8640000000000000 ->
  marketOpen s = true ->
  sessionOpenAt s = Some (iso_of_time o) -> Z.abs o <= 8000000000000000 ->
  sessionCloseAt s = Some (iso_of_time c) -> Z.abs c <= 8000000000000000 ->
  exists d, evaluate_session config s = Ok d /\ (session_allowed d = true <-> in_window o c a b e).
Proof.
  intros (Ea & Ha & Eb & Hb) Ee He Hm Eo Ho Ec Hc.
  unfold evaluate_session. rewrite Hm, Eo, Ec, Ea, Eb, Ee.
  pose proof (addMinutes_exact o a Ho Ha) as EA.
  destruct (iso_nonempty o) as (o1 & o2 & Eoo), (iso_nonempty c) as (c1 & c2 & Ecc).
  rewrite Eoo in *. rewrite Ecc. cbn [negb]. rewrite EA. unfold mbind, res_bind, mret, res_ret.
  unfold in_window. destruct b as [b|]; cbn [option_map].
  - pose proof (subtractMinutes_exact c b Hc Hb) as EB. rewrite Ecc in EB. rewrite EB.
    cbn [option_map]. rewrite !toComparableTime_iso by lia.
    rewrite !ngeb_exact, nltb_exact by (unfold safe; lia).
    destruct (Z.leb_spec (c - b * 60000) (o + a * 60000)); [eexists; split; [done|]; cbn; split; [done|lia]|].
    destruct (Z.ltb_spec e (o + a * 60000)); [eexists; split; [done|]; cbn; split; [done|lia]|].
    destruct (Z.leb_spec (c - b * 60000) e); eexists; (split; [done|]); cbn; split; done || lia.
  - cbn [option_map]. rewrite !toComparableTime_iso by lia.
    rewrite nltb_exact by (unfold safe; lia).
    destruct (Z.ltb_spec e (o + a * 60000)); eexists; (split; [done|]); cbn; split; done || lia.
Qed.

Lemma evaluate_session_closed config s d :
  evaluate_session config s = Ok d -> session_allowed d = true ->
  marketOpen s = true /\ exists o c, sessionOpenAt s = Some o /\ sessionCloseAt s = Some c.
Proof.
  unfold evaluate_session. destruct (marketOpen s); cbn [negb]; [|by intros [= <-]].
  destruct (sessionOpenAt s) as [[|o1 o2]|]; try by intros [= <-].
  destruct (sessionCloseAt s) as [[|c1 c2]|]; try by intros [= <-].
  intros _ _. split; [done|]. eauto.
Qed.

Lemma evaluate_session_not_degraded config s d details :
  evaluate_session config s = Ok d -> d <> EntrySessionAllowed true details.
Proof.
  unfold evaluate_session, mbind, res_bind, mret, res_ret.
  destruct (negb _); [by intros [= <-]|].
  destruct (sessionOpenAt s) as [[|]|]; try by intros [= <-].
  destruct (sessionCloseAt s) as [[|]|]; try by intros [= <-].
  destruct (addMinutes _ _); [|done]. intros E.
  destruct (entryCutoffMinutesBeforeClose config);
    [destruct (subtractMinutes _ _); [|done]|];
    repeat match type of E with context [if ?x then _ else _] => destruct x end;
    by injection E as <-.
Qed.

(** Outside an open session with both instants the guard refuses. *)
Lemma evaluate_session_refuses config s :
  marketOpen s = false \/ sessionOpenAt s = None \/ sessionCloseAt s = None ->
  exists d, evaluate_session config s = Ok d /\ session_allowed d = false.
Proof.
  intros H1. unfold evaluate_session. destruct (marketOpen s) eqn:Em; cbn [negb]; [|by eexists].
  destruct (sessionOpenAt s) as [[|]|] eqn:Eo; [by eexists| |by eexists].
  destruct (sessionCloseAt s) as [[|]|] eqn:Ec; [by eexists| |by eexists].
  by destruct H1 as [H1|[H1|H1]].
Qed.
End Guard.

(** * Properties *)

(** C17. The session guard admits an entry exactly when it should: with
    whole-minute buffers, an enabled guard allows without degradation if and
    only if the lookup succeeded, the market is open and the evaluated instant
    is at or after open plus the opening buffer and strictly before close
    minus the closing buffer. When the lookup fails, the entry passes (marked
    degraded) only if the configuration is not fail-closed; otherwise it is
    refused with status 503. *)
Theorem session_guard_exact `{DateParse} {M : MarketSession} `{!MarketSessionLaws M}
    config now account a b
    (Hon : entrySessionGuardEnabled config = true)
    (Hb : integer_buffers config a b)
    (Hrange : forall s, market_session account now = Ok s ->
       bounded_instant (sessionOpenAt s) /\ bounded_instant (sessionCloseAt s)) :
  match market_session account now with
  | Ok s =>
      exists d, evaluateEntrySessionGuard config now (Some account) = Ok d /\
      (session_allowed d = true <->
       marketOpen s = true /\ exists e o c,
         evaluatedTimestamp s = iso_of_time e /\ Z.abs e <= 8640000000000000 /\
         sessionOpenAt s = Some (iso_of_time o) /\ Z.abs o <= 8000000000000000 /\
         sessionCloseAt s = Some (iso_of_time c) /\ Z.abs c <= 8000000000000000 /\
         in_window o c a b e) /\
      forall details, d <> EntrySessionAllowed true details
  | Throw _ =>
      if failClosedOnMarketClockError config then
        exists reason details, evaluateEntrySessionGuard config now (Some account)
          = Ok (EntrySessionBlocked 503 reason details)
      else exists details, evaluateEntrySessionGuard config now (Some account)
          = Ok (EntrySessionAllowed true details)
  end.
Proof.
  unfold evaluateEntrySessionGuard. rewrite Hon. cbn [negb].
  destruct (market_session account now) as [s|err] eqn:E;
    [|destruct (failClosedOnMarketClockError config); eauto].
  destruct (snapshot_evaluated _ _ _ E) as (e & Ee & He).
  assert (Hall : exists d, evaluate_session config s = Ok d /\
    (session_allowed d = true <->
       marketOpen s = true /\ exists e o c,
         evaluatedTimestamp s = iso_of_time e /\ Z.abs e <= 8640000000000000 /\
         sessionOpenAt s = Some (iso_of_time o) /\ Z.abs o <= 8000000000000000 /\
         sessionCloseAt s = Some (iso_of_time c) /\ Z.abs c <= 8000000000000000 /\
         in_window o c a b e)).
  { destruct (Hrange s eq_refl) as [Ho Hc].
    pose proof (evaluate_session_refuses config s) as Hr.
    destruct (marketOpen s) eqn:Em; [|destruct Hr as (d & Ed & Hd); [by left|]; exists d; split; [done|]; rewrite Hd; by split; [|intros (? & _)]].
    destruct (sessionOpenAt s) as [os|] eqn:Eo;
      [|destruct Hr as (d & Ed & Hd); [auto|]; exists d; split; [done|]; rewrite Hd; split; [done|]; intros (_ & ? & ? & ? & _ & _ & ? & _ & ? & _); congruence].
    destruct (sessionCloseAt s) as [cs|] eqn:Ec;
      [|destruct Hr as (d & Ed & Hd); [auto|]; exists d; split; [done|]; rewrite Hd; split; [done|]; intros (_ & ? & ? & ? & _ & _ & ? & _ & ? & _); congruence].
    destruct Ho as (o & -> & Ho), Hc as (c & -> & Hc).
    destruct (evaluate_session_exact config s a b e o c Hb Ee He Em Eo Ho Ec Hc) as (d & Ed & Hd).
    exists d. split; [done|]. rewrite Hd. split.
    - intros Hw. split; [done|]. by exists e, o, c.
    - intros (_ & e' & o' & c' & E1 & E2 & E3 & E3' & E4 & E4' & Hw).
      rewrite <- Eo in E3. rewrite <- Ec in E4.
      destruct (evaluate_session_exact config s a b e' o' c' Hb E1 E2 Em E3 E3' E4 E4')
        as (d' & Ed' & Hd').
      rewrite Ed in Ed'. injection Ed' as <-. apply Hd. by apply Hd'. }
  destruct Hall as (d & Ed & Hd). exists d. split; [done|]. split; [done|].
  intros details. by apply evaluate_session_not_degraded with (1 := Ed).
Qed.

(** A session from 14:30 to 21:00 UTC evaluated at noon in New York. *)
Definition sample_clock : AlpacaClock :=
  {| timestamp := "2024-01-02T12:00:00-05:00"; is_open := true;
     next_open := "2024-01-02T09:30:00-05:00"; next_close := "2024-01-02T16:00:00-05:00" |}.

#[local] Instance sample_parse : DateParse := fun _ => None.

Definition sample_session : MarketSession :=
  @session_from sample_parse (fixed_zone 5) (fun _ _ => Ok (sample_clock, fresh, None))
    (fun _ _ _ => Ok (None, fresh)) 1704214800000.

Definition sample_guard_config : RuntimeTradingConfig :=
  getRuntimeTradingConfig {[ "entrySessionGuardEnabled" := "true" ]}.

Lemma session_guard_exact_witness :
  exists d, @evaluateEntrySessionGuard sample_parse sample_session sample_guard_config
              1704214800000 (Some 1) = Ok d /\ session_allowed d = true.
Proof.
  pose proof (@session_guard_exact sample_parse sample_session _ sample_guard_config
    1704214800000 1 15 (Some 30) eq_refl) as T.
  assert (Hb : integer_buffers sample_guard_config 15 (Some 30)).
  { split; [vm_compute; reflexivity|]. split; [lia|]. split; [vm_compute; reflexivity|lia]. }
  assert (Hs : @market_session sample_session 1 1704214800000 = Ok
    {| brokerTimestamp := "2024-01-02T12:00:00-05:00";
       evaluatedTimestamp := iso_of_time 1704214800000; marketOpen := true;
       tradingDate := "2024-01-02"; sessionOpenAt := Some (iso_of_time 1704205800000);
       sessionCloseAt := Some (iso_of_time 1704229200000);
       nextOpenAt := Some (iso_of_time 1704205800000);
       nextCloseAt := Some (iso_of_time 1704229200000);
       fetchedAt := iso_of_time 1704214800000; clock_cache := fresh; calendar_cache := cached |})
    by (vm_compute; reflexivity).
  specialize (T Hb). rewrite Hs in T.
  destruct T as (d & Ed & [_ Hd] & _).
  - intros s [= <-]. split; eexists; (split; [reflexivity|lia]).
  - exists d. split; [exact Ed|]. apply Hd. split; [done|].
    exists 1704214800000, 1704205800000, 1704229200000.
    do 6 (split; [done || lia|]). split; lia.
Defined.
