(* ===== verification/AlpacaApiUsage.v ===== *)
(** The broker-API usage registry: services/alpaca-api-usage.service.ts, with
    the request metadata of integrations/alpaca/request-metadata.ts. A ring of
    sixty minute buckets counts the requests, per operation and endpoint, a
    rate-limit state defers requests during a backoff, and deltas wait for
    persistence. *)

From Stdlib Require Import ZArith Lia.
From Stdlib Require Import Strings.String.
From Stdlib Require Import Floats.SpecFloat.
From stdpp Require Import base list strings.
From S2P Require Import Prelude JsNumber JsValue JsDate.

Open Scope string_scope.
Open Scope Z_scope.

(** * Request metadata *)

Definition alpacaApiOperations : list string :=
  ["account_read"; "account_snapshot"; "bootstrap_snapshot"; "broker_activity_sync";
   "market_calendar"; "market_clock"; "manual_admin_action"; "open_orders_sync"; "order_cancel";
   "order_cancel_all"; "pending_order_idempotency_check"; "pending_order_submission";
   "position_close"; "positions_read"; "protective_order_idempotency_check";
   "protective_order_submission"; "protective_order_sync"; "reconciliation_check";
   "risk_gate_account_check"; "submitted_order_sync"; "tracked_position_sync"].

Definition alpacaApiEndpoints : list string :=
  ["GET /v2/account"; "GET /v2/account/activities"; "GET /v2/account/activities/:activityType";
   "GET /v2/calendar"; "GET /v2/clock"; "GET /v2/orders"; "GET /v2/orders/:orderId";
   "GET /v2/orders:by_client_order_id"; "GET /v2/positions"; "GET /v2/positions/:symbol";
   "DELETE /v2/orders"; "DELETE /v2/orders/:orderId"; "DELETE /v2/positions/:symbol";
   "POST /v2/orders"].

Record AlpacaRequestMetadata := {
  rm_operation : string;
  rm_endpoint : string;
  rm_method : string;
  rm_requestClass : string;
  rm_operationClass : string;
  rm_deferDuringRateLimit : bool;
  (** The order intent of a new position entry, when there is one. *)
  rm_newPositionEntryContext : option Z
}.

Definition assertKnownAlpacaOperation (operation : string) : res unit :=
  if member operation alpacaApiOperations then Ok tt
  else Throw (PlainError ("Unknown Alpaca API operation: " ++ operation)).

Definition assertKnownAlpacaEndpoint (endpoint : string) : res unit :=
  if member endpoint alpacaApiEndpoints then Ok tt
  else Throw (PlainError ("Unknown Alpaca API endpoint: " ++ endpoint)).

(** * Data *)

Inductive AlpacaApiOutcome := client_error | network_error | rate_limited | server_error | success | timeout.

#[export] Instance outcome_eq_dec : EqDecision AlpacaApiOutcome.
Proof. solve_decision. Defined.

(** Response headers by lower-case name. *)
Abbreviation Headers := (string -> option string).

Record RequestStart := {
  rq_tradingAccountId : Z;
  rq_metadata : AlpacaRequestMetadata;
  rq_startedAt : Z
}.

Record RequestCompletion := {
  rc_statusCode : option Z;
  rc_outcome : AlpacaApiOutcome;
  rc_responseFailedBeforeHeaders : bool;
  rc_headers : option Headers
}.

Record CounterValues := {
  requestCount : Z;
  successCount : Z;
  failureCount : Z;
  rateLimitCount : Z;
  networkErrorCount : Z;
  totalDurationMs : Z;
  maxDurationMs : Z;
  latestRequestAt : option Z;
  latestSuccessAt : option Z;
  latestFailureAt : option Z;
  latestRateLimitedAt : option Z
}.

Definition createCounters : CounterValues :=
  {| requestCount := 0; successCount := 0; failureCount := 0; rateLimitCount := 0;
     networkErrorCount := 0; totalDurationMs := 0; maxDurationMs := 0; latestRequestAt := None;
     latestSuccessAt := None; latestFailureAt := None; latestRateLimitedAt := None |}.

Record MinuteBucket := {
  mb_counters : CounterValues;
  mb_minuteStartMs : Z;
  mb_operations : list (string * CounterValues);
  mb_endpoints : list (string * CounterValues)
}.

(** Dates written by the registry itself are valid; the backoff date comes from
    a header and may be an Invalid Date. *)
Record RateLimitState := {
  rl_active : bool;
  rl_firstRateLimitedAt : option Z;
  rl_lastRateLimitedAt : option Z;
  rl_backoffUntil : option date;
  rl_retryAfterSeconds : option num;
  rl_incidentCount : Z;
  rl_currentIncident429Count : Z;
  rl_lastOperation : option string;
  rl_lastEndpoint : option string;
  rl_latestKnownLimit : option num;
  rl_latestKnownRemaining : option num;
  rl_latestKnownResetAt : option Z;
  rl_recoveredAt : option Z
}.

Record AggregateDelta := {
  dl_tradingAccountId : Z;
  dl_bucketStart : Z;
  dl_bucketSizeMinutes : Z;
  dl_operation : string;
  dl_endpoint : string;
  dl_method : string;
  dl_requestClass : string;
  dl_requestCount : Z;
  dl_successCount : Z;
  dl_failureCount : Z;
  dl_rateLimitCount : Z;
  dl_networkErrorCount : Z;
  dl_totalDurationMs : Z;
  dl_maxDurationMs : Z;
  dl_lastStatusCode : option Z;
  dl_lastRequestAt : option Z;
  dl_lastFailureAt : option Z;
  dl_lastRateLimitedAt : option Z
}.

Record AlpacaApiUsageRegistry := {
  rg_processInstanceId : string;
  rg_warningThresholdPerMinute : Z;
  rg_buckets : list (option MinuteBucket);
  rg_sinceStartup : CounterValues;
  rg_pendingDeltas : list (string * AggregateDelta);
  rg_activeRequestCount : Z;
  rg_peakConcurrentRequests : Z;
  rg_warningActive : bool;
  rg_warningStartedAt : option Z;
  rg_warningRecoveredAt : option Z;
  rg_rateLimit : RateLimitState;
  (** Events handed to [createSystemEvent], with their payloads, in order. *)
  rg_events : list (string * json)
}.

Definition BUCKET_COUNT : nat := 60.
Definition MINUTE_MS : Z := 60000.
Definition PERSISTENCE_BUCKET_MINUTES : Z := 5.
Definition PERSISTENCE_BUCKET_MS : Z := PERSISTENCE_BUCKET_MINUTES * MINUTE_MS.
Definition WARNING_RECOVERY_RATIO : num := num_dec 7 1.

Definition initial_rateLimit : RateLimitState :=
  {| rl_active := false; rl_firstRateLimitedAt := None; rl_lastRateLimitedAt := None;
     rl_backoffUntil := None; rl_retryAfterSeconds := None; rl_incidentCount := 0;
     rl_currentIncident429Count := 0; rl_lastOperation := None; rl_lastEndpoint := None;
     rl_latestKnownLimit := None; rl_latestKnownRemaining := None; rl_latestKnownResetAt := None;
     rl_recoveredAt := None |}.

Definition new_registry (processInstanceId : string) (warningThresholdPerMinute : Z) : AlpacaApiUsageRegistry :=
  {| rg_processInstanceId := processInstanceId; rg_warningThresholdPerMinute := warningThresholdPerMinute;
     rg_buckets := replicate BUCKET_COUNT None; rg_sinceStartup := createCounters;
     rg_pendingDeltas := []; rg_activeRequestCount := 0; rg_peakConcurrentRequests := 0;
     rg_warningActive := false; rg_warningStartedAt := None; rg_warningRecoveredAt := None;
     rg_rateLimit := initial_rateLimit; rg_events := [] |}.

(** ** Field updates *)

Definition set_buckets (b : list (option MinuteBucket)) (r : AlpacaApiUsageRegistry) : AlpacaApiUsageRegistry :=
  {| rg_processInstanceId := rg_processInstanceId r; rg_warningThresholdPerMinute := rg_warningThresholdPerMinute r; rg_buckets := b;
     rg_sinceStartup := rg_sinceStartup r; rg_pendingDeltas := rg_pendingDeltas r;
     rg_activeRequestCount := rg_activeRequestCount r; rg_peakConcurrentRequests := rg_peakConcurrentRequests r;
     rg_warningActive := rg_warningActive r; rg_warningStartedAt := rg_warningStartedAt r;
     rg_warningRecoveredAt := rg_warningRecoveredAt r; rg_rateLimit := rg_rateLimit r; rg_events := rg_events r |}.
Definition set_sinceStartup (c : CounterValues) (r : AlpacaApiUsageRegistry) : AlpacaApiUsageRegistry :=
  {| rg_processInstanceId := rg_processInstanceId r; rg_warningThresholdPerMinute := rg_warningThresholdPerMinute r; rg_buckets := rg_buckets r;
     rg_sinceStartup := c; rg_pendingDeltas := rg_pendingDeltas r;
     rg_activeRequestCount := rg_activeRequestCount r; rg_peakConcurrentRequests := rg_peakConcurrentRequests r;
     rg_warningActive := rg_warningActive r; rg_warningStartedAt := rg_warningStartedAt r;
     rg_warningRecoveredAt := rg_warningRecoveredAt r; rg_rateLimit := rg_rateLimit r; rg_events := rg_events r |}.
Definition set_pendingDeltas (d : list (string * AggregateDelta)) (r : AlpacaApiUsageRegistry) : AlpacaApiUsageRegistry :=
  {| rg_processInstanceId := rg_processInstanceId r; rg_warningThresholdPerMinute := rg_warningThresholdPerMinute r; rg_buckets := rg_buckets r;
     rg_sinceStartup := rg_sinceStartup r; rg_pendingDeltas := d;
     rg_activeRequestCount := rg_activeRequestCount r; rg_peakConcurrentRequests := rg_peakConcurrentRequests r;
     rg_warningActive := rg_warningActive r; rg_warningStartedAt := rg_warningStartedAt r;
     rg_warningRecoveredAt := rg_warningRecoveredAt r; rg_rateLimit := rg_rateLimit r; rg_events := rg_events r |}.
Definition set_concurrency (active peak : Z) (r : AlpacaApiUsageRegistry) : AlpacaApiUsageRegistry :=
  {| rg_processInstanceId := rg_processInstanceId r; rg_warningThresholdPerMinute := rg_warningThresholdPerMinute r; rg_buckets := rg_buckets r;
     rg_sinceStartup := rg_sinceStartup r; rg_pendingDeltas := rg_pendingDeltas r;
     rg_activeRequestCount := active; rg_peakConcurrentRequests := peak;
     rg_warningActive := rg_warningActive r; rg_warningStartedAt := rg_warningStartedAt r;
     rg_warningRecoveredAt := rg_warningRecoveredAt r; rg_rateLimit := rg_rateLimit r; rg_events := rg_events r |}.
Definition set_warning (active : bool) (startedAt recoveredAt : option Z) (r : AlpacaApiUsageRegistry) : AlpacaApiUsageRegistry :=
  {| rg_processInstanceId := rg_processInstanceId r; rg_warningThresholdPerMinute := rg_warningThresholdPerMinute r; rg_buckets := rg_buckets r;
     rg_sinceStartup := rg_sinceStartup r; rg_pendingDeltas := rg_pendingDeltas r;
     rg_activeRequestCount := rg_activeRequestCount r; rg_peakConcurrentRequests := rg_peakConcurrentRequests r;
     rg_warningActive := active; rg_warningStartedAt := startedAt;
     rg_warningRecoveredAt := recoveredAt; rg_rateLimit := rg_rateLimit r; rg_events := rg_events r |}.
Definition set_rateLimit (l : RateLimitState) (r : AlpacaApiUsageRegistry) : AlpacaApiUsageRegistry :=
  {| rg_processInstanceId := rg_processInstanceId r; rg_warningThresholdPerMinute := rg_warningThresholdPerMinute r; rg_buckets := rg_buckets r;
     rg_sinceStartup := rg_sinceStartup r; rg_pendingDeltas := rg_pendingDeltas r;
     rg_activeRequestCount := rg_activeRequestCount r; rg_peakConcurrentRequests := rg_peakConcurrentRequests r;
     rg_warningActive := rg_warningActive r; rg_warningStartedAt := rg_warningStartedAt r;
     rg_warningRecoveredAt := rg_warningRecoveredAt r; rg_rateLimit := l; rg_events := rg_events r |}.
(** [emitEvent]: fire and forget, a failed write is only logged. *)
Definition emitEvent (type : string) (payload : json) (r : AlpacaApiUsageRegistry) : AlpacaApiUsageRegistry :=
  {| rg_processInstanceId := rg_processInstanceId r; rg_warningThresholdPerMinute := rg_warningThresholdPerMinute r; rg_buckets := rg_buckets r;
     rg_sinceStartup := rg_sinceStartup r; rg_pendingDeltas := rg_pendingDeltas r;
     rg_activeRequestCount := rg_activeRequestCount r; rg_peakConcurrentRequests := rg_peakConcurrentRequests r;
     rg_warningActive := rg_warningActive r; rg_warningStartedAt := rg_warningStartedAt r;
     rg_warningRecoveredAt := rg_warningRecoveredAt r; rg_rateLimit := rg_rateLimit r;
     rg_events := (rg_events r ++ [(type, payload)])%list |}.

(** * Counters *)

Definition toMinuteStartMs (t : Z) : Z := t / MINUTE_MS * MINUTE_MS.

Definition latestDate (left right : option Z) : option Z :=
  match left, right with
  | None, _ => right
  | _, None => left
  | Some l, Some r => if r <=? l then left else right
  end.

Definition addCounters (target source : CounterValues) : CounterValues :=
  {| requestCount := requestCount target + requestCount source;
     successCount := successCount target + successCount source;
     failureCount := failureCount target + failureCount source;
     rateLimitCount := rateLimitCount target + rateLimitCount source;
     networkErrorCount := networkErrorCount target + networkErrorCount source;
     totalDurationMs := totalDurationMs target + totalDurationMs source;
     maxDurationMs := Z.max (maxDurationMs target) (maxDurationMs source);
     latestRequestAt := latestDate (latestRequestAt target) (latestRequestAt source);
     latestSuccessAt := latestDate (latestSuccessAt target) (latestSuccessAt source);
     latestFailureAt := latestDate (latestFailureAt target) (latestFailureAt source);
     latestRateLimitedAt := latestDate (latestRateLimitedAt target) (latestRateLimitedAt source) |}.

(** One completed request on one group of counters. *)
Definition count_request (completedAt durationMs : Z) (outcome : AlpacaApiOutcome) (c : CounterValues)
    : CounterValues :=
  let ok := bool_decide (outcome = success) in
  let limited := bool_decide (outcome = rate_limited) in
  let network := bool_decide (outcome = network_error) || bool_decide (outcome = timeout) in
  {| requestCount := requestCount c + 1;
     successCount := successCount c + (if ok then 1 else 0);
     failureCount := failureCount c + (if ok then 0 else 1);
     rateLimitCount := rateLimitCount c + (if limited then 1 else 0);
     networkErrorCount := networkErrorCount c + (if network then 1 else 0);
     totalDurationMs := totalDurationMs c + durationMs;
     maxDurationMs := Z.max (maxDurationMs c) durationMs;
     latestRequestAt := Some completedAt;
     latestSuccessAt := if ok then Some completedAt else latestSuccessAt c;
     latestFailureAt := if ok then latestFailureAt c else Some completedAt;
     latestRateLimitedAt := if limited then Some completedAt else latestRateLimitedAt c |}.

Record AlpacaUsageSummary := {
  us_requestCount : Z;
  us_successCount : Z;
  us_failureCount : Z;
  us_rateLimitCount : Z;
  us_networkErrorCount : Z;
  us_totalDurationMs : Z;
  us_averageDurationMs : option num;
  us_maxDurationMs : Z
}.

Definition toSummary (c : CounterValues) : AlpacaUsageSummary :=
  {| us_requestCount := requestCount c; us_successCount := successCount c;
     us_failureCount := failureCount c; us_rateLimitCount := rateLimitCount c;
     us_networkErrorCount := networkErrorCount c; us_totalDurationMs := totalDurationMs c;
     us_averageDurationMs := if 0 <? requestCount c
       then Some (ndiv (num_of_Z (totalDurationMs c)) (num_of_Z (requestCount c))) else None;
     us_maxDurationMs := maxDurationMs c |}.

(** [getGroupCounters], followed by a change of the counters it returns. *)
Definition update_group (key : string) (f : CounterValues -> CounterValues)
    (groups : list (string * CounterValues)) : list (string * CounterValues) :=
  map_set key (f (default createCounters (map_get key groups))) groups.

(** * The ring *)

Definition bucket_index (minuteStartMs : Z) : nat :=
  Z.to_nat (Z.rem (minuteStartMs / MINUTE_MS) (Z.of_nat BUCKET_COUNT)).

Definition empty_bucket (minuteStartMs : Z) : MinuteBucket :=
  {| mb_counters := createCounters; mb_minuteStartMs := minuteStartMs; mb_operations := []; mb_endpoints := [] |}.

(** The bucket of a time, and the ring with it in place. *)
Definition getBucket (t : Z) (ring : list (option MinuteBucket)) : MinuteBucket * list (option MinuteBucket) :=
  let minuteStartMs := toMinuteStartMs t in
  let index := bucket_index minuteStartMs in
  let fresh := (empty_bucket minuteStartMs, <[index := Some (empty_bucket minuteStartMs)]> ring) in
  match ring !! index with
  | Some (Some existing) => if mb_minuteStartMs existing =? minuteStartMs then (existing, ring) else fresh
  | _ => fresh
  end.

Definition count_in_bucket (m : AlpacaRequestMetadata) (completedAt durationMs : Z) (o : AlpacaApiOutcome)
    (b : MinuteBucket) : MinuteBucket :=
  let f := count_request completedAt durationMs o in
  {| mb_counters := f (mb_counters b); mb_minuteStartMs := mb_minuteStartMs b;
     mb_operations := update_group (rm_operation m) f (mb_operations b);
     mb_endpoints := update_group (rm_endpoint m) f (mb_endpoints b) |}.

Definition recordCounters (m : AlpacaRequestMetadata) (completedAt durationMs : Z) (o : AlpacaApiOutcome)
    (r : AlpacaApiUsageRegistry) : AlpacaApiUsageRegistry :=
  let '(bucket, ring) := getBucket completedAt (rg_buckets r) in
  set_sinceStartup (count_request completedAt durationMs o (rg_sinceStartup r))
    (set_buckets (<[bucket_index (mb_minuteStartMs bucket) :=
        Some (count_in_bucket m completedAt durationMs o bucket)]> ring) r).

Record Aggregate := {
  ag_overall : CounterValues;
  ag_operations : list (string * CounterValues);
  ag_endpoints : list (string * CounterValues)
}.

Definition add_groups (groups source : list (string * CounterValues)) : list (string * CounterValues) :=
  fold_left (fun acc '(k, c) => update_group k (fun t => addCounters t c) acc) source groups.

Definition aggregateWindow (minutes now : Z) (ring : list (option MinuteBucket)) : Aggregate :=
  let minimumMinuteStart := toMinuteStartMs now - Z.max 0 (minutes - 1) * MINUTE_MS in
  fold_left (fun acc slot =>
      match slot with
      | None => acc
      | Some b =>
          if mb_minuteStartMs b <? minimumMinuteStart then acc
          else {| ag_overall := addCounters (ag_overall acc) (mb_counters b);
                  ag_operations := add_groups (ag_operations acc) (mb_operations b);
                  ag_endpoints := add_groups (ag_endpoints acc) (mb_endpoints b) |}
      end) ring {| ag_overall := createCounters; ag_operations := []; ag_endpoints := [] |}.

(** * Deltas waiting for persistence *)

Definition delta_key (d : AggregateDelta) : string :=
  z_str (dl_tradingAccountId d) ++ "|" ++ iso_of_time (dl_bucketStart d) ++ "|" ++ dl_operation d ++ "|" ++
  dl_endpoint d ++ "|" ++ dl_method d ++ "|" ++ dl_requestClass d.

(** [delta] merged into an existing one of its key. *)
Definition merge_delta (existing delta : AggregateDelta) : AggregateDelta :=
  {| dl_tradingAccountId := dl_tradingAccountId existing; dl_bucketStart := dl_bucketStart existing;
     dl_bucketSizeMinutes := dl_bucketSizeMinutes existing; dl_operation := dl_operation existing;
     dl_endpoint := dl_endpoint existing; dl_method := dl_method existing;
     dl_requestClass := dl_requestClass existing;
     dl_requestCount := dl_requestCount existing + dl_requestCount delta;
     dl_successCount := dl_successCount existing + dl_successCount delta;
     dl_failureCount := dl_failureCount existing + dl_failureCount delta;
     dl_rateLimitCount := dl_rateLimitCount existing + dl_rateLimitCount delta;
     dl_networkErrorCount := dl_networkErrorCount existing + dl_networkErrorCount delta;
     dl_totalDurationMs := dl_totalDurationMs existing + dl_totalDurationMs delta;
     dl_maxDurationMs := Z.max (dl_maxDurationMs existing) (dl_maxDurationMs delta);
     dl_lastStatusCode := match dl_lastStatusCode delta with Some c => Some c | None => dl_lastStatusCode existing end;
     dl_lastRequestAt := latestDate (dl_lastRequestAt existing) (dl_lastRequestAt delta);
     dl_lastFailureAt := latestDate (dl_lastFailureAt existing) (dl_lastFailureAt delta);
     dl_lastRateLimitedAt := latestDate (dl_lastRateLimitedAt existing) (dl_lastRateLimitedAt delta) |}.

Definition merge_into (pending : list (string * AggregateDelta)) (delta : AggregateDelta)
    : list (string * AggregateDelta) :=
  let key := delta_key delta in
  match map_get key pending with
  | None => map_set key delta pending
  | Some existing => map_set key (merge_delta existing delta) pending
  end.

Definition mergePendingDelta (delta : AggregateDelta) (r : AlpacaApiUsageRegistry) : AlpacaApiUsageRegistry :=
  set_pendingDeltas (merge_into (rg_pendingDeltas r) delta) r.

Definition request_delta (tradingAccountId : Z) (m : AlpacaRequestMetadata) (completedAt durationMs : Z)
    (c : RequestCompletion) : AggregateDelta :=
  let ok := bool_decide (rc_outcome c = success) in
  let limited := bool_decide (rc_outcome c = rate_limited) in
  let network := bool_decide (rc_outcome c = network_error) || bool_decide (rc_outcome c = timeout) in
  {| dl_tradingAccountId := tradingAccountId;
     dl_bucketStart := completedAt / PERSISTENCE_BUCKET_MS * PERSISTENCE_BUCKET_MS;
     dl_bucketSizeMinutes := PERSISTENCE_BUCKET_MINUTES;
     dl_operation := rm_operation m; dl_endpoint := rm_endpoint m; dl_method := rm_method m;
     dl_requestClass := rm_requestClass m; dl_requestCount := 1;
     dl_successCount := if ok then 1 else 0; dl_failureCount := if ok then 0 else 1;
     dl_rateLimitCount := if limited then 1 else 0; dl_networkErrorCount := if network then 1 else 0;
     dl_totalDurationMs := durationMs; dl_maxDurationMs := durationMs;
     dl_lastStatusCode := rc_statusCode c; dl_lastRequestAt := Some completedAt;
     dl_lastFailureAt := if ok then None else Some completedAt;
     dl_lastRateLimitedAt := if limited then Some completedAt else None |}.

Definition recordPersistenceDelta (tradingAccountId : Z) (m : AlpacaRequestMetadata)
    (completedAt durationMs : Z) (c : RequestCompletion) (r : AlpacaApiUsageRegistry) : AlpacaApiUsageRegistry :=
  mergePendingDelta (request_delta tradingAccountId m completedAt durationMs c) r.

Definition drainPendingAggregateDeltas (r : AlpacaApiUsageRegistry)
    : list AggregateDelta * AlpacaApiUsageRegistry :=
  (map snd (rg_pendingDeltas r), set_pendingDeltas [] r).

Definition restorePendingAggregateDeltas (deltas : list AggregateDelta) (r : AlpacaApiUsageRegistry)
    : AlpacaApiUsageRegistry := fold_left (fun r d => mergePendingDelta d r) deltas r.

Definition getPendingAggregateCount (r : AlpacaApiUsageRegistry) : Z := Z.of_nat (length (rg_pendingDeltas r)).

(** * Rate limiting *)

Definition parseHeaderNumber (value : option string) : option num :=
  match value with
  | None | Some "" => None
  | Some v => let parsed := number_of_string v in if is_finite parsed then Some parsed else None
  end.

Section Dates.
Context `{DateParse}.

Definition parseHeaderDateOrEpoch (value : option string) : option Z :=
  match value with
  | None | Some "" => None
  | Some v =>
      let numeric := number_of_string v in
      if is_finite numeric then
        date_of_num (if ngtb numeric (num_of_Z 10000000000) then numeric else nmul numeric (num_of_Z 1000))
      else date_of_string v
  end.

(** Seconds, and the date they end at; the date may be invalid when the header
    asks for more seconds than a Date can hold. *)
Definition parseRetryAfter (value : option string) (now : Z) : option num * option date :=
  match value with
  | None | Some "" => (None, None)
  | Some v =>
      let seconds := number_of_string v in
      if is_finite seconds && ngeb seconds (num_of_Z 0) then
        (Some seconds, Some (date_of_num (nadd (num_of_Z now) (nmul seconds (num_of_Z 1000)))))
      else match date_of_string v with
           | None => (None, None)
           | Some t => (Some (nmax (num_of_Z 0) (nceil (ndiv (num_of_Z (t - now)) (num_of_Z 1000)))),
                        Some (Some t))
           end
  end.

Definition header_of (headers : option Headers) (name : string) : option string := headers ≫= fun h => h name.
Definition either (a b : option string) : option string := match a with Some v => Some v | None => b end.

(** [left.getTime() > right.getTime()] *)
Definition later (left right : date) : bool :=
  match left, right with Some l, Some r => r <? l | _, _ => false end.

Definition recordRateLimit (m : AlpacaRequestMetadata) (headers : option Headers) (now : Z)
    (r : AlpacaApiUsageRegistry) : AlpacaApiUsageRegistry :=
  let l := rg_rateLimit r in
  let '(retryAfterSeconds, backoffUntil) := parseRetryAfter (header_of headers "retry-after") now in
  let r := if rl_active l then r else
    emitEvent "alpaca_api.rate_limit_started"
      (JObj [("operation", JStr (rm_operation m)); ("endpoint", JStr (rm_endpoint m));
             ("processInstanceId", JStr (rg_processInstanceId r));
             ("retryAfterSeconds", jopt JNum retryAfterSeconds)]) r in
  set_rateLimit
    {| rl_active := true;
       rl_firstRateLimitedAt := if rl_active l then rl_firstRateLimitedAt l else Some now;
       rl_lastRateLimitedAt := Some now;
       rl_backoffUntil := match backoffUntil, rl_backoffUntil l with
                          | Some d, Some e => if later d e then Some d else Some e
                          | Some d, None => Some d
                          | None, e => e
                          end;
       rl_retryAfterSeconds := retryAfterSeconds;
       rl_incidentCount := if rl_active l then rl_incidentCount l else rl_incidentCount l + 1;
       rl_currentIncident429Count := (if rl_active l then rl_currentIncident429Count l else 0) + 1;
       rl_lastOperation := Some (rm_operation m); rl_lastEndpoint := Some (rm_endpoint m);
       rl_latestKnownLimit := parseHeaderNumber
         (either (header_of headers "x-ratelimit-limit") (header_of headers "x-rate-limit-limit"));
       rl_latestKnownRemaining := parseHeaderNumber
         (either (header_of headers "x-ratelimit-remaining") (header_of headers "x-rate-limit-remaining"));
       rl_latestKnownResetAt := parseHeaderDateOrEpoch
         (either (header_of headers "x-ratelimit-reset") (header_of headers "x-rate-limit-reset"));
       rl_recoveredAt := if rl_active l then rl_recoveredAt l else None |} r.

(** [now] is before the end of the backoff. *)
Definition in_backoff (now : Z) (l : RateLimitState) : bool :=
  match rl_backoffUntil l with Some (Some t) => now <? t | _ => false end.

Definition recordRateLimitRecovery (m : AlpacaRequestMetadata) (now : Z) (r : AlpacaApiUsageRegistry)
    : AlpacaApiUsageRegistry :=
  let l := rg_rateLimit r in
  if negb (rl_active l) then r
  else if in_backoff now l then r
  else
    emitEvent "alpaca_api.rate_limit_recovered"
      (JObj [("operation", JStr (rm_operation m)); ("endpoint", JStr (rm_endpoint m));
             ("processInstanceId", JStr (rg_processInstanceId r));
             ("incidentCount", jint (rl_incidentCount l));
             ("rateLimitCount", jint (rl_currentIncident429Count l))])
      (set_rateLimit
        {| rl_active := false; rl_firstRateLimitedAt := rl_firstRateLimitedAt l;
           rl_lastRateLimitedAt := rl_lastRateLimitedAt l; rl_backoffUntil := rl_backoffUntil l;
           rl_retryAfterSeconds := rl_retryAfterSeconds l; rl_incidentCount := rl_incidentCount l;
           rl_currentIncident429Count := rl_currentIncident429Count l;
           rl_lastOperation := rl_lastOperation l; rl_lastEndpoint := rl_lastEndpoint l;
           rl_latestKnownLimit := rl_latestKnownLimit l;
           rl_latestKnownRemaining := rl_latestKnownRemaining l;
           rl_latestKnownResetAt := rl_latestKnownResetAt l; rl_recoveredAt := Some now |} r).

Definition shouldDefer (m : AlpacaRequestMetadata) (now : Z) (r : AlpacaApiUsageRegistry) : bool :=
  rm_deferDuringRateLimit m && rl_active (rg_rateLimit r) && in_backoff now (rg_rateLimit r).

Definition getBackoffUntil (r : AlpacaApiUsageRegistry) : option date := rl_backoffUntil (rg_rateLimit r).

(** * The volume warning *)

Definition recovery_threshold (r : AlpacaApiUsageRegistry) : Z :=
  default 0 (floor_Z (nmul (num_of_Z (rg_warningThresholdPerMinute r)) WARNING_RECOVERY_RATIO)).

Definition evaluateWarning (now : Z) (r : AlpacaApiUsageRegistry) : AlpacaApiUsageRegistry :=
  let oneMinute := requestCount (ag_overall (aggregateWindow 1 now (rg_buckets r))) in
  let threshold := rg_warningThresholdPerMinute r in
  let payload extra := JObj ([("requestCountLastMinute", jint oneMinute); ("thresholdPerMinute", jint threshold)] ++
    extra ++ [("processInstanceId", JStr (rg_processInstanceId r))])%list in
  if negb (rg_warningActive r) && (threshold <=? oneMinute) then
    emitEvent "alpaca_api.volume_warning_started" (payload []) (set_warning true (Some now) None r)
  else if rg_warningActive r && (oneMinute <=? recovery_threshold r) then
    emitEvent "alpaca_api.volume_warning_recovered"
      (payload [("recoveryThreshold", jint (recovery_threshold r))])
      (set_warning false (rg_warningStartedAt r) (Some now) r)
  else r.

(** * Requests *)

Definition beginRequest (tradingAccountId : Z) (m : AlpacaRequestMetadata) (now : Z)
    (r : AlpacaApiUsageRegistry) : RequestStart * AlpacaApiUsageRegistry :=
  let active := rg_activeRequestCount r + 1 in
  ({| rq_tradingAccountId := tradingAccountId; rq_metadata := m; rq_startedAt := now |},
   set_concurrency active (Z.max (rg_peakConcurrentRequests r) active) r).

Definition completeRequest (start : RequestStart) (c : RequestCompletion) (now : Z)
    (r : AlpacaApiUsageRegistry) : AlpacaApiUsageRegistry :=
  let durationMs := Z.max 0 (now - rq_startedAt start) in
  let m := rq_metadata start in
  let r := set_concurrency (Z.max 0 (rg_activeRequestCount r - 1)) (rg_peakConcurrentRequests r) r in
  let r := recordCounters m now durationMs (rc_outcome c) r in
  let r := recordPersistenceDelta (rq_tradingAccountId start) m now durationMs c r in
  let r := match rc_outcome c with
           | rate_limited => recordRateLimit m (rc_headers c) now r
           | success => recordRateLimitRecovery m now r
           | _ => r
           end in
  evaluateWarning now r.
End Dates.

(** * The snapshot *)

(** [String.prototype.localeCompare], of the host's collation. *)
Class Locale := locale_compare : string -> string -> Z.

Record AlpacaUsageGroup := {
  ug_key : string;
  ug_summary : AlpacaUsageSummary;
  ug_latestRequestAt : option string;
  ug_latestFailureAt : option string;
  ug_latestRateLimitedAt : option string
}.

Definition iso (t : option Z) : option string := option_map iso_of_time t.

Definition group_of (g : string * CounterValues) : AlpacaUsageGroup :=
  {| ug_key := fst g; ug_summary := toSummary (snd g);
     ug_latestRequestAt := iso (latestRequestAt (snd g));
     ug_latestFailureAt := iso (latestFailureAt (snd g));
     ug_latestRateLimitedAt := iso (latestRateLimitedAt (snd g)) |}.

(** Most requests first, then by key. *)
Definition group_before `{Locale} (l r : AlpacaUsageGroup) : bool :=
  let d := us_requestCount (ug_summary r) - us_requestCount (ug_summary l) in
  if d =? 0 then locale_compare (ug_key l) (ug_key r) <? 0 else d <? 0.

Definition toTopGroups `{Locale} (groups : list (string * CounterValues)) (limit : nat) : list AlpacaUsageGroup :=
  firstn limit (sort_with group_before (map group_of groups)).

Record AlpacaApiUsageSnapshot := {
  sn_evaluatedAt : string;
  sn_processInstanceId : string;
  sn_status : string;
  sn_activeRequestCount : Z;
  sn_peakConcurrentRequests : Z;
  sn_totalRequestsSinceStartup : Z;
  sn_totalFailuresSinceStartup : Z;
  sn_totalRateLimitedSinceStartup : Z;
  sn_warningActive : bool;
  sn_thresholdPerMinute : Z;
  sn_warningStartedAt : option string;
  sn_warningRecoveredAt : option string;
  sn_rateLimit : RateLimitState;
  sn_backoffUntil : option string;
  sn_currentMinute : AlpacaUsageSummary;
  sn_oneMinute : AlpacaUsageSummary;
  sn_fiveMinutes : AlpacaUsageSummary;
  sn_fifteenMinutes : AlpacaUsageSummary;
  sn_sixtyMinutes : AlpacaUsageSummary;
  sn_sinceStartup : AlpacaUsageSummary;
  sn_topOperations : list AlpacaUsageGroup;
  sn_topEndpoints : list AlpacaUsageGroup
}.

(** [toIso] on the backoff date: an Invalid Date throws. *)
Definition toIso (d : option date) : res (option string) :=
  match d with
  | None => Ok None
  | Some d => s ← to_iso_string d; Ok (Some s)
  end.

(** Taking a snapshot may put a fresh bucket of the current minute in place. *)
Definition getSnapshot `{Locale} (now : Z) (r : AlpacaApiUsageRegistry)
    : res AlpacaApiUsageSnapshot * AlpacaApiUsageRegistry :=
  let window m := aggregateWindow m now (rg_buckets r) in
  let five := window 5 in
  match toIso (rl_backoffUntil (rg_rateLimit r)) with
  | Throw e => (Throw e, r)
  | Ok backoffUntil =>
      let '(current, ring) := getBucket now (rg_buckets r) in
      (Ok {| sn_evaluatedAt := iso_of_time now; sn_processInstanceId := rg_processInstanceId r;
             sn_status := if rl_active (rg_rateLimit r) then "rate_limited"
                          else if rg_warningActive r then "elevated" else "normal";
             sn_activeRequestCount := rg_activeRequestCount r;
             sn_peakConcurrentRequests := rg_peakConcurrentRequests r;
             sn_totalRequestsSinceStartup := requestCount (rg_sinceStartup r);
             sn_totalFailuresSinceStartup := failureCount (rg_sinceStartup r);
             sn_totalRateLimitedSinceStartup := rateLimitCount (rg_sinceStartup r);
             sn_warningActive := rg_warningActive r; sn_thresholdPerMinute := rg_warningThresholdPerMinute r;
             sn_warningStartedAt := iso (rg_warningStartedAt r);
             sn_warningRecoveredAt := iso (rg_warningRecoveredAt r);
             sn_rateLimit := rg_rateLimit r; sn_backoffUntil := backoffUntil;
             sn_currentMinute := toSummary (mb_counters current);
             sn_oneMinute := toSummary (ag_overall (window 1));
             sn_fiveMinutes := toSummary (ag_overall five);
             sn_fifteenMinutes := toSummary (ag_overall (window 15));
             sn_sixtyMinutes := toSummary (ag_overall (window 60));
             sn_sinceStartup := toSummary (rg_sinceStartup r);
             sn_topOperations := toTopGroups (ag_operations five) 5;
             sn_topEndpoints := toTopGroups (ag_endpoints five) 5 |},
       set_buckets ring r)
  end.

(** * Tallies: the abstract view

    A registry stands for the log of the requests completed so far; each of its
    counter groups is the tally of a part of that log. *)

Record Completed := {
  cq_operation : string;
  cq_at : Z;
  cq_durationMs : Z;
  cq_outcome : AlpacaApiOutcome
}.

Definition one (x : Completed) : CounterValues :=
  count_request (cq_at x) (cq_durationMs x) (cq_outcome x) createCounters.

Definition csum (l : list CounterValues) : CounterValues := fold_right addCounters createCounters l.
Definition tally (l : list Completed) : CounterValues := csum (map one l).

Definition minute_of (x : Completed) : Z := toMinuteStartMs (cq_at x).

(** The requests completed in a window of minutes, the current one included. *)
Definition in_window (minutes now : Z) (x : Completed) : bool :=
  toMinuteStartMs now - (minutes - 1) * MINUTE_MS <=? minute_of x.

Lemma counters_eq (a b : CounterValues) :
  requestCount a = requestCount b -> successCount a = successCount b -> failureCount a = failureCount b ->
  rateLimitCount a = rateLimitCount b -> networkErrorCount a = networkErrorCount b ->
  totalDurationMs a = totalDurationMs b -> maxDurationMs a = maxDurationMs b ->
  latestRequestAt a = latestRequestAt b -> latestSuccessAt a = latestSuccessAt b ->
  latestFailureAt a = latestFailureAt b -> latestRateLimitedAt a = latestRateLimitedAt b -> a = b.
Proof. destruct a, b; cbn. intros. by subst. Qed.

Lemma latestDate_comm x y : latestDate x y = latestDate y x.
Proof.
  destruct x as [x|], y as [y|]; cbn; try done.
  destruct (Z.leb_spec y x), (Z.leb_spec x y); try done; f_equal; lia.
Qed.

Lemma latestDate_none x : latestDate x None = x.
Proof. by destruct x. Qed.

(** The later of two dates is their maximum. *)
Lemma latestDate_max x y : latestDate (Some x) (Some y) = Some (Z.max x y).
Proof. cbn. destruct (Z.leb_spec y x); f_equal; lia. Qed.

Lemma latestDate_assoc x y z : latestDate x (latestDate y z) = latestDate (latestDate x y) z.
Proof.
  destruct x as [x|], y as [y|], z as [z|]; rewrite ?latestDate_none, ?latestDate_max; try done.
  - f_equal. lia.
  - change (latestDate None (Some z)) with (Some z). apply latestDate_max.
  - change (latestDate None (Some y)) with (Some y). by rewrite latestDate_max.
Qed.

#[export] Instance addCounters_assoc : Assoc (=) addCounters.
Proof. intros x y z. apply counters_eq; cbn; try lia; apply latestDate_assoc. Qed.
#[export] Instance addCounters_comm : Comm (=) addCounters.
Proof. intros x y. apply counters_eq; cbn; try lia; apply latestDate_comm. Qed.

Lemma addCounters_swap x y z : addCounters x (addCounters y z) = addCounters y (addCounters x z).
Proof. by rewrite !(assoc addCounters), (comm addCounters x y). Qed.

(** Empty counters are neutral for counters with a maximum of at least zero. *)
Definition counters_nonneg (c : CounterValues) : Prop := 0 <= maxDurationMs c.


Lemma add_empty_r c : counters_nonneg c -> addCounters c createCounters = c.
Proof. intros H. apply counters_eq; cbn; try lia; try apply latestDate_none. unfold counters_nonneg in H. lia. Qed.

Lemma add_empty_l c : counters_nonneg c -> addCounters createCounters c = c.
Proof. intros H. rewrite (addCounters_comm createCounters c). by apply add_empty_r. Qed.

Lemma csum_nonneg l : counters_nonneg (csum l).
Proof.
  unfold counters_nonneg. induction l as [|c l IH]; [done|].
  change (csum (c :: l)) with (addCounters c (csum l)). cbn [addCounters maxDurationMs]. lia.
Qed.

Lemma csum_app l k : csum (l ++ k) = addCounters (csum l) (csum k).
Proof.
  induction l as [|c l IH]; [symmetry; apply add_empty_l, csum_nonneg|].
  change (addCounters c (csum (l ++ k)) = addCounters (addCounters c (csum l)) (csum k)).
  by rewrite IH, (assoc addCounters).
Qed.

Lemma csum_cons c l : csum (c :: l) = addCounters c (csum l).
Proof. done. Qed.

Lemma tally_app l k : tally (l ++ k) = addCounters (tally l) (tally k).
Proof. unfold tally. by rewrite map_app, csum_app. Qed.

(** A sum accumulated from the left. *)
Lemma fold_add_csum l acc :
  counters_nonneg acc -> fold_left addCounters l acc = addCounters acc (csum l).
Proof.
  revert acc. induction l as [|c l IH]; intros acc Ha; cbn [fold_left]; [by rewrite add_empty_r|].
  rewrite IH, csum_cons; [by rewrite (assoc addCounters)|]. unfold counters_nonneg in *. cbn. lia.
Qed.

Lemma tally_length l : requestCount (tally l) = Z.of_nat (length l).
Proof.
  unfold tally. induction l as [|x l IH]; [done|]. cbn [map]. rewrite csum_cons.
  change (requestCount (addCounters (one x) (csum (map one l)))) with (1 + requestCount (csum (map one l))).
  rewrite IH. cbn [length]. lia.
Qed.

(** Disjoint parts of a log add up. *)
Lemma tally_split p q l :
  (forall x, In x l -> p x = true -> q x = false) ->
  tally (filterb (fun x => p x || q x) l) = addCounters (tally (filterb p l)) (tally (filterb q l)).
Proof.
  unfold tally. induction l as [|x l IH]; intros Hd; [symmetry; by apply add_empty_r|].
  specialize (IH (fun y Hy => Hd y (or_intror Hy))). specialize (Hd x (or_introl eq_refl)).
  cbn [filterb List.filter]. unfold filterb in IH. destruct (p x) eqn:Ep; cbn [orb].
  - rewrite (Hd eq_refl). cbn [map]. by rewrite !csum_cons, IH, (assoc addCounters).
  - destruct (q x); [|exact IH]. cbn [map]. rewrite !csum_cons, IH. apply addCounters_swap.
Qed.

(** ** Counting one more request *)

Definition dated (t : Z) (c : CounterValues) : Prop :=
  latestDate (latestRequestAt c) (Some t) = Some t /\ latestDate (latestSuccessAt c) (Some t) = Some t /\
  latestDate (latestFailureAt c) (Some t) = Some t /\ latestDate (latestRateLimitedAt c) (Some t) = Some t.

Lemma latestDate_bound a b t :
  latestDate a (Some t) = Some t -> latestDate b (Some t) = Some t -> latestDate (latestDate a b) (Some t) = Some t.
Proof. intros Ha Hb. by rewrite <- latestDate_assoc, Hb. Qed.

Lemma dated_create t : dated t createCounters.
Proof. done. Qed.

Lemma dated_add t a b : dated t a -> dated t b -> dated t (addCounters a b).
Proof. intros (? & ? & ? & ?) (? & ? & ? & ?). repeat split; cbn; by apply latestDate_bound. Qed.

Lemma dated_one t x : cq_at x <= t -> dated t (one x).
Proof.
  intros H. assert (E : latestDate (Some (cq_at x)) (Some t) = Some t).
  { cbn. destruct (Z.leb_spec t (cq_at x)); [f_equal; lia|done]. }
  unfold one, dated. cbn [count_request latestRequestAt latestSuccessAt latestFailureAt latestRateLimitedAt].
  repeat split; try done; by case_match.
Qed.

Lemma dated_tally t l : (forall x, In x l -> cq_at x <= t) -> dated t (tally l).
Proof.
  unfold tally. induction l as [|x l IH]; intros H; [apply dated_create|].
  apply dated_add; [apply dated_one, H; by left|apply IH; intros y Hy; apply H; by right].
Qed.

Lemma count_tally x l :
  0 <= cq_durationMs x -> (forall y, In y l -> cq_at y <= cq_at x) ->
  count_request (cq_at x) (cq_durationMs x) (cq_outcome x) (tally l) = tally (l ++ [x]).
Proof.
  intros Hd Hl. rewrite tally_app. unfold tally at 3. cbn [map csum fold_right].
  pose proof (csum_nonneg (map one l)) as Hn. fold (tally l) in Hn. unfold counters_nonneg in Hn.
  destruct (dated_tally (cq_at x) l Hl) as (H1 & H2 & H3 & H4).
  apply counters_eq; cbn [count_request addCounters one createCounters requestCount successCount failureCount
    rateLimitCount networkErrorCount totalDurationMs maxDurationMs latestRequestAt latestSuccessAt
    latestFailureAt latestRateLimitedAt]; rewrite ?latestDate_none; try lia; try done.
  - destruct (bool_decide (cq_outcome x = success)); cbn [latestDate]; [done|by rewrite latestDate_none].
  - destruct (bool_decide (cq_outcome x = success)); cbn [latestDate]; [by rewrite latestDate_none|done].
  - destruct (bool_decide (cq_outcome x = rate_limited)); cbn [latestDate]; [done|by rewrite latestDate_none].
Qed.

(** * The ring refines the log *)

Definition in_minute (s : Z) (x : Completed) : bool := minute_of x =? s.

(** Every bucket is the tally of its minute and sits at its own index, and the
    minutes of the last hour all have their bucket. *)
Record ring_refines (log : list Completed) (last : Z) (ring : list (option MinuteBucket)) : Prop := {
  rr_length : length ring = BUCKET_COUNT;
  rr_last : 0 <= last;
  rr_times : forall x, In x log -> 0 <= cq_at x <= last /\ 0 <= cq_durationMs x;
  rr_bucket : forall i b, ring !! i = Some (Some b) ->
    exists t, 0 <= t <= last /\ mb_minuteStartMs b = toMinuteStartMs t /\
      bucket_index (mb_minuteStartMs b) = i /\
      mb_counters b = tally (filterb (in_minute (mb_minuteStartMs b)) log);
  rr_recent : forall x, In x log -> toMinuteStartMs last - 59 * MINUTE_MS <= minute_of x ->
    exists b, ring !! bucket_index (minute_of x) = Some (Some b) /\ mb_minuteStartMs b = minute_of x
}.

Lemma minute_mono s t : s <= t -> toMinuteStartMs s <= toMinuteStartMs t.
Proof. unfold toMinuteStartMs, MINUTE_MS. intros H. pose proof (Z.div_le_mono s t 60000). lia. Qed.

Lemma bucket_index_minute t : 0 <= t ->
  bucket_index (toMinuteStartMs t) = Z.to_nat ((t / MINUTE_MS) mod 60).
Proof.
  intros Ht. unfold bucket_index, toMinuteStartMs, MINUTE_MS. rewrite Z.div_mul by lia.
  change (Z.of_nat BUCKET_COUNT) with 60. by rewrite Z.rem_mod_nonneg by (try apply Z.div_pos; lia).
Qed.

Lemma bucket_index_bound t : 0 <= t -> (bucket_index (toMinuteStartMs t) < BUCKET_COUNT)%nat.
Proof.
  intros Ht. rewrite bucket_index_minute by done.
  pose proof (Z.mod_pos_bound (t / MINUTE_MS) 60). unfold BUCKET_COUNT. lia.
Qed.

(** Two minutes less than an hour apart with one index are the same minute. *)
Lemma same_index s t :
  0 <= s -> 0 <= t -> toMinuteStartMs t - 59 * MINUTE_MS <= toMinuteStartMs s <= toMinuteStartMs t ->
  bucket_index (toMinuteStartMs s) = bucket_index (toMinuteStartMs t) -> toMinuteStartMs s = toMinuteStartMs t.
Proof.
  intros Hs Ht Hb E. rewrite !bucket_index_minute in E by done.
  unfold toMinuteStartMs, MINUTE_MS in *.
  pose proof (Z.mod_pos_bound (s / 60000) 60). pose proof (Z.mod_pos_bound (t / 60000) 60).
  pose proof (Z.div_mod (s / 60000) 60). pose proof (Z.div_mod (t / 60000) 60).
  assert (s / 60000 mod 60 = t / 60000 mod 60) by lia. f_equal. lia.
Qed.

Lemma tally_nil_of log p : (forall x, In x log -> p x = false) -> tally (filterb p log) = createCounters.
Proof.
  intros H. destruct (filterb p log) as [|x l] eqn:E; [done|].
  assert (Hx : In x (filterb p log)) by (rewrite E; by left).
  apply filterb_In in Hx as [Hx Px]. by rewrite H in Px.
Qed.

(** Fetching the bucket of a current time finds the tally of its minute and
    leaves a ring that refines the same log. *)
Lemma getBucket_refines log last ring t b ring' :
  ring_refines log last ring -> last <= t -> getBucket t ring = (b, ring') ->
  ring_refines log t ring' /\ mb_minuteStartMs b = toMinuteStartMs t /\
  ring' !! bucket_index (toMinuteStartMs t) = Some (Some b) /\
  mb_counters b = tally (filterb (in_minute (toMinuteStartMs t)) log).
Proof.
  intros [Hlen Hlast Htimes Hbucket Hrecent] Ht.
  assert (Ht0 : 0 <= t) by lia. pose proof (minute_mono last t Ht) as Hmono.
  pose proof (bucket_index_bound t Ht0) as Hbound.
  assert (Hfresh : (forall b0, ring !! bucket_index (toMinuteStartMs t) = Some (Some b0) ->
              mb_minuteStartMs b0 <> toMinuteStartMs t) ->
    (empty_bucket (toMinuteStartMs t),
     <[bucket_index (toMinuteStartMs t) := Some (empty_bucket (toMinuteStartMs t))]> ring) = (b, ring') ->
    ring_refines log t ring' /\ mb_minuteStartMs b = toMinuteStartMs t /\
    ring' !! bucket_index (toMinuteStartMs t) = Some (Some b) /\
    mb_counters b = tally (filterb (in_minute (toMinuteStartMs t)) log)).
  { intros Hno [= <- <-].
    assert (Hempty : forall x, In x log -> in_minute (toMinuteStartMs t) x = false).
    { intros x Hx. destruct (in_minute _ x) eqn:E; [|done]. apply Z.eqb_eq in E.
      destruct (Htimes x Hx) as [Hxt _]. pose proof (minute_mono (cq_at x) last) as Hm.
      fold (minute_of x) in Hm.
      destruct (Hrecent x Hx) as (b0 & Eb & Es); [unfold MINUTE_MS in *; lia|]. rewrite E in *. by apply Hno in Eb. }
    rewrite tally_nil_of by done.
    split; [|split; [done|split; [|done]]]; [|rewrite list_lookup_insert_eq by lia; done].
    split; [by rewrite length_insert|done| | |].
    - intros x Hx. destruct (Htimes x Hx). lia.
    - intros i b0. destruct (decide (i = bucket_index (toMinuteStartMs t))) as [->|Hne].
      + rewrite list_lookup_insert_eq by lia. intros [= <-]. exists t. cbn.
        rewrite tally_nil_of by done. split; [lia|done].
      + rewrite list_lookup_insert_ne by done. intros Eb.
        destruct (Hbucket i b0 Eb) as (s & ? & ? & ? & ?). exists s. split; [lia|done].
    - intros x Hx Hw. destruct (Htimes x Hx) as [Hxt _].
      pose proof (minute_mono (cq_at x) last) as Hm. fold (minute_of x) in Hm.
      destruct (decide (bucket_index (minute_of x) = bucket_index (toMinuteStartMs t))) as [E|Hne].
      + exfalso. assert (minute_of x = toMinuteStartMs t) as Em.
        { apply same_index; [lia|lia|fold (minute_of x); lia|done]. }
        pose proof (Hempty x Hx) as Hf. unfold in_minute in Hf. by rewrite Em, Z.eqb_refl in Hf.
      + rewrite list_lookup_insert_ne by done. apply Hrecent; [done|]. unfold MINUTE_MS in *. lia. }
  unfold getBucket. destruct (ring !! bucket_index (toMinuteStartMs t)) as [[b0|]|] eqn:Eb;
    [|by apply Hfresh|by apply Hfresh].
  destruct (Z.eqb_spec (mb_minuteStartMs b0) (toMinuteStartMs t)) as [Es|Es];
    [|apply Hfresh; intros b1 [= <-]; done].
  intros [= <- <-]. destruct (Hbucket _ _ Eb) as (s & _ & _ & _ & Ec).
  split; [|split; [done|split; [done|by rewrite <- Es]]].
  split; [done|done| | |].
  - intros x Hx. destruct (Htimes x Hx). lia.
  - intros i b1 E1. destruct (Hbucket i b1 E1) as (u & ? & ? & ? & ?). exists u. split; [lia|done].
  - intros x Hx Hw. apply Hrecent; [done|]. unfold MINUTE_MS in *. lia.
Qed.

Lemma filterb_snoc {A} (p : A -> bool) l x :
  filterb p (l ++ [x]) = (filterb p l ++ (if p x then [x] else []))%list.
Proof.
  unfold filterb. induction l as [|y l IH]; cbn; [by destruct (p x)|].
  destruct (p y); cbn; by rewrite IH.
Qed.

Definition completion (m : AlpacaRequestMetadata) (t d : Z) (o : AlpacaApiOutcome) : Completed :=
  {| cq_operation := rm_operation m; cq_at := t; cq_durationMs := d; cq_outcome := o |}.

Lemma record_refines log last m t d o r :
  ring_refines log last (rg_buckets r) -> last <= t -> 0 <= d ->
  ring_refines (log ++ [completion m t d o]) t (rg_buckets (recordCounters m t d o r)).
Proof.
  intros Hr Ht Hd. unfold recordCounters.
  destruct (getBucket t (rg_buckets r)) as [b ring'] eqn:Eg.
  destruct (getBucket_refines log last _ t b ring' Hr Ht Eg) as ([Hlen Hlast Htimes Hbucket Hrecent] & Es & Eb & Ec).
  cbn [rg_buckets set_sinceStartup set_buckets]. rewrite Es.
  pose proof (bucket_index_bound t Hlast) as Hbound.
  split; [by rewrite length_insert|done| | |].
  - intros x [Hx|[<-|[]]]%in_app_iff; [by apply Htimes|cbn; lia].
  - intros i b0. destruct (decide (i = bucket_index (toMinuteStartMs t))) as [->|Hne].
    + rewrite list_lookup_insert_eq by lia. intros [= <-]. exists t.
      cbn [count_in_bucket mb_minuteStartMs mb_counters]. rewrite Es. split; [lia|]. split; [done|]. split; [done|].
      rewrite filterb_snoc. assert (in_minute (toMinuteStartMs t) (completion m t d o) = true) as ->
        by apply Z.eqb_refl.
      rewrite Ec. apply (count_tally (completion m t d o)); [done|].
      intros y [Hy _]%filterb_In. destruct (Htimes y Hy). cbn. lia.
    + rewrite list_lookup_insert_ne by done. intros E0.
      destruct (Hbucket i b0 E0) as (s & Hs & Ess & Ei & Et). exists s. split; [done|]. split; [done|]. split; [done|].
      rewrite filterb_snoc. destruct (in_minute (mb_minuteStartMs b0) (completion m t d o)) eqn:Em.
      * apply Z.eqb_eq in Em. cbn in Em. destruct Hne. by rewrite <- Ei, <- Em.
      * by rewrite app_nil_r.
  - intros x [Hx|[<-|[]]]%in_app_iff Hw.
    + destruct (Hrecent x Hx Hw) as (b0 & E0 & Em).
      destruct (decide (bucket_index (minute_of x) = bucket_index (toMinuteStartMs t))) as [E|Hne].
      * exists (count_in_bucket m t d o b). rewrite E, list_lookup_insert_eq by lia. split; [done|].
        cbn. rewrite E, Eb in E0. injection E0 as <-. done.
      * exists b0. by rewrite list_lookup_insert_ne by done.
    + exists (count_in_bucket m t d o b). cbn. by rewrite list_lookup_insert_eq by lia.
Qed.

(** ** Windows *)

Definition window_buckets (minimum : Z) (ring : list (option MinuteBucket)) : list MinuteBucket :=
  filterb (fun b => negb (mb_minuteStartMs b <? minimum)) (omap id ring).

Lemma window_overall minutes now ring :
  ag_overall (aggregateWindow minutes now ring) =
  csum (map mb_counters (window_buckets (toMinuteStartMs now - Z.max 0 (minutes - 1) * MINUTE_MS) ring)).
Proof.
  unfold aggregateWindow, window_buckets. set (minimum := toMinuteStartMs now - _).
  match goal with |- context [fold_left ?f ring ?a] => set (step := f); set (start := a) end.
  assert (G : forall ring acc, counters_nonneg (ag_overall acc) ->
    ag_overall (fold_left step ring acc) =
    addCounters (ag_overall acc) (csum (map mb_counters (filterb (fun b => negb (mb_minuteStartMs b <? minimum)) (omap id ring))))).
  { clear ring. induction ring as [|[b|] ring IH]; intros acc Ha; cbn [fold_left];
      [by rewrite add_empty_r| |by apply IH].
    cbn. destruct (mb_minuteStartMs b <? minimum) eqn:E; cbn.
    - by apply IH.
    - rewrite IH by (unfold counters_nonneg in *; cbn; lia).
      cbn [ag_overall]. by rewrite <- (assoc addCounters). }
  rewrite G by done. apply add_empty_l, csum_nonneg.
Qed.

(** The tallies of distinct minutes add up to the tally of their union. *)
Lemma tally_partition log S :
  NoDup S ->
  csum (map (fun s => tally (filterb (in_minute s) log)) S) =
  tally (filterb (fun x => bool_decide (minute_of x ∈ S)) log).
Proof.
  induction 1 as [|s S Hs Hnd IH].
  - symmetry. apply tally_nil_of. intros x _. apply bool_decide_eq_false_2. by intros ?%elem_of_nil.
  - cbn [map]. rewrite csum_cons, IH, <- tally_split.
    + f_equal. apply filterb_ext. intros x _. unfold in_minute.
      destruct (Z.eqb_spec (minute_of x) s) as [E|E]; cbn [orb].
      * symmetry. apply bool_decide_eq_true_2. rewrite E. by left.
      * apply bool_decide_ext. rewrite elem_of_cons. naive_solver.
    + intros x _ E%Z.eqb_eq. apply bool_decide_eq_false_2. by rewrite E.
Qed.

Lemma window_starts_nodup ring minimum :
  (forall i b, ring !! i = Some (Some b) -> bucket_index (mb_minuteStartMs b) = i) ->
  NoDup (map mb_minuteStartMs (window_buckets minimum ring)).
Proof.
  intros Hi. unfold window_buckets. apply NoDup_map_filterb.
  assert (G : forall ring k, (forall i b, ring !! i = Some (Some b) -> bucket_index (mb_minuteStartMs b) = (k + i)%nat) ->
    NoDup (map mb_minuteStartMs (omap id ring)) /\
    forall s, In s (map mb_minuteStartMs (omap id ring)) -> (k <= bucket_index s)%nat).
  { clear. induction ring as [|o ring IH]; intros k Hk; [split; [constructor|done]|].
    destruct (IH (S k)) as [Hnd Hge].
    { intros i b E. rewrite (Hk (S i) b E). lia. }
    destruct o as [b|]; cbn.
    - split.
      + apply NoDup_cons. split; [|done]. intros Hin%list_elem_of_In%Hge.
        pose proof (Hk O b eq_refl). lia.
      + intros s [<-|Hs]; [rewrite (Hk O b eq_refl); lia|]. apply Hge in Hs. lia.
    - split; [done|]. intros s Hs%Hge. lia. }
  apply (G ring O). intros i b E. by apply Hi.
Qed.

Lemma window_bucket_In minimum ring b :
  In b (window_buckets minimum ring) <-> (exists i, ring !! i = Some (Some b)) /\ minimum <= mb_minuteStartMs b.
Proof.
  unfold window_buckets. rewrite filterb_In, <- list_elem_of_In, list_elem_of_omap, negb_true_iff, Z.ltb_ge.
  split; intros [H1 H2]; (split; [|done]).
  - destruct H1 as (o & Ho & E). cbn in E. subst o. by apply list_elem_of_lookup in Ho.
  - destruct H1 as (i & Ei). exists (Some b). split; [|done]. by apply list_elem_of_lookup_2 in Ei.
Qed.

(** A window of up to an hour reads exactly the requests completed in it. *)
Lemma window_refines log last ring minutes now :
  ring_refines log last ring -> last <= now -> 1 <= minutes <= 60 ->
  ag_overall (aggregateWindow minutes now ring) = tally (filterb (in_window minutes now) log).
Proof.
  intros [Hlen Hlast Htimes Hbucket Hrecent] Hnow Hm. rewrite window_overall.
  replace (Z.max 0 (minutes - 1)) with (minutes - 1) by lia.
  set (minimum := toMinuteStartMs now - (minutes - 1) * MINUTE_MS).
  set (sel := window_buckets minimum ring).
  assert (Hsel : forall b, In b sel -> mb_counters b = tally (filterb (in_minute (mb_minuteStartMs b)) log)).
  { intros b [(i & Ei) _]%window_bucket_In. by destruct (Hbucket i b Ei) as (? & _ & _ & _ & ?). }
  rewrite (map_ext_in _ (fun b => tally (filterb (in_minute (mb_minuteStartMs b)) log)) _ Hsel).
  rewrite <- (map_map mb_minuteStartMs (fun s => tally (filterb (in_minute s) log))), tally_partition.
  2: { apply window_starts_nodup. intros i b E. by destruct (Hbucket i b E) as (? & _ & _ & ? & _). }
  f_equal. apply filterb_ext. intros x Hx. unfold in_window. fold minimum.
  destruct (Htimes x Hx) as [Hxt _]. pose proof (minute_mono last now Hnow).
  apply eq_true_iff_eq. rewrite bool_decide_eq_true, Z.leb_le, list_elem_of_In, in_map_iff. split.
  - intros (b & <- & [_ Hb]%window_bucket_In). done.
  - intros Hge. destruct (Hrecent x Hx) as (b & Eb & Es); [unfold minimum, MINUTE_MS in *; nia|].
    exists b. split; [done|]. apply window_bucket_In. split; [by eexists|]. by rewrite Es.
Qed.

(** * Histories *)

Inductive RegistryCall :=
| CallBegin (tradingAccountId : Z) (m : AlpacaRequestMetadata)
| CallComplete (start : RequestStart) (c : RequestCompletion)
| CallSnapshot
| CallDrain
| CallRestore (deltas : list AggregateDelta).

Definition registry_call `{DateParse} `{Locale} (now : Z) (c : RegistryCall) (r : AlpacaApiUsageRegistry)
    : AlpacaApiUsageRegistry :=
  match c with
  | CallBegin account m => snd (beginRequest account m now r)
  | CallComplete start c => completeRequest start c now r
  | CallSnapshot => snd (getSnapshot now r)
  | CallDrain => snd (drainPendingAggregateDeltas r)
  | CallRestore deltas => restorePendingAggregateDeltas deltas r
  end.

Definition run_registry `{DateParse} `{Locale} (calls : list (Z * RegistryCall)) (r : AlpacaApiUsageRegistry)
    : AlpacaApiUsageRegistry := fold_left (fun r '(now, c) => registry_call now c r) calls r.

(** The requests a history completes. *)
Definition completed_by (now : Z) (c : RegistryCall) : list Completed :=
  match c with
  | CallComplete start c =>
      [completion (rq_metadata start) now (Z.max 0 (now - rq_startedAt start)) (rc_outcome c)]
  | _ => []
  end.
Definition log_of (calls : list (Z * RegistryCall)) : list Completed :=
  concat (map (fun '(now, c) => completed_by now c) calls).

(** The process clock never runs backwards. *)
Fixpoint clock_from (last : Z) (calls : list (Z * RegistryCall)) : Prop :=
  match calls with
  | [] => True
  | (now, _) :: calls => last <= now /\ clock_from now calls
  end.
Definition last_time (start : Z) (calls : list (Z * RegistryCall)) : Z :=
  fold_left (fun _ '(now, _) => now) calls start.

Section Histories.
Context `{DateParse} `{Locale}.

Definition registry_refines (log : list Completed) (last : Z) (r : AlpacaApiUsageRegistry) : Prop :=
  ring_refines log last (rg_buckets r) /\ rg_sinceStartup r = tally log.

Lemma restore_keeps deltas r :
  rg_buckets (restorePendingAggregateDeltas deltas r) = rg_buckets r /\
  rg_sinceStartup (restorePendingAggregateDeltas deltas r) = rg_sinceStartup r.
Proof.
  unfold restorePendingAggregateDeltas. revert r. induction deltas as [|d l IH]; intros r; [done|].
  cbn [fold_left]. destruct (IH (mergePendingDelta d r)) as [-> ->]. done.
Qed.

(** The bookkeeping after the counters leaves them alone. *)
Lemma complete_counters start c now r :
  rg_buckets (completeRequest start c now r) =
    rg_buckets (recordCounters (rq_metadata start) now (Z.max 0 (now - rq_startedAt start)) (rc_outcome c) r) /\
  rg_sinceStartup (completeRequest start c now r) =
    count_request now (Z.max 0 (now - rq_startedAt start)) (rc_outcome c) (rg_sinceStartup r).
Proof.
  unfold completeRequest. cbv zeta.
  set (r1 := set_concurrency _ _ r).
  assert (Hr1 : rg_buckets r1 = rg_buckets r /\ rg_sinceStartup r1 = rg_sinceStartup r) by done.
  set (r2 := recordCounters _ _ _ _ r1).
  assert (Hr2 : rg_buckets r2 = rg_buckets (recordCounters (rq_metadata start) now
      (Z.max 0 (now - rq_startedAt start)) (rc_outcome c) r) /\
    rg_sinceStartup r2 = count_request now (Z.max 0 (now - rq_startedAt start)) (rc_outcome c) (rg_sinceStartup r)).
  { unfold r2, recordCounters. cbn [rg_buckets set_concurrency r1]. by destruct (getBucket _ _). }
  set (r3 := recordPersistenceDelta _ _ _ _ _ r2).
  assert (Hr3 : rg_buckets r3 = rg_buckets r2 /\ rg_sinceStartup r3 = rg_sinceStartup r2) by done.
  set (r4 := match rc_outcome c with rate_limited => _ | _ => _ end).
  assert (Hr4 : rg_buckets r4 = rg_buckets r3 /\ rg_sinceStartup r4 = rg_sinceStartup r3).
  { unfold r4. destruct (rc_outcome c); try done.
    - unfold recordRateLimit. destruct (parseRetryAfter _ _). by destruct (rl_active (rg_rateLimit r3)).
    - unfold recordRateLimitRecovery. destruct (negb _); [done|]. by destruct (in_backoff _ _). }
  assert (Hw : forall r, rg_buckets (evaluateWarning now r) = rg_buckets r /\
    rg_sinceStartup (evaluateWarning now r) = rg_sinceStartup r).
  { intros r0. unfold evaluateWarning. destruct (negb _ && _); [done|]. by destruct (_ && _). }
  destruct (Hw r4) as [-> ->]. destruct Hr4 as [-> ->], Hr3 as [-> ->]. done.
Qed.

Lemma refines_later log last now r :
  registry_refines log last r -> last <= now -> registry_refines log now r.
Proof.
  intros [[H1 H2 H3 H4 H5] Hs] Hle. split; [|done]. pose proof (minute_mono last now Hle).
  split; [done|lia| | |].
  - intros x Hx. destruct (H3 x Hx). lia.
  - intros i b E. destruct (H4 i b E) as (t & ? & ? & ? & ?). exists t. split; [lia|done].
  - intros x Hx Hw. apply H5; [done|]. lia.
Qed.

(** Every call of the service simulates its step on the log. *)
Lemma registry_call_refines log last now c r :
  registry_refines log last r -> last <= now ->
  registry_refines (log ++ completed_by now c) now (registry_call now c r).
Proof.
  intros Hr Hle. destruct c as [account m|start c| | |deltas]; cbn [registry_call completed_by];
    rewrite ?app_nil_r.
  - by apply refines_later with last.
  - destruct Hr as [Hring Hs]. destruct (complete_counters start c now r) as [Eb Es].
    unfold registry_refines. rewrite Eb, Es. split; [apply record_refines with last; [done|done|lia]|].
    rewrite Hs.
    apply (count_tally (completion (rq_metadata start) now (Z.max 0 (now - rq_startedAt start)) (rc_outcome c)));
      [cbn; lia|].
    intros y Hy. destruct Hring as [_ _ Ht _ _]. destruct (Ht y Hy). cbn. lia.
  - unfold getSnapshot. destruct (toIso _); [|by apply refines_later with last].
    destruct (getBucket now (rg_buckets r)) as [b ring'] eqn:Eg. destruct Hr as [Hring Hs].
    split; [|done]. by apply (getBucket_refines log last _ now b ring' Hring).
  - by apply refines_later with last.
  - unfold registry_refines. destruct (restore_keeps deltas r) as [-> ->]. by apply refines_later with last.
Qed.

Lemma run_registry_refines calls log last r :
  registry_refines log last r -> clock_from last calls ->
  registry_refines (log ++ log_of calls) (last_time last calls) (run_registry calls r).
Proof.
  revert log last r. induction calls as [|[now c] calls IH]; intros log last r Hr Hc.
  - by rewrite app_nil_r.
  - destruct Hc as [Hle Hc]. unfold log_of. cbn [map concat]. rewrite app_assoc.
    apply (IH _ now); [|done]. by apply registry_call_refines with last.
Qed.

Lemma new_registry_refines process threshold last :
  0 <= last -> registry_refines [] last (new_registry process threshold).
Proof.
  intros Hl. split; [|done]. split; [done|done|done| |done].
  intros i b E. cbn [new_registry rg_buckets] in E. by apply lookup_replicate in E as [E _].
Qed.
End Histories.

(** * Deltas and backoff *)

(** A quantity of a delta that merging adds up. *)
Definition additive (f : AggregateDelta -> Z) : Prop := forall a b, f (merge_delta a b) = f a + f b.
Definition pending_total (f : AggregateDelta -> Z) (r : AlpacaApiUsageRegistry) : Z :=
  zsum (fun kd => f (snd kd)) (rg_pendingDeltas r).

Lemma zsum_map_set {K} `{EqDecision K} {V} (g : V -> Z) k v (m : list (K * V)) :
  zsum (fun kv => g (snd kv)) (map_set k v m) =
  zsum (fun kv => g (snd kv)) m + g v - match map_get k m with Some old => g old | None => 0 end.
Proof.
  unfold zsum. induction m as [|[k' v'] m IH]; cbn; [lia|].
  destruct (decide (k = k')); cbn; [lia|]. rewrite IH. lia.
Qed.

Lemma merge_total f d r : additive f ->
  pending_total f (mergePendingDelta d r) = pending_total f r + f d.
Proof.
  intros Hf. unfold pending_total, mergePendingDelta. cbn [rg_pendingDeltas set_pendingDeltas]. unfold merge_into.
  destruct (map_get (delta_key d) (rg_pendingDeltas r)) as [old|] eqn:E; rewrite zsum_map_set, E; [|lia].
  rewrite Hf. lia.
Qed.

Lemma restore_total f ds r : additive f ->
  pending_total f (restorePendingAggregateDeltas ds r) = pending_total f r + zsum f ds.
Proof.
  intros Hf. unfold restorePendingAggregateDeltas. revert r.
  induction ds as [|d ds IH]; intros r; cbn [fold_left]; [unfold zsum; cbn; lia|].
  rewrite IH, merge_total by done. unfold zsum. cbn. lia.
Qed.

(** Pending deltas are stored under their own keys, each once. *)
Definition pending_keyed (l : list (string * AggregateDelta)) : Prop :=
  NoDup (map fst l) /\ forall k d, In (k, d) l -> k = delta_key d.

Lemma map_get_absent {K} `{EqDecision K} {V} (k : K) (m : list (K * V)) :
  ~ In k (map fst m) -> map_get k m = None.
Proof.
  induction m as [|[k' v] m IH]; cbn; [done|]. intros Hn.
  destruct (decide (k = k')) as [->|]; [destruct Hn; by left|]. apply IH. tauto.
Qed.

Lemma map_set_absent {K} `{EqDecision K} {V} (k : K) (v : V) (m : list (K * V)) :
  ~ In k (map fst m) -> map_set k v m = (m ++ [(k, v)])%list.
Proof.
  induction m as [|[k' v'] m IH]; cbn; [done|]. intros Hn.
  destruct (decide (k = k')) as [->|]; [destruct Hn; by left|]. rewrite IH by tauto. done.
Qed.

(** Restoring what was just drained brings every delta back to its place. *)
Lemma restore_drained r :
  pending_keyed (rg_pendingDeltas r) ->
  restorePendingAggregateDeltas (fst (drainPendingAggregateDeltas r)) (snd (drainPendingAggregateDeltas r)) = r.
Proof.
  intros [Hnd Hk]. cbn [drainPendingAggregateDeltas fst snd].
  assert (G : forall rest done', NoDup (map fst (done' ++ rest)) -> (forall k d, In (k, d) rest -> k = delta_key d) ->
    restorePendingAggregateDeltas (map snd rest) (set_pendingDeltas done' r) =
    set_pendingDeltas (done' ++ rest) r).
  { clear. unfold restorePendingAggregateDeltas.
    induction rest as [|[k d] rest IH]; intros done' Hnd Hk; cbn [map fold_left snd]; [by rewrite app_nil_r|].
    assert (Hkd : k = delta_key d) by (apply Hk; by left).
    assert (Hn : ~ In (delta_key d) (map fst done')).
    { rewrite map_app in Hnd. apply NoDup_app in Hnd as (_ & Hdis & _). cbn in Hdis.
      rewrite <- list_elem_of_In, <- Hkd. intros Hin%Hdis. apply Hin. by left. }
    unfold mergePendingDelta at 2, merge_into. cbn [rg_pendingDeltas set_pendingDeltas].
    rewrite map_get_absent, map_set_absent by done. subst k.
    change (set_pendingDeltas (done' ++ [(delta_key d, d)]) (set_pendingDeltas done' r))
      with (set_pendingDeltas (done' ++ [(delta_key d, d)]) r).
    rewrite IH; [by rewrite <- app_assoc|by rewrite <- app_assoc|]. intros k0 d0 Hin. apply Hk. by right. }
  rewrite (G _ []); [by destruct r|done|done].
Qed.

Lemma map_set_keys k d l : pending_keyed l -> k = delta_key d -> pending_keyed (map_set k d l).
Proof.
  intros [Hnd Hk] Hkd.
  assert (Hfst : forall m : list (string * AggregateDelta), In k (map fst m) -> map fst (map_set k d m) = map fst m).
  { induction m as [|[k' d'] m IH]; cbn; [done|]. destruct (decide (k = k')) as [->|Hne]; [done|].
    intros [->|Hin]; [done|]. cbn. by rewrite IH. }
  split.
  - destruct (in_dec String.string_dec k (map fst l)) as [Hin|Hn]; [by rewrite Hfst|].
    rewrite map_set_absent, map_app by done. apply NoDup_app. split; [done|]. split; [|apply NoDup_singleton].
    intros x Hx ->%list_elem_of_singleton. by apply list_elem_of_In in Hx.
  - clear Hfst Hnd. induction l as [|[k' d'] l IH]; cbn; [by intros k0 d0 [[= <- <-]|[]]|].
    destruct (decide (k = k')) as [->|Hne]; cbn; intros k0 d0 [[= <- <-]|Hin]; try done.
    + apply Hk. by right.
    + apply Hk. by left.
    + apply IH; [|done]. intros k1 d1 H1. apply Hk. by right.
Qed.

Lemma merge_key a d : delta_key a = delta_key d -> delta_key (merge_delta a d) = delta_key d.
Proof. intros <-. done. Qed.

Lemma merge_keyed d r : pending_keyed (rg_pendingDeltas r) -> pending_keyed (rg_pendingDeltas (mergePendingDelta d r)).
Proof.
  intros Hk. cbn [mergePendingDelta rg_pendingDeltas set_pendingDeltas]. unfold merge_into.
  destruct (map_get (delta_key d) (rg_pendingDeltas r)) as [old|] eqn:E; apply map_set_keys; try done.
  symmetry. apply merge_key. destruct Hk as [_ Hk]. symmetry. apply Hk.
  clear Hk. induction (rg_pendingDeltas r) as [|[k v] l IH]; [done|]. cbn in E.
  destruct (decide (delta_key d = k)) as [->|]; [injection E as <-; by left|right; by apply IH].
Qed.

Section PendingHistories.
Context `{DateParse} `{Locale}.

(** What a history drains, restores and completes, as deltas. *)
Fixpoint drained_of (calls : list (Z * RegistryCall)) (r : AlpacaApiUsageRegistry) : list AggregateDelta :=
  match calls with
  | [] => []
  | (now, c) :: calls =>
      ((match c with CallDrain => fst (drainPendingAggregateDeltas r) | _ => [] end) ++
       drained_of calls (registry_call now c r))%list
  end.
Definition added_of (calls : list (Z * RegistryCall)) : list AggregateDelta :=
  concat (map (fun '(now, c) => match c with
    | CallRestore deltas => deltas
    | CallComplete start c => [request_delta (rq_tradingAccountId start) (rq_metadata start) now
                                 (Z.max 0 (now - rq_startedAt start)) c]
    | _ => []
    end) calls).

Lemma complete_pending start c now r :
  rg_pendingDeltas (completeRequest start c now r) =
  rg_pendingDeltas (mergePendingDelta (request_delta (rq_tradingAccountId start) (rq_metadata start) now
    (Z.max 0 (now - rq_startedAt start)) c) r).
Proof.
  unfold completeRequest. cbv zeta. set (r1 := set_concurrency _ _ r).
  set (r2 := recordCounters _ _ _ _ r1).
  assert (H2 : rg_pendingDeltas r2 = rg_pendingDeltas r)
    by (unfold r2, recordCounters; by destruct (getBucket _ _)).
  set (r3 := recordPersistenceDelta _ _ _ _ _ r2).
  assert (H3 : rg_pendingDeltas r3 = rg_pendingDeltas (mergePendingDelta (request_delta (rq_tradingAccountId start)
    (rq_metadata start) now (Z.max 0 (now - rq_startedAt start)) c) r)) by (cbn; by rewrite H2).
  rewrite <- H3. set (r4 := match rc_outcome c with rate_limited => _ | _ => _ end).
  assert (H4 : rg_pendingDeltas r4 = rg_pendingDeltas r3).
  { unfold r4. destruct (rc_outcome c); try done.
    - unfold recordRateLimit. destruct (parseRetryAfter _ _). by destruct (rl_active (rg_rateLimit r3)).
    - unfold recordRateLimitRecovery. destruct (negb _); [done|]. by destruct (in_backoff _ _). }
  rewrite <- H4. unfold evaluateWarning. destruct (negb _ && _); [done|]. by destruct (_ && _).
Qed.

Lemma snapshot_pending now r : rg_pendingDeltas (snd (getSnapshot now r)) = rg_pendingDeltas r.
Proof. unfold getSnapshot. destruct (toIso _); [|done]. by destruct (getBucket _ _). Qed.

Lemma registry_call_keyed now c r :
  pending_keyed (rg_pendingDeltas r) -> pending_keyed (rg_pendingDeltas (registry_call now c r)).
Proof.
  intros Hk. destruct c as [account m|start c| | |deltas]; cbn [registry_call]; try done.
  - rewrite complete_pending. by apply merge_keyed.
  - by rewrite snapshot_pending.
  - split; [constructor|done].
  - unfold restorePendingAggregateDeltas. revert r Hk. induction deltas as [|d ds IH]; intros r Hk; [done|].
    cbn [fold_left]. by apply IH, merge_keyed.
Qed.

Lemma run_registry_keyed calls r :
  pending_keyed (rg_pendingDeltas r) -> pending_keyed (rg_pendingDeltas (run_registry calls r)).
Proof.
  revert r. induction calls as [|[now c] calls IH]; intros r Hk; [done|].
  cbn [run_registry fold_left]. by apply IH, registry_call_keyed.
Qed.

Lemma run_registry_total f calls r : additive f ->
  pending_total f (run_registry calls r) + zsum f (drained_of calls r) =
  pending_total f r + zsum f (added_of calls).
Proof.
  intros Hf. assert (Happ : forall l k, zsum f (l ++ k) = zsum f l + zsum f k).
  { intros l k. unfold zsum. induction l as [|x l IH]; cbn; lia. }
  assert (Hnil : zsum f [] = 0) by done.
  assert (Hone : forall d, zsum f [d] = f d) by (intros d; unfold zsum; cbn; lia).
  revert r. induction calls as [|[now c] calls IH]; intros r; [unfold zsum; cbn; lia|].
  unfold added_of in *. cbn [run_registry fold_left drained_of map concat]. rewrite !Happ.
  specialize (IH (registry_call now c r)). unfold run_registry in IH.
  destruct c as [account m|start c| | |deltas]; cbn [registry_call] in *.
  - unfold pending_total in *. rewrite Hnil. change (rg_pendingDeltas (snd (beginRequest account m now r))) with (rg_pendingDeltas r) in IH. lia.
  - unfold pending_total in IH at 2. rewrite complete_pending in IH.
    fold (pending_total f (mergePendingDelta (request_delta (rq_tradingAccountId start) (rq_metadata start) now
      (Z.max 0 (now - rq_startedAt start)) c) r)) in IH.
    rewrite merge_total in IH by done. rewrite Hnil, Hone. lia.
  - unfold pending_total in *. rewrite snapshot_pending in IH. rewrite Hnil. lia.
  - unfold pending_total in *.
    change (rg_pendingDeltas (snd (drainPendingAggregateDeltas r))) with (@nil (string * AggregateDelta)) in IH.
    cbn [drainPendingAggregateDeltas fst].
    assert (E : zsum f (map snd (rg_pendingDeltas r)) = zsum (fun kd => f (snd kd)) (rg_pendingDeltas r)).
    { unfold zsum. clear. induction (rg_pendingDeltas r) as [|[k d] l IHl]; cbn; [done|]. by rewrite IHl. }
    change (zsum (fun kd : string * AggregateDelta => f (snd kd)) []) with 0 in IH. rewrite Hnil, E. lia.
  - rewrite restore_total in IH by done. rewrite Hnil. lia.
Qed.

(** ** The backoff *)

Definition backing_off (t : Z) (r : AlpacaApiUsageRegistry) : Prop :=
  rl_active (rg_rateLimit r) = true /\
  exists u, rl_backoffUntil (rg_rateLimit r) = Some (Some u) /\ t <= u.

Lemma complete_rateLimit start c now r :
  rg_rateLimit (completeRequest start c now r) =
  match rc_outcome c with
  | rate_limited => rg_rateLimit (recordRateLimit (rq_metadata start) (rc_headers c) now r)
  | success => rg_rateLimit (recordRateLimitRecovery (rq_metadata start) now r)
  | _ => rg_rateLimit r
  end.
Proof.
  unfold completeRequest. cbv zeta. set (r1 := set_concurrency _ _ r).
  set (r3 := recordPersistenceDelta _ _ _ _ _ _).
  assert (H3 : rg_rateLimit r3 = rg_rateLimit r) by (unfold r3, recordCounters; by destruct (getBucket _ _)).
  assert (Hw : forall r0, rg_rateLimit (evaluateWarning now r0) = rg_rateLimit r0).
  { intros r0. unfold evaluateWarning. destruct (negb _ && _); [done|]. by destruct (_ && _). }
  rewrite Hw. destruct (rc_outcome c); try exact H3.
  - unfold recordRateLimit. rewrite H3. destruct (parseRetryAfter _ _). by destruct (rl_active (rg_rateLimit r)).
  - unfold recordRateLimitRecovery. rewrite H3. destruct (negb _); [done|]. by destruct (in_backoff _ _).
Qed.

Lemma backing_off_call t now c r :
  backing_off t r -> now < t -> backing_off t (registry_call now c r).
Proof.
  intros (Ha & u & Eu & Hu) Hn. assert (Hin : in_backoff now (rg_rateLimit r) = true).
  { unfold in_backoff. rewrite Eu. apply Z.ltb_lt. lia. }
  unfold backing_off. destruct c as [account m|start c| | |deltas]; cbn [registry_call].
  - split; [done|]. by exists u.
  - rewrite complete_rateLimit. destruct (rc_outcome c); try (split; [done|by exists u]).
    + unfold recordRateLimit. destruct (parseRetryAfter _ _) as [secs backoff]. rewrite Ha. cbn. split; [done|].
      rewrite Eu. destruct backoff as [[d|]|]; cbn; [|by exists u|by exists u].
      destruct (Z.ltb_spec u d); [exists d|exists u]; split; try done; lia.
    + unfold recordRateLimitRecovery. rewrite Ha, Hin. cbn. split; [done|]. by exists u.
  - unfold getSnapshot. destruct (toIso _); [|split; [done|by exists u]].
    destruct (getBucket _ _). split; [done|]. by exists u.
  - split; [done|]. by exists u.
  - assert (E : rg_rateLimit (restorePendingAggregateDeltas deltas r) = rg_rateLimit r).
    { unfold restorePendingAggregateDeltas. clear. revert r. induction deltas as [|d ds IH]; intros r; [done|].
      cbn [fold_left]. by rewrite IH. }
    rewrite E. split; [done|]. by exists u.
Qed.

Lemma backing_off_run t calls r :
  backing_off t r -> Forall (fun '(now, _) => now < t) calls -> backing_off t (run_registry calls r).
Proof.
  revert r. induction calls as [|[now c] calls IH]; intros r Hb Hc; [done|].
  apply Forall_cons in Hc as [Hn Hc]. cbn [run_registry fold_left]. by apply IH, Hc; apply backing_off_call.
Qed.
End PendingHistories.

(** * Properties *)

Section Properties.
Context `{DateParse} `{Locale}.

(** C29. The registry refines the log of completed requests: after any history
    of begins, completions, snapshots, drains and restores on a clock that does
    not run backwards, every rolling window a snapshot reports - up to the full
    hour of sixty reused buckets - is exactly the tally of the requests
    completed in those minutes, counts, durations, extremes and latest dates
    included, and the totals since startup are the tally of all of them. *)
Theorem usage_registry_refines_log start calls process threshold now
    (Hstart : 0 <= start) (Hclock : clock_from start calls) (Hnow : last_time start calls <= now) :
  let r := run_registry calls (new_registry process threshold) in
  let window m := filterb (in_window m now) (log_of calls) in
  rg_sinceStartup r = tally (log_of calls) /\
  (forall m, 1 <= m <= 60 -> ag_overall (aggregateWindow m now (rg_buckets r)) = tally (window m)) /\
  forall s r', getSnapshot now r = (Ok s, r') ->
    sn_oneMinute s = toSummary (tally (window 1)) /\ sn_fiveMinutes s = toSummary (tally (window 5)) /\
    sn_fifteenMinutes s = toSummary (tally (window 15)) /\ sn_sixtyMinutes s = toSummary (tally (window 60)) /\
    sn_currentMinute s = toSummary (tally (filterb (in_minute (toMinuteStartMs now)) (log_of calls))) /\
    sn_totalRequestsSinceStartup s = Z.of_nat (length (log_of calls)).
Proof.
  cbv zeta.
  pose proof (run_registry_refines calls [] start _ (new_registry_refines process threshold start Hstart) Hclock)
    as [Hring Hs]. cbn [app] in *.
  set (r := run_registry calls _) in *.
  assert (Hw : forall m, 1 <= m <= 60 -> ag_overall (aggregateWindow m now (rg_buckets r)) =
            tally (filterb (in_window m now) (log_of calls))).
  { intros m Hm. by apply window_refines with (last_time start calls). }
  split; [done|]. split; [done|]. intros s r'. unfold getSnapshot.
  destruct (toIso _); [|done]. destruct (getBucket now (rg_buckets r)) as [b ring'] eqn:Eg. intros [= <- _]. cbn.
  rewrite !Hw by lia. destruct (getBucket_refines _ _ _ now b ring' Hring Hnow Eg) as (_ & _ & _ & ->).
  rewrite Hs. repeat (split; [done|]). apply tally_length.
Qed.

(** No usage is lost or counted twice on its way to the database: through
    any history, what waits plus what was drained is what waited before plus
    what was completed or restored, for every additive quantity; and restoring
    a drained batch right away puts every delta back as it was. *)
Theorem usage_deltas_conserved calls r f (Hf : additive f) (Hk : pending_keyed (rg_pendingDeltas r)) :
  let r' := run_registry calls r in
  pending_total f r' + zsum f (drained_of calls r) = pending_total f r + zsum f (added_of calls) /\
  restorePendingAggregateDeltas (fst (drainPendingAggregateDeltas r')) (snd (drainPendingAggregateDeltas r')) = r'.
Proof.
  cbv zeta. split; [by apply run_registry_total|]. by apply restore_drained, run_registry_keyed.
Qed.

(** A backoff is honoured: once a rate limit set a backoff until [t],
    every later request that may be deferred is deferred at any time before
    [t], whatever completes in between - successes do not end it and further
    rate limits only extend it - and a request that may not be deferred never
    is. *)
Theorem backoff_honoured t calls r now m
    (Hactive : backing_off t r) (Hbefore : Forall (fun '(now, _) => now < t) calls) (Hnow : now < t) :
  shouldDefer m now (run_registry calls r) = rm_deferDuringRateLimit m.
Proof.
  destruct (backing_off_run t calls r Hactive Hbefore) as (Ha & u & Eu & Hu).
  unfold shouldDefer, in_backoff. rewrite Ha, Eu, andb_true_r.
  assert ((now <? u) = true) as -> by (apply Z.ltb_lt; lia). apply andb_true_r.
Qed.
End Properties.

(** * Concrete inputs *)

Definition no_other_dates : DateParse := fun _ => None.
Definition byte_order : Locale := fun x y => if String.ltb x y then -1 else if String.eqb x y then 0 else 1.
#[local] Existing Instance no_other_dates.
#[local] Existing Instance byte_order.

Definition order_read : AlpacaRequestMetadata :=
  {| rm_operation := "open_orders_sync"; rm_endpoint := "GET /v2/orders"; rm_method := "GET";
     rm_requestClass := "synchronization_read"; rm_operationClass := "LIFECYCLE_READ";
     rm_deferDuringRateLimit := true; rm_newPositionEntryContext := None |}.
Definition sample_start (t : Z) : RequestStart :=
  {| rq_tradingAccountId := 1; rq_metadata := order_read; rq_startedAt := t |}.
Definition answered (o : AlpacaApiOutcome) (retryAfter : option string) : RequestCompletion :=
  {| rc_statusCode := Some 200; rc_outcome := o; rc_responseFailedBeforeHeaders := false;
     rc_headers := Some (fun name => if String.eqb name "retry-after" then retryAfter else None) |}.
Definition sample_calls : list (Z * RegistryCall) :=
  [(1000, CallBegin 1 order_read);
   (1250, CallComplete (sample_start 1000) (answered success None));
   (61000, CallComplete (sample_start 60500) (answered rate_limited (Some "30")));
   (3600500, CallSnapshot);
   (3601000, CallComplete (sample_start 3600900) (answered server_error None))].

(** An hour later the first bucket is reused and its request has left the
    window; a Retry-After beyond any Date makes the snapshot throw. *)
Example sample_window :
  let r := run_registry sample_calls (new_registry "p" 120) in
  (requestCount (ag_overall (aggregateWindow 60 3601500 (rg_buckets r))), requestCount (rg_sinceStartup r)) = (2, 3).
Proof. vm_compute. reflexivity. Qed.
Example huge_retry_after :
  fst (getSnapshot 3000 (completeRequest (sample_start 1000) (answered rate_limited (Some "1e300")) 2000
    (new_registry "p" 120))) = Throw (RangeError "Invalid time value").
Proof. vm_compute. reflexivity. Qed.

Lemma usage_registry_refines_log_witness :
  let r := run_registry sample_calls (new_registry "p" 120) in
  ag_overall (aggregateWindow 60 3601500 (rg_buckets r)) =
    tally (filterb (in_window 60 3601500) (log_of sample_calls)) /\
  length (log_of sample_calls) = 3%nat.
Proof.
  split; [|reflexivity].
  destruct (usage_registry_refines_log 0 sample_calls "p" 120 3601500) as (_ & Hw & _); [lia|cbn; lia|cbn; lia|].
  apply Hw. lia.
Defined.

Lemma usage_deltas_conserved_witness :
  pending_total dl_requestCount (run_registry sample_calls (new_registry "p" 120)) = 3.
Proof.
  destruct (usage_deltas_conserved sample_calls (new_registry "p" 120) dl_requestCount) as [H1 _].
  - done.
  - split; [constructor|done].
  - change (drained_of sample_calls (new_registry "p" 120)) with (@nil AggregateDelta) in H1.
    unfold zsum in H1 at 1. cbn [fold_right] in H1. rewrite Z.add_0_r in H1. rewrite H1. reflexivity.
Defined.

Lemma backoff_honoured_witness :
  let r := completeRequest (sample_start 1000) (answered rate_limited (Some "30")) 2000 (new_registry "p" 120) in
  shouldDefer order_read 31000 (run_registry [(5000, CallComplete (sample_start 4000) (answered success None))] r) = true.
Proof.
  apply (backoff_honoured 32000); [|repeat constructor; lia|lia].
  split; [reflexivity|]. exists 32000. split; [vm_compute; reflexivity|lia].
Defined.
