(* ===== verification/AlpacaClient.v ===== *)
(** The broker HTTP client: integrations/alpaca/client.ts, with the PAPER write
    authority of services/paper-broker-write-authority.service.ts it asks, and
    the request wrappers of the orders, positions, account and activities
    adapters. Every request goes through one function that checks its metadata,
    the rate-limit backoff, the credentials and the write authority before it
    is fetched, and classifies what happened to a write. *)

From Stdlib Require Import ZArith Lia.
From Stdlib Require Import Strings.String Strings.Ascii.
From Stdlib Require Import Floats.SpecFloat.
From stdpp Require Import base list strings.
From S2P Require Import Prelude JsNumber JsValue JsDate AlpacaApiUsage.

Open Scope string_scope.
Open Scope Z_scope.

(** * Percent encoding *)

Definition hex_digit (n : nat) : ascii := ascii_of_nat (if (n <? 10)%nat then 48 + n else 55 + n).
Definition percent (c : ascii) : string :=
  let n := nat_of_ascii c in String "%" (String (hex_digit (n / 16)) (String (hex_digit (n mod 16)) "")).

Definition alphanumeric (c : ascii) : bool :=
  let n := nat_of_ascii c in
  ((48 <=? n)%nat && (n <=? 57)%nat) || ((65 <=? n)%nat && (n <=? 90)%nat) || ((97 <=? n)%nat && (n <=? 122)%nat).

Fixpoint encode_chars (keep : ascii -> option string) (s : string) : string :=
  match s with
  | EmptyString => EmptyString
  | String c s => match keep c with Some t => t | None => percent c end ++ encode_chars keep s
  end.

Definition one_of (c : ascii) (s : string) : bool := existsb (Ascii.eqb c) (list_ascii_of_string s).

(** [encodeURIComponent], on ASCII text. *)
Definition encodeURIComponent (s : string) : string :=
  encode_chars (fun c => if alphanumeric c || one_of c "-_.!~*'()" then Some (String c "") else None) s.

(** [URLSearchParams.toString()], on ASCII text. *)
Definition form_encode (s : string) : string :=
  encode_chars (fun c => if Ascii.eqb c " " then Some "+"
                         else if alphanumeric c || one_of c "*-._" then Some (String c "") else None) s.
Definition query_string (params : list (string * string)) : string :=
  String.concat "&" (map (fun '(k, v) => form_encode k ++ "=" ++ form_encode v) params).

Example encoded : encodeURIComponent "BRK/B" = "BRK%2FB" /\ query_string [("a", "x y:z")] = "a=x+y%3Az".
Proof. split; vm_compute; reflexivity. Qed.

(** * Configuration and state *)

Record AlpacaResolvedConfig := {
  ac_tradingAccountId : Z;
  ac_environment : string;
  ac_baseUrl : string;
  ac_apiKey : string;
  ac_apiSecret : string;
  ac_credentialId : option Z;
  ac_keyFingerprint : option string;
  ac_brokerAccountId : option string
}.

(** The environment variables the client and the write authority read. *)
Record PaperOwnership := {
  po_tradingAccountId : Z;
  po_role : string;
  po_expectedBrokerAccountId : option string
}.
Record PaperAuthorization := { pz_brokerAccountId : string; pz_keyFingerprint : string }.
Record ClientEnv := {
  ALLOW_LIVE_TRADING : bool;
  ALLOW_LIVE_RISK_REDUCING_WRITES : bool;
  PAPER_BROKER_WRITE_DEPLOYMENT_ROLE : string;
  PAPER_BROKER_WRITE_OWNERSHIP : list PaperOwnership;
  PAPER_BROKER_WRITE_AUTHORIZATIONS : list PaperAuthorization
}.

Record HttpRequest := {
  hr_method : string;
  hr_url : string;
  hr_apiKey : string;
  hr_apiSecret : string;
  hr_body : option json
}.

(** What [fetch] delivers: a failure before the headers, or a response whose
    body may still fail to arrive or to parse. *)
Inductive FetchAnswer :=
| FetchFailed (error : js_error)
| FetchResponse (status : Z) (headers : Headers) (text : res string) (body : res json).

(** The usage registry, and the requests fetched so far in order. *)
Record ClientState := {
  cs_usage : AlpacaApiUsageRegistry;
  cs_fetched : list HttpRequest
}.

Definition set_usage (f : AlpacaApiUsageRegistry -> AlpacaApiUsageRegistry) (s : ClientState) : ClientState :=
  {| cs_usage := f (cs_usage s); cs_fetched := cs_fetched s |}.

(** The network, the clock, and the services consulted before a write: the
    credential store, the LIVE approvals and the PAPER accounts' identities. *)
Class AlpacaHost := {
  client_env : ClientEnv;
  clock : nat -> ClientState -> Z;
  resolveAlpacaConfigForTradingAccount : Z -> option (list string) -> ClientState -> res AlpacaResolvedConfig;
  authorizeAndConsumeNewPositionEntry : Z -> Z -> ClientState -> res unit;
  authorizeLiveBrokerWrite : Z -> string -> ClientState -> res unit;
  (** [fingerprintSecret]: the keyed digest of a secret. *)
  fingerprintSecret : string -> string;
  (** The PAPER accounts with a brokerage identity, or a database error. *)
  paper_accounts_with_identity : string -> ClientState -> res (list Z);
  fetch : HttpRequest -> ClientState -> FetchAnswer
}.

Record AccountRequestOptions := {
  ro_method : option string;
  (** What [JSON.stringify] makes of the body, when there is one. *)
  ro_body : option (res json);
  ro_returnNullOn404 : bool;
  ro_metadata : AlpacaRequestMetadata;
  ro_credentialStatuses : option (list string)
}.

Inductive Payload := PNull | PUndefined | PJson (value : json) | PText (text : string).

(** * The PAPER write authority *)

Section Client.
Context `{DateParse} `{AlpacaHost}.

Definition blocked_paper {A} (reason : string) : res A := Throw (PlainError ("PAPER broker write" ++ reason)).

Definition authorizePaperBrokerWrite (config : AlpacaResolvedConfig) (s : ClientState) : res unit :=
  let owners := PAPER_BROKER_WRITE_OWNERSHIP client_env in
  if negb (String.eqb (PAPER_BROKER_WRITE_DEPLOYMENT_ROLE client_env) "PAPER_EXECUTOR") then
    blocked_paper "s are blocked because this deployment is OBSERVATION_ONLY."
  else match ac_brokerAccountId config, ac_keyFingerprint config with
  | Some (String _ _ as account), Some (String _ _ as fingerprint) =>
    match filterb (fun o => (po_tradingAccountId o =? ac_tradingAccountId config) &&
                            String.eqb (po_role o) "EXECUTOR") owners with
    | [declaration] =>
      if negb (bool_decide (po_expectedBrokerAccountId declaration = Some account)) then
        blocked_paper " blocked because the verified brokerage account does not match the EXECUTOR ownership declaration."
      else if existsb (fun o => String.eqb (po_role o) "OBSERVER" &&
                                bool_decide (po_expectedBrokerAccountId o = Some account)) owners then
        blocked_paper " blocked because the verified brokerage account is explicitly owned by an OBSERVER on this deployment."
      else if negb (String.eqb (fingerprintSecret (ac_apiKey config)) fingerprint) then
        blocked_paper " blocked because the decrypted credential does not match its stored fingerprint."
      else match filterb (fun z => String.eqb (pz_brokerAccountId z) account &&
                                   String.eqb (pz_keyFingerprint z) fingerprint)
                   (PAPER_BROKER_WRITE_AUTHORIZATIONS client_env) with
      | [_] =>
        match paper_accounts_with_identity account s with
        | Throw _ => blocked_paper " blocked because duplicate brokerage identity could not be checked."
        | Ok [id] =>
            if id =? ac_tradingAccountId config then Ok tt
            else blocked_paper " blocked because the brokerage account identity is duplicated or assigned to another local PAPER account."
        | Ok _ => blocked_paper " blocked because the brokerage account identity is duplicated or assigned to another local PAPER account."
        end
      | _ => blocked_paper " blocked because the brokerage account and credential identity are not authorized for this deployment."
      end
    | _ => blocked_paper " blocked because the TradingAccount does not have exactly one matching EXECUTOR declaration on this deployment."
    end
  | _, _ => blocked_paper " blocked because verified brokerage identity evidence is incomplete."
  end.

(** * The request *)

Definition delivery {A} (classification message : string) : eff ClientState A :=
  throw (DeliveryError classification message None).

(** A write the broker answered with an error status. *)
Definition delivery_answered {A} (classification message : string) (status : Z) : eff ClientState A :=
  throw (DeliveryError classification message (Some status)).

(** A failure before delivery: classified for a write, itself for a read. *)
Definition before_delivery {A} (isWrite : bool) (classification message : string) (e : js_error)
    : eff ClientState A :=
  if isWrite then delivery classification message else throw e.

Definition check_metadata (m : AlpacaRequestMetadata) (method : string) (isWrite : bool) : res unit :=
  _ ← assertKnownAlpacaOperation (rm_operation m);
  _ ← assertKnownAlpacaEndpoint (rm_endpoint m);
  if negb (String.eqb (rm_method m) method) then
    Throw (PlainError ("Alpaca request metadata method " ++ rm_method m ++ " does not match request method " ++ method ++ "."))
  else if negb (String.prefix (method ++ " ") (rm_endpoint m)) then
    Throw (PlainError ("Alpaca endpoint metadata " ++ rm_endpoint m ++ " does not match request method " ++ method ++ "."))
  else if isWrite && (negb (String.eqb (rm_requestClass m) "critical_write") ||
                      String.eqb (rm_operationClass m) "LIFECYCLE_READ") then
    Throw (PlainError "Mutating Alpaca requests must be classified as critical writes with a write operation class.")
  else if negb isWrite && String.eqb (rm_requestClass m) "critical_write" then
    Throw (PlainError "Read-only Alpaca requests cannot be classified as critical writes.")
  else Ok tt.

Definition live_policy_allowed (operationClass : string) : bool :=
  if String.eqb operationClass "RISK_REDUCING_WRITE" then ALLOW_LIVE_RISK_REDUCING_WRITES client_env
  else if String.eqb operationClass "ENTRY_WRITE" then
    ALLOW_LIVE_TRADING client_env && ALLOW_LIVE_RISK_REDUCING_WRITES client_env
  else false.

(** The LIVE approval a write asks for. *)
Definition live_authorization (tradingAccountId : Z) (m : AlpacaRequestMetadata) (s : ClientState) : res unit :=
  match rm_newPositionEntryContext m with
  | Some context =>
      if String.eqb (rm_operationClass m) "ENTRY_WRITE" then
        authorizeAndConsumeNewPositionEntry tradingAccountId context s
      else authorizeLiveBrokerWrite tradingAccountId (rm_operationClass m) s
  | None => authorizeLiveBrokerWrite tradingAccountId (rm_operationClass m) s
  end.

Definition authorize_paper (isWrite : bool) (config : AlpacaResolvedConfig) : eff ClientState unit :=
  if isWrite && String.eqb (ac_environment config) "PAPER" then
    try_catch (lift (authorizePaperBrokerWrite config))
      (fun e => delivery "NOT_SENT_BLOCKED" (error_message e))
  else mret tt.

Definition authorize_live (tradingAccountId : Z) (m : AlpacaRequestMetadata) (config : AlpacaResolvedConfig)
    : eff ClientState unit :=
  let operationClass := rm_operationClass m in
  if String.eqb (rm_requestClass m) "critical_write" && String.eqb (ac_environment config) "LIVE" then
    if negb (live_policy_allowed operationClass) then
      delivery "NOT_SENT_BLOCKED" ("LIVE " ++ operationClass ++ " blocked for TradingAccount " ++
        z_str tradingAccountId ++ ": " ++
        (if String.eqb operationClass "RISK_REDUCING_WRITE" then "ALLOW_LIVE_RISK_REDUCING_WRITES"
         else "ALLOW_LIVE_TRADING and ALLOW_LIVE_RISK_REDUCING_WRITES") ++ " must be true.")
    else
      try_catch (lift (live_authorization tradingAccountId m))
        (fun e => delivery "NOT_SENT_BLOCKED" (error_message e))
  else mret tt.

Definition complete (start : RequestStart) (status : option Z) (outcome : AlpacaApiOutcome)
    (beforeHeaders : bool) (headers : option Headers) : eff ClientState unit :=
  now ← asks (clock 3);
  modify (set_usage (completeRequest start {| rc_statusCode := status; rc_outcome := outcome;
    rc_responseFailedBeforeHeaders := beforeHeaders; rc_headers := headers |} now)).

Definition do_fetch (request : HttpRequest) : eff ClientState FetchAnswer := fun s =>
  (Ok (fetch request s), {| cs_usage := cs_usage s; cs_fetched := (cs_fetched s ++ [request])%list |}).

Definition response_ok (status : Z) : bool := (200 <=? status) && (status <=? 299).

(** The [catch] around the response: [measured] tells whether the request was
    already recorded as complete. *)
Definition response_failed {A} (isWrite : bool) (start : RequestStart) (measured : bool) (e : js_error)
    : eff ClientState A :=
  match e with
  | AlpacaApiError status _ =>
      if isWrite then
        if 500 <=? status then
          delivery_answered "DELIVERY_UNCERTAIN"
            ("Broker write delivery is uncertain after Alpaca returned " ++ z_str status ++ ".") status
        else delivery_answered "BROKER_REJECTED"
            ("Alpaca explicitly rejected broker write with status " ++ z_str status ++ ".") status
      else throw e
  | _ =>
      _ ← (if measured then mret tt
           else complete start None (if String.eqb (error_name e) "AbortError" then timeout else network_error)
                  true None : eff ClientState unit);
      if isWrite then
        delivery "DELIVERY_UNCERTAIN" "Broker write delivery is uncertain after a network or response failure."
      else throw e
  end.

(** Everything from the fetch on. The JSON body is returned as a promise that
    is not awaited here, so a body that does not parse rejects outside of the
    classification. *)
Definition send_request (isWrite : bool) (o : AccountRequestOptions) (request : HttpRequest) (start : RequestStart)
    : eff ClientState Payload :=
  answer ← do_fetch request;
  match answer with
  | FetchFailed e => response_failed isWrite start false e
  | FetchResponse status headers text body =>
      let completed outcome := complete start (Some status) outcome false (Some headers) in
      if (status =? 404) && ro_returnNullOn404 o then _ ← completed success; mret PNull
      else if status =? 204 then _ ← completed success; mret PUndefined
      else if negb (response_ok status) then
        match text with
        | Throw e => response_failed isWrite start false e
        | Ok t =>
            _ ← completed (if status =? 429 then rate_limited
                           else if 500 <=? status then server_error else client_error);
            response_failed isWrite start true (AlpacaApiError status t)
        end
      else
        _ ← completed success;
        let contentType := default "" (headers "content-type") in
        if bool_decide (String.index 0 "application/json" contentType <> None) then
          lift (fun _ => x ← body; Ok (PJson x))
        else match text with
             | Ok t => mret (PText t)
             | Throw e => response_failed isWrite start true e
             end
  end.

Definition alpacaRequestForAccount (tradingAccountId : Z) (path : string) (o : AccountRequestOptions)
    : eff ClientState Payload :=
  let m := ro_metadata o in
  let method := default "GET" (ro_method o) in
  let isWrite := negb (String.eqb method "GET") in
  _ ← try_catch (lift (fun _ => check_metadata m method isWrite))
        (before_delivery isWrite "NOT_SENT_BLOCKED" "Broker write blocked by local request metadata validation.");
  deferred ← asks (fun s => shouldDefer m (clock 1 s) (cs_usage s));
  if deferred : bool then
    before_delivery isWrite "NOT_SENT_RETRYABLE" "Broker write deferred locally before request delivery."
      (NamedError "AlpacaRateLimitDeferredError"
         ("Alpaca request deferred during active rate-limit backoff: " ++ rm_operation m))
  else
  config ← try_catch (lift (resolveAlpacaConfigForTradingAccount tradingAccountId (ro_credentialStatuses o)))
    (before_delivery isWrite "NOT_SENT_BLOCKED" ("Broker write blocked because TradingAccount " ++
       z_str tradingAccountId ++ " credentials are unavailable."));
  _ ← authorize_paper isWrite config;
  _ ← authorize_live tradingAccountId m config;
  body ← try_catch (lift (fun _ => match ro_body o with
                                   | None => Ok None
                                   | Some b => x ← b; Ok (Some x)
                                   end))
    (before_delivery isWrite "NOT_SENT_BLOCKED" "Broker write blocked by local request preparation.");
  now ← asks (clock 2);
  start ← (fun s => let '(start, usage) := beginRequest tradingAccountId m now (cs_usage s) in
                    (Ok start, set_usage (fun _ => usage) s)) : eff ClientState RequestStart;
  send_request isWrite o
    {| hr_method := method; hr_url := ac_baseUrl config ++ path; hr_apiKey := ac_apiKey config;
       hr_apiSecret := ac_apiSecret config; hr_body := body |} start.
End Client.

(** * What a request does *)

(** Failures of the network and of response bodies are the platform's own
    errors, of none of the program's classes. *)
Definition not_api_error (e : js_error) : Prop :=
  match e with AlpacaApiError _ _ | DeliveryError _ _ _ => False | _ => True end.
Class AlpacaHostLaws (H : AlpacaHost) : Prop := {
  fetch_errors : forall r s, match fetch r s with
    | FetchFailed e => not_api_error e
    | FetchResponse _ _ text body =>
        (forall e, text = Throw e -> not_api_error e) /\ (forall e, body = Throw e -> not_api_error e)
    end
}.

Section Behaviour.
Context `{DateParse} {Host : AlpacaHost} `{!AlpacaHostLaws Host}.

Definition active (s : ClientState) : Z := rg_activeRequestCount (cs_usage s).

(** The brokerage identity of a PAPER write, as the environment declares it. *)
Record paper_authorized (config : AlpacaResolvedConfig) (s : ClientState) : Prop := {
  pa_role : PAPER_BROKER_WRITE_DEPLOYMENT_ROLE client_env = "PAPER_EXECUTOR";
  pa_identity : exists account fingerprint,
    ac_brokerAccountId config = Some account /\ ac_keyFingerprint config = Some fingerprint /\
    account <> "" /\ fingerprint <> "" /\
    (exists d, filterb (fun o => (po_tradingAccountId o =? ac_tradingAccountId config) &&
                          String.eqb (po_role o) "EXECUTOR") (PAPER_BROKER_WRITE_OWNERSHIP client_env) = [d] /\
       po_expectedBrokerAccountId d = Some account) /\
    (forall o, In o (PAPER_BROKER_WRITE_OWNERSHIP client_env) -> po_role o = "OBSERVER" ->
       po_expectedBrokerAccountId o <> Some account) /\
    fingerprintSecret (ac_apiKey config) = fingerprint /\
    length (filterb (fun z => String.eqb (pz_brokerAccountId z) account && String.eqb (pz_keyFingerprint z) fingerprint)
      (PAPER_BROKER_WRITE_AUTHORIZATIONS client_env)) = 1%nat /\
    paper_accounts_with_identity account s = Ok [ac_tradingAccountId config]
}.

Lemma paper_authorized_iff config s : authorizePaperBrokerWrite config s = Ok tt <-> paper_authorized config s.
Proof.
  unfold authorizePaperBrokerWrite. split.
  - destruct (String.eqb (PAPER_BROKER_WRITE_DEPLOYMENT_ROLE _) _) eqn:Er; [|done]. cbn [negb].
    destruct (ac_brokerAccountId config) as [[|a0 a]|] eqn:Ea; [done| |done].
    destruct (ac_keyFingerprint config) as [[|k0 k]|] eqn:Ek; [done| |done].
    destruct (filterb _ (PAPER_BROKER_WRITE_OWNERSHIP _)) as [|d [|d' ds]] eqn:Ed; [done| |done].
    destruct (negb (bool_decide _)) eqn:Em; [done|]. apply negb_false_iff, bool_decide_eq_true_1 in Em.
    destruct (existsb _ _) eqn:Eo; [done|].
    destruct (negb (String.eqb (fingerprintSecret _) _)) eqn:Ef; [done|].
    apply negb_false_iff, String.eqb_eq in Ef.
    destruct (filterb _ (PAPER_BROKER_WRITE_AUTHORIZATIONS _)) as [|z [|z' zs]] eqn:Ez; [done| |done].
    destruct (paper_accounts_with_identity _ s) as [[|id [|]]|] eqn:Ei; [done| |done|done].
    destruct (Z.eqb_spec id (ac_tradingAccountId config)) as [->|]; [|done]. intros _.
    split; [by apply String.eqb_eq|]. exists (String a0 a), (String k0 k).
    repeat (split; [done|]). split; [by exists d|]. split; [|split; [done|]].
    + intros o Ho Hr Hx. rewrite existsb_false_In in Eo. specialize (Eo o Ho).
      by rewrite Hr, String.eqb_refl, bool_decide_eq_true_2 in Eo.
    + by rewrite Ez.
  - intros [Hr (account & fp & Ea & Ek & Hne & Hnf & (d & Ed & Em) & Hobs & Hfp & Hz & Hi)].
    rewrite Hr, String.eqb_refl. cbn [negb]. rewrite Ea, Ek.
    destruct account as [|a0 a]; [done|]. destruct fp as [|k0 k]; [done|].
    rewrite Ed, Em, bool_decide_eq_true_2 by done. cbn [negb].
    assert (existsb (fun o => String.eqb (po_role o) "OBSERVER" &&
      bool_decide (po_expectedBrokerAccountId o = Some (String a0 a))) (PAPER_BROKER_WRITE_OWNERSHIP client_env) = false) as ->.
    { apply existsb_false_In. intros o Ho. destruct (String.eqb_spec (po_role o) "OBSERVER") as [E|]; [|done].
      cbn [andb]. by apply bool_decide_eq_false_2, Hobs. }
    rewrite Hfp, String.eqb_refl. cbn [negb].
    destruct (filterb _ (PAPER_BROKER_WRITE_AUTHORIZATIONS _)) as [|z [|z' zs]] eqn:Ez; try done.
    by rewrite Hi, Z.eqb_refl.
Qed.

(** What was checked before a request went out. *)
Record request_admitted (tradingAccountId : Z) (o : AccountRequestOptions) (s : ClientState)
    (config : AlpacaResolvedConfig) : Prop := {
  ra_metadata : check_metadata (ro_metadata o) (default "GET" (ro_method o))
                  (negb (String.eqb (default "GET" (ro_method o)) "GET")) = Ok tt;
  ra_not_deferred : shouldDefer (ro_metadata o) (clock 1 s) (cs_usage s) = false;
  ra_config : resolveAlpacaConfigForTradingAccount tradingAccountId (ro_credentialStatuses o) s = Ok config;
  ra_paper : String.eqb (default "GET" (ro_method o)) "GET" = false -> ac_environment config = "PAPER" ->
    paper_authorized config s;
  ra_live : rm_requestClass (ro_metadata o) = "critical_write" -> ac_environment config = "LIVE" ->
    live_policy_allowed (rm_operationClass (ro_metadata o)) = true /\
    live_authorization tradingAccountId (ro_metadata o) s = Ok tt
}.

Definition is_write (o : AccountRequestOptions) : bool := negb (String.eqb (default "GET" (ro_method o)) "GET").

(** Refused before delivery: nothing went out, and a write says so. *)
Definition not_sent (o : AccountRequestOptions) (s : ClientState) (r : res Payload) (s' : ClientState) : Prop :=
  s' = s /\ exists e, r = Throw e /\
    (is_write o = true -> exists c m, e = DeliveryError c m None /\ (c = "NOT_SENT_RETRYABLE" \/ c = "NOT_SENT_BLOCKED")).

(** A stage that refuses a write before its delivery. *)
Ltac not_sent_here o :=
  left; let Ew := fresh "Ew" in destruct (is_write o) eqn:Ew; cbn; (split; [done|]); eexists;
  (split; [done|]); rewrite ?Ew; [|done]; intros _; do 2 eexists; (split; [done|]); tauto.

Lemma authorize_paper_cases w config s :
  (authorize_paper w config s = (Ok tt, s) /\
   (w = true -> ac_environment config = "PAPER" -> paper_authorized config s)) \/
  exists m, authorize_paper w config s = (Throw (DeliveryError "NOT_SENT_BLOCKED" m None), s) /\ w = true.
Proof.
  unfold authorize_paper. destruct w; cbn [andb]; [|by left].
  destruct (String.eqb_spec (ac_environment config) "PAPER"); [|by left].
  unfold try_catch, lift. destruct (authorizePaperBrokerWrite config s) as [[]|err] eqn:E.
  - left. split; [done|]. intros _ _. by apply paper_authorized_iff.
  - right. by eexists.
Qed.

Lemma authorize_live_cases tradingAccountId m config s :
  (authorize_live tradingAccountId m config s = (Ok tt, s) /\
   (rm_requestClass m = "critical_write" -> ac_environment config = "LIVE" ->
    live_policy_allowed (rm_operationClass m) = true /\ live_authorization tradingAccountId m s = Ok tt)) \/
  exists t, authorize_live tradingAccountId m config s = (Throw (DeliveryError "NOT_SENT_BLOCKED" t None), s).
Proof.
  unfold authorize_live.
  destruct (String.eqb_spec (rm_requestClass m) "critical_write"); [|by left].
  destruct (String.eqb_spec (ac_environment config) "LIVE"); [|by left]. cbn [andb].
  destruct (live_policy_allowed _); [|right; by eexists]. cbn [negb]. unfold try_catch, lift.
  destruct (live_authorization _ _ s) as [[]|]; [by left|right; by eexists].
Qed.

Lemma request_cases tradingAccountId path o s :
  (let '(r, s') := alpacaRequestForAccount tradingAccountId path o s in not_sent o s r s') \/
  exists config body start usage,
    request_admitted tradingAccountId o s config /\
    beginRequest tradingAccountId (ro_metadata o) (clock 2 s) (cs_usage s) = (start, usage) /\
    alpacaRequestForAccount tradingAccountId path o s =
      send_request (is_write o) o
        {| hr_method := default "GET" (ro_method o); hr_url := ac_baseUrl config ++ path;
           hr_apiKey := ac_apiKey config; hr_apiSecret := ac_apiSecret config; hr_body := body |} start
        (set_usage (fun _ => usage) s).
Proof.
  unfold alpacaRequestForAccount. cbv zeta. fold (is_write o).
  unfold mbind, eff_bind, try_catch, lift.
  destruct (check_metadata _ _ _) as [[]|e] eqn:Em; [|not_sent_here o].
  unfold asks. cbv beta iota. destruct (shouldDefer _ _ _) eqn:Ed; [not_sent_here o|].
  cbv beta iota. destruct (resolveAlpacaConfigForTradingAccount _ _ s) as [config|e] eqn:Ec; [|not_sent_here o].
  cbv beta iota. destruct (authorize_paper_cases (is_write o) config s) as [[-> Hpaper]|(m & -> & Ew)].
  2: { left. split; [done|]. eexists. split; [done|]. intros _. do 2 eexists. split; [done|]. by right. }
  cbv beta iota. destruct (authorize_live_cases tradingAccountId (ro_metadata o) config s) as [[-> Hlive]|(m & ->)].
  2: { left. split; [done|]. eexists. split; [done|]. intros _. do 2 eexists. split; [done|]. by right. }
  cbv beta iota. destruct (match ro_body o with None => _ | Some _ => _ end) as [body|e]; [|not_sent_here o].
  right. destruct (beginRequest tradingAccountId (ro_metadata o) (clock 2 s) (cs_usage s)) as [start usage] eqn:Eg.
  exists config, body, start, usage. split; [|split; [done|reflexivity]].
  split; [done|done|done| |done]. intros Hw. apply Hpaper. unfold is_write. by rewrite Hw.
Qed.

(** ** After the fetch *)

(** The broker took the request: an answer in the success range, or an absent
    resource the caller treats as absence. *)
Definition accepted (o : AccountRequestOptions) (a : FetchAnswer) : Prop :=
  match a with
  | FetchFailed _ => False
  | FetchResponse status _ _ _ => response_ok status = true \/ (status = 404 /\ ro_returnNullOn404 o = true)
  end.

(** The classification of a write by what the network and the broker said. *)
Definition classified (o : AccountRequestOptions) (a : FetchAnswer) (r : res Payload) : Prop :=
  match r with
  | Ok _ => accepted o a
  | Throw (DeliveryError "BROKER_REJECTED" _ statusCode) =>
      exists status h t b, statusCode = Some status /\ a = FetchResponse status h (Ok t) b /\ response_ok status = false /\ status < 500
  | Throw (DeliveryError "DELIVERY_UNCERTAIN" _ _) =>
      match a with
      | FetchFailed _ => True
      | FetchResponse status _ text _ => (exists e, text = Throw e) \/ (response_ok status = false /\ 500 <= status)
      end
  | Throw e => (* a JSON body of an accepted request that does not parse *)
      exists status h t, a = FetchResponse status h t (Throw e) /\ response_ok status = true
  end.

Definition completes_one (s s' : ClientState) : Prop :=
  active s' = Z.max 0 (active s - 1) /\ cs_fetched s' = cs_fetched s.

Lemma complete_request_active start c now r :
  rg_activeRequestCount (completeRequest start c now r) = Z.max 0 (rg_activeRequestCount r - 1).
Proof.
  unfold completeRequest. cbv zeta. set (r1 := set_concurrency _ _ r).
  set (r3 := recordPersistenceDelta _ _ _ _ _ _).
  assert (H3 : rg_activeRequestCount r3 = rg_activeRequestCount r1)
    by (unfold r3, recordCounters; by destruct (getBucket _ _)).
  assert (Hw : forall r0, rg_activeRequestCount (evaluateWarning now r0) = rg_activeRequestCount r0).
  { intros r0. unfold evaluateWarning. destruct (negb _ && _); [done|]. by destruct (_ && _). }
  rewrite Hw. destruct (rc_outcome c); try exact H3.
  - unfold recordRateLimit. destruct (parseRetryAfter _ _). by destruct (rl_active (rg_rateLimit r3)).
  - unfold recordRateLimitRecovery. destruct (negb _); [done|]. by destruct (in_backoff _ _).
Qed.

Lemma complete_once start st oc bh h s :
  exists s', complete start st oc bh h s = (Ok tt, s') /\ completes_one s s'.
Proof.
  unfold complete, completes_one, active. eexists. split; [reflexivity|].
  cbn. by rewrite complete_request_active.
Qed.

Lemma failed_unmeasured {A} w start e s : not_api_error e ->
  exists s', completes_one s s' /\
    response_failed (A := A) w start false e s =
      (Throw (if w : bool then DeliveryError "DELIVERY_UNCERTAIN"
                "Broker write delivery is uncertain after a network or response failure." None else e), s').
Proof.
  intros He. unfold response_failed.
  destruct (complete_once start None (if String.eqb (error_name e) "AbortError" then timeout else network_error)
    true None s) as (s' & E & Hs'). exists s'. split; [done|].
  destruct e; try done; unfold mbind, eff_bind; rewrite E; by destruct w.
Qed.

Lemma send_cases o request start s :
  let '(r, s') := send_request (is_write o) o request start s in
  cs_fetched s' = (cs_fetched s ++ [request])%list /\ active s' = Z.max 0 (active s - 1) /\
  (is_write o = true -> classified o (fetch request s) r).
Proof.
  unfold send_request, do_fetch. unfold mbind at 1, eff_bind at 1.
  set (s1 := {| cs_usage := cs_usage s; cs_fetched := _ |}).
  assert (Hs1 : forall s', completes_one s1 s' -> cs_fetched s' = (cs_fetched s ++ [request])%list /\
            active s' = Z.max 0 (active s - 1)) by (intros s' [H1 H2]; done).
  pose proof (fetch_errors request s) as Hlaw.
  destruct (fetch request s) as [e|status headers text body] eqn:Ef.
  { destruct (failed_unmeasured (A := Payload) (is_write o) start e s1 Hlaw) as (s' & Hc & ->).
    destruct (Hs1 s' Hc) as [-> ->]. split; [done|]. split; [done|]. intros ->. done. }
  destruct Hlaw as [Ht Hb].
  destruct ((status =? 404) && ro_returnNullOn404 o) eqn:E404.
  { apply andb_prop in E404 as [E404%Z.eqb_eq Enull]. unfold mbind, eff_bind.
    destruct (complete_once start (Some status) success false (Some headers) s1) as (s' & -> & Hc).
    destruct (Hs1 s' Hc) as [Hf Ha]. cbn. split; [done|]. split; [done|]. intros _. by right. }
  destruct (Z.eqb_spec status 204) as [->|H204].
  { unfold mbind, eff_bind.
    destruct (complete_once start (Some 204) success false (Some headers) s1) as (s' & -> & Hc).
    destruct (Hs1 s' Hc) as [Hf Ha]. cbn. split; [done|]. split; [done|]. intros _. by left. }
  destruct (response_ok status) eqn:Eok; cbn [negb].
  - unfold mbind at 1, eff_bind at 1.
    destruct (complete_once start (Some status) success false (Some headers) s1) as (s' & -> & Hc).
    destruct (Hs1 s' Hc) as [Hf Ha]. destruct (bool_decide _).
    + unfold lift. cbn. split; [done|]. split; [done|]. intros _.
      destruct body as [x|e]; [by left|]. cbn. specialize (Hb e eq_refl).
      destruct e; try done; by do 3 eexists.
    + destruct text as [t|e]; [cbn; split; [done|]; split; [done|]; intros _; by left|].
      specialize (Ht e eq_refl). unfold response_failed. destruct e; try done;
        cbn; destruct (is_write o); cbn; (split; [done|]; split; [done|]); try done; intros _; left; by eexists.
  - destruct text as [t|e].
    + unfold mbind, eff_bind.
      destruct (complete_once start (Some status) (if status =? 429 then rate_limited
        else if 500 <=? status then server_error else client_error) false (Some headers) s1) as (s' & -> & Hc).
      destruct (Hs1 s' Hc) as [Hf Ha]. unfold response_failed.
      destruct (is_write o); [|cbn; done].
      destruct (Z.leb_spec 500 status); cbn; (split; [done|]; split; [done|]); intros _.
      * right. done.
      * by do 4 eexists.
    + destruct (failed_unmeasured (A := Payload) (is_write o) start e s1 (Ht e eq_refl)) as (s' & Hc & ->).
      destruct (Hs1 s' Hc) as [-> ->]. split; [done|]. split; [done|]. intros ->. left. by eexists.
Qed.
End Behaviour.

(** * The adapters *)

Definition read_metadata (operation endpoint requestClass : string) (defer : bool) : AlpacaRequestMetadata :=
  {| rm_operation := operation; rm_endpoint := endpoint; rm_method := "GET"; rm_requestClass := requestClass;
     rm_operationClass := "LIFECYCLE_READ"; rm_deferDuringRateLimit := defer; rm_newPositionEntryContext := None |}.
Definition read_options (m : AlpacaRequestMetadata) (returnNull : bool) : AccountRequestOptions :=
  {| ro_method := None; ro_body := None; ro_returnNullOn404 := returnNull; ro_metadata := m;
     ro_credentialStatuses := None |}.

(** Reads for a person or a bootstrap are neither synchronization nor deferred. *)
Definition interactive (operation : string) : bool :=
  String.eqb operation "manual_admin_action" || String.eqb operation "bootstrap_snapshot".
Definition sync_read (operation endpoint : string) : AlpacaRequestMetadata :=
  read_metadata operation endpoint
    (if interactive operation then "informational_read" else "synchronization_read") (negb (interactive operation)).

(** ** Pages of open orders *)

Definition COMPLETE_OPEN_ORDER_PAGE_SIZE : nat := 500.
Definition COMPLETE_OPEN_ORDER_MAX_PAGES : nat := 20.

(** A text field of an order record; empty when missing. *)
Definition order_text (k : string) (order : json) : string :=
  match jfield k order with Some (JStr s) => s | _ => "" end.

Definition incomplete_order (order : json) : bool :=
  existsb (fun k => String.eqb (order_text k order) "") ["id"; "symbol"; "side"; "status"].

Definition foreign_order (canonicalSymbol : option string) (order : json) : bool :=
  match canonicalSymbol with
  | Some (String _ _ as s) => negb (String.eqb (to_upper (trim (order_text "symbol" order))) s)
  | _ => false
  end || negb (String.eqb (to_lower (order_text "side" order)) "buy").

(** The records of a page, checked one after the other. *)
Fixpoint check_page (canonicalSymbol : option string) (items : list json) (orders : list json)
    (seenIds : list string) : res (list json * list string) :=
  match items with
  | [] => Ok (orders, seenIds)
  | order :: items =>
      if incomplete_order order then Throw (PlainError "Alpaca returned an incomplete open-order record.")
      else if member (order_text "id" order) seenIds then
        Throw (PlainError "Alpaca open-order pagination repeated an order identity.")
      else if foreign_order canonicalSymbol order then
        Throw (PlainError "Alpaca open-order filtering returned a conflicting order identity.")
      else check_page canonicalSymbol items (orders ++ [order])%list (seenIds ++ [order_text "id" order])%list
  end.

Fixpoint open_order_pages {S} (pages : nat) (get_page : option string -> eff S json)
    (canonicalSymbol : option string) (orders : list json) (seenIds : list string)
    (beforeOrderId : option string) : eff S (list json) :=
  match pages with
  | O => throw (PlainError "Alpaca open-order evidence exceeded the bounded pagination limit.")
  | Datatypes.S pages =>
      page ← get_page beforeOrderId;
      match page with
      | JArr items =>
          '(orders, seenIds) ← lift (fun _ => check_page canonicalSymbol items orders seenIds);
          if (length items <? COMPLETE_OPEN_ORDER_PAGE_SIZE)%nat then mret orders
          else
            let nextCursor := order_text "id" (List.last items JNull) in
            if String.eqb nextCursor "" || bool_decide (beforeOrderId = Some nextCursor) then
              throw (PlainError "Alpaca open-order pagination did not advance.")
            else open_order_pages pages get_page canonicalSymbol orders seenIds (Some nextCursor)
      | _ => throw (PlainError "Alpaca returned malformed open-order evidence.")
      end
  end.

Section Adapters.
Context `{DateParse} `{AlpacaHost}.

Definition getOpenAlpacaOrders (account : Z) (operation : string) : eff ClientState Payload :=
  alpacaRequestForAccount account "/v2/orders?status=open&direction=desc"
    (read_options (sync_read operation "GET /v2/orders") false).

Definition open_orders_page (account : Z) (operation : string) (canonicalSymbol beforeOrderId : option string)
    : eff ClientState json :=
  let optional k v := match v with Some (String _ _ as s) => [(k, s)] | _ => [] end in
  let query := query_string ([("status", "open"); ("direction", "desc"); ("limit", "500"); ("side", "buy")] ++
    optional "symbols" canonicalSymbol ++ optional "before_order_id" beforeOrderId)%list in
  let admin := String.eqb operation "manual_admin_action" in
  payload ← alpacaRequestForAccount account ("/v2/orders?" ++ query)
    (read_options (read_metadata operation "GET /v2/orders"
       (if admin then "informational_read" else "synchronization_read") (negb admin)) false);
  mret (match payload with PJson value => value | PText t => JStr t | PNull | PUndefined => JNull end).

Definition getCompleteOpenAlpacaBuyOrders (account : Z) (operation : string) (canonicalSymbol : option string)
    : eff ClientState (list json) :=
  open_order_pages COMPLETE_OPEN_ORDER_MAX_PAGES (open_orders_page account operation canonicalSymbol)
    canonicalSymbol [] [] None.

Definition getCompleteOpenAlpacaBuyOrdersForSymbol (account : Z) (symbol operation : string)
    : eff ClientState (list json) :=
  let canonicalSymbol := to_upper (trim symbol) in
  if String.eqb canonicalSymbol "" then
    throw (PlainError "A canonical symbol is required for complete open-order evidence.")
  else getCompleteOpenAlpacaBuyOrders account operation (Some canonicalSymbol).

Definition getAlpacaOrderById (account : Z) (orderId operation : string) : eff ClientState Payload :=
  alpacaRequestForAccount account ("/v2/orders/" ++ orderId)
    (read_options (read_metadata operation "GET /v2/orders/:orderId" "synchronization_read" true) true).

Definition getAlpacaOrderByClientOrderId (account : Z) (clientOrderId operation : string) : eff ClientState Payload :=
  alpacaRequestForAccount account
    ("/v2/orders:by_client_order_id?client_order_id=" ++ encodeURIComponent clientOrderId)
    (read_options (read_metadata operation "GET /v2/orders:by_client_order_id" "synchronization_read" false) true).

Definition getAlpacaPositions (account : Z) (operation : string) : eff ClientState Payload :=
  alpacaRequestForAccount account "/v2/positions" (read_options (sync_read operation "GET /v2/positions") false).

Definition getAlpacaPositionBySymbol (account : Z) (symbol operation : string) : eff ClientState Payload :=
  alpacaRequestForAccount account ("/v2/positions/" ++ encodeURIComponent (to_upper symbol))
    (read_options (read_metadata operation "GET /v2/positions/:symbol" "synchronization_read" false) true).

Definition getAlpacaAccount (account : Z) (operation : string) (credentialStatuses : option (list string))
    : eff ClientState Payload :=
  alpacaRequestForAccount account "/v2/account"
    {| ro_method := None; ro_body := None; ro_returnNullOn404 := false;
       ro_metadata := read_metadata operation "GET /v2/account" "informational_read"
                        (String.eqb operation "account_snapshot");
       ro_credentialStatuses := credentialStatuses |}.

Definition write_options (method endpoint operation operationClass : string) (body : option (res json))
    (context : option Z) : AccountRequestOptions :=
  {| ro_method := Some method; ro_body := body; ro_returnNullOn404 := false;
     ro_metadata := {| rm_operation := operation; rm_endpoint := endpoint; rm_method := method;
       rm_requestClass := "critical_write"; rm_operationClass := operationClass;
       rm_deferDuringRateLimit := false; rm_newPositionEntryContext := context |};
     ro_credentialStatuses := None |}.

Definition placeAlpacaOrder (account : Z) (payload : json) (operation : string) (context : option Z)
    : eff ClientState Payload :=
  alpacaRequestForAccount account "/v2/orders"
    (write_options "POST" "POST /v2/orders" operation
       (if String.eqb operation "pending_order_submission" then "ENTRY_WRITE" else "RISK_REDUCING_WRITE")
       (Some (Ok payload)) context).

Definition submitAlpacaEntryOrder (account : Z) (payload : json) (context : option Z) : eff ClientState Payload :=
  placeAlpacaOrder account payload "pending_order_submission" context.

Definition submitVerifiedAlpacaExitOrder (account : Z) (payload : json) (operation : string) : eff ClientState Payload :=
  placeAlpacaOrder account payload operation None.

Definition cancelAlpacaOrder (account : Z) (orderId operation operationClass : string) : eff ClientState unit :=
  _ ← alpacaRequestForAccount account ("/v2/orders/" ++ orderId)
        (write_options "DELETE" "DELETE /v2/orders/:orderId" operation operationClass None None);
  mret tt.

Definition cancelAllAlpacaOrders (account : Z) (operation : string) : eff ClientState Payload :=
  alpacaRequestForAccount account "/v2/orders"
    (write_options "DELETE" "DELETE /v2/orders" operation "ENTRY_WRITE" None None).
End Adapters.

(** ** What the pages add up to *)

(** The orders of a book that come after a cursor, newest first. *)
Fixpoint after_order (id : string) (book : list json) : list json :=
  match book with
  | [] => []
  | o :: book => if String.eqb (order_text "id" o) id then book else after_order id book
  end.
Definition after_cursor (cursor : option string) (book : list json) : list json :=
  match cursor with None => book | Some id => after_order id book end.

(** A broker that serves a fixed book of orders in pages. *)
Definition serves {S} (get_page : option string -> eff S json) (book : list json) : Prop :=
  forall cursor s, exists s',
    get_page cursor s = (Ok (JArr (firstn COMPLETE_OPEN_ORDER_PAGE_SIZE (after_cursor cursor book))), s').

Definition wanted_order (canonicalSymbol : option string) (order : json) : Prop :=
  incomplete_order order = false /\ foreign_order canonicalSymbol order = false.

Section Pages.
Context {S : Type}.
Variable canonicalSymbol : option string.
Implicit Types (book orders items : list json).

Lemma check_page_ok items orders seen :
  Forall (wanted_order canonicalSymbol) items -> NoDup (seen ++ map (order_text "id") items) ->
  check_page canonicalSymbol items orders seen = Ok ((orders ++ items)%list, (seen ++ map (order_text "id") items)%list).
Proof.
  revert orders seen. induction items as [|o items IH]; intros orders seen Hw Hnd; cbn [check_page map].
  - by rewrite !app_nil_r.
  - apply Forall_cons in Hw as [[Hi Hf] Hw]. rewrite Hi, Hf.
    assert (Hn : member (order_text "id" o) seen = false).
    { apply not_true_iff_false. intros Hm%member_In%list_elem_of_In.
      apply NoDup_app in Hnd as (_ & Hd & _). apply (Hd _ Hm). cbn. by left. }
    rewrite Hn, IH, <- !app_assoc; [done|done|]. by rewrite <- app_assoc.
Qed.

(** Whatever the broker sends, accepted records are complete, distinct and
    wanted. *)
Lemma check_page_sound items orders seen orders' seen' :
  check_page canonicalSymbol items orders seen = Ok (orders', seen') ->
  seen = map (order_text "id") orders -> NoDup seen -> Forall (wanted_order canonicalSymbol) orders ->
  orders' = (orders ++ items)%list /\ seen' = map (order_text "id") orders' /\ NoDup seen' /\
  Forall (wanted_order canonicalSymbol) orders'.
Proof.
  revert orders seen. induction items as [|o items IH]; intros orders seen; cbn [check_page].
  - intros [= <- <-] -> Hnd Hw. by rewrite app_nil_r.
  - destruct (incomplete_order o) eqn:Ei; [done|]. destruct (member _ seen) eqn:Em; [done|].
    destruct (foreign_order _ o) eqn:Ef; [done|]. intros E -> Hnd Hw.
    apply IH in E; [by rewrite <- app_assoc in E|by rewrite map_app| |].
    + apply NoDup_app. split; [done|]. split; [|apply NoDup_singleton].
      intros x Hx ->%list_elem_of_singleton. apply list_elem_of_In, member_In in Hx. congruence.
    + apply Forall_app. split; [done|]. by apply Forall_singleton.
Qed.

Lemma after_last items rest :
  NoDup (map (order_text "id") (items ++ rest)) -> items <> [] ->
  after_order (order_text "id" (List.last items JNull)) (items ++ rest) = rest.
Proof.
  induction items as [|o [|o' items] IH]; intros Hnd Hne; [done| |].
  - cbn. by rewrite String.eqb_refl.
  - change (List.last (o :: o' :: items) JNull) with (List.last (o' :: items) JNull).
    cbn [app after_order] in *. destruct (String.eqb_spec (order_text "id" o) (order_text "id" (List.last (o' :: items) JNull))) as [E|E].
    + exfalso. cbn [map] in Hnd. apply NoDup_cons in Hnd as [Hn _]. apply Hn. rewrite E.
      apply list_elem_of_In. apply (in_map (order_text "id") (o' :: items ++ rest)).
      apply (in_or_app (o' :: items) rest). left.
      rewrite (app_removelast_last JNull (l := o' :: items)) at 2 by done. apply in_app_iff. right. by left.
    + apply IH; [|done]. cbn [map] in Hnd. by apply NoDup_cons in Hnd as [_ Hnd].
Qed.

(** The cursor that the loop holds after reading [orders]. *)
Definition cursor_at (orders : list json) : option string :=
  match orders with [] => None | _ => Some (order_text "id" (List.last orders JNull)) end.

Lemma cursor_rest orders rest :
  NoDup (map (order_text "id") (orders ++ rest)) -> after_cursor (cursor_at orders) (orders ++ rest) = rest.
Proof. destruct orders as [|o orders]; [done|]. intros Hnd. by apply after_last. Qed.

Lemma last_app_ne orders items : items <> [] -> List.last (orders ++ items)%list JNull = List.last items JNull.
Proof.
  intros Hne. induction orders as [|o orders IH]; [done|]. cbn [app List.last].
  destruct (orders ++ items)%list as [|x l] eqn:E; [by apply app_eq_nil in E as [_ ->]|]. exact IH.
Qed.

Lemma last_In items : items <> [] -> In (List.last items JNull) items.
Proof.
  intros Hne. rewrite (app_removelast_last JNull (l := items)) at 2 by done. apply in_app_iff. right. by left.
Qed.

Lemma wanted_id order : wanted_order canonicalSymbol order -> order_text "id" order <> "".
Proof.
  intros [Hi _] E. unfold incomplete_order in Hi. cbn [existsb] in Hi. by rewrite E in Hi.
Qed.

(** The loop, from any point: it delivers the whole book when the remaining
    pages suffice, and otherwise reports that they do not. *)
Lemma pages_complete (get_page : option string -> eff S json) book pages orders rest s :
  serves get_page book -> book = (orders ++ rest)%list -> Forall (wanted_order canonicalSymbol) book ->
  NoDup (map (order_text "id") book) ->
  exists s', open_order_pages pages get_page canonicalSymbol orders (map (order_text "id") orders) (cursor_at orders) s =
    (if (length rest <? pages * COMPLETE_OPEN_ORDER_PAGE_SIZE)%nat then Ok book
     else Throw (PlainError "Alpaca open-order evidence exceeded the bounded pagination limit."), s').
Proof.
  intros Hserve. revert orders rest s. induction pages as [|pages IH]; intros orders rest s Hb Hw Hnd.
  { exists s. cbn [open_order_pages Nat.mul]. by rewrite (proj2 (Nat.ltb_ge _ _)) by lia. }
  cbn [open_order_pages]. unfold mbind, eff_bind.
  destruct (Hserve (cursor_at orders) s) as [s1 ->]. rewrite Hb, cursor_rest by by rewrite <- Hb.
  set (items := firstn COMPLETE_OPEN_ORDER_PAGE_SIZE rest).
  assert (Hr : rest = (items ++ skipn COMPLETE_OPEN_ORDER_PAGE_SIZE rest)%list) by (symmetry; apply firstn_skipn).
  assert (Hwi : Forall (wanted_order canonicalSymbol) items).
  { rewrite Hb, Hr in Hw. apply Forall_app in Hw as [_ Hw]. by apply Forall_app in Hw as [Hw _]. }
  assert (Hni : NoDup (map (order_text "id") orders ++ map (order_text "id") items)).
  { rewrite Hb, Hr, app_assoc, map_app in Hnd. apply NoDup_app in Hnd as [Hnd _]. by rewrite map_app in Hnd. }
  unfold lift. rewrite check_page_ok by done.
  assert (Hlen : length items = Nat.min COMPLETE_OPEN_ORDER_PAGE_SIZE (length rest)) by apply length_firstn.
  destruct (Nat.ltb_spec (length items) COMPLETE_OPEN_ORDER_PAGE_SIZE) as [Hlt|Hge].
  { exists s1. assert (length rest < COMPLETE_OPEN_ORDER_PAGE_SIZE)%nat by lia.
    rewrite (proj2 (Nat.ltb_lt _ _)) by lia.
    unfold items. by rewrite firstn_all2, <- Hb by lia. }
  assert (Hne : items <> []) by (intros E; rewrite E in Hge; cbn in Hge; unfold COMPLETE_OPEN_ORDER_PAGE_SIZE in Hge; lia).
  pose proof (last_In items Hne) as Hlast.
  assert (Hid : order_text "id" (List.last items JNull) <> "").
  { apply wanted_id. rewrite Forall_forall in Hwi. by apply Hwi, list_elem_of_In. }
  apply String.eqb_neq in Hid as Hid'. rewrite Hid'. cbn [orb].
  rewrite bool_decide_eq_false_2.
  2: { intros E. destruct orders as [|o orders]; [done|]. cbn [cursor_at] in E. apply (f_equal (default "")) in E. change (order_text "id" (List.last (o :: orders) JNull) = order_text "id" (List.last items JNull)) in E.
       apply NoDup_app in Hni as (_ & Hd & _).
       apply (Hd (order_text "id" (List.last (o :: orders) JNull))).
       - apply list_elem_of_In, in_map, last_In. done.
       - rewrite E. by apply list_elem_of_In, in_map. }
  assert (Hcur : Some (order_text "id" (List.last items JNull)) = cursor_at (orders ++ items)%list).
  { destruct (orders ++ items)%list as [|x l] eqn:E; [by apply app_eq_nil in E as [_ ->]|].
    cbn [cursor_at]. rewrite <- E. by rewrite last_app_ne. }
  rewrite Hcur, <- map_app.
  destruct (IH (orders ++ items)%list (skipn COMPLETE_OPEN_ORDER_PAGE_SIZE rest) s1) as [s2 ->]; [|done|done|].
  { by rewrite <- app_assoc, <- Hr. }
  exists s2. rewrite <- Hb, length_skipn. f_equal.
  destruct (Nat.ltb_spec (length rest - COMPLETE_OPEN_ORDER_PAGE_SIZE) (pages * COMPLETE_OPEN_ORDER_PAGE_SIZE)),
    (Nat.ltb_spec (length rest) (Datatypes.S pages * COMPLETE_OPEN_ORDER_PAGE_SIZE)); try done; lia.
Qed.

Lemma pages_sound (get_page : option string -> eff S json) pages orders cursor s result s' :
  open_order_pages pages get_page canonicalSymbol orders (map (order_text "id") orders) cursor s = (Ok result, s') ->
  NoDup (map (order_text "id") orders) -> Forall (wanted_order canonicalSymbol) orders ->
  NoDup (map (order_text "id") result) /\ Forall (wanted_order canonicalSymbol) result.
Proof.
  revert orders cursor s. induction pages as [|pages IH]; intros orders cursor s; cbn [open_order_pages]; [done|].
  unfold mbind, eff_bind. destruct (get_page cursor s) as [[page|e] s1]; [|done].
  destruct page as [| | | |items|]; try done. unfold lift.
  destruct (check_page canonicalSymbol items orders _) as [[orders' seen']|e] eqn:E; [|done].
  intros Hrun Hnd Hw. destruct (check_page_sound _ _ _ _ _ E eq_refl Hnd Hw) as (_ & -> & Hnd' & Hw').
  destruct (_ <? _)%nat; [by injection Hrun as <- _|].
  destruct (String.eqb _ "" || _); [done|]. by apply (IH orders' _ _ Hrun).
Qed.
End Pages.

(** * Properties *)

Section Properties.
Context `{DateParse} {Host : AlpacaHost} `{!AlpacaHostLaws Host}.

(** C30. Every failed write says what became of it. A request for an account
    fetches at most once and leaves the count of requests in flight as it was.
    A write that is refused locally fails as not sent, retryable or blocked,
    and fetched nothing; once it was fetched, it fails as rejected only on a
    complete broker answer outside the success range and below 500, as
    uncertain on a network failure, an unreadable answer or a server error, it
    succeeds only on an answer of success, and the one error that escapes the
    classification is an accepted answer whose JSON body does not parse. *)
Theorem write_delivery_classified account path o s (Hactive : 0 <= active s) :
  let '(r, s') := alpacaRequestForAccount account path o s in
  active s' = active s /\
  ((cs_fetched s' = cs_fetched s /\ exists e, r = Throw e /\
      (is_write o = true -> exists c m, e = DeliveryError c m None /\ (c = "NOT_SENT_RETRYABLE" \/ c = "NOT_SENT_BLOCKED"))) \/
   (exists request v, cs_fetched s' = (cs_fetched s ++ [request])%list /\ cs_fetched v = cs_fetched s /\
      (is_write o = true -> classified o (fetch request v) r))).
Proof.
  destruct (request_cases account path o s) as [Hn|(config & body & start & usage & _ & Hb & ->)].
  { destruct (alpacaRequestForAccount account path o s) as [r s']. destruct Hn as (-> & e & -> & Hw).
    split; [done|]. left. split; [done|]. by exists e. }
  set (request := {| hr_method := _ |}).
  pose proof (send_cases o request start (set_usage (fun _ => usage) s)) as Hs.
  destruct (send_request _ o request start _) as [r s']. destruct Hs as (Hf & Ha & Hc).
  split.
  - rewrite Ha. unfold active in *. injection Hb as _ <-. cbn. lia.
  - right. exists request, (set_usage (fun _ => usage) s). done.
Qed.

(** C31. No write leaves without authority. Whenever a request with a method
    other than GET is fetched, its metadata was consistent and of the critical
    write class, no backoff deferred it, it carries the credentials resolved
    for its account; on a PAPER account the deployment is the executor, the
    account is its one declared executor for that brokerage identity, no
    declaration observes the identity, the decrypted key matches its
    fingerprint, exactly one authorization names both, and no other local
    account shares the identity; on a LIVE account the deployment flags allow
    the operation class and the approval or entry authorization was granted. *)
Theorem writes_authorized account path o s (Hwrite : is_write o = true) :
  let '(_, s') := alpacaRequestForAccount account path o s in
  cs_fetched s' = cs_fetched s \/
  exists config request,
    cs_fetched s' = (cs_fetched s ++ [request])%list /\
    resolveAlpacaConfigForTradingAccount account (ro_credentialStatuses o) s = Ok config /\
    hr_apiKey request = ac_apiKey config /\ hr_url request = ac_baseUrl config ++ path /\
    rm_requestClass (ro_metadata o) = "critical_write" /\
    rm_operationClass (ro_metadata o) <> "LIFECYCLE_READ" /\
    shouldDefer (ro_metadata o) (clock 1 s) (cs_usage s) = false /\
    (ac_environment config = "PAPER" -> paper_authorized config s) /\
    (ac_environment config = "LIVE" -> live_policy_allowed (rm_operationClass (ro_metadata o)) = true /\
       live_authorization account (ro_metadata o) s = Ok tt).
Proof.
  destruct (request_cases account path o s) as [Hn|(config & body & start & usage & [Hm Hd Hc Hp Hl] & Hb & ->)].
  { destruct (alpacaRequestForAccount account path o s) as [r s']. destruct Hn as (-> & _). by left. }
  set (request := {| hr_method := _ |}).
  pose proof (send_cases o request start (set_usage (fun _ => usage) s)) as Hs.
  destruct (send_request _ o request start _) as [r s']. destruct Hs as (Hf & _ & _).
  right. exists config, request. split; [done|]. split; [done|]. split; [done|]. split; [done|].
  unfold is_write in Hwrite. rewrite Hwrite in Hm.
  assert (Hclass : rm_requestClass (ro_metadata o) = "critical_write" /\
            rm_operationClass (ro_metadata o) <> "LIFECYCLE_READ").
  { revert Hm. unfold check_metadata, mbind, res_bind.
    destruct (assertKnownAlpacaOperation _); [|done]. destruct (assertKnownAlpacaEndpoint _); [|done].
    destruct (negb (String.eqb (rm_method _) _)); [done|]. destruct (negb (String.prefix _ _)); [done|].
    cbn [andb]. destruct (String.eqb_spec (rm_requestClass (ro_metadata o)) "critical_write"); [|done].
    destruct (String.eqb_spec (rm_operationClass (ro_metadata o)) "LIFECYCLE_READ"); [done|]. done. }
  destruct Hclass as [Hcw Hop]. split; [done|]. split; [done|]. split; [done|]. split.
  - apply Hp. by apply negb_true_iff in Hwrite.
  - by apply Hl.
Qed.
End Properties.

(** C35. Open-order evidence is complete or refused. Against a broker that
    serves a book of distinct, wanted buy orders in pages, the bounded loop
    returns exactly the book when it has fewer than ten thousand orders and
    throws otherwise, never a truncated list; and whatever a broker answers,
    orders that are returned are complete records, pairwise distinct, all buys
    and of the requested symbol. *)
Theorem open_orders_complete {S} canonicalSymbol (get_page : option string -> eff S json) s :
  (forall book, serves get_page book -> Forall (wanted_order canonicalSymbol) book ->
     NoDup (map (order_text "id") book) ->
     exists s', open_order_pages COMPLETE_OPEN_ORDER_MAX_PAGES get_page canonicalSymbol [] [] None s =
       (if Z.of_nat (length book) <? 10000 then Ok book
        else Throw (PlainError "Alpaca open-order evidence exceeded the bounded pagination limit."), s')) /\
  (forall orders s', open_order_pages COMPLETE_OPEN_ORDER_MAX_PAGES get_page canonicalSymbol [] [] None s = (Ok orders, s') ->
     NoDup (map (order_text "id") orders) /\ Forall (wanted_order canonicalSymbol) orders).
Proof.
  split.
  - intros book Hs Hw Hnd.
    destruct (pages_complete canonicalSymbol get_page book COMPLETE_OPEN_ORDER_MAX_PAGES [] book s Hs eq_refl Hw Hnd)
      as [s' E]. exists s'. cbn [map cursor_at] in E. rewrite E. f_equal.
    assert ((length book <? COMPLETE_OPEN_ORDER_MAX_PAGES * COMPLETE_OPEN_ORDER_PAGE_SIZE)%nat =
            (Z.of_nat (length book) <? 10000)) as ->; [|done].
    apply eq_true_iff_eq. rewrite Nat.ltb_lt, Z.ltb_lt.
    change (COMPLETE_OPEN_ORDER_MAX_PAGES * COMPLETE_OPEN_ORDER_PAGE_SIZE)%nat with (20 * 500)%nat. lia.
  - intros orders s' E. apply (pages_sound canonicalSymbol get_page _ [] None s orders s' E); constructor.
Qed.


(** * Witnesses *)

(** A deployment that executes for one PAPER account, and a broker that
    refuses every order. *)
Definition sample_config : AlpacaResolvedConfig :=
  {| ac_tradingAccountId := 1; ac_environment := "PAPER"; ac_baseUrl := "https://paper-api.alpaca.markets";
     ac_apiKey := "key"; ac_apiSecret := "secret"; ac_credentialId := Some 7;
     ac_keyFingerprint := Some "fp:key"; ac_brokerAccountId := Some "broker-1" |}.
Definition sample_env : ClientEnv :=
  {| ALLOW_LIVE_TRADING := false; ALLOW_LIVE_RISK_REDUCING_WRITES := false;
     PAPER_BROKER_WRITE_DEPLOYMENT_ROLE := "PAPER_EXECUTOR";
     PAPER_BROKER_WRITE_OWNERSHIP :=
       [{| po_tradingAccountId := 1; po_role := "EXECUTOR"; po_expectedBrokerAccountId := Some "broker-1" |}];
     PAPER_BROKER_WRITE_AUTHORIZATIONS := [{| pz_brokerAccountId := "broker-1"; pz_keyFingerprint := "fp:key" |}] |}.
Definition refusing_host : AlpacaHost :=
  {| client_env := sample_env;
     clock := fun _ _ => 60000;
     resolveAlpacaConfigForTradingAccount := fun _ _ _ => Ok sample_config;
     authorizeAndConsumeNewPositionEntry := fun _ _ _ => Throw (PlainError "not armed");
     authorizeLiveBrokerWrite := fun _ _ _ => Throw (PlainError "not approved");
     fingerprintSecret := fun s => "fp:" ++ s;
     paper_accounts_with_identity := fun _ _ => Ok [1];
     fetch := fun _ _ => FetchResponse 422 (fun _ => None) (Ok "insufficient buying power") (Ok JNull) |}.
#[local] Instance refusing_host_laws : AlpacaHostLaws refusing_host.
Proof. split. intros r s. by split. Qed.

Definition fresh_client : ClientState := {| cs_usage := new_registry "p" 120; cs_fetched := [] |}.
Definition sample_buy : AccountRequestOptions :=
  write_options "POST" "POST /v2/orders" "pending_order_submission" "ENTRY_WRITE"
    (Some (Ok (JObj [("symbol", JStr "AAPL")]))) None.

Lemma write_delivery_classified_witness :
  let '(r, s') := alpacaRequestForAccount (H := no_other_dates) (H0 := refusing_host) 1 "/v2/orders" sample_buy fresh_client in
  active s' = 0 /\ length (cs_fetched s') = 1%nat /\
  r = Throw (DeliveryError "BROKER_REJECTED" "Alpaca explicitly rejected broker write with status 422." (Some 422)).
Proof.
  pose proof (write_delivery_classified (H := no_other_dates) (Host := refusing_host) 1 "/v2/orders" sample_buy fresh_client
    ltac:(vm_compute; discriminate)) as H.
  destruct (alpacaRequestForAccount 1 "/v2/orders" sample_buy fresh_client) as [r s'] eqn:E.
  destruct H as [Ha _]. split; [exact Ha|]. vm_compute in E. injection E as <- <-. split; reflexivity.
Defined.

Lemma writes_authorized_witness :
  let '(_, s') := alpacaRequestForAccount (H := no_other_dates) (H0 := refusing_host) 1 "/v2/orders" sample_buy fresh_client in
  exists request, cs_fetched s' = [request] /\ hr_apiKey request = "key" /\
    paper_authorized (Host := refusing_host) sample_config fresh_client.
Proof.
  pose proof (writes_authorized (H := no_other_dates) (Host := refusing_host) 1 "/v2/orders" sample_buy fresh_client
    eq_refl) as H.
  destruct (alpacaRequestForAccount 1 "/v2/orders" sample_buy fresh_client) as [r s'] eqn:E.
  assert (Hne : cs_fetched s' <> []) by (vm_compute in E; injection E as <- <-; discriminate).
  destruct H as [H|(config & request & Hf & Hr & Hk & _ & _ & _ & _ & Hp & _)]; [contradiction (Hne H)|].
  injection Hr as <-. exists request. split; [exact Hf|]. split; [exact Hk|]. apply Hp. reflexivity.
Defined.

(** An account with 501 open buy orders, two pages of them. *)
Definition sample_order (n : nat) : json :=
  JObj [("id", JStr (z_str (Z.of_nat n))); ("symbol", JStr "AAPL"); ("side", JStr "buy"); ("status", JStr "new")].
Definition sample_book : list json := map sample_order (seq 0 501).

Lemma open_orders_complete_witness :
  fst (open_order_pages (S := unit) COMPLETE_OPEN_ORDER_MAX_PAGES
    (fun cursor s => (Ok (JArr (firstn COMPLETE_OPEN_ORDER_PAGE_SIZE (after_cursor cursor sample_book))), s))
    (Some "AAPL") [] [] None tt) = Ok sample_book.
Proof.
  set (get_page := fun cursor (s : unit) => _).
  destruct (open_orders_complete (Some "AAPL") get_page tt) as [H _].
  destruct (H sample_book) as [s' E].
  - intros cursor s. exists s. reflexivity.
  - apply Forall_forall. intros o Ho. apply list_elem_of_In, in_map_iff in Ho as (n & <- & Hn).
    split; [|vm_compute; reflexivity].
    assert (Hall : forallb (fun n => negb (incomplete_order (sample_order n))) (seq 0 501) = true) by (vm_compute; reflexivity).
    rewrite forallb_forall in Hall. apply negb_true_iff, (Hall n Hn).
  - apply (bool_decide_eq_true_1 _). vm_compute. reflexivity.
  - rewrite E. reflexivity.
Defined.
