(* ===== verification/LifecycleAuthority.v ===== *)
(** Verified lifecycle authority: services/lifecycle-authority.service.ts. It
    assesses which role a process has for a PAPER account, and issues and
    validates process-local grants for operations on it. The functions between
    two awaits are single definitions; [perform] runs them in any order, so a
    list of activities is an interleaving of calls. *)

From Stdlib Require Import ZArith Lia QArith.
From Stdlib Require Import Strings.String.
From stdpp Require Import base gmap list strings.
From S2P Require Import Prelude JsNumber JsValue JsDate AlpacaClient.

Open Scope string_scope.
Open Scope Z_scope.

Inductive LifecycleAuthorityOperation :=
| OBSERVE | POSITION_CREATE | POSITION_MARKET_REFRESH | POSITION_LIFECYCLE_TRANSITION | LOCAL_ORDER_ADOPT
| SUBSCRIPTION_ATTRIBUTION | EXIT_STATE_MUTATION | ENTRY_CLAIM_MUTATION | RECONCILIATION_REPAIR | BROKER_EXIT_WRITE.
#[export] Instance operation_eq_dec : EqDecision LifecycleAuthorityOperation.
Proof. solve_decision. Defined.

Definition LIFECYCLE_AUTHORITY_OPERATIONS : list LifecycleAuthorityOperation :=
  [OBSERVE; POSITION_CREATE; POSITION_MARKET_REFRESH; POSITION_LIFECYCLE_TRANSITION; LOCAL_ORDER_ADOPT;
   SUBSCRIPTION_ATTRIBUTION; EXIT_STATE_MUTATION; ENTRY_CLAIM_MUTATION; RECONCILIATION_REPAIR; BROKER_EXIT_WRITE].
Definition OBSERVER_OPERATIONS : list LifecycleAuthorityOperation := [OBSERVE; POSITION_CREATE; POSITION_MARKET_REFRESH].
Definition EXECUTOR_OPERATIONS : list LifecycleAuthorityOperation := LIFECYCLE_AUTHORITY_OPERATIONS.
Definition MAX_GRANT_TTL_MS : Z := 5 * 60000.

Definition has (l : list LifecycleAuthorityOperation) (o : LifecycleAuthorityOperation) : bool := bool_decide (o ∈ l).
Definition policyAllows (role : string) (operation : LifecycleAuthorityOperation) : bool :=
  if String.eqb role "EXECUTOR" then has EXECUTOR_OPERATIONS operation else has OBSERVER_OPERATIONS operation.

(** * Data *)

(** An account with its credential, as [accountSelect] reads it. Times are in
    milliseconds. *)
Record AuthorityCredential := {
  ak_id : Z;
  ak_status : string;
  ak_verifiedAt : option Z;
  ak_revokedAt : option Z;
  ak_keyFingerprint : option string;
  ak_updatedAt : Z
}.
Record AuthorityAccount := {
  aa_id : Z;
  aa_broker : string;
  aa_environment : string;
  aa_brokerAccountId : option string;
  aa_credential : option AuthorityCredential
}.

(** An assessment; its times are printed by [toISOString]. *)
Record LifecycleAuthorityAssessment := {
  la_tradingAccountId : Z;
  la_environment : option string;
  la_outcome : string;
  la_reasonCode : string;
  la_reason : string;
  la_expectedBrokerAccountId : option string;
  la_storedBrokerAccountId : option string;
  la_observedBrokerAccountId : option string;
  la_credentialFingerprint : option string;
  la_configurationRevision : option string;
  la_verifiedAt : option Z;
  la_expiresAt : option Z;
  la_policyDelegation : string;
  la_allowedOperations : list LifecycleAuthorityOperation;
  la_deniedOperations : list (LifecycleAuthorityOperation * string);
  la_provenanceRequiredForStrategyOperations : list string
}.

(** Wall-clock times are whole milliseconds ([Date.now]), monotonic ones
    fractions of them ([performance.now]). *)
Record InternalVerdict := {
  iv_assessment : LifecycleAuthorityAssessment;
  iv_role : option string;
  iv_brokerAccountId : option string;
  iv_credentialFingerprint : option string;
  iv_configurationRevision : option string;
  iv_verificationStartedAtMs : option Z;
  iv_verificationStartedElapsedMs : option Q;
  iv_expiresAtMs : option Z;
  iv_attemptSequence : option Z;
  iv_accountGeneration : Z;
  iv_globalGeneration : Z
}.

Record GrantState := {
  gs_tradingAccountId : Z;
  gs_operation : LifecycleAuthorityOperation;
  gs_role : string;
  gs_brokerAccountId : string;
  gs_credentialFingerprint : string;
  gs_configurationRevision : string;
  gs_issuedAtMs : Z;
  gs_expiresAtMs : Q;
  gs_issuedElapsedMs : Q;
  gs_expiresAfterMs : Q;
  gs_lastObservedWallMs : Z;
  gs_accountGeneration : Z;
  gs_globalGeneration : Z;
  gs_permanentlyExpired : bool
}.

(** The module's state. A grant is an object known by its identity: a number,
    and the next one. *)
Record Authority := {
  au_grants : gmap Z GrantState;
  au_nextGrant : Z;
  au_assessmentCache : gmap Z InternalVerdict;
  au_accountGenerations : gmap Z Z;
  au_assessmentAttemptSequences : gmap Z Z;
  au_globalGeneration : Z
}.
Definition no_authority : Authority :=
  {| au_grants := ∅; au_nextGrant := 1; au_assessmentCache := ∅; au_accountGenerations := ∅;
     au_assessmentAttemptSequences := ∅; au_globalGeneration := 0 |}.

Definition truthy_string (s : option string) : option string :=
  match s with Some s => if String.eqb s "" then None else Some s | None => None end.

Definition generationFor (accountId : Z) (au : Authority) : Z := default 0 (au_accountGenerations au !! accountId).
Definition attemptsOf (accountId : Z) (au : Authority) : Z := default 0 (au_assessmentAttemptSequences au !! accountId).

Definition set_grants (f : gmap Z GrantState -> gmap Z GrantState) (au : Authority) : Authority :=
  {| au_grants := f (au_grants au); au_nextGrant := au_nextGrant au; au_assessmentCache := au_assessmentCache au;
     au_accountGenerations := au_accountGenerations au;
     au_assessmentAttemptSequences := au_assessmentAttemptSequences au; au_globalGeneration := au_globalGeneration au |}.
Definition set_cache (f : gmap Z InternalVerdict -> gmap Z InternalVerdict) (au : Authority) : Authority :=
  {| au_grants := au_grants au; au_nextGrant := au_nextGrant au; au_assessmentCache := f (au_assessmentCache au);
     au_accountGenerations := au_accountGenerations au;
     au_assessmentAttemptSequences := au_assessmentAttemptSequences au; au_globalGeneration := au_globalGeneration au |}.

Definition invalidateAccount (accountId : Z) (au : Authority) : Authority :=
  {| au_grants := au_grants au; au_nextGrant := au_nextGrant au;
     au_assessmentCache := delete accountId (au_assessmentCache au);
     au_accountGenerations := <[accountId := generationFor accountId au + 1]> (au_accountGenerations au);
     au_assessmentAttemptSequences := au_assessmentAttemptSequences au; au_globalGeneration := au_globalGeneration au |}.
Definition invalidateLifecycleAuthorityCache (tradingAccountId : option Z) (au : Authority) : Authority :=
  match tradingAccountId with
  | None => {| au_grants := au_grants au; au_nextGrant := au_nextGrant au; au_assessmentCache := ∅;
               au_accountGenerations := au_accountGenerations au;
               au_assessmentAttemptSequences := au_assessmentAttemptSequences au;
               au_globalGeneration := au_globalGeneration au + 1 |}
  | Some a => invalidateAccount a au
  end.
Definition nextAssessmentAttempt (accountId : Z) (au : Authority) : Z * Authority :=
  let sequence := attemptsOf accountId au + 1 in
  (sequence,
   {| au_grants := au_grants au; au_nextGrant := au_nextGrant au; au_assessmentCache := au_assessmentCache au;
      au_accountGenerations := au_accountGenerations au;
      au_assessmentAttemptSequences := <[accountId := sequence]> (au_assessmentAttemptSequences au);
      au_globalGeneration := au_globalGeneration au |}).

(** * Evidence *)

(** The two queries of [readAccountEvidence], each on the accounts it finds; none
    when one of them fails. *)
Definition Reads : Type := option (list AuthorityAccount * list AuthorityAccount).
Definition readAccountEvidence (tradingAccountId : Z) (accounts others : list AuthorityAccount)
    : option AuthorityAccount * list Z :=
  let account := List.find (fun a => aa_id a =? tradingAccountId) accounts in
  (account,
   match account with
   | Some a => match truthy_string (aa_brokerAccountId a) with
               | Some b => map aa_id (filterb (fun x => String.eqb (aa_broker x) (aa_broker a) &&
                             String.eqb (aa_environment x) (aa_environment a) &&
                             bool_decide (aa_brokerAccountId x = Some b)) others)
               | None => []
               end
   | None => []
   end).

(** Comparisons of fractions. *)
Definition Qltb (x y : Q) : bool := negb (Qle_bool y x).
Definition Qmin_of (x y : Q) : Q := if Qle_bool x y then x else y.
#[local] Notation ms := inject_Z.

(** The environment and the digests the service uses: the configured ownership
    and authorizations, [fingerprintSecret], and the SHA-256 of a JSON text. *)
Class AuthorityHost := {
  authority_env : ClientEnv;
  secret_fingerprint : string -> string;
  sha256_of_json : json -> string
}.

Section Assessment.
Context `{AuthorityHost}.

Definition deploymentAllows (role : string) : bool :=
  String.eqb role "OBSERVER" || String.eqb (PAPER_BROKER_WRITE_DEPLOYMENT_ROLE authority_env) "PAPER_EXECUTOR".
Definition executorFingerprintAuthorized (declaration : PaperOwnership) (fingerprint : string) : bool :=
  negb (String.eqb (po_role declaration) "EXECUTOR") ||
  existsb (fun item => bool_decide (Some (pz_brokerAccountId item) = po_expectedBrokerAccountId declaration) &&
                       String.eqb (pz_keyFingerprint item) fingerprint) (PAPER_BROKER_WRITE_AUTHORIZATIONS authority_env).
Definition declarations_of (accountId : Z) : list PaperOwnership :=
  filterb (fun item => po_tradingAccountId item =? accountId) (PAPER_BROKER_WRITE_OWNERSHIP authority_env).

Definition iso_date (t : Z) : json := JStr (iso_of_time t).
Definition configurationRevision (account : AuthorityAccount) (declaration : PaperOwnership) : string :=
  "sha256:" ++ sha256_of_json (JObj
    [("broker", JStr (aa_broker account)); ("environment", JStr (aa_environment account));
     ("deploymentRole", JStr (PAPER_BROKER_WRITE_DEPLOYMENT_ROLE authority_env));
     ("declaration", JObj ([("tradingAccountId", jint (po_tradingAccountId declaration));
                            ("role", JStr (po_role declaration))] ++
                           match po_expectedBrokerAccountId declaration with
                           | Some b => [("expectedBrokerAccountId", JStr b)] | None => [] end)%list);
     ("brokerAccountId", jopt JStr (aa_brokerAccountId account));
     ("credential", jopt (fun c => JObj [("id", jint (ak_id c)); ("status", JStr (ak_status c));
        ("verifiedAt", jopt iso_date (ak_verifiedAt c)); ("revokedAt", jopt iso_date (ak_revokedAt c));
        ("keyFingerprint", jopt JStr (ak_keyFingerprint c)); ("updatedAt", iso_date (ak_updatedAt c))]) (aa_credential account));
     ("authorizations", JArr (map (fun z => JObj [("brokerAccountId", JStr (pz_brokerAccountId z));
        ("keyFingerprint", JStr (pz_keyFingerprint z))]) (PAPER_BROKER_WRITE_AUTHORIZATIONS authority_env)))]).

Definition projected_role (outcome : string) : option string :=
  if String.eqb outcome "EXECUTOR" || String.eqb outcome "OBSERVER" then Some outcome else None.
Definition allowed (role : option string) (o : LifecycleAuthorityOperation) : bool :=
  match role with Some r => policyAllows r o | None => false end.
Definition operationProjection (outcome reasonCode : string)
    : list LifecycleAuthorityOperation * list (LifecycleAuthorityOperation * string) :=
  let role := projected_role outcome in
  (filterb (allowed role) LIFECYCLE_AUTHORITY_OPERATIONS,
   map (fun o => (o, if bool_decide (role = Some "OBSERVER") then "OBSERVER_STRATEGY_OPERATION_DENIED" else reasonCode))
     (filterb (fun o => negb (allowed role o)) LIFECYCLE_AUTHORITY_OPERATIONS)).

(** What [baseFor], and the declaration, contribute to an assessment. *)
Record AssessmentBase := {
  ab_tradingAccountId : Z;
  ab_environment : option string;
  ab_expectedBrokerAccountId : option string;
  ab_storedBrokerAccountId : option string;
  ab_credentialFingerprint : option string;
  ab_policyDelegation : string
}.
Definition fingerprint_of (account : AuthorityAccount) : option string := aa_credential account ≫= ak_keyFingerprint.
Definition baseFor (account : AuthorityAccount) : AssessmentBase :=
  {| ab_tradingAccountId := aa_id account; ab_environment := Some (aa_environment account);
     ab_expectedBrokerAccountId := None; ab_storedBrokerAccountId := aa_brokerAccountId account;
     ab_credentialFingerprint := fingerprint_of account; ab_policyDelegation := "PAPER_LIFECYCLE_AUTHORITY" |}.
Definition with_expected (expected : option string) (b : AssessmentBase) : AssessmentBase :=
  {| ab_tradingAccountId := ab_tradingAccountId b; ab_environment := ab_environment b;
     ab_expectedBrokerAccountId := expected; ab_storedBrokerAccountId := ab_storedBrokerAccountId b;
     ab_credentialFingerprint := ab_credentialFingerprint b; ab_policyDelegation := ab_policyDelegation b |}.

Definition immutableAssessment (b : AssessmentBase) (outcome reasonCode reason : string)
    (observed revision : option string) (verifiedAt expiresAt : option Z) : LifecycleAuthorityAssessment :=
  let '(allowedOperations, deniedOperations) := operationProjection outcome reasonCode in
  {| la_tradingAccountId := ab_tradingAccountId b; la_environment := ab_environment b; la_outcome := outcome;
     la_reasonCode := reasonCode; la_reason := reason; la_expectedBrokerAccountId := ab_expectedBrokerAccountId b;
     la_storedBrokerAccountId := ab_storedBrokerAccountId b; la_observedBrokerAccountId := observed;
     la_credentialFingerprint := ab_credentialFingerprint b; la_configurationRevision := revision;
     la_verifiedAt := verifiedAt; la_expiresAt := expiresAt; la_policyDelegation := ab_policyDelegation b;
     la_allowedOperations := allowedOperations; la_deniedOperations := deniedOperations;
     la_provenanceRequiredForStrategyOperations :=
       ["Exact local OrderIntent-to-broker-order/fill linkage";
        "Frozen Subscription and TradingAccountSubscription identity";
        "A reviewed append-only provenance decision with non-contradictory evidence"] |}.

(** A verified role, or the reason there is none. *)
Inductive Judgement :=
| Verified (assessment : LifecycleAuthorityAssessment) (role : string)
| Refused (assessment : LifecycleAuthorityAssessment).

Definition refuse (b : AssessmentBase) (outcome reasonCode reason : string) : Judgement :=
  Refused (immutableAssessment b outcome reasonCode reason None None None None).

(** What follows the account's own checks: the credential material, the broker's
    answer. [config] and [observed] are none when their service fails. *)
Definition judge_material (account : AuthorityAccount) (c : AuthorityCredential) (declaration : PaperOwnership)
    (base : AssessmentBase) (config : option AlpacaResolvedConfig) (observed : option string) (startedAtMs : Z) : Judgement :=
  match truthy_string (ak_keyFingerprint c) with
  | None => refuse base "UNKNOWN" "CREDENTIAL_FINGERPRINT_MISSING" "The verified credential fingerprint is missing."
  | Some fingerprint =>
  match config with
  | None => refuse base "UNKNOWN" "CREDENTIAL_FINGERPRINT_MISMATCH" "Credential material could not be resolved and verified."
  | Some config =>
  if bool_decide (ac_keyFingerprint config <> Some fingerprint) ||
     negb (String.eqb (secret_fingerprint (ac_apiKey config)) fingerprint) then
    refuse base "DENIED" "CREDENTIAL_FINGERPRINT_MISMATCH" "Decrypted credential material does not match the stored fingerprint."
  else if negb (executorFingerprintAuthorized declaration fingerprint) then
    refuse base "DENIED" "EXECUTOR_FINGERPRINT_UNAUTHORIZED"
      "Executor lifecycle authority lacks the existing exact fingerprint authorization."
  else
  match observed with
  | None => refuse base "UNKNOWN" "BROKER_IDENTITY_UNAVAILABLE" "Fresh broker identity verification failed."
  | Some observed =>
  if bool_decide (Some observed <> ab_expectedBrokerAccountId base) ||
     bool_decide (Some observed <> aa_brokerAccountId account) then
    Refused (immutableAssessment base "DENIED" "BROKER_IDENTITY_MISMATCH"
      "Broker-returned identity does not exactly match expected and stored identities." (Some observed) None None None)
  else
    let role := po_role declaration in
    Verified (immutableAssessment base role
        (if String.eqb role "EXECUTOR" then "VERIFIED_EXECUTOR" else "VERIFIED_OBSERVER")
        ("Exact PAPER identity and credential state are verified for " ++ to_lower role ++ " lifecycle assessment.")
        (Some observed) (Some (configurationRevision account declaration)) (Some startedAtMs)
        (Some (startedAtMs + MAX_GRANT_TTL_MS))) role
  end end end.

Definition judge_declared (account : AuthorityAccount) (mappings : list Z) (declaration : PaperOwnership)
    (config : option AlpacaResolvedConfig) (observed : option string) (startedAtMs : Z) : Judgement :=
  let expected := po_expectedBrokerAccountId declaration in
  let base := with_expected expected (baseFor account) in
  if existsb (fun item => negb (po_tradingAccountId item =? aa_id account) &&
       match expected with Some e => bool_decide (po_expectedBrokerAccountId item = Some e) | None => false end)
       (PAPER_BROKER_WRITE_OWNERSHIP authority_env) then
    refuse base "DENIED" "OWNERSHIP_IDENTITY_CONTRADICTORY"
      "The expected brokerage identity is declared for another local account."
  else if negb (deploymentAllows (po_role declaration)) then
    refuse base "DENIED" "DEPLOYMENT_ROLE_CONTRADICTORY" "The account ownership declaration contradicts the deployment role."
  else match truthy_string (aa_brokerAccountId account) with
  | None => refuse base "UNKNOWN" "STORED_BROKER_IDENTITY_MISSING" "The stored verified brokerage account identity is missing."
  | Some stored =>
  if bool_decide (Some stored <> expected) then
    refuse base "DENIED" "STORED_BROKER_IDENTITY_MISMATCH"
      "The stored brokerage identity does not match the ownership declaration."
  else if bool_decide (mappings <> [aa_id account]) then
    refuse base "DENIED" "LOCAL_BROKER_IDENTITY_DUPLICATE"
      "The brokerage identity has duplicate or contradictory local mappings."
  else match aa_credential account with
  | None => refuse base "DENIED" "CREDENTIAL_INACTIVE" "The account credential is inactive or revoked."
  | Some c =>
  if negb (String.eqb (ak_status c) "ACTIVE") || bool_decide (is_Some (ak_revokedAt c)) then
    refuse base "DENIED" "CREDENTIAL_INACTIVE" "The account credential is inactive or revoked."
  else if bool_decide (ak_verifiedAt c = None) then
    refuse base "UNKNOWN" "CREDENTIAL_UNVERIFIED" "The active credential has not been verified."
  else judge_material account c declaration base config observed startedAtMs
  end end.

Definition judge (tradingAccountId : Z) (evidence : option AuthorityAccount * list Z)
    (config : option AlpacaResolvedConfig) (observed : option string) (startedAtMs : Z) : Judgement :=
  match fst evidence with
  | None =>
      refuse {| ab_tradingAccountId := tradingAccountId; ab_environment := None; ab_expectedBrokerAccountId := None;
                ab_storedBrokerAccountId := None; ab_credentialFingerprint := None;
                ab_policyDelegation := "PAPER_LIFECYCLE_AUTHORITY" |}
        "UNKNOWN" "ACCOUNT_NOT_FOUND" "The local TradingAccount does not exist."
  | Some account =>
      if String.eqb (aa_environment account) "LIVE" then
        let b := baseFor account in
        refuse {| ab_tradingAccountId := ab_tradingAccountId b; ab_environment := ab_environment b;
                  ab_expectedBrokerAccountId := None; ab_storedBrokerAccountId := ab_storedBrokerAccountId b;
                  ab_credentialFingerprint := ab_credentialFingerprint b; ab_policyDelegation := "LIVE_INDEPENDENT" |}
          "UNKNOWN" "LIVE_POLICY_INDEPENDENT"
          "LIVE lifecycle authority remains governed by the independent LIVE safety architecture."
      else if negb (String.eqb (aa_broker account) "ALPACA") then
        refuse (baseFor account) "DENIED" "UNSUPPORTED_BROKER" "Lifecycle authority currently supports Alpaca accounts only."
      else match declarations_of (aa_id account) with
      | [] => refuse (baseFor account) "UNKNOWN" "OWNERSHIP_UNDECLARED"
                "No explicit account-specific PAPER ownership declaration exists."
      | [declaration] => judge_declared account (snd evidence) declaration config observed startedAtMs
      | _ => refuse (baseFor account) "DENIED" "OWNERSHIP_DECLARATION_DUPLICATE"
               "More than one PAPER ownership declaration targets this account."
      end
  end.
End Assessment.

(** * Verdicts *)

Definition verdict (assessment : LifecycleAuthorityAssessment) (account global : Z) (role : option string)
    (timing : option (Z * Q * Z)) : InternalVerdict :=
  {| iv_assessment := assessment; iv_role := role; iv_brokerAccountId := la_observedBrokerAccountId assessment;
     iv_credentialFingerprint := la_credentialFingerprint assessment;
     iv_configurationRevision := la_configurationRevision assessment;
     iv_verificationStartedAtMs := option_map (fun t => fst (fst t)) timing;
     iv_verificationStartedElapsedMs := option_map (fun t => snd (fst t)) timing;
     iv_expiresAtMs := la_expiresAt assessment; iv_attemptSequence := option_map snd timing;
     iv_accountGeneration := account; iv_globalGeneration := global |}.

Definition negativeVerdict (accountId : Z) (assessment : LifecycleAuthorityAssessment) (forceRefresh : bool)
    (au : Authority) : InternalVerdict * Authority :=
  let au := if forceRefresh || bool_decide (option_map iv_role (au_assessmentCache au !! accountId) <> Some None)
            then invalidateAccount accountId au else au in
  (verdict assessment (generationFor accountId au) (au_globalGeneration au) None None, au).

Definition assessmentTimingIsFresh (v : InternalVerdict) (nowMs : Z) (nowElapsedMs : Q) : bool :=
  match iv_verificationStartedAtMs v, iv_verificationStartedElapsedMs v, iv_expiresAtMs v with
  | Some startedAt, Some startedElapsed, Some expiresAt =>
      let elapsedAgeMs := (nowElapsedMs - startedElapsed)%Q in
      Qle_bool 0 elapsedAgeMs && Qltb elapsedAgeMs (ms MAX_GRANT_TTL_MS) && (startedAt <=? nowMs) && (nowMs <? expiresAt)
  | _, _, _ => false
  end.

Definition current_generations (v : InternalVerdict) (accountId : Z) (au : Authority) : bool :=
  (iv_accountGeneration v =? generationFor accountId au) && (iv_globalGeneration v =? au_globalGeneration au).

Definition latest_attempt (v : InternalVerdict) (accountId : Z) (au : Authority) : bool :=
  match iv_attemptSequence v with
  | Some s => bool_decide (au_assessmentAttemptSequences au !! accountId = Some s)
  | None => false
  end.

(** * Assessments *)

(** An assessment under way. *)
Record AssessmentAttempt := {
  at_tradingAccountId : Z;
  at_forceRefresh : bool;
  at_startedAtMs : Z;
  at_startedElapsedMs : Q;
  at_sequence : Z;
  at_accountGeneration : Z;
  at_globalGeneration : Z
}.

(** Up to the first await: the cached verdict, or an attempt. *)
Definition assess_begin (tradingAccountId : Z) (forceRefresh : bool) (nowMs : Z) (nowElapsedMs : Q) (au : Authority)
    : (InternalVerdict + AssessmentAttempt) * Authority :=
  let attempt :=
    let '(sequence, au) := nextAssessmentAttempt tradingAccountId au in
    (inr {| at_tradingAccountId := tradingAccountId; at_forceRefresh := forceRefresh; at_startedAtMs := nowMs;
            at_startedElapsedMs := nowElapsedMs; at_sequence := sequence;
            at_accountGeneration := generationFor tradingAccountId au; at_globalGeneration := au_globalGeneration au |}, au) in
  match au_assessmentCache au !! tradingAccountId with
  | Some cached =>
      if negb forceRefresh && assessmentTimingIsFresh cached nowMs nowElapsedMs && current_generations cached tradingAccountId au
      then (inl cached, au) else attempt
  | None => attempt
  end.

(** After the last await: the evidence is judged, and a success cached unless it
    is out of date. *)
Definition assess_end `{AuthorityHost} (a : AssessmentAttempt) (evidence : option AuthorityAccount * list Z)
    (config : option AlpacaResolvedConfig) (observed : option string) (nowMs : Z) (nowElapsedMs : Q) (au : Authority)
    : InternalVerdict * Authority :=
  let id := at_tradingAccountId a in
  match judge id evidence config observed (at_startedAtMs a) with
  | Refused assessment => negativeVerdict id assessment (at_forceRefresh a) au
  | Verified assessment role =>
      let v := verdict assessment (at_accountGeneration a) (at_globalGeneration a) (Some role)
                 (Some (at_startedAtMs a, at_startedElapsedMs a, at_sequence a)) in
      (v, if (generationFor id au =? at_accountGeneration a) && (au_globalGeneration au =? at_globalGeneration a) &&
             (attemptsOf id au =? at_sequence a) && assessmentTimingIsFresh v nowMs nowElapsedMs
          then set_cache <[id := v]> au else au)
  end.

(** * Grants *)

(** [ttlMs] as the caller gives it. *)
Inductive GrantTtl := FiniteTtl (ms : Q) | NotFiniteTtl.
Definition ttl_invalid (ttl : option GrantTtl) : bool :=
  match ttl with None => false | Some (FiniteTtl t) => Qle_bool t 0 | Some NotFiniteTtl => true end.
Definition ttl_ms (ttl : option GrantTtl) : Q :=
  match ttl with Some (FiniteTtl t) => Qmin_of t (ms MAX_GRANT_TTL_MS) | _ => ms MAX_GRANT_TTL_MS end.

(** [issueLifecycleAuthorityGrant] once its assessment has answered. *)
Definition issue_end `{AuthorityHost} (tradingAccountId : Z) (operation : LifecycleAuthorityOperation)
    (ttl : option GrantTtl) (v : InternalVerdict) (issuedAtMs : Z) (issuedElapsedMs : Q) (au : Authority)
    : option Z * Authority :=
  match iv_role v, iv_verificationStartedElapsedMs v, iv_expiresAtMs v, truthy_string (iv_brokerAccountId v),
        truthy_string (iv_credentialFingerprint v), truthy_string (iv_configurationRevision v) with
  | Some role, Some startedElapsed, Some expiresAt, Some broker, Some fingerprint, Some revision =>
      let remainingMonotonicMs := (ms MAX_GRANT_TTL_MS - (issuedElapsedMs - startedElapsed))%Q in
      let remainingWallMs := ms (expiresAt - issuedAtMs) in
      if negb (policyAllows role operation) || negb (deploymentAllows role) ||
         negb (current_generations v tradingAccountId au) ||
         negb (latest_attempt v tradingAccountId au) ||
         negb (assessmentTimingIsFresh v issuedAtMs issuedElapsedMs) ||
         Qle_bool remainingMonotonicMs 0 || Qle_bool remainingWallMs 0
      then (None, au)
      else
      let expiresAfterMs := Qmin_of (Qmin_of (ttl_ms ttl) remainingMonotonicMs) remainingWallMs in
      if Qle_bool expiresAfterMs 0 then (None, au)
      else
      let grant := au_nextGrant au in
      (Some grant,
       {| au_grants := <[grant :=
            {| gs_tradingAccountId := tradingAccountId; gs_operation := operation; gs_role := role;
               gs_brokerAccountId := broker; gs_credentialFingerprint := fingerprint; gs_configurationRevision := revision;
               gs_issuedAtMs := issuedAtMs; gs_expiresAtMs := Qmin_of (ms issuedAtMs + expiresAfterMs)%Q (ms expiresAt);
               gs_issuedElapsedMs := issuedElapsedMs; gs_expiresAfterMs := expiresAfterMs;
               gs_lastObservedWallMs := issuedAtMs; gs_accountGeneration := iv_accountGeneration v;
               gs_globalGeneration := iv_globalGeneration v; gs_permanentlyExpired := false |}]> (au_grants au);
          au_nextGrant := grant + 1; au_assessmentCache := au_assessmentCache au;
          au_accountGenerations := au_accountGenerations au;
          au_assessmentAttemptSequences := au_assessmentAttemptSequences au; au_globalGeneration := au_globalGeneration au |})
  | _, _, _, _, _, _ => (None, au)
  end.

Definition grant_in_time (g : GrantState) (nowMs : Z) (nowElapsedMs : Q) : bool :=
  let elapsedMs := (nowElapsedMs - gs_issuedElapsedMs g)%Q in
  negb ((nowMs <? gs_issuedAtMs g) || (nowMs <? gs_lastObservedWallMs g) || Qle_bool (gs_expiresAtMs g) (ms nowMs) ||
        Qltb elapsedMs 0 || Qle_bool (gs_expiresAfterMs g) elapsedMs || Qltb (ms MAX_GRANT_TTL_MS) (gs_expiresAfterMs g)).
Definition observed (nowMs : Z) (in_time : bool) (g : GrantState) : GrantState :=
  {| gs_tradingAccountId := gs_tradingAccountId g; gs_operation := gs_operation g; gs_role := gs_role g;
     gs_brokerAccountId := gs_brokerAccountId g; gs_credentialFingerprint := gs_credentialFingerprint g;
     gs_configurationRevision := gs_configurationRevision g; gs_issuedAtMs := gs_issuedAtMs g;
     gs_expiresAtMs := gs_expiresAtMs g; gs_issuedElapsedMs := gs_issuedElapsedMs g;
     gs_expiresAfterMs := gs_expiresAfterMs g;
     gs_lastObservedWallMs := if in_time then nowMs else gs_lastObservedWallMs g;
     gs_accountGeneration := gs_accountGeneration g; gs_globalGeneration := gs_globalGeneration g;
     gs_permanentlyExpired := gs_permanentlyExpired g || negb in_time |}.

(** [grantTimeIsValid], which records what it observed in the grant. *)
Definition grantTimeIsValid (grant : Z) (g : GrantState) (nowMs : Z) (nowElapsedMs : Q) (au : Authority)
    : bool * Authority :=
  let valid := grant_in_time g nowMs nowElapsedMs in
  (valid, set_grants <[grant := observed nowMs valid g]> au).

Definition grant_generations (g : GrantState) (tradingAccountId : Z) (au : Authority) : bool :=
  (gs_accountGeneration g =? generationFor tradingAccountId au) && (gs_globalGeneration g =? au_globalGeneration au).

(** [validateLifecycleAuthorityGrant] up to its await: whether it goes on. *)
Definition validate_begin (grant tradingAccountId : Z) (operation : LifecycleAuthorityOperation) (nowMs : Z)
    (nowElapsedMs : Q) (au : Authority) : bool * Authority :=
  match au_grants au !! grant with
  | None => (false, au)
  | Some g =>
      if gs_permanentlyExpired g || negb (gs_tradingAccountId g =? tradingAccountId) ||
         negb (bool_decide (gs_operation g = operation)) then (false, au)
      else
      let '(valid, au) := grantTimeIsValid grant g nowMs nowElapsedMs au in
      (valid && grant_generations g tradingAccountId au, au)
  end.

(** What it requires of the evidence it then reads. *)
Definition grant_evidenced `{AuthorityHost} (g : GrantState) (operation : LifecycleAuthorityOperation)
    (evidence : option AuthorityAccount * list Z) : bool :=
  match fst evidence with
  | None => false
  | Some account =>
      String.eqb (aa_broker account) "ALPACA" && String.eqb (aa_environment account) "PAPER" &&
      bool_decide (aa_brokerAccountId account = Some (gs_brokerAccountId g)) &&
      bool_decide (snd evidence = [aa_id account]) &&
      match declarations_of (aa_id account), aa_credential account with
      | [declaration], Some c =>
          String.eqb (po_role declaration) (gs_role g) && deploymentAllows (po_role declaration) &&
          policyAllows (po_role declaration) operation &&
          bool_decide (po_expectedBrokerAccountId declaration = Some (gs_brokerAccountId g)) &&
          String.eqb (ak_status c) "ACTIVE" && bool_decide (ak_revokedAt c = None) &&
          bool_decide (is_Some (ak_verifiedAt c)) &&
          bool_decide (ak_keyFingerprint c = Some (gs_credentialFingerprint g)) &&
          executorFingerprintAuthorized declaration (gs_credentialFingerprint g) &&
          String.eqb (configurationRevision account declaration) (gs_configurationRevision g)
      | _, _ => false
      end
  end.

(** ... and after it. *)
Definition validate_end `{AuthorityHost} (grant tradingAccountId : Z) (operation : LifecycleAuthorityOperation)
    (reads : Reads) (nowMs : Z) (nowElapsedMs : Q) (au : Authority) : bool * Authority :=
  match au_grants au !! grant, reads with
  | Some g, Some (accounts, others) =>
      if negb (grant_evidenced g operation (readAccountEvidence tradingAccountId accounts others)) then (false, au)
      else
      let '(valid, au) := grantTimeIsValid grant g nowMs nowElapsedMs au in
      (valid && grant_generations g tradingAccountId au, au)
  | _, _ => (false, au)
  end.

(** * Interleavings *)

(** What an assessment is for: [assessLifecycleAuthority], or a grant. *)
Inductive Purpose :=
| To_assess (forceRefresh : bool)
| To_grant (operation : LifecycleAuthorityOperation) (ttl : option GrantTtl).
Definition purpose_force (p : Purpose) : bool := match p with To_assess force => force | To_grant _ _ => false end.

(** A call waiting at an await. *)
Inductive Waiting :=
| Assessing (a : AssessmentAttempt) (p : Purpose)
| Assessed (tradingAccountId : Z) (p : Purpose) (v : InternalVerdict)
| Validating (grant tradingAccountId : Z) (operation : LifecycleAuthorityOperation).

Record Process := { ps_authority : Authority; ps_waiting : gmap Z Waiting }.
Definition started_process : Process := {| ps_authority := no_authority; ps_waiting := ∅ |}.

(** The parts of the calls, under a number for each call, with the answers of the
    services and the clocks they read. *)
Inductive Activity :=
| Begin_assessment (call tradingAccountId : Z) (p : Purpose) (nowMs : Z) (nowElapsedMs : Q)
| End_assessment (call : Z) (reads : Reads) (config : option AlpacaResolvedConfig) (observed : option string)
    (nowMs : Z) (nowElapsedMs : Q)
| Take_verdict (call : Z) (nowMs : Z) (nowElapsedMs : Q)
| Begin_validation (call grant tradingAccountId : Z) (operation : LifecycleAuthorityOperation) (nowMs : Z) (nowElapsedMs : Q)
| End_validation (call : Z) (reads : Reads) (nowMs : Z) (nowElapsedMs : Q)
| Invalidate (tradingAccountId : option Z).

Inductive AuthorityAnswer :=
| Waits
| Assessment (a : LifecycleAuthorityAssessment)
| Grant (g : option Z)
| Valid (b : bool)
| Rejects.

Section Perform.
Context `{AuthorityHost}.

Definition call_waits (call : Z) (w : Waiting) (au : Authority) (s : Process) : AuthorityAnswer * Process :=
  (Waits, {| ps_authority := au; ps_waiting := <[call := w]> (ps_waiting s) |}).
Definition call_answers (call : Z) (r : AuthorityAnswer) (au : Authority) (s : Process) : AuthorityAnswer * Process :=
  (r, {| ps_authority := au; ps_waiting := delete call (ps_waiting s) |}).

Definition perform (x : Activity) (s : Process) : AuthorityAnswer * Process :=
  let au := ps_authority s in
  match x with
  | Begin_assessment call id p nowMs nowElapsedMs =>
      match p with
      | To_grant _ ttl => if ttl_invalid ttl then call_answers call (Grant None) au s else
          match assess_begin id (purpose_force p) nowMs nowElapsedMs au with
          | (inl v, au) => call_waits call (Assessed id p v) au s
          | (inr a, au) => call_waits call (Assessing a p) au s
          end
      | To_assess _ =>
          match assess_begin id (purpose_force p) nowMs nowElapsedMs au with
          | (inl v, au) => call_waits call (Assessed id p v) au s
          | (inr a, au) => call_waits call (Assessing a p) au s
          end
      end
  | End_assessment call reads config observed nowMs nowElapsedMs =>
      match ps_waiting s !! call with
      | Some (Assessing a p) =>
          match reads with
          | None => call_answers call Rejects au s
          | Some (accounts, others) =>
              let '(v, au) := assess_end a (readAccountEvidence (at_tradingAccountId a) accounts others) config observed
                                nowMs nowElapsedMs au in
              call_waits call (Assessed (at_tradingAccountId a) p v) au s
          end
      | _ => (Rejects, s)
      end
  | Take_verdict call nowMs nowElapsedMs =>
      match ps_waiting s !! call with
      | Some (Assessed id (To_assess _) v) => call_answers call (Assessment (iv_assessment v)) au s
      | Some (Assessed id (To_grant operation ttl) v) =>
          let '(g, au) := issue_end id operation ttl v nowMs nowElapsedMs au in call_answers call (Grant g) au s
      | _ => (Rejects, s)
      end
  | Begin_validation call grant id operation nowMs nowElapsedMs =>
      let '(goes_on, au) := validate_begin grant id operation nowMs nowElapsedMs au in
      if goes_on then call_waits call (Validating grant id operation) au s else call_answers call (Valid false) au s
  | End_validation call reads nowMs nowElapsedMs =>
      match ps_waiting s !! call with
      | Some (Validating grant id operation) =>
          let '(valid, au) := validate_end grant id operation reads nowMs nowElapsedMs au in call_answers call (Valid valid) au s
      | _ => (Rejects, s)
      end
  | Invalidate id => (Waits, {| ps_authority := invalidateLifecycleAuthorityCache id au; ps_waiting := ps_waiting s |})
  end.

Definition run (h : list Activity) : Process := fold_left (fun s x => snd (perform x s)) h started_process.
Definition answer (x : Activity) (h : list Activity) : AuthorityAnswer := fst (perform x (run h)).
End Perform.
