(* ===== verification/AuthoritySafety.v ===== *)
(** What a lifecycle grant proves: every activity of a process, in any
    interleaving, keeps the state's grants, verdicts and waiting calls tied to
    the activities they came from. *)

From Stdlib Require Import ZArith Lia QArith Lqa.
From Stdlib Require Import Strings.String.
From stdpp Require Import base gmap list strings.
From S2P Require Import Prelude JsNumber JsValue JsDate AlpacaClient LifecycleAuthority.

Open Scope string_scope.
Open Scope Z_scope.

#[local] Notation ms := inject_Z.

(** * Fractions *)

Lemma Qltb_spec x y : Qltb x y = true <-> (x < y)%Q.
Proof.
  unfold Qltb. destruct (Qle_bool y x) eqn:E; cbn; split; try done.
  - apply Qle_bool_iff in E. lra.
  - intros _. assert (~ (y <= x)%Q) by (rewrite <- Qle_bool_iff; congruence). lra.
Qed.
Lemma Qleb_false x y : Qle_bool x y = false <-> (y < x)%Q.
Proof. rewrite <- Qltb_spec. unfold Qltb. by destruct (Qle_bool x y). Qed.
Lemma Qmin_below x y : (Qmin_of x y <= x)%Q /\ (Qmin_of x y <= y)%Q.
Proof.
  unfold Qmin_of. destruct (Qle_bool x y) eqn:E; [apply Qle_bool_iff in E|apply Qleb_false in E]; lra.
Qed.
Lemma Qmin_above z x y : (z < x)%Q -> (z < y)%Q -> (z < Qmin_of x y)%Q.
Proof. unfold Qmin_of. by destruct (Qle_bool x y). Qed.
Lemma ms_lt x y : (ms x < ms y)%Q <-> x < y.
Proof. by rewrite <- Zlt_Qlt. Qed.
Lemma ms_le x y : (ms x <= ms y)%Q <-> x <= y.
Proof. by rewrite <- Zle_Qle. Qed.
Lemma ms_sub x y : (ms (x - y) == ms x - ms y)%Q.
Proof. unfold Z.sub. by rewrite inject_Z_plus, inject_Z_opp. Qed.

(** * Checks *)

Lemma truthy_string_Some s x : truthy_string s = Some x <-> s = Some x /\ x <> "".
Proof.
  destruct s as [s|]; cbn; [|naive_solver]. destruct (String.eqb_spec s ""); naive_solver.
Qed.

(** The checks of a judgement as propositions. *)
Ltac reflect_checks := repeat match goal with
  | E : orb _ _ = false |- _ => apply orb_false_iff in E as [? ?]
  | E : andb _ _ = true |- _ => apply andb_true_iff in E as [? ?]
  | E : negb _ = false |- _ => apply negb_false_iff in E
  | E : negb _ = true |- _ => apply negb_true_iff in E
  | E : String.eqb _ _ = true |- _ => apply String.eqb_eq in E
  | E : String.eqb _ _ = false |- _ => apply String.eqb_neq in E
  | E : bool_decide _ = true |- _ => apply bool_decide_eq_true in E
  | E : bool_decide _ = false |- _ => apply bool_decide_eq_false in E
  | E : ~ (?x <> ?y) |- _ => apply dec_stable in E
  | E : truthy_string _ = Some _ |- _ => apply truthy_string_Some in E as [? ?]
  end.

(** * What is verified *)

Section Contract.
Context `{AuthorityHost}.

(** The evidence ties the account to one brokerage identity [b], held by one
    local account, and to the role declared for it. *)
Record owned (evidence : option AuthorityAccount * list Z) (account : AuthorityAccount) (declaration : PaperOwnership)
    (role b fingerprint : string) : Prop := {
  ow_account : fst evidence = Some account;
  ow_broker : aa_broker account = "ALPACA";
  ow_declared : declarations_of (aa_id account) = [declaration];
  ow_role : po_role declaration = role;
  ow_expected : po_expectedBrokerAccountId declaration = Some b;
  ow_deployment : deploymentAllows role = true;
  ow_stored : aa_brokerAccountId account = Some b;
  ow_mapping : snd evidence = [aa_id account];
  ow_credential : exists c, aa_credential account = Some c /\ ak_status c = "ACTIVE" /\ ak_revokedAt c = None /\
    is_Some (ak_verifiedAt c) /\ ak_keyFingerprint c = Some fingerprint;
  ow_authorized : executorFingerprintAuthorized declaration fingerprint = true
}.

(** The documented conditions of a verified assessment: besides, the account is
    not LIVE, no other declaration expects the identity, the stored credential
    decrypts to its fingerprint, and the broker answers with the identity. *)
Record verified_contract (evidence : option AuthorityAccount * list Z) (config : option AlpacaResolvedConfig)
    (observed : option string) (account : AuthorityAccount) (declaration : PaperOwnership) (role b fingerprint : string)
    : Prop := {
  vc_owned : owned evidence account declaration role b fingerprint;
  vc_environment : aa_environment account <> "LIVE";
  vc_identity : b <> "" /\ fingerprint <> "";
  vc_unique : forall item, In item (PAPER_BROKER_WRITE_OWNERSHIP authority_env) ->
    po_expectedBrokerAccountId item = Some b -> po_tradingAccountId item = aa_id account;
  vc_material : exists m, config = Some m /\ ac_keyFingerprint m = Some fingerprint /\
    secret_fingerprint (ac_apiKey m) = fingerprint;
  vc_observed : observed = Some b
}.

Definition verified_assessment (account : AuthorityAccount) (declaration : PaperOwnership) (b : string) (startedAtMs : Z)
    : LifecycleAuthorityAssessment :=
  immutableAssessment (with_expected (Some b) (baseFor account)) (po_role declaration)
    (if String.eqb (po_role declaration) "EXECUTOR" then "VERIFIED_EXECUTOR" else "VERIFIED_OBSERVER")
    ("Exact PAPER identity and credential state are verified for " ++ to_lower (po_role declaration) ++
     " lifecycle assessment.") (Some b) (Some (configurationRevision account declaration)) (Some startedAtMs)
    (Some (startedAtMs + MAX_GRANT_TTL_MS)).

Lemma unexpected_elsewhere account b : existsb (fun item => negb (po_tradingAccountId item =? aa_id account) &&
    bool_decide (po_expectedBrokerAccountId item = Some b)) (PAPER_BROKER_WRITE_OWNERSHIP authority_env) = false <->
  forall item, In item (PAPER_BROKER_WRITE_OWNERSHIP authority_env) ->
    po_expectedBrokerAccountId item = Some b -> po_tradingAccountId item = aa_id account.
Proof.
  rewrite existsb_false_In. split; intros Hu item Hi.
  - intros E. specialize (Hu item Hi). rewrite bool_decide_eq_true_2, andb_true_r in Hu by done. lia.
  - destruct (bool_decide_reflect (po_expectedBrokerAccountId item = Some b)); [|apply andb_false_r].
    rewrite (Hu item) by done. by rewrite Z.eqb_refl.
Qed.

Lemma not_some {A} (o : option A) : ~ is_Some o -> o = None.
Proof. destruct o; [|done]. intros Hn. destruct Hn. eauto. Qed.
Lemma some_of {A} (o : option A) : o <> None -> is_Some o.
Proof. destruct o; [eauto|done]. Qed.

Lemma judge_sound id evidence config observed t asmt role :
  judge id evidence config observed t = Verified asmt role ->
  exists account declaration b fingerprint,
    verified_contract evidence config observed account declaration role b fingerprint /\
    asmt = verified_assessment account declaration b t.
Proof.
  unfold judge, judge_declared, judge_material, refuse. intros E.
  repeat match type of E with
  | (match ?x with _ => _ end) = _ => let D := fresh "D" in destruct x eqn:D; try done
  end.
  injection E as <- <-. subst. reflect_checks. cbn [ab_expectedBrokerAccountId with_expected] in *.
  match goal with E1 : Some ?x = aa_brokerAccountId ?a, E2 : aa_brokerAccountId ?a = Some ?y |- _ =>
    assert (x = y) as -> by congruence; exists a end.
  match goal with E : declarations_of _ = [?p], E2 : ac_keyFingerprint _ = Some ?f, E3 : Some ?b = aa_brokerAccountId _ |- _ =>
    exists p, b, f end.
  assert (Hexp : po_expectedBrokerAccountId p = Some s) by congruence. split.
  - split; try done.
    + split; try done; try congruence. eexists. split; [done|]. repeat split; try done; [by apply not_some|by apply some_of].
    + apply unexpected_elsewhere. by rewrite Hexp in *.
    + eexists. split; [done|]. split; [congruence|done].
  - unfold verified_assessment. by rewrite Hexp.
Qed.

Lemma judge_complete id evidence config observed t account declaration role b fingerprint :
  verified_contract evidence config observed account declaration role b fingerprint ->
  judge id evidence config observed t = Verified (verified_assessment account declaration b t) role.
Proof.
  intros [[Ha Hb Hd <- He Hdep Hs Hm (c & Hc & Hst & Hrev & Hver & Hf) Hau] Hlive [Hb0 Hf0] Hu (m & -> & Hmf & Hsf) ->].
  unfold judge, judge_declared, judge_material. rewrite Ha.
  rewrite (proj2 (String.eqb_neq _ _) Hlive), Hb, String.eqb_refl. cbn [negb].
  rewrite Hd, He, (proj2 (unexpected_elsewhere account b) Hu), Hdep. cbn [negb].
  rewrite (proj2 (truthy_string_Some (aa_brokerAccountId account) b)) by done.
  rewrite !bool_decide_eq_false_2 by tauto. rewrite Hc, Hst, Hrev. cbn [negb orb].
  rewrite bool_decide_eq_false_2 by (by intros [? [=]]). destruct Hver as [v Hv].
  rewrite bool_decide_eq_false_2 by congruence.
  rewrite (proj2 (truthy_string_Some (ak_keyFingerprint c) fingerprint)) by done.
  rewrite bool_decide_eq_false_2 by tauto. rewrite Hsf, String.eqb_refl, Hau. cbn [negb orb].
  cbn [ab_expectedBrokerAccountId with_expected].
  rewrite !bool_decide_eq_false_2 by (rewrite ?Hs; tauto). by rewrite String.eqb_refl.
Qed.
End Contract.

(** * Generations and attempts only grow *)

Definition grows (au au' : Authority) : Prop :=
  au_globalGeneration au <= au_globalGeneration au' /\
  (forall a, generationFor a au <= generationFor a au') /\ (forall a, attemptsOf a au <= attemptsOf a au').

#[export] Instance grows_preorder : PreOrder grows.
Proof.
  split; [by intros au; repeat split|]. intros a b c (G1 & A1 & T1) (G2 & A2 & T2).
  split; [lia|]. split; intros x; specialize (A1 x); specialize (A2 x); specialize (T1 x); specialize (T2 x); lia.
Qed.

(** What the account's authority depends on: a revocation makes it grow. *)
Definition generations (a : Z) (au : Authority) : Z := generationFor a au + au_globalGeneration au.

Lemma grows_generations a au au' : grows au au' -> generations a au <= generations a au'.
Proof. intros (G & A & _). unfold generations. specialize (A a). lia. Qed.

Lemma invalidate_generation a b au : generationFor b (invalidateAccount a au) =
  if decide (b = a) then generationFor a au + 1 else generationFor b au.
Proof.
  unfold generationFor at 1, invalidateAccount. cbn. destruct (decide (b = a)) as [->|Hne].
  - by rewrite lookup_insert_eq.
  - by rewrite lookup_insert_ne.
Qed.

Lemma invalidate_grows id au : grows au (invalidateLifecycleAuthorityCache id au).
Proof.
  destruct id as [a|]; cbn.
  - split; [done|]. split; [|done]. intros b. rewrite invalidate_generation. case_decide; subst; lia.
  - split; [cbn; lia|]. by split.
Qed.

Lemma begin_effect id force t e au :
  let '(r, au') := assess_begin id force t e au in
  grows au au' /\ au_grants au' = au_grants au /\ au_nextGrant au' = au_nextGrant au /\
  au_assessmentCache au' = au_assessmentCache au /\ (forall a, generations a au' = generations a au) /\
  match r with
  | inl v => au' = au /\ au_assessmentCache au !! id = Some v
  | inr a => a = {| at_tradingAccountId := id; at_forceRefresh := force; at_startedAtMs := t; at_startedElapsedMs := e;
                    at_sequence := attemptsOf id au + 1; at_accountGeneration := generationFor id au;
                    at_globalGeneration := au_globalGeneration au |}
  end.
Proof.
  unfold assess_begin. set (attempt := let '(_, _) := nextAssessmentAttempt id au in _).
  assert (Ha : let '(r, au') := attempt in grows au au' /\ au_grants au' = au_grants au /\ au_nextGrant au' = au_nextGrant au /\
    au_assessmentCache au' = au_assessmentCache au /\ (forall a, generations a au' = generations a au) /\
    match r with
    | inl v => au' = au /\ au_assessmentCache au !! id = Some v
    | inr a => a = {| at_tradingAccountId := id; at_forceRefresh := force; at_startedAtMs := t; at_startedElapsedMs := e;
                    at_sequence := attemptsOf id au + 1; at_accountGeneration := generationFor id au;
                    at_globalGeneration := au_globalGeneration au |}
    end).
  { cbn. split; [|done]. split; [done|]. split; [done|]. intros a. unfold attemptsOf. cbn.
    destruct (decide (a = id)) as [->|Hne]; [rewrite lookup_insert_eq; cbn; lia|by rewrite lookup_insert_ne]. }
  destruct (au_assessmentCache au !! id) as [cached|] eqn:Ec; [|exact Ha].
  destruct (negb force && _ && _); [|exact Ha]. repeat split; done.
Qed.

Section End_effect.
Context `{AuthorityHost}.

Lemma negative_effect id asmt force au :
  let '(v, au') := negativeVerdict id asmt force au in
  iv_role v = None /\ grows au au' /\ au_grants au' = au_grants au /\ au_nextGrant au' = au_nextGrant au /\
  (forall a w, au_assessmentCache au' !! a = Some w -> au_assessmentCache au !! a = Some w) /\
  ((forall w, au_assessmentCache au !! id = Some w -> iv_role w <> None) ->
   generations id au < generations id au').
Proof.
  unfold negativeVerdict. destruct (force || _) eqn:E; cbn.
  - split; [done|]. split; [exact (invalidate_grows (Some id) au)|]. split; [done|]. split; [done|]. split.
    + intros a w. by rewrite lookup_delete_Some; intros [_ ?].
    + intros _. unfold generations. rewrite invalidate_generation, decide_True by done. cbn. lia.
  - repeat split; try done. intros Hc. apply orb_false_iff in E as [_ E]. exfalso.
    apply bool_decide_eq_false in E. apply dec_stable in E.
    destruct (au_assessmentCache au !! id) as [w|]; [|done]. cbn in E. injection E as E. by apply (Hc w).
Qed.

(** The verdict of an attempt whose evidence is verified. *)
Definition attempt_verdict (a : AssessmentAttempt) (asmt : LifecycleAuthorityAssessment) (role : string) : InternalVerdict :=
  verdict asmt (at_accountGeneration a) (at_globalGeneration a) (Some role)
    (Some (at_startedAtMs a, at_startedElapsedMs a, at_sequence a)).

Lemma end_effect a evidence config observed t e au :
  let '(v, au') := assess_end a evidence config observed t e au in
  grows au au' /\ au_grants au' = au_grants au /\ au_nextGrant au' = au_nextGrant au /\
  match judge (at_tradingAccountId a) evidence config observed (at_startedAtMs a) with
  | Verified asmt role =>
      v = attempt_verdict a asmt role /\ (forall b, generations b au' = generations b au) /\
      forall b w, au_assessmentCache au' !! b = Some w ->
        au_assessmentCache au !! b = Some w \/ b = at_tradingAccountId a /\ w = v
  | Refused _ =>
      iv_role v = None /\
      (forall b w, au_assessmentCache au' !! b = Some w -> au_assessmentCache au !! b = Some w) /\
      ((forall w, au_assessmentCache au !! at_tradingAccountId a = Some w -> iv_role w <> None) ->
       generations (at_tradingAccountId a) au < generations (at_tradingAccountId a) au')
  end.
Proof.
  unfold assess_end. destruct (judge _ _ _ _ _) as [asmt role|asmt].
  - fold (attempt_verdict a asmt role). destruct (_ && _ && _ && _).
    + repeat split; try done. intros b w Hw. cbn in Hw. apply lookup_insert_Some in Hw as [[<- <-]|[_ Hw]]; auto.
    + repeat split; try done. auto.
  - pose proof (negative_effect (at_tradingAccountId a) asmt (at_forceRefresh a) au) as Hn.
    destruct (negativeVerdict _ _ _ _) as [v au']. tauto.
Qed.

Lemma issue_effect id op ttl v t e au :
  let '(g, au') := issue_end id op ttl v t e au in
  grows au au' /\ au_assessmentCache au' = au_assessmentCache au /\ (forall b, generations b au' = generations b au) /\
  match g with
  | None => au' = au
  | Some g => g = au_nextGrant au /\ au_nextGrant au' = g + 1 /\ exists s, au_grants au' = <[g := s]> (au_grants au)
  end.
Proof.
  unfold issue_end. destruct (iv_role v), (iv_verificationStartedElapsedMs v), (iv_expiresAtMs v),
    (truthy_string (iv_brokerAccountId v)), (truthy_string (iv_credentialFingerprint v)),
    (truthy_string (iv_configurationRevision v)); try (repeat split; done).
  cbv zeta. destruct (_ || _); [repeat split; done|]. destruct (Qle_bool _ 0); [repeat split; done|].
  repeat split; try done. cbn. eauto.
Qed.

(** The grants of two states, what was observed of them apart. *)
Definition same_grant (g g' : GrantState) : Prop :=
  exists wall expired, g' =
    {| gs_tradingAccountId := gs_tradingAccountId g; gs_operation := gs_operation g; gs_role := gs_role g;
       gs_brokerAccountId := gs_brokerAccountId g; gs_credentialFingerprint := gs_credentialFingerprint g;
       gs_configurationRevision := gs_configurationRevision g; gs_issuedAtMs := gs_issuedAtMs g;
       gs_expiresAtMs := gs_expiresAtMs g; gs_issuedElapsedMs := gs_issuedElapsedMs g;
       gs_expiresAfterMs := gs_expiresAfterMs g; gs_lastObservedWallMs := wall;
       gs_accountGeneration := gs_accountGeneration g; gs_globalGeneration := gs_globalGeneration g;
       gs_permanentlyExpired := gs_permanentlyExpired g || expired |}.
#[export] Instance same_grant_preorder : PreOrder same_grant.
Proof.
  split.
  - intros g. exists (gs_lastObservedWallMs g), false. rewrite orb_false_r. by destruct g.
  - intros g1 g2 g3 (w1 & x1 & ->) (w2 & x2 & ->). exists w2, (x1 || x2)%bool. cbn. by rewrite orb_assoc.
Qed.

(** What a validation leaves of the state: grants observed. *)
Definition observed_only (au au' : Authority) : Prop :=
  au_nextGrant au' = au_nextGrant au /\ au_assessmentCache au' = au_assessmentCache au /\
  au_accountGenerations au' = au_accountGenerations au /\
  au_assessmentAttemptSequences au' = au_assessmentAttemptSequences au /\
  au_globalGeneration au' = au_globalGeneration au /\
  forall g, match au_grants au !! g, au_grants au' !! g with
            | Some s, Some s' => same_grant s s' | None, None => True | _, _ => False end.

Lemma observed_only_refl au : observed_only au au.
Proof. repeat split. intros g. by destruct (au_grants au !! g). Qed.

Lemma time_observed g s t e au : au_grants au !! g = Some s -> observed_only au (snd (grantTimeIsValid g s t e au)).
Proof.
  intros Hg. repeat split. intros g'. cbn. destruct (decide (g' = g)) as [->|Hne].
  - rewrite Hg, lookup_insert_eq. by eexists _, _.
  - rewrite lookup_insert_ne by done. by destruct (au_grants au !! g').
Qed.

Lemma validate_begin_observed g id op t e au : observed_only au (snd (validate_begin g id op t e au)).
Proof.
  unfold validate_begin. destruct (au_grants au !! g) as [s|] eqn:Eg; [|apply observed_only_refl].
  destruct (_ || _); [apply observed_only_refl|]. pose proof (time_observed g s t e au Eg) as Ht.
  by destruct (grantTimeIsValid g s t e au).
Qed.
Lemma validate_end_observed g id op reads t e au : observed_only au (snd (validate_end g id op reads t e au)).
Proof.
  unfold validate_end. destruct (au_grants au !! g) as [s|] eqn:Eg; [|apply observed_only_refl].
  destruct reads as [[l k]|]; [|apply observed_only_refl]. destruct (negb _); [apply observed_only_refl|].
  pose proof (time_observed g s t e au Eg) as Ht. by destruct (grantTimeIsValid g s t e au).
Qed.
Lemma observed_grows au au' : observed_only au au' -> grows au au' /\ forall b, generations b au' = generations b au.
Proof.
  intros (En & Ec & Eg & Es & Eo & _). unfold grows, generations, generationFor, attemptsOf. rewrite Eg, Es, Eo. by repeat split.
Qed.
End End_effect.

(** * Histories *)

Section History.
Context `{AuthorityHost}.

Lemma run_snoc h x : run (h ++ [x])%list = snd (perform x (run h)).
Proof. unfold run. by rewrite fold_left_app. Qed.

Definition authority_of (h : list Activity) : Authority := ps_authority (run h).

(** What a history has taken from one of its activities. *)
Definition attempt_at (h : list Activity) (call : Z) (a : AssessmentAttempt) (p : Purpose) (i : nat) : Prop :=
  let id := at_tradingAccountId a in
  h !! i = Some (Begin_assessment call id p (at_startedAtMs a) (at_startedElapsedMs a)) /\
  at_accountGeneration a = generationFor id (authority_of (take i h)) /\
  at_globalGeneration a = au_globalGeneration (authority_of (take i h)) /\
  at_sequence a = attemptsOf id (authority_of (take i h)) + 1.

(** A verdict's assessment began at [i] and was verified at [j]. *)
Definition verified_at (h : list Activity) (id : Z) (v : InternalVerdict) (i j : nat) : Prop :=
  exists call a p accounts others config observed t e asmt role,
    at_tradingAccountId a = id /\ (i < j)%nat /\ attempt_at h call a p i /\
    h !! j = Some (End_assessment call (Some (accounts, others)) config observed t e) /\
    judge id (readAccountEvidence id accounts others) config observed (at_startedAtMs a) = Verified asmt role /\
    v = attempt_verdict a asmt role.
Definition has_verified (h : list Activity) (id : Z) (v : InternalVerdict) : Prop := exists i j, verified_at h id v i j.

Definition asked_validation (h : list Activity) (call g id : Z) (op : LifecycleAuthorityOperation) : Prop :=
  exists i t e, h !! i = Some (Begin_validation call g id op t e).
Definition asked_grant (h : list Activity) (call id : Z) (op : LifecycleAuthorityOperation) (ttl : option GrantTtl) : Prop :=
  exists i t e, h !! i = Some (Begin_assessment call id (To_grant op ttl) t e).

(** A grant was issued at [k], on a verdict. *)
Definition issued_at (h : list Activity) (g : Z) (s : GrantState) (v : InternalVerdict) (k : nat) : Prop :=
  exists call id op ttl t e s0,
    h !! k = Some (Take_verdict call t e) /\ answer (Take_verdict call t e) (take k h) = Grant (Some g) /\
    asked_grant (take k h) call id op ttl /\ has_verified (take k h) id v /\
    fst (issue_end id op ttl v t e (authority_of (take k h))) = Some g /\
    au_grants (snd (issue_end id op ttl v t e (authority_of (take k h)))) !! g = Some s0 /\ same_grant s0 s.

(** Lookups and prefixes stay as a history goes on. *)
Lemma lookup_snoc_of (h : list Activity) x i y : h !! i = Some y -> (h ++ [x])%list !! i = Some y.
Proof. apply lookup_app_l_Some. Qed.
Lemma take_snoc_of (h : list Activity) x i y : h !! i = Some y -> take i (h ++ [x])%list = take i h.
Proof. intros Hi%lookup_lt_Some. by rewrite take_app_le by lia. Qed.

Lemma attempt_at_snoc h x call a p i : attempt_at h call a p i -> attempt_at (h ++ [x])%list call a p i.
Proof.
  intros (Hi & Hr). split; [by apply lookup_snoc_of|]. by rewrite (take_snoc_of h x i _ Hi).
Qed.
Lemma verified_snoc h x id v i j : verified_at h id v i j -> verified_at (h ++ [x])%list id v i j.
Proof.
  intros (call & a & p & l & k & config & obs & t & e & asmt & role & E & Hij & Ha & Hj & Hr).
  exists call, a, p, l, k, config, obs, t, e, asmt, role. split; [done|]. split; [done|].
  split; [by apply attempt_at_snoc|]. split; [by apply lookup_snoc_of|done].
Qed.
Lemma has_verified_snoc h x id v : has_verified h id v -> has_verified (h ++ [x])%list id v.
Proof. intros (i & j & Hv). exists i, j. by apply verified_snoc. Qed.
Lemma asked_validation_snoc h x call g id op : asked_validation h call g id op -> asked_validation (h ++ [x])%list call g id op.
Proof. intros (i & t & e & Hi). exists i, t, e. by apply lookup_snoc_of. Qed.
Lemma asked_grant_snoc h x call id op ttl : asked_grant h call id op ttl -> asked_grant (h ++ [x])%list call id op ttl.
Proof. intros (i & t & e & Hi). exists i, t, e. by apply lookup_snoc_of. Qed.
Lemma issued_snoc h x g s v k : issued_at h g s v k -> issued_at (h ++ [x])%list g s v k.
Proof.
  intros (call & id & op & ttl & t & e & s0 & Hk & Hr). exists call, id, op, ttl, t, e, s0.
  rewrite (take_snoc_of h x k _ Hk). split; [by apply lookup_snoc_of|done].
Qed.
Lemma issued_observed h g s s' v k : issued_at h g s v k -> same_grant s s' -> issued_at h g s' v k.
Proof.
  intros (call & id & op & ttl & t & e & s0 & Hk & Hans & Ha & Hv & Hi & Hg & Hs) Hs'.
  exists call, id, op, ttl, t, e, s0. repeat split; try done. by transitivity s.
Qed.

(** What a waiting call goes back to. *)
Definition waiting_sound (h : list Activity) (call : Z) (w : Waiting) : Prop :=
  match w with
  | Assessing a p => exists i, attempt_at h call a p i
  | Assessed id p v => (exists i t e, h !! i = Some (Begin_assessment call id p t e)) /\
      (iv_role v = None \/ has_verified h id v)
  | Validating g id op => asked_validation h call g id op /\
      exists s, au_grants (authority_of h) !! g = Some s /\ gs_tradingAccountId s = id /\ gs_operation s = op
  end.

(** The state of a process is accounted for by its history. *)
Record sound (h : list Activity) : Prop := {
  sd_cache : forall id v, au_assessmentCache (authority_of h) !! id = Some v -> has_verified h id v;
  sd_grants : forall g s, au_grants (authority_of h) !! g = Some s -> g < au_nextGrant (authority_of h) /\ exists v k, issued_at h g s v k;
  sd_waiting : forall call w, ps_waiting (run h) !! call = Some w -> waiting_sound h call w
}.

Definition grants_kept (au au' : Authority) : Prop :=
  forall g s, au_grants au !! g = Some s -> exists s', au_grants au' !! g = Some s' /\ same_grant s s'.
Lemma grants_same au au' : au_grants au' = au_grants au -> grants_kept au au'.
Proof. intros E g s Hs. exists s. rewrite E. by split. Qed.
Lemma observed_kept au au' : observed_only au au' -> grants_kept au au'.
Proof.
  intros (_ & _ & _ & _ & _ & Hg) g s Hs. specialize (Hg g). rewrite Hs in Hg.
  destruct (au_grants au' !! g) as [s'|]; [by exists s'|done].
Qed.

Lemma waiting_snoc h x call w : grants_kept (authority_of h) (authority_of (h ++ [x])%list) ->
  waiting_sound h call w -> waiting_sound (h ++ [x])%list call w.
Proof.
  intros Hk. destruct w as [a p|id p v|g id op]; cbn.
  - intros (i & Ha). exists i. by apply attempt_at_snoc.
  - intros ((i & t & e & Hi) & Hv). split; [exists i, t, e; by apply lookup_snoc_of|].
    destruct Hv as [Hv|Hv]; [by left|right; by apply has_verified_snoc].
  - intros (Ha & s & Hs & E1 & E2). split; [by apply asked_validation_snoc|].
    destruct (Hk g s Hs) as (s' & Hs' & wall & expired & ->). eexists. by split.
Qed.

(** A step is sound if what is new in it is. *)
Lemma sound_intro h x : sound h ->
  let au := authority_of h in let au' := authority_of (h ++ [x])%list in
  (forall id v, au_assessmentCache au' !! id = Some v ->
     au_assessmentCache au !! id = Some v \/ has_verified (h ++ [x])%list id v) ->
  au_nextGrant au <= au_nextGrant au' ->
  (forall g s', au_grants au' !! g = Some s' ->
     (exists s, au_grants au !! g = Some s /\ same_grant s s') \/
     g < au_nextGrant au' /\ exists v k, issued_at (h ++ [x])%list g s' v k) ->
  grants_kept au au' ->
  (forall call w, ps_waiting (run (h ++ [x])%list) !! call = Some w ->
     ps_waiting (run h) !! call = Some w \/ waiting_sound (h ++ [x])%list call w) ->
  sound (h ++ [x])%list.
Proof.
  intros [Sc Sg Sw] au au' Hc Hn Hg Hk Hw. split.
  - intros id v Hv. destruct (Hc id v Hv) as [Hv'|]; [|done]. by apply has_verified_snoc, Sc.
  - intros g s' Hs'. destruct (Hg g s' Hs') as [(s & Hs & Hsame)|]; [|done]. destruct (Sg g s Hs) as (Hlt & v & k & Hi).
    split; [unfold au, au' in *; lia|]. exists v, k. apply issued_snoc. by apply (issued_observed h g s).
  - intros call w Hcw. destruct (Hw call w Hcw) as [Hcw'|]; [|done]. by apply waiting_snoc, Sw.
Qed.

(** A step that observes grants and does nothing else to the state. *)
Lemma sound_observed h x : sound h -> observed_only (authority_of h) (authority_of (h ++ [x])%list) ->
  (forall call w, ps_waiting (run (h ++ [x])%list) !! call = Some w ->
     ps_waiting (run h) !! call = Some w \/ waiting_sound (h ++ [x])%list call w) ->
  sound (h ++ [x])%list.
Proof.
  intros S Ho Hw. pose proof Ho as (En & Ec & _ & _ & _ & Hg). apply sound_intro; try done.
  - intros id v. rewrite Ec. by left.
  - lia.
  - intros g s' Hs'. specialize (Hg g). rewrite Hs' in Hg. destruct (au_grants (authority_of h) !! g) as [s|]; [|done].
    left. by exists s.
  - by apply observed_kept.
Qed.

Lemma snoc_at (h : list Activity) x : (h ++ [x])%list !! length h = Some x.
Proof. by rewrite lookup_app_r, Nat.sub_diag. Qed.
Lemma take_at (h : list Activity) x : take (length h) (h ++ [x])%list = h.
Proof. by rewrite take_app_length. Qed.

Lemma step_state h x : authority_of (h ++ [x])%list = ps_authority (snd (perform x (run h))).
Proof. unfold authority_of. by rewrite run_snoc. Qed.

(** What a step leaves waiting. *)
Lemma call_waits_or call w au s c w' : ps_waiting (snd (call_waits call w au s)) !! c = Some w' ->
  ps_waiting s !! c = Some w' \/ c = call /\ w' = w.
Proof. cbn. intros [[<- <-]|[_ Hc]]%lookup_insert_Some; auto. Qed.
Lemma call_answers_or call r au s c w' : ps_waiting (snd (call_answers call r au s)) !! c = Some w' -> ps_waiting s !! c = Some w'.
Proof. cbn. by intros [_ Hc]%lookup_delete_Some. Qed.

Lemma begin_attempted h call id p t e a au' :
  assess_begin id (purpose_force p) t e (authority_of h) = (inr a, au') ->
  attempt_at (h ++ [Begin_assessment call id p t e])%list call a p (length h).
Proof.
  intros E. pose proof (begin_effect id (purpose_force p) t e (authority_of h)) as Hb. rewrite E in Hb.
  destruct Hb as (_ & _ & _ & _ & _ & ->). unfold attempt_at. cbn. by rewrite snoc_at, take_at.
Qed.

Lemma sound_begin h call id p t e : sound h -> sound (h ++ [Begin_assessment call id p t e])%list.
Proof.
  intros S. set (x := Begin_assessment call id p t e).
  assert (Hp : snd (perform x (run h)) = snd (call_answers call (Grant None) (authority_of h) (run h)) \/
    snd (perform x (run h)) = let '(r, au) := assess_begin id (purpose_force p) t e (authority_of h) in
      snd (call_waits call (match r with inl v => Assessed id p v | inr a => Assessing a p end) au (run h))).
  { cbn. destruct p as [force|op ttl]; [|destruct (ttl_invalid ttl); [by left|]]; right;
      by destruct (assess_begin _ _ _ _ _) as [[v|a] au]. }
  destruct Hp as [Hp|Hp].
  - apply sound_observed; [done| |].
    + rewrite step_state, Hp. apply observed_only_refl.
    + intros c w. rewrite run_snoc, Hp. intros Hc. left. by apply call_answers_or in Hc.
  - pose proof (begin_effect id (purpose_force p) t e (authority_of h)) as Hb.
    destruct (assess_begin id (purpose_force p) t e (authority_of h)) as [r au'] eqn:E.
    destruct Hb as (_ & Eg & En & Ec & _ & Hr). apply sound_intro; [done|rewrite ?step_state, ?run_snoc, ?Hp; cbn..].
    + intros i v. rewrite Ec. by left.
    + rewrite En. lia.
    + intros g s'. rewrite Eg. left. by exists s'.
    + by apply grants_same.
    + intros c w Hc. apply lookup_insert_Some in Hc as [[<- <-]|[_ Hc]]; [right|by left]. destruct r as [v|a].
      * destruct Hr as [_ Hv]. cbn. split; [exists (length h), t, e; apply snoc_at|]. right.
        apply has_verified_snoc. by apply (sd_cache h S).
      * cbn. exists (length h). by apply begin_attempted with au'.
Qed.

Lemma sound_end h call reads config obs t e : sound h -> sound (h ++ [End_assessment call reads config obs t e])%list.
Proof.
  intros S. set (x := End_assessment call reads config obs t e).
  assert (Hidle : forall r au, snd (perform x (run h)) = snd (r, run h) \/ snd (perform x (run h)) = snd (call_answers call r au (run h)) /\ au = authority_of h ->
    sound (h ++ [x])%list).
  { intros r au Hp. apply sound_observed; [done| |].
    - rewrite step_state. destruct Hp as [->|[-> ->]]; apply observed_only_refl.
    - intros c w. rewrite run_snoc. destruct Hp as [->|[-> _]]; [by left|]. intros Hc. left. by apply call_answers_or in Hc. }
  destruct (ps_waiting (run h) !! call) as [[a p| |]|] eqn:Ew;
    [|apply (Hidle Rejects (authority_of h)); left; cbn; by rewrite Ew..].
  destruct reads as [[l k]|]; [|apply (Hidle Rejects (authority_of h)); right; split; [cbn; by rewrite Ew|done]].
  pose proof (sd_waiting h S call _ Ew) as (i & Ha). set (id := at_tradingAccountId a) in *.
  pose proof (end_effect a (readAccountEvidence id l k) config obs t e (authority_of h)) as He.
  assert (Hp : snd (perform x (run h)) = let '(v, au) := assess_end a (readAccountEvidence id l k) config obs t e (authority_of h) in
    snd (call_waits call (Assessed id p v) au (run h))).
  { cbn. rewrite Ew. fold id. unfold authority_of. by destruct (assess_end _ _ _ _ _ _ _). }
  destruct (assess_end _ _ _ _ _ _ _) as [v au'] eqn:E. destruct He as (_ & Eg & En & Hj). fold id in Hj.
  assert (Hver : forall asmt role, judge id (readAccountEvidence id l k) config obs (at_startedAtMs a) = Verified asmt role ->
    v = attempt_verdict a asmt role -> has_verified (h ++ [x])%list id v).
  { intros asmt role Ej Ev. exists i, (length h), call, a, p, l, k, config, obs, t, e, asmt, role.
    split; [done|]. split; [by apply (lookup_lt_Some h i _ (proj1 Ha))|]. split; [by apply attempt_at_snoc|].
    split; [apply snoc_at|done]. }
  apply sound_intro; [done|rewrite ?step_state, ?run_snoc, ?Hp; cbn..].
  - intros b w Hw. destruct (judge _ _ _ _ _) as [asmt role|asmt] eqn:Ej.
    + destruct Hj as (Ev & _ & Hc). destruct (Hc b w Hw) as [|[-> ->]]; [by left|]. right. by apply Hver with asmt role.
    + left. by apply Hj.
  - rewrite En. lia.
  - intros g s'. rewrite Eg. left. by exists s'.
  - by apply grants_same.
  - intros c w Hc. apply lookup_insert_Some in Hc as [[<- <-]|[_ Hc]]; [right|by left]. split.
    + destruct Ha as (Hi & _). eexists i, _, _. apply lookup_snoc_of. exact Hi.
    + destruct (judge _ _ _ _ _) as [asmt role|asmt] eqn:Ej; [right|left; by destruct Hj].
      destruct Hj as (Ev & _). by apply Hver with asmt role.
Qed.

Lemma sound_idle h x : sound h -> snd (perform x (run h)) = run h -> sound (h ++ [x])%list.
Proof.
  intros S Hp. apply sound_observed; [done|rewrite step_state, Hp; apply observed_only_refl|].
  intros c w. rewrite run_snoc, Hp. by left.
Qed.
Lemma sound_answered h x call r au : sound h -> observed_only (authority_of h) au ->
  snd (perform x (run h)) = snd (call_answers call r au (run h)) -> sound (h ++ [x])%list.
Proof.
  intros S Ho Hp. apply sound_observed; [done|by rewrite step_state, Hp|].
  intros c w. rewrite run_snoc, Hp. intros Hc. left. by apply call_answers_or in Hc.
Qed.

Lemma sound_take h call t e : sound h -> sound (h ++ [Take_verdict call t e])%list.
Proof.
  intros S. set (x := Take_verdict call t e).
  destruct (ps_waiting (run h) !! call) as [[|id [force|op ttl] v|]|] eqn:Ew;
    [apply sound_idle; [done|]; cbn; by rewrite Ew| | |apply sound_idle; [done|]; cbn; by rewrite Ew..].
  { apply (sound_answered h x call (Assessment (iv_assessment v)) (authority_of h)); [done|apply observed_only_refl|].
    cbn. by rewrite Ew. }
  pose proof (sd_waiting h S call _ Ew) as ((i & t0 & e0 & Hi) & Hv). cbn in Hv.
  pose proof (issue_effect id op ttl v t e (authority_of h)) as He.
  assert (Hp : snd (perform x (run h)) = let '(g, au) := issue_end id op ttl v t e (authority_of h) in
    snd (call_answers call (Grant g) au (run h))).
  { cbn. rewrite Ew. unfold authority_of. by destruct (issue_end _ _ _ _ _ _ _). }
  destruct (issue_end id op ttl v t e (authority_of h)) as [g au'] eqn:E. destruct He as (_ & Ec & _ & Hg).
  destruct g as [g|]; [|subst; by apply (sound_answered h x call (Grant None) (authority_of h)), Hp; [|apply observed_only_refl]].
  destruct Hg as (Hg & En & s & Egs).
  assert (Hfresh : au_grants (authority_of h) !! g = None).
  { destruct (au_grants (authority_of h) !! g) as [s'|] eqn:Es; [|done]. destruct (sd_grants h S g s' Es) as [Hlt _]. lia. }
  assert (Hver : has_verified h id v).
  { destruct Hv as [Hv|Hv]; [|done]. unfold issue_end in E. by rewrite Hv in E. }
  apply sound_intro; [done|rewrite ?step_state, ?run_snoc, ?Hp; cbn..].
  - intros b w. rewrite Ec. by left.
  - lia.
  - intros g' s'. rewrite Egs. intros [[<- <-]|[_ Hs']]%lookup_insert_Some; [right|left; by exists s'].
    split; [lia|]. exists v, (length h), call, id, op, ttl, t, e, s.
    split; [apply snoc_at|]. rewrite take_at, E. cbn [fst snd]. rewrite Egs, lookup_insert_eq.
    split; [unfold answer; cbn; rewrite Ew; fold (authority_of h); by rewrite E|].
    repeat split; try done. by exists i, t0, e0.
  - intros g' s'. rewrite Egs. intros Hs'. exists s'. split; [|done]. rewrite lookup_insert_ne; [done|]. congruence.
  - intros c w Hc. apply lookup_delete_Some in Hc as [_ Hc]. by left.
Qed.

Lemma validation_goes_on g id op t e au au' : validate_begin g id op t e au = (true, au') ->
  exists s, au_grants au' !! g = Some s /\ gs_tradingAccountId s = id /\ gs_operation s = op.
Proof.
  unfold validate_begin. destruct (au_grants au !! g) as [s|]; [|done].
  destruct (_ || _) eqn:E; [done|]. reflect_checks. unfold grantTimeIsValid. cbv zeta. intros [= _ <-].
  cbn. rewrite lookup_insert_eq. eexists. split; [done|]. cbn. split; [lia|done].
Qed.

Lemma sound_validation h call g id op t e : sound h -> sound (h ++ [Begin_validation call g id op t e])%list.
Proof.
  intros S. set (x := Begin_validation call g id op t e). pose proof (validate_begin_observed g id op t e (authority_of h)) as Ho.
  destruct (validate_begin g id op t e (authority_of h)) as [[|] au'] eqn:E; cbn [snd] in Ho.
  - assert (Hp : snd (perform x (run h)) = snd (call_waits call (Validating g id op) au' (run h))).
    { cbn. unfold authority_of in E. by rewrite E. }
    apply sound_observed; [done|by rewrite step_state, Hp|]. intros c w. rewrite run_snoc, Hp.
    intros [Hc|[-> ->]]%call_waits_or; [by left|right]. split.
    + exists (length h), t, e. apply snoc_at.
    + rewrite step_state, Hp. by apply validation_goes_on in E.
  - apply (sound_answered h x call (Valid false) au'); try done. cbn. unfold authority_of in E. by rewrite E.
Qed.

Lemma sound_validated h call reads t e : sound h -> sound (h ++ [End_validation call reads t e])%list.
Proof.
  intros S. set (x := End_validation call reads t e).
  destruct (ps_waiting (run h) !! call) as [[| |g id op]|] eqn:Ew;
    [apply sound_idle; [done|]; cbn; by rewrite Ew..| |apply sound_idle; [done|]; cbn; by rewrite Ew].
  pose proof (validate_end_observed g id op reads t e (authority_of h)) as Ho.
  destruct (validate_end g id op reads t e (authority_of h)) as [b au'] eqn:E.
  apply (sound_answered h x call (Valid b) au'); try done. cbn. unfold authority_of in E. by rewrite Ew, E.
Qed.

Lemma sound_invalidate h id : sound h -> sound (h ++ [Invalidate id])%list.
Proof.
  intros S. apply sound_intro; [done|rewrite ?step_state, ?run_snoc; cbn..].
  - intros b v. destruct id as [a|]; cbn; [intros [_ Hv]%lookup_delete_Some; by left|done].
  - by destruct id.
  - intros g s'. destruct id; left; by exists s'.
  - apply grants_same. by destruct id.
  - by left.
Qed.

(** Every history accounts for the state it leads to. *)
Lemma history_sound h : sound h.
Proof.
  induction h as [|x h IH] using rev_ind; [by split|].
  destruct x; [by apply sound_begin|by apply sound_end|by apply sound_take|by apply sound_validation
    |by apply sound_validated|by apply sound_invalidate].
Qed.

(** * Revocation *)

Lemma step_grows x h : grows (authority_of h) (authority_of (h ++ [x])%list).
Proof.
  rewrite step_state. unfold authority_of. destruct x as [call id p t e|call reads config obs t e|call t e|call g id op t e|call reads t e|id]; cbn.
  - pose proof (begin_effect id (purpose_force p) t e (ps_authority (run h))) as Hb.
    destruct p as [force|op ttl]; [|destruct (ttl_invalid ttl); [done|]];
      destruct (assess_begin _ _ _ _ _) as [[v|a] au']; apply Hb.
  - destruct (ps_waiting (run h) !! call) as [[a p| |]|]; try done. destruct reads as [[l k]|]; [|done].
    pose proof (end_effect a (readAccountEvidence (at_tradingAccountId a) l k) config obs t e (ps_authority (run h))) as He.
    destruct (assess_end _ _ _ _ _ _ _) as [v au']. apply He.
  - destruct (ps_waiting (run h) !! call) as [[|id [force|op ttl] v|]|]; try done.
    pose proof (issue_effect id op ttl v t e (ps_authority (run h))) as He. destruct (issue_end _ _ _ _ _ _ _). apply He.
  - pose proof (validate_begin_observed g id op t e (ps_authority (run h))) as Ho%observed_grows.
    destruct (validate_begin _ _ _ _ _ _) as [[|] au']; apply Ho.
  - destruct (ps_waiting (run h) !! call) as [[| |g id op]|]; try done.
    pose proof (validate_end_observed g id op reads t e (ps_authority (run h))) as Ho%observed_grows.
    destruct (validate_end _ _ _ _ _ _ _) as [b au']; apply Ho.
  - apply invalidate_grows.
Qed.

Lemma history_grows h k : grows (authority_of h) (authority_of (h ++ k)%list).
Proof.
  induction k as [|x k IH] using rev_ind; [by rewrite app_nil_r|]. rewrite app_assoc.
  etransitivity; [exact IH|apply step_grows].
Qed.
Lemma prefix_grows h i j : (i <= j)%nat -> grows (authority_of (take i h)) (authority_of (take j h)).
Proof.
  intros Hij. replace (take j h) with (take i h ++ take (j - i) (drop i h))%list; [apply history_grows|].
  rewrite take_take_drop. f_equal. lia.
Qed.

(** An activity revokes an account's authority: it invalidates the account or
    everything, or refuses an assessment of the account. *)
Definition revokes (h : list Activity) (x : Activity) (id : Z) : Prop :=
  match x with
  | Invalidate None => True
  | Invalidate (Some a) => a = id
  | End_assessment call (Some (accounts, others)) config observed _ _ =>
      exists a p asmt, ps_waiting (run h) !! call = Some (Assessing a p) /\ at_tradingAccountId a = id /\
        judge id (readAccountEvidence id accounts others) config observed (at_startedAtMs a) = Refused asmt
  | _ => False
  end.

Lemma has_verified_role h id v : has_verified h id v -> iv_role v <> None.
Proof. by intros (i & j & call & a & p & l & k & c & o & t & e & asmt & role & _ & _ & _ & _ & _ & ->). Qed.

Lemma revokes_grows h x id : revokes h x id -> generations id (authority_of h) < generations id (authority_of (h ++ [x])%list).
Proof.
  rewrite step_state. unfold authority_of. destruct x as [|call reads config obs t e| | | |[a|]]; cbn; try done.
  - destruct reads as [[l k]|]; [|done]. intros (a & p & asmt & Ew & Ea & Ej). rewrite Ew, Ea.
    pose proof (end_effect a (readAccountEvidence id l k) config obs t e (ps_authority (run h))) as He.
    destruct (assess_end _ _ _ _ _ _ _) as [v au']. rewrite Ea, Ej in He. apply He.
    intros w Hw. by apply (has_verified_role h id), (sd_cache h (history_sound h)).
  - intros ->. unfold generations. rewrite invalidate_generation, decide_True by done. cbn. lia.
  - intros _. unfold generations, generationFor. cbn. lia.
Qed.

(** Generations that are the same at [i] and now were not revoked since. *)
Lemma unrevoked h i id : (i <= length h)%nat -> generations id (authority_of (take i h)) = generations id (authority_of h) ->
  forall m x, (i <= m)%nat -> h !! m = Some x -> ~ revokes (take m h) x id.
Proof.
  intros Hi E m x Hm Hx Hr%revokes_grows. rewrite <- (take_S_r _ _ _ Hx) in Hr.
  pose proof (grows_generations id _ _ (prefix_grows h i m Hm)).
  pose proof (lookup_lt_Some _ _ _ Hx).
  pose proof (grows_generations id _ _ (prefix_grows h (S m) (length h) ltac:(lia))) as Hend. rewrite firstn_all in Hend. lia.
Qed.

(** * What an issue and a validation establish *)

Lemma fresh_window v t e : assessmentTimingIsFresh v t e = true ->
  exists t0 e0 t1, iv_verificationStartedAtMs v = Some t0 /\ iv_verificationStartedElapsedMs v = Some e0 /\
    iv_expiresAtMs v = Some t1 /\ t0 <= t < t1 /\ (e0 <= e)%Q /\ (e - e0 < ms MAX_GRANT_TTL_MS)%Q.
Proof.
  unfold assessmentTimingIsFresh. destruct (iv_verificationStartedAtMs v) as [t0|], (iv_verificationStartedElapsedMs v) as [e0|],
    (iv_expiresAtMs v) as [t1|]; try done. intros E. reflect_checks.
  match goal with E1 : Qle_bool _ _ = true, E2 : Qltb _ _ = true |- _ => apply Qle_bool_iff in E1; apply Qltb_spec in E2 end.
  exists t0, e0, t1. repeat split; try done; try lia; lra.
Qed.

(** What issuing a grant checked of the verdict, and wrote into the grant. *)
Record issue_checks (id : Z) (op : LifecycleAuthorityOperation) (v : InternalVerdict) (t : Z) (e : Q) (au : Authority)
    (s : GrantState) : Prop := {
  ic_grant : gs_tradingAccountId s = id /\ gs_operation s = op /\ gs_issuedAtMs s = t /\ gs_issuedElapsedMs s = e;
  ic_role : iv_role v = Some (gs_role s);
  ic_broker : iv_brokerAccountId v = Some (gs_brokerAccountId s);
  ic_fingerprint : iv_credentialFingerprint v = Some (gs_credentialFingerprint s);
  ic_revision : iv_configurationRevision v = Some (gs_configurationRevision s);
  ic_allowed : policyAllows (gs_role s) op = true;
  ic_generations : iv_accountGeneration v = generationFor id au /\ iv_globalGeneration v = au_globalGeneration au /\
    gs_accountGeneration s = iv_accountGeneration v /\ gs_globalGeneration s = iv_globalGeneration v;
  ic_latest : latest_attempt v id au = true;
  ic_fresh : assessmentTimingIsFresh v t e = true;
  ic_expires : forall e0 t1, iv_verificationStartedElapsedMs v = Some e0 -> iv_expiresAtMs v = Some t1 ->
    (gs_expiresAfterMs s <= ms MAX_GRANT_TTL_MS - (e - e0))%Q /\ (gs_expiresAtMs s <= ms t1)%Q
}.

Lemma issue_sound id op ttl v t e au g s : fst (issue_end id op ttl v t e au) = Some g ->
  au_grants (snd (issue_end id op ttl v t e au)) !! g = Some s -> issue_checks id op v t e au s.
Proof.
  unfold issue_end. destruct (iv_role v) eqn:Er, (iv_verificationStartedElapsedMs v) eqn:Ee, (iv_expiresAtMs v) eqn:Ex,
    (truthy_string (iv_brokerAccountId v)) eqn:Eb, (truthy_string (iv_credentialFingerprint v)) eqn:Ef,
    (truthy_string (iv_configurationRevision v)) eqn:Ev; try done.
  cbv zeta. match goal with |- context [if ?c then (None, au) else if ?d then _ else _] => destruct c eqn:Ec; [done|]; destruct d; [done|] end.
  cbn [fst snd au_grants]. intros [= <-]. rewrite lookup_insert_eq. intros [= <-]. reflect_checks.
  match goal with E : current_generations _ _ _ = true |- _ => unfold current_generations in E; reflect_checks end.
  split; cbn; try done; try (repeat split; try done; lia).
  rewrite Ee, Ex. intros e0 t1 [= <-] [= <-].
  match goal with |- (Qmin_of (Qmin_of ?a ?b) ?c <= _)%Q /\ (Qmin_of ?d ?f <= _)%Q =>
    pose proof (Qmin_below a b); pose proof (Qmin_below (Qmin_of a b) c); pose proof (Qmin_below d f) end.
  split; lra.
Qed.

Lemma in_time_window s t e : grant_in_time s t e = true ->
  gs_issuedAtMs s <= t /\ (ms t < gs_expiresAtMs s)%Q /\ (gs_issuedElapsedMs s <= e)%Q /\
  (e - gs_issuedElapsedMs s < gs_expiresAfterMs s)%Q.
Proof.
  unfold grant_in_time. cbv zeta. intros E. reflect_checks.
  repeat match goal with
  | E : Qle_bool _ _ = false |- _ => apply Qleb_false in E
  | E : Qltb _ _ = false |- _ => unfold Qltb in E; apply negb_false_iff, Qle_bool_iff in E
  end. repeat split; try done; try lia; lra.
Qed.

(** The evidence a validation accepts. *)
Lemma evidenced_owned s op evidence : grant_evidenced s op evidence = true ->
  exists account declaration,
    owned evidence account declaration (gs_role s) (gs_brokerAccountId s) (gs_credentialFingerprint s) /\
    aa_environment account = "PAPER" /\ policyAllows (gs_role s) op = true /\
    configurationRevision account declaration = gs_configurationRevision s.
Proof.
  unfold grant_evidenced. destruct (fst evidence) as [account|] eqn:Ea; [|done].
  destruct (declarations_of (aa_id account)) as [|d [|d' l]] eqn:Ed; rewrite ?andb_false_r; try done.
  destruct (aa_credential account) as [c|] eqn:Ec; rewrite ?andb_false_r; [|done]. intros E. reflect_checks.
  match goal with E : po_role d = _ |- _ => rewrite <- E in * end.
  exists account, d. split; [|done]. split; try done. by exists c.
Qed.

Lemma validated_facts h call reads t e : answer (End_validation call reads t e) h = Valid true ->
  exists g id op s accounts others, asked_validation h call g id op /\
    au_grants (authority_of h) !! g = Some s /\ gs_tradingAccountId s = id /\ gs_operation s = op /\
    reads = Some (accounts, others) /\ grant_evidenced s op (readAccountEvidence id accounts others) = true /\
    grant_in_time s t e = true /\ grant_generations s id (authority_of h) = true.
Proof.
  unfold answer. cbn. destruct (ps_waiting (run h) !! call) as [[| |g id op]|] eqn:Ew; try done.
  pose proof (sd_waiting h (history_sound h) call _ Ew) as (Ha & s & Hs & E1 & E2).
  unfold validate_end. fold (authority_of h). rewrite Hs. destruct reads as [[l k]|]; [|done].
  destruct (grant_evidenced s op (readAccountEvidence id l k)) eqn:Ee; [|done]. cbn. intros [= E]. reflect_checks.
  exists g, id, op, s, l, k. repeat split; done.
Qed.

(** * Grants *)

(** Where a grant comes from: an assessment of the account that began at [i] and
    was verified at [j] under the contract, the only one begun before the grant
    was issued at [k], for an operation the role allows. *)
Record authorization (h : list Activity) (g id : Z) (op : LifecycleAuthorityOperation) (i j k : nat)
    (role b fingerprint : string) (t0 : Z) (e0 : Q) (account : AuthorityAccount) (declaration : PaperOwnership) : Prop := {
  az_order : (i < j < k)%nat;
  az_verified : exists call p accounts others config obs t e,
    h !! i = Some (Begin_assessment call id p t0 e0) /\
    h !! j = Some (End_assessment call (Some (accounts, others)) config obs t e) /\
    verified_contract (readAccountEvidence id accounts others) config obs account declaration role b fingerprint;
  az_issued : exists call ttl t e, asked_grant (take k h) call id op ttl /\ h !! k = Some (Take_verdict call t e) /\
    answer (Take_verdict call t e) (take k h) = Grant (Some g);
  az_latest : attemptsOf id (authority_of (take k h)) = attemptsOf id (authority_of (take i h)) + 1;
  az_allowed : policyAllows role op = true
}.

(** The windows of a grant lie within its verification's. *)
Lemma issued_authorization h g s v k : issued_at h g s v k ->
  exists i j role b fingerprint t0 e0 account declaration,
    authorization h g (gs_tradingAccountId s) (gs_operation s) i j k role b fingerprint t0 e0 account declaration /\
    gs_role s = role /\ gs_brokerAccountId s = b /\ gs_credentialFingerprint s = fingerprint /\
    gs_configurationRevision s = configurationRevision account declaration /\
    gs_accountGeneration s = generationFor (gs_tradingAccountId s) (authority_of (take i h)) /\
    gs_globalGeneration s = au_globalGeneration (authority_of (take i h)) /\
    (forall t e, grant_in_time s t e = true ->
       t0 <= t < t0 + MAX_GRANT_TTL_MS /\ (e0 <= e)%Q /\ (e < e0 + ms MAX_GRANT_TTL_MS)%Q).
Proof.
  intros (call & id & op & ttl & t & e & s0 & Hk & Hans & Hask & (i & j & Hv) & Hi & Hg & wall & expired & ->).
  pose proof (issue_sound _ _ _ _ _ _ _ _ _ Hi Hg) as [(<- & <- & It & Ie) Ir Ib If Iv Ia (G1 & G2 & G3 & G4) Il Ifr Ix].
  destruct Hv as (c0 & a & p & l & k0 & config & obs & t1 & e1 & asmt & role & Eid & Hij & (Hb & A1 & A2 & A3) & Hj & Ej & ->).
  destruct (judge_sound _ _ _ _ _ _ _ Ej) as (account & d & b & f & Hc & ->). pose proof Hc as [[]].
  pose proof (lookup_lt_Some _ _ _ Hj) as Hjk. rewrite length_take in Hjk.
  rewrite take_take, Nat.min_l in A1, A2, A3 by lia. rewrite Eid in *.
  rewrite lookup_take_lt in Hb, Hj by lia.
  cbn in Ir, Ib, If, Iv, G1, G2, G3, G4. injection Ir as Ir. injection Ib as Ib. injection Iv as Iv.
  assert (Hf : gs_credentialFingerprint s0 = f).
  { destruct ow_credential0 as (c & Ec & _ & _ & _ & Ek). unfold fingerprint_of in If. rewrite Ec in If. cbn in If. congruence. }
  exists i, j, role, b, f, (at_startedAtMs a), (at_startedElapsedMs a), account, d.
  cbn [gs_tradingAccountId gs_operation gs_role gs_brokerAccountId gs_credentialFingerprint gs_configurationRevision
    gs_accountGeneration gs_globalGeneration].
  split; [|do 6 (split; [congruence|])].
  - split; [lia|by exists c0, p, l, k0, config, obs, t1, e1|by exists call, ttl, t, e| |congruence].
    unfold latest_attempt in Il. cbn in Il. apply bool_decide_eq_true in Il. unfold attemptsOf at 1. rewrite Il. exact A3.
  - intros t' e' (W1 & W2 & W3 & W4)%in_time_window. cbn in W1, W2, W3, W4.
    destruct (fresh_window _ _ _ Ifr) as (x0 & y0 & z0 & Ex & Ey & Ez & F1 & F2 & F3). cbn in Ex, Ey, Ez.
    destruct (Ix _ _ Ey Ez) as [X1 X2]. injection Ex as <-. injection Ey as <-. injection Ez as <-.
    rewrite It in W1. rewrite Ie in W3, W4. split; [|split; lra].
    split; [lia|]. apply ms_lt. lra.
Qed.

(** A validation's window on the clocks. *)
Definition within_verification (t0 : Z) (e0 : Q) (t : Z) (e : Q) : Prop :=
  t0 <= t < t0 + MAX_GRANT_TTL_MS /\ (e0 <= e)%Q /\ (e < e0 + ms MAX_GRANT_TTL_MS)%Q.

Lemma validation_authorized h call reads t e : answer (End_validation call reads t e) h = Valid true ->
  exists g id op i j k role b fingerprint t0 e0 account declaration,
    asked_validation h call g id op /\
    authorization h g id op i j k role b fingerprint t0 e0 account declaration /\
    within_verification t0 e0 t e /\
    (forall m x, (i <= m)%nat -> h !! m = Some x -> ~ revokes (take m h) x id) /\
    exists accounts others account' declaration', reads = Some (accounts, others) /\
      owned (readAccountEvidence id accounts others) account' declaration' role b fingerprint /\
      aa_environment account' = "PAPER" /\
      configurationRevision account' declaration' = configurationRevision account declaration.
Proof.
  intros (g & id & op & s & l & k0 & Hask & Hs & E1 & E2 & -> & Hev & Htime & Hgen)%validated_facts.
  destruct (sd_grants h (history_sound h) g s Hs) as (_ & v & k & Hiss).
  destruct (issued_authorization h g s v k Hiss) as (i & j & role & b & f & t0 & e0 & account & d & Haz & Er & Eb & Ef & Erev & G1 & G2 & Hw).
  rewrite E1, E2 in *. destruct (evidenced_owned s op _ Hev) as (account' & d' & Ho & Henv & _ & Hrev).
  exists g, id, op, i, j, k, role, b, f, t0, e0, account, d.
  split; [done|]. split; [done|]. split; [by apply Hw|]. split.
  - destruct (az_verified _ _ _ _ _ _ _ _ _ _ _ _ _ _ Haz) as (c0 & p & ? & ? & ? & ? & ? & ? & Hi & _).
    apply unrevoked; [apply lookup_lt_Some in Hi; lia|]. unfold grant_generations in Hgen. reflect_checks.
    unfold generations. lia.
  - exists l, k0, account', d'. rewrite <- Er, <- Eb, <- Ef. split; [done|]. split; [done|]. split; [done|]. congruence.
Qed.

(** * Dead grants *)

(** A validation began outside the grant's time, or the account's authority was
    revoked after it was issued. *)
Inductive dead (h : list Activity) (g : Z) : Prop :=
| dead_observed h1 h2 call t e s :
    h = (h1 ++ Begin_validation call g (gs_tradingAccountId s) (gs_operation s) t e :: h2)%list ->
    au_grants (authority_of h1) !! g = Some s -> grant_in_time s t e = false -> dead h g
| dead_revoked h1 h2 x s :
    h = (h1 ++ x :: h2)%list -> au_grants (authority_of h1) !! g = Some s -> revokes h1 x (gs_tradingAccountId s) -> dead h g.

Lemma step_kept h x : grants_kept (authority_of h) (authority_of (h ++ [x])%list).
Proof.
  rewrite step_state. unfold authority_of. destruct x as [call id p t e|call reads config obs t e|call t e|call g id op t e|call reads t e|id]; cbn.
  - pose proof (begin_effect id (purpose_force p) t e (ps_authority (run h))) as Hb.
    destruct p as [force|op ttl]; [|destruct (ttl_invalid ttl); [by apply grants_same|]];
      destruct (assess_begin _ _ _ _ _) as [[v|a] au']; apply grants_same, Hb.
  - destruct (ps_waiting (run h) !! call) as [[a p| |]|]; try by apply grants_same. destruct reads as [[l k]|]; [|by apply grants_same].
    pose proof (end_effect a (readAccountEvidence (at_tradingAccountId a) l k) config obs t e (ps_authority (run h))) as He.
    destruct (assess_end _ _ _ _ _ _ _) as [v au']. apply grants_same, He.
  - destruct (ps_waiting (run h) !! call) as [[|id [force|op ttl] v|]|]; try by apply grants_same.
    pose proof (issue_effect id op ttl v t e (ps_authority (run h))) as He. destruct (issue_end _ _ _ _ _ _ _) as [[g|] au'].
    + destruct He as (_ & _ & _ & Eg & _ & s & Egs). intros g' s' Hs'. exists s'. split; [|done]. cbn. rewrite Egs.
      rewrite lookup_insert_ne; [done|]. intros <-. destruct (sd_grants h (history_sound h) g s' Hs') as [Hlt _]. unfold authority_of in *. lia.
    + destruct He as (_ & _ & _ & ->). by apply grants_same.
  - pose proof (validate_begin_observed g id op t e (ps_authority (run h))) as Ho%observed_kept.
    destruct (validate_begin _ _ _ _ _ _) as [[|] au']; apply Ho.
  - destruct (ps_waiting (run h) !! call) as [[| |g id op]|]; try by apply grants_same.
    pose proof (validate_end_observed g id op reads t e (ps_authority (run h))) as Ho%observed_kept.
    destruct (validate_end _ _ _ _ _ _ _) as [b au']; apply Ho.
  - destruct id; by apply grants_same.
Qed.

Lemma history_kept h k g s : au_grants (authority_of h) !! g = Some s ->
  exists s', au_grants (authority_of (h ++ k)%list) !! g = Some s' /\ same_grant s s'.
Proof.
  intros Hs. induction k as [|x k IH] using rev_ind; [rewrite app_nil_r; by exists s|].
  destruct IH as (s1 & Hs1 & E1). rewrite app_assoc. destruct (step_kept (h ++ k) x g s1 Hs1) as (s2 & Hs2 & E2).
  exists s2. split; [done|]. by transitivity s1.
Qed.

(** A grant's generations are never ahead of the process's. *)
Lemma grant_behind h g s : au_grants (authority_of h) !! g = Some s ->
  gs_accountGeneration s <= generationFor (gs_tradingAccountId s) (authority_of h) /\
  gs_globalGeneration s <= au_globalGeneration (authority_of h).
Proof.
  intros Hs. destruct (sd_grants h (history_sound h) g s Hs) as (_ & v & k & Hiss).
  destruct (issued_authorization h g s v k Hiss) as (i & j & role & b & f & t0 & e0 & account & d & Haz & _ & _ & _ & _ & -> & -> & _).
  destruct (az_verified _ _ _ _ _ _ _ _ _ _ _ _ _ _ Haz) as (c0 & p & ? & ? & ? & ? & ? & ? & Hi & _).
  apply lookup_lt_Some in Hi. pose proof (prefix_grows h i (length h) ltac:(lia)) as (G & A & _). rewrite firstn_all in G, A.
  split; [apply A|exact G].
Qed.

Lemma dead_state h g : dead h g -> exists s, au_grants (authority_of h) !! g = Some s /\
  (gs_permanentlyExpired s = true \/ grant_generations s (gs_tradingAccountId s) (authority_of h) = false).
Proof.
  intros [h1 h2 call t e s -> Hs Ht|h1 h2 x s -> Hs Hr].
  - assert (Hs1 : exists s1, au_grants (authority_of (h1 ++ [Begin_validation call g (gs_tradingAccountId s) (gs_operation s) t e])%list) !! g
        = Some s1 /\ gs_permanentlyExpired s1 = true).
    { rewrite step_state. cbn. unfold validate_begin. fold (authority_of h1). rewrite Hs.
      destruct (gs_permanentlyExpired s) eqn:Ex; cbn [orb]; [cbn; by exists s|].
      rewrite Z.eqb_refl, bool_decide_eq_true_2 by done. cbn. unfold grantTimeIsValid. rewrite Ht. cbn.
      rewrite lookup_insert_eq. eexists. split; [done|]. cbn. apply orb_true_r. }
    destruct Hs1 as (s1 & Hs1 & Ex). rewrite cons_middle, app_assoc.
    destruct (history_kept _ h2 g s1 Hs1) as (s2 & Hs2 & w & x & ->). eexists. split; [exact Hs2|]. left. cbn. by rewrite Ex.
  - pose proof (grant_behind h1 g s Hs) as [B1 B2]. pose proof (revokes_grows h1 x _ Hr) as Hg.
    rewrite cons_middle, app_assoc.
    destruct (history_kept h1 [x] g s Hs) as (s1 & Hs1 & E1). destruct (history_kept _ h2 g s1 Hs1) as (s2 & Hs2 & E2).
    exists s2. split; [done|]. right. assert (E : same_grant s s2) by by transitivity s1. destruct E as (w & y & ->). cbn.
    pose proof (history_grows (h1 ++ [x]) h2) as (G & A & _). pose proof (step_grows x h1) as (G1 & A1 & _).
    specialize (A (gs_tradingAccountId s)). specialize (A1 (gs_tradingAccountId s)).
    unfold grant_generations, generations in *. cbn. rewrite andb_false_iff, !Z.eqb_neq. lia.
Qed.

Lemma dead_refused h g call id op t e : dead h g -> answer (Begin_validation call g id op t e) h = Valid false.
Proof.
  intros (s & Hs & Hd)%dead_state. unfold answer. cbn. unfold validate_begin. fold (authority_of h). rewrite Hs.
  destruct (gs_permanentlyExpired s) eqn:Ex; [done|]. destruct Hd as [|Hd]; [done|].
  destruct (gs_tradingAccountId s =? id) eqn:Ei; [|done]. destruct (bool_decide (gs_operation s = op)); [|done].
  cbn. assert (gs_tradingAccountId s = id) as <- by lia. unfold grant_generations in *. cbn.
  unfold generationFor in *. cbn. rewrite Hd. by rewrite andb_false_r.
Qed.

(** * Issuing again *)

(** A call that meets no other activity. *)
Lemma begin_uncached id op ttl t e call s : au_assessmentCache (ps_authority s) !! id = None -> ttl_invalid ttl = false ->
  let au := ps_authority s in
  snd (perform (Begin_assessment call id (To_grant op ttl) t e) s) =
  {| ps_authority := snd (nextAssessmentAttempt id au);
     ps_waiting := <[call := Assessing {| at_tradingAccountId := id; at_forceRefresh := false; at_startedAtMs := t;
        at_startedElapsedMs := e; at_sequence := attemptsOf id au + 1; at_accountGeneration := generationFor id au;
        at_globalGeneration := au_globalGeneration au |} (To_grant op ttl)]> (ps_waiting s) |}.
Proof. intros Hc Ht. cbn. rewrite Ht. unfold assess_begin. by rewrite Hc. Qed.

Lemma end_verified a l k config obs t e call p s asmt role : ps_waiting s !! call = Some (Assessing a p) ->
  judge (at_tradingAccountId a) (readAccountEvidence (at_tradingAccountId a) l k) config obs (at_startedAtMs a) = Verified asmt role ->
  let s' := snd (perform (End_assessment call (Some (l, k)) config obs t e) s) in
  ps_waiting s' !! call = Some (Assessed (at_tradingAccountId a) p (attempt_verdict a asmt role)) /\
  au_accountGenerations (ps_authority s') = au_accountGenerations (ps_authority s) /\
  au_assessmentAttemptSequences (ps_authority s') = au_assessmentAttemptSequences (ps_authority s) /\
  au_globalGeneration (ps_authority s') = au_globalGeneration (ps_authority s).
Proof.
  intros Hw Hj. cbn. rewrite Hw. unfold assess_end. rewrite Hj. fold (attempt_verdict a asmt role).
  destruct (_ && _ && _ && _); cbn; by rewrite lookup_insert_eq.
Qed.

Lemma ttl_positive ttl : ttl_invalid ttl = false -> (0 < ttl_ms ttl)%Q.
Proof.
  destruct ttl as [[t|]|]; cbn; try done. intros Ht%Qleb_false. by apply Qmin_above.
Qed.
Lemma fresh_verdict a asmt role t e : la_expiresAt asmt = Some (at_startedAtMs a + MAX_GRANT_TTL_MS) ->
  at_startedAtMs a <= t -> t < at_startedAtMs a + MAX_GRANT_TTL_MS ->
  (at_startedElapsedMs a <= e)%Q -> (e < at_startedElapsedMs a + ms MAX_GRANT_TTL_MS)%Q ->
  assessmentTimingIsFresh (attempt_verdict a asmt role) t e = true.
Proof.
  intros Ex W1 W2 W3 W4. unfold assessmentTimingIsFresh. cbn. rewrite Ex.
  rewrite (proj2 (Qle_bool_iff _ _)) by lra. rewrite (proj2 (Qltb_spec _ _)) by lra. cbn. lia.
Qed.

(** The grant of a verified verdict that is current. *)
Lemma issue_complete a account d role b f id op ttl t e au :
  b <> "" -> f <> "" -> fingerprint_of account = Some f -> po_role d = role ->
  let v := attempt_verdict a (verified_assessment account d b (at_startedAtMs a)) role in
  policyAllows role op = true -> deploymentAllows role = true -> ttl_invalid ttl = false ->
  current_generations v id au = true -> latest_attempt v id au = true ->
  at_startedAtMs a <= t < at_startedAtMs a + MAX_GRANT_TTL_MS ->
  (at_startedElapsedMs a <= e)%Q -> (e < at_startedElapsedMs a + ms MAX_GRANT_TTL_MS)%Q ->
  exists s, issue_end id op ttl v t e au = (Some (au_nextGrant au), snd (issue_end id op ttl v t e au)) /\
    au_grants (snd (issue_end id op ttl v t e au)) !! au_nextGrant au = Some s /\
    gs_tradingAccountId s = id /\ gs_operation s = op /\ gs_role s = role /\ gs_brokerAccountId s = b /\
    gs_credentialFingerprint s = f /\ gs_configurationRevision s = configurationRevision account d /\
    gs_issuedAtMs s = t /\ gs_lastObservedWallMs s = t /\ gs_issuedElapsedMs s = e /\ gs_permanentlyExpired s = false /\
    gs_accountGeneration s = iv_accountGeneration v /\ gs_globalGeneration s = iv_globalGeneration v /\
    (gs_expiresAfterMs s <= ms MAX_GRANT_TTL_MS)%Q /\
    (forall x, (x < ttl_ms ttl)%Q -> (x < at_startedElapsedMs a + ms MAX_GRANT_TTL_MS - e)%Q ->
       (x < ms (at_startedAtMs a + MAX_GRANT_TTL_MS - t))%Q -> (x < gs_expiresAfterMs s)%Q) /\
    (forall x, (x < ms t + gs_expiresAfterMs s)%Q -> (x < ms (at_startedAtMs a + MAX_GRANT_TTL_MS))%Q ->
       (x < gs_expiresAtMs s)%Q).
Proof.
  intros Hb Hf Hfp <- v Hp Hd Ht Hg Hl [W1 W2] W3 W4. unfold issue_end.
  change (iv_role v) with (Some (po_role d)). change (iv_verificationStartedElapsedMs v) with (Some (at_startedElapsedMs a)).
  change (iv_expiresAtMs v) with (Some (at_startedAtMs a + MAX_GRANT_TTL_MS)).
  change (iv_brokerAccountId v) with (Some b). change (iv_credentialFingerprint v) with (fingerprint_of account).
  change (iv_configurationRevision v) with (Some (configurationRevision account d)).
  rewrite Hfp. rewrite !(proj2 (truthy_string_Some (Some _) _)) by (split; [done|]; done || by unfold configurationRevision).
  pose proof (fresh_verdict a (verified_assessment account d b (at_startedAtMs a)) (po_role d) t e eq_refl W1 W2 W3 W4) as Hfr.
  fold v in Hfr. cbv zeta. rewrite Hp, Hd, Hg, Hl, Hfr. cbn [negb orb].
  apply ttl_positive in Ht. pose proof (proj2 (ms_lt 0 (at_startedAtMs a + MAX_GRANT_TTL_MS - t)) ltac:(lia)) as Hw.
  change (ms 0) with 0%Q in Hw. set (m := (ms MAX_GRANT_TTL_MS - (e - at_startedElapsedMs a))%Q).
  set (w := ms (at_startedAtMs a + MAX_GRANT_TTL_MS - t)) in *.
  assert (Hm : (0 < m)%Q) by (unfold m; lra). set (after := Qmin_of (Qmin_of (ttl_ms ttl) m) w).
  assert (Hafter : (0 < after)%Q) by (unfold after; repeat apply Qmin_above; done).
  rewrite !(proj2 (Qleb_false _ _)) by done. cbn [orb fst snd au_grants au_nextGrant].
  eexists. split; [done|]. rewrite lookup_insert_eq. split; [done|]. do 12 (split; [done|]).
  cbn [gs_expiresAfterMs gs_expiresAtMs]. split; [|split].
  - unfold after. pose proof (Qmin_below (ttl_ms ttl) m) as [_ ?]. pose proof (Qmin_below (Qmin_of (ttl_ms ttl) m) w) as [? _].
    unfold m in *. lra.
  - intros x X1 X2 X3. unfold after. repeat apply Qmin_above; try done. unfold m. lra.
  - intros x X1 X2. by apply Qmin_above.
Qed.

Lemma in_time_complete s t e : gs_issuedAtMs s <= t -> gs_lastObservedWallMs s <= t -> (ms t < gs_expiresAtMs s)%Q ->
  (gs_issuedElapsedMs s <= e)%Q -> (e - gs_issuedElapsedMs s < gs_expiresAfterMs s)%Q ->
  (gs_expiresAfterMs s <= ms MAX_GRANT_TTL_MS)%Q -> grant_in_time s t e = true.
Proof.
  intros T1 T2 T3 E1 E2 M. unfold grant_in_time. cbv zeta.
  rewrite (proj2 (Qleb_false _ _)) by done. rewrite (proj2 (Qleb_false (gs_expiresAfterMs s) _)) by done.
  unfold Qltb. rewrite !(proj2 (Qle_bool_iff _ _)) by lra. cbn. lia.
Qed.

Lemma owned_evidenced s op evidence account d role b f : owned evidence account d role b f ->
  aa_environment account = "PAPER" -> gs_role s = role -> gs_brokerAccountId s = b -> gs_credentialFingerprint s = f ->
  policyAllows role op = true -> gs_configurationRevision s = configurationRevision account d ->
  grant_evidenced s op evidence = true.
Proof.
  intros [Ha Hb Hd <- He Hdep Hs Hm (c & Hc & Hst & Hrev & Hver & Hf) Hau] Henv Er Eb Ef Hp Erev.
  unfold grant_evidenced. rewrite Ha, Hd, Hc, Hb, Henv, Er, Eb, Ef, Hdep, Hp, Hst, Hau, Erev, Hs, Hm, He, Hf, Hrev, !String.eqb_refl.
  by rewrite !bool_decide_eq_true_2.
Qed.

Lemma begin_valid call g s t e p : au_grants (ps_authority p) !! g = Some s -> gs_permanentlyExpired s = false ->
  grant_in_time s t e = true -> grant_generations s (gs_tradingAccountId s) (ps_authority p) = true ->
  let p' := snd (perform (Begin_validation call g (gs_tradingAccountId s) (gs_operation s) t e) p) in
  ps_waiting p' !! call = Some (Validating g (gs_tradingAccountId s) (gs_operation s)) /\
  au_grants (ps_authority p') !! g = Some (observed t true s) /\
  forall s' a, grant_generations s' a (ps_authority p') = grant_generations s' a (ps_authority p).
Proof.
  intros Hs Hx Ht Hg. cbn. unfold validate_begin. rewrite Hs, Hx, Z.eqb_refl, bool_decide_eq_true_2 by done. cbn [negb orb].
  unfold grantTimeIsValid. rewrite Ht. cbv zeta.
  change (grant_generations s (gs_tradingAccountId s) (set_grants <[g:=observed t true s]> (ps_authority p)))
    with (grant_generations s (gs_tradingAccountId s) (ps_authority p)). rewrite Hg. cbn.
  by rewrite !lookup_insert_eq.
Qed.

Lemma end_valid call g s l k t e p : ps_waiting p !! call = Some (Validating g (gs_tradingAccountId s) (gs_operation s)) ->
  au_grants (ps_authority p) !! g = Some s -> grant_in_time s t e = true ->
  grant_generations s (gs_tradingAccountId s) (ps_authority p) = true ->
  grant_evidenced s (gs_operation s) (readAccountEvidence (gs_tradingAccountId s) l k) = true ->
  fst (perform (End_validation call (Some (l, k)) t e) p) = Valid true.
Proof.
  intros Hw Hs Ht Hg He. cbn. rewrite Hw. unfold validate_end. rewrite Hs, He. cbn [negb]. unfold grantTimeIsValid.
  rewrite Ht. cbv zeta.
  change (grant_generations s (gs_tradingAccountId s) (set_grants <[g:=observed t true s]> (ps_authority p)))
    with (grant_generations s (gs_tradingAccountId s) (ps_authority p)). by rewrite Hg.
Qed.

(** A span that fits in a grant issued at [t] and [e]: in its requested time, and
    in what is left of its verification on both clocks. *)
Definition lasts (ttl : option GrantTtl) (t0 : Z) (e0 : Q) (t : Z) (e : Q) (x : Q) : Prop :=
  (x < ttl_ms ttl)%Q /\ (x < e0 + ms MAX_GRANT_TTL_MS - e)%Q /\ (x < ms (t0 + MAX_GRANT_TTL_MS - t))%Q.

(** A current verdict is granted, and the grant validated while it lasts. *)
Lemma granted_valid p c w a account d role b f id op ttl l k t2 t3 t4 e2 e3 e4 :
  let v := attempt_verdict a (verified_assessment account d b (at_startedAtMs a)) role in
  ps_waiting p !! c = Some (Assessed id (To_grant op ttl) v) ->
  current_generations v id (ps_authority p) = true -> latest_attempt v id (ps_authority p) = true ->
  b <> "" -> f <> "" -> owned (readAccountEvidence id l k) account d role b f -> aa_environment account = "PAPER" ->
  policyAllows role op = true -> ttl_invalid ttl = false ->
  at_startedAtMs a <= t2 <= t3 /\ t3 <= t4 -> (at_startedElapsedMs a <= e2)%Q /\ (e2 <= e3)%Q /\ (e3 <= e4)%Q ->
  lasts ttl (at_startedAtMs a) (at_startedElapsedMs a) t2 e2 (ms (t4 - t2)) ->
  lasts ttl (at_startedAtMs a) (at_startedElapsedMs a) t2 e2 (e4 - e2) ->
  exists g, let p1 := snd (perform (Take_verdict c t2 e2) p) in
    fst (perform (Take_verdict c t2 e2) p) = Grant (Some g) /\
    fst (perform (End_validation w (Some (l, k)) t4 e4) (snd (perform (Begin_validation w g id op t3 e3) p1))) = Valid true.
Proof.
  intros v Hw Hcur Hlat Hb Hf Ho Hpaper Hp Htl T E L1 L2.
  assert (Hfp : fingerprint_of account = Some f).
  { destruct (ow_credential _ _ _ _ _ _ Ho) as (cr & Ec & _ & _ & _ & Ek). unfold fingerprint_of. by rewrite Ec. }
  destruct L1 as (La1 & La2 & La3), L2 as (Lb1 & Lb2 & Lb3), T as [T1 T2], E as (F1 & F2 & F3).
  assert (La4 : t4 - t2 < at_startedAtMs a + MAX_GRANT_TTL_MS - t2) by by apply ms_lt.
  assert (Ht : at_startedAtMs a <= t2 < at_startedAtMs a + MAX_GRANT_TTL_MS) by lia.
  assert (He : (e2 < at_startedElapsedMs a + ms MAX_GRANT_TTL_MS)%Q) by lra.
  destruct (issue_complete a account d role b f id op ttl t2 e2 (ps_authority p) Hb Hf Hfp (ow_role _ _ _ _ _ _ Ho) Hp
    (ow_deployment _ _ _ _ _ _ Ho) Htl Hcur Hlat Ht F1 He) as
    (s & Hi & Hs & <- & <- & S3 & S4 & S5 & S6 & S7 & S8 & S9 & S10 & S11 & S12 & S13 & S14 & S15).
  exists (au_nextGrant (ps_authority p)). cbv zeta. fold v in Hi, Hs, S11, S12.
  pose proof (issue_effect (gs_tradingAccountId s) (gs_operation s) ttl v t2 e2 (ps_authority p)) as Heff.
  rewrite Hi in Heff. destruct Heff as (Hgr & _ & Hgen & _).
  set (au1 := snd (issue_end (gs_tradingAccountId s) (gs_operation s) ttl v t2 e2 (ps_authority p))) in *.
  set (p1 := snd (perform (Take_verdict c t2 e2) p)).
  assert (Hans : fst (perform (Take_verdict c t2 e2) p) = Grant (Some (au_nextGrant (ps_authority p))) /\ ps_authority p1 = au1).
  { unfold p1. cbn. rewrite Hw, Hi. done. }
  destruct Hans as [Hans Hau]. split; [exact Hans|].
  assert (Hg1 : grant_generations s (gs_tradingAccountId s) au1 = true).
  { unfold current_generations in Hcur. apply andb_true_iff in Hcur as [C1 C2]. destruct Hgr as (G1 & G2 & _).
    specialize (G2 (gs_tradingAccountId s)). specialize (Hgen (gs_tradingAccountId s)).
    unfold grant_generations, generations in *. rewrite S11, S12. apply andb_true_iff. lia. }
  assert (Hlong : forall t e, t2 <= t <= t4 -> (e <= e4)%Q ->
    (ms t < gs_expiresAtMs s)%Q /\ (e - e2 < gs_expiresAfterMs s)%Q).
  { intros t e Htt Hee. pose proof (proj2 (ms_le t t4) ltac:(lia)) as Hle.
    pose proof (S14 (ms (t4 - t2)) La1 ltac:(lra) La3) as X1. rewrite ms_sub in X1.
    pose proof (S14 (e4 - e2)%Q Lb1 ltac:(lra) Lb3) as X2. split; [|lra]. apply S15; [lra|]. apply ms_lt. lia. }
  assert (Htime : forall t e b, t2 <= t <= t4 -> (e2 <= e)%Q -> (e <= e4)%Q -> gs_lastObservedWallMs s <= b <= t ->
    grant_in_time (observed b true s) t e = true).
  { intros t e b0 Htt Hee1 Hee2 Hob. destruct (Hlong t e Htt Hee2). apply in_time_complete; cbn; rewrite ?S7, ?S9; try done; lia. }
  assert (Hself : observed t2 true s = s) by (unfold observed; rewrite orb_false_r, <- S8; by destruct s).
  pose proof (Htime t3 e3 t2 ltac:(lia) F2 F3 ltac:(lia)) as Ht3. rewrite Hself in Ht3. rewrite <- Hau in Hs, Hg1.
  pose proof (begin_valid w _ s t3 e3 p1 Hs S10 Ht3 Hg1) as (Hw2 & Hs2 & Hg2).
  set (p2 := snd (perform (Begin_validation w _ _ _ t3 e3) p1)) in *.
  apply (end_valid w (au_nextGrant (ps_authority p)) (observed t3 true s) l k t4 e4 p2); try done.
  - apply Htime; [lia|lra|lra|lia].
  - by rewrite Hg2.
  - by apply (owned_evidenced _ _ _ account d role b f).
Qed.

Lemma regained h id op ttl l k config obs account d role b f c w t0 t1 t2 t3 t4 e0 e1 e2 e3 e4 :
  verified_contract (readAccountEvidence id l k) config obs account d role b f -> aa_environment account = "PAPER" ->
  policyAllows role op = true -> ttl_invalid ttl = false ->
  t0 <= t2 <= t3 /\ t3 <= t4 -> (e0 <= e2)%Q /\ (e2 <= e3)%Q /\ (e3 <= e4)%Q ->
  lasts ttl t0 e0 t2 e2 (ms (t4 - t2)) -> lasts ttl t0 e0 t2 e2 (e4 - e2) ->
  let h1 := (h ++ [Invalidate (Some id); Begin_assessment c id (To_grant op ttl) t0 e0;
                   End_assessment c (Some (l, k)) config obs t1 e1])%list in
  exists g, answer (Take_verdict c t2 e2) h1 = Grant (Some g) /\
    answer (End_validation w (Some (l, k)) t4 e4)
      (h1 ++ [Take_verdict c t2 e2; Begin_validation w g id op t3 e3])%list = Valid true.
Proof.
  intros Hc Hpaper Hp Htl T E L1 L2 h1. pose proof Hc as [Ho _ [Hb Hf] _ _ _].
  set (p0 := run (h ++ [Invalidate (Some id)])%list).
  assert (Hempty : au_assessmentCache (ps_authority p0) !! id = None).
  { unfold p0. rewrite run_snoc. cbn. apply lookup_delete_eq. }
  set (p1 := snd (perform (Begin_assessment c id (To_grant op ttl) t0 e0) p0)).
  pose proof (begin_uncached id op ttl t0 e0 c p0 Hempty Htl) as E1. fold p1 in E1. cbv zeta in E1.
  set (a := {| at_tradingAccountId := id |}) in E1.
  set (p2 := snd (perform (End_assessment c (Some (l, k)) config obs t1 e1) p1)).
  assert (Hw1 : ps_waiting p1 !! c = Some (Assessing a (To_grant op ttl))) by (rewrite E1; cbn; apply lookup_insert_eq).
  pose proof (end_verified a l k config obs t1 e1 c _ p1 _ _ Hw1 (judge_complete id _ _ _ t0 _ _ _ _ _ Hc)) as (Hw2 & G1 & G2 & G3).
  fold p2 in Hw2, G1, G2, G3. rewrite E1 in G1, G2, G3. cbn in G1, G2, G3.
  assert (Hrun : run h1 = p2).
  { unfold h1. rewrite (cons_middle (Invalidate _)), app_assoc. fold p0. unfold p2, p1, p0.
    by rewrite (cons_middle (Begin_assessment _ _ _ _ _)), app_assoc, !run_snoc. }
  destruct (granted_valid p2 c w a account d role b f id op ttl l k t2 t3 t4 e2 e3 e4) as (g & Hg & Hv); try done.
  - unfold current_generations, generationFor. rewrite G1, G3. cbn. unfold generationFor. by rewrite !Z.eqb_refl.
  - unfold latest_attempt. rewrite G2. cbn. rewrite lookup_insert_eq. by apply bool_decide_eq_true_2.
  - exists g. unfold answer. rewrite (cons_middle (Take_verdict _ _ _)), app_assoc, !run_snoc, Hrun. by split.
Qed.
End History.

(** A refused assessment permits nothing. *)
Lemma judge_refused `{AuthorityHost} id evidence config observed t asmt :
  judge id evidence config observed t = Refused asmt ->
  (la_outcome asmt = "UNKNOWN" \/ la_outcome asmt = "DENIED") /\ la_allowedOperations asmt = [] /\ la_expiresAt asmt = None.
Proof.
  unfold judge, judge_declared, judge_material, refuse. intros E.
  repeat match type of E with
  | (match ?x with _ => _ end) = _ => destruct x; try done
  end; injection E as <-; cbn; auto.
Qed.

(** * Theorems *)

(** An assessment verifies a role exactly under the documented contract: one
    declaration for the account, consistent with the deployment; the declared,
    the stored and the broker's identity the same, of one local account and
    expected by no other; an active, verified, unrevoked credential whose material
    has its stored fingerprint, which an executor's authorization names. A
    verified assessment permits the operations of the role's policy for five
    minutes from its start; any other permits none. *)
Theorem assessment_verifies_contract `{AuthorityHost} id evidence config observed t :
  match judge id evidence config observed t with
  | Verified asmt role =>
      (exists account declaration b fingerprint,
         verified_contract evidence config observed account declaration role b fingerprint) /\
      la_outcome asmt = role /\ la_verifiedAt asmt = Some t /\ la_expiresAt asmt = Some (t + MAX_GRANT_TTL_MS) /\
      (forall op, In op (la_allowedOperations asmt) <->
         projected_role role = Some role /\ policyAllows role op = true)
  | Refused asmt =>
      (forall account declaration role b fingerprint,
         ~ verified_contract evidence config observed account declaration role b fingerprint) /\
      (la_outcome asmt = "UNKNOWN" \/ la_outcome asmt = "DENIED") /\ la_allowedOperations asmt = [] /\
      la_expiresAt asmt = None
  end.
Proof.
  destruct (judge id evidence config observed t) as [asmt role|asmt] eqn:Ej.
  - destruct (judge_sound _ _ _ _ _ _ _ Ej) as (account & d & b & f & Hc & ->).
    pose proof (ow_role _ _ _ _ _ _ (vc_owned _ _ _ _ _ _ _ _ Hc)) as Er. split; [by exists account, d, b, f|].
    split; [exact Er|]. split; [done|]. split; [done|]. intros op.
    change (la_allowedOperations _) with (filterb (allowed (projected_role (po_role d))) LIFECYCLE_AUTHORITY_OPERATIONS).
    rewrite Er, filterb_In. unfold allowed, projected_role. destruct (_ || _); split; try naive_solver.
    intros [_ Hp]. split; [destruct op; cbn; tauto|done].
  - split; [|by apply judge_refused in Ej]. intros account d role b f Hc.
    by rewrite (judge_complete id _ _ _ t _ _ _ _ _ Hc) in Ej.
Qed.

(** C32. A validated grant is authorized, in every interleaving of the process's
    calls and whatever the clocks show. The validation asked about a grant of the
    account and the operation it was issued for; the grant was issued on an
    assessment of the account that met the contract, with no other assessment of
    the account begun in between, for an operation its role allows; now is within
    five minutes of that assessment's start, on the wall clock and on the
    monotonic one; since that start neither the account nor everything was
    invalidated and no assessment of the account was refused; and the evidence
    just read still ties the account to the same identity, role, credential and
    configuration. *)
Theorem validated_grant_authorized `{AuthorityHost} h call reads t e
    (Hvalid : answer (End_validation call reads t e) h = Valid true) :
  exists g id op i j k role b fingerprint t0 e0 account declaration,
    asked_validation h call g id op /\
    authorization h g id op i j k role b fingerprint t0 e0 account declaration /\
    within_verification t0 e0 t e /\
    (forall m x, (i <= m)%nat -> h !! m = Some x -> ~ revokes (take m h) x id) /\
    exists accounts others account' declaration', reads = Some (accounts, others) /\
      owned (readAccountEvidence id accounts others) account' declaration' role b fingerprint /\
      aa_environment account' = "PAPER" /\
      configurationRevision account' declaration' = configurationRevision account declaration.
Proof. exact (validation_authorized h call reads t e Hvalid). Qed.

(** C33. A dead grant stays dead. Once a validation has begun outside a grant's time,
    before its issue, before a time it was seen at, or after its end on either
    clock, or once its account's authority was revoked, every validation that
    begins afterwards is refused, whatever account and operation it names and
    whatever the clocks show then. *)
Theorem dead_grant_refused `{AuthorityHost} h g (Hdead : dead h g) k call id op t e :
  answer (Begin_validation call g id op t e) (h ++ k)%list = Valid false.
Proof.
  apply dead_refused. destruct Hdead as [h1 h2 c t1 e1 s -> Hs Ht|h1 h2 x s -> Hs Hr].
  - apply (dead_observed _ _ h1 (h2 ++ k)%list c t1 e1 s); [|done..]. by rewrite <- app_assoc.
  - apply (dead_revoked _ _ h1 (h2 ++ k)%list x s); [|done..]. by rewrite <- app_assoc.
Qed.

(** C34. Revocation is not for good. Whatever happened before, an account that is
    invalidated and then assessed under the contract gets a grant for every
    operation its role allows, and the grant is validated, on evidence that has
    not changed, for the time asked for, as far as the verification's five
    minutes reach on both clocks. *)
Theorem authority_regained `{AuthorityHost} h id op ttl l k config obs account d role b f c w t0 t1 t2 t3 t4 e0 e1 e2 e3 e4
    (Hcontract : verified_contract (readAccountEvidence id l k) config obs account d role b f)
    (Hpaper : aa_environment account = "PAPER") (Hpolicy : policyAllows role op = true) (Httl : ttl_invalid ttl = false)
    (Hwall : t0 <= t2 <= t3 /\ t3 <= t4) (Helapsed : (e0 <= e2)%Q /\ (e2 <= e3)%Q /\ (e3 <= e4)%Q)
    (Hlasts_wall : lasts ttl t0 e0 t2 e2 (ms (t4 - t2))) (Hlasts : lasts ttl t0 e0 t2 e2 (e4 - e2)) :
  let h1 := (h ++ [Invalidate (Some id); Begin_assessment c id (To_grant op ttl) t0 e0;
                   End_assessment c (Some (l, k)) config obs t1 e1])%list in
  exists g, answer (Take_verdict c t2 e2) h1 = Grant (Some g) /\
    answer (End_validation w (Some (l, k)) t4 e4)
      (h1 ++ [Take_verdict c t2 e2; Begin_validation w g id op t3 e3])%list = Valid true.
Proof. by apply (regained h id op ttl l k config obs account d role b f). Qed.

(** * Concrete inputs *)

(** One executor and one observer. *)
Definition paper_env : ClientEnv :=
  {| ALLOW_LIVE_TRADING := false; ALLOW_LIVE_RISK_REDUCING_WRITES := false;
     PAPER_BROKER_WRITE_DEPLOYMENT_ROLE := "PAPER_EXECUTOR";
     PAPER_BROKER_WRITE_OWNERSHIP :=
       [{| po_tradingAccountId := 7; po_role := "EXECUTOR"; po_expectedBrokerAccountId := Some "PA7" |};
        {| po_tradingAccountId := 8; po_role := "OBSERVER"; po_expectedBrokerAccountId := Some "PA8" |}];
     PAPER_BROKER_WRITE_AUTHORIZATIONS := [{| pz_brokerAccountId := "PA7"; pz_keyFingerprint := "fp-key7" |}] |}.
Definition sample_host : AuthorityHost :=
  {| authority_env := paper_env; secret_fingerprint := fun key => "fp-" ++ key;
     sha256_of_json := fun j => match j with JObj ((_, JStr broker) :: _) => broker | _ => "" end |}.
Definition paper_account (id : Z) (b key : string) : AuthorityAccount :=
  {| aa_id := id; aa_broker := "ALPACA"; aa_environment := "PAPER"; aa_brokerAccountId := Some b;
     aa_credential := Some {| ak_id := id; ak_status := "ACTIVE"; ak_verifiedAt := Some 500; ak_revokedAt := None;
       ak_keyFingerprint := Some ("fp-" ++ key); ak_updatedAt := 500 |} |}.
Definition paper_accounts : list AuthorityAccount := [paper_account 7 "PA7" "key7"; paper_account 8 "PA8" "key8"].
Definition paper_config (id : Z) (key : string) : AlpacaResolvedConfig :=
  {| ac_tradingAccountId := id; ac_environment := "PAPER"; ac_baseUrl := ""; ac_apiKey := key; ac_apiSecret := "";
     ac_credentialId := Some id; ac_keyFingerprint := Some ("fp-" ++ key); ac_brokerAccountId := None |}.
Definition paper_reads : Reads := Some (paper_accounts, paper_accounts).

(** A grant for account 7, and a validation under way. *)
Definition granted_history : list Activity :=
  [Begin_assessment 1 7 (To_grant BROKER_EXIT_WRITE None) 1000 10;
   End_assessment 1 paper_reads (Some (paper_config 7 "key7")) (Some "PA7") 1200 210;
   Take_verdict 1 1200 210;
   Begin_validation 2 1 7 BROKER_EXIT_WRITE 2000 1010].

#[local] Notation answer := (answer (H := sample_host)).

(** The observer of the same deployment gets no executor's operation. *)
Example observer_not_executor :
  let assess op := [Begin_assessment 1 8 (To_grant op None) 1000 10;
                    End_assessment 1 paper_reads (Some (paper_config 8 "key8")) (Some "PA8") 1200 210] in
  answer (Take_verdict 1 1200 210) (assess POSITION_CREATE) = Grant (Some 1) /\
  answer (Take_verdict 1 1200 210) (assess BROKER_EXIT_WRITE) = Grant None.
Proof. split; vm_compute; reflexivity. Qed.

(** A clock set back is seen by another validation: the grant is dead for every
    later one, but the one already under way still answers yes. *)
Example rollback_missed_in_flight :
  let seen := (granted_history ++ [Begin_validation 3 1 7 BROKER_EXIT_WRITE 1500 1020])%list in
  answer (Begin_validation 3 1 7 BROKER_EXIT_WRITE 1500 1020) granted_history = Valid false /\
  answer (End_validation 2 paper_reads 2100 1030) seen = Valid true /\
  answer (Begin_validation 4 1 7 BROKER_EXIT_WRITE 2200 1040) seen = Valid false.
Proof. split; [|split]; vm_compute; reflexivity. Qed.

Lemma validated_grant_authorized_witness :
  answer (End_validation 2 paper_reads 2100 1110) granted_history = Valid true /\
  exists g id op, asked_validation granted_history 2 g id op.
Proof.
  assert (Hv : answer (End_validation 2 paper_reads 2100 1110) granted_history = Valid true) by (vm_compute; reflexivity).
  split; [exact Hv|]. destruct (validated_grant_authorized (H := sample_host) granted_history 2 paper_reads 2100 1110 Hv)
    as (g & id & op & i & j & k & role & b & f & t0 & e0 & account & d & Ha & _).
  exists g, id, op. exact Ha.
Defined.

Lemma dead_grant_refused_witness :
  answer (Begin_validation 9 1 7 BROKER_EXIT_WRITE 3000 2010)
    ((granted_history ++ [Invalidate (Some 7)]) ++ [Invalidate None])%list = Valid false.
Proof.
  apply (dead_grant_refused (H := sample_host)).
  assert (Hs : exists s, au_grants (authority_of (H := sample_host) granted_history) !! 1 = Some s /\ gs_tradingAccountId s = 7)
    by (vm_compute; eexists; split; reflexivity).
  destruct Hs as (s & Hs & Es). apply (dead_revoked (H := sample_host) _ _ granted_history [] (Invalidate (Some 7)) s);
    [reflexivity|exact Hs|]. cbn. congruence.
Defined.

Lemma paper_verified : verified_contract (H := sample_host) (readAccountEvidence 7 paper_accounts paper_accounts)
  (Some (paper_config 7 "key7")) (Some "PA7") (paper_account 7 "PA7" "key7")
  {| po_tradingAccountId := 7; po_role := "EXECUTOR"; po_expectedBrokerAccountId := Some "PA7" |} "EXECUTOR" "PA7" "fp-key7".
Proof.
  split; try done.
  - split; try done. eexists. split; [reflexivity|]. by repeat split.
  - intros item [<-|[<-|[]]]; done.
  - eexists. by repeat split.
Qed.

Lemma authority_regained_witness :
  exists g, answer (Take_verdict 5 4100 3100) (granted_history ++ [Invalidate (Some 7);
      Begin_assessment 5 7 (To_grant BROKER_EXIT_WRITE (Some (FiniteTtl 2500))) 4000 3000;
      End_assessment 5 paper_reads (Some (paper_config 7 "key7")) (Some "PA7") 4100 3100])%list = Grant (Some g).
Proof.
  destruct (authority_regained (H := sample_host) granted_history 7 BROKER_EXIT_WRITE (Some (FiniteTtl 2500))
    paper_accounts paper_accounts (Some (paper_config 7 "key7")) (Some "PA7") (paper_account 7 "PA7" "key7")
    {| po_tradingAccountId := 7; po_role := "EXECUTOR"; po_expectedBrokerAccountId := Some "PA7" |} "EXECUTOR" "PA7" "fp-key7"
    5 6 4000 4100 4100 4200 6000 3000 3100 3100 3200 5000 paper_verified) as (g & Hg & _); try reflexivity.
  - lia.
  - repeat split; vm_compute; congruence.
  - repeat split; vm_compute; reflexivity.
  - repeat split; vm_compute; reflexivity.
  - exists g. exact Hg.
Defined.
