(* ===== verification/EntryLimits.v ===== *)
(** Account entry limits and usage:
    services/trading-account-entry-risk-limits.service.ts and
    services/trading-account-entry-risk-usage.service.ts. *)

From Stdlib Require Import ZArith Lia.
From Stdlib Require Import Strings.String.
From Stdlib Require Import Floats.SpecFloat.
From stdpp Require Import base gmap list strings.
From S2P Require Import Prelude JsNumber JsValue JsDate Prisma OrderStatus.
From S2P Require Import DeliveryEvidence RuntimeConfig Schema.

Open Scope string_scope.
Open Scope Z_scope.

(** * Effective limits *)

Inductive AccountEntryLimitField :=
| F_maxDailyEntryOrders | F_maxDailyEntryNotional | F_maxOpenPositions | F_maxSymbolOpenNotional.

Definition ACCOUNT_ENTRY_LIMIT_FIELDS : list AccountEntryLimitField :=
  [F_maxDailyEntryOrders; F_maxDailyEntryNotional; F_maxOpenPositions; F_maxSymbolOpenNotional].

Inductive EffectiveAccountEntryLimitSource := SRC_ACCOUNT | SRC_LEGACY_GLOBAL_FALLBACK.

Definition source_str (s : EffectiveAccountEntryLimitSource) : string :=
  match s with SRC_ACCOUNT => "ACCOUNT" | SRC_LEGACY_GLOBAL_FALLBACK => "LEGACY_GLOBAL_FALLBACK" end.

(** The account's risk settings row, null when it has none. *)
Abbreviation AccountEntryRiskSettingsInput := (option TradingAccountRiskSettings).

Record EffectiveAccountEntryLimit := {
  lim_value : option num;
  lim_source : EffectiveAccountEntryLimitSource
}.

Record EffectiveAccountEntryLimits := {
  ef_tradingAccountId : Z;
  ef_accountRiskSettingsEnabled : bool;
  ef_usingLegacyGlobalFallback : bool;
  ef_limits : AccountEntryLimitField -> EffectiveAccountEntryLimit;
  ef_maxDeployableNotional : option num;
  ef_accountMaxTotalOpenNotional : option num;
  ef_globalMaxTotalOpenNotional : option num;
  ef_accountMaxSubscriptionOpenNotional : option num;
  ef_globalMaxSubscriptionOpenNotional : option num
}.

Definition account_field (f : AccountEntryLimitField) (s : TradingAccountRiskSettings) : option num :=
  match f with
  | F_maxDailyEntryOrders => rs_maxDailyEntryOrders s
  | F_maxDailyEntryNotional => rs_maxDailyEntryNotional s
  | F_maxOpenPositions => rs_maxOpenPositions s
  | F_maxSymbolOpenNotional => rs_maxSymbolOpenNotional s
  end.

Definition global_field (f : AccountEntryLimitField) (c : RuntimeTradingConfig) : option num :=
  match f with
  | F_maxDailyEntryOrders => maxDailyEntryOrders c
  | F_maxDailyEntryNotional => maxDailyEntryNotional c
  | F_maxOpenPositions => maxOpenPositions c
  | F_maxSymbolOpenNotional => maxSymbolOpenNotional c
  end.

Definition resolveField (field : AccountEntryLimitField)
    (accountRiskSettings : AccountEntryRiskSettingsInput) (globalConfig : RuntimeTradingConfig)
    : EffectiveAccountEntryLimit :=
  let accountValue :=
    match accountRiskSettings with
    | Some s => if rs_enabled s then account_field field s else None
    | None => None
    end in
  let fallback := {| lim_value := global_field field globalConfig;
                     lim_source := SRC_LEGACY_GLOBAL_FALLBACK |} in
  match accountValue with
  | Some v => if is_finite v then {| lim_value := Some v; lim_source := SRC_ACCOUNT |} else fallback
  | None => fallback
  end.

Definition resolveEffectiveAccountEntryLimits (tradingAccountId : Z)
    (maxDeployableNotional : option num) (accountRiskSettings : AccountEntryRiskSettingsInput)
    (globalConfig : RuntimeTradingConfig) : EffectiveAccountEntryLimits :=
  let limits f := resolveField f accountRiskSettings globalConfig in
  {| ef_tradingAccountId := tradingAccountId;
     ef_accountRiskSettingsEnabled :=
       match accountRiskSettings with Some s => rs_enabled s | None => false end;
     ef_usingLegacyGlobalFallback := existsb (fun f =>
       match lim_source (limits f) with SRC_LEGACY_GLOBAL_FALLBACK => true | _ => false end)
       ACCOUNT_ENTRY_LIMIT_FIELDS;
     ef_limits := limits;
     ef_maxDeployableNotional := maxDeployableNotional;
     ef_accountMaxTotalOpenNotional := accountRiskSettings ≫= rs_maxTotalOpenNotional;
     ef_globalMaxTotalOpenNotional := maxTotalOpenNotional globalConfig;
     ef_accountMaxSubscriptionOpenNotional := accountRiskSettings ≫= rs_maxSubscriptionOpenNotional;
     ef_globalMaxSubscriptionOpenNotional := maxSubscriptionOpenNotional globalConfig |}.

(** * The New York trading day *)

Section Window.
Context `{TimeZone}.

Definition getZonedParts (t : Z) : zoned := parts_h23 t.

(** Formatting an Invalid Date throws; times of valid inputs stay in range. *)
Definition getTimeZoneOffsetMs (d : date) : res (option Z) :=
  match d with
  | None => Throw (RangeError "Invalid time value")
  | Some t => Ok (option_map (fun u => u - t) (zoned_utc (getZonedParts t)))
  end.

Definition zonedMidnightToUtc (year month day : Z) : res date :=
  let utcGuess := date_utc year (month - 1) day 0 0 0 in
  firstOffset ← getTimeZoneOffsetMs utcGuess;
  let firstPass := date_minus utcGuess firstOffset in
  secondOffset ← getTimeZoneOffsetMs firstPass;
  mret (date_minus utcGuess secondOffset).

Record DailyWindow := {
  dw_date : string;
  dw_start : date;
  dw_nextStart : date
}.

(** [String(value).padStart(2, '0')] *)
Definition pad2 (z : Z) : string :=
  let s := z_str z in if (String.length s <? 2)%nat then "0" ++ s else s.

Definition getNewYorkDailyEntryWindow (now : Z) : res DailyWindow :=
  let local := getZonedParts now in
  let nextLocalDate := date_utc (z_year local) (z_month local - 1) (z_day local + 1) 0 0 0 in
  start ← zonedMidnightToUtc (z_year local) (z_month local) (z_day local);
  match nextLocalDate with
  | None => Throw (RangeError "Invalid time value")
  | Some n =>
      let '(y, m, d) := utc_date n in
      nextStart ← zonedMidnightToUtc y m d;
      mret {| dw_date := z_str (z_year local) ++ "-" ++ pad2 (z_month local) ++ "-" ++
                         pad2 (z_day local);
              dw_start := start; dw_nextStart := nextStart |}
  end.
End Window.

(** * Which intents count *)

Definition DAILY_ENTRY_ACTIVITY_STATUSES : list string :=
  ["pending"; "submitting"; "submitted"; "filled"].

Definition PENDING_ENTRY_EXPOSURE_STATUSES : list string :=
  ["pending"; "submitting"; "submitted"; "new"; "accepted"; "accepted_for_bidding";
   "pending_new"; "partially_filled"; "filled"].

(** Truthiness of a nullable text. *)
Definition truthy_text (o : option string) : bool :=
  match o with None | Some "" => false | Some _ => true end.

Definition representsDailyEntryActivity (intent : OrderIntent) (brokerOrderCount : Z) : bool :=
  if negb (String.eqb (to_lower (oi_side intent)) "buy") || truthy_text (oi_blockReason intent)
  then false
  else member (to_lower (oi_status intent)) DAILY_ENTRY_ACTIVITY_STATUSES ||
       (0 <? brokerOrderCount).

Definition representsPendingEntryExposure (intent : OrderIntent) : bool :=
  String.eqb (to_lower (oi_side intent)) "buy" &&
  bool_decide (oi_trackedPositionId intent = None) &&
  negb (truthy_text (oi_blockReason intent)) &&
  member (to_lower (oi_status intent)) PENDING_ENTRY_EXPOSURE_STATUSES.

(** * Usage *)

Definition ACTIVE_POSITION_STATUSES : list string := ["open"; "closing"].
Definition PENDING_ENTRY_QUERY_STATUSES : list string :=
  ["pending"; "submitting"; "submitted"; "new"; "accepted"; "accepted_for_bidding";
   "pending_new"; "partially_filled"; "filled"].

Definition isPositiveFiniteNumber (value : json) : bool :=
  match value with JNum n => positive_finite n | _ => false end.

(** Property access on a JSON object; null, arrays and primitives give none. *)
Definition getSizingEstimatedNotional (value : json) : option num :=
  sizing ← jfield "accountSubscriptionSizing" value;
  estimatedNotional ← jfield "estimatedNotional" sizing;
  match estimatedNotional with
  | JNum n => if positive_finite n then Some n else None
  | _ => None
  end.

Definition opt_positive (o : option num) : bool :=
  match o with Some n => positive_finite n | None => false end.

Definition getEntryIntentEstimatedNotional (order : OrderIntent) : option num :=
  if opt_positive (oi_notional order) then oi_notional order
  else match oi_qty order, oi_limitPrice order with
       | Some q, Some p =>
           if positive_finite q && positive_finite p then Some (nmul q p)
           else getSizingEstimatedNotional (oi_rawRequestJson order)
       | _, _ => getSizingEstimatedNotional (oi_rawRequestJson order)
       end.

(** [a || b || 0] on numbers. *)
Definition getTrackedPositionExposure (position : TrackedPosition) : num :=
  nabs (if truthy (tp_marketValue position) then tp_marketValue position
        else if truthy (tp_costBasis position) then tp_costBasis position else num_of_Z 0).

(** [reduce((total, x) => total + f(x), 0)] *)
Definition sum_of {A} (f : A -> num) (l : list A) : num := nsum (map f l).

(** [Array.from(new Set(l))] *)
Fixpoint distinct (seen l : list string) : list string :=
  match l with
  | nil => nil
  | x :: l => if member x seen then distinct seen l else x :: distinct (x :: seen) l
  end.

Record EntryRiskUsage := {
  us_dailyWindow : DailyWindow;
  us_activePositions : list TrackedPosition;
  us_dailyEntryOrders : list OrderIntent;
  us_pendingEntryOrders : list OrderIntent;
  us_dailyEntryOrderCount : Z;
  us_dailyEntryNotional : num;
  us_activePositionCount : Z;
  us_pendingEntryPositionCount : Z;
  us_currentAccountPositionSlots : Z;
  us_openPositionNotional : num;
  us_pendingEntryNotional : num;
  us_currentAccountExposure : num;
  us_symbolOpenNotional : num;
  us_symbolPendingEntryNotional : num;
  us_currentSymbolExposure : num;
  us_activeSymbols : list string;
  us_pendingSymbols : list string;
  us_pendingEntryNotionalBySubscriptionId : gmap Z num
}.

Definition estimated (intent : OrderIntent) : num :=
  default (num_of_Z 0) (getEntryIntentEstimatedNotional intent).

(** [excludeOrderIntentId ? { id: { not: ... } } : {}]; zero is falsy. *)
Definition not_excluded (excludeOrderIntentId : option Z) (intent : OrderIntent) : bool :=
  match excludeOrderIntentId with
  | Some 0 | None => true
  | Some i => negb (oi_id intent =? i)
  end.

Section Usage.
Context `{TimeZone} `{Prisma}.

Definition active_position_where (tradingAccountId : Z) (p : TrackedPosition) : bool :=
  opt_eqb (tp_tradingAccountId p) tradingAccountId &&
  member (tp_status p) ACTIVE_POSITION_STATUSES.

(** [createdAt: { gte: start, lt: nextStart }]. *)
Definition in_daily_window (w : DailyWindow) (t : Z) : bool :=
  match dw_start w, dw_nextStart w with
  | Some a, Some b => (a <=? t) && (t <? b)
  | _, _ => false
  end.

Definition daily_candidate_where (tradingAccountId : Z) (w : DailyWindow) (exclude : option Z)
    (i : OrderIntent) : bool :=
  opt_eqb (oi_tradingAccountId i) tradingAccountId && String.eqb (oi_side i) "buy" &&
  in_daily_window w (oi_createdAt i) && not_excluded exclude i.

Definition pending_candidate_where (tradingAccountId : Z) (exclude : option Z)
    (i : OrderIntent) : bool :=
  opt_eqb (oi_tradingAccountId i) tradingAccountId && String.eqb (oi_side i) "buy" &&
  bool_decide (oi_trackedPositionId i = None) && bool_decide (oi_blockReason i = None) &&
  member (oi_status i) PENDING_ENTRY_QUERY_STATUSES && not_excluded exclude i.

Definition broker_order_count (db : Db) (i : OrderIntent) : Z :=
  count (fun b => bo_orderIntentId b =? oi_id i) (brokerOrders db).

Definition getTradingAccountEntryRiskUsage (db : Db) (tradingAccountId : Z) (symbol : string)
    (now : Z) (excludeOrderIntentId : option Z) : res EntryRiskUsage :=
  dailyWindow ← getNewYorkDailyEntryWindow now;
  _ ← match dw_start dailyWindow, dw_nextStart dailyWindow with
      | Some _, Some _ => mret tt
      | _, _ => Throw (PlainError "Invalid Date in a query argument.")
      end;
  let activePositions :=
    find_many (active_position_where tradingAccountId) (trackedPositions db) in
  let dailyCandidates :=
    find_many (daily_candidate_where tradingAccountId dailyWindow excludeOrderIntentId)
      (orderIntents db) in
  let pendingCandidates :=
    find_many (pending_candidate_where tradingAccountId excludeOrderIntentId) (orderIntents db) in
  let dailyEntryOrders :=
    filterb (fun i => representsDailyEntryActivity i (broker_order_count db i)) dailyCandidates in
  let pendingEntryOrders := filterb representsPendingEntryExposure pendingCandidates in
  let openPositionNotional := sum_of getTrackedPositionExposure activePositions in
  let pendingEntryNotional := sum_of estimated pendingEntryOrders in
  let symbolOpenNotional := sum_of getTrackedPositionExposure
    (filterb (fun p => String.eqb (tp_symbol p) symbol) activePositions) in
  let symbolPendingEntryNotional := sum_of estimated
    (filterb (fun i => String.eqb (oi_symbol i) symbol) pendingEntryOrders) in
  let bySubscription := fold_left (fun m i =>
    match oi_subscriptionId i with
    | None => m
    | Some s => <[s := nadd (default (num_of_Z 0) (m !! s)) (estimated i)]> m
    end) pendingEntryOrders (∅ : gmap Z num) in
  let activeCount := Z.of_nat (length activePositions) in
  let pendingCount := Z.of_nat (length pendingEntryOrders) in
  mret {| us_dailyWindow := dailyWindow;
     us_activePositions := activePositions;
     us_dailyEntryOrders := dailyEntryOrders;
     us_pendingEntryOrders := pendingEntryOrders;
     us_dailyEntryOrderCount := Z.of_nat (length dailyEntryOrders);
     us_dailyEntryNotional := sum_of estimated dailyEntryOrders;
     us_activePositionCount := activeCount;
     us_pendingEntryPositionCount := pendingCount;
     us_currentAccountPositionSlots := activeCount + pendingCount;
     us_openPositionNotional := openPositionNotional;
     us_pendingEntryNotional := pendingEntryNotional;
     us_currentAccountExposure := nadd openPositionNotional pendingEntryNotional;
     us_symbolOpenNotional := symbolOpenNotional;
     us_symbolPendingEntryNotional := symbolPendingEntryNotional;
     us_currentSymbolExposure := nadd symbolOpenNotional symbolPendingEntryNotional;
     us_activeSymbols := distinct [] (map tp_symbol activePositions);
     us_pendingSymbols := distinct [] (map oi_symbol pendingEntryOrders);
     us_pendingEntryNotionalBySubscriptionId := bySubscription |}.
End Usage.

(** * Usage in exact integers *)

Section UsageExact.
Context `{TimeZone} {P : Prisma} `{!PrismaLaws P}.
Variables (db : Db) (account : Z) (exclude : option Z).

(** The rows that count against the account's capital and slots. *)
Definition counted_positions : list TrackedPosition :=
  filterb (active_position_where account) (trackedPositions db).
Definition counted_pending : list OrderIntent :=
  filterb (fun i => pending_candidate_where account exclude i && representsPendingEntryExposure i)
    (orderIntents db).
(** The rows that count as today's entries for a given window. *)
Definition counted_daily (w : DailyWindow) : list OrderIntent :=
  filterb (fun i => daily_candidate_where account w exclude i &&
                    representsDailyEntryActivity i (broker_order_count db i)) (orderIntents db).

Lemma sum_of_exact {A} (f : A -> num) (g : A -> Z) (l : list A) :
  (forall x, In x l -> f x = num_of_Z (g x) /\ 0 <= g x) -> safe (zsum g l) ->
  sum_of f l = num_of_Z (zsum g l).
Proof.
  intros Hf Hs. unfold sum_of.
  assert (E : map f l = map num_of_Z (map g l)).
  { rewrite map_map. apply map_ext_in. intros x Hx. by apply Hf. }
  assert (Z1 : zsum id (map g l) = zsum g l).
  { clear. unfold zsum, id. induction l as [|x l IH]; cbn; [done|]. by rewrite IH. }
  rewrite E, nsum_exact; [by rewrite Z1| |by rewrite Z1].
  intros z Hz. apply in_map_iff in Hz as (x & <- & Hx). by apply Hf.
Qed.

(** Sums over query results do not depend on the order rows come back in. *)
Lemma sum_of_find_many {A} (f : A -> num) (g : A -> Z) p (t : list A) :
  (forall x, In x t -> f x = num_of_Z (g x) /\ 0 <= g x) -> safe (zsum g t) ->
  sum_of f (find_many p t) = num_of_Z (zsum g (filterb p t)).
Proof.
  intros Hf Hs. rewrite <- (zsum_perm g _ _ (find_many_perm _ p t)). apply sum_of_exact.
  - intros x Hx. apply Hf. by apply find_many_In in Hx as [? _].
  - rewrite (zsum_perm g _ _ (find_many_perm _ p t)).
    pose proof (zsum_filterb_le g p t (fun x Hx => proj2 (Hf x Hx))).
    pose proof (zsum_nonneg g (filterb p t)) as Hn. unfold safe in *.
    assert (0 <= zsum g (filterb p t)); [|lia].
    apply Hn. intros x Hx. apply filterb_In in Hx as [Hx _]. by apply Hf.
Qed.

Lemma filterb_perm {A} (p : A -> bool) l l' : Permutation l l' -> Permutation (filterb p l) (filterb p l').
Proof.
  unfold filterb. induction 1 as [|x l1 l2 Q IH|x y l1|l1 l2 l3 _ IH1 _ IH2]; cbn; [done| | |by transitivity (List.filter p l2)].
  - destruct (p x); [by constructor|done].
  - destruct (p x), (p y); try done. apply perm_swap.
Qed.

Lemma filtered_find_many {A} (p q : A -> bool) t :
  Permutation (filterb q (find_many p t)) (filterb (fun x => p x && q x) t).
Proof. rewrite <- filterb_filterb. apply filterb_perm, find_many_perm. Qed.

Lemma sum_of_filtered {A} (f : A -> num) (g : A -> Z) p q (t : list A) :
  (forall x, In x t -> f x = num_of_Z (g x) /\ 0 <= g x) -> safe (zsum g t) ->
  sum_of f (filterb q (find_many p t)) = num_of_Z (zsum g (filterb (fun x => p x && q x) t)).
Proof.
  intros Hf Hs. rewrite <- (zsum_perm g _ _ (filtered_find_many p q t)). apply sum_of_exact.
  - intros x Hx. apply Hf. apply filterb_In in Hx as [Hx _]. by apply find_many_In in Hx as [? _].
  - rewrite (zsum_perm g _ _ (filtered_find_many p q t)).
    pose proof (zsum_filterb_le g (fun x => p x && q x) t (fun x Hx => proj2 (Hf x Hx))).
    assert (0 <= zsum g (filterb (fun x => p x && q x) t)); [|unfold safe in *; lia].
    apply zsum_nonneg. intros x Hx. apply filterb_In in Hx as [Hx _]. by apply Hf.
Qed.

(** Whole-dollar amounts: every row's exposure is an exact integer and the
    total stays below 2^53. *)
Record whole_dollars (pe : TrackedPosition -> Z) (oe : OrderIntent -> Z) (requested : Z) : Prop := {
  wd_positions : forall p, In p (trackedPositions db) ->
    getTrackedPositionExposure p = num_of_Z (pe p) /\ 0 <= pe p;
  wd_intents : forall i, In i (orderIntents db) -> estimated i = num_of_Z (oe i) /\ 0 <= oe i;
  wd_requested : 0 <= requested;
  wd_total : zsum pe (trackedPositions db) + zsum oe (orderIntents db) + requested < 2 ^ 53
}.

Lemma usage_exact pe oe requested symbol now usage :
  whole_dollars pe oe requested ->
  getTradingAccountEntryRiskUsage db account symbol now exclude = Ok usage ->
  us_currentAccountExposure usage =
    num_of_Z (zsum pe counted_positions + zsum oe counted_pending) /\
  us_dailyEntryNotional usage = num_of_Z (zsum oe (counted_daily (us_dailyWindow usage))) /\
  us_currentAccountPositionSlots usage =
    Z.of_nat (length counted_positions) + Z.of_nat (length counted_pending) /\
  us_dailyEntryOrderCount usage = Z.of_nat (length (counted_daily (us_dailyWindow usage))).
Proof.
  intros [Hp Hi Hr Ht]. unfold getTradingAccountEntryRiskUsage, mbind, res_bind, mret, res_ret.
  destruct (getNewYorkDailyEntryWindow now) as [w|]; [|done].
  destruct (dw_start w), (dw_nextStart w); try done. intros [= <-].
  assert (Np : 0 <= zsum pe (trackedPositions db)) by (apply zsum_nonneg; intros; by apply Hp).
  assert (Ni : 0 <= zsum oe (orderIntents db)) by (apply zsum_nonneg; intros; by apply Hi).
  assert (Sp : safe (zsum pe (trackedPositions db))) by (unfold safe; lia).
  assert (Si : safe (zsum oe (orderIntents db))) by (unfold safe; lia).
  cbn [us_currentAccountExposure us_dailyEntryNotional us_currentAccountPositionSlots
    us_dailyEntryOrderCount us_dailyWindow].
  rewrite (sum_of_find_many _ pe) by done. rewrite !(sum_of_filtered _ oe) by done.
  fold counted_positions counted_pending. fold (counted_daily w).
  pose proof (zsum_filterb_le pe (active_position_where account) _ (fun x Hx => proj2 (Hp x Hx))) as L1.
  fold counted_positions in L1.
  pose proof (zsum_filterb_le oe (fun i => pending_candidate_where account exclude i &&
    representsPendingEntryExposure i) _ (fun x Hx => proj2 (Hi x Hx))) as L2.
  fold counted_pending in L2.
  assert (0 <= zsum pe counted_positions)
    by (apply zsum_nonneg; intros x Hx; apply filterb_In in Hx as [Hx _]; by apply Hp).
  assert (0 <= zsum oe counted_pending)
    by (apply zsum_nonneg; intros x Hx; apply filterb_In in Hx as [Hx _]; by apply Hi).
  split; [apply nadd_exact; unfold safe; lia|]. split; [done|].
  by rewrite find_many_length, !(Permutation_length (filtered_find_many _ _ _)).
Qed.
End UsageExact.

(** * The daily window is the New York calendar day *)

Section WindowProof.
Context {T : TimeZone} {L : TimeZoneLaws T}.

(** The New York calendar day of an instant, as a day number. *)
Definition local_day (t : Z) : Z := (t + tz_offset t) / ms_per_day.

Lemma zone_offset t :
  zone_range t -> t mod 1000 = 0 -> getTimeZoneOffsetMs (Some t) = Ok (Some (tz_offset t)).
Proof.
  intros Ht Hs. unfold getTimeZoneOffsetMs, getZonedParts, zone_range in *.
  rewrite tz_parts by done. pose proof (tz_offset_bound t) as B. unfold ms_per_day in B.
  rewrite zoned_utc_of by lia. cbn [option_map]. do 2 f_equal.
  assert (E : (t + tz_offset t) mod 1000 = 0)
    by (rewrite Z.add_mod, Hs, tz_offset_seconds by lia; done).
  rewrite E. lia.
Qed.

Lemma day_start_bound day : Z.abs (tz_day_start day - day * ms_per_day) < ms_per_day.
Proof. pose proof (tz_midnight day). pose proof (tz_offset_bound (tz_day_start day)). lia. Qed.

Lemma midnight_correct day y m d :
  -1 <= day <= 90000000 -> date_utc y (m - 1) d 0 0 0 = Some (day * ms_per_day) ->
  zonedMidnightToUtc y m d = Ok (Some (tz_day_start day)).
Proof.
  intros Hd E. unfold zonedMidnightToUtc. rewrite E.
  assert (Hms : (day * ms_per_day) mod 1000 = 0)
    by (unfold ms_per_day; replace (day * 86400000) with (day * 86400 * 1000) by lia; apply Z_mod_mult).
  pose proof (tz_offset_bound (day * ms_per_day)) as B. pose proof (day_start_bound day) as S.
  pose proof (tz_offset_bound (tz_day_start day)) as B'. pose proof (tz_midnight day) as Mid.
  unfold mbind, res_bind. rewrite zone_offset by (unfold zone_range, ms_per_day in *; lia || done).
  cbn [date_minus]. rewrite time_clip_id by (unfold ms_per_day in *; lia).
  rewrite zone_offset; [|unfold zone_range, ms_per_day in *; lia|].
  - rewrite tz_stable. cbn [date_minus]. rewrite time_clip_id by (unfold ms_per_day in *; lia).
    unfold mret, res_ret. do 2 f_equal. lia.
  - rewrite Zminus_mod, Hms, tz_offset_seconds. done.
Qed.

Lemma daily_window_correct now :
  0 <= now <= 7000000000000000 ->
  exists w, getNewYorkDailyEntryWindow now = Ok w /\
    dw_start w = Some (tz_day_start (local_day now)) /\
    dw_nextStart w = Some (tz_day_start (local_day now + 1)).
Proof.
  intros Hn. pose proof (tz_offset_bound now) as B. unfold getNewYorkDailyEntryWindow, getZonedParts.
  rewrite tz_parts by (unfold zone_range; lia). set (v := now + tz_offset now).
  assert (Hv : -1 <= v / ms_per_day <= 82000000).
  { unfold ms_per_day in *. split; [apply Z.div_le_lower_bound|apply Z.div_le_upper_bound]; lia. }
  assert (Hv' : -20000000000 <= v) by (unfold ms_per_day in B; lia).
  pose proof (date_utc_fields v 0 0 0 0 Hv') as F0. pose proof (date_utc_fields v 1 0 0 0 Hv') as F1.
  pose proof (date_utc_fields ((v / ms_per_day + 1) * ms_per_day) 0 0 0 0
    ltac:(unfold ms_per_day in *; lia)) as F2.
  unfold zoned_of. destruct (utc_date v) as [[y m] d].
  cbn [z_year z_month z_day].
  assert (E0 : date_utc y (m - 1) d 0 0 0 = Some (v / ms_per_day * ms_per_day)).
  { rewrite <- (Z.add_0_r d), F0, time_clip_id by (unfold ms_per_day in *; lia). f_equal. lia. }
  rewrite (midnight_correct (v / ms_per_day)) by (lia || done).
  cbn [mbind res_bind]. rewrite F1, time_clip_id by (unfold ms_per_day in *; lia).
  replace ((v / ms_per_day + 1) * ms_per_day + 0 * 3600000 + 0 * 60000 + 0 * 1000)
    with ((v / ms_per_day + 1) * ms_per_day) by lia.
  destruct (utc_date ((v / ms_per_day + 1) * ms_per_day)) as [[y' m'] d'].
  assert (E2 : date_utc y' (m' - 1) d' 0 0 0 = Some ((v / ms_per_day + 1) * ms_per_day)).
  { rewrite <- (Z.add_0_r d'), F2, Z.div_mul, time_clip_id by (unfold ms_per_day in *; lia).
    f_equal. lia. }
  rewrite (midnight_correct (v / ms_per_day + 1)) by (lia || done).
  eexists. split; [reflexivity|]. done.
Qed.
End WindowProof.

(** C18. The daily entry window is exactly the New York calendar day: the
    computed bounds satisfy start <= now < nextStart, and an instant falls in
    the half-open window if and only if it has the same New York date, across
    daylight-saving changes. *)
Theorem daily_window_is_local_day {T : TimeZone} {L : TimeZoneLaws T} now
    (Hn : 0 <= now <= 7000000000000000) :
  exists w a b, getNewYorkDailyEntryWindow now = Ok w /\ dw_start w = Some a /\
    dw_nextStart w = Some b /\ a <= now < b /\
    forall t, zone_range t -> in_daily_window w t = true <-> local_day t = local_day now.
Proof.
  destruct (daily_window_correct now Hn) as (w & E & Ea & Eb).
  exists w, (tz_day_start (local_day now)), (tz_day_start (local_day now + 1)).
  assert (G : forall t, zone_range t ->
    tz_day_start (local_day now) <= t < tz_day_start (local_day now + 1) <->
    local_day t = local_day now).
  { intros t Ht. rewrite tz_day_order by done.
    assert (t < tz_day_start (local_day now + 1) <-> ~ local_day now + 1 <= local_day t) as ->.
    { unfold local_day at 3. rewrite <- tz_day_order by done. lia. }
    unfold local_day. lia. }
  do 3 (split; [done|]). split; [apply G; [unfold zone_range; lia|done]|].
  intros t Ht. unfold in_daily_window. rewrite Ea, Eb, <- G by done. lia.
Qed.

Lemma daily_window_is_local_day_witness :
  exists w a b, @getNewYorkDailyEntryWindow (fixed_zone 5) 1704214800000 = Ok w /\
    dw_start w = Some a /\ dw_nextStart w = Some b /\ a <= 1704214800000 < b.
Proof.
  destruct (daily_window_is_local_day (T := fixed_zone 5) 1704214800000)
    as (w & a & b & E & Ea & Eb & H & _); [lia|].
  exact (ex_intro _ w (ex_intro _ a (ex_intro _ b (conj E (conj Ea (conj Eb H)))))).
Defined.
