(* ===== verification/BrokerAccount.v ===== *)
(** Normalised broker data: integrations/alpaca/normalizers.ts and
    services/account.service.ts. The broker's HTTP answer is a parameter. *)

From Stdlib Require Import ZArith.
From Stdlib Require Import Strings.String.
From Stdlib Require Import Floats.SpecFloat.
From stdpp Require Import base list strings.
From S2P Require Import Prelude JsNumber JsValue Prisma OrderStatus DeliveryEvidence Schema.

Open Scope string_scope.
Open Scope Z_scope.

(** A field the broker sends as text or as a number, when it sends it. *)
Inductive raw_field := RawText (s : string) | RawNumber (n : num).

Record AlpacaAccount := {
  raw_status : string;
  raw_currency : string;
  raw_account_number : string;
  raw_cash : option raw_field;
  raw_buying_power : option raw_field;
  raw_portfolio_value : option raw_field;
  raw_equity : option raw_field;
  raw_last_equity : option raw_field;
  raw_long_market_value : option raw_field;
  raw_short_market_value : option raw_field;
  raw_trading_blocked : bool
}.

Record AlpacaPosition := {
  rawp_asset_id : string;
  rawp_symbol : string;
  rawp_side : string;
  rawp_qty : option raw_field;
  rawp_qty_available : option raw_field;
  rawp_avg_entry_price : option raw_field;
  rawp_current_price : option raw_field;
  rawp_market_value : option raw_field;
  rawp_cost_basis : option raw_field;
  rawp_unrealized_pl : option raw_field;
  rawp_unrealized_plpc : option raw_field
}.

Record AlpacaOrder := {
  rawo_id : string;
  rawo_client_order_id : string;
  rawo_symbol : string;
  rawo_side : string;
  rawo_type : string;
  rawo_time_in_force : string;
  rawo_qty : option raw_field;
  rawo_notional : option raw_field;
  rawo_limit_price : option raw_field;
  rawo_stop_price : option raw_field;
  rawo_status : string;
  rawo_submitted_at : string;
  rawo_filled_qty : option raw_field;
  rawo_filled_avg_price : option raw_field;
  rawo_trail_price : option raw_field;
  rawo_trail_percent : option raw_field;
  rawo_replaced_by : option string
}.

Inductive BrokerMode := paper | live.

Record BrokerAccountSummary := {
  ac_mode : BrokerMode;
  ac_status : string;
  ac_currency : string;
  ac_accountNumber : string;
  ac_cash : num;
  ac_buyingPower : num;
  ac_equity : num;
  ac_portfolioValue : num;
  ac_lastEquity : num;
  ac_longMarketValue : option num;
  ac_shortMarketValue : option num;
  ac_dayPnL : num;
  ac_dayPnLPct : option num;
  ac_tradingBlocked : bool
}.

Record BrokerPosition := {
  bp_assetId : string;
  bp_symbol : string;
  bp_side : string;
  bp_qty : num;
  bp_avgEntryPrice : num;
  bp_currentPrice : num;
  bp_marketValue : num;
  bp_costBasis : num;
  bp_unrealizedPnL : num;
  bp_unrealizedPnLPct : num
}.

Record BrokerOpenOrder := {
  ob_id : string;
  ob_clientOrderId : string;
  ob_symbol : string;
  ob_side : string;
  ob_orderType : string;
  ob_timeInForce : string;
  ob_qty : option num;
  ob_notional : option num;
  ob_limitPrice : option num;
  ob_stopPrice : option num;
  ob_status : string;
  ob_submittedAt : string;
  ob_filledQty : num;
  ob_filledAvgPrice : option num
}.

(** [Number(value)], null, undefined and the empty text set apart. *)
Definition raw_number (value : option raw_field) : option num :=
  match value with
  | None | Some (RawText "") => None
  | Some (RawText s) => Some (number_of_string s)
  | Some (RawNumber n) => Some n
  end.

(** [Number(value ?? 0)] *)
Definition number_or_zero (value : option raw_field) : num :=
  match value with
  | None => num_of_Z 0
  | Some (RawText s) => number_of_string s
  | Some (RawNumber n) => n
  end.

Definition toNumber (value : option raw_field) : num :=
  match raw_number value with
  | Some parsed => if is_finite parsed then parsed else num_of_Z 0
  | None => num_of_Z 0
  end.

Definition toNullableNumber (value : option raw_field) : option num :=
  match raw_number value with
  | Some parsed => if is_finite parsed then Some parsed else None
  | None => None
  end.

Definition normalizeAccount (raw : AlpacaAccount) (mode : BrokerMode) : BrokerAccountSummary :=
  let equity := toNumber (raw_equity raw) in
  let lastEquity := toNumber (raw_last_equity raw) in
  let dayPnL := nsub equity lastEquity in
  {| ac_mode := mode; ac_status := raw_status raw; ac_currency := raw_currency raw;
     ac_accountNumber := raw_account_number raw; ac_cash := toNumber (raw_cash raw);
     ac_buyingPower := toNumber (raw_buying_power raw); ac_equity := equity;
     ac_portfolioValue := toNumber (raw_portfolio_value raw); ac_lastEquity := lastEquity;
     ac_longMarketValue := toNullableNumber (raw_long_market_value raw);
     ac_shortMarketValue := toNullableNumber (raw_short_market_value raw);
     ac_dayPnL := dayPnL;
     ac_dayPnLPct := if neqb lastEquity (num_of_Z 0) then None else Some (ndiv dayPnL lastEquity);
     ac_tradingBlocked := raw_trading_blocked raw |}.

Definition normalizePosition (raw : AlpacaPosition) : BrokerPosition :=
  {| bp_assetId := rawp_asset_id raw; bp_symbol := rawp_symbol raw; bp_side := rawp_side raw;
     bp_qty := toNumber (rawp_qty raw); bp_avgEntryPrice := toNumber (rawp_avg_entry_price raw);
     bp_currentPrice := toNumber (rawp_current_price raw);
     bp_marketValue := toNumber (rawp_market_value raw);
     bp_costBasis := toNumber (rawp_cost_basis raw);
     bp_unrealizedPnL := toNumber (rawp_unrealized_pl raw);
     bp_unrealizedPnLPct := toNumber (rawp_unrealized_plpc raw) |}.

Definition normalizeOpenOrder (raw : AlpacaOrder) : BrokerOpenOrder :=
  {| ob_id := rawo_id raw; ob_clientOrderId := rawo_client_order_id raw;
     ob_symbol := rawo_symbol raw; ob_side := rawo_side raw; ob_orderType := rawo_type raw;
     ob_timeInForce := rawo_time_in_force raw; ob_qty := toNullableNumber (rawo_qty raw);
     ob_notional := toNullableNumber (rawo_notional raw);
     ob_limitPrice := toNullableNumber (rawo_limit_price raw);
     ob_stopPrice := toNullableNumber (rawo_stop_price raw); ob_status := rawo_status raw;
     ob_submittedAt := rawo_submitted_at raw; ob_filledQty := toNumber (rawo_filled_qty raw);
     ob_filledAvgPrice := toNullableNumber (rawo_filled_avg_price raw) |}.

(** The broker's account endpoint: [GET /v2/account] for an account. *)
Class BrokerApi := alpaca_account : Z -> res AlpacaAccount.

Section Account.
Context `{Prisma} `{BrokerApi}.

(** [getNormalizedAccount]; the row is looked up by its unique id. *)
Definition getNormalizedAccount (db : Db) (tradingAccountId : Z) : res BrokerAccountSummary :=
  raw ← alpaca_account tradingAccountId;
  match find_first (fun a => ta_id a =? tradingAccountId) (tradingAccounts db) with
  | None => Throw (PlainError "No TradingAccount found")
  | Some account =>
      mret (normalizeAccount raw (if String.eqb (ta_environment account) "PAPER" then paper else live))
  end.
End Account.
