(* ===== verification/ExactDecimal.v ===== *)
(** Exact decimal quantities: the parser and the arithmetic on big integers of
    services/verified-exit-submission.service.ts. *)

From Stdlib Require Import ZArith Lia QArith.
From Stdlib Require Import Strings.String Strings.Ascii.
From Stdlib Require Import Floats.SpecFloat.
From stdpp Require Import base list strings pretty.
From S2P Require Import Prelude JsNumber JsValue Prisma OrderStatus DeliveryEvidence Schema BrokerAccount.

Open Scope string_scope.
Open Scope Z_scope.

(** * The operations *)

Record ExactDecimal := { coefficient : Z; scale : nat; canonical : string }.

Fixpoint all_digits (s : string) : bool :=
  match s with
  | EmptyString => true
  | String c s => is_digit c && all_digits s
  end.

(** [BigInt(s)] on a string of digits, [acc] being what was read before. *)
Fixpoint digits_from (acc : Z) (s : string) : Z :=
  match s with
  | EmptyString => acc
  | String c s => digits_from (acc * 10 + digit_value c) s
  end.
Definition digits_value (s : string) : Z := digits_from 0 s.

(** [s.split(".")]: the part before the first dot and the part after it. *)
Fixpoint split_dot (s : string) : string * option string :=
  match s with
  | EmptyString => (EmptyString, None)
  | String c s =>
      if Ascii.eqb c "." then (EmptyString, Some s)
      else let '(w, f) := split_dot s in (String c w, f)
  end.

(** The integer part the pattern accepts: 0, or digits without a leading zero. *)
Definition valid_whole (w : string) : bool :=
  String.eqb w "0" ||
  match w with
  | String c s => is_digit c && negb (Ascii.eqb c "0") && all_digits s
  | EmptyString => false
  end.

(** The pattern of the parser: an integer part and, after a dot, at least one digit. *)
Definition is_decimal (text : string) : bool :=
  let '(w, f) := split_dot text in
  valid_whole w &&
  match f with Some f => negb (String.eqb f "") && all_digits f | None => true end.

(** The text without its trailing zeros. *)
Fixpoint strip_zeros (s : string) : string :=
  match s with
  | EmptyString => EmptyString
  | String c s =>
      match strip_zeros s with
      | EmptyString => if Ascii.eqb c "0" then EmptyString else String c EmptyString
      | r => String c r
      end
  end.

Definition join_decimal (whole fraction : string) : string :=
  if String.eqb fraction "" then whole else whole ++ "." ++ fraction.

Definition exact_text (value : option raw_field) : string :=
  match value with
  | Some (RawNumber n) => num_to_string n
  | Some (RawText s) => trim s
  | None => ""
  end.

Definition parseExactNonNegativeDecimal (value : option raw_field) : option ExactDecimal :=
  let text := exact_text value in
  if negb (is_decimal text) then None else
  let '(whole, fraction) := split_dot text in
  let trimmedFraction := strip_zeros (default "" fraction) in
  Some {| coefficient := digits_value (whole ++ trimmedFraction);
          scale := String.length trimmedFraction;
          canonical := join_decimal whole trimmedFraction |}.

Definition parseExactPositiveDecimal (value : option raw_field) : option ExactDecimal :=
  match parseExactNonNegativeDecimal value with
  | Some parsed => if 0 <? coefficient parsed then Some parsed else None
  | None => None
  end.

(** The coefficient of a decimal written with [k] fraction digits. *)
Definition aligned (k : nat) (d : ExactDecimal) : Z :=
  coefficient d * 10 ^ Z.of_nat (k - scale d).

Definition compareDecimal (left right : ExactDecimal) : Z :=
  let k := Nat.max (scale left) (scale right) in
  let leftCoefficient := aligned k left in
  let rightCoefficient := aligned k right in
  if leftCoefficient <? rightCoefficient then -1
  else if rightCoefficient <? leftCoefficient then 1 else 0.

Definition equalDecimal (left right : ExactDecimal) : bool :=
  if (scale left =? scale right)%nat then coefficient left =? coefficient right
  else
    let k := Nat.max (scale left) (scale right) in
    aligned k left =? aligned k right.

(** [s.padStart(n, "0")] *)
Definition pad_start (n : nat) (s : string) : string := zeros (n - String.length s) ++ s.

Definition subtractDecimal (left right : ExactDecimal) : option string :=
  let k := Nat.max (scale left) (scale right) in
  let difference := aligned k left - aligned k right in
  if difference <? 0 then None
  else if (k =? 0)%nat then Some (z_str difference)
  else
    let padded := pad_start (k + 1) (z_str difference) in
    let whole := String.substring 0 (String.length padded - k) padded in
    let fraction := strip_zeros (String.substring (String.length padded - k) k padded) in
    Some (join_decimal whole fraction).

(** A price with at least two fraction digits. *)
Definition formatBrokerPrice (value : string) : string :=
  let '(whole, fraction) := split_dot value in
  let fraction := default "" fraction in
  whole ++ "." ++ fraction ++ zeros (2 - String.length fraction).

(** * Digit strings *)

Lemma append_cons c s t : String c s ++ t = String c (s ++ t).
Proof. done. Qed.

Lemma length_app s t : String.length (s ++ t) = (String.length s + String.length t)%nat.
Proof. induction s as [|c s IH]; [done|]. exact (f_equal S IH). Qed.

Lemma all_digits_app s t : all_digits (s ++ t) = all_digits s && all_digits t.
Proof.
  induction s as [|c s IH]; [done|]. rewrite append_cons. cbn [all_digits].
  by rewrite IH, andb_assoc.
Qed.

Lemma digits_from_eq acc s :
  digits_from acc s = acc * 10 ^ Z.of_nat (String.length s) + digits_value s.
Proof.
  unfold digits_value. revert acc. induction s as [|c s IH]; intros acc; cbn [digits_from String.length].
  - change (10 ^ Z.of_nat 0) with 1. lia.
  - rewrite (IH (acc * 10 + _)), (IH (0 * 10 + _)), Nat2Z.inj_succ, Z.pow_succ_r by lia. ring.
Qed.

Lemma digits_value_app s t :
  digits_value (s ++ t) = digits_value s * 10 ^ Z.of_nat (String.length t) + digits_value t.
Proof.
  unfold digits_value at 1 2. generalize 0.
  induction s as [|c s IH]; intros acc; rewrite ?append_cons; cbn [digits_from].
  - apply digits_from_eq.
  - apply IH.
Qed.

Lemma digit_value_range c : is_digit c = true -> 0 <= digit_value c <= 9.
Proof.
  unfold is_digit, digit_value. rewrite andb_true_iff, !Nat.leb_le. lia.
Qed.

Lemma digits_value_nonneg s : all_digits s = true -> 0 <= digits_value s.
Proof.
  unfold digits_value. enough (H : forall acc, 0 <= acc -> all_digits s = true -> 0 <= digits_from acc s)
    by (by apply H). induction s as [|c s IH]; cbn; [done|]. intros acc Ha.
  intros [Hc Hs]%andb_true_iff. apply IH; [|done]. apply digit_value_range in Hc. lia.
Qed.

Lemma zeros_length n : String.length (zeros n) = n.
Proof. induction n as [|n IH]; [done|]. exact (f_equal S IH). Qed.
Lemma zeros_digits n : all_digits (zeros n) = true.
Proof. by induction n. Qed.
Lemma zeros_value n : digits_value (zeros n) = 0.
Proof. unfold digits_value. by induction n. Qed.

(** ** The decimal form of an integer *)

Lemma pretty_char x : (x < 10)%N ->
  is_digit (pretty_N_char x) = true /\ digit_value (pretty_N_char x) = Z.of_N x /\
  (pretty_N_char x = "0"%char <-> x = 0%N).
Proof.
  intros Hx. assert (H : In x [0;1;2;3;4;5;6;7;8;9]%N) by (cbn; lia).
  cbn in H. repeat destruct H as [<-|H]; [..|done]; split; done.
Qed.

Definition no_leading_zero (s : string) : Prop :=
  match s with String c _ => c <> "0"%char | EmptyString => False end.

Lemma append_assoc (r s t : string) : (r ++ s) ++ t = r ++ (s ++ t).
Proof. induction r as [|c r IH]; [done|]. rewrite !append_cons. by rewrite IH. Qed.

Lemma pretty_go_app x s : pretty_N_go x s = pretty_N_go x "" ++ s.
Proof.
  revert s. induction (N.lt_wf_0 x) as [x _ IH]. intros s.
  assert (x = 0 \/ 0 < x)%N as [->|Hx] by lia; [done|].
  rewrite !(pretty_N_go_step x) by done. assert (Hlt : (x / 10 < x)%N) by (apply N.div_lt; lia).
  rewrite (IH _ Hlt (String _ s)), (IH _ Hlt (String _ "")). by rewrite append_assoc.
Qed.

Lemma leading_app s t : no_leading_zero s -> no_leading_zero (s ++ t).
Proof. by destruct s. Qed.

Lemma pretty_go_spec x :
  let r := pretty_N_go x "" in
  all_digits r = true /\ digits_value r = Z.of_N x /\ ((0 < x)%N -> no_leading_zero r).
Proof.
  cbv zeta. induction (N.lt_wf_0 x) as [x _ IH].
  assert (x = 0 \/ 0 < x)%N as [->|Hx] by lia; [done|].
  rewrite pretty_N_go_step, pretty_go_app by done.
  pose proof (N.div_mod x 10 ltac:(lia)) as Hdm. pose proof (N.mod_lt x 10 ltac:(lia)) as Hm.
  destruct (pretty_char (x mod 10) Hm) as (Hd & Hv & Hz).
  assert (Hlt : (x / 10 < x)%N) by (apply N.div_lt; lia).
  destruct (IH _ Hlt) as (I1 & I2 & I3). split; [|split].
  - rewrite all_digits_app, I1. cbn. by rewrite Hd.
  - rewrite digits_value_app, I2. unfold digits_value. cbn [digits_from String.length].
    rewrite Hv. change (10 ^ Z.of_nat 1) with 10. lia.
  - intros _. assert (x / 10 = 0 \/ 0 < x / 10)%N as [E|E] by lia.
    + rewrite E. cbn. intros H. apply Hz in H. lia.
    + by apply leading_app, I3.
Qed.

Lemma z_str_spec n :
  0 <= n -> all_digits (z_str n) = true /\ digits_value (z_str n) = n /\
  valid_whole (z_str n) = true.
Proof.
  intros Hn. unfold z_str. destruct n as [|p|p]; [done| |lia].
  change (pretty (Zpos p)) with (pretty_N_go (Npos p) "").
  destruct (pretty_go_spec (Npos p)) as (H1 & H2 & H3). split; [done|]. split; [by rewrite H2|].
  specialize (H3 ltac:(lia)). destruct (pretty_N_go (Npos p) "") as [|c r]; [done|].
  unfold valid_whole. cbn in H1, H3. apply andb_true_iff in H1 as [Hc Hr].
  rewrite Hc, Hr. destruct (Ascii.eqb_spec c "0"); [done|]. by rewrite orb_true_r.
Qed.

(** ** Written decimals *)

Lemma digits_split s t : all_digits s = true -> split_dot (s ++ t) =
  (s ++ fst (split_dot t), snd (split_dot t)).
Proof.
  induction s as [|c s IH]; cbn [all_digits].
  { intros _. change ("" ++ t) with t. by destruct (split_dot t). }
  intros [Hc Hs]%andb_true_iff. rewrite append_cons. cbn [split_dot].
  rewrite (IH Hs). destruct (Ascii.eqb_spec c ".") as [->|]; [by cbn in Hc|].
  by rewrite append_cons.
Qed.

Lemma valid_whole_digits w : valid_whole w = true -> all_digits w = true.
Proof.
  unfold valid_whole. intros [->%String.eqb_eq|H]%orb_true_iff; [done|].
  destruct w as [|c w]; [done|]. cbn. apply andb_true_iff in H as [[-> _]%andb_true_iff ->]. done.
Qed.

Lemma append_nil s : s ++ "" = s.
Proof. induction s as [|c s IH]; [done|]. by rewrite append_cons, IH. Qed.

Lemma split_join w f :
  all_digits w = true -> all_digits f = true ->
  split_dot (join_decimal w f) = (w, if String.eqb f "" then None else Some f).
Proof.
  intros Hw Hf. unfold join_decimal. destruct (String.eqb_spec f "") as [->|Hn].
  - rewrite <- (append_nil w) at 1. by rewrite digits_split, append_nil.
  - rewrite digits_split by done. cbn. by rewrite append_nil.
Qed.

(** Digits are not white space, so trimming a decimal keeps it. *)
Lemma digit_no_space c : is_digit c = true -> is_space c = false.
Proof. destruct c as [[] [] [] [] [] [] [] []]; vm_compute; congruence. Qed.

Definition decimal_char (c : ascii) : bool := is_digit c || Ascii.eqb c ".".

Fixpoint all_chars (p : ascii -> bool) (s : string) : bool :=
  match s with EmptyString => true | String c s => p c && all_chars p s end.

Lemma all_chars_app p s t : all_chars p (s ++ t) = all_chars p s && all_chars p t.
Proof.
  induction s as [|c s IH]; [done|]. rewrite append_cons. cbn [all_chars]. by rewrite IH, andb_assoc.
Qed.

Lemma trim_start_first p s :
  (forall c, p c = true -> is_space c = false) -> all_chars p s = true -> trim_start s = s.
Proof.
  intros Hp. destruct s as [|c s]; cbn [all_chars trim_start]; [done|].
  intros [Hc _]%andb_true_iff. by rewrite Hp.
Qed.

Lemma all_chars_digits s : all_digits s = true -> all_chars decimal_char s = true.
Proof.
  induction s as [|c s IH]; [done|]. cbn. intros [Hc Hs]%andb_true_iff.
  unfold decimal_char at 1. by rewrite Hc, IH.
Qed.

Lemma join_chars w f :
  all_digits w = true -> all_digits f = true -> all_chars decimal_char (join_decimal w f) = true.
Proof.
  intros Hw Hf. unfold join_decimal. destruct (String.eqb f ""); [by apply all_chars_digits|].
  rewrite !all_chars_app, (all_chars_digits w), (all_chars_digits f) by done. done.
Qed.

Lemma all_chars_list p s : all_chars p s = forallb p (list_ascii_of_string s).
Proof. induction s as [|c s IH]; [done|]. cbn. by rewrite IH. Qed.

Lemma all_chars_rev p s : all_chars p (rev_string s) = all_chars p s.
Proof.
  rewrite !all_chars_list. unfold rev_string. rewrite list_ascii_of_string_of_list_ascii.
  induction (list_ascii_of_string s) as [|c l IH]; [done|]. cbn. rewrite forallb_app, IH. cbn.
  by rewrite andb_true_r, andb_comm.
Qed.

Lemma decimal_no_space c : decimal_char c = true -> is_space c = false.
Proof. destruct c as [[] [] [] [] [] [] [] []]; vm_compute; congruence. Qed.

Lemma trim_decimal s : all_chars decimal_char s = true -> trim s = s.
Proof.
  intros Hs. unfold trim. rewrite (trim_start_first decimal_char s decimal_no_space Hs).
  rewrite (trim_start_first decimal_char _ decimal_no_space) by by rewrite all_chars_rev.
  apply rev_string_involutive.
Qed.

(** ** Trailing zeros *)

Lemma strip_zeros_cons c s : strip_zeros (String c s) =
  if String.eqb (strip_zeros s) "" then (if Ascii.eqb c "0" then "" else String c "")
  else String c (strip_zeros s).
Proof. cbn. by destruct (strip_zeros s). Qed.

Lemma strip_zeros_pad s : exists n, s = strip_zeros s ++ zeros n.
Proof.
  induction s as [|c s [n IH]]; [by exists O|]. rewrite strip_zeros_cons.
  destruct (String.eqb_spec (strip_zeros s) "") as [E|E].
  - rewrite E in IH. change ("" ++ zeros n) with (zeros n) in IH. rewrite IH.
    destruct (Ascii.eqb_spec c "0") as [->|]; [by exists (S n)|by exists n].
  - exists n. rewrite append_cons. by rewrite <- IH.
Qed.

Lemma strip_zeros_idem s : strip_zeros (strip_zeros s) = strip_zeros s.
Proof.
  induction s as [|c s IH]; [done|]. rewrite strip_zeros_cons.
  destruct (String.eqb_spec (strip_zeros s) "") as [E|E].
  - destruct (Ascii.eqb c "0") eqn:Ec; [done|]. cbn. by rewrite Ec.
  - rewrite strip_zeros_cons, IH. by destruct (String.eqb_spec (strip_zeros s) "").
Qed.

Lemma strip_zeros_digits s : all_digits s = true -> all_digits (strip_zeros s) = true.
Proof.
  intros H. destruct (strip_zeros_pad s) as [n E]. rewrite E in H.
  rewrite all_digits_app in H. by apply andb_true_iff in H as [? _].
Qed.

(** Stripping changes the scale, not the value. *)
Lemma strip_zeros_value w s :
  (String.length (strip_zeros s) <= String.length s)%nat /\
  digits_value (w ++ s) = digits_value (w ++ strip_zeros s) *
    10 ^ Z.of_nat (String.length s - String.length (strip_zeros s)).
Proof.
  destruct (strip_zeros_pad s) as [n E]. set (t := strip_zeros s) in *.
  rewrite E, length_app, zeros_length. split; [lia|].
  rewrite <- append_assoc, digits_value_app, zeros_value, zeros_length.
  replace (String.length t + n - String.length t)%nat with n by lia. lia.
Qed.

(** ** The values *)

(** The rational a decimal stands for. *)
Definition dvalue (d : ExactDecimal) : Q :=
  Qmake (coefficient d) (Z.to_pos (10 ^ Z.of_nat (scale d))).

(** The decimal whose parts are [w] and the fraction digits [f]. *)
Definition written (w f : string) : ExactDecimal :=
  {| coefficient := digits_value (w ++ strip_zeros f); scale := String.length (strip_zeros f);
     canonical := join_decimal w (strip_zeros f) |}.

Lemma parse_join w f :
  valid_whole w = true -> all_digits f = true ->
  parseExactNonNegativeDecimal (Some (RawText (join_decimal w f))) = Some (written w f).
Proof.
  intros Hw Hf. pose proof (valid_whole_digits w Hw) as Hwd.
  unfold parseExactNonNegativeDecimal, exact_text. rewrite trim_decimal by by apply join_chars.
  unfold is_decimal. rewrite split_join by done. rewrite Hw. cbn [andb].
  destruct (String.eqb_spec f "") as [->|Hn]; cbn [negb andb]; [done|].
  destruct (String.eqb_spec f ""); [done|]. by rewrite Hf.
Qed.

Lemma split_dot_inv s w f :
  split_dot s = (w, f) -> s = match f with Some f => w ++ "." ++ f | None => w end.
Proof.
  revert w f. induction s as [|c s IH]; intros w f; cbn [split_dot]; [by intros [= <- <-]|].
  destruct (Ascii.eqb_spec c ".") as [->|]; [by intros [= <- <-]|].
  destruct (split_dot s) as [w' f'] eqn:E. intros [= <- <-]. rewrite (IH _ _ eq_refl).
  by destruct f'.
Qed.

Lemma parse_written value d :
  parseExactNonNegativeDecimal value = Some d ->
  exists w f, valid_whole w = true /\ all_digits f = true /\ d = written w f /\
    exact_text value = join_decimal w f.
Proof.
  unfold parseExactNonNegativeDecimal. generalize (exact_text value). intros text.
  unfold is_decimal. destruct (split_dot text) as [w f] eqn:E. apply split_dot_inv in E.
  destruct (valid_whole w) eqn:Hw; cbn [andb negb]; [|done]. destruct f as [f|]; cbn [negb].
  - destruct (String.eqb_spec f "") as [->|Hn]; cbn [negb andb]; [done|].
    destruct (all_digits f) eqn:Hf; [|done]. cbn [negb]. intros [= <-]. exists w, f.
    split; [done|]. split; [done|]. split; [done|]. unfold join_decimal.
    by destruct (String.eqb_spec f "").
  - intros [= <-]. by exists w, "".
Qed.

Lemma ten_pow_pos n : (0 < 10 ^ Z.of_nat n)%Z.
Proof. apply Z.pow_pos_nonneg; lia. Qed.

Lemma dvalue_written w f :
  (dvalue (written w f) ==
   Qmake (digits_value (w ++ f)) (Z.to_pos (10 ^ Z.of_nat (String.length f))))%Q.
Proof.
  destruct (strip_zeros_value w f) as [Hl Hv]. unfold dvalue, written, Qeq.
  cbn [Qnum Qden coefficient scale].
  rewrite !Z2Pos.id by apply ten_pow_pos. rewrite Hv.
  rewrite <- Z.mul_assoc, <- Z.pow_add_r by lia. f_equal. f_equal. lia.
Qed.

(** The aligned coefficients are the values times a common power of ten. *)
Lemma aligned_value k d : (scale d <= k)%nat ->
  (dvalue d == Qmake (aligned k d) (Z.to_pos (10 ^ Z.of_nat k)))%Q.
Proof.
  intros Hk. unfold dvalue, aligned, Qeq. cbn [Qnum Qden].
  rewrite !Z2Pos.id by apply ten_pow_pos. rewrite <- Z.mul_assoc, <- Z.pow_add_r by lia.
  f_equal. f_equal. lia.
Qed.

Lemma compare_aligned l r :
  let k := Nat.max (scale l) (scale r) in
  (Qcompare (dvalue l) (dvalue r) = Z.compare (aligned k l) (aligned k r)).
Proof.
  intros k. rewrite (Qcompare_comp _ _ (aligned_value k l ltac:(lia)) _ _ (aligned_value k r ltac:(lia))).
  unfold Qcompare. cbn [Qnum Qden]. set (p := Z.to_pos _).
  symmetry. apply Zmult_compare_compat_r. lia.
Qed.

Lemma canonical_parse value d :
  parseExactNonNegativeDecimal value = Some d ->
  parseExactNonNegativeDecimal (Some (RawText (canonical d))) = Some d.
Proof.
  intros Hd. destruct (parse_written _ _ Hd) as (w & f & Hw & Hf & -> & E).
  cbn [canonical written]. rewrite parse_join by by (try apply strip_zeros_digits).
  unfold written. by rewrite strip_zeros_idem.
Qed.

Lemma parse_positive value d : parseExactPositiveDecimal value = Some d -> 0 < coefficient d.
Proof.
  unfold parseExactPositiveDecimal. destruct (parseExactNonNegativeDecimal value); [|done].
  destruct (Z.ltb_spec 0 (coefficient e)); [|done]. by intros [= <-].
Qed.

Lemma canonical_parse_positive value d :
  parseExactPositiveDecimal value = Some d ->
  parseExactPositiveDecimal (Some (RawText (canonical d))) = Some d.
Proof.
  intros Hd. pose proof (parse_positive value d Hd) as Hp. revert Hd.
  unfold parseExactPositiveDecimal.
  destruct (parseExactNonNegativeDecimal value) as [e|] eqn:E; [|done].
  destruct (0 <? coefficient e); [|done]. intros [= ->]. rewrite (canonical_parse value d E).
  by destruct (Z.ltb_spec 0 (coefficient d)); [|lia].
Qed.

(** ** Comparison *)

Lemma compare_exact left right :
  (compareDecimal left right = -1 <-> (dvalue left < dvalue right)%Q) /\
  (compareDecimal left right = 1 <-> (dvalue right < dvalue left)%Q) /\
  (compareDecimal left right = 0 <-> (dvalue left == dvalue right)%Q) /\
  (equalDecimal left right = true <-> (dvalue left == dvalue right)%Q).
Proof.
  pose proof (compare_aligned left right) as Hc. cbv zeta in Hc.
  unfold compareDecimal, equalDecimal. set (k := Nat.max _ _) in *.
  rewrite !Qlt_alt, Qeq_alt, <- (Qcompare_antisym (dvalue left) (dvalue right)), Hc.
  assert (He : (if (scale left =? scale right)%nat then coefficient left =? coefficient right
                else aligned k left =? aligned k right) = (aligned k left =? aligned k right)).
  { destruct (Nat.eqb_spec (scale left) (scale right)) as [E|]; [|done].
    unfold aligned, k. rewrite E, Nat.max_id, Nat.sub_diag. change (10 ^ Z.of_nat 0) with 1.
    by rewrite !Z.mul_1_r. }
  rewrite He. clear He Hc. destruct (Z.compare_spec (aligned k left) (aligned k right)) as [E|E|E];
    destruct (Z.ltb_spec (aligned k left) (aligned k right)),
      (Z.ltb_spec (aligned k right) (aligned k left)),
      (Z.eqb_spec (aligned k left) (aligned k right)); cbn; (split; [|split; [|split]]); try lia;
    split; congruence.
Qed.

(** ** Subtraction *)

Lemma substring_0_all s t : String.substring 0 (String.length s) (s ++ t) = s.
Proof.
  induction s as [|c s IH]; [by destruct t|]. rewrite append_cons. cbn. by rewrite IH.
Qed.

Lemma substring_skip s t : String.substring (String.length s) (String.length t) (s ++ t) = t.
Proof.
  induction s as [|c s IH]; [|exact IH]. change ("" ++ t) with t.
  cbn. rewrite <- (append_nil t) at 2. apply substring_0_all.
Qed.

(** A string splits at any length. *)
Lemma split_at n s : (n <= String.length s)%nat ->
  exists u v, s = u ++ v /\ String.length u = n.
Proof.
  revert s. induction n as [|n IH]; intros s Hn; [by exists "", s|].
  destruct s as [|c s]; cbn in Hn; [lia|]. destruct (IH s) as (u & v & -> & <-); [lia|].
  by exists (String c u), v.
Qed.

Lemma valid_whole_prefix w f :
  valid_whole (w ++ f) = true -> w <> "" -> valid_whole w = true.
Proof.
  destruct w as [|c w]; [done|]. rewrite append_cons. unfold valid_whole.
  intros [E%String.eqb_eq|E]%orb_true_iff _.
  - injection E as -> E. destruct w; [done|by rewrite append_cons in E].
  - rewrite all_digits_app in E. apply orb_true_iff. right.
    apply andb_true_iff in E as [-> E]. by apply andb_true_iff in E as [-> _].
Qed.

Lemma valid_whole_single w : all_digits w = true -> String.length w = 1%nat -> valid_whole w = true.
Proof.
  destruct w as [|c [|? ?]]; [done| |done]. cbn [all_digits]. rewrite andb_true_r. intros H _.
  unfold valid_whole. destruct (Ascii.eqb_spec c "0") as [->|]; [done|].
  cbn [all_digits negb]. by rewrite H, orb_true_r.
Qed.

(** The padded difference splits into an integer part and [k] fraction digits. *)
Lemma padded_parts k n :
  (0 < k)%nat -> 0 <= n ->
  exists w f, pad_start (k + 1) (z_str n) = w ++ f /\ String.length f = k /\
    valid_whole w = true /\ all_digits f = true /\ digits_value (w ++ f) = n.
Proof.
  intros Hk Hn. destruct (z_str_spec n Hn) as (Hd & Hv & Hw).
  unfold pad_start. set (z := z_str n) in *. set (m := (k + 1 - String.length z)%nat).
  assert (Hp : all_digits (zeros m ++ z) = true) by by rewrite all_digits_app, zeros_digits.
  assert (Hpv : digits_value (zeros m ++ z) = n) by (rewrite digits_value_app, zeros_value; lia).
  assert (Hlen : String.length (zeros m ++ z) = Nat.max (k + 1) (String.length z))
    by (rewrite length_app, zeros_length; lia).
  destruct (split_at (String.length (zeros m ++ z) - k) (zeros m ++ z)) as (w & f & E & Hwl); [lia|].
  exists w, f. rewrite <- E. split; [done|]. rewrite E in Hp. rewrite all_digits_app in Hp.
  apply andb_true_iff in Hp as [Hp1 Hp2].
  assert (Hfl : String.length f = k) by (rewrite E, length_app in Hwl, Hlen; lia).
  split; [done|]. split; [|done].
  destruct (decide (String.length z <= k + 1)%nat) as [Hz|Hz].
  - apply valid_whole_single; [done|lia].
  - assert (m = 0%nat) as Hm by lia. rewrite Hm in E. change (zeros 0 ++ z) with z in E.
    rewrite E in Hw. apply valid_whole_prefix in Hw; [done|]. intros ->. cbn in Hwl. lia.
Qed.

Lemma padded_substrings k w f :
  String.length f = k ->
  String.substring 0 (String.length (w ++ f) - k) (w ++ f) = w /\
  String.substring (String.length (w ++ f) - k) k (w ++ f) = f.
Proof.
  intros <-. rewrite length_app, Nat.add_sub. split; [apply substring_0_all|apply substring_skip].
Qed.

Lemma subtract_exact left right :
  (subtractDecimal left right = None <-> (dvalue left < dvalue right)%Q) /\
  (forall s, subtractDecimal left right = Some s ->
     exists d, parseExactNonNegativeDecimal (Some (RawText s)) = Some d /\ canonical d = s /\
       (dvalue d == dvalue left - dvalue right)%Q).
Proof.
  pose proof (compare_aligned left right) as Hc. cbv zeta in Hc.
  unfold subtractDecimal. set (k := Nat.max _ _) in *.
  pose proof (aligned_value k left ltac:(lia)) as Hl.
  pose proof (aligned_value k right ltac:(lia)) as Hr.
  set (a := aligned k left) in *. set (b := aligned k right) in *.
  assert (Hd : (dvalue left - dvalue right == Qmake (a - b) (Z.to_pos (10 ^ Z.of_nat k)))%Q).
  { rewrite Hl, Hr. unfold Qeq, Qminus, Qplus, Qopp. cbn [Qnum Qden].
    rewrite Pos2Z.inj_mul. ring. }
  rewrite Qlt_alt, Hc. destruct (Z.ltb_spec (a - b) 0) as [Hn|Hn].
  { split; [|done]. split; [intros _; apply Z.compare_lt_iff; lia|done]. }
  split.
  { split; [by destruct (k =? 0)%nat|]. intros E. pose proof (proj1 (Z.compare_lt_iff a b) E). lia. }
  intros s Hs. setoid_rewrite Hd. destruct (z_str_spec (a - b) Hn) as (_ & Hv & Hw).
  assert (G : forall w f, valid_whole w = true -> all_digits f = true -> String.length f = k ->
    digits_value (w ++ f) = a - b -> s = join_decimal w (strip_zeros f) ->
    exists d, parseExactNonNegativeDecimal (Some (RawText s)) = Some d /\ canonical d = s /\
       (dvalue d == Qmake (a - b) (Z.to_pos (10 ^ Z.of_nat k)))%Q).
  { intros w f Hww Hf Hk Hval ->. exists (written w f). split; [|split; [done|]].
    - rewrite parse_join by by (try apply strip_zeros_digits). unfold written.
      by rewrite strip_zeros_idem.
    - by rewrite dvalue_written, Hval, Hk. }
  destruct (Nat.eqb_spec k 0) as [Hk|Hk].
  - injection Hs as <-. apply (G (z_str (a - b)) ""); [done|done|by rewrite Hk| |done].
    by rewrite append_nil.
  - destruct (padded_parts k (a - b) ltac:(lia) Hn) as (w & f & E & Hfk & Hww & Hf & Hval).
    rewrite E in Hs. destruct (padded_substrings k w f Hfk) as [E1 E2]. rewrite E1, E2 in Hs.
    injection Hs as <-. by apply (G w f).
Qed.

(** ** The canonical zero *)

Lemma digits_value_zero s : all_digits s = true -> digits_value s = 0 -> s = zeros (String.length s).
Proof.
  induction s as [|c s IH]; [done|]. cbn [all_digits String.length].
  intros [Hc Hs]%andb_true_iff Hv. change (String c s) with (String c "" ++ s) in Hv.
  rewrite digits_value_app in Hv. unfold digits_value at 1 in Hv. cbn [digits_from] in Hv.
  pose proof (digits_value_nonneg s Hs). pose proof (digit_value_range c Hc).
  pose proof (ten_pow_pos (String.length s)).
  assert (digit_value c = 0) as Hc0 by nia.
  change (zeros (S (String.length s))) with (String "0" (zeros (String.length s))).
  rewrite <- IH by (done || lia). f_equal. clear -Hc0 Hc.
  destruct c as [[] [] [] [] [] [] [] []]; vm_compute in Hc, Hc0; congruence.
Qed.

Lemma strip_zeros_zeros n : strip_zeros (zeros n) = "".
Proof.
  induction n as [|n IH]; [done|].
  change (zeros (S n)) with (String "0" (zeros n)). by rewrite strip_zeros_cons, IH.
Qed.

Lemma parse_nonneg value d : parseExactNonNegativeDecimal value = Some d -> 0 <= coefficient d.
Proof.
  intros Hp. destruct (parse_written _ _ Hp) as (w & f & Hw & Hf & -> & _).
  cbn [coefficient written]. apply digits_value_nonneg.
  by rewrite all_digits_app, valid_whole_digits, strip_zeros_digits.
Qed.

(** A quantity of value zero is written 0. *)
Lemma zero_canonical value d :
  parseExactNonNegativeDecimal value = Some d -> coefficient d = 0 -> canonical d = "0".
Proof.
  intros Hp Hz. destruct (parse_written _ _ Hp) as (w & f & Hw & Hf & -> & _).
  cbn [coefficient canonical written] in *. pose proof (valid_whole_digits w Hw) as Hwd.
  pose proof (strip_zeros_digits f Hf) as Hsd.
  rewrite digits_value_app in Hz. pose proof (digits_value_nonneg _ Hwd).
  pose proof (digits_value_nonneg _ Hsd). pose proof (ten_pow_pos (String.length (strip_zeros f))).
  assert (Hs0 : digits_value (strip_zeros f) = 0) by nia.
  assert (Hw0 : digits_value w = 0) by nia.
  apply digits_value_zero in Hs0; [|done]. apply digits_value_zero in Hw0; [|done].
  assert (strip_zeros f = "") as ->.
  { rewrite <- strip_zeros_idem, Hs0. apply strip_zeros_zeros. }
  rewrite Hw0 in Hw |- *. by destruct (String.length w) as [|[|n]].
Qed.

(** * Properties *)

(** Exact parsing: any unsigned decimal text without a superfluous leading
    zero is accepted with exactly its value, however many digits it has;
    nothing else is; and the canonical form of an accepted quantity denotes
    the same quantity. *)
Theorem exact_parse value :
  (forall w f, valid_whole w = true -> all_digits f = true -> exact_text value = join_decimal w f ->
     exists d, parseExactNonNegativeDecimal value = Some d /\
       (dvalue d == Qmake (digits_value (w ++ f)) (Z.to_pos (10 ^ Z.of_nat (String.length f))))%Q) /\
  (forall d, parseExactNonNegativeDecimal value = Some d ->
     (exists w f, valid_whole w = true /\ all_digits f = true /\ exact_text value = join_decimal w f) /\
     parseExactNonNegativeDecimal (Some (RawText (canonical d))) = Some d).
Proof.
  split.
  - intros w f Hw Hf E. exists (written w f). split; [|apply dvalue_written].
    pose proof (parse_join w f Hw Hf) as Hp. unfold parseExactNonNegativeDecimal in *.
    rewrite E. unfold exact_text in Hp.
    rewrite trim_decimal in Hp; [done|]. apply join_chars; [by apply valid_whole_digits|done].
  - intros d Hd. destruct (parse_written _ _ Hd) as (w & f & Hw & Hf & -> & E).
    split; [by exists w, f|by apply (canonical_parse value)].
Qed.

(** C25. Exact arithmetic: comparison and equality of quantities are those of
    the rationals they denote, whatever their scales and without rounding; a
    difference is refused exactly when it would be negative, and otherwise its
    text is the canonical form of the exact difference, so that parsing it
    back never fails. *)
Theorem exact_arithmetic left right :
  (compareDecimal left right = -1 <-> (dvalue left < dvalue right)%Q) /\
  (compareDecimal left right = 1 <-> (dvalue right < dvalue left)%Q) /\
  (equalDecimal left right = true <-> (dvalue left == dvalue right)%Q) /\
  (subtractDecimal left right = None <-> (dvalue left < dvalue right)%Q) /\
  (forall s, subtractDecimal left right = Some s ->
     exists d, parseExactNonNegativeDecimal (Some (RawText s)) = Some d /\ canonical d = s /\
       (dvalue d == dvalue left - dvalue right)%Q).
Proof.
  destruct (compare_exact left right) as (H1 & H2 & _ & H4). destruct (subtract_exact left right).
  done.
Qed.
