(* ===== verification/ClientOrderId.v ===== *)
(** The client order ids of entry orders: services/client-order-id.service.ts.
    An id carries the subscription's key, in hexadecimal, or the id of the
    account's subscription; both are read back from broker records to attribute
    positions. Texts are UTF-8 bytes; the lengths compared are those of ASCII
    texts. *)

From Stdlib Require Import ZArith Lia.
From Stdlib Require Import Strings.String Strings.Ascii.
From stdpp Require Import base list strings.
From S2P Require Import Prelude JsValue JsDate ExactDecimal.

Open Scope string_scope.
Open Scope Z_scope.

Definition SUBSCRIPTION_KEY_TOKEN_PREFIX : string := "skx".
Definition SUBSCRIPTION_KEY_HASH_TOKEN_PREFIX : string := "skh".
Definition MAX_CLIENT_ORDER_ID_LENGTH : nat := 128.

(** * Hexadecimal *)

Definition hex_digit (n : nat) : ascii := ascii_of_nat (if (n <? 10)%nat then 48 + n else 87 + n).
Definition hex_value (c : ascii) : option nat :=
  let n := nat_of_ascii c in
  if (48 <=? n)%nat && (n <=? 57)%nat then Some (n - 48)%nat
  else if (97 <=? n)%nat && (n <=? 102)%nat then Some (n - 87)%nat
  else if (65 <=? n)%nat && (n <=? 70)%nat then Some (n - 55)%nat
  else None.
Definition is_hex (c : ascii) : bool := match hex_value c with Some _ => true | None => false end.

(** [Buffer.from(key, 'utf8').toString('hex')] *)
Fixpoint encodeSubscriptionKey (key : string) : string :=
  match key with
  | EmptyString => EmptyString
  | String c key => String (hex_digit (nat_of_ascii c / 16)) (String (hex_digit (nat_of_ascii c mod 16)) (encodeSubscriptionKey key))
  end.

(** [Buffer.from(value, 'hex')]: pairs of digits, up to the first that is not one. *)
Fixpoint hex_bytes (value : string) : string :=
  match value with
  | String a (String b value) =>
      match hex_value a, hex_value b with
      | Some x, Some y => String (ascii_of_nat (x * 16 + y)) (hex_bytes value)
      | _, _ => EmptyString
      end
  | _ => EmptyString
  end.

(** * UTF-8 decoding

    [buffer.toString('utf8')]: a byte sequence that is not UTF-8 has each
    maximal part of a character replaced. *)

Definition replacement : string := String "239" (String "191" (String "189" EmptyString)).

(** Inside a character: the continuation bytes it still needs, the bounds of the
    next one and the bytes read. *)
Record Utf8State := { u_needed : nat; u_low : nat; u_high : nat; u_read : string }.
Definition utf8_start : Utf8State := {| u_needed := 0; u_low := 128; u_high := 191; u_read := "" |}.
Definition utf8_need (n low high : nat) (c : ascii) : string * Utf8State :=
  ("", {| u_needed := n; u_low := low; u_high := high; u_read := String c "" |}).

Definition utf8_lead (c : ascii) : string * Utf8State :=
  let n := nat_of_ascii c in
  if (n <? 128)%nat then (String c "", utf8_start)
  else if (194 <=? n)%nat && (n <=? 223)%nat then utf8_need 1 128 191 c
  else if (n =? 224)%nat then utf8_need 2 160 191 c
  else if (n =? 237)%nat then utf8_need 2 128 159 c
  else if (225 <=? n)%nat && (n <=? 239)%nat then utf8_need 2 128 191 c
  else if (n =? 240)%nat then utf8_need 3 144 191 c
  else if (241 <=? n)%nat && (n <=? 243)%nat then utf8_need 3 128 191 c
  else if (n =? 244)%nat then utf8_need 3 128 143 c
  else (replacement, utf8_start).

Definition utf8_step (s : Utf8State) (c : ascii) : string * Utf8State :=
  match u_needed s with
  | O => utf8_lead c
  | Datatypes.S k =>
      let n := nat_of_ascii c in
      if (u_low s <=? n)%nat && (n <=? u_high s)%nat then
        match k with
        | O => (u_read s ++ String c "", utf8_start)
        | _ => ("", {| u_needed := k; u_low := 128; u_high := 191; u_read := u_read s ++ String c "" |})
        end
      else let '(out, s) := utf8_lead c in (replacement ++ out, s)
  end.

Fixpoint utf8_from (s : Utf8State) (bytes : string) : string :=
  match bytes with
  | EmptyString => match u_needed s with O => "" | _ => replacement end
  | String c bytes => let '(out, s) := utf8_step s c in out ++ utf8_from s bytes
  end.
Definition utf8_text (bytes : string) : string := utf8_from utf8_start bytes.

Definition decodeSubscriptionKey (value : string) : option string := Some (utf8_text (hex_bytes value)).

(** A character's UTF-8 bytes, and a text's. *)
Definition byte (z : Z) : ascii := ascii_of_nat (Z.to_nat z).
Definition utf8_char (cp : Z) : string :=
  if cp <? 128 then String (byte cp) ""
  else if cp <? 2048 then String (byte (192 + cp / 64)) (String (byte (128 + cp mod 64)) "")
  else if cp <? 65536 then
    String (byte (224 + cp / 4096)) (String (byte (128 + cp / 64 mod 64)) (String (byte (128 + cp mod 64)) ""))
  else String (byte (240 + cp / 262144)) (String (byte (128 + cp / 4096 mod 64))
         (String (byte (128 + cp / 64 mod 64)) (String (byte (128 + cp mod 64)) ""))).
Definition utf8_encode (cps : list Z) : string := String.concat "" (map utf8_char cps).
(** A Unicode scalar value: not half of a surrogate pair. *)
Definition scalar (cp : Z) : Prop := 0 <= cp < 55296 \/ 57344 <= cp < 1114112.

(** * Tokens *)

(** [split('-')] *)
Fixpoint split_dash (s : string) : list string :=
  match s with
  | EmptyString => [EmptyString]
  | String c s =>
      if Ascii.eqb c "-" then EmptyString :: split_dash s
      else match split_dash s with p :: ps => String c p :: ps | [] => [String c EmptyString] end
  end.

(** [replace(/[-:.]/g, '')] *)
Definition is_separator (c : ascii) : bool := Ascii.eqb c "-" || Ascii.eqb c ":" || Ascii.eqb c ".".
Fixpoint drop_separators (s : string) : string :=
  match s with
  | EmptyString => EmptyString
  | String c s => if is_separator c then drop_separators s else String c (drop_separators s)
  end.
Definition buildTimestampToken (now : Z) : string := String.substring 0 15 (drop_separators (iso_of_time now)).

(** * Building *)

(** The columns of [ResolvedPlaceOrderInput] an id depends on. *)
Record OrderIdInput := {
  id_symbol : string;
  id_side : string;
  id_orderType : string;
  id_subscriptionKey : option string
}.

(** A digest, [createHash('sha256').update(text, 'utf8').digest('hex')]. *)
Class Sha256 := sha256_hex : string -> string.

(** 64 hexadecimal digits, in lower case. *)
Definition lower_hex (c : ascii) : bool := is_hex c && Ascii.eqb c (lower_char c).
Class Sha256Laws (D : Sha256) : Prop := {
  digest_length : forall text, String.length (sha256_hex text) = 64%nat;
  digest_hex : forall text, all_chars lower_hex (sha256_hex text) = true
}.

Section Build.
Context `{Sha256}.

(** A key that is not null and not empty. *)
Definition given_key (input : OrderIdInput) : option string :=
  match id_subscriptionKey input with
  | Some k => if String.eqb k "" then None else Some k
  | None => None
  end.

(** The common tokens, at [now]; [environment] is PAPER or LIVE. *)
Definition common_parts (input : OrderIdInput) (tradingAccountId : Z) (environment : string) (now : Z) : list string :=
  ["ai"; buildTimestampToken now; id_symbol input; id_side input; id_orderType input;
   "ta" ++ z_str tradingAccountId; to_lower environment].

Definition full_parts (input : OrderIdInput) (tradingAccountId : Z) (environment : string) (now : Z) (uuid : string)
    : list string :=
  (common_parts input tradingAccountId environment now ++
   match given_key input with
   | Some k => [String.append SUBSCRIPTION_KEY_TOKEN_PREFIX (encodeSubscriptionKey k)]
   | None => []
   end ++ [String.substring 0 8 uuid])%list.

Definition compact_parts (input : OrderIdInput) (tradingAccountId : Z) (environment : string) (now : Z) (uuid : string)
    : list string :=
  (common_parts input tradingAccountId environment now ++
   match given_key input with
   | Some k => [String.append SUBSCRIPTION_KEY_HASH_TOKEN_PREFIX (String.substring 0 16 (sha256_hex k))]
   | None => []
   end ++ [String.substring 0 8 uuid])%list.

(** [uuid] is what [crypto.randomUUID()] gives. *)
Definition buildClientOrderId (input : OrderIdInput) (tradingAccountId : Z) (environment : string) (now : Z)
    (uuid : string) : string :=
  let clientOrderId := String.concat "-" (full_parts input tradingAccountId environment now uuid) in
  if (String.length clientOrderId <=? MAX_CLIENT_ORDER_ID_LENGTH)%nat then clientOrderId
  else String.substring 0 MAX_CLIENT_ORDER_ID_LENGTH
         (String.concat "-" (compact_parts input tradingAccountId environment now uuid)).

Definition buildSignalEntryClientOrderId (signalIdentity : string) (tradingAccountSubscriptionId : Z) : string :=
  "ai-entry-tas" ++ z_str tradingAccountSubscriptionId ++ "-" ++
  sha256_hex (signalIdentity ++ ":" ++ z_str tradingAccountSubscriptionId).
End Build.

(** * Parsing *)

Definition drop_prefix (p s : string) : string := String.substring (String.length p) (String.length s) s.

Definition parseSubscriptionKeyFromClientOrderId (clientOrderId : option string) : option string :=
  match clientOrderId with
  | None => None
  | Some id =>
      if String.eqb id "" then None
      else match List.find (String.prefix SUBSCRIPTION_KEY_TOKEN_PREFIX) (split_dash id) with
           | None => None
           | Some token =>
               let encoded := drop_prefix SUBSCRIPTION_KEY_TOKEN_PREFIX token in
               if String.eqb encoded "" || negb (Nat.even (String.length encoded)) || negb (all_chars is_hex encoded)
               then None
               else decodeSubscriptionKey encoded
           end
  end.

(** The digits a text starts with, and what follows them. *)
Fixpoint span_digits (s : string) : string * string :=
  match s with
  | String c s' => if is_digit c then let '(ds, rest) := span_digits s' in (String c ds, rest) else ("", s)
  | EmptyString => ("", "")
  end.

Definition MAX_SAFE_INTEGER : Z := 9007199254740991.

(** The whole text is [ai-entry-tas], a number that does not start with 0, a dash
    and 64 digits of [a-f0-9]; the number ends at the first dash, so the pattern
    matches in one way. The number of the digits is a safe integer exactly when
    their value is. *)
Definition parseTradingAccountSubscriptionIdFromClientOrderId (clientOrderId : option string) : option Z :=
  match clientOrderId with
  | None => None
  | Some id =>
      if String.prefix "ai-entry-tas" id then
        let '(digits, rest) := span_digits (drop_prefix "ai-entry-tas" id) in
        match digits, rest with
        | String d _, String dash digest =>
            if negb (Ascii.eqb d "0") && Ascii.eqb dash "-" && (String.length digest =? 64)%nat &&
               all_chars lower_hex digest
            then let n := digits_value digits in
                 if (n <=? MAX_SAFE_INTEGER) && (0 <? n) then Some n else None
            else None
        | _, _ => None
        end
      else None
  end.

(** * Hexadecimal and UTF-8 *)

Lemma hex_pair c :
  hex_value (hex_digit (nat_of_ascii c / 16)) = Some (nat_of_ascii c / 16)%nat /\
  hex_value (hex_digit (nat_of_ascii c mod 16)) = Some (nat_of_ascii c mod 16)%nat /\
  ascii_of_nat (nat_of_ascii c / 16 * 16 + nat_of_ascii c mod 16) = c.
Proof. destruct c as [[] [] [] [] [] [] [] []]; vm_compute; done. Qed.

Lemma hex_encoded key : hex_bytes (encodeSubscriptionKey key) = key.
Proof.
  induction key as [|c key IH]; [done|]. cbn [encodeSubscriptionKey hex_bytes].
  destruct (hex_pair c) as (-> & -> & ->). by rewrite IH.
Qed.

Lemma encoded_hex key : all_chars is_hex (encodeSubscriptionKey key) = true.
Proof.
  induction key as [|c key IH]; [done|]. cbn [encodeSubscriptionKey all_chars]. unfold is_hex at 1 2.
  by destruct (hex_pair c) as (-> & -> & _).
Qed.

Lemma encoded_even key : Nat.even (String.length (encodeSubscriptionKey key)) = true.
Proof. by induction key. Qed.

Lemma all_chars_mono (p q : ascii -> bool) s :
  (forall c, p c = true -> q c = true) -> all_chars p s = true -> all_chars q s = true.
Proof.
  intros Hpq. induction s as [|c s IH]; [done|]. cbn. intros [Hc Hs]%andb_true_iff. by rewrite (Hpq c Hc), IH.
Qed.

(** Reading the lead and the continuation bytes of a character. *)
Lemma byte_nat z : 0 <= z < 256 -> nat_of_ascii (byte z) = Z.to_nat z.
Proof. intros Hz. unfold byte. apply nat_ascii_embedding. lia. Qed.

Lemma lead_ascii z : 0 <= z < 128 -> utf8_lead (byte z) = (String (byte z) "", utf8_start).
Proof. intros Hz. unfold utf8_lead. rewrite byte_nat by lia. by rewrite (proj2 (Nat.ltb_lt _ _)) by lia. Qed.

Ltac lead_cases :=
  unfold utf8_lead; rewrite byte_nat by lia;
  repeat match goal with
    | |- context [(?a <? ?b)%nat] => destruct (Nat.ltb_spec a b); [lia|]
    | |- context [(?a <=? ?b)%nat] => destruct (Nat.leb_spec a b); try lia
    | |- context [(?a =? ?b)%nat] => destruct (Nat.eqb_spec a b); try lia
    end; cbn [andb]; try done.

Lemma lead_two z : 194 <= z <= 223 -> utf8_lead (byte z) = utf8_need 1 128 191 (byte z).
Proof. intros Hz. lead_cases. Qed.
Lemma lead_three z : 224 <= z <= 239 -> utf8_lead (byte z) =
  utf8_need 2 (if z =? 224 then 160 else 128) (if z =? 237 then 159 else 191) (byte z).
Proof. intros Hz. destruct (Z.eqb_spec z 224), (Z.eqb_spec z 237); lead_cases. Qed.
Lemma lead_four z : 240 <= z <= 244 -> utf8_lead (byte z) =
  utf8_need 3 (if z =? 240 then 144 else 128) (if z =? 244 then 143 else 191) (byte z).
Proof. intros Hz. destruct (Z.eqb_spec z 240), (Z.eqb_spec z 244); lead_cases. Qed.

Lemma continued k low high read z rest : Z.of_nat low <= z <= Z.of_nat high -> z < 256 ->
  utf8_from {| u_needed := Datatypes.S k; u_low := low; u_high := high; u_read := read |} (String (byte z) rest) =
  match k with
  | O => (read ++ String (byte z) "") ++ utf8_from utf8_start rest
  | _ => utf8_from {| u_needed := k; u_low := 128; u_high := 191; u_read := read ++ String (byte z) "" |} rest
  end.
Proof.
  intros Hz Hb. cbn [utf8_from]. unfold utf8_step. cbn [u_needed u_low u_high u_read]. rewrite byte_nat by lia.
  rewrite (proj2 (Nat.leb_le low _)), (proj2 (Nat.leb_le _ high)) by lia. by destruct k.
Qed.

Lemma started z rest : utf8_from utf8_start (String (byte z) rest) =
  let '(out, s) := utf8_lead (byte z) in out ++ utf8_from s rest.
Proof. done. Qed.

Lemma utf8_scalar cp rest : scalar cp ->
  utf8_from utf8_start (utf8_char cp ++ rest) = utf8_char cp ++ utf8_from utf8_start rest.
Proof.
  intros Hcp. unfold utf8_char. pose proof (Z.mod_pos_bound cp 64). pose proof (Z.mod_pos_bound (cp / 64) 64).
  pose proof (Z.mod_pos_bound (cp / 4096) 64).
  assert (E1 : cp / 4096 = cp / 64 / 64) by (by rewrite Z.div_div by lia).
  assert (E2 : cp / 262144 = cp / 4096 / 64) by (by rewrite Z.div_div by lia).
  pose proof (Z.div_mod cp 64). pose proof (Z.div_mod (cp / 64) 64). pose proof (Z.div_mod (cp / 4096) 64).
  unfold scalar in Hcp. destruct (Z.ltb_spec cp 128); [|destruct (Z.ltb_spec cp 2048); [|destruct (Z.ltb_spec cp 65536)]];
    rewrite !append_cons, started.
  - by rewrite lead_ascii by lia.
  - rewrite lead_two by lia. cbn [utf8_need]. change ("" ++ ?x) with x. by rewrite continued by lia.
  - rewrite lead_three by lia. unfold utf8_need. change ("" ++ ?x) with x.
    rewrite continued by (destruct (Z.eqb_spec (224 + cp / 4096) 224), (Z.eqb_spec (224 + cp / 4096) 237); lia).
    by rewrite continued by lia.
  - rewrite lead_four by lia. unfold utf8_need. change ("" ++ ?x) with x.
    rewrite continued by (destruct (Z.eqb_spec (240 + cp / 262144) 240), (Z.eqb_spec (240 + cp / 262144) 244); lia).
    rewrite continued by lia. by rewrite continued by lia.
Qed.

(** Every text of characters decodes to itself. *)
Lemma utf8_decodes cps : Forall scalar cps -> utf8_text (utf8_encode cps) = utf8_encode cps.
Proof.
  assert (Hc : forall p ps, String.concat "" (p :: ps) = p ++ String.concat "" ps).
  { intros p [|q ps]; [by rewrite append_nil|done]. }
  unfold utf8_text, utf8_encode. induction 1 as [|cp cps Hcp _ IH]; [done|]. cbn [map].
  by rewrite Hc, utf8_scalar, IH.
Qed.

(** * Tokens *)

Lemma split_dash_ne s : split_dash s <> [].
Proof. destruct s as [|c s]; cbn; [done|]. destruct (Ascii.eqb c "-"); [done|]. by destruct (split_dash s). Qed.

Lemma split_dash_app s t : split_dash (s ++ String "-" t) = (split_dash s ++ split_dash t)%list.
Proof.
  induction s as [|c s IH]; [done|]. rewrite append_cons. cbn [split_dash]. rewrite IH.
  destruct (Ascii.eqb c "-"); [done|]. destruct (split_dash s) eqn:E; [by apply split_dash_ne in E|done].
Qed.

Lemma split_dash_concat ps : ps <> [] -> split_dash (String.concat "-" ps) = flat_map split_dash ps.
Proof.
  induction ps as [|p ps IH]; [done|]. intros _. destruct ps as [|q ps]; [cbn; by rewrite app_nil_r|].
  change (String.concat "-" (p :: q :: ps)) with (p ++ "-" ++ String.concat "-" (q :: ps)).
  change ("-" ++ String.concat "-" (q :: ps)) with (String "-" (String.concat "-" (q :: ps))).
  rewrite split_dash_app, IH by done. done.
Qed.

Definition not_dash (c : ascii) : bool := negb (Ascii.eqb c "-").
Lemma split_dash_one s : all_chars not_dash s = true -> split_dash s = [s].
Proof.
  induction s as [|c s IH]; [done|]. cbn [all_chars split_dash]. intros [Hc Hs]%andb_true_iff.
  unfold not_dash in Hc. apply negb_true_iff in Hc. by rewrite Hc, IH.
Qed.

(** No token of a text is taken for a key's. *)
Definition untagged (s : string) : Prop :=
  Forall (fun p => String.prefix SUBSCRIPTION_KEY_TOKEN_PREFIX p = false) (split_dash s).

Lemma prefix_app p s t : String.prefix p s = true -> String.prefix p (s ++ t) = true.
Proof.
  revert s. induction p as [|c p IH]; intros s; [by destruct s, t|]. destruct s as [|d s]; [done|].
  rewrite append_cons. cbn [String.prefix]. destruct (ascii_dec c d); [apply IH|done].
Qed.

(** Cutting a text leaves the first tokens, the last of them cut. *)
Lemma split_dash_take n s : exists k,
  Forall2 (fun p q => exists r, q = p ++ r) (split_dash (String.substring 0 n s)) (firstn k (split_dash s)).
Proof.
  revert n. induction s as [|c s IH]; intros n.
  - exists 1%nat. replace (String.substring 0 n "") with "" by by destruct n. constructor; [by exists ""|done].
  - destruct n as [|n].
    + exists 1%nat. cbn [String.substring]. destruct (split_dash (String c s)) as [|q qs] eqn:E;
        [by apply split_dash_ne in E|]. cbn. constructor; [by exists q|done].
    + destruct (IH n) as [k Hk]. cbn [String.substring split_dash]. destruct (Ascii.eqb c "-").
      { exists (Datatypes.S k). cbn. constructor; [by exists ""|done]. }
      exists k. destruct (split_dash (String.substring 0 n s)) as [|p ps] eqn:Ep; [by apply split_dash_ne in Ep|].
      destruct (split_dash s) as [|q qs] eqn:Eq; [by apply split_dash_ne in Eq|].
      destruct k as [|k]; [by inversion Hk|]. cbn [firstn] in *. inversion Hk as [|? ? ? ? [r ->] Hr]. subst.
      constructor; [by exists r|done].
Qed.

Lemma untagged_take n s : untagged s -> untagged (String.substring 0 n s).
Proof.
  unfold untagged. intros Hs. destruct (split_dash_take n s) as [k Hk].
  assert (Hf : Forall (fun p => String.prefix SUBSCRIPTION_KEY_TOKEN_PREFIX p = false) (firstn k (split_dash s)))
    by by apply Forall_take.
  induction Hk as [|p q ps qs [r ->] _ IH]; [done|]. inversion Hf. constructor; [|by apply IH].
  destruct (String.prefix _ p) eqn:E; [|done]. apply (prefix_app _ _ r) in E. congruence.
Qed.

Lemma untagged_find s : untagged s -> List.find (String.prefix SUBSCRIPTION_KEY_TOKEN_PREFIX) (split_dash s) = None.
Proof. unfold untagged. induction 1 as [|p ps Hp _ IH]; [done|]. cbn. by rewrite Hp. Qed.

Lemma find_app_none {A} (p : A -> bool) xs ys : List.find p xs = None -> List.find p (xs ++ ys)%list = List.find p ys.
Proof. induction xs as [|x xs IH]; [done|]. cbn. destruct (p x); [done|exact IH]. Qed.

(** A token with no [s] is not a key's. *)
Definition not_s (c : ascii) : bool := not_dash c && negb (Ascii.eqb c "s").
Lemma untagged_not_s s : all_chars not_s s = true -> untagged s.
Proof.
  intros Hs. unfold untagged. rewrite split_dash_one.
  - constructor; [|done]. destruct s as [|c s]; [done|]. cbn [all_chars] in Hs. apply andb_true_iff in Hs as [Hc _].
    unfold not_s in Hc. apply andb_true_iff in Hc as [_ Hc]. apply negb_true_iff, Ascii.eqb_neq in Hc.
    cbn [String.prefix SUBSCRIPTION_KEY_TOKEN_PREFIX]. by destruct (ascii_dec "s" c) as [<-|].
  - revert Hs. apply all_chars_mono. intros c. unfold not_s. by intros [-> _]%andb_true_iff.
Qed.

Lemma drop_separators_keep p s : all_chars p s = true -> all_chars p (drop_separators s) = true.
Proof.
  induction s as [|c s IH]; [done|]. cbn [all_chars drop_separators]. intros [Hc Hs]%andb_true_iff.
  destruct (is_separator c); cbn [all_chars]; [by apply IH|]. by rewrite Hc, IH.
Qed.
Lemma drop_separators_none s : all_chars (fun c => negb (is_separator c)) (drop_separators s) = true.
Proof.
  induction s as [|c s IH]; [done|]. cbn [drop_separators]. destruct (is_separator c) eqn:E; [done|].
  cbn [all_chars]. by rewrite E, IH.
Qed.
Lemma all_chars_take p n s : all_chars p s = true -> all_chars p (String.substring 0 n s) = true.
Proof.
  revert n. induction s as [|c s IH]; intros [|n]; try done. cbn [all_chars String.substring].
  intros [Hc Hs]%andb_true_iff. by rewrite Hc, IH.
Qed.

Definition other_than_s (c : ascii) : bool := negb (Ascii.eqb c "s").
Lemma pad_other k z : all_chars other_than_s (pad_digits k z) = true.
Proof.
  induction k as [|k IH]; [done|]. cbn [pad_digits all_chars]. rewrite IH, andb_true_r.
  set (d := z / 10 ^ Z.of_nat k mod 10). assert (Hd : 0 <= d < 10) by (apply Z.mod_pos_bound; lia).
  unfold digit_char. assert (Hn : (Z.to_nat d < 10)%nat) by lia. revert Hn. generalize (Z.to_nat d). clear.
  intros n Hn. do 10 (destruct n as [|n]; [done|]). lia.
Qed.

Lemma iso_other t : all_chars other_than_s (iso_of_time t) = true.
Proof.
  unfold iso_of_time. destruct (utc_date t) as [[y m] d].
  assert (Hy : all_chars other_than_s (iso_year y) = true).
  { unfold iso_year. destruct (_ && _); [apply pad_other|]. rewrite all_chars_app, pad_other. by destruct (y <? 0). }
  rewrite !all_chars_app, Hy, !pad_other. done.
Qed.

Lemma all_chars_and p q s : all_chars p s = true -> all_chars q s = true ->
  all_chars (fun c => p c && q c) s = true.
Proof.
  induction s as [|c s IH]; [done|]. cbn [all_chars]. intros [-> Hp]%andb_true_iff [-> Hq]%andb_true_iff. by apply IH.
Qed.

Lemma timestamp_not_s now : all_chars not_s (buildTimestampToken now) = true.
Proof.
  unfold buildTimestampToken. apply all_chars_take.
  apply (all_chars_mono (fun c => other_than_s c && negb (is_separator c))).
  - intros c [Hs Hc]%andb_true_iff. unfold not_s, not_dash, is_separator in *. rewrite !negb_orb in Hc.
    apply andb_true_iff in Hc as [Hc _]. apply andb_true_iff in Hc as [-> _]. exact Hs.
  - apply all_chars_and; [apply drop_separators_keep, iso_other|apply drop_separators_none].
Qed.

Lemma digits_not_s s : all_digits s = true -> all_chars not_s s = true.
Proof.
  induction s as [|c s IH]; [done|]. cbn. intros [Hc Hs]%andb_true_iff. rewrite IH by done. rewrite andb_true_r.
  revert Hc. destruct c as [[] [] [] [] [] [] [] []]; vm_compute; congruence.
Qed.

Lemma hex_not_s s : all_chars is_hex s = true -> all_chars not_s s = true.
Proof. apply all_chars_mono. intros c. destruct c as [[] [] [] [] [] [] [] []]; vm_compute; congruence. Qed.

(** What the callers give: a symbol in upper case, a side, an order type, an
    environment, an account's id and eight digits of a random id. *)
Record order_id_input (input : OrderIdInput) (tradingAccountId : Z) (environment uuid : string) : Prop := {
  oii_symbol : to_upper (id_symbol input) = id_symbol input;
  oii_side : id_side input = "buy" \/ id_side input = "sell";
  oii_type : id_orderType input = "market" \/ id_orderType input = "limit";
  oii_environment : environment = "PAPER" \/ environment = "LIVE";
  oii_account : 0 < tradingAccountId;
  oii_uuid : all_chars is_hex (String.substring 0 8 uuid) = true
}.

Lemma upper_untagged s : to_upper s = s -> untagged s.
Proof.
  intros Hs. assert (Hn : all_chars other_than_s s = true).
  { revert Hs. induction s as [|c s IH]; [done|]. unfold to_upper in *. cbn [map_chars all_chars]. intros [= Hc Hs].
    rewrite IH by done. rewrite andb_true_r. revert Hc. destruct c as [[] [] [] [] [] [] [] []]; vm_compute; congruence. }
  unfold untagged. induction s as [|c s IH]; [by repeat constructor|]. cbn [all_chars] in Hn.
  apply andb_true_iff in Hn as [Hc Hn]. assert (IH' : Forall (fun p => String.prefix SUBSCRIPTION_KEY_TOKEN_PREFIX p = false) (split_dash s)).
  { apply IH; [|done]. unfold to_upper in *. cbn [map_chars] in Hs. by injection Hs. }
  cbn [split_dash]. destruct (Ascii.eqb c "-"); [by constructor|].
  destruct (split_dash s) as [|p ps]; inversion IH'; constructor; try done;
    cbn [String.prefix SUBSCRIPTION_KEY_TOKEN_PREFIX]; unfold other_than_s in Hc;
    apply negb_true_iff, Ascii.eqb_neq in Hc; by destruct (ascii_dec "s" c) as [<-|].
Qed.

Lemma untagged_flat ps : Forall untagged ps ->
  Forall (fun p => String.prefix SUBSCRIPTION_KEY_TOKEN_PREFIX p = false) (flat_map split_dash ps).
Proof. induction 1 as [|p ps Hp _ IH]; [done|]. cbn. by apply Forall_app. Qed.
Lemma untagged_concat ps : Forall untagged ps -> untagged (String.concat "-" ps).
Proof.
  intros Hp. destruct ps as [|p ps]; [by repeat constructor|].
  unfold untagged. rewrite split_dash_concat by done. by apply untagged_flat.
Qed.

Lemma substring_le n s : (String.length (String.substring 0 n s) <= n)%nat.
Proof. revert s. induction n as [|n IH]; intros [|c s]; cbn; try lia. specialize (IH s). lia. Qed.

Lemma concat_ne ps c q : String.concat "-" ((String c q) :: ps) <> "".
Proof. destruct ps; cbn; done. Qed.

Lemma substring_whole m s : (String.length s <= m)%nat -> String.substring 0 m s = s.
Proof.
  revert m. induction s as [|c s IH]; intros [|m] Hm; cbn in *; try done; [lia|]. rewrite IH by lia. done.
Qed.

Lemma drop_prefix_app p s : drop_prefix p (p ++ s) = s.
Proof.
  unfold drop_prefix. rewrite length_app. generalize (String.length p + String.length s)%nat (Nat.le_add_l (String.length s) (String.length p)).
  intros m Hm. induction p as [|c p IH]; [by apply substring_whole|exact IH].
Qed.

Section RoundTrip.
Context `{Sha256Laws}.

Lemma common_untagged input a environment now uuid : order_id_input input a environment uuid ->
  Forall untagged (common_parts input a environment now).
Proof.
  intros [Hsym Hside Htype Henv Hacc _]. unfold common_parts.
  assert (Hlow : forall t, all_chars not_s t = true \/ t = "sell" -> untagged t).
  { intros t [Ht| ->]; [by apply untagged_not_s|by repeat constructor]. }
  apply Forall_cons_2; [by apply Hlow; left|]. apply Forall_cons_2; [apply Hlow; left; apply timestamp_not_s|].
  apply Forall_cons_2; [by apply upper_untagged|].
  apply Forall_cons_2; [apply Hlow; destruct Hside as [-> | ->]; [by left|by right]|].
  apply Forall_cons_2; [apply Hlow; left; by destruct Htype as [-> | ->]|].
  apply Forall_cons_2; [apply Hlow; left; rewrite all_chars_app; apply digits_not_s, z_str_spec; lia|].
  apply Forall_cons_2; [apply Hlow; left; by destruct Henv as [-> | ->]|done].
Qed.

Lemma uuid_untagged input a environment uuid : order_id_input input a environment uuid ->
  untagged (String.substring 0 8 uuid).
Proof. intros Hi. by apply untagged_not_s, hex_not_s, Hi. Qed.

(** With a key, the first tagged token of the full id is the key's. *)
Lemma full_token input a environment now uuid k : order_id_input input a environment uuid ->
  given_key input = Some k ->
  List.find (String.prefix SUBSCRIPTION_KEY_TOKEN_PREFIX)
    (split_dash (String.concat "-" (full_parts input a environment now uuid))) =
  Some (SUBSCRIPTION_KEY_TOKEN_PREFIX ++ encodeSubscriptionKey k).
Proof.
  intros Hi Hk. rewrite split_dash_concat by (unfold full_parts, common_parts; done).
  unfold full_parts. rewrite Hk, flat_map_app, find_app_none.
  - cbn [app flat_map]. rewrite split_dash_one; [by destruct k|].
    rewrite all_chars_app. apply andb_true_iff. split; [done|]. generalize (encoded_hex k).
    apply all_chars_mono. intros c. destruct c as [[] [] [] [] [] [] [] []]; vm_compute; congruence.
  - pose proof (untagged_flat _ (common_untagged input a environment now uuid Hi)) as Hf. revert Hf.
    generalize (flat_map split_dash (common_parts input a environment now)). clear.
    induction 1 as [|p ps Hp _ IH]; [done|]. cbn. by rewrite Hp.
Qed.

Lemma keyless_untagged input a environment now uuid : order_id_input input a environment uuid ->
  given_key input = None -> untagged (String.concat "-" (full_parts input a environment now uuid)).
Proof.
  intros Hi Hk. apply untagged_concat. unfold full_parts. rewrite Hk. apply Forall_app. split.
  - by apply common_untagged with uuid.
  - apply Forall_cons_2; [by apply (uuid_untagged input a environment)|done].
Qed.

Lemma compact_untagged input a environment now uuid : order_id_input input a environment uuid ->
  untagged (String.concat "-" (compact_parts input a environment now uuid)).
Proof.
  intros Hi. apply untagged_concat. unfold compact_parts. apply Forall_app. split; [by apply common_untagged with uuid|].
  apply Forall_app. split; [|apply Forall_cons_2; [by apply (uuid_untagged input a environment)|done]].
  destruct (given_key input) as [k|]; [|done]. apply Forall_cons_2; [|done].
  assert (Hd : all_chars not_dash (String.substring 0 16 (sha256_hex k)) = true).
  { apply all_chars_take. generalize (digest_hex k). apply all_chars_mono. intros c.
    destruct c as [[] [] [] [] [] [] [] []]; vm_compute; congruence. }
  unfold untagged. rewrite split_dash_one; [by repeat constructor|]. by rewrite all_chars_app.
Qed.

Lemma parse_untagged id : untagged id -> parseSubscriptionKeyFromClientOrderId (Some id) = None.
Proof. intros Hid. cbn. rewrite untagged_find by done. by destruct (String.eqb id ""). Qed.

Lemma token_decoded k : k <> "" ->
  (let encoded := drop_prefix SUBSCRIPTION_KEY_TOKEN_PREFIX (SUBSCRIPTION_KEY_TOKEN_PREFIX ++ encodeSubscriptionKey k) in
   if String.eqb encoded "" || negb (Nat.even (String.length encoded)) || negb (all_chars is_hex encoded)
   then None else decodeSubscriptionKey encoded) = Some (utf8_text k).
Proof.
  intros Hk. cbv zeta. rewrite drop_prefix_app, encoded_even, encoded_hex. unfold decodeSubscriptionKey.
  rewrite hex_encoded. by destruct k.
Qed.

Lemma span_digits_app s d t : all_digits s = true -> is_digit d = false ->
  span_digits (s ++ String d t) = (s, String d t).
Proof.
  intros Hs Hd. induction s as [|c s IH]; [change ("" ++ ?x) with x; cbn [span_digits]; by rewrite Hd|]. cbn [all_digits] in Hs.
  apply andb_true_iff in Hs as [Hc Hs]. rewrite append_cons. cbn [span_digits]. by rewrite Hc, IH.
Qed.

Lemma prefix_self p s : String.prefix p (p ++ s) = true.
Proof. induction p as [|c p IH]; [by destruct s|]. rewrite append_cons. cbn. by destruct (ascii_dec c c). Qed.

Lemma signal_roundtrip identity n : 0 < n <= MAX_SAFE_INTEGER ->
  parseTradingAccountSubscriptionIdFromClientOrderId (Some (buildSignalEntryClientOrderId identity n)) = Some n.
Proof.
  intros Hn. unfold parseTradingAccountSubscriptionIdFromClientOrderId, buildSignalEntryClientOrderId.
  rewrite prefix_self, drop_prefix_app. destruct (z_str_spec n ltac:(lia)) as (Hd & Hv & Hw).
  set (digest := sha256_hex _). change ("-" ++ digest) with (String "-" digest). rewrite span_digits_app by done.
  unfold digest. rewrite digest_length, digest_hex. rewrite Hv.
  rewrite (proj2 (Z.leb_le n _)), (proj2 (Z.ltb_lt 0 n)) by lia.
  destruct (z_str n) as [|d ds] eqn:E; [done|]. destruct (Ascii.eqb_spec d "0") as [->|]; [|done].
  unfold valid_whole in Hw. destruct ds; [change (0 = n) in Hv; lia|]. by rewrite ?andb_false_r in Hw.
Qed.

(** C22. A client order id is at most 128 characters, and reading it back gives
    exactly the subscription key it was built with, for every key of Unicode
    characters whose full id fits, and no key when the order had no key or the key was
    too long and only its digest was kept. A signal entry's id gives back its
    account subscription's id. *)
Theorem client_order_id_roundtrip input a environment now uuid identity n :
  order_id_input input a environment uuid -> 0 < n <= MAX_SAFE_INTEGER ->
  let id := buildClientOrderId input a environment now uuid in
  let full := String.concat "-" (full_parts input a environment now uuid) in
  (String.length id <= MAX_CLIENT_ORDER_ID_LENGTH)%nat /\
  parseSubscriptionKeyFromClientOrderId (Some id) =
    match given_key input with
    | Some k => if (String.length full <=? MAX_CLIENT_ORDER_ID_LENGTH)%nat then Some (utf8_text k) else None
    | None => None
    end /\
  (forall cps, Forall scalar cps -> utf8_text (utf8_encode cps) = utf8_encode cps) /\
  parseTradingAccountSubscriptionIdFromClientOrderId (Some (buildSignalEntryClientOrderId identity n)) = Some n.
Proof.
  intros Hi Hn id full. split; [|split; [|split; [apply utf8_decodes|by apply signal_roundtrip]]].
  - unfold id, buildClientOrderId. destruct (_ <=? _)%nat eqn:E; [by apply Nat.leb_le|apply substring_le].
  - unfold id, buildClientOrderId. fold full. destruct (String.length full <=? _)%nat eqn:E.
    + destruct (given_key input) as [k|] eqn:Ek; [|by apply parse_untagged, keyless_untagged].
      pose proof (full_token input a environment now uuid k Hi Ek) as Hf. fold full in Hf.
      assert (Hne : String.eqb full "" = false) by (apply String.eqb_neq, concat_ne).
      cbn [parseSubscriptionKeyFromClientOrderId]. rewrite Hne, Hf. apply token_decoded.
      unfold given_key in Ek. destruct (id_subscriptionKey input) as [k'|]; [|done].
      destruct (String.eqb_spec k' ""); [done|]. by injection Ek as <-.
    + rewrite parse_untagged by by apply untagged_take, compact_untagged. by destruct (given_key input).
Qed.
End RoundTrip.

(** * Examples and a witness *)

(** A digest of the right form. *)
Definition sample_digest : Sha256 := fun text =>
  if String.eqb text "" then "e3b0c44298fc1c149afbf4c8996fb92427ae41e4649b934ca495991b7852b855"
  else "2cf24dba5fb0a30e26e83b2ac5b9e29e1b161e5c1fa7425e73043362938b9824".
#[export] Instance sample_digest_laws : Sha256Laws sample_digest.
Proof. split; intros text; unfold sha256_hex, sample_digest; by destruct (String.eqb text ""). Qed.

Definition aapl_order : OrderIdInput :=
  {| id_symbol := "AAPL"; id_side := "buy"; id_orderType := "market"; id_subscriptionKey := Some "momo-1" |}.
Definition long_key_order : OrderIdInput :=
  {| id_symbol := "BTC-USD"; id_side := "sell"; id_orderType := "limit";
     id_subscriptionKey := Some "momentum-breakout-small-cap-paper-subscription" |}.
Definition sample_uuid : string := "0f8fad5b-d9cb-469f-a165-70867728950e".

Example aapl_id : buildClientOrderId (H := sample_digest) aapl_order 7 "PAPER" 1704205800123 sample_uuid =
  "ai-20240102T143000-AAPL-buy-market-ta7-paper-skx6d6f6d6f2d31-0f8fad5b".
Proof. vm_compute. reflexivity. Qed.
Example long_key_id : buildClientOrderId (H := sample_digest) long_key_order 7 "LIVE" 1704205800123 sample_uuid =
  "ai-20240102T143000-BTC-USD-sell-limit-ta7-live-skh2cf24dba5fb0a30e-0f8fad5b".
Proof. vm_compute. reflexivity. Qed.
(** Bytes that are no character's are replaced; a character of two bytes is read. *)
Example decoded_bytes : parseSubscriptionKeyFromClientOrderId (Some "x-skxC3a9fF-y") =
  Some (utf8_encode [233; 65533]).
Proof. vm_compute. reflexivity. Qed.

Lemma client_order_id_roundtrip_witness :
  parseSubscriptionKeyFromClientOrderId
    (Some (buildClientOrderId (H := sample_digest) aapl_order 7 "PAPER" 1704205800123 sample_uuid)) = Some "momo-1" /\
  parseSubscriptionKeyFromClientOrderId
    (Some (buildClientOrderId (H := sample_digest) long_key_order 7 "LIVE" 1704205800123 sample_uuid)) = None.
Proof.
  assert (Hn : 0 < 3 <= MAX_SAFE_INTEGER) by (unfold MAX_SAFE_INTEGER; lia). split.
  - assert (Hi : order_id_input aapl_order 7 "PAPER" sample_uuid)
      by (split; try lia; try (vm_compute; reflexivity); vm_compute; auto).
    rewrite (proj1 (proj2 (client_order_id_roundtrip (H := sample_digest_laws) aapl_order 7 "PAPER" 1704205800123
      sample_uuid "signal" 3 Hi Hn))).
    vm_compute. reflexivity.
  - assert (Hi : order_id_input long_key_order 7 "LIVE" sample_uuid)
      by (split; try lia; try (vm_compute; reflexivity); vm_compute; auto).
    rewrite (proj1 (proj2 (client_order_id_roundtrip (H := sample_digest_laws) long_key_order 7 "LIVE" 1704205800123
      sample_uuid "signal" 3 Hi Hn))).
    vm_compute. reflexivity.
Defined.
