(* ===== verification/RiskGate.v ===== *)
(** The pre-trade risk gate: services/risk-gate.service.ts. *)

From Stdlib Require Import ZArith Lia.
From Stdlib Require Import Strings.String.
From Stdlib Require Import Floats.SpecFloat.
From stdpp Require Import base gmap list strings.
From S2P Require Import Prelude JsNumber JsValue JsDate MarketSession Prisma.
From S2P Require Import OrderStatus DeliveryEvidence Schema RuntimeConfig SessionGuard EntryLimits.
From S2P Require Import BrokerAccount.

Open Scope string_scope.
Open Scope Z_scope.

(** * Inputs and results *)

Inductive Side := buy | sell.

Record ResolvedPlaceOrderInput := {
  po_symbol : string;
  po_side : Side;
  po_qty : option num;
  po_notional : option num;
  po_limitPrice : option num;
  po_subscriptionKey : option string;
  po_signalType : option string;
  po_subscriptionId : option Z;
  po_tradingAccountSubscriptionId : option Z
}.

Record EvaluateOrderRiskOptions := {
  op_requestedNotionalOverride : option num;
  op_tradingAccountId : option Z;
  op_enforceEntrySessionGuard : option bool;
  op_excludeOrderIntentId : option Z
}.

Record RiskGateBlocked := {
  bl_statusCode : Z;
  bl_reason : string;
  bl_details : json
}.

Inductive RiskGateResult :=
| Allowed (details : json)
| Blocked (b : RiskGateBlocked).

Definition side_str (s : Side) : string := match s with buy => "buy" | sell => "sell" end.

(** Object spread: the right-hand fields replace the left-hand ones. *)
Definition spread (l r : list (string * json)) : list (string * json) :=
  (filterb (fun kv => negb (member (fst kv) (map fst r))) l ++ r)%list.

Definition block (statusCode : Z) (reason : string) (details : list (string * json))
    : RiskGateBlocked :=
  {| bl_statusCode := statusCode; bl_reason := reason; bl_details := JObj details |}.

Definition ENTRY_ORDER_STATUSES : list string :=
  ["pending"; "submitting"; "submitted"; "new"; "accepted"; "accepted_for_bidding";
   "pending_new"; "partially_filled"; "filled"].

Definition isEntryOrder (input : ResolvedPlaceOrderInput) : bool :=
  match po_side input with buy => true | sell => false end &&
  String.eqb (default "entry" (po_signalType input)) "entry".

Definition isLimitEnabled (value : option num) : bool :=
  match value with Some v => is_finite v | None => false end.

(** [isLimitEnabled(limit) && x > limit] *)
Definition exceeds (x : num) (limit : option num) : bool :=
  match limit with Some l => is_finite l && ngtb x l | None => false end.

(** [isLimitEnabled(limit) && x >= limit] *)
Definition reaches (x : num) (limit : option num) : bool :=
  match limit with Some l => is_finite l && ngeb x l | None => false end.

Definition getRequestedNotional (input : ResolvedPlaceOrderInput) (options : EvaluateOrderRiskOptions)
    : option num :=
  if opt_positive (op_requestedNotionalOverride options) then op_requestedNotionalOverride options
  else match po_notional input with
       | Some n => Some n
       | None =>
           match po_qty input, po_limitPrice input with
           | Some q, Some p => Some (nmul q p)
           | _, _ => None
           end
       end.

(** The gate's own estimate: unlike the usage module's, it takes any stored
    notional, positive or not. *)
Definition getAccountSubscriptionSizingEstimatedNotional : json -> option num :=
  getSizingEstimatedNotional.

Definition getOrderIntentEstimatedNotional (order : OrderIntent) : option num :=
  match oi_notional order with
  | Some n => Some n
  | None =>
      match oi_qty order, oi_limitPrice order with
      | Some q, Some p => Some (nmul q p)
      | _, _ => getAccountSubscriptionSizingEstimatedNotional (oi_rawRequestJson order)
      end
  end.

Lemma exceeds_exact x l :
  safe x -> safe l -> exceeds (num_of_Z x) (Some (num_of_Z l)) = false <-> x <= l.
Proof.
  intros Hx Hl. unfold exceeds. rewrite num_of_Z_finite, ngtb_exact by done. cbn [andb].
  rewrite Z.ltb_ge. done.
Qed.

Definition getPositionExposure (position : TrackedPosition) : num :=
  nabs (if truthy (tp_marketValue position) then tp_marketValue position
        else if truthy (tp_costBasis position) then tp_costBasis position else num_of_Z 0).

Definition isCompleteAllocation (allocation : option TradingAccountAllocation) : bool :=
  match allocation with
  | None => false
  | Some a => isLimitEnabled (al_maxAllocatedNotional a) && isLimitEnabled (al_maxOpenPositions a) &&
              isLimitEnabled (al_maxPositionNotional a)
  end.

(** * Configured hierarchy *)

Definition evaluateConfiguredHierarchyRisk (tradingAccountId : Z)
    (maxDeployableNotional : option num)
    (accountSubscription : option TradingAccountSubscription) (requestedNotional : option num)
    : option RiskGateBlocked :=
  if negb (isLimitEnabled maxDeployableNotional) then
    Some (block 409
      "Trading account max deployable notional is not configured. New entries are blocked."
      [("rule", JStr "account_max_deployable_notional_required");
       ("tradingAccountId", jint tradingAccountId);
       ("maxDeployableNotional", jopt JNum maxDeployableNotional)])
  else
  match accountSubscription with
  | None => None
  | Some s =>
      if negb (tas_enabled s) || negb (tas_entriesEnabled s) then None
      else
      match tas_allocation s with
      | None =>
          Some (block 409
            "Entry-enabled account subscription is not assigned to an allocation. New entries are blocked."
            [("rule", JStr "account_subscription_allocation_required");
             ("tradingAccountId", jint tradingAccountId);
             ("tradingAccountSubscriptionId", jint (tas_id s));
             ("allocationId", jopt jint (tas_allocationId s))])
      | Some a =>
          if negb (al_enabled a) then None
          else if negb (isCompleteAllocation (tas_allocation s)) then
            Some (block 409
              "Assigned allocation has incomplete risk limits. New entries are blocked."
              [("rule", JStr "allocation_limits_incomplete");
               ("tradingAccountId", jint tradingAccountId);
               ("tradingAccountSubscriptionId", jint (tas_id s));
               ("allocationId", jint (al_id a));
               ("maxAllocatedNotional", jopt JNum (al_maxAllocatedNotional a));
               ("maxOpenPositions", jopt JNum (al_maxOpenPositions a));
               ("maxPositionNotional", jopt JNum (al_maxPositionNotional a))])
          else if negb (isLimitEnabled (tas_reservedNotional s)) then
            Some (block 409
              "Entry-enabled account subscription has no reserved notional. New entries are blocked."
              [("rule", JStr "account_subscription_reservation_required");
               ("tradingAccountId", jint tradingAccountId);
               ("tradingAccountSubscriptionId", jint (tas_id s));
               ("allocationId", jint (al_id a));
               ("reservedNotional", jopt JNum (tas_reservedNotional s))])
          else
          match requestedNotional with
          | Some r =>
              if exceeds r (tas_reservedNotional s) then
                Some (block 409
                  "Proposed entry notional exceeds the account subscription reservation."
                  [("rule", JStr "account_subscription_reserved_notional_exceeded");
                   ("tradingAccountId", jint tradingAccountId);
                   ("tradingAccountSubscriptionId", jint (tas_id s));
                   ("allocationId", jint (al_id a));
                   ("requestedNotional", JNum r);
                   ("reservedNotional", jopt JNum (tas_reservedNotional s))])
              else None
          | None => None
          end
      end
  end.

(** * Allocation risk *)

Record AllocationRiskUsage := {
  au_activePositionCount : Z;
  au_activeSymbols : list string;
  au_openNotional : num;
  au_pendingEntryOrderCount : Z;
  au_pendingEntryNotional : num;
  au_currentAllocatedNotional : num;
  au_projectedAllocatedNotional : option num
}.

Record AllocationRiskDetails := {
  ar_tradingAccountSubscriptionId : Z;
  ar_allocationId : Z;
  ar_allocationKey : string;
  ar_allocationName : string;
  ar_enabled : bool;
  ar_maxAllocatedNotional : option num;
  ar_maxOpenPositions : option num;
  ar_maxPositionNotional : option num;
  ar_requestedNotional : option num;
  ar_usage : AllocationRiskUsage
}.

Definition allocationBlockDetails (allocationRisk : AllocationRiskDetails)
    (details : list (string * json)) : list (string * json) :=
  ([("allocationId", jint (ar_allocationId allocationRisk));
    ("allocationKey", JStr (ar_allocationKey allocationRisk));
    ("allocationName", JStr (ar_allocationName allocationRisk));
    ("tradingAccountSubscriptionId", jint (ar_tradingAccountSubscriptionId allocationRisk))] ++
   details)%list.

Definition evaluateAllocationRisk (allocationRisk : option AllocationRiskDetails)
    : option RiskGateBlocked :=
  match allocationRisk with
  | None => None
  | Some r =>
      let u := ar_usage r in
      if negb (ar_enabled r) then
        Some (block 403 "Allocation bucket is disabled for new entries."
          (("rule", JStr "allocation_disabled") ::
           allocationBlockDetails r [("enabled", JBool (ar_enabled r))]))
      else if match ar_requestedNotional r with
              | Some n => exceeds n (ar_maxPositionNotional r) | None => false end then
        Some (block 409 "Allocation per-position notional limit would be exceeded."
          (("rule", JStr "allocation_max_position_notional_exceeded") ::
           allocationBlockDetails r
             [("limit", jopt JNum (ar_maxPositionNotional r));
              ("requestedNotional", jopt JNum (ar_requestedNotional r))]))
      else if reaches (num_of_Z (au_activePositionCount u)) (ar_maxOpenPositions r) then
        Some (block 409 "Allocation maximum open position limit reached."
          (("rule", JStr "allocation_max_open_positions_exceeded") ::
           allocationBlockDetails r
             [("limit", jopt JNum (ar_maxOpenPositions r));
              ("current", jint (au_activePositionCount u));
              ("projected", jint (au_activePositionCount u + 1));
              ("activeSymbols", jstrs (au_activeSymbols u))]))
      else if match ar_requestedNotional r, au_projectedAllocatedNotional u with
              | Some _, Some p => exceeds p (ar_maxAllocatedNotional r)
              | _, _ => false
              end then
        Some (block 409 "Allocation allocated notional limit would be exceeded."
          (("rule", JStr "allocation_max_allocated_notional_exceeded") ::
           allocationBlockDetails r
             [("limit", jopt JNum (ar_maxAllocatedNotional r));
              ("current", JNum (au_currentAllocatedNotional u));
              ("projected", jopt JNum (au_projectedAllocatedNotional u));
              ("requestedNotional", jopt JNum (ar_requestedNotional r));
              ("openNotional", JNum (au_openNotional u));
              ("pendingEntryNotional", JNum (au_pendingEntryNotional u))]))
      else None
  end.

Section Gate.
Context `{TimeZone} `{DateParse} `{MarketSession} `{Prisma} `{BrokerApi}.

(** The allocation a row's account subscription belongs to. *)
Definition in_allocation (db : Db) (allocationId : Z) (accountSubscriptionId : option Z) : bool :=
  match accountSubscriptionId with
  | None => false
  | Some i => existsb (fun s => (tas_id s =? i) && opt_eqb (tas_allocationId s) allocationId)
                (accountSubscriptions db)
  end.

Definition getAllocationRiskAccountSubscription (db : Db) (input : ResolvedPlaceOrderInput)
    (tradingAccountId : Z) : option TradingAccountSubscription :=
  match po_subscriptionId input, po_tradingAccountSubscriptionId input with
  | Some subscriptionId, Some id =>
      find_first (fun s => (tas_tradingAccountId s =? tradingAccountId) &&
                           (tas_subscriptionId s =? subscriptionId) && (tas_id s =? id))
        (accountSubscriptions db)
  | _, _ => None
  end.

Definition getAllocationRiskUsage (db : Db) (tradingAccountId allocationId : Z)
    (requestedNotional : option num) (excludeOrderIntentId : option Z) : AllocationRiskUsage :=
  let activePositions := find_many (fun p =>
    active_position_where tradingAccountId p &&
    in_allocation db allocationId (tp_tradingAccountSubscriptionId p)) (trackedPositions db) in
  let pendingEntryOrders := find_many (fun i =>
    opt_eqb (oi_tradingAccountId i) tradingAccountId && String.eqb (oi_side i) "buy" &&
    bool_decide (oi_trackedPositionId i = None) && member (oi_status i) ENTRY_ORDER_STATUSES &&
    not_excluded excludeOrderIntentId i &&
    in_allocation db allocationId (oi_tradingAccountSubscriptionId i)) (orderIntents db) in
  let openNotional := sum_of getPositionExposure activePositions in
  let pendingEntryNotional := sum_of (fun o =>
    default (num_of_Z 0) (getOrderIntentEstimatedNotional o)) pendingEntryOrders in
  let currentAllocatedNotional := nadd openNotional pendingEntryNotional in
  {| au_activePositionCount := Z.of_nat (length activePositions);
     au_activeSymbols := distinct [] (map tp_symbol activePositions);
     au_openNotional := openNotional;
     au_pendingEntryOrderCount := Z.of_nat (length pendingEntryOrders);
     au_pendingEntryNotional := pendingEntryNotional;
     au_currentAllocatedNotional := currentAllocatedNotional;
     au_projectedAllocatedNotional := option_map (nadd currentAllocatedNotional) requestedNotional |}.

Definition getAllocationRiskDetails (db : Db) (accountSubscription : option TradingAccountSubscription)
    (tradingAccountId : Z) (requestedNotional : option num) (excludeOrderIntentId : option Z)
    : option AllocationRiskDetails :=
  match accountSubscription with
  | None => None
  | Some s =>
      match tas_allocation s with
      | None => None
      | Some a =>
          Some {| ar_tradingAccountSubscriptionId := tas_id s; ar_allocationId := al_id a;
                  ar_allocationKey := al_key a; ar_allocationName := al_name a;
                  ar_enabled := al_enabled a;
                  ar_maxAllocatedNotional := al_maxAllocatedNotional a;
                  ar_maxOpenPositions := al_maxOpenPositions a;
                  ar_maxPositionNotional := al_maxPositionNotional a;
                  ar_requestedNotional := requestedNotional;
                  ar_usage := getAllocationRiskUsage db tradingAccountId (al_id a)
                                requestedNotional excludeOrderIntentId |}
      end
  end.

Definition findSubscriptionForInput (db : Db) (input : ResolvedPlaceOrderInput)
    (tradingAccountId : Z) : option Subscription :=
  match po_subscriptionId input with
  | Some subscriptionId =>
      match po_tradingAccountSubscriptionId input with
      | None => None
      | Some tasId =>
          find_first (fun s => (sub_id s =? subscriptionId) &&
            existsb (fun a => (tas_subscriptionId a =? sub_id s) && (tas_id a =? tasId) &&
                              (tas_tradingAccountId a =? tradingAccountId))
              (accountSubscriptions db)) (subscriptions db)
      end
  | None =>
      match po_subscriptionKey input with
      | Some key => find_first (fun s => String.eqb (sub_key s) key) (subscriptions db)
      | None => None
      end
  end.

Definition getAccountRiskSettings (db : Db) (tradingAccountId : Z)
    : option TradingAccountRiskSettings :=
  find_first (fun s => rs_tradingAccountId s =? tradingAccountId) (riskSettings db).

(** * Diagnostics *)

Definition effective_limit_json (l : EffectiveAccountEntryLimit) : json :=
  JObj [("value", jopt JNum (lim_value l)); ("source", JStr (source_str (lim_source l)))].

Definition effective_json (e : EffectiveAccountEntryLimits) : json :=
  JObj [("tradingAccountId", jint (ef_tradingAccountId e));
    ("accountRiskSettingsEnabled", JBool (ef_accountRiskSettingsEnabled e));
    ("usingLegacyGlobalFallback", JBool (ef_usingLegacyGlobalFallback e));
    ("limits", JObj [
      ("maxDailyEntryOrders", effective_limit_json (ef_limits e F_maxDailyEntryOrders));
      ("maxDailyEntryNotional", effective_limit_json (ef_limits e F_maxDailyEntryNotional));
      ("maxOpenPositions", effective_limit_json (ef_limits e F_maxOpenPositions));
      ("maxSymbolOpenNotional", effective_limit_json (ef_limits e F_maxSymbolOpenNotional))]);
    ("authoritativeTotalExposure", JObj [("field", JStr "maxDeployableNotional");
      ("value", jopt JNum (ef_maxDeployableNotional e)); ("source", JStr "TRADING_ACCOUNT")]);
    ("superseded", JObj [
      ("accountMaxTotalOpenNotional", jopt JNum (ef_accountMaxTotalOpenNotional e));
      ("globalMaxTotalOpenNotional", jopt JNum (ef_globalMaxTotalOpenNotional e));
      ("accountMaxSubscriptionOpenNotional", jopt JNum (ef_accountMaxSubscriptionOpenNotional e));
      ("globalMaxSubscriptionOpenNotional", jopt JNum (ef_globalMaxSubscriptionOpenNotional e))])].

Definition window_json (w : DailyWindow) : json :=
  JObj [("timeZone", JStr "America/New_York"); ("date", JStr (dw_date w));
        ("start", jopt JStr (option_map iso_of_time (dw_start w)));
        ("nextStart", jopt JStr (option_map iso_of_time (dw_nextStart w)))].

Definition accountRiskDiagnostics (effective : EffectiveAccountEntryLimits) (usage : EntryRiskUsage)
    : list (string * json) :=
  [("effectiveEntryLimits", effective_json effective);
   ("usage", JObj [
     ("dailyWindow", window_json (us_dailyWindow usage));
     ("dailyEntryOrderCount", jint (us_dailyEntryOrderCount usage));
     ("dailyEntryNotional", JNum (us_dailyEntryNotional usage));
     ("activePositionCount", jint (us_activePositionCount usage));
     ("pendingEntryPositionCount", jint (us_pendingEntryPositionCount usage));
     ("currentAccountPositionSlots", jint (us_currentAccountPositionSlots usage));
     ("openPositionNotional", JNum (us_openPositionNotional usage));
     ("pendingEntryNotional", JNum (us_pendingEntryNotional usage));
     ("currentAccountExposure", JNum (us_currentAccountExposure usage));
     ("symbolOpenNotional", JNum (us_symbolOpenNotional usage));
     ("symbolPendingEntryNotional", JNum (us_symbolPendingEntryNotional usage));
     ("currentSymbolExposure", JNum (us_currentSymbolExposure usage))])].

(** * The checks, in the order of [evaluateOrderRisk] *)

(** The subscription block: applies when the input names a subscription. *)
Definition check_subscription (input : ResolvedPlaceOrderInput) (subscription : option Subscription)
    : option RiskGateBlocked :=
  match po_subscriptionKey input, po_subscriptionId input with
  | None, None => None
  | key, id =>
      match subscription with
      | None =>
          let name := match key with
                      | Some k => k
                      | None => match id with Some i => z_str i | None => "" end
                      end in
          Some (block 404 ("Subscription " ++ name ++ " was not found.")
            [("rule", JStr "subscription_exists"); ("subscriptionKey", jopt JStr key);
             ("subscriptionId", jopt jint id)])
      | Some s =>
          if negb (sub_enabled s) then
            Some (block 403 ("Subscription " ++ sub_key s ++ " is disabled.")
              [("rule", JStr "subscription_enabled"); ("subscriptionKey", JStr (sub_key s))])
          else if negb (strat_enabled (sub_strategy s)) then
            Some (block 403 ("Strategy " ++ strat_key (sub_strategy s) ++ " is disabled.")
              [("rule", JStr "strategy_enabled"); ("strategyKey", JStr (strat_key (sub_strategy s)))])
          else if negb (exit_enabled (sub_exitProfile s)) then
            Some (block 403 ("Exit profile " ++ exit_key (sub_exitProfile s) ++ " is disabled.")
              [("rule", JStr "exit_profile_enabled");
               ("exitProfileKey", JStr (exit_key (sub_exitProfile s)))])
          else None
      end
  end.

(** Account limits, from the position of the symbol to the symbol exposure. *)
Definition check_account_limits (tradingAccountId : Z) (input : ResolvedPlaceOrderInput)
    (effective : EffectiveAccountEntryLimits) (usage : EntryRiskUsage)
    (requestedNotional : option num) : option RiskGateBlocked :=
  let diag := accountRiskDiagnostics effective usage in
  let account field := [("layer", JStr "account"); ("tradingAccountId", jint tradingAccountId);
                        ("field", JStr field)] in
  let limit f := lim_value (ef_limits effective f) in
  let source f := JStr (source_str (lim_source (ef_limits effective f))) in
  match List.find (fun p => String.eqb (tp_symbol p) (po_symbol input)) (us_activePositions usage) with
  | Some existing =>
      Some (block 409 ("Entry signal blocked because " ++ po_symbol input ++
                       " already has an open or closing tracked position.")
        (spread diag [("rule", JStr "one_active_position_per_symbol");
           ("symbol", JStr (po_symbol input)); ("trackedPositionId", jint (tp_id existing));
           ("trackedPositionStatus", JStr (tp_status existing))]))
  | None =>
  if exceeds (num_of_Z (us_dailyEntryOrderCount usage + 1)) (limit F_maxDailyEntryOrders) then
    Some (block 409 "Account daily entry order limit would be exceeded."
      (spread diag ([("rule", JStr "account_max_daily_entry_orders_exceeded")] ++
        account "maxDailyEntryOrders" ++
        [("source", source F_maxDailyEntryOrders);
         ("current", jint (us_dailyEntryOrderCount usage)); ("requested", jint 1);
         ("projected", jint (us_dailyEntryOrderCount usage + 1));
         ("limit", jopt JNum (limit F_maxDailyEntryOrders));
         ("dailyWindow", window_json (us_dailyWindow usage))])%list))
  else if exceeds (num_of_Z (us_currentAccountPositionSlots usage + 1)) (limit F_maxOpenPositions) then
    Some (block 409 "Account maximum position capacity would be exceeded."
      (spread diag ([("rule", JStr "account_max_open_positions_exceeded")] ++
        account "maxOpenPositions" ++
        [("source", source F_maxOpenPositions);
         ("activePositionCount", jint (us_activePositionCount usage));
         ("pendingEntryPositionCount", jint (us_pendingEntryPositionCount usage));
         ("current", jint (us_currentAccountPositionSlots usage)); ("requested", jint 1);
         ("projected", jint (us_currentAccountPositionSlots usage + 1));
         ("limit", jopt JNum (limit F_maxOpenPositions));
         ("activeSymbols", jstrs (us_activeSymbols usage));
         ("pendingSymbols", jstrs (us_pendingSymbols usage))])%list))
  else if negb (isLimitEnabled (ef_maxDeployableNotional effective)) then
    Some (block 409
      "Trading account max deployable notional is not configured. New entries are blocked."
      (spread diag ([("rule", JStr "account_max_deployable_notional_required")] ++
        account "maxDeployableNotional" ++
        [("maxDeployableNotional", jopt JNum (ef_maxDeployableNotional effective))])%list))
  else
  match requestedNotional with
  | None =>
      Some (block 409 "Proposed entry notional is required for account risk evaluation."
        (spread diag ([("rule", JStr "account_entry_notional_required")] ++
          account "requestedNotional" ++ [("requestedNotional", JNull)])%list))
  | Some requested =>
  let projectedAccountExposure := nadd (us_currentAccountExposure usage) requested in
  let projectedSymbolExposure := nadd (us_currentSymbolExposure usage) requested in
  if exceeds (nadd (us_dailyEntryNotional usage) requested) (limit F_maxDailyEntryNotional) then
    Some (block 409 "Account daily entry notional limit would be exceeded."
      (spread diag ([("rule", JStr "account_max_daily_entry_notional_exceeded")] ++
        account "maxDailyEntryNotional" ++
        [("source", source F_maxDailyEntryNotional);
         ("current", JNum (us_dailyEntryNotional usage)); ("requested", JNum requested);
         ("projected", JNum (nadd (us_dailyEntryNotional usage) requested));
         ("limit", jopt JNum (limit F_maxDailyEntryNotional));
         ("dailyWindow", window_json (us_dailyWindow usage))])%list))
  else if exceeds projectedAccountExposure (ef_maxDeployableNotional effective) then
    Some (block 409 "Trading account deployable exposure would be exceeded."
      (spread diag ([("rule", JStr "account_max_deployable_notional_exceeded")] ++
        account "maxDeployableNotional" ++
        [("source", JStr "TRADING_ACCOUNT");
         ("openPositionNotional", JNum (us_openPositionNotional usage));
         ("pendingEntryNotional", JNum (us_pendingEntryNotional usage));
         ("currentAccountExposure", JNum (us_currentAccountExposure usage));
         ("requestedNotional", JNum requested);
         ("projectedAccountExposure", JNum projectedAccountExposure);
         ("maxDeployableNotional", jopt JNum (ef_maxDeployableNotional effective))])%list))
  else if exceeds projectedSymbolExposure (limit F_maxSymbolOpenNotional) then
    Some (block 409 ("Account symbol exposure limit would be exceeded for " ++ po_symbol input ++ ".")
      (spread diag ([("rule", JStr "account_max_symbol_open_notional_exceeded")] ++
        account "maxSymbolOpenNotional" ++
        [("source", source F_maxSymbolOpenNotional); ("symbol", JStr (po_symbol input));
         ("openSymbolNotional", JNum (us_symbolOpenNotional usage));
         ("pendingSymbolNotional", JNum (us_symbolPendingEntryNotional usage));
         ("currentSymbolExposure", JNum (us_currentSymbolExposure usage));
         ("requestedNotional", JNum requested);
         ("projectedSymbolExposure", JNum projectedSymbolExposure);
         ("maxSymbolOpenNotional", jopt JNum (limit F_maxSymbolOpenNotional))])%list))
  else None
  end
  end.

Definition allocation_risk_json (r : AllocationRiskDetails) : json :=
  let u := ar_usage r in
  JObj [("tradingAccountSubscriptionId", jint (ar_tradingAccountSubscriptionId r));
    ("allocationId", jint (ar_allocationId r)); ("allocationKey", JStr (ar_allocationKey r));
    ("allocationName", JStr (ar_allocationName r)); ("enabled", JBool (ar_enabled r));
    ("limits", JObj [("maxAllocatedNotional", jopt JNum (ar_maxAllocatedNotional r));
      ("maxOpenPositions", jopt JNum (ar_maxOpenPositions r));
      ("maxPositionNotional", jopt JNum (ar_maxPositionNotional r))]);
    ("requestedNotional", jopt JNum (ar_requestedNotional r));
    ("usage", JObj [("activePositionCount", jint (au_activePositionCount u));
      ("activeSymbols", jstrs (au_activeSymbols u)); ("openNotional", JNum (au_openNotional u));
      ("pendingEntryOrderCount", jint (au_pendingEntryOrderCount u));
      ("pendingEntryNotional", JNum (au_pendingEntryNotional u));
      ("currentAllocatedNotional", JNum (au_currentAllocatedNotional u));
      ("projectedAllocatedNotional", jopt JNum (au_projectedAllocatedNotional u))])].

Definition allowed_details (tradingAccountId : Z) (input : ResolvedPlaceOrderInput)
    (requestedNotional : option num) (entrySession : option EntrySessionDecision)
    (usage : EntryRiskUsage) (effective : EffectiveAccountEntryLimits)
    (allocationRisk : option AllocationRiskDetails) : json :=
  let requested := default (num_of_Z 0) requestedNotional in
  JObj [("orderType", JStr "entry"); ("tradingAccountId", jint tradingAccountId);
    ("symbol", JStr (po_symbol input)); ("side", JStr (side_str (po_side input)));
    ("subscriptionKey", jopt JStr (po_subscriptionKey input));
    ("requestedNotional", jopt JNum requestedNotional);
    ("entrySession", match entrySession with
      | Some d => entrySessionDetailsAsJson d
      | None => JObj [("checked", JBool false);
          ("reason", JStr "Entry session guard was not enforced for this evaluation.")]
      end);
    ("usage", JObj [
      ("dailyEntryOrderCount", jint (us_dailyEntryOrderCount usage));
      ("dailyEntryNotional", JNum (us_dailyEntryNotional usage));
      ("activePositionCount", jint (us_activePositionCount usage));
      ("pendingEntryPositionCount", jint (us_pendingEntryPositionCount usage));
      ("currentAccountPositionSlots", jint (us_currentAccountPositionSlots usage));
      ("openPositionNotional", JNum (us_openPositionNotional usage));
      ("pendingEntryNotional", JNum (us_pendingEntryNotional usage));
      ("currentAccountExposure", JNum (us_currentAccountExposure usage));
      ("projectedAccountExposure", JNum (nadd (us_currentAccountExposure usage) requested));
      ("symbolOpenNotional", JNum (us_symbolOpenNotional usage));
      ("symbolPendingEntryNotional", JNum (us_symbolPendingEntryNotional usage));
      ("projectedSymbolExposure", JNum (nadd (us_currentSymbolExposure usage) requested));
      ("activeSymbols", jstrs (us_activeSymbols usage))]);
    ("effectiveEntryLimits", effective_json effective);
    ("allocationRisk", jopt allocation_risk_json allocationRisk)].

(** The limits, hierarchy and allocation part, after the session guard. *)
Definition evaluate_limits (db : Db) (config : RuntimeTradingConfig) (input : ResolvedPlaceOrderInput)
    (options : EvaluateOrderRiskOptions) (tradingAccountId now : Z)
    (entrySession : option EntrySessionDecision) : res RiskGateResult :=
  let requestedNotional := getRequestedNotional input options in
  usage ← getTradingAccountEntryRiskUsage db tradingAccountId (po_symbol input) now
            (op_excludeOrderIntentId options);
  let maxDeployable :=
    find_first (fun a => ta_id a =? tradingAccountId) (tradingAccounts db)
      ≫= ta_maxDeployableNotional in
  let accountSubscription := getAllocationRiskAccountSubscription db input tradingAccountId in
  let effective := resolveEffectiveAccountEntryLimits tradingAccountId maxDeployable
                     (getAccountRiskSettings db tradingAccountId) config in
  match check_account_limits tradingAccountId input effective usage requestedNotional with
  | Some blocked => mret (Blocked blocked)
  | None =>
  match accountSubscription with
  | None =>
      mret (Blocked (block 409
        "Trading account subscription identity is required for entry risk evaluation."
        [("rule", JStr "account_subscription_identity_required");
         ("tradingAccountId", jint tradingAccountId);
         ("tradingAccountSubscriptionId", jopt jint (po_tradingAccountSubscriptionId input));
         ("subscriptionId", jopt jint (po_subscriptionId input))]))
  | Some _ =>
  match evaluateConfiguredHierarchyRisk tradingAccountId maxDeployable accountSubscription
          requestedNotional with
  | Some blocked => mret (Blocked blocked)
  | None =>
      let allocationRisk := getAllocationRiskDetails db accountSubscription tradingAccountId
                              requestedNotional (op_excludeOrderIntentId options) in
      match evaluateAllocationRisk allocationRisk with
      | Some blocked => mret (Blocked blocked)
      | None =>
          mret (Allowed (allowed_details tradingAccountId input requestedNotional
            entrySession usage effective allocationRisk))
      end
  end
  end
  end.

(** The entry-only part: the session guard, then the limits. *)
Definition evaluate_entry (db : Db) (config : RuntimeTradingConfig) (input : ResolvedPlaceOrderInput)
    (options : EvaluateOrderRiskOptions) (tradingAccountId now : Z) : res RiskGateResult :=
  match op_enforceEntrySessionGuard options with
  | Some false => evaluate_limits db config input options tradingAccountId now None
  | _ =>
      entrySession ← evaluateEntrySessionGuard config now (Some tradingAccountId);
      match entrySession with
      | EntrySessionBlocked statusCode reason _ =>
          mret (Blocked {| bl_statusCode := statusCode; bl_reason := reason;
                           bl_details := entrySessionDetailsAsJson entrySession |})
      | EntrySessionAllowed _ _ =>
          evaluate_limits db config input options tradingAccountId now (Some entrySession)
      end
  end.

Definition evaluateOrderRisk (db : Db) (settings_rows : settings) (input : ResolvedPlaceOrderInput)
    (options : EvaluateOrderRiskOptions) (now : Z) : res RiskGateResult :=
  match op_tradingAccountId options with
  | None => Throw (HttpError 400 "tradingAccountId is required for order risk evaluation." JNull)
  | Some tradingAccountId =>
  let config := getRuntimeTradingConfig settings_rows in
  if negb (tradingEnabled config) then
    mret (Blocked (block 403 "Trading is disabled."
      [("rule", JStr "tradingEnabled"); ("tradingEnabled", JBool (tradingEnabled config))]))
  else
  let subscription := findSubscriptionForInput db input tradingAccountId in
  let security := match subscription with
                  | Some s => Some (sub_security s)
                  | None => find_first (fun s => String.eqb (sec_symbol s) (po_symbol input))
                              (securities db)
                  end in
  match security with
  | None =>
      mret (Blocked (block 403 ("Ticker " ++ po_symbol input ++ " is not in the securities database.")
        [("rule", JStr "security_registered"); ("symbol", JStr (po_symbol input))]))
  | Some sec =>
  if negb (sec_enabled sec) then
    mret (Blocked (block 409 ("Security " ++ po_symbol input ++ " is disabled for trading.")
      [("rule", JStr "security_enabled"); ("symbol", JStr (po_symbol input))]))
  else
  match check_subscription input subscription with
  | Some blocked => mret (Blocked blocked)
  | None =>
  let entryOrder := isEntryOrder input in
  if entryOrder && killSwitchEnabled config then
    mret (Blocked (block 403 "Kill switch is active. New entries are blocked."
      [("rule", JStr "killSwitchEnabled"); ("killSwitchEnabled", JBool (killSwitchEnabled config));
       ("symbol", JStr (po_symbol input)); ("subscriptionKey", jopt JStr (po_subscriptionKey input))]))
  else
  account ← getNormalizedAccount db tradingAccountId;
  if ac_tradingBlocked account then
    mret (Blocked (block 403 "Broker account is trading blocked."
      [("rule", JStr "broker_trading_blocked"); ("broker", JStr "alpaca");
       ("mode", JStr (match ac_mode account with paper => "paper" | live => "live" end));
       ("tradingBlocked", JBool (ac_tradingBlocked account))]))
  else if negb entryOrder then
    mret (Allowed (JObj [("orderType", JStr "non_entry"); ("symbol", JStr (po_symbol input));
      ("side", JStr (side_str (po_side input)));
      ("reason", JStr "Entry-only risk limits were skipped.")]))
  else evaluate_entry db config input options tradingAccountId now
  end
  end
  end.

(** [logRiskGateBlockedOrder]: the system event row it creates, as type,
    entity, account, severity and payload. *)
Definition logRiskGateBlockedOrder (orderIntentId : Z) (tradingAccountId : option Z)
    (input : ResolvedPlaceOrderInput) (statusCode : Z) (reason : string) (details : json)
    : string * string * string * option Z * string * json :=
  ("risk_gate.blocked", "orderIntent", z_str orderIntentId, tradingAccountId,
   (if 500 <=? statusCode then "ERROR" else "WARNING"),
   JObj [("orderIntentId", jint orderIntentId); ("symbol", JStr (po_symbol input));
     ("side", JStr (side_str (po_side input)));
     ("subscriptionKey", jopt JStr (po_subscriptionKey input)); ("reason", JStr reason);
     ("statusCode", jint statusCode); ("details", details)]).

(** * What an admitted entry guarantees *)

Variables (db : Db) (rows : settings) (input : ResolvedPlaceOrderInput)
  (options : EvaluateOrderRiskOptions) (account now : Z).

Definition config_of : RuntimeTradingConfig := getRuntimeTradingConfig rows.

(** The account's deployable ceiling and its effective limits. *)
Definition deployable : option num :=
  find_first (fun a => ta_id a =? account) (tradingAccounts db) ≫= ta_maxDeployableNotional.
Definition effective_limits : EffectiveAccountEntryLimits :=
  resolveEffectiveAccountEntryLimits account deployable (getAccountRiskSettings db account) config_of.
Definition limit_of (f : AccountEntryLimitField) : option num :=
  lim_value (ef_limits effective_limits f).

(** The account limits hold for the usage read and the requested notional. *)
Record limits_hold (usage : EntryRiskUsage) (requested : num) : Prop := {
  lh_symbol : forall p, In p (us_activePositions usage) -> tp_symbol p <> po_symbol input;
  lh_orders : exceeds (num_of_Z (us_dailyEntryOrderCount usage + 1)) (limit_of F_maxDailyEntryOrders) = false;
  lh_positions : exceeds (num_of_Z (us_currentAccountPositionSlots usage + 1)) (limit_of F_maxOpenPositions) = false;
  lh_daily : exceeds (nadd (us_dailyEntryNotional usage) requested) (limit_of F_maxDailyEntryNotional) = false;
  lh_configured : isLimitEnabled deployable = true;
  lh_account : exceeds (nadd (us_currentAccountExposure usage) requested) deployable = false;
  lh_symbol_notional : exceeds (nadd (us_currentSymbolExposure usage) requested) (limit_of F_maxSymbolOpenNotional) = false
}.

(** The capital hierarchy holds for the account subscription of the order. *)
Definition hierarchy_holds (s : TradingAccountSubscription) (requested : num) : Prop :=
  match tas_allocation s with
  | None => tas_enabled s = false \/ tas_entriesEnabled s = false
  | Some a =>
      al_enabled a = true /\
      exceeds requested (al_maxPositionNotional a) = false /\
      (let u := getAllocationRiskUsage db account (al_id a) (Some requested)
                  (op_excludeOrderIntentId options) in
       reaches (num_of_Z (au_activePositionCount u)) (al_maxOpenPositions a) = false /\
       exceeds (nadd (au_currentAllocatedNotional u) requested) (al_maxAllocatedNotional a) = false) /\
      (tas_enabled s = true -> tas_entriesEnabled s = true ->
       isCompleteAllocation (Some a) = true /\ isLimitEnabled (tas_reservedNotional s) = true /\
       exceeds requested (tas_reservedNotional s) = false)
  end.

Definition session_admits : Prop :=
  op_enforceEntrySessionGuard options = Some false \/
  exists d, evaluateEntrySessionGuard config_of now (Some account) = Ok d /\ session_allowed d = true.

Lemma check_account_limits_none usage requestedNotional :
  check_account_limits account input effective_limits usage requestedNotional = None ->
  exists requested, requestedNotional = Some requested /\ limits_hold usage requested.
Proof.
  unfold check_account_limits. intros E.
  destruct (List.find _ _) eqn:Ef; [done|].
  destruct (exceeds _ (lim_value (ef_limits effective_limits F_maxDailyEntryOrders))) eqn:E1; [done|].
  destruct (exceeds _ (lim_value (ef_limits effective_limits F_maxOpenPositions))) eqn:E2; [done|].
  destruct (negb _) eqn:E3; [done|]. destruct requestedNotional as [r|]; [|done].
  destruct (exceeds _ (lim_value (ef_limits effective_limits F_maxDailyEntryNotional))) eqn:E4; [done|].
  destruct (exceeds _ (ef_maxDeployableNotional effective_limits)) eqn:E5; [done|].
  destruct (exceeds _ (lim_value (ef_limits effective_limits F_maxSymbolOpenNotional))) eqn:E6; [done|].
  exists r. split; [done|]. bool_hyps. split; try done.
  intros p Hp Hs. pose proof (find_None_In _ _ _ Ef Hp) as G. cbn beta in G.
  rewrite Hs, String.eqb_refl in G. done.
Qed.

Lemma hierarchy_none s requested :
  evaluateConfiguredHierarchyRisk account deployable (Some s) (Some requested) = None ->
  evaluateAllocationRisk (getAllocationRiskDetails db (Some s) account (Some requested)
    (op_excludeOrderIntentId options)) = None ->
  hierarchy_holds s requested.
Proof.
  unfold evaluateConfiguredHierarchyRisk, evaluateAllocationRisk, getAllocationRiskDetails,
    hierarchy_holds.
  destruct (isLimitEnabled deployable); cbn [negb]; [|done].
  destruct (tas_allocation s) as [a|] eqn:Ea.
  - intros E1 E2. cbn [ar_enabled ar_requestedNotional ar_maxPositionNotional ar_usage
      ar_maxOpenPositions ar_maxAllocatedNotional getAllocationRiskUsage
      au_projectedAllocatedNotional option_map] in E2.
    destruct (al_enabled a); cbn [negb] in E2; [|done]. split; [done|].
    destruct (exceeds requested (al_maxPositionNotional a)); [done|]. split; [done|].
    match type of E2 with context [if reaches ?x ?y then _ else _] => destruct (reaches x y) eqn:Er end; [done|].
    match type of E2 with context [if exceeds ?x ?y then _ else _] => destruct (exceeds x y) eqn:Ex end; [done|].
    split; [split; done|]. intros H1' H2'. rewrite H1', H2' in E1. cbn [negb orb] in E1.
    destruct (isCompleteAllocation (Some a)); cbn [negb] in E1; [|done].
    destruct (isLimitEnabled (tas_reservedNotional s)); cbn [negb] in E1; [|done].
    by destruct (exceeds requested (tas_reservedNotional s)).
  - intros E1 _. destruct (tas_enabled s); [|by left]. destruct (tas_entriesEnabled s); [done|by right].
Qed.

Lemma evaluate_limits_allowed session details :
  evaluate_limits db config_of input options account now session = Ok (Allowed details) ->
  exists usage requested s,
    getTradingAccountEntryRiskUsage db account (po_symbol input) now (op_excludeOrderIntentId options)
      = Ok usage /\
    getRequestedNotional input options = Some requested /\
    limits_hold usage requested /\
    getAllocationRiskAccountSubscription db input account = Some s /\ hierarchy_holds s requested.
Proof.
  unfold evaluate_limits. fold deployable. fold effective_limits.
  unfold mbind, res_bind, mret, res_ret.
  destruct (getTradingAccountEntryRiskUsage _ _ _ _ _) as [usage|]; [|done].
  destruct (check_account_limits _ _ _ _ _) as [b|] eqn:El; [done|].
  apply check_account_limits_none in El as (requested & Er & Hl). rewrite Er.
  destruct (getAllocationRiskAccountSubscription _ _ _) as [s|]; [|done].
  destruct (evaluateConfiguredHierarchyRisk _ _ _ _) eqn:Eh; [done|].
  destruct (evaluateAllocationRisk _) eqn:Ea; [done|]. intros _.
  exists usage, requested, s. do 4 (split; [done|]). by apply hierarchy_none.
Qed.

Lemma evaluate_entry_allowed details :
  evaluate_entry db config_of input options account now = Ok (Allowed details) ->
  session_admits /\ exists session, evaluate_limits db config_of input options account now session
    = Ok (Allowed details).
Proof.
  unfold evaluate_entry, session_admits, mbind, res_bind, mret, res_ret.
  destruct (op_enforceEntrySessionGuard options) as [[]|]; [|by eauto|];
    (destruct (evaluateEntrySessionGuard config_of now (Some account)) as [[g x|c r x]|] eqn:Ed; try done;
     intros E; split; [right|]; eauto).
Qed.

Context `{!PrismaLaws H2}.

(** The subscription an order names: by its id, when it also names one of the
    account's own assignments to it, or else by its key. *)
Definition names_subscription (s : Subscription) : Prop :=
  In s (subscriptions db) /\
  match po_subscriptionId input, po_tradingAccountSubscriptionId input with
  | Some id, Some assignment => sub_id s = id /\
      exists a, In a (accountSubscriptions db) /\ tas_id a = assignment /\ tas_subscriptionId a = id /\
        tas_tradingAccountId a = account
  | Some _, None => False
  | None, _ => po_subscriptionKey input = Some (sub_key s)
  end.

Lemma findSubscription_named s : findSubscriptionForInput db input account = Some s -> names_subscription s.
Proof.
  unfold findSubscriptionForInput, names_subscription.
  destruct (po_subscriptionId input) as [id|]; [destruct (po_tradingAccountSubscriptionId input) as [k|]; [|done]|
    destruct (po_subscriptionKey input) as [key|]; [|done]]; intros E; apply find_first_some in E as [Hin E];
    (split; [done|]).
  - apply andb_prop in E as [Eid%Z.eqb_eq Ex]. split; [done|].
    apply existsb_exists in Ex as (a & Ha & E). bool_hyps. exists a. repeat split; congruence.
  - apply String.eqb_eq in E. by subst.
Qed.

Lemma findSubscription_unnamed : po_subscriptionKey input = None -> po_subscriptionId input = None ->
  findSubscriptionForInput db input account = None.
Proof. unfold findSubscriptionForInput. by intros -> ->. Qed.

Lemma check_subscription_none subscription :
  check_subscription input subscription = None ->
  po_subscriptionKey input <> None \/ po_subscriptionId input <> None ->
  exists s, subscription = Some s /\ sub_enabled s = true /\
    strat_enabled (sub_strategy s) = true /\ exit_enabled (sub_exitProfile s) = true.
Proof.
  unfold check_subscription. intros E Hn.
  destruct (po_subscriptionKey input) as [k|], (po_subscriptionId input) as [i|]; try tauto;
    (destruct subscription as [s|]; [|done]); exists s;
    destruct (sub_enabled s), (strat_enabled (sub_strategy s)), (exit_enabled (sub_exitProfile s)); done.
Qed.

Lemma accountSubscription_In s :
  getAllocationRiskAccountSubscription db input account = Some s ->
  In s (accountSubscriptions db) /\ tas_tradingAccountId s = account /\
  Some (tas_id s) = po_tradingAccountSubscriptionId input /\ Some (tas_subscriptionId s) = po_subscriptionId input.
Proof.
  unfold getAllocationRiskAccountSubscription. destruct (po_subscriptionId input); [|done].
  destruct (po_tradingAccountSubscriptionId input); [|done]. intros E.
  apply find_first_some in E as [Hin E]. bool_hyps. split; [done|]. split; [done|]. split; by f_equal.
Qed.

(** The whole inversion: an admitted entry went through every stage. *)
Lemma evaluateOrderRisk_entry_limits details :
  op_tradingAccountId options = Some account -> isEntryOrder input = true ->
  evaluateOrderRisk db rows input options now = Ok (Allowed details) ->
  exists usage requested,
    getTradingAccountEntryRiskUsage db account (po_symbol input) now (op_excludeOrderIntentId options)
      = Ok usage /\
    getRequestedNotional input options = Some requested /\ limits_hold usage requested.
Proof.
  intros Ha He E. unfold evaluateOrderRisk in E. rewrite Ha, He in E.
  destruct (negb _); [done|].
  destruct (match findSubscriptionForInput db input account with Some s => Some (sub_security s) | None => _ end)
    as [sec|]; [|done].
  destruct (negb _); [done|]. destruct (check_subscription _ _); [done|]. destruct (true && _); [done|].
  unfold mbind, res_bind in E. destruct (getNormalizedAccount db account) as [a|]; [|done].
  destruct (ac_tradingBlocked a); [done|]. cbn [negb] in E.
  apply evaluate_entry_allowed in E as (_ & session & E).
  apply evaluate_limits_allowed in E as (usage & requested & s & Eu & Er & Hl & _).
  by exists usage, requested.
Qed.

Lemma usage_positions usage sym t exclude :
  getTradingAccountEntryRiskUsage db account sym t exclude = Ok usage ->
  us_activePositions usage = find_many (active_position_where account) (trackedPositions db).
Proof.
  unfold getTradingAccountEntryRiskUsage, mbind, res_bind, mret, res_ret.
  destruct (getNewYorkDailyEntryWindow t) as [w|]; [|done].
  destruct (dw_start w), (dw_nextStart w); try done. by intros [= <-].
Qed.
End Gate.

(** * Properties *)

(** C2. An entry passes the risk gate only when every guard held: trading is
    enabled and the kill switch off; when it names a subscription, exactly that
    one exists (by its id with an assignment of this account to it, or else by
    its key), and it, its strategy, its exit profile and its security are
    enabled; when it names none, the security of its symbol is enabled; the
    broker account is not blocked, the session guard admitted it (or was not
    enforced), no open or closing position of the account holds the symbol,
    the daily order, position-slot, daily-notional, deployable and symbol
    limits are respected for a known notional, and the allocation hierarchy of
    the account's own assignment to the named subscription allows it. *)
Theorem risk_gate_entry_safety `{TimeZone} `{DateParse} `{MarketSession} {P : Prisma}
    `{!PrismaLaws P} `{BrokerApi} db rows input options account now details
    (Haccount : op_tradingAccountId options = Some account)
    (Hentry : isEntryOrder input = true)
    (Hallowed : evaluateOrderRisk db rows input options now = Ok (Allowed details)) :
  let config := getRuntimeTradingConfig rows in
  tradingEnabled config = true /\ killSwitchEnabled config = false /\
  (po_subscriptionKey input <> None \/ po_subscriptionId input <> None ->
    exists s, names_subscription db input account s /\ sub_enabled s = true /\
      strat_enabled (sub_strategy s) = true /\ exit_enabled (sub_exitProfile s) = true /\
      sec_enabled (sub_security s) = true) /\
  (po_subscriptionKey input = None -> po_subscriptionId input = None ->
    exists sec, In sec (securities db) /\ sec_symbol sec = po_symbol input /\ sec_enabled sec = true) /\
  (exists a, getNormalizedAccount db account = Ok a /\ ac_tradingBlocked a = false) /\
  session_admits rows options account now /\
  (forall p, In p (trackedPositions db) -> active_position_where account p = true ->
    tp_symbol p <> po_symbol input) /\
  exists usage requested s,
    getTradingAccountEntryRiskUsage db account (po_symbol input) now (op_excludeOrderIntentId options)
      = Ok usage /\
    getRequestedNotional input options = Some requested /\
    limits_hold db rows input account usage requested /\
    In s (accountSubscriptions db) /\ tas_tradingAccountId s = account /\
    Some (tas_id s) = po_tradingAccountSubscriptionId input /\ Some (tas_subscriptionId s) = po_subscriptionId input /\
    hierarchy_holds db options account s requested.
Proof.
  unfold evaluateOrderRisk in Hallowed. rewrite Haccount in Hallowed.
  destruct (tradingEnabled (getRuntimeTradingConfig rows)) eqn:Ht; cbn [negb] in Hallowed; [|done].
  set (sub := findSubscriptionForInput db input account) in *.
  destruct (match sub with Some s => Some (sub_security s) | None => _ end) as [sec|] eqn:Es; [|done].
  destruct (sec_enabled sec) eqn:Hse; cbn [negb] in Hallowed; [|done].
  destruct (check_subscription input sub) as [b|] eqn:Ec; [done|]. rewrite Hentry in Hallowed.
  destruct (killSwitchEnabled (getRuntimeTradingConfig rows)) eqn:Hk; cbn [andb] in Hallowed; [done|].
  unfold mbind, res_bind in Hallowed.
  destruct (getNormalizedAccount db account) as [a|] eqn:Eacc; [|done].
  destruct (ac_tradingBlocked a) eqn:Hb; cbn [negb] in Hallowed; [done|].
  apply evaluate_entry_allowed in Hallowed as (Hsess & session & E).
  apply evaluate_limits_allowed in E as (usage & requested & tas & Eu & Er & Hl & Ea & Hh).
  apply accountSubscription_In in Ea as (Hin & Hacc & Hid & Hsid); [|done].
  cbv zeta. do 2 (split; [done|]).
  split.
  { intros Hn. destruct (check_subscription_none _ _ Ec Hn) as (s' & Es' & Hs1 & Hs2 & Hs3).
    rewrite Es' in Es. injection Es as <-. exists s'. split; [by apply findSubscription_named|done]. }
  split.
  { intros Hk1 Hk2. unfold sub in Es. rewrite findSubscription_unnamed in Es by done.
    apply find_first_some in Es as [? E%String.eqb_eq]. by exists sec. }
  split; [eauto|]. split; [done|]. split.
  { intros p Hp Hact. apply (lh_symbol _ _ _ _ _ _ Hl).
    rewrite (usage_positions _ _ _ _ _ _ Eu). by apply find_many_In. }
  exists usage, requested, tas. do 7 (split; [done|]). done.
Qed.

(** C15. Capital limits are exact: when every exposure and estimate is a whole
    number of dollars (with a total below 2^53), an admitted entry keeps the
    account's open and pending exposure plus the request within the deployable
    ceiling, and its orders, position slots and daily notional within each
    whole-number limit that is set, counted over the rows themselves and
    whatever order the database returns them in. *)
Theorem risk_gate_capital_exact `{TimeZone} `{DateParse} `{MarketSession} {P : Prisma}
    `{!PrismaLaws P} `{BrokerApi} db rows input options account now details pe oe requested
    (Haccount : op_tradingAccountId options = Some account)
    (Hentry : isEntryOrder input = true)
    (Hallowed : evaluateOrderRisk db rows input options now = Ok (Allowed details))
    (Hwhole : whole_dollars db pe oe requested)
    (Hrequested : getRequestedNotional input options = Some (num_of_Z requested))
    (Hrows : Z.of_nat (length (trackedPositions db)) + Z.of_nat (length (orderIntents db)) < 2 ^ 52) :
  let exclude := op_excludeOrderIntentId options in
  let positions := counted_positions db account in
  let pending := counted_pending db account exclude in
  let within f used :=
    forall l, limit_of db rows account f = Some (num_of_Z l) -> safe l -> used <= l in
  (forall m, deployable db account = Some (num_of_Z m) -> safe m ->
     zsum pe positions + zsum oe pending + requested <= m) /\
  within F_maxOpenPositions (Z.of_nat (length positions) + Z.of_nat (length pending) + 1) /\
  exists w, getNewYorkDailyEntryWindow now = Ok w /\
    within F_maxDailyEntryOrders (Z.of_nat (length (counted_daily db account exclude w)) + 1) /\
    within F_maxDailyEntryNotional (zsum oe (counted_daily db account exclude w) + requested).
Proof.
  destruct (evaluateOrderRisk_entry_limits _ _ _ _ _ _ _ Haccount Hentry Hallowed)
    as (usage & r & Eu & Er & Hl).
  rewrite Hrequested in Er. injection Er as <-.
  destruct (usage_exact _ _ _ _ _ _ _ _ _ Hwhole Eu) as (X1 & X2 & X3 & X4).
  assert (Ew : getNewYorkDailyEntryWindow now = Ok (us_dailyWindow usage)).
  { clear -Eu. revert Eu. unfold getTradingAccountEntryRiskUsage, mbind, res_bind, mret, res_ret.
    destruct (getNewYorkDailyEntryWindow now) as [w|]; [|done].
    destruct (dw_start w), (dw_nextStart w); try done. by intros [= <-]. }
  destruct Hwhole as [Hp Hi Hr Ht].
  assert (B1 : forall q, 0 <= zsum pe (filterb q (trackedPositions db)) <= zsum pe (trackedPositions db)).
  { intros q. split; [|apply zsum_filterb_le; intros; by apply Hp].
    apply zsum_nonneg. intros x Hx. apply filterb_In in Hx as [Hx _]. by apply Hp. }
  assert (B2 : forall q, 0 <= zsum oe (filterb q (orderIntents db)) <= zsum oe (orderIntents db)).
  { intros q. split; [|apply zsum_filterb_le; intros; by apply Hi].
    apply zsum_nonneg. intros x Hx. apply filterb_In in Hx as [Hx _]. by apply Hi. }
  pose proof (fun q => filterb_length_le q (trackedPositions db)) as B3.
  pose proof (fun q => filterb_length_le q (orderIntents db)) as B4.
  cbv zeta. split; [|split].
  - intros m Hm Sm. pose proof (lh_account _ _ _ _ _ _ Hl) as G. rewrite Hm, X1 in G.
    pose proof (B1 (active_position_where account)). pose proof (B2 (fun i =>
      pending_candidate_where account (op_excludeOrderIntentId options) i && representsPendingEntryExposure i)).
    unfold counted_positions, counted_pending in *.
    rewrite nadd_exact in G by (unfold safe; lia). apply exceeds_exact in G; [lia|unfold safe; lia|done].
  - intros l Hlim Sl. pose proof (lh_positions _ _ _ _ _ _ Hl) as G. rewrite Hlim, X3 in G.
    unfold counted_positions, counted_pending in *.
    apply exceeds_exact in G; [lia| |done]. unfold safe.
    specialize (B3 (active_position_where account)). specialize (B4 (fun i =>
      pending_candidate_where account (op_excludeOrderIntentId options) i && representsPendingEntryExposure i)). lia.
  - exists (us_dailyWindow usage). split; [done|]. split; intros l Hlim Sl.
    + pose proof (lh_orders _ _ _ _ _ _ Hl) as G. rewrite Hlim, X4 in G. unfold counted_daily in *.
      apply exceeds_exact in G; [lia| |done]. unfold safe.
      match type of G with context [filterb ?q (orderIntents db)] => specialize (B4 q) end. lia.
    + pose proof (lh_daily _ _ _ _ _ _ Hl) as G. rewrite Hlim, X2 in G. unfold counted_daily in *.
      match type of G with context [filterb ?q (orderIntents db)] => pose proof (B2 q) end.
      pose proof (zsum_nonneg pe (trackedPositions db) (fun x Hx => proj2 (Hp x Hx))).
      rewrite nadd_exact in G by (unfold safe; lia). apply exceeds_exact in G; [lia|unfold safe; lia|done].
Qed.

(** Exits are never limited: for an order that is not an entry, the
    verdict depends only on the trading switch, the security, the named
    subscription and the broker's own block. The kill switch, the session, the
    account's positions, pending orders, limits and capital hierarchy, the
    clock and the evaluation options do not affect it. *)
Theorem risk_gate_exit_unlimited `{TimeZone} `{DateParse} `{MarketSession} `{Prisma} `{BrokerApi}
    db db' rows rows' input options options' now now'
    (Hexit : isEntryOrder input = false)
    (Haccount : op_tradingAccountId options = op_tradingAccountId options')
    (Hswitch : tradingEnabled (getRuntimeTradingConfig rows)
             = tradingEnabled (getRuntimeTradingConfig rows'))
    (Hsec : securities db = securities db') (Hsub : subscriptions db = subscriptions db')
    (Htas : accountSubscriptions db = accountSubscriptions db')
    (Hta : tradingAccounts db = tradingAccounts db') :
  evaluateOrderRisk db rows input options now = evaluateOrderRisk db' rows' input options' now'.
Proof.
  unfold evaluateOrderRisk. rewrite Haccount, <- Hswitch, Hexit, Hsec.
  destruct (op_tradingAccountId options') as [account|]; [|done].
  destruct (tradingEnabled (getRuntimeTradingConfig rows)) eqn:Et; cbn [negb]; [|done].
  assert (Ef : findSubscriptionForInput db input account = findSubscriptionForInput db' input account)
    by (unfold findSubscriptionForInput; by rewrite Hsub, Htas).
  assert (Ea : getNormalizedAccount db account = getNormalizedAccount db' account)
    by (unfold getNormalizedAccount; by rewrite Hta).
  rewrite Ef, Ea. cbn [andb].
  destruct (match findSubscriptionForInput db' input account with Some s => _ | None => _ end); [|done].
  destruct (negb _); [done|]. destruct (check_subscription _ _); [done|].
  unfold mbind, res_bind. by destruct (getNormalizedAccount db' account).
Qed.

(** * Witnesses *)

Definition sample_security : Security := {| sec_id := 1; sec_symbol := "AAPL"; sec_enabled := true |}.

Definition sample_subscription : Subscription :=
  {| sub_id := 5; sub_key := "aapl-trend"; sub_enabled := true;
     sub_strategy := {| strat_key := "trend"; strat_enabled := true |};
     sub_exitProfile := {| exit_key := "default"; exit_enabled := true;
       exit_exitMode := "fixed_target"; exit_takeProfitBehavior := "close";
       exit_targetPct := Some (num_of_Z 5); exit_stopLossPct := Some (num_of_Z 3);
       exit_trailingStopPct := None |};
     sub_security := sample_security |}.

Definition sample_allocation : TradingAccountAllocation :=
  {| al_id := 3; al_key := "core"; al_name := "Core"; al_enabled := true;
     al_maxAllocatedNotional := Some (num_of_Z 8000); al_maxOpenPositions := Some (num_of_Z 4);
     al_maxPositionNotional := Some (num_of_Z 2500) |}.

Definition sample_position : TrackedPosition :=
  {| tp_id := 11; tp_symbol := "MSFT"; tp_side := "long"; tp_qty := num_of_Z 5;
     tp_marketValue := num_of_Z 2000; tp_costBasis := num_of_Z 1900; tp_currentPrice := num_of_Z 400;
     tp_unrealizedPnLPct := None; tp_status := "open";
     tp_securityId := 2; tp_subscriptionId := None; tp_tradingAccountId := Some 7;
     tp_tradingAccountSubscriptionId := Some 9 |}.

Definition sample_intent : OrderIntent :=
  {| oi_id := 21; oi_source := "signal"; oi_symbol := "NVDA"; oi_side := "buy";
     oi_orderType := "limit"; oi_timeInForce := "day"; oi_qty := Some (num_of_Z 3); oi_notional := None;
     oi_limitPrice := Some (num_of_Z 500); oi_clientOrderId := None; oi_status := "submitted";
     oi_blockReason := None; oi_rawRequestJson := JNull; oi_createdAt := 1704210000000; oi_updatedAt := 1704210000000;
     oi_subscriptionId := None; oi_subscriptionKey := None; oi_trackedPositionId := None;
     oi_tradingAccountId := Some 7; oi_tradingAccountSubscriptionId := Some 9;
     oi_liveEntryAcceptanceRunId := None; oi_lastSubmittedOrderSyncAt := None |}.

Definition sample_db : Db :=
  {| securities := [sample_security]; subscriptions := [sample_subscription];
     tradingAccounts := [{| ta_id := 7; ta_displayName := "Main"; ta_broker := "ALPACA"; ta_environment := "PAPER";
                            ta_status := "ACTIVE"; ta_credentialStatus := Some "ACTIVE";
                            ta_maxDeployableNotional := Some (num_of_Z 5000) |}];
     riskSettings := [];
     accountSubscriptions := [{| tas_id := 9; tas_tradingAccountId := 7; tas_subscriptionId := 5;
       tas_allocationId := Some 3; tas_allocation := Some sample_allocation;
       tas_enabled := true; tas_entriesEnabled := true; tas_exitsEnabled := true;
       tas_reservedNotional := Some (num_of_Z 1500) |}];
     orderIntents := [sample_intent]; brokerOrders := []; brokerActivities := [];
     trackedPositions := [sample_position]; claims := []; claimEvents := [];
     opportunityEvents := []; dispatchConsumptions := []; unenforcedDispatches := [];
     armingTerminations := []; acceptanceRuns := [] |}.

Definition sample_settings : settings :=
  {[ "tradingEnabled" := "true"; "entrySessionGuardEnabled" := "true" ]}.

Definition sample_order : ResolvedPlaceOrderInput :=
  {| po_symbol := "AAPL"; po_side := buy; po_qty := None; po_notional := Some (num_of_Z 1500);
     po_limitPrice := None; po_subscriptionKey := Some "aapl-trend"; po_signalType := None;
     po_subscriptionId := Some 5; po_tradingAccountSubscriptionId := Some 9 |}.

Definition sample_options : EvaluateOrderRiskOptions :=
  {| op_requestedNotionalOverride := None; op_tradingAccountId := Some 7;
     op_enforceEntrySessionGuard := None; op_excludeOrderIntentId := None |}.

Definition sample_broker : BrokerApi := fun _ => Ok
  {| raw_status := "ACTIVE"; raw_currency := "USD"; raw_account_number := "PA1";
     raw_cash := Some (RawText "10000"); raw_buying_power := Some (RawText "20000");
     raw_portfolio_value := Some (RawText "12000"); raw_equity := Some (RawText "12000");
     raw_last_equity := Some (RawText "11900"); raw_long_market_value := None;
     raw_short_market_value := None; raw_trading_blocked := false |}.

Definition sample_verdict : res RiskGateResult :=
  @evaluateOrderRisk (fixed_zone 5) sample_parse sample_session in_order sample_broker
    sample_db sample_settings sample_order sample_options 1704214800000.

Definition sample_details : json :=
  Eval vm_compute in match sample_verdict with Ok (Allowed d) => d | _ => JNull end.

Lemma sample_allowed : sample_verdict = Ok (Allowed sample_details).
Proof. vm_compute. reflexivity. Qed.

Lemma risk_gate_entry_safety_witness :
  killSwitchEnabled (getRuntimeTradingConfig sample_settings) = false /\
  (exists s, names_subscription sample_db sample_order 7 s /\ sec_enabled (sub_security s) = true) /\
  forall p, In p (trackedPositions sample_db) -> active_position_where 7 p = true ->
    tp_symbol p <> "AAPL".
Proof.
  destruct (@risk_gate_entry_safety (fixed_zone 5) sample_parse sample_session in_order _
    sample_broker sample_db sample_settings sample_order sample_options 7 1704214800000
    sample_details eq_refl eq_refl sample_allowed) as (_ & Hk & Hs & _ & _ & _ & Hp & _).
  destruct (Hs ltac:(left; discriminate)) as (s & Hn & _ & _ & _ & Hsec).
  exact (conj Hk (conj (ex_intro _ s (conj Hn Hsec)) Hp)).
Defined.

Lemma risk_gate_capital_exact_witness : 2000 + 1500 + 1500 <= 5000.
Proof.
  assert (Hw : whole_dollars sample_db (fun _ => 2000) (fun _ => 1500) 1500).
  { split.
    - intros p [<-|[]]. split; [vm_compute; reflexivity|lia].
    - intros i [<-|[]]. split; [vm_compute; reflexivity|lia].
    - lia.
    - vm_compute. reflexivity. }
  destruct (@risk_gate_capital_exact (fixed_zone 5) sample_parse sample_session in_order _
    sample_broker sample_db sample_settings sample_order sample_options 7 1704214800000
    sample_details (fun _ => 2000) (fun _ => 1500) 1500 eq_refl eq_refl sample_allowed Hw
    eq_refl eq_refl) as [H _].
  apply (H 5000); vm_compute; reflexivity.
Defined.

(** The same account with the kill switch on and its capital exhausted. *)
Lemma risk_gate_exit_unlimited_witness :
  let exit_order := {| po_symbol := "AAPL"; po_side := sell; po_qty := Some (num_of_Z 1);
    po_notional := None; po_limitPrice := None; po_subscriptionKey := None;
    po_signalType := Some "exit"; po_subscriptionId := None;
    po_tradingAccountSubscriptionId := None |} in
  @evaluateOrderRisk (fixed_zone 5) sample_parse sample_session in_order sample_broker
    sample_db (<["killSwitchEnabled" := "true"]> sample_settings) exit_order sample_options 0 =
  @evaluateOrderRisk (fixed_zone 5) sample_parse sample_session in_order sample_broker
    sample_db sample_settings exit_order sample_options 1704214800000.
Proof.
  apply risk_gate_exit_unlimited; try reflexivity.
Defined.
