(* ===== verification/ExposureClaim.v ===== *)
(** Entry exposure claims: services/entry-exposure-claim.service.ts.
    One unreleased claim per account and security owns the right to open a
    position; every operation that acquires, moves or releases a claim is a
    program over the database state. *)

From Stdlib Require Import ZArith Lia.
From Stdlib Require Import Strings.String.
From Stdlib Require Import Floats.SpecFloat.
From stdpp Require Import base list strings.
From S2P Require Import Prelude JsNumber JsValue JsDate Prisma OrderStatus DeliveryEvidence.
From S2P Require Import Schema BrokerAccount.

Open Scope string_scope.
Open Scope Z_scope.

Definition ACTIVE_POSITION_STATUSES : list string := ["open"; "closing"].

Definition conflict (code message : string) (details : list (string * json)) : js_error :=
  HttpError 409 message (JObj (("code", JStr code) :: details)).

(** [isDeepStrictEqual(left ?? {}, right ?? {})] *)
Definition sameEvidence (left right : json) : bool :=
  let or_empty v := match v with JNull => JObj [] | _ => v end in
  deep_equal (or_empty left) (or_empty right).

(** * Statements on the claim tables *)

Section Claims.
Context `{Prisma}.

(** The time of every [new Date()], and what other sessions do to the
    database between two statements of an operation: an arbitrary change at
    each program point, constrained only where a theorem says so. *)
Variable now : Z.
Variable interfere : nat -> Db -> Db.

Definition await (point : nat) : eff Db unit := modify (interfere point).

Definition find_claim (where_ : EntryExposureClaim -> bool) : eff Db (option EntryExposureClaim) :=
  asks (fun db => find_first where_ (claims db)).

Definition by_id (id : Z) (c : EntryExposureClaim) : bool := cl_id c =? id.
Definition by_intent (orderIntentId : Z) (c : EntryExposureClaim) : bool :=
  opt_eqb (cl_orderIntentId c) orderIntentId.
Definition unreleased_for (tradingAccountId securityId : Z) (c : EntryExposureClaim) : bool :=
  (cl_tradingAccountId c =? tradingAccountId) && (cl_securityId c =? securityId) &&
  bool_decide (cl_releasedAt c = None).

(** The columns an update sets; an absent column keeps its value. *)
Record ClaimData := {
  set_status : option string;
  set_trackedPositionId : option (option Z);
  set_releasedAt : option (option Z);
  set_releaseReason : option (option string);
  set_lastDiagnosedAt : option (option Z)
}.

Definition apply_data (d : ClaimData) (c : EntryExposureClaim) : EntryExposureClaim :=
  {| cl_id := cl_id c; cl_tradingAccountId := cl_tradingAccountId c;
     cl_securityId := cl_securityId c; cl_orderIntentId := cl_orderIntentId c;
     cl_trackedPositionId := default (cl_trackedPositionId c) (set_trackedPositionId d);
     cl_ownerKey := cl_ownerKey c;
     cl_status := default (cl_status c) (set_status d);
     cl_acquiredAt := cl_acquiredAt c;
     cl_releasedAt := default (cl_releasedAt c) (set_releasedAt d);
     cl_releaseReason := default (cl_releaseReason c) (set_releaseReason d);
     cl_lastDiagnosedAt := default (cl_lastDiagnosedAt c) (set_lastDiagnosedAt d) |}.

Definition data_status (s : string) : ClaimData :=
  {| set_status := Some s; set_trackedPositionId := None; set_releasedAt := None;
     set_releaseReason := None; set_lastDiagnosedAt := None |}.
Definition data_released (reason : string) : ClaimData :=
  {| set_status := Some "RELEASED"; set_trackedPositionId := None;
     set_releasedAt := Some (Some now); set_releaseReason := Some (Some reason);
     set_lastDiagnosedAt := None |}.
Definition data_unresolved : ClaimData :=
  {| set_status := Some "UNRESOLVED"; set_trackedPositionId := None; set_releasedAt := None;
     set_releaseReason := None; set_lastDiagnosedAt := Some (Some now) |}.
Definition data_diagnosed : ClaimData :=
  {| set_status := None; set_trackedPositionId := None; set_releasedAt := None;
     set_releaseReason := None; set_lastDiagnosedAt := Some (Some now) |}.
Definition data_attached (trackedPositionId : Z) : ClaimData :=
  {| set_status := Some "POSITION_OPEN"; set_trackedPositionId := Some (Some trackedPositionId);
     set_releasedAt := None; set_releaseReason := None; set_lastDiagnosedAt := None |}.

(** Setting a position that another claim already holds: the column is unique. *)
Definition position_taken (where_ : EntryExposureClaim -> bool) (d : ClaimData) (db : Db) : bool :=
  match set_trackedPositionId d with
  | Some (Some p) => existsb (fun c => negb (where_ c) && opt_eqb (cl_trackedPositionId c) p) (claims db)
  | _ => false
  end.

(** [entryExposureClaim.updateMany]: the count of rows matched. *)
Definition update_claims (where_ : EntryExposureClaim -> bool) (d : ClaimData) : eff Db Z := fun db =>
  if position_taken where_ d db then (Throw (PlainError "Unique constraint failed"), db)
  else
    let '(rows, n) := update_many where_ (apply_data d) (claims db) in
    (Ok n, set_claims (fun _ => rows) db).

(** The compare-and-set guard of every status change. *)
Definition still (c : EntryExposureClaim) (r : EntryExposureClaim) : bool :=
  by_id (cl_id c) r && String.eqb (cl_status r) (cl_status c) && bool_decide (cl_releasedAt r = None).

(** [entryExposureClaimEvent.create] *)
Definition add_event (claimId : Z) (eventType : string) (evidence : json) : eff Db unit :=
  modify (set_claimEvents (create_event now claimId eventType evidence)).

(** Newest event of a claim by creation time, then by id. *)
Definition last_event_of_type (claimId : Z) (eventType : string) : eff Db (option EntryExposureClaimEvent) :=
  asks (fun db => find_first_by (fun x y => ce_createdAt y <=? ce_createdAt x)
    (fun e => (ce_claimId e =? claimId) && String.eqb (ce_eventType e) eventType) (claimEvents db)).
Definition last_event_where (claimId : Z) (types : list string) : eff Db (option EntryExposureClaimEvent) :=
  asks (fun db => find_first_by (fun x y => ce_id y <=? ce_id x)
    (fun e => (ce_claimId e =? claimId) && member (ce_eventType e) types) (claimEvents db)).

(** Rows that would violate a unique index of the table: the owner key, the
    intent, the position, or the partial index on unreleased claims. *)
Definition violates (row : EntryExposureClaim) (c : EntryExposureClaim) : bool :=
  String.eqb (cl_ownerKey c) (cl_ownerKey row) ||
  match cl_orderIntentId row with Some i => opt_eqb (cl_orderIntentId c) i | None => false end ||
  match cl_trackedPositionId row with Some i => opt_eqb (cl_trackedPositionId c) i | None => false end ||
  (bool_decide (cl_releasedAt row = None) &&
   unreleased_for (cl_tradingAccountId row) (cl_securityId row) c).

(** [entryExposureClaim.create] with its first event. *)
Definition create_claim (tradingAccountId securityId : Z) (orderIntentId trackedPositionId : option Z)
    (ownerKey status : string) (lastDiagnosedAt : option Z) (eventType : string) (evidence : json)
    : eff Db EntryExposureClaim := fun db =>
  let row := {| cl_id := next_id (map cl_id (claims db));
    cl_tradingAccountId := tradingAccountId; cl_securityId := securityId;
    cl_orderIntentId := orderIntentId; cl_trackedPositionId := trackedPositionId;
    cl_ownerKey := ownerKey; cl_status := status; cl_acquiredAt := now;
    cl_releasedAt := None; cl_releaseReason := None; cl_lastDiagnosedAt := lastDiagnosedAt |} in
  if existsb (violates row) (claims db) then (Throw (PlainError "Unique constraint failed"), db)
  else (Ok row, set_claimEvents (create_event now (cl_id row) eventType evidence)
                  (set_claims (fun l => l ++ [row])%list db)).

(** * Acquisition *)

Record Acquired := { aq_intent : OrderIntent; aq_duplicate : bool; aq_claimId : Z }.

Definition intent_of (db : Db) (c : EntryExposureClaim) : option OrderIntent :=
  i ← cl_orderIntentId c; find_first (fun r => oi_id r =? i) (orderIntents db).
Definition position_of (db : Db) (c : EntryExposureClaim) : option TrackedPosition :=
  i ← cl_trackedPositionId c; find_first (fun r => tp_id r =? i) (trackedPositions db).

Definition active_position (tradingAccountId securityId : Z) (p : TrackedPosition) : bool :=
  opt_eqb (tp_tradingAccountId p) tradingAccountId && (tp_securityId p =? securityId) &&
  member (tp_status p) ACTIVE_POSITION_STATUSES.

(** [entryExposureClaim: null] on the intent. *)
Definition unclaimed (db : Db) (orderIntentId : Z) : bool :=
  negb (existsb (by_intent orderIntentId) (claims db)).

Definition unresolved_intent (db : Db) (tradingAccountId : Z) (symbol : string) (i : OrderIntent) : bool :=
  opt_eqb (oi_tradingAccountId i) tradingAccountId && String.eqb (oi_symbol i) symbol &&
  String.eqb (oi_side i) "buy" &&
  (member (oi_status i) UNRESOLVED_ORDER_INTENT_STATUSES ||
   (String.eqb (oi_status i) "filled" && bool_decide (oi_trackedPositionId i = None))) &&
  unclaimed db (oi_id i).

Definition active_broker_buy (db : Db) (tradingAccountId securityId : Z) (o : BrokerOrder) : bool :=
  opt_eqb (bo_tradingAccountId o) tradingAccountId && (bo_securityId o =? securityId) &&
  String.eqb (to_lower (bo_side o)) "buy" && member (bo_status o) BROKER_ACTIVE_ENTRY_STATUSES &&
  unclaimed db (bo_orderIntentId o).

Definition active_claim_code (db : Db) (c : EntryExposureClaim) : string :=
  match position_of db c with
  | Some p => if String.eqb (tp_status p) "closing" then "POSITION_CLOSING" else "ALREADY_IN_POSITION"
  | None => if String.eqb (cl_status c) "UNRESOLVED" then "ENTRY_EXPOSURE_UNRESOLVED"
            else "ENTRY_ALREADY_PENDING"
  end.

(** The checks made under the lock once no claim is active. *)
Definition refuse_legacy_exposure (tradingAccountId securityId : Z) (symbol : string) : eff Db unit :=
  db ← get;
  match find_first (active_position tradingAccountId securityId) (trackedPositions db) with
  | Some p =>
      throw (conflict (if String.eqb (tp_status p) "closing" then "POSITION_CLOSING" else "ALREADY_IN_POSITION")
        ("Entry blocked because " ++ symbol ++ " already has an active tracked position.")
        [("tradingAccountId", jint tradingAccountId); ("symbol", JStr symbol);
         ("trackedPositionId", jint (tp_id p)); ("trackedPositionStatus", JStr (tp_status p));
         ("legacyExposureWithoutClaim", JBool true)])
  | None =>
  _ ← await 4; db ← get;
  match find_first_by (fun x y => oi_createdAt x <=? oi_createdAt y)
          (unresolved_intent db tradingAccountId symbol) (orderIntents db) with
  | Some i =>
      throw (conflict "ENTRY_EXPOSURE_UNRESOLVED"
        ("Entry blocked because " ++ symbol ++ " has unresolved pre-claim entry evidence.")
        [("tradingAccountId", jint tradingAccountId); ("symbol", JStr symbol);
         ("orderIntentId", jint (oi_id i)); ("orderIntentStatus", JStr (oi_status i));
         ("legacyExposureWithoutClaim", JBool true)])
  | None =>
  _ ← await 5; db ← get;
  match find_first_by (fun x y => bo_createdAt x <=? bo_createdAt y)
          (active_broker_buy db tradingAccountId securityId) (brokerOrders db) with
  | Some o =>
      throw (conflict "ENTRY_EXPOSURE_UNRESOLVED"
        ("Entry blocked because " ++ symbol ++ " has an active pre-claim broker BUY.")
        [("tradingAccountId", jint tradingAccountId); ("symbol", JStr symbol);
         ("brokerOrderRecordId", jint (bo_id o)); ("brokerOrderId", JStr (bo_brokerOrderId o));
         ("brokerOrderStatus", JStr (bo_status o)); ("orderIntentId", jint (bo_orderIntentId o));
         ("legacyExposureWithoutClaim", JBool true)])
  | None => mret tt
  end end end.

(** Runs inside the caller's transaction, with [createIntent] the caller's
    insertion of the order intent. *)
Definition acquireEntryExposureClaim (tradingAccountId : Z) (symbol ownerKey : string)
    (createIntent : eff Db OrderIntent) : eff Db Acquired :=
  let symbol := to_upper (trim symbol) in
  security ← asks (fun db => find_first (fun s => String.eqb (sec_symbol s) symbol) (securities db));
  match security with
  | None => throw (conflict "SECURITY_NOT_FOUND" ("Security " ++ symbol ++ " is not registered.")
              [("symbol", JStr symbol)])
  | Some security =>
  let securityId := sec_id security in
  (* the advisory lock is taken here *)
  _ ← await 0;
  db ← get;
  match (c ← find_first (fun c => String.eqb (cl_ownerKey c) ownerKey) (claims db);
         i ← intent_of db c; Some (c, i)) with
  | Some (c, i) => mret {| aq_intent := i; aq_duplicate := true; aq_claimId := cl_id c |}
  | None =>
  _ ← await 1; db ← get;
  match find_first (unreleased_for tradingAccountId securityId) (claims db) with
  | Some c =>
      match (if String.eqb (cl_ownerKey c) ownerKey then intent_of db c else None) with
      | Some i => mret {| aq_intent := i; aq_duplicate := true; aq_claimId := cl_id c |}
      | None =>
          throw (conflict (active_claim_code db c)
            ("Entry exposure for " ++ symbol ++ " is already owned by another lifecycle.")
            [("tradingAccountId", jint tradingAccountId); ("symbol", JStr symbol);
             ("claimId", jint (cl_id c)); ("claimStatus", JStr (cl_status c));
             ("orderIntentId", jopt jint (cl_orderIntentId c));
             ("trackedPositionId", jopt jint (cl_trackedPositionId c))])
      end
  | None =>
  _ ← await 3;
  _ ← refuse_legacy_exposure tradingAccountId securityId symbol;
  _ ← await 6;
  intent ← createIntent;
  _ ← await 7;
  claim ← create_claim tradingAccountId securityId (Some (oi_id intent)) None ownerKey
            "ENTRY_PENDING" None "ACQUIRED"
            (JObj [("orderIntentId", jint (oi_id intent)); ("symbol", JStr symbol)]);
  mret {| aq_intent := intent; aq_duplicate := false; aq_claimId := cl_id claim |}
  end end end.

(** * Reading a claim that must be active *)

Definition requireEntryExposureClaim (orderIntentId : Z) (allowUnresolved : bool)
    : eff Db EntryExposureClaim :=
  claim ← find_claim (by_intent orderIntentId);
  match claim with
  | None => throw (conflict "ENTRY_EXPOSURE_UNRESOLVED" "Executable entry has no active exposure claim."
      [("orderIntentId", jint orderIntentId); ("claimId", JNull); ("releasedAt", JNull)])
  | Some c =>
      match cl_releasedAt c with
      | Some t => throw (conflict "ENTRY_EXPOSURE_UNRESOLVED" "Executable entry has no active exposure claim."
          [("orderIntentId", jint orderIntentId); ("claimId", jint (cl_id c)); ("releasedAt", JStr (iso_of_time t))])
      | None =>
          if String.eqb (cl_status c) "UNRESOLVED" && negb allowUnresolved then
            throw (conflict "ENTRY_EXPOSURE_UNRESOLVED"
              "Entry exposure ownership is unresolved and cannot cross the broker boundary."
              [("orderIntentId", jint orderIntentId); ("claimId", jint (cl_id c));
               ("claimStatus", JStr (cl_status c))])
          else mret c
      end
  end.

Definition requireExecutableEntryExposureClaim (orderIntentId tradingAccountId : Z)
    (symbol clientOrderId : string) : eff Db (EntryExposureClaim * OrderIntent) :=
  claim ← requireEntryExposureClaim orderIntentId false;
  _ ← await 10;
  db ← get;
  let intent := find_first (fun i => oi_id i =? orderIntentId) (orderIntents db) in
  _ ← await 11;
  db' ← get;
  let wanted := to_upper (trim symbol) in
  let security := find_first (fun s => String.eqb (sec_symbol s) wanted) (securities db') in
  let on {A} (f : OrderIntent -> A) : option A := option_map f intent in
  let environment :=
    i ← intent; a ← oi_tradingAccountId i;
    option_map ta_environment (find_first (fun r => ta_id r =? a) (tradingAccounts db)) in
  let mismatches :=
    [("intentMissing", match intent with Some _ => false | None => true end);
     ("account", negb (bool_decide (mjoin (on oi_tradingAccountId) = Some tradingAccountId)) ||
                 negb (cl_tradingAccountId claim =? tradingAccountId));
     ("security", match security with
                  | None => true
                  | Some s => negb (cl_securityId claim =? sec_id s)
                  end);
     ("symbol", negb (bool_decide (on (fun i => to_upper (trim (oi_symbol i))) = Some wanted)));
     ("side", negb (bool_decide (on (fun i => to_lower (trim (oi_side i))) = Some "buy")));
     ("clientOrderId", negb (bool_decide (mjoin (on oi_clientOrderId) = Some clientOrderId)));
     ("intentStatus", negb (bool_decide (on oi_status = Some "submitting")));
     ("claimStatus", negb (String.eqb (cl_status claim) "ENTRY_SUBMITTING"));
     ("environment", negb (bool_decide (environment = Some "PAPER")) &&
                     negb (bool_decide (environment = Some "LIVE")))] in
  match intent with
  | Some i =>
      if existsb snd mismatches then
        throw (conflict "ENTRY_EXPOSURE_IDENTITY_MISMATCH"
          "Entry broker-boundary identity does not match its active claim."
          [("orderIntentId", jint orderIntentId); ("claimId", jint (cl_id claim));
           ("mismatches", JObj (map (fun kv => (fst kv, JBool (snd kv))) mismatches));
           ("expectedTradingAccountId", jint tradingAccountId); ("expectedSymbol", JStr wanted);
           ("expectedClientOrderId", JStr clientOrderId)])
      else mret (claim, i)
  | None =>
      throw (conflict "ENTRY_EXPOSURE_IDENTITY_MISMATCH"
        "Entry broker-boundary identity does not match its active claim."
        [("orderIntentId", jint orderIntentId); ("claimId", jint (cl_id claim));
         ("mismatches", JObj (map (fun kv => (fst kv, JBool (snd kv))) mismatches));
         ("expectedTradingAccountId", jint tradingAccountId); ("expectedSymbol", JStr wanted);
         ("expectedClientOrderId", JStr clientOrderId)])
  end.

(** * Transitions and diagnostics *)

Definition transitionEntryExposureClaim (orderIntentId : Z) (status eventType : string)
    (evidence : option json) : eff Db (option EntryExposureClaim) :=
  claim ← requireEntryExposureClaim orderIntentId true;
  let evidence := default (JObj []) evidence in
  if negb (isEntryExposureClaimStatus status) then
    throw (conflict "INVALID_ENTRY_EXPOSURE_TRANSITION" "Unknown entry exposure claim status."
      [("claimId", jint (cl_id claim)); ("currentStatus", JStr (cl_status claim));
       ("requestedStatus", JStr status)])
  else if String.eqb (cl_status claim) status then
    _ ← await 20;
    prior ← last_event_of_type (cl_id claim) eventType;
    if match prior with Some e => sameEvidence (ce_evidenceJson e) evidence | None => false end
    then mret (Some claim)
    else _ ← await 21; _ ← add_event (cl_id claim) eventType evidence;
         find_claim (by_id (cl_id claim))
  else if negb (canTransitionEntryExposureClaim (cl_status claim) status) then
    throw (conflict "INVALID_ENTRY_EXPOSURE_TRANSITION"
      "Entry exposure claim transition is not permitted."
      [("claimId", jint (cl_id claim)); ("currentStatus", JStr (cl_status claim));
       ("requestedStatus", JStr status);
       ("recoveryRequired", JBool (String.eqb (cl_status claim) "UNRESOLVED"))])
  else
    _ ← await 22;
    changed ← update_claims (still claim) (data_status status);
    if negb (changed =? 1) then
      _ ← await 23;
      current ← find_claim (by_id (cl_id claim));
      match current with
      | None => mret None
      | Some c =>
          if negb (bool_decide (cl_releasedAt c = None)) || String.eqb (cl_status c) "UNRESOLVED"
          then mret (Some c)
          else throw (conflict "ENTRY_EXPOSURE_STALE_TRANSITION"
            "Entry exposure changed before this observation could be applied."
            [("claimId", jint (cl_id claim)); ("observedStatus", JStr (cl_status claim));
             ("currentStatus", JStr (cl_status c)); ("requestedStatus", JStr status)])
      end
    else
      _ ← await 24;
      _ ← add_event (cl_id claim) eventType evidence;
      _ ← await 25;
      find_claim (by_id (cl_id claim)).

(** Appends unless the newest comparable event is identical, and always marks
    the claim as diagnosed. *)
Definition appendClaimDiagnostic (claimId : Z) (eventType : string) (evidence : json)
    : eff Db (option EntryExposureClaim) :=
  current ← find_claim (by_id claimId);
  match current with
  | None => mret None
  | Some c =>
      if negb (bool_decide (cl_releasedAt c = None)) then mret (Some c)
      else
        let attemptResult := member eventType RECOVERY_ATTEMPT_RESULT_EVENT_TYPES in
        _ ← await 30;
        duplicate ← last_event_where claimId
          (if attemptResult then RECOVERY_ATTEMPT_RESULT_EVENT_TYPES else [eventType]);
        _ ← await 31;
        _ ← (if match duplicate with
                | None => true
                | Some e => negb (String.eqb (ce_eventType e) eventType) ||
                            negb (sameEvidence (ce_evidenceJson e) evidence)
                end
             then add_event claimId eventType evidence else mret tt);
        _ ← await 32;
        _ ← update_claims (still c) data_diagnosed;
        mret (Some c)
  end.

Definition appendEntryExposureClaimDiagnostic := appendClaimDiagnostic.

Definition markClaimUnresolved (claimId : Z) (eventType : string) (evidence : json)
    : eff Db (option EntryExposureClaim) :=
  current ← find_claim (by_id claimId);
  match current with
  | None => mret None
  | Some c =>
      if negb (bool_decide (cl_releasedAt c = None)) then mret (Some c)
      else
        _ ← await 33;
        duplicate ← last_event_of_type claimId eventType;
        _ ← await 34;
        changed ← update_claims (still c) data_unresolved;
        _ ← await 35;
        if negb (changed =? 1) then find_claim (by_id claimId)
        else
          _ ← (if match duplicate with
                  | None => true
                  | Some e => negb (sameEvidence (ce_evidenceJson e) evidence)
                  end
               then add_event claimId eventType evidence else mret tt);
          _ ← await 36;
          find_claim (by_id claimId)
  end.

Definition recordMissingLocalBrokerOrderDiagnostic (orderIntentId : Z)
    (clientOrderId : option string) (intentStatus : string) : eff Db (option EntryExposureClaim) :=
  claim ← find_claim (by_intent orderIntentId);
  match claim with
  | None => mret None
  | Some c =>
      if negb (bool_decide (cl_releasedAt c = None)) then mret (Some c)
      else
        _ ← await 37;
        appendClaimDiagnostic (cl_id c) "SUBMITTED_ORDER_LOCAL_BROKER_ORDER_MISSING"
          (JObj [("orderIntentId", jint orderIntentId); ("clientOrderId", jopt JStr clientOrderId);
                 ("intentStatus", JStr intentStatus); ("reconciliationRequired", JBool true);
                 ("executionAuthority", JStr "NONE")])
  end.

(** * The never-submitted release *)

Definition DISPATCH_EVIDENCE_TYPES : list string :=
  ["ADAPTER_DISPATCH_REACHED"; "BROKER_RESPONSE_CONFIRMED"; "BROKER_REJECTED";
   "DELIVERY_UNCERTAIN"; "RECOVERY_FOUND"].

(** What the release reads about the intent, in one database state. *)
Record ReleaseCounts := {
  rc_brokerOrders : Z;
  rc_brokerActivities : Z;
  rc_brokerDispatchEvidence : Z;
  rc_dispatchConsumptions : Z;
  rc_unenforcedDispatches : Z;
  rc_liveArmingConsumptions : Z;
  rc_positionStatus : option string;
  rc_summary : DeliveryEvidenceSummary
}.

Definition release_counts (db : Db) (orderIntentId : Z) (claim : EntryExposureClaim) : ReleaseCounts :=
  {| rc_brokerOrders := count (fun o => bo_orderIntentId o =? orderIntentId) (brokerOrders db);
     rc_brokerActivities :=
       count (fun a => opt_eqb (ba_orderIntentId a) orderIntentId) (brokerActivities db);
     rc_brokerDispatchEvidence := count (fun e => (oe_orderIntentId e =? orderIntentId) &&
       member (oe_eventType e) DISPATCH_EVIDENCE_TYPES) (opportunityEvents db);
     rc_dispatchConsumptions :=
       count (fun d => dc_orderIntentId d =? orderIntentId) (dispatchConsumptions db);
     rc_unenforcedDispatches :=
       count (fun d => ud_orderIntentId d =? orderIntentId) (unenforcedDispatches db);
     rc_liveArmingConsumptions := count (fun t => opt_eqb (lt_orderIntentId t) orderIntentId &&
       String.eqb (lt_type t) "CONSUMED") (armingTerminations db);
     rc_positionStatus := option_map tp_status (position_of db claim);
     rc_summary := summarizeDeliveryEvidence (loadDeliveryEvidenceEvents (cl_id claim) (claimEvents db)) |}.

Definition release_refused (counts : ReleaseCounts) (evidence : ReleaseEvidence) : bool :=
  (0 <? rc_brokerOrders counts) || (0 <? rc_brokerActivities counts) ||
  (0 <? rc_brokerDispatchEvidence counts) || (0 <? rc_dispatchConsumptions counts) ||
  (0 <? rc_unenforcedDispatches counts) || (0 <? rc_liveArmingConsumptions counts) ||
  negb (proven evidence) ||
  match rc_positionStatus counts with Some s => negb (String.eqb s "closed") | None => false end.

Definition releaseUnsubmittedEntryExposureClaimLocked (orderIntentId : Z) (reason : string)
    : eff Db (option EntryExposureClaim) :=
  observed ← find_claim (by_intent orderIntentId);
  match observed with
  | None => mret None
  | Some _ =>
  (* the advisory lock of the account and security is taken here *)
  _ ← await 40;
  claim ← find_claim (by_intent orderIntentId);
  match claim with
  | None => mret None
  | Some c =>
  if negb (bool_decide (cl_releasedAt c = None)) then mret (Some c)
  else if negb (member (cl_status c) ["ENTRY_PENDING"; "ENTRY_SUBMITTING"; "ADMISSION_BLOCKED"]) then
    throw (conflict "ENTRY_EXPOSURE_UNRESOLVED"
      "A broker-exposed claim cannot be released by the admission path."
      [("orderIntentId", jint orderIntentId); ("claimId", jint (cl_id c));
       ("claimStatus", JStr (cl_status c))])
  else
  blockReason ← asks (fun db => intent_of db c ≫= oi_blockReason);
  _ ← await 41;
  counts ← asks (fun db => release_counts db orderIntentId c);
  let evidence := evaluateNeverSubmittedRelease (cl_status c) (rc_summary counts) blockReason in
  if release_refused counts evidence then
    throw (conflict "ENTRY_EXPOSURE_UNRESOLVED"
      "Claim has broker, position or uncertain delivery evidence, or lacks recorded not-sent evidence, and cannot be released as unsubmitted."
      [("orderIntentId", jint orderIntentId); ("claimId", jint (cl_id c));
       ("claimStatus", JStr (cl_status c)); ("brokerOrders", jint (rc_brokerOrders counts));
       ("brokerActivities", jint (rc_brokerActivities counts));
       ("brokerDispatchEvidence", jint (rc_brokerDispatchEvidence counts));
       ("dispatchConsumptions", jint (rc_dispatchConsumptions counts));
       ("unenforcedDispatches", jint (rc_unenforcedDispatches counts));
       ("liveArmingConsumptions", jint (rc_liveArmingConsumptions counts));
       ("trackedPositionStatus", jopt JStr (rc_positionStatus counts));
       ("blockReasonClassification", jopt JStr (blockReasonDeliveryClassification blockReason));
       ("recordedClassifications", jstrs (map out_classification (sum_outcomes (rc_summary counts))));
       ("notSentEvidenceBlocker", jopt JStr (blocker evidence))])
  else
  _ ← await 42;
  released ← update_claims (still c) (data_released reason);
  _ ← await 43;
  if negb (released =? 1) then find_claim (by_id (cl_id c))
  else
  _ ← add_event (cl_id c) "RELEASED_NO_BROKER_EXPOSURE"
        (JObj [("reason", JStr reason); ("notSentBasis", jopt JStr (basis evidence))]);
  _ ← await 44;
  find_claim (by_id (cl_id c))
  end end.

Definition releaseUnsubmittedEntryExposureClaim (orderIntentId : Z) (reason : string)
    : eff Db (option EntryExposureClaim) :=
  transaction (releaseUnsubmittedEntryExposureClaimLocked orderIntentId reason).

Definition releasedByThisCall (claim : option EntryExposureClaim) (reason : string) : bool :=
  match claim with
  | Some c => negb (bool_decide (cl_releasedAt c = None)) &&
              bool_decide (cl_releaseReason c = Some reason)
  | None => false
  end.

(** * Attachment to a position *)

Definition attachEntryExposureClaimToPosition (tradingAccountId securityId trackedPositionId : Z)
    (symbol : string) (expectedOrderIntentId : option Z) : eff Db (option EntryExposureClaim) :=
  (* the advisory lock of the account and security is taken here *)
  _ ← await 50;
  active ← find_claim (unreleased_for tradingAccountId securityId);
  let attachment_evidence (c : EntryExposureClaim) :=
    JObj [("claimedTrackedPositionId", jopt jint (cl_trackedPositionId c));
          ("observedTrackedPositionId", jint trackedPositionId);
          ("tradingAccountId", jint tradingAccountId); ("securityId", jint securityId);
          ("symbol", JStr symbol)] in
  match active with
  | Some c =>
      if match expectedOrderIntentId with
         | Some e => negb (bool_decide (cl_orderIntentId c = Some e)) | None => false end then
        _ ← await 51;
        markClaimUnresolved (cl_id c) "POSITION_ATTACHMENT_ORDER_INTENT_CONFLICT"
          (JObj [("claimedOrderIntentId", jopt jint (cl_orderIntentId c));
                 ("observedOrderIntentId", jopt jint expectedOrderIntentId);
                 ("observedTrackedPositionId", jint trackedPositionId);
                 ("tradingAccountId", jint tradingAccountId); ("securityId", jint securityId);
                 ("symbol", JStr symbol)])
      else if String.eqb (cl_status c) "UNRESOLVED" then
        _ ← await 52;
        prior ← last_event_of_type (cl_id c) "POSITION_ATTACHMENT_CONFLICT";
        if match prior with
           | Some e => sameEvidence (ce_evidenceJson e) (attachment_evidence c) | None => false end
        then mret (Some c)
        else
          _ ← await 53;
          _ ← update_claims (by_id (cl_id c)) data_diagnosed;
          _ ← add_event (cl_id c) "POSITION_ATTACHMENT_CONFLICT" (attachment_evidence c);
          find_claim (by_id (cl_id c))
      else if bool_decide (cl_trackedPositionId c = Some trackedPositionId) &&
              String.eqb (cl_status c) "POSITION_OPEN" then mret (Some c)
      else if match cl_trackedPositionId c with
              | Some p => negb (p =? trackedPositionId) | None => false end then
        _ ← await 54;
        _ ← update_claims (by_id (cl_id c)) data_unresolved;
        _ ← add_event (cl_id c) "POSITION_ATTACHMENT_CONFLICT" (attachment_evidence c);
        find_claim (by_id (cl_id c))
      else
        _ ← await 55;
        attached ← update_claims (fun r => still c r &&
          bool_decide (cl_trackedPositionId r = cl_trackedPositionId c)) (data_attached trackedPositionId);
        if negb (attached =? 1) then
          throw (conflict "ENTRY_EXPOSURE_STALE_TRANSITION"
            "Entry exposure changed before position attachment completed."
            [("claimId", jint (cl_id c)); ("observedStatus", JStr (cl_status c));
             ("observedTrackedPositionId", jopt jint (cl_trackedPositionId c))])
        else
        _ ← await 56;
        _ ← add_event (cl_id c) "POSITION_ATTACHED"
              (JObj [("trackedPositionId", jint trackedPositionId)]);
        _ ← await 57;
        find_claim (by_id (cl_id c))
  | None =>
      _ ← await 58;
      created ← create_claim tradingAccountId securityId None (Some trackedPositionId)
        ("broker-position:" ++ z_str tradingAccountId ++ ":" ++ z_str trackedPositionId)
        "UNRESOLVED" (Some now) "OBSERVED_UNATTRIBUTED_BROKER_POSITION"
        (JObj [("trackedPositionId", jint trackedPositionId); ("symbol", JStr symbol)]);
      mret (Some created)
  end.

(** * Releases on broker evidence *)

(** The broker's order and position endpoints. *)
Context {broker_order_by_id : Z -> string -> res (option AlpacaOrder)}
  {broker_order_by_client_id : Z -> string -> res (option AlpacaOrder)}
  {broker_position : Z -> string -> res (option AlpacaPosition)}
  {broker_open_buys : Z -> string -> res (list AlpacaOrder)}.

Definition RELEASABLE_FINAL_STATUSES : list string :=
  ["filled"; "canceled"; "cancelled"; "expired"; "rejected"].

(** Follow [replaced_by], at most ten replacements, refusing cycles; the chain
    and its last order. *)
Fixpoint follow_chain (depth : nat) (account : Z) (chain : list AlpacaOrder) (order : AlpacaOrder)
    : res (list AlpacaOrder * AlpacaOrder) :=
  match rawo_replaced_by order with
  | None | Some "" => Ok (chain, order)
  | Some next =>
      match depth with
      | O => Throw (PlainError "Replacement order chain exceeded its bounded depth.")
      | S depth =>
          replacement ← broker_order_by_id account next;
          match replacement with
          | None => Throw (PlainError "Replacement order chain is incomplete or cyclic.")
          | Some r =>
              if existsb (fun o => String.eqb (rawo_id o) (rawo_id r)) chain then
                Throw (PlainError "Replacement order chain is incomplete or cyclic.")
              else follow_chain depth account (chain ++ [r])%list r
          end
      end
  end.

Record BrokerEvidence := {
  be_chain : list AlpacaOrder;
  be_order : option AlpacaOrder;
  be_position : option AlpacaPosition;
  be_openOrders : list AlpacaOrder
}.

(** The broker lookups of the release, in the order of the source. *)
Definition gather_broker_evidence (account : Z) (symbol : string) (localOrder : option BrokerOrder)
    (clientOrderId : option string) : res BrokerEvidence :=
  first ← match localOrder with
          | Some o => broker_order_by_id account (bo_brokerOrderId o)
          | None =>
              match clientOrderId with
              | Some "" | None => Ok None
              | Some k => broker_order_by_client_id account k
              end
          end;
  '(chain, order) ←
    match first with
    | None => Ok ([], None)
    | Some o => '(chain, last) ← follow_chain 10 account [o] o; Ok (chain, Some last)
    end;
  position ← broker_position account symbol;
  openOrders ← broker_open_buys account symbol;
  mret {| be_chain := chain; be_order := order; be_position := position; be_openOrders := openOrders |}.

Definition latest_broker_order (db : Db) (orderIntentId : Z) : option BrokerOrder :=
  find_first_by (fun x y => bo_createdAt y <=? bo_createdAt x)
    (fun o => bo_orderIntentId o =? orderIntentId) (brokerOrders db).

Definition is_buy_fill (orderIntentId : Z) (a : BrokerActivity) : bool :=
  opt_eqb (ba_orderIntentId a) orderIntentId && String.eqb (ba_activityType a) "FILL" &&
  bool_decide (ba_side a = Some "buy").

(** [reduce((sum, a) => sum + Number(a.qty ?? 0), 0)] *)
Definition accounted_quantity (db : Db) (orderIntentId : Z) : num :=
  nsum (map (fun a => default (num_of_Z 0) (ba_qty a))
    (find_many (is_buy_fill orderIntentId) (brokerActivities db))).

Definition tolerance : num := num_dec 1 9.

(** A local buy order that may still execute, outside the verified chain. *)
Definition nonterminal_buy (tradingAccountId securityId : Z) (chain : list string) (o : BrokerOrder) : bool :=
  opt_eqb (bo_tradingAccountId o) tradingAccountId && (bo_securityId o =? securityId) &&
  String.eqb (to_lower (bo_side o)) "buy" && negb (member (bo_brokerOrderId o) chain) &&
  negb (member (bo_status o) RELEASABLE_FINAL_STATUSES).

Definition symbol_of (db : Db) (securityId : Z) : string :=
  match find_first (fun s => sec_id s =? securityId) (securities db) with
  | Some s => sec_symbol s
  | None => ""
  end.

(** The committing transaction: revalidation under the lock, then release. *)
Definition commit_terminal_release (orderIntentId : Z) (claim : EntryExposureClaim)
    (chain : list AlpacaOrder) (order : AlpacaOrder) (brokerFilled locallyAccounted : num)
    : eff Db (option EntryExposureClaim) :=
  (* the advisory lock of the account and security is taken here *)
  _ ← await 60;
  current ← find_claim (by_id (cl_id claim));
  match current with
  | None => mret None
  | Some c =>
  if negb (bool_decide (cl_releasedAt c = None)) then mret (Some c)
  else
  _ ← await 61;
  db ← get;
  let activePosition :=
    count (active_position (cl_tradingAccountId claim) (cl_securityId claim)) (trackedPositions db) in
  let nonterminalOrder :=
    count (nonterminal_buy (cl_tradingAccountId claim) (cl_securityId claim) (map rawo_id chain))
      (brokerOrders db) in
  let currentAccounted := accounted_quantity db orderIntentId in
  if (0 <? activePosition) || (0 <? nonterminalOrder) ||
     nltb (nadd currentAccounted tolerance) brokerFilled then
    _ ← await 62;
    _ ← appendClaimDiagnostic (cl_id claim) "AUTHORITATIVE_RELEASE_REVALIDATION_BLOCKED"
      (JObj [("activePosition", jint activePosition); ("nonterminalOrder", jint nonterminalOrder);
             ("currentAccounted", JNum currentAccounted); ("brokerFilled", JNum brokerFilled)]);
    mret None
  else
  _ ← await 63;
  released ← update_claims (still c)
    (data_released ("BROKER_" ++ to_upper (rawo_status order) ++ "_NO_EXPOSURE"));
  _ ← await 64;
  if negb (released =? 1) then find_claim (by_id (cl_id claim))
  else
  _ ← add_event (cl_id claim) "RELEASED_AUTHORITATIVE_NO_EXPOSURE"
    (JObj [("brokerOrderIds", jstrs (map rawo_id chain)); ("brokerOrderStatus", JStr (rawo_status order));
           ("brokerFilledQuantity", JNum brokerFilled); ("locallyAccountedQuantity", JNum locallyAccounted);
           ("brokerPosition", JNull); ("executableBrokerBuyOrders", JArr [])]);
  _ ← await 65;
  find_claim (by_id (cl_id claim))
  end.

(** What the broker's answer means for the release. *)
Definition judge_broker_evidence (orderIntentId : Z) (claim : EntryExposureClaim) (symbol : string)
    (e : BrokerEvidence) : eff Db (option EntryExposureClaim) :=
  if existsb (fun o => negb (String.eqb (to_upper (trim (rawo_symbol o))) (to_upper (trim symbol))) ||
                       negb (String.eqb (to_lower (rawo_side o)) "buy")) (be_chain e) then
    _ ← markClaimUnresolved (cl_id claim) "AUTHORITATIVE_RELEASE_IDENTITY_CONFLICT"
      (JObj [("orderIds", jstrs (map rawo_id (be_chain e))); ("symbol", JStr symbol)]);
    mret None
  else
  let finalStatus := option_map (fun o => to_lower (trim (rawo_status o))) (be_order e) in
  let blocked :=
    _ ← appendClaimDiagnostic (cl_id claim) "AUTHORITATIVE_RELEASE_BLOCKED"
      (JObj [("observedBrokerOrderStatus", jopt JStr finalStatus);
             ("brokerPositionQuantity", match be_position e with
               | Some p => match rawp_qty p with
                           | Some (RawText q) => JStr q | Some (RawNumber q) => JNum q | None => JNull
                           end
               | None => JNull end);
             ("executableBrokerBuyOrderIds", jstrs (map rawo_id (be_openOrders e)))]);
    mret None in
  match be_order e with
  | None => blocked
  | Some order =>
  if negb (member (default "" finalStatus) RELEASABLE_FINAL_STATUSES) ||
     match be_position e with Some _ => true | None => false end ||
     match be_openOrders e with [] => false | _ => true end
  then blocked
  else
  let brokerFilled := nsum (map (fun o => number_or_zero (rawo_filled_qty o)) (be_chain e)) in
  _ ← await 66;
  locallyAccounted ← asks (fun db => accounted_quantity db orderIntentId);
  _ ← await 67;
  if negb (is_finite brokerFilled) || nltb brokerFilled (num_of_Z 0) ||
     nltb (nadd locallyAccounted tolerance) brokerFilled then
    _ ← appendClaimDiagnostic (cl_id claim) "AUTHORITATIVE_RELEASE_FILLS_INCOMPLETE"
      (JObj [("brokerOrderId", JStr (rawo_id order)); ("brokerOrderStatus", JStr (rawo_status order));
             ("brokerFilledQuantity", match rawo_filled_qty order with
               | Some (RawText q) => JStr q | Some (RawNumber q) => JNum q | None => JNull end);
             ("locallyAccountedQuantity", JNum locallyAccounted)]);
    mret None
  else transaction (commit_terminal_release orderIntentId claim (be_chain e) order brokerFilled
                      locallyAccounted)
  end.

Definition releaseConfirmedTerminalEntryClaim (orderIntentId : Z) (brokerStatus : string)
    (allowUnresolved : bool) : eff Db (option EntryExposureClaim) :=
  let lower := to_lower brokerStatus in
  let normalized := if String.eqb lower "cancelled" then "canceled" else lower in
  if negb (isTerminalBrokerOrderStatus normalized) then mret None
  else
  db ← get;
  match find_first (by_intent orderIntentId) (claims db) with
  | None => mret None
  | Some c =>
  if negb (bool_decide (cl_releasedAt c = None)) then mret (Some c)
  else if String.eqb (cl_status c) "UNRESOLVED" && negb allowUnresolved then mret (Some c)
  else if String.eqb normalized "filled" && bool_decide (cl_trackedPositionId c = None) &&
          negb allowUnresolved then
    _ ← await 70;
    transitionEntryExposureClaim orderIntentId "FILLED_AWAITING_POSITION"
      "BROKER_ORDER_FILLED_AWAITING_POSITION" (Some (JObj [("brokerStatus", JStr normalized)]))
  else
  let positionStatus := option_map tp_status (position_of db c) in
  if bool_decide (positionStatus = Some "open") || bool_decide (positionStatus = Some "closing")
  then mret (Some c)
  else
  let symbol := symbol_of db (cl_securityId c) in
  let clientOrderId := intent_of db c ≫= oi_clientOrderId in
  _ ← await 71;
  localOrder ← asks (fun db => latest_broker_order db orderIntentId);
  _ ← await 72;
  match gather_broker_evidence (cl_tradingAccountId c) symbol localOrder clientOrderId with
  | Throw error =>
      _ ← appendClaimDiagnostic (cl_id c) "AUTHORITATIVE_RELEASE_RETRYABLE"
        (JObj [("brokerStatus", JStr normalized); ("error", JStr (error_message error))]);
      mret None
  | Ok e => judge_broker_evidence orderIntentId c symbol e
  end
  end.

Definition releaseEntryExposureClaimForClosedPosition (trackedPositionId : Z)
    : eff Db (option EntryExposureClaim) :=
  claim ← find_claim (fun c => opt_eqb (cl_trackedPositionId c) trackedPositionId);
  match claim with
  | None => mret None
  | Some c =>
  if negb (bool_decide (cl_releasedAt c = None)) then mret (Some c)
  else
  _ ← await 73;
  position ← asks (fun db => find_first (fun p => tp_id p =? trackedPositionId) (trackedPositions db));
  let status := option_map tp_status position in
  if negb (bool_decide (status = Some "closed")) then
    throw (conflict "ENTRY_EXPOSURE_UNRESOLVED"
      "Position claim cannot be released before confirmed closure."
      [("trackedPositionId", jint trackedPositionId); ("claimId", jint (cl_id c));
       ("positionStatus", jopt JStr status)])
  else
  _ ← await 74;
  match cl_orderIntentId c with
  | None | Some 0 =>
      _ ← markClaimUnresolved (cl_id c) "CLOSED_POSITION_REQUIRES_OPERATOR_REVIEW"
        (JObj [("trackedPositionId", jint trackedPositionId);
               ("reason", JStr "No originating entry intent is available for exact broker-order verification.")]);
      mret None
  | Some orderIntentId => releaseConfirmedTerminalEntryClaim orderIntentId "filled" false
  end
  end.

(** The committing transaction of the operator's position-only release. *)
Definition commit_adopted_release (claim : EntryExposureClaim) (actorUserId : Z)
    : eff Db (option EntryExposureClaim) :=
  (* the advisory lock of the account and security is taken here *)
  _ ← await 80;
  db ← get;
  match find_first (by_id (cl_id claim)) (claims db) with
  | None => mret None
  | Some c =>
  if negb (bool_decide (cl_releasedAt c = None)) then mret (Some c)
  else
  let status := option_map tp_status (position_of db c) in
  _ ← await 81;
  db ← get;
  if negb (bool_decide (status = Some "closed")) ||
     (0 <? count (active_position (cl_tradingAccountId claim) (cl_securityId claim)) (trackedPositions db)) ||
     (0 <? count (nonterminal_buy (cl_tradingAccountId claim) (cl_securityId claim) []) (brokerOrders db))
  then mret None
  else
  _ ← await 82;
  released ← update_claims (still c)
    (data_released "OPERATOR_VERIFIED_CLOSED_ADOPTED_POSITION_NO_BROKER_EXPOSURE");
  _ ← await 83;
  if negb (released =? 1) then find_claim (by_id (cl_id claim))
  else
  _ ← add_event (cl_id claim) "RELEASED_OPERATOR_VERIFIED_POSITION_ONLY"
    (JObj [("actorUserId", jint actorUserId);
           ("trackedPositionId", jopt jint (cl_trackedPositionId claim));
           ("brokerPosition", JNull); ("openBrokerBuyOrders", JArr [])]);
  _ ← await 84;
  find_claim (by_id (cl_id claim))
  end.

Definition releaseClosedAdoptedPositionClaim (claimId actorUserId : Z)
    : eff Db (option EntryExposureClaim) :=
  db ← get;
  match find_first (by_id claimId) (claims db) with
  | None => mret None
  | Some c =>
  if negb (bool_decide (cl_releasedAt c = None)) then mret (Some c)
  else if match cl_orderIntentId c with None | Some 0 => false | _ => true end ||
          match cl_trackedPositionId c with None | Some 0 => true | _ => false end ||
          negb (bool_decide (option_map tp_status (position_of db c) = Some "closed")) then
    throw (conflict "ENTRY_EXPOSURE_UNRESOLVED"
      "Position-only remediation requires an adopted closed position with no attributed entry intent."
      [("claimId", jint claimId)])
  else
  let symbol := symbol_of db (cl_securityId c) in
  _ ← await 90;
  match (p ← broker_position (cl_tradingAccountId c) symbol;
         o ← broker_open_buys (cl_tradingAccountId c) symbol; mret (p, o) : res _) with
  | Throw error => throw error
  | Ok (brokerPosition, openOrders) =>
  let relevantOpenOrders := filterb (fun o =>
    String.eqb (to_upper (rawo_symbol o)) (to_upper symbol) &&
    String.eqb (to_lower (rawo_side o)) "buy" &&
    negb (isTerminalBrokerOrderStatus (rawo_status o))) openOrders in
  match brokerPosition, relevantOpenOrders with
  | None, [] => transaction (commit_adopted_release c actorUserId)
  | _, _ =>
      _ ← markClaimUnresolved (cl_id c) "OPERATOR_POSITION_ONLY_RELEASE_REFUSED"
        (JObj [("actorUserId", jint actorUserId);
               ("brokerPositionQuantity", match brokerPosition with
                 | Some p => match rawp_qty p with
                             | Some (RawText q) => JStr q | Some (RawNumber q) => JNum q | None => JNull
                             end
                 | None => JNull end);
               ("openBrokerBuyOrderIds", jstrs (map rawo_id relevantOpenOrders))]);
      mret None
  end
  end
  end.
End Claims.

(** * Exclusive ownership *)

(** Ids are unique and an account and security have at most one unreleased
    claim. *)
Definition claims_exclusive (db : Db) : Prop :=
  NoDup (map cl_id (claims db)) /\
  forall c c', In c (claims db) -> In c' (claims db) ->
    unreleased_for (cl_tradingAccountId c) (cl_securityId c) c = true ->
    unreleased_for (cl_tradingAccountId c) (cl_securityId c) c' = true -> c = c'.

Section Exclusive.
Context `{PrismaLaws}.
Variables (now : Z) (interfere : nat -> Db -> Db).
Hypothesis interfere_exclusive : forall n db, claims_exclusive db -> claims_exclusive (interfere n db).

Abbreviation exclusive_moves := (moves (keeps claims_exclusive)).

Lemma same_claims_exclusive db db' :
  claims db' = claims db -> claims_exclusive db -> claims_exclusive db'.
Proof. unfold claims_exclusive. by intros ->. Qed.

Lemma await_moves n : exclusive_moves (await interfere n).
Proof. apply moves_modify. exact (interfere_exclusive n). Qed.

Lemma find_claim_moves w : exclusive_moves (find_claim w).
Proof. apply moves_asks. typeclasses eauto. Qed.

Lemma last_event_of_type_moves i t : exclusive_moves (last_event_of_type i t).
Proof. apply moves_asks. typeclasses eauto. Qed.

Lemma last_event_where_moves i t : exclusive_moves (last_event_where i t).
Proof. apply moves_asks. typeclasses eauto. Qed.

Lemma add_event_moves i t e : exclusive_moves (add_event now i t e).
Proof. apply moves_modify. intros db HI. by apply (same_claims_exclusive db). Qed.

(** A column update that never clears [releasedAt]. *)
Definition never_unreleases (d : ClaimData) : Prop := set_releasedAt d <> Some None.

Lemma apply_data_unreleased d c a s :
  never_unreleases d -> unreleased_for a s (apply_data d c) = true -> unreleased_for a s c = true.
Proof.
  unfold never_unreleases, unreleased_for. destruct d as [? ? r ? ?].
  cbn [set_releasedAt apply_data cl_releasedAt cl_tradingAccountId cl_securityId].
  destruct r as [[t|]|]; cbn [default]; [|done|done]. intros _ E. exfalso.
  apply andb_true_iff in E as [_ E]. by apply bool_decide_eq_true in E.
Qed.

Lemma update_claims_moves w d : never_unreleases d -> exclusive_moves (update_claims w d).
Proof.
  intros Hd db [Hnd Hex]. unfold update_claims. destruct (position_taken w d db); [done|].
  rewrite update_many_eq. cbn [snd].
  unfold claims_exclusive. cbn [set_claims claims].
  assert (Hid : forall c, cl_id (if w c then apply_data d c else c) = cl_id c) by (intros c; by destruct (w c)).
  assert (Hun : forall c a s, unreleased_for a s (if w c then apply_data d c else c) = true ->
    unreleased_for a s c = true).
  { intros c a s. destruct (w c); [by apply apply_data_unreleased|done]. }
  assert (Hkey : forall c, cl_tradingAccountId (if w c then apply_data d c else c) = cl_tradingAccountId c /\
    cl_securityId (if w c then apply_data d c else c) = cl_securityId c) by (intros c; by destruct (w c)).
  split.
  - rewrite map_map. by rewrite (map_ext _ cl_id) by apply Hid.
  - intros x y (c & <- & Hc)%in_map_iff (c' & <- & Hc')%in_map_iff.
    destruct (Hkey c) as [-> ->]. intros E1%Hun E2%Hun. by rewrite (Hex c c' Hc Hc' E1 E2).
Qed.

Lemma create_claim_moves a s i p k st t ev j :
  exclusive_moves (create_claim now a s i p k st t ev j).
Proof.
  intros db [Hnd Hex]. unfold create_claim. destruct (existsb _ _) eqn:Ev; [done|].
  pose proof (proj1 (existsb_false_In _ _) Ev) as Hv. cbn [snd].
  unfold claims_exclusive. cbn [set_claims set_claimEvents claims]. split.
  - rewrite map_app. cbn [map cl_id]. apply NoDup_app. split; [done|]. split; [|apply NoDup_singleton].
    intros x Hx Hy. apply list_elem_of_singleton in Hy as ->.
    apply list_elem_of_In in Hx. by apply next_id_fresh in Hx.
  - intros c c' Hc Hc' E1 E2.
    apply in_app_iff in Hc as [Hc|[<-|[]]], Hc' as [Hc'|[<-|[]]]; [by apply Hex| | |done].
    + exfalso. specialize (Hv c Hc). unfold violates in Hv. apply orb_false_iff in Hv as [_ Hv].
      unfold unreleased_for in E1, E2. cbn in Hv, E2. bool_hyps.
      unfold unreleased_for in *. rewrite bool_decide_true in * by done.
      assert (cl_tradingAccountId c = a) by congruence. assert (cl_securityId c = s) by congruence.
      subst. rewrite !Z.eqb_refl in Hv. done.
    + exfalso. specialize (Hv c' Hc'). unfold violates in Hv. apply orb_false_iff in Hv as [_ Hv].
      cbn in E2, Hv. rewrite E2 in Hv. done.
Qed.

Hint Resolve await_moves find_claim_moves last_event_of_type_moves last_event_where_moves
  add_event_moves create_claim_moves : moves.

Lemma data_status_moves w s : exclusive_moves (update_claims w (data_status s)).
Proof. by apply update_claims_moves. Qed.
Lemma data_released_moves w r : exclusive_moves (update_claims w (data_released now r)).
Proof. by apply update_claims_moves. Qed.
Lemma data_unresolved_moves w : exclusive_moves (update_claims w (data_unresolved now)).
Proof. by apply update_claims_moves. Qed.
Lemma data_diagnosed_moves w : exclusive_moves (update_claims w (data_diagnosed now)).
Proof. by apply update_claims_moves. Qed.
Lemma data_attached_moves w p : exclusive_moves (update_claims w (data_attached p)).
Proof. by apply update_claims_moves. Qed.
Hint Resolve data_status_moves data_released_moves data_unresolved_moves data_diagnosed_moves
  data_attached_moves : moves.

Lemma require_moves i u : exclusive_moves (requireEntryExposureClaim i u).
Proof. unfold requireEntryExposureClaim. solve_moves. Qed.
Hint Resolve require_moves : moves.

Lemma transition_moves i s t e :
  exclusive_moves (transitionEntryExposureClaim now interfere i s t e).
Proof. unfold transitionEntryExposureClaim. solve_moves. Qed.

Lemma diagnostic_moves i t e : exclusive_moves (appendClaimDiagnostic now interfere i t e).
Proof. unfold appendClaimDiagnostic. solve_moves. Qed.

Lemma unresolved_moves i t e : exclusive_moves (markClaimUnresolved now interfere i t e).
Proof. unfold markClaimUnresolved. solve_moves. Qed.
Hint Resolve transition_moves diagnostic_moves unresolved_moves : moves.

Lemma missing_order_moves i k s :
  exclusive_moves (recordMissingLocalBrokerOrderDiagnostic now interfere i k s).
Proof. unfold recordMissingLocalBrokerOrderDiagnostic. solve_moves. Qed.

Lemma release_unsubmitted_moves i r :
  exclusive_moves (releaseUnsubmittedEntryExposureClaim now interfere i r).
Proof.
  unfold releaseUnsubmittedEntryExposureClaim, releaseUnsubmittedEntryExposureClaimLocked. solve_moves.
Qed.

Lemma attach_moves a s p y e :
  exclusive_moves (attachEntryExposureClaimToPosition now interfere a s p y e).
Proof. unfold attachEntryExposureClaimToPosition. solve_moves. Qed.

Lemma refuse_legacy_moves a s y : exclusive_moves (refuse_legacy_exposure interfere a s y).
Proof. unfold refuse_legacy_exposure. solve_moves. Qed.
Hint Resolve refuse_legacy_moves : moves.

Lemma acquire_moves a y k c :
  exclusive_moves c -> exclusive_moves (acquireEntryExposureClaim now interfere a y k c).
Proof. intros Hc. unfold acquireEntryExposureClaim. solve_moves. Qed.

Section BrokerReleases.
Context (by_broker_id : Z -> string -> res (option AlpacaOrder))
  (by_client_id : Z -> string -> res (option AlpacaOrder))
  (position : Z -> string -> res (option AlpacaPosition))
  (open_buys : Z -> string -> res (list AlpacaOrder)).

Lemma commit_terminal_moves i c ch o f l :
  exclusive_moves (commit_terminal_release now interfere i c ch o f l).
Proof. unfold commit_terminal_release. solve_moves. Qed.
Hint Resolve commit_terminal_moves : moves.

Lemma judge_moves i c y e : exclusive_moves (judge_broker_evidence now interfere i c y e).
Proof. unfold judge_broker_evidence. solve_moves. Qed.
Hint Resolve judge_moves : moves.

Lemma release_terminal_moves i s u :
  exclusive_moves (releaseConfirmedTerminalEntryClaim now interfere
    (broker_order_by_id := by_broker_id) (broker_order_by_client_id := by_client_id)
    (broker_position := position) (broker_open_buys := open_buys) i s u).
Proof. unfold releaseConfirmedTerminalEntryClaim. solve_moves. Qed.
Hint Resolve release_terminal_moves : moves.

Lemma release_closed_moves p :
  exclusive_moves (releaseEntryExposureClaimForClosedPosition now interfere
    (broker_order_by_id := by_broker_id) (broker_order_by_client_id := by_client_id)
    (broker_position := position) (broker_open_buys := open_buys) p).
Proof. unfold releaseEntryExposureClaimForClosedPosition. solve_moves. Qed.

Lemma commit_adopted_moves c u : exclusive_moves (commit_adopted_release now interfere c u).
Proof. unfold commit_adopted_release. solve_moves. Qed.
Hint Resolve commit_adopted_moves : moves.

Lemma release_adopted_moves c u :
  exclusive_moves (releaseClosedAdoptedPositionClaim now interfere
    (broker_position := position) (broker_open_buys := open_buys) c u).
Proof. unfold releaseClosedAdoptedPositionClaim. solve_moves. Qed.
End BrokerReleases.
End Exclusive.

(** One call of the service by some session: its arguments, the time, what
    other sessions do meanwhile, and the broker's answers. *)
Inductive claim_op :=
| OpAcquire (account : Z) (symbol ownerKey : string) (createIntent : eff Db OrderIntent)
| OpTransition (orderIntentId : Z) (status eventType : string) (evidence : option json)
| OpReleaseUnsubmitted (orderIntentId : Z) (reason : string)
| OpAttach (account security position : Z) (symbol : string) (expectedIntent : option Z)
| OpReleaseTerminal (orderIntentId : Z) (brokerStatus : string) (allowUnresolved : bool)
| OpReleaseClosed (position : Z)
| OpReleaseAdopted (claimId actorUserId : Z)
| OpDiagnostic (claimId : Z) (eventType : string) (evidence : json)
| OpMissingOrder (orderIntentId : Z) (clientOrderId : option string) (intentStatus : string)
| OpUnresolved (claimId : Z) (eventType : string) (evidence : json).

Record session_call := {
  sc_op : claim_op;
  sc_now : Z;
  sc_interfere : nat -> Db -> Db;
  sc_order_by_id : Z -> string -> res (option AlpacaOrder);
  sc_order_by_client_id : Z -> string -> res (option AlpacaOrder);
  sc_position : Z -> string -> res (option AlpacaPosition);
  sc_open_buys : Z -> string -> res (list AlpacaOrder)
}.

Definition run_call `{Prisma} (c : session_call) (db : Db) : Db :=
  let now := sc_now c in let f := sc_interfere c in
  match sc_op c with
  | OpAcquire a y k m => snd (transaction (acquireEntryExposureClaim now f a y k m) db)
  | OpTransition i s t e => snd (transitionEntryExposureClaim now f i s t e db)
  | OpReleaseUnsubmitted i r => snd (releaseUnsubmittedEntryExposureClaim now f i r db)
  | OpAttach a s p y e => snd (transaction (attachEntryExposureClaimToPosition now f a s p y e) db)
  | OpReleaseTerminal i s u => snd (releaseConfirmedTerminalEntryClaim now f
      (broker_order_by_id := sc_order_by_id c) (broker_order_by_client_id := sc_order_by_client_id c)
      (broker_position := sc_position c) (broker_open_buys := sc_open_buys c) i s u db)
  | OpReleaseClosed p => snd (releaseEntryExposureClaimForClosedPosition now f
      (broker_order_by_id := sc_order_by_id c) (broker_order_by_client_id := sc_order_by_client_id c)
      (broker_position := sc_position c) (broker_open_buys := sc_open_buys c) p db)
  | OpReleaseAdopted i u => snd (releaseClosedAdoptedPositionClaim now f
      (broker_position := sc_position c) (broker_open_buys := sc_open_buys c) i u db)
  | OpDiagnostic i t e => snd (appendClaimDiagnostic now f i t e db)
  | OpMissingOrder i k s => snd (recordMissingLocalBrokerOrderDiagnostic now f i k s db)
  | OpUnresolved i t e => snd (markClaimUnresolved now f i t e db)
  end.

(** Calls whose surroundings keep ownership exclusive: the other sessions (each
    running such calls itself) and the caller's own insertion of the intent. *)
Definition well_behaved (c : session_call) : Prop :=
  (forall n db, claims_exclusive db -> claims_exclusive (sc_interfere c n db)) /\
  match sc_op c with
  | OpAcquire _ _ _ m => moves (keeps claims_exclusive) m
  | _ => True
  end.

(** C1. Entry ownership is exclusive for ever: from a database where every
    account and security has at most one unreleased claim, any sequence of
    service calls - acquisitions, transitions, attachments, diagnostics and
    releases, interleaved at every statement with other sessions and with any
    broker answers, failing or not - leaves at most one. *)
Theorem claim_exclusivity {P : Prisma} `{!PrismaLaws P} calls db
    (Hcalls : forall c, In c calls -> well_behaved c) (Hdb : claims_exclusive db) :
  claims_exclusive (fold_left (fun db c => run_call c db) calls db).
Proof.
  revert db Hdb. induction calls as [|c calls IH]; intros db Hdb; [done|]. cbn [fold_left].
  apply IH; [intros c' Hc'; apply Hcalls; by right|].
  destruct (Hcalls c (or_introl eq_refl)) as [Hi Ho].
  unfold run_call. destruct (sc_op c).
  - apply (moves_transaction (keeps claims_exclusive) _ (acquire_moves _ _ Hi _ _ _ _ Ho)). done.
  - by apply transition_moves.
  - by apply release_unsubmitted_moves.
  - apply (moves_transaction (keeps claims_exclusive) _ (attach_moves _ _ Hi _ _ _ _ _)). done.
  - by apply release_terminal_moves.
  - by apply release_closed_moves.
  - by apply release_adopted_moves.
  - by apply diagnostic_moves.
  - by apply missing_order_moves.
  - by apply unresolved_moves.
Qed.

(** * Concrete inputs *)

Definition sample_security : Security := {| sec_id := 7; sec_symbol := "AAPL"; sec_enabled := true |}.
Definition sample_intent : OrderIntent :=
  {| oi_id := 5; oi_source := "worker"; oi_symbol := "AAPL"; oi_side := "buy";
     oi_orderType := "market"; oi_timeInForce := "day"; oi_qty := Some (num_of_Z 2); oi_notional := None;
     oi_limitPrice := None; oi_clientOrderId := Some "client-5"; oi_status := "pending";
     oi_blockReason := None; oi_rawRequestJson := JNull; oi_createdAt := 1000; oi_updatedAt := 1000;
     oi_subscriptionId := None; oi_subscriptionKey := None; oi_trackedPositionId := None;
     oi_tradingAccountId := Some 1; oi_tradingAccountSubscriptionId := None;
     oi_liveEntryAcceptanceRunId := None; oi_lastSubmittedOrderSyncAt := None |}.

(** A database with one registered security, and the caller's insertion. *)
Definition sample_db : Db :=
  {| securities := [sample_security]; subscriptions := []; tradingAccounts := []; riskSettings := [];
     accountSubscriptions := []; orderIntents := []; brokerOrders := []; brokerActivities := [];
     trackedPositions := []; claims := []; claimEvents := []; opportunityEvents := [];
     dispatchConsumptions := []; unenforcedDispatches := []; armingTerminations := []; acceptanceRuns := [] |}.
Definition insert_intent : eff Db OrderIntent :=
  fun db => (Ok sample_intent, set_orderIntents (fun l => l ++ [sample_intent])%list db).

Definition quiet_call (op : claim_op) : session_call :=
  {| sc_op := op; sc_now := 1000; sc_interfere := fun _ db => db;
     sc_order_by_id := fun _ _ => Ok None; sc_order_by_client_id := fun _ _ => Ok None;
     sc_position := fun _ _ => Ok None; sc_open_buys := fun _ _ => Ok [] |}.

(** An acquisition, a competing one that is refused, a submission and the
    attachment of the resulting position. *)
Definition sample_calls : list session_call :=
  [quiet_call (OpAcquire 1 "aapl" "order-intent:5" insert_intent);
   quiet_call (OpAcquire 1 "AAPL" "order-intent:6" insert_intent);
   quiet_call (OpTransition 5 "ENTRY_SUBMITTING" "WORKER_CLAIMED_FOR_SUBMISSION" None);
   quiet_call (OpAttach 1 7 9 "AAPL" (Some 5))].

Definition run_sample : Db :=
  fold_left (fun db c => run_call (H := in_order) c db) sample_calls sample_db.

Lemma claim_exclusivity_witness :
  claims_exclusive run_sample /\
  map (fun c => (cl_id c, cl_status c)) (claims run_sample) = [(1, "POSITION_OPEN")].
Proof.
  split; [|reflexivity].
  apply (claim_exclusivity (P := in_order)).
  - intros c Hc. repeat destruct Hc as [<-|Hc]; [..|destruct Hc];
      (split; [intros n db H; exact H|]); first [exact I | intros db H; exact H].
  - split; [apply NoDup_nil_2|]. intros c c' Hc. destruct Hc.
Defined.
