(* ===== verification/ExposureSafety.v ===== *)
(** What the exposure-claim service promises (services/entry-exposure-claim.service.ts):
    exact conditions of the releases and of the acquisition when no other
    session interferes, and the lifecycle of every claim under interference. *)

From Stdlib Require Import ZArith Lia.
From Stdlib Require Import Strings.String.
From Stdlib Require Import Floats.SpecFloat.
From stdpp Require Import base list strings.
From S2P Require Import Prelude JsNumber JsValue JsDate Prisma OrderStatus DeliveryEvidence.
From S2P Require Import Schema BrokerAccount ExposureClaim.

Open Scope string_scope.
Open Scope Z_scope.

(** No other session writes. *)
Definition calm (n : nat) (db : Db) : Db := db.

(** The rows of the table after [d] is applied to the row with [id]. *)
Definition update_row (id : Z) (d : ClaimData) (db : Db) : Db :=
  set_claims (map (fun r => if cl_id r =? id then apply_data d r else r)) db.

(** Run the statements of a program up to the next branch. *)
Ltac run_eff :=
  unfold mbind, eff_bind, mret, eff_ret, find_claim, await, modify, asks, get, throw, calm;
  cbn beta iota zeta.

Section Serial.
Context {P : Prisma} `{!PrismaLaws P}.
Variable now : Z.

(** The guarded update of an observed row changes that row and no other. *)
Lemma update_still db c d :
  NoDup (map cl_id (claims db)) -> In c (claims db) -> cl_releasedAt c = None ->
  set_trackedPositionId d = None ->
  update_claims (still c) d db = (Ok 1, update_row (cl_id c) d db).
Proof.
  intros Hnd Hc Ho Hp. unfold update_claims, position_taken. rewrite Hp, update_many_eq.
  assert (Hs : still c c = true)
    by (unfold still, by_id; by rewrite Z.eqb_refl, String.eqb_refl, Ho).
  assert (Hu : filterb (still c) (claims db) = [c]).
  { apply (filterb_unique cl_id); [done..|]. intros r _ Hr. unfold still, by_id in Hr.
    bool_hyps. done. }
  rewrite Hu. cbn [length Z.of_nat Pos.of_succ_nat]. f_equal.
  unfold update_row, set_claims. f_equal. apply map_ext_in. intros r Hr.
  destruct (cl_id r =? cl_id c) eqn:E.
  - apply Z.eqb_eq in E. assert (r = c) as -> by by apply (NoDup_key_inj cl_id (claims db)). by rewrite Hs.
  - unfold still, by_id. by rewrite E.
Qed.

Lemma find_updated db c d t :
  NoDup (map cl_id (claims db)) -> In c (claims db) ->
  claims t = claims (update_row (cl_id c) d db) ->
  find_first (by_id (cl_id c)) (claims t) = Some (apply_data d c).
Proof.
  intros Hnd Hc ->. unfold update_row. cbn [claims set_claims]. apply find_first_unique.
  - apply in_map_iff. exists c. by rewrite Z.eqb_refl.
  - unfold by_id. cbn. apply Z.eqb_refl.
  - intros y (r & <- & Hr)%in_map_iff Hy. unfold by_id in Hy.
    destruct (cl_id r =? cl_id c) eqn:E; [|by rewrite E in Hy].
    apply Z.eqb_eq in E. by rewrite (NoDup_key_inj cl_id (claims db) r c).
Qed.

(** * The never-submitted release *)

(** Nothing recorded for the intent could have reached the broker: no broker
    row, no dispatch or arming record, proven never-submitted delivery
    evidence, and no position still open. *)
Definition never_exposed (db : Db) (orderIntentId : Z) (c : EntryExposureClaim) : Prop :=
  In (cl_status c) ["ENTRY_PENDING"; "ENTRY_SUBMITTING"; "ADMISSION_BLOCKED"] /\
  (forall o, In o (brokerOrders db) -> bo_orderIntentId o <> orderIntentId) /\
  (forall a, In a (brokerActivities db) -> ba_orderIntentId a <> Some orderIntentId) /\
  (forall e, In e (opportunityEvents db) -> oe_orderIntentId e = orderIntentId ->
     ~ In (oe_eventType e) DISPATCH_EVIDENCE_TYPES) /\
  (forall d, In d (dispatchConsumptions db) -> dc_orderIntentId d <> orderIntentId) /\
  (forall d, In d (unenforcedDispatches db) -> ud_orderIntentId d <> orderIntentId) /\
  (forall t, In t (armingTerminations db) -> lt_orderIntentId t = Some orderIntentId ->
     lt_type t <> "CONSUMED") /\
  never_submitted (loadDeliveryEvidenceEvents (cl_id c) (claimEvents db)) (cl_status c)
    (intent_of db c ≫= oi_blockReason) /\
  (forall p, position_of db c = Some p -> tp_status p = "closed").

Lemma count_none {A} (p : A -> bool) t :
  (0 <? count p t) = false <-> forall x, In x t -> p x = false.
Proof.
  rewrite <- count_zero. pose proof (count_nonneg p t). rewrite Z.ltb_ge. lia.
Qed.

Lemma loaded_ids db i :
  NoDup (map ce_id (claimEvents db)) ->
  NoDup (map ev_id (loadDeliveryEvidenceEvents i (claimEvents db))).
Proof.
  intros Hnd. unfold loadDeliveryEvidenceEvents. rewrite map_map. cbn [evidence_event ev_id].
  rewrite sort_by_perm, find_many_perm. by apply NoDup_map_filterb.
Qed.

Lemma release_refused_exact db i c :
  NoDup (map ce_id (claimEvents db)) ->
  member (cl_status c) ["ENTRY_PENDING"; "ENTRY_SUBMITTING"; "ADMISSION_BLOCKED"] = true ->
  release_refused (release_counts db i c)
    (evaluateNeverSubmittedRelease (cl_status c) (rc_summary (release_counts db i c))
      (intent_of db c ≫= oi_blockReason)) = false <-> never_exposed db i c.
Proof.
  intros Hnd Hst. apply (loaded_ids db (cl_id c)) in Hnd.
  unfold release_refused, never_exposed, release_counts. cbn [rc_brokerOrders rc_brokerActivities
    rc_brokerDispatchEvidence rc_dispatchConsumptions rc_unenforcedDispatches
    rc_liveArmingConsumptions rc_positionStatus rc_summary].
  rewrite !orb_false_iff, !count_none, negb_false_iff, (release_rule_exact _ _ _ Hnd).
  apply member_In in Hst. split.
  - intros (((((((H1 & H2) & H3) & H4) & H5) & H6) & H7) & H8).
    refine (conj Hst (conj _ (conj _ (conj _ (conj _ (conj _ (conj _ (conj H7 _)))))))); intros x Hx.
    + intros E. apply H1 in Hx. lia.
    + intros E. apply H2 in Hx. unfold opt_eqb in Hx. by apply bool_decide_eq_false in Hx.
    + intros E Ht. apply H3 in Hx. apply member_In in Ht. rewrite E, Z.eqb_refl, Ht in Hx. done.
    + intros E. apply H4 in Hx. lia.
    + intros E. apply H5 in Hx. lia.
    + intros E Ht. apply H6 in Hx. unfold opt_eqb in Hx.
      rewrite Ht, String.eqb_refl, bool_decide_true in Hx by done. done.
    + rewrite Hx in H8. cbn in H8. apply negb_false_iff in H8. by apply String.eqb_eq.
  - intros (_ & H1 & H2 & H3 & H4 & H5 & H6 & H7 & H8). 
    refine (conj (conj (conj (conj (conj (conj (conj _ _) _) _) _) _) H7) _); try intros x Hx.
    + apply Z.eqb_neq. by apply H1.
    + apply bool_decide_eq_false. by apply H2.
    + destruct (oe_orderIntentId x =? i) eqn:E; [|done]. apply not_true_is_false.
      intros Ht%member_In. apply (H3 x Hx); [lia|done].
    + apply Z.eqb_neq. by apply H4.
    + apply Z.eqb_neq. by apply H5.
    + destruct (opt_eqb _ _) eqn:E; [|done]. apply bool_decide_eq_true in E.
      apply String.eqb_neq. by apply H6.
    + destruct (position_of db c) as [p|]; cbn; [|done].
      by rewrite (H8 p eq_refl), String.eqb_refl.
Qed.

Lemma release_basis counts st summary blockReason :
  release_refused counts (evaluateNeverSubmittedRelease st summary blockReason) = false ->
  exists b, basis (evaluateNeverSubmittedRelease st summary blockReason) = Some b.
Proof.
  unfold release_refused. rewrite !orb_false_iff, negb_false_iff.
  intros [[_ Hp] _]. revert Hp. unfold evaluateNeverSubmittedRelease.
  repeat branch_goal; cbn; by eauto.
Qed.

(** C6. The never-submitted release happens exactly when nothing could have
    reached the broker: for an unreleased claim, the call releases it - that
    row alone, with the reason, the time and a recorded basis - if the claim
    never left the admission statuses, no broker order, activity, dispatch,
    live-arming consumption or open position exists and the delivery evidence
    proves that nothing was sent; otherwise it answers 409 and changes
    nothing. *)
Theorem unsubmitted_release_exact orderIntentId reason db c
    (Hids : NoDup (map cl_id (claims db))) (Hevents : NoDup (map ce_id (claimEvents db)))
    (Hc : find_first (by_intent orderIntentId) (claims db) = Some c)
    (Hopen : cl_releasedAt c = None) :
  let '(r, db') := releaseUnsubmittedEntryExposureClaim now calm orderIntentId reason db in
  (never_exposed db orderIntentId c ->
     r = Ok (Some (apply_data (data_released now reason) c)) /\
     releasedByThisCall (Some (apply_data (data_released now reason) c)) reason = true /\
     exists basis, db' =
       set_claimEvents (create_event now (cl_id c) "RELEASED_NO_BROKER_EXPOSURE"
         (JObj [("reason", JStr reason); ("notSentBasis", JStr basis)]))
         (update_row (cl_id c) (data_released now reason) db)) /\
  (~ never_exposed db orderIntentId c ->
     (exists message details, r = Throw (HttpError 409 message details)) /\ db' = db).
Proof.
  pose proof (proj1 (find_first_some _ _ _ _ Hc)) as Hin.
  unfold releaseUnsubmittedEntryExposureClaim, transaction, releaseUnsubmittedEntryExposureClaimLocked.
  run_eff. rewrite Hc. run_eff. rewrite Hc. run_eff. rewrite Hopen.
  rewrite bool_decide_true by done. cbn [negb].
  destruct (member (cl_status c) _) eqn:Em; cbn [negb].
  2: { cbn beta iota; split; [|intros _; split; [by do 2 eexists|done]].
       intros [Hs%member_In _]. by rewrite Hs in Em. }
  pose proof (release_refused_exact db orderIntentId c Hevents Em) as Hex.
  destruct (release_refused _ _) eqn:Er.
  { cbn beta iota; split; [|intros _; split; [by do 2 eexists|done]]. intros Hn%Hex. done. }
  rewrite update_still by done. run_eff.
  change (1 =? 1) with true. cbn [negb]. unfold add_event. run_eff.
  split; [|by intros Hn; destruct Hn; apply Hex]. intros _.
  destruct (release_basis _ _ _ _ Er) as [b Hb].
  match goal with |- context [jopt JStr ?x] => change x with (basis
    (evaluateNeverSubmittedRelease (cl_status c) (rc_summary (release_counts db orderIntentId c))
      (intent_of db c ≫= oi_blockReason))) end.
  rewrite Hb.
  split; [f_equal; by apply (find_updated db)|]. split; [|by exists b].
  unfold releasedByThisCall. cbn. by rewrite bool_decide_true.
Qed.

(** * Acquisition *)

(** No claim, position, unresolved entry or working buy of the account holds
    the security. *)
Definition exposure_free (db : Db) (account security : Z) (symbol : string) : Prop :=
  (forall c, In c (claims db) -> unreleased_for account security c = false) /\
  (forall p, In p (trackedPositions db) -> active_position account security p = false) /\
  (forall i, In i (orderIntents db) -> unresolved_intent db account symbol i = false) /\
  (forall o, In o (brokerOrders db) -> active_broker_buy db account security o = false).

(** The claim a successful acquisition inserts. *)
Definition acquired_claim (db : Db) (account security intent : Z) (ownerKey : string)
    : EntryExposureClaim :=
  {| cl_id := next_id (map cl_id (claims db)); cl_tradingAccountId := account;
     cl_securityId := security; cl_orderIntentId := Some intent; cl_trackedPositionId := None;
     cl_ownerKey := ownerKey; cl_status := "ENTRY_PENDING"; cl_acquiredAt := now;
     cl_releasedAt := None; cl_releaseReason := None; cl_lastDiagnosedAt := None |}.

Lemma no_violation db account security intent ownerKey :
  (forall c, In c (claims db) -> cl_ownerKey c <> ownerKey) ->
  (forall c, In c (claims db) -> cl_orderIntentId c <> Some intent) ->
  (forall c, In c (claims db) -> unreleased_for account security c = false) ->
  existsb (violates (acquired_claim db account security intent ownerKey)) (claims db) = false.
Proof.
  intros Hk Hi Hu. apply existsb_false_In. intros c Hc. unfold violates. cbn.
  rewrite (Hu c Hc), orb_false_r. unfold opt_eqb. rewrite bool_decide_false by by apply Hi.
  rewrite !orb_false_r. apply String.eqb_neq. by apply Hk.
Qed.

Lemma refuse_legacy_exact db account security symbol :
  (exists m d, refuse_legacy_exposure calm account security symbol db = (Throw (HttpError 409 m d), db) /\
     ~ exposure_free db account security symbol) \/
  (refuse_legacy_exposure calm account security symbol db = (Ok tt, db) /\
   ((forall c, In c (claims db) -> unreleased_for account security c = false) ->
    exposure_free db account security symbol)).
Proof.
  unfold refuse_legacy_exposure. run_eff.
  destruct (find_first _ (trackedPositions db)) as [p|] eqn:Ep.
  { left. do 2 eexists. split; [done|]. apply find_first_some in Ep as [Hp E].
    intros (_ & H & _). by rewrite H in E. }
  run_eff. destruct (find_first_by _ _ (orderIntents db)) as [i|] eqn:Ei.
  { left. do 2 eexists. split; [done|]. apply find_first_by_some in Ei as [Hi E].
    intros (_ & _ & H & _). by rewrite H in E. }
  run_eff. destruct (find_first_by _ _ (brokerOrders db)) as [o|] eqn:Eo.
  { left. do 2 eexists. split; [done|]. apply find_first_by_some in Eo as [Ho E].
    intros (_ & _ & _ & H). by rewrite H in E. }
  right. split; [by run_eff|]. intros Hc. split; [done|].
  split; [|split]; intros x Hx; eauto using find_first_none, find_first_by_none.
Qed.

(** C9. Entry exposure is acquired exactly when the account holds none: for a
    new owner key the acquisition inserts the caller's intent and one
    ENTRY_PENDING claim for it if the account has no unreleased claim, no
    active position, no unresolved entry intent and no working buy order on
    the security; otherwise it answers 409 and the transaction changes
    nothing, the intent included. *)
Theorem acquisition_exact account symbol ownerKey createIntent intent db db1 security
    (Hsecurity : find_first (fun s => String.eqb (sec_symbol s) (to_upper (trim symbol)))
                   (securities db) = Some security)
    (Hkey : forall c, In c (claims db) -> cl_ownerKey c <> ownerKey)
    (Hcreate : createIntent db = (Ok intent, db1)) (Hclaims : claims db1 = claims db)
    (Hintent : forall c, In c (claims db) -> cl_orderIntentId c <> Some (oi_id intent)) :
  let sym := to_upper (trim symbol) in
  let claim := acquired_claim db account (sec_id security) (oi_id intent) ownerKey in
  let '(r, db') := transaction (acquireEntryExposureClaim now calm account symbol ownerKey createIntent) db in
  (exposure_free db account (sec_id security) sym ->
     r = Ok {| aq_intent := intent; aq_duplicate := false; aq_claimId := cl_id claim |} /\
     claims db' = (claims db ++ [claim])%list /\
     claimEvents db' = create_event now (cl_id claim) "ACQUIRED"
       (JObj [("orderIntentId", jint (oi_id intent)); ("symbol", JStr sym)]) (claimEvents db1) /\
     orderIntents db' = orderIntents db1) /\
  (~ exposure_free db account (sec_id security) sym ->
     (exists message details, r = Throw (HttpError 409 message details)) /\ db' = db).
Proof.
  cbv zeta. unfold transaction, acquireEntryExposureClaim. run_eff. rewrite Hsecurity.
  rewrite (find_first_absent (fun c => String.eqb (cl_ownerKey c) ownerKey))
    by (intros c Hc; apply String.eqb_neq; by apply Hkey).
  cbn [option_bind]. cbn beta iota.
  destruct (find_first (unreleased_for _ _) _) as [c|] eqn:Ec.
  { apply find_first_some in Ec as [Hc E].
    rewrite (proj2 (String.eqb_neq _ _) (Hkey c Hc)). cbn beta iota.
    split; [intros [H _]; by rewrite H in E|intros _; split; [by do 2 eexists|done]]. }
  pose proof (refuse_legacy_exact db account (sec_id security) (to_upper (trim symbol))) as Hl.
  unfold calm in Hl. destruct Hl as [(m & d & -> & Hn)|[-> Hfree]]; cbn beta iota.
  { split; [done|]. intros _. split; [by do 2 eexists|done]. }
  pose proof (Hfree (fun x Hx => find_first_none _ _ _ _ Ec Hx)) as Hf.
  rewrite Hcreate. cbn beta iota. unfold create_claim. rewrite Hclaims.
  change (existsb _ (claims db)) with
    (existsb (violates (acquired_claim db account (sec_id security) (oi_id intent) ownerKey)) (claims db)).
  rewrite (no_violation _ _ _ _ _ Hkey Hintent (proj1 Hf)). cbn beta iota.
  split; [intros _|by intros Hn; destruct Hn].
  cbn [claims set_claims set_claimEvents claimEvents orderIntents cl_id]. by rewrite Hclaims.
Qed.

(** * Releases on broker evidence *)

(** The claim with [id] is not released. *)
Definition unreleased (id : Z) (db : Db) : Prop :=
  forall r, In r (claims db) -> cl_id r = id -> cl_releasedAt r = None.

Abbreviation holds_claim id := (moves (keeps (unreleased id))).

Lemma update_holds id w d : set_releasedAt d = None -> holds_claim id (update_claims w d).
Proof.
  intros Hd db Hu. unfold update_claims. destruct (position_taken w d db); [done|].
  rewrite update_many_eq. cbn [snd]. intros r (x & <- & Hx)%in_map_iff.
  destruct (w x); [|by apply Hu]. cbn [apply_data cl_id cl_releasedAt]. rewrite Hd. by apply Hu.
Qed.

Lemma add_event_holds id i t e : holds_claim id (add_event now i t e).
Proof. apply moves_modify. intros db Hu r Hr. exact (Hu r Hr). Qed.

Lemma await_holds id n : holds_claim id (await calm n).
Proof. apply moves_modify. by intros db Hu. Qed.

Lemma asks_holds {A} id (f : Db -> A) : holds_claim id (asks f).
Proof. apply moves_asks. typeclasses eauto. Qed.
Hint Resolve add_event_holds await_holds asks_holds : moves.

Hint Extern 2 (moves _ (update_claims _ _)) => apply update_holds; reflexivity : moves.

Lemma transition_holds id i s t e :
  holds_claim id (transitionEntryExposureClaim now calm i s t e).
Proof.
  unfold transitionEntryExposureClaim, requireEntryExposureClaim, find_claim, last_event_of_type.
  solve_moves.
Qed.

Lemma diagnostic_holds id i t e : holds_claim id (appendClaimDiagnostic now calm i t e).
Proof. unfold appendClaimDiagnostic, find_claim, last_event_where. solve_moves. Qed.

Lemma unresolved_holds id i t e : holds_claim id (markClaimUnresolved now calm i t e).
Proof. unfold markClaimUnresolved, find_claim, last_event_of_type. solve_moves. Qed.
Hint Resolve transition_holds diagnostic_holds unresolved_holds : moves.

(** What the broker and the local records must show for the release: every
    order of the chain buys the symbol, the last one is final, the broker
    holds neither a position nor a working buy, every broker fill is accounted
    for locally, and no active position or other working buy is recorded. *)
Definition conclusive (db : Db) (orderIntentId : Z) (c : EntryExposureClaim) (symbol : string)
    (e : BrokerEvidence) : Prop :=
  let filled := nsum (map (fun o => number_or_zero (rawo_filled_qty o)) (be_chain e)) in
  (forall o, In o (be_chain e) ->
     to_upper (trim (rawo_symbol o)) = to_upper (trim symbol) /\ to_lower (rawo_side o) = "buy") /\
  (exists order, be_order e = Some order /\
     In (to_lower (trim (rawo_status order))) RELEASABLE_FINAL_STATUSES) /\
  be_position e = None /\ be_openOrders e = [] /\
  is_finite filled = true /\ nltb filled (num_of_Z 0) = false /\
  nltb (nadd (accounted_quantity db orderIntentId) tolerance) filled = false /\
  (forall p, In p (trackedPositions db) ->
     active_position (cl_tradingAccountId c) (cl_securityId c) p = false) /\
  (forall o, In o (brokerOrders db) ->
     nonterminal_buy (cl_tradingAccountId c) (cl_securityId c) (map rawo_id (be_chain e)) o = false).

(** The call reaches the broker lookups. *)
Definition normalized_status (s : string) : string :=
  let lower := to_lower s in if String.eqb lower "cancelled" then "canceled" else lower.
Definition release_considered (db : Db) (c : EntryExposureClaim) (brokerStatus : string)
    (allowUnresolved : bool) : Prop :=
  isTerminalBrokerOrderStatus (normalized_status brokerStatus) = true /\
  (cl_status c = "UNRESOLVED" -> allowUnresolved = true) /\
  (normalized_status brokerStatus = "filled" -> cl_trackedPositionId c = None -> allowUnresolved = true) /\
  (forall p, position_of db c = Some p -> tp_status p <> "open" /\ tp_status p <> "closing").

Definition released_by_broker (order : AlpacaOrder) (c : EntryExposureClaim) : EntryExposureClaim :=
  apply_data (data_released now ("BROKER_" ++ to_upper (rawo_status order) ++ "_NO_EXPOSURE")) c.

Section Broker.
Context (by_broker_id : Z -> string -> res (option AlpacaOrder))
  (by_client_id : Z -> string -> res (option AlpacaOrder))
  (position : Z -> string -> res (option AlpacaPosition))
  (open_buys : Z -> string -> res (list AlpacaOrder)).

Lemma holds_run {A} db c (m : eff Db A) :
  holds_claim (cl_id c) m -> NoDup (map cl_id (claims db)) -> In c (claims db) ->
  cl_releasedAt c = None -> unreleased (cl_id c) (snd (m db)).
Proof.
  intros Hm Hnd Hc Ho. apply Hm. intros r Hr E.
  by rewrite (NoDup_key_inj cl_id (claims db) r c).
Qed.

Lemma unreleased_now db c :
  NoDup (map cl_id (claims db)) -> In c (claims db) -> cl_releasedAt c = None ->
  unreleased (cl_id c) db.
Proof. intros Hnd Hc Ho r Hr E. by rewrite (NoDup_key_inj cl_id (claims db) r c). Qed.

(** A diagnostic releases nothing, whether it fails or not. *)
Ltac settle_diagnostic db c :=
  match goal with
  | |- context [appendClaimDiagnostic ?n _ ?i ?t ?v db] =>
      let Hd := fresh "Hd" in
      assert (Hd : unreleased (cl_id c) (snd (appendClaimDiagnostic n calm i t v db)))
        by (apply holds_run; [apply diagnostic_holds|assumption..]);
      unfold calm in Hd; destruct (appendClaimDiagnostic n _ i t v db) as [[?|?] ?]
  end; cbn beta iota; cbn [snd] in *.

Lemma commit_exact db i c e order filled accounted :
  NoDup (map cl_id (claims db)) -> In c (claims db) -> cl_releasedAt c = None ->
  let ready := (forall p, In p (trackedPositions db) ->
      active_position (cl_tradingAccountId c) (cl_securityId c) p = false) /\
    (forall o, In o (brokerOrders db) ->
      nonterminal_buy (cl_tradingAccountId c) (cl_securityId c) (map rawo_id (be_chain e)) o = false) /\
    nltb (nadd (accounted_quantity db i) tolerance) filled = false in
  let '(r, db') := transaction (commit_terminal_release now calm i c (be_chain e) order filled accounted) db in
  (ready /\ r = Ok (Some (released_by_broker order c)) /\
     claims db' = claims (update_row (cl_id c)
       (data_released now ("BROKER_" ++ to_upper (rawo_status order) ++ "_NO_EXPOSURE")) db)) \/
  (~ ready /\ unreleased (cl_id c) db').
Proof.
  intros Hnd Hc Ho. cbv zeta. unfold transaction, commit_terminal_release. run_eff.
  rewrite (find_first_unique (by_id (cl_id c)) (claims db) c); [|done|by unfold by_id; rewrite Z.eqb_refl|].
  2: { intros y Hy E. unfold by_id in E. by apply (NoDup_key_inj cl_id (claims db)); [..|lia]. }
  run_eff. rewrite Ho, bool_decide_true by done. cbn [negb].
  destruct ((_ || _) || _) eqn:E.
  - assert (Hn : unreleased (cl_id c) db) by by apply unreleased_now.
    settle_diagnostic db c; right; (split; [|done]); intros (H1 & H2 & H3);
      by rewrite (proj2 (count_none _ _) H1), (proj2 (count_none _ _) H2), H3 in E.
  - cbn beta iota. rewrite update_still by done. run_eff. change (1 =? 1) with true. cbn [negb].
    unfold add_event. run_eff. rewrite !orb_false_iff, !count_none in E.
    left. split; [naive_solver|]. split; [|done]. f_equal. by apply (find_updated db).
Qed.

(** The outcome of a release attempt. *)
Definition outcome (db : Db) (c : EntryExposureClaim) (justified : option AlpacaOrder -> Prop)
    (run : res (option EntryExposureClaim) * Db) : Prop :=
  let '(r, db') := run in
  (exists order, justified (Some order) /\ r = Ok (Some (released_by_broker order c)) /\
     claims db' = claims (update_row (cl_id c)
       (data_released now ("BROKER_" ++ to_upper (rawo_status order) ++ "_NO_EXPOSURE")) db)) \/
  ((forall order, ~ justified order) /\ unreleased (cl_id c) db').

Lemma outcome_unreleased {A} db c justified (m : eff Db A) (x : A -> option EntryExposureClaim) :
  NoDup (map cl_id (claims db)) -> In c (claims db) -> cl_releasedAt c = None ->
  holds_claim (cl_id c) m -> (forall order, ~ justified order) ->
  outcome db c justified ((y ← m; mret (x y)) db).
Proof.
  intros Hnd Hc Ho Hm Hj. pose proof (holds_run db c m Hm Hnd Hc Ho) as Hu.
  unfold outcome. unfold mbind, eff_bind. destruct (m db) as [[y|e] s']; by right.
Qed.

Lemma judge_exact db i c symbol e :
  NoDup (map cl_id (claims db)) -> In c (claims db) -> cl_releasedAt c = None ->
  outcome db c (fun order => be_order e = order /\ conclusive db i c symbol e)
    (judge_broker_evidence now calm i c symbol e db).
Proof.
  intros Hnd Hc Ho. unfold judge_broker_evidence.
  destruct (existsb _ (be_chain e)) eqn:Ech.
  { apply (outcome_unreleased db c _ _ (fun _ => None)); [done..|apply unresolved_holds|].
    intros order [_ [Hch _]]. apply existsb_exists in Ech as (o & Ho1 & E).
    destruct (Hch o Ho1) as [E1 E2]. by rewrite E1, E2, !String.eqb_refl in E. }
  cbv zeta. destruct (be_order e) as [order|] eqn:Eo.
  2: { apply (outcome_unreleased db c _ _ (fun _ => None)); [done..|apply diagnostic_holds|].
       intros order [_ (_ & (o & E & _) & _)]. congruence. }
  cbn [option_map from_option id].
  destruct (_ || _) eqn:Ef.
  { apply (outcome_unreleased db c _ _ (fun _ => None)); [done..|apply diagnostic_holds|].
    intros order' [_ (_ & (o & E & Hf) & Hp & Hb & _)]. rewrite Eo in E. injection E as <-.
    apply member_In in Hf. rewrite Hf, Hp, Hb in Ef. done. }
  apply orb_false_iff in Ef as [Ef Hb]. apply orb_false_iff in Ef as [Ef Hp].
  apply negb_false_iff, member_In in Ef.
  destruct (be_position e) eqn:Ep; [done|]. destruct (be_openOrders e) eqn:Eb; [|done].
  run_eff. set (filled := nsum (map _ (be_chain e))).
  destruct ((negb (is_finite filled) || nltb filled (num_of_Z 0)) ||
            nltb (nadd (accounted_quantity db i) tolerance) filled) eqn:Ev; cbn beta iota.
  { apply (outcome_unreleased db c _ (appendClaimDiagnostic now calm _ _ _) (fun _ => None));
      [done..|apply diagnostic_holds|].
    intros order' [_ (_ & _ & _ & _ & H1 & H2 & H3 & _)]. fold filled in H1, H2, H3.
    by rewrite H1, H2, H3 in Ev. }
  apply orb_false_iff in Ev as [Ev Ev3]. apply orb_false_iff in Ev as [Ev1%negb_false_iff Ev2].
  pose proof (commit_exact db i c e order filled (accounted_quantity db i) Hnd Hc Ho) as Hcommit.
  cbv zeta in Hcommit. unfold outcome. unfold calm in Hcommit.
  destruct (transaction _ db) as [r db']. destruct Hcommit as [[(H1 & H2 & H3) Hr]|[Hn Hu]].
  - left. exists order. split; [|done]. split; [done|]. unfold conclusive. fold filled.
    rewrite Ep, Eb. split; [|naive_solver].
    intros o Hin. apply (proj1 (existsb_false_In _ _)) with (x := o) in Ech; [|done].
    apply orb_false_iff in Ech as [E1%negb_false_iff E2%negb_false_iff].
    by split; apply String.eqb_eq.
  - right. split; [|done]. intros order' [_ (_ & _ & _ & _ & _ & _ & H3 & H1 & H2)].
    by apply Hn.
Qed.

Lemma considered_position db c :
  (forall p, position_of db c = Some p -> tp_status p <> "open" /\ tp_status p <> "closing") <->
  bool_decide (option_map tp_status (position_of db c) = Some "open") ||
  bool_decide (option_map tp_status (position_of db c) = Some "closing") = false.
Proof.
  rewrite orb_false_iff, !bool_decide_eq_false. destruct (position_of db c) as [p|]; cbn.
  - split; [intros H; destruct (H p eq_refl); split; congruence|].
    intros [H1 H2] p' [= <-]. split; congruence.
  - split; [by split|by intros ? ? [=]].
Qed.

(** C7. A release on broker evidence is exactly justified: without
    interference, an unreleased claim is released - that row alone, naming the
    final broker status - if and only if the reported status is terminal, an
    UNRESOLVED or filled-but-unattached claim is only taken with the
    operator's permission, its position is not open, the broker lookups
    succeed along a bounded acyclic replacement chain of buys of the same
    symbol ending in a final order, the broker holds no position and no
    working buy, every fill of the chain is accounted for locally, and no
    active position or other working buy is recorded. Every other outcome,
    failed lookups included, leaves the claim unreleased. *)
Theorem terminal_release_exact orderIntentId brokerStatus allowUnresolved db c
    (Hids : NoDup (map cl_id (claims db)))
    (Hc : find_first (by_intent orderIntentId) (claims db) = Some c)
    (Hopen : cl_releasedAt c = None) :
  let symbol := symbol_of db (cl_securityId c) in
  outcome db c (fun order =>
    release_considered db c brokerStatus allowUnresolved /\
    exists e, gather_broker_evidence (broker_order_by_id := by_broker_id)
        (broker_order_by_client_id := by_client_id) (broker_position := position)
        (broker_open_buys := open_buys) (cl_tradingAccountId c) symbol
        (latest_broker_order db orderIntentId) (intent_of db c ≫= oi_clientOrderId) = Ok e /\
      be_order e = order /\ conclusive db orderIntentId c symbol e)
  (releaseConfirmedTerminalEntryClaim now calm (broker_order_by_id := by_broker_id)
    (broker_order_by_client_id := by_client_id) (broker_position := position)
    (broker_open_buys := open_buys) orderIntentId brokerStatus allowUnresolved db).
Proof.
  cbv zeta. pose proof (proj1 (find_first_some _ _ _ _ Hc)) as Hin.
  assert (Hu : unreleased (cl_id c) db) by by apply unreleased_now.
  unfold releaseConfirmedTerminalEntryClaim. fold (normalized_status brokerStatus).
  destruct (isTerminalBrokerOrderStatus (normalized_status brokerStatus)) eqn:Et; cbn [negb].
  2: { right. split; [intros order [[H _] _]; congruence|done]. }
  change ((get ≫= ?k) db) with (k db db). cbn beta. rewrite Hc.
  rewrite Hopen, bool_decide_true by done. cbn [negb].
  destruct (String.eqb (cl_status c) "UNRESOLVED" && negb allowUnresolved) eqn:Eu.
  { apply andb_true_iff in Eu as [Eu%String.eqb_eq Ea%negb_true_iff].
    right. split; [intros order [(_ & H & _) _]; by rewrite H in Ea|done]. }
  destruct (_ && bool_decide (cl_trackedPositionId c = None) && negb allowUnresolved) eqn:Ef.
  { apply andb_true_iff in Ef as [Ef Ea%negb_true_iff].
    apply andb_true_iff in Ef as [Ef%String.eqb_eq Et'%bool_decide_eq_true].
    pose proof (holds_run db c _ (transition_holds (cl_id c) orderIntentId "FILLED_AWAITING_POSITION"
      "BROKER_ORDER_FILLED_AWAITING_POSITION"
      (Some (JObj [("brokerStatus", JStr (normalized_status brokerStatus))]))) Hids Hin Hopen) as Hh.
    change ((await calm 70 ≫= ?k) db) with (k tt db). cbn beta. unfold outcome.
    destruct (transitionEntryExposureClaim _ _ _ _ _ _ db) as [r db'].
    right. split; [intros order [(_ & _ & H & _) _]; by rewrite H in Ea|done]. }
  destruct (_ || _) eqn:Ep.
  { right. split; [|done]. intros order [(_ & _ & _ & H) _].
    apply considered_position in H. by rewrite H in Ep. }
  change ((await calm 71 ≫= ?k) db) with (k tt db). cbn beta.
  change ((asks ?f ≫= ?k) db) with (k (f db) db). cbn beta.
  change ((await calm 72 ≫= ?k) db) with (k tt db). cbn beta.
  destruct (gather_broker_evidence _ _ _ _) as [e|err].
  2: { apply (outcome_unreleased db c _ _ (fun _ => None)); [done..|apply diagnostic_holds|].
       by intros order [_ (e & ? & _)]. }
  pose proof (judge_exact db orderIntentId c (symbol_of db (cl_securityId c)) e Hids Hin Hopen) as Hj.
  unfold outcome in *. destruct (judge_broker_evidence _ _ _ _ _ _ db) as [r db'].
  destruct Hj as [(order & [Ho Hcon] & Hr)|[Hn Hh]].
  - left. exists order. split; [|done]. split; [|by exists e]. split; [done|].
    pose proof (proj2 (considered_position db c) Ep) as Hpos.
    split; [|split; [|done]].
    + intros Hs. rewrite Hs in Eu. cbn in Eu. by apply negb_false_iff.
    + intros Hs Ht. rewrite Hs, Ht, bool_decide_true in Ef by done. cbn in Ef. by apply negb_false_iff.
  - right. split; [|done]. intros order [_ (e' & [= <-] & Ho & Hcon)]. by apply (Hn order).
Qed.
End Broker.
End Serial.

(** * The lifecycle of a claim, under interference *)

Definition stage (c : EntryExposureClaim) : nat :=
  match claim_status_of (cl_status c) with Some s => claim_rank s | None => 0 end.

(** The status is known, and is RELEASED exactly when the release is dated. *)
Definition consistent (c : EntryExposureClaim) : Prop :=
  exists s, claim_status_of (cl_status c) = Some s /\ (s = RELEASED <-> cl_releasedAt c <> None).

(** What may happen to a claim row: its identity is fixed, an attached position
    is never replaced, a released row keeps its release for ever, and
    otherwise the claim only moves on. *)
Definition evolves (c c' : EntryExposureClaim) : Prop :=
  (cl_id c' = cl_id c /\ cl_tradingAccountId c' = cl_tradingAccountId c /\
   cl_securityId c' = cl_securityId c /\ cl_orderIntentId c' = cl_orderIntentId c /\
   cl_ownerKey c' = cl_ownerKey c /\ cl_acquiredAt c' = cl_acquiredAt c) /\
  (forall p, cl_trackedPositionId c = Some p -> cl_trackedPositionId c' = Some p) /\
  (cl_releasedAt c <> None -> cl_status c' = cl_status c /\
     cl_releasedAt c' = cl_releasedAt c /\ cl_releaseReason c' = cl_releaseReason c) /\
  (consistent c -> consistent c' /\ (stage c <= stage c')%nat).

(** No claim is lost and every claim evolves. *)
Definition progress (db db' : Db) : Prop :=
  NoDup (map cl_id (claims db)) ->
  NoDup (map cl_id (claims db')) /\
  forall c, In c (claims db) -> exists c', In c' (claims db') /\ evolves c c'.

#[export] Instance evolves_preorder : PreOrder evolves.
Proof.
  split.
  - intros c. unfold evolves. naive_solver.
  - intros x y z (Hi & Hp & Hr & Hs) (Hi' & Hp' & Hr' & Hs').
    split; [|split; [|split]].
    + repeat match goal with H : _ /\ _ |- _ => destruct H end.
      split; [congruence|]. split; [congruence|]. split; [congruence|].
      split; [congruence|]. split; congruence.
    + auto.
    + intros H. destruct (Hr H) as (E1 & E2 & E3). rewrite <- E2 in H.
      destruct (Hr' H) as (E4 & E5 & E6). split; [congruence|]. split; congruence.
    + intros H. destruct (Hs H) as [H1 L1]. destruct (Hs' H1) as [H2 L2]. split; [done|lia].
Qed.

#[export] Instance progress_preorder : PreOrder progress.
Proof.
  split.
  - intros db H. split; [done|]. intros c Hc. exists c. by split.
  - intros d1 d2 d3 H12 H23 Hnd. destruct (H12 Hnd) as [Hnd2 E12].
    destruct (H23 Hnd2) as [Hnd3 E23]. split; [done|]. intros c Hc.
    destruct (E12 c Hc) as (c2 & Hc2 & Ev2). destruct (E23 c2 Hc2) as (c3 & Hc3 & Ev3).
    exists c3. split; [done|]. by transitivity c2.
Qed.

Lemma same_claims_progress db db' : claims db' = claims db -> progress db db'.
Proof. intros E Hnd. rewrite E. split; [done|]. intros c Hc. exists c. by split. Qed.

Section Lifecycle.
Context {P : Prisma} `{!PrismaLaws P}.
Variables (now : Z) (interfere : nat -> Db -> Db).
Hypothesis interfere_progress : forall n db, progress db (interfere n db).

Abbreviation progresses := (moves progress).

Lemma await_progress n : progresses (await interfere n).
Proof. apply moves_modify. apply interfere_progress. Qed.
Lemma asks_progress {A} (f : Db -> A) : progresses (asks f).
Proof. apply moves_asks. typeclasses eauto. Qed.
Lemma add_event_progress i t e : progresses (add_event now i t e).
Proof. apply moves_modify. intros db. by apply same_claims_progress. Qed.

Lemma update_at_progress w d db :
  (forall r, In r (claims db) -> w r = true -> evolves r (apply_data d r)) ->
  progress db (snd (update_claims w d db)).
Proof.
  intros Hw Hnd. unfold update_claims. destruct (position_taken w d db).
  { split; [done|]. intros c Hc. exists c. by split. }
  rewrite update_many_eq. cbn [snd set_claims claims]. split.
  - rewrite map_map. rewrite (map_ext _ cl_id); [done|]. intros r. by destruct (w r).
  - intros c Hc. exists (if w c then apply_data d c else c). split; [by apply (in_map (fun r => if w r then apply_data d r else r))|].
    destruct (w c) eqn:E; [by apply Hw|done].
Qed.

Lemma update_progress w d :
  (forall r, w r = true -> evolves r (apply_data d r)) -> progresses (update_claims w d).
Proof. intros Hw db. apply update_at_progress. auto. Qed.

Lemma create_claim_progress a s i p k st t ev j : progresses (create_claim now a s i p k st t ev j).
Proof.
  intros db Hnd. unfold create_claim. destruct (existsb _ _); cbn [snd set_claims set_claimEvents claims].
  - split; [done|]. intros c Hc. exists c. by split.
  - split.
    + rewrite map_app. cbn [map cl_id]. apply NoDup_app. split; [done|]. split; [|apply NoDup_singleton].
      intros x Hx Hy. apply list_elem_of_singleton in Hy as ->.
      apply list_elem_of_In in Hx. by apply next_id_fresh in Hx.
    + intros c Hc. exists c. split; [apply in_app_iff; by left|done].
Qed.

(** ** The updates *)

Lemma stage_le_6 c : (stage c <= 6)%nat.
Proof. unfold stage. destruct (claim_status_of _) as [[]|]; cbn; lia. Qed.

Lemma stage_of s c : claim_status_of (cl_status c) = Some s -> stage c = claim_rank s.
Proof. unfold stage. by intros ->. Qed.

Lemma unreleased_status (s : EntryExposureClaimStatus) (t : option Z) :
  s <> RELEASED -> t = None -> (s = RELEASED <-> t <> None).
Proof. naive_solver. Qed.

(** An update of an unreleased row that leaves its position alone or sets it. *)
Lemma unreleased_evolves c d s :
  cl_releasedAt c = None ->
  (forall p, cl_trackedPositionId c = Some p -> cl_trackedPositionId (apply_data d c) = Some p) ->
  claim_status_of (cl_status (apply_data d c)) = Some s ->
  (consistent c -> (s = RELEASED <-> cl_releasedAt (apply_data d c) <> None) /\
     (stage c <= claim_rank s)%nat) ->
  evolves c (apply_data d c).
Proof.
  intros Ho Hp Hs Hc. split; [done|]. split; [done|]. split; [by rewrite Ho|].
  intros Hco. destruct (Hc Hco) as [H1 H2]. split; [by exists s|].
  by rewrite (stage_of s (apply_data d c) Hs).
Qed.

Lemma diagnosed_evolves c : evolves c (apply_data (data_diagnosed now) c).
Proof. split; [done|]. split; [done|]. split; [done|]. by intros H. Qed.

Lemma released_evolves c reason :
  cl_releasedAt c = None -> evolves c (apply_data (data_released now reason) c).
Proof.
  intros Ho. apply (unreleased_evolves c _ RELEASED); [done|done|done|].
  intros _. split; [done|apply stage_le_6].
Qed.

Lemma unresolved_evolves c :
  cl_releasedAt c = None -> evolves c (apply_data (data_unresolved now) c).
Proof.
  intros Ho. apply (unreleased_evolves c _ UNRESOLVED); [done|done|done|].
  intros _. split; [by apply unreleased_status|apply stage_le_6].
Qed.

Lemma transitioned_evolves c status :
  cl_releasedAt c = None -> isEntryExposureClaimStatus status = true -> status <> "RELEASED" ->
  canTransitionEntryExposureClaim (cl_status c) status = true ->
  evolves c (apply_data (data_status status) c).
Proof.
  intros Ho Hs Hr Ht. apply isEntryExposureClaimStatus_of in Hs as [s Hs].
  pose proof (claim_status_of_some _ _ Hs) as ->.
  apply (unreleased_evolves c _ s); [done|done|done|]. cbn [cl_releasedAt apply_data data_status set_releasedAt].
  intros (f & Hf & _). pose proof (claim_status_of_some _ _ Hf) as E. rewrite E in Ht.
  rewrite (stage_of f c Hf). split; [|by apply claim_step_rank].
  apply unreleased_status; [|done]. by intros ->.
Qed.

Lemma attached_evolves c p :
  cl_releasedAt c = None -> cl_status c <> "UNRESOLVED" ->
  (forall q, cl_trackedPositionId c = Some q -> q = p) ->
  evolves c (apply_data (data_attached p) c).
Proof.
  intros Ho Hu Hp. apply (unreleased_evolves c _ POSITION_OPEN); [done| |done|].
  - intros q Hq. by rewrite (Hp q Hq).
  - intros (f & Hf & Hr). rewrite (stage_of f c Hf). cbn [apply_data cl_releasedAt data_attached
      set_releasedAt from_option id]. split; [by apply unreleased_status|].
    pose proof (claim_status_of_some _ _ Hf) as E.
    destruct f; cbn; try lia; [by rewrite E in Hu|]. by apply (proj1 Hr) in Ho.
Qed.

Lemma still_row c r : still c r = true ->
  cl_id r = cl_id c /\ cl_status r = cl_status c /\ cl_releasedAt r = None.
Proof.
  unfold still, by_id. rewrite !andb_true_iff. intros [[H1%Z.eqb_eq H2%String.eqb_eq] H3].
  by apply bool_decide_eq_true in H3.
Qed.

Lemma still_progress c d :
  (forall r, cl_releasedAt r = None -> cl_status r = cl_status c -> evolves r (apply_data d r)) ->
  progresses (update_claims (still c) d).
Proof. intros Hd. apply update_progress. intros r (_ & Hs & Hr)%still_row. by apply Hd. Qed.

Lemma still_released c reason : progresses (update_claims (still c) (data_released now reason)).
Proof. apply still_progress. intros r Hr _. by apply released_evolves. Qed.
Lemma still_unresolved c : progresses (update_claims (still c) (data_unresolved now)).
Proof. apply still_progress. intros r Hr _. by apply unresolved_evolves. Qed.
Lemma any_diagnosed w : progresses (update_claims w (data_diagnosed now)).
Proof. apply update_progress. intros r _. apply diagnosed_evolves. Qed.

Hint Resolve await_progress asks_progress add_event_progress create_claim_progress
  still_released still_unresolved any_diagnosed : moves.
Hint Extern 1 (moves _ (find_claim _)) => apply asks_progress : moves.
Hint Extern 1 (moves _ (last_event_of_type _ _)) => apply asks_progress : moves.
Hint Extern 1 (moves _ (last_event_where _ _)) => apply asks_progress : moves.

(** ** The operations *)

Lemma require_progress i u : progresses (requireEntryExposureClaim i u).
Proof. unfold requireEntryExposureClaim. solve_moves. Qed.
Hint Resolve require_progress : moves.

Lemma transition_progress i status t e :
  status <> "RELEASED" -> progresses (transitionEntryExposureClaim now interfere i status t e).
Proof.
  intros Hr. unfold transitionEntryExposureClaim. moves_step; [solve_moves|]. cbv zeta.
  destruct (isEntryExposureClaimStatus status) eqn:Es; cbn [negb]; [|solve_moves].
  destruct (String.eqb _ status); [solve_moves|].
  destruct (canTransitionEntryExposureClaim _ status) eqn:Et; cbn [negb]; [|solve_moves].
  moves_step; [solve_moves|]. moves_step; [|solve_moves].
  apply still_progress. intros r Ho E. apply transitioned_evolves; [done..|by rewrite E].
Qed.

Lemma diagnostic_progress i t e : progresses (appendClaimDiagnostic now interfere i t e).
Proof. unfold appendClaimDiagnostic. solve_moves. Qed.

Lemma unresolved_progress i t e : progresses (markClaimUnresolved now interfere i t e).
Proof. unfold markClaimUnresolved. solve_moves. Qed.
Hint Resolve diagnostic_progress unresolved_progress : moves.

Lemma filled_progress i t e :
  progresses (transitionEntryExposureClaim now interfere i "FILLED_AWAITING_POSITION" t e).
Proof. by apply transition_progress. Qed.
Hint Resolve filled_progress : moves.

Lemma missing_order_progress i k s :
  progresses (recordMissingLocalBrokerOrderDiagnostic now interfere i k s).
Proof. unfold recordMissingLocalBrokerOrderDiagnostic. solve_moves. Qed.

Lemma release_unsubmitted_progress i r :
  progresses (releaseUnsubmittedEntryExposureClaim now interfere i r).
Proof.
  unfold releaseUnsubmittedEntryExposureClaim, releaseUnsubmittedEntryExposureClaimLocked. solve_moves.
Qed.

Lemma acquire_progress a y k m :
  progresses m -> progresses (acquireEntryExposureClaim now interfere a y k m).
Proof. intros Hm. unfold acquireEntryExposureClaim, refuse_legacy_exposure. solve_moves. Qed.

Section BrokerReads.
Context (by_broker_id : Z -> string -> res (option AlpacaOrder))
  (by_client_id : Z -> string -> res (option AlpacaOrder))
  (position : Z -> string -> res (option AlpacaPosition))
  (open_buys : Z -> string -> res (list AlpacaOrder)).

Lemma release_terminal_progress i s u :
  progresses (releaseConfirmedTerminalEntryClaim now interfere
    (broker_order_by_id := by_broker_id) (broker_order_by_client_id := by_client_id)
    (broker_position := position) (broker_open_buys := open_buys) i s u).
Proof.
  unfold releaseConfirmedTerminalEntryClaim, judge_broker_evidence, commit_terminal_release.
  solve_moves.
Qed.
Hint Resolve release_terminal_progress : moves.

Lemma release_closed_progress p :
  progresses (releaseEntryExposureClaimForClosedPosition now interfere
    (broker_order_by_id := by_broker_id) (broker_order_by_client_id := by_client_id)
    (broker_position := position) (broker_open_buys := open_buys) p).
Proof. unfold releaseEntryExposureClaimForClosedPosition. solve_moves. Qed.

Lemma release_adopted_progress c u :
  progresses (releaseClosedAdoptedPositionClaim now interfere
    (broker_position := position) (broker_open_buys := open_buys) c u).
Proof. unfold releaseClosedAdoptedPositionClaim, commit_adopted_release. solve_moves. Qed.
End BrokerReads.

(** While the attachment holds the advisory lock of the account and security
    (program points 51 to 57) no other session releases a claim: every release
    takes the same lock. *)
Definition lock_respected : Prop :=
  forall n id db, (51 <= n <= 57)%nat -> unreleased id db -> unreleased id (interfere n db).

Lemma conflict_update_progress c db (m : eff Db (option EntryExposureClaim)) :
  lock_respected -> In c (claims db) -> cl_releasedAt c = None -> progresses m ->
  progress db (snd ((_ ← await interfere 54;
    _ ← update_claims (by_id (cl_id c)) (data_unresolved now); m) db)).
Proof.
  intros Hl Hc Ho Hm Hnd.
  enough (H : progress db (snd ((_ ← update_claims (by_id (cl_id c)) (data_unresolved now); m)
    (interfere 54 db)))) by by apply H.
  transitivity (interfere 54 db); [apply interfere_progress|].
  assert (Hu : unreleased (cl_id c) (interfere 54 db))
    by (apply Hl; [lia|]; by apply unreleased_now).
  unfold mbind, eff_bind.
  pose proof (update_at_progress (by_id (cl_id c)) (data_unresolved now) (interfere 54 db)) as Hp.
  destruct (update_claims _ _ _) as [[x|e] s']; cbn [snd] in *.
  - transitivity s'; [apply Hp|apply Hm].
    intros r Hr E. apply unresolved_evolves, Hu; [done|]. by apply Z.eqb_eq.
  - apply Hp. intros r Hr E. apply unresolved_evolves, Hu; [done|]. by apply Z.eqb_eq.
Qed.

(** The state reached from here only depends on the rest of the program. *)
Ltac whole_program :=
  match goal with |- progress _ (snd (?m _)) =>
    let H := fresh "H" in enough (H : moves progress m) by apply H end;
  solve_moves.

Lemma attach_progress a s p y e :
  lock_respected -> progresses (attachEntryExposureClaimToPosition now interfere a s p y e).
Proof.
  intros Hl. unfold attachEntryExposureClaimToPosition. moves_step; [solve_moves|].
  intros db. change ((find_claim ?w ≫= ?k) db) with (k (find_first w (claims db)) db). cbn beta zeta.
  destruct (find_first _ (claims db)) as [c|] eqn:Ec.
  2: { whole_program. }
  apply find_first_some in Ec as [Hc Hu].
  assert (Ho : cl_releasedAt c = None).
  { unfold unreleased_for in Hu. apply andb_true_iff in Hu as [_ Hu]. by apply bool_decide_eq_true in Hu. }
  destruct (match e with Some _ => _ | None => _ end).
  { whole_program. }
  destruct (String.eqb (cl_status c) "UNRESOLVED") eqn:Es.
  { whole_program. }
  destruct (_ && _).
  { whole_program. }
  destruct (match cl_trackedPositionId c with Some _ => _ | None => _ end) eqn:Et.
  { apply (conflict_update_progress c db _ Hl Hc Ho). solve_moves. }
  match goal with |- progress _ (snd (?m _)) => enough (H : progresses m) by apply H end.
  moves_step; [solve_moves|]. moves_step; [|solve_moves].
  apply update_progress. intros r [(_ & Er & Hr)%still_row Hp%bool_decide_eq_true]%andb_true_iff.
  apply attached_evolves; [done|rewrite Er; by apply String.eqb_neq|].
  intros q Hq. rewrite Hp in Hq. rewrite Hq in Et. apply negb_false_iff in Et. lia.
Qed.
End Lifecycle.

(** Calls whose surroundings respect the lifecycle: other sessions evolve the
    claims and respect the attachment's lock, the caller's insertion of the
    intent leaves the claims alone, and no caller requests RELEASED as a
    transition. *)
Definition lawful (c : session_call) : Prop :=
  (forall n db, progress db (sc_interfere c n db)) /\
  lock_respected (sc_interfere c) /\
  match sc_op c with
  | OpAcquire _ _ _ m => moves progress m
  | OpTransition _ status _ _ => status <> "RELEASED"
  | _ => True
  end.

(** C8. No claim is ever lost, taken over or moved back: across any sequence
    of service calls, interleaved at every statement with other sessions and
    with any broker answers, each claim keeps its account, security, intent
    and owner, never changes an attached position, never returns to an
    earlier stage, and once released keeps its release for ever. *)
Theorem claim_lifecycle {P : Prisma} `{!PrismaLaws P} calls db
    (Hcalls : forall c, In c calls -> lawful c) (Hids : NoDup (map cl_id (claims db))) :
  forall c, In c (claims db) -> exists c',
    In c' (claims (fold_left (fun db c => run_call c db) calls db)) /\ evolves c c'.
Proof.
  enough (H : progress db (fold_left (fun db c => run_call c db) calls db)) by by apply H.
  clear Hids. revert db. induction calls as [|c calls IH]; intros db; [done|]. cbn [fold_left].
  transitivity (run_call c db); [|apply IH; intros c' Hc'; apply Hcalls; by right]. clear IH.
  destruct (Hcalls c (or_introl eq_refl)) as (Hi & Hl & Ho).
  unfold run_call. destruct (sc_op c).
  - apply (moves_transaction progress). by apply acquire_progress.
  - by apply transition_progress.
  - by apply release_unsubmitted_progress.
  - apply (moves_transaction progress). by apply attach_progress.
  - by apply release_terminal_progress.
  - by apply release_closed_progress.
  - by apply release_adopted_progress.
  - by apply diagnostic_progress.
  - by apply missing_order_progress.
  - by apply unresolved_progress.
Qed.

(** * Concrete inputs *)

#[local] Existing Instance in_order.

(** The sample database after the intent and its claim were inserted, and
    after the intent alone. *)
Definition claimless_db : Db := snd (insert_intent sample_db).
Definition pending_claim : EntryExposureClaim :=
  {| cl_id := 1; cl_tradingAccountId := 1; cl_securityId := 7; cl_orderIntentId := Some 5;
     cl_trackedPositionId := None; cl_ownerKey := "order-intent:5"; cl_status := "ENTRY_PENDING";
     cl_acquiredAt := 1000; cl_releasedAt := None; cl_releaseReason := None;
     cl_lastDiagnosedAt := None |}.
Definition claimed_db : Db := set_claims (fun _ => [pending_claim]) claimless_db.

Lemma unsubmitted_release_exact_witness :
  never_exposed claimed_db 5 pending_claim /\
  fst (releaseUnsubmittedEntryExposureClaim (H := in_order) 2000 calm 5 "OPERATOR" claimed_db) =
    Ok (Some (apply_data (data_released 2000 "OPERATOR") pending_claim)).
Proof.
  assert (Hids : NoDup (map cl_id (claims claimed_db))) by (vm_compute; apply NoDup_singleton).
  assert (Hev : NoDup (map ce_id (claimEvents claimed_db))) by (vm_compute; constructor).
  assert (Hn : never_exposed (P := in_order) claimed_db 5 pending_claim).
  { apply (release_refused_exact (P := in_order)); [exact Hev|reflexivity|reflexivity]. }
  split; [exact Hn|].
  pose proof (unsubmitted_release_exact (P := in_order) 2000 5 "OPERATOR" claimed_db pending_claim
    Hids Hev eq_refl eq_refl) as H.
  destruct (releaseUnsubmittedEntryExposureClaim _ _ _ _ _) as [r db'].
  exact (proj1 (proj1 H Hn)).
Defined.

Lemma acquisition_exact_witness :
  fst (transaction (acquireEntryExposureClaim (H := in_order) 1000 calm 1 " aapl " "order-intent:5"
         insert_intent) sample_db) =
    Ok {| aq_intent := sample_intent; aq_duplicate := false; aq_claimId := 1 |}.
Proof.
  pose proof (acquisition_exact (P := in_order) 1000 1 " aapl " "order-intent:5" insert_intent sample_intent
    sample_db claimless_db sample_security eq_refl (fun c Hc => match Hc with end) eq_refl eq_refl
    (fun c Hc => match Hc with end)) as H.
  cbv zeta in H. destruct (transaction _ sample_db) as [r db'].
  refine (proj1 (proj1 H _)).
  repeat split; intros x Hx; destruct Hx.
Defined.

(** A submitted order the broker canceled without a fill. *)
Definition canceled_order : AlpacaOrder :=
  {| rawo_id := "b-1"; rawo_client_order_id := "client-5"; rawo_symbol := "AAPL"; rawo_side := "buy";
     rawo_type := "market"; rawo_time_in_force := "day"; rawo_qty := Some (RawText "2");
     rawo_notional := None; rawo_limit_price := None; rawo_stop_price := None;
     rawo_status := "canceled"; rawo_submitted_at := "2026-01-05T15:00:00Z";
     rawo_filled_qty := Some (RawText "0"); rawo_filled_avg_price := None;
     rawo_trail_price := None; rawo_trail_percent := None; rawo_replaced_by := None |}.
Definition submitted_claim : EntryExposureClaim :=
  apply_data (data_status "BROKER_ORDER_ACTIVE") pending_claim.
Definition submitted_db : Db := set_claims (fun _ => [submitted_claim]) claimless_db.

Lemma terminal_release_exact_witness :
  fst (releaseConfirmedTerminalEntryClaim 2000 calm
    (broker_order_by_id := fun _ _ => Ok None)
    (broker_order_by_client_id := fun _ _ => Ok (Some canceled_order))
    (broker_position := fun _ _ => Ok None) (broker_open_buys := fun _ _ => Ok [])
    5 "CANCELLED" false submitted_db) =
  Ok (Some (released_by_broker 2000 canceled_order submitted_claim)).
Proof.
  pose proof (terminal_release_exact 2000 (fun _ _ => Ok None) (fun _ _ => Ok (Some canceled_order))
    (fun _ _ => Ok None) (fun _ _ => Ok []) 5 "CANCELLED" false submitted_db submitted_claim
    ltac:(vm_compute; apply NoDup_singleton) eq_refl eq_refl) as H.
  unfold outcome in H. destruct (releaseConfirmedTerminalEntryClaim _ _ _ _ _ _) as [r db'].
  destruct H as [(order & [_ (e & He & Ho & _)] & Hr & _)|[Hn _]].
  - injection He as <-. injection Ho as <-. exact Hr.
  - destruct (Hn (Some canceled_order)). split.
    + split; [reflexivity|]. split; [discriminate|]. split; [discriminate|]. intros p Hp. discriminate Hp.
    + eexists. split; [reflexivity|]. split; [reflexivity|]. split.
      * intros o [<-|[]]. split; reflexivity.
      * split; [exists canceled_order; split; [reflexivity|right; by left]|].
        repeat split; intros x Hx; destruct Hx.
Defined.

(** The sample sequence from a database that already holds a claim. *)
Lemma claim_lifecycle_witness :
  exists c', In c' (claims (fold_left (fun db c => run_call c db) sample_calls claimed_db)) /\
    evolves pending_claim c'.
Proof.
  apply claim_lifecycle.
  - intros c Hc. repeat destruct Hc as [<-|Hc]; [..|destruct Hc];
      (split; [intros n db; cbn; reflexivity|]; split; [intros n id db _ Hu; exact Hu|]);
      first [exact I | discriminate | intros db; by apply same_claims_progress].
  - vm_compute. apply NoDup_singleton.
  - by left.
Defined.
