(* ===== verification/ExitWorld.v ===== *)
(** The state the exit side works on: the database, the exit states of the
    tracked positions, the recorded system events and the orders handed to the
    broker adapter; the statements the exit services run on it; and what they
    rely on from other services. *)

From Stdlib Require Import ZArith.
From Stdlib Require Import Strings.String.
From Stdlib Require Import Floats.SpecFloat.
From stdpp Require Import base list strings.
From S2P Require Import Prelude JsNumber JsValue JsDate Prisma OrderStatus DeliveryEvidence Schema BrokerAccount.

Open Scope string_scope.
Open Scope Z_scope.

(** * State *)

Record PositionExitState := {
  es_id : Z;
  es_trackedPositionId : Z;
  es_exitManagementModeSnapshot : string;
  es_status : string;
  es_targetUnlocked : bool;
  es_targetUnlockedAt : option Z;
  es_targetUnlockedPrice : option num;
  es_targetUnlockedPnlPct : option num;
  es_highWaterMark : option num;
  es_trailStopPrice : option num;
  es_exitProfileKey : option string;
  es_exitMode : option string;
  es_takeProfitBehavior : option string;
  es_targetPct : option num;
  es_trailingStopPct : option num;
  es_trailBroker : option string;
  es_trailBrokerOrderId : option string;
  es_trailClientOrderId : option string;
  es_trailOrderStatus : option string;
  es_rawBrokerJson : option json;
  es_attentionRequired : bool;
  es_attentionCode : option string;
  es_attentionMessage : option string;
  es_attentionAt : option Z;
  es_attentionClearedAt : option Z
}.

Inductive Severity := INFO | WARNING | ERROR | CRITICAL.

Record SystemEvent := {
  se_type : string;
  se_entityType : string;
  se_entityId : string;
  se_tradingAccountId : option Z;
  se_severity : Severity;
  se_message : option string;
  se_payload : json
}.

(** The exit request of the broker adapter. *)
Record VerifiedAlpacaExitOrderRequest := {
  xr_symbol : string;
  xr_side : string;
  xr_position_intent : string;
  xr_type : string;
  xr_time_in_force : string;
  xr_qty : string;
  xr_client_order_id : string;
  xr_trail_percent : option string
}.

(** [sent] lists the exit requests handed to the broker adapter, with their
    account, in order. *)
Record ExitWorld := {
  xw_db : Db;
  exitStates : list PositionExitState;
  systemEvents : list SystemEvent;
  sent : list (Z * VerifiedAlpacaExitOrderRequest)
}.

Definition set_db (f : Db -> Db) (w : ExitWorld) : ExitWorld :=
  {| xw_db := f (xw_db w); exitStates := exitStates w; systemEvents := systemEvents w; sent := sent w |}.
Definition set_exitStates (f : list PositionExitState -> list PositionExitState) (w : ExitWorld) : ExitWorld :=
  {| xw_db := xw_db w; exitStates := f (exitStates w); systemEvents := systemEvents w; sent := sent w |}.
Definition set_systemEvents (f : list SystemEvent -> list SystemEvent) (w : ExitWorld) : ExitWorld :=
  {| xw_db := xw_db w; exitStates := exitStates w; systemEvents := f (systemEvents w); sent := sent w |}.
Definition set_sent (f : list (Z * VerifiedAlpacaExitOrderRequest) -> list (Z * VerifiedAlpacaExitOrderRequest))
    (w : ExitWorld) : ExitWorld :=
  {| xw_db := xw_db w; exitStates := exitStates w; systemEvents := systemEvents w; sent := f (sent w) |}.

(** * What other services and the broker provide *)

(** The broker reads of the exit path. Every lookup may answer differently at
    each program point and in each state, and may fail. *)
Class ExitBroker := {
  order_by_client_id : nat -> Z -> string -> ExitWorld -> res (option AlpacaOrder);
  order_by_id : Z -> string -> ExitWorld -> res (option AlpacaOrder);
  position_by_symbol : Z -> string -> ExitWorld -> res (option AlpacaPosition);
  open_orders : Z -> ExitWorld -> res (list AlpacaOrder);
  (** The answer to an exit request handed to the adapter. *)
  submit_answer : Z -> VerifiedAlpacaExitOrderRequest -> ExitWorld -> res AlpacaOrder
}.

(** Operational attention and the live-write approval, which keep state of
    their own: they may fail and may record events, nothing else here. *)
Class ExitServices := {
  attention_open : string -> ExitWorld -> bool;
  openOrObserveOperationalAttention : string -> string -> Severity -> string -> json -> eff ExitWorld unit;
  open_exit_attentions : Z -> Z -> ExitWorld -> list (Z * Z * string);
  resolveOperationalAttention : Z -> Z -> string -> json -> eff ExitWorld unit;
  authorizeLiveBrokerWrite : Z -> string -> eff ExitWorld unit;
  (** [adaptivePollingCoordinator.forceAfterBroker...]: account and reason. *)
  forceAfterBrokerWrite : Z -> string -> eff ExitWorld unit;
  (** The advisory lock of a scope: acquired, held by another, or an error. *)
  try_lock : string -> ExitWorld -> option bool;
  (** The environment the process runs in. *)
  env_NODE_ENV : string;
  env_LIVE_WRITE_DEPLOYMENT_ROLE : string
}.

(** Everything but the recorded events. *)
Definition same_trading (w w' : ExitWorld) : Prop :=
  xw_db w' = xw_db w /\ exitStates w' = exitStates w /\ sent w' = sent w.

#[export] Instance same_trading_preorder : PreOrder same_trading.
Proof.
  unfold same_trading. split; [by intros w|]. intros a b c (H1 & H2 & H3) (H4 & H5 & H6).
  split; [congruence|]. split; congruence.
Qed.

Class ExitServicesLaws (S : ExitServices) : Prop := {
  attention_quiet : forall f c s m d, moves same_trading (openOrObserveOperationalAttention f c s m d);
  resolve_quiet : forall i r m d, moves same_trading (resolveOperationalAttention i r m d);
  authorize_quiet : forall a c, moves same_trading (authorizeLiveBrokerWrite a c);
  polling_quiet : forall a r, moves same_trading (forceAfterBrokerWrite a r)
}.

(** * Statements *)

Section Statements.
Context `{Prisma}.
Variable now : Z.

Definition db_asks {A} (f : Db -> A) : eff ExitWorld A := asks (fun w => f (xw_db w)).

(** [createSystemEvent] *)
Definition createSystemEvent (type entityType : string) (entityId : Z) (tradingAccountId : option Z)
    (severity : Severity) (message : option string) (payload : json) : eff ExitWorld unit :=
  modify (set_systemEvents (fun l => (l ++ [{| se_type := type; se_entityType := entityType;
    se_entityId := z_str entityId; se_tradingAccountId := tradingAccountId; se_severity := severity;
    se_message := message; se_payload := payload |}])%list)).

(** [orderIntent.updateMany]: the status when given, the block reason when
    given; the update time always moves. *)
Definition intent_data (status : option string) (blockReason : option (option string))
    (i : OrderIntent) : OrderIntent :=
  {| oi_id := oi_id i; oi_source := oi_source i; oi_symbol := oi_symbol i; oi_side := oi_side i;
     oi_orderType := oi_orderType i; oi_timeInForce := oi_timeInForce i; oi_qty := oi_qty i;
     oi_notional := oi_notional i; oi_limitPrice := oi_limitPrice i;
     oi_clientOrderId := oi_clientOrderId i; oi_status := default (oi_status i) status;
     oi_blockReason := default (oi_blockReason i) blockReason; oi_rawRequestJson := oi_rawRequestJson i;
     oi_createdAt := oi_createdAt i; oi_updatedAt := now; oi_subscriptionId := oi_subscriptionId i;
     oi_subscriptionKey := oi_subscriptionKey i; oi_trackedPositionId := oi_trackedPositionId i;
     oi_tradingAccountId := oi_tradingAccountId i;
     oi_tradingAccountSubscriptionId := oi_tradingAccountSubscriptionId i;
     oi_liveEntryAcceptanceRunId := oi_liveEntryAcceptanceRunId i;
     oi_lastSubmittedOrderSyncAt := oi_lastSubmittedOrderSyncAt i |}.

Definition update_intents (where_ : OrderIntent -> bool) (status : option string)
    (blockReason : option (option string)) : eff ExitWorld Z := fun w =>
  let '(rows, n) := update_many where_ (intent_data status blockReason) (orderIntents (xw_db w)) in
  (Ok n, set_db (set_orderIntents (fun _ => rows)) w).

Definition intent_is (id : Z) (i : OrderIntent) : bool := oi_id i =? id.

(** [orderIntent.create]: the row of [data] at the next id. *)
Definition insert_intent_row (data : Z -> OrderIntent) : eff ExitWorld OrderIntent :=
  w ← get;
  let row := data (next_id (map oi_id (orderIntents (xw_db w)))) in
  _ ← modify (set_db (set_orderIntents (fun l => l ++ [row])%list));
  mret row.

(** The unique indexes of broker orders (the migration
    scope_broker_lifecycle_identity_by_account): per account and broker, one row
    a broker order id and one a client order id. *)
Definition same_broker_order (o r : BrokerOrder) : bool :=
  bool_decide (bo_tradingAccountId r = bo_tradingAccountId o) &&
  String.eqb (bo_broker r) (bo_broker o) &&
  (String.eqb (bo_brokerOrderId r) (bo_brokerOrderId o) ||
   String.eqb (bo_clientOrderId r) (bo_clientOrderId o)).

(** [brokerOrder.create] or, on an existing row, [brokerOrder.update]: [data]
    gives the row for an id and a creation time. *)
Definition save_broker_order (existing : option Z) (data : Z -> Z -> BrokerOrder)
    : eff ExitWorld unit :=
  db ← db_asks (fun db => db);
  let duplicate (self : BrokerOrder -> bool) (row : BrokerOrder) :=
    existsb (fun r => negb (self r) && same_broker_order row r) (brokerOrders db) in
  match existing with
  | None =>
      let row := data (next_id (map bo_id (brokerOrders db))) now in
      if duplicate (fun _ => false) row then throw (PlainError "Unique constraint failed.")
      else modify (set_db (set_brokerOrders (fun l => l ++ [row])%list))
  | Some id =>
      match find_first (fun r => bo_id r =? id) (brokerOrders db) with
      | None => throw (PlainError "Record to update not found.")
      | Some r =>
          if duplicate (fun r => bo_id r =? id) (data id (bo_createdAt r)) then
            throw (PlainError "Unique constraint failed.")
          else modify (set_db (set_brokerOrders (fun l =>
                 fst (update_many (fun r => bo_id r =? id) (fun r => data id (bo_createdAt r)) l))))
      end
  end.

Definition set_positionStatus (status : string) (p : TrackedPosition) : TrackedPosition :=
  {| tp_id := tp_id p; tp_symbol := tp_symbol p; tp_side := tp_side p; tp_qty := tp_qty p;
     tp_marketValue := tp_marketValue p; tp_costBasis := tp_costBasis p;
     tp_currentPrice := tp_currentPrice p; tp_unrealizedPnLPct := tp_unrealizedPnLPct p;
     tp_status := status; tp_securityId := tp_securityId p; tp_subscriptionId := tp_subscriptionId p;
     tp_tradingAccountId := tp_tradingAccountId p;
     tp_tradingAccountSubscriptionId := tp_tradingAccountSubscriptionId p |}.

(** [trackedPosition.updateMany] from one status to another. *)
Definition position_in (id : Z) (status : string) (p : TrackedPosition) : bool :=
  (tp_id p =? id) && String.eqb (tp_status p) status.
Definition move_position (id : Z) (from to : string) : eff ExitWorld Z := fun w =>
  let '(rows, n) := update_many (position_in id from) (set_positionStatus to)
                      (trackedPositions (xw_db w)) in
  (Ok n, set_db (set_trackedPositions (fun _ => rows)) w).
End Statements.

(** A field as the JSON the evidence carries. *)
Definition json_of_raw (v : option raw_field) : json :=
  match v with Some (RawText s) => JStr s | Some (RawNumber n) => JNum n | None => JNull end.

(** A broker order as the JSON column keeps it. *)
Definition order_json (o : AlpacaOrder) : json :=
  JObj [("id", JStr (rawo_id o)); ("client_order_id", JStr (rawo_client_order_id o));
        ("symbol", JStr (rawo_symbol o)); ("side", JStr (rawo_side o)); ("type", JStr (rawo_type o));
        ("time_in_force", JStr (rawo_time_in_force o)); ("qty", json_of_raw (rawo_qty o));
        ("notional", json_of_raw (rawo_notional o)); ("limit_price", json_of_raw (rawo_limit_price o));
        ("stop_price", json_of_raw (rawo_stop_price o)); ("status", JStr (rawo_status o));
        ("submitted_at", JStr (rawo_submitted_at o)); ("filled_qty", json_of_raw (rawo_filled_qty o));
        ("filled_avg_price", json_of_raw (rawo_filled_avg_price o));
        ("replaced_by", jopt JStr (rawo_replaced_by o));
        ("trail_price", json_of_raw (rawo_trail_price o));
        ("trail_percent", json_of_raw (rawo_trail_percent o))].

Lemma event_quiet t e i a s m p : moves same_trading (createSystemEvent t e i a s m p).
Proof. apply moves_modify. by intros w. Qed.
#[export] Hint Resolve event_quiet attention_quiet resolve_quiet authorize_quiet polling_quiet : moves.

(** * What sends nothing

    Only the adapter hands requests to the broker: every statement leaves
    [sent] as it is. *)

Definition nothing_sent (w w' : ExitWorld) : Prop := sent w' = sent w.

#[export] Instance nothing_sent_preorder : PreOrder nothing_sent.
Proof. unfold nothing_sent. split; [by intros w|]. intros a b d; congruence. Qed.

Lemma moves_weaken {A} (R R' : ExitWorld -> ExitWorld -> Prop) (m : eff ExitWorld A) :
  (forall w w', R w w' -> R' w w') -> moves R m -> moves R' m.
Proof. intros Hr Hm w. by apply Hr. Qed.

Lemma quiet_sends_nothing {A} (m : eff ExitWorld A) : moves same_trading m -> moves nothing_sent m.
Proof. apply moves_weaken. by intros w w' (_ & _ & E). Qed.

Section SendNothing.
Context `{Prisma} {S : ExitServices} `{!ExitServicesLaws S}.
Variable now : Z.

Lemma event_sends t e i a s m p : moves nothing_sent (createSystemEvent t e i a s m p).
Proof. apply quiet_sends_nothing, event_quiet. Qed.
Lemma attention_sends f c s m d : moves nothing_sent (openOrObserveOperationalAttention f c s m d).
Proof. apply quiet_sends_nothing, attention_quiet. Qed.
Lemma polling_sends a r : moves nothing_sent (forceAfterBrokerWrite a r).
Proof. apply quiet_sends_nothing, polling_quiet. Qed.
Lemma update_intents_sends w st b : moves nothing_sent (update_intents now w st b).
Proof. intros x. unfold update_intents. by destruct (update_many _ _ _). Qed.
Lemma move_position_sends id from to : moves nothing_sent (move_position id from to).
Proof. intros x. unfold move_position. by destruct (update_many _ _ _). Qed.
Lemma insert_intent_sends data : moves nothing_sent (insert_intent_row data).
Proof. by intros w. Qed.
Lemma save_order_sends e data : moves nothing_sent (save_broker_order now e data).
Proof. unfold save_broker_order, db_asks. solve_moves; by apply moves_modify. Qed.
End SendNothing.
#[export] Hint Resolve event_sends attention_sends polling_sends update_intents_sends move_position_sends
  insert_intent_sends save_order_sends : moves.
