(* ===== verification/ExitState.v ===== *)
(** The exit state of a tracked position:
    services/position-exit-state.service.ts. Each operation is a statement on
    the exit-state table; the invariant [exit_states_wf] is the type the table
    keeps under all of them. *)

From Stdlib Require Import ZArith Lia.
From Stdlib Require Import Strings.String.
From Stdlib Require Import Floats.SpecFloat.
From stdpp Require Import base list strings.
From S2P Require Import Prelude JsNumber JsValue Prisma OrderStatus Schema ExitWorld.

Open Scope string_scope.
Open Scope Z_scope.

(** * Column updates *)

Record AttentionData := {
  ad_required : bool;
  ad_code : option string;
  ad_message : option string;
  ad_at : option Z;
  ad_clearedAt : option Z
}.

Record TargetData := {
  td_unlocked : bool;
  td_unlockedAt : option Z;
  td_price : option num;
  td_pnlPct : option num;
  td_highWaterMark : option num;
  td_trailStopPrice : option num;
  td_targetPct : option num;
  td_trailingStopPct : option num
}.

Definition set_status (s : string) (e : PositionExitState) : PositionExitState :=
  {| es_id := es_id e; es_trackedPositionId := es_trackedPositionId e;
     es_exitManagementModeSnapshot := es_exitManagementModeSnapshot e; es_status := s;
     es_targetUnlocked := es_targetUnlocked e; es_targetUnlockedAt := es_targetUnlockedAt e;
     es_targetUnlockedPrice := es_targetUnlockedPrice e; es_targetUnlockedPnlPct := es_targetUnlockedPnlPct e;
     es_highWaterMark := es_highWaterMark e; es_trailStopPrice := es_trailStopPrice e;
     es_exitProfileKey := es_exitProfileKey e; es_exitMode := es_exitMode e;
     es_takeProfitBehavior := es_takeProfitBehavior e; es_targetPct := es_targetPct e;
     es_trailingStopPct := es_trailingStopPct e; es_trailBroker := es_trailBroker e;
     es_trailBrokerOrderId := es_trailBrokerOrderId e; es_trailClientOrderId := es_trailClientOrderId e;
     es_trailOrderStatus := es_trailOrderStatus e; es_rawBrokerJson := es_rawBrokerJson e;
     es_attentionRequired := es_attentionRequired e; es_attentionCode := es_attentionCode e;
     es_attentionMessage := es_attentionMessage e; es_attentionAt := es_attentionAt e;
     es_attentionClearedAt := es_attentionClearedAt e |}.

Definition set_attention (a : AttentionData) (e : PositionExitState) : PositionExitState :=
  {| es_id := es_id e; es_trackedPositionId := es_trackedPositionId e;
     es_exitManagementModeSnapshot := es_exitManagementModeSnapshot e; es_status := es_status e;
     es_targetUnlocked := es_targetUnlocked e; es_targetUnlockedAt := es_targetUnlockedAt e;
     es_targetUnlockedPrice := es_targetUnlockedPrice e; es_targetUnlockedPnlPct := es_targetUnlockedPnlPct e;
     es_highWaterMark := es_highWaterMark e; es_trailStopPrice := es_trailStopPrice e;
     es_exitProfileKey := es_exitProfileKey e; es_exitMode := es_exitMode e;
     es_takeProfitBehavior := es_takeProfitBehavior e; es_targetPct := es_targetPct e;
     es_trailingStopPct := es_trailingStopPct e; es_trailBroker := es_trailBroker e;
     es_trailBrokerOrderId := es_trailBrokerOrderId e; es_trailClientOrderId := es_trailClientOrderId e;
     es_trailOrderStatus := es_trailOrderStatus e; es_rawBrokerJson := es_rawBrokerJson e;
     es_attentionRequired := ad_required a; es_attentionCode := ad_code a;
     es_attentionMessage := ad_message a; es_attentionAt := ad_at a;
     es_attentionClearedAt := ad_clearedAt a |}.

Definition set_target (t : TargetData) (e : PositionExitState) : PositionExitState :=
  {| es_id := es_id e; es_trackedPositionId := es_trackedPositionId e;
     es_exitManagementModeSnapshot := es_exitManagementModeSnapshot e; es_status := es_status e;
     es_targetUnlocked := td_unlocked t; es_targetUnlockedAt := td_unlockedAt t;
     es_targetUnlockedPrice := td_price t; es_targetUnlockedPnlPct := td_pnlPct t;
     es_highWaterMark := td_highWaterMark t; es_trailStopPrice := td_trailStopPrice t;
     es_exitProfileKey := es_exitProfileKey e; es_exitMode := es_exitMode e;
     es_takeProfitBehavior := es_takeProfitBehavior e; es_targetPct := td_targetPct t;
     es_trailingStopPct := td_trailingStopPct t; es_trailBroker := es_trailBroker e;
     es_trailBrokerOrderId := es_trailBrokerOrderId e; es_trailClientOrderId := es_trailClientOrderId e;
     es_trailOrderStatus := es_trailOrderStatus e; es_rawBrokerJson := es_rawBrokerJson e;
     es_attentionRequired := es_attentionRequired e; es_attentionCode := es_attentionCode e;
     es_attentionMessage := es_attentionMessage e; es_attentionAt := es_attentionAt e;
     es_attentionClearedAt := es_attentionClearedAt e |}.

Definition set_profile (key mode behavior : option string) (e : PositionExitState) : PositionExitState :=
  {| es_id := es_id e; es_trackedPositionId := es_trackedPositionId e;
     es_exitManagementModeSnapshot := es_exitManagementModeSnapshot e; es_status := es_status e;
     es_targetUnlocked := es_targetUnlocked e; es_targetUnlockedAt := es_targetUnlockedAt e;
     es_targetUnlockedPrice := es_targetUnlockedPrice e; es_targetUnlockedPnlPct := es_targetUnlockedPnlPct e;
     es_highWaterMark := es_highWaterMark e; es_trailStopPrice := es_trailStopPrice e;
     es_exitProfileKey := key; es_exitMode := mode;
     es_takeProfitBehavior := behavior; es_targetPct := es_targetPct e;
     es_trailingStopPct := es_trailingStopPct e; es_trailBroker := es_trailBroker e;
     es_trailBrokerOrderId := es_trailBrokerOrderId e; es_trailClientOrderId := es_trailClientOrderId e;
     es_trailOrderStatus := es_trailOrderStatus e; es_rawBrokerJson := es_rawBrokerJson e;
     es_attentionRequired := es_attentionRequired e; es_attentionCode := es_attentionCode e;
     es_attentionMessage := es_attentionMessage e; es_attentionAt := es_attentionAt e;
     es_attentionClearedAt := es_attentionClearedAt e |}.

Definition set_trail (broker brokerOrderId clientOrderId orderStatus : option string)
    (e : PositionExitState) : PositionExitState :=
  {| es_id := es_id e; es_trackedPositionId := es_trackedPositionId e;
     es_exitManagementModeSnapshot := es_exitManagementModeSnapshot e; es_status := es_status e;
     es_targetUnlocked := es_targetUnlocked e; es_targetUnlockedAt := es_targetUnlockedAt e;
     es_targetUnlockedPrice := es_targetUnlockedPrice e; es_targetUnlockedPnlPct := es_targetUnlockedPnlPct e;
     es_highWaterMark := es_highWaterMark e; es_trailStopPrice := es_trailStopPrice e;
     es_exitProfileKey := es_exitProfileKey e; es_exitMode := es_exitMode e;
     es_takeProfitBehavior := es_takeProfitBehavior e; es_targetPct := es_targetPct e;
     es_trailingStopPct := es_trailingStopPct e; es_trailBroker := broker;
     es_trailBrokerOrderId := brokerOrderId; es_trailClientOrderId := clientOrderId;
     es_trailOrderStatus := orderStatus; es_rawBrokerJson := es_rawBrokerJson e;
     es_attentionRequired := es_attentionRequired e; es_attentionCode := es_attentionCode e;
     es_attentionMessage := es_attentionMessage e; es_attentionAt := es_attentionAt e;
     es_attentionClearedAt := es_attentionClearedAt e |}.

Definition set_raw (raw : option json) (e : PositionExitState) : PositionExitState :=
  {| es_id := es_id e; es_trackedPositionId := es_trackedPositionId e;
     es_exitManagementModeSnapshot := es_exitManagementModeSnapshot e; es_status := es_status e;
     es_targetUnlocked := es_targetUnlocked e; es_targetUnlockedAt := es_targetUnlockedAt e;
     es_targetUnlockedPrice := es_targetUnlockedPrice e; es_targetUnlockedPnlPct := es_targetUnlockedPnlPct e;
     es_highWaterMark := es_highWaterMark e; es_trailStopPrice := es_trailStopPrice e;
     es_exitProfileKey := es_exitProfileKey e; es_exitMode := es_exitMode e;
     es_takeProfitBehavior := es_takeProfitBehavior e; es_targetPct := es_targetPct e;
     es_trailingStopPct := es_trailingStopPct e; es_trailBroker := es_trailBroker e;
     es_trailBrokerOrderId := es_trailBrokerOrderId e; es_trailClientOrderId := es_trailClientOrderId e;
     es_trailOrderStatus := es_trailOrderStatus e; es_rawBrokerJson := raw;
     es_attentionRequired := es_attentionRequired e; es_attentionCode := es_attentionCode e;
     es_attentionMessage := es_attentionMessage e; es_attentionAt := es_attentionAt e;
     es_attentionClearedAt := es_attentionClearedAt e |}.

(** A row with the column defaults of the schema. *)
Definition default_state (id trackedPositionId : Z) : PositionExitState :=
  {| es_id := id; es_trackedPositionId := trackedPositionId;
     es_exitManagementModeSnapshot := "BACKEND_MANAGED"; es_status := "watching";
     es_targetUnlocked := false; es_targetUnlockedAt := None; es_targetUnlockedPrice := None;
     es_targetUnlockedPnlPct := None; es_highWaterMark := None; es_trailStopPrice := None;
     es_exitProfileKey := None; es_exitMode := None; es_takeProfitBehavior := None;
     es_targetPct := None; es_trailingStopPct := None; es_trailBroker := None;
     es_trailBrokerOrderId := None; es_trailClientOrderId := None; es_trailOrderStatus := None;
     es_rawBrokerJson := None; es_attentionRequired := false; es_attentionCode := None;
     es_attentionMessage := None; es_attentionAt := None; es_attentionClearedAt := None |}.

(** * Pure mappings *)

Definition calculateTrailStopPrice (highWaterMark trailingStopPct : num) : num :=
  nmul highWaterMark (nsub (num_of_Z 1) (ndiv trailingStopPct (num_of_Z 100))).

Definition mapTrailingStopOrderStatusToExitStateStatus (orderStatus : string) : string :=
  let s := normalizeBrokerOrderStatus orderStatus in
  if String.eqb s "filled" then "trailing_stop_filled"
  else if String.eqb s "canceled" then "trailing_stop_canceled"
  else if String.eqb s "expired" then "trailing_stop_expired"
  else if String.eqb s "rejected" then "trailing_stop_rejected"
  else if String.eqb s "replaced" then "trailing_stop_replaced_attention"
  else if String.eqb s "done_for_day" then "trailing_stop_done_for_day_attention"
  else if String.eqb s "calculated" then "trailing_stop_calculated_attention"
  else "trailing_stop_submitted".

Definition buildAttentionRequiredData (now : Z) (code message : string) : AttentionData :=
  {| ad_required := true; ad_code := Some code; ad_message := Some message;
     ad_at := Some now; ad_clearedAt := None |}.

Definition buildAttentionClearedData (now : Z) : AttentionData :=
  {| ad_required := false; ad_code := None; ad_message := None; ad_at := None;
     ad_clearedAt := Some now |}.

Definition buildTrailingStopOrderStatusAttentionData (now : Z) (orderStatus : string) : AttentionData :=
  let s := normalizeBrokerOrderStatus orderStatus in
  let required := buildAttentionRequiredData now in
  if String.eqb s "filled" then buildAttentionClearedData now
  else if String.eqb s "rejected" then
    required "trail_order_rejected" "Protective trailing stop order was rejected by the broker."
  else if String.eqb s "canceled" then
    required "trail_order_canceled" "Protective trailing stop order was canceled."
  else if String.eqb s "expired" then
    required "trail_order_expired" "Protective trailing stop order expired."
  else if String.eqb s "replaced" then
    required "trail_order_replaced_unlinked"
      "Protective trailing stop order was replaced, but no verified replacement is linked."
  else if String.eqb s "done_for_day" then
    required "trail_order_done_for_day"
      "Protective trailing stop order reached done_for_day while exposure may remain."
  else if String.eqb s "calculated" then
    required "trail_order_calculated"
      "Protective trailing stop order reached calculated while exposure may remain."
  else buildAttentionClearedData now.

Definition no_attention : AttentionData :=
  {| ad_required := false; ad_code := None; ad_message := None; ad_at := None; ad_clearedAt := None |}.

(** The profile columns copied from the subscription's exit profile. *)
Definition profile_data (p : option ExitProfileRow) : PositionExitState -> PositionExitState :=
  set_profile (option_map exit_key p) (option_map exit_exitMode p) (option_map exit_takeProfitBehavior p).
Definition watching_target (p : option ExitProfileRow) : TargetData :=
  {| td_unlocked := false; td_unlockedAt := None; td_price := None; td_pnlPct := None;
     td_highWaterMark := None; td_trailStopPrice := None;
     td_targetPct := p ≫= exit_targetPct; td_trailingStopPct := p ≫= exit_trailingStopPct |}.

(** * Operations *)

Section Operations.
Context `{Prisma}.
Variable now : Z.

Definition state_of (trackedPositionId : Z) (e : PositionExitState) : bool :=
  es_trackedPositionId e =? trackedPositionId.

Definition find_exit_state (trackedPositionId : Z) (w : ExitWorld) : option PositionExitState :=
  find_first (state_of trackedPositionId) (exitStates w).

(** [positionExitState.update] on the unique position; no row is an error. *)
Definition update_exit_state (trackedPositionId : Z) (f : PositionExitState -> PositionExitState)
    : eff ExitWorld PositionExitState :=
  existing ← asks (find_exit_state trackedPositionId);
  match existing with
  | None => throw (PlainError "Record to update not found.")
  | Some e =>
      _ ← modify (set_exitStates (fun l => fst (update_many (state_of trackedPositionId) f l)));
      mret (f e)
  end.

(** [positionExitState.create]; a second row of a position is refused. *)
Definition create_exit_state (trackedPositionId : Z) (f : PositionExitState -> PositionExitState)
    : eff ExitWorld PositionExitState :=
  existing ← asks (find_exit_state trackedPositionId);
  match existing with
  | Some _ => throw (PlainError "Unique constraint failed on the fields: (`trackedPositionId`)")
  | None =>
      w ← get;
      let row := f (default_state (next_id (map es_id (exitStates w))) trackedPositionId) in
      _ ← modify (set_exitStates (fun l => l ++ [row])%list);
      mret row
  end.

Definition upsert_exit_state (trackedPositionId : Z) (create update : PositionExitState -> PositionExitState)
    : eff ExitWorld PositionExitState :=
  existing ← asks (find_exit_state trackedPositionId);
  match existing with
  | Some _ => update_exit_state trackedPositionId update
  | None => create_exit_state trackedPositionId create
  end.

Definition find_position (trackedPositionId : Z) (db : Db) : option TrackedPosition :=
  find_first (fun p => tp_id p =? trackedPositionId) (trackedPositions db).

(** The subscription a row refers to, as an [include] loads it. *)
Definition subscription_of (subscriptionId : option Z) (db : Db) : option Subscription :=
  id ← subscriptionId; find_first (fun s => sub_id s =? id) (subscriptions db).

Definition getPositionWithExitProfile (trackedPositionId : Z)
    : eff ExitWorld (TrackedPosition * option ExitProfileRow) :=
  row ← db_asks (find_position trackedPositionId);
  match row with
  | None => throw (PlainError ("Tracked position " ++ z_str trackedPositionId ++ " was not found."))
  | Some p =>
      sub ← db_asks (subscription_of (tp_subscriptionId p));
      mret (p, option_map sub_exitProfile sub)
  end.

Definition ensurePositionExitState (trackedPositionId : Z) : eff ExitWorld PositionExitState :=
  existing ← asks (find_exit_state trackedPositionId);
  match existing with
  | Some e => mret e
  | None =>
      '(_, exitProfile) ← getPositionWithExitProfile trackedPositionId;
      create_exit_state trackedPositionId (fun e => set_attention no_attention
        (set_target (watching_target exitProfile) (profile_data exitProfile (set_status "watching" e))))
  end.

Definition resetPositionExitStateForOpenPosition (trackedPositionId : Z) : eff ExitWorld PositionExitState :=
  '(_, exitProfile) ← getPositionWithExitProfile trackedPositionId;
  let watching e := set_attention no_attention
    (set_target (watching_target exitProfile) (profile_data exitProfile (set_status "watching" e))) in
  upsert_exit_state trackedPositionId watching (fun e => set_trail None None None None (watching e)).

Definition unlocked_data (currentPrice pnlPct targetPct trailingStopPct : num) : TargetData :=
  {| td_unlocked := true; td_unlockedAt := Some now; td_price := Some currentPrice;
     td_pnlPct := Some pnlPct; td_highWaterMark := Some currentPrice;
     td_trailStopPrice := Some (calculateTrailStopPrice currentPrice trailingStopPct);
     td_targetPct := Some targetPct; td_trailingStopPct := Some trailingStopPct |}.

Definition unlockTrailingStopExitState (trackedPositionId : Z)
    (currentPrice pnlPct targetPct trailingStopPct : num) : eff ExitWorld PositionExitState :=
  update_exit_state trackedPositionId (fun e =>
    set_target (unlocked_data currentPrice pnlPct targetPct trailingStopPct)
      (set_status "target_unlocked" e)).

Definition submitted_data (broker brokerOrderId clientOrderId orderStatus : string) (raw : json)
    (e : PositionExitState) : PositionExitState :=
  let normalizedStatus := normalizeBrokerOrderStatus orderStatus in
  set_attention (buildTrailingStopOrderStatusAttentionData now normalizedStatus)
    (set_raw (Some raw)
      (set_trail (Some broker) (Some brokerOrderId) (Some clientOrderId) (Some normalizedStatus)
        (set_status (mapTrailingStopOrderStatusToExitStateStatus normalizedStatus) e))).

Definition markTrailingStopOrderSubmitted (trackedPositionId : Z)
    (broker brokerOrderId clientOrderId orderStatus : string) (rawBrokerJson : json)
    : eff ExitWorld PositionExitState :=
  update_exit_state trackedPositionId
    (submitted_data broker brokerOrderId clientOrderId orderStatus rawBrokerJson).

Definition markTrailingStopOrderSubmitFailed (trackedPositionId : Z) (payloadJson : json)
    : eff ExitWorld PositionExitState :=
  update_exit_state trackedPositionId (fun e =>
    set_attention (buildAttentionRequiredData now "trail_submit_failed"
        "Protective trailing stop order submission failed.")
      (set_raw (Some payloadJson)
        (set_trail (es_trailBroker e) (es_trailBrokerOrderId e) (es_trailClientOrderId e)
           (Some "submit_failed") (set_status "trailing_stop_submit_failed" e)))).

Definition markPositionExitStateClosed (trackedPositionId : Z) (payloadJson : option json)
    : eff ExitWorld PositionExitState :=
  let closed e := set_attention (buildAttentionClearedData now)
    (set_raw (match payloadJson with Some j => Some j | None => es_rawBrokerJson e end)
      (set_status "closed" e)) in
  upsert_exit_state trackedPositionId closed closed.

(** [updateMany] over the states of the account's positions with this client
    order id. *)
Definition state_of_order (tradingAccountId : Z) (clientOrderId : string) (db : Db)
    (e : PositionExitState) : bool :=
  opt_eqb (es_trailClientOrderId e) clientOrderId &&
  match find_position (es_trackedPositionId e) db with
  | Some p => opt_eqb (tp_tradingAccountId p) tradingAccountId
  | None => false
  end.

Definition synced_data (brokerOrderId : option string) (orderStatus : string) (raw : json)
    (e : PositionExitState) : PositionExitState :=
  let normalizedStatus := normalizeBrokerOrderStatus orderStatus in
  set_attention (buildTrailingStopOrderStatusAttentionData now normalizedStatus)
    (set_raw (Some raw)
      (set_trail (es_trailBroker e)
         (match brokerOrderId with Some id => Some id | None => es_trailBrokerOrderId e end)
         (es_trailClientOrderId e) (Some normalizedStatus)
         (set_status (mapTrailingStopOrderStatusToExitStateStatus normalizedStatus) e))).

Definition syncTrailingStopOrderStatus (tradingAccountId : Z) (clientOrderId : string)
    (brokerOrderId : option string) (orderStatus : string) (rawBrokerJson : json)
    : eff ExitWorld Z := fun w =>
  let '(rows, n) := update_many (state_of_order tradingAccountId clientOrderId (xw_db w))
                      (synced_data brokerOrderId orderStatus rawBrokerJson) (exitStates w) in
  (Ok n, set_exitStates (fun _ => rows) w).

Definition markPositionExitStateAttentionRequired (trackedPositionId : Z) (code message : string)
    : eff ExitWorld PositionExitState :=
  update_exit_state trackedPositionId (set_attention (buildAttentionRequiredData now code message)).

(** The protective claim of [submitTrailingStopExitOrder]: only a state with
    neither a broker order nor a client order id is claimed. *)
Definition unclaimed_state (trackedPositionId : Z) (e : PositionExitState) : bool :=
  state_of trackedPositionId e && bool_decide (es_trailBrokerOrderId e = None) &&
  bool_decide (es_trailClientOrderId e = None).

Definition claim_exit_state (trackedPositionId : Z) (clientOrderId : string) : eff ExitWorld Z := fun w =>
  let '(rows, n) := update_many (unclaimed_state trackedPositionId)
    (fun e => set_trail (Some "alpaca") (es_trailBrokerOrderId e) (Some clientOrderId)
                (Some "pending_submit") (set_status "trailing_stop_submitting" e)) (exitStates w) in
  (Ok n, set_exitStates (fun _ => rows) w).
End Operations.

(** * The type of the table *)

Definition EXIT_STATE_STATUSES : list string :=
  ["watching"; "target_unlocked"; "trailing_stop_submitting"; "trailing_stop_submitted";
   "trailing_stop_submit_failed"; "trailing_stop_filled"; "trailing_stop_canceled";
   "trailing_stop_expired"; "trailing_stop_rejected"; "trailing_stop_replaced_attention";
   "trailing_stop_done_for_day_attention"; "trailing_stop_calculated_attention"; "closed"].

(** Attention is all there, uncleared, or not there at all. *)
Definition attention_wf (e : PositionExitState) : Prop :=
  if es_attentionRequired e then
    is_Some (es_attentionCode e) /\ is_Some (es_attentionMessage e) /\
    is_Some (es_attentionAt e) /\ es_attentionClearedAt e = None
  else es_attentionCode e = None /\ es_attentionMessage e = None /\ es_attentionAt e = None.

(** An unlocked target has its evidence, and its stop is the trail below the
    price that unlocked it. *)
Definition target_wf (e : PositionExitState) : Prop :=
  es_targetUnlocked e = true ->
  is_Some (es_targetUnlockedAt e) /\ is_Some (es_targetUnlockedPnlPct e) /\
  is_Some (es_targetPct e) /\
  exists price pct, es_targetUnlockedPrice e = Some price /\ es_highWaterMark e = Some price /\
    es_trailingStopPct e = Some pct /\
    es_trailStopPrice e = Some (calculateTrailStopPrice price pct).

(** A linked broker order has its client order id, and a claim names its
    broker and order status. *)
Definition trail_wf (e : PositionExitState) : Prop :=
  (is_Some (es_trailBrokerOrderId e) -> is_Some (es_trailClientOrderId e)) /\
  (is_Some (es_trailClientOrderId e) ->
     is_Some (es_trailBroker e) /\ is_Some (es_trailOrderStatus e)).

Definition state_wf (e : PositionExitState) : Prop :=
  In (es_status e) EXIT_STATE_STATUSES /\ attention_wf e /\ target_wf e /\ trail_wf e.

Definition exit_states_wf (w : ExitWorld) : Prop :=
  NoDup (map es_trackedPositionId (exitStates w)) /\ Forall state_wf (exitStates w).

(** ** Calls of the service *)

Inductive ExitStateCall :=
| Ensure (trackedPositionId : Z)
| Reset (trackedPositionId : Z)
| Unlock (trackedPositionId : Z) (currentPrice pnlPct targetPct trailingStopPct : num)
| Submitted (trackedPositionId : Z) (broker brokerOrderId clientOrderId orderStatus : string) (raw : json)
| SubmitFailed (trackedPositionId : Z) (payload : json)
| Closed (trackedPositionId : Z) (payload : option json)
| Sync (tradingAccountId : Z) (clientOrderId : string) (brokerOrderId : option string)
    (orderStatus : string) (raw : json)
| Attention (trackedPositionId : Z) (code message : string)
| Claim (trackedPositionId : Z) (clientOrderId : string).

Definition ignore {S A} (m : eff S A) : eff S unit := _ ← m; mret tt.

Definition exit_state_call `{Prisma} (now : Z) (c : ExitStateCall) : eff ExitWorld unit :=
  match c with
  | Ensure id => ignore (ensurePositionExitState id)
  | Reset id => ignore (resetPositionExitStateForOpenPosition id)
  | Unlock id price pnl target trailing => ignore (unlockTrailingStopExitState now id price pnl target trailing)
  | Submitted id broker orderId clientId status raw =>
      ignore (markTrailingStopOrderSubmitted now id broker orderId clientId status raw)
  | SubmitFailed id payload => ignore (markTrailingStopOrderSubmitFailed now id payload)
  | Closed id payload => ignore (markPositionExitStateClosed now id payload)
  | Sync account clientId orderId status raw =>
      ignore (syncTrailingStopOrderStatus now account clientId orderId status raw)
  | Attention id code message => ignore (markPositionExitStateAttentionRequired now id code message)
  | Claim id clientId => ignore (claim_exit_state id clientId)
  end.

(** A history: each call at its time, from whatever its predecessors left;
    a call that throws does not stop the next one. *)
Fixpoint run_exit_states `{Prisma} (calls : list (Z * ExitStateCall)) (w : ExitWorld) : ExitWorld :=
  match calls with
  | [] => w
  | (now, c) :: calls => run_exit_states calls (snd (exit_state_call now c w))
  end.

Section Typing.
Context `{PrismaLaws}.

(** ** Row updates keep the type *)

Definition keeps_type (f : PositionExitState -> PositionExitState) : Prop :=
  forall e, es_trackedPositionId (f e) = es_trackedPositionId e /\ (state_wf e -> state_wf (f e)).

Lemma update_keeps_type p f l :
  (forall e, p e = true -> es_trackedPositionId (f e) = es_trackedPositionId e /\ (state_wf e -> state_wf (f e))) ->
  NoDup (map es_trackedPositionId l) /\ Forall state_wf l ->
  NoDup (map es_trackedPositionId (fst (update_many p f l))) /\ Forall state_wf (fst (update_many p f l)).
Proof.
  intros Hf [Hnd Hwf]. rewrite update_many_eq. cbn [fst]. split.
  - rewrite map_map. rewrite (map_ext _ es_trackedPositionId); [done|].
    intros e. destruct (p e) eqn:E; [by apply Hf|done].
  - rewrite Forall_forall in *. intros e (x & <- & Hx)%list_elem_of_In%in_map_iff.
    apply list_elem_of_In, Hwf in Hx. destruct (p x) eqn:E; [by apply Hf|done].
Qed.

Lemma update_state_typed id f : keeps_type f -> moves (keeps exit_states_wf) (update_exit_state id f).
Proof.
  intros Hf. unfold update_exit_state. solve_moves. apply moves_modify. intros w Hw.
  apply (update_keeps_type _ f); [|done]. intros e _. apply Hf.
Qed.

Lemma create_state_typed id f :
  (forall e, es_trackedPositionId (f e) = es_trackedPositionId e) ->
  (forall n, state_wf (f (default_state n id))) ->
  moves (keeps exit_states_wf) (create_exit_state id f).
Proof.
  intros Hid Hf w Hw. unfold create_exit_state.
  change ((asks ?g ≫= ?k) w) with (k (g w) w). cbv beta.
  destruct (find_exit_state id w) as [e|] eqn:E; [done|].
  destruct Hw as [Hnd Hwf].
  change ((get ≫= ?k) w) with (k w w). cbv beta.
  change ((modify ?g ≫= ?k) w) with (k tt (g w)). cbv beta.
  split; cbn [mret eff_ret snd exitStates set_exitStates].
  - rewrite map_app. apply NoDup_app. split; [done|]. split; [|apply NoDup_singleton].
    intros x Hx ->%list_elem_of_singleton.
    apply list_elem_of_In, in_map_iff in Hx as (e & Ee & Hin). rewrite Hid in Ee. cbn in Ee.
    pose proof (find_first_none _ _ _ _ E Hin) as Hn. unfold state_of in Hn.
    apply Z.eqb_neq in Hn. congruence.
  - apply Forall_app. split; [done|]. by apply Forall_singleton.
Qed.

Lemma status_mapped s : In (mapTrailingStopOrderStatusToExitStateStatus s) EXIT_STATE_STATUSES.
Proof.
  unfold mapTrailingStopOrderStatusToExitStateStatus, EXIT_STATE_STATUSES.
  repeat case_match; cbn; tauto.
Qed.

Lemma attention_data_cases now s :
  buildTrailingStopOrderStatusAttentionData now s = buildAttentionClearedData now \/
  exists c m, buildTrailingStopOrderStatusAttentionData now s = buildAttentionRequiredData now c m.
Proof.
  unfold buildTrailingStopOrderStatusAttentionData. repeat case_match; eauto.
Qed.

Lemma cleared_wf now e : attention_wf (set_attention (buildAttentionClearedData now) e).
Proof. repeat split. Qed.
Lemma required_wf now c m e : attention_wf (set_attention (buildAttentionRequiredData now c m) e).
Proof. cbn. repeat split; eauto. Qed.

Lemma trailing_attention_wf now s e :
  attention_wf (set_attention (buildTrailingStopOrderStatusAttentionData now s) e).
Proof.
  destruct (attention_data_cases now s) as [->|(c & m & ->)]; [apply cleared_wf|apply required_wf].
Qed.

Lemma submitted_typed now b oid cid st raw : keeps_type (submitted_data now b oid cid st raw).
Proof.
  intros e. split; [done|]. intros (Hs & Ha & Ht & Htr). split; [apply status_mapped|].
  split; [apply trailing_attention_wf|]. split; [exact Ht|]. split; cbn; eauto.
Qed.

Lemma synced_typed now account cid db oid st raw e :
  state_of_order account cid db e = true ->
  es_trackedPositionId (synced_data now oid st raw e) = es_trackedPositionId e /\
  (state_wf e -> state_wf (synced_data now oid st raw e)).
Proof.
  intros Hc. split; [done|]. intros (Hs & Ha & Ht & [H1 H2]). split; [apply status_mapped|].
  split; [apply trailing_attention_wf|]. split; [exact Ht|].
  apply andb_prop in Hc as [Hc%bool_decide_eq_true_1 _].
  assert (Hsome : is_Some (es_trailClientOrderId e)) by (rewrite Hc; eauto).
  split; cbn; [done|]. intros _. split; [by apply H2|eauto].
Qed.

Lemma unlocked_typed now price pnl target pct :
  keeps_type (fun e => set_target (unlocked_data now price pnl target pct) (set_status "target_unlocked" e)).
Proof.
  intros e. split; [done|]. intros (Hs & Ha & Ht & Htr).
  split; [cbn; tauto|]. split; [exact Ha|]. split; [|exact Htr].
  intros _. cbn. repeat (split; [by eexists|]). by exists price, pct.
Qed.

Lemma exit_state_call_typed now c : moves (keeps exit_states_wf) (exit_state_call now c).
Proof.
  assert (Hpos : forall id, moves (keeps exit_states_wf) (getPositionWithExitProfile id)).
  { intros id. unfold getPositionWithExitProfile, db_asks. solve_moves. }
  assert (Hclosed : forall payload, keeps_type (fun e => set_attention (buildAttentionClearedData now)
    (set_raw (match payload with Some j => Some j | None => es_rawBrokerJson e end) (set_status "closed" e)))).
  { intros payload e. split; [done|]. intros (Hs & Ha & Ht & Htr).
    split; [cbn; tauto|]. split; [apply cleared_wf|]. by split. }
  destruct c; cbn [exit_state_call]; apply moves_bind; try typeclasses eauto; try (intros ?; apply moves_ret; typeclasses eauto).
  - unfold ensurePositionExitState. apply moves_bind; [typeclasses eauto|auto with moves typeclass_instances|].
    intros [e|]; [apply moves_ret; typeclasses eauto|]. apply moves_bind; [typeclasses eauto|done|].
    intros [q p]. apply create_state_typed; [done|]. intros n.
    split; [cbn; tauto|]. split; [done|]. split; [done|]. split; intros [? ?]; done.
  - unfold resetPositionExitStateForOpenPosition. apply moves_bind; [typeclasses eauto|done|].
    intros [q p]. unfold upsert_exit_state. apply moves_bind; [typeclasses eauto|auto with moves typeclass_instances|].
    intros [e|]; [apply update_state_typed|apply create_state_typed; [done|]].
    + intros e'. split; [done|]. intros _. split; [cbn; tauto|]. split; [done|].
      split; [done|]. split; intros [? ?]; done.
    + intros n. split; [cbn; tauto|]. split; [done|]. split; [done|]. split; intros [? ?]; done.
  - apply update_state_typed, unlocked_typed.
  - apply update_state_typed, submitted_typed.
  - apply update_state_typed. intros e. split; [done|]. intros (Hs & Ha & Ht & [H1 H2]).
    split; [cbn; tauto|]. split; [apply required_wf|]. split; [exact Ht|]. split; cbn; [done|].
    intros Hc. split; [by apply H2|eauto].
  - unfold markPositionExitStateClosed, upsert_exit_state.
    apply moves_bind; [typeclasses eauto|auto with moves typeclass_instances|].
    intros [e|]; [apply update_state_typed, Hclosed|apply create_state_typed; [done|]].
    intros n. apply Hclosed. split; [cbn; tauto|]. split; [done|]. split; [done|]. split; intros [? ?]; done.
  - intros w Hw. unfold syncTrailingStopOrderStatus.
    pose proof (update_keeps_type _ _ (exitStates w) (synced_typed now tradingAccountId clientOrderId (xw_db w)
      brokerOrderId orderStatus raw) Hw) as Hr.
    destruct (update_many _ _ _) as [rows n]. exact Hr.
  - apply update_state_typed. intros e. split; [done|]. intros (Hs & Ha & Ht & Htr).
    split; [exact Hs|]. split; [apply required_wf|]. by split.
  - intros w Hw. unfold claim_exit_state.
    match goal with |- context [update_many ?p ?f _] => pose proof (update_keeps_type p f (exitStates w)) as Hr end.
    destruct (update_many _ _ _) as [rows n]. apply Hr; [|done].
    intros e Hu. split; [done|]. intros (Hs & Ha & Ht & [H1 H2]).
    split; [cbn; tauto|]. split; [exact Ha|]. split; [exact Ht|]. split; cbn; eauto.
Qed.

Lemma run_exit_states_typed calls w : exit_states_wf w -> exit_states_wf (run_exit_states calls w).
Proof.
  revert w. induction calls as [|[now c] calls IH]; intros w Hw; [done|].
  apply IH, exit_state_call_typed, Hw.
Qed.

(** ** Attention and the broker's word *)

Lemma normalize_idem s : normalizeBrokerOrderStatus (normalizeBrokerOrderStatus s) = normalizeBrokerOrderStatus s.
Proof.
  unfold normalizeBrokerOrderStatus at 2 3.
  destruct (String.eqb (to_lower (trim s)) "cancelled") eqn:E; [reflexivity|].
  unfold normalizeBrokerOrderStatus. rewrite lower_trim_fix, E. done.
Qed.

(** The operator is called exactly for an order that ended without a fill. *)
Lemma attention_is_unfilled_end now s :
  ad_required (buildTrailingStopOrderStatusAttentionData now s) =
  isTerminalBrokerOrderStatus s && negb (String.eqb (normalizeBrokerOrderStatus s) "filled").
Proof.
  unfold buildTrailingStopOrderStatusAttentionData, isTerminalBrokerOrderStatus, member,
    TERMINAL_BROKER_ORDER_STATUSES. cbn [existsb].
  set (n := normalizeBrokerOrderStatus s).
  destruct (String.eqb n "filled") eqn:E1; [done|].
  destruct (String.eqb n "rejected") eqn:E2; [by rewrite !orb_true_r|].
  destruct (String.eqb n "canceled") eqn:E3; [by rewrite ?orb_true_r|].
  destruct (String.eqb n "expired") eqn:E4; [by rewrite ?orb_true_r|].
  destruct (String.eqb n "replaced") eqn:E5; [by rewrite ?orb_true_r|].
  destruct (String.eqb n "done_for_day") eqn:E6; [by rewrite ?orb_true_r|].
  destruct (String.eqb n "calculated") eqn:E7; [by rewrite ?orb_true_r|]. done.
Qed.

(** Submitted is the status of a working order and of nothing else. *)
Lemma submitted_is_nonterminal s :
  mapTrailingStopOrderStatusToExitStateStatus s = "trailing_stop_submitted" <->
  isTerminalBrokerOrderStatus s = false.
Proof.
  unfold mapTrailingStopOrderStatusToExitStateStatus, isTerminalBrokerOrderStatus, member,
    TERMINAL_BROKER_ORDER_STATUSES. cbn [existsb].
  set (n := normalizeBrokerOrderStatus s).
  repeat (match goal with |- context [String.eqb n ?x] => destruct (String.eqb n x) end;
          cbn; [split; discriminate|]). done.
Qed.
End Typing.

(** * Properties *)

Section Properties.
Context `{PrismaLaws}.

(** C26. The exit-state table is well typed through any history of the
    service's calls, failing calls included: at most one state per position,
    its status one of the thirteen the service writes, attention with code,
    message and time exactly while it is required, an unlocked target with the
    price and percentages that unlocked it and the stop computed from them, and
    a linked broker order never without its client order id and broker. *)
Theorem exit_states_typed calls w (Hw : exit_states_wf w) :
  exit_states_wf (run_exit_states calls w).
Proof. by apply run_exit_states_typed. Qed.

(** Synchronising a protective order writes the broker's word to exactly
    the states of that account that carry its client order id, and to nothing
    else: the normalized order status is stored, the state reads as submitted
    exactly while the order still works, the operator is called exactly when it
    ended without a fill, and repeating the call with the stored status leaves
    status and attention as they are. *)
Theorem trailing_sync_exact now account clientId orderId status raw w :
  let hit := state_of_order account clientId (xw_db w) in
  syncTrailingStopOrderStatus now account clientId orderId status raw w =
    (Ok (Z.of_nat (length (filterb hit (exitStates w)))),
     set_exitStates (map (fun e => if hit e then synced_data now orderId status raw e else e)) w) /\
  forall e, hit e = true ->
    let e' := synced_data now orderId status raw e in
    es_trailOrderStatus e' = Some (normalizeBrokerOrderStatus status) /\
    (es_status e' = "trailing_stop_submitted" <-> isTerminalBrokerOrderStatus status = false) /\
    es_attentionRequired e' = isTerminalBrokerOrderStatus status &&
      negb (String.eqb (normalizeBrokerOrderStatus status) "filled") /\
    synced_data now orderId (normalizeBrokerOrderStatus status) raw e' = e'.
Proof.
  cbv zeta. split.
  { unfold syncTrailingStopOrderStatus. by rewrite update_many_eq. }
  intros e _. split; [done|]. split; [|split].
  - cbn [synced_data set_attention es_status set_raw set_trail set_status].
    rewrite submitted_is_nonterminal. unfold isTerminalBrokerOrderStatus. by rewrite normalize_idem.
  - cbn [synced_data set_attention es_attentionRequired]. rewrite attention_is_unfilled_end.
    unfold isTerminalBrokerOrderStatus. by rewrite !normalize_idem.
  - unfold synced_data. cbn. rewrite !normalize_idem. by destruct orderId.
Qed.
End Properties.

(** * Concrete inputs *)

#[local] Existing Instance in_order.

Definition tracked_profile : ExitProfileRow :=
  {| exit_key := "unlock"; exit_enabled := true; exit_exitMode := "unlock_trailing_stop";
     exit_takeProfitBehavior := "trail"; exit_targetPct := Some (num_of_Z 2);
     exit_stopLossPct := Some (num_of_Z 1); exit_trailingStopPct := Some (num_of_Z 1) |}.
Definition tracked_security : Security := {| sec_id := 7; sec_symbol := "AAPL"; sec_enabled := true |}.
Definition tracked_subscription : Subscription :=
  {| sub_id := 3; sub_key := "swing"; sub_enabled := true;
     sub_strategy := {| strat_key := "swing"; strat_enabled := true |};
     sub_exitProfile := tracked_profile; sub_security := tracked_security |}.
Definition tracked_assignment : TradingAccountSubscription :=
  {| tas_id := 4; tas_tradingAccountId := 1; tas_subscriptionId := 3; tas_allocationId := None;
     tas_allocation := None; tas_enabled := true; tas_entriesEnabled := true;
     tas_exitsEnabled := true; tas_reservedNotional := None |}.
Definition tracked_position : TrackedPosition :=
  {| tp_id := 9; tp_symbol := "AAPL"; tp_side := "long"; tp_qty := num_dec 25 1;
     tp_marketValue := num_of_Z 500; tp_costBasis := num_of_Z 480; tp_currentPrice := num_of_Z 200;
     tp_unrealizedPnLPct := Some (num_dec 4 2); tp_status := "open"; tp_securityId := 7;
     tp_subscriptionId := Some 3; tp_tradingAccountId := Some 1;
     tp_tradingAccountSubscriptionId := Some 4 |}.
(** An account with one open position and its assignment. *)
Definition tracked_world : ExitWorld :=
  {| xw_db := {| securities := [tracked_security]; subscriptions := [tracked_subscription];
       tradingAccounts := [{| ta_id := 1; ta_displayName := "Main"; ta_broker := "ALPACA"; ta_environment := "PAPER";
          ta_status := "ACTIVE"; ta_credentialStatus := Some "ACTIVE"; ta_maxDeployableNotional := None |}];
       riskSettings := []; accountSubscriptions := [tracked_assignment]; orderIntents := [];
       brokerOrders := []; brokerActivities := []; trackedPositions := [tracked_position];
       claims := []; claimEvents := []; opportunityEvents := []; dispatchConsumptions := [];
       unenforcedDispatches := []; armingTerminations := []; acceptanceRuns := [] |};
     exitStates := []; systemEvents := []; sent := [] |}.

Definition tracked_history : list (Z * ExitStateCall) :=
  [(1000, Ensure 9);
   (2000, Unlock 9 (num_of_Z 200) (num_dec 4 2) (num_of_Z 2) (num_of_Z 1));
   (2001, Claim 9 "ai-exit-trail-AAPL-9");
   (2002, Submitted 9 "alpaca" "b-1" "ai-exit-trail-AAPL-9" "New" JNull);
   (2003, Claim 9 "ai-exit-trail-AAPL-9-again");
   (3000, Sync 1 "ai-exit-trail-AAPL-9" None " Cancelled " JNull)].

Example tracked_outcome :
  map (fun e => (es_status e, es_trailStopPrice e, es_trailBrokerOrderId e, es_attentionCode e))
    (exitStates (run_exit_states tracked_history tracked_world)) =
  [("trailing_stop_canceled", Some (num_of_Z 198), Some "b-1", Some "trail_order_canceled")].
Proof. vm_compute. reflexivity. Qed.

Lemma exit_states_typed_witness : exit_states_wf (run_exit_states tracked_history tracked_world).
Proof. apply exit_states_typed. split; constructor. Defined.

Lemma trailing_sync_exact_witness :
  let w := run_exit_states (take 5 tracked_history) tracked_world in
  exists e, In e (exitStates w) /\
    state_of_order 1 "ai-exit-trail-AAPL-9" (xw_db w) e = true /\
    es_attentionRequired (synced_data 3000 None " Cancelled " JNull e) = true.
Proof.
  set (w := run_exit_states (take 5 tracked_history) tracked_world).
  destruct (trailing_sync_exact 3000 1 "ai-exit-trail-AAPL-9" None " Cancelled " JNull w) as [_ H].
  assert (Hw : exists e, exitStates w = [e] /\
    state_of_order 1 "ai-exit-trail-AAPL-9" (xw_db w) e = true).
  { eexists. split; vm_compute; reflexivity. }
  destruct Hw as (e & Hl & He). exists e. split; [rewrite Hl; by left|]. split; [exact He|].
  destruct (H e He) as (_ & _ & -> & _). reflexivity.
Defined.
