(* ===== verification/WorkflowLock.v ===== *)
(** The account workflow lock: services/trading-account-workflow-lock.service.ts.
    A PostgreSQL advisory lock per workflow family and account; whether it is
    free is the database's answer. *)

From Stdlib Require Import ZArith Lia.
From Stdlib Require Import Strings.String.
From stdpp Require Import base list strings.
From S2P Require Import Prelude JsNumber JsValue.

Open Scope string_scope.
Open Scope Z_scope.

Definition APP_NAMESPACE : string := "ai-trader".

(** The lock families, by name. *)
Definition ACCOUNT_WORKFLOW_LOCK_FAMILIES : list (string * string) :=
  [("LIFECYCLE_MUTATION", "lifecycle-mutation"); ("ORDER_LIFECYCLE", "order-lifecycle");
   ("BROKER_ACTIVITY", "broker-activity"); ("POSITION_SYNC", "position-sync");
   ("EXIT_EVALUATION", "exit-evaluation"); ("EXIT_SUBMISSION", "exit-submission");
   ("RECONCILIATION", "reconciliation"); ("ACCOUNT_SNAPSHOT", "account-snapshot");
   ("READINESS_ASSESSMENT", "readiness-assessment"); ("OPERATIONAL_STATE", "operational-state")].

Inductive LockResult (A : Type) :=
| ACQUIRED_AND_COMPLETED (value : A)
| NOT_ACQUIRED
| LOCK_ERROR (error : js_error)
| WORKFLOW_ERROR (error : js_error).
Arguments ACQUIRED_AND_COMPLETED {A} value.
Arguments NOT_ACQUIRED {A}.
Arguments LOCK_ERROR {A} error.
Arguments WORKFLOW_ERROR {A} error.

Definition lock_outcome_str {A} (l : LockResult A) : string :=
  match l with
  | ACQUIRED_AND_COMPLETED _ => "ACQUIRED_AND_COMPLETED"
  | NOT_ACQUIRED => "NOT_ACQUIRED"
  | LOCK_ERROR _ => "LOCK_ERROR"
  | WORKFLOW_ERROR _ => "WORKFLOW_ERROR"
  end.

Definition lock_scope (workflowKey : string) (tradingAccountId : Z) : string :=
  APP_NAMESPACE ++ ":" ++ workflowKey ++ ":" ++ z_str tradingAccountId.

(** [try_lock] answers for a scope: acquired, held by another session, or an
    error of the connection. The lock is released when [execute] is done. *)
Definition withTradingAccountWorkflowLock {S A} (try_lock : string -> S -> option bool)
    (tradingAccountId : Z) (workflowKey : string) (execute : eff S A) : eff S (LockResult A) :=
  if tradingAccountId <=? 0 then
    throw (PlainError "A real positive tradingAccountId is required for an advisory lock.")
  else
  acquired ← asks (try_lock (lock_scope workflowKey tradingAccountId));
  match acquired with
  | None => mret (LOCK_ERROR (PlainError "Lock acquisition failed."))
  | Some false => mret NOT_ACQUIRED
  | Some true =>
      try_catch (value ← execute; mret (ACQUIRED_AND_COMPLETED value))
        (fun error => mret (WORKFLOW_ERROR error))
  end.

(** What a locked call does, by what the lock answers. *)
Lemma locked_call {S A} (try_lock : string -> S -> option bool) account key (execute : eff S A) s :
  0 < account ->
  withTradingAccountWorkflowLock try_lock account key execute s =
  match try_lock (lock_scope key account) s with
  | None => (Ok (LOCK_ERROR (PlainError "Lock acquisition failed.")), s)
  | Some false => (Ok NOT_ACQUIRED, s)
  | Some true =>
      match execute s with
      | (Ok value, s') => (Ok (ACQUIRED_AND_COMPLETED value), s')
      | (Throw e, s') => (Ok (WORKFLOW_ERROR e), s')
      end
  end.
Proof.
  intros Ha. unfold withTradingAccountWorkflowLock, mbind, eff_bind, asks, try_catch.
  destruct (Z.leb_spec account 0); [lia|].
  destruct (try_lock _ s) as [[]|]; [|done|done]. by destruct (execute s) as [[v|e] s'].
Qed.
