(* ===== verification/VerifiedExit.v ===== *)
(** The verified exit submission: services/verified-exit-submission.service.ts,
    with the account workflow lock it runs under
    (services/trading-account-workflow-lock.service.ts). A sell is handed to the
    broker only after the held, local, intended and available quantities agree
    exactly. *)

From Stdlib Require Import ZArith Lia Lqa QArith.
From Stdlib Require Import Strings.String Strings.Ascii.
From Stdlib Require Import Floats.SpecFloat.
From stdpp Require Import base list strings.
From S2P Require Import Prelude JsNumber JsValue JsDate Prisma OrderStatus DeliveryEvidence Schema.
From S2P Require Import BrokerAccount ExactDecimal ExitWorld WorkflowLock.

Open Scope string_scope.
Open Scope Z_scope.

(** * Context of an exit *)

Inductive ExitVerificationOutcome :=
| POSITION_NOT_FOUND | UNEXPECTED_SHORT_POSITION | QUANTITY_MISMATCH | RESERVED_QUANTITY
| CONFLICTING_OPEN_SELL_ORDER | BROKER_STATE_UNAVAILABLE.

Definition outcome_str (o : ExitVerificationOutcome) : string :=
  match o with
  | POSITION_NOT_FOUND => "POSITION_NOT_FOUND"
  | UNEXPECTED_SHORT_POSITION => "UNEXPECTED_SHORT_POSITION"
  | QUANTITY_MISMATCH => "QUANTITY_MISMATCH"
  | RESERVED_QUANTITY => "RESERVED_QUANTITY"
  | CONFLICTING_OPEN_SELL_ORDER => "CONFLICTING_OPEN_SELL_ORDER"
  | BROKER_STATE_UNAVAILABLE => "BROKER_STATE_UNAVAILABLE"
  end.

Inductive ExitOrder :=
| MarketExit (timeInForce : string)
| TrailingStopExit (timeInForce trailPercent : string).

Record VerifiedExitContext := {
  cx_corrective : bool;
  cx_tradingAccountId : Z;
  cx_trackedPositionId : Z;
  cx_orderIntentId : Z;
  cx_securityId : Z;
  cx_symbol : string;
  cx_localTrackedQty : raw_field;
  cx_intendedQty : raw_field;
  cx_attributedExitFilledQty : option raw_field;
  cx_clientOrderId : string;
  cx_correlationId : option string;
  cx_order : ExitOrder
}.

Inductive VerifiedExitSubmissionResult :=
| RECOVERED_LOCAL (brokerOrderId : Z)
| RECOVERED_BROKER (order : AlpacaOrder)
| SUBMITTED (order : AlpacaOrder).

Definition verification_mode (c : VerifiedExitContext) : string :=
  if cx_corrective c then "CORRECTIVE_REMAINDER_CLOSE" else "NORMAL_EXACT_CLOSE".

(** * Open sell orders in the way *)

Record ConflictingOrderEvidence := {
  cf_brokerOrderId : string;
  cf_clientOrderId : string;
  cf_type : string;
  cf_side : string;
  cf_status : string;
  cf_qty : option raw_field;
  cf_filledQty : option raw_field;
  cf_remainingQty : option string;
  cf_limitPrice : option raw_field;
  cf_stopPrice : option raw_field;
  cf_trailPrice : option raw_field;
  cf_trailPercent : option raw_field
}.

Definition conflict_json (c : ConflictingOrderEvidence) : json :=
  JObj [("brokerOrderId", JStr (cf_brokerOrderId c)); ("clientOrderId", JStr (cf_clientOrderId c));
        ("type", JStr (cf_type c)); ("side", JStr (cf_side c)); ("status", JStr (cf_status c));
        ("qty", json_of_raw (cf_qty c)); ("filledQty", json_of_raw (cf_filledQty c));
        ("remainingQty", jopt JStr (cf_remainingQty c)); ("limitPrice", json_of_raw (cf_limitPrice c));
        ("stopPrice", json_of_raw (cf_stopPrice c)); ("trailPrice", json_of_raw (cf_trailPrice c));
        ("trailPercent", json_of_raw (cf_trailPercent c))].

Definition in_conflict (c : VerifiedExitContext) (symbol : string) (o : AlpacaOrder) : bool :=
  String.eqb (to_upper (rawo_symbol o)) symbol &&
  (cx_corrective c || String.eqb (rawo_side o) "sell") &&
  isNonterminalBrokerOrderStatus (rawo_status o) &&
  negb (String.eqb (rawo_client_order_id o) (cx_clientOrderId c)).

Definition conflict_evidence (o : AlpacaOrder) : ConflictingOrderEvidence :=
  let qty := parseExactPositiveDecimal (rawo_qty o) in
  let filled := match rawo_filled_qty o with
                | None => parseExactNonNegativeDecimal (Some (RawText "0"))
                | v => parseExactNonNegativeDecimal v
                end in
  {| cf_brokerOrderId := rawo_id o; cf_clientOrderId := rawo_client_order_id o;
     cf_type := rawo_type o; cf_side := rawo_side o; cf_status := rawo_status o;
     cf_qty := rawo_qty o; cf_filledQty := rawo_filled_qty o;
     cf_remainingQty := (q ← qty; f ← filled; subtractDecimal q f);
     cf_limitPrice := rawo_limit_price o; cf_stopPrice := rawo_stop_price o;
     cf_trailPrice := rawo_trail_price o; cf_trailPercent := rawo_trail_percent o |}.

(** A price field that is present and not empty, as the text it is sent as. *)
Definition given (v : option raw_field) : option string :=
  match v with
  | Some (RawText "") | None => None
  | Some (RawText s) => Some s
  | Some (RawNumber n) => Some (num_to_string n)
  end.

Definition conflictMessage (symbol held : string) (conflicts : list ConflictingOrderEvidence) : string :=
  match conflicts with
  | [order] =>
      let price :=
        match given (cf_limitPrice order), given (cf_stopPrice order), given (cf_trailPercent order),
              given (cf_trailPrice order) with
        | Some p, _, _, _ => "$" ++ formatBrokerPrice p ++ " limit"
        | None, Some p, _, _ => "$" ++ formatBrokerPrice p ++ " stop"
        | None, None, Some p, _ => p ++ "% trailing-stop"
        | None, None, None, Some p => "$" ++ formatBrokerPrice p ++ " trailing-stop"
        | None, None, None, None =>
            map_chars (fun c => if Ascii.eqb c "_" then " "%char else c) (cf_type order)
        end in
      "Close blocked: " ++ symbol ++ "'s " ++ held ++ " shares are reserved by an open " ++ price ++
      " sell. Cancel or complete that order, then retry. No additional sell was submitted."
  | _ =>
      "Close blocked: " ++ symbol ++ "'s " ++ held ++ " shares are reserved by " ++
      z_str (Z.of_nat (length conflicts)) ++
      " open sell orders. Review or cancel those orders, or allow them to complete, then retry. No additional sell was submitted."
  end.

Definition severity (environment : string) : Severity :=
  if String.eqb environment "LIVE" then CRITICAL else ERROR.

(** * Blocking and executing *)

Section Execute.
Context `{Prisma} `{ExitBroker} `{ExitServices}.
Variable now : Z.

Definition deploymentAuthority : list (string * json) :=
  [("nodeEnvironment", JStr env_NODE_ENV);
   ("liveWriteDeploymentRole", JStr env_LIVE_WRITE_DEPLOYMENT_ROLE);
   ("authoritativeProductionExecutor",
     JBool (String.eqb env_NODE_ENV "production" &&
            String.eqb env_LIVE_WRITE_DEPLOYMENT_ROLE "PRODUCTION_EXECUTOR"))].

Definition block_evidence (c : VerifiedExitContext) (environment : string)
    (outcome : ExitVerificationOutcome) (evidence : list (string * json)) : list (string * json) :=
  ([("tradingAccountId", jint (cx_tradingAccountId c)); ("environment", JStr environment)] ++
   deploymentAuthority ++
   [("trackedPositionId", jint (cx_trackedPositionId c)); ("orderIntentId", jint (cx_orderIntentId c));
    ("securityId", jint (cx_securityId c)); ("symbol", JStr (to_upper (cx_symbol c)));
    ("localTrackedQty", json_of_raw (Some (cx_localTrackedQty c)));
    ("intendedQty", json_of_raw (Some (cx_intendedQty c)));
    ("stableClientOrderId", JStr (cx_clientOrderId c));
    ("correlationId", jopt JStr (cx_correlationId c));
    ("verificationTimestamp", JStr (iso_of_time now));
    ("verificationOutcome", JStr (outcome_str outcome));
    ("authorizationResult", JStr "NOT_ATTEMPTED")] ++ evidence)%list.

Definition attention_code (outcome : ExitVerificationOutcome) : string :=
  match outcome with
  | UNEXPECTED_SHORT_POSITION => "UNEXPECTED_SHORT_POSITION"
  | CONFLICTING_OPEN_SELL_ORDER | RESERVED_QUANTITY => "CONFLICTING_EXIT_RESERVATION"
  | QUANTITY_MISMATCH => "EXIT_QUANTITY_MISMATCH"
  | _ => "BROKER_EXPOSURE_UNVERIFIABLE"
  end.

Definition block {A} (c : VerifiedExitContext) (environment : string)
    (outcome : ExitVerificationOutcome) (message : string) (evidence : list (string * json))
    : eff ExitWorld A :=
  let evidence := block_evidence c environment outcome evidence in
  let fingerprint := "exit-safety:" ++ z_str (cx_tradingAccountId c) ++ ":" ++
                     z_str (cx_trackedPositionId c) ++ ":" ++ outcome_str outcome in
  let event (type message : string) (payload : list (string * json)) : eff ExitWorld unit :=
    createSystemEvent type "trackedPosition" (cx_trackedPositionId c)
      (Some (cx_tradingAccountId c)) (severity environment) (Some message) (JObj payload) in
  _ ← update_intents now (intent_is (cx_orderIntentId c)) (Some "blocked")
        (Some (Some ("EXIT_VERIFICATION:" ++ outcome_str outcome)));
  _ ← try_catch
    (existing ← asks (attention_open fingerprint);
     _ ← (if existing : bool then mret tt : eff ExitWorld unit
          else event ("exit.verification_blocked." ++ to_lower (outcome_str outcome)) message evidence);
     openOrObserveOperationalAttention fingerprint (attention_code outcome) (severity environment)
       message (JObj evidence))
    (fun error =>
      _ ← event "exit.verification_attention_persistence_failed"
        (to_upper (cx_symbol c) ++ " exit was safely blocked before broker submission, but operational attention could not be recorded.")
        (evidence ++ [("attentionPersistenceErrorType", JStr (error_name error))])%list;
      throw (PreSubmissionError 503
        (to_upper (cx_symbol c) ++ " close was safely blocked before broker submission, but operational attention could not be refreshed. Retry after the internal issue is corrected. No sell was submitted.")
        (JObj (evidence ++ [("attentionPersistenceFailed", JBool true)])%list) "NOT_SENT_RETRYABLE"));
  throw (PreSubmissionError 409 message (JObj evidence) "NOT_SENT_BLOCKED").

(** What the broker and the context say about the position to close, once all
    lookups succeeded. *)
Record ExitQuantities := {
  xq_held : ExactDecimal;
  xq_available : ExactDecimal;
  xq_intended : ExactDecimal;
  xq_local : ExactDecimal
}.

Definition exit_quantities (c : VerifiedExitContext) (p : AlpacaPosition) : option ExitQuantities :=
  held ← parseExactPositiveDecimal (rawp_qty p);
  available ← parseExactNonNegativeDecimal (rawp_qty_available p);
  intended ← parseExactPositiveDecimal (Some (cx_intendedQty c));
  local ← parseExactPositiveDecimal (Some (cx_localTrackedQty c));
  Some {| xq_held := held; xq_available := available; xq_intended := intended; xq_local := local |}.

Definition attributed_quantity (c : VerifiedExitContext) : option ExactDecimal :=
  if cx_corrective c then parseExactPositiveDecimal (cx_attributedExitFilledQty c) else None.

Definition expected_remainder (c : VerifiedExitContext) (q : ExitQuantities) : option string :=
  a ← attributed_quantity c; subtractDecimal (xq_local q) a.

(** The remainder text is parsed back before it is compared; a text that does
    not parse would be a type error. *)
Definition quantityVerified (c : VerifiedExitContext) (q : ExitQuantities) : res bool :=
  if cx_corrective c then
    match expected_remainder c q with
    | Some r =>
        if String.eqb r "0" then Ok false
        else match parseExactPositiveDecimal (Some (RawText r)) with
             | Some d => Ok (equalDecimal (xq_intended q) d && equalDecimal (xq_held q) (xq_intended q))
             | None => Throw (PlainError "Cannot read properties of null")
             end
    | None => Ok false
    end
  else Ok (equalDecimal (xq_held q) (xq_intended q) && equalDecimal (xq_held q) (xq_local q)).

Definition exit_request (c : VerifiedExitContext) (symbol : string) (q : ExitQuantities)
    : VerifiedAlpacaExitOrderRequest :=
  {| xr_symbol := symbol; xr_side := "sell"; xr_position_intent := "sell_to_close";
     xr_type := match cx_order c with MarketExit _ => "market" | TrailingStopExit _ _ => "trailing_stop" end;
     xr_time_in_force := match cx_order c with MarketExit t | TrailingStopExit t _ => t end;
     xr_qty := canonical (xq_intended q);
     xr_client_order_id := cx_clientOrderId c;
     xr_trail_percent := match cx_order c with MarketExit _ => None | TrailingStopExit _ p => Some p end |}.

(** [submitVerifiedAlpacaExitOrder]: from here on the order may reach the broker. *)
Definition submitVerifiedAlpacaExitOrder (account : Z) (payload : VerifiedAlpacaExitOrderRequest)
    : eff ExitWorld AlpacaOrder := fun w =>
  (submit_answer account payload w, set_sent (fun l => l ++ [(account, payload)])%list w).

(** Resolve the open exit attentions of the position, one after the other. *)
Definition resolve_attentions (c : VerifiedExitContext) (symbol : string) (p : AlpacaPosition)
    (q : ExitQuantities) (attentions : list (Z * Z * string)) : eff ExitWorld unit :=
  fold_right (fun '(id, revision, fingerprint) (rest : eff ExitWorld unit) =>
    _ ← resolveOperationalAttention id revision
      "A complete fresh broker verification no longer observed this exit-safety condition."
      (JObj [("fingerprint", JStr fingerprint); ("tradingAccountId", jint (cx_tradingAccountId c));
             ("trackedPositionId", jint (cx_trackedPositionId c)); ("symbol", JStr symbol);
             ("brokerPositionSide", JStr (rawp_side p));
             ("brokerHeldQty", JStr (canonical (xq_held q)));
             ("brokerAvailableQty", JStr (canonical (xq_available q)));
             ("intendedQty", JStr (canonical (xq_intended q)));
             ("verifiedAt", JStr (iso_of_time now))]);
    rest) (mret tt) attentions.

(** Hand the request over; a rejection is checked by its client order id. *)
Definition submit_once (c : VerifiedExitContext) (symbol : string) (q : ExitQuantities)
    : eff ExitWorld VerifiedExitSubmissionResult :=
  try_catch
    (order ← submitVerifiedAlpacaExitOrder (cx_tradingAccountId c) (exit_request c symbol q);
     mret (SUBMITTED order))
    (fun error =>
      match error with
      | DeliveryError classification _ _ =>
          if String.eqb classification "BROKER_REJECTED" then
            recovered ← try_catch
              (lift (order_by_client_id 2 (cx_tradingAccountId c) (cx_clientOrderId c)))
              (fun _ => throw (DeliveryError "DELIVERY_UNCERTAIN"
                "Broker rejection could not be confirmed because deterministic recovery failed." None));
            match recovered with
            | Some order => mret (RECOVERED_BROKER order)
            | None => throw error
            end
          else throw error
      | _ => throw error
      end).

(** Clear the attentions of earlier blocks, obtain the write authority, submit. *)
Definition submit_verified (c : VerifiedExitContext) (symbol : string) (p : AlpacaPosition)
    (q : ExitQuantities) : eff ExitWorld VerifiedExitSubmissionResult :=
  clearedAttentions ← (if cx_corrective c then mret []
                       else asks (open_exit_attentions (cx_tradingAccountId c) (cx_trackedPositionId c)));
  _ ← resolve_attentions c symbol p q clearedAttentions;
  _ ← authorizeLiveBrokerWrite (cx_tradingAccountId c) "RISK_REDUCING_WRITE";
  submit_once c symbol q.

Definition find_local_order (c : VerifiedExitContext) (db : Db) : option BrokerOrder :=
  find_first (fun o => opt_eqb (bo_tradingAccountId o) (cx_tradingAccountId c) &&
    String.eqb (bo_broker o) "alpaca" && String.eqb (bo_clientOrderId o) (cx_clientOrderId c))
    (brokerOrders db).

Definition broker_quantities (p : AlpacaPosition) : list (string * json) :=
  [("brokerPositionSide", JStr (rawp_side p)); ("brokerHeldQty", json_of_raw (rawp_qty p));
   ("brokerAvailableQty", json_of_raw (rawp_qty_available p))].

Definition exact_quantities (p : AlpacaPosition) (q : ExitQuantities) : list (string * json) :=
  [("brokerPositionSide", JStr (rawp_side p)); ("brokerHeldQty", JStr (canonical (xq_held q)));
   ("brokerAvailableQty", JStr (canonical (xq_available q)))].

(** The checks on the broker's position and orders, then the submission. *)
Definition verify_quantities (c : VerifiedExitContext) (environment symbol : string)
    (p : AlpacaPosition) (openOrders : list AlpacaOrder) : eff ExitWorld VerifiedExitSubmissionResult :=
  match exit_quantities c p with
  | None => block c environment BROKER_STATE_UNAVAILABLE
      (symbol ++ " quantity evidence is missing or malformed; no sell was submitted.") (broker_quantities p)
  | Some q =>
  let conflicts := map conflict_evidence (filterb (in_conflict c symbol) openOrders) in
  let conflicting := ("conflictingActiveSellOrders", JArr (map conflict_json conflicts)) in
  if existsb (fun o => bool_decide (cf_remainingQty o = None)) conflicts then
    block c environment BROKER_STATE_UNAVAILABLE
      (symbol ++ " has an active sell order with ambiguous remaining quantity.")
      (exact_quantities p q ++ [conflicting])%list
  else if match conflicts with [] => false | _ => true end then
    block c environment CONFLICTING_OPEN_SELL_ORDER
      (conflictMessage symbol (canonical (xq_held q)) conflicts)
      (exact_quantities p q ++ [conflicting; ("nextAction", JStr
        "Review or cancel the active order(s), or allow them to complete, then retry.")])%list
  else
  verified ← lift (fun _ => quantityVerified c q);
  if negb verified then
    block c environment QUANTITY_MISMATCH
      (if cx_corrective c then symbol ++ " corrective lifecycle equation could not be verified exactly."
       else symbol ++ " held, local, and intended quantities do not match exactly.")
      ([("verificationMode", JStr (verification_mode c));
        ("attributedExitFilledQty", jopt JStr (option_map canonical (attributed_quantity c)));
        ("expectedRemainder", jopt JStr (expected_remainder c q))] ++ exact_quantities p q)%list
  else if 0 <? compareDecimal (xq_available q) (xq_held q) then
    block c environment RESERVED_QUANTITY
      (symbol ++ " broker-available quantity exceeds held quantity; no sell was submitted.")
      (exact_quantities p q ++ [("failureClassification", JStr "AVAILABLE_QUANTITY_EXCEEDS_HELD")])%list
  else if negb (equalDecimal (xq_held q) (xq_available q)) then
    block c environment RESERVED_QUANTITY
      (symbol ++ " broker-available quantity is lower than held quantity; no sell was submitted.")
      (exact_quantities p q ++ [conflicting])%list
  else submit_verified c symbol p q
  end.

Definition lookup_failed {A} (c : VerifiedExitContext) (environment message classification : string)
    (error : js_error) : eff ExitWorld A :=
  block c environment BROKER_STATE_UNAVAILABLE message
    [("failureClassification", JStr classification); ("error", JStr (error_message error))].

Definition executeVerifiedExit (c : VerifiedExitContext) : eff ExitWorld VerifiedExitSubmissionResult :=
  let account := cx_tradingAccountId c in
  row ← db_asks (fun db => find_first (fun a => ta_id a =? account) (tradingAccounts db));
  match row with
  | None => throw (PlainError "No TradingAccount found")
  | Some ta =>
  let environment := ta_environment ta in
  let symbol := to_upper (cx_symbol c) in
  localOrder ← db_asks (find_local_order c);
  match localOrder with
  | Some o => mret (RECOVERED_LOCAL (bo_id o))
  | None =>
  recovered ← try_catch (lift (order_by_client_id 1 account (cx_clientOrderId c)))
    (lookup_failed c environment (symbol ++ " deterministic exit recovery could not be verified.")
       "CLIENT_ORDER_ID_LOOKUP_FAILED");
  match recovered with
  | Some order => mret (RECOVERED_BROKER order)
  | None =>
  position ← try_catch (lift (position_by_symbol account symbol))
    (lookup_failed c environment (symbol ++ " broker position lookup failed; no sell was submitted.")
       "POSITION_LOOKUP_FAILED");
  openOrders ← try_catch (lift (open_orders account))
    (lookup_failed c environment (symbol ++ " open-order lookup failed; no sell was submitted.")
       "OPEN_ORDER_LOOKUP_FAILED");
  match position with
  | None => block c environment POSITION_NOT_FOUND
      (symbol ++ " is absent at the broker; no sell was submitted.")
      [("brokerPositionSide", JNull); ("brokerHeldQty", JNull); ("brokerAvailableQty", JNull)]
  | Some p =>
  if negb (String.eqb (to_upper (rawp_symbol p)) symbol) || negb (String.eqb (rawp_side p) "long") then
    let short := String.eqb (rawp_side p) "short" in
    block c environment (if short then UNEXPECTED_SHORT_POSITION else BROKER_STATE_UNAVAILABLE)
      (if short then symbol ++ " is short at the broker. All sell automation is blocked."
       else symbol ++ " broker position identity is ambiguous.")
      ([("brokerAssetId", JStr (rawp_asset_id p)); ("brokerSymbol", JStr (rawp_symbol p))] ++
       broker_quantities p)%list
  else verify_quantities c environment symbol p openOrders
  end end end end.

(** * Under the account workflow lock *)

Definition submitVerifiedExit (c : VerifiedExitContext) : eff ExitWorld VerifiedExitSubmissionResult :=
  locked ← withTradingAccountWorkflowLock try_lock (cx_tradingAccountId c) "exit-submission" (executeVerifiedExit c);
  match locked with
  | ACQUIRED_AND_COMPLETED value => mret value
  | WORKFLOW_ERROR error => throw error
  | _ => throw (HttpError 503
           ("Exit submission lock was not acquired safely (" ++ lock_outcome_str locked ++ ").") JNull)
  end.

(** For callers that already hold the lock. *)
Definition submitVerifiedCorrectiveExitWithinAccountLock (c : VerifiedExitContext)
    : eff ExitWorld VerifiedExitSubmissionResult := executeVerifiedExit c.
End Execute.

(** * What may be sold *)

(** An order of the symbol that may still trade, other than the exit's own: a
    sell, and for the corrective close a buy as well. *)
Definition in_the_way (c : VerifiedExitContext) (symbol : string) (o : AlpacaOrder) : Prop :=
  to_upper (rawo_symbol o) = symbol /\ (cx_corrective c = true \/ rawo_side o = "sell") /\
  ~ In (normalizeBrokerOrderStatus (rawo_status o)) TERMINAL_BROKER_ORDER_STATUSES /\
  rawo_client_order_id o <> cx_clientOrderId c.

Lemma in_conflict_false c symbol o : in_conflict c symbol o = false <-> ~ in_the_way c symbol o.
Proof.
  unfold in_conflict, in_the_way, isNonterminalBrokerOrderStatus, isTerminalBrokerOrderStatus.
  rewrite <- (member_In _ TERMINAL_BROKER_ORDER_STATUSES), !andb_false_iff, orb_false_iff, !negb_false_iff.
  rewrite !String.eqb_neq, String.eqb_eq.
  destruct (cx_corrective c), (member _ _), (String.eqb_spec (to_upper (rawo_symbol o)) symbol),
    (String.eqb_spec (rawo_side o) "sell"), (String.eqb_spec (rawo_client_order_id o) (cx_clientOrderId c)); naive_solver.
Qed.

(** The broker holds exactly what is about to be sold: no order of the exit is
    known locally or at the broker, the position is long and of this symbol, no
    other open order is in its way, and held, available and intended
    quantities agree as exact decimals with the local quantity - less what
    attributed exits already sold, for the corrective close. *)
Definition sellable `{Prisma} `{ExitBroker} (c : VerifiedExitContext) (w : ExitWorld)
    (p : AlpacaPosition) (q : ExitQuantities) : Prop :=
  let account := cx_tradingAccountId c in
  let symbol := to_upper (cx_symbol c) in
  (exists ta, find_first (fun a => ta_id a =? account) (tradingAccounts (xw_db w)) = Some ta) /\
  find_local_order c (xw_db w) = None /\
  order_by_client_id 1 account (cx_clientOrderId c) w = Ok None /\
  position_by_symbol account symbol w = Ok (Some p) /\
  to_upper (rawp_symbol p) = symbol /\ rawp_side p = "long" /\
  (exists os, open_orders account w = Ok os /\ forall o, In o os -> ~ in_the_way c symbol o) /\
  exit_quantities c p = Some q /\
  (dvalue (xq_held q) == dvalue (xq_intended q))%Q /\
  (dvalue (xq_held q) == dvalue (xq_available q))%Q /\
  if cx_corrective c then
    exists a, attributed_quantity c = Some a /\
      (dvalue (xq_intended q) == dvalue (xq_local q) - dvalue a)%Q
  else (dvalue (xq_held q) == dvalue (xq_local q))%Q.

Section Safety.
Context `{Prisma} `{ExitBroker} {S : ExitServices} `{!ExitServicesLaws S}.
Variable now : Z.

Lemma block_sends_nothing {A} c env o m e : moves nothing_sent (block (A := A) now c env o m e).
Proof. unfold block. solve_moves. Qed.
Hint Resolve block_sends_nothing : moves.

Definition never_submitted (r : res VerifiedExitSubmissionResult) : Prop :=
  forall order, r <> Ok (SUBMITTED order).

Lemma block_never_submits c env o m e w :
  never_submitted (fst (block (A := VerifiedExitSubmissionResult) now c env o m e w)).
Proof.
  unfold block, never_submitted, mbind, eff_bind. intros order.
  destruct (update_intents _ _ _ _ w) as [[n|er] w1]; [|done].
  destruct (try_catch _ _ w1) as [[[]|er] w2]; done.
Qed.

(** A run that hands nothing to the broker. *)
Definition refused (run : res VerifiedExitSubmissionResult * ExitWorld) (w : ExitWorld) : Prop :=
  never_submitted (fst run) /\ nothing_sent w (snd run).

Lemma block_refused c env o m e w :
  refused (block (A := VerifiedExitSubmissionResult) now c env o m e w) w.
Proof. split; [apply block_never_submits|by apply block_sends_nothing]. Qed.

(** A lookup that fails blocks; one that succeeds continues in the same state. *)
Lemma lookup_step {A} (f : ExitWorld -> res A) c env m t (k : A -> eff ExitWorld VerifiedExitSubmissionResult) w :
  (exists x, f w = Ok x /\ (x ← try_catch (lift f) (lookup_failed now c env m t); k x) w = k x w) \/
  (exists e, f w = Throw e /\ refused ((x ← try_catch (lift f) (lookup_failed now c env m t); k x) w) w).
Proof.
  unfold mbind, eff_bind, try_catch, lift. destruct (f w) as [x|e] eqn:E; [left; by exists x|].
  right. exists e. split; [done|]. unfold lookup_failed.
  pose proof (block_sends_nothing (A := A) c env BROKER_STATE_UNAVAILABLE m
    [("failureClassification", JStr t); ("error", JStr (error_message e))] w) as Hs.
  unfold block, mbind, eff_bind in *.
  destruct (update_intents _ _ _ _ w) as [[n|er] w1]; [|done].
  destruct (try_catch _ _ w1) as [[[]|er] w2]; done.
Qed.

Lemma no_conflict_map c symbol os :
  match map conflict_evidence (filterb (in_conflict c symbol) os) with [] => false | _ => true end = false <->
  forall o, In o os -> ~ in_the_way c symbol o.
Proof.
  destruct (filterb (in_conflict c symbol) os) as [|x l] eqn:E; cbn.
  - split; [|done]. intros _ o Ho. apply in_conflict_false. destruct (in_conflict c symbol o) eqn:Ec; [|done].
    assert (Hi : In o (filterb (in_conflict c symbol) os)) by by apply filterb_In. by rewrite E in Hi.
  - split; [done|]. intros Hn. assert (Hi : In x (filterb (in_conflict c symbol) os)) by (rewrite E; by left).
    apply filterb_In in Hi as [Hi Hc]. apply Hn, in_conflict_false in Hi. congruence.
Qed.

(** The remainder text is never a text that does not parse. *)
Lemma remainder_parses l a r :
  subtractDecimal l a = Some r -> r <> "0" ->
  exists d, parseExactPositiveDecimal (Some (RawText r)) = Some d /\
    (dvalue d == dvalue l - dvalue a)%Q.
Proof.
  intros Hs Hr. destruct (proj2 (subtract_exact l a) r Hs) as (d & Hp & Hc & Hv).
  exists d. split; [|done]. unfold parseExactPositiveDecimal. rewrite Hp.
  destruct (Z.ltb_spec 0 (coefficient d)) as [|Hn]; [done|]. exfalso. apply Hr.
  rewrite <- Hc. apply (zero_canonical _ _ Hp).
  pose proof (parse_nonneg _ _ Hp). lia.
Qed.

(** The quantity equation the exit must satisfy, in exact arithmetic. *)
Definition quantities_agree (c : VerifiedExitContext) (q : ExitQuantities) : Prop :=
  (dvalue (xq_held q) == dvalue (xq_intended q))%Q /\
  if cx_corrective c then
    exists a, attributed_quantity c = Some a /\
      (dvalue (xq_intended q) == dvalue (xq_local q) - dvalue a)%Q
  else (dvalue (xq_held q) == dvalue (xq_local q))%Q.

Lemma equal_exact l r : equalDecimal l r = true <-> (dvalue l == dvalue r)%Q.
Proof. by destruct (compare_exact l r) as (_ & _ & _ & H4). Qed.

Lemma dvalue_pos d : 0 < coefficient d -> (0 < dvalue d)%Q.
Proof. unfold dvalue, Qlt. cbn. lia. Qed.

Lemma zero_text d :
  parseExactNonNegativeDecimal (Some (RawText "0")) = Some d -> (dvalue d == 0)%Q.
Proof. vm_compute. by intros [= <-]. Qed.

Lemma quantityVerified_exact c q :
  0 < coefficient (xq_intended q) ->
  (quantityVerified c q = Ok true /\ quantities_agree c q) \/
  (quantityVerified c q = Ok false /\ ~ quantities_agree c q).
Proof.
  intros Hpos. unfold quantityVerified, quantities_agree, expected_remainder.
  destruct (cx_corrective c).
  2: { rewrite <- !equal_exact.
       destruct (equalDecimal _ (xq_intended q)), (equalDecimal _ (xq_local q)); cbn; naive_solver. }
  destruct (attributed_quantity c) as [a|]; cbn [option_bind mbind].
  2: { right. split; [done|]. by intros [_ (a & ? & _)]. }
  assert (Hex : (exists a0, Some a = Some a0 /\
      (dvalue (xq_intended q) == dvalue (xq_local q) - dvalue a0)%Q) <->
    (dvalue (xq_intended q) == dvalue (xq_local q) - dvalue a)%Q).
  { split; [by intros (? & [= <-] & ?)|]. intros ?. by exists a. }
  rewrite Hex. clear Hex. pose proof (dvalue_pos _ Hpos) as Hq.
  destruct (subtract_exact (xq_local q) a) as [Hnone Hsome].
  destruct (subtractDecimal (xq_local q) a) as [r|] eqn:Es.
  2: { right. split; [done|]. intros [_ E]. pose proof (proj1 Hnone eq_refl).
       rewrite E in Hq. lra. }
  destruct (String.eqb_spec r "0") as [->|Hr].
  { right. split; [done|]. intros [_ E]. destruct (Hsome "0" eq_refl) as (d & Hd & _ & Hv).
    rewrite E, <- Hv, (zero_text d Hd) in Hq. by apply Qlt_irrefl in Hq. }
  destruct (remainder_parses (xq_local q) a r) as (d & -> & Hv); [done..|].
  rewrite <- Hv, <- !equal_exact.
  destruct (equalDecimal (xq_intended q) d), (equalDecimal (xq_held q) (xq_intended q)); cbn; naive_solver.
Qed.

Lemma intended_parsed c p q :
  exit_quantities c p = Some q -> parseExactPositiveDecimal (Some (cx_intendedQty c)) = Some (xq_intended q).
Proof. unfold exit_quantities. intros Hq. by simplify_option_eq. Qed.

Lemma intended_pos c p q : exit_quantities c p = Some q -> 0 < coefficient (xq_intended q).
Proof. intros Hq%intended_parsed. by apply (parse_positive (Some (cx_intendedQty c))). Qed.

(** Once the lookups succeeded, the exit is submitted in the same state exactly
    when the quantities allow it. *)
Definition quantities_sellable (c : VerifiedExitContext) (symbol : string) (p : AlpacaPosition)
    (os : list AlpacaOrder) (q : ExitQuantities) : Prop :=
  (forall o, In o os -> ~ in_the_way c symbol o) /\
  exit_quantities c p = Some q /\ quantities_agree c q /\
  (dvalue (xq_held q) == dvalue (xq_available q))%Q.

Lemma available_exact q :
  (0 <? compareDecimal (xq_available q) (xq_held q)) = false ->
  equalDecimal (xq_held q) (xq_available q) = true \/
  equalDecimal (xq_held q) (xq_available q) = false.
Proof. destruct (equalDecimal _ _); auto. Qed.

Lemma verify_cases c env symbol p os w :
  (exists q, quantities_sellable c symbol p os q /\
     verify_quantities now c env symbol p os w = submit_verified now c symbol p q w) \/
  ((forall q, ~ quantities_sellable c symbol p os q) /\
   refused (verify_quantities now c env symbol p os w) w).
Proof.
  unfold verify_quantities, quantities_sellable.
  destruct (exit_quantities c p) as [q|] eqn:Eq.
  2: { right. split; [by intros q (_ & ? & _)|apply block_refused]. }
  pose proof (no_conflict_map c symbol os) as Hn.
  destruct (existsb _ _) eqn:Ee.
  { right. split; [|apply block_refused]. intros q' (Hc & _). apply Hn in Hc.
    destruct (map conflict_evidence _); [done|done]. }
  destruct (match map conflict_evidence _ with [] => false | _ => true end) eqn:Ec.
  { right. split; [|apply block_refused]. intros q' (Hc & _). apply Hn in Hc. congruence. }
  pose proof (proj1 Hn eq_refl) as Hc.
  change ((lift ?f ≫= ?k) w) with (match f w with Ok x => k x w | Throw e => (Throw e, w) end). cbv beta.
  destruct (quantityVerified_exact c q (intended_pos c p q Eq)) as [[-> Ha]|[-> Ha]]; cbn [negb].
  2: { right. split; [|apply block_refused]. by intros q' (_ & [= <-] & ? & _). }
  pose proof (compare_exact (xq_available q) (xq_held q)) as (_ & Hgt & _ & _).
  pose proof (equal_exact (xq_held q) (xq_available q)) as He.
  destruct (Z.ltb_spec 0 (compareDecimal (xq_available q) (xq_held q))) as [Hlt|Hlt].
  { right. split; [|apply block_refused]. intros q' (_ & [= <-] & _ & Hv).
    assert (Hx : compareDecimal (xq_available q) (xq_held q) = 1).
    { revert Hlt. unfold compareDecimal. repeat branch_goal; lia. }
    apply Hgt in Hx. rewrite Hv in Hx. by apply Qlt_irrefl in Hx. }
  destruct (equalDecimal (xq_held q) (xq_available q)); cbn [negb].
  - left. exists q. split; [|done]. split; [done|]. split; [done|]. split; [done|by apply He].
  - right. split; [|apply block_refused]. intros q' (_ & [= <-] & _ & Hv).
    by apply He in Hv.
Qed.

(** The next broker lookup of the goal: its answer, or a refusal. *)
Ltac next_lookup w :=
  match goal with
  | |- context [(try_catch (lift ?f) (lookup_failed ?n ?c ?env ?m ?t) ≫= ?k) w] =>
      destruct (lookup_step f c env m t k w) as [(x & E & ->)|(e & E & Hx)]
  end.

Lemma execute_cases c w :
  (exists p q, sellable c w p q /\
     executeVerifiedExit now c w = submit_verified now c (to_upper (cx_symbol c)) p q w) \/
  ((forall p q, ~ sellable c w p q) /\ refused (executeVerifiedExit now c w) w).
Proof.
  unfold executeVerifiedExit, sellable. cbv zeta.
  change ((db_asks ?f ≫= ?k) w) with (k (f (xw_db w)) w). cbv beta.
  destruct (find_first _ (tradingAccounts _)) as [ta|] eqn:Eta.
  2: { right. split; [by intros p q ((? & ?) & _)|]. by split. }
  change ((db_asks ?f ≫= ?k) w) with (k (f (xw_db w)) w). cbv beta.
  destruct (find_local_order c (xw_db w)) as [o|] eqn:Elo.
  { right. split; [by intros p q (_ & ? & _)|by split]. }
  next_lookup w; [|right; split; [intros p q (_ & _ & ? & _); congruence|done]].
  destruct x as [order|].
  { right. split; [intros p q (_ & _ & ? & _); congruence|by split]. }
  rename E into E1. next_lookup w;
    [|right; split; [intros p q (_ & _ & _ & ? & _); congruence|done]].
  rename x into position, E into E2. next_lookup w;
    [|right; split; [intros p q (_ & _ & _ & _ & _ & _ & (os & ? & _) & _); congruence|done]].
  rename x into os, E into E3.
  destruct position as [p|].
  2: { right. split; [|apply block_refused]. intros p q (_ & _ & _ & ? & _); congruence. }
  destruct (negb _ || negb _) eqn:Ei.
  { right. split; [|apply block_refused]. intros p' q (_ & _ & _ & Ep & Hs & Hl & _).
    rewrite E2 in Ep. injection Ep as <-. by rewrite Hs, Hl, !String.eqb_refl in Ei. }
  apply orb_false_iff in Ei as [Ei1%negb_false_iff%String.eqb_eq Ei2%negb_false_iff%String.eqb_eq].
  destruct (verify_cases c (ta_environment ta) (to_upper (cx_symbol c)) p os w)
    as [(q & (Hc & Hq & [Ha1 Ha2] & Hv) & E)|[Hn Hr]].
  - left. exists p, q. split; [|done].
    do 6 (split; [done || (by exists ta)|]). split; [by exists os|]. done.
  - right. split; [|done]. intros p' q (_ & _ & _ & Ep & _ & _ & (os' & Eo & Hc) & Hq & Hh & Hv & Ha).
    rewrite E2 in Ep. injection Ep as <-. rewrite E3 in Eo. injection Eo as <-.
    apply (Hn q). unfold quantities_sellable, quantities_agree. done.
Qed.

(** ** The submission *)

Lemma resolve_attentions_quiet c symbol p q l :
  moves same_trading (resolve_attentions now c symbol p q l).
Proof.
  induction l as [|[[id rev] fp] l IH]; cbn [resolve_attentions fold_right];
    [apply moves_ret; typeclasses eauto|].
  apply moves_bind; [typeclasses eauto|apply resolve_quiet|]. intros _. exact IH.
Qed.

Definition request_of (c : VerifiedExitContext) (q : ExitQuantities) :=
  (cx_tradingAccountId c, exit_request c (to_upper (cx_symbol c)) q).

Lemma submit_once_sent c q w :
  sent (snd (submit_once c (to_upper (cx_symbol c)) q w)) = (sent w ++ [request_of c q])%list.
Proof.
  unfold submit_once, try_catch, submitVerifiedAlpacaExitOrder, lift, mbind, eff_bind.
  destruct (submit_answer _ _ w) as [order|e]; [done|]. destruct e as [| | |cl m st| | | | | |]; try done.
  destruct (String.eqb cl "BROKER_REJECTED"); [|done].
  by destruct (order_by_client_id _ _ _ _) as [[o|]|e'].
Qed.

(** The request goes out once, after everything that can still refuse. *)
Lemma submit_cases c p q w :
  refused (submit_verified now c (to_upper (cx_symbol c)) p q w) w \/
  exists w2, sent w2 = sent w /\
    submit_verified now c (to_upper (cx_symbol c)) p q w = submit_once c (to_upper (cx_symbol c)) q w2.
Proof.
  unfold submit_verified. set (attentions := if cx_corrective c then _ else _).
  assert (Ha : exists l, attentions w = (Ok l, w))
    by (unfold attentions; destruct (cx_corrective c); by eexists).
  destruct Ha as [l Ha]. unfold mbind, eff_bind. rewrite Ha.
  pose proof (resolve_attentions_quiet c (to_upper (cx_symbol c)) p q l w) as (_ & _ & H1).
  destruct (resolve_attentions _ _ _ _ _ _ w) as [[[]|e] w1]; cbn [snd] in H1;
    [|left; split; [done|exact H1]].
  pose proof (authorize_quiet (cx_tradingAccountId c) "RISK_REDUCING_WRITE" w1) as (_ & _ & H2).
  destruct (authorizeLiveBrokerWrite _ _ w1) as [[[]|e] w2]; cbn [snd] in H2.
  - right. exists w2. split; [congruence|done].
  - left. split; [done|]. unfold nothing_sent. cbn [snd]. congruence.
Qed.

Lemma intended_text c p q :
  exit_quantities c p = Some q ->
  parseExactPositiveDecimal (Some (RawText (canonical (xq_intended q)))) = Some (xq_intended q).
Proof. intros Hq. by apply (canonical_parse_positive (Some (cx_intendedQty c))), (intended_parsed c p). Qed.

(** The lock either runs the exit or throws without changing anything. *)
Lemma submit_locked c w :
  (try_lock ("ai-trader:exit-submission:" ++ z_str (cx_tradingAccountId c)) w = Some true /\
   submitVerifiedExit now c w = executeVerifiedExit now c w) \/
  ((cx_tradingAccountId c <= 0 \/
    try_lock ("ai-trader:exit-submission:" ++ z_str (cx_tradingAccountId c)) w <> Some true) /\
   exists e, submitVerifiedExit now c w = (Throw e, w)).
Proof.
  unfold submitVerifiedExit, withTradingAccountWorkflowLock, mbind, eff_bind, asks.
  destruct (Z.leb_spec (cx_tradingAccountId c) 0); [right; split; [by left|by eexists]|].
  change (lock_scope "exit-submission" (cx_tradingAccountId c))
    with ("ai-trader:exit-submission:" ++ z_str (cx_tradingAccountId c)).
  destruct (try_lock _ w) as [[]|]; [|right; (split; [by right|by eexists])..].
  left. split; [done|]. unfold try_catch. by destruct (executeVerifiedExit now c w) as [[x|e] w'].
Qed.

(** C23. The verified exit never oversells: one run of the exit hands at most
    one request to the broker, and only when the account's lock was taken and
    the fresh broker state made the position sellable - long, of this symbol,
    no earlier order of this exit, no other open order in the way, and held,
    available, intended and local quantities equal as exact decimals (for a
    corrective close, equal to what is left after the attributed exits). The
    request then sells to close exactly the held quantity. In every other run,
    failed lookups included, nothing is sent and no submission is reported. *)
Theorem verified_exit_never_oversells c w :
  let '(r, w') := submitVerifiedExit now c w in
  (sent w' = sent w /\ forall order, r <> Ok (SUBMITTED order)) \/
  (exists p q, sellable c w p q /\
     try_lock ("ai-trader:exit-submission:" ++ z_str (cx_tradingAccountId c)) w = Some true /\
     sent w' = (sent w ++ [request_of c q])%list /\
     xr_side (snd (request_of c q)) = "sell" /\
     xr_position_intent (snd (request_of c q)) = "sell_to_close" /\
     exists d, parseExactPositiveDecimal (Some (RawText (xr_qty (snd (request_of c q))))) = Some d /\
       (dvalue d == dvalue (xq_held q))%Q).
Proof.
  destruct (submit_locked c w) as [[Hl ->]|[_ [e ->]]]; [|by left].
  destruct (execute_cases c w) as [(p & q & Hsell & ->)|[_ [Hn Hs]]].
  2: { destruct (executeVerifiedExit now c w). by left. }
  destruct (submit_cases c p q w) as [[Hn Hs]|(w2 & H2 & ->)].
  { destruct (submit_verified _ _ _ _ _ w). by left. }
  pose proof (submit_once_sent c q w2) as Hs.
  destruct (submit_once _ _ _ w2) as [r w']. right. exists p, q. cbn [snd] in Hs. rewrite H2 in Hs.
  split; [done|]. split; [done|]. split; [done|]. split; [done|]. split; [done|].
  exists (xq_intended q). destruct Hsell as (_ & _ & _ & _ & _ & _ & _ & Hq & Hv & _).
  split; [by apply (intended_text c p)|by symmetry].
Qed.

Lemma resolve_attentions_ok c symbol p q l w :
  (forall i r m d w, exists w', resolveOperationalAttention i r m d w = (Ok tt, w')) ->
  exists w', resolve_attentions now c symbol p q l w = (Ok tt, w').
Proof.
  intros Hr. revert w. induction l as [|[[i rev] fp] l IH]; intros w; [by eexists|].
  cbn [resolve_attentions fold_right]. unfold mbind, eff_bind.
  match goal with |- context [resolveOperationalAttention ?i ?r ?m ?d w] =>
    destruct (Hr i r m d w) as [w1 ->] end.
  apply IH.
Qed.

Lemma sellable_unique c w p p' q q' :
  sellable c w p q -> sellable c w p' q' -> p = p' /\ q = q'.
Proof.
  intros (_ & _ & _ & Hp & _ & _ & _ & Hq & _) (_ & _ & _ & Hp' & _ & _ & _ & Hq' & _).
  assert (p = p') as <- by congruence. split; congruence.
Qed.

(** C24. A sellable position is sold: when the lock is free, the live-write
    approval and the attention service answer, and the broker accepts, the exit
    of a sellable position is submitted - the request of exactly the held
    quantity goes out once and the accepted order is returned. *)
Theorem verified_exit_submits c w p q order
    (Haccount : 0 < cx_tradingAccountId c)
    (Hlock : try_lock ("ai-trader:exit-submission:" ++ z_str (cx_tradingAccountId c)) w = Some true)
    (Hsell : sellable c w p q)
    (Hresolve : forall i r m d w, exists w', resolveOperationalAttention i r m d w = (Ok tt, w'))
    (Hauthorize : forall a o w, exists w', authorizeLiveBrokerWrite a o w = (Ok tt, w'))
    (Haccept : forall w, submit_answer (cx_tradingAccountId c) (snd (request_of c q)) w = Ok order) :
  exists w', submitVerifiedExit now c w = (Ok (SUBMITTED order), w') /\
    sent w' = (sent w ++ [request_of c q])%list.
Proof.
  destruct (submit_locked c w) as [[_ ->]|[[?|?] _]]; [|lia|done].
  destruct (execute_cases c w) as [(p' & q' & Hsell' & ->)|[Hn _]]; [|by destruct (Hn p q)].
  destruct (sellable_unique c w p p' q q' Hsell Hsell') as [<- <-].
  unfold submit_verified. set (attentions := if cx_corrective c then _ else _).
  assert (Ha : exists l, attentions w = (Ok l, w))
    by (unfold attentions; destruct (cx_corrective c); by eexists).
  destruct Ha as [l Ha]. unfold mbind, eff_bind. rewrite Ha.
  pose proof (resolve_attentions_quiet c (to_upper (cx_symbol c)) p q l w) as (_ & _ & H1).
  destruct (resolve_attentions_ok c (to_upper (cx_symbol c)) p q l w Hresolve) as [w1 E1].
  rewrite E1 in *. cbn [snd] in H1.
  pose proof (authorize_quiet (cx_tradingAccountId c) "RISK_REDUCING_WRITE" w1) as (_ & _ & H2).
  destruct (Hauthorize (cx_tradingAccountId c) "RISK_REDUCING_WRITE" w1) as [w2 E2].
  rewrite E2 in *. cbn [snd] in H2.
  exists (set_sent (fun l => l ++ [request_of c q])%list w2).
  split; [|cbn [set_sent sent]; congruence].
  unfold submit_once, try_catch, submitVerifiedAlpacaExitOrder, mbind, eff_bind.
  pose proof (Haccept w2) as Hw. cbn [request_of snd] in Hw. by rewrite Hw.
Qed.
End Safety.

(** * Concrete inputs *)

#[local] Existing Instance in_order.

(** A broker that holds two and a half shares, and services that answer. *)
Definition held_position : AlpacaPosition :=
  {| rawp_asset_id := "asset-1"; rawp_symbol := "AAPL"; rawp_side := "long";
     rawp_qty := Some (RawText "2.50"); rawp_qty_available := Some (RawText "2.5");
     rawp_avg_entry_price := None; rawp_current_price := None; rawp_market_value := None;
     rawp_cost_basis := None; rawp_unrealized_pl := None; rawp_unrealized_plpc := None |}.
Definition accepted_order : AlpacaOrder :=
  {| rawo_id := "b-9"; rawo_client_order_id := "ai-exit-close-1-9"; rawo_symbol := "AAPL";
     rawo_side := "sell"; rawo_type := "market"; rawo_time_in_force := "day";
     rawo_qty := Some (RawText "2.5"); rawo_notional := None; rawo_limit_price := None;
     rawo_stop_price := None; rawo_status := "accepted"; rawo_submitted_at := "2026-01-05T15:00:00Z";
     rawo_filled_qty := None; rawo_filled_avg_price := None; rawo_trail_price := None;
     rawo_trail_percent := None; rawo_replaced_by := None |}.
Definition holding_broker : ExitBroker :=
  {| order_by_client_id := fun _ _ _ _ => Ok None; order_by_id := fun _ _ _ => Ok None;
     position_by_symbol := fun _ _ _ => Ok (Some held_position);
     open_orders := fun _ _ => Ok [];
     submit_answer := fun _ _ _ => Ok accepted_order |}.
Definition answering_services : ExitServices :=
  {| attention_open := fun _ _ => false;
     openOrObserveOperationalAttention := fun _ _ _ _ _ => mret tt;
     open_exit_attentions := fun _ _ _ => [(3, 1, "exit-safety:1:9:QUANTITY_MISMATCH")];
     resolveOperationalAttention := fun _ _ _ _ => mret tt;
     authorizeLiveBrokerWrite := fun _ _ => mret tt; forceAfterBrokerWrite := fun _ _ => mret tt;
     try_lock := fun _ _ => Some true;
     env_NODE_ENV := "production"; env_LIVE_WRITE_DEPLOYMENT_ROLE := "PRODUCTION_EXECUTOR" |}.
#[local] Existing Instance holding_broker.
#[local] Existing Instance answering_services.
#[local] Instance answering_laws : ExitServicesLaws answering_services.
Proof. split; intros; apply moves_ret; typeclasses eauto. Qed.

Definition sample_context : VerifiedExitContext :=
  {| cx_corrective := false; cx_tradingAccountId := 1; cx_trackedPositionId := 9;
     cx_orderIntentId := 5; cx_securityId := 7; cx_symbol := "aapl";
     cx_localTrackedQty := RawNumber (num_dec 25 1); cx_intendedQty := RawText "2.500";
     cx_attributedExitFilledQty := None; cx_clientOrderId := "ai-exit-close-1-9";
     cx_correlationId := None; cx_order := MarketExit "day" |}.
Definition sample_world : ExitWorld :=
  {| xw_db := {| securities := []; subscriptions := [];
       tradingAccounts := [{| ta_id := 1; ta_displayName := "Main"; ta_broker := "ALPACA"; ta_environment := "PAPER";
          ta_status := "ACTIVE"; ta_credentialStatus := Some "ACTIVE"; ta_maxDeployableNotional := None |}];
       riskSettings := []; accountSubscriptions := []; orderIntents := []; brokerOrders := [];
       brokerActivities := []; trackedPositions := []; claims := []; claimEvents := [];
       opportunityEvents := []; dispatchConsumptions := []; unenforcedDispatches := [];
       armingTerminations := []; acceptanceRuns := [] |};
     exitStates := []; systemEvents := []; sent := [] |}.
Definition two_and_a_half : ExactDecimal := {| coefficient := 25; scale := 1; canonical := "2.5" |}.
Definition sample_quantities : ExitQuantities :=
  {| xq_held := two_and_a_half; xq_available := two_and_a_half; xq_intended := two_and_a_half;
     xq_local := two_and_a_half |}.

Lemma sample_sellable : sellable sample_context sample_world held_position sample_quantities.
Proof.
  unfold sellable. split; [by eexists|]. do 5 (split; [reflexivity|]).
  split; [by exists []|]. split; [vm_compute; reflexivity|]. repeat split.
Qed.

Lemma verified_exit_submits_witness :
  exists w', submitVerifiedExit 1000 sample_context sample_world = (Ok (SUBMITTED accepted_order), w') /\
    map (fun r => xr_qty (snd r)) (sent w') = ["2.5"].
Proof.
  destruct (verified_exit_submits (S := answering_services) 1000 sample_context sample_world held_position sample_quantities
    accepted_order eq_refl eq_refl sample_sellable (fun _ _ _ _ w => ex_intro _ w eq_refl)
    (fun _ _ w => ex_intro _ w eq_refl) (fun _ => eq_refl)) as (w' & E & Hs).
  exists w'. split; [exact E|]. rewrite Hs. reflexivity.
Defined.

(** Class laws are satisfiable, and the safe exit of the sample goes out. *)
Lemma verified_exit_never_oversells_witness :
  sent (snd (submitVerifiedExit 1000 sample_context sample_world)) =
    [request_of sample_context sample_quantities].
Proof.
  pose proof (verified_exit_never_oversells 1000 sample_context sample_world) as H.
  assert (Hr : exists w', submitVerifiedExit 1000 sample_context sample_world =
    (Ok (SUBMITTED accepted_order), w')) by (eexists; vm_compute; reflexivity).
  destruct Hr as [w' E]. rewrite E in H. rewrite E. cbn [snd].
  destruct H as [[_ Hn]|(p & q & Hsell & _ & Hs & _)]; [by destruct (Hn accepted_order)|].
  destruct (sellable_unique sample_context sample_world _ _ _ _ Hsell sample_sellable) as [_ ->].
  exact Hs.
Defined.
