(* ===== verification/ClosePosition.v ===== *)
(** Closing a tracked position: services/close-position.service.ts. One
    serializable transaction claims the position and writes the close intent,
    the verified exit submits, and every failure either gives the claim back or
    leaves it for deterministic recovery. *)

From Stdlib Require Import ZArith Lia.
From Stdlib Require Import Strings.String.
From Stdlib Require Import Floats.SpecFloat.
From stdpp Require Import base list strings.
From S2P Require Import Prelude JsNumber JsValue Prisma OrderStatus DeliveryEvidence Schema.
From S2P Require Import BrokerAccount ExactDecimal ExitWorld ExitState WorkflowLock VerifiedExit.

Open Scope string_scope.
Open Scope Z_scope.

Inductive ClosePositionMode := AUTOMATED_STRATEGY | MANUAL_EMERGENCY_CLOSE.

Definition close_mode_str (m : ClosePositionMode) : string :=
  match m with
  | AUTOMATED_STRATEGY => "AUTOMATED_STRATEGY"
  | MANUAL_EMERGENCY_CLOSE => "MANUAL_EMERGENCY_CLOSE"
  end.

Definition buildCloseClientOrderId (tradingAccountId trackedPositionId : Z) : string :=
  String.substring 0 128
    ("ai-exit-close-" ++ z_str tradingAccountId ++ "-" ++ z_str trackedPositionId).

(** Every thrown value of the model is an Error. *)
Definition sanitizeError (e : js_error) : string := error_message e.

Definition DELIVERY_CLASSIFICATION_PREFIX : string := "BROKER_WRITE_DELIVERY".

Definition getDeliveryClassification (e : js_error) : string :=
  match e with DeliveryError classification _ _ => classification | _ => "DELIVERY_UNCERTAIN" end.

(** The outcome a verification block carries in its details. *)
Definition isExitVerificationBlock (e : js_error) : option string :=
  match e with
  | HttpError _ _ details | PreSubmissionError _ _ details _ =>
      match jfield "verificationOutcome" details, jfield "authorizationResult" details with
      | Some (JStr outcome), Some (JStr "NOT_ATTEMPTED") => Some outcome
      | _, _ => None
      end
  | _ => None
  end.

Definition closeFailureSeverity (classification environment : string) (hasVerifiedProtection : bool)
    : Severity :=
  if String.eqb classification "DELIVERY_UNCERTAIN" then
    if String.eqb environment "LIVE" then CRITICAL else ERROR
  else if String.eqb classification "BROKER_REJECTED" then ERROR
  else if hasVerifiedProtection then WARNING else ERROR.

Inductive BrokerOrderRef := LocalOrderId (id : Z) | BrokerOrderId (id : string).

Record ClosePositionResult := {
  cp_trackedPositionId : Z;
  cp_symbol : string;
  cp_tradingAccountId : Z;
  cp_orderIntentId : Z;
  cp_brokerOrderId : BrokerOrderRef;
  cp_clientOrderId : string
}.

(** What the claiming transaction hands on. *)
Record CloseClaim := {
  cc_position : TrackedPosition;
  cc_tradingAccountId : Z;
  cc_environment : option string;
  cc_intent : OrderIntent;
  cc_clientOrderId : string
}.

Section Close.
Context `{Prisma} `{ExitBroker} `{ExitServices}.
Variable now : Z.

(** The assignment a position refers to, as an [include] loads it. *)
Definition assignment_of (p : TrackedPosition) (db : Db) : option TradingAccountSubscription :=
  id ← tp_tradingAccountSubscriptionId p;
  find_first (fun a => tas_id a =? id) (accountSubscriptions db).

(** The assignment is the position's own: same account, same subscription. *)
Definition assignment_matches (a : TradingAccountSubscription) (tradingAccountId : Z)
    (p : TrackedPosition) : bool :=
  (tas_tradingAccountId a =? tradingAccountId) &&
  bool_decide (tp_subscriptionId p = Some (tas_subscriptionId a)).

Definition environment_of (tradingAccountId : Z) (db : Db) : option string :=
  option_map ta_environment
    (find_first (fun a => ta_id a =? tradingAccountId) (tradingAccounts db)).

(** A close of the position that may still be working. *)
Definition pending_close_intent (trackedPositionId : Z) (i : OrderIntent) : bool :=
  opt_eqb (oi_trackedPositionId i) trackedPositionId && String.eqb (oi_source i) "close-position" &&
  member (oi_status i) ["pending"; "submitting"; "submitted"].
Definition working_broker_order (trackedPositionId : Z) (o : BrokerOrder) : bool :=
  opt_eqb (bo_trackedPositionId o) trackedPositionId &&
  NONTERMINAL_BROKER_ORDER_PRISMA_FILTER (bo_status o).

Definition close_intent (mode : ClosePositionMode) (p : TrackedPosition) (tradingAccountId : Z)
    (assignmentId : Z) (clientOrderId : string) (id : Z) : OrderIntent :=
  {| oi_id := id; oi_source := "close-position"; oi_symbol := to_upper (tp_symbol p);
     oi_side := "sell"; oi_orderType := "market"; oi_timeInForce := "day";
     oi_qty := Some (nabs (tp_qty p)); oi_notional := None; oi_limitPrice := None;
     oi_clientOrderId := Some clientOrderId; oi_status := "submitting"; oi_blockReason := None;
     oi_rawRequestJson := JObj [("signalType", JStr "exit"); ("source", JStr "close-position");
       ("mode", JStr (close_mode_str mode)); ("trackedPositionId", jint (tp_id p));
       ("tradingAccountId", jint tradingAccountId); ("tradingAccountSubscriptionId", jint assignmentId)];
     oi_createdAt := now; oi_updatedAt := now; oi_subscriptionId := tp_subscriptionId p;
     oi_subscriptionKey := None; oi_trackedPositionId := Some (tp_id p);
     oi_tradingAccountId := Some tradingAccountId;
     oi_tradingAccountSubscriptionId := Some assignmentId; oi_liveEntryAcceptanceRunId := None;
     oi_lastSubmittedOrderSyncAt := None |}.

Definition pending_message (id : Z) : string :=
  "A close is already pending for tracked position " ++ z_str id ++ ".".

(** The claiming transaction. *)
Definition claim_close (trackedPositionId : Z) (mode : ClosePositionMode) : eff ExitWorld CloseClaim :=
  transaction (
  row ← db_asks (find_position trackedPositionId);
  match row with
  | None => throw (HttpError 404
      ("Active tracked position " ++ z_str trackedPositionId ++ " was not found.") JNull)
  | Some p =>
  intents ← db_asks (fun db => find_many (pending_close_intent (tp_id p)) (orderIntents db));
  orders ← db_asks (fun db => find_many (working_broker_order (tp_id p)) (brokerOrders db));
  match tp_tradingAccountId p with
  | None => throw (HttpError 409
      ("Tracked position " ++ z_str (tp_id p) ++ " has no TradingAccount identity.") JNull)
  | Some tradingAccountId =>
  if negb (String.eqb (to_lower (tp_side p)) "long") then
    throw (HttpError 409 "AI Trader does not automatically cover or manage short exposure." JNull)
  else
  assignment ← db_asks (assignment_of p);
  match assignment with
  | Some a =>
    if negb (assignment_matches a tradingAccountId p) then
      throw (HttpError 409 ("Tracked position " ++ z_str (tp_id p) ++
        " has missing or inconsistent account assignment identity.") JNull)
    else if match mode with AUTOMATED_STRATEGY => negb (tas_enabled a) || negb (tas_exitsEnabled a)
                          | MANUAL_EMERGENCY_CLOSE => false end then
      throw (HttpError 409 ("TradingAccountSubscription " ++ z_str (tas_id a) ++
        " has automated exits disabled.") JNull)
    else if negb (String.eqb (tp_status p) "open") || (0 <? Z.of_nat (length intents)) ||
            (0 <? Z.of_nat (length orders)) then
      throw (HttpError 409 (pending_message (tp_id p)) JNull)
    else
    claimed ← move_position (tp_id p) "open" "closing";
    if negb (claimed =? 1) then throw (HttpError 409 (pending_message (tp_id p)) JNull)
    else
    let clientOrderId := buildCloseClientOrderId tradingAccountId (tp_id p) in
    intent ← insert_intent_row (close_intent mode p tradingAccountId (tas_id a) clientOrderId);
    environment ← db_asks (environment_of tradingAccountId);
    mret {| cc_position := p; cc_tradingAccountId := tradingAccountId;
            cc_environment := environment; cc_intent := intent; cc_clientOrderId := clientOrderId |}
  | None =>
      throw (HttpError 409 ("Tracked position " ++ z_str (tp_id p) ++
        " has missing or inconsistent account assignment identity.") JNull)
  end end end).

(** Give the claim back: the intent ends, the position is open again. *)
Definition release_close (claim : CloseClaim) (from : list string) (status blockReason : string)
    : eff ExitWorld unit :=
  transaction (
  _ ← update_intents now (fun i => intent_is (oi_id (cc_intent claim)) i && member (oi_status i) from)
        (Some status) (Some (Some blockReason));
  _ ← move_position (tp_id (cc_position claim)) "closing" "open";
  mret tt).

Definition close_event (claim : CloseClaim) (mode : ClosePositionMode) (type classification message : string)
    (error : js_error) : eff ExitWorld unit :=
  match cc_environment claim with
  | None => throw (PlainError "Cannot read properties of null (reading 'environment')")
  | Some environment =>
      createSystemEvent type "trackedPosition" (tp_id (cc_position claim))
        (Some (cc_tradingAccountId claim)) (closeFailureSeverity classification environment false)
        (Some message)
        (JObj [("trackedPositionId", jint (tp_id (cc_position claim)));
               ("orderIntentId", jint (oi_id (cc_intent claim)));
               ("clientOrderId", JStr (cc_clientOrderId claim));
               ("mode", JStr (close_mode_str mode));
               ("deliveryClassification", JStr classification);
               ("error", JStr (sanitizeError error))])
  end.

(** The [catch] of the submission: always throws. *)
Definition close_failed {A} (claim : CloseClaim) (mode : ClosePositionMode) (error : js_error)
    : eff ExitWorld A :=
  let symbol := to_upper (tp_symbol (cc_position claim)) in
  let intentId := oi_id (cc_intent claim) in
  match isExitVerificationBlock error with
  | Some outcome =>
      _ ← release_close claim ["pending"; "submitting"] "blocked" ("EXIT_VERIFICATION:" ++ outcome);
      throw error
  | None =>
  let classification := getDeliveryClassification error in
  let reason := DELIVERY_CLASSIFICATION_PREFIX ++ ":" ++ classification ++ ":" ++ sanitizeError error in
  if negb (String.eqb classification "DELIVERY_UNCERTAIN") then
    _ ← release_close claim ["submitting"]
          (if String.eqb classification "NOT_SENT_BLOCKED" then "blocked" else "failed") reason;
    let rejected := String.eqb classification "BROKER_REJECTED" in
    _ ← close_event claim mode
          (if rejected then "position.close_rejected" else "position.close_not_sent") classification
          (symbol ++ (if rejected
             then " close was rejected and no broker order exists; the local claim was released."
             else " close was not sent to the broker; the local claim was released.")) error;
    throw error
  else
    _ ← update_intents now (fun i => intent_is intentId i && String.eqb (oi_status i) "submitting")
          None (Some (Some reason));
    _ ← close_event claim mode "position.close_submission_uncertain" "DELIVERY_UNCERTAIN"
          (symbol ++ " close delivery is uncertain; deterministic recovery is required.") error;
    throw error
  end.

Definition close_context (claim : CloseClaim) (mode : ClosePositionMode) : VerifiedExitContext :=
  let p := cc_position claim in
  {| cx_corrective := false; cx_tradingAccountId := cc_tradingAccountId claim;
     cx_trackedPositionId := tp_id p; cx_orderIntentId := oi_id (cc_intent claim);
     cx_securityId := tp_securityId p; cx_symbol := to_upper (tp_symbol p);
     cx_localTrackedQty := RawNumber (tp_qty p); cx_intendedQty := RawNumber (nabs (tp_qty p));
     cx_attributedExitFilledQty := None; cx_clientOrderId := cc_clientOrderId claim;
     cx_correlationId := Some (close_mode_str mode ++ ":" ++ z_str (tp_id p));
     cx_order := MarketExit "day" |}.

Definition close_result (claim : CloseClaim) (order : BrokerOrderRef) (clientOrderId : string)
    : ClosePositionResult :=
  {| cp_trackedPositionId := tp_id (cc_position claim);
     cp_symbol := to_upper (tp_symbol (cc_position claim));
     cp_tradingAccountId := cc_tradingAccountId claim; cp_orderIntentId := oi_id (cc_intent claim);
     cp_brokerOrderId := order; cp_clientOrderId := clientOrderId |}.

Definition close_order_row (claim : CloseClaim) (o : AlpacaOrder) (id createdAt : Z) : BrokerOrder :=
  {| bo_id := id; bo_orderIntentId := oi_id (cc_intent claim); bo_broker := "alpaca";
     bo_brokerOrderId := rawo_id o; bo_clientOrderId := rawo_client_order_id o;
     bo_symbol := to_upper (rawo_symbol o); bo_side := rawo_side o; bo_status := rawo_status o;
     bo_securityId := tp_securityId (cc_position claim);
     bo_trackedPositionId := Some (tp_id (cc_position claim));
     bo_tradingAccountId := Some (cc_tradingAccountId claim); bo_rawBrokerJson := order_json o;
     bo_createdAt := createdAt |}.

(** Store the broker's order and mark the intent submitted. *)
Definition persist_close (claim : CloseClaim) (o : AlpacaOrder) : eff ExitWorld unit :=
  transaction (
  existing ← db_asks (fun db => find_first (fun r =>
    opt_eqb (bo_tradingAccountId r) (cc_tradingAccountId claim) &&
    String.eqb (bo_broker r) "alpaca" && String.eqb (bo_brokerOrderId r) (rawo_id o)) (brokerOrders db));
  _ ← save_broker_order now (option_map bo_id existing) (close_order_row claim o);
  _ ← update_intents now (fun i => intent_is (oi_id (cc_intent claim)) i && String.eqb (oi_status i) "submitting")
        (Some "submitted") (Some None);
  mret tt).

(** Everything after the claim. *)
Definition close_claimed (claim : CloseClaim) (mode : ClosePositionMode) : eff ExitWorld ClosePositionResult :=
  let symbol := to_upper (tp_symbol (cc_position claim)) in
  submitted ← try_catch
    (result ← submitVerifiedExit now (close_context claim mode);
     match result with
     | RECOVERED_LOCAL id =>
         _ ← update_intents now (intent_is (oi_id (cc_intent claim))) (Some "submitted") (Some None);
         mret (inl (close_result claim (LocalOrderId id) (cc_clientOrderId claim)))
     | RECOVERED_BROKER order | SUBMITTED order => mret (inr order)
     end)
    (close_failed claim mode);
  match submitted with
  | inl result => mret result
  | inr o =>
      _ ← persist_close claim o;
      _ ← forceAfterBrokerWrite (cc_tradingAccountId claim) "broker_position_close_requested";
      _ ← createSystemEvent "position.close_requested" "trackedPosition" (tp_id (cc_position claim))
            (Some (cc_tradingAccountId claim)) INFO None
            (JObj [("symbol", JStr symbol); ("broker", JStr "alpaca");
                   ("trackedPositionId", jint (tp_id (cc_position claim)));
                   ("orderIntentId", jint (oi_id (cc_intent claim)));
                   ("brokerOrderId", JStr (rawo_id o));
                   ("clientOrderId", JStr (rawo_client_order_id o));
                   ("mode", JStr (close_mode_str mode))]);
      mret (close_result claim (BrokerOrderId (rawo_id o)) (rawo_client_order_id o))
  end.

Definition closePosition (trackedPositionId : Z) (mode : ClosePositionMode)
    : eff ExitWorld ClosePositionResult :=
  claim ← claim_close trackedPositionId mode;
  close_claimed claim mode.
End Close.

(** * What a close may touch *)

(** Of the intents, only [iid] changes, and keeps its identity. *)
Definition intent_key (i : OrderIntent) :=
  (oi_source i, oi_tradingAccountId i, oi_clientOrderId i, oi_createdAt i).
Definition own_intent (iid : Z) (f : OrderIntent -> OrderIntent) : Prop := forall i,
  oi_id (f i) = oi_id i /\ oi_trackedPositionId (f i) = oi_trackedPositionId i /\
  intent_key (f i) = intent_key i /\ (oi_id i <> iid -> f i = i).

Definition intents_frame (iid : Z) (w w' : ExitWorld) : Prop :=
  exists f, orderIntents (xw_db w') = map f (orderIntents (xw_db w)) /\ own_intent iid f.

(** The verified exit, besides, only ever blocks that intent, and leaves the
    other tables alone. *)
Definition without_intents (w : ExitWorld) : Db := set_orderIntents (fun _ => []) (xw_db w).
Definition exit_frame (iid : Z) (w w' : ExitWorld) : Prop :=
  without_intents w' = without_intents w /\ exitStates w' = exitStates w /\
  exists f, orderIntents (xw_db w') = map f (orderIntents (xw_db w)) /\ own_intent iid f /\
    forall i, oi_status (f i) = oi_status i \/ oi_status (f i) = "blocked".

Lemma own_intent_id iid : own_intent iid (fun i => i).
Proof. by intros i. Qed.

Lemma own_intent_compose iid f g :
  own_intent iid f -> own_intent iid g -> own_intent iid (fun i => g (f i)).
Proof.
  intros Hf Hg i. destruct (Hf i) as (f1 & f2 & f3 & f4), (Hg (f i)) as (g1 & g2 & g3 & g4).
  split; [congruence|]. split; [congruence|]. split; [congruence|].
  intros Hi. rewrite g4 by congruence. by apply f4.
Qed.

#[export] Instance intents_frame_preorder iid : PreOrder (intents_frame iid).
Proof.
  split.
  - intros w. exists (fun i => i). split; [by rewrite map_id|apply own_intent_id].
  - intros a b c (f & Ef & Hf) (g & Eg & Hg). exists (fun i => g (f i)).
    split; [by rewrite Eg, Ef, map_map|by apply own_intent_compose].
Qed.

#[export] Instance exit_frame_preorder iid : PreOrder (exit_frame iid).
Proof.
  split.
  - intros w. split; [done|]. split; [done|]. exists (fun i => i).
    split; [by rewrite map_id|]. split; [apply own_intent_id|by left].
  - intros a b c (A1 & A2 & f & Ef & Hf & Sf) (B1 & B2 & g & Eg & Hg & Sg).
    split; [congruence|]. split; [congruence|]. exists (fun i => g (f i)).
    split; [by rewrite Eg, Ef, map_map|]. split; [by apply own_intent_compose|].
    intros i. destruct (Sg (f i)) as [-> | ->]; [apply Sf|by right].
Qed.

Lemma exit_frame_intents iid w w' : exit_frame iid w w' -> intents_frame iid w w'.
Proof. intros (_ & _ & f & E & Hf & _). by exists f. Qed.

Lemma same_trading_exit_frame iid w w' : same_trading w w' -> exit_frame iid w w'.
Proof.
  intros (E & Es & _). unfold exit_frame, without_intents. rewrite E, Es.
  split; [done|]. split; [done|]. exists (fun i => i).
  split; [by rewrite map_id|]. split; [apply own_intent_id|by left].
Qed.

Section Frame.
Context `{PrismaLaws} `{ExitBroker} {S : ExitServices} `{!ExitServicesLaws S}.
Variable now : Z.

Lemma intent_data_own iid where_ st b :
  (forall i, where_ i = true -> oi_id i = iid) ->
  own_intent iid (fun i => if where_ i then intent_data now st b i else i).
Proof.
  intros Hw i. destruct (where_ i) eqn:E; [|done]. repeat split. intros Hi. by apply Hw in E.
Qed.

Lemma update_intents_db where_ st b w :
  snd (update_intents now where_ st b w) =
  set_db (set_orderIntents (map (fun i => if where_ i then intent_data now st b i else i))) w.
Proof. unfold update_intents. by rewrite update_many_eq. Qed.

Lemma update_intents_frame iid where_ st b :
  (forall i, where_ i = true -> oi_id i = iid) -> moves (intents_frame iid) (update_intents now where_ st b).
Proof.
  intros Hw w. rewrite update_intents_db. eexists. split; [reflexivity|]. by apply intent_data_own.
Qed.

Lemma update_blocked_frame iid b :
  moves (exit_frame iid) (update_intents now (intent_is iid) (Some "blocked") b).
Proof.
  intros w. rewrite update_intents_db. split; [done|]. split; [done|]. eexists.
  split; [reflexivity|]. split; [apply intent_data_own; by intros i ?%Z.eqb_eq|].
  intros i. destruct (intent_is iid i); [by right|by left].
Qed.

Lemma quiet_frame {A} iid (m : eff ExitWorld A) : moves same_trading m -> moves (exit_frame iid) m.
Proof. apply moves_weaken, same_trading_exit_frame. Qed.

Hint Extern 1 (moves (exit_frame _) (createSystemEvent _ _ _ _ _ _ _)) => apply quiet_frame, event_quiet : moves.
Hint Extern 1 (moves (exit_frame _) (openOrObserveOperationalAttention _ _ _ _ _)) =>
  apply quiet_frame, attention_quiet : moves.
Hint Extern 1 (moves (exit_frame _) (authorizeLiveBrokerWrite _ _)) =>
  apply quiet_frame, authorize_quiet : moves.
Hint Extern 1 (moves (exit_frame _) (resolve_attentions _ _ _ _ _ _)) =>
  apply quiet_frame, resolve_attentions_quiet : moves.
Hint Resolve update_blocked_frame : moves.

Lemma block_frame {A} c env o m e :
  moves (exit_frame (cx_orderIntentId c)) (block (A := A) now c env o m e).
Proof. unfold block. solve_moves. Qed.
Hint Resolve block_frame : moves.

Lemma submit_adapter_frame iid a r : moves (exit_frame iid) (submitVerifiedAlpacaExitOrder a r).
Proof.
  intros w. unfold submitVerifiedAlpacaExitOrder. cbn [snd]. split; [done|]. split; [done|].
  exists (fun i => i). split; [by rewrite map_id|]. split; [apply own_intent_id|by left].
Qed.
Hint Resolve submit_adapter_frame : moves.

Lemma submit_frame c : moves (exit_frame (cx_orderIntentId c)) (submitVerifiedExit now c).
Proof.
  unfold submitVerifiedExit, withTradingAccountWorkflowLock, executeVerifiedExit, verify_quantities,
    submit_verified, submit_once, lookup_failed, db_asks.
  solve_moves.
Qed.
End Frame.

(** * The claim *)

(** What holds when the claiming transaction committed. *)
Record claim_granted `{Prisma} (now : Z) (id : Z) (mode : ClosePositionMode) (w : ExitWorld)
    (claim : CloseClaim) : Prop := {
  cg_position : find_position id (xw_db w) = Some (cc_position claim);
  cg_account : tp_tradingAccountId (cc_position claim) = Some (cc_tradingAccountId claim);
  cg_environment : cc_environment claim = environment_of (cc_tradingAccountId claim) (xw_db w);
  cg_long : to_lower (tp_side (cc_position claim)) = "long";
  cg_open : tp_status (cc_position claim) = "open";
  cg_no_intent : forall i, In i (orderIntents (xw_db w)) ->
    pending_close_intent (tp_id (cc_position claim)) i = false;
  cg_no_order : forall o, In o (brokerOrders (xw_db w)) ->
    working_broker_order (tp_id (cc_position claim)) o = false;
  cg_assignment : exists a, assignment_of (cc_position claim) (xw_db w) = Some a /\
    assignment_matches a (cc_tradingAccountId claim) (cc_position claim) = true /\
    (mode = AUTOMATED_STRATEGY -> tas_enabled a = true /\ tas_exitsEnabled a = true) /\
    cc_intent claim = close_intent now mode (cc_position claim) (cc_tradingAccountId claim) (tas_id a)
      (cc_clientOrderId claim) (next_id (map oi_id (orderIntents (xw_db w))));
  cg_clientOrderId : cc_clientOrderId claim =
    buildCloseClientOrderId (cc_tradingAccountId claim) (tp_id (cc_position claim))
}.

(** The state the claim commits. *)
Definition claim_world (claim : CloseClaim) (w : ExitWorld) : ExitWorld :=
  set_db (fun db => set_orderIntents (fun l => l ++ [cc_intent claim])%list
    (set_trackedPositions (map (fun p =>
       if position_in (tp_id (cc_position claim)) "open" p then set_positionStatus "closing" p else p)) db)) w.

Section Claim.
Context `{PrismaLaws}.
Variable now : Z.

Lemma find_many_nil {A} (p : A -> bool) l :
  (0 <? Z.of_nat (length (find_many p l))) = false -> forall x, In x l -> p x = false.
Proof.
  rewrite find_many_length. intros E x Hx. destruct (p x) eqn:Px; [|done].
  assert (Hf : In x (filterb p l)) by by apply filterb_In.
  destruct (filterb p l); [done|]. cbn in E. by apply Z.ltb_ge in E.
Qed.

Lemma claim_cases id mode w :
  (exists e, claim_close now id mode w = (Throw e, w)) \/
  (exists claim, claim_close now id mode w = (Ok claim, claim_world claim w) /\
     claim_granted now id mode w claim).
Proof.
  unfold claim_close, transaction.
  change ((db_asks ?f ≫= ?k) w) with (k (f (xw_db w)) w). cbv beta.
  destruct (find_position id (xw_db w)) as [p|] eqn:Ep; [|left; by eexists].
  change ((db_asks ?f ≫= ?k) w) with (k (f (xw_db w)) w). cbv beta.
  change ((db_asks ?f ≫= ?k) w) with (k (f (xw_db w)) w). cbv beta.
  destruct (tp_tradingAccountId p) as [account|] eqn:Ea; [|left; by eexists].
  destruct (negb (String.eqb _ "long")) eqn:El; [left; by eexists|].
  apply negb_false_iff, String.eqb_eq in El.
  change ((db_asks ?f ≫= ?k) w) with (k (f (xw_db w)) w). cbv beta.
  destruct (assignment_of p (xw_db w)) as [a|] eqn:Eas; [|left; by eexists].
  destruct (negb (assignment_matches a account p)) eqn:Em; [left; by eexists|].
  apply negb_false_iff in Em.
  destruct (match mode with AUTOMATED_STRATEGY => _ | _ => _ end) eqn:Emode; [left; by eexists|].
  destruct (negb (String.eqb (tp_status p) "open") || _ || _) eqn:Est; [left; by eexists|].
  apply orb_false_iff in Est as [[Hopen%negb_false_iff%String.eqb_eq Hi]%orb_false_iff Ho].
  unfold mbind, eff_bind, move_position. rewrite update_many_eq.
  destruct (negb (_ =? 1)) eqn:Ec; [left; by eexists|].
  right. exists {| cc_position := p; cc_tradingAccountId := account;
    cc_environment := environment_of account (xw_db w);
    cc_intent := close_intent now mode p account (tas_id a) (buildCloseClientOrderId account (tp_id p))
                   (next_id (map oi_id (orderIntents (xw_db w))));
    cc_clientOrderId := buildCloseClientOrderId account (tp_id p) |}.
  split; [reflexivity|].
  split; cbn [cc_position cc_tradingAccountId cc_environment cc_intent cc_clientOrderId]; try done.
  - by apply find_many_nil.
  - by apply find_many_nil.
  - exists a. split; [done|]. split; [done|]. split; [|done].
    intros ->. by apply orb_false_iff in Emode as [?%negb_false_iff ?%negb_false_iff].
Qed.

(** A position that is not open cannot be claimed. *)
Lemma claim_refused_unless_open id mode w p :
  find_position id (xw_db w) = Some p -> tp_status p <> "open" ->
  exists m, claim_close now id mode w = (Throw (HttpError 409 m JNull), w).
Proof.
  intros Ep Hs. destruct (claim_cases id mode w) as [[e E]|(claim & E & Hg)].
  2: { destruct Hg as [Hp _ _ _ Ho _ _ _ _]. rewrite Ep in Hp. injection Hp as Hp. destruct Hs. by rewrite Hp. }
  rewrite E. revert E. unfold claim_close, transaction.
  change ((db_asks ?f ≫= ?k) w) with (k (f (xw_db w)) w). cbv beta. rewrite Ep.
  change ((db_asks ?f ≫= ?k) w) with (k (f (xw_db w)) w). cbv beta.
  change ((db_asks ?f ≫= ?k) w) with (k (f (xw_db w)) w). cbv beta.
  destruct (tp_tradingAccountId p) as [account|]; [|intros [= <-]; by eexists].
  destruct (negb (String.eqb _ "long")); [intros [= <-]; by eexists|].
  change ((db_asks ?f ≫= ?k) w) with (k (f (xw_db w)) w). cbv beta.
  destruct (assignment_of p (xw_db w)) as [a|]; [|intros [= <-]; by eexists].
  destruct (negb (assignment_matches a account p)); [intros [= <-]; by eexists|].
  destruct (match mode with AUTOMATED_STRATEGY => _ | _ => _ end); [intros [= <-]; by eexists|].
  assert (String.eqb (tp_status p) "open" = false) as -> by by apply String.eqb_neq.
  intros [= <-]. by eexists.
Qed.
End Claim.

(** * One close at a time *)

(** Intent ids are unique, and no position has two closes that may work. *)
Definition single_close (w : ExitWorld) : Prop :=
  NoDup (map oi_id (orderIntents (xw_db w))) /\
  forall t i j, In i (orderIntents (xw_db w)) -> In j (orderIntents (xw_db w)) ->
    pending_close_intent t i = true -> pending_close_intent t j = true -> i = j.

(** Of the closes of a position, only [iid] may be working. *)
Definition only_pending (iid t : Z) (w : ExitWorld) : Prop :=
  NoDup (map oi_id (orderIntents (xw_db w))) /\
  (forall i, In i (orderIntents (xw_db w)) -> pending_close_intent t i = true -> oi_id i = iid) /\
  (forall i, In i (orderIntents (xw_db w)) -> oi_id i = iid -> oi_trackedPositionId i = Some t) /\
  forall t' i j, t' <> t -> In i (orderIntents (xw_db w)) -> In j (orderIntents (xw_db w)) ->
    pending_close_intent t' i = true -> pending_close_intent t' j = true -> i = j.

Section SingleClose.
Context `{PrismaLaws} `{ExitBroker} {S : ExitServices} `{!ExitServicesLaws S}.
Variable now : Z.

Lemma pending_position t i : pending_close_intent t i = true -> oi_trackedPositionId i = Some t.
Proof. unfold pending_close_intent, opt_eqb. intros [[Hp%bool_decide_eq_true_1 _]%andb_prop _]%andb_prop. done. Qed.

Lemma only_pending_single iid t w : only_pending iid t w -> single_close w.
Proof.
  intros (Hnd & Hp & Ho & Hd). split; [done|]. intros t' i j Hi Hj Pi Pj.
  destruct (decide (t' = t)) as [->|Hne]; [|by apply (Hd t')].
  apply (NoDup_key_inj oi_id _ i j Hnd Hi Hj). rewrite (Hp i), (Hp j); done.
Qed.

Lemma only_pending_frame iid t : forall w w',
  intents_frame iid w w' -> only_pending iid t w -> only_pending iid t w'.
Proof.
  intros w w' (f & E & Hf) (Hnd & Hp & Ho & Hd). unfold only_pending. rewrite E.
  assert (Hother : forall t' i, pending_close_intent t' (f i) = true ->
            In i (orderIntents (xw_db w)) -> oi_id i <> iid -> f i = i)
    by (intros t' i _ _ Hne; by apply Hf).
  assert (Himg : forall i', In i' (map f (orderIntents (xw_db w))) ->
            exists i, In i (orderIntents (xw_db w)) /\ i' = f i /\ oi_id i' = oi_id i /\
              oi_trackedPositionId i' = oi_trackedPositionId i).
  { intros i' (i & <- & Hi)%in_map_iff. exists i. destruct (Hf i) as (? & ? & _). done. }
  split; [|split; [|split]].
  - rewrite map_map. rewrite (map_ext _ oi_id); [done|]. intros i. by apply Hf.
  - intros i' Hi' Hpi. destruct (Himg i' Hi') as (i & Hi & -> & Eid & _).
    destruct (decide (oi_id i = iid)) as [|Hne]; [congruence|].
    rewrite (Hother t i Hpi Hi Hne) in Hpi. rewrite Eid. by apply Hp.
  - intros i' Hi' Hid. destruct (Himg i' Hi') as (i & Hi & -> & Eid & ->). apply Ho; congruence.
  - intros t' i' j' Hne Hi' Hj' Pi Pj.
    destruct (Himg i' Hi') as (i & Hi & -> & Ei & Ti), (Himg j' Hj') as (j & Hj & -> & Ej & Tj).
    assert (Hi0 : oi_id i <> iid).
    { intros Hid. apply pending_position in Pi. rewrite Ti in Pi. rewrite (Ho i Hi Hid) in Pi. congruence. }
    assert (Hj0 : oi_id j <> iid).
    { intros Hid. apply pending_position in Pj. rewrite Tj in Pj. rewrite (Ho j Hj Hid) in Pj. congruence. }
    pose proof (Hother t' i Pi Hi Hi0) as Fi. pose proof (Hother t' j Pj Hj Hj0) as Fj.
    rewrite Fi in Pi |- *. rewrite Fj in Pj |- *. by apply (Hd t').
Qed.

(** The claim makes its own intent the only pending close of the position. *)
Lemma claim_only_pending id mode w claim :
  claim_granted now id mode w claim -> single_close w ->
  only_pending (oi_id (cc_intent claim)) (tp_id (cc_position claim)) (claim_world claim w).
Proof.
  intros [_ _ _ _ _ Hno _ (a & _ & _ & _ & Ei) _] [Hnd Hone].
  assert (Hid : oi_id (cc_intent claim) = next_id (map oi_id (orderIntents (xw_db w)))) by by rewrite Ei.
  assert (Ht : oi_trackedPositionId (cc_intent claim) = Some (tp_id (cc_position claim))) by by rewrite Ei.
  assert (Hfresh : forall i, In i (orderIntents (xw_db w)) -> oi_id i <> oi_id (cc_intent claim)).
  { intros i Hi E. rewrite Hid in E. apply (next_id_fresh (map oi_id (orderIntents (xw_db w)))).
    rewrite <- E. by apply in_map. }
  unfold only_pending, claim_world. cbn [xw_db set_db orderIntents set_orderIntents set_trackedPositions].
  split; [|split; [|split]].
  - rewrite map_app. apply NoDup_app. split; [done|]. split; [|apply NoDup_singleton].
    intros x (i & <- & Hi)%list_elem_of_In%in_map_iff Hx%list_elem_of_singleton.
    by apply (Hfresh i).
  - intros i [Hi|[<-|[]]]%in_app_iff Hp; [|done]. by rewrite Hno in Hp.
  - intros i [Hi|[<-|[]]]%in_app_iff E; [|done]. by apply Hfresh in Hi.
  - intros t' i j Hne [Hi|[<-|[]]]%in_app_iff [Hj|[<-|[]]]%in_app_iff Pi Pj; try done.
    + by apply (Hone t').
    + apply pending_position in Pj. congruence.
    + apply pending_position in Pi. congruence.
Qed.

Lemma db_frame iid g w :
  orderIntents (g (xw_db w)) = orderIntents (xw_db w) -> intents_frame iid w (set_db g w).
Proof. intros E. exists (fun i => i). split; [by rewrite map_id|apply own_intent_id]. Qed.

Lemma move_position_frame iid id from to : moves (intents_frame iid) (move_position id from to).
Proof. intros w. unfold move_position. rewrite update_many_eq. by apply db_frame. Qed.

Lemma save_order_frame iid e data : moves (intents_frame iid) (save_broker_order now e data).
Proof.
  unfold save_broker_order, db_asks. solve_moves; apply moves_modify; intros w; by apply db_frame.
Qed.

Lemma quiet_intents {A} iid (m : eff ExitWorld A) : moves same_trading m -> moves (intents_frame iid) m.
Proof. intros Hm. apply (moves_weaken _ _ _ (exit_frame_intents iid)), quiet_frame, Hm. Qed.

Hint Extern 1 (moves (intents_frame _) (createSystemEvent _ _ _ _ _ _ _)) =>
  apply quiet_intents, event_quiet : moves.
Hint Extern 1 (moves (intents_frame _) (forceAfterBrokerWrite _ _)) =>
  apply quiet_intents, polling_quiet : moves.
Hint Extern 1 (moves (intents_frame _) (submitVerifiedExit _ (close_context ?claim ?mode))) =>
  apply (moves_weaken _ _ _ (exit_frame_intents _)), (submit_frame _ (close_context claim mode)) : moves.
Hint Extern 1 (moves (intents_frame _) (update_intents _ _ _ _)) =>
  apply update_intents_frame; intros ? ?; unfold intent_is in *; bool_hyps; congruence : moves.
Hint Resolve move_position_frame save_order_frame : moves.

Lemma close_claimed_frame claim mode :
  moves (intents_frame (oi_id (cc_intent claim))) (close_claimed now claim mode).
Proof.
  unfold close_claimed, close_failed, persist_close, release_close, close_event, db_asks.
  solve_moves.
Qed.

Lemma closePosition_claimed id mode w :
  closePosition now id mode w =
  match claim_close now id mode w with
  | (Ok claim, w1) => close_claimed now claim mode w1
  | (Throw e, w1) => (Throw e, w1)
  end.
Proof. reflexivity. Qed.

Lemma close_keeps_single id mode : moves (keeps single_close) (closePosition now id mode).
Proof.
  intros w Hw. rewrite closePosition_claimed.
  destruct (claim_cases now id mode w) as [[e ->]|(claim & -> & Hg)]; [done|].
  apply (only_pending_single (oi_id (cc_intent claim)) (tp_id (cc_position claim))).
  eapply only_pending_frame; [apply close_claimed_frame|]. by apply (claim_only_pending id mode).
Qed.
End SingleClose.

(** * Giving the position back *)

(** The failure tells for certain that no order is working at the broker: a
    verification block, or a delivery known not to have happened. *)
Definition definite_failure (e : js_error) : bool :=
  bool_decide (isExitVerificationBlock e <> None) ||
  negb (String.eqb (getDeliveryClassification e) "DELIVERY_UNCERTAIN").

Section Recovery.
Context `{PrismaLaws} `{ExitBroker} {S : ExitServices} `{!ExitServicesLaws S}.
Variable now : Z.

(** The claim goes through whenever its conditions hold. *)
Lemma claim_succeeds id mode w p account a :
  find_position id (xw_db w) = Some p -> tp_tradingAccountId p = Some account ->
  to_lower (tp_side p) = "long" -> assignment_of p (xw_db w) = Some a ->
  assignment_matches a account p = true ->
  (mode = AUTOMATED_STRATEGY -> tas_enabled a = true /\ tas_exitsEnabled a = true) ->
  tp_status p = "open" -> NoDup (map tp_id (trackedPositions (xw_db w))) ->
  (forall i, In i (orderIntents (xw_db w)) -> pending_close_intent (tp_id p) i = false) ->
  (forall o, In o (brokerOrders (xw_db w)) -> working_broker_order (tp_id p) o = false) ->
  exists claim w1, claim_close now id mode w = (Ok claim, w1).
Proof.
  intros Ep Ea El Eas Em Hmode Hopen Hnd Hi Ho. unfold claim_close, transaction.
  change ((db_asks ?f ≫= ?k) w) with (k (f (xw_db w)) w). cbv beta. rewrite Ep.
  change ((db_asks ?f ≫= ?k) w) with (k (f (xw_db w)) w). cbv beta.
  change ((db_asks ?f ≫= ?k) w) with (k (f (xw_db w)) w). cbv beta.
  rewrite Ea, El, String.eqb_refl. cbn [negb].
  change ((db_asks ?f ≫= ?k) w) with (k (f (xw_db w)) w). cbv beta.
  rewrite Eas, Em. cbn [negb].
  assert (match mode with AUTOMATED_STRATEGY => negb (tas_enabled a) || negb (tas_exitsEnabled a)
          | MANUAL_EMERGENCY_CLOSE => false end = false) as ->.
  { destruct mode; [|done]. by destruct (Hmode eq_refl) as [-> ->]. }
  rewrite Hopen, String.eqb_refl, !find_many_length.
  rewrite (filterb_none _ _ Hi), (filterb_none _ _ Ho). cbn [length negb].
  change (false || (0 <? Z.of_nat 0) || (0 <? Z.of_nat 0)) with false. cbv iota.
  unfold mbind, eff_bind, move_position. rewrite update_many_eq.
  apply find_first_some in Ep as [Hin _].
  rewrite (filterb_unique tp_id _ _ p Hnd Hin).
  - cbn [length Z.of_nat]. do 2 eexists. reflexivity.
  - unfold position_in. by rewrite Z.eqb_refl, Hopen.
  - intros q _ [E _]%andb_prop. by apply Z.eqb_eq in E.
Qed.

(** After the claim is given back the database is as before, but for one more
    intent that has ended: the position can be claimed again. *)
Lemma claim_again id mode w w' claim i' :
  claim_granted now id mode w claim -> NoDup (map tp_id (trackedPositions (xw_db w))) ->
  pending_close_intent (tp_id (cc_position claim)) i' = false ->
  xw_db w' = set_orderIntents (fun l => l ++ [i'])%list (xw_db w) ->
  exists claim' w1, claim_close now id mode w' = (Ok claim', w1).
Proof.
  intros [Hp Ha _ Hl Ho Hi Hb (a & Has & Hm & Hmode & _) _] Hnd Hi' E.
  apply (claim_succeeds id mode w' (cc_position claim) (cc_tradingAccountId claim) a);
    try (rewrite E; done); try done.
  rewrite E. intros i [?|[<-|[]]]%in_app_iff; [by apply Hi|done].
Qed.

Lemma closing_and_open_again p l :
  NoDup (map tp_id l) -> In p l -> tp_status p = "open" ->
  map (fun q => if position_in (tp_id p) "closing" q then set_positionStatus "open" q else q)
    (map (fun q => if position_in (tp_id p) "open" q then set_positionStatus "closing" q else q) l) = l.
Proof.
  intros Hnd Hin Hopen. rewrite map_map. rewrite <- (map_id l) at 2. apply map_ext_in.
  intros q Hq. unfold position_in. destruct (Z.eqb_spec (tp_id q) (tp_id p)) as [E|E].
  - assert (q = p) as -> by by apply (NoDup_key_inj tp_id l). rewrite Hopen. cbn [andb String.eqb].
    rewrite !String.eqb_refl. cbn [andb tp_id set_positionStatus tp_status]. rewrite Z.eqb_refl.
    cbn. destruct p; cbn in *. by subst.
  - cbn [andb]. apply Z.eqb_neq in E. by rewrite E.
Qed.

Lemma db_of_intents d d' :
  set_orderIntents (fun _ => []) d' = set_orderIntents (fun _ => []) d ->
  d' = set_orderIntents (fun _ => orderIntents d') d.
Proof. destruct d, d'. cbn. intros E. injection E. intros. by subst. Qed.

(** What a statement on the claimed intent makes of the intents: the old ones
    stay, the claimed one is mapped. *)
Lemma claimed_intents claim mode id w w2 f :
  claim_granted now id mode w claim -> own_intent (oi_id (cc_intent claim)) f ->
  orderIntents (xw_db w2) = map f (orderIntents (xw_db (claim_world claim w))) ->
  orderIntents (xw_db w2) = (orderIntents (xw_db w) ++ [f (cc_intent claim)])%list.
Proof.
  intros [_ _ _ _ _ _ _ (a & _ & _ & _ & Ei) _] Hf ->. cbn. rewrite map_app. f_equal.
  rewrite <- (map_id (orderIntents (xw_db w))) at 2. apply map_ext_in. intros i Hi. apply Hf.
  intros E. apply (next_id_fresh (map oi_id (orderIntents (xw_db w)))).
  rewrite Ei in E. cbn in E. rewrite <- E. by apply in_map.
Qed.

Definition released (claim : CloseClaim) (from : list string) (status reason : string) (db : Db) : Db :=
  set_trackedPositions (map (fun q =>
      if position_in (tp_id (cc_position claim)) "closing" q then set_positionStatus "open" q else q))
    (set_orderIntents (map (fun i =>
      if intent_is (oi_id (cc_intent claim)) i && member (oi_status i) from
      then intent_data now (Some status) (Some (Some reason)) i else i)) db).

Lemma release_world claim from status reason w :
  release_close now claim from status reason w = (Ok tt, set_db (released claim from status reason) w).
Proof.
  unfold release_close, transaction, update_intents, move_position, mbind, eff_bind.
  rewrite update_many_eq. cbv iota beta. rewrite update_many_eq. reflexivity.
Qed.

(** The handler after a failure that tells what happened. *)
Lemma definite_world claim mode e w :
  definite_failure e = true -> cc_environment claim <> None ->
  exists from status reason w', close_failed (A := ClosePositionResult + AlpacaOrder) now claim mode e w = (Throw e, w') /\
    member "submitting" from = true /\ member status ["blocked"; "failed"] = true /\
    xw_db w' = released claim from status reason (xw_db w) /\ sent w' = sent w.
Proof.
  unfold definite_failure, close_failed. intros Hd Henv.
  destruct (isExitVerificationBlock e) as [outcome|] eqn:Eb.
  - unfold mbind, eff_bind. rewrite release_world.
    exists ["pending"; "submitting"], "blocked". do 2 eexists. split; [reflexivity|]. repeat split.
  - rewrite bool_decide_eq_false_2 in Hd by (intros Hn; by apply Hn). cbn [orb] in Hd. rewrite Hd.
    destruct (cc_environment claim) as [env|] eqn:Ee; [|done].
    unfold mbind, eff_bind. rewrite release_world. unfold close_event. rewrite Ee.
    exists ["submitting"]. do 3 eexists. split; [reflexivity|].
    split; [done|]. split; [|split; reflexivity].
    by destruct (String.eqb (getDeliveryClassification e) "NOT_SENT_BLOCKED").
Qed.

(** The handler after a failure that does not. *)
Lemma uncertain_world claim mode e w :
  definite_failure e = false -> cc_environment claim <> None ->
  exists f w', close_failed (A := ClosePositionResult + AlpacaOrder) now claim mode e w = (Throw e, w') /\
    xw_db w' = set_orderIntents (map f) (xw_db w) /\ sent w' = sent w.
Proof.
  unfold definite_failure, close_failed. intros Hd Henv.
  apply orb_false_iff in Hd as [Hb%bool_decide_eq_false_1 Hc].
  destruct (isExitVerificationBlock e) as [o|]; [destruct Hb; done|]. rewrite Hc.
  destruct (cc_environment claim) as [env|] eqn:Ee; [|done].
  unfold mbind, eff_bind, update_intents. rewrite update_many_eq. unfold close_event. rewrite Ee.
  do 2 eexists. split; [reflexivity|]. done.
Qed.

(** The claimed intent, after the exit and the release, no longer waits. *)
Lemma released_intent claim from status reason f :
  oi_status (cc_intent claim) = "submitting" -> own_intent (oi_id (cc_intent claim)) f ->
  (forall i, oi_status (f i) = oi_status i \/ oi_status (f i) = "blocked") ->
  member "submitting" from = true -> member status ["blocked"; "failed"] = true ->
  let g i := if intent_is (oi_id (cc_intent claim)) i && member (oi_status i) from
             then intent_data now (Some status) (Some (Some reason)) i else i in
  member (oi_status (g (f (cc_intent claim)))) ["blocked"; "failed"] = true.
Proof.
  intros Hs Hf Hfs Hfrom Hst. cbv zeta beta.
  assert (intent_is (oi_id (cc_intent claim)) (f (cc_intent claim)) = true) as ->
    by (unfold intent_is; destruct (Hf (cc_intent claim)) as (-> & _); apply Z.eqb_refl).
  destruct (Hfs (cc_intent claim)) as [E|E].
  - rewrite E, Hs, Hfrom. exact Hst.
  - destruct (true && _); [exact Hst|]. by rewrite E.
Qed.
End Recovery.

(** * Properties *)

(** Calls of the service at their times, failing or not. *)
Fixpoint run_closes `{Prisma} `{ExitBroker} `{ExitServices} (calls : list (Z * Z * ClosePositionMode))
    (w : ExitWorld) : ExitWorld :=
  match calls with
  | [] => w
  | (now, id, mode) :: calls => run_closes calls (snd (closePosition now id mode w))
  end.

Section Properties.
Context `{PrismaLaws} `{ExitBroker} {S : ExitServices} `{!ExitServicesLaws S}.

Lemma exit_sends now c w :
  sent (snd (submitVerifiedExit now c w)) = sent w \/
  exists q, sent (snd (submitVerifiedExit now c w)) = (sent w ++ [request_of c q])%list.
Proof.
  destruct (submit_locked now c w) as [[_ ->]|[_ [e ->]]]; [|by left].
  destruct (execute_cases now c w) as [(p & q & _ & ->)|[_ [_ Hs]]]; [|by left].
  destruct (submit_cases now c p q w) as [[_ Hs]|(w2 & H2 & ->)]; [by left|].
  right. exists q. by rewrite submit_once_sent, H2.
Qed.

(** What follows the verified exit sends nothing. *)
Lemma close_claimed_sent now claim mode w :
  sent (snd (close_claimed now claim mode w)) =
  sent (snd (submitVerifiedExit now (close_context claim mode) w)).
Proof.
  assert (Hf : forall e, moves nothing_sent (close_failed (A := ClosePositionResult + AlpacaOrder) now claim mode e)).
  { intros e. unfold close_failed, release_close, close_event, db_asks. solve_moves. }
  assert (Hp : forall o, moves nothing_sent (persist_close now claim o)).
  { intros o. unfold persist_close, db_asks. solve_moves. }
  unfold close_claimed, try_catch, mbind, eff_bind.
  destruct (submitVerifiedExit now (close_context claim mode) w) as [[r|e] w1]; cbn [snd].
  2: { specialize (Hf e w1). destruct (close_failed _ _ _ e w1) as [[[x|o]|e'] w2] eqn:E; [exact Hf| |exact Hf].
       exfalso. revert E. unfold close_failed, mbind, eff_bind, throw. repeat case_match; discriminate. }
  assert (Hrest : forall o, nothing_sent w1 (snd (
      (_ ← persist_close now claim o;
       _ ← forceAfterBrokerWrite (cc_tradingAccountId claim) "broker_position_close_requested";
       _ ← createSystemEvent "position.close_requested" "trackedPosition" (tp_id (cc_position claim))
            (Some (cc_tradingAccountId claim)) INFO None
            (JObj [("symbol", JStr (to_upper (tp_symbol (cc_position claim)))); ("broker", JStr "alpaca");
                   ("trackedPositionId", jint (tp_id (cc_position claim)));
                   ("orderIntentId", jint (oi_id (cc_intent claim)));
                   ("brokerOrderId", JStr (rawo_id o));
                   ("clientOrderId", JStr (rawo_client_order_id o));
                   ("mode", JStr (close_mode_str mode))]);
       mret (close_result claim (BrokerOrderId (rawo_id o)) (rawo_client_order_id o)) : eff ExitWorld _) w1))).
  { intros o. match goal with |- nothing_sent _ (snd (?m _)) => assert (Hm : moves nothing_sent m) by solve_moves end.
    apply Hm. }
  destruct r as [id|o|o]; [|exact (Hrest o)|exact (Hrest o)].
  unfold mret, eff_ret.
  pose proof (update_intents_sends now (intent_is (oi_id (cc_intent claim))) (Some "submitted") (Some None) w1) as Hu.
  destruct (update_intents _ _ _ _ w1) as [[n|e] w2] eqn:E; [exact Hu|].
  revert E. unfold update_intents. by destruct (update_many _ _ _).
Qed.

(** The definite failure leaves the database as it was before the claim, plus
    one ended intent. *)
Lemma definite_db now claim id mode w w2 f from st reason :
  claim_granted now id mode w claim -> NoDup (map tp_id (trackedPositions (xw_db w))) ->
  own_intent (oi_id (cc_intent claim)) f ->
  xw_db w2 = set_orderIntents (fun _ => orderIntents (xw_db w) ++ [f (cc_intent claim)])%list
               (xw_db (claim_world claim w)) ->
  let g i := if intent_is (oi_id (cc_intent claim)) i && member (oi_status i) from
             then intent_data now (Some st) (Some (Some reason)) i else i in
  released now claim from st reason (xw_db w2) =
  set_orderIntents (fun l => l ++ [g (f (cc_intent claim))])%list (xw_db w).
Proof.
  intros Hg Hids Hown Hdb g.
  assert (Hgo : own_intent (oi_id (cc_intent claim)) g).
  { apply intent_data_own. intros i [Hi'%Z.eqb_eq _]%andb_prop. done. }
  destruct (find_first_some _ _ _ _ (cg_position _ _ _ _ _ Hg)) as [Hin _].
  pose proof (closing_and_open_again (cc_position claim) _ Hids Hin (cg_open _ _ _ _ _ Hg)) as Hpos.
  pose proof (claimed_intents now claim mode id w
    (set_db (set_orderIntents (map g)) (claim_world claim w)) g Hg Hgo eq_refl) as Hint.
  assert (Hold : map g (orderIntents (xw_db w)) = orderIntents (xw_db w)).
  { cbn in Hint. rewrite map_app in Hint. by apply app_inj_tail in Hint as [Hint _]. }
  rewrite Hdb. unfold released. fold g. unfold set_trackedPositions, set_orderIntents, claim_world in *.
  cbn [xw_db set_db trackedPositions orderIntents set_trackedPositions set_orderIntents securities
    subscriptions tradingAccounts riskSettings accountSubscriptions brokerOrders brokerActivities claims
    claimEvents opportunityEvents dispatchConsumptions unenforcedDispatches armingTerminations acceptanceRuns] in *.
  rewrite Hpos, map_app, Hold. reflexivity.
Qed.

(** While the failure is uncertain the claimed position reads closing. *)
Lemma closing_position now claim id mode w w' :
  claim_granted now id mode w claim -> NoDup (map tp_id (trackedPositions (xw_db w))) ->
  trackedPositions (xw_db w') = trackedPositions (xw_db (claim_world claim w)) ->
  find_position id (xw_db w') = Some (set_positionStatus "closing" (cc_position claim)).
Proof.
  intros Hg Hids Et. destruct (find_first_some _ _ _ _ (cg_position _ _ _ _ _ Hg)) as [Hin Hid%Z.eqb_eq].
  assert (Hmoved : (if position_in (tp_id (cc_position claim)) "open" (cc_position claim)
                    then set_positionStatus "closing" (cc_position claim) else cc_position claim) =
                   set_positionStatus "closing" (cc_position claim))
    by (unfold position_in; by rewrite Z.eqb_refl, (cg_open _ _ _ _ _ Hg)).
  unfold find_position. rewrite Et.
  cbn [trackedPositions set_orderIntents set_trackedPositions claim_world set_db xw_db].
  apply find_first_unique.
  - apply in_map_iff. by exists (cc_position claim).
  - by apply Z.eqb_eq.
  - intros y (q & <- & Hq)%in_map_iff Hy%Z.eqb_eq.
    assert (q = cc_position claim) as ->; [|done].
    apply (NoDup_key_inj tp_id _ q _ Hids Hq Hin). rewrite Hid, <- Hy. by destruct (position_in _ _ q).
Qed.

Lemma ended_not_pending t i : member (oi_status i) ["blocked"; "failed"] = true -> pending_close_intent t i = false.
Proof.
  intros H'. unfold pending_close_intent. apply andb_false_iff. right. revert H'.
  unfold member. cbn [existsb]. rewrite !orb_false_r.
  by intros [->%String.eqb_eq | ->%String.eqb_eq]%orb_prop.
Qed.

(** C27. Closes are single-flight: through any sequence of closes of any
    positions, in either mode and with whatever failures, no position ever has
    two closes that may be working; and one close hands at most one request to
    the broker - a sell under the position's own client order id, and only
    after its claim was granted, that is with the position open and long, its
    assignment consistent, no close pending and no order of the position
    working. *)
Theorem close_single_flight calls w (Hw : single_close w) :
  single_close (run_closes calls w) /\
  forall now id mode v, let v' := snd (closePosition now id mode v) in
    sent v' = sent v \/
    exists claim r, claim_granted now id mode v claim /\
      sent v' = (sent v ++ [(cc_tradingAccountId claim, r)])%list /\
      xr_side r = "sell" /\ xr_position_intent r = "sell_to_close" /\
      xr_client_order_id r = buildCloseClientOrderId (cc_tradingAccountId claim) (tp_id (cc_position claim)).
Proof.
  split.
  { revert w Hw. induction calls as [|[[now id] mode] calls IH]; intros w Hw; [done|].
    apply IH, close_keeps_single, Hw. }
  intros now id mode v. cbv zeta. rewrite closePosition_claimed.
  destruct (claim_cases now id mode v) as [[e ->]|(claim & -> & Hg)]; [by left|].
  rewrite close_claimed_sent.
  destruct (exit_sends now (close_context claim mode) (claim_world claim v)) as [->|[q ->]]; [by left|].
  right. exists claim, (exit_request (close_context claim mode)
    (to_upper (cx_symbol (close_context claim mode))) q).
  split; [done|]. split; [done|]. split; [done|]. split; [done|]. apply (cg_clientOrderId _ _ _ _ _ Hg).
Qed.

(** C28. A failed close accounts for its claim. When the verified exit fails,
    the close rethrows its error and sends nothing more. If the failure tells
    for certain that no order is working - a verification block, or a delivery
    known not to have happened - every position is as it was before, the close
    intent has ended as blocked or failed, and the position can be claimed
    again. If delivery is uncertain the position stays closing, and every later
    close is refused with a conflict and changes nothing. *)
Theorem close_failure_recovery now id mode w claim e w2
    (Hids : NoDup (map tp_id (trackedPositions (xw_db w))))
    (Hclaim : fst (claim_close now id mode w) = Ok claim)
    (Haccount : environment_of (cc_tradingAccountId claim) (xw_db w) <> None)
    (Hfail : submitVerifiedExit now (close_context claim mode) (snd (claim_close now id mode w)) = (Throw e, w2)) :
  exists w', closePosition now id mode w = (Throw e, w') /\ sent w' = sent w2 /\
    if definite_failure e then
      trackedPositions (xw_db w') = trackedPositions (xw_db w) /\
      (exists i, orderIntents (xw_db w') = (orderIntents (xw_db w) ++ [i])%list /\
         member (oi_status i) ["blocked"; "failed"] = true) /\
      exists claim' w3, claim_close now id mode w' = (Ok claim', w3)
    else
      (exists p, find_position id (xw_db w') = Some p /\ tp_status p = "closing") /\
      forall later mode', exists m, closePosition later id mode' w' = (Throw (HttpError 409 m JNull), w').
Proof.
  rewrite closePosition_claimed.
  destruct (claim_cases now id mode w) as [[e' E]|(claim' & E & Hg)]; rewrite E in *; [done|].
  injection Hclaim as ->. cbn [snd] in Hfail. rewrite <- (cg_environment _ _ _ _ _ Hg) in Haccount.
  pose proof (submit_frame now (close_context claim mode) (claim_world claim w)) as (Hdb & _ & f & Hf & Hown & Hst).
  rewrite Hfail in *. cbn [snd close_context cx_orderIntentId] in *.
  pose proof (claimed_intents now claim mode id w w2 f Hg Hown Hf) as Hi.
  assert (Hdb2 : xw_db w2 = set_orderIntents (fun _ => orderIntents (xw_db w) ++ [f (cc_intent claim)])%list
                              (xw_db (claim_world claim w))) by (rewrite <- Hi; by apply db_of_intents).
  assert (Hfail' : forall w', close_failed (A := ClosePositionResult + AlpacaOrder) now claim mode e w2 = (Throw e, w') ->
            close_claimed now claim mode (claim_world claim w) = (Throw e, w')).
  { intros w' Ec. unfold close_claimed, try_catch, mbind, eff_bind. by rewrite Hfail, Ec. }
  destruct (definite_failure e) eqn:Ed.
  - destruct (definite_world now claim mode e w2 Ed Haccount) as (from & st & reason & w' & Ec & Hfrom & Hs & Hw' & Hsent).
    exists w'. split; [by apply Hfail'|]. split; [done|].
    assert (Hsub : oi_status (cc_intent claim) = "submitting")
      by (destruct (cg_assignment _ _ _ _ _ Hg) as (a & _ & _ & _ & ->); done).
    pose proof (released_intent now claim from st reason f Hsub Hown Hst Hfrom Hs) as Hend.
    rewrite (definite_db now claim id mode w w2 f from st reason Hg Hids Hown Hdb2) in Hw'.
    cbv zeta in Hend, Hw'. rewrite Hw'. split; [done|]. split; [by eexists|].
    eapply (claim_again now id mode w w' claim _ Hg Hids); [by apply ended_not_pending|exact Hw'].
  - destruct (uncertain_world now claim mode e w2 Ed Haccount) as (h & w' & Ec & Hw' & Hsent).
    exists w'. split; [by apply Hfail'|]. split; [done|]. rewrite Hdb2 in Hw'.
    pose proof (closing_position now claim id mode w w' Hg Hids ltac:(by rewrite Hw')) as Hp.
    split; [by eexists|]. intros later mode'.
    destruct (claim_refused_unless_open later id mode' w' _ Hp) as [m Em]; [done|].
    exists m. by rewrite closePosition_claimed, Em.
Qed.
End Properties.

(** * Concrete inputs *)

#[local] Existing Instance in_order.
#[local] Existing Instance answering_services.
#[local] Instance answering_laws' : ExitServicesLaws answering_services.
Proof. split; intros; apply moves_ret; typeclasses eauto. Qed.

(** The held position, at a broker that answers a submission with an error. *)
Definition failing_broker (classification : string) : ExitBroker :=
  {| order_by_client_id := fun _ _ _ _ => Ok None; order_by_id := fun _ _ _ => Ok None;
     position_by_symbol := fun _ _ _ => Ok (Some held_position);
     open_orders := fun _ _ => Ok [];
     submit_answer := fun _ _ _ => Throw (DeliveryError classification "no route" None) |}.

Example close_submits :
  let w := snd (closePosition (H0 := holding_broker) 1000 9 AUTOMATED_STRATEGY tracked_world) in
  (map tp_status (trackedPositions (xw_db w)), map oi_status (orderIntents (xw_db w)),
   map bo_brokerOrderId (brokerOrders (xw_db w)), map (fun r => xr_qty (snd r)) (sent w)) =
  (["closing"], ["submitted"], ["b-9"], ["2.5"]).
Proof. vm_compute. reflexivity. Qed.

Lemma close_single_flight_witness :
  let calls := [(1000, 9, AUTOMATED_STRATEGY); (1001, 9, MANUAL_EMERGENCY_CLOSE); (1002, 9, AUTOMATED_STRATEGY)] in
  single_close (run_closes (H0 := holding_broker) calls tracked_world) /\
  length (sent (run_closes (H0 := holding_broker) calls tracked_world)) = 1%nat.
Proof.
  split; [|vm_compute; reflexivity].
  apply (close_single_flight (H0 := holding_broker)). split; [constructor|done].
Defined.

Definition tracked_claim : CloseClaim :=
  {| cc_position := tracked_position; cc_tradingAccountId := 1; cc_environment := Some "PAPER";
     cc_intent := close_intent 1000 AUTOMATED_STRATEGY tracked_position 1 4 "ai-exit-close-1-9" 1;
     cc_clientOrderId := "ai-exit-close-1-9" |}.
Definition failed_exit (classification : string) : ExitWorld :=
  snd (submitVerifiedExit (H0 := failing_broker classification) 1000
    (close_context tracked_claim AUTOMATED_STRATEGY) (claim_world tracked_claim tracked_world)).

(** A close that was never sent, and one whose fate is unknown. *)
Lemma close_failure_recovery_witness :
  (exists w', closePosition (H0 := failing_broker "NOT_SENT_BLOCKED") 1000 9 AUTOMATED_STRATEGY tracked_world =
     (Throw (DeliveryError "NOT_SENT_BLOCKED" "no route" None), w') /\
     trackedPositions (xw_db w') = [tracked_position]) /\
  (exists w', closePosition (H0 := failing_broker "DELIVERY_UNCERTAIN") 1000 9 AUTOMATED_STRATEGY tracked_world =
     (Throw (DeliveryError "DELIVERY_UNCERTAIN" "no route" None), w') /\
     forall later mode', exists m, closePosition (H0 := failing_broker "DELIVERY_UNCERTAIN") later 9 mode' w' =
       (Throw (HttpError 409 m JNull), w')).
Proof.
  assert (Hids : NoDup (map tp_id (trackedPositions (xw_db tracked_world)))) by apply NoDup_singleton.
  assert (Hclaim : fst (claim_close 1000 9 AUTOMATED_STRATEGY tracked_world) = Ok tracked_claim)
    by (vm_compute; reflexivity).
  assert (Henv : environment_of (cc_tradingAccountId tracked_claim) (xw_db tracked_world) <> None) by discriminate.
  split.
  - destruct (close_failure_recovery (H0 := failing_broker "NOT_SENT_BLOCKED") 1000 9 AUTOMATED_STRATEGY
      tracked_world tracked_claim (DeliveryError "NOT_SENT_BLOCKED" "no route" None)
      (failed_exit "NOT_SENT_BLOCKED") Hids Hclaim Henv) as (w' & E & _ & Hp & _);
      [vm_compute; reflexivity|].
    exists w'. split; [exact E|exact Hp].
  - destruct (close_failure_recovery (H0 := failing_broker "DELIVERY_UNCERTAIN") 1000 9 AUTOMATED_STRATEGY
      tracked_world tracked_claim (DeliveryError "DELIVERY_UNCERTAIN" "no route" None)
      (failed_exit "DELIVERY_UNCERTAIN") Hids Hclaim Henv) as (w' & E & _ & _ & Hp);
      [vm_compute; reflexivity|].
    exists w'. split; [exact E|exact Hp].
Defined.
