(* ===== verification/TrailingStop.v ===== *)
(** The protective trailing stop: services/trailing-stop-exit.service.ts. A
    deterministic client order id identifies the protection of one target
    unlock; one serializable transaction claims it, the broker is asked for it
    before anything is sent, the verified exit submits, and what became of the
    delivery is recorded on the intent. *)

From Stdlib Require Import ZArith Lia.
From Stdlib Require Import Strings.String Strings.Ascii.
From Stdlib Require Import Floats.SpecFloat.
From stdpp Require Import base list strings.
From S2P Require Import Prelude JsNumber JsValue JsDate Prisma OrderStatus DeliveryEvidence Schema.
From S2P Require Import BrokerAccount ExactDecimal ExitWorld ExitState WorkflowLock VerifiedExit ClosePosition.

Open Scope string_scope.
Open Scope Z_scope.

Definition TRAILING_STOP_TIME_IN_FORCE : string := "gtc".
Definition PROTECTIVE_SUBMISSION_RECOVERY_BACKOFF_MS : Z := 30000.
Definition DELIVERY_PREFIX : string := "BROKER_WRITE_DELIVERY".

(** ["2026-01-02T03:04:05.678Z"] becomes ["20260102030405"]. *)
Fixpoint strip_separators (s : string) : string :=
  match s with
  | EmptyString => EmptyString
  | String c s =>
      if existsb (Ascii.eqb c) ["-"; ":"; "."; "T"; "Z"]%char then strip_separators s
      else String c (strip_separators s)
  end.
Definition compactDate (t : Z) : string := String.substring 0 14 (strip_separators (iso_of_time t)).

Definition buildTrailingStopClientOrderId (symbol : string) (trackedPositionId targetUnlockedAt : Z) : string :=
  String.substring 0 128
    (String.concat "-" ["ai"; "exit"; "trail"; to_upper symbol; z_str trackedPositionId; compactDate targetUnlockedAt]).

Example client_id :
  buildTrailingStopClientOrderId "aapl" 9 1767323045678 = "ai-exit-trail-AAPL-9-20260102030405".
Proof. vm_compute. reflexivity. Qed.

Definition is_integer (x : num) : bool := is_finite x && neqb (nfloor x) x.

Definition getWholeShareQty (qty : num) : res string :=
  if negb (is_finite qty) || nleb qty (num_of_Z 0) then
    Throw (PlainError ("Invalid trailing stop quantity: " ++ num_to_string qty))
  else if negb (is_integer qty) then
    Throw (PlainError ("Broker-native trailing stop exits require a whole-share quantity. Received qty=" ++
      num_to_string qty ++ "."))
  else Ok (num_to_string qty).

Record TrailingStopResult := {
  ts_submitted : bool;
  ts_reason : option string;
  ts_brokerOrderId : option string;
  ts_clientOrderId : option string
}.
Definition not_submitted (reason : string) (brokerOrderId : option string) (clientOrderId : string)
    : TrailingStopResult :=
  {| ts_submitted := false; ts_reason := Some reason; ts_brokerOrderId := brokerOrderId;
     ts_clientOrderId := Some clientOrderId |}.

(** What the checks before the claim establish. *)
Record TrailingTarget := {
  tt_account : Z;
  tt_position : TrackedPosition;
  tt_subscriptionKey : option string;
  tt_environment : option string;
  tt_assignment : TradingAccountSubscription;
  tt_exitState : PositionExitState;
  tt_trailingStopPct : num;
  tt_qty : string;
  tt_clientOrderId : string
}.

Section Trailing.
Context `{Prisma} `{ExitBroker} `{ExitServices}.
Variable now : Z.

(** ** Statements *)

Definition intent_with_client_id (account : Z) (clientOrderId : string) (i : OrderIntent) : bool :=
  opt_eqb (oi_tradingAccountId i) account && opt_eqb (oi_clientOrderId i) clientOrderId.
Definition find_intent (account : Z) (clientOrderId : string) (db : Db) : option OrderIntent :=
  find_first_by (fun x y => oi_createdAt y <=? oi_createdAt x) (intent_with_client_id account clientOrderId)
    (orderIntents db).

Definition order_with_client_id (account : Z) (clientOrderId : string) (o : BrokerOrder) : bool :=
  opt_eqb (bo_tradingAccountId o) account && String.eqb (bo_broker o) "alpaca" &&
  String.eqb (bo_clientOrderId o) clientOrderId.
Definition find_order (account : Z) (clientOrderId : string) (db : Db) : option BrokerOrder :=
  find_first (order_with_client_id account clientOrderId) (brokerOrders db).

Definition protective_intent (account : Z) (p : TrackedPosition) (a : TradingAccountSubscription)
    (subscriptionKey : option string) (side status clientOrderId : string) (raw : json) (id : Z) : OrderIntent :=
  {| oi_id := id; oi_source := "exit-evaluator"; oi_symbol := tp_symbol p; oi_side := side;
     oi_orderType := "trailing_stop"; oi_timeInForce := TRAILING_STOP_TIME_IN_FORCE;
     oi_qty := Some (tp_qty p); oi_notional := None; oi_limitPrice := None;
     oi_clientOrderId := Some clientOrderId; oi_status := status; oi_blockReason := None;
     oi_rawRequestJson := raw; oi_createdAt := now; oi_updatedAt := now;
     oi_subscriptionId := tp_subscriptionId p; oi_subscriptionKey := subscriptionKey;
     oi_trackedPositionId := Some (tp_id p); oi_tradingAccountId := Some account;
     oi_tradingAccountSubscriptionId := Some (tas_id a); oi_liveEntryAcceptanceRunId := None;
     oi_lastSubmittedOrderSyncAt := None |}.

Definition belongs_elsewhere {A} (i : OrderIntent) : eff ExitWorld A :=
  throw (PlainError ("Protective OrderIntent " ++ z_str (oi_id i) ++ " belongs to a different tracked position.")).

Definition request_json (account : Z) (p : TrackedPosition) (a : TradingAccountSubscription)
    (exitStateId trailPercent : json) (clientOrderId : string) : list (string * json) :=
  [("source", JStr "exit-evaluator"); ("orderKind", JStr "target_unlock_trailing_stop");
   ("trackedPositionId", jint (tp_id p)); ("tradingAccountId", jint account);
   ("tradingAccountSubscriptionId", jint (tas_id a)); ("exitStateId", exitStateId);
   ("trailPercent", trailPercent); ("clientOrderId", JStr clientOrderId)].

(** ** Persistence *)

Definition protective_order_row (intentId account : Z) (p : TrackedPosition) (side clientOrderId : string)
    (o : AlpacaOrder) (id createdAt : Z) : BrokerOrder :=
  {| bo_id := id; bo_orderIntentId := intentId; bo_broker := "alpaca"; bo_brokerOrderId := rawo_id o;
     bo_clientOrderId := clientOrderId; bo_symbol := tp_symbol p; bo_side := side; bo_status := rawo_status o;
     bo_securityId := tp_securityId p; bo_trackedPositionId := Some (tp_id p);
     bo_tradingAccountId := Some account; bo_rawBrokerJson := order_json o; bo_createdAt := createdAt |}.

(** The intent of the client order id, written now when there is none. *)
Definition persisted_intent (account : Z) (p : TrackedPosition) (a : TradingAccountSubscription)
    (side clientOrderId : string) : eff ExitWorld OrderIntent :=
  existing ← db_asks (find_intent account clientOrderId);
  match existing with
  | Some i => if bool_decide (oi_trackedPositionId i = Some (tp_id p)) then mret i else belongs_elsewhere i
  | None =>
      sub ← db_asks (subscription_of (tp_subscriptionId p));
      exitState ← asks (find_exit_state (tp_id p));
      insert_intent_row (protective_intent account p a (option_map sub_key sub) side "submitted" clientOrderId
        (JObj (request_json account p a (jopt jint (option_map es_id exitState))
           (jopt JNum (exitState ≫= es_trailingStopPct)) clientOrderId)))
  end.

Definition persistTrailingStopOrder (account trackedPositionId : Z) (clientOrderId : string) (o : AlpacaOrder)
    : eff ExitWorld unit :=
  row ← db_asks (find_position trackedPositionId);
  match row with
  | None => throw (PlainError ("Tracked position " ++ z_str trackedPositionId ++ " was not found."))
  | Some p =>
  assignment ← db_asks (assignment_of p);
  match assignment with
  | Some a =>
    if negb (opt_eqb (tp_tradingAccountId p) account && assignment_matches a account p) then
      throw (PlainError ("TrackedPosition " ++ z_str (tp_id p) ++
        " has missing or inconsistent account attribution; refusing trailing-stop persistence."))
    else
    let side := if String.eqb (tp_side p) "short" then "buy" else "sell" in
    intent ← persisted_intent account p a side clientOrderId;
    existing ← db_asks (find_order account clientOrderId);
    _ ← save_broker_order now (option_map bo_id existing)
          (protective_order_row (oi_id intent) account p side clientOrderId o);
    _ ← update_intents now (intent_is (oi_id intent)) (Some "submitted") (Some None);
    _ ← markTrailingStopOrderSubmitted now (tp_id p) "alpaca" (rawo_id o) clientOrderId (rawo_status o) (order_json o);
    mret tt
  | None =>
      throw (PlainError ("TrackedPosition " ++ z_str (tp_id p) ++
        " has missing or inconsistent account attribution; refusing trailing-stop persistence."))
  end end.

(** ** The claim *)

Definition claim_protection (t : TrailingTarget) : eff ExitWorld (OrderIntent * bool) :=
  let p := tt_position t in
  let account := tt_account t in
  let clientOrderId := tt_clientOrderId t in
  transaction (
  existing ← db_asks (find_intent account clientOrderId);
  match existing with
  | Some i => if bool_decide (oi_trackedPositionId i = Some (tp_id p)) then mret (i, false) else belongs_elsewhere i
  | None =>
      claimed ← claim_exit_state (tp_id p) clientOrderId;
      if negb (claimed =? 1) then
        throw (PlainError ("Protective submission for TrackedPosition " ++ z_str (tp_id p) ++ " is already claimed."))
      else
      intent ← insert_intent_row (protective_intent account p (tt_assignment t) (tt_subscriptionKey t)
        "sell" "submitting" clientOrderId
        (JObj (("signalType", JStr "exit") :: request_json account p (tt_assignment t)
           (jint (es_id (tt_exitState t))) (JNum (tt_trailingStopPct t)) clientOrderId)));
      mret (intent, true)
  end).

(** ** Submission *)

Definition target_error {A} (p : TrackedPosition) (what : string) : eff ExitWorld A :=
  throw (PlainError ("Cannot submit trailing stop for " ++ tp_symbol p ++ "; " ++ what)).

(** The checks before anything is claimed: an early answer, or the target to
    protect. *)
Definition trailing_target (account trackedPositionId : Z)
    : eff ExitWorld (TrailingStopResult + TrailingTarget) :=
  row ← db_asks (find_position trackedPositionId);
  match row with
  | None => throw (PlainError ("Tracked position " ++ z_str trackedPositionId ++ " was not found."))
  | Some p =>
  subscription ← db_asks (subscription_of (tp_subscriptionId p));
  included ← asks (find_exit_state (tp_id p));
  assignment ← db_asks (assignment_of p);
  environment ← db_asks (environment_of account);
  if negb (opt_eqb (tp_tradingAccountId p) account) then
    throw (PlainError ("TrackedPosition " ++ z_str (tp_id p) ++ " does not belong to TradingAccount " ++
      z_str account ++ "; refusing trailing-stop broker access."))
  else if negb (String.eqb (to_lower (tp_side p)) "long") then
    throw (PlainError "AI Trader does not automatically cover or manage short exposure.")
  else
  match assignment with
  | Some a =>
    if negb (assignment_matches a account p) then
      throw (PlainError ("TrackedPosition " ++ z_str (tp_id p) ++
        " has missing or inconsistent account assignment attribution."))
    else
    exitState ← match included with Some e => mret e | None => ensurePositionExitState (tp_id p) end;
    if negb (es_targetUnlocked exitState) then target_error p "target has not been unlocked."
    else match es_targetUnlockedAt exitState with
    | None => target_error p "targetUnlockedAt is missing."
    | Some unlockedAt =>
    match es_trailBrokerOrderId exitState with
    | Some (String _ _ as id) =>
        mret (inl {| ts_submitted := false; ts_reason := Some "already_submitted"; ts_brokerOrderId := Some id;
                     ts_clientOrderId := es_trailClientOrderId exitState |})
    | _ =>
    match es_trailingStopPct exitState with
    | None => target_error p "trailingStopPct is missing."
    | Some trailingStopPct =>
        qty ← lift (fun _ => getWholeShareQty (tp_qty p));
        mret (inr {| tt_account := account; tt_position := p; tt_subscriptionKey := option_map sub_key subscription;
                     tt_environment := environment; tt_assignment := a; tt_exitState := exitState;
                     tt_trailingStopPct := trailingStopPct; tt_qty := qty;
                     tt_clientOrderId := buildTrailingStopClientOrderId (tp_symbol p) (tp_id p) unlockedAt |})
    end end end
  | None =>
      throw (PlainError ("TrackedPosition " ++ z_str (tp_id p) ++
        " has missing or inconsistent account assignment attribution."))
  end end.

Definition recordTrailingStopSubmissionUncertain (t : TrailingTarget) (intentId : Z) (error : js_error)
    : eff ExitWorld unit :=
  let p := tt_position t in
  match tt_environment t with
  | None => throw (PlainError "Cannot read properties of null (reading 'environment')")
  | Some environment =>
      createSystemEvent "exit.trailing_stop_submission_uncertain" "trackedPosition" (tp_id p)
        (Some (tt_account t)) (if String.eqb environment "LIVE" then CRITICAL else ERROR)
        (Some (tp_symbol p ++ " trailing-stop submission delivery is uncertain."))
        (JObj [("environment", JStr environment); ("deploymentRole", JStr env_LIVE_WRITE_DEPLOYMENT_ROLE);
               ("authoritativeProductionExecutor",
                 JBool (String.eqb env_NODE_ENV "production" &&
                        String.eqb env_LIVE_WRITE_DEPLOYMENT_ROLE "PRODUCTION_EXECUTOR"));
               ("trackedPositionId", jint (tp_id p)); ("orderIntentId", jint intentId);
               ("securityId", jint (tp_securityId p)); ("symbol", JStr (tp_symbol p));
               ("clientOrderId", JStr (tt_clientOrderId t));
               ("deliveryClassification", JStr "DELIVERY_UNCERTAIN"); ("error", JStr (error_message error));
               ("observedAt", JStr (iso_of_time now))])
  end.

Definition trailing_context (t : TrailingTarget) (intent : OrderIntent) : VerifiedExitContext :=
  let p := tt_position t in
  {| cx_corrective := false; cx_tradingAccountId := tt_account t; cx_trackedPositionId := tp_id p;
     cx_orderIntentId := oi_id intent; cx_securityId := tp_securityId p; cx_symbol := tp_symbol p;
     cx_localTrackedQty := RawNumber (tp_qty p); cx_intendedQty := RawText (tt_qty t);
     cx_attributedExitFilledQty := None; cx_clientOrderId := tt_clientOrderId t;
     cx_correlationId := Some ("trailing-stop:" ++ z_str (es_id (tt_exitState t)));
     cx_order := TrailingStopExit TRAILING_STOP_TIME_IN_FORCE (num_to_string (tt_trailingStopPct t)) |}.

Definition persist (t : TrailingTarget) (o : AlpacaOrder) : eff ExitWorld unit :=
  persistTrailingStopOrder (tt_account t) (tp_id (tt_position t)) (tt_clientOrderId t) o.

Definition delivery_reason (classification detail : string) : string :=
  DELIVERY_PREFIX ++ ":" ++ classification ++ ":" ++ detail.

(** Record how the submission failed and rethrow. *)
Definition record_failure {A} (t : TrailingTarget) (intent : OrderIntent) (classification : string)
    (error : js_error) : eff ExitWorld A :=
  _ ← update_intents now (intent_is (oi_id intent))
        (Some (if String.eqb classification "NOT_SENT_BLOCKED" then "blocked"
               else if String.eqb classification "NOT_SENT_RETRYABLE" then "failed" else "submitting"))
        (Some (Some (delivery_reason classification (error_message error))));
  _ ← (if String.eqb classification "DELIVERY_UNCERTAIN"
       then recordTrailingStopSubmissionUncertain t (oi_id intent) error else mret tt);
  throw error.

(** The [catch] of the submission: a rejection is looked up once more. *)
Definition trailing_failed {A} (t : TrailingTarget) (intent : OrderIntent) (error : js_error)
    : eff ExitWorld (TrailingStopResult + A) :=
  let classification := getDeliveryClassification error in
  if String.eqb classification "BROKER_REJECTED" then
    found ← (fun w => (Ok (order_by_client_id 4 (tt_account t) (tt_clientOrderId t) w), w)) : eff ExitWorld _;
    match found with
    | Ok (Some o) =>
        _ ← persist t o;
        mret (inl (not_submitted "already_at_broker" (Some (rawo_id o)) (tt_clientOrderId t)))
    | Ok None => record_failure t intent classification error
    | Throw _ => record_failure t intent "DELIVERY_UNCERTAIN" error
    end
  else record_failure t intent classification error.

(** After the verified exit accepted: store the order, or record that the
    accepted delivery is not stored. *)
Definition trailing_accepted (t : TrailingTarget) (intent : OrderIntent) (o : AlpacaOrder)
    : eff ExitWorld TrailingStopResult :=
  let p := tt_position t in
  _ ← forceAfterBrokerWrite (tt_account t) "protective_order_created";
  _ ← try_catch (persist t o) (fun error =>
    _ ← update_intents now (intent_is (oi_id intent)) (Some "submitting")
          (Some (Some (delivery_reason "DELIVERY_UNCERTAIN" "broker accepted before local persistence completed")));
    _ ← recordTrailingStopSubmissionUncertain t (oi_id intent) error;
    throw (DeliveryError "DELIVERY_UNCERTAIN" "Protective order was accepted but local persistence did not complete." None));
  _ ← createSystemEvent "exit.trailing_stop_submitted" "trackedPosition" (tp_id p) (Some (tt_account t)) INFO
        (Some (tp_symbol p ++ " trailing stop exit order submitted after target unlock."))
        (JObj [("symbol", JStr (tp_symbol p)); ("qty", JStr (tt_qty t));
               ("trailingStopPct", JNum (tt_trailingStopPct t)); ("clientOrderId", JStr (tt_clientOrderId t));
               ("brokerOrderId", JStr (rawo_id o)); ("brokerStatus", JStr (rawo_status o));
               ("timeInForce", JStr TRAILING_STOP_TIME_IN_FORCE)]);
  mret {| ts_submitted := true; ts_reason := None; ts_brokerOrderId := Some (rawo_id o);
          ts_clientOrderId := Some (tt_clientOrderId t) |}.

Definition submit_protection (t : TrailingTarget) (intent : OrderIntent) : eff ExitWorld TrailingStopResult :=
  submitted ← try_catch
    (result ← submitVerifiedExit now (trailing_context t intent);
     match result with
     | RECOVERED_LOCAL id => mret (inl (not_submitted "already_persisted" (Some (z_str id)) (tt_clientOrderId t)))
     | RECOVERED_BROKER o | SUBMITTED o => mret (inr o)
     end)
    (trailing_failed t intent);
  match submitted with
  | inl result => mret result
  | inr o => trailing_accepted t intent o
  end.

(** A recorded delivery that may have reached the broker, or that it refused. *)
Definition delivery_recorded (i : OrderIntent) : bool :=
  match blockReasonDeliveryClassification (oi_blockReason i) with
  | Some c => String.eqb c "DELIVERY_UNCERTAIN" || String.eqb c "BROKER_REJECTED"
  | None => false
  end.

(** Once claimed: wait, find the order at the broker, or submit. *)
Definition protect_claimed (t : TrailingTarget) (intent : OrderIntent) (created : bool)
    : eff ExitWorld TrailingStopResult :=
  if negb created && (now - oi_updatedAt intent <? PROTECTIVE_SUBMISSION_RECOVERY_BACKOFF_MS) then
    mret (not_submitted "recovery_backoff" None (tt_clientOrderId t))
  else
  existing ← lift (order_by_client_id 3 (tt_account t) (tt_clientOrderId t));
  match existing with
  | Some o =>
      _ ← persist t o;
      mret (not_submitted "already_at_broker" (Some (rawo_id o)) (tt_clientOrderId t))
  | None =>
      if negb created && delivery_recorded intent then
        _ ← update_intents now (intent_is (oi_id intent)) None
              (Some (Some (delivery_reason (default "" (blockReasonDeliveryClassification (oi_blockReason intent)))
                 "broker lookup remains inconclusive")));
        mret (not_submitted "recovery_inconclusive" None (tt_clientOrderId t))
      else submit_protection t intent
  end.

Definition protect (t : TrailingTarget) : eff ExitWorld TrailingStopResult :=
  '(intent, created) ← claim_protection t;
  protect_claimed t intent created.

(** A stored order of the protection is linked; otherwise it is protected. *)
Definition link_or_protect (t : TrailingTarget) : eff ExitWorld TrailingStopResult :=
  stored ← db_asks (find_order (tt_account t) (tt_clientOrderId t));
  match stored with
  | Some o =>
      _ ← markTrailingStopOrderSubmitted now (tp_id (tt_position t)) "alpaca" (bo_brokerOrderId o)
            (tt_clientOrderId t) (bo_status o) (bo_rawBrokerJson o);
      mret (not_submitted "already_persisted" (Some (bo_brokerOrderId o)) (tt_clientOrderId t))
  | None => protect t
  end.

Definition submitTrailingStopExitOrder (account trackedPositionId : Z) : eff ExitWorld TrailingStopResult :=
  target ← trailing_target account trackedPositionId;
  match target with
  | inl result => mret result
  | inr t => link_or_protect t
  end.
End Trailing.

(** * What a submission sends *)

Section Sends.
Context `{PrismaLaws} `{ExitBroker} {S : ExitServices} `{!ExitServicesLaws S}.
Variable now : Z.

Lemma claim_state_sends id c : moves nothing_sent (claim_exit_state id c).
Proof. intros w. unfold claim_exit_state. by rewrite update_many_eq. Qed.

Lemma create_state_sends id f : moves nothing_sent (create_exit_state id f).
Proof. unfold create_exit_state. solve_moves. by apply moves_modify. Qed.

Lemma update_state_sends id f : moves nothing_sent (update_exit_state id f).
Proof. unfold update_exit_state. solve_moves. by apply moves_modify. Qed.

Hint Resolve claim_state_sends create_state_sends update_state_sends : moves.

Lemma persist_sends a id c o : moves nothing_sent (persistTrailingStopOrder now a id c o).
Proof.
  unfold persistTrailingStopOrder, persisted_intent, belongs_elsewhere, markTrailingStopOrderSubmitted, db_asks.
  solve_moves.
Qed.

Lemma target_sends a id : moves nothing_sent (trailing_target a id).
Proof.
  unfold trailing_target, target_error, ensurePositionExitState, getPositionWithExitProfile, db_asks. solve_moves.
Qed.

Lemma claim_sends t : moves nothing_sent (claim_protection now t).
Proof. unfold claim_protection, belongs_elsewhere, db_asks. solve_moves. Qed.

Lemma uncertain_quiet t i e : moves same_trading (recordTrailingStopSubmissionUncertain now t i e).
Proof. unfold recordTrailingStopSubmissionUncertain. solve_moves. Qed.

Lemma record_sends {A} t i c e : moves nothing_sent (record_failure (A := A) now t i c e).
Proof. unfold record_failure. solve_moves. apply quiet_sends_nothing, uncertain_quiet. Qed.
Hint Resolve persist_sends record_sends : moves.

Lemma failed_sends {A} t i e : moves nothing_sent (trailing_failed (A := A) now t i e).
Proof. unfold trailing_failed, persist. solve_moves. Qed.

Lemma accepted_sends t i o : moves nothing_sent (trailing_accepted now t i o).
Proof.
  unfold trailing_accepted, persist. solve_moves. all: apply quiet_sends_nothing, uncertain_quiet.
Qed.

(** One verified exit: nothing is sent, or the request goes out in a state [w2]
    and is answered there. *)
Lemma exit_submission c w :
  (let '(_, w') := submitVerifiedExit now c w in sent w' = sent w) \/
  exists p q w2, sellable c w p q /\ sent w2 = sent w /\
    submitVerifiedExit now c w = submit_once c (to_upper (cx_symbol c)) q w2.
Proof.
  destruct (submit_locked now c w) as [[_ ->]|[_ [e ->]]]; [|by left].
  destruct (execute_cases now c w) as [(p & q & Hsell & ->)|[_ [_ Hs]]].
  2: { left. destruct (executeVerifiedExit now c w). exact Hs. }
  destruct (submit_cases now c p q w) as [[_ Hs]|(w2 & H2 & ->)].
  - left. destruct (submit_verified _ _ _ _ _ w). exact Hs.
  - right. by exists p, q, w2.
Qed.
End Sends.

(** * A delivery that is settled

    The protection of a client order id is settled once its broker order is
    stored, or its intents exist and all record a delivery that is uncertain or
    rejected. *)

Record table_ids (w : ExitWorld) : Prop := {
  ti_intents : NoDup (map oi_id (orderIntents (xw_db w)));
  ti_orders : NoDup (map bo_id (brokerOrders (xw_db w)))
}.

Definition order_stored (a : Z) (c : string) (w : ExitWorld) : Prop :=
  exists o, In o (brokerOrders (xw_db w)) /\ order_with_client_id a c o = true.
Definition fate_recorded (a : Z) (c : string) (w : ExitWorld) : Prop :=
  (exists i, In i (orderIntents (xw_db w)) /\ intent_with_client_id a c i = true) /\
  forall i, In i (orderIntents (xw_db w)) -> intent_with_client_id a c i = true -> delivery_recorded i = true.
Definition settled (a : Z) (c : string) (w : ExitWorld) : Prop := order_stored a c w \/ fate_recorded a c w.

(** The intents by their columns that never change. *)
Definition intent_rows (w : ExitWorld) := map (fun i => (oi_id i, intent_key i)) (orderIntents (xw_db w)).

(** Only [iid] of the intents is changed, and it is another protection's. *)
Definition elsewhere (a : Z) (c : string) (iid : Z) (w : ExitWorld) : Prop :=
  forall i, In i (orderIntents (xw_db w)) -> oi_id i = iid -> intent_with_client_id a c i = false.
Definition aside (a : Z) (c : string) (iid : Z) (w : ExitWorld) : Prop :=
  table_ids w /\ settled a c w /\ elsewhere a c iid w.

Lemma key_client_id a c i j : intent_key i = intent_key j -> intent_with_client_id a c i = intent_with_client_id a c j.
Proof. unfold intent_key, intent_with_client_id. intros [= _ Ha Hc _]. by rewrite Ha, Hc. Qed.

(** Another client order id of the account, or another account. *)
Lemma other_intent a c a' c' i :
  (a', c') <> (a, c) -> intent_with_client_id a' c' i = true -> intent_with_client_id a c i = false.
Proof.
  unfold intent_with_client_id, opt_eqb. intros Hne [Ha%bool_decide_eq_true_1 Hc%bool_decide_eq_true_1]%andb_prop.
  apply not_true_iff_false. intros [Ha'%bool_decide_eq_true_1 Hc'%bool_decide_eq_true_1]%andb_prop.
  apply Hne. congruence.
Qed.
Lemma other_order a c a' c' o :
  (a', c') <> (a, c) -> order_with_client_id a' c' o = true -> order_with_client_id a c o = false.
Proof.
  unfold order_with_client_id, opt_eqb. intros Hne [[Ha%bool_decide_eq_true_1 _]%andb_prop Hc%String.eqb_eq]%andb_prop.
  apply not_true_iff_false. intros [[Ha'%bool_decide_eq_true_1 _]%andb_prop Hc'%String.eqb_eq]%andb_prop.
  apply Hne. congruence.
Qed.

(** A change of intent [iid] alone, with the broker orders as they were. *)
Definition own_change (iid : Z) (w w' : ExitWorld) : Prop :=
  intents_frame iid w w' /\ brokerOrders (xw_db w') = brokerOrders (xw_db w).
#[export] Instance own_change_preorder iid : PreOrder (own_change iid).
Proof.
  split; [by intros w|]. intros u v w [H1 H2] [H3 H4]. split; [by transitivity v|congruence].
Qed.

Lemma own_change_ids iid w w' : own_change iid w w' -> table_ids w -> table_ids w'.
Proof.
  intros [(f & Ef & Hf) Eo] [Hi Ho]. split; [|by rewrite Eo].
  rewrite Ef, map_map, (map_ext _ oi_id); [done|]. intros i. by apply Hf.
Qed.

(** Every intent after the change is the image of one with its identity. *)
Lemma own_change_image iid w w' i' :
  own_change iid w w' -> In i' (orderIntents (xw_db w')) ->
  exists i, In i (orderIntents (xw_db w)) /\ oi_id i' = oi_id i /\ intent_key i' = intent_key i /\
    (oi_id i <> iid -> i' = i).
Proof.
  intros [(f & -> & Hf) _] (i & <- & Hi)%in_map_iff. exists i. destruct (Hf i) as (? & _ & ? & ?). done.
Qed.

Lemma own_change_rows iid w w' : own_change iid w w' -> intent_rows w' = intent_rows w.
Proof.
  intros [(f & Ef & Hf) _]. unfold intent_rows. rewrite Ef, map_map. apply map_ext. intros i.
  destruct (Hf i) as (-> & _ & -> & _). done.
Qed.

Lemma own_change_elsewhere iid a c iid' w w' : own_change iid w w' -> elsewhere a c iid' w -> elsewhere a c iid' w'.
Proof.
  intros Hw Ha i' Hi' E. destruct (own_change_image iid w w' i' Hw Hi') as (i & Hi & Ei & Ek & _).
  rewrite (key_client_id a c i' i Ek). apply Ha; congruence.
Qed.

Lemma own_change_aside a c iid w w' : own_change iid w w' -> aside a c iid w -> aside a c iid w'.
Proof.
  intros Hw (Hids & Hs & Ha). split; [by apply (own_change_ids iid w)|].
  split; [|by apply (own_change_elsewhere iid a c iid w)].
  destruct Hs as [Hs|[(i & Hi & Hm) Hall]]; [left; unfold order_stored; by rewrite (proj2 Hw)|]. right. split.
  - pose proof Hw as [(f & Ef & Hf) _]. exists (f i). destruct (Hf i) as (_ & _ & Ek & _).
    split; [rewrite Ef; by apply in_map|]. by rewrite (key_client_id a c (f i) i Ek).
  - intros i' Hi' Hm'. destruct (own_change_image iid w w' i' Hw Hi') as (j & Hj & Ej & Ek & Hsame).
    rewrite (key_client_id a c i' j Ek) in Hm'. rewrite Hsame; [by apply Hall|].
    intros E. by rewrite (Ha j Hj E) in Hm'.
Qed.

Lemma exit_frame_own iid w w' : exit_frame iid w w' -> own_change iid w w'.
Proof.
  intros (E & _ & f & Ef & Hf & _). split; [by exists f|].
  unfold without_intents in E. apply (f_equal brokerOrders) in E. exact E.
Qed.
Lemma quiet_own iid w w' : same_trading w w' -> own_change iid w w'.
Proof. intros H. by apply exit_frame_own, same_trading_exit_frame. Qed.

Section Settled.
Context `{PrismaLaws} `{ExitBroker} {S : ExitServices} `{!ExitServicesLaws S}.
Variable now : Z.

Lemma update_own iid st b : moves (own_change iid) (update_intents now (intent_is iid) st b).
Proof.
  intros w. split; [|by rewrite update_intents_db].
  apply update_intents_frame. by intros i E%Z.eqb_eq.
Qed.

Lemma states_own {A} iid (m : eff ExitWorld A) :
  (forall w, exists g, snd (m w) = set_exitStates g w) -> moves (own_change iid) m.
Proof.
  intros Hm w. destruct (Hm w) as [g ->]. split; [|done].
  exists (fun i => i). split; [by rewrite map_id|apply own_intent_id].
Qed.

Lemma aside_of a c w i :
  table_ids w -> settled a c w -> In i (orderIntents (xw_db w)) -> intent_with_client_id a c i = false ->
  aside a c (oi_id i) w.
Proof.
  intros Hids Hs Hi Hm. split; [done|]. split; [done|]. intros j Hj E.
  by rewrite (NoDup_key_inj oi_id _ j i (ti_intents w Hids) Hj Hi E).
Qed.

Lemma find_intent_Some a c db i :
  find_intent a c db = Some i -> In i (orderIntents db) /\ intent_with_client_id a c i = true.
Proof. apply find_first_by_some. Qed.
Lemma find_intent_None a c db i :
  find_intent a c db = None -> In i (orderIntents db) -> intent_with_client_id a c i = false.
Proof. intros E. by apply (find_first_by_none _ _ _ _ _ E). Qed.

(** A new protective intent settles nothing and unsettles nothing. *)
Lemma insert_intent_settled a' c' data w :
  (forall id, oi_id (data id) = id /\ intent_with_client_id a' c' (data id) = true) ->
  find_intent a' c' (xw_db w) = None -> table_ids w ->
  let '(r, w1) := insert_intent_row data w in
  exists i, r = Ok i /\ In i (orderIntents (xw_db w1)) /\ intent_with_client_id a' c' i = true /\ table_ids w1 /\
    brokerOrders (xw_db w1) = brokerOrders (xw_db w) /\
    (forall j, In j (orderIntents (xw_db w1)) -> intent_with_client_id a' c' j = true -> j = i) /\
    (forall a c, settled a c w -> settled a c w1) /\
    (forall a c iid, (a', c') <> (a, c) -> elsewhere a c iid w -> elsewhere a c iid w1).
Proof.
  intros Hd Hnone [Hi Ho]. cbn. set (i := data (next_id (map oi_id (orderIntents (xw_db w))))). destruct (Hd (next_id (map oi_id (orderIntents (xw_db w))))) as [Eid Em].
  fold i in Eid, Em. exists i. split; [done|]. split; [by apply in_app_iff; right; left|]. split; [done|].
  split; [|split; [done|split; [|split]]].
  - split; [|done]. cbn. rewrite map_app. apply NoDup_app. split; [done|]. split; [|apply NoDup_singleton].
    intros x Hx%list_elem_of_In E%list_elem_of_singleton. fold i in E. rewrite E, Eid in Hx.
    by apply next_id_fresh in Hx.
  - intros j [Hj|[<-|[]]]%in_app_iff Hm; [|done]. by rewrite (find_intent_None a' c' (xw_db w) j Hnone Hj) in Hm.
  - intros a c [Hs|[(j & Hj & Hm) Hall]]; [by left|].
    assert (Hne : (a', c') <> (a, c)).
    { intros [= -> ->]. by rewrite (find_intent_None a c (xw_db w) j Hnone Hj) in Hm. }
    right. split; [exists j; split; [by apply in_app_iff; left|done]|].
    intros k [Hk|[<-|[]]]%in_app_iff Hkm; [by apply Hall|]. fold i in Hkm. by rewrite (other_intent a c a' c' i Hne Em) in Hkm.
  - intros a c iid Hne He k [Hk|[<-|[]]]%in_app_iff E; [by apply (He k)|]. by apply (other_intent a c a' c').
Qed.

Lemma persisted_cases a' p asg side c' w :
  table_ids w ->
  let '(r, w1) := persisted_intent now a' p asg side c' w in
  (exists e, r = Throw e /\ w1 = w) \/
  (exists i, r = Ok i /\ In i (orderIntents (xw_db w1)) /\ intent_with_client_id a' c' i = true /\ table_ids w1 /\
     brokerOrders (xw_db w1) = brokerOrders (xw_db w) /\ (forall a c, settled a c w -> settled a c w1) /\
     (forall a c iid, (a', c') <> (a, c) -> elsewhere a c iid w -> elsewhere a c iid w1) /\
     (find_intent a' c' (xw_db w) <> None -> intent_rows w1 = intent_rows w)).
Proof.
  intros Hids. unfold persisted_intent.
  change ((db_asks ?f ≫= ?k) w) with (k (f (xw_db w)) w). cbv beta.
  destruct (find_intent a' c' (xw_db w)) as [i|] eqn:Ef.
  { apply find_intent_Some in Ef as [Hi Hm]. case_bool_decide; [|left; by eexists].
    right. exists i. done. }
  change ((db_asks ?f ≫= ?k) w) with (k (f (xw_db w)) w). cbv beta.
  change ((asks ?f ≫= ?k) w) with (k (f w) w). cbv beta.
  match goal with |- context [insert_intent_row ?d] => pose proof (insert_intent_settled a' c' d w) as Hins end.
  destruct (insert_intent_row _ w) as [r w1]. destruct Hins as (i & -> & Hi & Hm & Ht & Hb & _ & Hs & He); [|done|done|].
  - intros id. split; [done|]. unfold intent_with_client_id, opt_eqb. cbn.
    by rewrite !bool_decide_eq_true_2.
  - right. by exists i.
Qed.

(** Storing the order of a protection settles it, and only adds to what is
    stored. *)
Lemma save_cases a' c' iid p side o w :
  table_ids w ->
  let '(r, w1) := save_broker_order now (option_map bo_id (find_order a' c' (xw_db w)))
                    (protective_order_row iid a' p side c' o) w in
  (exists e, r = Throw e /\ w1 = w) \/
  (r = Ok tt /\ orderIntents (xw_db w1) = orderIntents (xw_db w) /\ table_ids w1 /\ order_stored a' c' w1 /\
   forall a c, order_stored a c w -> order_stored a c w1).
Proof.
  intros [Hi Ho]. unfold save_broker_order. set (row := protective_order_row iid a' p side c' o).
  assert (Hrow : forall id t, bo_id (row id t) = id /\ order_with_client_id a' c' (row id t) = true).
  { intros id t. split; [done|]. unfold order_with_client_id, opt_eqb. cbn.
    by rewrite bool_decide_eq_true_2, String.eqb_refl. }
  change ((db_asks ?f ≫= ?k) w) with (k (f (xw_db w)) w). cbv beta zeta.
  destruct (find_order a' c' (xw_db w)) as [r0|] eqn:Ef; cbn [option_map].
  - apply find_first_some in Ef as [Hr0 Hm0].
    rewrite (find_first_unique _ _ r0 Hr0).
    2: by apply Z.eqb_refl. 2: { intros y Hy E%Z.eqb_eq. by apply (NoDup_key_inj bo_id (brokerOrders (xw_db w))). }
    destruct (existsb _ _); [left; by eexists|]. cbn [modify]. right. split; [done|]. split; [done|].
    set (g := fun r => if bo_id r =? bo_id r0 then row (bo_id r0) (bo_createdAt r) else r).
    set (w1 := set_db _ w).
    assert (Eo : brokerOrders (xw_db w1) = map g (brokerOrders (xw_db w)))
      by (unfold w1; cbn; by rewrite update_many_eq).
    assert (Ei : orderIntents (xw_db w1) = orderIntents (xw_db w)) by done.
    unfold order_stored. rewrite Eo. split; [split|split].
    + by rewrite Ei.
    + rewrite Eo, map_map, (map_ext _ bo_id); [done|]. intros r. unfold g.
      destruct (Z.eqb_spec (bo_id r) (bo_id r0)); [by rewrite (proj1 (Hrow _ _))|done].
    + exists (g r0). split; [by apply in_map|]. unfold g. rewrite Z.eqb_refl. apply Hrow.
    + intros a c (r & Hr & Hm). exists (g r). split; [by apply in_map|]. unfold g.
      destruct (Z.eqb_spec (bo_id r) (bo_id r0)) as [E|]; [|done].
      rewrite (NoDup_key_inj bo_id (brokerOrders (xw_db w)) r r0 Ho Hr Hr0 E) in Hm.
      destruct (decide ((a', c') = (a, c))) as [[= <- <-]|Hne]; [apply Hrow|].
      by rewrite (other_order a c a' c' r0 Hne Hm0) in Hm.
  - destruct (existsb _ _); [left; by eexists|]. right. split; [done|]. split; [done|].
    unfold order_stored. cbn [modify snd xw_db set_db brokerOrders set_brokerOrders].
    split; [split; [done|]|split].
    + cbn. rewrite map_app. apply NoDup_app. split; [done|]. split; [|apply NoDup_singleton].
      intros x Hx%list_elem_of_In ->%list_elem_of_singleton. by apply next_id_fresh in Hx.
    + eexists. split; [apply in_app_iff; right; by left|apply Hrow].
    + intros a c (r & Hr & Hm). exists r. split; [by apply in_app_iff; left|done].
Qed.

(** Statements on the exit states leave the tables of [settled] alone. *)
Lemma same_tables_settled a c w w' :
  orderIntents (xw_db w') = orderIntents (xw_db w) -> brokerOrders (xw_db w') = brokerOrders (xw_db w) ->
  (table_ids w -> table_ids w') /\ (settled a c w -> settled a c w').
Proof.
  intros Ei Eo. unfold settled, order_stored, fate_recorded. rewrite Ei, Eo.
  split; [|done]. intros [H1 H2]. split; congruence.
Qed.

Lemma mark_own iid id b bid c st raw : moves (own_change iid) (markTrailingStopOrderSubmitted now id b bid c st raw).
Proof.
  unfold markTrailingStopOrderSubmitted, update_exit_state. solve_moves. apply states_own. intros w. by eexists.
Qed.

(** Storing the order of one protection keeps all that is settled; when it
    succeeds its own is settled too. *)
Lemma persist_settles a' id' c' o w :
  table_ids w ->
  let '(r, w') := persistTrailingStopOrder now a' id' c' o w in
  table_ids w' /\ (forall a c, settled a c w -> settled a c w') /\ (r = Ok tt -> settled a' c' w') /\
  (forall a c iid, (a', c') <> (a, c) -> elsewhere a c iid w -> elsewhere a c iid w') /\
  (find_intent a' c' (xw_db w) <> None -> intent_rows w' = intent_rows w).
Proof.
  intros Hids. unfold persistTrailingStopOrder.
  change ((db_asks ?f ≫= ?k) w) with (k (f (xw_db w)) w). cbv beta.
  destruct (find_position id' (xw_db w)) as [p|]; [|done].
  change ((db_asks ?f ≫= ?k) w) with (k (f (xw_db w)) w). cbv beta.
  destruct (assignment_of p (xw_db w)) as [asg|]; [|done].
  destruct (negb _); [done|]. cbv zeta. unfold mbind at 1, eff_bind at 1.
  set (side := if String.eqb (tp_side p) "short" then "buy" else "sell").
  pose proof (persisted_cases a' p asg side c' w Hids) as Hp.
  destruct (persisted_intent _ _ _ _ _ _ w) as [r w1].
  destruct Hp as [(e & -> & ->)|(i & -> & Hi & Hm & Hids1 & _ & Hs1 & He1 & Hr1)]; [done|].
  change ((db_asks ?f ≫= ?k) w1) with (k (f (xw_db w1)) w1). cbv beta. unfold mbind at 1, eff_bind at 1.
  pose proof (save_cases a' c' (oi_id i) p side o w1 Hids1) as Hsave.
  destruct (save_broker_order _ _ _ w1) as [r w2].
  destruct Hsave as [(e & -> & ->)|(-> & Ei & Hids2 & Hst & Ho2)]; [do 4 (split; [done|]); done|].
  match goal with |- let '(_, _) := ?m w2 in _ =>
    assert (Hown : moves (own_change (oi_id i)) m)
      by (pose proof (mark_own (oi_id i)); pose proof (update_own (oi_id i)); solve_moves);
    specialize (Hown w2); destruct (m w2) as [r w']
  end.
  cbn [snd] in Hown.
  assert (Hst' : order_stored a' c' w').
  { destruct Hown as [_ Eo]. unfold order_stored. by rewrite Eo. }
  split; [by apply (own_change_ids _ _ _ Hown)|]. split; [|split; [intros _; by left|]].
  2: { split; [|intros Hf; rewrite (own_change_rows _ _ _ Hown); unfold intent_rows; rewrite Ei; by apply Hr1].
       intros a c iid Hne He. apply (own_change_elsewhere _ _ _ _ _ _ Hown). intros j. rewrite Ei. by apply He1. }
  intros a c Hs%Hs1. destruct (decide ((a', c') = (a, c))) as [[= <- <-]|Hne]; [by left|].
  eapply (own_change_aside a c _ _ _ Hown). apply aside_of; [done| |by rewrite Ei|by apply (other_intent a c a' c')].
  destruct Hs as [Hs|[(j & Hj & Hjm) Hall]]; [left; by apply Ho2|]. right. split; [exists j; by rewrite Ei|by rewrite Ei].
Qed.

(** The claim of one protection keeps all that is settled. *)
Lemma protection_claim_cases t w :
  table_ids w ->
  let '(r, w1) := claim_protection now t w in
  (exists e, r = Throw e /\ w1 = w) \/
  (exists i b, r = Ok (i, b) /\ In i (orderIntents (xw_db w1)) /\
     intent_with_client_id (tt_account t) (tt_clientOrderId t) i = true /\ table_ids w1 /\
     brokerOrders (xw_db w1) = brokerOrders (xw_db w) /\
     (b = false -> w1 = w /\ find_intent (tt_account t) (tt_clientOrderId t) (xw_db w) = Some i) /\
     (b = true -> find_intent (tt_account t) (tt_clientOrderId t) (xw_db w) = None /\
        forall j, In j (orderIntents (xw_db w1)) ->
          intent_with_client_id (tt_account t) (tt_clientOrderId t) j = true -> j = i) /\
     forall a c, settled a c w -> settled a c w1).
Proof.
  intros Hids. unfold claim_protection, transaction. cbv zeta.
  change ((db_asks ?f ≫= ?k) w) with (k (f (xw_db w)) w). cbv beta.
  destruct (find_intent _ _ (xw_db w)) as [i|] eqn:Ef.
  { pose proof (find_intent_Some _ _ _ _ Ef) as [Hi Hm].
    case_bool_decide; [|left; by eexists]. right. by exists i, false. }
  unfold mbind at 1, eff_bind at 1, claim_exit_state at 1. rewrite update_many_eq. cbv iota beta.
  destruct (negb _); [left; by eexists|]. unfold mbind at 1, eff_bind at 1.
  set (w0 := set_exitStates _ w). change (find_intent (tt_account t) (tt_clientOrderId t) (xw_db w0) = None) in Ef.
  destruct (same_tables_settled 0 "" w w0 eq_refl eq_refl) as [Hids0%(fun f => f Hids) _].
  match goal with |- context [insert_intent_row ?d] =>
    pose proof (insert_intent_settled (tt_account t) (tt_clientOrderId t) d w0) as Hins end.
  destruct (insert_intent_row _ w0) as [r w1]. destruct Hins as (i & -> & Hi & Hm & Ht & Hb & Hu & Hs & _); [|done|done|].
  - intros id. split; [done|]. unfold intent_with_client_id, opt_eqb. cbn. by rewrite !bool_decide_eq_true_2.
  - right. exists i, true. do 5 (split; [done|]). split; [done|]. split; [done|].
    intros a c Hs0. apply Hs. by apply (same_tables_settled a c w w0 eq_refl eq_refl).
Qed.

(** ** One call *)

(** Every statement of a call keeps what is settled and sends nothing. *)
Definition keeps_settled (w w' : ExitWorld) : Prop :=
  (table_ids w -> table_ids w' /\ forall a c, settled a c w -> settled a c w') /\ nothing_sent w w'.
#[export] Instance keeps_settled_preorder : PreOrder keeps_settled.
Proof.
  unfold keeps_settled, nothing_sent. split; [by intros w|]. intros u v w [H1 E1] [H2 E2].
  split; [|congruence]. intros Hu. destruct (H1 Hu) as [Hv Hs]. destruct (H2 Hv) as [Hw Hs'].
  split; [done|]. intros a c Ha. by apply Hs', Hs.
Qed.

Lemma same_tables_keeps {A} (m : eff ExitWorld A) :
  (forall w, orderIntents (xw_db (snd (m w))) = orderIntents (xw_db w)) ->
  (forall w, brokerOrders (xw_db (snd (m w))) = brokerOrders (xw_db w)) ->
  moves nothing_sent m -> moves keeps_settled m.
Proof.
  intros Hi Ho Hs w. split; [|apply Hs]. intros Hw. split; [by apply (same_tables_settled 0 "" w)|].
  intros a c. by apply (same_tables_settled a c w).
Qed.

Lemma states_keep {A} (m : eff ExitWorld A) :
  (forall w, exists g, snd (m w) = set_exitStates g w) -> moves keeps_settled m.
Proof.
  intros Hm. apply same_tables_keeps; intros w; destruct (Hm w) as [g E]; unfold nothing_sent; by rewrite E.
Qed.

Lemma quiet_keeps {A} (m : eff ExitWorld A) : moves same_trading m -> moves keeps_settled m.
Proof.
  intros Hm. apply same_tables_keeps; [intros w; destruct (Hm w) as (-> & _)..|]; try done.
  by apply quiet_sends_nothing.
Qed.

Lemma target_keeps a id : moves keeps_settled (trailing_target a id).
Proof.
  unfold trailing_target, target_error, ensurePositionExitState, getPositionWithExitProfile, create_exit_state, db_asks.
  solve_moves. apply states_keep. intros w. by eexists.
Qed.

Lemma persist_keeps t o : moves keeps_settled (persist now t o).
Proof.
  intros w. split; [|apply persist_sends]. intros Hw.
  pose proof (persist_settles (tt_account t) (tp_id (tt_position t)) (tt_clientOrderId t) o w Hw) as Hp.
  unfold persist. destruct (persistTrailingStopOrder _ _ _ _ _ w). by destruct Hp as (? & ? & _).
Qed.

Lemma mark_keeps id b bid c st raw : moves keeps_settled (markTrailingStopOrderSubmitted now id b bid c st raw).
Proof. unfold markTrailingStopOrderSubmitted, update_exit_state. solve_moves. apply states_keep. intros w. by eexists. Qed.

(** ** The rest of another protection's call *)

Section Tail.
Variables (a : Z) (c : string) (t : TrailingTarget) (intent : OrderIntent).
Hypothesis Hother : (tt_account t, tt_clientOrderId t) <> (a, c).
Notation J := (keeps (aside a c (oi_id intent))).

Lemma own_tail {A} (m : eff ExitWorld A) : moves (own_change (oi_id intent)) m -> moves J m.
Proof. apply moves_weaken. intros w w' Hw. exact (own_change_aside a c _ w w' Hw). Qed.

Lemma quiet_tail {A} (m : eff ExitWorld A) : moves same_trading m -> moves J m.
Proof. intros Hm. apply own_tail. revert Hm. apply moves_weaken. intros w w'. apply quiet_own. Qed.

Lemma persist_tail o : moves J (persist now t o).
Proof.
  intros w (Hids & Hs & He).
  pose proof (persist_settles (tt_account t) (tp_id (tt_position t)) (tt_clientOrderId t) o w Hids) as Hp.
  unfold persist. destruct (persistTrailingStopOrder _ _ _ _ _ w) as [r w'].
  destruct Hp as (Hids' & Hs' & _ & He' & _). split; [done|]. split; [by apply Hs'|by apply He'].
Qed.

Lemma submit_tail : moves J (submitVerifiedExit now (trailing_context t intent)).
Proof.
  apply own_tail. eapply moves_weaken; [intros w w'; apply exit_frame_own|].
  apply (submit_frame now (trailing_context t intent)).
Qed.

Lemma update_tail st b : moves J (update_intents now (intent_is (oi_id intent)) st b).
Proof. apply own_tail, update_own. Qed.
Lemma uncertain_tail e : moves J (recordTrailingStopSubmissionUncertain now t (oi_id intent) e).
Proof. apply quiet_tail, uncertain_quiet. Qed.
Lemma event_tail ty e i acc s m p : moves J (createSystemEvent ty e i acc s m p).
Proof. apply quiet_tail, event_quiet. Qed.
Lemma polling_tail r : moves J (forceAfterBrokerWrite (tt_account t) r).
Proof. apply quiet_tail, polling_quiet. Qed.
Hint Resolve persist_tail submit_tail update_tail uncertain_tail event_tail polling_tail : moves.

Lemma protection_tail : moves J (submit_protection now t intent).
Proof. unfold submit_protection, trailing_failed, record_failure, trailing_accepted. solve_moves. Qed.
End Tail.

Lemma update_succeeds p st b w : exists n w', update_intents now p st b w = (Ok n, w').
Proof. unfold update_intents. rewrite update_many_eq. by do 2 eexists. Qed.

(** The reason that is recorded for a delivery is the one that is read back. *)
Lemma reason_read_back c d :
  c = "DELIVERY_UNCERTAIN" \/ c = "BROKER_REJECTED" ->
  blockReasonDeliveryClassification (Some (delivery_reason c d)) = Some c.
Proof. by intros [-> | ->]. Qed.

Lemma recorded_class i :
  delivery_recorded i = true ->
  exists c, blockReasonDeliveryClassification (oi_blockReason i) = Some c /\
    (c = "DELIVERY_UNCERTAIN" \/ c = "BROKER_REJECTED").
Proof.
  unfold delivery_recorded. destruct (blockReasonDeliveryClassification _) as [c|]; [|done].
  intros [->%String.eqb_eq| ->%String.eqb_eq]%orb_prop; eexists; (split; [done|]); auto.
Qed.

(** Recording such a reason on an intent settles the intents of its
    protection when they all are that one, and unsettles no other. *)
Lemma record_settles a' c' i st c d w :
  table_ids w -> In i (orderIntents (xw_db w)) -> intent_with_client_id a' c' i = true ->
  c = "DELIVERY_UNCERTAIN" \/ c = "BROKER_REJECTED" ->
  let w' := snd (update_intents now (intent_is (oi_id i)) st (Some (Some (delivery_reason c d))) w) in
  table_ids w' /\ (forall a0 c0, settled a0 c0 w -> settled a0 c0 w') /\
  ((forall j, In j (orderIntents (xw_db w)) -> intent_with_client_id a' c' j = true -> oi_id j = oi_id i) ->
   settled a' c' w').
Proof.
  intros Hids Hi Hm Hc w'.
  assert (Hown : own_change (oi_id i) w w') by apply update_own.
  assert (Hrec : forall j', In j' (orderIntents (xw_db w')) -> exists j, In j (orderIntents (xw_db w)) /\
    intent_with_client_id a' c' j' = intent_with_client_id a' c' j /\
    (oi_id j = oi_id i -> delivery_recorded j' = true) /\ (delivery_recorded j = true -> delivery_recorded j' = true)).
  { intros j' Hj'. unfold w' in Hj'. rewrite update_intents_db in Hj'.
    apply in_map_iff in Hj' as (j & <- & Hj). exists j. split; [done|].
    assert (Hr : forall x, delivery_recorded (intent_data now st (Some (Some (delivery_reason c d))) x) = true).
    { intros x. unfold delivery_recorded.
      change (oi_blockReason (intent_data _ _ _ x)) with (Some (delivery_reason c d)).
      rewrite (reason_read_back c d Hc). destruct Hc as [-> | ->]; done. }
    unfold intent_is. destruct (Z.eqb_spec (oi_id j) (oi_id i)); [|done].
    split; [by apply key_client_id|]. split; intros _; apply Hr. }
  assert (Hex : exists j, In j (orderIntents (xw_db w')) /\ intent_with_client_id a' c' j = true).
  { exists (intent_data now st (Some (Some (delivery_reason c d))) i). split; [|done].
    unfold w'. rewrite update_intents_db. apply in_map_iff. exists i. split; [|done].
    unfold intent_is. by rewrite Z.eqb_refl. }
  split; [by apply (own_change_ids _ _ _ Hown)|]. split.
  - intros a0 c0 Hs. destruct (decide ((a', c') = (a0, c0))) as [[= <- <-]|Hne].
    + destruct Hs as [Hs|[_ Hall]]; [left; unfold order_stored; by rewrite (proj2 Hown)|].
      right. split; [done|]. intros j' Hj' Hm'. destruct (Hrec j' Hj') as (j & Hj & Ej & _ & Hk).
      apply Hk, Hall; [done|]. by rewrite <- Ej.
    + apply (own_change_aside a0 c0 _ _ _ Hown). apply aside_of; try done. by apply (other_intent a0 c0 a' c').
  - intros Hu. right. split; [done|]. intros j' Hj' Hm'. destruct (Hrec j' Hj') as (j & Hj & Ej & Hk & _).
    apply Hk, Hu; [done|]. by rewrite <- Ej.
Qed.

(** From the claim to the point where the exit would be submitted. *)
Lemma protect_cases t w :
  table_ids w ->
  (let '(_, w') := protect now t w in keeps_settled w w') \/
  exists i b w1, claim_protection now t w = (Ok (i, b), w1) /\ keeps_settled w w1 /\
    order_by_client_id 3 (tt_account t) (tt_clientOrderId t) w1 = Ok None /\
    (b = true \/ delivery_recorded i = false) /\ protect now t w = submit_protection now t i w1.
Proof.
  intros Hids.
  assert (Heq : protect now t w = match claim_protection now t w with
    | (Ok (i, b), w1) => protect_claimed now t i b w1 | (Throw e, w1) => (Throw e, w1) end).
  { unfold protect, mbind, eff_bind. by destruct (claim_protection now t w) as [[[]|] ?]. }
  rewrite Heq. clear Heq.
  pose proof (protection_claim_cases t w Hids) as Hc. pose proof (claim_sends now t w) as Hsend.
  destruct (claim_protection now t w) as [r w1]. cbn [snd] in Hsend.
  destruct Hc as [(e & -> & ->)|(i & b & -> & Hi & Hm & Hids1 & Ho & Hb0 & Hb1 & Hs)]; [by left|].
  assert (Hk : keeps_settled w w1) by (split; [intros _; done|done]).
  unfold protect_claimed. destruct (negb b && _); [by left|].
  change ((lift ?f ≫= ?k) w1) with (match f w1 with Ok x => k x w1 | Throw e => (Throw e, w1) end). cbv beta.
  destruct (order_by_client_id 3 _ _ w1) as [[o|]|e] eqn:E3; [| |by left].
  - left. match goal with |- let '(_, _) := ?m w1 in _ =>
      assert (Hp : moves keeps_settled m) by (pose proof (persist_keeps t); solve_moves);
      specialize (Hp w1); destruct (m w1) as [r w'] end.
    by transitivity w1.
  - destruct (negb b && delivery_recorded i) eqn:Ebr.
    + left. apply andb_prop in Ebr as [_ Hrec]. destruct (recorded_class i Hrec) as (c & -> & Hc).
      change (default "" (Some c)) with c. unfold mbind, eff_bind.
      pose proof (record_settles _ _ i None c "broker lookup remains inconclusive" w1 Hids1 Hi Hm Hc) as (H1 & H2 & _).
      pose proof (update_intents_sends now (intent_is (oi_id i)) None
        (Some (Some (delivery_reason c "broker lookup remains inconclusive"))) w1) as H3.
      destruct (update_succeeds (intent_is (oi_id i)) None
        (Some (Some (delivery_reason c "broker lookup remains inconclusive"))) w1) as (n & w' & E).
      rewrite E in *. cbn [snd] in *. change (keeps_settled w w'). transitivity w1; [done|]. split; [by intros _|exact H3].
    + right. exists i, b, w1. do 3 (split; [done|]). split; [|done].
      destruct b; [by left|]. right. exact Ebr.
Qed.

(** ** What a submission leaves behind *)

Lemma submit_protection_eq t i w :
  submit_protection now t i w =
  match submitVerifiedExit now (trailing_context t i) w with
  | (Ok (RECOVERED_LOCAL id), w1) =>
      (Ok (not_submitted "already_persisted" (Some (z_str id)) (tt_clientOrderId t)), w1)
  | (Ok (RECOVERED_BROKER o), w1) | (Ok (SUBMITTED o), w1) => trailing_accepted now t i o w1
  | (Throw e, w1) =>
      match trailing_failed (A := AlpacaOrder) now t i e w1 with
      | (Ok (inl r), w2) => (Ok r, w2)
      | (Ok (inr o), w2) => trailing_accepted now t i o w2
      | (Throw e', w2) => (Throw e', w2)
      end
  end.
Proof.
  unfold submit_protection, try_catch, mbind, eff_bind.
  destruct (submitVerifiedExit now _ w) as [[[id|o|o]|e] w1]; try done.
  by destruct (trailing_failed _ _ _ e w1) as [[[r|o]|e'] w2].
Qed.

(** The intents of the protection are the one that was claimed. *)
Definition sole (a : Z) (c : string) (iid : Z) (w : ExitWorld) : Prop :=
  table_ids w /\
  (exists i, In i (orderIntents (xw_db w)) /\ oi_id i = iid /\ intent_with_client_id a c i = true) /\
  forall j, In j (orderIntents (xw_db w)) -> intent_with_client_id a c j = true -> oi_id j = iid.

Lemma sole_rows a c iid w w' : intent_rows w' = intent_rows w -> table_ids w' -> sole a c iid w -> sole a c iid w'.
Proof.
  intros Hr Hids' (_ & (i & Hi & Ei & Hm) & Hu). split; [done|].
  assert (Himg : forall u v j, intent_rows u = intent_rows v -> In j (orderIntents (xw_db u)) ->
    exists k, In k (orderIntents (xw_db v)) /\ oi_id k = oi_id j /\
      intent_with_client_id a c k = intent_with_client_id a c j).
  { intros u v j E Hj. assert (Hj' : In (oi_id j, intent_key j) (intent_rows v))
      by (rewrite <- E; unfold intent_rows; by apply (in_map (fun i => (oi_id i, intent_key i)))).
    apply in_map_iff in Hj' as (k & Ek & Hk). exists k. split; [done|].
    assert (Ek1 : oi_id k = oi_id j) by exact (f_equal fst Ek).
    assert (Ek2 : intent_key k = intent_key j) by exact (f_equal snd Ek).
    split; [done|by apply key_client_id]. }
  split.
  - destruct (Himg w w' i (eq_sym Hr) Hi) as (k & Hk & E1 & E2). exists k. split; [done|]. split; congruence.
  - intros j Hj Hjm. destruct (Himg w' w j Hr Hj) as (k & Hk & E1 & E2). rewrite <- E1. apply Hu; congruence.
Qed.

Lemma sole_own a c iid iid' w w' : own_change iid' w w' -> sole a c iid w -> sole a c iid w'.
Proof.
  intros Hw Hs. apply (sole_rows a c iid w); [by apply (own_change_rows iid')|by apply (own_change_ids iid' w), Hs|done].
Qed.

Lemma sole_record a c iid st k d w :
  sole a c iid w -> k = "DELIVERY_UNCERTAIN" \/ k = "BROKER_REJECTED" ->
  let w' := snd (update_intents now (intent_is iid) st (Some (Some (delivery_reason k d))) w) in
  table_ids w' /\ settled a c w'.
Proof.
  intros (Hids & (i & Hi & <- & Hm) & Hu) Hk.
  destruct (record_settles a c i st k d w Hids Hi Hm Hk) as (H1 & _ & H3). split; [done|by apply H3].
Qed.

Section Outcome.
Variables (t : TrailingTarget) (i : OrderIntent).
Notation a := (tt_account t).
Notation c := (tt_clientOrderId t).

Lemma quiet_settled {A} (m : eff ExitWorld A) w :
  moves same_trading m -> settled a c w -> settled a c (snd (m w)).
Proof.
  intros Hm. destruct (Hm w) as (E & _). by apply same_tables_settled; rewrite E.
Qed.

Lemma record_failure_settles {A} k e w :
  sole a c (oi_id i) w -> k = "DELIVERY_UNCERTAIN" \/ k = "BROKER_REJECTED" ->
  let '(r, w') := record_failure (A := A) now t i k e w in (exists e', r = Throw e') /\ settled a c w'.
Proof.
  intros Hs Hk. unfold record_failure. unfold mbind at 1, eff_bind at 1.
  match goal with |- context [update_intents now ?p ?st (Some (Some (delivery_reason k ?d))) w] =>
    destruct (sole_record a c (oi_id i) st k d w Hs Hk) as [_ H1];
    destruct (update_succeeds p st (Some (Some (delivery_reason k d))) w) as (n & w1 & E); rewrite E in * end.
  cbn [snd] in H1. unfold mbind, eff_bind, throw.
  set (m := if String.eqb k "DELIVERY_UNCERTAIN" then _ else _).
  assert (Hq : moves same_trading m).
  { unfold m. destruct (String.eqb k "DELIVERY_UNCERTAIN"); [apply uncertain_quiet|apply moves_ret; typeclasses eauto]. }
  pose proof (quiet_settled m w1 Hq H1) as H2. destruct (m w1) as [[[]|e'] w2]; (split; [by eexists|exact H2]).
Qed.

Lemma persist_outcome o w :
  sole a c (oi_id i) w ->
  let '(r, w') := persist now t o w in (r = Ok tt -> settled a c w') /\ sole a c (oi_id i) w'.
Proof.
  intros Hs. pose proof Hs as (Hids & (j & Hj & _ & Hm) & _).
  pose proof (persist_settles a (tp_id (tt_position t)) c o w Hids) as Hp. unfold persist.
  destruct (persistTrailingStopOrder _ _ _ _ _ w) as [r w']. destruct Hp as (Hids' & _ & Hok & _ & Hr).
  split; [done|]. apply (sole_rows _ _ _ w); [|done|done]. apply Hr. intros En.
  by rewrite (find_intent_None a c _ j En Hj) in Hm.
Qed.

(** The handler never makes up an accepted order. *)
Lemma failed_answers e w o : fst (trailing_failed (A := AlpacaOrder) now t i e w) <> Ok (inr o).
Proof.
  assert (Hrec : forall k, fst (record_failure (A := TrailingStopResult + AlpacaOrder) now t i k e w) <> Ok (inr o)).
  { intros k. unfold record_failure, mbind, eff_bind, throw. repeat case_match; simplify_eq/=; done. }
  unfold trailing_failed. destruct (String.eqb _ _); [|apply Hrec].
  unfold mbind at 1, eff_bind at 1. cbv beta. destruct (order_by_client_id 4 a c w) as [[o'|]|e4]; [|apply Hrec..].
  unfold mbind, eff_bind. by destruct (persist now t o' w) as [[[]|e'] w'].
Qed.

(** The handler of an uncertain or rejected delivery. *)
Lemma failed_settles e w :
  sole a c (oi_id i) w ->
  getDeliveryClassification e = "DELIVERY_UNCERTAIN" \/ getDeliveryClassification e = "BROKER_REJECTED" ->
  let '(r, w') := trailing_failed (A := AlpacaOrder) now t i e w in
  (settled a c w' \/
   (getDeliveryClassification e = "BROKER_REJECTED" /\
    exists o e', order_by_client_id 4 a c w = Ok (Some o) /\ r = Throw e')).
Proof.
  intros Hs Hk. unfold trailing_failed.
  assert (Hrec : forall k, k = "DELIVERY_UNCERTAIN" \/ k = "BROKER_REJECTED" ->
    let '(r, w') := record_failure (A := TrailingStopResult + AlpacaOrder) now t i k e w in settled a c w').
  { intros k Hk'. pose proof (record_failure_settles (A := TrailingStopResult + AlpacaOrder) k e w Hs Hk') as Hr.
    destruct (record_failure _ _ _ _ _ w) as [r w']. by destruct Hr. }
  destruct (String.eqb_spec (getDeliveryClassification e) "BROKER_REJECTED") as [Er|Er].
  2: { specialize (Hrec _ Hk). destruct (record_failure _ _ _ _ _ w) as [r w']. by left. }
  unfold mbind at 1, eff_bind at 1. cbv beta.
  destruct (order_by_client_id 4 a c w) as [[o|]|e4] eqn:E4.
  - pose proof (persist_outcome o w Hs) as Hp. unfold mbind, eff_bind.
    destruct (persist now t o w) as [[[]|e'] w'].
    + left. by apply Hp.
    + right. split; [done|]. by exists o, e'.
  - specialize (Hrec _ Hk). destruct (record_failure _ _ _ _ _ w) as [r w']. by left.
  - specialize (Hrec "DELIVERY_UNCERTAIN" (or_introl eq_refl)).
    destruct (record_failure _ _ _ _ _ w) as [r w']. by left.
Qed.

(** An accepted exit: its order is stored, or the loss is recorded. *)
Lemma accepted_settles o w :
  (forall r w, exists w', forceAfterBrokerWrite a r w = (Ok tt, w')) ->
  sole a c (oi_id i) w -> settled a c (snd (trailing_accepted now t i o w)).
Proof.
  intros Hpoll Hs. unfold trailing_accepted. unfold mbind at 1, eff_bind at 1.
  pose proof (polling_quiet a "protective_order_created" w) as Hq.
  destruct (Hpoll "protective_order_created" w) as [w1 E]. rewrite E in *. cbn [snd] in Hq.
  assert (Hs1 : sole a c (oi_id i) w1) by by apply (sole_own a c _ (oi_id i) w), Hs; apply quiet_own.
  pose proof (persist_outcome o w1 Hs1) as Hp. unfold mbind at 1, eff_bind at 1, try_catch.
  destruct (persist now t o w1) as [[[]|e] w2]; destruct Hp as [Hp Hs2].
  - apply quiet_settled; [|by apply Hp]. solve_moves.
  - unfold mbind at 1, eff_bind at 1.
    match goal with |- context [update_intents now ?p ?st (Some (Some (delivery_reason ?k ?d))) w2] =>
      destruct (sole_record a c (oi_id i) st k d w2 Hs2 (or_introl eq_refl)) as [_ H3];
      destruct (update_succeeds p st (Some (Some (delivery_reason k d))) w2) as (n & w3 & E3); rewrite E3 in * end.
    cbn [snd] in H3. unfold mbind, eff_bind, throw.
    pose proof (quiet_settled _ w3 (uncertain_quiet now t (oi_id i) e) H3) as H4.
    by destruct (recordTrailingStopSubmissionUncertain _ _ _ _ w3) as [[[]|e'] w4].
Qed.
End Outcome.

(** What the answer to the one request was, after the verified exit. *)
Definition definite_answer (r : res AlpacaOrder) : Prop :=
  exists k m s, r = Throw (DeliveryError k m s) /\ k <> "DELIVERY_UNCERTAIN" /\ k <> "BROKER_REJECTED".
Definition rejected_answer (r : res AlpacaOrder) : Prop :=
  exists m s, r = Throw (DeliveryError "BROKER_REJECTED" m s).

Lemma once_outcome c q w :
  let answer := submit_answer (cx_tradingAccountId c) (snd (request_of c q)) w in
  match fst (submit_once c (to_upper (cx_symbol c)) q w) with
  | Ok (RECOVERED_LOCAL _) => False
  | Ok _ => True
  | Throw e => getDeliveryClassification e = "DELIVERY_UNCERTAIN" \/
      (getDeliveryClassification e = "BROKER_REJECTED" /\ rejected_answer answer) \/ definite_answer answer
  end.
Proof.
  cbv zeta. unfold submit_once, try_catch, submitVerifiedAlpacaExitOrder, lift, mbind, eff_bind, throw, mret, eff_ret,
    request_of. cbn [snd].
  destruct (submit_answer _ _ w) as [order|e] eqn:Ea; [done|].
  assert (Hplain : getDeliveryClassification e = "DELIVERY_UNCERTAIN" \/
    exists k m s, e = DeliveryError k m s) by (destruct e; try (by left); right; by do 3 eexists).
  destruct Hplain as [Hu|(k & m & st & ->)].
  - assert (Hsame : forall k m s, e = DeliveryError k m s -> k = "DELIVERY_UNCERTAIN") by (by intros k m s ->).
    destruct e; try (by left). rewrite (Hsame _ _ _ eq_refl). by left.
  - destruct (String.eqb_spec k "BROKER_REJECTED") as [->|Hr].
    + destruct (order_by_client_id _ _ _ _) as [[o|]|e']; cbn; [done| |by left].
      right; left. split; [done|]. by exists m, st.
    + cbn. destruct (String.eqb_spec k "DELIVERY_UNCERTAIN") as [->|Hu]; [by left|].
      right; right. by exists k, m, st.
Qed.

(** The requests of a call, and the state the broker answered it in. *)
Definition accounted (a : Z) (c : string) (answer : res AlpacaOrder) (r : res TrailingStopResult) (w' : ExitWorld) : Prop :=
  definite_answer answer \/ settled a c w' \/
  (rejected_answer answer /\ exists o w3 e, order_by_client_id 4 a c w3 = Ok (Some o) /\ r = Throw e).

Lemma protection_outcome t i w :
  (forall r w, exists w', forceAfterBrokerWrite (tt_account t) r w = (Ok tt, w')) ->
  let a := tt_account t in let c := tt_clientOrderId t in
  let '(r, w') := submit_protection now t i w in
  sent w' = sent w \/
  exists q w2, sent w2 = sent w /\ sent w' = (sent w ++ [request_of (trailing_context t i) q])%list /\
    (sole a c (oi_id i) w ->
     accounted a c (submit_answer a (snd (request_of (trailing_context t i) q)) w2) r w').
Proof.
  intros Hpoll a c. rewrite submit_protection_eq. set (cx := trailing_context t i).
  destruct (exit_submission now cx w) as [Hn|(p & q & w2 & _ & H2 & E)].
  { destruct (submitVerifiedExit now cx w) as [[[id|o|o]|e] w1]; cbn in Hn; [by left| | |].
    1, 2: pose proof (accepted_sends now t i o w1) as Ha; destruct (trailing_accepted _ _ _ _ w1);
      left; unfold nothing_sent in Ha; cbn in *; congruence.
    pose proof (failed_sends (A := AlpacaOrder) now t i e w1) as Hf. pose proof (failed_answers t i e w1) as Hno.
    destruct (trailing_failed _ _ _ e w1) as [[[r|o]|e'] w3]; unfold nothing_sent in Hf; cbn in Hf;
      [left; congruence|by destruct (Hno o)|left; congruence]. }
  pose proof (submit_frame now cx w) as Hframe. pose proof (submit_once_sent cx q w2) as Hs.
  pose proof (once_outcome cx q w2) as Hout. cbv zeta in Hout. rewrite E in *. clear E.
  destruct (submit_once cx (to_upper (cx_symbol cx)) q w2) as [r1 w1]. cbn [fst snd] in *. rewrite H2 in Hs.
  assert (Hsole : sole a c (oi_id i) w -> sole a c (oi_id i) w1)
    by exact (sole_own a c (oi_id i) (oi_id i) w w1 (exit_frame_own _ _ _ Hframe)).
  assert (Hacc : forall o, let '(r, w') := trailing_accepted now t i o w1 in
    sent w' = sent w1 /\ (sole a c (oi_id i) w -> settled a c w')).
  { intros o. pose proof (accepted_sends now t i o w1) as Ha. pose proof (accepted_settles t i o w1 Hpoll) as Hset.
    destruct (trailing_accepted _ _ _ _ w1). cbn in *. split; [done|]. intros H3. by apply Hset, Hsole. }
  destruct r1 as [[id|o|o]|e]; [done| | |].
  1, 2: specialize (Hacc o); destruct (trailing_accepted _ _ _ _ w1) as [r w']; destruct Hacc as [Hse Hset];
    right; exists q, w2; (split; [done|]); split; [congruence|]; intros H3; right; left; by apply Hset.
  pose proof (failed_sends (A := AlpacaOrder) now t i e w1) as Hf. unfold nothing_sent in Hf.
  pose proof (failed_settles t i e w1) as Hset. pose proof (failed_answers t i e w1) as Hno.
  destruct (trailing_failed (A := AlpacaOrder) now t i e w1) as [rf w3]. cbn [fst snd] in *.
  assert (Hgoal : forall r, (forall e', rf = Throw e' -> r = Throw e') ->
    sent w3 = sent w \/ exists q0 w4, sent w4 = sent w /\ sent w3 = (sent w ++ [request_of cx q0])%list /\
      (sole a c (oi_id i) w -> accounted a c (submit_answer a (snd (request_of cx q0)) w4) r w3)).
  { intros r Hr. right. exists q, w2. split; [done|]. split; [congruence|]. intros H3.
    destruct Hout as [Hu|[[Hr' Hans]|Hd]]; [| |by left].
    - destruct (Hset (Hsole H3) (or_introl Hu)) as [H4|(Hk & _)]; [right; by left|congruence].
    - destruct (Hset (Hsole H3) (or_intror Hr')) as [H4|(_ & o & e' & H4 & H5)]; [right; by left|].
      right; right. split; [done|]. exists o, w1, e'. split; [done|]. by apply Hr. }
  destruct rf as [[r|o]|e']; [by apply Hgoal|by destruct (Hno o)|].
  apply Hgoal. by intros e0 [= ->].
Qed.

Lemma protection_sends t i w :
  sent (snd (submit_protection now t i w)) = sent w \/
  exists q, sent (snd (submit_protection now t i w)) = (sent w ++ [request_of (trailing_context t i) q])%list.
Proof.
  rewrite submit_protection_eq.
  assert (Hlater : forall r w1, sent (snd (match (r, w1) : res VerifiedExitSubmissionResult * ExitWorld with
    | (Ok (RECOVERED_LOCAL id), w1) =>
        (Ok (not_submitted "already_persisted" (Some (z_str id)) (tt_clientOrderId t)), w1)
    | (Ok (RECOVERED_BROKER o), w1) | (Ok (SUBMITTED o), w1) => trailing_accepted now t i o w1
    | (Throw e, w1) =>
        match trailing_failed (A := AlpacaOrder) now t i e w1 with
        | (Ok (inl r), w2) => (Ok r, w2)
        | (Ok (inr o), w2) => trailing_accepted now t i o w2
        | (Throw e', w2) => (Throw e', w2)
        end
    end)) = sent w1).
  { intros [[id|o|o]|e] w1; [done|apply accepted_sends..|].
    pose proof (failed_sends (A := AlpacaOrder) now t i e w1) as Hf.
    destruct (trailing_failed _ _ _ e w1) as [[[r|o]|e'] w2]; try exact Hf.
    rewrite <- Hf. apply accepted_sends. }
  destruct (exit_submission now (trailing_context t i) w) as [Hn|(p & q & w2 & _ & H2 & E)].
  - left. destruct (submitVerifiedExit now _ w) as [r w1]. rewrite Hlater. exact Hn.
  - right. exists q. rewrite E. pose proof (submit_once_sent (trailing_context t i) q w2) as Hs.
    destruct (submit_once _ _ q w2) as [r w1]. rewrite Hlater. cbn [snd] in Hs. by rewrite Hs, H2.
Qed.
End Settled.

(** * Properties *)

Section Properties.
Context `{PrismaLaws} `{ExitBroker} {S : ExitServices} `{!ExitServicesLaws S}.

Lemma target_account a id w t : fst (trailing_target a id w) = Ok (inr t) -> tt_account t = a.
Proof.
  unfold trailing_target, target_error, throw, db_asks, asks, lift, mbind, eff_bind, mret, eff_ret.
  intros E. repeat (case_match; simplify_eq/=; try done).
Qed.

(** A call: refused or answered with nothing sent, or past the claim and the
    lookups to a submission. *)
Lemma submit_cases' now a id w :
  table_ids w ->
  (let '(_, w') := submitTrailingStopExitOrder now a id w in keeps_settled w w') \/
  exists t i b w0 w1, tt_account t = a /\ keeps_settled w w0 /\ xw_db w0 = xw_db w /\
    find_order a (tt_clientOrderId t) (xw_db w0) = None /\
    claim_protection now t w0 = (Ok (i, b), w1) /\ keeps_settled w0 w1 /\
    (b = true \/ delivery_recorded i = false) /\
    submitTrailingStopExitOrder now a id w = submit_protection now t i w1.
Proof.
  intros Hids.
  assert (Heq : submitTrailingStopExitOrder now a id w = match trailing_target a id w with
    | (Ok (inl r), w0) => (Ok r, w0) | (Ok (inr t), w0) => link_or_protect now t w0 | (Throw e, w0) => (Throw e, w0) end).
  { unfold submitTrailingStopExitOrder, mbind, eff_bind. by destruct (trailing_target a id w) as [[[]|] ?]. }
  rewrite Heq. clear Heq.
  pose proof (target_keeps a id w) as Hk. pose proof (target_account a id w) as Ha.
  assert (Hi : xw_db (snd (trailing_target a id w)) = xw_db w).
  { assert (Hm : moves (fun u v => xw_db v = xw_db u) (trailing_target a id)); [|apply Hm].
    assert (PreOrder (fun u v => xw_db v = xw_db u)) by (split; [done|intros u v x; congruence]).
    unfold trailing_target, target_error, ensurePositionExitState, getPositionWithExitProfile, create_exit_state, db_asks.
    solve_moves. by apply moves_modify. }
  destruct (trailing_target a id w) as [[[r|t]|e] w0]; cbn [fst snd] in *; [by left| |by left].
  specialize (Ha t eq_refl). subst a. unfold link_or_protect.
  change ((db_asks ?f ≫= ?k) w0) with (k (f (xw_db w0)) w0). cbv beta.
  destruct (find_order _ _ (xw_db w0)) as [o|] eqn:Eo.
  - left. match goal with |- let '(_, _) := ?m w0 in _ =>
      assert (Hm : moves keeps_settled m) by (pose proof (mark_keeps now); solve_moves);
      specialize (Hm w0); destruct (m w0) as [r w'] end.
    by transitivity w0.
  - assert (Hids0 : table_ids w0) by by apply (proj1 Hk).
    destruct (protect_cases now t w0 Hids0) as [Hp|(i & b & w1 & Ec & Hk1 & _ & Hb & ->)].
    + left. destruct (protect now t w0) as [r w']. by transitivity w0.
    + right. by exists t, i, b, w0, w1.
Qed.

(** C36. A settled delivery stays settled. Once the protective order of a client
    order id is stored, or its intents all record an uncertain or rejected
    delivery, no sequence of trailing-stop submissions - of any positions, at
    any times, whatever the broker answers - sends another request with that
    client order id, and the delivery stays settled. *)
Theorem settled_delivery_stays a c calls w (Hids : table_ids w) (Hsettled : settled a c w) :
  let w' := fold_left (fun w '(now, account, id) => snd (submitTrailingStopExitOrder now account id w)) calls w in
  settled a c w' /\ exists requests, sent w' = (sent w ++ requests)%list /\
    forall account r, In (account, r) requests -> account = a -> xr_client_order_id r <> c.
Proof.
  cbv zeta. revert w Hids Hsettled. induction calls as [|[[now account] id] calls IH]; intros w Hids Hs; cbn [fold_left].
  { split; [done|]. exists []. by rewrite app_nil_r. }
  assert (Hstep : let w1 := snd (submitTrailingStopExitOrder now account id w) in
    table_ids w1 /\ settled a c w1 /\ exists requests, sent w1 = (sent w ++ requests)%list /\
      forall account r, In (account, r) requests -> account = a -> xr_client_order_id r <> c).
  { cbv zeta. destruct (submit_cases' now account id w Hids)
      as [Hk|(t & i & b & w0 & w1 & Ha & Hk0 & _ & Hno & Ec & Hk1 & Hb & ->)].
    { destruct (submitTrailingStopExitOrder now account id w) as [r w1]. destruct Hk as [Hk Hse].
      destruct (Hk Hids) as [Hids1 Hs1]. split; [done|]. split; [by apply Hs1|].
      exists []. rewrite app_nil_r. by split. }
    destruct (proj1 Hk0 Hids) as [Hids0 Hs0].
    pose proof (protection_claim_cases now t w0 Hids0) as Hc. rewrite Ec in Hc.
    destruct Hc as [(e & ? & _)|(i' & b' & [= <- <-] & Hi & Hm & Hids1 & _ & Hb0 & Hb1 & Hs1)]; [done|].
    assert (Hother : (tt_account t, tt_clientOrderId t) <> (a, c)).
    { intros [= <- <-]. destruct (Hs0 _ _ Hs) as [(o & Ho & Hom)|[(j & Hj & Hjm) Hall]].
      - rewrite Ha in Hom. by rewrite (find_first_none _ _ _ _ Hno Ho) in Hom.
      - destruct b.
        + destruct (Hb1 eq_refl) as [En _]. by rewrite (find_intent_None _ _ _ j En Hj) in Hjm.
        + destruct Hb as [|Hb]; [done|]. destruct (Hb0 eq_refl) as [_ Ef].
          apply find_intent_Some in Ef as [Hi0 Hm0]. by rewrite (Hall i Hi0 Hm0) in Hb. }
    assert (Haside : aside a c (oi_id i) w1).
    { apply aside_of; [done|by apply Hs1, Hs0|done|by apply (other_intent a c _ _ i Hother)]. }
    destruct (protection_tail now a c t i Hother w1 Haside) as (Hids2 & Hs2 & _).
    split; [done|]. split; [done|].
    destruct (protection_sends now t i w1) as [E|[q E]]; rewrite E.
    - exists []. rewrite app_nil_r. split; [|done]. destruct Hk0 as [_ Hk0], Hk1 as [_ Hk1].
      unfold nothing_sent in *. congruence.
    - exists [request_of (trailing_context t i) q]. destruct Hk0 as [_ Hk0], Hk1 as [_ Hk1].
      unfold nothing_sent in *. rewrite Hk1, Hk0. split; [done|].
      intros a' r [[= <- <-]|[]] Ea Er. apply Hother. cbn in *. congruence. }
  destruct Hstep as (Hids1 & Hs1 & l1 & E1 & Hl1). destruct (IH _ Hids1 Hs1) as (Hs2 & l2 & E2 & Hl2).
  split; [done|]. exists (l1 ++ l2)%list. rewrite E2, E1, app_assoc. split; [done|].
  intros a' r [Hr|Hr]%in_app_iff; [by apply Hl1|by apply Hl2].
Qed.

(** At most one intent for a client order id of an account. *)
Definition unique_client_ids (w : ExitWorld) : Prop := forall i j,
  In i (orderIntents (xw_db w)) -> In j (orderIntents (xw_db w)) ->
  oi_tradingAccountId i = oi_tradingAccountId j -> oi_clientOrderId i = oi_clientOrderId j ->
  oi_clientOrderId i <> None -> i = j.

Lemma client_id_columns a c i :
  intent_with_client_id a c i = true -> oi_tradingAccountId i = Some a /\ oi_clientOrderId i = Some c.
Proof. unfold intent_with_client_id, opt_eqb. by intros [?%bool_decide_eq_true_1 ?%bool_decide_eq_true_1]%andb_prop. Qed.

(** C37. Every protective request is accounted for. One submission hands at most
    one request to the broker: a sell-to-close good-till-canceled trailing stop
    under a client order id of which no broker order was stored. Unless the
    answer says that it was not sent, the delivery is settled when the call ends
    - the order is stored, or the intent records the uncertainty or the
    rejection - whatever else fails, with one exception: the broker rejected
    the request, the lookup after the rejection still found the order, and
    storing that order failed. *)
Theorem protective_request_accounted now a id w (Hids : table_ids w) (Hunique : unique_client_ids w)
    (Hpoll : forall account r w, exists w', forceAfterBrokerWrite account r w = (Ok tt, w')) :
  let '(r, w') := submitTrailingStopExitOrder now a id w in
  sent w' = sent w \/
  exists request w2, sent w2 = sent w /\ sent w' = (sent w ++ [(a, request)])%list /\
    xr_side request = "sell" /\ xr_position_intent request = "sell_to_close" /\
    xr_type request = "trailing_stop" /\ xr_time_in_force request = "gtc" /\
    (forall o, In o (brokerOrders (xw_db w)) -> order_with_client_id a (xr_client_order_id request) o = false) /\
    accounted a (xr_client_order_id request) (submit_answer a request w2) r w'.
Proof.
  destruct (submit_cases' now a id w Hids) as [Hk|(t & i & b & w0 & w1 & Ha & Hk0 & Ei0 & Hno & Ec & Hk1 & _ & ->)].
  { destruct (submitTrailingStopExitOrder now a id w). left. apply Hk. }
  destruct (proj1 Hk0 Hids) as [Hids0 Hs0].
  pose proof (protection_claim_cases now t w0 Hids0) as Hc. rewrite Ec in Hc.
  destruct Hc as [(e & ? & _)|(i' & b' & [= <- <-] & Hi & Hm & Hids1 & _ & Hb0 & Hb1 & _)]; [done|].
  assert (Hsole : sole (tt_account t) (tt_clientOrderId t) (oi_id i) w1).
  { split; [done|]. split; [by exists i|]. intros j Hj Hjm. f_equal. destruct b.
    - by apply Hb1.
    - destruct (Hb0 eq_refl) as [-> _]. 
      rewrite Ei0 in Hi, Hj.
      destruct (client_id_columns _ _ _ Hm) as [E1 E2], (client_id_columns _ _ _ Hjm) as [E3 E4].
      apply Hunique; try done; congruence. }
  pose proof (protection_outcome now t i w1 (fun r w => Hpoll _ r w)) as Hout. cbv zeta in Hout.
  destruct Hk0 as [_ Hk0], Hk1 as [_ Hk1]. unfold nothing_sent in *.
  destruct (submit_protection now t i w1) as [r w'].
  destruct Hout as [Hn|(q & w2 & E2 & Es & Hacc)]; [left; congruence|]. subst a.
  right. exists (snd (request_of (trailing_context t i) q)), w2.
  split; [congruence|]. split; [rewrite Es; unfold request_of; cbn; congruence|]. do 4 (split; [done|]).
  split; [|by apply Hacc]. intros o Ho.
  rewrite <- Ei0 in Ho. apply (find_first_none _ _ _ _ Hno Ho).
Qed.
End Properties.

(** * Concrete inputs *)

#[local] Existing Instance in_order.
#[local] Existing Instance answering_services.
#[local] Instance trailing_services_laws : ExitServicesLaws answering_services.
Proof. split; intros; apply moves_ret; typeclasses eauto. Qed.

(** Five whole shares whose target was unlocked. *)
Definition whole_position : TrackedPosition :=
  {| tp_id := 9; tp_symbol := "AAPL"; tp_side := "long"; tp_qty := num_of_Z 5;
     tp_marketValue := num_of_Z 1000; tp_costBasis := num_of_Z 960; tp_currentPrice := num_of_Z 200;
     tp_unrealizedPnLPct := Some (num_dec 4 2); tp_status := "open"; tp_securityId := 7;
     tp_subscriptionId := Some 3; tp_tradingAccountId := Some 1;
     tp_tradingAccountSubscriptionId := Some 4 |}.
Definition unlocked_state : PositionExitState :=
  set_target (unlocked_data 1767323045678 (num_of_Z 200) (num_dec 4 2) (num_of_Z 2) (num_of_Z 1))
    (set_status "target_unlocked" (default_state 1 9)).
Definition unlocked_world : ExitWorld :=
  {| xw_db := set_trackedPositions (fun _ => [whole_position]) (xw_db tracked_world);
     exitStates := [unlocked_state]; systemEvents := []; sent := [] |}.

Definition shares (qty : string) : AlpacaPosition :=
  {| rawp_asset_id := "asset-1"; rawp_symbol := "AAPL"; rawp_side := "long";
     rawp_qty := Some (RawText qty); rawp_qty_available := Some (RawText qty);
     rawp_avg_entry_price := None; rawp_current_price := None; rawp_market_value := None;
     rawp_cost_basis := None; rawp_unrealized_pl := None; rawp_unrealized_plpc := None |}.
(** A broker that holds [qty] shares and answers requests with [answer]. *)
Definition broker_of (qty : string) (answer : res AlpacaOrder) : ExitBroker :=
  {| order_by_client_id := fun _ _ _ _ => Ok None; order_by_id := fun _ _ _ => Ok None;
     position_by_symbol := fun _ _ _ => Ok (Some (shares qty));
     open_orders := fun _ _ => Ok [];
     submit_answer := fun _ _ _ => answer |}.

Definition protective_id : string := "ai-exit-trail-AAPL-9-20260102030405".

Lemma unlocked_ids : table_ids unlocked_world.
Proof. split; constructor. Qed.

Lemma protective_request_accounted_witness :
  let '(r, w') := submitTrailingStopExitOrder (H0 := broker_of "5" (Throw (PlainError "socket hang up")))
                    1767323100000 1 9 unlocked_world in
  map (fun s => (fst s, xr_client_order_id (snd s), xr_qty (snd s))) (sent w') = [(1, protective_id, "5")] /\
  settled 1 protective_id w'.
Proof.
  pose proof (protective_request_accounted (H0 := broker_of "5" (Throw (PlainError "socket hang up")))
    1767323100000 1 9 unlocked_world unlocked_ids ltac:(intros i j []) (fun _ _ w => ex_intro _ w eq_refl)) as H.
  destruct (submitTrailingStopExitOrder 1767323100000 1 9 unlocked_world) as [r w'] eqn:E.
  assert (Hs : map (fun s => (fst s, xr_client_order_id (snd s), xr_qty (snd s))) (sent w') = [(1, protective_id, "5")])
    by (vm_compute in E; injection E as <- <-; reflexivity).
  split; [exact Hs|].
  destruct H as [H|(request & w2 & _ & H & _ & _ & _ & _ & _ & Hacc)]; [by rewrite H in Hs|].
  change (sent unlocked_world) with (@nil (Z * VerifiedAlpacaExitOrderRequest)) in H. rewrite H in Hs.
  injection Hs as Hc _. rewrite Hc in Hacc. cbn in Hacc.
  destruct Hacc as [(k & m & st & Hx & _)|[Hx|[(m & st & Hx) _]]]; [discriminate Hx|exact Hx|discriminate Hx].
Defined.

Definition uncertain_world : ExitWorld :=
  snd (submitTrailingStopExitOrder (H0 := broker_of "5" (Throw (PlainError "socket hang up"))) 1767323100000 1 9 unlocked_world).

(** The uncertain delivery of five shares is never repeated, though the broker
    would now accept it. *)
Lemma settled_delivery_stays_witness :
  let broker := broker_of "5" (Ok accepted_order) in
  let w' := fold_left (fun w '(now, account, id) => snd (submitTrailingStopExitOrder (H0 := broker) now account id w))
              [(1767323200000, 1, 9); (1767323300000, 1, 9)] uncertain_world in
  settled 1 protective_id w' /\ length (sent w') = 1%nat.
Proof.
  cbv zeta. split; [|vm_compute; reflexivity].
  apply (settled_delivery_stays (H0 := broker_of "5" (Ok accepted_order)) 1 protective_id).
  - split; vm_compute; repeat constructor; intros Hx; inversion Hx.
  - right. vm_compute. split.
    + eexists. split; [by left|reflexivity].
    + intros i [<-|[]] _. reflexivity.
Defined.

(** A protection that the verification blocked - the broker held four of the
    five shares, nothing was sent - is recorded as uncertain delivery, because
    the block is no delivery error; when the broker later holds all five, the
    position still gets no stop. *)
Example blocked_protection_never_retried :
  let w1 := snd (submitTrailingStopExitOrder (H0 := broker_of "4" (Ok accepted_order)) 1767323100000 1 9 unlocked_world) in
  let '(r, w2) := submitTrailingStopExitOrder (H0 := broker_of "5" (Ok accepted_order)) 1767323200000 1 9 w1 in
  sent w1 = [] /\ map oi_status (orderIntents (xw_db w1)) = ["submitting"] /\
  map (fun i => blockReasonDeliveryClassification (oi_blockReason i)) (orderIntents (xw_db w1)) = [Some "DELIVERY_UNCERTAIN"] /\
  r = Ok (not_submitted "recovery_inconclusive" None protective_id) /\ sent w2 = [].
Proof. vm_compute. repeat split. Qed.
