(* ===== verification/ExitEvaluator.v ===== *)
(** The exit evaluation of an account: services/exit-evaluator.service.ts with
    the protective-order synchronization it starts with,
    services/protective-order-sync.service.ts. Both walk over rows and keep the
    failure of one row from the others. *)

From Stdlib Require Import ZArith Lia.
From Stdlib Require Import Strings.String.
From Stdlib Require Import Floats.SpecFloat.
From stdpp Require Import base list strings.
From S2P Require Import Prelude JsNumber JsValue JsDate Prisma OrderStatus DeliveryEvidence Schema.
From S2P Require Import BrokerAccount ExactDecimal ExitWorld ExitState WorkflowLock VerifiedExit ClosePosition TrailingStop.

Open Scope string_scope.
Open Scope Z_scope.

(** * Protective-order synchronization *)

Record ProtectiveOrderSyncResult := {
  ps_found : Z;
  ps_synchronized : Z;
  ps_partialFills : Z;
  ps_terminalOrders : Z;
  ps_confirmedMissing : Z;
  ps_failed : Z;
  ps_failures : list (Z * string * string)
}.

(** The world, with the result that is being counted up. *)
Record SyncRun := { sr_world : ExitWorld; sr_result : ProtectiveOrderSyncResult }.

Definition add_sync (synchronized partialFills terminalOrders confirmedMissing : Z)
    (failure : option (Z * string * string)) (r : ProtectiveOrderSyncResult) : ProtectiveOrderSyncResult :=
  {| ps_found := ps_found r; ps_synchronized := ps_synchronized r + synchronized;
     ps_partialFills := ps_partialFills r + partialFills; ps_terminalOrders := ps_terminalOrders r + terminalOrders;
     ps_confirmedMissing := ps_confirmedMissing r + confirmedMissing;
     ps_failed := ps_failed r + (if failure then 1 else 0);
     ps_failures := (ps_failures r ++ match failure with Some f => [f] | None => [] end)%list |}.

(** A statement on the world inside a run, and one on the result. *)
Definition sync_do {A} (m : eff ExitWorld A) : eff SyncRun A := fun s =>
  let '(r, w) := m (sr_world s) in (r, {| sr_world := w; sr_result := sr_result s |}).
Definition sync_add (synchronized partialFills terminalOrders confirmedMissing : Z)
    (failure : option (Z * string * string)) : eff SyncRun unit :=
  modify (fun s => {| sr_world := sr_world s;
    sr_result := add_sync synchronized partialFills terminalOrders confirmedMissing failure (sr_result s) |}).

Definition of_bool (b : bool) : Z := if b then 1 else 0.

Section Sync.
Context `{Prisma} `{ExitBroker}.
Variable now : Z.

Definition protective_state (tradingAccountId : Z) (db : Db) (e : PositionExitState) : bool :=
  match es_trailBrokerOrderId e, es_trailOrderStatus e with
  | Some _, Some status => NONTERMINAL_BROKER_ORDER_PRISMA_FILTER status
  | _, _ => false
  end &&
  match find_position (es_trackedPositionId e) db with
  | Some p => opt_eqb (tp_tradingAccountId p) tradingAccountId
  | None => false
  end.

Definition partially_filled (o : AlpacaOrder) : bool :=
  let filledQty := number_or_zero (rawo_filled_qty o) in
  let requestedQty := number_or_zero (rawo_qty o) in
  is_finite filledQty && ngtb filledQty (num_of_Z 0) &&
  (negb (is_finite requestedQty) || nltb filledQty requestedQty).

(** [brokerOrder.updateMany] to the broker's status. *)
Definition set_order_status (status : string) (raw : json) (o : BrokerOrder) : BrokerOrder :=
  {| bo_id := bo_id o; bo_orderIntentId := bo_orderIntentId o; bo_broker := bo_broker o;
     bo_brokerOrderId := bo_brokerOrderId o; bo_clientOrderId := bo_clientOrderId o;
     bo_symbol := bo_symbol o; bo_side := bo_side o; bo_status := status; bo_securityId := bo_securityId o;
     bo_trackedPositionId := bo_trackedPositionId o; bo_tradingAccountId := bo_tradingAccountId o;
     bo_rawBrokerJson := raw; bo_createdAt := bo_createdAt o |}.
Definition update_orders (where_ : BrokerOrder -> bool) (f : BrokerOrder -> BrokerOrder) : eff ExitWorld Z := fun w =>
  let '(rows, n) := update_many where_ f (brokerOrders (xw_db w)) in
  (Ok n, set_db (set_brokerOrders (fun _ => rows)) w).

(** One protective order, loaded with its position. *)
Definition sync_order (tradingAccountId : Z) (e : PositionExitState) (position : option TrackedPosition)
    (brokerOrderId : string) : eff SyncRun unit :=
  match position with
  | None => throw (PlainError "Cannot read properties of null")
  | Some p =>
  if negb (opt_eqb (tp_tradingAccountId p) tradingAccountId) then
    throw (PlainError ("PositionExitState " ++ z_str (es_id e) ++
      " account attribution does not match coordinator account " ++ z_str tradingAccountId ++ "."))
  else match es_trailClientOrderId e with
  | None | Some EmptyString =>
      throw (PlainError ("PositionExitState " ++ z_str (es_id e) ++ " has no protective client order identity."))
  | Some clientOrderId =>
  order ← sync_do (lift (order_by_id tradingAccountId brokerOrderId));
  match order with
  | None =>
      _ ← sync_do (markPositionExitStateAttentionRequired now (es_trackedPositionId e)
            "protective_order_confirmed_missing"
            "The linked protective order was not found at the broker. Replacement was not submitted; operator review or safe recovery is required.");
      sync_add 0 0 0 1 None
  | Some o =>
      _ ← sync_add 0 (of_bool (partially_filled o)) 0 0 None;
      let normalizedStatus := normalizeBrokerOrderStatus (rawo_status o) in
      _ ← sync_add 0 0 (of_bool (isTerminalBrokerOrderStatus normalizedStatus)) 0 None;
      _ ← sync_do (syncTrailingStopOrderStatus now tradingAccountId clientOrderId (Some brokerOrderId)
            normalizedStatus (order_json o));
      _ ← sync_do (update_orders (fun r =>
            opt_eqb (bo_tradingAccountId r) tradingAccountId && String.eqb (bo_broker r) "alpaca" &&
            String.eqb (bo_brokerOrderId r) brokerOrderId && opt_eqb (bo_trackedPositionId r) (es_trackedPositionId e))
            (set_order_status normalizedStatus (order_json o)));
      sync_add 1 0 0 0 None
  end end end.

Definition sync_item (tradingAccountId : Z) (e : PositionExitState) (position : option TrackedPosition)
    : eff SyncRun unit :=
  let brokerOrderId := default "" (es_trailBrokerOrderId e) in
  try_catch (sync_order tradingAccountId e position brokerOrderId)
    (fun error => sync_add 0 0 0 0 (Some (es_trackedPositionId e, brokerOrderId, error_message error))).

(** One after the other. *)
Fixpoint each {S A} (f : A -> eff S unit) (l : list A) : eff S unit :=
  match l with
  | [] => mret tt
  | x :: l => _ ← f x; each f l
  end.

Definition no_sync_result (found : Z) : ProtectiveOrderSyncResult :=
  {| ps_found := found; ps_synchronized := 0; ps_partialFills := 0; ps_terminalOrders := 0;
     ps_confirmedMissing := 0; ps_failed := 0; ps_failures := [] |}.

Definition protective_rows (tradingAccountId : Z) (w : ExitWorld)
    : list (PositionExitState * option TrackedPosition) :=
  map (fun e => (e, find_position (es_trackedPositionId e) (xw_db w)))
    (sort_by es_trackedPositionId (find_many (protective_state tradingAccountId (xw_db w)) (exitStates w))).

Definition syncProtectiveOrdersForAccount (tradingAccountId : Z) : eff ExitWorld ProtectiveOrderSyncResult := fun w =>
  let rows := protective_rows tradingAccountId w in
  let '(r, s) := each (fun '(e, p) => sync_item tradingAccountId e p) rows
                   {| sr_world := w; sr_result := no_sync_result (Z.of_nat (length rows)) |} in
  (x ← r; Ok (sr_result s), sr_world s).
End Sync.

(** * Exit evaluation *)

Record ExitEvaluationCounts := {
  ec_positionsEvaluated : Z;
  ec_positionsSkipped : Z;
  ec_exitSignalsTriggered : Z;
  ec_closeIntentsCreated : Z;
  ec_protectiveOrdersSynchronized : Z;
  ec_blockedExits : Z;
  ec_failedPositions : Z
}.
Definition emptyCounts : ExitEvaluationCounts :=
  {| ec_positionsEvaluated := 0; ec_positionsSkipped := 0; ec_exitSignalsTriggered := 0;
     ec_closeIntentsCreated := 0; ec_protectiveOrdersSynchronized := 0; ec_blockedExits := 0;
     ec_failedPositions := 0 |}.

Record EvalRun := { ev_world : ExitWorld; ev_counts : ExitEvaluationCounts; ev_failures : list (Z * string) }.

Definition eval_do {A} (m : eff ExitWorld A) : eff EvalRun A := fun s =>
  let '(r, w) := m (ev_world s) in
  (r, {| ev_world := w; ev_counts := ev_counts s; ev_failures := ev_failures s |}).
(** [counts.evaluated += a], and so on. *)
Definition eval_add (evaluated skipped signals intents blocked : Z) : eff EvalRun unit :=
  modify (fun s => {| ev_world := ev_world s;
    ev_counts := {| ec_positionsEvaluated := ec_positionsEvaluated (ev_counts s) + evaluated;
      ec_positionsSkipped := ec_positionsSkipped (ev_counts s) + skipped;
      ec_exitSignalsTriggered := ec_exitSignalsTriggered (ev_counts s) + signals;
      ec_closeIntentsCreated := ec_closeIntentsCreated (ev_counts s) + intents;
      ec_protectiveOrdersSynchronized := ec_protectiveOrdersSynchronized (ev_counts s);
      ec_blockedExits := ec_blockedExits (ev_counts s) + blocked;
      ec_failedPositions := ec_failedPositions (ev_counts s) |};
    ev_failures := ev_failures s |}).
Definition eval_fail (trackedPositionId : Z) (error : js_error) : eff EvalRun unit :=
  modify (fun s => {| ev_world := ev_world s;
    ev_counts := {| ec_positionsEvaluated := ec_positionsEvaluated (ev_counts s);
      ec_positionsSkipped := ec_positionsSkipped (ev_counts s);
      ec_exitSignalsTriggered := ec_exitSignalsTriggered (ev_counts s);
      ec_closeIntentsCreated := ec_closeIntentsCreated (ev_counts s);
      ec_protectiveOrdersSynchronized := ec_protectiveOrdersSynchronized (ev_counts s);
      ec_blockedExits := ec_blockedExits (ev_counts s);
      ec_failedPositions := ec_failedPositions (ev_counts s) + 1 |};
    ev_failures := (ev_failures s ++ [(trackedPositionId, error_message error)])%list |}).

Definition errorToPayloadJson (e : js_error) : json :=
  JObj [("name", JStr (error_name e)); ("message", JStr (error_message e))].

Definition isUnlockTrailingProfile (p : ExitProfileRow) : bool :=
  String.eqb (exit_exitMode p) "unlock_trailing_stop".

Definition getBrokerWriteDeliveryClassification (e : js_error) : option string :=
  match e with DeliveryError classification _ _ => Some classification | _ => None end.

Definition exposureUnavailableSeverity (environment : string) (authoritativeProductionExecutor : bool) : Severity :=
  if String.eqb environment "PAPER" then ERROR
  else if authoritativeProductionExecutor then CRITICAL else WARNING.

Definition trailingFailureSeverity (environment : string) (classification : option string) (hasProtection : bool)
    : Severity :=
  if bool_decide (classification = Some "DELIVERY_UNCERTAIN") then
    if String.eqb environment "LIVE" then CRITICAL else ERROR
  else if hasProtection then WARNING else ERROR.

(** A position with the rows its [include] loads. *)
Record EvaluatedPosition := {
  ep_position : TrackedPosition;
  ep_exitState : option PositionExitState;
  ep_assignment : option TradingAccountSubscription;
  (** The exit profile of the assignment's subscription. *)
  ep_exitProfile : option ExitProfileRow
}.

(** The PAPER write authority of the account: its outcome and reason, or an
    error; and the attention it reconciles. *)
Class ExitAuthority := {
  assessPaperBrokerWriteAuthorityForAccount : Z -> ExitWorld -> res (string * string);
  reconcilePaperBrokerWriteAuthorityAttention : Z -> string * string -> eff ExitWorld unit
}.

Section Evaluate.
Context `{Prisma} `{ExitBroker} `{ExitServices} `{ExitAuthority}.
Variable now : Z.

Definition load_evaluated (db : Db) (w : ExitWorld) (p : TrackedPosition) : EvaluatedPosition :=
  let assignment := assignment_of p db in
  {| ep_position := p; ep_exitState := find_exit_state (tp_id p) w; ep_assignment := assignment;
     ep_exitProfile := (a ← assignment; sub ← subscription_of (Some (tas_subscriptionId a)) db;
                        Some (sub_exitProfile sub)) |}.

Definition evaluated_positions (tradingAccountId : Z) (w : ExitWorld) : list EvaluatedPosition :=
  map (load_evaluated (xw_db w) w)
    (sort_by tp_id (find_many (fun p => member (tp_status p) ["open"; "closing"] &&
                                 opt_eqb (tp_tradingAccountId p) tradingAccountId) (trackedPositions (xw_db w)))).

Definition account_event (tradingAccountId : Z) (p : TrackedPosition) (type : string) (sev : Severity)
    (message : option string) (payload : list (string * json)) : eff ExitWorld unit :=
  createSystemEvent type "trackedPosition" (tp_id p) (Some tradingAccountId) sev message (JObj payload).

(** The stop loss that also closes positions whose exits others own. *)
Definition stop_loss_hit (profile : ExitProfileRow) (pnlPct : num) : bool :=
  match exit_stopLossPct profile with
  | Some s => nleb pnlPct (nneg (ndiv s (num_of_Z 100)))
  | None => false
  end.
Definition take_profit_hit (profile : ExitProfileRow) (pnlPct : num) : bool :=
  match exit_targetPct profile with
  | Some t => ngeb pnlPct (ndiv t (num_of_Z 100))
  | None => false
  end.

Definition has_trail_order (e : PositionExitState) : bool :=
  match es_trailBrokerOrderId e with Some (String _ _) => true | _ => false end.

(** Submit the protection; a failure is marked, reported and rethrown. *)
Definition submit_trailing (tradingAccountId : Z) (environment : string) (p : TrackedPosition)
    (exitState : PositionExitState) : eff EvalRun unit :=
  try_catch
    (_ ← eval_do (submitTrailingStopExitOrder now tradingAccountId (tp_id p));
     eval_add 0 0 0 1 0)
    (fun error =>
      let payloadJson := errorToPayloadJson error in
      let classification := getBrokerWriteDeliveryClassification error in
      _ ← eval_do (markTrailingStopOrderSubmitFailed now (tp_id p) payloadJson);
      _ ← (if bool_decide (classification = Some "DELIVERY_UNCERTAIN") then mret tt
           else eval_do (account_event tradingAccountId p "exit.trailing_stop_submit_failed"
             (trailingFailureSeverity environment classification (has_trail_order exitState))
             (Some (tp_symbol p ++ " trailing stop exit order submission failed."))
             [("symbol", JStr (tp_symbol p)); ("environment", JStr environment);
              ("deliveryClassification", JStr (default "INTERNAL_FAILURE" classification));
              ("hasVerifiedProtection", JBool (has_trail_order exitState)); ("error", payloadJson)]));
      throw error).

(** An unlock-trailing position: unlock at the target, then protect. *)
Definition evaluate_trailing (tradingAccountId : Z) (environment : string) (row : EvaluatedPosition)
    (profile : ExitProfileRow) (pnlPct : num) : eff EvalRun unit :=
  let p := ep_position row in
  exitState ← eval_do (match ep_exitState row with Some e => mret e | None => ensurePositionExitState (tp_id p) end);
  match match es_targetPct exitState with Some t => Some t | None => exit_targetPct profile end,
        match es_trailingStopPct exitState with Some t => Some t | None => exit_trailingStopPct profile end with
  | Some targetPct, Some trailingStopPct =>
      exitState ← (if negb (es_targetUnlocked exitState) && ngeb pnlPct (ndiv targetPct (num_of_Z 100)) then
          e ← eval_do (unlockTrailingStopExitState now (tp_id p) (tp_currentPrice p) pnlPct targetPct trailingStopPct);
          _ ← eval_add 0 0 1 0 0;
          _ ← eval_do (account_event tradingAccountId p "exit.target_unlocked" INFO
                (Some (tp_symbol p ++ " reached target unlock for trailing stop exit."))
                [("symbol", JStr (tp_symbol p)); ("pnlPct", JNum pnlPct);
                 ("currentPrice", JNum (tp_currentPrice p)); ("targetPct", JNum targetPct);
                 ("trailingStopPct", JNum trailingStopPct); ("exitProfileKey", JStr (exit_key profile))]);
          mret e
        else mret exitState);
      if es_targetUnlocked exitState && negb (has_trail_order exitState) then
        submit_trailing tradingAccountId environment p exitState
      else mret tt
  | _, _ => eval_add 0 1 0 0 0
  end.

(** A fixed-target position: close at the target or the stop. *)
Definition evaluate_fixed (tradingAccountId : Z) (row : EvaluatedPosition) (profile : ExitProfileRow)
    (pnlPct : num) : eff EvalRun unit :=
  let p := ep_position row in
  let stopLoss := stop_loss_hit profile pnlPct in
  if negb (take_profit_hit profile pnlPct) && negb stopLoss then mret tt
  else
  _ ← eval_add 0 0 1 0 0;
  _ ← eval_do (closePosition now (tp_id p) AUTOMATED_STRATEGY);
  _ ← eval_add 0 0 0 1 0;
  eval_do (account_event tradingAccountId p "exit.triggered" INFO None
    [("symbol", JStr (tp_symbol p)); ("reason", JStr (if stopLoss then "stop_loss" else "take_profit"));
     ("pnlPct", JNum pnlPct)]).

Definition evaluate_position (tradingAccountId : Z) (environment : string) (row : EvaluatedPosition)
    : eff EvalRun unit :=
  let p := ep_position row in
  let skip blocked := eval_add 0 1 0 0 blocked in
  _ ← eval_add 1 0 0 0 0;
  if negb (opt_eqb (tp_tradingAccountId p) tradingAccountId) then
    throw (PlainError ("TrackedPosition " ++ z_str (tp_id p) ++
      " account attribution does not match coordinator account " ++ z_str tradingAccountId ++ "."))
  else match ep_assignment row with
  | None => throw (PlainError ("TrackedPosition " ++ z_str (tp_id p) ++
              " has missing or inconsistent account assignment attribution."))
  | Some a =>
  if negb (assignment_matches a tradingAccountId p) then
    throw (PlainError ("TrackedPosition " ++ z_str (tp_id p) ++
      " has missing or inconsistent account assignment attribution."))
  else match ep_exitProfile row with
  | None => skip 0
  | Some profile =>
  if match ep_exitState row with Some e => has_trail_order e | None => false end then skip 0
  else if String.eqb (tp_status p) "closing" then skip 0
  else if negb (tas_enabled a) || negb (tas_exitsEnabled a) then skip 1
  else
  let pnlPct := default (num_of_Z 0) (tp_unrealizedPnLPct p) in
  let externalExitOwnership :=
    bool_decide (option_map es_exitManagementModeSnapshot (ep_exitState row) = Some "EXTERNAL_SIGNAL") in
  let protectiveStopLoss := negb (isUnlockTrailingProfile profile) && stop_loss_hit profile pnlPct in
  if externalExitOwnership && negb protectiveStopLoss then skip 0
  else if isUnlockTrailingProfile profile then evaluate_trailing tradingAccountId environment row profile pnlPct
  else evaluate_fixed tradingAccountId row profile pnlPct
  end end.

Definition evaluate_item (tradingAccountId : Z) (environment : string) (row : EvaluatedPosition) : eff EvalRun unit :=
  try_catch (evaluate_position tradingAccountId environment row) (eval_fail (tp_id (ep_position row))).

(** A position that is only observed on this deployment. *)
Definition observe_only (tradingAccountId : Z) (row : EvaluatedPosition) : eff EvalRun unit :=
  let p := ep_position row in
  _ ← eval_add 0 1 0 0 0;
  existing ← eval_do (asks (fun w => find_first (fun ev =>
    String.eqb (se_type ev) "exit.observation_only" && String.eqb (se_entityType ev) "trackedPosition" &&
    String.eqb (se_entityId ev) (z_str (tp_id p)) && opt_eqb (se_tradingAccountId ev) tradingAccountId)
    (systemEvents w)));
  match existing with
  | Some _ => mret tt
  | None => eval_do (account_event tradingAccountId p "exit.observation_only" INFO
      (Some (tp_symbol p ++ " automatic exit submission is intentionally observation-only on this deployment."))
      [("authorityOutcome", JStr "INTENTIONAL_OBSERVATION_ONLY")])
  end.

(** Everything after the synchronization. *)
Definition evaluate_rows (tradingAccountId : Z) (environment : string) (rows : list EvaluatedPosition)
    : eff EvalRun unit :=
  if String.eqb environment "PAPER" then
    authority ← eval_do (lift (assessPaperBrokerWriteAuthorityForAccount tradingAccountId));
    if String.eqb (fst authority) "INTENTIONAL_OBSERVATION_ONLY" then each (observe_only tradingAccountId) rows
    else if negb (String.eqb (fst authority) "AUTHORIZED") then
      _ ← eval_do (reconcilePaperBrokerWriteAuthorityAttention tradingAccountId authority);
      throw (PlainError ("PAPER exit executor authority is " ++ fst authority ++ ": " ++ snd authority))
    else each (evaluate_item tradingAccountId environment) rows
  else each (evaluate_item tradingAccountId environment) rows.

Definition synced_counts (r : ProtectiveOrderSyncResult) : ExitEvaluationCounts :=
  {| ec_positionsEvaluated := 0; ec_positionsSkipped := 0; ec_exitSignalsTriggered := 0;
     ec_closeIntentsCreated := 0; ec_protectiveOrdersSynchronized := ps_synchronized r; ec_blockedExits := 0;
     ec_failedPositions := ps_failed r |}.

Definition evaluateExitsForAccount (tradingAccountId : Z) (environment : string)
    : eff ExitWorld (ExitEvaluationCounts * list (Z * string)) := fun w =>
  let rows := evaluated_positions tradingAccountId w in
  match syncProtectiveOrdersForAccount now tradingAccountId w with
  | (Throw e, w1) => (Throw e, w1)
  | (Ok sync, w1) =>
      let '(r, s) := evaluate_rows tradingAccountId environment rows
        {| ev_world := w1; ev_counts := synced_counts sync;
           ev_failures := map (fun '(id, _, error) => (id, error)) (ps_failures sync) |} in
      (_ ← r; Ok (ev_counts s, ev_failures s), ev_world s)
  end.
End Evaluate.

(** * How many requests a call sends *)

Definition sends_at_most {A} (n : nat) (m : eff ExitWorld A) : Prop := forall w, exists requests,
  sent (snd (m w)) = (sent w ++ requests)%list /\ (length requests <= n)%nat.

Lemma sends_none {A} (m : eff ExitWorld A) : moves nothing_sent m -> sends_at_most 0 m.
Proof. intros Hm w. exists []. rewrite app_nil_r. split; [apply Hm|done]. Qed.

Lemma sends_more {A} n k (m : eff ExitWorld A) : (n <= k)%nat -> sends_at_most n m -> sends_at_most k m.
Proof. intros Hk Hm w. destruct (Hm w) as (l & E & Hl). exists l. split; [done|lia]. Qed.

Lemma sends_bind {A B} n k (m : eff ExitWorld A) (f : A -> eff ExitWorld B) :
  sends_at_most n m -> (forall x, sends_at_most k (f x)) -> sends_at_most (n + k) (m ≫= f).
Proof.
  intros Hm Hf w. unfold mbind, eff_bind. destruct (Hm w) as (l & E & Hl).
  destruct (m w) as [[x|e] w1]; cbn [snd] in *.
  - destruct (Hf x w1) as (l' & E' & Hl'). exists (l ++ l')%list. rewrite E', E, app_assoc, List.length_app. split; [done|lia].
  - exists l. split; [done|lia].
Qed.

Section Requests.
Context `{PrismaLaws} `{ExitBroker} {S : ExitServices} `{!ExitServicesLaws S}.
Variable now : Z.

Lemma close_sends id mode : sends_at_most 1 (closePosition now id mode).
Proof.
  unfold closePosition. apply (sends_bind 0 1).
  - apply sends_none. intros w. destruct (ClosePosition.claim_cases now id mode w) as [[e ->]|(claim & -> & _)]; done.
  - intros claim w. rewrite close_claimed_sent.
    destruct (exit_sends now (close_context claim mode) w) as [E|[q E]]; rewrite E.
    + exists []. rewrite app_nil_r. split; [done|cbn; lia].
    + by exists [request_of (close_context claim mode) q].
Qed.

Lemma trailing_sends a id : sends_at_most 1 (submitTrailingStopExitOrder now a id).
Proof.
  unfold submitTrailingStopExitOrder. apply (sends_bind 0 1); [apply sends_none, target_sends|].
  intros [r|t]; [apply (sends_more 0); [lia|apply sends_none; auto with moves typeclass_instances]|].
  unfold link_or_protect. apply (sends_bind 0 1); [by apply sends_none; intros w|].
  intros [o|].
  - apply (sends_more 0); [lia|]. apply sends_none. pose proof (mark_keeps now) as Hk.
    apply moves_bind; [typeclasses eauto| |intros _; auto with moves typeclass_instances].
    intros w. by apply (Hk _ _ _ _ _ _ w).
  - unfold protect. apply (sends_bind 0 1); [apply sends_none, claim_sends|]. intros [i b].
    unfold protect_claimed. destruct (negb b && _); [apply (sends_more 0); [lia|by apply sends_none; intros w]|].
    apply (sends_bind 0 1); [by apply sends_none; intros w|]. intros [o|].
    + apply (sends_more 0); [lia|]. apply sends_none. pose proof (persist_sends now) as Hp. unfold persist. solve_moves.
    + destruct (negb b && _).
      * apply (sends_more 0); [lia|]. apply sends_none. solve_moves.
      * intros w. destruct (protection_sends now t i w) as [E|[q E]]; rewrite E.
        -- exists []. rewrite app_nil_r. split; [done|cbn; lia].
        -- by exists [request_of (trailing_context t i) q].
Qed.
End Requests.

(** * What one position does to a run *)

(** Everything counted is as before, but for the signals. *)
Definition same_tally (s s' : EvalRun) : Prop :=
  ev_failures s' = ev_failures s /\
  ec_positionsEvaluated (ev_counts s') = ec_positionsEvaluated (ev_counts s) /\
  ec_positionsSkipped (ev_counts s') = ec_positionsSkipped (ev_counts s) /\
  ec_closeIntentsCreated (ev_counts s') = ec_closeIntentsCreated (ev_counts s) /\
  ec_protectiveOrdersSynchronized (ev_counts s') = ec_protectiveOrdersSynchronized (ev_counts s) /\
  ec_blockedExits (ev_counts s') = ec_blockedExits (ev_counts s) /\
  ec_failedPositions (ev_counts s') = ec_failedPositions (ev_counts s).
#[export] Instance same_tally_preorder : PreOrder same_tally.
Proof. unfold same_tally. split; [by intros s|]. intros a b c; naive_solver congruence. Qed.

(** At most one of skipped, created and thrown; a blocked exit is skipped. *)
Definition tallied (r : res unit) (s s' : EvalRun) : Prop :=
  ev_failures s' = ev_failures s /\
  ec_positionsEvaluated (ev_counts s') = ec_positionsEvaluated (ev_counts s) /\
  ec_protectiveOrdersSynchronized (ev_counts s') = ec_protectiveOrdersSynchronized (ev_counts s) /\
  ec_failedPositions (ev_counts s') = ec_failedPositions (ev_counts s) /\
  exists k j b, ec_positionsSkipped (ev_counts s') = ec_positionsSkipped (ev_counts s) + k /\
    ec_closeIntentsCreated (ev_counts s') = ec_closeIntentsCreated (ev_counts s) + j /\
    ec_blockedExits (ev_counts s') = ec_blockedExits (ev_counts s) + b /\
    0 <= b <= k /\ 0 <= j /\ k + j <= match r with Ok _ => 1 | Throw _ => 0 end.

Lemma same_tallied r s s' : same_tally s s' -> tallied r s s'.
Proof.
  intros (? & ? & ? & ? & ? & ? & ?). do 4 (split; [done|]). exists 0, 0, 0.
  repeat (split; [lia|]). destruct r; lia.
Qed.

Lemma tallied_after r s s1 s' : same_tally s s1 -> tallied r s1 s' -> tallied r s s'.
Proof.
  intros (? & ? & ? & ? & ? & ? & ?) (? & ? & ? & ? & k & j & b & ? & ? & ? & ?).
  do 4 (split; [congruence|]). exists k, j, b. split; [lia|]. split; [lia|]. split; [lia|done].
Qed.

Lemma add_tallied e k g j b s :
  e = 0 -> 0 <= b <= k -> 0 <= j -> k + j <= 1 ->
  let '(r, s') := eval_add e k g j b s in r = Ok tt /\ tallied r s s' /\ ev_world s' = ev_world s.
Proof.
  intros -> Hb Hj Hk. cbn. split; [done|]. split; [|done]. unfold tallied. cbn. rewrite Z.add_0_r.
  do 4 (split; [done|]). by exists k, j, b.
Qed.

Lemma do_tally {A} (m : eff ExitWorld A) : moves same_tally (eval_do m).
Proof. intros s. unfold eval_do. by destruct (m (ev_world s)). Qed.
Lemma signal_tally g : moves same_tally (eval_add 0 0 g 0 0).
Proof. intros s. unfold same_tally. cbn. rewrite !Z.add_0_r. by repeat split. Qed.
#[export] Hint Resolve do_tally signal_tally : moves.

(** Requests of a run. *)
Definition run_sends {A} (n : nat) (m : eff EvalRun A) : Prop := forall s, exists requests,
  sent (ev_world (snd (m s))) = (sent (ev_world s) ++ requests)%list /\ (length requests <= n)%nat.

Lemma run_more {A} n k (m : eff EvalRun A) : (n <= k)%nat -> run_sends n m -> run_sends k m.
Proof. intros Hk Hm w. destruct (Hm w) as (l & E & Hl). exists l. split; [done|lia]. Qed.

Lemma run_none {A} (m : eff EvalRun A) : (forall s, ev_world (snd (m s)) = ev_world s) -> run_sends 0 m.
Proof. intros Hm s. exists []. by rewrite Hm, app_nil_r. Qed.

Lemma run_do {A} n (m : eff ExitWorld A) : sends_at_most n m -> run_sends n (eval_do m).
Proof.
  intros Hm s. destruct (Hm (ev_world s)) as (l & E & Hl). exists l. unfold eval_do.
  destruct (m (ev_world s)). done.
Qed.

Lemma run_bind {A B} n k (m : eff EvalRun A) (f : A -> eff EvalRun B) :
  run_sends n m -> (forall x, run_sends k (f x)) -> run_sends (n + k) (m ≫= f).
Proof.
  intros Hm Hf w. unfold mbind, eff_bind. destruct (Hm w) as (l & E & Hl).
  destruct (m w) as [[x|e] w1]; cbn [snd] in *.
  - destruct (Hf x w1) as (l' & E' & Hl'). exists (l ++ l')%list. rewrite E', E, app_assoc, List.length_app. split; [done|lia].
  - exists l. split; [done|lia].
Qed.

Lemma run_catch {A} n (m : eff EvalRun A) h :
  run_sends n m -> (forall e, run_sends 0 (h e)) -> run_sends n (try_catch m h).
Proof.
  intros Hm Hh s. unfold try_catch. destruct (Hm s) as (l & E & Hl). destruct (m s) as [[x|e] s1]; [by exists l|].
  destruct (Hh e s1) as (l' & E' & Hl'). exists (l ++ l')%list. cbn [snd] in E. rewrite E', E, app_assoc, List.length_app.
  split; [done|lia].
Qed.

(** ** The positions that are due *)

(** The position is this account's, its own assignment allows automated exits,
    no protective order is working and no close is under way. *)
Definition may_exit (tradingAccountId : Z) (row : EvaluatedPosition) : bool :=
  opt_eqb (tp_tradingAccountId (ep_position row)) tradingAccountId &&
  match ep_assignment row with
  | Some a => assignment_matches a tradingAccountId (ep_position row) && tas_enabled a && tas_exitsEnabled a
  | None => false
  end &&
  negb (match ep_exitState row with Some e => has_trail_order e | None => false end) &&
  negb (String.eqb (tp_status (ep_position row)) "closing").

(** Its exits are owned here, or its protective stop loss is hit; and it is
    protected by a trailing stop, or its target or its stop is hit. *)
Definition exit_due (row : EvaluatedPosition) : bool :=
  match ep_exitProfile row with
  | None => false
  | Some profile =>
      let pnlPct := default (num_of_Z 0) (tp_unrealizedPnLPct (ep_position row)) in
      let external := bool_decide (option_map es_exitManagementModeSnapshot (ep_exitState row) = Some "EXTERNAL_SIGNAL") in
      if isUnlockTrailingProfile profile then negb external
      else stop_loss_hit profile pnlPct || (take_profit_hit profile pnlPct && negb external)
  end.
Definition due (tradingAccountId : Z) (row : EvaluatedPosition) : bool :=
  may_exit tradingAccountId row && exit_due row.

Section Steps.
Context `{PrismaLaws} `{ExitBroker} {S : ExitServices} `{!ExitServicesLaws S}.
Variable now : Z.

(** What evaluating one position does. *)
Record position_effect (d : bool) (r : res unit) (s s' : EvalRun) : Prop := {
  pe_tally : tallied r s s';
  pe_sends : exists requests, sent (ev_world s') = (sent (ev_world s) ++ requests)%list /\
    (length requests <= if d then 1 else 0)%nat;
  pe_inert : d = false -> ev_world s' = ev_world s
}.

Lemma inert_effect d r s s' : tallied r s s' -> ev_world s' = ev_world s -> position_effect d r s s'.
Proof. intros Ht E. split; [done| |done]. exists []. rewrite E, app_nil_r. split; [done|cbn; lia]. Qed.

(** Programs that keep the tally. *)
Definition tallies (m : eff EvalRun unit) : Prop := forall s, tallied (fst (m s)) s (snd (m s)).

Lemma tallies_quiet m : moves same_tally m -> tallies m.
Proof. intros Hm s. apply same_tallied, Hm. Qed.

Lemma tallies_bind {A} (m : eff EvalRun A) f : moves same_tally m -> (forall x, tallies (f x)) -> tallies (m ≫= f).
Proof.
  intros Hm Hf s. unfold mbind, eff_bind. specialize (Hm s). destruct (m s) as [[x|e] s1]; cbn [fst snd] in *.
  - eapply tallied_after; [exact Hm|apply Hf].
  - by apply same_tallied.
Qed.

Lemma tallies_add k g j b : 0 <= b <= k -> 0 <= j -> k + j <= 1 -> tallies (eval_add 0 k g j b).
Proof. intros Hb Hj Hk s. pose proof (add_tallied 0 k g j b s eq_refl Hb Hj Hk) as H'. by destruct H' as (_ & ? & _). Qed.

(** A count followed by an event, which is always recorded. *)
Lemma tallies_event j t e i a sv m p :
  0 <= j <= 1 -> tallies (_ ← eval_add 0 0 0 j 0; eval_do (createSystemEvent t e i a sv m p)).
Proof.
  intros Hj s. unfold tallied, mbind, eff_bind. cbn -[Z.add]. split; [done|]. split; [lia|]. split; [done|]. split; [done|]. exists 0, j, 0. lia.
Qed.

(** A [try] that counts only when it succeeds. *)
Lemma tallies_catch {A} (m : eff EvalRun A) k g j b h :
  0 <= b <= k -> 0 <= j -> k + j <= 1 -> moves same_tally m -> (forall e, moves same_tally (h e)) ->
  tallies (try_catch (_ ← m; eval_add 0 k g j b) h).
Proof.
  intros Hb Hj Hk Hm Hh s. unfold try_catch, mbind, eff_bind. specialize (Hm s).
  destruct (m s) as [[x|e] s1]; cbn [snd] in Hm.
  - destruct (add_tallied 0 k g j b s1 eq_refl Hb Hj Hk) as (_ & Ht & _). cbn in *. by eapply tallied_after.
  - apply same_tallied. specialize (Hh e s1). by transitivity s1.
Qed.

Lemma fixed_effect a row profile pnlPct s :
  let '(r, s') := evaluate_fixed now a row profile pnlPct s in
  position_effect (stop_loss_hit profile pnlPct || take_profit_hit profile pnlPct) r s s'.
Proof.
  unfold evaluate_fixed. cbv zeta.
  destruct (negb (take_profit_hit profile pnlPct) && negb (stop_loss_hit profile pnlPct)) eqn:E.
  { by apply inert_effect; [apply same_tallied|]. }
  assert (Hd : stop_loss_hit profile pnlPct || take_profit_hit profile pnlPct = true)
    by (destruct (stop_loss_hit profile pnlPct), (take_profit_hit profile pnlPct); done).
  rewrite Hd. clear E Hd.
  match goal with |- let '(_, _) := ?m s in _ =>
    assert (Ht : tallies m) by
      (apply tallies_bind; [apply signal_tally|]; intros _; apply tallies_bind; [apply do_tally|]; intros _;
       by apply tallies_event);
    assert (Hs : run_sends 1 m) by
      (apply (run_bind 0 1); [by apply run_none|]; intros _; apply (run_bind 1 0); [apply run_do, close_sends|];
       intros _; apply (run_bind 0 0); [by apply run_none|]; intros _; by apply run_do, sends_none, event_sends);
    specialize (Ht s); specialize (Hs s); destruct (m s) as [r s'] end.
  by split.
Qed.

Lemma submit_trailing_effect a env p e : tallies (submit_trailing now a env p e) /\ run_sends 1 (submit_trailing now a env p e).
Proof.
  split.
  - apply tallies_catch; try lia; [apply do_tally|]. intros error.
    apply moves_bind; [typeclasses eauto|apply do_tally|]. intros _.
    apply moves_bind; [typeclasses eauto| |intros _; apply moves_throw; typeclasses eauto].
    case_bool_decide; [apply moves_ret; typeclasses eauto|apply do_tally].
  - unfold submit_trailing. apply run_catch.
    + apply (run_bind 1 0); [apply run_do, trailing_sends|]. intros _. by apply run_none.
    + intros error. apply (run_bind 0 0).
      { apply run_do, sends_none. unfold markTrailingStopOrderSubmitFailed. apply update_state_sends. }
      intros _. apply (run_bind 0 0); [|intros _; by apply run_none].
      case_bool_decide; [by apply run_none|]. by apply run_do, sends_none, event_sends.
Qed.

Lemma trailing_effect a env row profile pnlPct :
  tallies (evaluate_trailing now a env row profile pnlPct) /\ run_sends 1 (evaluate_trailing now a env row profile pnlPct).
Proof.
  unfold evaluate_trailing. cbv zeta. split.
  - apply tallies_bind; [apply do_tally|]. intros e.
    destruct (match es_targetPct e with Some t => _ | None => _ end) as [target|]; [|by apply tallies_add; lia].
    destruct (match es_trailingStopPct e with Some t => _ | None => _ end) as [trail|]; [|by apply tallies_add; lia].
    apply tallies_bind.
    { destruct (negb _ && _); [|apply moves_ret; typeclasses eauto].
      apply moves_bind; [typeclasses eauto|apply do_tally|]. intros e'.
      apply moves_bind; [typeclasses eauto|apply signal_tally|]. intros _.
      apply moves_bind; [typeclasses eauto|apply do_tally|]. intros _. apply moves_ret. typeclasses eauto. }
    intros e'. destruct (es_targetUnlocked e' && _); [apply submit_trailing_effect|].
    apply tallies_quiet, moves_ret. typeclasses eauto.
  - apply (run_bind 0 1).
    { apply run_do, sends_none. unfold ensurePositionExitState, getPositionWithExitProfile, db_asks.
      pose proof create_state_sends. solve_moves. }
    intros e.
    destruct (match es_targetPct e with Some t => _ | None => _ end) as [target|];
      [|by apply (run_more 0 1); [lia|apply run_none]].
    destruct (match es_trailingStopPct e with Some t => _ | None => _ end) as [trail|];
      [|by apply (run_more 0 1); [lia|apply run_none]].
    apply (run_bind 0 1).
    { destruct (negb _ && _); [|by apply run_none]. apply (run_bind 0 0).
      { apply run_do, sends_none, update_state_sends. }
      intros e'. apply (run_bind 0 0); [by apply run_none|]. intros _.
      apply (run_bind 0 0); [by apply run_do, sends_none, event_sends|]. intros _. by apply run_none. }
    intros e'. destruct (es_targetUnlocked e' && _); [apply submit_trailing_effect|].
    by apply (run_more 0 1); [lia|apply run_none].
Qed.

(** One position, whatever becomes of it: counted once, failed or not, at most
    one request when it is due and nothing at all when it is not. *)
Lemma position_step a env row s :
  let '(r, s') := evaluate_position now a env row s in
  exists s1, s1 = snd (eval_add 1 0 0 0 0 s) /\ position_effect (due a row) r s1 s'.
Proof.
  assert (E : forall m : eff EvalRun unit, (_ ← eval_add 1 0 0 0 0; m) s = m (snd (eval_add 1 0 0 0 0 s))) by done.
  unfold evaluate_position. cbv zeta. rewrite E. set (s1 := snd (eval_add 1 0 0 0 0 s)).
  match goal with |- let '(r, s') := ?x in _ => enough (position_effect (due a row) (fst x) s1 (snd x)) by
    (destruct x as [r s']; exists s1; done) end.
  assert (Hskip : forall d b, 0 <= b <= 1 -> position_effect d (fst (eval_add 0 1 0 0 b s1)) s1 (snd (eval_add 0 1 0 0 b s1))).
  { intros d b Hb. apply inert_effect; [|done]. by apply tallies_add; lia. }
  assert (Hthrow : forall d e, position_effect d (fst (throw (A := unit) e s1)) s1 (snd (throw (A := unit) e s1))).
  { intros d e. apply inert_effect; [|done]. by apply same_tallied. }
  unfold due, may_exit, exit_due. destruct (opt_eqb _ a); cbn [negb andb]; [|apply Hthrow].
  destruct (ep_assignment row) as [asg|]; [|apply Hthrow].
  destruct (assignment_matches asg a _); cbn [negb andb]; [|apply Hthrow].
  destruct (ep_exitProfile row) as [profile|]; [|by rewrite andb_false_r; apply Hskip].
  destruct (match ep_exitState row with Some e => _ | None => _ end); [by rewrite andb_false_r; apply Hskip|].
  destruct (String.eqb _ "closing"); [by rewrite andb_false_r; apply Hskip|].
  destruct (tas_enabled asg), (tas_exitsEnabled asg); cbn [negb andb orb]; try (by apply Hskip).
  set (pnl := default (num_of_Z 0) _).
  set (ext := bool_decide _).
  destruct (isUnlockTrailingProfile profile); cbn [negb andb].
  - destruct ext; cbn [negb andb]; [by apply Hskip|].
    destruct (trailing_effect a env row profile pnl) as [Ht Hs]. specialize (Ht s1). specialize (Hs s1).
    by split.
  - pose proof (fixed_effect a row profile pnl s1) as Hf.
    destruct ext, (stop_loss_hit profile pnl); cbn [negb andb orb] in *; rewrite ?andb_false_r, ?andb_true_r;
      try (by apply Hskip); by destruct (evaluate_fixed now a row profile pnl s1).
Qed.
End Steps.

(** * Whole runs *)

Lemma each_ok {S A} (f : A -> eff S unit) (R : list A -> S -> S -> Prop) l s :
  (forall s, R [] s s) ->
  (forall x l s, fst (f x s) = Ok tt /\ forall s', R l (snd (f x s)) s' -> R (x :: l) s s') ->
  fst (each f l s) = Ok tt /\ R l s (snd (each f l s)).
Proof.
  intros H0 H1. revert s. induction l as [|x l IH]; intros s; [done|]. cbn [each]. unfold mbind, eff_bind.
  destruct (H1 x l s) as [E Hx]. destruct (f x s) as [r s1]. cbn [fst snd] in *. rewrite E.
  destruct (IH s1) as [-> Hl]. split; [done|by apply Hx].
Qed.

Section Runs.
Context `{PrismaLaws} `{ExitBroker} {S : ExitServices} `{!ExitServicesLaws S} `{ExitAuthority}.
Variable now : Z.

(** ** The synchronization *)

Definition handled (r : ProtectiveOrderSyncResult) : Z := ps_synchronized r + ps_confirmedMissing r + ps_failed r.

(** A run of [n] orders: each is synchronized, missing or failed. *)
Definition synced (n : Z) (s s' : SyncRun) : Prop :=
  handled (sr_result s') = handled (sr_result s) + n /\ ps_found (sr_result s') = ps_found (sr_result s) /\
  0 <= ps_failed (sr_result s') - ps_failed (sr_result s) /\
  Z.of_nat (length (ps_failures (sr_result s'))) - ps_failed (sr_result s') =
    Z.of_nat (length (ps_failures (sr_result s))) - ps_failed (sr_result s) /\
  nothing_sent (sr_world s) (sr_world s').

Lemma synced_trans n k s1 s2 s3 : synced n s1 s2 -> synced k s2 s3 -> synced (n + k) s1 s3.
Proof. unfold synced, nothing_sent. intros (? & ? & ? & ? & ?) (? & ? & ? & ? & ?). repeat split; try lia; congruence. Qed.

Lemma add_synced y p t m (f : option (Z * string * string)) s :
  synced (y + m + (if f then 1 else 0)) s (snd (sync_add y p t m f s)).
Proof.
  unfold synced, sync_add, handled, nothing_sent. cbn -[Z.add]. repeat split; try lia; destruct f; cbn; try lia.
  all: rewrite List.length_app; cbn; lia.
Qed.

Lemma do_synced {A} (m : eff ExitWorld A) s : moves nothing_sent m -> synced 0 s (snd (sync_do m s)).
Proof.
  intros Hm. unfold synced, sync_do, nothing_sent. specialize (Hm (sr_world s)).
  destruct (m (sr_world s)). cbn. repeat split; try lia. exact Hm.
Qed.

Lemma sync_update_sends p f : moves nothing_sent (update_orders p f).
Proof. intros w. unfold update_orders. by destruct (update_many _ _ _). Qed.
Lemma sync_status_sends a c b st raw : moves nothing_sent (syncTrailingStopOrderStatus now a c b st raw).
Proof. intros w. unfold syncTrailingStopOrderStatus. by destruct (update_many _ _ _). Qed.

(** An order that is not thrown out is synchronized or missing. *)
Lemma sync_order_step a e p b s :
  synced (match fst (sync_order now a e p b s) with Ok _ => 1 | Throw _ => 0 end) s (snd (sync_order now a e p b s)).
Proof.
  assert (Hthrow : forall err, synced 0 s (snd (throw (A := unit) err s))).
  { intros err. unfold synced, nothing_sent. cbn. repeat split; lia. }
  unfold sync_order. destruct p as [p|]; [|apply Hthrow].
  destruct (negb _); [apply Hthrow|]. destruct (es_trailClientOrderId e) as [[|c0 c]|]; [apply Hthrow| |apply Hthrow].
  destruct s as [w0 r0].
  change ((sync_do (lift ?f) ≫= ?k) {| sr_world := w0; sr_result := r0 |}) with
    (match f w0 with Ok x => k x {| sr_world := w0; sr_result := r0 |}
     | Throw err => (Throw err, {| sr_world := w0; sr_result := r0 |}) end).
  cbv beta. destruct (order_by_id a b w0) as [[o|]|err]; [| |apply Hthrow].
  - unfold mbind, eff_bind, sync_do, syncTrailingStopOrderStatus, update_orders. cbn [sync_add modify sr_world].
    destruct (update_many _ _ (exitStates _)) as [rows n] eqn:E1. cbn [xw_db set_exitStates sr_world].
    destruct (update_many _ _ (brokerOrders _)) as [rows' n'] eqn:E2. cbn [fst snd].
    unfold synced, handled, nothing_sent. cbn -[Z.add]. rewrite !app_nil_r. repeat split; lia.
  - set (mark := markPositionExitStateAttentionRequired now _ _ _). set (s1 := {| sr_world := w0; sr_result := r0 |}).
    assert (Hm : synced 0 s1 (snd (sync_do mark s1))) by (apply do_synced, update_state_sends).
    unfold mbind, eff_bind. destruct (sync_do mark s1) as [[x|err] s2]; cbn [fst snd] in *; [|done].
    pose proof (add_synced 0 0 0 1 None s2) as Ha. change 1 with (0 + (0 + 1 + 0)). by eapply synced_trans.
Qed.

Lemma sync_item_step a e p s : fst (sync_item now a e p s) = Ok tt /\ synced 1 s (snd (sync_item now a e p s)).
Proof.
  unfold sync_item, try_catch. set (b := default "" _).
  pose proof (sync_order_step a e p b s) as Ho. destruct (sync_order now a e p b s) as [[[]|err] s1]; cbn [fst snd] in *; [done|].
  split; [done|]. change 1 with (0 + (0 + 0 + 1)). eapply synced_trans; [exact Ho|].
  apply (add_synced 0 0 0 0 (Some (es_trackedPositionId e, b, error_message err))).
Qed.

Lemma sync_accounted a w :
  exists r w', syncProtectiveOrdersForAccount now a w = (Ok r, w') /\
    ps_found r = handled r /\ 0 <= ps_failed r /\ Z.of_nat (length (ps_failures r)) = ps_failed r /\ sent w' = sent w.
Proof.
  unfold syncProtectiveOrdersForAccount. set (rows := protective_rows a w).
  set (s0 := {| sr_world := w; sr_result := _ |}).
  destruct (each_ok (fun '(e, p) => sync_item now a e p) (fun l => synced (Z.of_nat (length l))) rows s0) as [E Hs].
  - intros s. unfold synced, nothing_sent. cbn. repeat split; lia.
  - intros [e p] l s. destruct (sync_item_step a e p s) as [E Hs]. split; [done|]. intros s' Hl.
    cbn [length]. replace (Z.of_nat (Datatypes.S (length l))) with (1 + Z.of_nat (length l)) by lia.
    by eapply synced_trans.
  - destruct (each _ rows s0) as [r s]. cbn [fst snd] in *. rewrite E. eexists _, _. split; [reflexivity|].
    destruct Hs as (E1 & E2 & E3 & E4 & E5). unfold handled in *. cbn in *. unfold nothing_sent in E5. cbn in E5.
    repeat split; try lia. done.
Qed.

(** ** The evaluation *)

Definition failed_of (s : EvalRun) : Z := ec_failedPositions (ev_counts s).
Definition skipped_of (s : EvalRun) : Z := ec_positionsSkipped (ev_counts s).
Definition created_of (s : EvalRun) : Z := ec_closeIntentsCreated (ev_counts s).
Definition blocked_of (s : EvalRun) : Z := ec_blockedExits (ev_counts s).

(** A run over rows: every one is evaluated, at most one of skipped, created
    and failed, and only those that are due send anything or change the world. *)
Definition evaluated (a : Z) (rows : list EvaluatedPosition) (s s' : EvalRun) : Prop :=
  ec_positionsEvaluated (ev_counts s') = ec_positionsEvaluated (ev_counts s) + Z.of_nat (length rows) /\
  ec_protectiveOrdersSynchronized (ev_counts s') = ec_protectiveOrdersSynchronized (ev_counts s) /\
  failed_of s <= failed_of s' /\
  Z.of_nat (length (ev_failures s')) - failed_of s' = Z.of_nat (length (ev_failures s)) - failed_of s /\
  0 <= blocked_of s' - blocked_of s <= skipped_of s' - skipped_of s /\ 0 <= created_of s' - created_of s /\
  (skipped_of s' - skipped_of s) + (created_of s' - created_of s) + (failed_of s' - failed_of s) <= Z.of_nat (length rows) /\
  (exists requests, sent (ev_world s') = (sent (ev_world s) ++ requests)%list /\
     (length requests <= length (filterb (due a) rows))%nat) /\
  (filterb (due a) rows = [] -> ev_world s' = ev_world s).

Lemma item_step a env row s :
  fst (evaluate_item now a env row s) = Ok tt /\ evaluated a [row] s (snd (evaluate_item now a env row s)).
Proof.
  unfold evaluate_item, try_catch. pose proof (position_step now a env row s) as Hstep.
  destruct (evaluate_position now a env row s) as [r s1].
  destruct Hstep as (s0 & -> & [(Ef & Ee & Ep & Efd & k & j & b & Ek & Ej & Eb & Hb & Hj & Hsum) (l & El & Hl) Hin]).
  cbn -[Z.add] in *. unfold evaluated, failed_of, skipped_of, created_of, blocked_of. cbn [filterb List.filter].
  assert (Hsend : exists requests, sent (ev_world s1) = (sent (ev_world s) ++ requests)%list /\
    (length requests <= length (if due a row then [row] else []))%nat).
  { exists l. split; [done|]. by destruct (due a row). }
  assert (Hsame : (if due a row then [row] else []) = [] -> ev_world s1 = ev_world s)
    by (destruct (due a row); [done|]; intros _; by apply Hin).
  destruct r as [[]|e]; cbn -[Z.add] in *; rewrite ?Ef, ?List.length_app; cbn -[Z.add]; (split; [done|]);
    repeat (split; [lia|]); by split.
Qed.

(** What the failure of one position leaves in the report: its own entry. *)
Definition failure_of (row : EvaluatedPosition) (r : res unit) : list (Z * string) :=
  match r with Throw e => [(tp_id (ep_position row), error_message e)] | Ok _ => [] end.
Definition threw (r : res unit) : bool := match r with Throw _ => true | Ok _ => false end.
Fixpoint failures_of (rows : list EvaluatedPosition) (outcomes : list (res unit)) : list (Z * string) :=
  match rows, outcomes with
  | row :: rows, r :: outcomes => (failure_of row r ++ failures_of rows outcomes)%list
  | _, _ => []
  end.

(** One position of a run: its evaluation from the world the one before left
    ended with [r], and exactly that is counted and reported. *)
Record position_run (a : Z) (env : string) (row : EvaluatedPosition) (s : EvalRun) (r : res unit) (s' : EvalRun) : Prop := {
  pn_ends : exists s1, evaluate_position now a env row s = (r, s1) /\ ev_world s' = ev_world s1;
  pn_failures : ev_failures s' = (ev_failures s ++ failure_of row r)%list;
  pn_failed : failed_of s' = failed_of s + (if threw r then 1 else 0);
  pn_once : skipped_of s <= skipped_of s' /\ created_of s <= created_of s' /\
    (skipped_of s' - skipped_of s) + (created_of s' - created_of s) <= (if threw r then 0 else 1)
}.

Lemma item_run a env row s : exists r, position_run a env row s r (snd (evaluate_item now a env row s)).
Proof.
  unfold evaluate_item, try_catch. pose proof (position_step now a env row s) as Hstep.
  destruct (evaluate_position now a env row s) as [r s1] eqn:E.
  destruct Hstep as (s0 & -> & [(Ef & _ & _ & Efd & k & j & b & Ek & Ej & _ & Hb & Hj & Hsum) _ _]).
  exists r. cbn -[Z.add] in Ef, Efd, Ek, Ej. destruct r as [[]|e]; split; rewrite ?E; try (by eexists);
    unfold failed_of, skipped_of, created_of; cbn -[Z.add]; rewrite ?app_nil_r; first [congruence|lia].
Qed.

(** A run reports exactly the failures of its positions, in order. *)
Lemma run_reported a env rows s outcomes s' : run_over (position_run a env) rows s outcomes s' ->
  ev_failures s' = (ev_failures s ++ failures_of rows outcomes)%list /\
  failed_of s' = failed_of s + how_many threw outcomes.
Proof.
  induction 1 as [s|row rows s r s1 outcomes s2 Hp _ [IH1 IH2]].
  - rewrite app_nil_r. split; [done|]. unfold how_many. cbn. lia.
  - rewrite IH1, IH2, (pn_failures _ _ _ _ _ _ Hp), (pn_failed _ _ _ _ _ _ Hp), how_many_cons.
    cbn [failures_of]. rewrite <- app_assoc. split; [done|lia].
Qed.

Lemma evaluated_trans a rows rows' s1 s2 s3 :
  evaluated a rows s1 s2 -> evaluated a rows' s2 s3 -> evaluated a (rows ++ rows') s1 s3.
Proof.
  intros (A1 & A0 & A2 & A3 & A4 & A5 & A6 & (l & El & Hl) & A7) (B1 & B0 & B2 & B3 & B4 & B5 & B6 & (l' & El' & Hl') & B7).
  unfold evaluated, filterb. rewrite List.length_app, List.filter_app. repeat (split; [lia|]). split.
  - exists (l ++ l')%list. rewrite El', El, app_assoc, !List.length_app. split; [done|]. unfold filterb in *. lia.
  - intros [E1 E2]%app_eq_nil. rewrite B7 by done. by apply A7.
Qed.

Lemma items_run a env rows s :
  fst (each (evaluate_item now a env) rows s) = Ok tt /\
  evaluated a rows s (snd (each (evaluate_item now a env) rows s)) /\
  exists outcomes, run_over (position_run a env) rows s outcomes (snd (each (evaluate_item now a env) rows s)).
Proof.
  apply (each_ok (evaluate_item now a env) (fun l s s' => evaluated a l s s' /\
    exists outcomes, run_over (position_run a env) l s outcomes s')).
  - intros s0. split; [|exists []; constructor]. unfold evaluated. cbn -[Z.add]. repeat (split; [lia|]). split; [|done].
    exists []. rewrite app_nil_r. split; [done|cbn; lia].
  - intros row l s0. destruct (item_step a env row s0) as [E Hs]. split; [done|]. intros s' [Hl (outcomes & Ho)].
    split; [exact (evaluated_trans a [row] l s0 _ s' Hs Hl)|].
    destruct (item_run a env row s0) as [r Hr]. exists (r :: outcomes). by econstructor.
Qed.

(** A run after the synchronization. *)
Definition run_start (sync : ProtectiveOrderSyncResult) (w : ExitWorld) : EvalRun :=
  {| ev_world := w; ev_counts := synced_counts sync;
     ev_failures := map (fun '(id, _, error) => (id, error)) (ps_failures sync) |}.
End Runs.

(** * Properties *)

Section Properties.
Context `{PrismaLaws} `{ExitBroker} {S : ExitServices} `{!ExitServicesLaws S} `{ExitAuthority}.

(** C38. One position never decides about another. An evaluation of a LIVE
    account, or of a PAPER account whose write authority is granted, always
    completes: every open or closing position of the account is evaluated, one
    after the other and whatever the others did. One that throws adds exactly its
    own failure, its id and its error, and counts once as failed and as nothing
    else; the failures reported are these, in order, after those of the
    protective synchronization. One that does not throw counts at most once as
    skipped or as closed or protected, and a blocked exit is a skipped
    one. The protective synchronization before it sends nothing and settles
    each of its orders as synchronized, missing or failed. *)
Theorem evaluation_isolated now a env w
    (Hauthority : env <> "PAPER" \/
       exists reason, forall w', assessPaperBrokerWriteAuthorityForAccount a w' = Ok ("AUTHORIZED", reason)) :
  exists sync w1 outcomes s',
    syncProtectiveOrdersForAccount now a w = (Ok sync, w1) /\
    ps_found sync = ps_synchronized sync + ps_confirmedMissing sync + ps_failed sync /\ sent w1 = sent w /\
    run_over (position_run now a env) (evaluated_positions a w) (run_start sync w1) outcomes s' /\
    let counts := ev_counts s' in
    let failures := (map (fun '(id, _, error) => (id, error)) (ps_failures sync) ++
                     failures_of (evaluated_positions a w) outcomes)%list in
    evaluateExitsForAccount now a env w = (Ok (counts, failures), ev_world s') /\
    ec_positionsEvaluated counts = Z.of_nat (length (evaluated_positions a w)) /\
    ec_protectiveOrdersSynchronized counts = ps_synchronized sync /\
    ec_failedPositions counts = ps_failed sync + how_many threw outcomes /\
    ec_failedPositions counts = Z.of_nat (length failures) /\
    0 <= ec_blockedExits counts <= ec_positionsSkipped counts /\ 0 <= ec_closeIntentsCreated counts /\
    ec_positionsSkipped counts + ec_closeIntentsCreated counts + how_many threw outcomes <= ec_positionsEvaluated counts.
Proof.
  destruct (sync_accounted now a w) as (sync & w1 & Es & Ef & Hf0 & Hlen & Hsent).
  set (rows := evaluated_positions a w). set (s0 := run_start sync w1).
  assert (Hrun : evaluate_rows now a env rows s0 = each (evaluate_item now a env) rows s0).
  { unfold evaluate_rows. destruct (String.eqb_spec env "PAPER") as [->|]; [|done].
    destruct Hauthority as [|[reason Hr]]; [done|]. unfold mbind, eff_bind, eval_do, lift. cbn [ev_world s0 run_start].
    by rewrite Hr. }
  destruct (items_run now a env rows s0) as (Eok & Hev & outcomes & Ho).
  destruct (each (evaluate_item now a env) rows s0) as [r s'] eqn:Er. cbn [fst snd] in *.
  destruct (run_reported now a env rows s0 outcomes s' Ho) as [Efail Ecount].
  exists sync, w1, outcomes, s'. do 4 (split; [done|]). cbv zeta. fold rows.
  split; [unfold evaluateExitsForAccount; rewrite Es; fold rows; fold (run_start sync w1); fold s0; rewrite Hrun, Eok; cbn; by rewrite Efail|].
  destruct Hev as (A1 & A0 & A2 & A3 & A4 & A5 & A6 & _). rewrite Efail in A3.
  unfold failed_of, skipped_of, blocked_of, created_of in *. subst s0. cbn -[Z.add Z.sub] in *.
  rewrite length_map in A3. fold rows. repeat (split; [lia|]). lia.
Qed.

(** C39. Nothing is sold that is not due. Whatever the outcome of an
    evaluation - refused authority and observation included - it sends at most
    one request per position that is due, judged on the rows loaded at its
    start: the account's own, with its own assignment enabled for exits, with
    no protective order working and no close under way; protected by a
    trailing stop and not owned externally, or with its stop loss hit, or with
    its target hit and not owned externally. When no position is due, an
    authorized evaluation changes nothing after the synchronization. *)
Theorem evaluation_sells_only_due now a env w
    (Hquiet : forall acc o, moves nothing_sent (reconcilePaperBrokerWriteAuthorityAttention acc o)) :
  let '(r, w') := evaluateExitsForAccount now a env w in
  let rows := evaluated_positions a w in
  (exists requests, sent w' = (sent w ++ requests)%list /\ (length requests <= length (filterb (due a) rows))%nat) /\
  (filterb (due a) rows = [] -> env <> "PAPER" -> w' = snd (syncProtectiveOrdersForAccount now a w)).
Proof.
  destruct (sync_accounted now a w) as (sync & w1 & Es & _ & _ & _ & Hsent).
  unfold evaluateExitsForAccount. rewrite Es. cbn [snd]. set (rows := evaluated_positions a w).
  set (s0 := {| ev_world := w1; ev_counts := _; ev_failures := _ |}).
  pose proof (items_run now a env rows s0) as (_ & (_ & _ & _ & _ & _ & _ & _ & (l & El & Hl) & Hin) & _).
  assert (Hnone : forall s', sent (ev_world s') = sent w1 ->
    exists requests, sent (ev_world s') = (sent w ++ requests)%list /\ (length requests <= length (filterb (due a) rows))%nat).
  { intros s' E. exists []. rewrite app_nil_r, E. split; [done|cbn; lia]. }
  assert (Hall : exists requests, sent (ev_world (snd (each (evaluate_item now a env) rows s0))) = (sent w ++ requests)%list /\
    (length requests <= length (filterb (due a) rows))%nat) by (exists l; cbn in El; by rewrite El, Hsent).
  unfold evaluate_rows. destruct (String.eqb_spec env "PAPER") as [->|Hne].
  2: { destruct (each _ rows s0) as [r s'] eqn:Er. cbn [snd] in *. split; [exact Hall|]. intros Hd _. by apply Hin. }
  unfold mbind at 1, eff_bind at 1, eval_do at 1, lift at 1. cbn [ev_world s0].
  destruct (assessPaperBrokerWriteAuthorityForAccount a w1) as [[outcome reason]|e]; cbn [fst snd].
  2: { cbn -[filterb due rows]. split; [|done]. exists []. rewrite app_nil_r. split; [done|cbn; lia]. }
  change {| ev_world := w1; ev_counts := ev_counts s0; ev_failures := ev_failures s0 |} with s0. destruct (String.eqb outcome "INTENTIONAL_OBSERVATION_ONLY").
  - assert (Ho : run_sends 0 (each (observe_only a) rows)).
    { clear. induction rows as [|row rows IH]; [by apply run_none|]. cbn [each]. apply (run_bind 0 0); [|intros _; exact IH].
      unfold observe_only. apply (run_bind 0 0); [by apply run_none|]. intros _.
      apply (run_bind 0 0); [apply run_do, sends_none; by intros x|]. intros [ev|]; [by apply run_none|].
      by apply run_do, sends_none, event_sends. }
    destruct (Ho s0) as (l' & El' & Hl'). destruct (each (observe_only a) rows s0) as [r s']. cbn [snd] in *.
    split; [|done]. apply Hnone. rewrite El'. destruct l'; [by rewrite app_nil_r|cbn in Hl'; lia].
  - destruct (String.eqb outcome "AUTHORIZED"); cbn [negb].
    + destruct (each _ rows s0) as [r s'] eqn:Er. cbn [snd] in *. split; [exact Hall|done].
    + unfold mbind, eff_bind, eval_do. pose proof (Hquiet a (outcome, reason) w1) as Hq. cbn [ev_world s0].
      destruct (reconcilePaperBrokerWriteAuthorityAttention a (outcome, reason) w1) as [[[]|e] w2]; cbn [snd fst] in *;
        (split; [|done]); unfold nothing_sent in Hq; exists []; rewrite app_nil_r; (split; [cbn; congruence|cbn; lia]).
Qed.
End Properties.

(** * Concrete inputs *)

#[local] Existing Instance in_order.
#[local] Existing Instance answering_services.
#[local] Instance evaluator_services_laws : ExitServicesLaws answering_services.
Proof. split; intros; apply moves_ret; typeclasses eauto. Qed.

Definition granted (outcome : string) : ExitAuthority :=
  {| assessPaperBrokerWriteAuthorityForAccount := fun _ _ => Ok (outcome, "declared");
     reconcilePaperBrokerWriteAuthorityAttention := fun _ _ => mret tt |}.
#[local] Instance accepting_broker : ExitBroker := broker_of "5" (Ok accepted_order).

(** Next to the unlocked position, one without an assignment. *)
Definition orphan_position : TrackedPosition :=
  {| tp_id := 8; tp_symbol := "MSFT"; tp_side := "long"; tp_qty := num_of_Z 1;
     tp_marketValue := num_of_Z 400; tp_costBasis := num_of_Z 400; tp_currentPrice := num_of_Z 400;
     tp_unrealizedPnLPct := None; tp_status := "open"; tp_securityId := 8;
     tp_subscriptionId := Some 3; tp_tradingAccountId := Some 1; tp_tradingAccountSubscriptionId := None |}.
Definition two_positions : ExitWorld :=
  set_db (set_trackedPositions (fun l => l ++ [orphan_position])%list) unlocked_world.

Lemma evaluation_isolated_witness :
  exists counts failures w',
    evaluateExitsForAccount (H2 := granted "AUTHORIZED") 1767323100000 1 "PAPER" two_positions = (Ok (counts, failures), w') /\
    ec_positionsEvaluated counts = 2 /\ ec_failedPositions counts = 1 /\ map fst failures = [8] /\
    map (fun r => xr_symbol (snd r)) (sent w') = ["AAPL"].
Proof.
  destruct (evaluation_isolated (H1 := granted "AUTHORIZED") 1767323100000 1 "PAPER" two_positions
    ltac:(right; exists "declared"; reflexivity)) as (sync & w1 & outcomes & s' & _ & _ & _ & _ & E & Hn & _).
  eexists _, _, _. split; [exact E|]. split; [rewrite Hn; vm_compute; reflexivity|].
  assert (V : match evaluateExitsForAccount (H2 := granted "AUTHORIZED") 1767323100000 1 "PAPER" two_positions with
    | (Ok (c, f), w) => ec_failedPositions c = 1 /\ map fst f = [8] /\ map (fun r => xr_symbol (snd r)) (sent w) = ["AAPL"]
    | _ => False end) by (vm_compute; repeat split).
  rewrite E in V. exact V.
Defined.

(** The unlocked position while others own its exits: nothing is due. *)
Definition external_world : ExitWorld :=
  set_exitStates (map (fun e =>
    {| es_id := es_id e; es_trackedPositionId := es_trackedPositionId e;
       es_exitManagementModeSnapshot := "EXTERNAL_SIGNAL"; es_status := es_status e;
       es_targetUnlocked := es_targetUnlocked e; es_targetUnlockedAt := es_targetUnlockedAt e;
       es_targetUnlockedPrice := es_targetUnlockedPrice e; es_targetUnlockedPnlPct := es_targetUnlockedPnlPct e;
       es_highWaterMark := es_highWaterMark e; es_trailStopPrice := es_trailStopPrice e;
       es_exitProfileKey := es_exitProfileKey e; es_exitMode := es_exitMode e;
       es_takeProfitBehavior := es_takeProfitBehavior e; es_targetPct := es_targetPct e;
       es_trailingStopPct := es_trailingStopPct e; es_trailBroker := es_trailBroker e;
       es_trailBrokerOrderId := es_trailBrokerOrderId e; es_trailClientOrderId := es_trailClientOrderId e;
       es_trailOrderStatus := es_trailOrderStatus e; es_rawBrokerJson := es_rawBrokerJson e;
       es_attentionRequired := es_attentionRequired e; es_attentionCode := es_attentionCode e;
       es_attentionMessage := es_attentionMessage e; es_attentionAt := es_attentionAt e;
       es_attentionClearedAt := es_attentionClearedAt e |})) unlocked_world.

Lemma evaluation_sells_only_due_witness :
  snd (evaluateExitsForAccount (H2 := granted "AUTHORIZED") 1767323100000 1 "LIVE" external_world) =
  snd (syncProtectiveOrdersForAccount 1767323100000 1 external_world).
Proof.
  pose proof (evaluation_sells_only_due (H1 := granted "AUTHORIZED") 1767323100000 1 "LIVE" external_world
    (fun _ _ w => eq_refl)) as H.
  destruct (evaluateExitsForAccount 1767323100000 1 "LIVE" external_world) as [r w'].
  destruct H as [_ H]. apply H; [vm_compute; reflexivity|discriminate].
Defined.
