(* ===== verification/WorkerHealth.v ===== *)
(** Health of the account workers: workers/worker-health.definitions.ts and
    services/trading-account-worker-health.service.ts, with the attention of
    services/worker-operational-attention.service.ts. One row per account and
    worker records the attempts; a status is derived from it, and some changes
    of the status are reported. *)

From Stdlib Require Import ZArith Lia.
From Stdlib Require Import Strings.String Strings.Ascii.
From stdpp Require Import base list strings gmap.
From S2P Require Import Prelude JsNumber JsValue JsDate Prisma OrderStatus DeliveryEvidence Schema BrokerAccount ExitWorld.

Open Scope string_scope.
Open Scope Z_scope.

(** * The workers *)

Record WorkerDefinition := {
  wd_key : string;
  wd_displayName : string;
  wd_description : string;
  wd_criticality : string;
  wd_expectedIntervalMs : Z;
  wd_startupGraceMs : Z;
  wd_delayedAfterMs : Z;
  wd_staleAfterMs : Z;
  wd_maxRunDurationMs : Z;
  wd_enabledByDefault : bool
}.

Definition TRADING_WORKER_INTERVAL_MS : Z := 2000.
Definition ACCOUNT_SNAPSHOT_WORKER_INTERVAL_MS : Z := 60000.
Definition BROKER_ACTIVITY_WORKER_INTERVAL_MS : Z := 60000.
Definition RECONCILIATION_SCHEDULER_INTERVAL_MS : Z := 60000.
Definition ALPACA_API_USAGE_PERSISTENCE_INTERVAL_MS : Z := 60000.
Definition MASSIVE_NEWS_WORKER_INTERVAL_MS : Z := 60000.
Definition TREND_ASSESSMENT_WORKER_INTERVAL_MS : Z := 15 * 60000.
Definition VOLATILITY_ASSESSMENT_WORKER_INTERVAL_MS : Z := 15 * 60000.
Definition BREADTH_ASSESSMENT_WORKER_INTERVAL_MS : Z := 15 * 60000.
Definition BREADTH_V2_SHADOW_WORKER_INTERVAL_MS : Z := 60 * 60000.
Definition PARTICIPATION_ASSESSMENT_WORKER_INTERVAL_MS : Z := 15 * 60000.
Definition INTRADAY_STRESS_ASSESSMENT_WORKER_INTERVAL_MS : Z := 2 * 60000.
Definition MARKET_REGIME_COMPOSITION_WORKER_INTERVAL_MS : Z := 60000.
Definition STRATEGY_MARKET_ELIGIBILITY_WORKER_INTERVAL_MS : Z := 5 * 60000.
Definition ORDER_INTENT_MARKET_POLICY_COMPARISON_WORKER_INTERVAL_MS : Z := 30000.
Definition ORDER_INTENT_BROKER_COMPARISON_WORKER_INTERVAL_MS : Z := 30000.
Definition MARKET_MINUTE_EVIDENCE_SYNC_INTERVAL_MS : Z := 30000.
Definition MARKET_SPLIT_COVERAGE_WORKER_INTERVAL_MS : Z := 15 * 60000.
Definition PAPER_BROKER_WRITE_ATTENTION_INTERVAL_MS : Z := 5 * 60000.

(** [thresholds], with [Math.round(interval * 2.5)] on an integer. *)
Definition worker (key displayName description criticality : string) (expectedIntervalMs : Z)
    (enabledByDefault : bool) (maxRunDurationMs : Z) : WorkerDefinition :=
  {| wd_key := key; wd_displayName := displayName; wd_description := description;
     wd_criticality := criticality; wd_expectedIntervalMs := expectedIntervalMs;
     wd_startupGraceMs := Z.max (expectedIntervalMs * 3) 15000;
     wd_delayedAfterMs := Z.max ((expectedIntervalMs * 5 + 1) / 2) 15000;
     wd_staleAfterMs := Z.max (expectedIntervalMs * 5) 60000;
     wd_maxRunDurationMs := maxRunDurationMs; wd_enabledByDefault := enabledByDefault |}.

Definition workerDefinitions : list WorkerDefinition :=
  [worker "order_intent_broker_comparison" "Broker-opportunity market-policy comparison"
     "Records compare-only broker-time evidence without broker or trading authority."
     "informational" ORDER_INTENT_BROKER_COMPARISON_WORKER_INTERVAL_MS false 60000;
   worker "order_intent_market_policy_comparison" "Order intent market-policy comparison"
     "Asynchronously records compare-only intent-time policy evidence without changing trading behavior."
     "informational" ORDER_INTENT_MARKET_POLICY_COMPARISON_WORKER_INTERVAL_MS false 60000;
   worker "strategy_market_eligibility_shadow" "Strategy market eligibility shadow"
     "Records immutable Strategy policy decisions from stored market-regime compositions without trading authority."
     "informational" STRATEGY_MARKET_ELIGIBILITY_WORKER_INTERVAL_MS true 60000;
   worker "market_regime_composition_publication" "Market Regime composition"
     "Composes the five stored authoritative V1 assessments without provider calls or trading authority."
     "informational" MARKET_REGIME_COMPOSITION_WORKER_INTERVAL_MS true 30000;
   worker "breadth_v2_shadow_publication" "BREADTH_V2 shadow publication"
     "Advances stored Tiingo breadth measurements and shadow assessments without trading authority."
     "informational" BREADTH_V2_SHADOW_WORKER_INTERVAL_MS false (45 * 60000);
   worker "trend_assessment_publication" "Daily Trend assessment"
     "Publishes immutable TREND_V1 evidence chronologically, without trading consumers."
     "informational" TREND_ASSESSMENT_WORKER_INTERVAL_MS true 240000;
   worker "volatility_assessment_publication" "Daily Volatility assessment"
     "Publishes immutable VOLATILITY_V1 evidence chronologically, without trading consumers."
     "informational" VOLATILITY_ASSESSMENT_WORKER_INTERVAL_MS true 240000;
   worker "breadth_assessment_publication" "Daily Breadth assessment"
     "Ensures due live MarketBreadthObservation ingestion, then publishes immutable BREADTH_V1 evidence chronologically, without trading consumers."
     "informational" BREADTH_ASSESSMENT_WORKER_INTERVAL_MS true 240000;
   worker "participation_assessment_publication" "Daily Participation assessment"
     "Publishes immutable PARTICIPATION_V1 evidence chronologically, without trading consumers."
     "informational" PARTICIPATION_ASSESSMENT_WORKER_INTERVAL_MS true 240000;
   worker "market_daily_evidence_sync" "Daily market data"
     "Fills eligible missing SPY/QQQ/DIA/IWM/RSP daily bars from the session-authoritative provider without rewriting evidence."
     "informational" 60000 true 180000;
   worker "market_split_coverage_extension" "Massive split coverage"
     "Extends immutable strict Massive split coverage for the currently active Massive daily-authority segment."
     "informational" MARKET_SPLIT_COVERAGE_WORKER_INTERVAL_MS true 240000;
   worker "tiingo_daily_market_data_sync" "Tiingo daily Breadth observations"
     "Fills frozen Breadth revision DAY_1 observations after 20:15 Eastern without trading authority."
     "informational" (15 * 60000) true (45 * 60000);
   worker "market_minute_evidence_sync" "Intraday market data"
     "Fills eligible missing SPY/RSP MINUTE_15 bars for today's regular session from the configured session provider, without rewriting evidence."
     "informational" MARKET_MINUTE_EVIDENCE_SYNC_INTERVAL_MS true 60000;
   worker "intraday_stress_assessment_publication" "Intraday Stress assessment"
     "Publishes immutable INTRADAY_STRESS_V1 evidence per 15-minute target, without trading consumers."
     "informational" INTRADAY_STRESS_ASSESSMENT_WORKER_INTERVAL_MS true 240000;
   worker "paper_broker_write_attention_reconciliation" "PAPER broker-write authority attention"
     "Reconciles PAPER ownership and executor-authority attention from fresh account evidence."
     "important" PAPER_BROKER_WRITE_ATTENTION_INTERVAL_MS true 120000;
   worker "pending_order_processing" "Pending order processing"
     "Claims pending order intents and submits eligible broker orders."
     "critical" TRADING_WORKER_INTERVAL_MS true 20000;
   worker "submitted_order_sync" "Submitted order sync"
     "Refreshes locally submitted order status from broker open orders."
     "critical" TRADING_WORKER_INTERVAL_MS true 20000;
   worker "tracked_position_sync" "Tracked position sync"
     "Mirrors broker positions into tracked position lifecycle state."
     "critical" TRADING_WORKER_INTERVAL_MS true 45000;
   worker "exit_evaluation" "Exit evaluation"
     "Evaluates open tracked positions against configured exit rules."
     "critical" TRADING_WORKER_INTERVAL_MS true 30000;
   worker "account_snapshot_scheduler" "Account snapshot scheduler"
     "Checks whether scheduled account snapshot checkpoints are due."
     "important" ACCOUNT_SNAPSHOT_WORKER_INTERVAL_MS true 30000;
   worker "broker_activity_sync" "Broker activity sync"
     "Imports broker-confirmed fill activities into the local ledger."
     "critical" BROKER_ACTIVITY_WORKER_INTERVAL_MS true 90000;
   worker "scheduled_reconciliation" "Scheduled reconciliation"
     "Runs optional broker/backend reconciliation checks when due."
     "important" RECONCILIATION_SCHEDULER_INTERVAL_MS false 120000;
   worker "alpaca_api_usage_persistence" "Alpaca API usage persistence"
     "Flushes in-memory Alpaca API usage aggregates and applies retention."
     "informational" ALPACA_API_USAGE_PERSISTENCE_INTERVAL_MS true 30000;
   worker "massive_news_ingestion" "Massive news ingestion"
     "Polls Massive reference news for watched stock symbols and stores catalyst events."
     "informational" MASSIVE_NEWS_WORKER_INTERVAL_MS false 120000].

Definition getWorkerDefinition (key : string) : res WorkerDefinition :=
  match List.find (fun d => String.eqb (wd_key d) key) workerDefinitions with
  | Some d => Ok d
  | None => Throw (PlainError ("Unknown worker definition: " ++ key))
  end.

(** * Health rows *)

Record TradingAccountWorkerHealthState := {
  hs_processInstanceId : string;
  hs_applicable : bool;
  hs_eligible : bool;
  hs_eligibilityReason : option string;
  hs_expectedIntervalMs : Z;
  hs_currentRunStartedAt : option Z;
  hs_lastTickStartedAt : option Z;
  hs_lastTickCompletedAt : option Z;
  hs_lastSucceededAt : option Z;
  hs_lastWorkSucceededAt : option Z;
  hs_lastFailedAt : option Z;
  hs_lastDurationMs : option Z;
  hs_lastOutcome : option string;
  hs_lastSkipReason : option string;
  hs_consecutiveFailures : Z;
  hs_totalRuns : Z;
  hs_totalFailures : Z;
  hs_totalSkips : Z;
  hs_totalLockSkips : Z;
  hs_lastLockSkippedAt : option Z;
  hs_lastError : option string;
  hs_lastErrorCode : option string;
  hs_lastErrorAt : option Z;
  hs_backoffUntil : option Z;
  hs_lastSummaryJson : option json;
  hs_createdAt : Z
}.

(** The state of the workers; the health table by its unique index on account
    and worker. *)
Record WorkerWorld := {
  wk_world : ExitWorld;
  wk_health : gmap (Z * string) TradingAccountWorkerHealthState
}.

Definition world_do {A} (m : eff ExitWorld A) : eff WorkerWorld A := fun w =>
  let '(r, x) := m (wk_world w) in (r, {| wk_world := x; wk_health := wk_health w |}).
Definition put_health (account : Z) (key : string) (s : TradingAccountWorkerHealthState) : eff WorkerWorld unit :=
  modify (fun w => {| wk_world := wk_world w; wk_health := <[(account, key) := s]> (wk_health w) |}).
Definition health_of (account : Z) (key : string) (w : WorkerWorld) : option TradingAccountWorkerHealthState :=
  wk_health w !! (account, key).

(** * The status of a row *)

Inductive AccountWorkerStatus :=
| HEALTHY | DORMANT | STARTING | DEGRADED | DELAYED | STALE | FAILING | BACKING_OFF.

#[export] Instance AccountWorkerStatus_eq_dec : EqDecision AccountWorkerStatus.
Proof. solve_decision. Defined.

Definition account_worker_status_str (s : AccountWorkerStatus) : string :=
  match s with
  | HEALTHY => "HEALTHY" | DORMANT => "DORMANT" | STARTING => "STARTING" | DEGRADED => "DEGRADED"
  | DELAYED => "DELAYED" | STALE => "STALE" | FAILING => "FAILING" | BACKING_OFF => "BACKING_OFF"
  end.

Definition after (limit : Z) (since : option Z) (now : Z) : bool :=
  match since with Some t => limit <? now - t | None => false end.

Definition deriveTradingAccountWorkerStatus (s : TradingAccountWorkerHealthState) (d : WorkerDefinition)
    (now : Z) : AccountWorkerStatus :=
  if negb (hs_applicable s) then DORMANT
  else if match hs_backoffUntil s with Some t => now <? t | None => false end then BACKING_OFF
  else if 0 <? hs_consecutiveFailures s then FAILING
  else if after (wd_maxRunDurationMs d) (hs_currentRunStartedAt s) now then DEGRADED
  else match hs_lastSucceededAt s with
  | None =>
      if 0 <? hs_totalLockSkips s then
        let contentionAge := now - hs_createdAt s in
        if wd_staleAfterMs d <? contentionAge then STALE
        else if wd_delayedAfterMs d <? contentionAge then DELAYED
        else STARTING
      else STARTING
  | Some t =>
      let age := now - t in
      if wd_staleAfterMs d <? age then STALE
      else if wd_delayedAfterMs d <? age then DELAYED
      else HEALTHY
  end.

Definition TRANSITION_EVENT_STATUSES : list AccountWorkerStatus := [FAILING; STALE].
Definition RECOVERABLE_STATUSES : list AccountWorkerStatus := [FAILING; STALE; DEGRADED; BACKING_OFF].
Definition POSITION_EXPOSURE_WORKERS : list string :=
  ["exit_evaluation"; "tracked_position_sync"; "scheduled_reconciliation"].
Definition ORDER_EXPOSURE_WORKERS : list string := ["submitted_order_sync"; "broker_activity_sync"].

Definition isAccountWorkerRecoveryTransition (previousStatus nextStatus : AccountWorkerStatus) : bool :=
  bool_decide (nextStatus = HEALTHY) && bool_decide (previousStatus ∈ RECOVERABLE_STATUSES).

Definition accountWorkerTransitionSeverity (recovered : bool) (nextStatus : AccountWorkerStatus)
    (environment : string) (authoritativeProductionExecutor exposureCritical : bool) : Severity :=
  if recovered then INFO
  else if bool_decide (nextStatus = STALE) && String.eqb environment "LIVE" &&
          authoritativeProductionExecutor && exposureCritical then CRITICAL
  else ERROR.

Definition MAX_ERROR_LENGTH : nat := 500.
Definition safeError (error : option js_error) : string :=
  String.substring 0 MAX_ERROR_LENGTH (match error with Some e => error_message e | None => "undefined" end).

(** * Reporting a change of the status *)

(** The open worker attention of a fingerprint: its id and revision. *)
Class WorkerAttention := { worker_attention : string -> ExitWorld -> option (Z * Z) }.

Record ExposureContext := {
  ex_activePositionCount : Z;
  ex_unresolvedOrderCount : Z;
  ex_pendingFillAttributionCount : Z
}.
Definition no_exposure : ExposureContext :=
  {| ex_activePositionCount := 0; ex_unresolvedOrderCount := 0; ex_pendingFillAttributionCount := 0 |}.
Definition exposed (x : ExposureContext) : bool :=
  (0 <? ex_activePositionCount x) || (0 <? ex_unresolvedOrderCount x) || (0 <? ex_pendingFillAttributionCount x).
Definition exposure_fields (x : ExposureContext) : list (string * json) :=
  [("activePositionCount", jint (ex_activePositionCount x));
   ("unresolvedOrderCount", jint (ex_unresolvedOrderCount x));
   ("pendingFillAttributionCount", jint (ex_pendingFillAttributionCount x))].

Definition jdate (t : option Z) : json := jopt (fun t => JStr (iso_of_time t)) t.

Section Report.
Context `{Prisma} {S : ExitServices} `{WorkerAttention}.

Definition workerAttentionFingerprint (tradingAccountId : Z) (workerKey : string) : string :=
  "account:" ++ z_str tradingAccountId ++ "|worker:" ++ workerKey.

Definition underscores_to_spaces (s : string) : string :=
  map_chars (fun c => if Ascii.eqb c "_"%char then " "%char else c) s.

Definition projectWorkerOperationalAttention (tradingAccountId : Z) (workerKey displayName environment : string)
    (recovered : bool) (nextStatus : AccountWorkerStatus) (reason : option string) (x : ExposureContext)
    : eff ExitWorld unit :=
  let fingerprint := workerAttentionFingerprint tradingAccountId workerKey in
  let status := account_worker_status_str nextStatus in
  if recovered then
    active ← asks (worker_attention fingerprint);
    match active with
    | Some (id, revision) =>
        resolveOperationalAttention id revision "Current account-worker evidence is healthy and fresh."
          (JObj [("workerKey", JStr workerKey); ("recovered", JBool true); ("status", JStr status)])
    | None => mret tt
    end
  else if negb (0 <? ex_activePositionCount x + ex_unresolvedOrderCount x + ex_pendingFillAttributionCount x) ||
          negb (bool_decide (nextStatus ∈ [FAILING; STALE])) then mret tt
  else
    let critical := bool_decide (nextStatus = STALE) && String.eqb environment "LIVE" &&
                    String.eqb env_NODE_ENV "production" &&
                    String.eqb env_LIVE_WRITE_DEPLOYMENT_ROLE "PRODUCTION_EXECUTOR" in
    openOrObserveOperationalAttention fingerprint "ACCOUNT_WORKER_UNHEALTHY" (if critical then CRITICAL else ERROR)
      ("The worker is " ++ to_lower status ++ " while responsible for current exposure or unresolved order state.")
      (JObj ([("title", JStr (displayName ++ " " ++ underscores_to_spaces workerKey ++ " is " ++ to_lower status));
              ("workerKey", JStr workerKey); ("status", JStr status); ("reason", jopt JStr reason)] ++
             exposure_fields x)%list).

Definition unresolved_order (tradingAccountId : Z) (i : OrderIntent) : bool :=
  opt_eqb (oi_tradingAccountId i) tradingAccountId &&
  (member (oi_status i) ["submitting"; "submitted"] ||
   match oi_blockReason i with Some r => contains "DELIVERY_UNCERTAIN" r | None => false end).

Definition active_account_position (tradingAccountId : Z) (p : TrackedPosition) : bool :=
  opt_eqb (tp_tradingAccountId p) tradingAccountId && member (tp_status p) ["open"; "closing"].

Definition exposure_context (tradingAccountId : Z) (workerKey : string) (w : ExitWorld) : ExposureContext :=
  {| ex_activePositionCount :=
       if member workerKey POSITION_EXPOSURE_WORKERS
       then count (active_account_position tradingAccountId) (trackedPositions (xw_db w)) else 0;
     ex_unresolvedOrderCount :=
       if member workerKey ORDER_EXPOSURE_WORKERS
       then count (unresolved_order tradingAccountId) (orderIntents (xw_db w)) else 0;
     ex_pendingFillAttributionCount :=
       if String.eqb workerKey "broker_activity_sync"
       then count (fun e => es_attentionRequired e &&
              match find_first (fun p => tp_id p =? es_trackedPositionId e) (trackedPositions (xw_db w)) with
              | Some p => opt_eqb (tp_tradingAccountId p) tradingAccountId
              | None => false
              end) (exitStates w)
       else 0 |}.

Definition find_account (tradingAccountId : Z) (w : ExitWorld) : option TradingAccount :=
  find_first (fun a => ta_id a =? tradingAccountId) (tradingAccounts (xw_db w)).

(** [createSystemEvent] with a text as the entity id. *)
Definition emit_event (type entityType entityId : string) (tradingAccountId : Z) (severity : Severity)
    (message : string) (payload : list (string * json)) : eff ExitWorld unit :=
  modify (set_systemEvents (fun l => (l ++ [{| se_type := type; se_entityType := entityType;
    se_entityId := entityId; se_tradingAccountId := Some tradingAccountId; se_severity := severity;
    se_message := Some message; se_payload := JObj payload |}])%list)).

Definition worker_entity (tradingAccountId : Z) (workerKey : string) : string :=
  z_str tradingAccountId ++ ":" ++ workerKey.

Definition transition_event_type (recovered : bool) (nextStatus : AccountWorkerStatus) : string :=
  if recovered then "account_worker_health.recovered"
  else if bool_decide (nextStatus = STALE) then "account_worker_health.stale"
  else "account_worker_health.failing".

(** [projects]: the attention is projected unless the caller passed a database
    of its own. *)
Definition emitTransition (projects : bool) (tradingAccountId : Z) (workerKey : string)
    (state : TradingAccountWorkerHealthState) (previousStatus nextStatus : AccountWorkerStatus)
    (reason : option string) : eff ExitWorld unit :=
  if bool_decide (previousStatus = nextStatus) then mret tt
  else
  account ← asks (find_account tradingAccountId);
  match account with
  | None => mret tt
  | Some account =>
  let recovered := isAccountWorkerRecoveryTransition previousStatus nextStatus in
  if negb recovered && negb (bool_decide (nextStatus ∈ TRANSITION_EVENT_STATUSES)) then mret tt
  else
  x ← asks (fun w => if recovered then no_exposure else exposure_context tradingAccountId workerKey w);
  let severity :=
    if exposed x then accountWorkerTransitionSeverity recovered nextStatus (ta_environment account) true true
    else accountWorkerTransitionSeverity recovered nextStatus (ta_environment account)
      (String.eqb env_NODE_ENV "production" && String.eqb env_LIVE_WRITE_DEPLOYMENT_ROLE "PRODUCTION_EXECUTOR") false in
  _ ← emit_event (transition_event_type recovered nextStatus) "tradingAccountWorker"
    (worker_entity tradingAccountId workerKey) tradingAccountId severity
    (ta_displayName account ++ " " ++ workerKey ++ " changed from " ++ account_worker_status_str previousStatus ++
     " to " ++ account_worker_status_str nextStatus ++ ".")
    ([("tradingAccountId", jint tradingAccountId); ("workerKey", JStr workerKey);
      ("displayName", JStr (ta_displayName account)); ("environment", JStr (ta_environment account));
      ("previousStatus", JStr (account_worker_status_str previousStatus));
      ("nextStatus", JStr (account_worker_status_str nextStatus)); ("reason", jopt JStr reason);
      ("processInstanceId", JStr (hs_processInstanceId state));
      ("consecutiveFailures", jint (hs_consecutiveFailures state));
      ("lastSucceededAt", jdate (hs_lastSucceededAt state)); ("lastFailedAt", jdate (hs_lastFailedAt state))] ++
     exposure_fields x ++ [("deploymentRole", JStr env_LIVE_WRITE_DEPLOYMENT_ROLE)])%list;
  if projects then
    projectWorkerOperationalAttention tradingAccountId workerKey (ta_displayName account)
      (ta_environment account) recovered nextStatus reason x
  else mret tt
  end.
End Report.

(** * Recording attempts *)

Inductive AttemptOutcome := Success | Skipped | Failure | Dormant | BackoffSkipped.

#[export] Instance AttemptOutcome_eq_dec : EqDecision AttemptOutcome.
Proof. solve_decision. Defined.

Definition attempt_outcome_str (o : AttemptOutcome) : string :=
  match o with
  | Success => "success" | Skipped => "skipped" | Failure => "failure" | Dormant => "dormant"
  | BackoffSkipped => "backoff_skipped"
  end.

(** The arguments of an attempt; [None] is a field that is not given. *)
Record Attempt := {
  at_tradingAccountId : Z;
  at_workerKey : string;
  at_processInstanceId : string;
  at_outcome : AttemptOutcome;
  at_skipReason : option string;
  at_applicable : option bool;
  at_eligible : option bool;
  at_eligibilityReason : option (option string);
  at_workSucceeded : bool;
  at_error : option js_error;
  at_errorCode : option (option string);
  at_summary : option json;
  at_backoffUntil : option (option Z);
  at_startedAt : option Z
}.

Definition attempt (account : Z) (key process : string) (o : AttemptOutcome) : Attempt :=
  {| at_tradingAccountId := account; at_workerKey := key; at_processInstanceId := process; at_outcome := o;
     at_skipReason := None; at_applicable := None; at_eligible := None; at_eligibilityReason := None;
     at_workSucceeded := false; at_error := None; at_errorCode := None; at_summary := None;
     at_backoffUntil := None; at_startedAt := None |}.

Definition is_failure (o : AttemptOutcome) : bool := bool_decide (o = Failure).
Definition is_success (o : AttemptOutcome) : bool := bool_decide (o ∈ [Success; Skipped; Dormant]).
Definition is_skip (o : AttemptOutcome) : bool := bool_decide (o ∈ [Skipped; BackoffSkipped; Dormant]).

Definition attempt_skip_reason (a : Attempt) : option string :=
  if is_skip (at_outcome a)
  then Some (default (attempt_outcome_str (at_outcome a)) (at_skipReason a)) else None.
Definition attempt_applicable (a : Attempt) : bool :=
  default (negb (bool_decide (at_outcome a = Dormant))) (at_applicable a).

(** [create] of the upsert. *)
Definition created_state (d : WorkerDefinition) (now : Z) (a : Attempt) : TradingAccountWorkerHealthState :=
  let failure := is_failure (at_outcome a) in
  let startedAt := default now (at_startedAt a) in
  {| hs_processInstanceId := at_processInstanceId a;
     hs_applicable := attempt_applicable a; hs_eligible := default true (at_eligible a);
     hs_eligibilityReason := default None (at_eligibilityReason a);
     hs_expectedIntervalMs := wd_expectedIntervalMs d;
     hs_currentRunStartedAt := None; hs_lastTickStartedAt := Some startedAt; hs_lastTickCompletedAt := Some now;
     hs_lastSucceededAt := if is_success (at_outcome a) then Some now else None;
     hs_lastWorkSucceededAt := if at_workSucceeded a then Some now else None;
     hs_lastFailedAt := if failure then Some now else None;
     hs_lastDurationMs := Some (Z.max 0 (now - startedAt));
     hs_lastOutcome := Some (attempt_outcome_str (at_outcome a));
     hs_lastSkipReason := attempt_skip_reason a;
     hs_consecutiveFailures := if failure then 1 else 0;
     hs_totalRuns := 1; hs_totalFailures := if failure then 1 else 0;
     hs_totalSkips := if is_skip (at_outcome a) then 1 else 0; hs_totalLockSkips := 0;
     hs_lastLockSkippedAt := None;
     hs_lastError := if failure then Some (safeError (at_error a)) else None;
     hs_lastErrorCode := if failure then default None (at_errorCode a) else None;
     hs_lastErrorAt := if failure then Some now else None;
     hs_backoffUntil := default None (at_backoffUntil a); hs_lastSummaryJson := at_summary a;
     hs_createdAt := now |}.

(** [update] of the upsert. *)
Definition updated_state (now : Z) (a : Attempt) (s : TradingAccountWorkerHealthState)
    : TradingAccountWorkerHealthState :=
  let success := is_success (at_outcome a) in
  let failure := is_failure (at_outcome a) in
  let startedAt := default now (at_startedAt a) in
  {| hs_processInstanceId := at_processInstanceId a;
     hs_applicable := attempt_applicable a; hs_eligible := default true (at_eligible a);
     hs_eligibilityReason := default (hs_eligibilityReason s) (at_eligibilityReason a);
     hs_expectedIntervalMs := hs_expectedIntervalMs s;
     hs_currentRunStartedAt := None; hs_lastTickStartedAt := Some startedAt; hs_lastTickCompletedAt := Some now;
     hs_lastSucceededAt := if success then Some now else hs_lastSucceededAt s;
     hs_lastWorkSucceededAt := if at_workSucceeded a then Some now else hs_lastWorkSucceededAt s;
     hs_lastFailedAt := if failure then Some now else hs_lastFailedAt s;
     hs_lastDurationMs := Some (Z.max 0 (now - startedAt));
     hs_lastOutcome := Some (attempt_outcome_str (at_outcome a));
     hs_lastSkipReason := attempt_skip_reason a;
     hs_consecutiveFailures :=
       if success then 0 else if failure then hs_consecutiveFailures s + 1 else hs_consecutiveFailures s;
     hs_totalRuns := hs_totalRuns s + 1;
     hs_totalFailures := hs_totalFailures s + (if failure then 1 else 0);
     hs_totalSkips := hs_totalSkips s + (if is_skip (at_outcome a) then 1 else 0);
     hs_totalLockSkips := hs_totalLockSkips s; hs_lastLockSkippedAt := hs_lastLockSkippedAt s;
     hs_lastError := if success then None else if failure then Some (safeError (at_error a)) else hs_lastError s;
     hs_lastErrorCode :=
       if success then None
       else if failure then default (hs_lastErrorCode s) (at_errorCode a) else hs_lastErrorCode s;
     hs_lastErrorAt := if failure then Some now else hs_lastErrorAt s;
     hs_backoffUntil :=
       if success then None
       else if failure then default (hs_backoffUntil s) (at_backoffUntil a) else hs_backoffUntil s;
     hs_lastSummaryJson := match at_summary a with Some j => Some j | None => hs_lastSummaryJson s end;
     hs_createdAt := hs_createdAt s |}.

Section Record_.
Context `{Prisma} {S : ExitServices} `{WorkerAttention}.

Definition recordTradingAccountWorkerAttempt (now : Z) (a : Attempt)
    : eff WorkerWorld (TradingAccountWorkerHealthState * AccountWorkerStatus) :=
  let account := at_tradingAccountId a in
  let key := at_workerKey a in
  d ← lift (fun _ => getWorkerDefinition key);
  previous ← asks (health_of account key);
  let previousStatus :=
    match previous with Some s => deriveTradingAccountWorkerStatus s d now | None => STARTING end in
  let state := match previous with Some s => updated_state now a s | None => created_state d now a end in
  _ ← put_health account key state;
  let nextStatus := deriveTradingAccountWorkerStatus state d now in
  _ ← world_do (emitTransition true account key state previousStatus nextStatus
        (match hs_lastError state with Some e => Some e | None => hs_lastSkipReason state end));
  mret (state, nextStatus).

Definition CONTENTION_WITHOUT_OWNER_PROCESS_ID : string := "lock-contention:no-owner".

Definition contention_summary (lockFamily contender : string) (attemptedAt : Z) : json :=
  JObj [("reason", JStr "lock_not_acquired"); ("lockFamily", JStr lockFamily);
        ("contenderProcessInstanceId", JStr contender); ("attemptedAt", JStr (iso_of_time attemptedAt))].

Definition contended_new (d : WorkerDefinition) (attemptedAt : Z) (summary : json) : TradingAccountWorkerHealthState :=
  {| hs_processInstanceId := CONTENTION_WITHOUT_OWNER_PROCESS_ID;
     hs_applicable := true; hs_eligible := true; hs_eligibilityReason := None;
     hs_expectedIntervalMs := wd_expectedIntervalMs d;
     hs_currentRunStartedAt := None; hs_lastTickStartedAt := None; hs_lastTickCompletedAt := None;
     hs_lastSucceededAt := None; hs_lastWorkSucceededAt := None; hs_lastFailedAt := None;
     hs_lastDurationMs := None; hs_lastOutcome := Some "lock_skipped"; hs_lastSkipReason := Some "lock_skipped";
     hs_consecutiveFailures := 0; hs_totalRuns := 1; hs_totalFailures := 0; hs_totalSkips := 1;
     hs_totalLockSkips := 1; hs_lastLockSkippedAt := Some attemptedAt; hs_lastError := None;
     hs_lastErrorCode := None; hs_lastErrorAt := None; hs_backoffUntil := None;
     hs_lastSummaryJson := Some summary; hs_createdAt := attemptedAt |}.

Definition contended (attemptedAt : Z) (summary : json) (s : TradingAccountWorkerHealthState)
    : TradingAccountWorkerHealthState :=
  {| hs_processInstanceId := hs_processInstanceId s; hs_applicable := hs_applicable s;
     hs_eligible := hs_eligible s; hs_eligibilityReason := hs_eligibilityReason s;
     hs_expectedIntervalMs := hs_expectedIntervalMs s; hs_currentRunStartedAt := hs_currentRunStartedAt s;
     hs_lastTickStartedAt := hs_lastTickStartedAt s; hs_lastTickCompletedAt := hs_lastTickCompletedAt s;
     hs_lastSucceededAt := hs_lastSucceededAt s; hs_lastWorkSucceededAt := hs_lastWorkSucceededAt s;
     hs_lastFailedAt := hs_lastFailedAt s; hs_lastDurationMs := hs_lastDurationMs s;
     hs_lastOutcome := hs_lastOutcome s; hs_lastSkipReason := Some "lock_skipped";
     hs_consecutiveFailures := hs_consecutiveFailures s; hs_totalRuns := hs_totalRuns s + 1;
     hs_totalFailures := hs_totalFailures s; hs_totalSkips := hs_totalSkips s + 1;
     hs_totalLockSkips := hs_totalLockSkips s + 1; hs_lastLockSkippedAt := Some attemptedAt;
     hs_lastError := hs_lastError s; hs_lastErrorCode := hs_lastErrorCode s; hs_lastErrorAt := hs_lastErrorAt s;
     hs_backoffUntil := hs_backoffUntil s; hs_lastSummaryJson := Some summary; hs_createdAt := hs_createdAt s |}.

Definition contention_event (account : Z) (key lockFamily contender : string)
    (state : TradingAccountWorkerHealthState) (previousStatus nextStatus : AccountWorkerStatus) : eff ExitWorld unit :=
  row ← asks (find_account account);
  match row with
  | None => mret tt
  | Some a =>
      emit_event "account_worker_health.lock_contention" "tradingAccountWorker" (worker_entity account key) account
        WARNING (ta_displayName a ++ " " ++ key ++ " skipped because another process owns the workflow lock.")
        [("tradingAccountId", jint account); ("workerKey", JStr key); ("displayName", JStr (ta_displayName a));
         ("environment", JStr (ta_environment a));
         ("ownerProcessInstanceId",
            match hs_currentRunStartedAt state with Some _ => JStr (hs_processInstanceId state) | None => JNull end);
         ("contenderProcessInstanceId", JStr contender); ("lockFamily", JStr lockFamily);
         ("previousStatus", JStr (account_worker_status_str previousStatus));
         ("nextStatus", JStr (account_worker_status_str nextStatus)); ("reason", JStr "lock_not_acquired");
         ("consecutiveFailures", jint (hs_consecutiveFailures state));
         ("totalLockSkips", jint (hs_totalLockSkips state));
         ("lastSucceededAt", jdate (hs_lastSucceededAt state)); ("lastFailedAt", jdate (hs_lastFailedAt state))]
  end.

Definition recordTradingAccountWorkflowLockContention (account : Z) (key contender lockFamily : string)
    (attemptedAt : Z) : eff WorkerWorld (TradingAccountWorkerHealthState * AccountWorkerStatus) :=
  d ← lift (fun _ => getWorkerDefinition key);
  previous ← asks (health_of account key);
  let previousStatus :=
    match previous with
    | Some s => deriveTradingAccountWorkerStatus s d (default attemptedAt (hs_lastLockSkippedAt s))
    | None => STARTING
    end in
  let summary := contention_summary lockFamily contender attemptedAt in
  let state := match previous with
               | Some s => contended attemptedAt summary s
               | None => contended_new d attemptedAt summary
               end in
  _ ← put_health account key state;
  let nextStatus := deriveTradingAccountWorkerStatus state d attemptedAt in
  _ ← (if negb (bool_decide (previousStatus = nextStatus)) && bool_decide (nextStatus = DELAYED)
       then world_do (contention_event account key lockFamily contender state previousStatus nextStatus)
       else mret tt);
  _ ← world_do (emitTransition false account key state previousStatus nextStatus (Some "lock_skipped"));
  mret (state, nextStatus).

(** A run that another process left unfinished counts as a failure. *)
Definition interrupted (startedAt : Z) (s : TradingAccountWorkerHealthState) : TradingAccountWorkerHealthState :=
  {| hs_processInstanceId := hs_processInstanceId s; hs_applicable := hs_applicable s;
     hs_eligible := hs_eligible s; hs_eligibilityReason := hs_eligibilityReason s;
     hs_expectedIntervalMs := hs_expectedIntervalMs s; hs_currentRunStartedAt := None;
     hs_lastTickStartedAt := hs_lastTickStartedAt s; hs_lastTickCompletedAt := hs_lastTickCompletedAt s;
     hs_lastSucceededAt := hs_lastSucceededAt s; hs_lastWorkSucceededAt := hs_lastWorkSucceededAt s;
     hs_lastFailedAt := Some startedAt; hs_lastDurationMs := hs_lastDurationMs s;
     hs_lastOutcome := hs_lastOutcome s; hs_lastSkipReason := hs_lastSkipReason s;
     hs_consecutiveFailures := hs_consecutiveFailures s + 1; hs_totalRuns := hs_totalRuns s;
     hs_totalFailures := hs_totalFailures s + 1; hs_totalSkips := hs_totalSkips s;
     hs_totalLockSkips := hs_totalLockSkips s; hs_lastLockSkippedAt := hs_lastLockSkippedAt s;
     hs_lastError := Some "Previous process ended before this account workflow completed.";
     hs_lastErrorCode := Some "INTERRUPTED_PREVIOUS_PROCESS"; hs_lastErrorAt := Some startedAt;
     hs_backoffUntil := hs_backoffUntil s; hs_lastSummaryJson := hs_lastSummaryJson s;
     hs_createdAt := hs_createdAt s |}.

Definition started (d : WorkerDefinition) (process : string) (startedAt : Z)
    (s : TradingAccountWorkerHealthState) : TradingAccountWorkerHealthState :=
  {| hs_processInstanceId := process; hs_applicable := hs_applicable s;
     hs_eligible := hs_eligible s; hs_eligibilityReason := hs_eligibilityReason s;
     hs_expectedIntervalMs := wd_expectedIntervalMs d; hs_currentRunStartedAt := Some startedAt;
     hs_lastTickStartedAt := Some startedAt; hs_lastTickCompletedAt := hs_lastTickCompletedAt s;
     hs_lastSucceededAt := hs_lastSucceededAt s; hs_lastWorkSucceededAt := hs_lastWorkSucceededAt s;
     hs_lastFailedAt := hs_lastFailedAt s; hs_lastDurationMs := hs_lastDurationMs s;
     hs_lastOutcome := hs_lastOutcome s; hs_lastSkipReason := hs_lastSkipReason s;
     hs_consecutiveFailures := hs_consecutiveFailures s; hs_totalRuns := hs_totalRuns s;
     hs_totalFailures := hs_totalFailures s; hs_totalSkips := hs_totalSkips s;
     hs_totalLockSkips := hs_totalLockSkips s; hs_lastLockSkippedAt := hs_lastLockSkippedAt s;
     hs_lastError := hs_lastError s; hs_lastErrorCode := hs_lastErrorCode s; hs_lastErrorAt := hs_lastErrorAt s;
     hs_backoffUntil := hs_backoffUntil s; hs_lastSummaryJson := hs_lastSummaryJson s;
     hs_createdAt := hs_createdAt s |}.

(** The row a first run creates: the column defaults. *)
Definition fresh_state (d : WorkerDefinition) (process : string) (startedAt : Z) : TradingAccountWorkerHealthState :=
  {| hs_processInstanceId := process; hs_applicable := true; hs_eligible := true; hs_eligibilityReason := None;
     hs_expectedIntervalMs := wd_expectedIntervalMs d; hs_currentRunStartedAt := Some startedAt;
     hs_lastTickStartedAt := Some startedAt; hs_lastTickCompletedAt := None; hs_lastSucceededAt := None;
     hs_lastWorkSucceededAt := None; hs_lastFailedAt := None; hs_lastDurationMs := None; hs_lastOutcome := None;
     hs_lastSkipReason := None; hs_consecutiveFailures := 0; hs_totalRuns := 0; hs_totalFailures := 0;
     hs_totalSkips := 0; hs_totalLockSkips := 0; hs_lastLockSkippedAt := None; hs_lastError := None;
     hs_lastErrorCode := None; hs_lastErrorAt := None; hs_backoffUntil := None; hs_lastSummaryJson := None;
     hs_createdAt := startedAt |}.

Definition run_interrupted (process : string) (s : TradingAccountWorkerHealthState) : bool :=
  match hs_currentRunStartedAt s with
  | Some _ => negb (String.eqb (hs_processInstanceId s) process)
  | None => false
  end.

(** [interrupted] runs are saved and reported before the new run starts. *)
Definition startTradingAccountWorkerRun (account : Z) (key process : string) (startedAt : Z)
    : eff WorkerWorld TradingAccountWorkerHealthState :=
  d ← lift (fun _ => getWorkerDefinition key);
  previous ← asks (health_of account key);
  _ ← (match previous with
       | Some s =>
           if run_interrupted process s then
             _ ← put_health account key (interrupted startedAt s);
             world_do (emit_event "account_worker_health.interrupted" "tradingAccountWorker"
               (worker_entity account key) account ERROR
               ("Account workflow " ++ key ++ " was interrupted in a previous process.")
               [("tradingAccountId", jint account); ("workerKey", JStr key);
                ("previousProcessInstanceId", JStr (hs_processInstanceId s));
                ("nextProcessInstanceId", JStr process);
                ("previousRunStartedAt", jdate (hs_currentRunStartedAt s))])
           else mret tt
       | None => mret tt
       end);
  row ← asks (health_of account key);
  let state := match row with Some s => started d process startedAt s | None => fresh_state d process startedAt end in
  _ ← put_health account key state;
  mret state.
End Record_.

(** * What the recordings do *)

(** The attention service answers without an error. *)
Class AttentionAnswers (S : ExitServices) : Prop := {
  attention_answers : forall f c s m d w, exists w', openOrObserveOperationalAttention f c s m d w = (Ok tt, w');
  resolve_answers : forall i r m d w, exists w', resolveOperationalAttention i r m d w = (Ok tt, w')
}.

Section Facts.
Context `{Prisma} {S : ExitServices} `{!ExitServicesLaws S} `{!AttentionAnswers S} `{WorkerAttention}.

(** A call that answers [tt] and leaves everything but the events alone. *)
Definition answers_quietly (m : eff ExitWorld unit) : Prop := forall x, exists x',
  m x = (Ok tt, x') /\ same_trading x x'.

Lemma quiet_ret : answers_quietly (mret tt).
Proof. intros x. by exists x. Qed.

Lemma quiet_emit type et eid account sev msg payload : answers_quietly (emit_event type et eid account sev msg payload).
Proof. intros x. eexists. split; [reflexivity|]. by repeat split. Qed.

Lemma quiet_then (m : eff ExitWorld unit) (k : unit -> eff ExitWorld unit) :
  answers_quietly m -> (forall u, answers_quietly (k u)) -> answers_quietly (m ≫= k).
Proof.
  intros Hm Hk x. destruct (Hm x) as (x1 & E1 & H1). unfold mbind, eff_bind. rewrite E1.
  destruct (Hk tt x1) as (x2 & E2 & H2). exists x2. split; [done|by transitivity x1].
Qed.

Lemma quiet_asks {A} (f : ExitWorld -> A) (k : A -> eff ExitWorld unit) :
  (forall a, answers_quietly (k a)) -> answers_quietly (asks f ≫= k).
Proof. intros Hk x. unfold mbind, eff_bind, asks. apply Hk. Qed.

Lemma quiet_project account key name env recovered next reason c :
  answers_quietly (projectWorkerOperationalAttention account key name env recovered next reason c).
Proof.
  unfold projectWorkerOperationalAttention. destruct recovered.
  - apply quiet_asks. intros [[id rev]|]; [|apply quiet_ret]. intros x.
    destruct (resolve_answers id rev "Current account-worker evidence is healthy and fresh."
      (JObj [("workerKey", JStr key); ("recovered", JBool true); ("status", JStr (account_worker_status_str next))]) x)
      as [x' E]. exists x'. split; [done|].
    match type of E with ?m x = _ => pose proof (resolve_quiet id rev "Current account-worker evidence is healthy and fresh."
      (JObj [("workerKey", JStr key); ("recovered", JBool true); ("status", JStr (account_worker_status_str next))]) x) as Hq end.
    by rewrite E in Hq.
  - destruct (negb _ || negb _); [apply quiet_ret|]. intros x. cbv zeta.
    match goal with |- context [openOrObserveOperationalAttention ?f ?c ?s ?m ?d] =>
      destruct (attention_answers f c s m d x) as [x' E]; pose proof (attention_quiet f c s m d x) as Hq end.
    exists x'. split; [done|]. by rewrite E in Hq.
Qed.

Lemma quiet_transition projects account key s previous next reason :
  answers_quietly (emitTransition projects account key s previous next reason).
Proof.
  unfold emitTransition. case_bool_decide; [apply quiet_ret|]. apply quiet_asks. intros [a|]; [|apply quiet_ret].
  destruct (negb _ && negb _); [apply quiet_ret|]. apply quiet_asks. intros c.
  apply quiet_then; [apply quiet_emit|]. intros _. destruct projects; [apply quiet_project|apply quiet_ret].
Qed.

Lemma quiet_contention account key family contender s previous next :
  answers_quietly (contention_event account key family contender s previous next).
Proof. apply quiet_asks. intros [a|]; [apply quiet_emit|apply quiet_ret]. Qed.

(** Only recoveries, failing and stale workers are reported. *)
Lemma transition_silent projects account key s previous next reason x :
  ~ (next = HEALTHY \/ next = FAILING \/ next = STALE) ->
  emitTransition projects account key s previous next reason x = (Ok tt, x).
Proof.
  intros Hn. unfold emitTransition. case_bool_decide as Ep; [done|]. unfold mbind, eff_bind, asks.
  destruct (find_account account x) as [a|]; [|done].
  unfold isAccountWorkerRecoveryTransition, TRANSITION_EVENT_STATUSES.
  rewrite (bool_decide_eq_false_2 (next = HEALTHY)) by naive_solver.
  rewrite (bool_decide_eq_false_2 (next ∈ [FAILING; STALE])) by set_solver. done.
Qed.

(** The row an attempt leaves. *)
Definition recorded (d : WorkerDefinition) (now : Z) (a : Attempt)
    (previous : option TradingAccountWorkerHealthState) : TradingAccountWorkerHealthState :=
  match previous with Some s => updated_state now a s | None => created_state d now a end.

Definition set_row (account : Z) (key : string) (s : TradingAccountWorkerHealthState) (x : ExitWorld)
    (w : WorkerWorld) : WorkerWorld :=
  {| wk_world := x; wk_health := <[(account, key) := s]> (wk_health w) |}.

Lemma record_run now a d w :
  getWorkerDefinition (at_workerKey a) = Ok d ->
  let s := recorded d now a (health_of (at_tradingAccountId a) (at_workerKey a) w) in
  exists x, recordTradingAccountWorkerAttempt now a w =
    (Ok (s, deriveTradingAccountWorkerStatus s d now), set_row (at_tradingAccountId a) (at_workerKey a) s x w) /\
    same_trading (wk_world w) x /\
    (deriveTradingAccountWorkerStatus s d now = BACKING_OFF -> x = wk_world w).
Proof.
  intros Hd s. unfold recordTradingAccountWorkerAttempt, lift, asks, put_health, modify, world_do, mbind, eff_bind.
  rewrite Hd. cbn [wk_world wk_health]. fold (recorded d now a (health_of (at_tradingAccountId a) (at_workerKey a) w)).
  fold s. set (previous := match health_of _ _ w with Some s => _ | None => _ end).
  match goal with |- context [emitTransition ?p ?ac ?k ?st ?pr ?n ?r (wk_world w)] =>
    destruct (quiet_transition p ac k st pr n r (wk_world w)) as (x & E & Hx);
    pose proof (transition_silent p ac k st pr n r (wk_world w)) as Hs end.
  rewrite E in *. exists x. split; [done|]. split; [done|]. intros En. rewrite En in Hs.
  specialize (Hs ltac:(naive_solver)). congruence.
Qed.

Lemma contention_run account key contender family now d w :
  getWorkerDefinition key = Ok d ->
  exists s status x,
    recordTradingAccountWorkflowLockContention account key contender family now w =
      (Ok (s, status), set_row account key s x w) /\ same_trading (wk_world w) x /\
    s = match health_of account key w with
        | Some s => contended now (contention_summary family contender now) s
        | None => contended_new d now (contention_summary family contender now)
        end.
Proof.
  intros Hd.
  unfold recordTradingAccountWorkflowLockContention, lift, asks, put_health, modify, world_do, mbind, eff_bind.
  rewrite Hd. cbn [wk_world wk_health].
  set (s := match health_of account key w with Some s => contended _ _ s | None => _ end).
  set (previous := match health_of account key w with Some s => _ | None => STARTING end).
  set (next := deriveTradingAccountWorkerStatus s d now). exists s, next.
  destruct (quiet_contention account key family contender s previous next (wk_world w)) as (x1 & E1 & H1).
  destruct (negb _ && _).
  - cbn [wk_world wk_health]. rewrite E1. cbn [wk_world wk_health].
    destruct (quiet_transition false account key s previous next (Some "lock_skipped") x1) as (x2 & E2 & H2).
    rewrite E2. exists x2. split; [done|]. split; [by transitivity x1|done].
  - unfold mret, eff_ret. cbn [wk_world wk_health].
    destruct (quiet_transition false account key s previous next (Some "lock_skipped") (wk_world w)) as (x2 & E2 & H2).
    rewrite E2. by exists x2.
Qed.

(** The row a run starts with. *)
Definition begun (d : WorkerDefinition) (process : string) (now : Z)
    (previous : option TradingAccountWorkerHealthState) : TradingAccountWorkerHealthState :=
  match previous with
  | Some s => started d process now (if run_interrupted process s then interrupted now s else s)
  | None => fresh_state d process now
  end.

Lemma start_run account key process now d w :
  getWorkerDefinition key = Ok d ->
  let s := begun d process now (health_of account key w) in
  exists x, startTradingAccountWorkerRun account key process now w = (Ok s, set_row account key s x w) /\
    same_trading (wk_world w) x.
Proof.
  intros Hd s. unfold startTradingAccountWorkerRun, lift, asks, put_health, modify, world_do, mbind, eff_bind.
  rewrite Hd. subst s. unfold begun. destruct (health_of account key w) as [s|] eqn:Es.
  - destruct (run_interrupted process s).
    + cbn [wk_world wk_health].
      match goal with |- context [emit_event ?t ?e ?i ?ac ?sv ?m ?p (wk_world w)] =>
        destruct (quiet_emit t e i ac sv m p (wk_world w)) as (x & E & Hx) end.
      rewrite E. cbn [wk_world wk_health]. unfold health_of. cbn [wk_health].
      rewrite lookup_insert_eq. exists x. split; [|done]. unfold set_row. by rewrite insert_insert_eq.
    + unfold mret, eff_ret. rewrite Es. by exists (wk_world w).
  - unfold mret, eff_ret. rewrite Es. by exists (wk_world w).
Qed.
End Facts.
