(* ===== verification/AdaptivePolling.v ===== *)
(** When the two adaptive workers poll the broker:
    services/adaptive-polling.service.ts, the process-local coordinator. Each
    account and worker has a next due time, moved by the outcome of every poll
    and by forces: broker writes and changes of the market session. *)

From Stdlib Require Import ZArith Lia.
From Stdlib Require Import Strings.String Strings.Ascii.
From stdpp Require Import base list strings.
From S2P Require Import Prelude JsValue JsDate MarketSession WorkerHealth.

Open Scope string_scope.
Open Scope Z_scope.

(** * Data *)

Inductive AdaptiveWorkerKey := submitted_order_sync | tracked_position_sync.
#[export] Instance worker_key_eq_dec : EqDecision AdaptiveWorkerKey.
Proof. solve_decision. Defined.

Inductive AdaptiveMarketState := open | closed | unknown.
#[export] Instance market_state_eq_dec : EqDecision AdaptiveMarketState.
Proof. solve_decision. Defined.

Inductive AdaptivePollingMode :=
| market_open_active | market_open_idle | market_closed_active | market_closed_idle | market_unknown.

Inductive AdaptivePollingDecisionReason :=
| startup_due | interval_elapsed | forced_after_broker_write | decision_market_transition
| decision_trading_date_changed | adaptive_poll_not_due | no_local_submitted_orders
| market_state_unknown | rate_limit_backoff.

Inductive AdaptivePollingForceReason :=
| startup | broker_order_created | broker_position_close_requested | broker_order_cancel_requested
| broker_order_cancel_all_requested | protective_order_created | market_transition
| trading_date_changed | market_session_recovered.
#[export] Instance force_reason_eq_dec : EqDecision AdaptivePollingForceReason.
Proof. solve_decision. Defined.

Record AdaptivePollingLocalActivitySnapshot := {
  submittedOrderCount : Z;
  submittingOrderCount : Z;
  nonterminalBrokerOrderCount : Z;
  openPositionCount : Z;
  closingPositionCount : Z;
  activeExitCount : Z;
  activeProtectiveOrderCount : Z;
  la_evaluatedAt : Z
}.

Record MarketEvaluation := {
  me_state : AdaptiveMarketState;
  me_snapshot : option NormalizedMarketSessionSnapshot;
  me_degraded : bool;
  me_error : option string;
  me_evaluatedAt : Z
}.

Record AdaptivePollingDecision := {
  dn_workerKey : AdaptiveWorkerKey;
  dn_due : bool;
  dn_forced : bool;
  dn_forceReason : option AdaptivePollingForceReason;
  dn_mode : AdaptivePollingMode;
  dn_localActivity : AdaptivePollingLocalActivitySnapshot;
  dn_effectiveIntervalMs : option Z;
  dn_evaluatedAt : Z;
  dn_lastAttemptAt : option Z;
  dn_lastSuccessAt : option Z;
  dn_nextDueAt : option Z;
  dn_reason : AdaptivePollingDecisionReason;
  dn_market : MarketEvaluation
}.

Record WorkerRuntimeState := {
  ws_lastAttemptAt : option Z;
  ws_lastSuccessAt : option Z;
  ws_nextDueAt : option Z;
  ws_forced : bool;
  ws_forceReason : option AdaptivePollingForceReason;
  ws_lastDecision : option AdaptivePollingDecision
}.

Record AccountMarketRuntimeState := {
  am_lastSuccessfulMarketState : option AdaptiveMarketState;
  am_lastSuccessfulTradingDate : option string;
  am_hadMarketSessionFailure : bool;
  am_consecutiveMarketSessionFailures : Z;
  am_lastMarketSessionError : option string;
  am_lastMarketSessionErrorAt : option Z;
  am_recoveredAt : option Z;
  am_latestMarketSessionSnapshot : option NormalizedMarketSessionSnapshot;
  am_latestEvaluation : option MarketEvaluation
}.

Record AdaptivePollingCoordinator := {
  ap_states : list ((Z * AdaptiveWorkerKey) * WorkerRuntimeState);
  ap_marketStates : list (Z * AccountMarketRuntimeState);
  (** Captured at a time. *)
  ap_localActivityCache : list (Z * (Z * AdaptivePollingLocalActivitySnapshot));
  (** Valid until a time. *)
  ap_marketEvaluationCache : list (Z * (Z * MarketEvaluation))
}.

Definition createWorkerState : WorkerRuntimeState :=
  {| ws_lastAttemptAt := None; ws_lastSuccessAt := None; ws_nextDueAt := None; ws_forced := true;
     ws_forceReason := Some startup; ws_lastDecision := None |}.
Definition createAccountMarketState : AccountMarketRuntimeState :=
  {| am_lastSuccessfulMarketState := None; am_lastSuccessfulTradingDate := None;
     am_hadMarketSessionFailure := false; am_consecutiveMarketSessionFailures := 0;
     am_lastMarketSessionError := None; am_lastMarketSessionErrorAt := None; am_recoveredAt := None;
     am_latestMarketSessionSnapshot := None; am_latestEvaluation := None |}.
Definition new_coordinator : AdaptivePollingCoordinator :=
  {| ap_states := []; ap_marketStates := []; ap_localActivityCache := []; ap_marketEvaluationCache := [] |}.

(** [stateFor] and [marketStateFor]: a missing entry reads as a new one. *)
Definition stateFor (a : Z) (k : AdaptiveWorkerKey) (c : AdaptivePollingCoordinator) : WorkerRuntimeState :=
  default createWorkerState (map_get (a, k) (ap_states c)).
Definition marketStateFor (a : Z) (c : AdaptivePollingCoordinator) : AccountMarketRuntimeState :=
  default createAccountMarketState (map_get a (ap_marketStates c)).
Definition set_state (a : Z) (k : AdaptiveWorkerKey) (s : WorkerRuntimeState) (c : AdaptivePollingCoordinator)
    : AdaptivePollingCoordinator :=
  {| ap_states := map_set (a, k) s (ap_states c); ap_marketStates := ap_marketStates c;
     ap_localActivityCache := ap_localActivityCache c; ap_marketEvaluationCache := ap_marketEvaluationCache c |}.
Definition set_marketState (a : Z) (s : AccountMarketRuntimeState) (c : AdaptivePollingCoordinator)
    : AdaptivePollingCoordinator :=
  {| ap_states := ap_states c; ap_marketStates := map_set a s (ap_marketStates c);
     ap_localActivityCache := ap_localActivityCache c; ap_marketEvaluationCache := ap_marketEvaluationCache c |}.

(** * Cadences *)

Definition SUBMITTED_marketOpenActive : Z := 10000.
Definition SUBMITTED_marketClosedActive : Z := 60000.
Definition TRACKED_marketOpenActive : Z := 15000.
Definition TRACKED_marketOpenIdle : Z := 60000.
Definition TRACKED_marketClosedActive : Z := 120000.
Definition TRACKED_marketClosedIdle : Z := 300000.
Definition TRACKED_marketUnknownActive : Z := 15000.
Definition TRACKED_marketUnknownIdle : Z := 60000.
Definition RETRY_minimum : Z := 5000.
Definition RETRY_maximum : Z := 15000.
Definition LOCAL_ACTIVITY_CACHE_TTL_MS : Z := 1500.
Definition MARKET_EVALUATION_CACHE_TTL_MS : Z := 1500.
Definition MARKET_SESSION_FAILURE_RETRY_MS : Z := 45000.
Definition SANITIZED_ERROR_MAX_LENGTH : nat := 500.

Definition modeFor (marketState : AdaptiveMarketState) (active : bool) : AdaptivePollingMode :=
  match marketState with
  | unknown => market_unknown
  | open => if active then market_open_active else market_open_idle
  | closed => if active then market_closed_active else market_closed_idle
  end.

Definition hasTrackedPositionActivity (a : AdaptivePollingLocalActivitySnapshot) : bool :=
  (0 <? submittedOrderCount a) || (0 <? submittingOrderCount a) || (0 <? nonterminalBrokerOrderCount a) ||
  (0 <? openPositionCount a) || (0 <? closingPositionCount a) || (0 <? activeExitCount a) ||
  (0 <? activeProtectiveOrderCount a).
Definition hasSubmittedOrderActivity (a : AdaptivePollingLocalActivitySnapshot) : bool :=
  0 <? submittedOrderCount a.

Definition intervalFor (k : AdaptiveWorkerKey) (marketState : AdaptiveMarketState) (active : bool) : option Z :=
  match k with
  | submitted_order_sync =>
      if negb active then None
      else Some (match marketState with closed => SUBMITTED_marketClosedActive | _ => SUBMITTED_marketOpenActive end)
  | tracked_position_sync =>
      Some (match marketState with
            | unknown => if active then TRACKED_marketUnknownActive else TRACKED_marketUnknownIdle
            | open => if active then TRACKED_marketOpenActive else TRACKED_marketOpenIdle
            | closed => if active then TRACKED_marketClosedActive else TRACKED_marketClosedIdle
            end)
  end.

Definition defaultLocalActivity (now : Z) : AdaptivePollingLocalActivitySnapshot :=
  {| submittedOrderCount := 0; submittingOrderCount := 0; nonterminalBrokerOrderCount := 0;
     openPositionCount := 0; closingPositionCount := 0; activeExitCount := 0; activeProtectiveOrderCount := 0;
     la_evaluatedAt := now |}.

(** * Error texts *)

(** [replace(/\s+/g, ' ')] *)
Fixpoint collapse_spaces (after_space : bool) (s : string) : string :=
  match s with
  | EmptyString => EmptyString
  | String c s => if is_space c then if after_space then collapse_spaces true s else String " " (collapse_spaces true s)
                  else String c (collapse_spaces false s)
  end.

(** The length of the secret's name when the text starts with one of
    [(password|token|secret|api[_-]?key)=\S+], in any case. *)
Definition secret_name_at (s : string) : option nat :=
  List.find (fun n => match String.get (n + 1) s with Some c => negb (is_space c) | None => false end)
    (omap (fun k => if String.prefix (k ++ "=") (to_lower s) then Some (String.length k) else None)
       ["password"; "token"; "secret"; "api_key"; "api-key"; "apikey"]).

(** [replace(pattern, '$1=[redacted]')]: [skip] characters of a match are left,
    then its value is dropped up to a space. *)
Fixpoint redact (skip : nat) (dropping : bool) (s : string) : string :=
  match s with
  | EmptyString => EmptyString
  | String c s' =>
      match skip with
      | Datatypes.S k => redact k dropping s'
      | O => if dropping && negb (is_space c) then redact O true s'
             else match secret_name_at s with
                  | Some n => String.substring 0 n s ++ "=[redacted]" ++ redact n true s'
                  | None => String c (redact O false s')
                  end
      end
  end.

Definition sanitizeError (error : js_error) : string :=
  String.substring 0 SANITIZED_ERROR_MAX_LENGTH (redact 0 false (collapse_spaces false (error_message error))).

(** * Forces *)

Definition force_state (reason : AdaptivePollingForceReason) (at_ : Z) (s : WorkerRuntimeState) : WorkerRuntimeState :=
  {| ws_lastAttemptAt := ws_lastAttemptAt s; ws_lastSuccessAt := ws_lastSuccessAt s; ws_nextDueAt := Some at_;
     ws_forced := true;
     ws_forceReason := match ws_forceReason s with
       | None | Some startup => Some reason
       | Some r => Some r
       end;
     ws_lastDecision := ws_lastDecision s |}.

Definition forceSync (workers : list AdaptiveWorkerKey) (reason : AdaptivePollingForceReason) (a at_ : Z)
    (c : AdaptivePollingCoordinator) : AdaptivePollingCoordinator :=
  fold_left (fun c k => set_state a k (force_state reason at_ (stateFor a k c)) c) workers c.

Definition BOTH_WORKERS : list AdaptiveWorkerKey := [submitted_order_sync; tracked_position_sync].
Definition forceAfterBrokerOrderCreated (a : Z) (reason : AdaptivePollingForceReason) (at_ : Z) :=
  forceSync BOTH_WORKERS reason a at_.
Definition forceAfterBrokerPositionWrite (a : Z) (reason : AdaptivePollingForceReason) (at_ : Z) :=
  forceSync BOTH_WORKERS reason a at_.
Definition forceAfterBrokerOrderCancellation (a : Z) (reason : AdaptivePollingForceReason) (at_ : Z) :=
  forceSync [submitted_order_sync] reason a at_.

(** * Decisions *)

(** What the providers answer if they are asked: the local counts, absent when
    the lookup failed, and the market session. *)
Record PollAnswers := {
  pa_activity : option AdaptivePollingLocalActivitySnapshot;
  pa_market : res NormalizedMarketSessionSnapshot
}.

Definition getLocalActivity (a now : Z) (answer : option AdaptivePollingLocalActivitySnapshot)
    (c : AdaptivePollingCoordinator) : AdaptivePollingLocalActivitySnapshot * AdaptivePollingCoordinator :=
  let fetch :=
    let activity := default (defaultLocalActivity now) answer in
    (activity, {| ap_states := ap_states c; ap_marketStates := ap_marketStates c;
                  ap_localActivityCache := map_set a (now, activity) (ap_localActivityCache c);
                  ap_marketEvaluationCache := ap_marketEvaluationCache c |}) in
  match map_get a (ap_localActivityCache c) with
  | Some (capturedAt, activity) => if now - capturedAt <=? LOCAL_ACTIVITY_CACHE_TTL_MS then (activity, c) else fetch
  | None => fetch
  end.

(** The force a session lookup that answered gives rise to. *)
Definition market_force (m : AccountMarketRuntimeState) (snapshot : NormalizedMarketSessionSnapshot)
    : option AdaptivePollingForceReason :=
  let marketState := if marketOpen snapshot then open else closed in
  if am_hadMarketSessionFailure m then Some market_session_recovered
  else if match am_lastSuccessfulMarketState m with Some s => negb (bool_decide (s = marketState)) | None => false end
  then Some market_transition
  else if match am_lastSuccessfulTradingDate m with Some d => negb (String.eqb d (tradingDate snapshot)) | None => false end
  then Some trading_date_changed
  else None.

Definition market_answered (m : AccountMarketRuntimeState) (now : Z) (snapshot : NormalizedMarketSessionSnapshot)
    (evaluation : MarketEvaluation) : AccountMarketRuntimeState :=
  {| am_lastSuccessfulMarketState := Some (me_state evaluation);
     am_lastSuccessfulTradingDate := Some (tradingDate snapshot);
     am_hadMarketSessionFailure := false; am_consecutiveMarketSessionFailures := 0;
     am_lastMarketSessionError := None; am_lastMarketSessionErrorAt := None;
     am_recoveredAt := if am_hadMarketSessionFailure m then Some now else am_recoveredAt m;
     am_latestMarketSessionSnapshot := Some snapshot; am_latestEvaluation := Some evaluation |}.

Definition market_failed (m : AccountMarketRuntimeState) (now : Z) (error : string) (evaluation : MarketEvaluation)
    : AccountMarketRuntimeState :=
  {| am_lastSuccessfulMarketState := am_lastSuccessfulMarketState m;
     am_lastSuccessfulTradingDate := am_lastSuccessfulTradingDate m;
     am_hadMarketSessionFailure := true;
     am_consecutiveMarketSessionFailures := am_consecutiveMarketSessionFailures m + 1;
     am_lastMarketSessionError := Some error; am_lastMarketSessionErrorAt := Some now;
     am_recoveredAt := am_recoveredAt m;
     am_latestMarketSessionSnapshot := am_latestMarketSessionSnapshot m; am_latestEvaluation := Some evaluation |}.

Definition cache_market (a until : Z) (e : MarketEvaluation) (c : AdaptivePollingCoordinator)
    : AdaptivePollingCoordinator :=
  {| ap_states := ap_states c; ap_marketStates := ap_marketStates c;
     ap_localActivityCache := ap_localActivityCache c;
     ap_marketEvaluationCache := map_set a (until, e) (ap_marketEvaluationCache c) |}.

(** The lookup is made at [now] and settles at [settled]. *)
Definition evaluateMarket (a now settled : Z) (answer : res NormalizedMarketSessionSnapshot)
    (c : AdaptivePollingCoordinator) : MarketEvaluation * AdaptivePollingCoordinator :=
  let fetch :=
    let m := marketStateFor a c in
    match answer with
    | Ok snapshot =>
        let evaluation := {| me_state := if marketOpen snapshot then open else closed;
          me_snapshot := Some snapshot; me_degraded := false; me_error := None; me_evaluatedAt := now |} in
        let c := cache_market a (now + MARKET_EVALUATION_CACHE_TTL_MS) evaluation c in
        let c := set_marketState a (market_answered m now snapshot evaluation) c in
        (evaluation, match market_force m snapshot with
                     | Some reason => forceSync BOTH_WORKERS reason a settled c
                     | None => c
                     end)
    | Throw error =>
        let text := sanitizeError error in
        let evaluation := {| me_state := unknown; me_snapshot := None; me_degraded := true;
          me_error := Some text; me_evaluatedAt := now |} in
        let c := cache_market a (now + MARKET_SESSION_FAILURE_RETRY_MS) evaluation c in
        (evaluation, set_marketState a (market_failed m now text evaluation) c)
    end in
  match map_get a (ap_marketEvaluationCache c) with
  | Some (expiresAt, evaluation) => if now <? expiresAt then (evaluation, c) else fetch
  | None => fetch
  end.

Definition isActive (k : AdaptiveWorkerKey) (activity : AdaptivePollingLocalActivitySnapshot) : bool :=
  match k with
  | submitted_order_sync => hasSubmittedOrderActivity activity
  | tracked_position_sync => hasTrackedPositionActivity activity
  end.

Definition forced_reason (r : option AdaptivePollingForceReason) : AdaptivePollingDecisionReason :=
  match r with
  | Some market_transition => decision_market_transition
  | Some trading_date_changed => decision_trading_date_changed
  | Some startup => startup_due
  | _ => forced_after_broker_write
  end.

(** Whether a worker is due, and why. *)
Definition judge_due (k : AdaptiveWorkerKey) (active : bool) (market : AdaptiveMarketState) (now : Z)
    (s : WorkerRuntimeState) : bool * AdaptivePollingDecisionReason :=
  let reached := match ws_nextDueAt s with None => true | Some t => t <=? now end in
  if bool_decide (k = submitted_order_sync) && negb active then (false, no_local_submitted_orders)
  else if ws_forced s && reached then (true, forced_reason (ws_forceReason s))
  else if bool_decide (market = unknown) && bool_decide (ws_lastAttemptAt s = None) then (true, market_state_unknown)
  else match ws_nextDueAt s with
  | None => (true, startup_due)
  | Some t => if t <=? now then (true, interval_elapsed) else (false, adaptive_poll_not_due)
  end.

Definition set_lastDecision (d : option AdaptivePollingDecision) (s : WorkerRuntimeState) : WorkerRuntimeState :=
  {| ws_lastAttemptAt := ws_lastAttemptAt s; ws_lastSuccessAt := ws_lastSuccessAt s;
     ws_nextDueAt := ws_nextDueAt s; ws_forced := ws_forced s; ws_forceReason := ws_forceReason s;
     ws_lastDecision := d |}.

Definition getDecision (a : Z) (k : AdaptiveWorkerKey) (now settled : Z) (answers : PollAnswers)
    (c : AdaptivePollingCoordinator) : AdaptivePollingDecision * AdaptivePollingCoordinator :=
  let '(activity, c) := getLocalActivity a now (pa_activity answers) c in
  let '(market, c) := evaluateMarket a now settled (pa_market answers) c in
  let active := isActive k activity in
  let s := stateFor a k c in
  let '(due, reason) := judge_due k active (me_state market) now s in
  let decision :=
    {| dn_workerKey := k; dn_due := due; dn_forced := ws_forced s; dn_forceReason := ws_forceReason s;
       dn_mode := modeFor (me_state market) active; dn_localActivity := activity;
       dn_effectiveIntervalMs := intervalFor k (me_state market) active; dn_evaluatedAt := now;
       dn_lastAttemptAt := ws_lastAttemptAt s; dn_lastSuccessAt := ws_lastSuccessAt s;
       dn_nextDueAt := ws_nextDueAt s; dn_reason := reason; dn_market := market |} in
  (decision, set_state a k (set_lastDecision (Some decision) s) c).

(** * Outcomes of a poll *)

Definition attempted (at_ : Z) (s : WorkerRuntimeState) : WorkerRuntimeState :=
  {| ws_lastAttemptAt := Some at_; ws_lastSuccessAt := ws_lastSuccessAt s; ws_nextDueAt := ws_nextDueAt s;
     ws_forced := ws_forced s; ws_forceReason := ws_forceReason s; ws_lastDecision := ws_lastDecision s |}.

Definition default_interval (k : AdaptiveWorkerKey) : Z :=
  match k with
  | submitted_order_sync => SUBMITTED_marketOpenActive
  | tracked_position_sync => TRACKED_marketOpenIdle
  end.
(** [nextIntervalMs ?? state.lastDecision?.effectiveIntervalMs ?? ...] *)
Definition next_interval (k : AdaptiveWorkerKey) (nextIntervalMs : option Z) (s : WorkerRuntimeState) : Z :=
  match nextIntervalMs with
  | Some i => i
  | None => default (default_interval k) (ws_lastDecision s ≫= dn_effectiveIntervalMs)
  end.
Definition succeeded (k : AdaptiveWorkerKey) (completedAt : Z) (nextIntervalMs : option Z) (s : WorkerRuntimeState)
    : WorkerRuntimeState :=
  {| ws_lastAttemptAt := ws_lastAttemptAt s; ws_lastSuccessAt := Some completedAt;
     ws_nextDueAt := Some (completedAt + next_interval k nextIntervalMs s);
     ws_forced := false; ws_forceReason := None; ws_lastDecision := ws_lastDecision s |}.

Definition retry_delay (failedAt : Z) (s : WorkerRuntimeState) : Z :=
  let elapsed := Z.max 0 (failedAt - default failedAt (ws_lastAttemptAt s)) in
  Z.min RETRY_maximum (Z.max RETRY_minimum elapsed).
Definition set_nextDueAt (t : Z) (s : WorkerRuntimeState) : WorkerRuntimeState :=
  {| ws_lastAttemptAt := ws_lastAttemptAt s; ws_lastSuccessAt := ws_lastSuccessAt s; ws_nextDueAt := Some t;
     ws_forced := ws_forced s; ws_forceReason := ws_forceReason s; ws_lastDecision := ws_lastDecision s |}.
Definition failed_at (failedAt : Z) (s : WorkerRuntimeState) : WorkerRuntimeState :=
  set_nextDueAt (failedAt + retry_delay failedAt s) s.

Definition deferral_end (backoffUntil : option Z) (deferredAt : Z) : Z :=
  match backoffUntil with
  | Some t => if deferredAt <? t then t else deferredAt + RETRY_minimum
  | None => deferredAt + RETRY_minimum
  end.
Definition deferred_at (backoffUntil : option Z) (deferredAt : Z) (s : WorkerRuntimeState) : WorkerRuntimeState :=
  let t := deferral_end backoffUntil deferredAt in
  set_lastDecision
    (option_map (fun d => {| dn_workerKey := dn_workerKey d; dn_due := false; dn_forced := dn_forced d;
       dn_forceReason := dn_forceReason d; dn_mode := dn_mode d; dn_localActivity := dn_localActivity d;
       dn_effectiveIntervalMs := dn_effectiveIntervalMs d; dn_evaluatedAt := dn_evaluatedAt d;
       dn_lastAttemptAt := dn_lastAttemptAt d; dn_lastSuccessAt := dn_lastSuccessAt d;
       dn_nextDueAt := Some t; dn_reason := rate_limit_backoff; dn_market := dn_market d |}) (ws_lastDecision s))
    (set_nextDueAt t s).

Definition recordAttempt (k : AdaptiveWorkerKey) (a attemptedAt : Z) (c : AdaptivePollingCoordinator) :=
  set_state a k (attempted attemptedAt (stateFor a k c)) c.
Definition recordSuccess (k : AdaptiveWorkerKey) (a completedAt : Z) (nextIntervalMs : option Z)
    (c : AdaptivePollingCoordinator) :=
  set_state a k (succeeded k completedAt nextIntervalMs (stateFor a k c)) c.
Definition recordFailure (k : AdaptiveWorkerKey) (a failedAt : Z) (c : AdaptivePollingCoordinator) :=
  set_state a k (failed_at failedAt (stateFor a k c)) c.
Definition recordRateLimitDeferred (k : AdaptiveWorkerKey) (a : Z) (backoffUntil : option Z) (deferredAt : Z)
    (c : AdaptivePollingCoordinator) :=
  set_state a k (deferred_at backoffUntil deferredAt (stateFor a k c)) c.

(** * The status read model *)

Record AdaptiveWorkerSnapshot := {
  aw_schedulerIntervalMs : Z;
  aw_effectiveIntervalMs : option Z;
  aw_due : bool;
  aw_forced : bool;
  aw_forceReason : option AdaptivePollingForceReason;
  aw_decisionReason : AdaptivePollingDecisionReason;
  aw_lastAttemptAt : option string;
  aw_lastSuccessAt : option string;
  aw_nextDueAt : option string;
  aw_localActivity : bool;
  aw_mode : AdaptivePollingMode
}.

Record MarketSessionView := {
  mv_tradingDate : option string;
  mv_marketOpen : option bool;
  mv_evaluatedAt : option string;
  mv_fetchedAt : option string;
  mv_nextOpenAt : option string;
  mv_nextCloseAt : option string;
  mv_clockCacheStatus : option CacheStatus;
  mv_consecutiveFailures : Z;
  mv_lastError : option string;
  mv_lastErrorAt : option string;
  mv_recoveredAt : option string
}.

Record AdaptivePollingSnapshot := {
  as_degraded : bool;
  as_evaluatedAt : string;
  as_marketState : AdaptiveMarketState;
  as_mode : AdaptivePollingMode;
  as_marketSession : MarketSessionView;
  as_localActivity : AdaptivePollingLocalActivitySnapshot;
  as_localActivity_evaluatedAt : string;
  as_submittedOrderSync : AdaptiveWorkerSnapshot;
  as_trackedPositionSync : AdaptiveWorkerSnapshot
}.

Definition toIso (date : option Z) : option string := option_map iso_of_time date.

Definition toWorkerSnapshot (schedulerIntervalMs : Z) (k : AdaptiveWorkerKey)
    (activity : AdaptivePollingLocalActivitySnapshot) (a : Z) (marketState : AdaptiveMarketState)
    (c : AdaptivePollingCoordinator) : AdaptiveWorkerSnapshot :=
  let s := stateFor a k c in
  let decision := ws_lastDecision s in
  let active := isActive k activity in
  {| aw_schedulerIntervalMs := schedulerIntervalMs;
     aw_effectiveIntervalMs := match decision ≫= dn_effectiveIntervalMs with
       | Some i => Some i | None => intervalFor k marketState active end;
     aw_due := match decision with Some d => dn_due d | None => ws_forced s end;
     aw_forced := ws_forced s; aw_forceReason := ws_forceReason s;
     aw_decisionReason := match decision with Some d => dn_reason d | None => startup_due end;
     aw_lastAttemptAt := toIso (ws_lastAttemptAt s); aw_lastSuccessAt := toIso (ws_lastSuccessAt s);
     aw_nextDueAt := toIso (ws_nextDueAt s); aw_localActivity := active;
     aw_mode := match decision with Some d => dn_mode d | None => modeFor marketState active end |}.

Definition getSnapshot (schedulerIntervalMs a now : Z) (answer : option AdaptivePollingLocalActivitySnapshot)
    (c : AdaptivePollingCoordinator) : AdaptivePollingSnapshot * AdaptivePollingCoordinator :=
  let '(activity, c) := getLocalActivity a now answer c in
  let m := marketStateFor a c in
  let market := default
    {| me_state := unknown; me_snapshot := am_latestMarketSessionSnapshot m;
       me_degraded := am_hadMarketSessionFailure m; me_error := am_lastMarketSessionError m;
       me_evaluatedAt := now |} (am_latestEvaluation m) in
  let active := hasTrackedPositionActivity activity in
  let seen := me_snapshot market in
  ({| as_degraded := me_degraded market; as_evaluatedAt := iso_of_time now; as_marketState := me_state market;
      as_mode := modeFor (me_state market) active;
      as_marketSession :=
        {| mv_tradingDate := option_map tradingDate seen; mv_marketOpen := option_map marketOpen seen;
           mv_evaluatedAt := option_map evaluatedTimestamp seen; mv_fetchedAt := option_map fetchedAt seen;
           mv_nextOpenAt := seen ≫= nextOpenAt; mv_nextCloseAt := seen ≫= nextCloseAt;
           mv_clockCacheStatus := option_map clock_cache seen;
           mv_consecutiveFailures := am_consecutiveMarketSessionFailures m;
           mv_lastError := am_lastMarketSessionError m; mv_lastErrorAt := toIso (am_lastMarketSessionErrorAt m);
           mv_recoveredAt := toIso (am_recoveredAt m) |};
      as_localActivity := activity; as_localActivity_evaluatedAt := iso_of_time (la_evaluatedAt activity);
      as_submittedOrderSync := toWorkerSnapshot schedulerIntervalMs submitted_order_sync activity a (me_state market) c;
      as_trackedPositionSync := toWorkerSnapshot schedulerIntervalMs tracked_position_sync activity a (me_state market) c
   |}, c).

(** * What a session does to the coordinator *)

(** A call at its time; [SessionDecision] is [getDecision] with the time its
    market lookup settles and what the providers would answer. *)
Inductive PollingCall :=
| Force (workers : list AdaptiveWorkerKey) (reason : AdaptivePollingForceReason) (a at_ : Z)
| Decide (a : Z) (k : AdaptiveWorkerKey) (now settled : Z) (answers : PollAnswers)
| Attempt (k : AdaptiveWorkerKey) (a at_ : Z)
| Success (k : AdaptiveWorkerKey) (a at_ : Z) (nextIntervalMs : option Z)
| Failure (k : AdaptiveWorkerKey) (a at_ : Z)
| Deferred (k : AdaptiveWorkerKey) (a : Z) (backoffUntil : option Z) (at_ : Z)
| Status (a now : Z) (answer : option AdaptivePollingLocalActivitySnapshot).

Definition polling_call (x : PollingCall) (c : AdaptivePollingCoordinator) : AdaptivePollingCoordinator :=
  match x with
  | Force workers reason a at_ => forceSync workers reason a at_ c
  | Decide a k now settled answers => snd (getDecision a k now settled answers c)
  | Attempt k a at_ => recordAttempt k a at_ c
  | Success k a at_ i => recordSuccess k a at_ i c
  | Failure k a at_ => recordFailure k a at_ c
  | Deferred k a b at_ => recordRateLimitDeferred k a b at_ c
  | Status a now answer => snd (getSnapshot TRADING_WORKER_INTERVAL_MS a now answer c)
  end.

Fixpoint run_polling (calls : list PollingCall) (c : AdaptivePollingCoordinator) : AdaptivePollingCoordinator :=
  match calls with
  | [] => c
  | x :: calls => run_polling calls (polling_call x c)
  end.

(** * The schedule, call by call *)

Definition schedule (a : Z) (k : AdaptiveWorkerKey) (c : AdaptivePollingCoordinator) : option Z :=
  ws_nextDueAt (stateFor a k c).

(** The force a market lookup by [a] gives rise to, when it is not answered
    from the cache. *)
Definition lookup_force (a now : Z) (answer : res NormalizedMarketSessionSnapshot) (c : AdaptivePollingCoordinator)
    : option AdaptivePollingForceReason :=
  match map_get a (ap_marketEvaluationCache c) with
  | Some (expiresAt, _) =>
      if now <? expiresAt then None
      else match answer with Ok s => market_force (marketStateFor a c) s | Throw _ => None end
  | None => match answer with Ok s => market_force (marketStateFor a c) s | Throw _ => None end
  end.

(** The new due time a call gives to worker [k] of account [a], if any: the
    completion of a poll plus its interval, the end of a retry or of a deferral,
    or the time of a force. *)
Definition reschedules (a : Z) (k : AdaptiveWorkerKey) (x : PollingCall) (c : AdaptivePollingCoordinator) : option Z :=
  match x with
  | Force workers _ a' at_ => if decide (a' = a /\ k ∈ workers) then Some at_ else None
  | Decide a' _ now settled answers =>
      if decide (a' = a) then option_map (fun _ => settled) (lookup_force a now (pa_market answers) c) else None
  | Attempt _ _ _ => None
  | Success k' a' at_ i =>
      if decide ((a', k') = (a, k)) then Some (at_ + next_interval k i (stateFor a k c)) else None
  | Failure k' a' at_ =>
      if decide ((a', k') = (a, k)) then Some (at_ + retry_delay at_ (stateFor a k c)) else None
  | Deferred k' a' b at_ => if decide ((a', k') = (a, k)) then Some (deferral_end b at_) else None
  | Status _ _ _ => None
  end.

(** The due time after a history: the last one given. *)
Fixpoint replayed (a : Z) (k : AdaptiveWorkerKey) (calls : list PollingCall) (c : AdaptivePollingCoordinator)
    (due : option Z) : option Z :=
  match calls with
  | [] => due
  | x :: calls =>
      replayed a k calls (polling_call x c)
        (match reschedules a k x c with Some t => Some t | None => due end)
  end.

Lemma stateFor_set a k s c a' k' :
  stateFor a' k' (set_state a k s c) = if decide ((a', k') = (a, k)) then s else stateFor a' k' c.
Proof. unfold stateFor, set_state. cbn. rewrite map_get_set. by destruct (decide _). Qed.

Lemma schedule_set a k s c a' k' :
  schedule a' k' (set_state a k s c) = if decide ((a', k') = (a, k)) then ws_nextDueAt s else schedule a' k' c.
Proof. unfold schedule. rewrite stateFor_set. by destruct (decide _). Qed.

Lemma schedule_force workers reason a at_ c a' k :
  schedule a' k (forceSync workers reason a at_ c) =
  if decide (a = a' /\ k ∈ workers) then Some at_ else schedule a' k c.
Proof.
  unfold forceSync. revert c. induction workers as [|k0 workers IH]; intros c; cbn [fold_left].
  - rewrite decide_False; [done|]. intros [_ Hk]. by apply elem_of_nil in Hk.
  - rewrite IH. destruct (decide (a = a' /\ k ∈ workers)) as [[-> Hk]|Hn].
    + rewrite decide_True; [done|]. split; [done|by right].
    + rewrite schedule_set. destruct (decide ((a', k) = (a, k0))) as [[= -> ->]|Hne].
      * rewrite decide_True; [done|]. split; [done|by left].
      * rewrite decide_False; [done|]. intros [-> [->|Hk]%elem_of_cons]; [done|]. by apply Hn.
Qed.

(** A forced worker remembers that it was. *)
Lemma activity_keeps a now answer c : ap_states (snd (getLocalActivity a now answer c)) = ap_states c /\
  ap_marketStates (snd (getLocalActivity a now answer c)) = ap_marketStates c /\
  ap_marketEvaluationCache (snd (getLocalActivity a now answer c)) = ap_marketEvaluationCache c.
Proof. unfold getLocalActivity. destruct (map_get _ _) as [[t x]|]; [destruct (_ <=? _)|]; done. Qed.

Lemma schedule_states a k c c' : ap_states c' = ap_states c -> schedule a k c' = schedule a k c.
Proof. intros E. unfold schedule, stateFor. by rewrite E. Qed.

Lemma schedule_market a now settled answer c a' k :
  schedule a' k (snd (evaluateMarket a now settled answer c)) =
  match lookup_force a now answer c with
  | Some _ => if decide (a = a') then Some settled else schedule a' k c
  | None => schedule a' k c
  end.
Proof.
  assert (Hb : forall k, k ∈ BOTH_WORKERS) by (intros []; unfold BOTH_WORKERS; rewrite !elem_of_cons; tauto).
  assert (Hf : forall reason c1, schedule a' k (forceSync BOTH_WORKERS reason a settled c1) =
    if decide (a = a') then Some settled else schedule a' k c1).
  { intros reason c1. rewrite schedule_force. destruct (decide (a = a')) as [->|Hne].
    - rewrite decide_True; [done|]. by split.
    - rewrite decide_False; [done|]. by intros [? _]. }
  unfold evaluateMarket, lookup_force. cbv zeta.
  destruct (map_get a (ap_marketEvaluationCache c)) as [[t e]|]; [destruct (now <? t); [done|]|];
    (destruct answer as [s|e']; cbn [snd];
      [destruct (market_force _ s); [by rewrite Hf|by apply schedule_states]|by apply schedule_states]).
Qed.

Lemma lookup_force_states a now answer c c' :
  ap_marketStates c' = ap_marketStates c -> ap_marketEvaluationCache c' = ap_marketEvaluationCache c ->
  lookup_force a now answer c' = lookup_force a now answer c.
Proof. intros E1 E2. unfold lookup_force, marketStateFor. by rewrite E1, E2. Qed.

(** The state a decision is taken on. *)
Definition decision_state (a now settled : Z) (answers : PollAnswers) (c : AdaptivePollingCoordinator)
    : AdaptivePollingCoordinator :=
  snd (evaluateMarket a now settled (pa_market answers) (snd (getLocalActivity a now (pa_activity answers) c))).

Lemma decision_schedule a now settled answers c a' k :
  schedule a' k (decision_state a now settled answers c) =
  match lookup_force a now (pa_market answers) c with
  | Some _ => if decide (a = a') then Some settled else schedule a' k c
  | None => schedule a' k c
  end.
Proof.
  unfold decision_state. destruct (activity_keeps a now (pa_activity answers) c) as (E1 & E2 & E3).
  rewrite schedule_market, (lookup_force_states a now _ c) by done. by rewrite (schedule_states a' k c).
Qed.

Lemma decision_unfold a k now settled answers c :
  let c1 := decision_state a now settled answers c in
  let d := fst (getDecision a k now settled answers c) in
  snd (getDecision a k now settled answers c) = set_state a k (set_lastDecision (Some d) (stateFor a k c1)) c1 /\
  dn_due d = fst (judge_due k (isActive k (dn_localActivity d)) (me_state (dn_market d)) now (stateFor a k c1)) /\
  dn_nextDueAt d = schedule a k c1 /\
  dn_effectiveIntervalMs d = intervalFor k (me_state (dn_market d)) (isActive k (dn_localActivity d)).
Proof.
  unfold decision_state, getDecision. destruct (getLocalActivity a now (pa_activity answers) c) as [activity c'].
  cbn [snd]. destruct (evaluateMarket a now settled (pa_market answers) c') as [market c1]. cbn [snd].
  cbv zeta. destruct (judge_due k (isActive k activity) _ _ _) as [due reason] eqn:E.
  cbn [fst snd dn_due dn_localActivity dn_market dn_nextDueAt dn_effectiveIntervalMs]. by rewrite E.
Qed.

Lemma status_states i a now answer c : ap_states (snd (getSnapshot i a now answer c)) = ap_states c.
Proof.
  unfold getSnapshot. destruct (activity_keeps a now answer c) as (<- & _). by destruct (getLocalActivity a now answer c).
Qed.

Lemma call_schedule x a k c :
  schedule a k (polling_call x c) = match reschedules a k x c with Some t => Some t | None => schedule a k c end.
Proof.
  destruct x as [workers reason a0 t|a0 k0 now settled answers|k0 a0 t|k0 a0 t i|k0 a0 t|k0 a0 b t|a0 now answer];
    cbn [polling_call reschedules]; [..|by apply schedule_states, status_states].
  - rewrite schedule_force. by destruct (decide _).
  - destruct (decision_unfold a0 k0 now settled answers c) as (-> & _). rewrite schedule_set.
    assert (Hd : schedule a k (decision_state a0 now settled answers c) =
      match (if decide (a0 = a) then option_map (fun _ => settled) (lookup_force a now (pa_market answers) c) else None) with
      | Some t => Some t | None => schedule a k c end).
    { rewrite decision_schedule. destruct (decide (a0 = a)) as [->|Hne]; [|by destruct (lookup_force _ _ _ _)].
      by destruct (lookup_force _ _ _ _). }
    destruct (decide ((a, k) = (a0, k0))) as [[= <- <-]|_]; exact Hd.
  - unfold recordAttempt. rewrite schedule_set. by destruct (decide ((a, k) = (a0, k0))) as [[= <- <-]|_].
  - unfold recordSuccess. rewrite schedule_set.
    destruct (decide ((a, k) = (a0, k0))) as [[= <- <-]|Hne]; [by rewrite decide_True|by rewrite decide_False by congruence].
  - unfold recordFailure. rewrite schedule_set.
    destruct (decide ((a, k) = (a0, k0))) as [[= <- <-]|Hne]; [by rewrite decide_True|by rewrite decide_False by congruence].
  - unfold recordRateLimitDeferred. rewrite schedule_set.
    destruct (decide ((a, k) = (a0, k0))) as [[= <- <-]|Hne]; [by rewrite decide_True|by rewrite decide_False by congruence].
Qed.

(** The coordinator's due time is the replay of the calls that concern it. *)
Lemma schedule_replayed calls a k c : schedule a k (run_polling calls c) = replayed a k calls c (schedule a k c).
Proof.
  revert c. induction calls as [|x calls IH]; intros c; [done|]. cbn [run_polling replayed].
  by rewrite IH, call_schedule.
Qed.

(** A worker with work to do, once attempted, is due exactly when its due time
    has come. *)
Lemma due_exact k active market now s : is_Some (ws_lastAttemptAt s) \/ market <> unknown ->
  fst (judge_due k active market now s) =
  (negb (bool_decide (k = submitted_order_sync)) || active) &&
  match ws_nextDueAt s with Some t => t <=? now | None => true end.
Proof.
  intros Hs. unfold judge_due.
  assert (Hu : bool_decide (market = unknown) && bool_decide (ws_lastAttemptAt s = None) = false).
  { destruct Hs as [[t ->]|Hm]; [by rewrite andb_false_r|]. by rewrite (bool_decide_eq_false_2 (market = unknown)). }
  rewrite Hu. clear Hu. destruct (bool_decide (k = submitted_order_sync)), active; cbn [negb andb orb fst]; try done;
    destruct (ws_forced s), (ws_nextDueAt s) as [t|]; cbn [andb]; try (destruct (t <=? now)); done.
Qed.

(** A worker with work to do is due once its due time has come. *)
Lemma due_reached k active market now s : k = tracked_position_sync \/ active = true ->
  (forall u, ws_nextDueAt s = Some u -> u <= now) -> fst (judge_due k active market now s) = true.
Proof.
  intros Hk Hu. unfold judge_due.
  replace (bool_decide (k = submitted_order_sync) && negb active) with false
    by (destruct Hk as [-> | ->]; [done|by rewrite andb_false_r]).
  destruct (ws_nextDueAt s) as [t|]; [rewrite (proj2 (Z.leb_le t now)) by by apply Hu|];
    by destruct (ws_forced s), (bool_decide (market = unknown) && bool_decide (ws_lastAttemptAt s = None)).
Qed.

(** * What forces and lookups leave alone *)

Lemma force_keeps {A} (f : WorkerRuntimeState -> A) workers reason a at_ c a' k :
  (forall s, f (force_state reason at_ s) = f s) ->
  f (stateFor a' k (forceSync workers reason a at_ c)) = f (stateFor a' k c).
Proof.
  intros Hf. unfold forceSync. revert c. induction workers as [|k0 workers IH]; intros c; [done|]. cbn [fold_left].
  rewrite IH, stateFor_set. destruct (decide ((a', k) = (a, k0))) as [[= -> ->]|_]; [apply Hf|done].
Qed.

Lemma market_keeps {A} (f : WorkerRuntimeState -> A) a now settled answer c a' k :
  (forall reason s, f (force_state reason settled s) = f s) ->
  f (stateFor a' k (snd (evaluateMarket a now settled answer c))) = f (stateFor a' k c).
Proof.
  intros Hf. unfold evaluateMarket. cbv zeta.
  destruct (map_get a (ap_marketEvaluationCache c)) as [[t e]|]; [destruct (now <? t); [done|]|];
    (destruct answer as [s|e']; cbn [snd]; [destruct (market_force _ s); [by rewrite force_keeps|done]|done]).
Qed.

Lemma decision_keeps {A} (f : WorkerRuntimeState -> A) a now settled answers c a' k :
  (forall reason s, f (force_state reason settled s) = f s) ->
  f (stateFor a' k (decision_state a now settled answers c)) = f (stateFor a' k c).
Proof.
  intros Hf. unfold decision_state. rewrite (market_keeps f) by done. unfold stateFor.
  by destruct (activity_keeps a now (pa_activity answers) c) as (-> & _).
Qed.

(** Attempts are remembered. *)
Lemma attempts_stay calls a k c : is_Some (ws_lastAttemptAt (stateFor a k c)) \/ (exists t, In (Attempt k a t) calls) ->
  is_Some (ws_lastAttemptAt (stateFor a k (run_polling calls c))).
Proof.
  assert (Hsame : forall c c', ws_lastAttemptAt (stateFor a k c') = ws_lastAttemptAt (stateFor a k c) ->
    is_Some (ws_lastAttemptAt (stateFor a k c)) -> is_Some (ws_lastAttemptAt (stateFor a k c'))) by (by intros ?? ->).
  assert (Hcall : forall x c, is_Some (ws_lastAttemptAt (stateFor a k c)) ->
    is_Some (ws_lastAttemptAt (stateFor a k (polling_call x c)))).
  { intros [workers reason a0 t|a0 k0 now settled answers|k0 a0 t|k0 a0 t i|k0 a0 t|k0 a0 b t|a0 now answer] c0;
      cbn [polling_call]; [..|unfold stateFor; by rewrite status_states];
      [apply Hsame; by rewrite (force_keeps ws_lastAttemptAt)| |unfold recordAttempt|unfold recordSuccess|
       unfold recordFailure|unfold recordRateLimitDeferred];
      [destruct (decision_unfold a0 k0 now settled answers c0) as (-> & _)|..]; rewrite stateFor_set;
      (destruct (decide _) as [[= <- <-]|_]; [|try done]); cbn; try done;
      by rewrite (decision_keeps ws_lastAttemptAt). }
  revert c. induction calls as [|x calls IH]; intros c; [intros [H|[t []]]; exact H|]. cbn [run_polling].
  intros [H|[t [->|Ht]]]; apply IH; [left; by apply Hcall| |right; by exists t].
  left. cbn [polling_call]. unfold recordAttempt. rewrite stateFor_set, decide_True by done. by eexists.
Qed.

(** * Pacing *)

Definition MIN_WAIT : Z := RETRY_minimum.
Definition MAX_WAIT : Z := TRACKED_marketClosedIdle.

Lemma interval_bounds k market active i : intervalFor k market active = Some i -> MIN_WAIT <= i <= MAX_WAIT.
Proof. destruct k, market, active; intros [= <-]; split; vm_compute; congruence. Qed.

Definition paced_decisions (c : AdaptivePollingCoordinator) : Prop :=
  forall a k d i, ws_lastDecision (stateFor a k c) = Some d -> dn_effectiveIntervalMs d = Some i ->
    MIN_WAIT <= i <= MAX_WAIT.

Lemma paced_call x c : paced_decisions c -> paced_decisions (polling_call x c).
Proof.
  intros Hc a k d i.
  destruct x as [workers reason a0 t|a0 k0 now settled answers|k0 a0 t|k0 a0 t j|k0 a0 t|k0 a0 b t|a0 now answer];
    cbn [polling_call]; [..|unfold stateFor; rewrite status_states; apply Hc];
    [rewrite (force_keeps ws_lastDecision) by done; apply Hc
    |destruct (decision_unfold a0 k0 now settled answers c) as (-> & _ & _ & E)
    |unfold recordAttempt|unfold recordSuccess|unfold recordFailure|unfold recordRateLimitDeferred];
    rewrite stateFor_set; (destruct (decide _) as [[= -> ->]|_]; [|try apply Hc]).
  1: { intros [= <-]. rewrite E. apply interval_bounds. }
  1: { rewrite (decision_keeps ws_lastDecision) by done. apply Hc. }
  1-3: apply Hc.
  cbn. intros Hd Hi. destruct (ws_lastDecision (stateFor a0 k0 c)) as [d0|] eqn:E0; [|done].
  injection Hd as <-. by apply (Hc a0 k0 d0 i E0).
Qed.

Lemma paced_run calls : paced_decisions (run_polling calls new_coordinator).
Proof.
  assert (H : forall c, paced_decisions c -> paced_decisions (run_polling calls c)).
  { induction calls as [|x calls IH]; intros c Hc; [done|]. by apply IH, paced_call. }
  apply H. by intros a k d i [=].
Qed.

Lemma next_interval_bounds a k i c : paced_decisions c ->
  match i with Some i => MIN_WAIT <= i <= MAX_WAIT | None => True end ->
  MIN_WAIT <= next_interval k i (stateFor a k c) <= MAX_WAIT.
Proof.
  intros Hc Hi. unfold next_interval. destruct i as [i|]; [done|].
  destruct (ws_lastDecision (stateFor a k c) ≫= dn_effectiveIntervalMs) as [i|] eqn:E; cbn [default].
  - destruct (ws_lastDecision (stateFor a k c)) as [d|] eqn:Ed; [|done]. by apply (Hc a k d).
  - destruct k; split; vm_compute; congruence.
Qed.

Lemma retry_bounds t s : RETRY_minimum <= retry_delay t s <= RETRY_maximum.
Proof. unfold retry_delay, RETRY_minimum, RETRY_maximum. lia. Qed.

Lemma deferral_bounds b t : t < deferral_end b t.
Proof. unfold deferral_end, RETRY_minimum. destruct b as [u|]; [destruct (Z.ltb_spec t u)|]; lia. Qed.

(** Every time a call speaks of is at most [t], back-offs and given intervals at
    most the longest wait. *)
Definition settled_by (t : Z) (x : PollingCall) : Prop :=
  match x with
  | Force _ _ _ at_ => at_ <= t
  | Decide _ _ _ settled _ => settled <= t
  | Attempt _ _ _ => True
  | Success _ _ at_ i => at_ <= t /\ match i with Some i => MIN_WAIT <= i <= MAX_WAIT | None => True end
  | Failure _ _ at_ => at_ <= t
  | Deferred _ _ b at_ => at_ <= t /\ match b with Some u => u <= t + MAX_WAIT | None => True end
  | Status _ _ _ => True
  end.

Lemma reschedule_bound t a k x c u : paced_decisions c -> settled_by t x -> reschedules a k x c = Some u ->
  u <= t + MAX_WAIT.
Proof.
  assert (HM : MAX_WAIT = 300000) by reflexivity. intros Hc.
  destruct x as [workers reason a0 at_|a0 k0 now settled answers|k0 a0 at_|k0 a0 at_ j|k0 a0 at_|k0 a0 b at_|a0 now answer];
    cbn [reschedules settled_by]; intros Ht; [..|done].
  - destruct (decide _); [intros [= <-]; lia|done].
  - destruct (decide _); [|done]. destruct (lookup_force _ _ _ _); intros [= <-]. lia.
  - done.
  - destruct (decide _); [|done]. intros [= <-]. pose proof (next_interval_bounds a k j c Hc (proj2 Ht)). lia.
  - destruct (decide _); [|done]. intros [= <-]. pose proof (retry_bounds at_ (stateFor a k c)).
    unfold RETRY_maximum in *. lia.
  - destruct (decide _); [|done]. intros [= <-]. destruct Ht as [Ht Hb]. unfold deferral_end, RETRY_minimum.
    destruct b as [u|]; [destruct (at_ <? u)|]; lia.
Qed.

Lemma replayed_bound t calls a k c due : paced_decisions c -> Forall (settled_by t) calls ->
  (forall u, due = Some u -> u <= t + MAX_WAIT) -> forall u, replayed a k calls c due = Some u -> u <= t + MAX_WAIT.
Proof.
  intros Hc Hcalls. revert c due Hc. induction Hcalls as [|x calls Hx _ IH]; intros c due Hc Hd; [done|].
  cbn [replayed]. apply IH; [by apply paced_call|]. intros u. destruct (reschedules a k x c) as [t0|] eqn:E.
  - intros [= ->]. by apply (reschedule_bound t a k x c).
  - apply Hd.
Qed.

Lemma run_polling_app xs ys c : run_polling (xs ++ ys)%list c = run_polling ys (run_polling xs c).
Proof. revert c. by induction xs as [|x xs IH]; intros c; [|cbn; rewrite IH]. Qed.
Lemma replayed_app xs ys a k c due :
  replayed a k (xs ++ ys)%list c due = replayed a k ys (run_polling xs c) (replayed a k xs c due).
Proof. revert c due. by induction xs as [|x xs IH]; intros c due; [|cbn; rewrite IH]. Qed.
(** When nothing gives a due time, the one there was stays. *)
Lemma replayed_quiet calls a k c due : replayed a k calls c None = None -> replayed a k calls c due = due.
Proof.
  assert (Hs : forall calls c d, replayed a k calls c (Some d) <> None).
  { clear. induction calls as [|x calls IH]; intros c d; cbn [replayed]; [done|].
    destruct (reschedules a k x c); apply IH. }
  revert c due. induction calls as [|x calls IH]; intros c due; [done|]. cbn [replayed].
  destruct (reschedules a k x c) as [t|]; [intros H; by apply Hs in H|apply IH].
Qed.

(** The due time a decision is taken on is the replay of the history and of the
    decision's own lookup. *)
Lemma decision_due_time a k now settled answers calls c :
  schedule a k (decision_state a now settled answers (run_polling calls c)) =
  replayed a k (calls ++ [Decide a k now settled answers])%list c (schedule a k c).
Proof.
  rewrite replayed_app, <- schedule_replayed. cbn [replayed reschedules]. rewrite decide_True by done.
  rewrite decision_schedule, decide_True by done. by destruct (lookup_force _ _ _ _).
Qed.

(** The end of a poll of worker [k] for account [a]. *)
Definition outcome_at (a : Z) (k : AdaptiveWorkerKey) (x : PollingCall) : option Z :=
  match x with
  | Success k' a' at_ i =>
      if decide ((a', k') = (a, k)) then
        if match i with Some i => (MIN_WAIT <=? i) && (i <=? MAX_WAIT) | None => true end then Some at_ else None
      else None
  | Failure k' a' at_ | Deferred k' a' None at_ => if decide ((a', k') = (a, k)) then Some at_ else None
  | _ => None
  end.

Lemma outcome_reschedules a k x t c : paced_decisions c -> outcome_at a k x = Some t ->
  exists u, reschedules a k x c = Some u /\ t + MIN_WAIT <= u.
Proof.
  intros Hc. destruct x as [| | |k0 a0 at_ i|k0 a0 at_|k0 a0 [b|] at_|]; cbn [outcome_at reschedules]; try done;
    (destruct (decide _) as [[= -> ->]|_]; [|done]).
  - intros Hx. eexists. split; [done|].
    assert (Hi : match i with Some i => MIN_WAIT <= i <= MAX_WAIT | None => True end).
    { destruct i as [i|]; [|done]. destruct (Z.leb_spec MIN_WAIT i), (Z.leb_spec i MAX_WAIT); [done|discriminate..]. }
    pose proof (next_interval_bounds a k i c Hc Hi). destruct (if i then _ else true); [|done].
    injection Hx as ->. lia.
  - intros [= <-]. eexists. split; [done|]. pose proof (retry_bounds at_ (stateFor a k c)). unfold MIN_WAIT. lia.
  - intros [= <-]. eexists. split; [done|]. unfold deferral_end, MIN_WAIT. lia.
Qed.

(** C19. Due decisions are exact. Once worker [k] of account [a] has been
    attempted, a decision is due if and only if the worker has work (the tracked
    worker always, the submitted one with submitted orders) and the last due time
    given to that account and worker has come: by a force at its time, by a
    success at its completion plus the interval, by a failure at 5 to 15 seconds
    after it, by a deferral at the end of the back-off, or by the decision's own
    market lookup at the time that lookup settles. Calls about other accounts
    never matter. *)
Theorem polling_due_exact calls c a k t now settled answers :
  In (Attempt k a t) calls ->
  let d := fst (getDecision a k now settled answers (run_polling calls c)) in
  let history := (calls ++ [Decide a k now settled answers])%list in
  dn_due d =
    (negb (bool_decide (k = submitted_order_sync)) || isActive k (dn_localActivity d)) &&
    match replayed a k history c (schedule a k c) with Some due => due <=? now | None => true end /\
  dn_nextDueAt d = replayed a k history c (schedule a k c).
Proof.
  intros Ht d history. destruct (decision_unfold a k now settled answers (run_polling calls c)) as (_ & Hdue & Hnext & _).
  fold d in Hdue, Hnext. rewrite Hdue, Hnext, due_exact.
  - unfold history. rewrite <- decision_due_time. by unfold schedule.
  - left. rewrite (decision_keeps ws_lastAttemptAt) by done. apply attempts_stay. right. by exists t.
Qed.

(** C20. The workers are paced. From a start of the process: (1) five minutes
    after the last time any call speaks of (back-offs reaching at most that far),
    a decision for the tracked worker, or for the submitted one with submitted
    orders, is due, whatever happened before: failures, deferrals, lost sessions;
    unless its own market lookup sees the session change, which forces both
    workers at the time it settles; (2) after a poll of an attempted worker ends
    at [t], and while no force and no other outcome gives a new due time, no
    decision for it is due before [t] plus five seconds. *)
Theorem polling_paced before x after a k t now settled answers :
  let calls := (before ++ x :: after)%list in
  let d := fst (getDecision a k now settled answers (run_polling calls new_coordinator)) in
  (Forall (settled_by t) calls -> t + MAX_WAIT <= now ->
     lookup_force a now (pa_market answers) (run_polling calls new_coordinator) = None \/ settled <= now ->
     k = tracked_position_sync \/ isActive k (dn_localActivity d) = true -> dn_due d = true) /\
  ((exists t0, In (Attempt k a t0) before) -> outcome_at a k x = Some t ->
     replayed a k (after ++ [Decide a k now settled answers])%list (polling_call x (run_polling before new_coordinator))
       None = None ->
     now < t + MIN_WAIT -> dn_due d = false).
Proof.
  intros calls d. destruct (decision_unfold a k now settled answers (run_polling calls new_coordinator)) as (_ & Hdue & _).
  fold d in Hdue. split.
  - intros Hcalls Hnow Hset Hwork. rewrite Hdue. apply due_reached; [done|].
    fold (schedule a k (decision_state a now settled answers (run_polling calls new_coordinator))).
    intros u. rewrite decision_schedule. pose proof (replayed_bound t calls a k new_coordinator None) as Hb.
    rewrite schedule_replayed. destruct (lookup_force _ _ _ _).
    + destruct Hset as [[=]|Hset]. rewrite decide_True by done. intros [= <-]. lia.
    + intros Hu. assert (u <= t + MAX_WAIT); [|lia]. apply Hb; try done.
  - intros [t0 Ht0] Hx Hquiet Hnow.
    destruct (outcome_reschedules a k x t (run_polling before new_coordinator) (paced_run _) Hx) as (u & Hu & Hle).
    rewrite Hdue, due_exact.
    + fold (schedule a k (decision_state a now settled answers (run_polling calls new_coordinator))).
      rewrite decision_due_time. unfold calls. rewrite <- app_assoc, replayed_app. cbn [replayed app]. rewrite Hu.
      rewrite replayed_quiet by done. apply andb_false_intro2. lia.
    + left. rewrite (decision_keeps ws_lastAttemptAt) by done. apply attempts_stay. right. exists t0.
      apply in_or_app. by left.
Qed.

(** * Examples and witnesses *)

Definition session_snapshot (is_open : bool) (date : string) : NormalizedMarketSessionSnapshot :=
  {| brokerTimestamp := "2025-03-03T20:59:59.000Z"; evaluatedTimestamp := "2025-03-03T20:59:59.000Z";
     marketOpen := is_open; tradingDate := date; sessionOpenAt := None; sessionCloseAt := None;
     nextOpenAt := None; nextCloseAt := None; fetchedAt := "2025-03-03T20:59:59.000Z";
     clock_cache := cached; calendar_cache := cached |}.

Definition one_submitted : AdaptivePollingLocalActivitySnapshot :=
  {| submittedOrderCount := 1; submittingOrderCount := 0; nonterminalBrokerOrderCount := 0; openPositionCount := 0;
     closingPositionCount := 0; activeExitCount := 0; activeProtectiveOrderCount := 0; la_evaluatedAt := 0 |}.

Definition while_open : PollAnswers :=
  {| pa_activity := Some one_submitted; pa_market := Ok (session_snapshot true "2025-03-03") |}.
Definition after_close : PollAnswers :=
  {| pa_activity := Some one_submitted; pa_market := Ok (session_snapshot false "2025-03-03") |}.
Definition session_lost : PollAnswers :=
  {| pa_activity := None; pa_market := Throw (PlainError "clock  down, token=abc123 used") |}.

(** A polled account: due at start-up, polled, then due again every ten seconds. *)
Definition polled_history : list PollingCall :=
  [Decide 1 submitted_order_sync 0 5 while_open; Attempt submitted_order_sync 1 10;
   Success submitted_order_sync 1 200 None;
   Force BOTH_WORKERS broker_order_created 2 300].

Example startup_decision :
  let d := fst (getDecision 1 submitted_order_sync 0 5 while_open new_coordinator) in
  (dn_due d, dn_forced d, dn_forceReason d, dn_reason d, dn_mode d, dn_effectiveIntervalMs d) =
  (true, true, Some startup, startup_due, market_open_active, Some 10000).
Proof. reflexivity. Qed.

(** A failed session lookup is kept for 45 seconds, with its secrets redacted. *)
Example lost_session :
  let '(d, c) := getDecision 1 tracked_position_sync 0 5 session_lost new_coordinator in
  (dn_mode d, me_degraded (dn_market d), me_error (dn_market d), dn_effectiveIntervalMs d) =
    (market_unknown, true, Some "clock down, token=[redacted] used", Some 60000) /\
  me_state (dn_market (fst (getDecision 1 tracked_position_sync 44999 45000 while_open c))) = unknown /\
  me_state (dn_market (fst (getDecision 1 tracked_position_sync 45000 45001 while_open c))) = open.
Proof. vm_compute. auto. Qed.

(** A force recorded while a poll is in flight is dropped when that poll ends,
    though the poll's broker read began before the write. *)
Example force_during_poll_dropped :
  let polling := run_polling [Decide 1 submitted_order_sync 0 5 while_open; Attempt submitted_order_sync 1 10;
    Force BOTH_WORKERS broker_order_created 1 100; Success submitted_order_sync 1 200 None] new_coordinator in
  let s := stateFor 1 submitted_order_sync polling in
  (ws_forced s, ws_nextDueAt s) = (false, Some 10200) /\
  dn_due (fst (getDecision 1 submitted_order_sync 2000 2005 while_open polling)) = false.
Proof. vm_compute. auto. Qed.

(** The decision whose own lookup sees the market close is not due: it forces
    both workers at the time the lookup settles, after the time it judges by. *)
Example transition_decision_not_due :
  let c := run_polling polled_history new_coordinator in
  let '(d, c) := getDecision 1 submitted_order_sync 30000 30005 after_close c in
  (dn_due d, dn_forced d, dn_reason d, dn_nextDueAt d) =
    (false, true, adaptive_poll_not_due, Some 30005) /\
  dn_due (fst (getDecision 1 submitted_order_sync 32000 32005 after_close c)) = true.
Proof. vm_compute. auto. Qed.

Lemma polling_due_exact_witness :
  dn_due (fst (getDecision 1 submitted_order_sync 10199 10204 while_open
    (run_polling polled_history new_coordinator))) = false /\
  dn_due (fst (getDecision 1 submitted_order_sync 10200 10205 while_open
    (run_polling polled_history new_coordinator))) = true.
Proof.
  assert (Ha : In (Attempt submitted_order_sync 1 10) polled_history) by (vm_compute; auto).
  split.
  - rewrite (proj1 (polling_due_exact polled_history new_coordinator 1 submitted_order_sync 10 10199 10204 while_open Ha)).
    vm_compute. reflexivity.
  - rewrite (proj1 (polling_due_exact polled_history new_coordinator 1 submitted_order_sync 10 10200 10205 while_open Ha)).
    vm_compute. reflexivity.
Defined.

Lemma polling_paced_witness :
  dn_due (fst (getDecision 1 submitted_order_sync 310000 310005 while_open
    (run_polling polled_history new_coordinator))) = true /\
  dn_due (fst (getDecision 1 submitted_order_sync 5199 5204 while_open
    (run_polling polled_history new_coordinator))) = false.
Proof.
  set (before := [Decide 1 submitted_order_sync 0 5 while_open; Attempt submitted_order_sync 1 10]).
  set (after := [Force BOTH_WORKERS broker_order_created 2 300]).
  split.
  - apply (proj1 (polling_paced before (Success submitted_order_sync 1 200 None) after 1 submitted_order_sync
      10000 310000 310005 while_open)).
    + repeat constructor; vm_compute; congruence.
    + vm_compute. congruence.
    + left. vm_compute. reflexivity.
    + right. vm_compute. reflexivity.
  - apply (proj2 (polling_paced before (Success submitted_order_sync 1 200 None) after 1 submitted_order_sync
      200 5199 5204 while_open)).
    + exists 10. vm_compute. auto.
    + vm_compute. reflexivity.
    + vm_compute. reflexivity.
    + vm_compute. reflexivity.
Defined.

(** Before any decision the status shows a forced, due worker of an unknown
    market; after one, the decision it took. *)
Example status_before_and_after :
  let before := fst (getSnapshot TRADING_WORKER_INTERVAL_MS 1 0 (Some one_submitted) new_coordinator) in
  let after := fst (getSnapshot TRADING_WORKER_INTERVAL_MS 1 6000 (Some one_submitted) (run_polling polled_history new_coordinator)) in
  (as_mode before, aw_due (as_submittedOrderSync before), aw_decisionReason (as_submittedOrderSync before)) =
    (market_unknown, true, startup_due) /\
  (as_mode after, aw_effectiveIntervalMs (as_submittedOrderSync after), aw_nextDueAt (as_submittedOrderSync after)) =
    (market_open_active, Some 10000, Some "1970-01-01T00:00:10.200Z").
Proof. vm_compute. auto. Qed.
