(* ===== verification/AccountWorkflow.v ===== *)
(** Workflows of the accounts: the locked, backed-off run of one worker for one
    account (services/trading-account-workflow-runner.service.ts), the accounts
    a workflow is due for (services/lifecycle-account-eligibility.service.ts),
    and the exit evaluation over them (services/exit-evaluator.service.ts). *)

From Stdlib Require Import ZArith Lia.
From Stdlib Require Import Strings.String.
From stdpp Require Import base list strings gmap.
From S2P Require Import Prelude JsNumber JsValue JsDate Prisma OrderStatus DeliveryEvidence Schema.
From S2P Require Import BrokerAccount ExactDecimal ExitWorld ExitState WorkflowLock VerifiedExit ClosePosition.
From S2P Require Import TrailingStop ExitEvaluator WorkerHealth.

Open Scope string_scope.
Open Scope Z_scope.

(** * Back-off *)

Definition BACKOFF_CAP_MS : list (string * Z) :=
  [("order_intent_broker_comparison", 300000); ("order_intent_market_policy_comparison", 300000);
   ("strategy_market_eligibility_shadow", 900000); ("market_regime_composition_publication", 900000);
   ("breadth_v2_shadow_publication", 3600000); ("volatility_assessment_publication", 900000);
   ("trend_assessment_publication", 900000); ("breadth_assessment_publication", 900000);
   ("participation_assessment_publication", 900000); ("market_daily_evidence_sync", 3600000);
   ("market_split_coverage_extension", 3600000); ("tiingo_daily_market_data_sync", 3600000);
   ("market_minute_evidence_sync", 3600000); ("intraday_stress_assessment_publication", 900000);
   ("paper_broker_write_attention_reconciliation", 300000); ("pending_order_processing", 30000);
   ("submitted_order_sync", 60000); ("tracked_position_sync", 30000); ("exit_evaluation", 15000);
   ("account_snapshot_scheduler", 300000); ("broker_activity_sync", 60000);
   ("scheduled_reconciliation", 300000); ("alpaca_api_usage_persistence", 300000);
   ("massive_news_ingestion", 300000)].

Definition backoff_cap (key : string) : Z :=
  default 0 (option_map snd (List.find (fun kv => String.eqb (fst kv) key) BACKOFF_CAP_MS)).

(** The delay after the given number of failures in a row. *)
Definition backoff_delay (key : string) (failures : Z) : Z :=
  Z.min (1000 * 2 ^ Z.min (failures - 1) 10) (backoff_cap key).

(** * One run *)

Inductive AccountWorkflowRunResult (A : Type) :=
| PROCESSED (value : A)
| SKIPPED (value : A)
| LOCK_SKIPPED
| RUN_BACKING_OFF (backoffUntil : Z)
| FAILED (error : js_error) (value : option A).
Arguments PROCESSED {A} value.
Arguments SKIPPED {A} value.
Arguments LOCK_SKIPPED {A}.
Arguments RUN_BACKING_OFF {A} backoffUntil.
Arguments FAILED {A} error value.

Inductive AccountWorkflowClassification :=
| classified_success (workSucceeded : option bool) (summary : option json)
| classified_skipped (skipReason : string) (summary : option json)
| classified_dormant (eligibilityReason : option string) (summary : option json)
| classified_failure (error : js_error) (errorCode : option string) (eligible : option bool)
    (eligibilityReason : option string) (summary : option json).

(** What the locked part answers. *)
Inductive LockedRun (A : Type) :=
| backingOff (until : Z)
| failed (error : js_error) (value : option A)
| ended (value : A) (skipped : bool).
Arguments backingOff {A} until.
Arguments failed {A} error value.
Arguments ended {A} value skipped.

Section Run.
Context `{Prisma} {S : ExitServices} `{WorkerAttention}.
Context {A : Type}.
Variables (process : string) (tradingAccountId : Z) (workerKey lockFamily : string).
Variable execute : eff WorkerWorld A.
Variable classify : A -> AccountWorkflowClassification.
Variable ignoreBackoffWhenInapplicable : bool.
(** The readings of the clock, in program order: back-off check, start,
    failure and record of a classified run; failure and record of a thrown
    one; contention or wrapper failure. *)
Variable clock : nat -> Z.

Definition run_attempt (o : AttemptOutcome) : Attempt := attempt tradingAccountId workerKey process o.

Definition failed_attempt (error : js_error) (errorCode : string) (eligible : option bool)
    (eligibilityReason : option string) (summary : option json) (backoffUntil : Z) : Attempt :=
  {| at_tradingAccountId := tradingAccountId; at_workerKey := workerKey; at_processInstanceId := process;
     at_outcome := Failure; at_skipReason := None; at_applicable := None; at_eligible := eligible;
     at_eligibilityReason := option_map Some eligibilityReason; at_workSucceeded := false;
     at_error := Some error; at_errorCode := Some (Some errorCode); at_summary := summary;
     at_backoffUntil := Some (Some backoffUntil); at_startedAt := Some (clock 1) |}.

Definition done_attempt (c : AccountWorkflowClassification) : Attempt :=
  let base o skipReason applicable eligible eligibilityReason worked summary :=
    {| at_tradingAccountId := tradingAccountId; at_workerKey := workerKey; at_processInstanceId := process;
       at_outcome := o; at_skipReason := skipReason; at_applicable := applicable; at_eligible := eligible;
       at_eligibilityReason := eligibilityReason; at_workSucceeded := worked; at_error := None;
       at_errorCode := None; at_summary := summary; at_backoffUntil := None; at_startedAt := Some (clock 1) |} in
  match c with
  | classified_skipped skipReason summary => base Skipped (Some skipReason) None None None false summary
  | classified_dormant reason summary => base Dormant None (Some false) (Some false) (Some reason) false summary
  | classified_success worked summary => base Success None None None None (default true worked) summary
  | classified_failure _ _ _ _ summary => base Failure None None None None false summary
  end.

(** Execute, classify, record; whatever throws is recorded as a failure. *)
Definition execute_and_record (startedState : TradingAccountWorkerHealthState) : eff WorkerWorld (LockedRun A) :=
  let failures := hs_consecutiveFailures startedState + 1 in
  try_catch
    (value ← execute;
     match classify value with
     | classified_failure error errorCode eligible eligibilityReason summary =>
         _ ← recordTradingAccountWorkerAttempt (clock 3)
               (failed_attempt error (default "CLASSIFIED_FAILURE" errorCode) eligible eligibilityReason summary
                  (clock 2 + backoff_delay workerKey failures));
         mret (failed error (Some value))
     | c =>
         _ ← recordTradingAccountWorkerAttempt (clock 3) (done_attempt c);
         mret (ended value match c with classified_success _ _ => false | _ => true end)
     end)
    (fun error =>
       _ ← recordTradingAccountWorkerAttempt (clock 5)
             (failed_attempt error "WORKFLOW_ERROR" None None None (clock 4 + backoff_delay workerKey failures));
       mret (failed error None)).

Definition locked_run : eff WorkerWorld (LockedRun A) :=
  persisted ← asks (health_of tradingAccountId workerKey);
  match persisted ≫= hs_backoffUntil with
  | Some until =>
      if (clock 0 <? until) && negb ignoreBackoffWhenInapplicable then
        _ ← recordTradingAccountWorkerAttempt (clock 1)
              {| at_tradingAccountId := tradingAccountId; at_workerKey := workerKey;
                 at_processInstanceId := process; at_outcome := BackoffSkipped; at_skipReason := None;
                 at_applicable := None; at_eligible := None; at_eligibilityReason := None;
                 at_workSucceeded := false; at_error := None; at_errorCode := None; at_summary := None;
                 at_backoffUntil := Some (Some until); at_startedAt := Some (clock 1) |};
        mret (backingOff until)
      else
        startedState ← startTradingAccountWorkerRun tradingAccountId workerKey process (clock 1);
        execute_and_record startedState
  | None =>
      startedState ← startTradingAccountWorkerRun tradingAccountId workerKey process (clock 1);
      execute_and_record startedState
  end.

Definition lock_failure (error : js_error) (errorCode : string) : eff WorkerWorld (AccountWorkflowRunResult A) :=
  _ ← recordTradingAccountWorkerAttempt (clock 6)
        {| at_tradingAccountId := tradingAccountId; at_workerKey := workerKey; at_processInstanceId := process;
           at_outcome := Failure; at_skipReason := None; at_applicable := None; at_eligible := None;
           at_eligibilityReason := None; at_workSucceeded := false; at_error := Some error;
           at_errorCode := Some (Some errorCode); at_summary := None; at_backoffUntil := None;
           at_startedAt := Some (clock 6) |};
  mret (FAILED error None).

Definition runTradingAccountWorkflow : eff WorkerWorld (AccountWorkflowRunResult A) :=
  locked ← withTradingAccountWorkflowLock (fun scope w => try_lock scope (wk_world w))
             tradingAccountId lockFamily locked_run;
  match locked with
  | NOT_ACQUIRED =>
      _ ← recordTradingAccountWorkflowLockContention tradingAccountId workerKey process lockFamily (clock 6);
      mret LOCK_SKIPPED
  | ACQUIRED_AND_COMPLETED (backingOff until) => mret (RUN_BACKING_OFF until)
  | ACQUIRED_AND_COMPLETED (failed error value) => mret (FAILED error value)
  | ACQUIRED_AND_COMPLETED (ended value skipped) => mret (if skipped then SKIPPED value else PROCESSED value)
  | LOCK_ERROR error => lock_failure error "LOCK_ACQUISITION_ERROR"
  | WORKFLOW_ERROR error => lock_failure error "WORKFLOW_LOCK_WRAPPER_ERROR"
  end.
End Run.

(** * The accounts a workflow is due for *)

(** The claim recovery of services/entry-dispatch-recovery.service.ts, per
    account; it may fail. *)
Record ClaimRecoverySummary := {
  cr_actionableDue : Z;
  cr_held : Z;
  cr_staleAdmissionDue : Z;
  cr_staleAdmissionHeld : Z
}.
Class ClaimRecovery := {
  summarizeTerminalClaimRecoveryByAccount : ExitWorld -> res (Z -> option ClaimRecoverySummary)
}.

Record ExposureSummary := {
  xs_pendingIntents : Z;
  xs_submittingIntents : Z;
  xs_submittedIntents : Z;
  xs_nonterminalOrders : Z;
  xs_activePositions : Z;
  xs_unresolvedActivities : Z;
  xs_unresolvedExitPositions : Z;
  xs_terminalEntryClaimsDue : Z;
  xs_terminalEntryClaimsHeld : Z;
  xs_staleAdmissionClaimsDue : Z;
  xs_staleAdmissionClaimsHeld : Z;
  xs_hasLifecycleWork : bool
}.

Record LifecycleAccountEligibility := {
  le_tradingAccountId : Z;
  le_displayName : string;
  le_broker : string;
  le_environment : string;
  le_status : string;
  le_credentialStatus : option string;
  le_eligible : bool;
  le_reason : string;
  le_exposureSummary : ExposureSummary
}.

Definition summary_json (x : ExposureSummary) : json :=
  JObj [("pendingIntents", jint (xs_pendingIntents x)); ("submittingIntents", jint (xs_submittingIntents x));
        ("submittedIntents", jint (xs_submittedIntents x)); ("nonterminalOrders", jint (xs_nonterminalOrders x));
        ("activePositions", jint (xs_activePositions x)); ("unresolvedActivities", jint (xs_unresolvedActivities x));
        ("unresolvedExitPositions", jint (xs_unresolvedExitPositions x));
        ("terminalEntryClaimsDue", jint (xs_terminalEntryClaimsDue x));
        ("terminalEntryClaimsHeld", jint (xs_terminalEntryClaimsHeld x));
        ("staleAdmissionClaimsDue", jint (xs_staleAdmissionClaimsDue x));
        ("staleAdmissionClaimsHeld", jint (xs_staleAdmissionClaimsHeld x));
        ("hasLifecycleWork", JBool (xs_hasLifecycleWork x))].

Definition workerKeyByWorkflow (workflow : string) : option string :=
  option_map snd (List.find (fun kv => String.eqb (fst kv) workflow)
    [("pending_submissions", "pending_order_processing"); ("submitted_orders", "submitted_order_sync");
     ("broker_activities", "broker_activity_sync"); ("positions", "tracked_position_sync");
     ("scheduled_snapshots", "account_snapshot_scheduler"); ("exit_evaluation", "exit_evaluation");
     ("protective_order_sync", "exit_evaluation"); ("reconciliation", "scheduled_reconciliation")]).

Definition workflow_has_work (workflow : string) (operational : bool) (x : ExposureSummary) : bool :=
  if String.eqb workflow "pending_submissions" then 0 <? xs_pendingIntents x
  else if String.eqb workflow "submitted_orders" then
    (0 <? xs_submittingIntents x) || (0 <? xs_submittedIntents x) || (0 <? xs_nonterminalOrders x) ||
    (0 <? xs_terminalEntryClaimsDue x) || (0 <? xs_staleAdmissionClaimsDue x)
  else if String.eqb workflow "positions" then
    (0 <? xs_activePositions x) || (0 <? xs_nonterminalOrders x) || operational
  else if String.eqb workflow "exit_evaluation" then 0 <? xs_activePositions x
  else if String.eqb workflow "protective_order_sync" then
    (0 <? xs_unresolvedExitPositions x) || (0 <? xs_nonterminalOrders x)
  else if String.eqb workflow "manual_emergency_close" then 0 <? xs_activePositions x
  else xs_hasLifecycleWork x || operational.

Section Eligibility.
Context `{Prisma} {S : ExitServices} `{WorkerAttention} `{ClaimRecovery}.

Definition unresolved_exit (e : PositionExitState) : bool :=
  es_attentionRequired e ||
  member (es_status e) ["target_unlocked"; "trailing_stop_submitted"; "submit_failed"].

Definition exposure_summary (recovery : Z -> option ClaimRecoverySummary) (w : ExitWorld) (account : Z)
    : ExposureSummary :=
  let db := xw_db w in
  let intents status := count (fun i => opt_eqb (oi_tradingAccountId i) account &&
                                        String.eqb (oi_status i) status) (orderIntents db) in
  let orders := count (fun o => opt_eqb (bo_tradingAccountId o) account &&
                                NONTERMINAL_BROKER_ORDER_PRISMA_FILTER (bo_status o)) (brokerOrders db) in
  let positions := count (active_account_position account) (trackedPositions db) in
  let activities := count (fun a => opt_eqb (ba_tradingAccountId a) account &&
                      (bool_decide (ba_trackedPositionId a = None) ||
                       bool_decide (ba_brokerOrderRecordId a = None))) (brokerActivities db) in
  let exits := count (fun p => opt_eqb (tp_tradingAccountId p) account &&
                 match find_exit_state (tp_id p) w with Some e => unresolved_exit e | None => false end)
                 (trackedPositions db) in
  let recovered (f : ClaimRecoverySummary -> Z) := match recovery account with Some r => f r | None => 0 end in
  {| xs_pendingIntents := intents "pending"; xs_submittingIntents := intents "submitting";
     xs_submittedIntents := intents "submitted"; xs_nonterminalOrders := orders;
     xs_activePositions := positions; xs_unresolvedActivities := activities;
     xs_unresolvedExitPositions := exits;
     xs_terminalEntryClaimsDue := recovered cr_actionableDue; xs_terminalEntryClaimsHeld := recovered cr_held;
     xs_staleAdmissionClaimsDue := recovered cr_staleAdmissionDue;
     xs_staleAdmissionClaimsHeld := recovered cr_staleAdmissionHeld;
     xs_hasLifecycleWork :=
       (0 <? count (fun i => opt_eqb (oi_tradingAccountId i) account &&
              member (oi_status i) ["pending"; "submitting"; "submitted"]) (orderIntents db)) ||
       (0 <? orders) || (0 <? positions) || (0 <? activities) || (0 <? exits) ||
       (0 <? recovered cr_actionableDue) || (0 <? recovered cr_staleAdmissionDue) |}.

Definition account_eligibility (workflow : string) (recovery : Z -> option ClaimRecoverySummary)
    (w : ExitWorld) (a : TradingAccount) : LifecycleAccountEligibility :=
  let x := exposure_summary recovery w (ta_id a) in
  let usableCredentials := bool_decide (ta_credentialStatus a = Some "ACTIVE") in
  let operational := member (ta_status a) ["ACTIVE"; "PAUSED"] in
  let '(eligible, reason) :=
    if negb usableCredentials then
      (false, if xs_hasLifecycleWork x || (0 <? xs_terminalEntryClaimsHeld x) || (0 <? xs_staleAdmissionClaimsHeld x)
              then "credentials_unavailable_with_exposure" else "credentials_unavailable_dormant")
    else if negb (workflow_has_work workflow operational x) then (false, "no_work_for_workflow")
    else (true, if xs_hasLifecycleWork x then "usable_credentials_with_work"
                else "usable_credentials_operational_account") in
  {| le_tradingAccountId := ta_id a; le_displayName := ta_displayName a; le_broker := ta_broker a;
     le_environment := ta_environment a; le_status := ta_status a; le_credentialStatus := ta_credentialStatus a;
     le_eligible := eligible; le_reason := reason; le_exposureSummary := x |}.

(** The attempt recorded for an account that is not eligible. *)
Definition ineligible_attempt (process workerKey : string) (e : LifecycleAccountEligibility) : Attempt :=
  let exposed := String.eqb (le_reason e) "credentials_unavailable_with_exposure" in
  {| at_tradingAccountId := le_tradingAccountId e; at_workerKey := workerKey; at_processInstanceId := process;
     at_outcome := if exposed then Failure else Dormant; at_skipReason := None;
     at_applicable := Some exposed; at_eligible := Some false;
     at_eligibilityReason := Some (Some (le_reason e)); at_workSucceeded := false;
     at_error := if exposed
       then Some (PlainError "Broker credentials are unavailable while account lifecycle exposure exists.") else None;
     at_errorCode := Some (if exposed then Some "CREDENTIALS_UNAVAILABLE_WITH_EXPOSURE" else None);
     at_summary := Some (summary_json (le_exposureSummary e)); at_backoffUntil := None; at_startedAt := None |}.

Definition record_ineligible (process workerKey : string) (now : Z) (e : LifecycleAccountEligibility)
    : eff WorkerWorld unit :=
  if le_eligible e then mret tt
  else _ ← recordTradingAccountWorkerAttempt now (ineligible_attempt process workerKey e); mret tt.

(** The concurrent recordings touch one row each; they run in account order. *)
Definition enumerateLifecycleAccounts (process workflow : string) (persistWorkerHealth : bool) (now : Z)
    : eff WorkerWorld (list LifecycleAccountEligibility) :=
  w ← asks wk_world;
  recovery ← lift (fun _ => summarizeTerminalClaimRecoveryByAccount w);
  let results := map (account_eligibility workflow recovery w)
                   (sort_by ta_id (find_many (fun _ => true) (tradingAccounts (xw_db w)))) in
  _ ← (if negb (String.eqb env_NODE_ENV "test") && persistWorkerHealth then
         match workerKeyByWorkflow workflow with
         | Some key => each (record_ineligible process key now) results
         | None => mret tt
         end
       else mret tt);
  mret results.
End Eligibility.

(** * Exit evaluation over the accounts *)

Record ExitEvaluationAccountResult := {
  er_account : LifecycleAccountEligibility;
  er_outcome : string;
  er_counts : ExitEvaluationCounts;
  er_failures : list (Z * string);
  er_error : option string
}.

Record ExitEvaluationSummary := {
  sm_processedAccounts : Z;
  sm_failedAccounts : Z;
  sm_credentialUnavailableAccounts : Z;
  sm_skippedAccounts : Z;
  sm_results : list ExitEvaluationAccountResult
}.

Definition with_outcome (outcome : string) (results : list ExitEvaluationAccountResult) : Z :=
  Z.of_nat (length (filterb (fun r => String.eqb (er_outcome r) outcome) results)).

Definition counts_json (c : ExitEvaluationCounts) : json :=
  JObj [("positionsEvaluated", jint (ec_positionsEvaluated c)); ("positionsSkipped", jint (ec_positionsSkipped c));
        ("exitSignalsTriggered", jint (ec_exitSignalsTriggered c));
        ("closeIntentsCreated", jint (ec_closeIntentsCreated c));
        ("protectiveOrdersSynchronized", jint (ec_protectiveOrdersSynchronized c));
        ("blockedExits", jint (ec_blockedExits c)); ("failedPositions", jint (ec_failedPositions c))].

(** [classify] of the evaluation. *)
Definition classify_evaluation (r : ExitEvaluationCounts * list (Z * string)) : AccountWorkflowClassification :=
  if 0 <? ec_failedPositions (fst r) then
    classified_failure (PlainError (z_str (ec_failedPositions (fst r)) ++ " position exit evaluation(s) failed."))
      (Some "EXIT_EVALUATION_ITEM_FAILURE") None None (Some (counts_json (fst r)))
  else classified_success (Some (0 <? ec_positionsEvaluated (fst r))) (Some (counts_json (fst r))).

Section Accounts.
Context `{Prisma} `{ExitBroker} {S : ExitServices} `{ExitAuthority} `{WorkerAttention} `{ClaimRecovery}.
Variable process : string.
(** The clock of the enumeration, of the runs and of the evaluations. *)
Variables (now : Z) (clock : Z -> nat -> Z) (evaluated_at : Z -> Z).

Definition account_result (e : LifecycleAccountEligibility) (outcome : string) (counts : ExitEvaluationCounts)
    (failures : list (Z * string)) (error : option string) : ExitEvaluationAccountResult :=
  {| er_account := e; er_outcome := outcome; er_counts := counts; er_failures := failures; er_error := error |}.

Definition evaluate_ineligible (e : LifecycleAccountEligibility) : eff WorkerWorld ExitEvaluationAccountResult :=
  if String.eqb (le_reason e) "credentials_unavailable_with_exposure" then
    _ ← world_do (createSystemEvent "exit.credentials_unavailable_with_exposure" "tradingAccount"
          (le_tradingAccountId e) (Some (le_tradingAccountId e))
          (exposureUnavailableSeverity (le_environment e)
             (String.eqb env_NODE_ENV "production" &&
              String.eqb env_LIVE_WRITE_DEPLOYMENT_ROLE "PRODUCTION_EXECUTOR"))
          (Some ("Exit evaluation cannot safely access broker credentials for " ++ le_displayName e ++ "."))
          (JObj [("workflow", JStr "exit_evaluation"); ("environment", JStr (le_environment e));
                 ("activePositions", jint (xs_activePositions (le_exposureSummary e)));
                 ("nonterminalOrders", jint (xs_nonterminalOrders (le_exposureSummary e)))]));
    mret (account_result e "CREDENTIALS_UNAVAILABLE" emptyCounts [] None)
  else mret (account_result e "SKIPPED" emptyCounts [] None).

Definition run_evaluation (e : LifecycleAccountEligibility)
    : eff WorkerWorld (AccountWorkflowRunResult (ExitEvaluationCounts * list (Z * string))) :=
  let account := le_tradingAccountId e in
  runTradingAccountWorkflow process account "exit_evaluation" "exit-evaluation"
    (world_do (evaluateExitsForAccount (evaluated_at account) account (le_environment e)))
    classify_evaluation false (clock account).

Definition evaluate_eligible (e : LifecycleAccountEligibility) : eff WorkerWorld ExitEvaluationAccountResult :=
  try_catch
    (run ← run_evaluation e;
     match run with
     | FAILED _ (Some (counts, failures)) => mret (account_result e "FAILED" counts failures None)
     | FAILED error None => throw error
     | PROCESSED (counts, failures) =>
         mret (account_result e (if 0 <? ec_failedPositions counts then "FAILED" else "PROCESSED")
                 counts failures None)
     | SKIPPED _ => mret (account_result e "SKIPPED" emptyCounts [] None)
     | LOCK_SKIPPED => mret (account_result e "LOCK_SKIPPED" emptyCounts [] None)
     | RUN_BACKING_OFF _ => mret (account_result e "BACKING_OFF" emptyCounts [] None)
     end)
    (fun error => mret (account_result e "FAILED" emptyCounts [] (Some (error_message error)))).

Definition evaluate_account (e : LifecycleAccountEligibility) : eff WorkerWorld ExitEvaluationAccountResult :=
  if le_eligible e then evaluate_eligible e else evaluate_ineligible e.

Fixpoint evaluate_accounts (accounts : list LifecycleAccountEligibility)
    : eff WorkerWorld (list ExitEvaluationAccountResult) :=
  match accounts with
  | [] => mret []
  | e :: accounts =>
      r ← evaluate_account e;
      rs ← evaluate_accounts accounts;
      mret (r :: rs)
  end.

Definition evaluateExitsForEligibleAccounts : eff WorkerWorld ExitEvaluationSummary :=
  accounts ← enumerateLifecycleAccounts process "exit_evaluation" true now;
  results ← evaluate_accounts accounts;
  mret {| sm_processedAccounts := with_outcome "PROCESSED" results;
          sm_failedAccounts := with_outcome "FAILED" results;
          sm_credentialUnavailableAccounts := with_outcome "CREDENTIALS_UNAVAILABLE" results;
          sm_skippedAccounts := with_outcome "SKIPPED" results; sm_results := results |}.
End Accounts.

(** * What a run does *)

Definition same_health (w w' : WorkerWorld) : Prop := wk_health w' = wk_health w.

#[export] Instance same_health_preorder : PreOrder same_health.
Proof. unfold same_health. split; [by intros w|]. intros a b c; congruence. Qed.

(** Only the row of one account and worker, and the events, may differ. *)
Definition same_but_row (account : Z) (key : string) (w w' : WorkerWorld) : Prop :=
  same_trading (wk_world w) (wk_world w') /\
  forall a k, (a, k) <> (account, key) -> health_of a k w' = health_of a k w.

#[export] Instance same_but_row_preorder account key : PreOrder (same_but_row account key).
Proof.
  split; [by intros w; split|]. intros a b c [H1 H2] [H3 H4]. split; [by transitivity (wk_world b)|].
  intros x k Hne. by rewrite H4, H2.
Qed.

Lemma set_row_health account key s x w : health_of account key (set_row account key s x w) = Some s.
Proof. apply lookup_insert_eq. Qed.

Lemma set_row_others account key s x w :
  same_trading (wk_world w) x -> same_but_row account key w (set_row account key s x w).
Proof.
  intros Hx. split; [done|]. intros a k Hne. unfold health_of, set_row. cbn [wk_health].
  by apply lookup_insert_ne.
Qed.

(** Every worker has a back-off cap, between a second and an hour. *)
Lemma caps_defined d key : getWorkerDefinition key = Ok d -> 1000 <= backoff_cap key <= 3600000.
Proof.
  unfold getWorkerDefinition. destruct (List.find _ workerDefinitions) as [d'|] eqn:E; [|done].
  intros _. apply List.find_some in E as [Hin Hk]. apply String.eqb_eq in Hk. subst key.
  assert (Hall : forallb (fun d => (1000 <=? backoff_cap (wd_key d)) && (backoff_cap (wd_key d) <=? 3600000))
    workerDefinitions = true) by (vm_compute; reflexivity).
  rewrite forallb_forall in Hall. specialize (Hall d' Hin). bool_hyps. lia.
Qed.

Lemma backoff_delay_bounds d key k :
  getWorkerDefinition key = Ok d -> 1 <= k ->
  1000 <= backoff_delay key k <= backoff_cap key /\ backoff_delay key k <= backoff_delay key (k + 1).
Proof.
  intros Hd Hk. pose proof (caps_defined d key Hd). unfold backoff_delay.
  assert (Hk0 : 0 <= Z.min (k - 1) 10) by lia. assert (Hk1 : Z.min (k - 1) 10 <= Z.min (k + 1 - 1) 10) by lia.
  pose proof (Z.pow_pos_nonneg 2 _ eq_refl Hk0). apply (Z.pow_le_mono_r 2) in Hk1; [|done].
  generalize dependent (2 ^ Z.min (k - 1) 10). generalize dependent (2 ^ Z.min (k + 1 - 1) 10). lia.
Qed.

(** The failures in a row when a run starts. *)
Definition failures_before (process : string) (row : option TradingAccountWorkerHealthState) : Z :=
  match row with
  | Some s => hs_consecutiveFailures s + (if run_interrupted process s then 1 else 0)
  | None => 0
  end.

Lemma begun_failures d process now row :
  hs_consecutiveFailures (begun d process now row) = failures_before process row.
Proof. destruct row as [s|]; [|done]. unfold begun. cbn. destruct (run_interrupted process s); cbn; lia. Qed.

(** The row a back-off is in force for. *)
Definition backing_off (now : Z) (row : option TradingAccountWorkerHealthState) : option Z :=
  match row ≫= hs_backoffUntil with
  | Some until => if now <? until then Some until else None
  | None => None
  end.

(** What an execution amounts to: an error, with the value it may have, or a
    value that was skipped or processed. *)
Definition run_outcome {A} (classify : A -> AccountWorkflowClassification) (x : res A)
    : AccountWorkflowRunResult A :=
  match x with
  | Throw e => FAILED e None
  | Ok v =>
      match classify v with
      | classified_failure e _ _ _ _ => FAILED e (Some v)
      | classified_success _ _ => PROCESSED v
      | _ => SKIPPED v
      end
  end.

Section RunFacts.
Context `{Prisma} {S : ExitServices} `{!ExitServicesLaws S} `{!AttentionAnswers S} `{WorkerAttention}.
Context {A : Type}.
Variables (process : string) (account : Z) (key family : string).
Variable execute : eff WorkerWorld A.
Variable classify : A -> AccountWorkflowClassification.
Variable clock : nat -> Z.
Variable d : WorkerDefinition.
Context (Hd : getWorkerDefinition key = Ok d).

Let run := runTradingAccountWorkflow process account key family execute classify false clock.
Let locked := locked_run process account key execute classify false clock.

(** The row of a failed run: one failure more, and backing off. *)
Record failed_row (k t : Z) (w : WorkerWorld) : Prop := {
  fr_row : exists s, health_of account key w = Some s /\ hs_applicable s = true /\
    hs_consecutiveFailures s = k /\ hs_backoffUntil s = Some (t + backoff_delay key k) /\
    hs_currentRunStartedAt s = None
}.

Record succeeded_row (w : WorkerWorld) : Prop := {
  sr_row : exists s, health_of account key w = Some s /\ hs_consecutiveFailures s = 0 /\
    hs_backoffUntil s = None /\ hs_lastSucceededAt s = Some (clock 3) /\ hs_currentRunStartedAt s = None
}.

Lemma failed_recorded s code el er summary e now t k w :
  health_of account key w = Some s -> hs_consecutiveFailures s + 1 = k ->
  exists w', (recordTradingAccountWorkerAttempt now
      (failed_attempt process account key clock e code el er summary (t + backoff_delay key k)) w) =
    (Ok (recorded d now (failed_attempt process account key clock e code el er summary (t + backoff_delay key k)) (Some s),
         deriveTradingAccountWorkerStatus (recorded d now (failed_attempt process account key clock e code el er
           summary (t + backoff_delay key k)) (Some s)) d now), w') /\
    failed_row k t w' /\ same_but_row account key w w' /\
    (now < t + backoff_delay key k -> wk_world w' = wk_world w).
Proof.
  intros Hs Hk.
  set (a := failed_attempt process account key clock e code el er summary (t + backoff_delay key k)).
  destruct (record_run now a d w Hd) as (x & E & Hx & Hq).
  change (health_of (at_tradingAccountId a) (at_workerKey a) w) with (health_of account key w) in *.
  rewrite Hs in *. cbn [a at_tradingAccountId at_workerKey failed_attempt] in E.
  exists (set_row account key (recorded d now a (Some s)) x w).
  split; [exact E|]. split.
  { constructor. exists (recorded d now a (Some s)). split; [apply set_row_health|].
    repeat (split; [first [done|exact Hk]|]). done. }
  split; [by apply set_row_others|]. intros Ht. apply Hq. unfold deriveTradingAccountWorkerStatus.
  change (hs_applicable (recorded d now a (Some s))) with true.
  change (hs_backoffUntil (recorded d now a (Some s))) with (Some (t + backoff_delay key k)). cbn [negb].
  by destruct (Z.ltb_spec now (t + backoff_delay key k)); [|lia].
Qed.

Lemma done_recorded s c w :
  (forall e code el er summary, c <> classified_failure e code el er summary) ->
  health_of account key w = Some s ->
  exists r w', recordTradingAccountWorkerAttempt (clock 3) (done_attempt process account key clock c) w = (Ok r, w') /\
    succeeded_row w' /\ same_but_row account key w w'.
Proof.
  intros Hc Hs. destruct (record_run (clock 3) (done_attempt process account key clock c) d w) as (x & E & Hx & _).
  { by destruct c. }
  assert (Ea : at_tradingAccountId (done_attempt process account key clock c) = account) by by destruct c.
  assert (Ek : at_workerKey (done_attempt process account key clock c) = key) by by destruct c.
  rewrite Ea, Ek in E. eexists _, _. split; [exact E|]. split; [|by apply set_row_others].
  constructor. eexists. split; [apply set_row_health|]. rewrite Hs.
  destruct c as [| | |e0 c0 l0 r0 s0]; try (cbn; done). by destruct (Hc e0 c0 l0 r0 s0).
Qed.

Definition failed_at (v : option A) : Z := match v with Some _ => clock 2 | None => clock 4 end.
Definition recorded_at (v : option A) : Z := match v with Some _ => clock 3 | None => clock 5 end.

(** What a run in state [w2] leaves, by its outcome. *)
Definition run_recorded (k : Z) (w2 w' : WorkerWorld) (o : AccountWorkflowRunResult A) : Prop :=
  same_but_row account key w2 w' /\
  match o with
  | FAILED _ v =>
      failed_row k (failed_at v) w' /\
      (recorded_at v < failed_at v + backoff_delay key k -> wk_world w' = wk_world w2)
  | _ => succeeded_row w'
  end.

Definition locked_answer (o : AccountWorkflowRunResult A) : LockedRun A :=
  match o with
  | FAILED e v => failed e v
  | PROCESSED v => ended v false
  | SKIPPED v => ended v true
  | LOCK_SKIPPED => backingOff 0
  | RUN_BACKING_OFF until => backingOff until
  end.

Lemma execute_run s w (Hexec : moves same_health execute) :
  health_of account key w = Some s ->
  exists w', execute_and_record process account key execute classify clock s w =
      (Ok (locked_answer (run_outcome classify (fst (execute w)))), w') /\
    run_recorded (hs_consecutiveFailures s + 1) (snd (execute w)) w' (run_outcome classify (fst (execute w))).
Proof.
  intros Hs. pose proof (Hexec w) as Hh. unfold execute_and_record, try_catch, mbind, eff_bind.
  destruct (execute w) as [[v|e] w2]; cbn [fst snd run_outcome] in *;
    assert (Hs2 : health_of account key w2 = Some s) by (unfold health_of; by rewrite Hh).
  - destruct (classify v) as [o su|o su|o su|e code el er su] eqn:Ec.
    1-3: destruct (done_recorded s (classify v) w2) as (r & w' & E & Hr & Hb);
      [by rewrite Ec|done|]; rewrite Ec in E; rewrite E; exists w'; split; [done|]; by split.
    destruct (failed_recorded s (default "CLASSIFIED_FAILURE" code) el er su e
      (clock 3) (clock 2) (hs_consecutiveFailures s + 1) w2 Hs2 eq_refl) as (w' & E & Hf & Hb & Hq).
    rewrite E. exists w'. split; [done|]. by split.
  - destruct (failed_recorded s "WORKFLOW_ERROR" None None None e
      (clock 5) (clock 4) (hs_consecutiveFailures s + 1) w2 Hs2 eq_refl) as (w' & E & Hf & Hb & Hq).
    rewrite E. exists w'. split; [done|]. by split.
Qed.

Definition backoff_attempt (until : Z) : Attempt :=
  {| at_tradingAccountId := account; at_workerKey := key; at_processInstanceId := process;
     at_outcome := BackoffSkipped; at_skipReason := None; at_applicable := None; at_eligible := None;
     at_eligibilityReason := None; at_workSucceeded := false; at_error := None; at_errorCode := None;
     at_summary := None; at_backoffUntil := Some (Some until); at_startedAt := Some (clock 1) |}.

Lemma locked_run_eq w :
  locked_run process account key execute classify false clock w =
  match backing_off (clock 0) (health_of account key w) with
  | Some until =>
      (_ ← recordTradingAccountWorkerAttempt (clock 1) (backoff_attempt until); mret (backingOff until)) w
  | None =>
      (startedState ← startTradingAccountWorkerRun account key process (clock 1);
       execute_and_record process account key execute classify clock startedState) w
  end.
Proof.
  unfold locked_run, backing_off. change ((asks ?f ≫= ?k) w) with (k (f w) w). cbv beta.
  destruct (_ ≫= _) as [until|]; [|done]. by destruct (clock 0 <? until).
Qed.

(** The locked part: backing off, or a run. *)
Lemma locked_cases w (Hexec : moves same_health execute) :
  match backing_off (clock 0) (health_of account key w) with
  | Some until =>
      exists s s' x, health_of account key w = Some s /\
        locked_run process account key execute classify false clock w = (Ok (backingOff until), set_row account key s' x w) /\
        same_trading (wk_world w) x /\ hs_backoffUntil s' = Some until /\
        hs_consecutiveFailures s' = hs_consecutiveFailures s
  | None =>
      exists w1 w', same_but_row account key w w1 /\
        locked_run process account key execute classify false clock w =
          (Ok (locked_answer (run_outcome classify (fst (execute w1)))), w') /\
        run_recorded (failures_before process (health_of account key w) + 1) (snd (execute w1)) w'
          (run_outcome classify (fst (execute w1)))
  end.
Proof.
  assert (Hstart : exists w1 w', same_but_row account key w w1 /\
    (startedState ← startTradingAccountWorkerRun account key process (clock 1);
     execute_and_record process account key execute classify clock startedState) w =
      (Ok (locked_answer (run_outcome classify (fst (execute w1)))), w') /\
    run_recorded (failures_before process (health_of account key w) + 1) (snd (execute w1)) w'
      (run_outcome classify (fst (execute w1)))).
  { destruct (start_run account key process (clock 1) d w Hd) as (x & E & Hx).
    set (s := begun d process (clock 1) (health_of account key w)) in *.
    destruct (execute_run s (set_row account key s x w) Hexec (set_row_health account key s x w)) as (w' & E' & Hr).
    exists (set_row account key s x w), w'. split; [by apply set_row_others|]. unfold mbind, eff_bind.
    rewrite E, E'. split; [done|]. unfold s in Hr at 1. by rewrite begun_failures in Hr. }
  rewrite locked_run_eq. destruct (backing_off _ _) as [until|] eqn:Eb; [|exact Hstart].
  unfold backing_off in Eb. destruct (health_of account key w) as [s|] eqn:Es; [|done]. cbn in Eb.
  destruct (hs_backoffUntil s) as [u|] eqn:Eu; [|done]. destruct (clock 0 <? u); simplify_eq.
  destruct (record_run (clock 1) (backoff_attempt until) d w Hd) as (x & E & Hx & _).
  exists s. eexists _, x. split; [done|]. unfold mbind, eff_bind. rewrite E. split; [reflexivity|].
  split; [done|]. cbn [backoff_attempt at_tradingAccountId at_workerKey]. rewrite Es. cbn. by rewrite Eu.
Qed.
End RunFacts.

(** * Properties *)

Section Properties.
Context `{Prisma} {S : ExitServices} `{!ExitServicesLaws S} `{!AttentionAnswers S} `{WorkerAttention}.

Lemma failed_row_backs_off account key d k t w :
  getWorkerDefinition key = Ok d -> 1 <= k -> failed_row account key k t w ->
  exists s, health_of account key w = Some s /\ hs_consecutiveFailures s = k /\
    hs_backoffUntil s = Some (t + backoff_delay key k) /\ hs_currentRunStartedAt s = None /\
    1000 <= backoff_delay key k <= backoff_cap key /\
    (forall now, now < t + backoff_delay key k -> deriveTradingAccountWorkerStatus s d now = BACKING_OFF).
Proof.
  intros Hd Hk [(s & Es & Ea & Ek & Eb & Er)]. exists s. repeat (split; [done|]).
  split; [by apply (backoff_delay_bounds d key k Hd Hk)|]. intros now Hn.
  unfold deriveTradingAccountWorkerStatus. rewrite Ea, Eb. cbn. by destruct (Z.ltb_spec now (t + backoff_delay key k)); [|lia].
Qed.

(** However the lock answers, a run answers. *)
Lemma run_answers {A} process account key family (execute : eff WorkerWorld A) classify clock d w :
  0 < account -> getWorkerDefinition key = Ok d -> moves same_health execute ->
  exists o w', runTradingAccountWorkflow process account key family execute classify false clock w = (Ok o, w') /\
    match o with
    | PROCESSED v => exists worked su, classify v = classified_success worked su
    | SKIPPED v => (forall worked su, classify v <> classified_success worked su) /\
        (forall e c l r su, classify v <> classified_failure e c l r su)
    | _ => True
    end.
Proof.
  intros Ha Hd Hexec. unfold runTradingAccountWorkflow. unfold mbind at 1, eff_bind at 1. rewrite locked_call by done.
  destruct (try_lock _ (wk_world w)) as [[]|].
  - pose proof (locked_cases process account key execute classify clock d Hd w Hexec) as Hc.
    destruct (backing_off _ _) as [until|].
    + destruct Hc as (s & s' & x & _ & -> & _). by eexists (RUN_BACKING_OFF until), _.
    + destruct Hc as (w1 & w' & _ & -> & _). unfold run_outcome. destruct (fst (execute w1)) as [v|e].
      * destruct (classify v) eqn:Ec; cbn [locked_answer]; eexists _, _; (split; [reflexivity|]); cbn; rewrite ?Ec;
          try done; by eexists _, _.
      * by eexists _, _.
  - destruct (contention_run account key process family (clock 6%nat) d w Hd) as (s & st & x & E & _).
    unfold mbind, eff_bind. rewrite E. by eexists _, _.
  - unfold lock_failure.
    match goal with |- context [recordTradingAccountWorkerAttempt ?n ?a] => destruct (record_run n a d w Hd) as (x & E & _) end.
    unfold mbind, eff_bind. rewrite E. by eexists _, _.
Qed.

(** C40. A run of one worker for one account always ends with an answer, and
    touches the health row of no other worker or account. With the lock held
    elsewhere nothing is executed and the owner's row keeps its run, failures
    and back-off; during a back-off nothing is executed and it stays in force.
    Otherwise the work is executed exactly once, and its outcome is the
    answer: a failure, thrown or classified, is one failure more in a row and
    starts a back-off of 1 s doubled per earlier failure, up to the worker's
    cap; a success clears failures and back-off. A failed run recorded within
    its back-off is reported by no event. *)
Theorem account_run_exact {A} process account key family (execute : eff WorkerWorld A) classify clock d w
    (Haccount : 0 < account) (Hd : getWorkerDefinition key = Ok d) (Hexec : moves same_health execute)
    (Hrow : forall s, health_of account key w = Some s -> 0 <= hs_consecutiveFailures s) :
  let row := health_of account key w in
  let k := failures_before process row + 1 in
  let delay := Z.min (1000 * 2 ^ Z.min (k - 1) 10) (backoff_cap key) in
  exists o w', runTradingAccountWorkflow process account key family execute classify false clock w = (Ok o, w') /\
  match try_lock (lock_scope family account) (wk_world w), backing_off (clock 0%nat) row with
  | Some true, None => exists w1, same_but_row account key w w1 /\ o = run_outcome classify (fst (execute w1)) /\
      same_but_row account key (snd (execute w1)) w' /\
      match o with
      | FAILED _ v => exists s, health_of account key w' = Some s /\ hs_consecutiveFailures s = k /\
          hs_backoffUntil s = Some (failed_at clock v + delay) /\ hs_currentRunStartedAt s = None /\
          1000 <= delay <= backoff_cap key /\
          (forall now, now < failed_at clock v + delay ->
             deriveTradingAccountWorkerStatus s d now = BACKING_OFF) /\
          (recorded_at clock v < failed_at clock v + delay -> wk_world w' = wk_world (snd (execute w1)))
      | _ => exists s, health_of account key w' = Some s /\ hs_consecutiveFailures s = 0 /\ hs_backoffUntil s = None /\
          hs_lastSucceededAt s = Some (clock 3%nat) /\ hs_currentRunStartedAt s = None
      end
  | Some true, Some until => o = RUN_BACKING_OFF until /\ same_but_row account key w w' /\
      exists s s', row = Some s /\ health_of account key w' = Some s' /\ hs_backoffUntil s' = Some until /\
        hs_consecutiveFailures s' = hs_consecutiveFailures s
  | Some false, _ => o = LOCK_SKIPPED /\ same_but_row account key w w' /\
      forall s, row = Some s -> exists s', health_of account key w' = Some s' /\
        hs_processInstanceId s' = hs_processInstanceId s /\ hs_currentRunStartedAt s' = hs_currentRunStartedAt s /\
        hs_consecutiveFailures s' = hs_consecutiveFailures s /\ hs_backoffUntil s' = hs_backoffUntil s /\
        hs_lastSucceededAt s' = hs_lastSucceededAt s /\ hs_totalLockSkips s' = hs_totalLockSkips s + 1
  | None, _ => (exists e, o = FAILED e None) /\ same_but_row account key w w' /\
      exists s, health_of account key w' = Some s /\ 1 <= hs_consecutiveFailures s /\
        hs_backoffUntil s = row ≫= hs_backoffUntil
  end.
Proof.
  cbv zeta. unfold runTradingAccountWorkflow. unfold mbind at 1, eff_bind at 1. rewrite locked_call by done.
  destruct (try_lock _ (wk_world w)) as [[]|] eqn:El.
  - pose proof (locked_cases process account key execute classify clock d Hd w Hexec) as Hc.
    destruct (backing_off _ _) as [until|].
    + destruct Hc as (s & s' & x & Es & -> & Hx & Eb & Ef). eexists _, _. split; [reflexivity|].
      split; [done|]. split; [by apply set_row_others|]. exists s, s'. split; [done|]. by rewrite set_row_health.
    + destruct Hc as (w1 & w' & Hw1 & -> & Hb & Hr). eexists (run_outcome classify (fst (execute w1))), w'.
      assert (Hk : 1 <= failures_before process (health_of account key w) + 1).
      { unfold failures_before. destruct (health_of account key w) as [s|]; [|lia].
        specialize (Hrow s eq_refl). destruct (run_interrupted _ _); lia. }
      split; [by destruct (run_outcome _ _) eqn:Eo; try (exfalso; revert Eo; unfold run_outcome; repeat case_match; discriminate)|].
      exists w1. split; [done|]. split; [done|]. split; [done|].
      destruct (run_outcome _ _) as [v|v| |u|e v]; try by destruct Hr.
      destruct Hr as [Hr Hq]. destruct (failed_row_backs_off account key d _ _ w' Hd Hk Hr) as (s & ? & ? & ? & ? & ? & ?).
      by exists s.
  - destruct (contention_run account key process family (clock 6%nat) d w Hd) as (s & st & x & E & Hx & Es).
    exists LOCK_SKIPPED, (set_row account key s x w). unfold mbind, eff_bind. rewrite E. split; [done|].
    split; [done|]. split; [by apply set_row_others|]. intros s0 Es0. exists s. rewrite set_row_health.
    rewrite Es0 in Es. by subst s.
  - unfold lock_failure.
    match goal with |- context [recordTradingAccountWorkerAttempt ?n ?a] => destruct (record_run n a d w Hd) as (x & E & Hx & _) end.
    eexists _, _. unfold mbind, eff_bind. rewrite E. split; [reflexivity|]. split; [by eexists|].
    split; [by apply set_row_others|]. cbn [at_tradingAccountId at_workerKey]. rewrite set_row_health. eexists. split; [done|].
    destruct (health_of account key w) as [s|] eqn:Es; cbn; [|done]. specialize (Hrow s eq_refl). split; [change (1 <= hs_consecutiveFailures s + 1); lia|done].
Qed.

Context `{ExitBroker} `{ExitAuthority} `{ClaimRecovery}.

(** Every outcome an account can have. *)
Definition account_answered (e : LifecycleAccountEligibility) (r : ExitEvaluationAccountResult) : Prop :=
  er_account r = e /\
  (if le_eligible e
   then member (er_outcome r) ["PROCESSED"; "FAILED"; "LOCK_SKIPPED"; "BACKING_OFF"] = true
   else er_outcome r = if String.eqb (le_reason e) "credentials_unavailable_with_exposure"
                       then "CREDENTIALS_UNAVAILABLE" else "SKIPPED") /\
  (er_outcome r = "PROCESSED" -> ec_failedPositions (er_counts r) <= 0).

Lemma evaluate_account_answers process clock evaluated_at e w :
  exists r w', evaluate_account process clock evaluated_at e w = (Ok r, w') /\ account_answered e r.
Proof.
  unfold evaluate_account, account_answered. destruct (le_eligible e).
  2: { unfold evaluate_ineligible. destruct (String.eqb _ _); eexists _, _; (split; [reflexivity|]); done. }
  unfold evaluate_eligible, run_evaluation, try_catch.
  destruct (Z_lt_dec 0 (le_tradingAccountId e)) as [Ha|Ha].
  2: { unfold mbind, eff_bind, runTradingAccountWorkflow, mbind, eff_bind, withTradingAccountWorkflowLock.
       destruct (Z.leb_spec (le_tradingAccountId e) 0); [|lia]. cbn. eexists _, _. split; [reflexivity|]. done. }
  set (execute := world_do _).
  assert (Hexec : moves same_health execute).
  { intros x. unfold execute, world_do. by destruct (evaluateExitsForAccount _ _ _ (wk_world x)). }
  destruct (run_answers process (le_tradingAccountId e) "exit_evaluation" "exit-evaluation" execute
    classify_evaluation (clock (le_tradingAccountId e)) _ w Ha eq_refl Hexec) as (o & w' & E & Ho).
  unfold mbind, eff_bind. rewrite E. unfold classify_evaluation in Ho.
  destruct o as [[counts fs]|[counts fs]| |u|er [[counts fs]|]]; cbn in Ho |- *.
  - destruct Ho as (worked & su & Ho). destruct (Z.ltb_spec 0 (ec_failedPositions counts)); [done|].
    eexists _, _. split; [reflexivity|]. done.
  - destruct Ho as [H1' H2']. destruct (Z.ltb_spec 0 (ec_failedPositions counts));
      [by destruct (H2' _ _ _ _ _ eq_refl)|by destruct (H1' _ _ eq_refl)].
  - by eexists _, _.
  - by eexists _, _.
  - by eexists _, _.
  - by eexists _, _.
Qed.

Lemma evaluate_accounts_answer process clock evaluated_at es w :
  exists rs w', evaluate_accounts process clock evaluated_at es w = (Ok rs, w') /\ Forall2 account_answered es rs.
Proof.
  revert w. induction es as [|e es IH]; intros w; [by eexists [], w|]. cbn [evaluate_accounts].
  destruct (evaluate_account_answers process clock evaluated_at e w) as (r & w1 & E & Hr).
  destruct (IH w1) as (rs & w2 & E' & Hrs). unfold mbind, eff_bind. rewrite E, E'.
  eexists _, _. split; [reflexivity|]. by constructor.
Qed.

Lemma record_ineligible_answers process key d now es w :
  getWorkerDefinition key = Ok d ->
  exists w', each (record_ineligible process key now) es w = (Ok tt, w') /\ same_trading (wk_world w) (wk_world w').
Proof.
  intros Hd.
  assert (Hone : forall e w, exists w', record_ineligible process key now e w = (Ok tt, w') /\
    same_trading (wk_world w) (wk_world w')).
  { intros e x. unfold record_ineligible. destruct (le_eligible e); [by exists x|].
    destruct (record_run now (ineligible_attempt process key e) d x Hd) as (y & E & Hy & _).
    unfold mbind, eff_bind. rewrite E. eexists. by split. }
  revert w. induction es as [|e es IH]; intros w; [by exists w|]. cbn [each].
  destruct (Hone e w) as (w1 & E1 & H1'). destruct (IH w1) as (w2 & E2 & H2').
  exists w2. unfold mbind, eff_bind. rewrite E1. split; [exact E2|by etrans].
Qed.

Lemma Forall2_answer {A B} (R : A -> B -> Prop) l l' y :
  Forall2 R l l' -> In y l' -> exists x, In x l /\ R x y.
Proof.
  induction 1 as [|a b l l' Hab _ IH]; [done|]. intros [->|Hy]; [exists a; split; [by left|done]|].
  destruct (IH Hy) as (x & Hx & HR). exists x. split; [by right|done].
Qed.

Lemma filter_true {A} (l : list A) : List.filter (fun _ => true) l = l.
Proof. induction l as [|a l IH]; [done|]. cbn. by rewrite IH. Qed.

Lemma exposed_eligibility `{!PrismaLaws _} recovery w a p :
  In p (trackedPositions (xw_db w)) -> tp_tradingAccountId p = Some (ta_id a) ->
  tp_status p = "open" \/ tp_status p = "closing" ->
  let e := account_eligibility "exit_evaluation" recovery w a in
  if bool_decide (ta_credentialStatus a = Some "ACTIVE") then le_eligible e = true
  else le_eligible e = false /\ le_reason e = "credentials_unavailable_with_exposure".
Proof.
  intros Hp Ha Hs.
  assert (Hc : 0 < count (active_account_position (ta_id a)) (trackedPositions (xw_db w))).
  { pose proof (count_nonneg (active_account_position (ta_id a)) (trackedPositions (xw_db w))).
    destruct (Z.eq_dec (count (active_account_position (ta_id a)) (trackedPositions (xw_db w))) 0) as [E|]; [|lia].
    apply count_zero with (x := p) in E; [|done]. unfold active_account_position, opt_eqb in E. rewrite Ha, (bool_decide_eq_true_2 _ eq_refl) in E.
    by destruct Hs as [Hs|Hs]; rewrite Hs in E. }
  apply Z.ltb_lt in Hc. cbv zeta. unfold account_eligibility, workflow_has_work.
  assert (Hx : xs_hasLifecycleWork (exposure_summary recovery w (ta_id a)) = true).
  { unfold exposure_summary. cbn [xs_hasLifecycleWork]. rewrite Hc, !orb_true_r. by rewrite ?orb_true_l. }
  assert (Hn : xs_activePositions (exposure_summary recovery w (ta_id a)) =
    count (active_account_position (ta_id a)) (trackedPositions (xw_db w))) by done.
  destruct (bool_decide _); cbn [negb String.eqb Ascii.eqb Bool.eqb]; rewrite ?Hn, ?Hc, Hx; done.
Qed.

(** The exit evaluation over all accounts answers for every account, whatever
    the others did: one result each, in the order of the ids, on the exposure
    found at its start. An account with an open or closing position is never
    skipped: with active credentials it is evaluated (its failure, a lock held
    elsewhere or a back-off being reported as such), without them it is reported
    as unavailable. [PROCESSED] means no position failed. *)
Theorem every_account_answered `{!PrismaLaws _} process now clock evaluated_at w recovery
    (Hrecovery : summarizeTerminalClaimRecoveryByAccount (wk_world w) = Ok recovery) :
  let accounts := sort_by ta_id (find_many (fun _ => true) (tradingAccounts (xw_db (wk_world w)))) in
  exists summary w', evaluateExitsForEligibleAccounts process now clock evaluated_at w = (Ok summary, w') /\
    map er_account (sm_results summary) = map (account_eligibility "exit_evaluation" recovery (wk_world w)) accounts /\
    Permutation accounts (tradingAccounts (xw_db (wk_world w))) /\
    forall r, In r (sm_results summary) -> exists a, In a accounts /\
      er_account r = account_eligibility "exit_evaluation" recovery (wk_world w) a /\
      ((exists p, In p (trackedPositions (xw_db (wk_world w))) /\ tp_tradingAccountId p = Some (ta_id a) /\
          (tp_status p = "open" \/ tp_status p = "closing")) ->
       if bool_decide (ta_credentialStatus a = Some "ACTIVE")
       then In (er_outcome r) ["PROCESSED"; "FAILED"; "LOCK_SKIPPED"; "BACKING_OFF"]
       else er_outcome r = "CREDENTIALS_UNAVAILABLE") /\
      (er_outcome r = "PROCESSED" -> ec_failedPositions (er_counts r) <= 0).
Proof.
  cbv zeta. set (accounts := sort_by _ _).
  assert (Hen : exists w1, enumerateLifecycleAccounts process "exit_evaluation" true now w =
    (Ok (map (account_eligibility "exit_evaluation" recovery (wk_world w)) accounts), w1)).
  { unfold enumerateLifecycleAccounts, mbind, eff_bind, asks, lift. rewrite Hrecovery.
    destruct (negb _ && true); [|by eexists]. cbn [workerKeyByWorkflow].
    destruct (record_ineligible_answers process "exit_evaluation" _ now
      (map (account_eligibility "exit_evaluation" recovery (wk_world w)) accounts) w eq_refl) as (w1 & E & _).
    exists w1. change (workerKeyByWorkflow "exit_evaluation") with (Some "exit_evaluation"). cbv beta iota zeta.
    fold accounts. by rewrite E. }
  destruct Hen as [w1 Hen].
  destruct (evaluate_accounts_answer process clock evaluated_at
    (map (account_eligibility "exit_evaluation" recovery (wk_world w)) accounts) w1) as (rs & w2 & E & Hrs).
  unfold evaluateExitsForEligibleAccounts, mbind, eff_bind. rewrite Hen, E. eexists _, w2. split; [reflexivity|].
  cbn [sm_results]. split.
  { clear - Hrs. induction Hrs as [|e r es rs [Hr _] _ IH]; [done|]. cbn. by rewrite Hr, IH. }
  split; [unfold accounts; rewrite sort_by_perm, find_many_perm; unfold filterb; by rewrite filter_true|].
  intros r Hr. destruct (Forall2_answer _ _ _ _ Hrs Hr) as (e & He & Hre & Ho & Hp).
  apply in_map_iff in He as (a & <- & Ha). exists a. split; [done|]. split; [done|]. split; [|done].
  intros (p & Hpin & Hpa & Hps). pose proof (exposed_eligibility recovery (wk_world w) a p Hpin Hpa Hps) as Hx.
  cbv zeta in Hx. case_bool_decide.
  - rewrite Hx in Ho. by apply member_In.
  - destruct Hx as [Hx Hy]. by rewrite Hx, Hy in Ho.
Qed.
End Properties.

(** * Concrete inputs *)

#[local] Existing Instance in_order.
#[local] Existing Instance answering_services.
#[local] Existing Instance evaluator_services_laws.
#[local] Existing Instance accepting_broker.
#[local] Instance answering_attention : AttentionAnswers answering_services.
Proof. split; intros; by eexists. Qed.
#[local] Instance no_worker_attention : WorkerAttention := {| worker_attention := fun _ _ => None |}.
#[local] Instance sample_authority : ExitAuthority := granted "AUTHORIZED".
#[local] Instance nothing_to_recover : ClaimRecovery :=
  {| summarizeTerminalClaimRecoveryByAccount := fun _ => Ok (fun _ => None) |}.

(** Two positions, one of which fails; no health row yet. *)
Definition first_run : WorkerWorld := {| wk_world := two_positions; wk_health := ∅ |}.
Definition sample_clock (n : nat) : Z := 1767323100000 + Z.of_nat n.
Definition sample_evaluation : eff WorkerWorld (ExitEvaluationCounts * list (Z * string)) :=
  world_do (evaluateExitsForAccount 1767323100000 1 "PAPER").

Lemma sample_keeps_health : moves same_health sample_evaluation.
Proof. intros w. unfold sample_evaluation, world_do. by destruct (evaluateExitsForAccount _ _ _ (wk_world w)). Qed.

Lemma account_run_exact_witness :
  exists e v w' s, runTradingAccountWorkflow "p1" 1 "exit_evaluation" "exit-evaluation" sample_evaluation
      classify_evaluation false sample_clock first_run = (Ok (FAILED e v), w') /\
    health_of 1 "exit_evaluation" w' = Some s /\ hs_consecutiveFailures s = 1 /\
    hs_backoffUntil s = Some (1767323101002).
Proof.
  destruct (account_run_exact "p1" 1 "exit_evaluation" "exit-evaluation" sample_evaluation classify_evaluation
    sample_clock _ first_run eq_refl eq_refl sample_keeps_health ltac:(done)) as (o & w' & E & w1 & _ & Ho & _ & Hf).
  assert (Eo : exists e v, runTradingAccountWorkflow "p1" 1 "exit_evaluation" "exit-evaluation" sample_evaluation
    classify_evaluation false sample_clock first_run = (Ok (FAILED e (Some v)), w')).
  { vm_compute in E. injection E as E1 E2. subst o w'. eexists _, _. vm_compute. reflexivity. }
  destruct Eo as (e & v & Eo). rewrite Eo in E. injection E as <-.
  destruct Hf as (s & Hs & Hk & Hb & _). exists e, (Some v), w', s. split; [exact Eo|]. split; [exact Hs|].
  split; [rewrite Hk; vm_compute; reflexivity|rewrite Hb; vm_compute; reflexivity].
Defined.

Lemma every_account_answered_witness :
  exists summary w', evaluateExitsForEligibleAccounts "p1" 1767323100000 (fun _ => sample_clock)
      (fun _ => 1767323100000) first_run = (Ok summary, w') /\
    map er_outcome (sm_results summary) = ["FAILED"] /\
    map (fun r => xr_symbol (snd r)) (sent (wk_world w')) = ["AAPL"].
Proof.
  destruct (every_account_answered (H3 := nothing_to_recover) "p1" 1767323100000 (fun _ => sample_clock) (fun _ => 1767323100000) first_run
    (fun _ => None) eq_refl) as (summary & w' & E & _).
  exists summary, w'. split; [exact E|]. vm_compute in E. injection E as <- <-. vm_compute. split; reflexivity.
Defined.
