(* ===== verification/EntryWorld.v ===== *)
(** The state the entry side works on - the database, the recorded system
    events and the entry orders handed to the broker adapter - the statements
    the dispatch, recovery and worker services run on it, and what they rely on
    from the broker and from other services. *)

From Stdlib Require Import ZArith.
From Stdlib Require Import Strings.String.
From Stdlib Require Import Floats.SpecFloat.
From stdpp Require Import base list strings.
From S2P Require Import Prelude JsNumber JsValue JsDate Prisma OrderStatus DeliveryEvidence Schema BrokerAccount.
From S2P Require Import ExposureClaim ExitWorld.

Open Scope string_scope.
Open Scope Z_scope.

(** * State *)

(** [AlpacaEntryOrderRequest]; the optional fields absent from a request are
    [None], [extended_hours] is only ever sent as true. *)
Record AlpacaEntryOrderRequest := {
  er_symbol : string;
  er_side : string;
  er_type : string;
  er_time_in_force : string;
  er_qty : option string;
  er_notional : option string;
  er_limit_price : option string;
  er_extended_hours : bool;
  er_client_order_id : string
}.

(** The context under which a LIVE entry consumes its one-shot arming. *)
Record NewPositionEntryAuthorizationContext := {
  np_subtype : string;
  np_orderIntentId : Z;
  np_tradingAccountSubscriptionId : Z;
  np_subscriptionId : Z;
  np_symbol : string;
  np_side : string;
  np_clientOrderId : string
}.

(** One invocation of the entry adapter, and the intent it was made for. *)
Record EntryPost := {
  ep_orderIntentId : Z;
  ep_tradingAccountId : Z;
  ep_request : AlpacaEntryOrderRequest;
  ep_context : option NewPositionEntryAuthorizationContext
}.

(** [ew_posts] lists the invocations of the entry adapter, in order. *)
Record EntryWorld := {
  ew_db : Db;
  ew_events : list SystemEvent;
  ew_posts : list EntryPost
}.

Definition set_ew_db (f : Db -> Db) (w : EntryWorld) : EntryWorld :=
  {| ew_db := f (ew_db w); ew_events := ew_events w; ew_posts := ew_posts w |}.
Definition set_ew_events (f : list SystemEvent -> list SystemEvent) (w : EntryWorld) : EntryWorld :=
  {| ew_db := ew_db w; ew_events := f (ew_events w); ew_posts := ew_posts w |}.
Definition set_ew_posts (f : list EntryPost -> list EntryPost) (w : EntryWorld) : EntryWorld :=
  {| ew_db := ew_db w; ew_events := ew_events w; ew_posts := f (ew_posts w) |}.

(** * What the broker and other services provide *)

(** A prepared dispatch: what its final authorization is about. *)
Record PreparedEntryBrokerDispatch := {
  pd_enforcement : string;
  pd_orderIntentId : Z;
  pd_decisionId : option Z
}.

(** The broker's reads may answer differently at each program point and in
    each state, and may fail; so may the answer to a request handed to the
    entry adapter, which for a LIVE account consumes an arming first. *)
Class EntryBroker := {
  entry_order_by_client_id : nat -> Z -> string -> EntryWorld -> res (option AlpacaOrder);
  entry_open_buys : nat -> Z -> string -> EntryWorld -> res (list AlpacaOrder);
  entry_position : nat -> Z -> string -> EntryWorld -> res (option AlpacaPosition);
  entry_answer : EntryPost -> eff EntryWorld AlpacaOrder
}.

(** Services with state of their own: the broker-observation telemetry, the
    market-policy dispatch guard, adaptive polling, and a digest. *)
Class EntryServices := {
  (** [bestEffortAppendBrokerOpportunityEvent] for an opportunity or for the
      newest one of an intent. *)
  bestEffortAppendBrokerOpportunityEvent : option Z -> option Z -> string -> json -> eff EntryWorld unit;
  bestEffortCaptureOrderIntentBrokerPostOpportunity : Z -> eff EntryWorld (option Z);
  prepareEntryBrokerDispatch : Z -> Z -> string -> string -> eff EntryWorld PreparedEntryBrokerDispatch;
  authorizeDispatch : PreparedEntryBrokerDispatch -> option Z -> eff EntryWorld unit;
  forceAfterBrokerOrderCreated : Z -> string -> eff EntryWorld unit;
  sha256_hex : json -> string
}.

(** Everything but the telemetry, the dispatch records and the system events:
    what these services never touch. *)
Definition same_entry (w w' : EntryWorld) : Prop :=
  ew_posts w' = ew_posts w /\ orderIntents (ew_db w') = orderIntents (ew_db w) /\
  claims (ew_db w') = claims (ew_db w) /\ claimEvents (ew_db w') = claimEvents (ew_db w) /\
  brokerOrders (ew_db w') = brokerOrders (ew_db w) /\
  brokerActivities (ew_db w') = brokerActivities (ew_db w) /\
  trackedPositions (ew_db w') = trackedPositions (ew_db w).

#[export] Instance same_entry_preorder : PreOrder same_entry.
Proof.
  unfold same_entry. split; [by intros w|].
  intros a b c (H1 & H2 & H3 & H4 & H5 & H6 & H7) (K1 & K2 & K3 & K4 & K5 & K6 & K7).
  repeat split; congruence.
Qed.

(** The telemetry of one event type: rows of that type may be appended, and
    nothing else is touched. *)
Definition observed_only (eventType : string) (w w' : EntryWorld) : Prop :=
  exists l, w' = set_ew_db (set_opportunityEvents (fun t => (t ++ l)%list)) w /\
    forall e, In e l -> oe_eventType e = eventType.

Class EntryServicesLaws (S : EntryServices) : Prop := {
  append_only : forall o i t j, moves (observed_only t) (bestEffortAppendBrokerOpportunityEvent o i t j);
  append_total : forall o i t j w, exists w', bestEffortAppendBrokerOpportunityEvent o i t j w = (Ok tt, w');
  capture_quiet : forall i, moves same_entry (bestEffortCaptureOrderIntentBrokerPostOpportunity i);
  capture_total : forall i w, exists o w', bestEffortCaptureOrderIntentBrokerPostOpportunity i w = (Ok o, w');
  prepare_quiet : forall i a s c, moves same_entry (prepareEntryBrokerDispatch i a s c);
  dispatch_quiet : forall d o, moves same_entry (authorizeDispatch d o);
  created_quiet : forall a r, moves same_entry (forceAfterBrokerOrderCreated a r)
}.

Lemma append_quiet `{EntryServicesLaws} o i t j : moves same_entry (bestEffortAppendBrokerOpportunityEvent o i t j).
Proof. intros w. destruct (append_only o i t j w) as (l & E & _). rewrite E. by repeat split. Qed.

Class EntryBrokerLaws (B : EntryBroker) : Prop := {
  answer_quiet : forall p, moves same_entry (entry_answer p)
}.

(** * Statements on order intents *)

Section Intents.
Context `{Prisma}.
Variable now : Z.

(** [orderIntent.updateMany]: the count of rows matched. *)
Definition update_order_intents (where_ : OrderIntent -> bool) (status : option string)
    (blockReason : option (option string)) : eff Db Z := fun db =>
  let '(rows, n) := update_many where_ (intent_data now status blockReason) (orderIntents db) in
  (Ok n, set_orderIntents (fun _ => rows) db).

(** [orderIntent.update]: a missing row is an error. *)
Definition update_order_intent (id : Z) (status : option string) (blockReason : option (option string))
    : eff Db unit :=
  n ← update_order_intents (fun i => oi_id i =? id) status blockReason;
  if n =? 0 then throw (CodedError "P2025" "PrismaClientKnownRequestError" "No record was found for an update.")
  else mret tt.

Definition find_order_intent (id : Z) (db : Db) : option OrderIntent :=
  find_first (fun i => oi_id i =? id) (orderIntents db).
End Intents.

(** * Statements *)

Section Statements.
(** What other sessions do before a statement, and whether the database is
    out of service there: arbitrary at every program point. *)
Variable interfere : nat -> Db -> Db.
Variable outage : nat -> Db -> option js_error.

Definition step (n : nat) : eff EntryWorld unit := fun w =>
  let w' := set_ew_db (interfere n) w in
  match outage n (ew_db w') with
  | Some e => (Throw e, w')
  | None => (Ok tt, w')
  end.

(** A database program run on the world. *)
Definition run_db {A} (m : eff Db A) : eff EntryWorld A := fun w =>
  let '(r, db) := m (ew_db w) in (r, set_ew_db (fun _ => db) w).

(** A statement that may find the database out of service. *)
Definition db_call {A} (n : nat) (m : eff Db A) : eff EntryWorld A := _ ← step n; run_db m.

(** [prisma.$transaction]: nothing of a failed one stays; the commit of the
    other may be acknowledged or not, at the point after. *)
Definition db_transaction {A} (n : nat) (m : eff Db A) : eff EntryWorld A :=
  x ← db_call n (transaction m);
  _ ← step (100 + n);
  mret x.

Definition db_read {A} (n : nat) (f : Db -> A) : eff EntryWorld A := db_call n (asks f).

(** [.catch(() => d)] *)
Definition or_else {A} (m : eff EntryWorld A) (d : A) : eff EntryWorld A :=
  try_catch m (fun _ => mret d).

(** [createSystemEvent] *)
Definition system_event (n : nat) (type entityType : string) (entityId : Z)
    (tradingAccountId : option Z) (severity : Severity) (message : option string) (payload : json)
    : eff EntryWorld unit :=
  _ ← step n;
  modify (set_ew_events (fun l => (l ++ [{| se_type := type; se_entityType := entityType;
    se_entityId := z_str entityId; se_tradingAccountId := tradingAccountId; se_severity := severity;
    se_message := message; se_payload := payload |}])%list)).

(** [createSystemEvent(...).catch(() => undefined)] *)
Definition best_effort_event (n : nat) (type entityType : string) (entityId : Z)
    (tradingAccountId : option Z) (severity : Severity) (message : option string) (payload : json)
    : eff EntryWorld unit :=
  or_else (system_event n type entityType entityId tradingAccountId severity message payload) tt.
End Statements.
