(* ===== verification/DispatchEvidence.v ===== *)
(** Evidence about the dispatch of an entry: the reading half of
    services/entry-dispatch-recovery.service.ts. What the database says about a
    possible POST, how a failure is recorded, what release basis recorded
    outcomes give, the proof of a failure before dispatch, and the recovery
    state of a terminal entry's claim. *)

From Stdlib Require Import ZArith Lia.
From Stdlib Require Import Strings.String.
From Stdlib Require Import Floats.SpecFloat.
From stdpp Require Import base list strings.
From S2P Require Import Prelude JsNumber JsValue JsDate Prisma OrderStatus DeliveryEvidence Schema BrokerAccount.
From S2P Require Import ExposureClaim EntryWorld.

Open Scope string_scope.
Open Scope Z_scope.

Definition ENTRY_DISPATCH_REJECTION_SETTLE_MS : Z := 60000.
Definition ENTRY_DISPATCH_RECOVERY_RETRY_MS : Z := 60000.
Definition ENTRY_DISPATCH_RECOVERY_BATCH_LIMIT : nat := 3.
Definition DEFINITIVE_BROKER_REJECTION_STATUS_CODES : list Z := [400; 401; 403; 404; 422; 429].
Definition TERMINAL_ENTRY_INTENT_STATUSES : list string :=
  ["failed"; "blocked"; "rejected"; "canceled"; "cancelled"; "expired"].
Definition DISPATCH_OPPORTUNITY_EVENT_TYPES : list string :=
  ["ADAPTER_DISPATCH_REACHED"; "BROKER_RESPONSE_CONFIRMED"; "BROKER_REJECTED"; "DELIVERY_UNCERTAIN"].
Definition TERMINAL_BROKER_ORDER_STATUSES : list string :=
  ["filled"; "canceled"; "cancelled"; "expired"; "rejected"].
Definition PRE_DISPATCH_CLAIM_STATUSES : list string :=
  ["ENTRY_PENDING"; "ENTRY_SUBMITTING"; "ADMISSION_BLOCKED"].
Definition RECOVERABLE_CLAIM_STATUSES : list string := (PRE_DISPATCH_CLAIM_STATUSES ++ ["UNRESOLVED"])%list.

Definition CONTRADICTIONS : list string :=
  ["IDENTITY_MISMATCH"; "LOCAL_BROKER_ORDER_PRESENT"; "LOCAL_BROKER_ACTIVITY_PRESENT";
   "LOCAL_POSITION_PRESENT"; "LOCAL_EXECUTABLE_BUY_PRESENT"; "UNATTRIBUTED_BUY_FILL_PRESENT";
   "BROKER_ORDER_FOUND"; "BROKER_ORDER_IDENTITY_CONFLICT"; "BROKER_BUY_ORDER_PRESENT";
   "BROKER_POSITION_PRESENT"].

(** [text ? text.slice(0, 300) : null] *)
Definition clipped (text : option string) : json :=
  match text with
  | Some s => if String.eqb s "" then JNull else JStr (String.substring 0 300 s)
  | None => JNull
  end.
Definition clipped_message (e : js_error) : string := String.substring 0 300 (error_message e).

(** [b ? [label] : []] *)
Definition flag (b : bool) (label : string) : list string := if b then [label] else [].

(** * Classifications *)

Definition entryDispatchOutcomeFor (classification : option string) : string :=
  match classification with
  | Some c =>
      if String.eqb c "NOT_SENT_BLOCKED" then "NOT_SENT_LOCAL_BLOCKED"
      else if String.eqb c "NOT_SENT_RETRYABLE" then "NOT_SENT_LOCAL_RETRYABLE"
      else if String.eqb c "BROKER_REJECTED" then "BROKER_REJECTED"
      else "DELIVERY_UNCERTAIN"
  | None => "DELIVERY_UNCERTAIN"
  end.

Definition adapterInvocationFor (classification : string) : string :=
  if String.eqb classification "NOT_SENT_DISPATCH_RECORD_ACK_LOST" then "NOT_INVOKED"
  else if String.eqb classification "NOT_SENT_LOCAL_BLOCKED" ||
          String.eqb classification "NOT_SENT_LOCAL_RETRYABLE" then "LOCAL_GUARD_BEFORE_REQUEST"
  else if String.eqb classification "BROKER_REJECTED" then "HTTP_RESPONSE_RECEIVED"
  else "UNKNOWN".

Definition deliveryProof (classification : string) : string :=
  if String.eqb classification "NOT_SENT_DISPATCH_RECORD_ACK_LOST" then "ADAPTER_NOT_INVOKED_BY_THIS_ATTEMPT"
  else if member classification LOCAL_NON_SEND_CLASSIFICATIONS then "ADAPTER_FAILED_BEFORE_NETWORK_REQUEST"
  else if String.eqb classification "BROKER_REJECTED" then "HTTP_REJECTION_RESPONSE_REQUIRES_BROKER_VERIFICATION"
  else "NONE_DELIVERY_UNCERTAIN".

(** * Dispatch records *)

Record EntryDispatchRecords := {
  rec_consumption : option DispatchConsumption;
  rec_unenforced : option UnenforcedDispatch;
  rec_dispatchEvents : Z;
  rec_liveArming : option LiveArmingTermination
}.

Definition is_some {A} (o : option A) : bool := match o with Some _ => true | None => false end.

(** A market-policy dispatch record whose commit may have lost its acknowledgement. *)
Definition rec_durable (r : EntryDispatchRecords) : bool :=
  is_some (rec_consumption r) || is_some (rec_unenforced r).
Definition rec_present (r : EntryDispatchRecords) : bool :=
  is_some (rec_consumption r) || is_some (rec_unenforced r) || is_some (rec_liveArming r) ||
  (0 <? rec_dispatchEvents r).
Definition rec_startedAt (r : EntryDispatchRecords) : option Z :=
  match rec_consumption r, rec_unenforced r, rec_liveArming r with
  | Some c, _, _ => Some (dc_consumedAt c)
  | None, Some u, _ => Some (ud_authorizedAt u)
  | None, None, Some t => Some (lt_occurredAt t)
  | None, None, None => None
  end.

Definition recordIdentity (r : EntryDispatchRecords) : list (string * json) :=
  [("consumptionId", jopt (fun c => jint (dc_id c)) (rec_consumption r));
   ("dispatchDecisionId", jopt (fun c => jint (dd_id (dc_decision c))) (rec_consumption r));
   ("dispatchDecisionOutcome", jopt (fun c => JStr (dd_outcome (dc_decision c))) (rec_consumption r));
   ("unenforcedDispatchId", jopt (fun u => jint (ud_id u)) (rec_unenforced r));
   ("unenforcedDispatchBasis", jopt (fun u => JStr (ud_basis u)) (rec_unenforced r));
   ("liveArmingTerminationId", jopt (fun t => jint (lt_id t)) (rec_liveArming r));
   ("dispatchOpportunityEvents", jint (rec_dispatchEvents r))].

(** * Release basis *)

Record DispatchReleaseBasis := {
  rb_basis : option string;
  rb_conclusiveness : string;
  rb_blocker : option string
}.

Definition definitive_status (statusCode : option num) : bool :=
  match statusCode with
  | Some n => existsb (fun k => num_same n (num_of_Z k)) DEFINITIVE_BROKER_REJECTION_STATUS_CODES
  | None => false
  end.

(** [Math.max(...l)] of a list that is not empty. *)
Fixpoint max_of (first : Z) (l : list Z) : Z :=
  match l with [] => first | x :: l => max_of (Z.max first x) l end.

Definition evaluateDispatchReleaseBasis (outcomes : list DeliveryOutcome) (now : Z) : DispatchReleaseBasis :=
  let ambiguous blocker :=
    {| rb_basis := None; rb_conclusiveness := "AMBIGUOUS_ABSENCE"; rb_blocker := Some blocker |} in
  let conclusive basis :=
    {| rb_basis := Some basis; rb_conclusiveness := "CONCLUSIVE"; rb_blocker := None |} in
  match outcomes with
  | [] => ambiguous "DISPATCH_OUTCOME_NOT_RECORDED"
  | _ =>
      if existsb (fun o => negb (member (out_classification o) LOCAL_NON_SEND_CLASSIFICATIONS) &&
                           negb (String.eqb (out_classification o) "BROKER_REJECTED")) outcomes
      then ambiguous "DELIVERY_OUTCOME_UNCERTAIN"
      else match filterb (fun o => String.eqb (out_classification o) "BROKER_REJECTED") outcomes with
      | [] => conclusive "DEFINITE_LOCAL_NON_SEND"
      | r :: rejections =>
          if existsb (fun o => negb (definitive_status (out_statusCode o))) (r :: rejections)
          then ambiguous "BROKER_REJECTION_NOT_DEFINITIVE"
          else if now - max_of (out_recordedAt r) (map out_recordedAt rejections) <?
                  ENTRY_DISPATCH_REJECTION_SETTLE_MS
          then {| rb_basis := None; rb_conclusiveness := "PENDING";
                  rb_blocker := Some "BROKER_REJECTION_SETTLING" |}
          else conclusive "CONFIRMED_BROKER_REJECTION"
      end
  end.

(** * Reading and recording, in one transaction *)

(** [String(error.details.code ?? '')] of an [HttpError] with object details. *)
Definition details_code (e : js_error) : string :=
  match e with
  | HttpError _ _ d => match jfield "code" d with Some JNull | None => "" | Some v => js_to_string v end
  | _ => ""
  end.

(** Errors that are themselves evidence about delivery or ownership. *)
Definition PRE_DISPATCH_PROOF_EXCLUDED_ERROR_CODES : list string :=
  ["EXISTING_BROKER_ORDER_IDENTITY_MISMATCH"; "PRIOR_ENTRY_DISPATCH_EVIDENCE";
   "ENTRY_EXPOSURE_IDENTITY_MISMATCH"; "ENTRY_EXPOSURE_UNRESOLVED";
   "INVALID_ENTRY_EXPOSURE_TRANSITION"; "ENTRY_EXPOSURE_STALE_TRANSITION"].

Definition isPreDispatchProofCandidateError (e : js_error) : bool :=
  match e with
  | DeliveryError _ _ _ => false
  | _ => negb (member (details_code e) PRE_DISPATCH_PROOF_EXCLUDED_ERROR_CODES)
  end.

(** Why a worker failure is not proven to precede the dispatch, and the facts
    it was judged by. *)
Record WorkerPreDispatchProof := {
  wp_claimId : option Z;
  wp_blockers : list string;
  wp_proof : json
}.
Definition wp_proven (p : WorkerPreDispatchProof) : bool :=
  match wp_blockers p with [] => true | _ => false end.

(** What recording an outcome did. *)
Record RecordedOutcome := {
  ro_claim : option EntryExposureClaim;
  ro_newlyUnresolved : bool;
  ro_evidence : option json;
  ro_claimId : option Z;
  ro_tradingAccountId : option Z;
  ro_records : option EntryDispatchRecords
}.

Section Evidence.
Context `{Prisma}.
Variable now : Z.
Variable interfere : nat -> Db -> Db.
#[local] Notation await n := (ExposureClaim.await interfere n).

Definition loadEntryDispatchRecords (orderIntentId : Z) (db : Db) : EntryDispatchRecords :=
  {| rec_consumption := find_first (fun d => dc_orderIntentId d =? orderIntentId) (dispatchConsumptions db);
     rec_unenforced := find_first (fun d => ud_orderIntentId d =? orderIntentId) (unenforcedDispatches db);
     rec_dispatchEvents := count (fun e => (oe_orderIntentId e =? orderIntentId) &&
       member (oe_eventType e) DISPATCH_OPPORTUNITY_EVENT_TYPES) (opportunityEvents db);
     rec_liveArming := find_first (fun t => opt_eqb (lt_orderIntentId t) orderIntentId &&
       String.eqb (lt_type t) "CONSUMED") (armingTerminations db) |}.

Definition claim_summary (db : Db) (claimId : Z) : DeliveryEvidenceSummary :=
  summarizeDeliveryEvidence (loadDeliveryEvidenceEvents claimId (claimEvents db)).

(** The immutable classification of a failed delivery, and the claim moved to
    UNRESOLVED: it keeps its exposure. *)
Definition recordEntryDispatchOutcome (orderIntentId : Z) (classification source : string)
    (observation : option OutcomeObservation) (statusCode : option num) (message : option string)
    (records : option EntryDispatchRecords) : eff Db RecordedOutcome :=
  _ ← await 200;
  loaded ← asks (loadEntryDispatchRecords orderIntentId);
  let records := default loaded records in
  _ ← await 201;
  claim ← find_claim (by_intent orderIntentId);
  let nothing evidence := {| ro_claim := claim; ro_newlyUnresolved := false; ro_evidence := evidence;
    ro_claimId := None; ro_tradingAccountId := None; ro_records := None |} in
  match claim with
  | None => mret (nothing None)
  | Some c =>
  if is_some (cl_releasedAt c) then mret (nothing None)
  else
  intent ← asks (fun db => intent_of db c);
  let observation := default (if String.eqb source "WORKER" then OBSERVED else INFERRED) observation in
  let evidence := JObj ([("classification", JStr classification); ("statusCode", jopt JNum statusCode);
    ("source", JStr source);
    ("observation", JStr (match observation with OBSERVED => "OBSERVED" | INFERRED => "INFERRED" end));
    ("adapterInvocation", JStr (adapterInvocationFor classification));
    ("dispatchRecordPresent", JBool (rec_present records)); ("orderIntentId", jint orderIntentId);
    ("clientOrderId", jopt JStr (intent ≫= oi_clientOrderId))] ++ recordIdentity records ++
    [("message", clipped message); ("deliveryProof", JStr (deliveryProof classification));
     ("executionAuthority", JStr "NONE"); ("originalIntentResubmission", JStr "PROHIBITED")])%list in
  if negb (member (cl_status c) RECOVERABLE_CLAIM_STATUSES) then
    (* the claim already reflects broker exposure *)
    _ ← await 202;
    _ ← appendEntryExposureClaimDiagnostic now interfere (cl_id c) "DISPATCH_OUTCOME_NOT_APPLIED"
          (JObj [("claimStatus", JStr (cl_status c)); ("outcome", evidence)]);
    mret (nothing (Some evidence))
  else
    _ ← await 203;
    updated ← transitionEntryExposureClaim now interfere orderIntentId "UNRESOLVED"
                "DISPATCH_OUTCOME_RECORDED" (Some evidence);
    mret {| ro_claim := updated; ro_newlyUnresolved := negb (String.eqb (cl_status c) "UNRESOLVED");
            ro_evidence := Some evidence; ro_claimId := Some (cl_id c);
            ro_tradingAccountId := Some (cl_tradingAccountId c); ro_records := Some records |}
  end.

(** ** Local exposure *)

Record LocalExposure := {
  le_brokerOrders : Z;
  le_brokerActivities : Z;
  le_activePositions : Z;
  le_localExecutableBuys : Z;
  le_unattributedFills : Z;
  le_trackedPositionAttached : bool
}.

(** A BUY fill after the dispatch may have started, attributed to no intent. *)
Definition unattributed_fill (claim : EntryExposureClaim) (symbol : string) (startedAt : option Z)
    (a : BrokerActivity) : bool :=
  opt_eqb (ba_tradingAccountId a) (cl_tradingAccountId claim) && String.eqb (ba_activityType a) "FILL" &&
  bool_decide (option_map to_lower (ba_side a) = Some "buy") &&
  bool_decide (option_map to_lower (ba_symbol a) = Some (to_lower symbol)) &&
  bool_decide (ba_orderIntentId a = None) &&
  match startedAt with
  | None => true
  | Some t => match ba_transactionTime a with None => true | Some x => t - 60000 <=? x end
  end.

Definition executable_buy (claim : EntryExposureClaim) (o : BrokerOrder) : bool :=
  opt_eqb (bo_tradingAccountId o) (cl_tradingAccountId claim) && (bo_securityId o =? cl_securityId claim) &&
  String.eqb (to_lower (bo_side o)) "buy" && negb (member (bo_status o) TERMINAL_BROKER_ORDER_STATUSES).

Definition localExposure (claim : EntryExposureClaim) (orderIntentId : Z) (symbol : string)
    (startedAt : option Z) (db : Db) : LocalExposure :=
  {| le_brokerOrders := count (fun o => bo_orderIntentId o =? orderIntentId) (brokerOrders db);
     le_brokerActivities := count (fun a => opt_eqb (ba_orderIntentId a) orderIntentId) (brokerActivities db);
     le_activePositions := count (active_position (cl_tradingAccountId claim) (cl_securityId claim))
       (trackedPositions db);
     le_localExecutableBuys := count (executable_buy claim) (brokerOrders db);
     le_unattributedFills := count (unattributed_fill claim symbol startedAt) (brokerActivities db);
     le_trackedPositionAttached := is_some (cl_trackedPositionId claim) |}.

(** The local contradictions of a release. *)
Definition local_blockers (l : LocalExposure) : list string :=
  (flag (0 <? le_brokerOrders l) "LOCAL_BROKER_ORDER_PRESENT" ++
   flag (0 <? le_brokerActivities l) "LOCAL_BROKER_ACTIVITY_PRESENT" ++
   flag ((0 <? le_activePositions l) || le_trackedPositionAttached l) "LOCAL_POSITION_PRESENT" ++
   flag (0 <? le_localExecutableBuys l) "LOCAL_EXECUTABLE_BUY_PRESENT" ++
   flag (0 <? le_unattributedFills l) "UNATTRIBUTED_BUY_FILL_PRESENT")%list.

(** ** The proof of a failure before dispatch *)

Definition protocol_claim (e : DeliveryEvidenceEvent) : bool :=
  bool_decide (string_field "markerProtocol" (record_ (ev_json e)) = Some ADAPTER_MARKER_PROTOCOL).

Definition proveWorkerPreDispatchNonDelivery (orderIntentId tradingAccountId : Z)
    : eff Db WorkerPreDispatchProof :=
  _ ← await 210;
  claim ← find_claim (by_intent orderIntentId);
  match claim with
  | None => mret {| wp_claimId := None; wp_blockers := ["CLAIM_MISSING"]; wp_proof := JObj [] |}
  | Some c =>
  _ ← await 211;
  db ← get;
  let intent := find_order_intent orderIntentId db in
  let events := loadDeliveryEvidenceEvents (cl_id c) (claimEvents db) in
  let records := loadEntryDispatchRecords orderIntentId db in
  let brokerOrders := count (fun o => bo_orderIntentId o =? orderIntentId) (brokerOrders db) in
  let brokerActivities := count (fun a => opt_eqb (ba_orderIntentId a) orderIntentId) (brokerActivities db) in
  let summary := summarizeDeliveryEvidence events in
  let workerClaims := filterb (fun e => String.eqb (ev_type e) WORKER_CLAIMED_EVENT) events in
  let protocolClaims := filterb protocol_claim workerClaims in
  let intent_is (p : OrderIntent -> bool) := match intent with Some i => p i | None => false end in
  let blockers :=
    (flag (is_some (cl_releasedAt c)) "CLAIM_RELEASED" ++
     flag (negb (String.eqb (cl_status c) "ENTRY_SUBMITTING")) "CLAIM_NOT_SUBMITTING" ++
     flag (negb (cl_tradingAccountId c =? tradingAccountId) ||
           negb (intent_is (fun i => opt_eqb (oi_tradingAccountId i) tradingAccountId))) "ACCOUNT_MISMATCH" ++
     flag (is_some (cl_trackedPositionId c)) "POSITION_ATTACHED" ++
     flag (negb (intent_is (fun i => String.eqb (oi_status i) "submitting"))) "INTENT_NOT_SUBMITTING" ++
     flag (intent_is (fun i => negb (String.eqb (default "" (oi_blockReason i)) "")))
       "INTENT_PRIOR_OUTCOME_RECORDED" ++
     flag (bool_decide (protocolClaims = [])) "MARKER_PROTOCOL_NOT_ESTABLISHED" ++
     flag (1 <? Z.of_nat (length workerClaims)) "MULTIPLE_SUBMISSION_CLAIMS" ++
     flag (0 <? sum_adapterMarkers summary) "ADAPTER_INVOCATION_MARKER_PRESENT" ++
     flag (0 <? Z.of_nat (length (sum_outcomes summary))) "PRIOR_DELIVERY_OUTCOME_RECORDED" ++
     flag (rec_present records) "DISPATCH_RECORD_PRESENT" ++
     flag (0 <? brokerOrders) "LOCAL_BROKER_ORDER_PRESENT" ++
     flag (0 <? brokerActivities) "LOCAL_BROKER_ACTIVITY_PRESENT")%list in
  mret {| wp_claimId := Some (cl_id c); wp_blockers := blockers;
    wp_proof := JObj ([("basis", JStr "ADAPTER_MARKER_V1_NO_INVOCATION_MARKER");
      ("submissionPhase", JStr "UNCLASSIFIED");
      ("workerClaimEventId", jopt (fun e => jint (ev_id e)) (head protocolClaims));
      ("adapterMarkers", jint (sum_adapterMarkers summary));
      ("recordedOutcomes", jint (Z.of_nat (length (sum_outcomes summary))))] ++
      recordIdentity records ++
      [("brokerOrders", jint brokerOrders); ("brokerActivities", jint brokerActivities)])%list |}
  end.
End Evidence.

(** * Inference from a block reason *)

Definition is_upper_or_underscore (c : Ascii.ascii) : bool :=
  let n := Ascii.nat_of_ascii c in ((65 <=? n)%nat && (n <=? 90)%nat) || (n =? 95)%nat.

(** The longest prefix of capital letters and underscores: its length, the rest. *)
Fixpoint upper_run (s : string) : nat * string :=
  match s with
  | String c s' => if is_upper_or_underscore c then let '(n, r) := upper_run s' in (Datatypes.S n, r) else (O, s)
  | EmptyString => (O, s)
  end.

(** The text after a prefix. *)
Definition after_prefix (prefix s : string) : option string :=
  if String.prefix prefix s
  then Some (String.substring (String.length prefix) (String.length s - String.length prefix) s)
  else None.

(** [/^MARKET_POLICY_BROKER_TIME:[A-Z_]+:DEFINITELY_NOT_SENT/] *)
Definition policy_not_sent (s : string) : bool :=
  match after_prefix "MARKET_POLICY_BROKER_TIME:" s with
  | Some r =>
      let '(n, rest) := upper_run r in negb (n =? 0)%nat && String.prefix ":DEFINITELY_NOT_SENT" rest
  | None => false
  end.

(** [/status (\d{3})/]: the number of the first match. *)
Fixpoint status_in (s : string) : option Z :=
  match after_prefix "status " s with
  | Some (String a (String b (String c _))) =>
      if is_digit a && is_digit b && is_digit c
      then Some (100 * digit_value a + 10 * digit_value b + digit_value c)
      else match s with String _ s' => status_in s' | EmptyString => None end
  | _ => match s with String _ s' => status_in s' | EmptyString => None end
  end.

Definition inferEntryDispatchOutcome (blockReason : option string) : string * option num :=
  let reason := default "" blockReason in
  match blockReasonDeliveryClassification (Some reason) with
  | Some write =>
      (entryDispatchOutcomeFor (Some write),
       if String.eqb write "BROKER_REJECTED" then option_map num_of_Z (status_in reason) else None)
  | None =>
      if policy_not_sent reason || String.prefix "ENTRY_DISPATCH_RECORDED_NOT_SENT" reason ||
         String.prefix "LOCAL_PRE_DISPATCH_FAILURE" reason
      then ("NOT_SENT_DISPATCH_RECORD_ACK_LOST", None)
      else ("DISPATCH_OUTCOME_UNKNOWN", None)
  end.

(** * The recovery state of a terminal entry's claim *)

Inductive TerminalClaimRecoveryState :=
| AUTOMATIC_NEVER_SUBMITTED_RELEASE
| AUTOMATIC_NOT_SENT_EVIDENCE_RECORDING
| AUTOMATIC_OUTCOME_RECORDING
| AUTOMATIC_VERIFIED_RELEASE
| OPERATOR_INVESTIGATION
| PROTECTED_EXPOSURE.

#[export] Instance recovery_state_eq_dec : EqDecision TerminalClaimRecoveryState.
Proof. solve_decision. Defined.

Definition recovery_state_str (s : TerminalClaimRecoveryState) : string :=
  match s with
  | AUTOMATIC_NEVER_SUBMITTED_RELEASE => "AUTOMATIC_NEVER_SUBMITTED_RELEASE"
  | AUTOMATIC_NOT_SENT_EVIDENCE_RECORDING => "AUTOMATIC_NOT_SENT_EVIDENCE_RECORDING"
  | AUTOMATIC_OUTCOME_RECORDING => "AUTOMATIC_OUTCOME_RECORDING"
  | AUTOMATIC_VERIFIED_RELEASE => "AUTOMATIC_VERIFIED_RELEASE"
  | OPERATOR_INVESTIGATION => "OPERATOR_INVESTIGATION"
  | PROTECTED_EXPOSURE => "PROTECTED_EXPOSURE"
  end.

Definition AUTOMATIC_STATES : list TerminalClaimRecoveryState :=
  [AUTOMATIC_NEVER_SUBMITTED_RELEASE; AUTOMATIC_NOT_SENT_EVIDENCE_RECORDING;
   AUTOMATIC_OUTCOME_RECORDING; AUTOMATIC_VERIFIED_RELEASE].

Definition LEGACY_NOT_SENT_BLOCK_REASON (s : string) : bool :=
  policy_not_sent s || String.prefix "LOCAL_PRE_DISPATCH_FAILURE:" s.

(** A claim of a terminal entry intent, with everything its recovery reads. *)
Record TerminalClaimCandidate := {
  tc_id : Z;
  tc_status : string;
  tc_tradingAccountId : Z;
  tc_securityId : Z;
  tc_symbol : string;
  tc_lastDiagnosedAt : option Z;
  tc_trackedPositionId : option Z;
  ti_id : Z;
  ti_status : string;
  ti_clientOrderId : option string;
  ti_blockReason : option string;
  ti_rawRequestJson : json;
  ti_consumptionId : option Z;
  ti_dispatchDecisionId : option Z;
  ti_dispatchDecisionOutcome : option string;
  ti_unenforcedDispatchId : option Z;
  ti_unenforcedDispatchBasis : option string;
  ti_dispatchOpportunityEvents : Z;
  ti_brokerOrders : Z;
  tc_liveArmingConsumed : bool;
  tc_events : list DeliveryEvidenceEvent
}.

(** The structured not-sent evidence a code-classified legacy failure gives. *)
Definition legacyNotSentEvidence (candidate : TerminalClaimCandidate) : option (NotSentClassification * string) :=
  let local := blockReasonDeliveryClassification (ti_blockReason candidate) in
  if bool_decide (local = Some "NOT_SENT_BLOCKED") then
    Some (NOT_SENT_LOCAL_BLOCKED, "TERMINAL_SWEEP_LEGACY_LOCAL_CLASSIFICATION")
  else if bool_decide (local = Some "NOT_SENT_RETRYABLE") then
    Some (NOT_SENT_LOCAL_RETRYABLE, "TERMINAL_SWEEP_LEGACY_LOCAL_CLASSIFICATION")
  else if LEGACY_NOT_SENT_BLOCK_REASON (default "" (ti_blockReason candidate)) then
    Some (NOT_SENT_PRE_DISPATCH, "TERMINAL_SWEEP_LEGACY_LOCAL_CLASSIFICATION")
  else
    let risk := jfield "riskEvaluation" (record_ (ti_rawRequestJson candidate)) in
    match risk ≫= jfield "allowed", risk ≫= string_field "reason" with
    | Some (JBool false), Some reason =>
        if String.eqb (ti_status candidate) "blocked" &&
           bool_decide (ti_blockReason candidate = Some reason)
        then Some (NOT_SENT_PRE_DISPATCH, "TERMINAL_SWEEP_RISK_EVALUATION_BLOCKED") else None
    | _, _ => None
    end.

Record TerminalClaimClassification := {
  cf_state : TerminalClaimRecoveryState;
  cf_blocker : option string;
  cf_summary : DeliveryEvidenceSummary;
  cf_basis : DispatchReleaseBasis;
  cf_recordsPresent : bool;
  cf_notSent : option (NotSentClassification * string)
}.
Definition cf_automatic (c : TerminalClaimClassification) : bool :=
  bool_decide (cf_state c ∈ AUTOMATIC_STATES).

Definition truthy_id (o : option Z) : bool := match o with Some i => negb (i =? 0) | None => false end.

Definition classifyTerminalEntryClaim (candidate : TerminalClaimCandidate) (now : Z)
    : TerminalClaimClassification :=
  let summary := summarizeDeliveryEvidence (tc_events candidate) in
  let recordsPresent := truthy_id (ti_consumptionId candidate) || truthy_id (ti_unenforcedDispatchId candidate) ||
    (0 <? ti_dispatchOpportunityEvents candidate) || tc_liveArmingConsumed candidate in
  let basis := evaluateDispatchReleaseBasis (sum_outcomes summary) now in
  let result_with state blocker notSent := {| cf_state := state; cf_blocker := blocker; cf_summary := summary;
    cf_basis := basis; cf_recordsPresent := recordsPresent; cf_notSent := notSent |} in
  let result state blocker := result_with state blocker None in
  if (0 <? ti_brokerOrders candidate) || is_some (tc_trackedPositionId candidate) then
    result PROTECTED_EXPOSURE (Some "BROKER_ORDER_OR_POSITION_EVIDENCE")
  else if member (tc_status candidate) PRE_DISPATCH_CLAIM_STATUSES then
    if recordsPresent || (0 <? Z.of_nat (length (sum_dispatchOutcomes summary))) then
      result AUTOMATIC_OUTCOME_RECORDING (Some "DISPATCH_OUTCOME_NOT_RECORDED")
    else if proven (evaluateNeverSubmittedRelease (tc_status candidate) summary (ti_blockReason candidate)) then
      result AUTOMATIC_NEVER_SUBMITTED_RELEASE None
    else if String.eqb (tc_status candidate) "ENTRY_SUBMITTING" && sum_markerProtocol summary &&
            (sum_adapterMarkers summary =? 0) then
      result_with AUTOMATIC_NOT_SENT_EVIDENCE_RECORDING None
        (Some (NOT_SENT_PRE_DISPATCH, "TERMINAL_SWEEP_ADAPTER_NOT_INVOKED"))
    else match (if sum_adapterMarkers summary =? 0 then legacyNotSentEvidence candidate else None) with
    | Some legacy => result_with AUTOMATIC_NOT_SENT_EVIDENCE_RECORDING None (Some legacy)
    | None => result AUTOMATIC_OUTCOME_RECORDING (Some "DELIVERY_OUTCOME_UNKNOWN_NO_DISPATCH_RECORD")
    end
  else if negb (String.eqb (tc_status candidate) "UNRESOLVED") then
    result PROTECTED_EXPOSURE (Some "CLAIM_STATUS_NOT_RECOVERABLE")
  else if bool_decide (length (sum_outcomes summary) = O) then
    if recordsPresent then result AUTOMATIC_OUTCOME_RECORDING (Some "DISPATCH_OUTCOME_NOT_RECORDED")
    else result OPERATOR_INVESTIGATION (Some "NO_DELIVERY_EVIDENCE")
  else if String.eqb (rb_conclusiveness basis) "AMBIGUOUS_ABSENCE" then
    result OPERATOR_INVESTIGATION
      (if negb recordsPresent && bool_decide (rb_blocker basis = Some "DELIVERY_OUTCOME_UNCERTAIN") &&
          negb (sum_adapterRequestObserved summary)
       then Some "DELIVERY_OUTCOME_UNKNOWN_NO_DISPATCH_RECORD" else rb_blocker basis)
  else result AUTOMATIC_VERIFIED_RELEASE (rb_blocker basis).

Definition due (lastDiagnosedAt : option Z) (now : Z) : bool :=
  match lastDiagnosedAt with
  | None => true
  | Some t => t <=? now - ENTRY_DISPATCH_RECOVERY_RETRY_MS
  end.
Definition isDue (candidate : TerminalClaimCandidate) (now : Z) : bool := due (tc_lastDiagnosedAt candidate) now.
