(* ===== verification/DispatchRecovery.v ===== *)
(** Evidence-based recovery of entry exposure claims: the acting half of
    services/entry-dispatch-recovery.service.ts. The verified release, the
    never-submitted release with its routes, and the sweeps over the claims of
    terminal entries and of abandoned admissions. *)

From Stdlib Require Import ZArith Lia.
From Stdlib Require Import Strings.String.
From Stdlib Require Import Floats.SpecFloat.
From stdpp Require Import base list strings.
From S2P Require Import Prelude JsNumber JsValue JsDate Prisma OrderStatus DeliveryEvidence Schema BrokerAccount.
From S2P Require Import ExposureClaim ExitWorld EntryWorld DispatchEvidence.

Open Scope string_scope.
Open Scope Z_scope.

(** * Assessment *)

(** The fresh evidence about one claim, and what it blocks. *)
Record EntryClaimReleaseAssessment := {
  as_claim : EntryExposureClaim;
  as_intent : OrderIntent;
  as_symbol : string;
  as_environment : option string;
  as_records : EntryDispatchRecords;
  as_summary : DeliveryEvidenceSummary;
  as_basis : option string;
  as_conclusiveness : string;
  as_local : LocalExposure;
  as_order : option AlpacaOrder;
  as_openBuys : list AlpacaOrder;
  as_position : option AlpacaPosition;
  as_lookupError : option string;
  as_identityMismatches : list string;
  as_blockers : list string;
  as_evidenceEventCount : Z
}.

Definition as_eligible (a : EntryClaimReleaseAssessment) : bool :=
  bool_decide (as_blockers a = []) && is_some (as_basis a).
Definition as_dispatchStartedAt (a : EntryClaimReleaseAssessment) : option Z := rec_startedAt (as_records a).
Definition as_dispatchRecordPresent (a : EntryClaimReleaseAssessment) : bool := rec_present (as_records a).

Definition outcomeView (summary : DeliveryEvidenceSummary) : json :=
  JArr (map (fun o => JObj
    [("eventId", jint (out_eventId o));
     ("kind", JStr (match out_kind o with
        | OUTCOME => "OUTCOME" | NOT_SENT => "NOT_SENT" | UNPAIRED_ADAPTER_MARKER => "UNPAIRED_ADAPTER_MARKER" end));
     ("classification", JStr (out_classification o)); ("statusCode", jopt JNum (out_statusCode o));
     ("observation", JStr (match out_observation o with OBSERVED => "OBSERVED" | INFERRED => "INFERRED" end));
     ("adapterInvocation", JStr (out_adapterInvocation o))]) (sum_outcomes summary)).

Definition local_json (l : LocalExposure) : json :=
  JObj [("brokerOrders", jint (le_brokerOrders l)); ("brokerActivities", jint (le_brokerActivities l));
        ("activePositions", jint (le_activePositions l));
        ("localExecutableBuys", jint (le_localExecutableBuys l));
        ("unattributedFills", jint (le_unattributedFills l));
        ("trackedPositionAttached", JBool (le_trackedPositionAttached l))].

Definition assessed_order_json (o : AlpacaOrder) : json :=
  JObj [("id", JStr (rawo_id o)); ("clientOrderId", JStr (rawo_client_order_id o));
        ("symbol", JStr (rawo_symbol o)); ("side", JStr (rawo_side o)); ("status", JStr (rawo_status o));
        ("filledQty", json_of_raw (rawo_filled_qty o))].
Definition assessed_position_json (p : AlpacaPosition) : json :=
  JObj [("symbol", JStr (rawp_symbol p)); ("side", JStr (rawp_side p)); ("qty", json_of_raw (rawp_qty p))].

Definition disposition (a : EntryClaimReleaseAssessment) : string :=
  if as_dispatchRecordPresent a then "DISPATCHED_ENTRY_VERIFIED_NO_EXPOSURE"
  else "NO_DISPATCH_RECORD_VERIFIED_NO_EXPOSURE".

(** What the fingerprint binds: every fact of the release and no clock value. *)
Definition assessment_evidence (a : EntryClaimReleaseAssessment) : list (string * json) :=
  let c := as_claim a in let i := as_intent a in
  [("disposition", JStr (disposition a));
   ("claim", JObj [("id", jint (cl_id c)); ("status", JStr (cl_status c));
      ("tradingAccountId", jint (cl_tradingAccountId c)); ("securityId", jint (cl_securityId c));
      ("symbol", JStr (as_symbol a)); ("orderIntentId", jint (oi_id i));
      ("trackedPositionId", jopt jint (cl_trackedPositionId c))]);
   ("orderIntent", JObj [("id", jint (oi_id i)); ("status", JStr (oi_status i));
      ("clientOrderId", jopt JStr (oi_clientOrderId i)); ("environment", jopt JStr (as_environment a))]);
   ("dispatch", JObj (recordIdentity (as_records a)));
   ("dispatchRecordPresent", JBool (as_dispatchRecordPresent a));
   ("recordedOutcomes", outcomeView (as_summary a));
   ("adapterMarkers", jint (sum_adapterMarkers (as_summary a)));
   ("basis", jopt JStr (as_basis a)); ("conclusiveness", JStr (as_conclusiveness a));
   ("local", local_json (as_local a));
   ("broker", JObj [("order", jopt assessed_order_json (as_order a));
      ("openBuyOrders", JArr (map (fun o => JObj [("id", JStr (rawo_id o));
         ("clientOrderId", JStr (rawo_client_order_id o)); ("status", JStr (rawo_status o));
         ("qty", json_of_raw (rawo_qty o))]) (as_openBuys a)));
      ("position", jopt assessed_position_json (as_position a)); ("lookupError", jopt JStr (as_lookupError a))]);
   ("identityMismatches", jstrs (as_identityMismatches a)); ("blockers", jstrs (as_blockers a))].

(** The broker evidence of an assessment, or why it could not be read. *)
Record BrokerReads := {
  br_order : option AlpacaOrder;
  br_openBuys : list AlpacaOrder;
  br_position : option AlpacaPosition;
  br_lookupError : option string
}.
Definition no_broker_reads (error : option string) : BrokerReads :=
  {| br_order := None; br_openBuys := []; br_position := None; br_lookupError := error |}.

Definition identity_mismatches (claim : EntryExposureClaim) (intent : OrderIntent) (symbol : string)
    (records : EntryDispatchRecords) : list string :=
  let coid_differs (k : string) := negb (bool_decide (oi_clientOrderId intent = Some k)) in
  (flag (negb (opt_eqb (oi_tradingAccountId intent) (cl_tradingAccountId claim))) "ACCOUNT" ++
   flag (negb (String.eqb (to_upper (trim (oi_symbol intent))) symbol)) "SECURITY" ++
   flag (negb (String.eqb (to_lower (trim (oi_side intent))) "buy")) "SIDE" ++
   flag (String.eqb (default "" (oi_clientOrderId intent)) "") "CLIENT_ORDER_ID_MISSING" ++
   flag (match rec_consumption records with
         | Some c =>
             let d := dc_decision c in
             coid_differs (dc_clientOrderId c) || coid_differs (dd_clientOrderId d) ||
             negb (dd_orderIntentId d =? oi_id intent) ||
             negb (dd_tradingAccountId d =? cl_tradingAccountId claim) ||
             match dd_securityId d with Some s => negb (s =? cl_securityId claim) | None => false end
         | None => false
         end) "CONSUMPTION" ++
   flag (match rec_unenforced records with
         | Some u => coid_differs (ud_clientOrderId u) || negb (ud_tradingAccountId u =? cl_tradingAccountId claim) ||
                     negb (ud_securityId u =? cl_securityId claim)
         | None => false
         end) "UNENFORCED_DISPATCH" ++
   flag (match rec_liveArming records with
         | Some t => match lt_clientOrderId t with Some k => coid_differs k | None => false end
         | None => false
         end) "LIVE_ARMING")%list.

Definition order_conflict (intent : OrderIntent) (symbol : string) (o : AlpacaOrder) : bool :=
  negb (bool_decide (oi_clientOrderId intent = Some (rawo_client_order_id o))) ||
  negb (String.eqb (to_upper (trim (rawo_symbol o))) symbol) ||
  negb (String.eqb (to_lower (trim (rawo_side o))) "buy").

(** Everything that stands in the way of a release. *)
Definition release_blockers (claim : EntryExposureClaim) (intent : OrderIntent) (symbol : string)
    (records : EntryDispatchRecords) (summary : DeliveryEvidenceSummary) (basis : DispatchReleaseBasis)
    (local : LocalExposure) (broker : BrokerReads) : list string :=
  let recorded := (0 <? Z.of_nat (length (sum_outcomes summary))) || rec_present records in
  let dispatchEvidence := rec_present records || (0 <? Z.of_nat (length (sum_dispatchOutcomes summary))) in
  (flag (is_some (cl_releasedAt claim)) "CLAIM_ALREADY_RELEASED" ++
   flag (negb recorded) "NO_DELIVERY_EVIDENCE" ++
   match rb_blocker basis with Some b => flag recorded b | None => [] end ++
   (if negb (member (cl_status claim) RECOVERABLE_CLAIM_STATUSES) then ["CLAIM_STATUS_NOT_RECOVERABLE"]
    else flag (dispatchEvidence && negb (String.eqb (cl_status claim) "UNRESOLVED")) "CLAIM_OUTCOME_NOT_RECORDED") ++
   flag (negb (bool_decide (identity_mismatches claim intent symbol records = []))) "IDENTITY_MISMATCH" ++
   flag (negb (member (oi_status intent) TERMINAL_ENTRY_INTENT_STATUSES)) "INTENT_NOT_TERMINAL" ++
   local_blockers local ++
   flag (is_some (br_lookupError broker)) "BROKER_LOOKUP_FAILED" ++
   match br_order broker with
   | Some o => [if order_conflict intent symbol o then "BROKER_ORDER_IDENTITY_CONFLICT" else "BROKER_ORDER_FOUND"]
   | None => []
   end ++
   flag (0 <? Z.of_nat (length (br_openBuys broker))) "BROKER_BUY_ORDER_PRESENT" ++
   flag (is_some (br_position broker)) "BROKER_POSITION_PRESENT")%list.

Definition conclusiveness_of (blockers : list string) (basis : DispatchReleaseBasis) : string :=
  if existsb (fun b => member b CONTRADICTIONS) blockers then "CONTRADICTED"
  else if String.eqb (rb_conclusiveness basis) "AMBIGUOUS_ABSENCE" then "AMBIGUOUS_ABSENCE"
  else match blockers with [] => "CONCLUSIVE" | _ => "PENDING" end.

Definition assess (claim : EntryExposureClaim) (intent : OrderIntent) (symbol : string)
    (environment : option string) (records : EntryDispatchRecords) (events : list DeliveryEvidenceEvent)
    (local : LocalExposure) (broker : BrokerReads) (now : Z) : EntryClaimReleaseAssessment :=
  let summary := summarizeDeliveryEvidence events in
  let basis := evaluateDispatchReleaseBasis (sum_outcomes summary) now in
  let blockers := release_blockers claim intent symbol records summary basis local broker in
  {| as_claim := claim; as_intent := intent; as_symbol := symbol; as_environment := environment;
     as_records := records; as_summary := summary; as_basis := rb_basis basis;
     as_conclusiveness := conclusiveness_of blockers basis; as_local := local;
     as_order := br_order broker; as_openBuys := br_openBuys broker; as_position := br_position broker;
     as_lookupError := br_lookupError broker;
     as_identityMismatches := identity_mismatches claim intent symbol records;
     as_blockers := blockers; as_evidenceEventCount := Z.of_nat (length events) |}.

(** * Releases *)

Inductive ReleaseMode := SYSTEM | OPERATOR.
Definition mode_str (m : ReleaseMode) : string := match m with SYSTEM => "SYSTEM" | OPERATOR => "OPERATOR" end.

Record DispatchedEntryReleaseResult := {
  dr_released : bool;
  dr_reason : string;
  dr_assessment : option EntryClaimReleaseAssessment
}.

Inductive UnsubmittedOutcome :=
| RELEASED | ALREADY_RELEASED | NOT_RELEASED | ROUTED_TO_EVIDENCE_RECOVERY | REFUSED_RETAINED
| RETRYABLE_FAILURE.
#[export] Instance unsubmitted_outcome_eq_dec : EqDecision UnsubmittedOutcome.
Proof. solve_decision. Defined.

Record UnsubmittedReleaseResult := {
  ur_outcome : UnsubmittedOutcome;
  ur_attemptRecorded : option bool
}.
Definition ur_released (r : UnsubmittedReleaseResult) : bool := bool_decide (ur_outcome r = RELEASED).

(** [error.code], [error.name], or unknown. *)
Definition errorCode (e : js_error) : string :=
  match e with
  | CodedError code _ _ => code
  | MarketPolicyBrokerDispatchRefusedError outcome _ _ _ => "MARKET_POLICY_BROKER_TIME_" ++ outcome
  | EntryDispatchRecordedNotSentError _ _ => "ENTRY_DISPATCH_RECORD_EXISTS"
  | e => error_name e
  end.

Fixpoint join_commas (l : list string) : string :=
  match l with [] => "" | [x] => x | x :: l => x ++ "," ++ join_commas l end.

Definition domain_conflict (e : js_error) : bool :=
  match e with
  | HttpError 409 _ _ => member (details_code e)
      ["ENTRY_EXPOSURE_UNRESOLVED"; "INVALID_ENTRY_EXPOSURE_TRANSITION"; "ENTRY_EXPOSURE_STALE_TRANSITION"]
  | _ => false
  end.
Definition error_details (e : js_error) : json :=
  match e with HttpError _ _ (JObj d) => JObj d | HttpError _ _ (JArr l) => JArr l | _ => JNull end.

Section Recovery.
Context `{Prisma} `{EntryBroker} `{EntryServices}.
Variable now : Z.
Variable interfere : nat -> Db -> Db.
Variable outage : nat -> Db -> option js_error.
#[local] Notation await n := (ExposureClaim.await interfere n).
#[local] Notation step n := (EntryWorld.step interfere outage n).
#[local] Notation db_call n m := (EntryWorld.db_call interfere outage n m).
#[local] Notation db_read n f := (EntryWorld.db_read interfere outage n f).
#[local] Notation db_transaction n m := (EntryWorld.db_transaction interfere outage n m).
#[local] Notation best_effort_event n := (EntryWorld.best_effort_event interfere outage n).

(** The three broker reads, and the error of the first that fails. *)
Definition read_broker (claim : EntryExposureClaim) (clientOrderId symbol : string) : eff EntryWorld BrokerReads :=
  try_catch
    (order ← lift (entry_order_by_client_id 1 (cl_tradingAccountId claim) clientOrderId);
     openBuys ← lift (entry_open_buys 2 (cl_tradingAccountId claim) symbol);
     position ← lift (entry_position 3 (cl_tradingAccountId claim) symbol);
     mret {| br_order := order; br_openBuys := openBuys; br_position := position; br_lookupError := None |})
    (fun error => mret (no_broker_reads (Some (clipped_message error)))).

Definition environment_of (db : Db) (i : OrderIntent) : option string :=
  a ← oi_tradingAccountId i; option_map ta_environment (find_first (fun t => ta_id t =? a) (tradingAccounts db)).

Definition assessEntryClaimRelease (orderIntentId : Z) : eff EntryWorld EntryClaimReleaseAssessment :=
  db ← db_read 1000 (fun db => db);
  match (c ← find_first (by_intent orderIntentId) (claims db); i ← intent_of db c; Some (c, i)) with
  | None => throw (HttpError 404 ("No entry exposure claim exists for OrderIntent " ++ z_str orderIntentId ++ ".") JNull)
  | Some (claim, intent) =>
  let symbol := to_upper (trim (symbol_of db (cl_securityId claim))) in
  records ← db_read 1001 (loadEntryDispatchRecords orderIntentId);
  events ← db_read 1002 (fun db => loadDeliveryEvidenceEvents (cl_id claim) (claimEvents db));
  local ← db_read 1003 (localExposure claim orderIntentId symbol (rec_startedAt records));
  broker ← match oi_clientOrderId intent with
           | None | Some "" => mret (no_broker_reads None)
           | Some clientOrderId => read_broker claim clientOrderId symbol
           end;
  mret (assess claim intent symbol (environment_of db intent) records events local broker now)
  end.

(** What changed since the assessment. *)
Definition revalidation_blockers (a : EntryClaimReleaseAssessment) (current : EntryExposureClaim)
    (intentStatus : option string) (local : LocalExposure) (evidenceEvents : Z)
    (records : EntryDispatchRecords) : list string :=
  (flag (negb (String.eqb (cl_status current) (cl_status (as_claim a)))) "CLAIM_STATUS_CHANGED" ++
   flag (match intentStatus with Some s => negb (member s TERMINAL_ENTRY_INTENT_STATUSES) | None => true end)
     "INTENT_NOT_TERMINAL" ++
   local_blockers local ++
   flag (negb (evidenceEvents =? as_evidenceEventCount a)) "DISPATCH_OUTCOME_CHANGED" ++
   flag (negb (Bool.eqb (rec_present records) (as_dispatchRecordPresent a))) "DISPATCH_RECORD_CHANGED")%list.

Definition verified_release_reason (a : EntryClaimReleaseAssessment) : string :=
  (if as_dispatchRecordPresent a then "VERIFIED_DISPATCH_NO_EXPOSURE" else "VERIFIED_NO_DISPATCH_RECORD_NO_EXPOSURE")
  ++ ":" ++ default "null" (as_basis a).

Definition fingerprint (a : EntryClaimReleaseAssessment) : string := sha256_hex (JObj (assessment_evidence a)).
Definition assessment_json (a : EntryClaimReleaseAssessment) : json :=
  JObj (assessment_evidence a ++
    [("eligible", JBool (as_eligible a)); ("evidenceEventCount", jint (as_evidenceEventCount a));
     ("dispatchStartedAt", jopt (fun t => JStr (iso_of_time t)) (as_dispatchStartedAt a));
     ("confirmationFingerprint", JStr (fingerprint a))])%list.

(** The final revalidation under the lock, and the compare-and-set release. *)
Definition commit_verified_release (orderIntentId : Z) (mode : ReleaseMode) (actorUserId : option Z)
    (confirmationFingerprint : option string) (a : EntryClaimReleaseAssessment) : eff Db string :=
  let claimId := cl_id (as_claim a) in
  (* the advisory lock of the account and security is taken here *)
  _ ← await 220;
  db ← get;
  match find_first (by_id claimId) (claims db) with
  | None => mret "CLAIM_ALREADY_RELEASED"
  | Some current =>
  if is_some (cl_releasedAt current) then mret "CLAIM_ALREADY_RELEASED"
  else
  let intentStatus := option_map oi_status (intent_of db current) in
  _ ← await 221;
  db ← get;
  let local := localExposure current orderIntentId (as_symbol a) (as_dispatchStartedAt a) db in
  let evidenceEvents := count (fun e => (ce_claimId e =? claimId) &&
    member (ce_eventType e) DELIVERY_EVIDENCE_EVENT_TYPES) (claimEvents db) in
  let records := loadEntryDispatchRecords orderIntentId db in
  let revalidation := revalidation_blockers a current intentStatus local evidenceEvents records in
  match revalidation with
  | _ :: _ =>
      _ ← await 222;
      _ ← appendEntryExposureClaimDiagnostic now interfere claimId "DISPATCH_RECOVERY_REVALIDATION_BLOCKED"
            (JObj [("mode", JStr (mode_str mode)); ("revalidation", jstrs revalidation)]);
      mret (join_commas revalidation)
  | [] =>
  _ ← (match mode with
       | OPERATOR => _ ← await 223;
           add_event now claimId "OPERATOR_REMEDIATION_AUTHORIZED"
             (JObj [("actorUserId", jopt jint actorUserId);
                    ("confirmationFingerprint", jopt JStr confirmationFingerprint);
                    ("disposition", JStr (disposition a)); ("evidence", assessment_json a)])
       | SYSTEM => mret tt
       end);
  _ ← await 224;
  released ← update_claims (still (as_claim a)) (data_released now (verified_release_reason a));
  if negb (released =? 1) then mret "CLAIM_STATUS_CHANGED"
  else
  _ ← await 225;
  _ ← add_event now claimId "RELEASED_VERIFIED_DISPATCH_NO_EXPOSURE"
    (JObj [("mode", JStr (mode_str mode)); ("actorUserId", jopt jint actorUserId);
           ("basis", jopt JStr (as_basis a)); ("confirmationFingerprint", JStr (fingerprint a));
           ("evidence", assessment_json a); ("executionAuthority", JStr "NONE");
           ("originalIntentResubmission", JStr "PROHIBITED");
           ("dispatchRecord", JStr (if as_dispatchRecordPresent a then "RETAINED_IMMUTABLE" else "NONE"))]);
  mret "RELEASED"
  end end.

Definition releaseVerifiedEntryExposureClaim (orderIntentId : Z) (mode : ReleaseMode) (actorUserId : option Z)
    (confirmationFingerprint : option string) : eff EntryWorld DispatchedEntryReleaseResult :=
  a ← assessEntryClaimRelease orderIntentId;
  let refuse reason := {| dr_released := false; dr_reason := reason; dr_assessment := Some a |} in
  if match mode with
     | OPERATOR => negb (truthy_id actorUserId) || negb (bool_decide (confirmationFingerprint = Some (fingerprint a)))
     | SYSTEM => false
     end
  then mret (refuse "CONFIRMATION_FINGERPRINT_MISMATCH")
  else if negb (as_eligible a) then
    _ ← (if member "CLAIM_ALREADY_RELEASED" (as_blockers a) then mret None
         else db_call 1004 (appendEntryExposureClaimDiagnostic now interfere (cl_id (as_claim a))
           "DISPATCH_RECOVERY_RELEASE_BLOCKED"
           (JObj [("mode", JStr (mode_str mode)); ("actorUserId", jopt jint actorUserId);
                  ("basis", jopt JStr (as_basis a)); ("conclusiveness", JStr (as_conclusiveness a));
                  ("blockers", jstrs (as_blockers a)); ("brokerOrder", jopt assessed_order_json (as_order a));
                  ("brokerPosition", jopt assessed_position_json (as_position a));
                  ("openBuyOrderIds", jstrs (map rawo_id (as_openBuys a)));
                  ("lookupFailed", JBool (is_some (as_lookupError a)))])));
    mret (refuse (match as_blockers a with [] => "NO_RELEASE_BASIS" | l => join_commas l end))
  else
  outcome ← db_transaction 1005 (commit_verified_release orderIntentId mode actorUserId confirmationFingerprint a);
  if negb (String.eqb outcome "RELEASED") then mret (refuse outcome)
  else
  _ ← best_effort_event 1006 "entry_exposure.dispatch_claim_released" "entryExposureClaim" (cl_id (as_claim a))
    (Some (cl_tradingAccountId (as_claim a))) INFO
    (Some "An entry claim was released after conclusive evidence of no broker exposure. The original intent is never resent.")
    (JObj ([("orderIntentId", jint orderIntentId); ("mode", JStr (mode_str mode));
            ("basis", jopt JStr (as_basis a))] ++ recordIdentity (as_records a) ++
           [("confirmationFingerprint", JStr (fingerprint a))])%list);
  mret {| dr_released := true; dr_reason := verified_release_reason a; dr_assessment := Some a |}.

(** [Deduplicated] by stable evidence; whatever goes wrong here is dropped. *)
Definition recordRecoveryError (orderIntentId : Z) (source : string) (error : js_error) : eff EntryWorld unit :=
  claim ← or_else (db_read 1007 (fun db => find_first (by_intent orderIntentId) (claims db))) None;
  match claim with
  | None => mret tt
  | Some c =>
      or_else (_ ← db_call 1008 (appendEntryExposureClaimDiagnostic now interfere (cl_id c) "DISPATCH_RECOVERY_ERROR"
        (JObj [("source", JStr source); ("failureClass", JStr "TECHNICAL");
               ("errorCode", JStr (errorCode error))])); mret tt) tt
  end.

Definition attemptReleaseAfterRecordedOutcome (orderIntentId : Z) (classification source : string)
    : eff EntryWorld DispatchedEntryReleaseResult :=
  let not_released reason := {| dr_released := false; dr_reason := reason; dr_assessment := None |} in
  if negb (member classification LOCAL_NON_SEND_CLASSIFICATIONS) then
    mret (not_released "AWAITING_EVIDENCE_BASED_RECOVERY")
  else
    try_catch (releaseVerifiedEntryExposureClaim orderIntentId SYSTEM None None)
      (fun error =>
        _ ← recordRecoveryError orderIntentId source error;
        mret (not_released "RECOVERY_ERROR")).

(** The system event of a newly recorded outcome, after its commit. *)
Definition emitDispatchOutcomeRecorded (result : RecordedOutcome) (classification : string) : eff EntryWorld unit :=
  match ro_newlyUnresolved result, ro_claimId result, ro_evidence result with
  | true, Some claimId, Some evidence =>
      if claimId =? 0 then mret tt
      else
      best_effort_event 1009 "entry_exposure.dispatch_outcome_recorded" "entryExposureClaim" claimId
        (ro_tradingAccountId result)
        (if member classification LOCAL_NON_SEND_CLASSIFICATIONS then WARNING else ERROR)
        (Some (if match ro_records result with Some r => rec_present r | None => false end
          then "An entry failed after its durable dispatch record committed. The claim is retained as UNRESOLVED and the intent is never resent; evidence-based recovery decides any release."
          else "An entry has no durable dispatch record and no proof that its request was not issued. The claim is retained as UNRESOLVED and the intent is never resent; evidence-based recovery or operator investigation decides any release."))
        evidence
  | _, _, _ => mret tt
  end.

(** [recordEntryDispatchOutcome] outside of a caller's transaction. *)
Definition record_outcome (n : nat) (orderIntentId : Z) (classification source : string)
    (observation : option OutcomeObservation) (statusCode : option num) (message : option string)
    (records : option EntryDispatchRecords) : eff EntryWorld RecordedOutcome :=
  result ← db_call n (recordEntryDispatchOutcome now interfere orderIntentId classification source observation
             statusCode message records);
  _ ← emitDispatchOutcomeRecorded result classification;
  mret result.

Definition routeEntryDispatchFailure (orderIntentId : Z) (classification source : string)
    (observation : option OutcomeObservation) (message : option string) (records : option EntryDispatchRecords)
    : eff EntryWorld DispatchedEntryReleaseResult :=
  _ ← record_outcome 1010 orderIntentId classification source observation None message records;
  attemptReleaseAfterRecordedOutcome orderIntentId classification source.

(** The refusal of a never-submitted release by the claim's own evidence. *)
Definition refused_release (orderIntentId : Z) (reason source : string) (error : js_error) : eff EntryWorld unit :=
  claim ← or_else (db_read 1011 (fun db => find_first (by_intent orderIntentId) (claims db))) None;
  match claim with
  | Some c =>
      if is_some (cl_releasedAt c) then mret tt
      else
      _ ← try_catch
        (_ ← db_call 1012 (transitionEntryExposureClaim now interfere orderIntentId "UNRESOLVED"
           "UNSUBMITTED_RELEASE_REFUSED"
           (Some (JObj [("reason", JStr reason); ("source", JStr source);
                        ("refusal", JStr (clipped_message error)); ("details", error_details error);
                        ("executionAuthority", JStr "NONE")]))); mret tt)
        (fun transitionError => recordRecoveryError orderIntentId source transitionError);
      if String.eqb (cl_status c) "UNRESOLVED" then mret tt
      else best_effort_event 1013 "entry_exposure.unsubmitted_release_refused" "entryExposureClaim" (cl_id c)
        (Some (cl_tradingAccountId c)) ERROR
        (Some "An entry failure could not release its claim as unsubmitted; ownership is retained as UNRESOLVED for review.")
        (JObj [("orderIntentId", jint orderIntentId); ("reason", JStr reason);
               ("refusal", JStr (clipped_message error))])
  | None => mret tt
  end.

(** What a failed never-submitted release turns into. *)
Definition release_failed (orderIntentId : Z) (reason source : string) (dispatchAttempted : bool)
    (message : option string) (error : js_error) : eff EntryWorld UnsubmittedReleaseResult :=
  let result outcome recorded := {| ur_outcome := outcome; ur_attemptRecorded := recorded |} in
  if negb (domain_conflict error) then
    (* infrastructure: the recoverable state stays, the attempt advances the retry time *)
    recorded ← or_else
      (claim ← db_read 1014 (fun db => find_first (by_intent orderIntentId) (claims db));
       match claim with
       | None => mret false
       | Some c =>
           _ ← db_call 1015 (appendEntryExposureClaimDiagnostic now interfere (cl_id c) "RECOVERY_ATTEMPT_FAILED"
             (JObj [("source", JStr source); ("reason", JStr reason); ("failureClass", JStr "TECHNICAL");
                    ("errorCode", JStr (errorCode error)); ("automaticRetry", JStr "SCHEDULED")]));
           mret true
       end) false;
    mret (result RETRYABLE_FAILURE (Some recorded))
  else
  records ← or_else (r ← db_read 1016 (loadEntryDispatchRecords orderIntentId); mret (Some r)) None;
  let has (p : EntryDispatchRecords -> bool) := match records with Some r => p r | None => false end in
  if has rec_durable && dispatchAttempted then
    _ ← try_catch
      (_ ← routeEntryDispatchFailure orderIntentId "NOT_SENT_DISPATCH_RECORD_ACK_LOST" source (Some OBSERVED)
             (Some (default reason message)) records; mret tt)
      (fun routeError => recordRecoveryError orderIntentId source routeError);
    mret (result ROUTED_TO_EVIDENCE_RECOVERY None)
  else if has rec_present then
    claim ← or_else (db_read 1017 (fun db => find_first (by_intent orderIntentId) (claims db))) None;
    _ ← (match claim with
         | Some c =>
             if is_some (cl_releasedAt c) then mret tt
             else try_catch
               (_ ← db_call 1018 (appendEntryExposureClaimDiagnostic now interfere (cl_id c)
                  "PRE_BOUNDARY_FAILURE_WITH_PRIOR_DISPATCH_RECORD"
                  (JObj [("reason", JStr reason); ("source", JStr source);
                         ("refusal", JStr (clipped_message error))])); mret tt)
               (fun diagnosticError => recordRecoveryError orderIntentId source diagnosticError)
         | None => mret tt
         end);
    mret (result REFUSED_RETAINED None)
  else
    _ ← refused_release orderIntentId reason source error;
    mret (result REFUSED_RETAINED None).

Definition releaseUnsubmittedOrRouteToRecovery (orderIntentId : Z) (reason source : string)
    (dispatchAttempted : bool) (message : option string) : eff EntryWorld UnsubmittedReleaseResult :=
  try_catch
    (claim ← db_transaction 1019 (releaseUnsubmittedEntryExposureClaim now interfere orderIntentId reason);
     mret {| ur_outcome :=
               if releasedByThisCall claim reason then RELEASED
               else if match claim with Some c => is_some (cl_releasedAt c) | None => false end
               then ALREADY_RELEASED else NOT_RELEASED;
             ur_attemptRecorded := None |})
    (release_failed orderIntentId reason source dispatchAttempted message).
End Recovery.

(** * Candidates of the sweep *)

Section Candidates.
Context `{Prisma}.
Variable now : Z.

Definition dispatch_event (orderIntentId : Z) (e : BrokerOpportunityEvent) : bool :=
  (oe_orderIntentId e =? orderIntentId) && member (oe_eventType e) DISPATCH_OPPORTUNITY_EVENT_TYPES.

Definition candidate_of (db : Db) (c : EntryExposureClaim) (i : OrderIntent) : TerminalClaimCandidate :=
  let consumption := find_first (fun d => dc_orderIntentId d =? oi_id i) (dispatchConsumptions db) in
  let unenforced := find_first (fun d => ud_orderIntentId d =? oi_id i) (unenforcedDispatches db) in
  {| tc_id := cl_id c; tc_status := cl_status c; tc_tradingAccountId := cl_tradingAccountId c;
     tc_securityId := cl_securityId c; tc_symbol := symbol_of db (cl_securityId c);
     tc_lastDiagnosedAt := cl_lastDiagnosedAt c; tc_trackedPositionId := cl_trackedPositionId c;
     ti_id := oi_id i; ti_status := oi_status i; ti_clientOrderId := oi_clientOrderId i;
     ti_blockReason := oi_blockReason i; ti_rawRequestJson := oi_rawRequestJson i;
     ti_consumptionId := option_map dc_id consumption;
     ti_dispatchDecisionId := option_map (fun d => dd_id (dc_decision d)) consumption;
     ti_dispatchDecisionOutcome := option_map (fun d => dd_outcome (dc_decision d)) consumption;
     ti_unenforcedDispatchId := option_map ud_id unenforced;
     ti_unenforcedDispatchBasis := option_map ud_basis unenforced;
     ti_dispatchOpportunityEvents := count (dispatch_event (oi_id i)) (opportunityEvents db);
     ti_brokerOrders := count (fun o => bo_orderIntentId o =? oi_id i) (brokerOrders db);
     tc_liveArmingConsumed := is_some (find_first (fun t => opt_eqb (lt_orderIntentId t) (oi_id i) &&
       String.eqb (lt_type t) "CONSUMED") (armingTerminations db));
     tc_events := loadDeliveryEvidenceEvents (cl_id c) (claimEvents db) |}.

(** The unreleased, position-free claims of terminal entry intents, by id; no
    accounts means every account. *)
Definition terminal_claim (db : Db) (accounts : list Z) (c : EntryExposureClaim) : bool :=
  bool_decide (cl_releasedAt c = None) && bool_decide (cl_trackedPositionId c = None) &&
  match intent_of db c with
  | Some i => member (oi_status i) TERMINAL_ENTRY_INTENT_STATUSES
  | None => false
  end &&
  match accounts with [] => true | _ => existsb (Z.eqb (cl_tradingAccountId c)) accounts end.

Definition loadTerminalClaimCandidates (accounts : list Z) (db : Db) : list TerminalClaimCandidate :=
  omap (fun c => i ← intent_of db c; Some (candidate_of db c i))
    (sort_by cl_id (find_many (terminal_claim db accounts) (claims db))).

(** ** Abandoned admissions *)

Definition STALE_ADMISSION_THRESHOLD_MS : Z := 15 * 60000.
Definition STALE_ADMISSION_BATCH_LIMIT : nat := 3.

Definition staleAdmissionClaimWhere (db : Db) (accounts : list Z) (c : EntryExposureClaim) : bool :=
  bool_decide (cl_releasedAt c = None) && String.eqb (cl_status c) "ENTRY_PENDING" &&
  bool_decide (cl_trackedPositionId c = None) &&
  match accounts with [] => true | _ => existsb (Z.eqb (cl_tradingAccountId c)) accounts end &&
  match intent_of db c with
  | Some i => String.eqb (oi_status i) "received" && (oi_updatedAt i <=? now - STALE_ADMISSION_THRESHOLD_MS)
  | None => false
  end.

(** ** Recovery work per account *)

Record ClaimRecoveryEntry := {
  re_actionableDue : Z;
  re_actionableWaiting : Z;
  re_operatorInvestigation : Z;
  re_protectedExposure : Z;
  re_held : Z;
  re_staleAdmissionHeld : Z;
  re_staleAdmissionDue : Z
}.
Definition no_recovery_work : ClaimRecoveryEntry :=
  {| re_actionableDue := 0; re_actionableWaiting := 0; re_operatorInvestigation := 0;
     re_protectedExposure := 0; re_held := 0; re_staleAdmissionHeld := 0; re_staleAdmissionDue := 0 |}.

Definition one (b : bool) : Z := if b then 1 else 0.

Definition count_stale (m : list (Z * ClaimRecoveryEntry)) (c : EntryExposureClaim)
    : list (Z * ClaimRecoveryEntry) :=
  let e := default no_recovery_work (map_get (cl_tradingAccountId c) m) in
  map_set (cl_tradingAccountId c)
    {| re_actionableDue := re_actionableDue e; re_actionableWaiting := re_actionableWaiting e;
       re_operatorInvestigation := re_operatorInvestigation e;
       re_protectedExposure := re_protectedExposure e; re_held := re_held e;
       re_staleAdmissionHeld := re_staleAdmissionHeld e + 1;
       re_staleAdmissionDue := re_staleAdmissionDue e + one (due (cl_lastDiagnosedAt c) now) |} m.

Definition count_candidate (m : list (Z * ClaimRecoveryEntry)) (c : TerminalClaimCandidate)
    : list (Z * ClaimRecoveryEntry) :=
  let e := default no_recovery_work (map_get (tc_tradingAccountId c) m) in
  let cf := classifyTerminalEntryClaim c now in
  let automatic := cf_automatic cf in
  let investigation := bool_decide (cf_state cf = OPERATOR_INVESTIGATION) in
  map_set (tc_tradingAccountId c)
    {| re_actionableDue := re_actionableDue e + one (automatic && isDue c now);
       re_actionableWaiting := re_actionableWaiting e + one (automatic && negb (isDue c now));
       re_operatorInvestigation := re_operatorInvestigation e + one (negb automatic && investigation);
       re_protectedExposure := re_protectedExposure e + one (negb automatic && negb investigation);
       re_held := re_held e + 1; re_staleAdmissionHeld := re_staleAdmissionHeld e;
       re_staleAdmissionDue := re_staleAdmissionDue e |} m.

Definition summarizeTerminalClaimRecoveryByAccount (accounts : list Z) (db : Db)
    : list (Z * ClaimRecoveryEntry) :=
  fold_left count_candidate (loadTerminalClaimCandidates accounts db)
    (fold_left count_stale (find_many (staleAdmissionClaimWhere db accounts) (claims db)) []).

(** ** The batch *)

(** [(l ?? -Infinity) - (r ?? -Infinity) || l.id - r.id] is negative. *)
Definition attempted_before (x y : TerminalClaimCandidate) : bool :=
  match tc_lastDiagnosedAt x, tc_lastDiagnosedAt y with
  | None, None => tc_id x <? tc_id y
  | None, Some _ => true
  | Some _, None => false
  | Some a, Some b => (a <? b) || ((a =? b) && (tc_id x <? tc_id y))
  end.

(** The actionable, due claims of the account, oldest attempt first. *)
Definition sweep_batch (tradingAccountId : Z) (db : Db) : list (TerminalClaimCandidate * TerminalClaimClassification) :=
  map (fun c => (c, classifyTerminalEntryClaim c now))
    (take ENTRY_DISPATCH_RECOVERY_BATCH_LIMIT
      (sort_with attempted_before
        (filterb (fun c => cf_automatic (classifyTerminalEntryClaim c now) && isDue c now)
          (filterb (fun c => tc_tradingAccountId c =? tradingAccountId)
            (loadTerminalClaimCandidates [tradingAccountId] db))))).
End Candidates.

(** * The sweep over terminal claims *)

Inductive AttemptResult := BLOCKED_BY_EVIDENCE | TECHNICAL_FAILURE | REFUSED | RETAINED.
#[export] Instance attempt_result_eq_dec : EqDecision AttemptResult.
Proof. solve_decision. Defined.
Definition attempt_result_str (r : AttemptResult) : string :=
  match r with
  | BLOCKED_BY_EVIDENCE => "BLOCKED_BY_EVIDENCE" | TECHNICAL_FAILURE => "TECHNICAL_FAILURE"
  | REFUSED => "REFUSED" | RETAINED => "RETAINED"
  end.

(** The result an attempt-result event reports; the sweep's own event carries it. *)
Definition attemptResultOf (e : EntryExposureClaimEvent) : option AttemptResult :=
  match ce_eventType e with
  | "DISPATCH_RECOVERY_RELEASE_BLOCKED" | "DISPATCH_RECOVERY_REVALIDATION_BLOCKED" => Some BLOCKED_BY_EVIDENCE
  | "DISPATCH_RECOVERY_ERROR" | "RECOVERY_ATTEMPT_FAILED" => Some TECHNICAL_FAILURE
  | "UNSUBMITTED_RELEASE_REFUSED" | "PRE_BOUNDARY_FAILURE_WITH_PRIOR_DISPATCH_RECORD" => Some REFUSED
  | "DISPATCH_RECOVERY_ATTEMPT_RESULT" =>
      Some (match string_field "result" (record_ (ce_evidenceJson e)) with
            | Some "BLOCKED_BY_EVIDENCE" => BLOCKED_BY_EVIDENCE
            | Some "TECHNICAL_FAILURE" => TECHNICAL_FAILURE
            | Some "REFUSED" => REFUSED
            | _ => RETAINED
            end)
  | _ => None
  end.

(** What one attempt counted, and concluded when the claim stays held. *)
Record AttemptTally := {
  at_released : Z;
  at_retained : Z;
  at_recorded : Z;
  at_failure : option string;
  at_result : option (AttemptResult * string)
}.

Definition tally (released : bool) (recorded : Z) (failure : option string)
    (result : option (AttemptResult * string)) : AttemptTally :=
  {| at_released := one released; at_retained := one (negb released); at_recorded := recorded;
     at_failure := failure; at_result := result |}.

Definition verified_result (r : DispatchedEntryReleaseResult) : option (AttemptResult * string) :=
  if dr_released r then None
  else Some (match dr_assessment r with
             | Some a => if as_eligible a then RETAINED else BLOCKED_BY_EVIDENCE
             | None => RETAINED
             end, dr_reason r).

Definition unsubmitted_str (o : UnsubmittedOutcome) : string :=
  match o with
  | RELEASED => "RELEASED" | ALREADY_RELEASED => "ALREADY_RELEASED" | NOT_RELEASED => "NOT_RELEASED"
  | ROUTED_TO_EVIDENCE_RECOVERY => "ROUTED_TO_EVIDENCE_RECOVERY" | REFUSED_RETAINED => "REFUSED_RETAINED"
  | RETRYABLE_FAILURE => "RETRYABLE_FAILURE"
  end.

Definition unsubmitted_result (o : UnsubmittedOutcome) : option (AttemptResult * string) :=
  match o with
  | RELEASED => None
  | RETRYABLE_FAILURE => Some (TECHNICAL_FAILURE, unsubmitted_str o)
  | REFUSED_RETAINED => Some (REFUSED, unsubmitted_str o)
  | _ => Some (RETAINED, unsubmitted_str o)
  end.

Definition unsubmitted_tally (recorded : Z) (o : UnsubmittedOutcome) : AttemptTally :=
  tally (bool_decide (o = RELEASED)) recorded
    (if bool_decide (o = RETRYABLE_FAILURE) then Some "RETRYABLE_RELEASE_FAILURE" else None)
    (unsubmitted_result o).

Definition failed_tally (recorded : Z) (e : js_error) : AttemptTally :=
  tally false recorded (Some (clipped_message e)) (Some (TECHNICAL_FAILURE, errorCode e)).

(** The totals of a sweep. *)
Record SweepResult := {
  sw_examined : Z;
  sw_attempted : list Z;
  sw_released : Z;
  sw_retained : Z;
  sw_recorded : Z;
  sw_failures : list (Z * string)
}.

Definition add_tally (claimId : Z) (t : AttemptTally) (r : SweepResult) : SweepResult :=
  {| sw_examined := sw_examined r; sw_attempted := (sw_attempted r ++ [claimId])%list;
     sw_released := sw_released r + at_released t; sw_retained := sw_retained r + at_retained t;
     sw_recorded := sw_recorded r + at_recorded t;
     sw_failures := match at_failure t with
       | Some e => (sw_failures r ++ [(claimId, e)])%list | None => sw_failures r end |}.

(** A lease that could not be written: a failure without an attempt. *)
Definition add_lease_failure (claimId : Z) (e : js_error) (r : SweepResult) : SweepResult :=
  {| sw_examined := sw_examined r; sw_attempted := sw_attempted r; sw_released := sw_released r;
     sw_retained := sw_retained r; sw_recorded := sw_recorded r;
     sw_failures := (sw_failures r ++ [(claimId, clipped_message e)])%list |}.

Section Sweep.
Context `{Prisma} `{EntryBroker} `{EntryServices}.
Variable now : Z.
Variable interfere : nat -> Db -> Db.
Variable outage : nat -> Db -> option js_error.
#[local] Notation await n := (ExposureClaim.await interfere n).
#[local] Notation db_call n m := (EntryWorld.db_call interfere outage n m).
#[local] Notation db_read n f := (EntryWorld.db_read interfere outage n f).
#[local] Notation db_transaction n m := (EntryWorld.db_transaction interfere outage n m).

(** Advances the attempt time, if the claim is still due and held. *)
Definition leaseRecoveryAttempt (claimId : Z) : eff EntryWorld bool :=
  n ← db_call 1020 (update_claims (fun c => by_id claimId c && bool_decide (cl_releasedAt c = None) &&
        due (cl_lastDiagnosedAt c) now) (data_diagnosed now));
  mret (n =? 1).

Definition latestAttemptResultEvent (claimId : Z) (db : Db) : option EntryExposureClaimEvent :=
  find_first_by (fun x y => ce_id y <=? ce_id x)
    (fun e => (ce_claimId e =? claimId) && member (ce_eventType e) RECOVERY_ATTEMPT_RESULT_EVENT_TYPES)
    (claimEvents db).

(** Keeps the newest attempt result truthful, one event per change of result. *)
Definition recordAttemptResultIfStale (claimId priorResultEventId : Z) (attempt : AttemptResult * string)
    (state : TerminalClaimRecoveryState) : eff EntryWorld unit :=
  latest ← db_read 1021 (latestAttemptResultEvent claimId);
  if match latest with
     | Some e => (priorResultEventId <? ce_id e) || bool_decide (attemptResultOf e = Some (fst attempt))
     | None => false
     end
  then mret tt
  else
    _ ← db_call 1022 (appendEntryExposureClaimDiagnostic now interfere claimId "DISPATCH_RECOVERY_ATTEMPT_RESULT"
      (JObj [("source", JStr "TERMINAL_CLAIM_SWEEP"); ("result", JStr (attempt_result_str (fst attempt)));
             ("reason", JStr (snd attempt)); ("recoveryState", JStr (recovery_state_str state))]));
    mret tt.

(** Recorded only against exactly the evidence that was classified. *)
Definition record_not_sent (candidate : TerminalClaimCandidate) (notSent : NotSentClassification * string)
    (source : string) : eff Db bool :=
  (* the advisory lock of the account and security is taken here *)
  _ ← await 230;
  current ← find_claim (by_id (tc_id candidate));
  _ ← await 231;
  events ← asks (fun db => count (fun e => (ce_claimId e =? tc_id candidate) &&
    member (ce_eventType e) DELIVERY_EVIDENCE_EVENT_TYPES) (claimEvents db));
  match current with
  | None => mret false
  | Some c =>
      if is_some (cl_releasedAt c) || negb (String.eqb (cl_status c) (tc_status candidate)) ||
         negb (events =? Z.of_nat (length (tc_events candidate)))
      then mret false
      else
        _ ← await 232;
        _ ← modify (set_claimEvents (appendNotSentEvidence now (tc_id candidate) (ti_id candidate) (fst notSent)
          (snd notSent) source "TERMINAL_INTENT_VERIFIED_NEVER_SUBMITTED" (ti_blockReason candidate) None));
        mret true
  end.

Definition recordNotSentEvidenceAndRelease (candidate : TerminalClaimCandidate)
    (notSent : NotSentClassification * string) (source : string) : eff EntryWorld UnsubmittedReleaseResult :=
  recorded ← db_transaction 1023 (record_not_sent candidate notSent source);
  if negb recorded then mret {| ur_outcome := NOT_RELEASED; ur_attemptRecorded := None |}
  else releaseUnsubmittedOrRouteToRecovery now interfere outage (ti_id candidate)
         "TERMINAL_INTENT_VERIFIED_NEVER_SUBMITTED" source false None.

(** The outcome a claim without a recorded one is given: the newest recorded
    dispatch outcome, else what the block reason implies. *)
Definition inferred_outcome (candidate : TerminalClaimCandidate) (cf : TerminalClaimClassification)
    : string * option num :=
  match List.find (fun o => bool_decide (out_kind o = OUTCOME)) (rev (sum_outcomes (cf_summary cf))) with
  | Some prior => (out_classification prior, out_statusCode prior)
  | None =>
      if cf_recordsPresent cf then inferEntryDispatchOutcome (ti_blockReason candidate)
      else ("DISPATCH_OUTCOME_UNKNOWN", None)
  end.

Definition verified_attempt (orderIntentId recorded : Z) : eff EntryWorld AttemptTally :=
  release ← releaseVerifiedEntryExposureClaim now interfere outage orderIntentId SYSTEM None None;
  mret (tally (dr_released release) recorded None (verified_result release)).

Definition recover_claim (candidate : TerminalClaimCandidate) (cf : TerminalClaimClassification)
    : eff EntryWorld AttemptTally :=
  let orderIntentId := ti_id candidate in
  let failed recorded error :=
    _ ← recordRecoveryError now interfere outage orderIntentId "TERMINAL_CLAIM_SWEEP" error;
    mret (failed_tally recorded error) in
  match cf_state cf, cf_notSent cf with
  | AUTOMATIC_NEVER_SUBMITTED_RELEASE, _ =>
      try_catch
        (release ← releaseUnsubmittedOrRouteToRecovery now interfere outage orderIntentId
           "TERMINAL_INTENT_VERIFIED_NEVER_SUBMITTED" "TERMINAL_CLAIM_SWEEP" false None;
         mret (unsubmitted_tally 0 (ur_outcome release))) (failed 0)
  | AUTOMATIC_NOT_SENT_EVIDENCE_RECORDING, Some notSent =>
      try_catch
        (release ← recordNotSentEvidenceAndRelease candidate notSent "TERMINAL_CLAIM_SWEEP";
         mret (unsubmitted_tally 1 (ur_outcome release))) (failed 0)
  | AUTOMATIC_OUTCOME_RECORDING, _ =>
      let '(classification, statusCode) := inferred_outcome candidate cf in
      try_catch
        (_ ← record_outcome now interfere outage 1024 orderIntentId classification "TERMINAL_CLAIM_SWEEP"
           (Some INFERRED) statusCode
           (if cf_recordsPresent cf then ti_blockReason candidate
            else Some ("No durable dispatch record and no structured not-sent evidence; delivery is unknown. Block reason: "
                       ++ default "none" (ti_blockReason candidate))) None;
         if cf_recordsPresent cf then try_catch (verified_attempt orderIntentId 1) (failed 1)
         else mret (tally false 1 None (Some (RETAINED, "OUTCOME_RECORDED_OPERATOR_INVESTIGATION"))))
        (failed 0)
  | _, _ => try_catch (verified_attempt orderIntentId 0) (failed 0)
  end.

(** One candidate of the batch: leased, attempted, its result kept. *)
Definition sweep_candidate (candidate : TerminalClaimCandidate) (cf : TerminalClaimClassification)
    (acc : SweepResult) : eff EntryWorld SweepResult :=
  leased ← try_catch (b ← leaseRecoveryAttempt (tc_id candidate); mret (Ok b)) (fun error => mret (Throw error));
  match leased with
  | Throw error => mret (add_lease_failure (tc_id candidate) error acc)
  | Ok false => mret acc
  | Ok true =>
  priorResultEventId ← or_else (e ← db_read 1025 (latestAttemptResultEvent (tc_id candidate));
                                mret (Some (default 0 (option_map ce_id e)))) None;
  t ← recover_claim candidate cf;
  _ ← (match at_result t, priorResultEventId with
       | Some result, Some prior =>
           or_else (recordAttemptResultIfStale (tc_id candidate) prior result (cf_state cf)) tt
       | _, _ => mret tt
       end);
  _ ← or_else (_ ← db_call 1026 (update_claims (fun c => by_id (tc_id candidate) c &&
         bool_decide (cl_releasedAt c = None) &&
         match cl_lastDiagnosedAt c with Some t => t <? now | None => false end) (data_diagnosed now));
       mret tt) tt;
  mret (add_tally (tc_id candidate) t acc)
  end.
End Sweep.

(** What other sessions do while one item of a loop is worked on. *)
Record Session := {
  ss_interfere : nat -> Db -> Db;
  ss_outage : nat -> Db -> option js_error
}.

Section Sweeps.
Context `{Prisma} `{EntryBroker} `{EntryServices}.
Variable now : Z.
(** The session while the candidates are read, and while each is worked on. *)
Variable reading : Session.
Variable working : Z -> Session.

Fixpoint sweep_candidates (l : list (TerminalClaimCandidate * TerminalClaimClassification)) (acc : SweepResult)
    : eff EntryWorld SweepResult :=
  match l with
  | [] => mret acc
  | (c, cf) :: l =>
      acc ← sweep_candidate now (ss_interfere (working (tc_id c))) (ss_outage (working (tc_id c))) c cf acc;
      sweep_candidates l acc
  end.

Definition recoverTerminalEntryClaimsForAccount (tradingAccountId : Z) : eff EntryWorld SweepResult :=
  batch ← db_read (ss_interfere reading) (ss_outage reading) 1027 (sweep_batch now tradingAccountId);
  sweep_candidates batch
    {| sw_examined := Z.of_nat (length batch); sw_attempted := []; sw_released := 0; sw_retained := 0;
       sw_recorded := 0; sw_failures := [] |}.
End Sweeps.

(** * The sweep over abandoned admissions *)

Inductive AdmissionVerdict := GONE | BLOCKED (blockers : list string) | RECORDED.

Section Admissions.
Context `{Prisma} `{EntryBroker} `{EntryServices}.
Variable now : Z.
Variable interfere : nat -> Db -> Db.
Variable outage : nat -> Db -> option js_error.
#[local] Notation await n := (ExposureClaim.await interfere n).
#[local] Notation db_transaction n m := (EntryWorld.db_transaction interfere outage n m).

Definition STALE_ADMISSION_BLOCK_REASON : string :=
  "STALE_ADMISSION_NEVER_DISPATCHED: the admission did not complete and its intent never became executable; it was not requeued and a new entry requires a new admission decision.".

Definition admission_blockers (tradingAccountId cutoff : Z) (claim : EntryExposureClaim)
    (intent : option OrderIntent) (events : list DeliveryEvidenceEvent) (summary : DeliveryEvidenceSummary)
    (records : EntryDispatchRecords) (brokerOrders brokerActivities : Z) : list string :=
  let with_intent (p : OrderIntent -> bool) := match intent with Some i => p i | None => false end in
  (flag (negb (String.eqb (cl_status claim) "ENTRY_PENDING")) "CLAIM_NOT_PENDING" ++
   flag (is_some (cl_trackedPositionId claim)) "POSITION_ATTACHED" ++
   flag (match intent with Some i => negb (opt_eqb (cl_orderIntentId claim) (oi_id i)) | None => true end)
     "INTENT_MISSING" ++
   flag (with_intent (fun i => negb (String.eqb (oi_status i) "received"))) "INTENT_NOT_RECEIVED" ++
   flag (with_intent (fun i => cutoff <? oi_updatedAt i)) "ADMISSION_RECENTLY_ACTIVE" ++
   flag (with_intent (fun i => negb (String.eqb (to_lower (trim (oi_side i))) "buy"))) "INTENT_NOT_BUY" ++
   flag (with_intent (fun i => negb (opt_eqb (oi_tradingAccountId i) tradingAccountId) ||
                               negb (cl_tradingAccountId claim =? tradingAccountId))) "ACCOUNT_MISMATCH" ++
   flag (with_intent (fun i => is_some (oi_liveEntryAcceptanceRunId i))) "LIVE_ENTRY_ACCEPTANCE_EXECUTION" ++
   flag (existsb (fun e => String.eqb (ev_type e) WORKER_CLAIMED_EVENT) events) "WORKER_CLAIM_RECORDED" ++
   flag (0 <? sum_adapterMarkers summary) "ADAPTER_INVOCATION_MARKER_PRESENT" ++
   flag (0 <? Z.of_nat (length (sum_outcomes summary))) "DELIVERY_OUTCOME_RECORDED" ++
   flag (rec_present records) "DISPATCH_RECORD_PRESENT" ++
   flag (0 <? brokerOrders) "LOCAL_BROKER_ORDER_PRESENT" ++
   flag (0 <? brokerActivities) "LOCAL_BROKER_ACTIVITY_PRESENT")%list.

(** The re-verification under the lock, the failing of the intent by
    compare-and-set and the evidence that nothing was sent. *)
Definition judge_admission (tradingAccountId orderIntentId claimId : Z) : eff Db AdmissionVerdict :=
  let cutoff := now - STALE_ADMISSION_THRESHOLD_MS in
  (* the advisory lock of the account and security is taken here *)
  _ ← await 240;
  db ← get;
  match find_first (by_id claimId) (claims db) with
  | None => mret GONE
  | Some claim =>
  if is_some (cl_releasedAt claim) then mret GONE
  else
  let intent := intent_of db claim in
  _ ← await 241;
  db ← get;
  let events := loadDeliveryEvidenceEvents claimId (claimEvents db) in
  let records := loadEntryDispatchRecords orderIntentId db in
  let brokerOrders := count (fun o => bo_orderIntentId o =? orderIntentId) (brokerOrders db) in
  let brokerActivities := count (fun a => opt_eqb (ba_orderIntentId a) orderIntentId) (brokerActivities db) in
  match admission_blockers tradingAccountId cutoff claim intent events (summarizeDeliveryEvidence events)
          records brokerOrders brokerActivities with
  | (_ :: _) as blockers =>
      _ ← await 242;
      _ ← appendEntryExposureClaimDiagnostic now interfere claimId "STALE_ADMISSION_RECOVERY_BLOCKED"
        (JObj [("orderIntentId", jint orderIntentId); ("blockers", jstrs blockers);
               ("executionAuthority", JStr "NONE")]);
      mret (BLOCKED blockers)
  | [] =>
      _ ← await 243;
      failed ← update_order_intents now (fun i => (oi_id i =? orderIntentId) &&
        String.eqb (oi_status i) "received" && (oi_updatedAt i <=? cutoff))
        (Some "failed") (Some (Some STALE_ADMISSION_BLOCK_REASON));
      if negb (failed =? 1) then mret (BLOCKED ["INTENT_CHANGED"])
      else
        _ ← await 244;
        _ ← modify (set_claimEvents (appendNotSentEvidence now claimId orderIntentId NOT_SENT_PRE_DISPATCH
          "STALE_ADMISSION_NEVER_EXECUTABLE" "STALE_ADMISSION_RECOVERY" "STALE_ADMISSION_NEVER_SUBMITTED" None
          (Some (JObj ([("basis", JStr "CLAIM_NEVER_LEFT_ENTRY_PENDING"); ("intentStatus", JStr "received");
                        ("thresholdMs", jint STALE_ADMISSION_THRESHOLD_MS)] ++ recordIdentity records ++
                       [("brokerOrders", jint brokerOrders); ("brokerActivities", jint brokerActivities)])%list))));
        mret RECORDED
  end end.

Definition admission_attempt (tradingAccountId orderIntentId claimId : Z) : eff EntryWorld AttemptTally :=
  try_catch
    (verdict ← db_transaction 1030 (judge_admission tradingAccountId orderIntentId claimId);
     match verdict with
     | RECORDED =>
         release ← releaseUnsubmittedOrRouteToRecovery now interfere outage orderIntentId
           "STALE_ADMISSION_NEVER_SUBMITTED" "STALE_ADMISSION_RECOVERY" false None;
         _ ← best_effort_event interfere outage 1031 "entry_exposure.stale_admission_recovered" "entryExposureClaim"
           claimId (Some tradingAccountId) (if ur_released release then WARNING else ERROR)
           (Some (if ur_released release
             then "An abandoned entry admission was failed and its never-dispatched claim released. Nothing was requeued or resubmitted."
             else "An abandoned entry admission was failed with structured not-sent evidence; its claim release is retried by the terminal-claim sweep."))
           (JObj [("orderIntentId", jint orderIntentId);
                  ("releaseOutcome", JStr (unsubmitted_str (ur_outcome release)))]);
         mret (unsubmitted_tally 0 (ur_outcome release))
     | BLOCKED _ => mret (tally false 0 None None)
     | GONE => mret {| at_released := 0; at_retained := 0; at_recorded := 0; at_failure := None; at_result := None |}
     end)
    (fun error =>
      _ ← recordRecoveryError now interfere outage orderIntentId "STALE_ADMISSION_RECOVERY" error;
      mret (tally false 0 (Some (clipped_message error)) None)).

Definition admission_candidate (tradingAccountId : Z) (candidate : EntryExposureClaim) (acc : SweepResult)
    : eff EntryWorld SweepResult :=
  leased ← try_catch (b ← leaseRecoveryAttempt now interfere outage (cl_id candidate); mret (Ok b))
             (fun error => mret (Throw error));
  match leased with
  | Throw error => mret (add_lease_failure (cl_id candidate) error acc)
  | Ok false => mret acc
  | Ok true =>
      t ← admission_attempt tradingAccountId (default 0 (cl_orderIntentId candidate)) (cl_id candidate);
      mret (add_tally (cl_id candidate) t acc)
  end.

(** The due abandoned admissions of the account, by claim id. *)
Definition admission_batch (tradingAccountId : Z) (db : Db) : list EntryExposureClaim :=
  take STALE_ADMISSION_BATCH_LIMIT (sort_by cl_id (find_many (fun c =>
    staleAdmissionClaimWhere now db [tradingAccountId] c && (cl_tradingAccountId c =? tradingAccountId) &&
    due (cl_lastDiagnosedAt c) now) (claims db))).
End Admissions.

Section AdmissionSweep.
Context `{Prisma} `{EntryBroker} `{EntryServices}.
Variable now : Z.
Variable reading : Session.
Variable working : Z -> Session.

Fixpoint admission_candidates (tradingAccountId : Z) (l : list EntryExposureClaim) (acc : SweepResult)
    : eff EntryWorld SweepResult :=
  match l with
  | [] => mret acc
  | c :: l =>
      acc ← admission_candidate now (ss_interfere (working (cl_id c))) (ss_outage (working (cl_id c)))
              tradingAccountId c acc;
      admission_candidates tradingAccountId l acc
  end.

Definition recoverStaleAdmissionClaimsForAccount (tradingAccountId : Z) : eff EntryWorld SweepResult :=
  batch ← db_read (ss_interfere reading) (ss_outage reading) 1032 (admission_batch now tradingAccountId);
  admission_candidates tradingAccountId batch
    {| sw_examined := Z.of_nat (length batch); sw_attempted := []; sw_released := 0; sw_retained := 0;
       sw_recorded := 0; sw_failures := [] |}.
End AdmissionSweep.
