(* ===== verification/EntrySubmission.v ===== *)
(** The entry broker boundary: [submitOrderToBroker] of
    services/place-order.service.ts, with the delivery phase it advances. *)

From Stdlib Require Import ZArith Lia.
From Stdlib Require Import Strings.String.
From Stdlib Require Import Floats.SpecFloat.
From stdpp Require Import base list strings.
From S2P Require Import Prelude JsNumber JsValue JsDate Prisma OrderStatus DeliveryEvidence Schema BrokerAccount.
From S2P Require Import RiskGate ExposureClaim ExitWorld EntryWorld DispatchEvidence.

Open Scope string_scope.
Open Scope Z_scope.

(** * The boundary *)

Inductive EntryBrokerSubmissionPhase :=
| UNCLASSIFIED | NOT_DISPATCHED | EXISTING_ORDER_FOUND | DISPATCH_STARTED | BROKER_RESPONDED.
#[export] Instance submission_phase_eq_dec : EqDecision EntryBrokerSubmissionPhase.
Proof. solve_decision. Defined.

(** The worker's boundary object is shared with the submission: the phase is
    part of the state and survives a throw. *)
Record Submission := { sb_world : EntryWorld; sb_phase : EntryBrokerSubmissionPhase }.

Definition in_world {A} (m : eff EntryWorld A) : eff Submission A := fun s =>
  let '(r, w) := m (sb_world s) in (r, {| sb_world := w; sb_phase := sb_phase s |}).
Definition set_phase (p : EntryBrokerSubmissionPhase) : eff Submission unit :=
  modify (fun s => {| sb_world := sb_world s; sb_phase := p |}).

(** Running the submission on a fresh boundary. *)
Definition with_boundary {A} (m : eff Submission A) (w : EntryWorld)
    : res A * EntryBrokerSubmissionPhase * EntryWorld :=
  let '(r, s) := m {| sb_world := w; sb_phase := UNCLASSIFIED |} in (r, sb_phase s, sb_world s).

(** An entry order as the boundary takes it: the gate's input and the columns
    only the broker request needs. *)
Record BrokerOrderSubmissionInput := {
  bi_order : ResolvedPlaceOrderInput;
  bi_orderType : string;
  bi_timeInForce : string;
  bi_extendedHours : bool;
  bi_clientOrderId : string
}.

Record SubmissionResult := { sr_duplicate : bool; sr_order : AlpacaOrder }.

Definition isEntrySubscriptionOrder (input : ResolvedPlaceOrderInput) : bool :=
  is_some (po_subscriptionId input) && is_some (po_tradingAccountSubscriptionId input) &&
  match po_side input with buy => true | sell => false end &&
  String.eqb (default "entry" (po_signalType input)) "entry".

Definition getBrokerWriteDeliveryClassification (e : js_error) : option string :=
  match e with DeliveryError classification _ _ => Some classification | _ => None end.

(** [error.statusCode] when it is a number. *)
Definition error_statusCode (e : js_error) : option Z :=
  match e with
  | HttpError s _ _ | PreSubmissionError s _ _ _ | AlpacaApiError s _ => Some s
  | DeliveryError _ _ s => s
  | _ => None
  end.

Definition identity_order_mismatches (order : AlpacaOrder) (clientOrderId symbol : string) : list string :=
  (flag (negb (String.eqb (rawo_client_order_id order) clientOrderId)) "clientOrderId" ++
   flag (negb (String.eqb (to_upper (trim (rawo_symbol order))) (to_upper (trim symbol)))) "symbol" ++
   flag (negb (String.eqb (to_lower (trim (rawo_side order))) "buy")) "side")%list.

Definition assertExistingEntryOrderIdentity (order : AlpacaOrder) (clientOrderId symbol : string) : res unit :=
  match identity_order_mismatches order clientOrderId symbol with
  | [] => Ok tt
  | mismatches =>
      Throw (HttpError 409 "Broker order found by stable client order ID does not match the entry identity."
        (JObj [("code", JStr "EXISTING_BROKER_ORDER_IDENTITY_MISMATCH"); ("mismatches", jstrs mismatches);
               ("brokerOrderId", JStr (rawo_id order))]))
  end.

Section Boundary.
Context `{Prisma} `{EntryBroker} `{EntryServices}.
Variable now : Z.
Variable interfere : nat -> Db -> Db.
Variable outage : nat -> Db -> option js_error.
#[local] Notation db_call n m := (EntryWorld.db_call interfere outage n m).
#[local] Notation db_read n f := (EntryWorld.db_read interfere outage n f).

(** Every row that says an earlier dispatch may have happened. *)
Definition local_dispatch_evidence (orderIntentId : Z) (db : Db) : Z * Z * Z * Z :=
  (count (fun d => dc_orderIntentId d =? orderIntentId) (dispatchConsumptions db),
   count (fun d => ud_orderIntentId d =? orderIntentId) (unenforcedDispatches db),
   count (fun e => (oe_orderIntentId e =? orderIntentId) &&
     member (oe_eventType e) DISPATCH_OPPORTUNITY_EVENT_TYPES) (opportunityEvents db),
   count (fun o => bo_orderIntentId o =? orderIntentId) (brokerOrders db)).

Definition assertNoLocalEntryDispatchEvidence (orderIntentId : Z) : eff EntryWorld unit :=
  evidence ← db_read 3001 (local_dispatch_evidence orderIntentId);
  let '(consumptions, unenforcedDispatches, dispatchEvents, brokerOrders) := evidence in
  if negb (consumptions =? 0) || negb (unenforcedDispatches =? 0) || negb (dispatchEvents =? 0) ||
     negb (brokerOrders =? 0)
  then throw (HttpError 409
    "Entry has prior dispatch evidence; a missing broker lookup result is not proof of non-delivery."
    (JObj [("code", JStr "PRIOR_ENTRY_DISPATCH_EVIDENCE"); ("orderIntentId", jint orderIntentId);
           ("consumptions", jint consumptions); ("unenforcedDispatches", jint unenforcedDispatches);
           ("dispatchEvents", jint dispatchEvents); ("brokerOrders", jint brokerOrders)]))
  else mret tt.

Definition entry_payload (input : BrokerOrderSubmissionInput) : AlpacaEntryOrderRequest :=
  let order := bi_order input in
  {| er_symbol := po_symbol order; er_side := side_str (po_side order); er_type := bi_orderType input;
     er_time_in_force := bi_timeInForce input; er_qty := option_map num_to_string (po_qty order);
     er_notional := option_map num_to_string (po_notional order);
     er_limit_price := option_map num_to_string (po_limitPrice order);
     er_extended_hours := bi_extendedHours input; er_client_order_id := bi_clientOrderId input |}.

Definition entry_context (input : BrokerOrderSubmissionInput) (orderIntentId : Z)
    : option NewPositionEntryAuthorizationContext :=
  let order := bi_order input in
  if isEntrySubscriptionOrder order then
    Some {| np_subtype := "NEW_POSITION_ENTRY"; np_orderIntentId := orderIntentId;
            np_tradingAccountSubscriptionId := default 0 (po_tradingAccountSubscriptionId order);
            np_subscriptionId := default 0 (po_subscriptionId order); np_symbol := po_symbol order;
            np_side := "buy"; np_clientOrderId := bi_clientOrderId input |}
  else None.

(** The entry adapter: every invocation is logged, then answered. *)
Definition submitAlpacaEntryOrder (post : EntryPost) : eff EntryWorld AlpacaOrder :=
  _ ← modify (set_ew_posts (fun l => (l ++ [post])%list));
  entry_answer post.

Definition opportunity_event (classification : option string) : string :=
  match classification with
  | Some "BROKER_REJECTED" => "BROKER_REJECTED"
  | Some "NOT_SENT_BLOCKED" => "DEFINITELY_NOT_SENT"
  | Some "NOT_SENT_RETRYABLE" => "DEFERRED"
  | _ => "DELIVERY_UNCERTAIN"
  end.

(** From the durable marker on: the adapter is invoked once. *)
Definition dispatch_entry (input : BrokerOrderSubmissionInput) (tradingAccountId orderIntentId claimId : Z)
    (opportunity : option Z) : eff Submission SubmissionResult :=
  _ ← in_world (db_call 3003 (modify (set_claimEvents
        (recordAdapterInvocationStarted now claimId orderIntentId (bi_clientOrderId input)))));
  _ ← set_phase DISPATCH_STARTED;
  _ ← in_world (bestEffortAppendBrokerOpportunityEvent opportunity None "ADAPTER_DISPATCH_REACHED"
        (JObj [("adapter", JStr "alpaca"); ("operation", JStr "pending_order_submission")]));
  created ← try_catch
    (in_world (submitAlpacaEntryOrder {| ep_orderIntentId := orderIntentId;
       ep_tradingAccountId := tradingAccountId; ep_request := entry_payload input;
       ep_context := entry_context input orderIntentId |}))
    (fun error =>
      let classification := getBrokerWriteDeliveryClassification error in
      _ ← in_world (bestEffortAppendBrokerOpportunityEvent opportunity None (opportunity_event classification)
            (JObj [("classification", JStr (default "UNCLASSIFIED" classification));
                   ("statusCode", jopt jint (error_statusCode error))]));
      throw error);
  _ ← set_phase BROKER_RESPONDED;
  _ ← in_world (bestEffortAppendBrokerOpportunityEvent opportunity None "BROKER_RESPONSE_CONFIRMED"
        (JObj [("brokerOrderId", JStr (rawo_id created)); ("status", JStr (rawo_status created))]));
  _ ← in_world (bestEffortAppendBrokerOpportunityEvent opportunity None "BROKER_ORDER_MATERIALIZED"
        (JObj [("source", JStr "post_response"); ("brokerOrderId", JStr (rawo_id created));
               ("status", JStr (rawo_status created))]));
  _ ← in_world (forceAfterBrokerOrderCreated tradingAccountId "broker_order_created");
  mret {| sr_duplicate := false; sr_order := created |}.

Definition submitOrderToBroker (input : BrokerOrderSubmissionInput) (tradingAccountId orderIntentId : Z)
    : eff Submission SubmissionResult :=
  _ ← set_phase UNCLASSIFIED;
  let clientOrderId := bi_clientOrderId input in
  let order := bi_order input in
  if String.eqb clientOrderId "" then
    throw (HttpError 500 "Cannot submit broker order without a stable clientOrderId." JNull)
  else if negb (isEntryOrder order) then
    throw (HttpError 400 "The entry broker boundary accepts BUY entry orders only." JNull)
  else
  executable ← in_world (db_call 3000 (requireExecutableEntryExposureClaim interfere orderIntentId
                 tradingAccountId (po_symbol order) clientOrderId));
  existing ← in_world (lift (entry_order_by_client_id 10 tradingAccountId clientOrderId));
  match existing with
  | Some existing =>
      (* an already-delivered order is recovered as it is *)
      _ ← set_phase EXISTING_ORDER_FOUND;
      _ ← in_world (lift (fun _ => assertExistingEntryOrderIdentity existing clientOrderId (po_symbol order)));
      _ ← in_world (bestEffortAppendBrokerOpportunityEvent None (Some orderIntentId) "BROKER_ORDER_MATERIALIZED"
            (JObj [("source", JStr "pre_post_idempotency_lookup"); ("brokerOrderId", JStr (rawo_id existing))]));
      mret {| sr_duplicate := true; sr_order := existing |}
  | None =>
      _ ← in_world (assertNoLocalEntryDispatchEvidence orderIntentId);
      _ ← set_phase NOT_DISPATCHED;
      dispatch ← in_world (prepareEntryBrokerDispatch orderIntentId tradingAccountId (po_symbol order) clientOrderId);
      opportunity ← in_world (bestEffortCaptureOrderIntentBrokerPostOpportunity orderIntentId);
      _ ← in_world (authorizeDispatch dispatch opportunity);
      dispatch_entry input tradingAccountId orderIntentId (cl_id (fst executable)) opportunity
  end.
End Boundary.
