(* ===== verification/EntryMoves.v ===== *)
(** What the entry side's programs do to the database, for any relation on
    databases that its elementary statements respect: the claim programs, the
    evidence programs, the releases and the failure handling move along it. The
    worker's and the sweeps' theorems instantiate it. *)

From Stdlib Require Import ZArith Lia.
From Stdlib Require Import Strings.String.
From stdpp Require Import base list strings.
From S2P Require Import Prelude JsNumber JsValue JsDate Prisma OrderStatus DeliveryEvidence Schema BrokerAccount.
From S2P Require Import ExposureClaim ExitWorld EntryWorld DispatchEvidence DispatchRecovery.

Open Scope string_scope.
Open Scope Z_scope.

(** A relation that the elementary statements on claims and their events, of a
    session at time [now], respect. *)
Class RespectsClaims `{Prisma} (R : Db -> Db -> Prop) (now : Z) (interfere : nat -> Db -> Db) : Prop := {
  #[global] respects_preorder :: PreOrder R;
  respects_events : forall f db, R db (set_claimEvents f db);
  respects_other : forall n db, R db (interfere n db);
  respects_claims : forall w d, set_releasedAt d = None -> moves R (update_claims w d)
}.

(** ... and that looks at order intents and claims only. *)
Class Respects `{Prisma} (R : Db -> Db -> Prop) (now : Z) (interfere : nat -> Db -> Db) : Prop := {
  #[global] respects_only_claims :: RespectsClaims R now interfere;
  respects_same : forall db db', orderIntents db' = orderIntents db -> claims db' = claims db -> R db db'
}.

Lemma respects_intro `{Prisma} (R : Db -> Db -> Prop) (now : Z) (interfere : nat -> Db -> Db) :
  PreOrder R ->
  (forall db db', orderIntents db' = orderIntents db -> claims db' = claims db -> R db db') ->
  (forall n db, R db (interfere n db)) ->
  (forall w d, set_releasedAt d = None -> moves R (update_claims w d)) ->
  Respects R now interfere.
Proof. intros Hp Hs Ho Hc. split; [|done]. split; try done. intros f db. by apply Hs. Qed.

(** ... and that a release of a claim respects too. *)
Class RespectsReleases `{Prisma} (R : Db -> Db -> Prop) (now : Z) : Prop := {
  respects_releases : forall w r, moves R (update_claims w (data_released now r))
}.

(** ... and that an update of intents which makes none executable respects:
    the worker claims pending intents, and received ones become pending. *)
Definition executable (i : OrderIntent) : bool := member (oi_status i) ["pending"; "received"].
Definition keeps_executable (f : OrderIntent -> OrderIntent) : Prop :=
  forall i, oi_id (f i) = oi_id i /\ (executable (f i) = true -> executable i = true).
Definition settling (status : option string) : Prop :=
  match status with Some s => member s ["pending"; "received"] = false | None => True end.
Class RespectsIntents `{Prisma} (R : Db -> Db -> Prop) : Prop := {
  respects_intents : forall w f db, keeps_executable f ->
    R db (set_orderIntents (fun l => fst (update_many w f l)) db)
}.

Section Programs.
Context `{Prisma} {R : Db -> Db -> Prop} {now : Z} {interfere : nat -> Db -> Db}.
Context `{!RespectsClaims R now interfere}.

Lemma other_R n db : R db (interfere n db).
Proof. apply (respects_other (R := R) (now := now)). Qed.

Lemma await_R n : moves R (await interfere n).
Proof. apply moves_modify. exact (other_R n). Qed.

Lemma events_R f : moves R (modify (set_claimEvents f)).
Proof. apply moves_modify. intros db. apply (respects_events (now := now) (interfere := interfere)). Qed.

Lemma add_event_R i t e : moves R (add_event now i t e).
Proof. apply events_R. Qed.

Lemma find_claim_R w : moves R (find_claim w).
Proof. apply moves_asks. typeclasses eauto. Qed.
Lemma last_event_of_type_R i t : moves R (last_event_of_type i t).
Proof. apply moves_asks. typeclasses eauto. Qed.
Lemma last_event_where_R i t : moves R (last_event_where i t).
Proof. apply moves_asks. typeclasses eauto. Qed.

Lemma status_R w s : moves R (update_claims w (data_status s)).
Proof. by apply respects_claims. Qed.
Lemma unresolved_data_R w : moves R (update_claims w (data_unresolved now)).
Proof. by apply respects_claims. Qed.
Lemma diagnosed_R w : moves R (update_claims w (data_diagnosed now)).
Proof. by apply respects_claims. Qed.
#[local] Hint Resolve await_R events_R add_event_R find_claim_R last_event_of_type_R last_event_where_R
  status_R unresolved_data_R diagnosed_R : moves.

Lemma require_R i u : moves R (requireEntryExposureClaim i u).
Proof. unfold requireEntryExposureClaim. solve_moves. Qed.
#[local] Hint Resolve require_R : moves.

Lemma executable_R i a s c : moves R (requireExecutableEntryExposureClaim interfere i a s c).
Proof. unfold requireExecutableEntryExposureClaim. solve_moves. Qed.

Lemma transition_R i s t e : moves R (transitionEntryExposureClaim now interfere i s t e).
Proof. unfold transitionEntryExposureClaim. solve_moves. Qed.

Lemma diagnostic_R i t e : moves R (appendClaimDiagnostic now interfere i t e).
Proof. unfold appendClaimDiagnostic. solve_moves. Qed.

Lemma diagnostic_R' i t e : moves R (appendEntryExposureClaimDiagnostic now interfere i t e).
Proof. apply diagnostic_R. Qed.

Lemma unresolved_R i t e : moves R (markClaimUnresolved now interfere i t e).
Proof. unfold markClaimUnresolved. solve_moves. Qed.
#[local] Hint Resolve transition_R diagnostic_R diagnostic_R' unresolved_R : moves.

Lemma outcome_R i c s o st m r : moves R (recordEntryDispatchOutcome now interfere i c s o st m r).
Proof. unfold recordEntryDispatchOutcome. solve_moves. Qed.

Lemma prove_R i a : moves R (proveWorkerPreDispatchNonDelivery interfere i a).
Proof. unfold proveWorkerPreDispatchNonDelivery. solve_moves. Qed.

Lemma record_not_sent_R c n s : moves R (record_not_sent now interfere c n s).
Proof. unfold record_not_sent. solve_moves. Qed.

(** ** Intents *)

Section Intents.
Context `{!RespectsIntents R}.

Lemma intents_R w s b : settling s -> moves R (update_order_intents now w s b).
Proof.
  intros Hs db. unfold update_order_intents.
  assert (K : keeps_executable (intent_data now s b)).
  { intros i. split; [done|]. destruct s as [s|]; [|done]. intros E.
    change (member s ["pending"; "received"] = true) in E. change (member s ["pending"; "received"] = false) in Hs.
    congruence. }
  pose proof (respects_intents (R := R) w _ db K) as HR. unfold set_orderIntents in *. by destruct (update_many _ _ _).
Qed.

Lemma intent_R i s b : settling s -> moves R (update_order_intent now i s b).
Proof. intros Hs. unfold update_order_intent. pose proof (fun w => intents_R w s b Hs). solve_moves. Qed.

Lemma judge_admission_R a i c : moves R (judge_admission now interfere a i c).
Proof.
  unfold judge_admission. pose proof (fun w b => intents_R w (Some "failed") b eq_refl). solve_moves.
Qed.
End Intents.

Section Releases.
Context `{!RespectsReleases R now}.

Lemma released_R w r : moves R (update_claims w (data_released now r)).
Proof. apply respects_releases. Qed.
#[local] Hint Resolve released_R : moves.

Lemma release_unsubmitted_R i r : moves R (releaseUnsubmittedEntryExposureClaim now interfere i r).
Proof.
  unfold releaseUnsubmittedEntryExposureClaim, releaseUnsubmittedEntryExposureClaimLocked. solve_moves.
Qed.

Lemma commit_verified_R `{EntryServices} i m u k a : moves R (commit_verified_release now interfere i m u k a).
Proof. unfold commit_verified_release. solve_moves. Qed.

Lemma release_terminal_R by_id by_client position buys i s u :
  moves R (releaseConfirmedTerminalEntryClaim now interfere (broker_order_by_id := by_id)
    (broker_order_by_client_id := by_client) (broker_position := position) (broker_open_buys := buys) i s u).
Proof.
  unfold releaseConfirmedTerminalEntryClaim, judge_broker_evidence, commit_terminal_release. solve_moves.
Qed.
End Releases.
End Programs.

(** * On the world *)

(** The database moves along [R] and the adapter is not invoked. *)
Definition unposted (R : Db -> Db -> Prop) (w w' : EntryWorld) : Prop :=
  R (ew_db w) (ew_db w') /\ ew_posts w' = ew_posts w.

#[export] Instance unposted_preorder R `{!PreOrder R} : PreOrder (unposted R).
Proof.
  split; [by intros w|]. intros a b c [H1 H2] [H3 H4]. split; [by transitivity (ew_db b)|congruence].
Qed.

Section World.
Context `{Prisma} {R : Db -> Db -> Prop} {now : Z} {interfere : nat -> Db -> Db}.
Context `{!RespectsClaims R now interfere}.
Variable outage : nat -> Db -> option js_error.

Lemma step_R n : moves (unposted R) (step interfere outage n).
Proof.
  intros w. unfold step. destruct (outage _ _); (split; [apply (other_R (now := now))|done]).
Qed.

Lemma run_db_R {A} (m : eff Db A) : moves R m -> moves (unposted R) (run_db m).
Proof. intros Hm w. unfold run_db. specialize (Hm (ew_db w)). by destruct (m (ew_db w)). Qed.

Lemma db_call_R {A} n (m : eff Db A) : moves R m -> moves (unposted R) (db_call interfere outage n m).
Proof. intros Hm. apply moves_bind; [typeclasses eauto|apply step_R|]. intros []. by apply run_db_R. Qed.

Lemma db_read_R {A} n (f : Db -> A) : moves (unposted R) (db_read interfere outage n f).
Proof. apply db_call_R, moves_asks. typeclasses eauto. Qed.

Lemma db_transaction_R {A} n (m : eff Db A) : moves R m -> moves (unposted R) (db_transaction interfere outage n m).
Proof.
  intros Hm. apply moves_bind; [typeclasses eauto|apply db_call_R, moves_transaction; [typeclasses eauto|done]|].
  intros x. apply moves_bind; [typeclasses eauto|apply step_R|]. intros []. apply moves_ret. typeclasses eauto.
Qed.

(** A transaction that answered ran its program. *)
Lemma db_transaction_ok {A} n (m : eff Db A) w x w' :
  db_transaction interfere outage n m w = (Ok x, w') -> exists db', m (interfere n (ew_db w)) = (Ok x, db').
Proof.
  intros (y & s & Ht & E)%eff_bind_ok. apply eff_bind_ok in E as ([] & s' & _ & E). injection E as -> _.
  apply eff_bind_ok in Ht as ([] & s2 & Hs & Ht). unfold step in Hs. destruct (outage _ _); [done|].
  injection Hs as <-. unfold run_db in Ht. cbn [ew_db set_ew_db] in Ht.
  destruct (transaction m (interfere n (ew_db w))) as [r db'] eqn:Em. injection Ht as -> _.
  apply transaction_ok in Em. eauto.
Qed.

Lemma or_else_R {A} (m : eff EntryWorld A) d : moves (unposted R) m -> moves (unposted R) (or_else m d).
Proof.
  intros Hm. apply moves_try_catch; [typeclasses eauto|done|]. intros e. apply moves_ret. typeclasses eauto.
Qed.

Lemma system_event_R n t y i a s m p : moves (unposted R) (system_event interfere outage n t y i a s m p).
Proof.
  apply moves_bind; [typeclasses eauto|apply step_R|]. intros []. apply moves_modify. intros w.
  split; [cbn; reflexivity|done].
Qed.

Lemma best_effort_event_R n t y i a s m p : moves (unposted R) (best_effort_event interfere outage n t y i a s m p).
Proof. apply or_else_R, system_event_R. Qed.

Lemma ew_lift_R {A} (f : EntryWorld -> res A) : moves (unposted R) (lift f).
Proof. apply moves_lift. typeclasses eauto. Qed.

Lemma ew_ret_R {A} (x : A) : moves (unposted R) (mret x).
Proof. apply moves_ret. typeclasses eauto. Qed.
End World.

Section SameEntry.
Context `{Prisma} {R : Db -> Db -> Prop} {now : Z} {interfere : nat -> Db -> Db}.
Context `{!Respects R now interfere}.

Lemma same_R db db' : orderIntents db' = orderIntents db -> claims db' = claims db -> R db db'.
Proof. apply (respects_same (R := R) (now := now) (interfere := interfere)). Qed.

Lemma same_entry_R {A} (m : eff EntryWorld A) : moves same_entry m -> moves (unposted R) m.
Proof.
  intros Hm w. destruct (Hm w) as (Hp & Hi & Hc & _). split; [by apply same_R|done].
Qed.
End SameEntry.

#[export] Hint Resolve await_R events_R add_event_R find_claim_R last_event_of_type_R last_event_where_R
  status_R unresolved_data_R diagnosed_R require_R executable_R transition_R diagnostic_R diagnostic_R'
  unresolved_R outcome_R prove_R record_not_sent_R judge_admission_R released_R release_unsubmitted_R
  commit_verified_R release_terminal_R step_R run_db_R db_call_R db_read_R db_transaction_R or_else_R
  system_event_R best_effort_event_R ew_lift_R ew_ret_R : moves.

Create HintDb entry_moves discriminated.
#[export] Hint Constants Opaque : entry_moves.

(** Walk through a program of the entry side. *)
Ltac entry_step :=
  match goal with
  | |- moves _ (or_else _ _) => apply or_else_R
  | |- moves _ (db_call _ _ _ _) => apply db_call_R
  | |- moves _ (db_read _ _ _ _) => apply db_read_R
  | |- moves _ (db_transaction _ _ _ _) => apply db_transaction_R
  | |- moves _ (run_db _) => apply run_db_R
  | |- moves _ (lift _) => apply ew_lift_R
  | |- moves _ (mret _) => apply ew_ret_R
  | |- moves _ (best_effort_event _ _ _ _ _ _ _ _ _ _) => apply best_effort_event_R
  | |- moves _ (system_event _ _ _ _ _ _ _ _ _ _) => apply system_event_R
  | |- moves _ (mbind _ _) => apply moves_bind; [typeclasses eauto| |intros ?]
  | |- moves _ (try_catch _ _) => apply moves_try_catch; [typeclasses eauto| |intros ?]
  | |- moves _ (match ?x with _ => _ end) => destruct x
  | |- moves _ (let '(_, _) := ?x in _) => destruct x
  | |- moves (unposted _) _ => solve [eauto 3 with entry_moves typeclass_instances]
  | |- moves _ _ => solve [eauto with moves typeclass_instances]
  end.
Ltac solve_entry := repeat (cbv zeta; entry_step).

Section Recovery.
Context `{Prisma} {R : Db -> Db -> Prop} {now : Z} {interfere : nat -> Db -> Db}.
Context `{!Respects R now interfere} `{EntryBroker} `{EntryServices}.
Variable outage : nat -> Db -> option js_error.

Lemma assess_R i : moves (unposted R) (assessEntryClaimRelease now interfere outage i).
Proof. unfold assessEntryClaimRelease, read_broker. solve_entry. Qed.

Lemma recovery_error_R i s e : moves (unposted R) (recordRecoveryError now interfere outage i s e).
Proof. unfold recordRecoveryError. solve_entry. Qed.

Lemma emit_R r c : moves (unposted R) (emitDispatchOutcomeRecorded interfere outage r c).
Proof. unfold emitDispatchOutcomeRecorded. solve_entry. Qed.
#[local] Hint Resolve assess_R recovery_error_R emit_R : entry_moves.

Lemma record_outcome_R n i c s o st m r : moves (unposted R) (record_outcome now interfere outage n i c s o st m r).
Proof. unfold record_outcome. solve_entry. Qed.

Lemma refused_release_R i r s e : moves (unposted R) (refused_release now interfere outage i r s e).
Proof. unfold refused_release. solve_entry. Qed.
#[local] Hint Resolve record_outcome_R refused_release_R : entry_moves.

Context `{!RespectsReleases R now}.

Lemma release_verified_R i m u k : moves (unposted R) (releaseVerifiedEntryExposureClaim now interfere outage i m u k).
Proof. unfold releaseVerifiedEntryExposureClaim. solve_entry. Qed.
#[local] Hint Resolve release_verified_R : entry_moves.

Lemma attempt_release_R i c s : moves (unposted R) (attemptReleaseAfterRecordedOutcome now interfere outage i c s).
Proof. unfold attemptReleaseAfterRecordedOutcome. solve_entry. Qed.
#[local] Hint Resolve attempt_release_R : entry_moves.

Lemma release_failed_R i r s d m e : moves (unposted R) (release_failed now interfere outage i r s d m e).
Proof. unfold release_failed, routeEntryDispatchFailure. solve_entry. Qed.
#[local] Hint Resolve release_failed_R : entry_moves.

Lemma release_or_route_R i r s d m :
  moves (unposted R) (releaseUnsubmittedOrRouteToRecovery now interfere outage i r s d m).
Proof. unfold releaseUnsubmittedOrRouteToRecovery. solve_entry. Qed.
#[local] Hint Resolve release_or_route_R : entry_moves.

(** ** The sweeps *)

Lemma lease_R id : moves (unposted R) (leaseRecoveryAttempt now interfere outage id).
Proof. unfold leaseRecoveryAttempt. solve_entry. Qed.

Lemma attempt_result_R id prior a st : moves (unposted R) (recordAttemptResultIfStale now interfere outage id prior a st).
Proof. unfold recordAttemptResultIfStale. solve_entry. Qed.

Lemma not_sent_release_R c n s : moves (unposted R) (recordNotSentEvidenceAndRelease now interfere outage c n s).
Proof. unfold recordNotSentEvidenceAndRelease. solve_entry. Qed.
#[local] Hint Resolve lease_R attempt_result_R not_sent_release_R : entry_moves.

Lemma verified_attempt_R i n : moves (unposted R) (verified_attempt now interfere outage i n).
Proof. unfold verified_attempt. solve_entry. Qed.
#[local] Hint Resolve verified_attempt_R : entry_moves.

Lemma recover_claim_R c cf : moves (unposted R) (recover_claim now interfere outage c cf).
Proof. unfold recover_claim. solve_entry. Qed.
#[local] Hint Resolve recover_claim_R : entry_moves.

Lemma sweep_candidate_R c cf acc : moves (unposted R) (sweep_candidate now interfere outage c cf acc).
Proof. unfold sweep_candidate. solve_entry. Qed.

Context `{!RespectsIntents R}.

Lemma admission_attempt_R a i c : moves (unposted R) (admission_attempt now interfere outage a i c).
Proof. unfold admission_attempt. solve_entry. Qed.
#[local] Hint Resolve admission_attempt_R : entry_moves.

Lemma admission_candidate_R a c acc : moves (unposted R) (admission_candidate now interfere outage a c acc).
Proof. unfold admission_candidate. solve_entry. Qed.
End Recovery.

(** Every sweep hands nothing to the adapter and moves the database along [R]
    when the sessions it meets do. *)
Section Sweeps.
Context `{Prisma} `{EntryBroker} `{EntryServices} {R : Db -> Db -> Prop} {now : Z}.
Context `{!RespectsReleases R now}.
Variable reading : Session.
Variable working : Z -> Session.
Hypothesis reading_R : Respects R now (ss_interfere reading).
Hypothesis working_R : forall i, Respects R now (ss_interfere (working i)).

#[local] Instance sweep_preorder : PreOrder R.
Proof. exact (respects_preorder (RespectsClaims := respects_only_claims (Respects := reading_R))). Qed.

Lemma terminal_sweep_R a : moves (unposted R) (recoverTerminalEntryClaimsForAccount now reading working a).
Proof.
  unfold recoverTerminalEntryClaimsForAccount. apply moves_bind; [exact _|apply (db_read_R (now := now))|]. intros batch.
  generalize {| sw_examined := Z.of_nat (length batch); sw_attempted := []; sw_released := 0; sw_retained := 0;
    sw_recorded := 0; sw_failures := [] |}.
  induction batch as [|[c cf] batch IH]; intros acc; cbn [sweep_candidates]; [apply moves_ret; typeclasses eauto|].
  apply moves_bind; [exact _|by apply sweep_candidate_R|done].
Qed.

Lemma admission_sweep_R `{!RespectsIntents R} a :
  moves (unposted R) (recoverStaleAdmissionClaimsForAccount now reading working a).
Proof.
  unfold recoverStaleAdmissionClaimsForAccount. apply moves_bind; [exact _|apply (db_read_R (now := now))|]. intros batch.
  generalize {| sw_examined := Z.of_nat (length batch); sw_attempted := []; sw_released := 0; sw_retained := 0;
    sw_recorded := 0; sw_failures := [] |}.
  induction batch as [|c batch IH]; intros acc; cbn [admission_candidates]; [apply moves_ret; typeclasses eauto|].
  apply moves_bind; [exact _|by apply admission_candidate_R|done].
Qed.
End Sweeps.

(** * What never throws *)

Section Totality.
Context `{Prisma} `{EntryBroker} `{EntryServices}.
Variable now : Z.
Variable interfere : nat -> Db -> Db.
Variable outage : nat -> Db -> option js_error.

Lemma or_else_total {A} (m : eff EntryWorld A) d : total (or_else m d).
Proof. apply total_try_catch. intros e. apply total_ret. Qed.

Lemma best_effort_total n t y i a s m p : total (best_effort_event interfere outage n t y i a s m p).
Proof. apply or_else_total. Qed.
#[local] Hint Resolve or_else_total best_effort_total : total.

Lemma recovery_error_total i s e : total (recordRecoveryError now interfere outage i s e).
Proof. unfold recordRecoveryError. solve_total. Qed.

Lemma emit_total r c : total (emitDispatchOutcomeRecorded interfere outage r c).
Proof. unfold emitDispatchOutcomeRecorded. solve_total. Qed.
#[local] Hint Resolve recovery_error_total emit_total : total.

Lemma refused_total i r s e : total (refused_release now interfere outage i r s e).
Proof. unfold refused_release. solve_total. Qed.
#[local] Hint Resolve refused_total : total.

Lemma release_failed_total i r s d m e : total (release_failed now interfere outage i r s d m e).
Proof. unfold release_failed. solve_total. Qed.
#[local] Hint Resolve release_failed_total : total.

(** A failed release never escapes its caller. *)
Lemma release_or_route_total i r s d m : total (releaseUnsubmittedOrRouteToRecovery now interfere outage i r s d m).
Proof. unfold releaseUnsubmittedOrRouteToRecovery. solve_total. Qed.
End Totality.

#[export] Hint Resolve or_else_total best_effort_total recovery_error_total emit_total release_or_route_total : total.
