(* ===== verification/SubmissionSafety.v ===== *)
(** What a run of the entry broker boundary did, told by the delivery phase it
    ended in. *)

From Stdlib Require Import ZArith Lia.
From Stdlib Require Import Strings.String.
From Stdlib Require Import Floats.SpecFloat.
From stdpp Require Import base list strings relations.
From S2P Require Import Prelude JsNumber JsValue JsDate Prisma OrderStatus DeliveryEvidence Schema BrokerAccount.
From S2P Require Import RiskGate ExposureClaim ExposureSafety ExitWorld EntryWorld DispatchEvidence DispatchRecovery EntrySubmission EntryMoves.

Open Scope string_scope.
Open Scope Z_scope.

(** * What only other sessions did *)

(** The database [db'] is [db] after steps of other sessions and of nobody
    else: this session wrote nothing to any table. *)
Definition others (interfere : nat -> Db -> Db) : Db -> Db -> Prop := rtc (fun db db' => exists n, db' = interfere n db).

(** ... and the adapter was not invoked, and nothing was reported. *)
Definition waited (interfere : nat -> Db -> Db) (w w' : EntryWorld) : Prop :=
  exists db, others interfere (ew_db w) db /\ w' = set_ew_db (fun _ => db) w.

#[export] Instance others_preorder interfere : PreOrder (others interfere).
Proof. unfold others. typeclasses eauto. Qed.
#[export] Instance waited_preorder interfere : PreOrder (waited interfere).
Proof.
  split; [intros w; exists (ew_db w); by destruct w|].
  intros a b c (d1 & O1 & ->) (d2 & O2 & ->). exists d2. split; [by transitivity d1|done].
Qed.
Lemma set_ew_db_same w : set_ew_db (fun _ => ew_db w) w = w.
Proof. by destruct w. Qed.
Lemma waited_others interfere w w' : waited interfere w w' -> others interfere (ew_db w) (ew_db w').
Proof. by intros (db & O & ->). Qed.
Lemma waited_posts interfere w w' : waited interfere w w' -> ew_posts w' = ew_posts w.
Proof. by intros (db & O & ->). Qed.

(** The request of a submission, and the intent it is made for. *)
Definition submission_post (input : BrokerOrderSubmissionInput) (tradingAccountId orderIntentId : Z) : EntryPost :=
  {| ep_orderIntentId := orderIntentId; ep_tradingAccountId := tradingAccountId;
     ep_request := entry_payload input; ep_context := entry_context input orderIntentId |}.

(** What was read before the adapter was invoked: an unreleased claim of the
    submitting intent, with the intent's own identity; no order at the broker
    under its stable client order id; and no trace of an earlier dispatch. *)
Record dispatchable `{Prisma} `{EntryBroker} (interfere : nat -> Db -> Db) (input : BrokerOrderSubmissionInput)
    (account orderIntentId : Z) (w : EntryWorld) (claim : EntryExposureClaim) : Prop := {
  di_claim : exists db, others interfere (ew_db w) db /\ In claim (claims db);
  di_claim_open : by_intent orderIntentId claim = true /\ cl_releasedAt claim = None /\
    cl_status claim = "ENTRY_SUBMITTING" /\ cl_tradingAccountId claim = account;
  di_intent : exists db i, others interfere (ew_db w) db /\ In i (orderIntents db) /\
    oi_id i = orderIntentId /\ oi_status i = "submitting" /\ oi_tradingAccountId i = Some account /\
    oi_clientOrderId i = Some (bi_clientOrderId input) /\ to_lower (trim (oi_side i)) = "buy" /\
    to_upper (trim (oi_symbol i)) = to_upper (trim (po_symbol (bi_order input)));
  di_absent : exists w', waited interfere w w' /\
    entry_order_by_client_id 10 account (bi_clientOrderId input) w' = Ok None;
  di_untraced : exists db, others interfere (ew_db w) db /\ local_dispatch_evidence orderIntentId db = (0, 0, 0, 0)
}.

(** The durable marker of an adapter invocation is the last event recorded on
    the claim. *)
Definition marked `{Prisma} (now : Z) (claimId orderIntentId : Z) (clientOrderId : string) (w : EntryWorld) : Prop :=
  exists l, claimEvents (ew_db w) = recordAdapterInvocationStarted now claimId orderIntentId clientOrderId l.

Section Submission.
Context `{PrismaLaws} `{B : EntryBroker} `{S : EntryServices}.
Variable now : Z.
Variable interfere : nat -> Db -> Db.
Variable outage : nat -> Db -> option js_error.

Lemma wp_in_world {A} (m : eff EntryWorld A) Q s :
  wp m (fun r w => Q r {| sb_world := w; sb_phase := sb_phase s |}) (sb_world s) -> wp (in_world m) Q s.
Proof. unfold wp, in_world. by destruct (m (sb_world s)). Qed.

(** ** Waiting *)

Lemma others_once n db : others interfere db (interfere n db).
Proof. apply rtc_once. by exists n. Qed.

Lemma step_waits n : moves (waited interfere) (step interfere outage n).
Proof.
  intros w. exists (interfere n (ew_db w)). split; [apply others_once|]. unfold step. by destruct (outage _ _).
Qed.

Lemma run_db_waits {A} (m : eff Db A) : moves (others interfere) m -> moves (waited interfere) (run_db m).
Proof.
  intros Hm w. exists (snd (m (ew_db w))). split; [apply Hm|]. unfold run_db. by destruct (m (ew_db w)).
Qed.

Lemma db_call_waits {A} n (m : eff Db A) :
  moves (others interfere) m -> moves (waited interfere) (db_call interfere outage n m).
Proof.
  intros Hm. apply moves_bind; [typeclasses eauto|apply step_waits|]. intros []. by apply run_db_waits.
Qed.

Lemma await_waits n : moves (others interfere) (await interfere n).
Proof. apply moves_modify. apply others_once. Qed.
Lemma find_claim_waits p : moves (others interfere) (find_claim p).
Proof. apply moves_asks. typeclasses eauto. Qed.
#[local] Hint Resolve await_waits find_claim_waits : moves.

(** ** The executable claim *)

Lemma require_facts i db c db' :
  requireEntryExposureClaim i false db = (Ok c, db') ->
  db' = db /\ In c (claims db) /\ by_intent i c = true /\ cl_releasedAt c = None.
Proof.
  unfold requireEntryExposureClaim, find_claim. intros (o & s & Hf & Hc)%eff_bind_ok.
  injection Hf as <- <-. destruct (find_first (by_intent i) (claims db)) as [x|] eqn:E; [|done].
  apply find_first_some in E as [Hin Hby]. destruct (cl_releasedAt x) eqn:Er; [done|].
  destruct (_ && _); [done|]. by injection Hc as <- <-.
Qed.

Definition executable_facts (i account : Z) (symbol coid : string) (db : Db) (c : EntryExposureClaim) : Prop :=
  (exists db1, others interfere db db1 /\ In c (claims db1)) /\
  (by_intent i c = true /\ cl_releasedAt c = None /\ cl_status c = "ENTRY_SUBMITTING" /\
   cl_tradingAccountId c = account) /\
  exists db2 x, others interfere db db2 /\ In x (orderIntents db2) /\ oi_id x = i /\ oi_status x = "submitting" /\
    oi_tradingAccountId x = Some account /\ oi_clientOrderId x = Some coid /\
    to_lower (trim (oi_side x)) = "buy" /\ to_upper (trim (oi_symbol x)) = to_upper (trim symbol).

Lemma executable_waits i a s c : moves (others interfere) (requireExecutableEntryExposureClaim interfere i a s c).
Proof. unfold requireExecutableEntryExposureClaim, requireEntryExposureClaim. solve_moves. Qed.

Lemma executable_holds i account symbol coid db :
  wp (requireExecutableEntryExposureClaim interfere i account symbol coid)
    (fun r db' => others interfere db db' /\
       forall c x, r = Ok (c, x) -> executable_facts i account symbol coid db c) db.
Proof.
  unfold wp. split.
  { apply executable_waits. }
  intros c x Hr. destruct (requireExecutableEntryExposureClaim _ _ _ _ _ db) as [r db'] eqn:E.
  cbn in Hr. subst r. unfold requireExecutableEntryExposureClaim in E.
  apply eff_bind_ok in E as (c0 & s & (-> & Hin & Hby & Hrel)%require_facts & E).
  apply eff_bind_ok in E as ([] & s & Ha & E). injection Ha as <-.
  apply eff_bind_ok in E as (db1 & s & Hg & E). injection Hg as <- <-.
  apply eff_bind_ok in E as ([] & s & Ha & E). injection Ha as <-.
  apply eff_bind_ok in E as (db2 & s & Hg & E). injection Hg as <- <-. cbv zeta in E.
  destruct (find_first _ (orderIntents _)) as [y|] eqn:Ef; [|done].
  apply find_first_some in Ef as [Hy Hid%Z.eqb_eq].
  destruct (existsb snd _) eqn:Em; [done|]. injection E as <- <- <-.
  cbn in Em. rewrite !orb_false_iff in Em.
  destruct Em as ([Ma1 Ma2] & _ & Ms & Mb & Mk & Mi & Mc & _).
  apply negb_false_iff, bool_decide_eq_true in Ma1, Ms, Mb, Mk, Mi.
  apply negb_false_iff, Z.eqb_eq in Ma2. apply negb_false_iff, String.eqb_eq in Mc.
  split; [by exists db|]. split; [done|]. exists (interfere 10 db), y.
  split; [apply others_once|]. injection Ms as Ms. injection Mb as Mb. injection Mi as Mi. done.
Qed.

(** ** From the marker on *)

Context `{!EntryServicesLaws S} `{!EntryBrokerLaws B}.

Lemma append_wp o i t j Q w : (forall w', same_entry w w' -> Q (Ok tt) w') ->
  wp (bestEffortAppendBrokerOpportunityEvent o i t j) Q w.
Proof.
  intros HQ. destruct (append_total o i t j w) as [w' E]. specialize (append_quiet o i t j w).
  unfold wp. rewrite E. cbn. apply HQ.
Qed.

Lemma capture_wp i Q w : (forall o w', same_entry w w' -> Q (Ok o) w') ->
  wp (bestEffortCaptureOrderIntentBrokerPostOpportunity i) Q w.
Proof.
  intros HQ. destruct (capture_total i w) as (o & w' & E). specialize (capture_quiet i w).
  unfold wp. rewrite E. cbn. apply HQ.
Qed.

Lemma answer_wp p Q w :
  (forall r w', same_entry (set_ew_posts (fun l => (l ++ [p])%list) w) w' -> Q r w') ->
  wp (submitAlpacaEntryOrder p) Q w.
Proof. intros HQ. apply wp_bind, wp_modify. by apply (wp_moves same_entry); [apply answer_quiet|]. Qed.

(** The adapter was invoked once, after its durable marker. *)
Definition invoked (post : EntryPost) (claimId : Z) (coid : string) (posts : list EntryPost) (w' : EntryWorld) : Prop :=
  ew_posts w' = (posts ++ [post])%list /\ marked now claimId (ep_orderIntentId post) coid w'.

Lemma invoked_stays post c k posts w w' : invoked post c k posts w -> same_entry w w' -> invoked post c k posts w'.
Proof.
  intros [Hp [l Hl]] (E1 & _ & _ & E2 & _). split; [congruence|]. exists l. congruence.
Qed.

(** What a submission may have done when it ends in a phase. *)
Definition ends_in (input : BrokerOrderSubmissionInput) (account i : Z) (w : EntryWorld)
    (r : res SubmissionResult) (p : EntryBrokerSubmissionPhase) (w' : EntryWorld) : Prop :=
  match p with
  | UNCLASSIFIED | NOT_DISPATCHED => failed r /\ ew_posts w' = ew_posts w
  | EXISTING_ORDER_FOUND =>
      ew_posts w' = ew_posts w /\
      forall x, r = Ok x -> sr_duplicate x = true /\
        identity_order_mismatches (sr_order x) (bi_clientOrderId input) (po_symbol (bi_order input)) = []
  | DISPATCH_STARTED | BROKER_RESPONDED =>
      isEntryOrder (bi_order input) = true /\ bi_clientOrderId input <> "" /\
      (exists c, dispatchable interfere input account i w c /\
         invoked (submission_post input account i) (cl_id c) (bi_clientOrderId input) (ew_posts w) w') /\
      (p = DISPATCH_STARTED -> failed r) /\ forall x, r = Ok x -> sr_duplicate x = false
  end.

(** From the marker on, told from the state the marker is written in. *)
Definition dispatched (input : BrokerOrderSubmissionInput) (account i c : Z) (w : EntryWorld)
    (r : res SubmissionResult) (s : Submission) : Prop :=
  (sb_phase s = NOT_DISPATCHED /\ failed r /\ ew_posts (sb_world s) = ew_posts w) \/
  ((sb_phase s = DISPATCH_STARTED /\ failed r \/
    sb_phase s = BROKER_RESPONDED /\ forall x, r = Ok x -> sr_duplicate x = false) /\
   invoked (submission_post input account i) c (bi_clientOrderId input) (ew_posts w) (sb_world s)).

Lemma responded_wp account (order : AlpacaOrder) o post c k posts s :
  invoked post c k posts (sb_world s) ->
  wp (_ ← set_phase BROKER_RESPONDED;
      _ ← in_world (bestEffortAppendBrokerOpportunityEvent o None "BROKER_RESPONSE_CONFIRMED"
            (JObj [("brokerOrderId", JStr (rawo_id order)); ("status", JStr (rawo_status order))]));
      _ ← in_world (bestEffortAppendBrokerOpportunityEvent o None "BROKER_ORDER_MATERIALIZED"
            (JObj [("source", JStr "post_response"); ("brokerOrderId", JStr (rawo_id order));
                   ("status", JStr (rawo_status order))]));
      _ ← in_world (forceAfterBrokerOrderCreated account "broker_order_created");
      mret {| sr_duplicate := false; sr_order := order |})
    (fun r s' => (sb_phase s' = BROKER_RESPONDED /\ forall x, r = Ok x -> sr_duplicate x = false) /\
       invoked post c k posts (sb_world s')) s.
Proof.
  intros Hi. apply wp_bind, wp_modify. apply wp_bind, wp_in_world, append_wp. intros w1 Q1.
  apply wp_bind, wp_in_world, append_wp. intros w2 Q2.
  apply wp_bind, wp_in_world. apply (wp_moves same_entry); [apply created_quiet|]. intros r w3 Q3.
  assert (invoked post c k posts w3) by eauto using invoked_stays.
  destruct r; (split; [|done]); (split; [done|]); [|done]. intros y E. by injection E as <-.
Qed.

Lemma dispatch_wp input account i c o s :
  sb_phase s = NOT_DISPATCHED ->
  wp (dispatch_entry now interfere outage input account i c o) (dispatched input account i c (sb_world s)) s.
Proof.
  intros Hph. apply wp_bind, wp_in_world, wp_bind. unfold wp at 1. unfold step.
  destruct (outage 3003 _); cbn [fst snd].
  { left. cbn. split; [done|]. by split; [eexists|]. }
  apply wp_bind, wp_modify. apply wp_bind, wp_in_world, append_wp. intros w1 Q1.
  apply wp_bind, wp_try_catch, wp_in_world, answer_wp. intros r w2 Q2.
  assert (Hi : invoked (submission_post input account i) c (bi_clientOrderId input) (ew_posts (sb_world s)) w2).
  { eapply invoked_stays; [|exact Q2]. destruct Q1 as (P1 & _ & _ & P2 & _). split; cbn in *.
    - by rewrite P1.
    - eexists. cbn. rewrite P2. done. }
  destruct r as [order|e].
  - eapply wp_mono; [by apply responded_wp|]. intros r s' [H1' H2']. right. by split; [right|].
  - apply wp_bind, wp_in_world, append_wp. intros w3 Q3. right. cbn. split; [left; by split; [|eexists]|].
    by eapply invoked_stays.
Qed.

Lemma evidence_wp i w Q :
  (forall r w', waited interfere w w' ->
     (r = Ok tt -> exists db, others interfere (ew_db w) db /\ local_dispatch_evidence i db = (0, 0, 0, 0)) ->
     Q r w') -> wp (assertNoLocalEntryDispatchEvidence interfere outage i) Q w.
Proof.
  intros HQ. apply wp_bind, wp_bind. apply (wp_moves (waited interfere)); [apply step_waits|].
  intros [[]|e] w1 W1; [|by apply HQ].
  unfold wp at 1, run_db. cbn [fst snd asks]. rewrite set_ew_db_same.
  destruct (local_dispatch_evidence i (ew_db w1)) as [[[a b] c] d] eqn:E.
  destruct (_ || _) eqn:Ez; apply HQ; try done. intros _. exists (ew_db w1). split; [by apply waited_others|].
  rewrite !orb_false_iff, !negb_false_iff, !Z.eqb_eq in Ez. by destruct Ez as [[[-> ->] ->] ->].
Qed.

(** The lookup found the order: it is recovered when its identity is the
    entry's. *)
Lemma existing_wp i (existing : AlpacaOrder) coid symbol s :
  wp (_ ← set_phase EXISTING_ORDER_FOUND;
      _ ← in_world (lift (fun _ => assertExistingEntryOrderIdentity existing coid symbol));
      _ ← in_world (bestEffortAppendBrokerOpportunityEvent None (Some i) "BROKER_ORDER_MATERIALIZED"
            (JObj [("source", JStr "pre_post_idempotency_lookup"); ("brokerOrderId", JStr (rawo_id existing))]));
      mret {| sr_duplicate := true; sr_order := existing |})
    (fun r s' => sb_phase s' = EXISTING_ORDER_FOUND /\ ew_posts (sb_world s') = ew_posts (sb_world s) /\
       forall x, r = Ok x -> sr_duplicate x = true /\ identity_order_mismatches (sr_order x) coid symbol = []) s.
Proof.
  apply wp_bind, wp_modify. apply wp_bind, wp_in_world, wp_lift.
  unfold assertExistingEntryOrderIdentity. destruct (identity_order_mismatches existing coid symbol) eqn:E; [|done].
  apply wp_bind, wp_in_world, append_wp. intros w1 (P1 & _). split; [done|]. split; [done|].
  intros x Ex. by injection Ex as <-.
Qed.

Lemma dispatchable_intro input account i w claim db1 w2 w3 :
  executable_facts i account (po_symbol (bi_order input)) (bi_clientOrderId input) db1 claim ->
  others interfere (ew_db w) db1 -> waited interfere w w2 -> waited interfere w2 w3 ->
  entry_order_by_client_id 10 account (bi_clientOrderId input) w2 = Ok None ->
  (exists db, others interfere (ew_db w2) db /\ local_dispatch_evidence i db = (0, 0, 0, 0)) ->
  dispatchable interfere input account i w claim.
Proof.
  intros ((d1 & O1 & I1) & Hopen & (d2 & x & O2 & I2)) O W2 W3 Hl (d3 & O3 & I3). split.
  - exists d1. split; [by transitivity db1|done].
  - done.
  - exists d2, x. split; [by transitivity db1|done].
  - by exists w2.
  - exists d3. split; [|done]. transitivity (ew_db w2); [by apply waited_others|done].
Qed.

Lemma submit_wp input account i s :
  wp (submitOrderToBroker now interfere outage input account i)
    (fun r s' => ends_in input account i (sb_world s) r (sb_phase s') (sb_world s')) s.
Proof.
  apply wp_bind, wp_modify. cbv zeta. destruct (String.eqb (bi_clientOrderId input) "") eqn:Ek.
  { split; [by eexists|done]. }
  apply String.eqb_neq in Ek. destruct (isEntryOrder (bi_order input)) eqn:Eb; cbn [negb].
  2: { split; [by eexists|done]. }
  apply wp_bind, wp_in_world, wp_bind. apply (wp_moves (waited interfere)); [apply step_waits|].
  intros [[]|e] w1 W1; [|split; [by eexists|exact (waited_posts _ _ _ W1)]]. unfold wp at 1, run_db.
  destruct (executable_holds i account (po_symbol (bi_order input)) (bi_clientOrderId input) (ew_db w1)) as [O1 X1].
  destruct (requireExecutableEntryExposureClaim _ _ _ _ _ (ew_db w1)) as [[[claim intent]|e] db1];
    cbn [fst snd] in *; [|split; [by eexists|exact (waited_posts _ _ _ W1)]].
  specialize (X1 _ _ eq_refl).
  apply wp_bind, wp_in_world, wp_lift. destruct (entry_order_by_client_id _ _ _ _) as [[existing|]|e] eqn:El.
  { eapply wp_mono; [apply existing_wp|]. intros r s' (-> & Hp & Hx). split; [rewrite Hp; exact (waited_posts _ _ _ W1)|done]. }
  2: { split; [by eexists|exact (waited_posts _ _ _ W1)]. }
  apply wp_bind, wp_in_world, evidence_wp. intros r w2 W2 X2.
  assert (W0 : waited interfere (sb_world s) (set_ew_db (fun _ => db1) w1)).
  { transitivity w1; [done|]. by exists db1. }
  assert (P2 : ew_posts w2 = ew_posts (sb_world s)) by (rewrite (waited_posts _ _ _ W2); exact (waited_posts _ _ _ W0)).
  destruct r as [[]|e]; [|by split; [eexists|]]. specialize (X2 eq_refl).
  apply wp_bind, wp_modify. apply wp_bind, wp_in_world.
  apply (wp_moves same_entry); [apply prepare_quiet|]. intros [d|e] w3 Q3; cbn [sb_world sb_phase] in *.
  2: { split; [by eexists|]. destruct Q3 as [Q3 _]. congruence. }
  apply wp_bind, wp_in_world, capture_wp. intros o w4 Q4.
  apply wp_bind, wp_in_world. apply (wp_moves same_entry); [apply dispatch_quiet|]. intros r w5 Q5.
  assert (P5 : ew_posts w5 = ew_posts (sb_world s)).
  { destruct Q3 as [Q3 _], Q4 as [Q4 _], Q5 as [Q5 _]. cbn in *. congruence. }
  destruct r as [[]|e]; [|by split; [eexists|]].
  eapply wp_mono; [by apply dispatch_wp|]. intros r s' [(-> & Hr & Hp)|(Hph & Hi)].
  { split; [done|]. cbn in *. congruence. }
  assert (D : dispatchable interfere input account i (sb_world s) claim).
  { eapply dispatchable_intro; try done. by apply waited_others. }
  cbn in Hi. rewrite P5 in Hi.
  destruct Hph as [[-> Hr]|[-> Hr]]; (split; [done|]; split; [done|]; split; [by exists claim|]); (split; [done|]).
  - intros x Ex. by destruct Hr as [e He]; rewrite He in Ex.
  - done.
Qed.
End Submission.

(** C10. The delivery phase a submission ends in tells the truth about the
    adapter, whatever other sessions do to the database meanwhile and wherever
    it fails: before DISPATCH_STARTED nothing was handed to the broker and the
    submission failed, or recovered an existing order of exactly this entry;
    from DISPATCH_STARTED on the adapter was handed exactly one request, this
    entry's own, after its durable invocation marker, for an unreleased claim
    of the submitting intent, with no order at the broker under its client
    order id and no trace of an earlier dispatch. *)
Theorem submission_phase_truthful `{PrismaLaws} `{B : EntryBroker} `{S : EntryServices}
    (HB : EntryBrokerLaws B) (HS : EntryServicesLaws S) now interfere outage input account i w :
  let '(r, phase, w') := with_boundary (submitOrderToBroker now interfere outage input account i) w in
  ends_in now interfere input account i w r phase w'.
Proof.
  unfold with_boundary. set (s := {| sb_world := w; sb_phase := UNCLASSIFIED |}).
  pose proof (submit_wp now interfere outage input account i s) as Hw. unfold wp in Hw.
  by destruct (submitOrderToBroker _ _ _ _ _ _ s).
Qed.

(** * Concrete inputs *)

(** The broker accepts every entry under its own client order id. *)
Definition accepted_order (p : EntryPost) : AlpacaOrder :=
  {| rawo_id := "broker-1"; rawo_client_order_id := er_client_order_id (ep_request p);
     rawo_symbol := er_symbol (ep_request p); rawo_side := er_side (ep_request p);
     rawo_type := er_type (ep_request p); rawo_time_in_force := er_time_in_force (ep_request p);
     rawo_qty := None; rawo_notional := None; rawo_limit_price := None; rawo_stop_price := None;
     rawo_status := "accepted"; rawo_submitted_at := "2024-01-02T17:00:00Z"; rawo_filled_qty := None;
     rawo_filled_avg_price := None; rawo_trail_price := None; rawo_trail_percent := None;
     rawo_replaced_by := None |}.
Definition accepting_broker : EntryBroker :=
  {| entry_order_by_client_id _ _ _ _ := Ok None; entry_open_buys _ _ _ _ := Ok [];
     entry_position _ _ _ _ := Ok None; entry_answer p := mret (accepted_order p) |}.
Definition silent_services : EntryServices :=
  {| bestEffortAppendBrokerOpportunityEvent _ _ _ _ := mret tt;
     bestEffortCaptureOrderIntentBrokerPostOpportunity _ := mret None;
     prepareEntryBrokerDispatch i _ _ _ :=
       mret {| pd_enforcement := "NOT_APPLICABLE"; pd_orderIntentId := i; pd_decisionId := None |};
     authorizeDispatch _ _ := mret tt; forceAfterBrokerOrderCreated _ _ := mret tt;
     sha256_hex _ := "" |}.

Lemma accepting_broker_laws : EntryBrokerLaws accepting_broker.
Proof. split. intros p w. cbn. reflexivity. Qed.
Lemma silent_services_laws : EntryServicesLaws silent_services.
Proof.
  split; intros; try (intros w; cbn; reflexivity); try (eexists; try eexists; reflexivity).
  intros w. exists []. split; [|done]. destruct w as [[] ??]. unfold set_ew_db, set_opportunityEvents. cbn -[app]. by rewrite app_nil_r.
Qed.

(** A pending entry of the sample account, and its claim. *)
Definition entry_intent (status : string) : OrderIntent :=
  {| oi_id := 31; oi_source := "signal"; oi_symbol := "AAPL"; oi_side := "buy"; oi_orderType := "market";
     oi_timeInForce := "day"; oi_qty := None; oi_notional := Some (num_of_Z 1500); oi_limitPrice := None;
     oi_clientOrderId := Some "entry-31"; oi_status := status; oi_blockReason := None;
     oi_rawRequestJson := JObj []; oi_createdAt := 1704214700000; oi_updatedAt := 1704214700000;
     oi_subscriptionId := Some 5; oi_subscriptionKey := Some "aapl-trend"; oi_trackedPositionId := None;
     oi_tradingAccountId := Some 7; oi_tradingAccountSubscriptionId := Some 9;
     oi_liveEntryAcceptanceRunId := None; oi_lastSubmittedOrderSyncAt := None |}.
Definition entry_claim (status : string) : EntryExposureClaim :=
  {| cl_id := 1; cl_tradingAccountId := 7; cl_securityId := 1; cl_orderIntentId := Some 31;
     cl_trackedPositionId := None; cl_ownerKey := "order-intent:31"; cl_status := status;
     cl_acquiredAt := 1704214700000; cl_releasedAt := None; cl_releaseReason := None; cl_lastDiagnosedAt := None |}.
Definition entry_world (intent claim : string) : EntryWorld :=
  {| ew_db := set_claims (fun _ => [entry_claim claim]) (set_orderIntents (fun _ => [entry_intent intent]) RiskGate.sample_db);
     ew_events := []; ew_posts := [] |}.
Definition entry_input : BrokerOrderSubmissionInput :=
  {| bi_order := RiskGate.sample_order; bi_orderType := "market"; bi_timeInForce := "day"; bi_extendedHours := false;
     bi_clientOrderId := "entry-31" |}.
Definition no_outage (n : nat) (db : Db) : option js_error := None.


Lemma submission_phase_truthful_witness :
  let '(r, phase, w') := with_boundary
    (submitOrderToBroker (H := in_order) (H0 := accepting_broker) (H1 := silent_services) 1704214800000
       calm no_outage entry_input 7 31) (entry_world "submitting" "ENTRY_SUBMITTING") in
  phase = BROKER_RESPONDED /\
  ends_in (P := in_order) (B := accepting_broker) 1704214800000 calm entry_input 7 31
    (entry_world "submitting" "ENTRY_SUBMITTING") r phase w'.
Proof.
  pose proof (submission_phase_truthful (P := in_order) (B := accepting_broker) (S := silent_services)
    accepting_broker_laws silent_services_laws 1704214800000 calm no_outage entry_input 7 31
    (entry_world "submitting" "ENTRY_SUBMITTING")) as E.
  destruct (with_boundary _ _) as [[r phase] w'] eqn:X.
  split; [|exact E]. vm_compute in X. by injection X as _ <- _.
Defined.
