(* ===== verification/RecoverySafety.v ===== *)
(** When a recovery may release the claim of a dispatched entry: the exact
    evidence a verified release needs, and that it is read again before the
    release commits. *)

From Stdlib Require Import ZArith Lia.
From Stdlib Require Import Strings.String.
From Stdlib Require Import Floats.SpecFloat.
From stdpp Require Import base list strings relations.
From S2P Require Import Prelude JsNumber JsValue JsDate Prisma OrderStatus DeliveryEvidence Schema BrokerAccount.
From S2P Require Import RiskGate ExposureClaim ExposureSafety ExitWorld EntryWorld DispatchEvidence DispatchRecovery.
From S2P Require Import EntrySubmission EntryMoves SubmissionSafety.

Open Scope string_scope.
Open Scope Z_scope.

(** * The release basis *)

(** An outcome that leaves no doubt: nothing left the process, or the broker
    refused for good at least a minute ago. *)
Definition undoubted (now : Z) (o : DeliveryOutcome) : Prop :=
  member (out_classification o) LOCAL_NON_SEND_CLASSIFICATIONS = true \/
  out_classification o = "BROKER_REJECTED" /\ definitive_status (out_statusCode o) = true /\
  out_recordedAt o + ENTRY_DISPATCH_REJECTION_SETTLE_MS <= now.

Lemma max_of_le first l t : max_of first l <= t <-> first <= t /\ forall x, In x l -> x <= t.
Proof.
  revert first. induction l as [|x l IH]; intros first; cbn [max_of].
  - split; [intros; split; [done|by intros x []]|by intros [? _]].
  - rewrite IH, Z.max_lub_iff. split.
    + intros [[H1 H2] H3]. split; [done|]. intros y [<-|Hy]; auto.
    + intros [H1 H2]. split; [split; [done|apply H2; by left]|]. intros y Hy. apply H2. by right.
Qed.

Lemma negb_existsb {A} (p : A -> bool) l : existsb (fun x => negb (p x)) l = false <-> forall x, In x l -> p x = true.
Proof.
  rewrite existsb_false_In. split; intros Hx x Hi; specialize (Hx x Hi); [by apply negb_false_iff|by rewrite Hx].
Qed.

(** There is a basis exactly when every outcome is undoubted, and there is one. *)
Lemma basis_exact outcomes now :
  is_some (rb_basis (evaluateDispatchReleaseBasis outcomes now)) = true <->
  outcomes <> [] /\ forall o, In o outcomes -> undoubted now o.
Proof.
  unfold evaluateDispatchReleaseBasis. destruct outcomes as [|o0 l]; [split; [done|by intros []]|].
  set (os := o0 :: l). set (rejected := fun o => String.eqb (out_classification o) "BROKER_REJECTED").
  assert (Hn : os <> []) by done.
  destruct (existsb _ os) eqn:E.
  { split; [done|]. intros [_ Hu]. apply existsb_exists in E as (o & Ho & E).
    apply andb_prop in E as [E1%negb_true_iff E2%negb_true_iff]. destruct (Hu o Ho) as [X|[X _]]; [congruence|].
    by rewrite X in E2. }
  assert (Hlr : forall o, In o os -> member (out_classification o) LOCAL_NON_SEND_CLASSIFICATIONS = true \/ rejected o = true).
  { intros o Ho. rewrite existsb_false_In in E. specialize (E o Ho). apply andb_false_iff in E as [X%negb_false_iff|X%negb_false_iff]; auto. }
  destruct (filterb rejected os) as [|r rs] eqn:Er.
  { split; [|done]. intros _. split; [done|]. intros o Ho. left. destruct (Hlr o Ho) as [?|X]; [done|].
    assert (In o (filterb rejected os)) by by apply filterb_In. by rewrite Er in *. }
  destruct (existsb (fun o => negb (definitive_status (out_statusCode o))) (r :: rs)) eqn:Ed.
  { split; [done|]. intros [_ Hu]. apply existsb_exists in Ed as (o & Ho & Ed%negb_true_iff).
    rewrite <- Er in Ho. apply filterb_In in Ho as [Ho X%String.eqb_eq].
    destruct (Hu o Ho) as [Y|(_ & Y & _)]; [by rewrite X in Y|congruence]. }
  rewrite negb_existsb in Ed.
  pose proof (max_of_le (out_recordedAt r) (map out_recordedAt rs) (now - ENTRY_DISPATCH_REJECTION_SETTLE_MS)) as Hm.
  assert (Hall : (forall x, In x (r :: rs) -> out_recordedAt x <= now - ENTRY_DISPATCH_REJECTION_SETTLE_MS) <->
    max_of (out_recordedAt r) (map out_recordedAt rs) <= now - ENTRY_DISPATCH_REJECTION_SETTLE_MS).
  { rewrite Hm. split.
    - intros Hx. split; [apply Hx; by left|]. intros x (o & <- & Ho)%in_map_iff. apply Hx. by right.
    - intros [H1 H2] x [<-|Hx]; [done|]. apply H2. by apply in_map. }
  destruct (Z.ltb_spec (now - max_of (out_recordedAt r) (map out_recordedAt rs)) ENTRY_DISPATCH_REJECTION_SETTLE_MS) as [Hlt|Hge].
  - split; [done|]. intros [_ Hu].
    assert (Hx : forall x, In x (r :: rs) -> out_recordedAt x <= now - ENTRY_DISPATCH_REJECTION_SETTLE_MS).
    { intros x Hx. rewrite <- Er in Hx. apply filterb_In in Hx as [Hx X%String.eqb_eq].
      destruct (Hu x Hx) as [Y|(_ & _ & Y)]; [by rewrite X in Y|lia]. }
    apply Hall in Hx. lia.
  - split; [|done]. intros _. split; [done|]. intros o Ho. destruct (Hlr o Ho) as [?|X]; [by left|].
    assert (Hr : In o (r :: rs)) by (rewrite <- Er; by apply filterb_In).
    right. split; [by apply String.eqb_eq|]. split; [by apply Ed|].
    assert (out_recordedAt o <= now - ENTRY_DISPATCH_REJECTION_SETTLE_MS) by (apply Hall; [lia|done]). lia.
Qed.

Lemma basis_no_blocker outcomes now :
  is_some (rb_basis (evaluateDispatchReleaseBasis outcomes now)) = true ->
  rb_blocker (evaluateDispatchReleaseBasis outcomes now) = None.
Proof.
  unfold evaluateDispatchReleaseBasis. repeat (case_match; try done).
Qed.

(** * Eligibility *)

Definition no_local_exposure (l : LocalExposure) : Prop :=
  le_brokerOrders l <= 0 /\ le_brokerActivities l <= 0 /\ le_activePositions l <= 0 /\
  le_trackedPositionAttached l = false /\ le_localExecutableBuys l <= 0 /\ le_unattributedFills l <= 0.

(** Everything that must hold for a verified release. *)
Record conclusive_evidence (claim : EntryExposureClaim) (intent : OrderIntent) (symbol : string)
    (records : EntryDispatchRecords) (summary : DeliveryEvidenceSummary) (local : LocalExposure)
    (broker : BrokerReads) (now : Z) : Prop := {
  ce_unreleased : cl_releasedAt claim = None;
  ce_recoverable : member (cl_status claim) RECOVERABLE_CLAIM_STATUSES = true;
  ce_recorded : rec_present records = true \/ sum_dispatchOutcomes summary <> [] -> cl_status claim = "UNRESOLVED";
  ce_identity : identity_mismatches claim intent symbol records = [];
  ce_terminal : member (oi_status intent) TERMINAL_ENTRY_INTENT_STATUSES = true;
  ce_local : no_local_exposure local;
  ce_broker : broker = no_broker_reads None;
  ce_outcomes : sum_outcomes summary <> [] /\ forall o, In o (sum_outcomes summary) -> undoubted now o
}.

Lemma flag_nil b l : flag b l = [] <-> b = false.
Proof. by destruct b. Qed.

Lemma local_blockers_nil l : local_blockers l = [] <-> no_local_exposure l.
Proof.
  unfold local_blockers, no_local_exposure. rewrite !app_nil, !flag_nil, orb_false_iff, !Z.ltb_ge. naive_solver.
Qed.

Lemma positive_length {A} (l : list A) : (0 <? Z.of_nat (length l)) = false <-> l = [].
Proof. destruct l; cbn; [done|]. split; [|done]. intros E%Z.ltb_ge. lia. Qed.

(** The blockers are empty and there is a basis exactly on conclusive
    evidence. *)
Lemma eligible_exact claim intent symbol environment records events local broker now :
  let summary := summarizeDeliveryEvidence events in
  as_eligible (assess claim intent symbol environment records events local broker now) = true <->
  conclusive_evidence claim intent symbol records summary local broker now.
Proof.
  intros summary. unfold as_eligible, assess. cbn [as_blockers as_basis]. fold summary.
  rewrite andb_true_iff, bool_decide_eq_true, basis_exact.
  unfold release_blockers. cbv zeta.
  set (recorded := (0 <? Z.of_nat (length (sum_outcomes summary))) || rec_present records).
  rewrite !app_nil, !flag_nil, local_blockers_nil, !negb_false_iff, bool_decide_eq_true.
  split.
  - intros [(H1 & H2 & H3 & H4 & H5 & H6 & H7 & H8 & H9 & H10 & H11) Hb].
    destruct (member (cl_status claim) RECOVERABLE_CLAIM_STATUSES) eqn:Em; [|done]. cbn [negb] in H4.
    apply flag_nil, andb_false_iff in H4. split; try done.
    + by destruct (cl_releasedAt claim).
    + intros Hr. destruct H4 as [H4|H4]; [|by apply String.eqb_eq, negb_false_iff].
      apply orb_false_iff in H4 as [X Y%positive_length]. by destruct Hr; [congruence|].
    + destruct broker as [[?|] ob [?|] [?|]]; try done. cbn in H10. apply positive_length in H10. by subst.
  - intros [X1 X2 X3 X4 X5 X6 -> X8]. split; [|done].
    assert (Hr : recorded = true).
    { unfold recorded. apply orb_true_iff. left. destruct X8 as [Hn _]. by destruct (sum_outcomes summary). }
    assert (Hn : rb_blocker (evaluateDispatchReleaseBasis (sum_outcomes summary) now) = None)
      by by apply basis_no_blocker, basis_exact.
    rewrite Hn, X1, X2, X5. cbn [is_some negb no_broker_reads br_order br_openBuys br_position br_lookupError length]. repeat (split; [done|]). split; [|done].
    apply flag_nil, andb_false_iff.
    destruct (rec_present records) eqn:Er; [right; rewrite X3 by (by left); done|].
    destruct (sum_dispatchOutcomes summary) eqn:Es; [by left|]. right. rewrite X3; [done|]. by right.
Qed.

(** * What an assessment read *)

(** Every fact of the assessment was read in a state other sessions alone led
    to: nothing of this session lies between the start and the reading. The
    broker's answers are those of such a state too. *)
Record evidence_read `{Prisma} `{EntryBroker} (interfere : nat -> Db -> Db) (now i : Z) (w : EntryWorld)
    (a : EntryClaimReleaseAssessment) : Prop := {
  er_claim : exists db, others interfere (ew_db w) db /\ find_first (by_intent i) (claims db) = Some (as_claim a) /\
    intent_of db (as_claim a) = Some (as_intent a) /\
    as_symbol a = to_upper (trim (symbol_of db (cl_securityId (as_claim a))));
  er_records : exists db, others interfere (ew_db w) db /\ as_records a = loadEntryDispatchRecords i db;
  er_events : exists db, others interfere (ew_db w) db /\
    let events := loadDeliveryEvidenceEvents (cl_id (as_claim a)) (claimEvents db) in
    as_summary a = summarizeDeliveryEvidence events /\ as_evidenceEventCount a = Z.of_nat (length events);
  er_local : exists db, others interfere (ew_db w) db /\
    as_local a = localExposure (as_claim a) i (as_symbol a) (rec_startedAt (as_records a)) db;
  er_broker : as_lookupError a = None -> forall k, oi_clientOrderId (as_intent a) = Some k -> k <> "" ->
    exists w', waited interfere w w' /\ let account := cl_tradingAccountId (as_claim a) in
      entry_order_by_client_id 1 account k w' = Ok (as_order a) /\
      entry_open_buys 2 account (as_symbol a) w' = Ok (as_openBuys a) /\
      entry_position 3 account (as_symbol a) w' = Ok (as_position a);
  er_eligible : as_eligible a = true ->
    conclusive_evidence (as_claim a) (as_intent a) (as_symbol a) (as_records a) (as_summary a) (as_local a)
      {| br_order := as_order a; br_openBuys := as_openBuys a; br_position := as_position a;
         br_lookupError := as_lookupError a |} now
}.

Section Assessment.
Context `{PrismaLaws} `{B : EntryBroker} `{S : EntryServices}.
Variable now : Z.
Variable interfere : nat -> Db -> Db.
Variable outage : nat -> Db -> option js_error.

Lemma read_wp {A} n (f : Db -> A) Q w :
  (forall r w', waited interfere w w' -> (forall x, r = Ok x -> x = f (ew_db w')) -> Q r w') ->
  wp (db_read interfere outage n f) Q w.
Proof.
  intros HQ. apply wp_bind, (wp_moves (waited interfere)); [apply step_waits|]. intros [[]|e] w' W'.
  - unfold wp, run_db, asks. cbn [fst snd]. rewrite set_ew_db_same. apply HQ; [done|]. intros x E. by injection E as <-.
  - by apply HQ.
Qed.

(** The broker's three answers, when all could be read. *)
Lemma broker_wp claim k symbol w :
  wp (read_broker claim k symbol)
    (fun r w' => w' = w /\ exists b, r = Ok b /\ (br_lookupError b = None ->
       entry_order_by_client_id 1 (cl_tradingAccountId claim) k w = Ok (br_order b) /\
       entry_open_buys 2 (cl_tradingAccountId claim) symbol w = Ok (br_openBuys b) /\
       entry_position 3 (cl_tradingAccountId claim) symbol w = Ok (br_position b))) w.
Proof.
  apply wp_try_catch, wp_bind, wp_lift.
  destruct (entry_order_by_client_id _ _ _ w) as [o|e]; [|split; [done|]; by eexists].
  apply wp_bind, wp_lift. destruct (entry_open_buys _ _ _ w) as [l|e]; [|split; [done|]; by eexists].
  apply wp_bind, wp_lift. destruct (entry_position _ _ _ w) as [p|e]; (split; [done|]; by eexists).
Qed.

Lemma read_intro i w w0 w1 w2 w3 w4 claim intent broker :
  let symbol := to_upper (trim (symbol_of (ew_db w0) (cl_securityId claim))) in
  let records := loadEntryDispatchRecords i (ew_db w1) in
  let events := loadDeliveryEvidenceEvents (cl_id claim) (claimEvents (ew_db w2)) in
  waited interfere w w0 -> waited interfere w0 w1 -> waited interfere w1 w2 -> waited interfere w2 w3 ->
  waited interfere w3 w4 ->
  find_first (by_intent i) (claims (ew_db w0)) = Some claim -> intent_of (ew_db w0) claim = Some intent ->
  (br_lookupError broker = None -> forall k, oi_clientOrderId intent = Some k -> k <> "" ->
     entry_order_by_client_id 1 (cl_tradingAccountId claim) k w4 = Ok (br_order broker) /\
     entry_open_buys 2 (cl_tradingAccountId claim) symbol w4 = Ok (br_openBuys broker) /\
     entry_position 3 (cl_tradingAccountId claim) symbol w4 = Ok (br_position broker)) ->
  evidence_read interfere now i w
    (assess claim intent symbol (environment_of (ew_db w0) intent) records events
       (localExposure claim i symbol (rec_startedAt records) (ew_db w3)) broker now).
Proof.
  intros symbol records events W0 W1 W2 W3 W4 Hc Hi Hb.
  assert (V1 : waited interfere w w1) by by transitivity w0.
  assert (V2 : waited interfere w w2) by by transitivity w1.
  assert (V3 : waited interfere w w3) by by transitivity w2.
  split.
  - exists (ew_db w0). split; [by apply waited_others|done].
  - exists (ew_db w1). split; [by apply waited_others|done].
  - exists (ew_db w2). split; [by apply waited_others|done].
  - exists (ew_db w3). split; [by apply waited_others|done].
  - intros He k Hk Hne. exists w4. split; [by transitivity w3|]. by apply Hb.
  - intros He. apply eligible_exact in He. by destruct broker.
Qed.

Lemma assess_wp i w :
  wp (assessEntryClaimRelease now interfere outage i)
    (fun r w' => waited interfere w w' /\ forall a, r = Ok a -> evidence_read interfere now i w a) w.
Proof.
  apply wp_bind, read_wp. intros [db|e] w0 W0 E0; [|done]. specialize (E0 _ eq_refl) as ->.
  destruct (find_first (by_intent i) (claims (ew_db w0))) as [claim|] eqn:Ec; [|done].
  cbn [mbind option_bind]. destruct (intent_of (ew_db w0) claim) as [intent|] eqn:Ei; [|done].
  apply wp_bind, read_wp. intros [records|e] w1 W1 E1; [|split; [by transitivity w0|done]].
  apply wp_bind, read_wp. intros [events|e] w2 W2 E2; [|split; [do 2 (etransitivity; [done|]); done|done]].
  apply wp_bind, read_wp. intros [local|e] w3 W3 E3; [|split; [do 3 (etransitivity; [done|]); done|done]].
  rewrite (E1 _ eq_refl), (E2 _ eq_refl) in *. specialize (E3 _ eq_refl) as ->. clear E1 E2.
  assert (V3 : waited interfere w w3) by (do 3 (etransitivity; [done|]); done).
  apply wp_bind. destruct (oi_clientOrderId intent) as [k|] eqn:Ek.
  2: { split; [done|]. intros a Ea. injection Ea as <-. apply (read_intro i w w0 w1 w2 w3 w3); try done. by rewrite Ek. }
  destruct k as [|c k'].
  { split; [done|]. intros a Ea. injection Ea as <-. apply (read_intro i w w0 w1 w2 w3 w3); try done.
    intros _ k. rewrite Ek. by intros [= <-]. }
  eapply wp_mono; [apply broker_wp|]. intros r w' (-> & b & -> & Hb).
  split; [done|]. intros a Ea. injection Ea as <-. apply (read_intro i w w0 w1 w2 w3 w3); try done.
  intros He k. rewrite Ek. intros [= <-] _. by apply Hb.
Qed.
End Assessment.

(** * The commit *)

(** Read again under the lock before the release commits, in states other
    sessions alone led to from [w], the world the assessment ended in. *)
Record revalidated `{Prisma} (interfere : nat -> Db -> Db) (i : Z) (w : EntryWorld) (a : EntryClaimReleaseAssessment)
    : Prop := {
  rv_claim : exists db c, others interfere (ew_db w) db /\ In c (claims db) /\ cl_id c = cl_id (as_claim a) /\
    cl_releasedAt c = None /\ cl_status c = cl_status (as_claim a) /\
    match intent_of db c with
    | Some x => member (oi_status x) TERMINAL_ENTRY_INTENT_STATUSES = true | None => False end /\
    exists db', others interfere db db' /\
      no_local_exposure (localExposure c i (as_symbol a) (as_dispatchStartedAt a) db') /\
      rec_present (loadEntryDispatchRecords i db') = as_dispatchRecordPresent a /\
      count (fun e => (ce_claimId e =? cl_id (as_claim a)) && member (ce_eventType e) DELIVERY_EVIDENCE_EVENT_TYPES)
        (claimEvents db') = as_evidenceEventCount a
}.

Section Commit.
Context `{PrismaLaws} `{B : EntryBroker} `{S : EntryServices}.
Variable now : Z.
Variable interfere : nat -> Db -> Db.
Variable outage : nat -> Db -> option js_error.

(** No blocker reads as a release. *)
Definition other_text (s : string) : Prop :=
  match s with String c _ => Ascii.eqb c (Ascii.ascii_of_nat 82) = false | EmptyString => False end.

Lemma joined_other b l : other_text b -> String.eqb (join_commas (b :: l)) "RELEASED" = false.
Proof.
  destruct b as [|c b]; [done|]. cbn [other_text]. intros Hc.
  apply String.eqb_neq. intros E. destruct l; injection E as -> _; vm_compute in Hc; discriminate Hc.
Qed.

Lemma flag_other b s : other_text s -> Forall other_text (flag b s).
Proof. intros Hs. destruct b; [by constructor|constructor]. Qed.

Lemma revalidation_other a c st local n records : Forall other_text (revalidation_blockers a c st local n records).
Proof.
  unfold revalidation_blockers, local_blockers. repeat (apply Forall_app; split); by apply flag_other.
Qed.

Lemma revalidation_nil a c st local n records : revalidation_blockers a c st local n records = [] ->
  cl_status c = cl_status (as_claim a) /\
  match st with Some s => member s TERMINAL_ENTRY_INTENT_STATUSES = true | None => False end /\
  no_local_exposure local /\ n = as_evidenceEventCount a /\ rec_present records = as_dispatchRecordPresent a.
Proof.
  unfold revalidation_blockers. rewrite !app_nil, !flag_nil, !negb_false_iff, local_blockers_nil.
  intros (H1%String.eqb_eq & H2 & H3 & H4%Z.eqb_eq & H5%eqb_prop). split; [done|]. split; [|done].
  destruct st; [by apply negb_false_iff|done].
Qed.

Lemma commit_facts i mode u k a w n db' r :
  commit_verified_release now interfere i mode u k a (interfere n (ew_db w)) = (Ok r, db') ->
  String.eqb r "RELEASED" = true -> revalidated interfere i w a.
Proof.
  unfold commit_verified_release. intros E Hr.
  apply eff_bind_ok in E as ([] & s & Ha & E). injection Ha as <-.
  apply eff_bind_ok in E as (db & s & Hg & E). injection Hg as <- <-.
  destruct (find_first (by_id (cl_id (as_claim a))) _) as [c|] eqn:Ef; [|by injection E as <- _].
  apply find_first_some in Ef as [Hin Hid%Z.eqb_eq].
  destruct (cl_releasedAt c) eqn:Erel; cbn [is_some] in E; [by injection E as <- _|].
  apply eff_bind_ok in E as ([] & s & Ha & E). injection Ha as <-.
  apply eff_bind_ok in E as (db & s & Hg & E). injection Hg as <- <-. cbv zeta in E.
  set (db1 := interfere 220 (interfere n (ew_db w))) in *. set (db2 := interfere 221 db1) in *.
  assert (O1 : others interfere (ew_db w) db1) by (transitivity (interfere n (ew_db w)); apply others_once).
  assert (O2 : others interfere db1 db2) by apply others_once.
  destruct (revalidation_blockers _ _ _ _ _ _) as [|b l] eqn:Erv.
  - apply revalidation_nil in Erv as (Hst & Hint & Hloc & Hn & Hp). split. exists db1, c.
    split; [done|]. split; [done|]. split; [done|]. split; [done|]. split; [done|].
    split; [by destruct (intent_of db1 c)|]. by exists db2.
  - exfalso. apply eff_bind_ok in E as ([] & s & _ & E). apply eff_bind_ok in E as (? & s' & _ & E).
    injection E as <- _. pose proof (revalidation_other a c (option_map oi_status (intent_of db1 c))
      (localExposure c i (as_symbol a) (as_dispatchStartedAt a) db2)
      (count (fun e => (ce_claimId e =? cl_id (as_claim a)) && member (ce_eventType e) DELIVERY_EVIDENCE_EVENT_TYPES)
        (claimEvents db2)) (loadEntryDispatchRecords i db2)) as Ho.
    rewrite Erv in Ho. apply Forall_inv in Ho. apply (joined_other b l) in Ho. cbn [join_commas] in Ho. congruence.
Qed.

Lemma release_facts i mode u k w x w' :
  releaseVerifiedEntryExposureClaim now interfere outage i mode u k w = (Ok x, w') -> dr_released x = true ->
  exists a w1, assessEntryClaimRelease now interfere outage i w = (Ok a, w1) /\ waited interfere w w1 /\
    dr_assessment x = Some a /\ evidence_read interfere now i w a /\ as_eligible a = true /\
    (mode = OPERATOR -> truthy_id u = true /\ k = Some (fingerprint a)) /\ revalidated interfere i w1 a.
Proof.
  unfold releaseVerifiedEntryExposureClaim. intros E Hr.
  apply eff_bind_ok in E as (a & w1 & Ea & E). exists a, w1.
  destruct (wp_holds _ _ _ _ _ Ea (assess_wp now interfere outage i w)) as [W1 R1]. specialize (R1 a eq_refl).
  set (mismatch := match mode with OPERATOR => _ | SYSTEM => _ end) in E.
  destruct mismatch eqn:Em; [injection E as <- _; done|].
  destruct (as_eligible a) eqn:El; cbn [negb] in E.
  2: { apply eff_bind_ok in E as (? & ? & _ & E). injection E as <- _. done. }
  apply eff_bind_ok in E as (outcome & w2 & Et & E). apply db_transaction_ok in Et as (db' & Et).
  destruct (String.eqb outcome "RELEASED") eqn:Eo; cbn [negb] in E; [|injection E as <- _; done].
  apply eff_bind_ok in E as (? & ? & _ & E). injection E as <- _.
  do 5 (split; [done|]). split; [|by eapply commit_facts].
  intros ->. unfold mismatch in Em. apply orb_false_iff in Em as [E1%negb_false_iff E2%negb_false_iff].
  split; [done|]. by apply bool_decide_eq_true in E2.
Qed.

Lemma identity_key claim intent symbol records : identity_mismatches claim intent symbol records = [] ->
  exists k, oi_clientOrderId intent = Some k /\ k <> "".
Proof.
  unfold identity_mismatches. rewrite !app_nil, !flag_nil. intros (_ & _ & _ & Hk%String.eqb_neq & _).
  destruct (oi_clientOrderId intent) as [k|]; [|done]. by exists k.
Qed.

(** Nothing but the absence of a request is asked of other sessions. *)
Lemma any_respects : Respects (fun _ _ => True) now interfere.
Proof. apply respects_intro; [split|..]; done. Qed.
End Commit.


(** * Concrete inputs *)

(** The sample entry failed on a definitive rejection of the broker, and the
    rejection was recorded at noon. *)
Definition rejected_world : EntryWorld :=
  snd (run_db (recordEntryDispatchOutcome (H := in_order) 1704214800000 calm 31 "BROKER_REJECTED" "WORKER"
    (Some OBSERVED) (Some (num_of_Z 422)) (Some "rejected") None) (entry_world "failed" "ENTRY_SUBMITTING")).

#[local] Notation sample_release now := (releaseVerifiedEntryExposureClaim (H := in_order) (H0 := accepting_broker)
  (H1 := silent_services) now calm no_outage 31 SYSTEM None None rejected_world).

