(* ===== verification/OrderWorker.v ===== *)
(** The pending-order worker: [processPendingOrdersForAccount] of
    workers/order.worker.ts. Each pending entry is claimed by compare-and-set,
    re-checked by the risk gate, handed to the broker boundary, and its failure
    is classified and recorded before any release is decided. *)

From Stdlib Require Import ZArith Lia.
From Stdlib Require Import Strings.String.
From Stdlib Require Import Floats.SpecFloat.
From stdpp Require Import base gmap list strings.
From S2P Require Import Prelude JsNumber JsValue JsDate MarketSession Prisma OrderStatus DeliveryEvidence Schema.
From S2P Require Import RuntimeConfig SessionGuard EntryLimits BrokerAccount RiskGate.
From S2P Require Import ExposureClaim ExitWorld EntryWorld DispatchEvidence DispatchRecovery EntrySubmission.

Open Scope string_scope.
Open Scope Z_scope.

Definition PENDING_ORDER_BATCH_LIMIT_PER_ACCOUNT : nat := 5.

(** The stored request of an intent, as [placeOrderSchema] reads it. *)
Record PlaceOrderInput := {
  pi_qty : option num;
  pi_notional : option num;
  pi_limitPrice : option num;
  pi_extendedHours : bool;
  pi_subscriptionKey : option string;
  pi_signalType : option string;
  pi_tradingAccountSubscriptionId : Z
}.

(** What the worker asks of services that are not modelled: the schema of the
    stored request, the routing of its subscription, the entry decisions' link
    to a broker order, and the broker's order endpoint by id. *)
Class OrderWorkerServices := {
  placeOrderSchema_parse : json -> res PlaceOrderInput;
  resolveSubscriptionOrderInput : PlaceOrderInput -> EntryWorld -> res (option Z * option Z);
  linkEntryDecisionToBrokerOrder : Z -> Z -> Z -> eff EntryWorld unit;
  entry_order_by_id : nat -> Z -> string -> EntryWorld -> res (option AlpacaOrder)
}.
Class OrderWorkerServicesLaws (S : OrderWorkerServices) : Prop := {
  link_quiet : forall i b a, moves same_entry (linkEntryDecisionToBrokerOrder i b a)
}.

(** * The state of one attempt *)

(** The local variables the [catch] reads: whether the claim counted and
    whether the broker boundary was entered. *)
Record WorkerAttempt := { wa_submission : Submission; wa_claimed : bool; wa_brokerBoundaryStarted : bool }.

Definition in_submission {A} (m : eff Submission A) : eff WorkerAttempt A := fun s =>
  let '(r, sub) := m (wa_submission s) in
  (r, {| wa_submission := sub; wa_claimed := wa_claimed s;
         wa_brokerBoundaryStarted := wa_brokerBoundaryStarted s |}).
Definition in_entry {A} (m : eff EntryWorld A) : eff WorkerAttempt A := in_submission (in_world m).
Definition mark_claimed : eff WorkerAttempt unit :=
  modify (fun s => {| wa_submission := wa_submission s; wa_claimed := true;
                      wa_brokerBoundaryStarted := wa_brokerBoundaryStarted s |}).
Definition start_boundary : eff WorkerAttempt unit :=
  modify (fun s => {| wa_submission := wa_submission s; wa_claimed := wa_claimed s;
                      wa_brokerBoundaryStarted := true |}).

Inductive AttemptEnd := ATTEMPT_ALREADY_CLAIMED | ATTEMPT_BLOCKED | ATTEMPT_SUBMITTED.

(** * Statements *)

Section Statements.
Context `{Prisma}.
Variable now : Z.

(** The columns of a risk evaluation on the stored request. *)
Definition with_risk_evaluation (allowed : bool) (reason : option string) (details : json) (raw : json) : json :=
  let fields := match raw with JObj fs => fs | _ => [] end in
  JObj (spread fields [("riskEvaluation", JObj [("evaluatedAt", JStr (iso_of_time now));
    ("allowed", JBool allowed); ("reason", jopt JStr reason); ("details", details)])]).

Definition intent_raw (f : json -> json) (i : OrderIntent) : OrderIntent :=
  {| oi_id := oi_id i; oi_source := oi_source i; oi_symbol := oi_symbol i; oi_side := oi_side i;
     oi_orderType := oi_orderType i; oi_timeInForce := oi_timeInForce i; oi_qty := oi_qty i;
     oi_notional := oi_notional i; oi_limitPrice := oi_limitPrice i;
     oi_clientOrderId := oi_clientOrderId i; oi_status := oi_status i;
     oi_blockReason := oi_blockReason i; oi_rawRequestJson := f (oi_rawRequestJson i);
     oi_createdAt := oi_createdAt i; oi_updatedAt := now; oi_subscriptionId := oi_subscriptionId i;
     oi_subscriptionKey := oi_subscriptionKey i; oi_trackedPositionId := oi_trackedPositionId i;
     oi_tradingAccountId := oi_tradingAccountId i;
     oi_tradingAccountSubscriptionId := oi_tradingAccountSubscriptionId i;
     oi_liveEntryAcceptanceRunId := oi_liveEntryAcceptanceRunId i;
     oi_lastSubmittedOrderSyncAt := oi_lastSubmittedOrderSyncAt i |}.

(** The request is read, then written back with the evaluation. *)
Definition recordOrderIntentRiskEvaluation (orderIntentId : Z) (allowed : bool) (reason : option string)
    (details : json) : eff Db unit :=
  intent ← asks (find_order_intent orderIntentId);
  match intent with
  | None => mret tt
  | Some i =>
      let raw := with_risk_evaluation allowed reason details (oi_rawRequestJson i) in
      modify (set_orderIntents (fun l =>
        fst (update_many (fun r => oi_id r =? orderIntentId) (intent_raw (fun _ => raw)) l)))
  end.

(** [liveEntryAcceptanceRun.updateMany] of an unfinished run. *)
Definition fail_acceptance_run (runId : Z) (uncertain : bool) (failure : json) : eff Db unit :=
  modify (set_acceptanceRuns (fun l => fst (update_many
    (fun r => (la_id r =? runId) && bool_decide (la_terminalAt r = None))
    (fun r => {| la_id := la_id r; la_executionClaimedAt := la_executionClaimedAt r;
       la_executionUncertainAt := if uncertain then Some now else la_executionUncertainAt r;
       la_executionFailureJson := Some failure; la_terminalAt := la_terminalAt r |}) l))).

(** The broker order's row, created with the intent's submitted status; the
    order id and the client order id are unique per account and broker. *)
Definition order_row (i : OrderIntent) (account securityId : Z) (o : AlpacaOrder) (id : Z) : BrokerOrder :=
  {| bo_id := id; bo_orderIntentId := oi_id i; bo_broker := "alpaca"; bo_brokerOrderId := rawo_id o;
     bo_clientOrderId := rawo_client_order_id o; bo_symbol := rawo_symbol o; bo_side := rawo_side o;
     bo_status := rawo_status o; bo_securityId := securityId; bo_trackedPositionId := oi_trackedPositionId i;
     bo_tradingAccountId := Some account; bo_rawBrokerJson := order_json o; bo_createdAt := now |}.

Definition same_broker_order (account : Z) (o : AlpacaOrder) (r : BrokerOrder) : bool :=
  opt_eqb (bo_tradingAccountId r) account && String.eqb (bo_broker r) "alpaca" &&
  (String.eqb (bo_brokerOrderId r) (rawo_id o) || String.eqb (bo_clientOrderId r) (rawo_client_order_id o)).

Definition create_order_row (i : OrderIntent) (account securityId : Z) (o : AlpacaOrder) : eff Db unit :=
  taken ← asks (fun db => existsb (same_broker_order account o) (brokerOrders db));
  if (taken : bool) then throw (CodedError "P2002" "PrismaClientKnownRequestError" "Unique constraint failed")
  else modify (set_brokerOrders (fun l => (l ++ [order_row i account securityId o (next_id (map bo_id l))])%list)).

Definition store_submitted (i : OrderIntent) (account : Z) (o : AlpacaOrder) : eff Db unit :=
  transaction
    (_ ← update_order_intent now (oi_id i) (Some "submitted") None;
     db ← get;
     match find_first (fun s => String.eqb (sec_symbol s) (to_upper (rawo_symbol o))) (securities db) with
     | None => throw (CodedError "P2025" "PrismaClientKnownRequestError" "No 'Security' record was found.")
     | Some s =>
         create_order_row i account (sec_id s) o
     end).

Definition find_broker_order (account : Z) (brokerOrderId : string) (db : Db) : option BrokerOrder :=
  find_first (fun o => String.eqb (bo_broker o) "alpaca" && String.eqb (bo_brokerOrderId o) brokerOrderId &&
    opt_eqb (bo_tradingAccountId o) account) (brokerOrders db).
End Statements.

(** * Classifying a failure *)

(** What the [catch] knows: whether the boundary was entered, the phase it
    reached, and the error. *)
Record WorkerFailure := {
  wf_brokerBoundaryStarted : bool;
  wf_phase : EntryBrokerSubmissionPhase;
  wf_error : js_error
}.

Inductive WorkerFailureEvidencePlan :=
| PLAN_NOT_SENT (classification : NotSentClassification) (producer releaseReason : string) (dispatchAttempted : bool)
| PLAN_OUTCOME (classification : string).

Definition definitelyNotDispatched (f : WorkerFailure) : bool :=
  negb (wf_brokerBoundaryStarted f) || bool_decide (wf_phase f = NOT_DISPATCHED).
Definition preDispatchCandidate (f : WorkerFailure) : bool :=
  wf_brokerBoundaryStarted f && bool_decide (wf_phase f = UNCLASSIFIED) &&
  isPreDispatchProofCandidateError (wf_error f).

(** [getEntryDispatchRecordedNotSent]: the record and its id. *)
Definition recordedNotSent (f : WorkerFailure) : option (string * Z) :=
  if definitelyNotDispatched f then
    match wf_error f with EntryDispatchRecordedNotSentError r i => Some (r, i) | _ => None end
  else None.
(** [getMarketPolicyBrokerDispatchRefusal]: outcome, reason and decision. *)
Definition refusal (f : WorkerFailure) : option (string * string * option Z) :=
  if definitelyNotDispatched f then
    match wf_error f with
    | MarketPolicyBrokerDispatchRefusedError outcome reasonCode decisionId _ => Some (outcome, reasonCode, decisionId)
    | _ => None
    end
  else None.
Definition refusal_blockReason (r : string * string * option Z) : string :=
  let '(outcome, reasonCode, decisionId) := r in
  "MARKET_POLICY_BROKER_TIME:" ++ outcome ++ ":DEFINITELY_NOT_SENT:" ++ reasonCode ++
  match decisionId with Some i => if i =? 0 then "" else ":decision=" ++ z_str i | None => "" end.
Definition refusal_claimReleaseReason (r : string * string * option Z) : string :=
  "BROKER_TIME_MARKET_POLICY_" ++ fst (fst r) ++ "_NOT_SENT".

Definition failure_classification (f : WorkerFailure) : option string :=
  match refusal f, recordedNotSent f with
  | None, None => getBrokerWriteDeliveryClassification (wf_error f)
  | _, _ => None
  end.
Definition failure_statusCode (f : WorkerFailure) : option Z :=
  match wf_error f with DeliveryError _ _ s => s | _ => None end.

Definition failure_blockReason (prior : option string) (f : WorkerFailure) : string :=
  let message := error_message (wf_error f) in
  preserveBlockReason prior
    match recordedNotSent f, refusal f with
    | Some (record, recordId), _ => "ENTRY_DISPATCH_RECORDED_NOT_SENT:" ++ record ++ ":" ++ z_str recordId
    | None, Some r => refusal_blockReason r
    | None, None =>
        if definitelyNotDispatched f then "LOCAL_PRE_DISPATCH_FAILURE:" ++ message
        else "BROKER_WRITE_DELIVERY:" ++ default "DELIVERY_UNCERTAIN" (failure_classification f) ++ ":" ++ message
    end.

Definition deliveryUncertain (f : WorkerFailure) : bool :=
  negb (definitelyNotDispatched f) &&
  match failure_classification f with None | Some "DELIVERY_UNCERTAIN" => true | _ => false end.

(** A refusal of the guard that is no technical failure. *)
Definition policyDenied (f : WorkerFailure) : bool :=
  match refusal f with Some (outcome, _, _) => negb (String.eqb outcome "TECHNICAL_FAILURE") | None => false end.

Definition local_guard (f : WorkerFailure) : bool :=
  match failure_classification f with Some c => member c ["NOT_SENT_BLOCKED"; "NOT_SENT_RETRYABLE"] | None => false end.

(** Only a failure before the dispatch, or a local guard of the adapter with no
    dispatch record, is proven not sent. *)
Definition conservativePlan (f : WorkerFailure) (records : option EntryDispatchRecords) : WorkerFailureEvidencePlan :=
  match recordedNotSent f with
  | Some _ => PLAN_OUTCOME "NOT_SENT_DISPATCH_RECORD_ACK_LOST"
  | None =>
  if definitelyNotDispatched f then
    PLAN_NOT_SENT NOT_SENT_PRE_DISPATCH
      (match refusal f with
       | Some _ => "BROKER_TIME_MARKET_POLICY_REFUSAL"
       | None => if wf_brokerBoundaryStarted f then "BROKER_BOUNDARY_NOT_DISPATCHED" else "WORKER_PRE_BOUNDARY_FAILURE"
       end)
      (match refusal f with
       | Some r => refusal_claimReleaseReason r
       | None => "WORKER_PROVEN_PRE_DISPATCH_LOCAL_FAILURE"
       end)
      (wf_brokerBoundaryStarted f && bool_decide (wf_phase f = NOT_DISPATCHED))
  else if local_guard f && match records with Some r => negb (rec_present r) | None => false end then
    let blocked := bool_decide (failure_classification f = Some "NOT_SENT_BLOCKED") in
    PLAN_NOT_SENT (if blocked then NOT_SENT_LOCAL_BLOCKED else NOT_SENT_LOCAL_RETRYABLE)
      "ADAPTER_LOCAL_GUARD" (default "" (failure_classification f)) false
  else PLAN_OUTCOME (entryDispatchOutcomeFor (failure_classification f))
  end.

Definition provenPlan : WorkerFailureEvidencePlan :=
  PLAN_NOT_SENT NOT_SENT_PRE_DISPATCH "WORKER_PRE_BOUNDARY_FAILURE" "WORKER_PROVEN_PRE_DISPATCH_BOUNDARY_FAILURE" false.

(** The status a failed attempt leaves its intent in: never pending again. *)
Definition failure_status (i : OrderIntent) (f : WorkerFailure) (proven : bool) : string :=
  match oi_liveEntryAcceptanceRunId i with
  | Some _ =>
      if negb proven && deliveryUncertain f then "submitting"
      else if bool_decide (failure_classification f = Some "NOT_SENT_BLOCKED") || policyDenied f then "blocked"
      else "failed"
  | None => if policyDenied f then "blocked" else "failed"
  end.

Section Failure.
Context `{Prisma} `{EntryBroker} `{EntryServices}.
Variable now : Z.
Variable interfere : nat -> Db -> Db.
Variable outage : nat -> Db -> option js_error.
#[local] Notation await n := (ExposureClaim.await interfere n).
#[local] Notation db_read n f := (EntryWorld.db_read interfere outage n f).
#[local] Notation db_transaction n m := (EntryWorld.db_transaction interfere outage n m).

(** The terminal intent state and the delivery classification, atomically. *)
Definition persist_failure (i : OrderIntent) (f : WorkerFailure) (records : option EntryDispatchRecords)
    : eff Db (WorkerFailureEvidencePlan * option RecordedOutcome) :=
  let message := error_message (wf_error f) in
  preDispatch ← match preDispatchCandidate f, oi_tradingAccountId i with
                | true, Some account =>
                    p ← proveWorkerPreDispatchNonDelivery interfere (oi_id i) account; mret (Some p)
                | _, _ => mret None
                end;
  let proven := match preDispatch with Some p => wp_proven p | None => false end in
  let plan := if proven then provenPlan else conservativePlan f records in
  _ ← await 250;
  _ ← update_order_intent now (oi_id i) (Some (failure_status i f proven))
        (Some (Some (if proven then "LOCAL_PRE_DISPATCH_FAILURE:" ++ message
                     else failure_blockReason (oi_blockReason i) f)));
  _ ← match oi_liveEntryAcceptanceRunId i with
      | Some runId =>
          _ ← await 251;
          fail_acceptance_run now runId (negb proven && deliveryUncertain f)
            (JObj [("classification", JStr (match refusal f with
                      | Some _ => "DEFINITELY_NOT_SENT"
                      | None => if proven then "LOCAL_FAILURE" else
                          default (if definitelyNotDispatched f then "LOCAL_FAILURE" else "DELIVERY_UNCERTAIN")
                            (failure_classification f)
                      end));
                   ("source", JStr "pending_order_submission"); ("orderIntentId", jint (oi_id i));
                   ("clientOrderId", jopt JStr (oi_clientOrderId i)); ("message", JStr message)])
      | None => mret tt
      end;
  match plan with
  | PLAN_OUTCOME classification =>
      _ ← await 252;
      outcome ← recordEntryDispatchOutcome now interfere (oi_id i) classification "WORKER" (Some OBSERVED)
        (option_map num_of_Z (failure_statusCode f))
        (Some (match preDispatch with
               | Some p => message ++ " [pre-dispatch non-delivery not proven: " ++ join_commas (wp_blockers p) ++ "]"
               | None => message
               end)) records;
      mret (plan, Some outcome)
  | PLAN_NOT_SENT classification producer releaseReason _ =>
      _ ← await 253;
      claim ← find_claim (by_intent (oi_id i));
      _ ← match claim with
          | Some c =>
              if bool_decide (cl_releasedAt c = None) && member (cl_status c) PRE_DISPATCH_CLAIM_STATUSES then
                modify (set_claimEvents (appendNotSentEvidence now (cl_id c) (oi_id i) classification producer
                  "WORKER" releaseReason (Some message)
                  (if proven then option_map wp_proof preDispatch else None)))
              else mret tt
          | None => mret tt
          end;
      mret (plan, None)
  end.

Definition unpersisted_event (i : OrderIntent) (f : WorkerFailure) (plan : WorkerFailureEvidencePlan)
    : eff EntryWorld unit :=
  best_effort_event interfere outage 4030 "entry_exposure.delivery_evidence_unpersisted" "orderIntent" (oi_id i)
    (oi_tradingAccountId i) CRITICAL
    (Some "An entry failure could not record its delivery classification; its exposure claim is retained and stale recovery reviews it.")
    (JObj [("classification", JStr (match plan with
              | PLAN_NOT_SENT c _ _ _ => not_sent_str c | PLAN_OUTCOME c => c end));
           ("statusCode", jopt jint (failure_statusCode f)); ("clientOrderId", jopt JStr (oi_clientOrderId i));
           ("preDispatchProofCandidate", JBool (preDispatchCandidate f))]).

(** Release is decided only after the classification committed. *)
Definition settle_failure (i : OrderIntent) (f : WorkerFailure) (plan : WorkerFailureEvidencePlan)
    (recorded : option RecordedOutcome) : eff EntryWorld unit :=
  match plan with
  | PLAN_NOT_SENT _ _ releaseReason dispatchAttempted =>
      _ ← releaseUnsubmittedOrRouteToRecovery now interfere outage (oi_id i) releaseReason "WORKER"
            dispatchAttempted (Some (error_message (wf_error f)));
      mret tt
  | PLAN_OUTCOME classification =>
      _ ← match recorded with
          | Some r => emitDispatchOutcomeRecorded interfere outage r classification
          | None => mret tt
          end;
      or_else (_ ← attemptReleaseAfterRecordedOutcome now interfere outage (oi_id i) classification "WORKER";
               mret tt) tt
  end.

(** The [catch]: true when the attempt counts as blocked, false as failed. *)
Definition handle_failure (i : OrderIntent) (f : WorkerFailure) : eff EntryWorld bool :=
  records ← (if negb (definitelyNotDispatched f) || is_some (recordedNotSent f)
             then or_else (r ← db_read 4020 (loadEntryDispatchRecords (oi_id i)); mret (Some r)) None
             else mret None);
  persisted ← try_catch (p ← db_transaction 4021 (persist_failure i f records); mret (Some p))
                (fun _ => mret None);
  match persisted with
  | None =>
      _ ← unpersisted_event i f (conservativePlan f records);
      mret false
  | Some (plan, recorded) =>
      _ ← settle_failure i f plan recorded;
      mret (policyDenied f)
  end.
End Failure.

(** * One attempt *)

Section Attempt.
Context `{TimeZone} `{DateParse} `{MarketSession} `{Prisma} `{BrokerApi}.
Context `{EntryBroker} `{EntryServices} `{OrderWorkerServices}.
Variable now : Z.
(** The stored runtime settings. *)
Variable rows : settings.
Variable interfere : nat -> Db -> Db.
Variable outage : nat -> Db -> option js_error.
#[local] Notation await n := (ExposureClaim.await interfere n).
#[local] Notation db_call n m := (EntryWorld.db_call interfere outage n m).
#[local] Notation db_read n f := (EntryWorld.db_read interfere outage n f).
#[local] Notation db_transaction n m := (EntryWorld.db_transaction interfere outage n m).

Definition claim_for_submission (orderIntentId : Z) : eff Db bool :=
  n ← update_order_intents now (fun i => (oi_id i =? orderIntentId) && String.eqb (oi_status i) "pending")
        (Some "submitting") None;
  mret (n =? 1).

(** The intent's own columns over the stored request. *)
Definition resolved_input (i : OrderIntent) (raw : PlaceOrderInput) (assignmentId : Z) (clientOrderId : string)
    : BrokerOrderSubmissionInput :=
  {| bi_order := {| po_symbol := oi_symbol i; po_side := buy; po_qty := pi_qty raw;
       po_notional := pi_notional raw; po_limitPrice := pi_limitPrice raw;
       po_subscriptionKey := pi_subscriptionKey raw; po_signalType := pi_signalType raw;
       po_subscriptionId := oi_subscriptionId i; po_tradingAccountSubscriptionId := Some assignmentId |};
     bi_orderType := oi_orderType i; bi_timeInForce := oi_timeInForce i;
     bi_extendedHours := pi_extendedHours raw; bi_clientOrderId := clientOrderId |}.

(** The refusal of the risk gate at worker time. *)
Definition block_by_risk (i : OrderIntent) (account claimId : Z) (input : ResolvedPlaceOrderInput)
    (blocked : RiskGateBlocked) : eff EntryWorld unit :=
  _ ← db_transaction 4005
        (_ ← update_order_intent now (oi_id i) (Some "blocked") (Some (Some (bl_reason blocked)));
         _ ← await 260;
         modify (set_claimEvents (appendNotSentEvidence now claimId (oi_id i) NOT_SENT_PRE_DISPATCH
           "WORKER_RISK_RECHECK" "WORKER" "WORKER_RISK_RECHECK_BLOCKED" (Some (bl_reason blocked)) None)));
  let '(_, _, _, _, _, payload) := logRiskGateBlockedOrder (oi_id i) (Some account) input
    (bl_statusCode blocked) (bl_reason blocked) (bl_details blocked) in
  _ ← system_event interfere outage 4006 "risk_gate.blocked" "orderIntent" (oi_id i) (Some account)
        (if 500 <=? bl_statusCode blocked then ERROR else WARNING) None payload;
  _ ← releaseUnsubmittedOrRouteToRecovery now interfere outage (oi_id i) "WORKER_RISK_RECHECK_BLOCKED" "WORKER"
        false None;
  mret tt.

(** The entry's risk is evaluated again, and recorded; what it blocked. *)
Definition recheck_risk (i : OrderIntent) (account claimId : Z) (input : ResolvedPlaceOrderInput)
    : eff EntryWorld bool :=
  if negb (isEntryOrder input) then mret false
  else
  let options := {| op_requestedNotionalOverride := getSizingEstimatedNotional (oi_rawRequestJson i);
    op_tradingAccountId := Some account; op_enforceEntrySessionGuard := None;
    op_excludeOrderIntentId := Some (oi_id i) |} in
  _ ← step interfere outage 4003;
  riskResult ← lift (fun w => evaluateOrderRisk (ew_db w) rows input options now);
  let '(allowed, reason, details) := match riskResult with
    | Allowed d => (true, None, d)
    | Blocked b => (false, Some (bl_reason b), bl_details b)
    end in
  _ ← db_call 4004 (recordOrderIntentRiskEvaluation now (oi_id i) allowed reason details);
  match riskResult with
  | Allowed _ => mret false
  | Blocked b => _ ← block_by_risk i account claimId input b; mret true
  end.

(** The broker's order of an accepted submission becomes the intent's. *)
Definition record_submitted (i : OrderIntent) (account : Z) (result : SubmissionResult) : eff EntryWorld unit :=
  let order := sr_order result in
  _ ← or_else (_ ← db_call 4010 (transitionEntryExposureClaim now interfere (oi_id i) "BROKER_ORDER_ACTIVE"
         (if sr_duplicate result then "BROKER_ORDER_RECOVERED" else "BROKER_ORDER_ACCEPTED")
         (Some (JObj [("brokerOrderId", JStr (rawo_id order)); ("brokerStatus", JStr (rawo_status order))])));
       mret tt) tt;
  existing ← db_read 4011 (find_broker_order account (rawo_id order));
  _ ← match existing with
      | Some row =>
          _ ← linkEntryDecisionToBrokerOrder (oi_id i) (bo_id row) account;
          db_call 4012 (update_order_intent now (oi_id i) (Some "submitted") None)
      | None =>
          _ ← db_call 4013 (store_submitted now i account order);
          created ← db_read 4014 (find_broker_order account (rawo_id order));
          match created with
          | Some row => linkEntryDecisionToBrokerOrder (oi_id i) (bo_id row) account
          | None => mret tt
          end
      end;
  _ ← step interfere outage 4015;
  w ← get;
  _ ← run_db (releaseConfirmedTerminalEntryClaim now interfere
        (broker_order_by_id := fun a o => entry_order_by_id 20 a o w)
        (broker_order_by_client_id := fun a o => entry_order_by_client_id 21 a o w)
        (broker_position := fun a s => entry_position 22 a s w)
        (broker_open_buys := fun a s => entry_open_buys 23 a s w)
        (oi_id i) (rawo_status order) false);
  mret tt.

Definition missing (i : OrderIntent) (text : string) : js_error :=
  PlainError ("OrderIntent " ++ z_str (oi_id i) ++ text).

(** The claimed intent, up to the recording of its broker order. *)
Definition submit_claimed (i : OrderIntent) (entryClaim : EntryExposureClaim) : eff WorkerAttempt AttemptEnd :=
  _ ← in_entry (db_call 4002 (transitionEntryExposureClaim now interfere (oi_id i) "ENTRY_SUBMITTING"
        WORKER_CLAIMED_EVENT (Some (JObj [("markerProtocol", JStr ADAPTER_MARKER_PROTOCOL)]))));
  match oi_clientOrderId i with
  | None | Some "" => throw (missing i " is missing clientOrderId. Cannot submit safely.")
  | Some clientOrderId =>
  match oi_tradingAccountId i, oi_tradingAccountSubscriptionId i with
  | Some account, Some assignmentId =>
  raw ← in_entry (lift (fun _ => placeOrderSchema_parse (oi_rawRequestJson i)));
  routed ← in_entry (lift (resolveSubscriptionOrderInput raw));
  if negb (bool_decide (routed = (Some account, Some assignmentId))) then
    throw (missing i " account assignment no longer matches its recorded routing identity.")
  else if negb (String.eqb (oi_side i) "buy") || bool_decide (pi_signalType raw = Some "exit") then
    _ ← in_entry (db_call 4007 (update_order_intent now (oi_id i) (Some "blocked")
          (Some (Some "LONG_ONLY_SELL_REQUIRES_VERIFIED_EXIT_BOUNDARY"))));
    mret ATTEMPT_BLOCKED
  else
  let input := resolved_input i raw assignmentId clientOrderId in
  blocked ← in_entry (recheck_risk i account (cl_id entryClaim) (bi_order input));
  if (blocked : bool) then mret ATTEMPT_BLOCKED
  else
  _ ← start_boundary;
  result ← in_submission (submitOrderToBroker now interfere outage input account (oi_id i));
  _ ← in_entry (record_submitted i account result);
  mret ATTEMPT_SUBMITTED
  | _, _ => throw (missing i " is missing explicit trading account assignment identity.")
  end
  end.

Definition attempt_intent (i : OrderIntent) : eff WorkerAttempt AttemptEnd :=
  entryClaim ← in_entry (db_call 4000 (requireEntryExposureClaim (oi_id i) false));
  claimed ← in_entry (db_call 4001 (claim_for_submission (oi_id i)));
  if negb claimed then mret ATTEMPT_ALREADY_CLAIMED
  else
  _ ← mark_claimed;
  submit_claimed i entryClaim.

(** * The batch *)

Record PendingOrderResult := {
  pr_found : Z;
  pr_claimed : Z;
  pr_submitted : Z;
  pr_blocked : Z;
  pr_failed : Z
}.

Definition count_attempt (claimed submitted blocked failed : bool) (r : PendingOrderResult) : PendingOrderResult :=
  {| pr_found := pr_found r; pr_claimed := pr_claimed r + one claimed;
     pr_submitted := pr_submitted r + one submitted; pr_blocked := pr_blocked r + one blocked;
     pr_failed := pr_failed r + one failed |}.

Definition process_intent (i : OrderIntent) (acc : PendingOrderResult) : eff EntryWorld PendingOrderResult := fun w =>
  let '(r, s) := attempt_intent i {| wa_submission := {| sb_world := w; sb_phase := UNCLASSIFIED |};
                                     wa_claimed := false; wa_brokerBoundaryStarted := false |} in
  let w := sb_world (wa_submission s) in
  match r with
  | Ok ATTEMPT_ALREADY_CLAIMED => (Ok acc, w)
  | Ok ATTEMPT_BLOCKED => (Ok (count_attempt (wa_claimed s) false true false acc), w)
  | Ok ATTEMPT_SUBMITTED => (Ok (count_attempt (wa_claimed s) true false false acc), w)
  | Throw error =>
      (blocked ← handle_failure now interfere outage i
         {| wf_brokerBoundaryStarted := wa_brokerBoundaryStarted s; wf_phase := sb_phase (wa_submission s);
            wf_error := error |};
       mret (count_attempt (wa_claimed s) false blocked (negb blocked) acc)) w
  end.
End Attempt.

Section Batch.
Context `{TimeZone} `{DateParse} `{MarketSession} `{Prisma} `{BrokerApi}.
Context `{EntryBroker} `{EntryServices} `{OrderWorkerServices}.
Variable now : Z.
Variable rows : settings.
Variable reading : Session.
Variable working : Z -> Session.

Definition pending_batch (tradingAccountId : Z) (db : Db) : list OrderIntent :=
  take PENDING_ORDER_BATCH_LIMIT_PER_ACCOUNT (sort_by oi_createdAt (find_many (fun i =>
    String.eqb (oi_status i) "pending" && opt_eqb (oi_tradingAccountId i) tradingAccountId) (orderIntents db))).

Fixpoint process_intents (l : list OrderIntent) (acc : PendingOrderResult) : eff EntryWorld PendingOrderResult :=
  match l with
  | [] => mret acc
  | i :: l =>
      acc ← process_intent now rows (ss_interfere (working (oi_id i))) (ss_outage (working (oi_id i))) i acc;
      process_intents l acc
  end.

Definition processPendingOrdersForAccount (tradingAccountId : Z) : eff EntryWorld PendingOrderResult :=
  pending ← db_read (ss_interfere reading) (ss_outage reading) 4040 (pending_batch tradingAccountId);
  process_intents pending
    {| pr_found := Z.of_nat (length pending); pr_claimed := 0; pr_submitted := 0; pr_blocked := 0;
       pr_failed := 0 |}.
End Batch.
