(* ===== verification/StaleRecovery.v ===== *)
(** Recovery of entries and exits left submitting: the half of
    workers/order.worker.ts that looks up what became of an intent whose worker
    died, [recoverStaleSubmittingIntentsForAccount]. It never sends anything:
    it links an order it finds, gives up an intent nothing was sent for, and
    keeps every other one for an operator. *)

From Stdlib Require Import ZArith Lia.
From Stdlib Require Import Strings.String.
From Stdlib Require Import Floats.SpecFloat.
From stdpp Require Import base list strings.
From S2P Require Import Prelude JsNumber JsValue JsDate Prisma OrderStatus DeliveryEvidence Schema BrokerAccount.
From S2P Require Import ExposureClaim ExitWorld EntryWorld DispatchEvidence DispatchRecovery OrderWorker.

Open Scope string_scope.
Open Scope Z_scope.

Definition STALE_SUBMITTING_INTENT_THRESHOLD_MS : Z := 5 * 60000.
Definition STALE_SUBMITTING_BATCH_LIMIT : nat := 25.
Definition DEFERRED_MARK : string := "RECOVERY_DEFERRED_EVENT_RECORDED".

Definition isExitIntent (i : OrderIntent) : bool := isSellIntent (oi_side i).

(** The first match of the delivery classification in a block reason. *)
Definition getRecordedDeliveryClassification (blockReason : option string) : option string :=
  blockReasonDeliveryClassification blockReason.

Definition recoveryDeferredSeverity (environment : option string) : Severity :=
  if bool_decide (environment = Some "LIVE") then CRITICAL else ERROR.

(** An intent of the batch with what is included: its first broker order and
    the environment of its account. *)
Record StaleIntent := {
  st_intent : OrderIntent;
  st_brokerOrder : option BrokerOrder;
  st_environment : option string
}.

(** * Counters *)

Record StaleCounts := { sc_linked : Z; sc_retryable : Z; sc_retained : Z; sc_failures : list (Z * string) }.

(** The counters are incremented in the middle of an item and keep what they
    counted when the item throws later. *)
Record RecoveryRun := { rr_world : EntryWorld; rr_counts : StaleCounts }.

Definition in_run {A} (m : eff EntryWorld A) : eff RecoveryRun A := fun s =>
  let '(r, w) := m (rr_world s) in (r, {| rr_world := w; rr_counts := rr_counts s |}).
Definition counting (f : StaleCounts -> StaleCounts) : eff RecoveryRun unit :=
  modify (fun s => {| rr_world := rr_world s; rr_counts := f (rr_counts s) |}).

Definition add_linked (c : StaleCounts) : StaleCounts :=
  {| sc_linked := sc_linked c + 1; sc_retryable := sc_retryable c; sc_retained := sc_retained c;
     sc_failures := sc_failures c |}.
Definition add_retryable (c : StaleCounts) : StaleCounts :=
  {| sc_linked := sc_linked c; sc_retryable := sc_retryable c + 1; sc_retained := sc_retained c;
     sc_failures := sc_failures c |}.
Definition add_retained (c : StaleCounts) : StaleCounts :=
  {| sc_linked := sc_linked c; sc_retryable := sc_retryable c; sc_retained := sc_retained c + 1;
     sc_failures := sc_failures c |}.
Definition add_failure (orderIntentId : Z) (e : js_error) (c : StaleCounts) : StaleCounts :=
  {| sc_linked := sc_linked c; sc_retryable := sc_retryable c; sc_retained := sc_retained c;
     sc_failures := (sc_failures c ++ [(orderIntentId, error_message e)])%list |}.

(** * Statements *)

Section Statements.
Context `{Prisma}.
Variable now : Z.
Variable interfere : nat -> Db -> Db.
#[local] Notation await n := (ExposureClaim.await interfere n).

(** The compare-and-set guard of every update of the intent. *)
Definition still_submitting (orderIntentId : Z) (i : OrderIntent) : bool :=
  (oi_id i =? orderIntentId) && String.eqb (oi_status i) "submitting".

Definition intent_synced (i : OrderIntent) : OrderIntent :=
  {| oi_id := oi_id i; oi_source := oi_source i; oi_symbol := oi_symbol i; oi_side := oi_side i;
     oi_orderType := oi_orderType i; oi_timeInForce := oi_timeInForce i; oi_qty := oi_qty i;
     oi_notional := oi_notional i; oi_limitPrice := oi_limitPrice i;
     oi_clientOrderId := oi_clientOrderId i; oi_status := oi_status i;
     oi_blockReason := oi_blockReason i; oi_rawRequestJson := oi_rawRequestJson i;
     oi_createdAt := oi_createdAt i; oi_updatedAt := now; oi_subscriptionId := oi_subscriptionId i;
     oi_subscriptionKey := oi_subscriptionKey i; oi_trackedPositionId := oi_trackedPositionId i;
     oi_tradingAccountId := oi_tradingAccountId i;
     oi_tradingAccountSubscriptionId := oi_tradingAccountSubscriptionId i;
     oi_liveEntryAcceptanceRunId := oi_liveEntryAcceptanceRunId i;
     oi_lastSubmittedOrderSyncAt := Some now |}.

(** The progress of the recovery, by compare-and-set. *)
Definition record_progress (orderIntentId : Z) : eff Db bool := fun db =>
  let '(rows, n) := update_many (still_submitting orderIntentId) intent_synced (orderIntents db) in
  (Ok (n =? 1), set_orderIntents (fun _ => rows) db).

(** The order found at the broker becomes the intent's, unless it already is. *)
Definition materialize_order (i : OrderIntent) (account securityId : Z) (o : AlpacaOrder) : eff Db unit :=
  existing ← asks (find_broker_order account (rawo_id o));
  _ ← match existing with
      | Some _ => mret tt
      | None => _ ← await 270; create_order_row now i account securityId o
      end;
  _ ← await 271;
  _ ← update_order_intents now (still_submitting (oi_id i)) (Some "submitted") (Some None);
  mret tt.

(** An acceptance run whose entry was not found stays claimed and uncertain. *)
Definition uncertain_acceptance_run (runId : Z) (failure : json) : eff Db unit :=
  modify (set_acceptanceRuns (fun l => fst (update_many
    (fun r => (la_id r =? runId) && bool_decide (la_terminalAt r = None) && is_some (la_executionClaimedAt r))
    (fun r => {| la_id := la_id r; la_executionClaimedAt := la_executionClaimedAt r;
       la_executionUncertainAt := Some now; la_executionFailureJson := Some failure;
       la_terminalAt := la_terminalAt r |}) l))).

Definition hold_acceptance (i : OrderIntent) (runId : Z) : eff Db unit :=
  _ ← update_order_intents now (still_submitting (oi_id i)) None
        (Some (Some (default "BROKER_WRITE_DELIVERY:DELIVERY_UNCERTAIN:acceptance broker lookup found no order"
                       (oi_blockReason i))));
  _ ← await 272;
  uncertain_acceptance_run runId
    (JObj [("classification", JStr (default "DELIVERY_UNCERTAIN" (getRecordedDeliveryClassification (oi_blockReason i))));
           ("source", JStr "stale_submitting_recovery"); ("orderIntentId", jint (oi_id i));
           ("clientOrderId", jopt JStr (oi_clientOrderId i)); ("brokerLookup", JStr "NOT_FOUND_OR_UNRESOLVED")]).

(** A definite failure of an exit gives its position back. *)
Definition give_back_position (i : OrderIntent) (status : string) : eff Db unit :=
  _ ← update_order_intents now (still_submitting (oi_id i)) (Some status) None;
  match oi_trackedPositionId i with
  | Some p =>
      _ ← await 273;
      modify (set_trackedPositions (fun l => fst (update_many (position_in p "closing") (set_positionStatus "open") l)))
  | None => mret tt
  end.

(** ** The disposition of an entry no order was found for *)

Inductive StaleDisposition := STALE_NONE | STALE_NOT_SENT | STALE_OUTCOME (outcome : RecordedOutcome).

(** Never sent for certain: the claim never reached ENTRY_SUBMITTING, or a
    worker of the marker protocol claimed it and wrote no adapter marker. *)
Definition provenNotSent (records : EntryDispatchRecords) (claim : option EntryExposureClaim)
    (summary : option DeliveryEvidenceSummary) : bool :=
  negb (rec_present records) &&
  match claim, summary with
  | Some c, Some s =>
      bool_decide (cl_releasedAt c = None) && (length (sum_outcomes s) =? 0)%nat &&
      (member (cl_status c) ["ENTRY_PENDING"; "ADMISSION_BLOCKED"] ||
       (String.eqb (cl_status c) "ENTRY_SUBMITTING" && sum_markerProtocol s && (sum_adapterMarkers s =? 0)))
  | _, _ => false
  end.

Definition stale_blockReason (notSent : bool) (records : EntryDispatchRecords) : string :=
  if notSent then
    "Recovery confirmed no broker order and the broker adapter was never invoked; entry requires a new admission decision and was not requeued."
  else if rec_present records then
    "DISPATCH_STARTED_OUTCOME_UNKNOWN: a dispatch record exists and no broker order was found; claim retained for evidence-based recovery and never resent."
  else
    "STALE_SUBMISSION_OUTCOME_UNKNOWN: no durable dispatch record and no proof the request was not issued; claim retained for investigation and never resent.".

Definition judge_stale_entry (i : OrderIntent) (records : EntryDispatchRecords) : eff Db StaleDisposition :=
  claim ← find_claim (by_intent (oi_id i));
  _ ← await 280;
  summary ← asks (fun db => option_map (fun c => claim_summary db (cl_id c)) claim);
  let notSent := provenNotSent records claim summary in
  _ ← await 281;
  transitioned ← update_order_intents now (still_submitting (oi_id i)) (Some "failed")
    (Some (Some (preserveBlockReason (oi_blockReason i) (stale_blockReason notSent records))));
  match claim with
  | None => mret STALE_NONE
  | Some c =>
  if negb (transitioned =? 1) || is_some (cl_releasedAt c) then mret STALE_NONE
  else if notSent then
    _ ← (if String.eqb (cl_status c) "ENTRY_SUBMITTING" then
           _ ← await 282;
           modify (set_claimEvents (appendNotSentEvidence now (cl_id c) (oi_id i) NOT_SENT_PRE_DISPATCH
             "STALE_RECOVERY_ADAPTER_NOT_INVOKED" "STALE_RECOVERY" "RECOVERY_CONFIRMED_NEVER_SUBMITTED"
             (oi_blockReason i) None))
         else mret tt);
    mret STALE_NOT_SENT
  else
    _ ← await 283;
    outcome ← recordEntryDispatchOutcome now interfere (oi_id i) "DISPATCH_OUTCOME_UNKNOWN" "STALE_RECOVERY"
      (Some INFERRED) None
      (Some (if rec_present records
             then "Stale submission with a durable dispatch record; the stable client-order-ID lookup found no broker order."
             else "Stale submission without a durable dispatch record or proof of non-dispatch; the stable client-order-ID lookup found no broker order."))
      (Some records);
    mret (STALE_OUTCOME outcome)
  end.
End Statements.

(** * One stale intent *)

Section Item.
Context `{Prisma} `{EntryBroker} `{EntryServices}.
Variable now : Z.
Variable interfere : nat -> Db -> Db.
Variable outage : nat -> Db -> option js_error.
#[local] Notation db_call n m := (EntryWorld.db_call interfere outage n m).
#[local] Notation db_read n f := (EntryWorld.db_read interfere outage n f).
#[local] Notation db_transaction n m := (EntryWorld.db_transaction interfere outage n m).
#[local] Notation system_event n := (EntryWorld.system_event interfere outage n).

(** [bestEffortAppendBrokerOpportunityEvent] for the intent. *)
Definition observe (i : OrderIntent) (eventType : string) (evidence : list (string * json)) : eff EntryWorld unit :=
  bestEffortAppendBrokerOpportunityEvent None (Some (oi_id i)) eventType (JObj evidence).

Definition observe_found (i : OrderIntent) (source brokerOrderId : string) (more : list (string * json))
    : eff EntryWorld unit :=
  let evidence := [("source", JStr source); ("brokerOrderId", JStr brokerOrderId)] in
  _ ← observe i "RECOVERY_FOUND" evidence;
  observe i "BROKER_ORDER_MATERIALIZED" (evidence ++ more)%list.

(** The broker order the intent already has locally. *)
Definition link_local (i : OrderIntent) (persisted : BrokerOrder) : eff RecoveryRun unit :=
  _ ← in_run (_ ← observe_found i "local_broker_order" (bo_brokerOrderId persisted) [];
              db_call 2001 (update_order_intents now (still_submitting (oi_id i)) (Some "submitted") (Some None)));
  _ ← counting add_linked;
  if isExitIntent i then mret tt
  else
    _ ← in_run (db_call 2002 (transitionEntryExposureClaim now interfere (oi_id i) "BROKER_ORDER_ACTIVE"
          "RECOVERY_LINKED_LOCAL_BROKER_ORDER" None));
    mret tt.

(** The lookup by the stable client order id; [None] when the intent is no
    longer submitting. *)
Definition lookup_order (i : OrderIntent) (account : Z) (clientOrderId : string)
    : eff EntryWorld (option (option AlpacaOrder)) :=
  try_catch
    (progress ← db_call 2003 (record_progress now (oi_id i));
     if negb progress then mret None
     else
       order ← lift (entry_order_by_client_id 30 account clientOrderId);
       mret (Some order))
    (fun error =>
       _ ← observe i "RECOVERY_INCONCLUSIVE" [("source", JStr "stale_submitting_lookup")];
       throw error).

Definition order_matches (i : OrderIntent) (clientOrderId : string) (o : AlpacaOrder) : bool :=
  String.eqb (rawo_client_order_id o) clientOrderId &&
  String.eqb (to_upper (trim (rawo_symbol o))) (to_upper (trim (oi_symbol i))) &&
  String.eqb (to_lower (trim (rawo_side o))) (to_lower (trim (oi_side i))).

(** An order of the broker under the intent's client order id. *)
Definition link_found (i : OrderIntent) (account : Z) (clientOrderId : string) (o : AlpacaOrder)
    : eff EntryWorld unit :=
  if negb (order_matches i clientOrderId o) then
    throw (PlainError ("Broker order " ++ rawo_id o ++ " found by stable client order ID does not match OrderIntent "
                       ++ z_str (oi_id i) ++ " identity."))
  else
  _ ← observe_found i "broker_lookup" (rawo_id o) [("status", JStr (rawo_status o))];
  security ← db_read 2004 (fun db => find_first (fun s => String.eqb (sec_symbol s) (to_upper (rawo_symbol o))) (securities db));
  match security with
  | None => throw (CodedError "P2025" "PrismaClientKnownRequestError" "No 'Security' record was found.")
  | Some s =>
  _ ← db_transaction 2005 (materialize_order now interfere i account (sec_id s) o);
  _ ← system_event 2006 "order.submission_recovered" "orderIntent" (oi_id i) (Some account) INFO None
        (JObj [("previousDeliveryClassification", jopt JStr (getRecordedDeliveryClassification (oi_blockReason i)));
               ("clientOrderId", JStr clientOrderId); ("brokerOrderId", JStr (rawo_id o));
               ("recovery", JStr "broker_order_materialized"); ("recoveredAt", JStr (iso_of_time now));
               ("reason", JStr "Stable client-order ID matched an existing broker order.")]);
  if isExitIntent i then mret tt
  else
    _ ← db_call 2007 (transitionEntryExposureClaim now interfere (oi_id i) "BROKER_ORDER_ACTIVE"
          "RECOVERY_FOUND_BROKER_ORDER"
          (Some (JObj [("brokerOrderId", JStr (rawo_id o)); ("brokerStatus", JStr (rawo_status o))])));
    mret tt
  end.

(** No order, and the intent executes a live acceptance run. *)
Definition retain_acceptance (i : OrderIntent) (account runId : Z) : eff EntryWorld unit :=
  _ ← db_transaction 2010 (hold_acceptance now interfere i runId);
  system_event 2011 "live_entry_acceptance.execution_action_required" "LiveEntryAcceptanceRun" runId (Some account)
    CRITICAL None
    (JObj [("orderIntentId", jint (oi_id i)); ("clientOrderId", jopt JStr (oi_clientOrderId i));
           ("recovery", JStr "acceptance_entry_not_requeued");
           ("deliveryClassification",
             JStr (default "DELIVERY_UNCERTAIN" (getRecordedDeliveryClassification (oi_blockReason i))))]).

(** No order for an exit: true when it is given up, its position free again. *)
Definition recover_exit (x : StaleIntent) (account : Z) : eff EntryWorld bool :=
  let i := st_intent x in
  let classification := getRecordedDeliveryClassification (oi_blockReason i) in
  if match classification with
     | Some c => member c ["NOT_SENT_RETRYABLE"; "NOT_SENT_BLOCKED"; "BROKER_REJECTED"] | None => false end then
    _ ← db_transaction 2020 (give_back_position now interfere i
          (if bool_decide (classification = Some "NOT_SENT_BLOCKED") then "blocked" else "failed"));
    mret true
  else
    _ ← (if match oi_blockReason i with Some r => contains DEFERRED_MARK r | None => false end then mret 0
         else
           _ ← system_event 2021 "order.submission_recovery_deferred" "orderIntent" (oi_id i) (Some account)
                 (recoveryDeferredSeverity (st_environment x)) None
                 (JObj [("clientOrderId", jopt JStr (oi_clientOrderId i));
                        ("deliveryClassification", JStr (default "DELIVERY_UNCERTAIN" classification));
                        ("recovery", JStr "exit_order_not_requeued")]);
           db_call 2022 (update_order_intents now (still_submitting (oi_id i)) None
             (Some (Some (default "BROKER_WRITE_DELIVERY:DELIVERY_UNCERTAIN" (oi_blockReason i) ++ ":" ++
                          DEFERRED_MARK)))));
    mret false.

(** No order for an entry: true when its claim was released as never sent. *)
Definition recover_entry (i : OrderIntent) : eff EntryWorld bool :=
  records ← db_read 2030 (loadEntryDispatchRecords (oi_id i));
  disposition ← db_transaction 2031 (judge_stale_entry now interfere i records);
  match disposition with
  | STALE_NONE => mret false
  | STALE_OUTCOME outcome =>
      _ ← emitDispatchOutcomeRecorded interfere outage outcome "DISPATCH_OUTCOME_UNKNOWN";
      mret false
  | STALE_NOT_SENT =>
      release ← releaseUnsubmittedOrRouteToRecovery now interfere outage (oi_id i)
        "RECOVERY_CONFIRMED_NEVER_SUBMITTED" "STALE_RECOVERY" false None;
      mret (ur_released release)
  end.

Definition counted (retryable : bool) : eff RecoveryRun unit :=
  counting (if retryable then add_retryable else add_retained).

(** The body of the loop, up to its [catch]. *)
Definition recover_stale_intent (tradingAccountId : Z) (x : StaleIntent) : eff RecoveryRun unit :=
  let i := st_intent x in
  match oi_clientOrderId i with
  | None | Some "" => counting add_retained
  | Some clientOrderId =>
  _ ← (if isExitIntent i then mret tt
       else in_run (_ ← db_call 2000 (requireEntryExposureClaim (oi_id i) true); mret tt));
  match st_brokerOrder x with
  | Some persisted => link_local i persisted
  | None =>
  found ← in_run (lookup_order i tradingAccountId clientOrderId);
  match found with
  | None => counting add_retained
  | Some (Some o) =>
      _ ← in_run (link_found i tradingAccountId clientOrderId o);
      counting add_linked
  | Some None =>
  _ ← in_run (observe i "RECOVERY_ABSENCE_CONFIRMED"
        [("source", JStr "broker_lookup"); ("clientOrderId", JStr clientOrderId)]);
  match oi_liveEntryAcceptanceRunId i with
  | Some runId =>
      _ ← in_run (retain_acceptance i tradingAccountId runId);
      counting add_retained
  | None =>
      retryable ← in_run (if isExitIntent i then recover_exit x tradingAccountId else recover_entry i);
      counted retryable
  end end end end.

(** An item that fails is retained and isolated. *)
Definition recover_isolated (tradingAccountId : Z) (x : StaleIntent) : eff RecoveryRun unit :=
  try_catch (recover_stale_intent tradingAccountId x)
    (fun error =>
      let i := st_intent x in
      _ ← counting (fun c => add_failure (oi_id i) error (add_retained c));
      in_run (best_effort_event interfere outage 2040 "order.submission_recovery_action_required" "orderIntent"
        (oi_id i) (Some tradingAccountId) (recoveryDeferredSeverity (st_environment x)) None
        (JObj [("clientOrderId", jopt JStr (oi_clientOrderId i)); ("side", JStr (oi_side i));
               ("recovery", JStr "intent_isolated"); ("error", JStr (error_message error))]))).
End Item.

(** * The batch and the sweeps after it *)

(** What other sessions do while the intents are selected, while each is
    recovered, and during the sweeps. *)
Record RecoverySessions := {
  rs_reading : Session;
  rs_working : Z -> Session;
  rs_terminalReading : Session;
  rs_terminalWorking : Z -> Session;
  rs_admissionReading : Session;
  rs_admissionWorking : Z -> Session
}.

Record StaleRecoveryResult := {
  sr_found : Z;
  sr_counts : StaleCounts;
  (** A sweep that failed leaves its error here. *)
  sr_dispatchRecovery : SweepResult + string;
  sr_admissionRecovery : SweepResult + string
}.

Section Batch.
Context `{Prisma} `{EntryBroker} `{EntryServices}.
Variable now : Z.
Variable sessions : RecoverySessions.

(** An exit recently found uncertain, its event recorded. *)
Definition recently_deferred (staleBefore : Z) (i : OrderIntent) : bool :=
  String.eqb (to_lower (oi_side i)) "sell" &&
  match oi_blockReason i with Some r => contains DEFERRED_MARK r | None => false end &&
  match oi_lastSubmittedOrderSyncAt i with Some t => staleBefore <? t | None => false end.

Definition stale_submitting (tradingAccountId : Z) (i : OrderIntent) : bool :=
  let staleBefore := now - STALE_SUBMITTING_INTENT_THRESHOLD_MS in
  opt_eqb (oi_tradingAccountId i) tradingAccountId && String.eqb (oi_status i) "submitting" &&
  negb (recently_deferred staleBefore i) && (oi_updatedAt i <=? staleBefore).

Definition stale_batch (tradingAccountId : Z) (db : Db) : list StaleIntent :=
  map (fun i => {| st_intent := i;
                   st_brokerOrder := head (find_many (fun o => bo_orderIntentId o =? oi_id i) (brokerOrders db));
                   st_environment := environment_of db i |})
    (take STALE_SUBMITTING_BATCH_LIMIT
      (sort_by oi_updatedAt (find_many (stale_submitting tradingAccountId) (orderIntents db)))).

Fixpoint recover_stale_intents (tradingAccountId : Z) (l : list StaleIntent) : eff RecoveryRun unit :=
  match l with
  | [] => mret tt
  | x :: l =>
      let session := rs_working sessions (oi_id (st_intent x)) in
      _ ← recover_isolated now (ss_interfere session) (ss_outage session) tradingAccountId x;
      recover_stale_intents tradingAccountId l
  end.

Definition swept (m : eff EntryWorld SweepResult) : eff EntryWorld (SweepResult + string) :=
  try_catch (r ← m; mret (inl r)) (fun error => mret (inr (error_message error))).

Definition recoverStaleSubmittingIntentsForAccount (tradingAccountId : Z) : eff EntryWorld StaleRecoveryResult :=
  intents ← db_read (ss_interfere (rs_reading sessions)) (ss_outage (rs_reading sessions)) 2050
              (stale_batch tradingAccountId);
  counts ← (fun w =>
    let '(r, s) := recover_stale_intents tradingAccountId intents
      {| rr_world := w; rr_counts := {| sc_linked := 0; sc_retryable := 0; sc_retained := 0; sc_failures := [] |} |} in
    (match r with Ok _ => Ok (rr_counts s) | Throw e => Throw e end, rr_world s));
  dispatch ← swept (recoverTerminalEntryClaimsForAccount now (rs_terminalReading sessions)
                      (rs_terminalWorking sessions) tradingAccountId);
  admission ← swept (recoverStaleAdmissionClaimsForAccount now (rs_admissionReading sessions)
                      (rs_admissionWorking sessions) tradingAccountId);
  mret {| sr_found := Z.of_nat (length intents); sr_counts := counts; sr_dispatchRecovery := dispatch;
          sr_admissionRecovery := admission |}.
End Batch.
