(* ===== verification/SubmittedSync.v ===== *)
(** Synchronization of submitted orders with the broker: the half of
    workers/order.worker.ts that polls the broker for an account's working
    orders, [syncSubmittedOrdersForAccountUnlocked], and
    services/submitted-order-sync-selection.service.ts, which picks them. It
    sends nothing: it mirrors statuses to the broker order, its intent, its exit
    state and its exposure claim. *)

From Stdlib Require Import ZArith Lia.
From Stdlib Require Import Strings.String.
From Stdlib Require Import Floats.SpecFloat.
From stdpp Require Import base list strings.
From S2P Require Import Prelude JsNumber JsValue JsDate MarketSession AdaptivePolling Prisma OrderStatus DeliveryEvidence.
From S2P Require Import Schema BrokerAccount ExposureClaim ExitWorld ExitState EntryWorld DispatchEvidence DispatchRecovery.
From S2P Require Import OrderWorker StaleRecovery.

Open Scope string_scope.
Open Scope Z_scope.

Definition SUBMITTED_ORDER_BATCH_LIMIT_PER_ACCOUNT : nat := 10.

(** * Selection *)

Definition SUBMITTED_ORDER_SYNC_INTENT_STATUSES : list string :=
  (filterb (fun s => negb (member s ["received"; "pending"; "submitting"])) BROKER_ACTIVE_ENTRY_STATUSES ++
   filterb (fun s => member s ["done_for_day"; "calculated"; "replaced"]) TERMINAL_ENTRY_ORDER_STATUSES)%list.

Definition orders_of (i : OrderIntent) (db : Db) : list BrokerOrder :=
  filterb (fun o => bo_orderIntentId o =? oi_id i) (brokerOrders db).

(** Coherently historical: the position closed, a broker order filled, and every
    other one filled or replaced. *)
Definition historical `{Prisma} (i : OrderIntent) (db : Db) : bool :=
  match oi_trackedPositionId i ≫= (fun p => find_position p db) with
  | Some p => String.eqb (tp_status p) "closed"
  | None => false
  end &&
  existsb (fun o => String.eqb (bo_status o) "filled") (orders_of i db) &&
  negb (existsb (fun o => negb (member (bo_status o) ["filled"; "replaced"])) (orders_of i db)).

Definition submittedOrderSyncIntentWhere `{Prisma} (tradingAccountId : Z) (db : Db) (i : OrderIntent) : bool :=
  member (oi_status i) SUBMITTED_ORDER_SYNC_INTENT_STATUSES && opt_eqb (oi_tradingAccountId i) tradingAccountId &&
  negb (historical i db).

(** [orderBy]: the least recently synchronized first, the never synchronized
    before them, then by creation. *)
Definition synced_before (x y : OrderIntent) : bool :=
  match oi_lastSubmittedOrderSyncAt x, oi_lastSubmittedOrderSyncAt y with
  | None, None => oi_createdAt x <? oi_createdAt y
  | None, Some _ => true
  | Some _, None => false
  | Some a, Some b => (a <? b) || ((a =? b) && (oi_createdAt x <? oi_createdAt y))
  end.

(** An intent of the batch with its first broker order. *)
Record SubmittedIntent := { sm_intent : OrderIntent; sm_brokerOrder : option BrokerOrder }.

Definition submitted_batch `{Prisma} (tradingAccountId : Z) (db : Db) : list SubmittedIntent :=
  map (fun i => {| sm_intent := i;
                   sm_brokerOrder := head (find_many (fun o => bo_orderIntentId o =? oi_id i) (brokerOrders db)) |})
    (take SUBMITTED_ORDER_BATCH_LIMIT_PER_ACCOUNT
      (sort_with synced_before (find_many (submittedOrderSyncIntentWhere tradingAccountId db) (orderIntents db)))).

(** * State *)

Record SyncFailure := { sf_orderIntentId : Z; sf_brokerOrderRecordId : option Z; sf_error : string }.

(** The entry side's world, the exit states, the polling coordinator and what
    the loop has counted. *)
Record SyncState := {
  sy_entry : EntryWorld;
  sy_exitStates : list PositionExitState;
  sy_polling : AdaptivePollingCoordinator;
  sy_synced : Z;
  sy_failures : list SyncFailure
}.

Definition in_sync {A} (m : eff EntryWorld A) : eff SyncState A := fun s =>
  let '(r, w) := m (sy_entry s) in
  (r, {| sy_entry := w; sy_exitStates := sy_exitStates s; sy_polling := sy_polling s; sy_synced := sy_synced s;
         sy_failures := sy_failures s |}).

(** An update of the exit states, which is all the exit side's statement does. *)
Definition in_exit_states {A} (m : eff ExitWorld A) : eff SyncState A := fun s =>
  let '(r, w) := m {| xw_db := ew_db (sy_entry s); exitStates := sy_exitStates s;
                      systemEvents := ew_events (sy_entry s); sent := [] |} in
  (r, {| sy_entry := sy_entry s; sy_exitStates := exitStates w; sy_polling := sy_polling s; sy_synced := sy_synced s;
         sy_failures := sy_failures s |}).

Definition in_polling {A} (f : AdaptivePollingCoordinator -> A * AdaptivePollingCoordinator) : eff SyncState A := fun s =>
  let '(x, c) := f (sy_polling s) in
  (Ok x, {| sy_entry := sy_entry s; sy_exitStates := sy_exitStates s; sy_polling := c; sy_synced := sy_synced s;
            sy_failures := sy_failures s |}).
Definition polling_do (f : AdaptivePollingCoordinator -> AdaptivePollingCoordinator) : eff SyncState unit :=
  in_polling (fun c => (tt, f c)).

Definition count_synced : eff SyncState unit :=
  modify (fun s => {| sy_entry := sy_entry s; sy_exitStates := sy_exitStates s; sy_polling := sy_polling s;
                      sy_synced := sy_synced s + 1; sy_failures := sy_failures s |}).
Definition add_sync_failure (f : SyncFailure) : eff SyncState unit :=
  modify (fun s => {| sy_entry := sy_entry s; sy_exitStates := sy_exitStates s; sy_polling := sy_polling s;
                      sy_synced := sy_synced s; sy_failures := (sy_failures s ++ [f])%list |}).

(** * What the broker provides *)

(** [getOpenAlpacaOrders], and the [backoffUntil] of an
    [AlpacaRateLimitDeferredError]. *)
Class SyncBroker := {
  open_orders : Z -> EntryWorld -> res (list AlpacaOrder);
  error_backoffUntil : js_error -> option Z
}.

(** The statuses Alpaca documents for an order; it reports no other. *)
Definition ALPACA_ORDER_STATUSES : list string :=
  ["new"; "partially_filled"; "filled"; "done_for_day"; "canceled"; "expired"; "replaced"; "pending_cancel";
   "pending_replace"; "accepted"; "pending_new"; "accepted_for_bidding"; "stopped"; "rejected"; "suspended";
   "calculated"; "held"].
Class SyncBrokerLaws (B : SyncBroker) (W : OrderWorkerServices) : Prop := {
  open_documented : forall a w l o, open_orders a w = Ok l -> In o l -> In (rawo_status o) ALPACA_ORDER_STATUSES;
  looked_up_documented : forall n a id w o, entry_order_by_id n a id w = Ok (Some o) ->
    In (rawo_status o) ALPACA_ORDER_STATUSES
}.

Definition getNormalizedOpenOrders `{SyncBroker} (tradingAccountId : Z) (w : EntryWorld) : res (list BrokerOpenOrder) :=
  match open_orders tradingAccountId w with Ok l => Ok (map normalizeOpenOrder l) | Throw e => Throw e end.

(** What the item reads of an order, open or looked up. *)
Record ObservedOrder := { so_status : string; so_json : json }.

Definition open_order_json (o : BrokerOpenOrder) : json :=
  let opt_num (n : option num) := match n with Some n => JNum n | None => JNull end in
  JObj [("id", JStr (ob_id o)); ("clientOrderId", JStr (ob_clientOrderId o)); ("symbol", JStr (ob_symbol o));
        ("side", JStr (ob_side o)); ("orderType", JStr (ob_orderType o)); ("timeInForce", JStr (ob_timeInForce o));
        ("qty", opt_num (ob_qty o)); ("notional", opt_num (ob_notional o)); ("limitPrice", opt_num (ob_limitPrice o));
        ("stopPrice", opt_num (ob_stopPrice o)); ("status", JStr (ob_status o));
        ("submittedAt", JStr (ob_submittedAt o)); ("filledQty", JNum (ob_filledQty o));
        ("filledAvgPrice", opt_num (ob_filledAvgPrice o))].

(** [openOrdersByBrokerOrderId.get(id)]: of two orders of one id the later stays
    in the map. *)
Definition open_order (id : string) (orders : list BrokerOpenOrder) : option ObservedOrder :=
  option_map (fun o => {| so_status := ob_status o; so_json := open_order_json o |})
    (List.find (fun o => String.eqb (ob_id o) id) (rev orders)).

Definition brokerOrderStatusSeverity (status : string) : Severity :=
  if member status ["accepted"; "accepted_for_bidding"; "new"; "pending_new"; "partially_filled"; "filled"; "canceled";
                    "cancelled"; "expired"; "replaced"; "done_for_day"; "calculated"] then INFO
  else if String.eqb status "rejected" then ERROR
  else if member status ["pending_cancel"; "pending_replace"; "stopped"; "suspended"] then WARNING
  else ERROR.

(** * Statements *)

Section Statements.
Context `{Prisma}.
Variable now : Z.

(** [orderIntent.update] of the time of the last synchronization. *)
Definition stamp_synced (id : Z) : eff Db unit := fun db =>
  let '(rows, n) := update_many (fun i => oi_id i =? id) (intent_synced now) (orderIntents db) in
  (if n =? 0 then Throw (CodedError "P2025" "PrismaClientKnownRequestError" "No record was found for an update.") else Ok tt,
   set_orderIntents (fun _ => rows) db).

Definition order_observed (o : ObservedOrder) (b : BrokerOrder) : BrokerOrder :=
  {| bo_id := bo_id b; bo_orderIntentId := bo_orderIntentId b; bo_broker := bo_broker b;
     bo_brokerOrderId := bo_brokerOrderId b; bo_clientOrderId := bo_clientOrderId b; bo_symbol := bo_symbol b;
     bo_side := bo_side b; bo_status := so_status o; bo_securityId := bo_securityId b;
     bo_trackedPositionId := bo_trackedPositionId b; bo_tradingAccountId := bo_tradingAccountId b;
     bo_rawBrokerJson := so_json o; bo_createdAt := bo_createdAt b |}.

(** [brokerOrder.updateMany], by compare-and-set on the status read. *)
Definition mirror_order (b : BrokerOrder) (o : ObservedOrder) : eff Db Z := fun db =>
  let '(rows, n) := update_many (fun r => (bo_id r =? bo_id b) && String.eqb (bo_status r) (bo_status b))
                      (order_observed o) (brokerOrders db) in
  (Ok n, set_brokerOrders (fun _ => rows) db).
End Statements.

(** * One order *)

Section Item.
Context `{Prisma} `{EntryBroker} `{OrderWorkerServices}.
Variable now : Z.
Variable interfere : nat -> Db -> Db.
Variable outage : nat -> Db -> option js_error.
#[local] Notation db_call n m := (EntryWorld.db_call interfere outage n m).
#[local] Notation system_event n := (EntryWorld.system_event interfere outage n).

(** The order in the open orders fetched, or looked up by its id. *)
Definition observe_order (tradingAccountId : Z) (orders : list BrokerOpenOrder) (b : BrokerOrder)
    : eff EntryWorld (option ObservedOrder) :=
  match open_order (bo_brokerOrderId b) orders with
  | Some o => mret (Some o)
  | None =>
      found ← lift (entry_order_by_id 40 tradingAccountId (bo_brokerOrderId b));
      mret (option_map (fun o => {| so_status := rawo_status o; so_json := order_json o |}) found)
  end.

Definition release_terminal (orderIntentId : Z) (brokerStatus : string) : eff EntryWorld unit :=
  _ ← step interfere outage 2207;
  w ← get;
  _ ← run_db (releaseConfirmedTerminalEntryClaim now interfere
        (broker_order_by_id := fun a o => entry_order_by_id 41 a o w)
        (broker_order_by_client_id := fun a o => entry_order_by_client_id 42 a o w)
        (broker_position := fun a s => entry_position 43 a s w)
        (broker_open_buys := fun a s => entry_open_buys 44 a s w)
        orderIntentId brokerStatus false);
  mret tt.

Definition observed_claim_status (status : string) : string :=
  if String.eqb status "partially_filled" then "PARTIALLY_FILLED"
  else if String.eqb status "filled" then "FILLED_AWAITING_POSITION" else "BROKER_ORDER_ACTIVE".

Definition is_buy (b : BrokerOrder) : bool := String.eqb (to_lower (bo_side b)) "buy".

(** A status the broker order does not have yet; true when it was recorded. *)
Definition mirror_status (b : BrokerOrder) (o : ObservedOrder) : eff EntryWorld bool :=
  let previous := bo_status b in
  let next := so_status o in
  updated ← db_call 2204 (mirror_order b o);
  if negb (updated =? 1) then mret false
  else
  _ ← db_call 2205 (update_order_intent now (bo_orderIntentId b) (Some next) None);
  _ ← (if is_buy b then
         _ ← or_else
               (_ ← db_call 2206 (transitionEntryExposureClaim now interfere (bo_orderIntentId b)
                      (observed_claim_status next) "BROKER_ORDER_STATUS_OBSERVED"
                      (Some (JObj [("brokerOrderId", JStr (bo_brokerOrderId b)); ("previousStatus", JStr previous);
                                   ("nextStatus", JStr next)])));
                mret tt) tt;
         release_terminal (bo_orderIntentId b) next
       else mret tt);
  _ ← system_event 2208 ("order." ++ next) "brokerOrder" (bo_id b) (bo_tradingAccountId b)
        (brokerOrderStatusSeverity next) None
        (JObj [("orderIntentId", jint (bo_orderIntentId b)); ("brokerOrderId", JStr (bo_brokerOrderId b));
               ("symbol", JStr (bo_symbol b)); ("side", JStr (bo_side b)); ("previousStatus", JStr previous);
               ("nextStatus", JStr next)]);
  mret true.

(** A status that may become conclusive only later is judged again. *)
Definition judge_again (b : BrokerOrder) (next : string) : eff EntryWorld unit :=
  if is_buy b && member (to_lower next) ["replaced"; "done_for_day"; "calculated"]
  then release_terminal (bo_orderIntentId b) next else mret tt.

Definition sync_observed (tradingAccountId : Z) (b : BrokerOrder) (o : ObservedOrder) : eff SyncState unit :=
  let previous := bo_status b in
  let next := so_status o in
  _ ← in_sync (step interfere outage 2203);
  _ ← in_exit_states (syncTrailingStopOrderStatus now tradingAccountId (bo_clientOrderId b) (Some (bo_brokerOrderId b)) next
        (JObj [("brokerOrderId", JStr (bo_brokerOrderId b)); ("clientOrderId", JStr (bo_clientOrderId b));
               ("previousStatus", JStr previous); ("nextStatus", JStr next); ("matchedOpenOrder", JStr next)]));
  if negb (String.eqb previous next) then
    changed ← in_sync (mirror_status b o);
    if (changed : bool) then count_synced else mret tt
  else in_sync (judge_again b next).

(** The local and the broker's evidence of an intent. *)
Definition sync_evidence (tradingAccountId : Z) (orders : list BrokerOpenOrder) (x : SubmittedIntent) : eff SyncState unit :=
  let i := sm_intent x in
  match sm_brokerOrder x with
  | None =>
      in_sync (or_else (_ ← db_call 2201 (recordMissingLocalBrokerOrderDiagnostic now interfere (oi_id i)
                                            (oi_clientOrderId i) (oi_status i));
                        mret tt) tt)
  | Some b =>
      found ← in_sync (observe_order tradingAccountId orders b);
      match found with
      | None => mret tt
      | Some o => sync_observed tradingAccountId b o
      end
  end.

(** The body of the loop: progress is stamped before anything is read. *)
Definition sync_intent (tradingAccountId : Z) (orders : list BrokerOpenOrder) (x : SubmittedIntent) : eff SyncState unit :=
  _ ← in_sync (db_call 2200 (stamp_synced now (oi_id (sm_intent x))));
  sync_evidence tradingAccountId orders x.

Definition sync_isolated (tradingAccountId : Z) (orders : list BrokerOpenOrder) (x : SubmittedIntent) : eff SyncState unit :=
  try_catch (sync_intent tradingAccountId orders x)
    (fun error => add_sync_failure {| sf_orderIntentId := oi_id (sm_intent x);
       sf_brokerOrderRecordId := option_map bo_id (sm_brokerOrder x); sf_error := error_message error |}).
End Item.

(** * The batch *)

Inductive SyncSkipReason := no_local_submitted_orders | adaptive_poll_not_due | rate_limited.

Record SubmittedOrderSyncResult := {
  sn_found : Z;
  sn_polled : bool;
  sn_synced : Z;
  sn_failures : list SyncFailure;
  sn_skipReason : option SyncSkipReason;
  sn_deferred : bool;
  sn_backoffUntil : option string;
  sn_mode : option AdaptivePollingMode;
  sn_effectiveIntervalMs : option Z;
  sn_nextDueAt : option string
}.
(** [failed] and [skipped] of the result. *)
Definition sn_failed (r : SubmittedOrderSyncResult) : Z := Z.of_nat (length (sn_failures r)).
Definition sn_skipped (r : SubmittedOrderSyncResult) : bool :=
  match sn_skipReason r with Some _ => true | None => false end.

(** What happens around a synchronization: the other sessions while the intents
    are read and while each is worked on, what the polling providers answer, and
    what other flows do to the coordinator while the broker is polled; when the
    market lookup settles and when the loop ends. *)
Record SyncSurroundings := {
  sx_reading : Session;
  sx_working : Z -> Session;
  sx_answers : PollAnswers;
  sx_settled : Z;
  sx_meanwhile : list PollingCall;
  sx_completedAt : Z
}.

Section Batch.
Context `{Prisma} `{EntryBroker} `{OrderWorkerServices} `{SyncBroker}.
Variable now : Z.
Variable around : SyncSurroundings.

Fixpoint sync_items (tradingAccountId : Z) (orders : list BrokerOpenOrder) (l : list SubmittedIntent) : eff SyncState unit :=
  match l with
  | [] => mret tt
  | x :: l =>
      let session := sx_working around (oi_id (sm_intent x)) in
      _ ← sync_isolated now (ss_interfere session) (ss_outage session) tradingAccountId orders x;
      sync_items tradingAccountId orders l
  end.

Definition not_polled (found : Z) (reason : SyncSkipReason) : SubmittedOrderSyncResult :=
  {| sn_found := found; sn_polled := false; sn_synced := 0; sn_failures := []; sn_skipReason := Some reason;
     sn_deferred := false; sn_backoffUntil := None; sn_mode := None; sn_effectiveIntervalMs := None;
     sn_nextDueAt := None |}.

Definition not_due (found : Z) (d : AdaptivePollingDecision) : SubmittedOrderSyncResult :=
  {| sn_found := found; sn_polled := false; sn_synced := 0; sn_failures := [];
     sn_skipReason := Some (match dn_reason d with rate_limit_backoff => rate_limited | _ => adaptive_poll_not_due end);
     sn_deferred := false; sn_backoffUntil := None; sn_mode := Some (dn_mode d);
     sn_effectiveIntervalMs := dn_effectiveIntervalMs d; sn_nextDueAt := toIso (dn_nextDueAt d) |}.

(** A fetch of the open orders that failed: put off by the rate limit, or an
    error of the account. *)
Definition fetch_failed (tradingAccountId found : Z) (d : AdaptivePollingDecision) (error : js_error)
    : eff SyncState SubmittedOrderSyncResult :=
  if String.eqb (error_name error) "AlpacaRateLimitDeferredError" then
    _ ← polling_do (recordRateLimitDeferred submitted_order_sync tradingAccountId (error_backoffUntil error) now);
    mret {| sn_found := found; sn_polled := false; sn_synced := 0; sn_failures := []; sn_skipReason := Some rate_limited;
            sn_deferred := true; sn_backoffUntil := toIso (error_backoffUntil error); sn_mode := Some (dn_mode d);
            sn_effectiveIntervalMs := dn_effectiveIntervalMs d; sn_nextDueAt := toIso (error_backoffUntil error) |}
  else
    _ ← polling_do (recordFailure submitted_order_sync tradingAccountId now);
    throw error.

Definition sync_polled (tradingAccountId : Z) (d : AdaptivePollingDecision) (intents : list SubmittedIntent)
    (orders : list BrokerOpenOrder) : eff SyncState SubmittedOrderSyncResult :=
  _ ← sync_items tradingAccountId orders intents;
  _ ← polling_do (run_polling (sx_meanwhile around));
  s ← get;
  let completedAt := sx_completedAt around in
  _ ← polling_do (match sy_failures s with
        | [] => recordSuccess submitted_order_sync tradingAccountId completedAt (dn_effectiveIntervalMs d)
        | _ => recordFailure submitted_order_sync tradingAccountId completedAt
        end);
  mret {| sn_found := Z.of_nat (length intents); sn_polled := true; sn_synced := sy_synced s;
          sn_failures := sy_failures s; sn_skipReason := None; sn_deferred := false; sn_backoffUntil := None;
          sn_mode := Some (dn_mode d); sn_effectiveIntervalMs := dn_effectiveIntervalMs d;
          sn_nextDueAt := toIso (option_map (fun i => completedAt + i) (dn_effectiveIntervalMs d)) |}.

(** [error instanceof ...] after [await getNormalizedOpenOrders(...)]. *)
Definition fetch_open_orders (tradingAccountId : Z) : eff SyncState (res (list BrokerOpenOrder)) := fun s =>
  (Ok (getNormalizedOpenOrders tradingAccountId (sy_entry s)), s).

Definition sync_submitted (tradingAccountId : Z) : eff SyncState SubmittedOrderSyncResult :=
  intents ← in_sync (EntryWorld.db_read (ss_interfere (sx_reading around)) (ss_outage (sx_reading around)) 2190
                       (submitted_batch tradingAccountId));
  match intents with
  | [] => mret (not_polled 0 no_local_submitted_orders)
  | _ =>
  let found := Z.of_nat (length intents) in
  d ← in_polling (getDecision tradingAccountId submitted_order_sync now (sx_settled around) (sx_answers around));
  if negb (dn_due d) then mret (not_due found d)
  else
  _ ← polling_do (recordAttempt submitted_order_sync tradingAccountId now);
  fetched ← fetch_open_orders tradingAccountId;
  match fetched with
  | Throw error => fetch_failed tradingAccountId found d error
  | Ok orders => sync_polled tradingAccountId d intents orders
  end
  end.

(** A run on the world, the exit states and the coordinator, its counters at
    zero. *)
Definition syncSubmittedOrdersForAccountUnlocked (tradingAccountId : Z) (w : EntryWorld) (x : list PositionExitState)
    (c : AdaptivePollingCoordinator) : res SubmittedOrderSyncResult * SyncState :=
  sync_submitted tradingAccountId
    {| sy_entry := w; sy_exitStates := x; sy_polling := c; sy_synced := 0; sy_failures := [] |}.
End Batch.
