(* ===== verification/WorkerMoves.v ===== *)
(** What the programs of the order worker do to the database, for any relation
    its elementary statements respect: the attempts, the handling of failures
    and the recovery of stale intents. *)

From Stdlib Require Import ZArith Lia.
From Stdlib Require Import Strings.String.
From Stdlib Require Import Floats.SpecFloat.
From stdpp Require Import base gmap list strings relations.
From S2P Require Import Prelude JsNumber JsValue JsDate MarketSession Prisma OrderStatus DeliveryEvidence Schema.
From S2P Require Import RuntimeConfig SessionGuard EntryLimits BrokerAccount RiskGate.
From S2P Require Import ExposureClaim ExposureSafety ExitWorld EntryWorld DispatchEvidence DispatchRecovery EntrySubmission.
From S2P Require Import EntryMoves OrderWorker StaleRecovery.

Open Scope string_scope.
Open Scope Z_scope.

(** * What the worker's programs do to the database *)

Section WorkerMoves.
Context `{TimeZone} `{DateParse} `{MarketSession} `{PrismaLaws} `{BrokerApi}.
Context `{B : EntryBroker} `{S : EntryServices} `{W : OrderWorkerServices}.
Context `{!EntryBrokerLaws B} `{!EntryServicesLaws S} `{!OrderWorkerServicesLaws W}.
Context {R : Db -> Db -> Prop} {now : Z} {interfere : nat -> Db -> Db}.
Context `{!Respects R now interfere} `{!RespectsIntents R}.
Variable rows : settings.
Variable outage : nat -> Db -> option js_error.

Lemma settle_R i status b : settling status -> moves R (update_order_intent now i status b).
Proof. apply intent_R. Qed.

Lemma claim_submission_R i : moves R (claim_for_submission now i).
Proof.
  unfold claim_for_submission. pose proof (fun w b => intents_R (R := R) (now := now) w (Some "submitting") b eq_refl).
  solve_moves.
Qed.

Lemma risk_evaluation_R i a r d : moves R (recordOrderIntentRiskEvaluation now i a r d).
Proof.
  unfold recordOrderIntentRiskEvaluation. apply moves_bind; [typeclasses eauto|apply moves_asks; typeclasses eauto|].
  intros [x|]; [|apply moves_ret; typeclasses eauto]. apply moves_modify. intros db.
  by apply respects_intents.
Qed.

Lemma unheld_rows_R (f : Db -> Db) :
  (forall db, orderIntents (f db) = orderIntents db /\ claims (f db) = claims db) -> moves R (modify f).
Proof. intros Hf. apply moves_modify. intros db. by apply (same_R (now := now) (interfere := interfere)); apply Hf. Qed.

Lemma create_order_R i a c o : moves R (create_order_row now i a c o).
Proof.
  unfold create_order_row. pose proof (fun f => unheld_rows_R (set_brokerOrders f) (fun _ => conj eq_refl eq_refl)).
  solve_moves.
Qed.
Lemma acceptance_R i u f : moves R (fail_acceptance_run now i u f).
Proof. by apply unheld_rows_R. Qed.

Lemma store_R i a o : moves R (store_submitted now i a o).
Proof.
  unfold store_submitted. pose proof (fun b => settle_R (oi_id i) (Some "submitted") b eq_refl).
  pose proof create_order_R. solve_moves.
Qed.

Lemma failure_settles i f p : settling (Some (failure_status i f p)).
Proof. unfold failure_status. repeat case_match; done. Qed.

Lemma persist_R i f r : moves R (persist_failure now interfere i f r).
Proof.
  unfold persist_failure.
  pose proof (fun p b => settle_R (oi_id i) (Some (failure_status i f p)) b (failure_settles i f p)).
  pose proof acceptance_R. solve_moves.
Qed.

Lemma unpersisted_R i f p : moves (unposted R) (unpersisted_event interfere outage i f p).
Proof. unfold unpersisted_event. solve_entry. Qed.

Lemma same_entry_moves {A} (m : eff EntryWorld A) : moves same_entry m -> moves (unposted R) m.
Proof. apply (same_entry_R (now := now) (interfere := interfere)). Qed.

Lemma link_R i b a : moves (unposted R) (linkEntryDecisionToBrokerOrder i b a).
Proof. apply same_entry_moves, link_quiet. Qed.

Context `{!RespectsReleases R now}.
#[local] Hint Resolve persist_R claim_submission_R risk_evaluation_R store_R : moves.
#[local] Hint Resolve unpersisted_R link_R release_or_route_R attempt_release_R emit_R : entry_moves.

Lemma settle_failure_R i f p r : moves (unposted R) (settle_failure now interfere outage i f p r).
Proof. unfold settle_failure. solve_entry. Qed.
#[local] Hint Resolve settle_failure_R : entry_moves.

Lemma handle_R i f : moves (unposted R) (handle_failure now interfere outage i f).
Proof. unfold handle_failure. solve_entry. Qed.

Lemma block_R i a c input b : moves (unposted R) (block_by_risk now interfere outage i a c input b).
Proof.
  unfold block_by_risk. pose proof (fun b => settle_R (oi_id i) (Some "blocked") b eq_refl). solve_entry.
Qed.
#[local] Hint Resolve block_R : entry_moves.

Lemma recheck_R i a c input : moves (unposted R) (recheck_risk now rows interfere outage i a c input).
Proof. unfold recheck_risk. solve_entry. Qed.

Lemma record_submitted_R i a r : moves (unposted R) (record_submitted now interfere outage i a r).
Proof.
  unfold record_submitted. pose proof (fun b => settle_R (oi_id i) (Some "submitted") b eq_refl). solve_entry.
Qed.
End WorkerMoves.

(** * A failure is always settled *)

Section Settled.
Context `{Prisma} `{EntryBroker} `{EntryServices}.
Variable now : Z.
Variable interfere : nat -> Db -> Db.
Variable outage : nat -> Db -> option js_error.

Lemma unpersisted_total i f p : total (unpersisted_event interfere outage i f p).
Proof. unfold unpersisted_event. solve_total. Qed.

Lemma settle_total i f p r : total (settle_failure now interfere outage i f p r).
Proof. unfold settle_failure. solve_total. Qed.
#[local] Hint Resolve unpersisted_total settle_total : total.

Lemma handle_total i f : total (handle_failure now interfere outage i f).
Proof. unfold handle_failure. solve_total. Qed.
End Settled.

(** * The stale recovery *)

(** A program on the run that hands nothing to the adapter. *)
Definition run_moved (R : Db -> Db -> Prop) (s s' : RecoveryRun) : Prop := unposted R (rr_world s) (rr_world s').

#[export] Instance run_moved_preorder R `{!PreOrder R} : PreOrder (run_moved R).
Proof.
  split; [intros s; unfold run_moved; reflexivity|].
  intros a b c K1 K2. unfold run_moved in *. by transitivity (rr_world b).
Qed.

Lemma in_run_R {A} R (m : eff EntryWorld A) : moves (unposted R) m -> moves (run_moved R) (in_run m).
Proof. intros Hm s. unfold run_moved, in_run. specialize (Hm (rr_world s)). by destruct (m (rr_world s)). Qed.

Lemma counting_R R `{!PreOrder R} f : moves (run_moved R) (counting f).
Proof. intros s. unfold run_moved. cbn. reflexivity. Qed.

Section StaleMoves.
Context `{PrismaLaws} `{B : EntryBroker} `{S : EntryServices} `{!EntryServicesLaws S}.
Context {R : Db -> Db -> Prop} {now : Z} {interfere : nat -> Db -> Db}.
Context `{!Respects R now interfere} `{!RespectsIntents R}.
Variable outage : nat -> Db -> option js_error.

Lemma observe_R i t e : moves (unposted R) (observe i t e).
Proof. apply (same_entry_R (now := now) (interfere := interfere)), append_quiet. Qed.

Lemma still_R i s b : settling s -> moves R (update_order_intents now (still_submitting i) s b).
Proof. apply intents_R. Qed.

Lemma progress_R i : moves R (record_progress now i).
Proof.
  intros db. unfold record_progress.
  assert (K : keeps_executable (intent_synced now)) by done.
  pose proof (respects_intents (R := R) (still_submitting i) _ db K) as HR.
  unfold set_orderIntents in *. by destruct (update_many _ _ _).
Qed.

#[local] Hint Resolve progress_R create_order_R : moves.

Lemma materialize_R i a c o : moves R (materialize_order now interfere i a c o).
Proof.
  unfold materialize_order. pose proof (fun b => still_R (oi_id i) (Some "submitted") b eq_refl). solve_moves.
Qed.

Lemma hold_acceptance_R i r : moves R (hold_acceptance now interfere i r).
Proof.
  unfold hold_acceptance, uncertain_acceptance_run. pose proof (fun b => still_R (oi_id i) None b I).
  pose proof (fun f => unheld_rows_R (set_acceptanceRuns f) (fun _ => conj eq_refl eq_refl)). solve_moves.
Qed.

Lemma give_back_R i s : settling (Some s) -> moves R (give_back_position now interfere i s).
Proof.
  intros Hs. unfold give_back_position. pose proof (fun b => still_R (oi_id i) (Some s) b Hs).
  pose proof (fun f => unheld_rows_R (set_trackedPositions f) (fun _ => conj eq_refl eq_refl)). solve_moves.
Qed.

Lemma judge_stale_R i r : moves R (judge_stale_entry now interfere i r).
Proof. unfold judge_stale_entry. pose proof (fun b => still_R (oi_id i) (Some "failed") b eq_refl). solve_moves. Qed.
#[local] Hint Resolve materialize_R hold_acceptance_R judge_stale_R : moves.
#[local] Hint Resolve observe_R emit_R : entry_moves.

Lemma found_observed_R i s b m : moves (unposted R) (observe_found i s b m).
Proof. unfold observe_found. solve_entry. Qed.
#[local] Hint Resolve found_observed_R : entry_moves.

Lemma lookup_R i a k : moves (unposted R) (lookup_order now interfere outage i a k).
Proof. unfold lookup_order. solve_entry. Qed.

Lemma link_found_R i a k o : moves (unposted R) (link_found now interfere outage i a k o).
Proof. unfold link_found. solve_entry. Qed.

Lemma retain_acceptance_R i a r : moves (unposted R) (retain_acceptance now interfere outage i a r).
Proof. unfold retain_acceptance. solve_entry. Qed.

Lemma recover_exit_R x a : moves (unposted R) (recover_exit now interfere outage x a).
Proof.
  unfold recover_exit. pose proof (fun b => still_R (oi_id (st_intent x)) None b I).
  set (status := if bool_decide _ then "blocked" else "failed").
  assert (moves R (give_back_position now interfere (st_intent x) status))
    by (apply give_back_R; unfold status; by destruct (bool_decide _)).
  solve_entry.
Qed.

Lemma link_local_R i o : moves (run_moved R) (link_local now interfere outage i o).
Proof.
  unfold link_local. pose proof (fun b => still_R (oi_id i) (Some "submitted") b eq_refl).
  pose proof (counting_R R). 
  assert (moves (run_moved R) (in_run (_ ← observe_found i "local_broker_order" (bo_brokerOrderId o) [];
     db_call interfere outage 2001 (update_order_intents now (still_submitting (oi_id i)) (Some "submitted") (Some None)))))
    by (apply in_run_R; solve_entry).
  assert (moves (run_moved R) (in_run (db_call interfere outage 2002 (transitionEntryExposureClaim now interfere (oi_id i)
     "BROKER_ORDER_ACTIVE" "RECOVERY_LINKED_LOCAL_BROKER_ORDER" None)))) by (apply in_run_R; solve_entry).
  solve_moves.
Qed.

Context `{!RespectsReleases R now}.
#[local] Hint Resolve release_or_route_R : entry_moves.

Lemma recover_entry_R i : moves (unposted R) (recover_entry now interfere outage i).
Proof. unfold recover_entry. solve_entry. Qed.

(** One stale intent hands nothing to the adapter. *)
Lemma recover_stale_R a x : moves (run_moved R) (recover_stale_intent now interfere outage a x).
Proof.
  unfold recover_stale_intent, counted. cbv zeta.
  pose proof (counting_R R). pose proof (@link_local_R). pose proof (@in_run_R).
  pose proof (fun i a k => in_run_R R _ (lookup_R i a k)). pose proof (fun i a k o => in_run_R R _ (link_found_R i a k o)).
  pose proof (fun i a r => in_run_R R _ (retain_acceptance_R i a r)).
  pose proof (fun i t e => in_run_R R _ (observe_R i t e)).
  assert (moves (run_moved R) (in_run (_ ← db_call interfere outage 2000 (requireEntryExposureClaim (oi_id (st_intent x)) true); mret tt)))
    by (apply in_run_R; solve_entry).
  assert (moves (run_moved R) (in_run (if isExitIntent (st_intent x) then recover_exit now interfere outage x a
    else recover_entry now interfere outage (st_intent x))))
    by (apply in_run_R; destruct (isExitIntent _); [apply recover_exit_R|apply recover_entry_R]).
  solve_moves.
Qed.

Lemma recover_isolated_R a x : moves (run_moved R) (recover_isolated now interfere outage a x).
Proof.
  apply moves_try_catch; [typeclasses eauto|apply recover_stale_R|]. intros e.
  apply moves_bind; [typeclasses eauto|apply counting_R; typeclasses eauto|]. intros []. apply in_run_R. solve_entry.
Qed.
End StaleMoves.

(** The whole recovery, when every session it meets respects [R]. *)
Section StaleBatch.
Context `{PrismaLaws} `{B : EntryBroker} `{S : EntryServices} `{!EntryServicesLaws S}.
Context {R : Db -> Db -> Prop} {now : Z} `{!RespectsIntents R} `{!RespectsReleases R now}.
Variable sessions : RecoverySessions.

Record recovery_sessions_respect : Prop := {
  rsr_reading : Respects R now (ss_interfere (rs_reading sessions));
  rsr_working : forall i, Respects R now (ss_interfere (rs_working sessions i));
  rsr_terminalReading : Respects R now (ss_interfere (rs_terminalReading sessions));
  rsr_terminalWorking : forall i, Respects R now (ss_interfere (rs_terminalWorking sessions i));
  rsr_admissionReading : Respects R now (ss_interfere (rs_admissionReading sessions));
  rsr_admissionWorking : forall i, Respects R now (ss_interfere (rs_admissionWorking sessions i))
}.

Lemma stale_recovery_R a : recovery_sessions_respect ->
  moves (unposted R) (recoverStaleSubmittingIntentsForAccount now sessions a).
Proof.
  intros [R1 R2 R3 R4 R5 R6]. pose proof (respects_preorder (RespectsClaims := respects_only_claims (Respects := R1))) as HR.
  assert (Hs : forall (m : eff EntryWorld SweepResult), moves (unposted R) m -> moves (unposted R) (swept m)).
  { intros m Hm. unfold swept. solve_moves. }
  unfold recoverStaleSubmittingIntentsForAccount. apply moves_bind; [typeclasses eauto|by apply (db_read_R (now := now))|].
  intros l. apply moves_bind; [typeclasses eauto| |].
  - intros w. set (s0 := {| rr_world := w; rr_counts := _ |}).
    assert (Hl : moves (run_moved R) (recover_stale_intents now sessions a l)).
    { induction l as [|x l IH]; cbn [recover_stale_intents]; [apply moves_ret; typeclasses eauto|].
      apply moves_bind; [typeclasses eauto|by apply recover_isolated_R|done]. }
    specialize (Hl s0). destruct (recover_stale_intents _ _ _ _ s0). exact Hl.
  - intros counts. apply moves_bind; [typeclasses eauto|apply Hs; by apply terminal_sweep_R|].
    intros d. apply moves_bind; [typeclasses eauto|apply Hs; by apply admission_sweep_R|].
    intros d'. apply moves_ret. typeclasses eauto.
Qed.
End StaleBatch.
