(* ===== verification/OutcomeMoves.v ===== *)
(** What the handling of a failed attempt records about its delivery: which
    delivery records may appear on a claim, and that an undisturbed recording of
    an outcome leaves one. *)

From Stdlib Require Import ZArith Lia.
From Stdlib Require Import Strings.String.
From Stdlib Require Import Floats.SpecFloat.
From stdpp Require Import base list strings.
From S2P Require Import Prelude JsNumber JsValue JsDate Prisma OrderStatus DeliveryEvidence Schema BrokerAccount.
From S2P Require Import ExposureClaim ExposureSafety ExitWorld EntryWorld DispatchEvidence DispatchRecovery EntrySubmission.
From S2P Require Import EntryMoves OrderWorker WorkerMoves.

Open Scope string_scope.
Open Scope Z_scope.

(** A record of a delivery, and its classification as every reader takes it. *)
Definition delivery_record (e : EntryExposureClaimEvent) : bool := is_recorded (evidence_event e).
Definition recorded_classification (e : EntryExposureClaimEvent) : string :=
  out_classification (outcomeOf (evidence_event e)).

(** Every delivery record that appears on the claim is classified within
    [allowed]. *)
Definition records_within (claimId : Z) (allowed : list string) (db db' : Db) : Prop :=
  forall e, In e (claimEvents db') -> ce_claimId e = claimId -> delivery_record e = true ->
    In e (claimEvents db) \/ member (recorded_classification e) allowed = true.

#[export] Instance records_within_preorder k allowed : PreOrder (records_within k allowed).
Proof.
  split; [intros db e He _ _; by left|]. intros a b c Hab Hbc e He Hk Hd.
  destruct (Hbc e He Hk Hd) as [Hb|Hb]; [by apply Hab|by right].
Qed.

(** An event that is no delivery record, or one classified within [allowed]. *)
Definition recordable (allowed : list string) (eventType : string) (evidence : json) : Prop :=
  forall id claimId createdAt, let e := {| ce_id := id; ce_claimId := claimId; ce_eventType := eventType;
    ce_evidenceJson := evidence; ce_createdAt := createdAt |} in
  delivery_record e = true -> member (recorded_classification e) allowed = true.

(** * Failures after the adapter was invoked *)

(** The adapter was invoked and its answer is no local refusal to send. *)
Definition possibly_sent (f : WorkerFailure) : Prop :=
  wf_brokerBoundaryStarted f = true /\ (wf_phase f = DISPATCH_STARTED \/ wf_phase f = BROKER_RESPONDED) /\
  local_guard f = false.

(** The outcomes of a delivery that may have reached the broker. *)
Definition SENT_OUTCOMES : list string := ["BROKER_REJECTED"; "DELIVERY_UNCERTAIN"].

Lemma sent_no_local c : member c SENT_OUTCOMES = true -> member c LOCAL_NON_SEND_CLASSIFICATIONS = false.
Proof. intros [<-|[<-|[]]]%member_In; done. Qed.

(** What the [catch] looks up before it records the failure. *)
Definition failure_records `{Prisma} interfere outage (i : OrderIntent) (f : WorkerFailure) : eff EntryWorld (option EntryDispatchRecords) :=
  if negb (definitelyNotDispatched f) || is_some (recordedNotSent f)
  then or_else (r ← EntryWorld.db_read interfere outage 4020 (loadEntryDispatchRecords (oi_id i)); mret (Some r)) None
  else mret None.

(** What is recorded then never permits a release as never sent. *)
Lemma possibly_sent_plan f records : possibly_sent f ->
  definitelyNotDispatched f = false /\ preDispatchCandidate f = false /\
  exists c, conservativePlan f records = PLAN_OUTCOME c /\ member c SENT_OUTCOMES = true.
Proof.
  intros (Hb & Hp & Hl).
  assert (Hd : definitelyNotDispatched f = false).
  { unfold definitelyNotDispatched. rewrite Hb. by destruct Hp as [-> | ->]. }
  assert (Hc : preDispatchCandidate f = false).
  { unfold preDispatchCandidate. rewrite Hb. by destruct Hp as [-> | ->]. }
  split; [done|]. split; [done|]. unfold conservativePlan, recordedNotSent. rewrite Hd, Hl. cbn [andb].
  eexists. split; [done|]. unfold local_guard in Hl. unfold entryDispatchOutcomeFor.
  destruct (failure_classification f) as [k|]; [|done].
  cbn in Hl. rewrite !orb_false_iff in Hl. destruct Hl as (-> & -> & _). by destruct (String.eqb k "BROKER_REJECTED").
Qed.

Section PossiblySent.
Context `{PrismaLaws} `{EntryBroker} `{EntryServices}.
Variable now : Z.
Variable interfere : nat -> Db -> Db.
Variable outage : nat -> Db -> option js_error.
Variable i : OrderIntent.
Variable f : WorkerFailure.
Hypothesis sent : possibly_sent f.

Lemma persist_plan records db plan recorded db' :
  persist_failure now interfere i f records db = (Ok (plan, recorded), db') -> plan = conservativePlan f records.
Proof.
  destruct (possibly_sent_plan f records sent) as (_ & Hc & _). unfold persist_failure. rewrite Hc. cbv zeta.
  intros (pre & s & Hpre & E)%eff_bind_ok. injection Hpre as <- <-.
  do 3 (apply eff_bind_ok in E as (? & ? & _ & E)). destruct (conservativePlan f records).
  - do 3 (apply eff_bind_ok in E as (? & ? & _ & E)). by injection E.
  - do 2 (apply eff_bind_ok in E as (? & ? & _ & E)). by injection E.
Qed.

(** The attempt counts as failed, and its handling moves as its statements do. *)
Lemma possibly_sent_moves (R : EntryWorld -> EntryWorld -> Prop) `{!PreOrder R} :
  moves R (failure_records interfere outage i f) ->
  (forall records, moves R (EntryWorld.db_transaction interfere outage 4021 (persist_failure now interfere i f records))) ->
  (forall c recorded, member c LOCAL_NON_SEND_CLASSIFICATIONS = false ->
    moves R (settle_failure now interfere outage i f (PLAN_OUTCOME c) recorded)) ->
  (forall plan, moves R (unpersisted_event interfere outage i f plan)) ->
  moves R (handle_failure now interfere outage i f).
Proof.
  intros Hrecords Hpersist Hsettle Hevent w. enough (Hw : wp (handle_failure now interfere outage i f) (fun _ => R w) w) by exact Hw.
  apply wp_bind, (wp_moves R); [exact Hrecords|]. intros [records|e] w1 U1; [|done].
  destruct (possibly_sent_plan f records sent) as (_ & _ & c & Hp & Hm%sent_no_local).
  pose proof (Hpersist records w1) as U2.
  pose proof (db_transaction_ok (interfere := interfere) outage 4021 (persist_failure now interfere i f records) w1) as Hok.
  apply wp_bind, wp_try_catch, wp_bind. unfold wp at 1.
  destruct (EntryWorld.db_transaction _ _ _ _ w1) as [[[plan recorded]|e] w2]; cbn [fst snd] in *.
  - destruct (Hok _ _ eq_refl) as (db' & Er). apply persist_plan in Er as ->. rewrite Hp.
    apply wp_bind, (wp_moves R); [by apply Hsettle|]. intros [[]|e] w3 U3; change (R w w3); by do 2 (etransitivity; [done|]).
  - apply wp_bind, (wp_moves R); [apply Hevent|]. intros [[]|e'] w3 U3; change (R w w3); by do 2 (etransitivity; [done|]).
Qed.

Lemma possibly_sent_result w : fst (handle_failure now interfere outage i f w) = Ok false.
Proof.
  destruct (handle_total now interfere outage i f w) as (b & w' & E). rewrite E. cbn [fst]. f_equal.
  unfold handle_failure in E. apply eff_bind_ok in E as (records & w1 & _ & E). apply eff_bind_ok in E as (p & w2 & _ & E).
  destruct p as [[plan recorded]|]; apply eff_bind_ok in E as ([] & w3 & _ & E); injection E as <- _; [|done].
  unfold policyDenied, refusal. by rewrite (proj1 (possibly_sent_plan f None sent)).
Qed.
End PossiblySent.

(** * The statements of the worker *)

Section Statements.
Context `{PrismaLaws} `{EntryBroker} `{EntryServices}.
Variable now : Z.
Variable interfere : nat -> Db -> Db.
Variable outage : nat -> Db -> option js_error.
Variable within : Db -> Db -> Prop.
Context `{!PreOrder within}.
(** Claim events alone count, and other sessions move within the relation. *)
Hypothesis same_within : forall db db', claimEvents db' = claimEvents db -> within db db'.
Hypothesis others_within : forall n db, within db (interfere n db).

Definition wwithin (w w' : EntryWorld) : Prop := within (ew_db w) (ew_db w').
#[local] Instance wwithin_preorder : PreOrder wwithin.
Proof. split; [intros w; unfold wwithin; reflexivity|]. intros a b c. unfold wwithin. apply transitivity. Qed.

Lemma step_within n : moves wwithin (step interfere outage n).
Proof. intros w. unfold step. destruct (outage _ _); apply others_within. Qed.

Lemma run_db_within {A} (m : eff Db A) : moves within m -> moves wwithin (run_db m).
Proof. intros Hm w. unfold run_db, wwithin. specialize (Hm (ew_db w)). by destruct (m (ew_db w)). Qed.

Lemma db_call_within {A} n (m : eff Db A) : moves within m -> moves wwithin (db_call interfere outage n m).
Proof. intros Hm. apply moves_bind; [exact _|apply step_within|]. intros []. by apply run_db_within. Qed.

Lemma db_read_within {A} n (f : Db -> A) : moves wwithin (db_read interfere outage n f).
Proof. apply db_call_within, moves_asks. exact _. Qed.

Lemma transaction_within {A} n (m : eff Db A) : moves within m -> moves wwithin (db_transaction interfere outage n m).
Proof.
  intros Hm. apply moves_bind; [exact _|apply db_call_within, moves_transaction; [exact _|done]|]. intros x.
  apply moves_bind; [exact _|apply step_within|]. intros []. apply moves_ret. exact _.
Qed.

Lemma event_within n t y i a s m p : moves wwithin (best_effort_event interfere outage n t y i a s m p).
Proof.
  apply moves_try_catch; [exact _| |intros; apply moves_ret; exact _].
  apply moves_bind; [exact _|apply step_within|]. intros []. apply moves_modify. intros w. by apply same_within.
Qed.

Lemma or_else_within {A} (m : eff EntryWorld A) d : moves wwithin m -> moves wwithin (or_else m d).
Proof. intros Hm. apply moves_try_catch; [exact _|done|]. intros. apply moves_ret. exact _. Qed.

(** An outcome that is no local refusal releases nothing. *)
Lemma settle_within i f c recorded : member c LOCAL_NON_SEND_CLASSIFICATIONS = false ->
  moves wwithin (settle_failure now interfere outage i f (PLAN_OUTCOME c) recorded).
Proof.
  intros Hl. unfold settle_failure, attemptReleaseAfterRecordedOutcome. rewrite Hl. cbn [negb].
  apply moves_bind; [exact _| |intros []].
  - unfold emitDispatchOutcomeRecorded. pose proof event_within. solve_moves.
  - apply or_else_within. solve_moves.
Qed.

(** The handling of a failure after the adapter was invoked. *)
Lemma handled_within i f : possibly_sent f -> (forall records, moves within (persist_failure now interfere i f records)) ->
  moves wwithin (handle_failure now interfere outage i f).
Proof.
  intros Hf Hp. apply possibly_sent_moves; [done|exact _|..].
  - unfold failure_records. destruct (_ || _); [|apply moves_ret; exact _]. apply or_else_within.
    apply moves_bind; [exact _|apply db_read_within|]. intros r. apply moves_ret. exact _.
  - intros records. apply transaction_within, Hp.
  - intros c recorded. apply settle_within.
  - intros plan. apply event_within.
Qed.
End Statements.

Section Within.
Context `{PrismaLaws} `{EntryBroker} `{EntryServices}.
Variable now : Z.
Variable interfere : nat -> Db -> Db.
Variable k : Z.
Variable allowed : list string.
(** Other sessions record no delivery on the claim. *)
Hypothesis others_record_none : forall n db, records_within k [] db (interfere n db).

#[local] Notation within := (records_within k allowed).

Lemma others_within n db : within db (interfere n db).
Proof. intros e He Hk Hd. left. destruct (others_record_none n db e He Hk Hd) as [Hi|Hi]; [done|discriminate Hi]. Qed.

Lemma same_within db db' : claimEvents db' = claimEvents db -> within db db'.
Proof. intros E e He _ _. left. by rewrite <- E. Qed.

Lemma await_within n : moves within (await interfere n).
Proof. apply moves_modify, others_within. Qed.

Lemma add_within id t ev : recordable allowed t ev -> moves within (add_event now id t ev).
Proof.
  intros Hr. apply moves_modify. intros db e He _ Hd. cbn in He. apply in_app_or in He as [He|[<-|[]]]; [by left|].
  right. by apply Hr.
Qed.

Lemma claims_within w d : moves within (update_claims w d).
Proof.
  intros db. unfold update_claims. destruct (position_taken w d db); [reflexivity|].
  destruct (update_many _ _ _). by apply same_within.
Qed.

Lemma find_within p : moves within (find_claim p).
Proof. apply moves_asks. exact _. Qed.
Lemma last_type_within i t : moves within (last_event_of_type i t).
Proof. apply moves_asks. exact _. Qed.
Lemma last_where_within i t : moves within (last_event_where i t).
Proof. apply moves_asks. exact _. Qed.
#[local] Hint Resolve await_within claims_within find_within last_type_within last_where_within : moves.

Lemma transition_within i s t ev : recordable allowed t ev ->
  moves within (transitionEntryExposureClaim now interfere i s t (Some ev)).
Proof.
  intros Hr. pose proof (fun id => add_within id t ev Hr) as Ha.
  unfold transitionEntryExposureClaim, requireEntryExposureClaim. cbn [default]. solve_moves.
Qed.

Lemma diagnostic_within id t ev : recordable allowed t ev -> moves within (appendEntryExposureClaimDiagnostic now interfere id t ev).
Proof.
  intros Hr. pose proof (fun i => add_within i t ev Hr) as Ha.
  unfold appendEntryExposureClaimDiagnostic, appendClaimDiagnostic. solve_moves.
Qed.

(** The outcome event is classified as the outcome recorded. *)
Lemma outcome_recordable c rest : member c allowed = true ->
  recordable allowed "DISPATCH_OUTCOME_RECORDED" (JObj (("classification", JStr c) :: rest)).
Proof. intros Hc id claimId createdAt e _. exact Hc. Qed.
Lemma unapplied_recordable ev : recordable allowed "DISPATCH_OUTCOME_NOT_APPLIED" ev.
Proof. by intros id claimId createdAt e. Qed.

Lemma outcome_within i c s o st m r : member c allowed = true ->
  moves within (recordEntryDispatchOutcome now interfere i c s o st m r).
Proof.
  intros Hc. pose proof (fun i s rest => transition_within i s _ _ (outcome_recordable c rest Hc)) as Ht.
  pose proof (fun id ev => diagnostic_within id _ ev (unapplied_recordable ev)) as Hd.
  unfold recordEntryDispatchOutcome. cbn [app]. solve_moves.
Qed.

(** ** Statements *)

Lemma intents_within w s b : moves within (update_order_intents now w s b).
Proof. intros db. unfold update_order_intents. destruct (update_many _ _ _). by apply same_within. Qed.
Lemma acceptance_within r u j : moves within (fail_acceptance_run now r u j).
Proof. apply moves_modify. intros db. by apply same_within. Qed.
#[local] Hint Resolve intents_within acceptance_within : moves.

Lemma bind_ret_within {A B} (x : A) (f : A -> eff Db B) : moves within (f x) -> moves within (mret x ≫= f).
Proof. done. Qed.

(** A failure whose plan is an outcome records only that outcome. *)
Lemma persist_within i f records c : preDispatchCandidate f = false -> conservativePlan f records = PLAN_OUTCOME c ->
  member c allowed = true -> moves within (persist_failure now interfere i f records).
Proof.
  intros Hc Hp Ha. unfold persist_failure, update_order_intent. rewrite Hc, Hp. apply bind_ret_within. cbv beta iota zeta.
  pose proof (fun i s o st m r => outcome_within i c s o st m r Ha) as Ho. solve_moves.
Qed.
End Within.

(** Every delivery record that the handling adds is one of a delivery that may
    have been sent. *)
Lemma outcomes_within `{PrismaLaws} `{EntryBroker} `{EntryServices} now interfere outage k :
  (forall n db, records_within k [] db (interfere n db)) ->
  forall i f, possibly_sent f -> forall w,
  records_within k SENT_OUTCOMES (ew_db w) (ew_db (snd (handle_failure now interfere outage i f w))).
Proof.
  intros Ho i f Hf w. pose proof (others_within interfere k SENT_OUTCOMES Ho) as Hother.
  apply (handled_within now interfere outage (records_within k SENT_OUTCOMES)); [apply same_within|exact Hother|done|].
  intros records. destruct (possibly_sent_plan f records Hf) as (_ & Hc & c & Hp & Hm).
  by apply (persist_within now interfere k SENT_OUTCOMES Ho i f records c).
Qed.

(** * Undisturbed *)

(** The claim has the outcome recorded as a delivery record of its own. *)
Definition outcome_on (claimId : Z) (classification : string) (db : Db) : Prop :=
  exists e, In e (claimEvents db) /\ ce_claimId e = claimId /\ ce_eventType e = "DISPATCH_OUTCOME_RECORDED" /\
    recorded_classification e = classification.

(** No claim event is written. *)
Definition same_events (db db' : Db) : Prop := claimEvents db' = claimEvents db.
#[export] Instance same_events_preorder : PreOrder same_events.
Proof. unfold same_events. split; [by intros db|]. intros a b c. congruence. Qed.

Section Calm.
Context `{PrismaLaws} `{EntryBroker} `{EntryServices}.
Variable now : Z.
Variable interfere : nat -> Db -> Db.
Variable outage : nat -> Db -> option js_error.
Hypothesis alone : forall n db, interfere n db = db.
Hypothesis in_service : forall n db, outage n db = None.

#[local] Ltac run_alone := run_eff; rewrite ?alone.

Lemma alone_transition i c t ev db :
  find_first (by_intent i) (claims db) = Some c -> cl_releasedAt c = None -> cl_status c = "ENTRY_SUBMITTING" ->
  NoDup (map cl_id (claims db)) ->
  exists x db', transitionEntryExposureClaim now interfere i "UNRESOLVED" t (Some ev) db = (Ok x, db') /\
    claimEvents db' = create_event now (cl_id c) t ev (claimEvents db).
Proof.
  intros Hf Hr Hs Hn. pose proof (find_first_some _ _ _ _ Hf) as [Hin _].
  unfold transitionEntryExposureClaim, requireEntryExposureClaim. run_alone. rewrite Hf, Hr, Hs. cbn beta iota.
  change (String.eqb "ENTRY_SUBMITTING" "UNRESOLVED") with false. cbn [andb]. cbn beta iota zeta. rewrite Hs.
  change (isEntryExposureClaimStatus "UNRESOLVED") with true.
  change (canTransitionEntryExposureClaim "ENTRY_SUBMITTING" "UNRESOLVED") with true.
  change (String.eqb "ENTRY_SUBMITTING" "UNRESOLVED") with false. cbn [negb]. cbn beta iota. rewrite ?alone.
  rewrite (update_still db c) by done. cbn beta iota. change (1 =? 1) with true. cbn [negb].
  unfold add_event. run_alone. by do 2 eexists.
Qed.

Lemma alone_outcome i c k s o st m r db :
  find_first (by_intent i) (claims db) = Some c -> cl_releasedAt c = None -> cl_status c = "ENTRY_SUBMITTING" ->
  NoDup (map cl_id (claims db)) ->
  exists x db', recordEntryDispatchOutcome now interfere i k s o st m r db = (Ok x, db') /\ outcome_on (cl_id c) k db'.
Proof.
  intros Hf Hr Hs Hn. unfold recordEntryDispatchOutcome. run_alone. rewrite Hf, Hr. cbn [is_some]. run_alone. rewrite Hs.
  change (member "ENTRY_SUBMITTING" RECOVERABLE_CLAIM_STATUSES) with true. cbn [negb]. cbn beta iota. rewrite alone.
  match goal with |- context [transitionEntryExposureClaim _ _ _ _ ?t (Some ?ev) _] =>
    destruct (alone_transition i c t ev db Hf Hr Hs Hn) as (x & db' & -> & E) end.
  do 2 eexists. split; [reflexivity|]. unfold outcome_on. rewrite E. eexists. split; [apply in_or_app; right; by left|].
  done.
Qed.

Lemma alone_step n w : step interfere outage n w = (Ok tt, w).
Proof. unfold step. rewrite in_service. destruct w. unfold set_ew_db. cbn. by rewrite alone. Qed.

Lemma updated_intent id s b db : In id (map oi_id (orderIntents db)) ->
  exists db', update_order_intent now id s b db = (Ok tt, db') /\ claims db' = claims db.
Proof.
  intros (x & Hx & Hin)%in_map_iff. unfold update_order_intent, update_order_intents. run_eff. rewrite update_many_eq.
  assert (Hf : In x (filterb (fun i => oi_id i =? id) (orderIntents db))) by (apply filterb_In; split; [done|lia]).
  destruct (filterb _ _); [done|]. cbn [length]. rewrite (proj2 (Z.eqb_neq _ 0)) by lia. by eexists.
Qed.

Lemma alone_persist i f records c db : possibly_sent f ->
  find_first (by_intent (oi_id i)) (claims db) = Some c -> cl_releasedAt c = None -> cl_status c = "ENTRY_SUBMITTING" ->
  NoDup (map cl_id (claims db)) -> In (oi_id i) (map oi_id (orderIntents db)) ->
  exists k x db', persist_failure now interfere i f records db = (Ok (PLAN_OUTCOME k, Some x), db') /\
    member k SENT_OUTCOMES = true /\ outcome_on (cl_id c) k db'.
Proof.
  intros Hf Hc Hr Hs Hn Hi. destruct (possibly_sent_plan f records Hf) as (_ & Hpre & k & Hp & Hm).
  unfold persist_failure. rewrite Hpre, Hp. run_alone.
  match goal with |- context [update_order_intent now (oi_id i) ?s ?b db] =>
    destruct (updated_intent (oi_id i) s b db Hi) as (db1 & -> & E1) end.
  rewrite <- E1 in Hc, Hn. destruct (oi_liveEntryAcceptanceRunId i); [unfold fail_acceptance_run|];
    run_alone;
    match goal with |- context [recordEntryDispatchOutcome now interfere (oi_id i) k ?s ?o ?st ?m ?r ?db2] =>
    destruct (alone_outcome (oi_id i) c k s o st m r db2 Hc Hr Hs Hn) as (x & db' & -> & E) end;
    by exists k, x, db'.
Qed.

(** The handling of the failure leaves the outcome on the claim. *)
Lemma alone_handled i f c w : possibly_sent f ->
  find_first (by_intent (oi_id i)) (claims (ew_db w)) = Some c -> cl_releasedAt c = None -> cl_status c = "ENTRY_SUBMITTING" ->
  NoDup (map cl_id (claims (ew_db w))) -> In (oi_id i) (map oi_id (orderIntents (ew_db w))) ->
  exists k, member k SENT_OUTCOMES = true /\ outcome_on (cl_id c) k (ew_db (snd (handle_failure now interfere outage i f w))).
Proof.
  intros Hf Hc Hr Hs Hn Hi. unfold handle_failure. fold (failure_records interfere outage i f).
  assert (Hread : exists records, failure_records interfere outage i f w = (Ok records, w)).
  { unfold failure_records. destruct (_ || _); [|by eexists]. exists (Some (loadEntryDispatchRecords (oi_id i) (ew_db w))).
    unfold or_else, try_catch, db_read, db_call. unfold mbind, eff_bind. rewrite alone_step. unfold run_db. run_eff.
    by destruct w. }
  destruct Hread as [records Hread]. unfold mbind at 1, eff_bind at 1. rewrite Hread.
  destruct (alone_persist i f records c (ew_db w) Hf Hc Hr Hs Hn Hi) as (k & x & db' & Ep & Hm & Ho).
  exists k. split; [done|].
  assert (Et : db_transaction interfere outage 4021 (persist_failure now interfere i f records) w =
    (Ok (PLAN_OUTCOME k, Some x), set_ew_db (fun _ => db') w)).
  { unfold db_transaction, db_call. unfold mbind, eff_bind. rewrite alone_step. unfold run_db, transaction.
    rewrite Ep. by rewrite alone_step. }
  unfold mbind at 1, eff_bind at 1, try_catch. unfold mbind at 1, eff_bind at 1. rewrite Et. cbn beta iota zeta. run_eff.
  pose proof (settle_within now interfere outage same_events (fun db db' E => E)
    (fun n db => eq_trans (f_equal claimEvents (alone n db)) eq_refl) i f k (Some x) (sent_no_local k Hm) (set_ew_db (fun _ => db') w)) as Hq.
  destruct (settle_failure _ _ _ _ _ _ _ _) as [r s']. unfold wwithin, same_events in Hq. cbn [snd ew_db set_ew_db] in Hq.
  destruct Ho as (e & He & Hrest). destruct r; (exists e; split; [cbn; by rewrite Hq|done]).
Qed.
End Calm.
