(* ===== verification/SyncMoves.v ===== *)
(** What the synchronization of submitted orders does to the database and to the
    adapter, for any relation its elementary statements respect. *)

From Stdlib Require Import ZArith Lia.
From Stdlib Require Import Strings.String.
From stdpp Require Import base list strings.
From S2P Require Import Prelude JsNumber JsValue JsDate MarketSession AdaptivePolling Prisma OrderStatus DeliveryEvidence.
From S2P Require Import Schema BrokerAccount ExposureClaim ExitWorld ExitState EntryWorld DispatchEvidence DispatchRecovery.
From S2P Require Import EntryMoves OrderWorker StaleRecovery SubmittedSync.

Open Scope string_scope.
Open Scope Z_scope.

(** The database moves along [R], and nothing is handed to the adapter. *)
Definition sync_moved (R : Db -> Db -> Prop) (s s' : SyncState) : Prop := unposted R (sy_entry s) (sy_entry s').

#[export] Instance sync_moved_preorder R `{!PreOrder R} : PreOrder (sync_moved R).
Proof.
  split; [intros s; unfold sync_moved; reflexivity|].
  intros a b c K1 K2. unfold sync_moved in *. by transitivity (sy_entry b).
Qed.

Lemma in_sync_R {A} R (m : eff EntryWorld A) : moves (unposted R) m -> moves (sync_moved R) (in_sync m).
Proof. intros Hm s. unfold sync_moved, in_sync. specialize (Hm (sy_entry s)). by destruct (m (sy_entry s)). Qed.

Section Untouched.
Context (R : Db -> Db -> Prop) `{!PreOrder R}.

Lemma exit_states_R {A} (m : eff ExitWorld A) : moves (sync_moved R) (in_exit_states m).
Proof. intros s. unfold sync_moved, in_exit_states. destruct (m _). cbn. reflexivity. Qed.
Lemma in_polling_R {A} (f : AdaptivePollingCoordinator -> A * AdaptivePollingCoordinator) :
  moves (sync_moved R) (in_polling f).
Proof. intros s. unfold sync_moved, in_polling. destruct (f _). cbn. reflexivity. Qed.
Lemma polling_do_R f : moves (sync_moved R) (polling_do f).
Proof. apply in_polling_R. Qed.
Lemma count_R : moves (sync_moved R) count_synced.
Proof. intros s. unfold sync_moved. cbn. reflexivity. Qed.
Lemma add_failure_R f : moves (sync_moved R) (add_sync_failure f).
Proof. intros s. unfold sync_moved. cbn. reflexivity. Qed.
End Untouched.

(** A program whose first part answers [x] only when [P x]. *)
Lemma moves_bind_of {S A B} (R : S -> S -> Prop) `{!PreOrder R} (P : A -> Prop) (m : eff S A) (f : A -> eff S B) :
  moves R m -> (forall s x s', m s = (Ok x, s') -> P x) -> (forall x, P x -> moves R (f x)) -> moves R (m ≫= f).
Proof.
  intros Hm HP Hf s. unfold mbind, eff_bind. specialize (Hm s). specialize (HP s).
  destruct (m s) as [[x|e] s'] eqn:E; cbn in *; [|done]. transitivity s'; [done|]. by apply Hf, (HP x s').
Qed.

Section SyncMoves.
Context `{PrismaLaws} `{B : EntryBroker} `{W : OrderWorkerServices}.
Context {R : Db -> Db -> Prop} {now : Z} {interfere : nat -> Db -> Db}.
Context `{!RespectsClaims R now interfere} `{!RespectsReleases R now}.
Variable outage : nat -> Db -> option js_error.
(** The statuses the broker reports. *)
Variable reported : string -> Prop.
Hypothesis lookup_reported : forall a id w o, entry_order_by_id 40 a id w = Ok (Some o) -> reported (rawo_status o).

Lemma terminal_R i s : moves (unposted R) (release_terminal now interfere outage i s).
Proof.
  unfold release_terminal. apply moves_bind; [typeclasses eauto|apply (step_R (now := now))|intros []].
  apply moves_bind; [typeclasses eauto|intros w; reflexivity|intros w].
  apply moves_bind; [typeclasses eauto| |intros r; apply ew_ret_R].
  apply run_db_R, release_terminal_R.
Qed.
#[local] Hint Resolve terminal_R : entry_moves.

Lemma judge_again_R b s : moves (unposted R) (judge_again now interfere outage b s).
Proof. unfold judge_again. solve_entry. Qed.

(** A broker order of the batch: its statements respect [R]. *)
Definition order_respects (b : BrokerOrder) : Prop := forall o, reported (so_status o) ->
  moves R (mirror_order b o) /\ moves R (update_order_intent now (bo_orderIntentId b) (Some (so_status o)) None).

Lemma mirror_status_R b o : order_respects b -> reported (so_status o) ->
  moves (unposted R) (mirror_status now interfere outage b o).
Proof. intros Hb Ho. destruct (Hb o Ho) as [H1 H2]. unfold mirror_status. solve_entry. Qed.

Lemma sync_order_R a b o : order_respects b -> reported (so_status o) ->
  moves (sync_moved R) (sync_observed now interfere outage a b o).
Proof.
  intros Hb Ho. unfold sync_observed. cbv zeta.
  apply moves_bind; [typeclasses eauto|apply in_sync_R, (step_R (now := now))|intros []].
  apply moves_bind; [typeclasses eauto|by apply exit_states_R; typeclasses eauto|intros n].
  destruct (negb _); [|by apply in_sync_R, judge_again_R].
  apply moves_bind; [typeclasses eauto|by apply in_sync_R, mirror_status_R|intros []];
    [apply count_R|apply moves_ret]; typeclasses eauto.
Qed.

Lemma observed_reported a orders b : Forall (fun o => reported (ob_status o)) orders ->
  forall w x w', observe_order a orders b w = (Ok x, w') ->
    w' = w /\ match x with Some o => reported (so_status o) | None => True end.
Proof.
  intros Ho w x w'. unfold observe_order, open_order.
  destruct (List.find _ (rev orders)) as [o|] eqn:E; cbn [option_map].
  - intros [= <- <-]. split; [done|]. cbn [so_status]. apply find_some in E as [Hin _]. apply in_rev in Hin.
    rewrite Forall_forall in Ho. apply Ho. by apply list_elem_of_In.
  - unfold mbind, eff_bind, lift. destruct (entry_order_by_id 40 a (bo_brokerOrderId b) w) as [[o|]|e] eqn:El; [..|done];
      intros [= <- <-]; (split; [done|]); [|done]. cbn [so_status]. by apply (lookup_reported a (bo_brokerOrderId b) w).
Qed.

Lemma observe_order_R a orders b : moves (unposted R) (observe_order a orders b).
Proof. unfold observe_order. solve_entry. Qed.

(** One item of the batch, its statements respecting [R]. *)
Record item_respects (x : SubmittedIntent) : Prop := {
  ir_stamp : moves R (stamp_synced now (oi_id (sm_intent x)));
  ir_order : forall b, sm_brokerOrder x = Some b -> order_respects b
}.

Lemma sync_evidence_R a orders x : Forall (fun o => reported (ob_status o)) orders -> item_respects x ->
  moves (sync_moved R) (sync_evidence now interfere outage a orders x).
Proof.
  intros Ho [_ Hb]. unfold sync_evidence. cbv zeta.
  destruct (sm_brokerOrder x) as [b|]; [|apply in_sync_R; unfold recordMissingLocalBrokerOrderDiagnostic; solve_entry].
  apply (moves_bind_of (sync_moved R) (fun x => match x with Some o => reported (so_status o) | None => True end)).
  - apply in_sync_R, observe_order_R.
  - intros s x0 s'. unfold in_sync. destruct (observe_order a orders b (sy_entry s)) as [r w] eqn:E. intros [= -> _].
    by apply (observed_reported a orders b Ho _ _ _ E).
  - intros [o|] Hr; [by apply sync_order_R; [apply Hb|]|apply moves_ret; typeclasses eauto].
Qed.

Lemma sync_item_R a orders x : Forall (fun o => reported (ob_status o)) orders -> item_respects x ->
  moves (sync_moved R) (sync_intent now interfere outage a orders x).
Proof.
  intros Ho Hx. pose proof (ir_stamp x Hx). apply moves_bind; [typeclasses eauto|apply in_sync_R; solve_entry|].
  intros []. by apply sync_evidence_R.
Qed.

Lemma sync_isolated_R a orders x : Forall (fun o => reported (ob_status o)) orders -> item_respects x ->
  moves (sync_moved R) (sync_isolated now interfere outage a orders x).
Proof.
  intros Ho Hx. apply moves_try_catch; [typeclasses eauto|by apply sync_item_R|].
  intros e. apply add_failure_R. typeclasses eauto.
Qed.
End SyncMoves.

(** * The whole synchronization *)

Section SyncRun.
Context `{PrismaLaws} `{B : EntryBroker} `{W : OrderWorkerServices} `{K : SyncBroker}.
Context {R : Db -> Db -> Prop} {now : Z} `{!PreOrder R} `{!RespectsReleases R now}.
Variable around : SyncSurroundings.
Variable reported : string -> Prop.
Hypothesis lookup_reported : forall a id w o, entry_order_by_id 40 a id w = Ok (Some o) -> reported (rawo_status o).
Hypothesis working_R : forall i, RespectsClaims R now (ss_interfere (sx_working around i)).

Lemma sync_items_R a orders l : Forall (fun o => reported (ob_status o)) orders ->
  Forall (item_respects (R := R) (now := now) reported) l -> moves (sync_moved R) (sync_items now around a orders l).
Proof.
  intros Ho. induction 1 as [|x l Hx _ IH]; cbn [sync_items]; [apply moves_ret; typeclasses eauto|].
  apply moves_bind; [typeclasses eauto|by apply (sync_isolated_R (R := R) _ reported lookup_reported)|done].
Qed.

Lemma fetch_failed_R a n d e : moves (sync_moved R) (fetch_failed now a n d e).
Proof.
  unfold fetch_failed. destruct (String.eqb _ _);
    (apply moves_bind; [typeclasses eauto|apply polling_do_R; typeclasses eauto|intros []]);
    [apply moves_ret|apply moves_throw]; typeclasses eauto.
Qed.

Lemma sync_polled_R a d l orders : Forall (fun o => reported (ob_status o)) orders ->
  Forall (item_respects (R := R) (now := now) reported) l -> moves (sync_moved R) (sync_polled now around a d l orders).
Proof.
  intros Ho Hl. unfold sync_polled.
  apply moves_bind; [typeclasses eauto|by apply sync_items_R|intros []].
  apply moves_bind; [typeclasses eauto|apply polling_do_R; typeclasses eauto|intros []].
  apply moves_bind; [typeclasses eauto|intros s; unfold sync_moved; cbn; reflexivity|intros s].
  apply moves_bind; [typeclasses eauto|apply polling_do_R; typeclasses eauto|intros []].
  apply moves_ret. typeclasses eauto.
Qed.

Hypothesis reading_R : RespectsClaims R now (ss_interfere (sx_reading around)).
Hypothesis open_reported : forall a w l o, open_orders a w = Ok l -> In o l -> reported (rawo_status o).

Lemma sync_submitted_R a : (forall db, Forall (item_respects (R := R) (now := now) reported) (submitted_batch a db)) ->
  moves (sync_moved R) (sync_submitted now around a).
Proof.
  intros Hitems. unfold sync_submitted.
  apply (moves_bind_of (sync_moved R) (Forall (item_respects (R := R) (now := now) reported)));
    [apply in_sync_R, (db_read_R (now := now))| |].
  - intros s l s'. unfold in_sync, EntryWorld.db_read, EntryWorld.db_call, mbind, eff_bind.
    destruct (step _ _ _ _) as [[[]|e] w1]; [|done]. unfold run_db, asks. intros [= <- _]. apply Hitems.
  - intros [|x l] Hl; [apply moves_ret; typeclasses eauto|].
    apply moves_bind; [typeclasses eauto|apply in_polling_R; typeclasses eauto|intros d].
    destruct (negb (dn_due d)); [apply moves_ret; typeclasses eauto|].
    apply moves_bind; [typeclasses eauto|apply polling_do_R; typeclasses eauto|intros []].
    apply (moves_bind_of (sync_moved R) (fun r => match r with
        Ok orders => Forall (fun o => reported (ob_status o)) orders | Throw _ => True end)).
    + intros s. unfold sync_moved. cbn. reflexivity.
    + intros s r s'. unfold fetch_open_orders, getNormalizedOpenOrders. intros [= <- _].
      destruct (open_orders a (sy_entry s)) as [orders|e] eqn:E; [|done]. apply Forall_map, Forall_forall.
      intros o Ho%list_elem_of_In. by apply (open_reported a (sy_entry s) orders).
    + intros [orders|e] Ho; [by apply sync_polled_R|apply fetch_failed_R].
Qed.
End SyncRun.
