(* ===== verification/SyncOutcomes.v ===== *)
(** What one item of a synchronization of submitted orders comes to: whether its
    status was mirrored, whether it failed, and what of it the run counts. *)

From Stdlib Require Import ZArith Lia.
From Stdlib Require Import Strings.String.
From stdpp Require Import base list strings.
From S2P Require Import Prelude JsNumber JsValue JsDate MarketSession AdaptivePolling Prisma OrderStatus DeliveryEvidence.
From S2P Require Import Schema BrokerAccount ExposureClaim ExitWorld ExitState EntryWorld DispatchEvidence DispatchRecovery.
From S2P Require Import EntryMoves OrderWorker StaleRecovery SubmittedSync SyncMoves.

Open Scope string_scope.
Open Scope Z_scope.

(** * What the run counts *)

(** What the loop reads of the state besides the world. *)
Definition same_tally (s s' : SyncState) : Prop :=
  sy_synced s' = sy_synced s /\ sy_failures s' = sy_failures s /\ sy_polling s' = sy_polling s.

#[export] Instance same_tally_preorder : PreOrder same_tally.
Proof. unfold same_tally. split; [by intros s|]. intros a b c (?&?&?) (?&?&?). repeat split; congruence. Qed.

Lemma in_sync_tally {A} (m : eff EntryWorld A) : moves same_tally (in_sync m).
Proof. intros s. unfold in_sync. by destruct (m (sy_entry s)). Qed.
Lemma in_exit_tally {A} (m : eff ExitWorld A) : moves same_tally (in_exit_states m).
Proof. intros s. unfold in_exit_states. by destruct (m _). Qed.

(** An answer of a program lifted to the run. *)
Lemma in_sync_ok {A} (m : eff EntryWorld A) s x s' : in_sync m s = (Ok x, s') ->
  m (sy_entry s) = (Ok x, sy_entry s') /\ same_tally s s'.
Proof. unfold in_sync. destruct (m (sy_entry s)) as [r w]. by intros [= -> <-]. Qed.
Lemma in_exit_ok {A} (m : eff ExitWorld A) s x s' : in_exit_states m s = (Ok x, s') ->
  sy_entry s' = sy_entry s /\ same_tally s s'.
Proof. unfold in_exit_states. destruct (m _) as [r w]. by intros [= _ <-]. Qed.

(** * Events *)

(** No event is published. *)
Definition unpublished (w w' : EntryWorld) : Prop := ew_events w' = ew_events w.
#[export] Instance unpublished_preorder : PreOrder unpublished.
Proof. unfold unpublished. split; [by intros w|]. intros a b c. congruence. Qed.

Section Unpublished.
Variable interfere : nat -> Db -> Db.
Variable outage : nat -> Db -> option js_error.

Lemma step_unpublished n : moves unpublished (step interfere outage n).
Proof. intros w. unfold step. by destruct (outage _ _). Qed.
Lemma run_db_unpublished {A} (m : eff Db A) : moves unpublished (run_db m).
Proof. intros w. unfold run_db. by destruct (m _). Qed.
Lemma db_call_unpublished {A} n (m : eff Db A) : moves unpublished (EntryWorld.db_call interfere outage n m).
Proof. apply moves_bind; [exact _|apply step_unpublished|]. intros []. apply run_db_unpublished. Qed.
Lemma or_else_unpublished {A} (m : eff EntryWorld A) d : moves unpublished m -> moves unpublished (or_else m d).
Proof. intros Hm. apply moves_try_catch; [exact _|done|]. intros. apply moves_ret. exact _. Qed.
Lemma get_unpublished : moves unpublished get.
Proof. by intros w. Qed.
End Unpublished.
#[export] Hint Resolve step_unpublished run_db_unpublished db_call_unpublished or_else_unpublished get_unpublished : moves.

(** A statement that answered ran on the database other sessions had left. *)
Lemma step_ok interfere outage n w x w' : step interfere outage n w = (Ok x, w') -> w' = set_ew_db (interfere n) w.
Proof. unfold step. destruct (outage _ _); [done|]. by intros [= _ <-]. Qed.
Lemma db_call_ok {A} interfere outage n (m : eff Db A) w x w' :
  EntryWorld.db_call interfere outage n m w = (Ok x, w') ->
  fst (m (interfere n (ew_db w))) = Ok x /\ w' = set_ew_db (fun _ => snd (m (interfere n (ew_db w)))) w.
Proof.
  intros ([] & w1 & ->%step_ok & E)%eff_bind_ok. unfold run_db in E. cbn [ew_db set_ew_db] in E.
  destruct (m _) as [r db]. injection E as -> <-. done.
Qed.

(** * One item *)

(** The answer of a compare-and-set that took. *)
Definition one_row (r : res Z) : bool := match r with Ok n => n =? 1 | Throw _ => false end.

Section Item.
Context `{PrismaLaws} `{B : EntryBroker} `{W : OrderWorkerServices}.
Variable now : Z.
Variable interfere : nat -> Db -> Db.
Variable outage : nat -> Db -> option js_error.
Variable account : Z.
Variable orders : list BrokerOpenOrder.

(** The world after the progress stamp. *)
Definition stamped_world (x : SubmittedIntent) (w : EntryWorld) : EntryWorld :=
  set_ew_db (fun db => snd (stamp_synced now (oi_id (sm_intent x)) (interfere 2200%nat db))) w.

(** The broker order and the order observed for it, if its status is another
    and the compare-and-set on the stored one takes. *)
Definition mirrors (x : SubmittedIntent) (w : EntryWorld) : option (BrokerOrder * ObservedOrder) :=
  let w1 := stamped_world x w in
  match sm_brokerOrder x with
  | None => None
  | Some b =>
      match fst (observe_order account orders b w1) with
      | Ok (Some o) =>
          if negb (String.eqb (bo_status b) (so_status o)) &&
             one_row (fst (mirror_order b o (interfere 2204%nat (interfere 2203%nat (ew_db w1)))))
          then Some (b, o) else None
      | _ => None
      end
  end.

(** The event that reports the new status. *)
Definition status_event (b : BrokerOrder) (o : ObservedOrder) (payload : json) : SystemEvent :=
  {| se_type := "order." ++ so_status o; se_entityType := "brokerOrder"; se_entityId := z_str (bo_id b);
     se_tradingAccountId := bo_tradingAccountId b; se_severity := brokerOrderStatusSeverity (so_status o);
     se_message := None; se_payload := payload |}.
Definition published (b : BrokerOrder) (o : ObservedOrder) (w w' : EntryWorld) : Prop :=
  exists payload, ew_events w' = (ew_events w ++ [status_event b o payload])%list.

Lemma terminal_unpublished i s : moves unpublished (release_terminal now interfere outage i s).
Proof. unfold release_terminal. solve_moves. Qed.
#[local] Hint Resolve terminal_unpublished : moves.

Lemma judge_unpublished b s : moves unpublished (judge_again now interfere outage b s).
Proof. unfold judge_again. solve_moves. Qed.

(** The mirroring of a status that answered. *)
Lemma mirror_status_ok b o w changed w' : mirror_status now interfere outage b o w = (Ok changed, w') ->
  changed = one_row (fst (mirror_order b o (interfere 2204%nat (ew_db w)))) /\
  if changed then published b o w w' else unpublished w w'.
Proof.
  unfold mirror_status. cbv zeta. intros (n & w1 & (En & Ew)%db_call_ok & E)%eff_bind_ok. rewrite En. cbn [one_row].
  assert (U1 : unpublished w w1) by by rewrite Ew. destruct (n =? 1); cbn [negb] in E; [|by injection E as <- <-].
  apply eff_bind_ok in E as ([] & w2 & E2 & E).
  pose proof (db_call_unpublished interfere outage 2205 (update_order_intent now (bo_orderIntentId b) (Some (so_status o)) None) w1) as U2.
  rewrite E2 in U2. cbn [snd] in U2. apply eff_bind_ok in E as ([] & w3 & E3 & E).
  assert (U3 : unpublished w2 w3).
  { match type of E3 with ?m _ = _ => assert (Hm : moves unpublished m) by (unfold or_else; solve_moves); specialize (Hm w2) end.
    by rewrite E3 in Hm. }
  apply eff_bind_ok in E as ([] & w4 & E4 & E). injection E as <- <-. split; [done|].
  apply eff_bind_ok in E4 as ([] & w5 & ->%step_ok & E5). injection E5 as <-. eexists. cbn [ew_events set_ew_events set_ew_db].
  unfold unpublished in *. by rewrite U3, U2, U1.
Qed.

(** An item that answers was mirrored and counted, or neither. *)
Definition item_answered (x : SubmittedIntent) (s s' : SyncState) : Prop :=
  sy_failures s' = sy_failures s /\ sy_polling s' = sy_polling s /\
  match mirrors x (sy_entry s) with
  | Some (b, o) => sy_synced s' = sy_synced s + 1 /\ published b o (sy_entry s) (sy_entry s')
  | None => sy_synced s' = sy_synced s /\ unpublished (sy_entry s) (sy_entry s')
  end.

Lemma sync_observed_ok b o s s' : sync_observed now interfere outage account b o s = (Ok tt, s') ->
  sy_failures s' = sy_failures s /\ sy_polling s' = sy_polling s /\
  if negb (String.eqb (bo_status b) (so_status o)) &&
     one_row (fst (mirror_order b o (interfere 2204%nat (interfere 2203%nat (ew_db (sy_entry s))))))
  then sy_synced s' = sy_synced s + 1 /\ published b o (sy_entry s) (sy_entry s')
  else sy_synced s' = sy_synced s /\ unpublished (sy_entry s) (sy_entry s').
Proof.
  intros ([] & s1 & [E1%step_ok T1]%in_sync_ok & E)%eff_bind_ok. apply eff_bind_ok in E as (n & s2 & [E2 T2]%in_exit_ok & E).
  assert (Ew : sy_entry s2 = set_ew_db (interfere 2203%nat) (sy_entry s)) by congruence.
  assert (A : same_tally s s2) by by transitivity s1. clear E1 E2 T1 T2 s1. destruct A as (A1 & A2 & A3).
  destruct (negb _); cbn [andb].
  - apply eff_bind_ok in E as (changed & s3 & [E3 (B1 & B2 & B3)]%in_sync_ok & E). rewrite Ew in E3.
    apply mirror_status_ok in E3 as [Ec Hp]. cbn [ew_db set_ew_db] in Ec. rewrite <- Ec. destruct changed; injection E as <-;
      cbn [sy_synced sy_failures sy_polling sy_entry]; (split; [congruence|]; split; [congruence|]; split; [congruence|exact Hp]).
  - apply in_sync_ok in E as [E (B1 & B2 & B3)].
    pose proof (judge_unpublished b (so_status o) (sy_entry s2)) as Hu. rewrite E in Hu. cbn [snd] in Hu.
    split; [congruence|]. split; [congruence|]. split; [congruence|]. rewrite Ew in Hu. exact Hu.
Qed.

Lemma observe_same b w r w' : observe_order account orders b w = (r, w') -> w' = w.
Proof.
  unfold observe_order. destruct (open_order _ _); [by intros [= _ <-]|]. unfold mbind, eff_bind, lift.
  destruct (entry_order_by_id _ _ _ _); by intros [= _ <-].
Qed.

Lemma sync_intent_ok x s s' : sync_intent now interfere outage account orders x s = (Ok tt, s') -> item_answered x s s'.
Proof.
  intros ([] & s1 & [E1 T1]%in_sync_ok & E)%eff_bind_ok. apply db_call_ok in E1 as [_ E1].
  change (sy_entry s1 = stamped_world x (sy_entry s)) in E1. assert (U1 : unpublished (sy_entry s) (sy_entry s1)) by by rewrite E1.
  destruct T1 as (A1 & A2 & A3). unfold item_answered, mirrors, sync_evidence in *. cbv zeta in *. rewrite <- E1.
  destruct (sm_brokerOrder x) as [b|].
  - apply eff_bind_ok in E as (found & s2 & [E2 (B1 & B2 & B3)]%in_sync_ok & E). rewrite E2. cbn [fst].
    apply observe_same in E2. destruct found as [o|].
    + apply sync_observed_ok in E as (C1 & C2 & C3). rewrite E2 in C3. split; [congruence|]. split; [congruence|].
      destruct (_ && _); destruct C3 as [C3 C4]; (split; [congruence|]).
      * destruct C4 as [p C4]. exists p. by rewrite <- U1.
      * by transitivity (sy_entry s1).
    + injection E as <-. split; [congruence|]. split; [congruence|]. split; [congruence|]. by rewrite E2.
  - apply in_sync_ok in E as [E (B1 & B2 & B3)].
    split; [congruence|]. split; [congruence|]. split; [congruence|]. transitivity (sy_entry s1); [done|].
    match type of E with ?m _ = _ => assert (Hm : moves unpublished m) by (unfold or_else; solve_moves); specialize (Hm (sy_entry s1)) end.
    by rewrite E in Hm.
Qed.

(** ** An item that fails *)

(** An item counts once, as its last step, or not at all. *)
Definition counted_once (s : SyncState) (r : res unit) (s' : SyncState) : Prop :=
  same_tally s s' \/ r = Ok tt.

Lemma tally_counted s s1 r s' : same_tally s s1 -> counted_once s1 r s' -> counted_once s r s'.
Proof. intros T [Hc|Hc]; [left; by transitivity s1|by right]. Qed.

Lemma counted_after {A} (m : eff SyncState A) (k : A -> eff SyncState unit) s :
  moves same_tally m -> (forall x s', wp (k x) (counted_once s') s') -> wp (m ≫= k) (counted_once s) s.
Proof.
  intros Hm Hk. apply wp_bind, (wp_moves same_tally); [exact Hm|]. intros [x|e] s' Hs; [|by left].
  eapply wp_mono; [apply Hk|]. intros r s2. by apply tally_counted.
Qed.

Lemma uncounted (m : eff SyncState unit) s : moves same_tally m -> wp m (counted_once s) s.
Proof. intros Hm. apply (wp_moves same_tally); [exact Hm|]. by left. Qed.

Lemma item_counts x s : wp (sync_intent now interfere outage account orders x) (counted_once s) s.
Proof.
  apply counted_after; [apply in_sync_tally|]. intros _ s1. unfold sync_evidence. cbv zeta.
  destruct (sm_brokerOrder x) as [b|]; [|by apply uncounted, in_sync_tally].
  apply counted_after; [apply in_sync_tally|]. intros [o|] s2; [|by left].
  apply counted_after; [apply in_sync_tally|]. intros _ s3.
  apply counted_after; [apply in_exit_tally|]. intros _ s4.
  destruct (negb _); [|by apply uncounted, in_sync_tally].
  apply counted_after; [apply in_sync_tally|]. intros [|] s5; [by right|by left].
Qed.
End Item.

(** * The items of a run *)

(** What an item came to. *)
Inductive SyncOutcome :=
| ITEM_MIRRORED (b : BrokerOrder) (o : ObservedOrder)
| ITEM_UNCHANGED
| ITEM_FAILED (e : js_error).
Definition was_mirrored (o : SyncOutcome) : bool := match o with ITEM_MIRRORED _ _ => true | _ => false end.

(** The failure that a failed item is reported as. *)
Definition item_failure (x : SubmittedIntent) (o : SyncOutcome) : list SyncFailure :=
  match o with
  | ITEM_FAILED e => [{| sf_orderIntentId := oi_id (sm_intent x);
      sf_brokerOrderRecordId := option_map bo_id (sm_brokerOrder x); sf_error := error_message e |}]
  | _ => []
  end.
Fixpoint item_failures (l : list SubmittedIntent) (outcomes : list SyncOutcome) : list SyncFailure :=
  match l, outcomes with
  | x :: l, o :: outcomes => (item_failure x o ++ item_failures l outcomes)%list
  | _, _ => []
  end.

Section Items.
Context `{PrismaLaws} `{B : EntryBroker} `{W : OrderWorkerServices}.
Variable now : Z.
Variable around : SyncSurroundings.
Variable account : Z.
Variable orders : list BrokerOpenOrder.

(** One item of a run, from the world and the exit states the one before left. *)
Record item_run (x : SubmittedIntent) (s : SyncState) (out : SyncOutcome) (s' : SyncState) : Prop := {
  im_ends : let session := sx_working around (oi_id (sm_intent x)) in
    exists r s1, sync_intent now (ss_interfere session) (ss_outage session) account orders x s = (r, s1) /\
      sy_entry s' = sy_entry s1 /\ sy_exitStates s' = sy_exitStates s1 /\
      match out with
      | ITEM_MIRRORED b o => r = Ok tt /\ mirrors now (ss_interfere session) account orders x (sy_entry s) = Some (b, o) /\
          published b o (sy_entry s) (sy_entry s')
      | ITEM_UNCHANGED => r = Ok tt /\ mirrors now (ss_interfere session) account orders x (sy_entry s) = None /\
          unpublished (sy_entry s) (sy_entry s')
      | ITEM_FAILED e => r = Throw e
      end;
  im_counts : sy_synced s' = sy_synced s + (if was_mirrored out then 1 else 0) /\
    sy_failures s' = (sy_failures s ++ item_failure x out)%list /\ sy_polling s' = sy_polling s
}.

Lemma isolated_ok interfere outage x s : fst (sync_isolated now interfere outage account orders x s) = Ok tt.
Proof. unfold sync_isolated, try_catch. by destruct (sync_intent now interfere outage account orders x s) as [[[]|e] s']. Qed.

Lemma isolated_run x s : let session := sx_working around (oi_id (sm_intent x)) in exists out s',
  sync_isolated now (ss_interfere session) (ss_outage session) account orders x s = (Ok tt, s') /\ item_run x s out s'.
Proof.
  intros session. unfold sync_isolated, try_catch.
  pose proof (item_counts now (ss_interfere session) (ss_outage session) account orders x s) as Hc. unfold wp in Hc.
  destruct (sync_intent _ _ _ _ _ x s) as [[[]|e] s1] eqn:E.
  - destruct (sync_intent_ok _ _ _ _ _ _ _ _ E) as (Hf & Hp & Hm).
    destruct (mirrors _ _ _ _ x _) as [[b o]|] eqn:Em; [exists (ITEM_MIRRORED b o), s1|exists ITEM_UNCHANGED, s1];
      (split; [done|]); destruct Hm as [Hs He]; split; cbn [was_mirrored item_failure];
      rewrite ?app_nil_r, ?Z.add_0_r; try done; by exists (Ok tt), s1.
  - destruct Hc as [(T1 & T2 & T3)|[=]]. cbn [fst snd] in *. eexists (ITEM_FAILED e), _. split; [reflexivity|]. split.
    + by exists (Throw e), s1.
    + cbn. by rewrite T1, T2, Z.add_0_r.
Qed.

Lemma sync_items_run l s : exists outcomes s', sync_items now around account orders l s = (Ok tt, s') /\
  run_over item_run l s outcomes s' /\ sy_synced s' = sy_synced s + how_many was_mirrored outcomes /\
  sy_failures s' = (sy_failures s ++ item_failures l outcomes)%list /\ sy_polling s' = sy_polling s.
Proof.
  revert s. induction l as [|x l IH]; intros s.
  - exists [], s. rewrite app_nil_r. split; [done|]. split; [constructor|]. split; [unfold how_many; cbn; lia|done].
  - destruct (isolated_run x s) as (o & s1 & E1 & R1). destruct (IH s1) as (os & s2 & E2 & R2 & C2 & F2 & P2).
    exists (o :: os), s2. destruct (im_counts _ _ _ _ R1) as (C1 & F1 & P1). split; [|split; [|split; [|split]]].
    + cbn [sync_items]. unfold mbind, eff_bind. cbv zeta. by rewrite E1.
    + by econstructor.
    + rewrite how_many_cons. lia.
    + cbn [item_failures]. by rewrite F2, F1, app_assoc.
    + congruence.
Qed.
End Items.
