(* ===== verification/WorkerSafety.v ===== *)
(** The worker's promises: an entry intent is handed to the broker adapter at
    most once, a delivery that may have reached the broker keeps its claim, and
    a batch accounts for every intent it found. *)

From Stdlib Require Import ZArith Lia.
From Stdlib Require Import Strings.String.
From Stdlib Require Import Floats.SpecFloat.
From stdpp Require Import base gmap list strings relations.
From S2P Require Import Prelude JsNumber JsValue JsDate MarketSession Prisma OrderStatus DeliveryEvidence Schema.
From S2P Require Import RuntimeConfig SessionGuard EntryLimits BrokerAccount RiskGate.
From S2P Require Import ExposureClaim ExposureSafety ExitWorld EntryWorld DispatchEvidence DispatchRecovery EntrySubmission.
From S2P Require Import EntryMoves SubmissionSafety OrderWorker StaleRecovery SubmittedSync WorkerMoves OutcomeMoves SyncMoves.

Open Scope string_scope.
Open Scope Z_scope.

(** * Executable intents *)

Definition ids (db : Db) : list Z := map oi_id (orderIntents db).

(** Intents stay, and an executable one was executable before, or is new. *)
Definition forward (db db' : Db) : Prop :=
  NoDup (ids db) -> NoDup (ids db') /\ incl (ids db) (ids db') /\
  forall i', In i' (orderIntents db') -> executable i' = true ->
    (exists i, In i (orderIntents db) /\ oi_id i = oi_id i' /\ executable i = true) \/ ~ In (oi_id i') (ids db).

#[export] Instance forward_preorder : PreOrder forward.
Proof.
  split.
  - intros db Hnd. split; [done|]. split; [by intros x|]. intros i Hi He. left. by exists i.
  - intros a b c H1 H2 Ha. destruct (H1 Ha) as (Hb & I1 & E1). destruct (H2 Hb) as (Hc & I2 & E2).
    split; [done|]. split; [by intros x Hx; apply I2, I1|]. intros i Hi He.
    destruct (E2 i Hi He) as [(j & Hj & Eid & Ej)|Hn].
    + rewrite <- Eid. by apply E1.
    + right. intros Hx. by apply Hn, I1.
Qed.

Lemma same_forward db db' : orderIntents db' = orderIntents db -> forward db db'.
Proof.
  intros E Hnd. unfold ids. rewrite E. split; [done|]. split; [by intros x|]. intros i Hi He. left. by exists i.
Qed.

Lemma update_ids `{PrismaLaws} w f (l : list OrderIntent) :
  (forall i, oi_id (f i) = oi_id i) -> map oi_id (fst (update_many w f l)) = map oi_id l.
Proof.
  intros Hf. rewrite update_many_eq. cbn. rewrite map_map. apply map_ext. intros i. by destruct (w i).
Qed.

Lemma update_forward `{PrismaLaws} w f db : keeps_executable f ->
  forward db (set_orderIntents (fun l => fst (update_many w f l)) db).
Proof.
  intros Hf Hnd. unfold ids. cbn [orderIntents set_orderIntents].
  rewrite update_ids by apply Hf. split; [done|]. split; [by intros x|].
  intros i' (i & Hi & ->)%update_many_In He. left. exists i. split; [done|].
  destruct (w i); [|done]. split; [symmetry; apply Hf|by apply Hf].
Qed.

(** The intent exists and will never be executable again. *)
Definition closed (i : Z) (db : Db) : Prop :=
  In i (ids db) /\ forall x, In x (orderIntents db) -> oi_id x = i -> executable x = false.

Lemma forward_closed i db db' : NoDup (ids db) -> forward db db' -> closed i db -> closed i db'.
Proof.
  intros Hnd Hf [Hi Hc]. destruct (Hf Hnd) as (_ & I & E). split; [by apply I|].
  intros x Hx <-. destruct (executable x) eqn:Ex; [|done].
  destruct (E x Hx Ex) as [(j & Hj & Eid & Ej)|Hn]; [|done]. by rewrite (Hc j Hj Eid) in Ej.
Qed.

Lemma update_claims_intents `{Prisma} w d db : orderIntents (snd (update_claims w d db)) = orderIntents db.
Proof.
  unfold update_claims. destruct (position_taken w d db); [done|]. by destruct (update_many w (apply_data d) (claims db)).
Qed.

Lemma forward_respects `{PrismaLaws} now interfere :
  (forall n db, forward db (interfere n db)) -> Respects forward now interfere.
Proof.
  intros Ho. apply respects_intro; [typeclasses eauto| |exact Ho|].
  - intros db db' E _. by apply same_forward.
  - intros w d _ db. by apply same_forward, update_claims_intents.
Qed.

#[export] Instance forward_releases `{PrismaLaws} now : RespectsReleases forward now.
Proof. split. intros w r db. by apply same_forward, update_claims_intents. Qed.

#[export] Instance forward_intents `{PrismaLaws} : RespectsIntents forward.
Proof. split. intros w f db. by apply update_forward. Qed.

(** * Posts of one attempt *)

(** The adapter was handed at most one request more, and the intent of a
    request was claimed: pending when this session closed it. *)
Definition may_post (i : Z) (w w' : EntryWorld) : Prop :=
  unposted forward w w' \/
  exists p db1 db2 x,
    ew_posts w' = (ew_posts w ++ [p])%list /\ ep_orderIntentId p = i /\
    forward (ew_db w) db1 /\ In x (orderIntents db1) /\ oi_id x = i /\ oi_status x = "pending" /\
    (NoDup (ids db1) -> closed i db2) /\ forward db1 db2 /\ forward db2 (ew_db w').

(** The request of every post belongs to an intent closed for ever, and no two
    to the same. *)
Definition posted_once (w : EntryWorld) : Prop :=
  NoDup (ids (ew_db w)) /\ NoDup (map ep_orderIntentId (ew_posts w)) /\
  forall p, In p (ew_posts w) -> closed (ep_orderIntentId p) (ew_db w).

Lemma unposted_posted_once w w' : unposted forward w w' -> posted_once w -> posted_once w'.
Proof.
  intros [Hf Hp] (Hnd & Hpn & Hc). destruct (Hf Hnd) as (Hnd' & _). unfold posted_once. rewrite Hp.
  split; [done|]. split; [done|]. intros p Hin. apply (forward_closed _ (ew_db w)); auto.
Qed.

Lemma may_post_unposted i w w1 w2 : may_post i w w1 -> unposted forward w1 w2 -> may_post i w w2.
Proof.
  intros [Hu|(p & db1 & db2 & x & Hp & Hid & F1 & Hx & Hxi & Hxp & Hcl & F2 & F3)] U; [left; by transitivity w1|].
  right. destruct U as [F4 P4]. exists p, db1, db2, x. rewrite P4. repeat (split; [done|]). by transitivity (ew_db w1).
Qed.

Lemma may_post_posted_once i w w' : may_post i w w' -> posted_once w -> posted_once w'.
Proof.
  intros [Hu|(p & db1 & db2 & x & Hp & Hid & F1 & Hx & Hxi & Hxp & Hcl & F2 & F3)]; [by apply unposted_posted_once|].
  intros (Hnd & Hpn & Hc). destruct (F1 Hnd) as (N1 & _). destruct (F2 N1) as (N2 & _).
  destruct (F3 N2) as (N3 & _). split; [done|]. rewrite Hp.
  assert (Hold : forall q, In q (ew_posts w) -> closed (ep_orderIntentId q) db1)
    by (intros q Hq; apply (forward_closed _ (ew_db w)); auto).
  split.
  - rewrite map_app. cbn. apply NoDup_app. split; [done|]. split; [|apply NoDup_singleton].
    intros y Hy ->%list_elem_of_singleton. apply list_elem_of_In, in_map_iff in Hy as (q & Eq & Hq).
    destruct (Hold q Hq) as [_ Hq']. specialize (Hq' x Hx). unfold executable in Hq'. rewrite Hxp in Hq'.
    discriminate Hq'. congruence.
  - intros q [Hq|[<-|[]]]%in_app_iff; (apply (forward_closed _ db2); [done..|]).
    + apply (forward_closed _ db1); auto.
    + rewrite Hid. auto.
Qed.

(** The compare-and-set from pending to submitting, when it counts a row. *)
Lemma claim_submission_counts `{PrismaLaws} now id db db' :
  claim_for_submission now id db = (Ok true, db') ->
  (exists x, In x (orderIntents db) /\ oi_id x = id /\ oi_status x = "pending") /\
  (NoDup (ids db) -> closed id db').
Proof.
  unfold claim_for_submission, update_order_intents. intros E.
  set (p := fun i => (oi_id i =? id) && String.eqb (oi_status i) "pending") in E.
  unfold mbind, eff_bind in E. rewrite update_many_eq in E. cbn in E.
  injection E as En <-. apply Z.eqb_eq in En. fold (filterb p (orderIntents db)) in En.
  assert (Hx : exists x, In x (orderIntents db) /\ p x = true).
  { destruct (filterb p (orderIntents db)) as [|x l] eqn:Ef; [done|]. exists x. apply filterb_In.
    rewrite Ef. by left. }
  destruct Hx as (x & Hx & (Hid%Z.eqb_eq & Hst%String.eqb_eq)%andb_prop). split; [by exists x|].
  intros Hnd. split; cbn.
  - unfold ids. cbn. rewrite map_map. apply in_map_iff. exists x. split; [by destruct (p x)|done].
  - intros y (z & <- & Hz)%in_map_iff Hyid.
    assert (oi_id z = id) by (by destruct (p z)).
    assert (z = x) as -> by (apply (NoDup_key_inj oi_id (orderIntents db)); congruence || done).
    assert (Hp : p x = true) by (unfold p; by rewrite Hid, Hst, Z.eqb_refl). by rewrite Hp.
Qed.

Section Attempts.
Context `{TimeZone} `{DateParse} `{MarketSession} `{PrismaLaws} `{BrokerApi}.
Context `{B : EntryBroker} `{S : EntryServices} `{W : OrderWorkerServices}.
Context `{!EntryBrokerLaws B} `{!EntryServicesLaws S} `{!OrderWorkerServicesLaws W}.
Variable now : Z.
Variable rows : settings.
Variable interfere : nat -> Db -> Db.
Variable outage : nat -> Db -> option js_error.
Context `{!Respects forward now interfere}.

Definition attempt_world (s : WorkerAttempt) : EntryWorld := sb_world (wa_submission s).

(** A program of the attempt that hands nothing to the adapter. *)
Definition quiet_attempt (s s' : WorkerAttempt) : Prop := unposted forward (attempt_world s) (attempt_world s').

#[local] Instance quiet_attempt_preorder : PreOrder quiet_attempt.
Proof.
  split; [intros s; unfold quiet_attempt; reflexivity|]. intros a b c H1' H2'. unfold quiet_attempt in *. by transitivity (attempt_world b).
Qed.

Lemma in_entry_quiet {A} (m : eff EntryWorld A) : moves (unposted forward) m -> moves quiet_attempt (in_entry m).
Proof.
  intros Hm s. unfold quiet_attempt, attempt_world, in_entry, in_submission, in_world.
  specialize (Hm (sb_world (wa_submission s))). by destruct (m _).
Qed.

Lemma flag_quiet (f : WorkerAttempt -> WorkerAttempt) :
  (forall s, attempt_world (f s) = attempt_world s) -> moves quiet_attempt (modify f).
Proof. intros Hf s. unfold quiet_attempt. cbn. rewrite Hf. reflexivity. Qed.

(** ** The submission *)

Definition sub_forward (s s' : Submission) : Prop := forward (ew_db (sb_world s)) (ew_db (sb_world s')).

#[local] Instance sub_forward_preorder : PreOrder sub_forward.
Proof.
  split; [intros s; unfold sub_forward; reflexivity|]. intros a b c H1' H2'. unfold sub_forward in *. by transitivity (ew_db (sb_world b)).
Qed.

Lemma in_world_forward {A} (m : eff EntryWorld A) : moves (unposted forward) m -> moves sub_forward (in_world m).
Proof.
  intros Hm s. unfold sub_forward, in_world. destruct (Hm (sb_world s)) as [Hf _]. by destruct (m (sb_world s)).
Qed.

Lemma in_world_quiet {A} (m : eff EntryWorld A) : moves same_entry m -> moves sub_forward (in_world m).
Proof. intros Hm. by apply in_world_forward, (same_entry_R (now := now) (interfere := interfere)). Qed.

Lemma phase_forward p : moves sub_forward (set_phase p).
Proof. apply moves_modify. intros s. unfold sub_forward. cbn. reflexivity. Qed.

Lemma append_forward o i t j : moves sub_forward (in_world (bestEffortAppendBrokerOpportunityEvent o i t j)).
Proof. apply in_world_quiet, append_quiet. Qed.

Lemma answer_forward p : moves sub_forward (in_world (submitAlpacaEntryOrder p)).
Proof.
  intros s. unfold sub_forward, in_world, submitAlpacaEntryOrder.
  change ((modify ?f ≫= ?k) ?w) with (k tt (f w)). cbv beta.
  set (w := set_ew_posts _ _). destruct (answer_quiet p w) as (_ & Hi & _).
  destruct (entry_answer p w). cbn in *. by apply same_forward.
Qed.

Lemma no_evidence_forward i : moves (unposted forward) (assertNoLocalEntryDispatchEvidence interfere outage i).
Proof. unfold assertNoLocalEntryDispatchEvidence. solve_entry. Qed.

Lemma submit_forward input a i : moves sub_forward (submitOrderToBroker now interfere outage input a i).
Proof.
  unfold submitOrderToBroker, dispatch_entry.
  pose proof phase_forward. pose proof append_forward. pose proof answer_forward.
  pose proof (fun i => in_world_quiet _ (capture_quiet i)).
  pose proof (fun i a s c => in_world_quiet _ (prepare_quiet i a s c)).
  pose proof (fun d o => in_world_quiet _ (dispatch_quiet d o)).
  pose proof (fun a r => in_world_quiet _ (created_quiet a r)).
  pose proof (fun i => in_world_forward _ (no_evidence_forward i)).
  assert (forall A (f : EntryWorld -> res A), moves sub_forward (in_world (lift f)))
    by (intros; apply in_world_forward, ew_lift_R; typeclasses eauto).
  assert (moves sub_forward (in_world (db_call interfere outage 3000
    (requireExecutableEntryExposureClaim interfere i a (po_symbol (bi_order input)) (bi_clientOrderId input)))))
    by (apply in_world_forward; solve_entry).
  assert (forall f, moves sub_forward (in_world (db_call interfere outage 3003 (modify (set_claimEvents f)))))
    by (intros; apply in_world_forward; solve_entry).
  solve_moves.
Qed.

(** ** One attempt *)

Definition sends (i : Z) (w w' : EntryWorld) : Prop :=
  forward (ew_db w) (ew_db w') /\
  (ew_posts w' = ew_posts w \/ exists p, ep_orderIntentId p = i /\ ew_posts w' = (ew_posts w ++ [p])%list).

Lemma unposted_sends i w w1 w2 : unposted forward w w1 -> sends i w1 w2 -> sends i w w2.
Proof.
  intros [F1 P1] [F2 P2]. split; [by transitivity (ew_db w1)|]. by rewrite P1 in P2.
Qed.
Lemma sends_unposted i w w1 w2 : sends i w w1 -> unposted forward w1 w2 -> sends i w w2.
Proof.
  intros [F2 P2] [F1 P1]. split; [by transitivity (ew_db w1)|]. by rewrite P1.
Qed.
Lemma unposted_sends_none i w w' : unposted forward w w' -> sends i w w'.
Proof. intros [F1 P1]. split; [done|by left]. Qed.

Lemma submission_sends input a i s :
  wp (in_submission (submitOrderToBroker now interfere outage input a i))
    (fun _ s' => sends i (attempt_world s) (attempt_world s')) s.
Proof.
  unfold wp, in_submission, attempt_world.
  pose proof (submit_wp now interfere outage input a i (wa_submission s)) as Hw. unfold wp in Hw.
  pose proof (submit_forward input a i (wa_submission s)) as Hf. unfold sub_forward in Hf.
  destruct (submitOrderToBroker _ _ _ _ _ _ (wa_submission s)) as [r s']. cbn in *. split; [done|].
  unfold ends_in in Hw. destruct (sb_phase s'); [left; apply Hw..|right|right];
    destruct Hw as (_ & _ & (c & _ & Hp & _) & _); (eexists; split; [|exact Hp]; done).
Qed.

(** Programs that hand nothing over, before and after the submission. *)
Lemma before_sends {A B'} (m : eff WorkerAttempt A) (f : A -> eff WorkerAttempt B') i w s :
  moves quiet_attempt m -> unposted forward w (attempt_world s) ->
  (forall x s', unposted forward w (attempt_world s') -> wp (f x) (fun _ s' => sends i w (attempt_world s')) s') ->
  wp (m ≫= f) (fun _ s' => sends i w (attempt_world s')) s.
Proof.
  intros Hm U Hf. apply wp_bind, (wp_moves quiet_attempt); [done|]. intros [x|e] s' U'.
  - apply Hf. by transitivity (attempt_world s).
  - apply unposted_sends_none. by transitivity (attempt_world s).
Qed.

Lemma quiet_sends {A} (m : eff WorkerAttempt A) i w s :
  moves quiet_attempt m -> unposted forward w (attempt_world s) ->
  wp m (fun _ s' => sends i w (attempt_world s')) s.
Proof.
  intros Hm U. apply (wp_moves quiet_attempt); [done|]. intros r s' U'.
  apply unposted_sends_none. by transitivity (attempt_world s).
Qed.

Lemma submit_claimed_sends i c w s : unposted forward w (attempt_world s) ->
  wp (submit_claimed now rows interfere outage i c) (fun _ s' => sends (oi_id i) w (attempt_world s')) s.
Proof.
  intros U. unfold submit_claimed.
  assert (Q1 : forall A (f : EntryWorld -> res A), moves quiet_attempt (in_entry (lift f)))
    by (intros; apply in_entry_quiet, ew_lift_R; typeclasses eauto).
  assert (Q2 : forall A (x : A), moves quiet_attempt (mret x)) by (intros; apply moves_ret; typeclasses eauto).
  assert (Q3 : forall A e, moves quiet_attempt (throw (A := A) e)) by (intros; apply moves_throw; typeclasses eauto).
  apply before_sends; [apply in_entry_quiet; solve_entry|done|]. intros _ s1 U1.
  destruct (oi_clientOrderId i) as [k|]; [|by apply quiet_sends].
  destruct k as [|a k]; [by apply quiet_sends|]. set (coid := String a k).
  destruct (oi_tradingAccountId i) as [account|]; [|by apply quiet_sends].
  destruct (oi_tradingAccountSubscriptionId i) as [assignment|]; [|by apply quiet_sends].
  apply before_sends; [done..|]. intros raw s2 U2. apply before_sends; [done..|]. intros routed s3 U3.
  destruct (negb (bool_decide _)); [by apply quiet_sends|].
  destruct (_ || _).
  { apply before_sends; [|done|intros; by apply quiet_sends]. apply in_entry_quiet.
    pose proof (fun b => settle_R (R := forward) (now := now) (oi_id i) (Some "blocked") b eq_refl). solve_entry. }
  cbv zeta. apply before_sends; [apply in_entry_quiet, recheck_R; typeclasses eauto|done|].
  intros [|] s4 U4; [by apply quiet_sends|].
  apply before_sends; [by apply flag_quiet|done|]. intros [] s5 U5.
  apply wp_bind. eapply wp_mono; [apply submission_sends|]. intros r s6 S6.
  assert (S6' : sends (oi_id i) w (attempt_world s6)) by by apply (unposted_sends _ _ (attempt_world s5)).
  destruct r as [result|e]; [|done].
  apply wp_bind, (wp_moves quiet_attempt); [apply in_entry_quiet, record_submitted_R; typeclasses eauto|].
  intros [[]|e] s7 U7; by apply (sends_unposted _ _ (attempt_world s6)).
Qed.

Lemma attempt_may_post i s :
  wp (attempt_intent now rows interfere outage i)
    (fun _ s' => may_post (oi_id i) (attempt_world s) (attempt_world s')) s.
Proof.
  apply wp_bind, (wp_moves quiet_attempt); [apply in_entry_quiet; solve_entry|].
  intros [c|e] s1 U1; [|by left]. apply wp_bind. unfold wp at 1, in_entry, in_submission, in_world, db_call.
  change ((step interfere outage 4001 ≫= ?k) ?w) with
    (match step interfere outage 4001 w with (Ok x, w') => k x w' | (Throw e, w') => (Throw e, w') end).
  pose proof (step_R (R := forward) (now := now) outage 4001 (attempt_world s1)) as U2. unfold attempt_world at 2 in U2.
  destruct (step interfere outage 4001 (sb_world (wa_submission s1))) as [[[]|e] w2]; cbn [fst snd] in U2;
    [|left; cbn; by transitivity (attempt_world s1)].
  unfold run_db. pose proof (claim_submission_R (R := forward) (now := now) (oi_id i) (ew_db w2)) as F3.
  pose proof (claim_submission_counts now (oi_id i) (ew_db w2)) as C3.
  destruct (claim_for_submission now (oi_id i) (ew_db w2)) as [[[|]|e] db3]; cbn [fst snd] in *.
  2,3: left; cbn; transitivity (attempt_world s1); [done|]; transitivity w2; done.
  cbn [negb]. destruct (C3 db3 eq_refl) as ((x & Hx & Hid & Hst) & Hcl).
  apply wp_bind, wp_modify. eapply wp_mono; [apply submit_claimed_sends; reflexivity|].
  intros r s' [F4 P4]. cbn in F4, P4.
  assert (U : unposted forward (attempt_world s) w2) by (transitivity (attempt_world s1); done).
  destruct U as [F12 P12]. rewrite P12 in P4. destruct P4 as [P4|(p & Hp & P4)].
  - left. split; [|done]. transitivity (ew_db w2); [done|]. by transitivity db3.
  - right. by exists p, (ew_db w2), db3, x.
Qed.
End Attempts.

Section Batches.
Context `{TimeZone} `{DateParse} `{MarketSession} `{PrismaLaws} `{BrokerApi}.
Context `{B : EntryBroker} `{S : EntryServices} `{W : OrderWorkerServices}.
Context `{!EntryBrokerLaws B} `{!EntryServicesLaws S} `{!OrderWorkerServicesLaws W}.

(** Other sessions move intents forward only: they promote received intents,
    create new ones and settle the others. *)
Definition forward_session (x : Session) : Prop := forall n db, forward db (ss_interfere x n db).

Lemma process_may_post now rows interfere outage i acc w :
  (forall n db, forward db (interfere n db)) ->
  may_post (oi_id i) w (snd (process_intent now rows interfere outage i acc w)).
Proof.
  intros Hf. pose proof (forward_respects now interfere Hf) as HR. unfold process_intent.
  set (s0 := {| wa_submission := _ |}).
  pose proof (attempt_may_post now rows interfere outage i s0) as Ha. unfold wp in Ha.
  destruct (attempt_intent _ _ _ _ _ s0) as [[[| |]|e] s1]; try exact Ha.
  set (f := {| wf_brokerBoundaryStarted := _ |}).
  match goal with |- may_post _ _ (snd (?m ?v)) =>
    assert (Hm : moves (unposted forward) m)
      by (apply moves_bind; [typeclasses eauto|apply handle_R; typeclasses eauto|intros; apply ew_ret_R; typeclasses eauto]);
    specialize (Hm v)
  end.
  by apply (may_post_unposted _ _ (attempt_world s1)).
Qed.

Lemma process_intents_once now rows working l acc w :
  (forall i, forward_session (working i)) -> posted_once w ->
  posted_once (snd (process_intents now rows working l acc w)).
Proof.
  intros Hw. revert acc w. induction l as [|i l IH]; intros acc w Ho; [done|]. cbn [process_intents].
  unfold mbind, eff_bind.
  pose proof (process_may_post now rows (ss_interfere (working (oi_id i))) (ss_outage (working (oi_id i))) i acc w
    (Hw (oi_id i))) as Hp.
  destruct (process_intent _ _ _ _ i acc w) as [[acc'|e] w']; cbn [fst snd] in *.
  - apply IH. by apply (may_post_posted_once (oi_id i) w).
  - by apply (may_post_posted_once (oi_id i) w).
Qed.

Lemma batch_once now rows reading working account w :
  forward_session reading -> (forall i, forward_session (working i)) -> posted_once w ->
  posted_once (snd (processPendingOrdersForAccount now rows reading working account w)).
Proof.
  intros Hr Hw Ho. unfold processPendingOrdersForAccount, mbind, eff_bind.
  pose proof (forward_respects now (ss_interfere reading) Hr) as HR.
  pose proof (db_read_R (R := forward) (now := now) (ss_outage reading) 4040 (pending_batch account) w) as Hu.
  destruct (db_read _ _ _ _ w) as [[l|e] w1]; cbn [fst snd] in *.
  - apply process_intents_once; [done|]. by apply (unposted_posted_once w).
  - by apply (unposted_posted_once w).
Qed.

Record forward_sessions (x : RecoverySessions) : Prop := {
  fs_reading : forward_session (rs_reading x);
  fs_working : forall i, forward_session (rs_working x i);
  fs_terminalReading : forward_session (rs_terminalReading x);
  fs_terminalWorking : forall i, forward_session (rs_terminalWorking x i);
  fs_admissionReading : forward_session (rs_admissionReading x);
  fs_admissionWorking : forall i, forward_session (rs_admissionWorking x i)
}.

Lemma recovery_unposted now sessions account w : forward_sessions sessions ->
  unposted forward w (snd (recoverStaleSubmittingIntentsForAccount now sessions account w)).
Proof.
  intros [F1 F2 F3 F4 F5 F6]. apply (stale_recovery_R (R := forward)).
  split; intros; apply forward_respects; [apply F1|apply F2|apply F3|apply F4|apply F5|apply F6].
Qed.

Context `{K : SyncBroker} `{!SyncBrokerLaws K W}.

Record forward_surroundings (x : SyncSurroundings) : Prop := {
  fx_reading : forward_session (sx_reading x);
  fx_working : forall i, forward_session (sx_working x i)
}.

(** A documented status makes no intent executable. *)
Lemma documented_settles status : In status ALPACA_ORDER_STATUSES -> settling (Some status).
Proof. intros Hs. repeat (destruct Hs as [<-|Hs]; [done|]). destruct Hs. Qed.

Lemma items_forward now x : item_respects (R := forward) (now := now) (fun s => In s ALPACA_ORDER_STATUSES) x.
Proof.
  split.
  - intros db. unfold stamp_synced. assert (Hk : keeps_executable (intent_synced now)) by done.
    pose proof (respects_intents (R := forward) (fun i => oi_id i =? oi_id (sm_intent x)) _ db Hk) as HR.
    unfold set_orderIntents in *. by destruct (update_many _ _ _).
  - intros b _ o Ho. split.
    + intros db. unfold mirror_order. destruct (update_many _ _ _). by apply same_forward.
    + assert (Hf : RespectsClaims forward now (fun _ db => db)) by (apply forward_respects; reflexivity).
      apply (intent_R (interfere := fun _ db => db)). by apply documented_settles.
Qed.

Lemma sync_unposted now around account w x c : forward_surroundings around ->
  unposted forward w (sy_entry (snd (syncSubmittedOrdersForAccountUnlocked now around account w x c))).
Proof.
  intros [Fr Fw]. unfold syncSubmittedOrdersForAccountUnlocked. set (s0 := {| sy_entry := w |}).
  change (sync_moved forward s0 (snd (sync_submitted now around account s0))). revert s0. intros s0.
  apply (sync_submitted_R (R := forward) around (fun s => In s ALPACA_ORDER_STATUSES)).
  - intros a id v o. apply looked_up_documented.
  - intros i. apply (forward_respects now _ (Fw i)).
  - apply (forward_respects now _ Fr).
  - intros a v l o. apply open_documented.
  - intros db. apply Forall_forall. intros. apply items_forward.
Qed.

(** Everything that runs on the entry side: batches of the worker on any
    account, both sweeps, the recovery of stale intents, the synchronization of
    submitted orders, and whatever other sessions do to the database. *)
Inductive entry_activity : EntryWorld -> EntryWorld -> Prop :=
| act_batch now rows reading working account w :
    forward_session reading -> (forall i, forward_session (working i)) ->
    entry_activity w (snd (processPendingOrdersForAccount now rows reading working account w))
| act_terminal_sweep now reading working account w :
    forward_session reading -> (forall i, forward_session (working i)) ->
    entry_activity w (snd (recoverTerminalEntryClaimsForAccount now reading working account w))
| act_admission_sweep now reading working account w :
    forward_session reading -> (forall i, forward_session (working i)) ->
    entry_activity w (snd (recoverStaleAdmissionClaimsForAccount now reading working account w))
| act_stale_recovery now sessions account w :
    forward_sessions sessions ->
    entry_activity w (snd (recoverStaleSubmittingIntentsForAccount now sessions account w))
| act_submitted_sync now around account w x c :
    forward_surroundings around ->
    entry_activity w (sy_entry (snd (syncSubmittedOrdersForAccountUnlocked now around account w x c)))
| act_others w db : forward (ew_db w) db -> entry_activity w (set_ew_db (fun _ => db) w).

Lemma activity_once w w' : entry_activity w w' -> posted_once w -> posted_once w'.
Proof.
  intros [now rows reading working account v Hr Hw|now reading working account v Hr Hw
    |now reading working account v Hr Hw|now sessions account v Hs|now around account v x c Hx|v db Hf] Ho.
  - by apply batch_once.
  - apply (unposted_posted_once v); [|done].
    by apply (terminal_sweep_R (R := forward) reading working (forward_respects now _ Hr) (fun i => forward_respects now _ (Hw i))).
  - apply (unposted_posted_once v); [|done].
    by apply (admission_sweep_R (R := forward) reading working (forward_respects now _ Hr) (fun i => forward_respects now _ (Hw i))).
  - apply (unposted_posted_once v); [by apply recovery_unposted|done].
  - apply (unposted_posted_once v); [by apply sync_unposted|done].
  - by apply (unposted_posted_once v).
Qed.
End Batches.

(** C3. An entry intent is handed to the broker adapter at most once. Through
    any sequence of worker batches on any accounts, recoveries of stale intents,
    synchronizations of submitted orders, sweeps of terminal claims and of
    abandoned admissions, and steps of other sessions at every statement,
    wherever the database or the broker fails, no two requests ever belong to
    the same intent, and the intent of every request stays recorded and is never
    pending or received again. Other sessions are assumed to keep intents and to
    make only new ones, or received ones, pending. *)
Theorem entry_posted_once `{TimeZone} `{DateParse} `{MarketSession} `{PrismaLaws} `{BrokerApi}
    `{B : EntryBroker} `{S : EntryServices} `{W : OrderWorkerServices} `{K : SyncBroker}
    (HB : EntryBrokerLaws B) (HS : EntryServicesLaws S) (HW : OrderWorkerServicesLaws W)
    (HK : SyncBrokerLaws K W) w w'
    (Hids : NoDup (map oi_id (orderIntents (ew_db w)))) (Hnone : ew_posts w = [])
    (Hruns : rtc entry_activity w w') :
  NoDup (map ep_orderIntentId (ew_posts w')) /\
  forall p, In p (ew_posts w') ->
    In (ep_orderIntentId p) (map oi_id (orderIntents (ew_db w'))) /\
    forall i, In i (orderIntents (ew_db w')) -> oi_id i = ep_orderIntentId p ->
      oi_status i <> "pending" /\ oi_status i <> "received".
Proof.
  assert (Ho : posted_once w).
  { split; [done|]. rewrite Hnone. split; [constructor|]. by intros p []. }
  clear Hids Hnone. induction Hruns as [w|w w1 w' Hact _ IH]; [|by apply IH, (activity_once w)].
  destruct Ho as (_ & Hn & Hc). split; [done|]. intros p Hp. destruct (Hc p Hp) as [Hin Hcl].
  split; [done|]. intros i Hi Ei. specialize (Hcl i Hi Ei). unfold executable, member in Hcl.
  split; intros E; rewrite E in Hcl; done.
Qed.

(** * Failures after the adapter was invoked *)

(** The entry still holds its exposure. *)
Definition holds_claim (i : Z) (db : Db) : Prop :=
  exists c, In c (claims db) /\ by_intent i c = true /\ cl_releasedAt c = None.

(** Executability only shrinks, and the exposure stays held. *)
Definition retains (i : Z) (db db' : Db) : Prop := forward db db' /\ (holds_claim i db -> holds_claim i db').

#[export] Instance retains_preorder i : PreOrder (retains i).
Proof.
  split; [by intros db|]. intros a b c [F1 K1] [F2 K2]. split; [by transitivity b|auto].
Qed.

Lemma update_claims_held `{PrismaLaws} i w d db :
  set_releasedAt d = None -> holds_claim i db -> holds_claim i (snd (update_claims w d db)).
Proof.
  intros Hd (c & Hc & Hby & Hr). unfold update_claims. destruct (position_taken w d db); [by exists c|].
  rewrite update_many_eq. cbn. exists (if w c then apply_data d c else c).
  split; [by apply (in_map (fun r => if w r then apply_data d r else r))|].
  destruct (w c); [|done]. split; [done|]. cbn. by rewrite Hd.
Qed.

Lemma retains_respects `{PrismaLaws} i now interfere :
  (forall n db, retains i db (interfere n db)) -> Respects (retains i) now interfere.
Proof.
  intros Ho. apply respects_intro; [exact _| |exact Ho|].
  - intros db db' E Ec. split; [by apply same_forward|]. unfold holds_claim. by rewrite Ec.
  - intros w d Hd db. split; [by apply same_forward, update_claims_intents|]. by apply update_claims_held.
Qed.

#[export] Instance retains_intents `{PrismaLaws} i : RespectsIntents (retains i).
Proof. split. intros w f db Hf. split; [by apply update_forward|done]. Qed.

Section Retention.
Context `{PrismaLaws} `{B : EntryBroker} `{S : EntryServices}.
Variable now : Z.
Variable interfere : nat -> Db -> Db.
Variable outage : nat -> Db -> option js_error.

Lemma possibly_sent_handled i f R `{!Respects R now interfere} `{!RespectsIntents R} w :
  possibly_sent f ->
  wp (handle_failure now interfere outage i f) (fun r w' => r = Ok false /\ unposted R w w') w.
Proof.
  intros Hf. unfold wp. split; [by apply possibly_sent_result|]. apply (possibly_sent_moves now interfere outage i f); [done|exact _|..].
  - unfold failure_records. solve_entry.
  - intros records. apply db_transaction_R, persist_R.
  - intros c recorded Hl. unfold settle_failure, attemptReleaseAfterRecordedOutcome. rewrite Hl. cbn [negb].
    pose proof (emit_R (R := R) (now := now) (interfere := interfere) outage). solve_entry.
  - intros plan. apply unpersisted_R.
Qed.
End Retention.


(** * Accounting *)

Section Accounting.
Context `{TimeZone} `{DateParse} `{MarketSession} `{PrismaLaws} `{BrokerApi}.
Context `{B : EntryBroker} `{S : EntryServices} `{W : OrderWorkerServices}.
Variable now : Z.
Variable rows : settings.

(** A claim counts once it is won, and stays counted. *)
Definition keeps_claimed (s s' : WorkerAttempt) : Prop := wa_claimed s' = wa_claimed s.

#[local] Instance keeps_claimed_preorder : PreOrder keeps_claimed.
Proof. split; [by intros s|]. unfold keeps_claimed. intros a b c. congruence. Qed.

Lemma in_submission_claimed {A} (m : eff Submission A) : moves keeps_claimed (in_submission m).
Proof. intros s. unfold keeps_claimed, in_submission. by destruct (m _). Qed.

Lemma in_entry_claimed {A} (m : eff EntryWorld A) : moves keeps_claimed (in_entry m).
Proof. apply in_submission_claimed. Qed.

Lemma start_boundary_claimed : moves keeps_claimed start_boundary.
Proof. by apply moves_modify. Qed.

Lemma submit_claimed_claimed interfere outage i c : moves keeps_claimed (submit_claimed now rows interfere outage i c).
Proof.
  unfold submit_claimed. pose proof @in_submission_claimed. pose proof @in_entry_claimed.
  pose proof start_boundary_claimed. solve_moves.
Qed.

(** A claimed attempt never ends as already claimed. *)
Definition yields {T A} (Q : A -> Prop) (m : eff T A) : Prop := forall s x s', m s = (Ok x, s') -> Q x.

Lemma yields_bind {T A A'} (Q : A' -> Prop) (m : eff T A) (f : A -> eff T A') :
  (forall x, yields Q (f x)) -> yields Q (m ≫= f).
Proof. intros Hf s y s' (x & s1 & _ & E)%eff_bind_ok. by apply (Hf x) in E. Qed.
Lemma yields_ret {T A} (Q : A -> Prop) (x : A) : Q x -> yields (T := T) Q (mret x).
Proof. intros Hx s y s' E. by injection E as <- _. Qed.
Lemma yields_throw {T A} (Q : A -> Prop) e : yields (T := T) Q (throw e).
Proof. by intros s x s' E. Qed.

Lemma submit_claimed_ends interfere outage i c :
  yields (fun r => r <> ATTEMPT_ALREADY_CLAIMED) (submit_claimed now rows interfere outage i c).
Proof.
  unfold submit_claimed. cbv zeta.
  repeat match goal with
  | |- yields _ (mbind _ _) => apply yields_bind; intros ?
  | |- yields _ (match ?x with _ => _ end) => destruct x
  end; by (apply yields_ret || apply yields_throw).
Qed.

Context `{!EntryBrokerLaws B} `{!EntryServicesLaws S} `{!OrderWorkerServicesLaws W}.

(** What an attempt counts, and what it may hand over. *)
Definition attempt_counted (w : EntryWorld) (r : res AttemptEnd) (s : WorkerAttempt) : Prop :=
  match r with
  | Ok ATTEMPT_ALREADY_CLAIMED => wa_claimed s = false
  | Ok _ => wa_claimed s = true
  | Throw _ => True
  end /\
  (length (ew_posts (attempt_world s)) <= length (ew_posts w) + (if wa_claimed s then 1 else 0))%nat.

Lemma attempt_counted_holds interfere outage i s : Respects forward now interfere -> wa_claimed s = false ->
  wp (attempt_intent now rows interfere outage i) (attempt_counted (attempt_world s)) s.
Proof.
  intros HR Hs. apply wp_bind, (wp_moves (fun s s' => quiet_attempt s s' /\ keeps_claimed s s')).
  { intros s1. split; [by apply in_entry_quiet; solve_entry|apply in_entry_claimed]. }
  intros [c|e] s1 [[_ P1] K1]; [|split; [done|rewrite P1; lia]].
  apply wp_bind, (wp_moves (fun s s' => quiet_attempt s s' /\ keeps_claimed s s')).
  { intros s2. split; [|apply in_entry_claimed]. apply in_entry_quiet, db_call_R, claim_submission_R. }
  intros [[|]|e] s2 [[_ P2] K2]; unfold keeps_claimed in *; cbn [negb].
  2: { unfold wp, mret, eff_ret. cbn [fst snd]. split; [congruence|]. rewrite P2, P1. lia. }
  2: { split; [done|]. rewrite P2, P1. lia. }
  apply wp_bind, wp_modify. set (s3 := {| wa_submission := _ |}).
  pose proof (submit_claimed_sends now rows interfere outage i c (attempt_world s3) s3) as Hp.
  pose proof (submit_claimed_claimed interfere outage i c s3) as Hk.
  pose proof (submit_claimed_ends interfere outage i c s3) as He. unfold wp in *.
  destruct (submit_claimed _ _ _ _ _ _ s3) as [r s4]. cbn [fst snd] in *.
  unfold keeps_claimed in Hk. cbn in Hk. destruct (Hp ltac:(reflexivity)) as [_ Hp']. split.
  - destruct r as [[| |]|e]; try done. exfalso. by apply (He _ _ eq_refl).
  - rewrite Hk. change (attempt_world s3) with (attempt_world s2) in Hp'.
    destruct Hp' as [-> |(p & _ & ->)]; rewrite ?length_app, P2, P1; cbn; lia.
Qed.

(** ** What a failure counts as *)

(** The failure could be recorded: its transaction was acknowledged. *)
Definition failure_persisted interfere outage (i : OrderIntent) (f : WorkerFailure) (w : EntryWorld) : bool :=
  match (records ← failure_records interfere outage i f;
         EntryWorld.db_transaction interfere outage 4021 (persist_failure now interfere i f records)) w with
  | (Ok _, _) => true
  | (Throw _, _) => false
  end.

(** A policy refusal that could be recorded counts as blocked, and everything
    else as failed. *)
Lemma handled_exact interfere outage i f w b w' :
  handle_failure now interfere outage i f w = (Ok b, w') -> b = policyDenied f && failure_persisted interfere outage i f w.
Proof.
  unfold failure_persisted, handle_failure. fold (failure_records interfere outage i f).
  intros (records & w1 & Er & E)%eff_bind_ok. unfold mbind at 1, eff_bind at 1. rewrite Er.
  unfold mbind at 1, eff_bind at 1, try_catch in E. unfold mbind at 1, eff_bind at 1 in E.
  destruct (db_transaction _ _ _ _ w1) as [[[plan recorded]|e] w2].
  - apply eff_bind_ok in E as ([] & w3 & _ & E). injection E as <- _. by rewrite andb_true_r.
  - apply eff_bind_ok in E as ([] & w3 & _ & E). injection E as <- _. by rewrite andb_false_r.
Qed.

(** ** What an attempt counts *)

Inductive AttemptEnding := Lost_to_another | Ended_blocked | Ended_submitted | Ended_failed.
#[local] Instance attempt_ending_eq_dec : EqDecision AttemptEnding.
Proof. solve_decision. Defined.

(** Evaluate the comparisons of two known endings. *)
Ltac decide_endings :=
  repeat match goal with
  | |- context [bool_decide (?x = ?y :> AttemptEnding)] =>
      first [rewrite (bool_decide_true (x = y)) by done|rewrite (bool_decide_false (x = y)) by done]
  end.

(** Whether the attempt won its intent, and how it ended. *)
Record AttemptOutcome := { ao_claimed : bool; ao_ending : AttemptEnding }.
Definition ended (x : AttemptEnding) (o : AttemptOutcome) : bool := bool_decide (ao_ending o = x).

Definition fresh_attempt (w : EntryWorld) : WorkerAttempt :=
  {| wa_submission := {| sb_world := w; sb_phase := UNCLASSIFIED |}; wa_claimed := false; wa_brokerBoundaryStarted := false |}.
Definition failure_at (s : WorkerAttempt) (e : js_error) : WorkerFailure :=
  {| wf_brokerBoundaryStarted := wa_brokerBoundaryStarted s; wf_phase := sb_phase (wa_submission s); wf_error := e |}.

(** One attempt of a batch, from the world the one before left. *)
Record attempt_run (working : Z -> Session) (i : OrderIntent) (w : EntryWorld) (o : AttemptOutcome) (w' : EntryWorld)
    : Prop := {
  ar_ends : let interfere := ss_interfere (working (oi_id i)) in let outage := ss_outage (working (oi_id i)) in
    exists r s, attempt_intent now rows interfere outage i (fresh_attempt w) = (r, s) /\ ao_claimed o = wa_claimed s /\
      match r with
      | Ok ATTEMPT_ALREADY_CLAIMED => ao_ending o = Lost_to_another /\ w' = attempt_world s
      | Ok ATTEMPT_BLOCKED => ao_ending o = Ended_blocked /\ w' = attempt_world s
      | Ok ATTEMPT_SUBMITTED => ao_ending o = Ended_submitted /\ w' = attempt_world s
      | Throw e => let f := failure_at s e in
          handle_failure now interfere outage i f (attempt_world s) = (Ok (ended Ended_blocked o), w') /\
          ao_ending o = if policyDenied f && failure_persisted interfere outage i f (attempt_world s)
                        then Ended_blocked else Ended_failed
      end;
  ar_lost : ao_ending o = Lost_to_another -> ao_claimed o = false;
  ar_submitted : ao_ending o = Ended_submitted -> ao_claimed o = true;
  ar_posts : (length (ew_posts w') <= length (ew_posts w) + (if ao_claimed o then 1 else 0))%nat
}.

(** The counters are those of the outcomes. *)
Record counts_outcomes (r0 r : PendingOrderResult) (outcomes : list AttemptOutcome) : Prop := {
  co_found : pr_found r = pr_found r0;
  co_claimed : pr_claimed r = pr_claimed r0 + how_many ao_claimed outcomes;
  co_submitted : pr_submitted r = pr_submitted r0 + how_many (ended Ended_submitted) outcomes;
  co_blocked : pr_blocked r = pr_blocked r0 + how_many (ended Ended_blocked) outcomes;
  co_failed : pr_failed r = pr_failed r0 + how_many (ended Ended_failed) outcomes
}.

Lemma counts_none r : counts_outcomes r r [].
Proof. split; unfold how_many; cbn; lia. Qed.

Lemma counts_cons r0 r1 r2 o outcomes :
  counts_outcomes r0 r1 [o] -> counts_outcomes r1 r2 outcomes -> counts_outcomes r0 r2 (o :: outcomes).
Proof. intros [A1 A2 A3 A4 A5] [B1 B2 B3 B4 B5]. rewrite !how_many_cons in *. unfold how_many in *. cbn in *. split; rewrite ?how_many_cons; unfold how_many; lia. Qed.

Lemma process_run working i acc w : (forall n db, forward db (ss_interfere (working (oi_id i)) n db)) ->
  exists acc' o w', process_intent now rows (ss_interfere (working (oi_id i))) (ss_outage (working (oi_id i))) i acc w
      = (Ok acc', w') /\
    attempt_run working i w o w' /\ counts_outcomes acc acc' [o].
Proof.
  set (interfere := ss_interfere (working (oi_id i))). set (outage := ss_outage (working (oi_id i))).
  intros Hf. pose proof (forward_respects now interfere Hf) as HR. unfold process_intent. fold (fresh_attempt w).
  pose proof (attempt_counted_holds interfere outage i (fresh_attempt w) HR eq_refl) as Ha. unfold wp in Ha.
  destruct (attempt_intent now rows interfere outage i (fresh_attempt w)) as [r s] eqn:E. cbn [fst snd] in Ha.
  destruct Ha as [Hc Hp]. change (attempt_world (fresh_attempt w)) with w in Hp.
  assert (Hone : forall x, counts_outcomes acc (count_attempt (wa_claimed s)
    (bool_decide (x = Ended_submitted)) (bool_decide (x = Ended_blocked)) (bool_decide (x = Ended_failed)) acc)
    [{| ao_claimed := wa_claimed s; ao_ending := x |}]).
  { intros x. split; rewrite ?how_many_cons; unfold how_many, count_attempt, ended, one; cbn -[Z.add bool_decide];
      repeat case_bool_decide; destruct (wa_claimed s); cbn; lia. }
  destruct r as [[| |]|e].
  - exists acc, {| ao_claimed := wa_claimed s; ao_ending := Lost_to_another |}, (attempt_world s).
    split; [done|]. split.
    + split; [by exists (Ok ATTEMPT_ALREADY_CLAIMED), s|done|done|done].
    + split; rewrite ?how_many_cons; unfold how_many, ended; cbn -[Z.add bool_decide]; decide_endings; rewrite ?Hc; cbn; lia.
  - eexists _, {| ao_claimed := wa_claimed s; ao_ending := Ended_blocked |}, (attempt_world s).
    split; [done|]. split; [split; [by exists (Ok ATTEMPT_BLOCKED), s|done|done|done]|exact (Hone Ended_blocked)].
  - eexists _, {| ao_claimed := wa_claimed s; ao_ending := Ended_submitted |}, (attempt_world s).
    split; [done|]. split; [split; [by exists (Ok ATTEMPT_SUBMITTED), s|done|done|done]|exact (Hone Ended_submitted)].
  - fold (failure_at s e). set (f := failure_at s e).
    destruct (handle_total now interfere outage i f (attempt_world s)) as (b & w2 & Eh).
    pose proof (handle_R (R := forward) (now := now) outage i f (attempt_world s)) as [_ P2].
    rewrite Eh in P2. cbn [fst snd] in P2. pose proof (handled_exact interfere outage i f _ b w2 Eh) as Hb.
    set (x := if b then Ended_blocked else Ended_failed).
    exists (count_attempt (wa_claimed s) false b (negb b) acc), {| ao_claimed := wa_claimed s; ao_ending := x |}, w2.
    split; [|split].
    + change (sb_world (wa_submission s)) with (attempt_world s). unfold mbind, eff_bind. by rewrite Eh.
    + split; [|by destruct b|by destruct b|by rewrite P2]. exists (Throw e), s. split; [done|]. split; [done|].
      split; [by destruct b|]. cbn [ao_ending]. unfold x. rewrite Hb at 1. reflexivity.
    + specialize (Hone x). unfold x in *. by destruct b.
Qed.

Lemma batch_run working l acc w : (forall i, forward_session (working i)) ->
  exists acc' outcomes w', process_intents now rows working l acc w = (Ok acc', w') /\
    run_over (attempt_run working) l w outcomes w' /\ counts_outcomes acc acc' outcomes.
Proof.
  intros Hw. revert acc w. induction l as [|i l IH]; intros acc w.
  - exists acc, [], w. split; [done|]. split; [constructor|apply counts_none].
  - destruct (process_run working i acc w (Hw (oi_id i))) as (a1 & o & w1 & E1 & R1 & C1).
    destruct (IH a1 w1) as (a2 & os & w2 & E2 & R2 & C2). exists a2, (o :: os), w2. split; [|split].
    + cbn [process_intents]. unfold mbind, eff_bind. by rewrite E1.
    + by econstructor.
    + by eapply counts_cons.
Qed.

(** Every attempt ended in one way; the adapter got at most one request for each
    that won its intent. *)
Lemma run_bounds working l w outcomes w' : run_over (attempt_run working) l w outcomes w' ->
  how_many (ended Ended_submitted) outcomes + how_many (ended Ended_blocked) outcomes + how_many (ended Ended_failed) outcomes +
    how_many (ended Lost_to_another) outcomes = Z.of_nat (length l) /\
  how_many (ended Ended_submitted) outcomes <= how_many ao_claimed outcomes /\
  how_many ao_claimed outcomes + how_many (ended Lost_to_another) outcomes <= Z.of_nat (length l) /\
  Z.of_nat (length (ew_posts w')) <= Z.of_nat (length (ew_posts w)) + how_many ao_claimed outcomes.
Proof.
  induction 1 as [w|i l w o w1 os w2 [_ Hl Hs Hp] _ IH]; [unfold how_many; cbn; lia|].
  rewrite !how_many_cons. unfold ended in *. cbn [length]. destruct o as [c x]. cbn [ao_claimed ao_ending] in *.
  destruct x; decide_endings;
    try (rewrite (Hl eq_refl) in *); try (rewrite (Hs eq_refl) in *); destruct c; lia.
Qed.
End Accounting.

(** C12. A worker batch always completes and accounts for every intent it found.
    Unless its first read finds the database out of service, in which case
    nothing is handed over, it answers: it found at most five pending intents of
    its own account, and attempted them one after the other, each from the world
    the one before left. Its counters are exactly the numbers of attempts that
    won their intent, and that ended submitted, blocked or failed; the remaining
    ones were lost to another session. An attempt that throws counts as blocked
    when the policy refused it and the refusal could be recorded, and as failed
    otherwise. A submission has won its intent, and the adapter was handed at
    most as many requests as intents were won - whatever fails and whatever other
    sessions do. *)
Theorem worker_batch_accounted `{TimeZone} `{DateParse} `{MarketSession} `{PrismaLaws} `{BrokerApi}
    `{B : EntryBroker} `{S : EntryServices} `{W : OrderWorkerServices}
    (HB : EntryBrokerLaws B) (HS : EntryServicesLaws S) (HW : OrderWorkerServicesLaws W)
    now rows reading working account w
    (Hr : forward_session reading) (Hw : forall i, forward_session (working i)) :
  let db := ss_interfere reading 4040 (ew_db w) in
  let '(r, w') := processPendingOrdersForAccount now rows reading working account w in
  match r with
  | Throw e => ss_outage reading 4040 db = Some e /\ ew_posts w' = ew_posts w
  | Ok r =>
      pr_found r = Z.of_nat (length (pending_batch account db)) /\ pr_found r <= 5 /\
      (forall i, In i (pending_batch account db) ->
         In i (orderIntents db) /\ oi_status i = "pending" /\ oi_tradingAccountId i = Some account) /\
      (exists outcomes,
         run_over (attempt_run now rows working) (pending_batch account db) (set_ew_db (fun _ => db) w) outcomes w' /\
         pr_claimed r = how_many ao_claimed outcomes /\ pr_submitted r = how_many (ended Ended_submitted) outcomes /\
         pr_blocked r = how_many (ended Ended_blocked) outcomes /\ pr_failed r = how_many (ended Ended_failed) outcomes /\
         pr_submitted r + pr_blocked r + pr_failed r + how_many (ended Lost_to_another) outcomes = pr_found r) /\
      0 <= pr_submitted r <= pr_claimed r /\ pr_claimed r <= pr_found r /\
      Z.of_nat (length (ew_posts w')) - Z.of_nat (length (ew_posts w)) <= pr_claimed r
  end.
Proof.
  intros db. unfold processPendingOrdersForAccount, db_read, db_call, step, run_db.
  unfold mbind at 1, eff_bind at 1. unfold mbind at 1, eff_bind at 1. fold db.
  change (ew_db (set_ew_db (ss_interfere reading 4040) w)) with db.
  destruct (ss_outage reading 4040 db) as [e|] eqn:Eo; [done|]. cbn [asks].
  change (ew_db (set_ew_db (ss_interfere reading 4040) w)) with db.
  set (l := pending_batch account db). set (acc := {| pr_found := _ |}).
  change (set_ew_db (fun _ => db) (set_ew_db (ss_interfere reading 4040) w)) with (set_ew_db (fun _ => db) w).
  destruct (batch_run now rows working l acc (set_ew_db (fun _ => db) w) Hw) as (r & os & w' & -> & Ho & [A1 A2 A3 A4 A5]).
  pose proof (run_bounds now rows working l _ os w' Ho) as (B1 & B2 & B3 & B4). unfold acc in *.
  cbn [pr_found pr_claimed pr_submitted pr_blocked pr_failed ew_posts set_ew_db] in *.
  assert (Hl : (length l <= 5)%nat) by (unfold l, pending_batch; rewrite length_take; unfold PENDING_ORDER_BATCH_LIMIT_PER_ACCOUNT; lia).
  assert (Hin : forall i, In i l -> In i (orderIntents db) /\ oi_status i = "pending" /\ oi_tradingAccountId i = Some account).
  { intros i Hi. unfold l, pending_batch in Hi. apply take_In, sort_by_In, find_many_In in Hi as [Hj [Hs%String.eqb_eq Ha]%andb_prop].
    unfold opt_eqb in Ha. by apply bool_decide_eq_true in Ha. }
  assert (Ht : forall p : AttemptOutcome -> bool, 0 <= how_many p os) by (intros p; unfold how_many; lia).
  pose proof (Ht (ended Ended_submitted)). pose proof (Ht (ended Lost_to_another)).
  split; [lia|]. split; [lia|]. split; [done|]. split; [|lia].
  exists os. split; [done|]. repeat (split; [lia|]). lia.
Qed.

(** * Concrete inputs *)

(** The stored request of the sample entry, and its routing. *)
Definition routed_services : OrderWorkerServices :=
  {| placeOrderSchema_parse _ := Ok {| pi_qty := None; pi_notional := Some (num_of_Z 1500); pi_limitPrice := None;
       pi_extendedHours := false; pi_subscriptionKey := Some "aapl-trend"; pi_signalType := None;
       pi_tradingAccountSubscriptionId := 9 |};
     resolveSubscriptionOrderInput _ _ := Ok (Some 7, Some 9);
     linkEntryDecisionToBrokerOrder _ _ _ := mret tt; entry_order_by_id _ _ _ _ := Ok None |}.

Lemma routed_services_laws : OrderWorkerServicesLaws routed_services.
Proof. split. intros i b a w. cbn. reflexivity. Qed.

(** A broker without open orders. *)
Definition no_open_orders : SyncBroker := {| open_orders _ _ := Ok []; error_backoffUntil _ := None |}.
Lemma no_open_orders_laws : SyncBrokerLaws no_open_orders routed_services.
Proof. split; [by intros a w l o [= <-]|done]. Qed.

Definition calm_session : Session := {| ss_interfere := calm; ss_outage := no_outage |}.
Lemma calm_forward : forward_session calm_session.
Proof. intros n db. cbn. reflexivity. Qed.

#[local] Notation sample_batch :=
  (processPendingOrdersForAccount (H := fixed_zone 5) (H0 := sample_parse) (H1 := sample_session) (H2 := in_order)
    (H3 := sample_broker) (H4 := accepting_broker) (H5 := silent_services) (H6 := routed_services)
    1704214800000 sample_settings calm_session (fun _ => calm_session) 7).

Definition worked_world : EntryWorld := snd (sample_batch (entry_world "pending" "ENTRY_PENDING")).

Lemma worker_batch_accounted_witness :
  match fst (sample_batch (entry_world "pending" "ENTRY_PENDING")) with
  | Ok r => pr_submitted r = 1 /\ pr_submitted r <= pr_claimed r <= pr_found r
  | Throw _ => False
  end.
Proof.
  pose proof (worker_batch_accounted (H := fixed_zone 5) (H0 := sample_parse) (H1 := sample_session) (P := in_order)
    (H3 := sample_broker) (B := accepting_broker) (S := silent_services) (W := routed_services)
    accepting_broker_laws silent_services_laws routed_services_laws
    1704214800000 sample_settings calm_session (fun _ => calm_session) 7 (entry_world "pending" "ENTRY_PENDING")
    calm_forward (fun _ => calm_forward)) as Hb.
  assert (E : match fst (sample_batch (entry_world "pending" "ENTRY_PENDING")) with
              | Ok r => pr_submitted r = 1 | Throw _ => False end) by (vm_compute; reflexivity).
  destruct (processPendingOrdersForAccount _ _ _ _ _ _) as [[r|e] w']; [|done]. split; [exact E|].
  destruct Hb as (_ & _ & _ & _ & H1 & H2 & _). lia.
Defined.

(** The worker runs twice on the pending entry. *)
Lemma entry_posted_once_witness :
  map ep_orderIntentId (ew_posts (snd (sample_batch worked_world))) = [31] /\
  NoDup (map ep_orderIntentId (ew_posts (snd (sample_batch worked_world)))).
Proof.
  split; [vm_compute; reflexivity|].
  apply (entry_posted_once (H := fixed_zone 5) (H0 := sample_parse) (H1 := sample_session) (P := in_order)
    (H3 := sample_broker) (B := accepting_broker) (S := silent_services) (W := routed_services) (K := no_open_orders)
    accepting_broker_laws silent_services_laws routed_services_laws no_open_orders_laws (entry_world "pending" "ENTRY_PENDING")).
  - vm_compute. apply NoDup_singleton.
  - reflexivity.
  - apply (rtc_l _ _ worked_world); [|apply (rtc_l _ _ (snd (sample_batch worked_world))); [|apply rtc_refl]];
      apply act_batch; try exact calm_forward; intros; exact calm_forward.
Defined.

Definition lost_connection : WorkerFailure :=
  {| wf_brokerBoundaryStarted := true; wf_phase := DISPATCH_STARTED; wf_error := PlainError "socket hang up" |}.

