(* ===== verification/StaleSafety.v ===== *)
(** When the recovery of a stale entry may release its claim: only when the
    broker has no order under its client order id and nothing recorded says its
    adapter was ever invoked. Every other stale intent keeps what it holds. *)

From Stdlib Require Import ZArith Lia.
From Stdlib Require Import Strings.String.
From Stdlib Require Import Floats.SpecFloat.
From stdpp Require Import base gmap list strings relations.
From S2P Require Import Prelude JsNumber JsValue JsDate Prisma OrderStatus DeliveryEvidence Schema BrokerAccount.
From S2P Require Import ExposureClaim ExposureSafety ExitWorld EntryWorld DispatchEvidence DispatchRecovery EntrySubmission.
From S2P Require Import EntryMoves SubmissionSafety RecoverySafety OrderWorker StaleRecovery WorkerMoves WorkerSafety.

Open Scope string_scope.
Open Scope Z_scope.

(** * What the recovery saw *)

(** What the recovery itself writes before it judges an intent: the time of its
    progress, and telemetry of types that no dispatch leaves. *)
Inductive recovery_note `{Prisma} (now i : Z) : Db -> Db -> Prop :=
| note_progress db : recovery_note now i db (snd (record_progress now i db))
| note_observed db l : (forall e, In e l -> member (oe_eventType e) DISPATCH_OPPORTUNITY_EVENT_TYPES = false) ->
    recovery_note now i db (set_opportunityEvents (fun t => (t ++ l)%list) db).

(** The database [db'] is [db] after steps of other sessions and such notes, and
    after nothing else. *)
Definition undisturbed `{Prisma} (now i : Z) (interfere : nat -> Db -> Db) : Db -> Db -> Prop :=
  rtc (fun db db' => (exists n, db' = interfere n db) \/ recovery_note now i db db').
(** ... and the adapter was not invoked, and nothing was reported. *)
Definition idle `{Prisma} (now i : Z) (interfere : nat -> Db -> Db) (w w' : EntryWorld) : Prop :=
  exists db, undisturbed now i interfere (ew_db w) db /\ w' = set_ew_db (fun _ => db) w.

#[export] Instance undisturbed_preorder `{Prisma} now i interfere : PreOrder (undisturbed now i interfere).
Proof. unfold undisturbed. typeclasses eauto. Qed.
#[export] Instance idle_preorder `{Prisma} now i interfere : PreOrder (idle now i interfere).
Proof.
  split; [intros w; exists (ew_db w); by rewrite set_ew_db_same|].
  intros a b c (d1 & O1 & ->) (d2 & O2 & ->). exists d2. split; [by transitivity d1|done].
Qed.

Lemma others_undisturbed `{Prisma} now i interfere db db' : others interfere db db' -> undisturbed now i interfere db db'.
Proof. apply rtc_subrel. by left. Qed.
Lemma waited_idle `{Prisma} now i interfere w w' : waited interfere w w' -> idle now i interfere w w'.
Proof. intros (db & O & ->). exists db. split; [by apply others_undisturbed|done]. Qed.

Lemma idle_undisturbed `{Prisma} now i interfere w w' :
  idle now i interfere w w' -> undisturbed now i interfere (ew_db w) (ew_db w').
Proof. by intros (db & O & ->). Qed.

(** A note is no evidence: it changes no claim, no claim event and no dispatch
    record, and no intent's status. *)
Lemma note_harmless `{PrismaLaws} now i db db' j : recovery_note now i db db' ->
  claims db' = claims db /\ claimEvents db' = claimEvents db /\
  loadEntryDispatchRecords j db' = loadEntryDispatchRecords j db /\
  map (fun x => (oi_id x, oi_status x)) (orderIntents db') = map (fun x => (oi_id x, oi_status x)) (orderIntents db).
Proof.
  intros [d|d l Hl].
  - unfold record_progress. rewrite update_many_eq. cbn. do 3 (split; [done|]). rewrite map_map. apply map_ext.
    intros x. by destruct (still_submitting i x).
  - do 2 (split; [done|]). split; [|done]. unfold loadEntryDispatchRecords. cbn -[member count]. f_equal. rewrite !count_eq. do 2 f_equal.
    rewrite filterb_app, (filterb_none _ l), app_nil_r; [done|].
    intros e He. by rewrite (Hl e He), andb_false_r.
Qed.

(** No order at the broker under the client order id, no dispatch record, and a
    held claim without any recorded outcome that never reached the submission,
    or that a worker of the marker protocol claimed without writing a marker. *)
Record never_sent `{Prisma} `{EntryBroker} (now : Z) (interfere : nat -> Db -> Db) (account : Z) (i : OrderIntent)
    (w : EntryWorld) : Prop := {
  ns_absent : exists k w', oi_clientOrderId i = Some k /\ k <> "" /\ idle now (oi_id i) interfere w w' /\
    entry_order_by_client_id 30 account k w' = Ok None;
  ns_untraced : exists db, undisturbed now (oi_id i) interfere (ew_db w) db /\
    rec_present (loadEntryDispatchRecords (oi_id i) db) = false;
  ns_claim : exists db c, undisturbed now (oi_id i) interfere (ew_db w) db /\ In c (claims db) /\
    by_intent (oi_id i) c = true /\ cl_releasedAt c = None /\
    exists db', undisturbed now (oi_id i) interfere db db' /\ let s := claim_summary db' (cl_id c) in
      sum_outcomes s = [] /\
      (cl_status c = "ENTRY_PENDING" \/ cl_status c = "ADMISSION_BLOCKED" \/
       cl_status c = "ENTRY_SUBMITTING" /\ sum_markerProtocol s = true /\ sum_adapterMarkers s = 0);
  ns_submitting : exists db x, undisturbed now (oi_id i) interfere (ew_db w) db /\ In x (orderIntents db) /\
    oi_id x = oi_id i /\ oi_status x = "submitting"
}.

(** An exit is given up when its recorded delivery is definite. *)
Definition definite_exit (i : OrderIntent) : Prop :=
  match getRecordedDeliveryClassification (oi_blockReason i) with
  | Some c => member c ["NOT_SENT_RETRYABLE"; "NOT_SENT_BLOCKED"; "BROKER_REJECTED"] = true
  | None => False
  end.

(** What one item adds to the counters, told by how its body ended. *)
Inductive item_counted (i : Z) (evidence : Prop) (c : StaleCounts) : res unit -> StaleCounts -> Prop :=
| item_linked : item_counted i evidence c (Ok tt) (add_linked c)
| item_retryable : evidence -> item_counted i evidence c (Ok tt) (add_retryable c)
| item_retained : item_counted i evidence c (Ok tt) (add_retained c)
| item_failed e : item_counted i evidence c (Throw e) (add_failure i e (add_retained c))
| item_linked_failed e : item_counted i evidence c (Throw e) (add_failure i e (add_retained (add_linked c))).

Section Recovery.
Context `{PrismaLaws} `{B : EntryBroker} `{S : EntryServices} `{!EntryServicesLaws S}.
Variable now : Z.
Variable interfere : nat -> Db -> Db.
Variable outage : nat -> Db -> option js_error.
Variable i : OrderIntent.
Hypothesis others_retain : forall n db, retains (oi_id i) db (interfere n db).

#[local] Instance session_retains : Respects (retains (oi_id i)) now interfere.
Proof. by apply retains_respects. Qed.
#[local] Instance session_forward : Respects forward now interfere.
Proof. apply forward_respects. intros n db. apply others_retain. Qed.

Lemma wp_in_run {A} (m : eff EntryWorld A) Q s :
  wp m (fun r w => Q r {| rr_world := w; rr_counts := rr_counts s |}) (rr_world s) -> wp (in_run m) Q s.
Proof. unfold wp, in_run. by destruct (m (rr_world s)). Qed.

(** ** Up to the judgement *)

Lemma progress_idle : moves (undisturbed now (oi_id i) interfere) (record_progress now (oi_id i)).
Proof.
  intros db. apply rtc_once. right. apply note_progress.
Qed.

Lemma observe_idle t e : member t DISPATCH_OPPORTUNITY_EVENT_TYPES = false ->
  moves (idle now (oi_id i) interfere) (observe i t e).
Proof.
  intros Ht w. unfold observe. destruct (append_only None (Some (oi_id i)) t (JObj e) w) as (l & -> & Hl).
  eexists. split; [|done]. apply rtc_once. right. apply note_observed. intros x Hx. by rewrite (Hl x Hx).
Qed.

Lemma require_idle id : moves (idle now (oi_id i) interfere) (db_call interfere outage 2000 (requireEntryExposureClaim id true)).
Proof.
  intros w. apply waited_idle. revert w. apply db_call_waits. unfold requireEntryExposureClaim.
  pose proof (find_claim_waits interfere). solve_moves.
Qed.

(** The lookup waits, and an answer it gives was the broker's. *)
Lemma lookup_wp account k w :
  wp (lookup_order now interfere outage i account k)
    (fun r w' => idle now (oi_id i) interfere w w' /\
       forall o, r = Ok (Some o) -> exists w1, idle now (oi_id i) interfere w w1 /\ entry_order_by_client_id 30 account k w1 = Ok o) w.
Proof.
  unfold lookup_order. apply wp_try_catch, wp_bind, (wp_moves (idle now (oi_id i) interfere)).
  { intros w1. unfold db_call, mbind, eff_bind, step. set (w2 := set_ew_db _ w1).
    assert (I2 : idle now (oi_id i) interfere w1 w2) by (apply waited_idle; eexists; split; [apply others_once|done]).
    destruct (outage _ _); [done|]. transitivity w2; [done|]. unfold run_db.
    pose proof (progress_idle (ew_db w2)). exists (snd (record_progress now (oi_id i) (ew_db w2))).
    split; [done|]. by destruct (record_progress _ _ (ew_db w2)). }
  assert (Hfail : forall e w1, idle now (oi_id i) interfere w w1 ->
    wp (_ ← observe i "RECOVERY_INCONCLUSIVE" [("source", JStr "stale_submitting_lookup")]; throw e)
      (fun r w' => idle now (oi_id i) interfere w w' /\ forall o, r = Ok (Some o) -> exists w1, idle now (oi_id i) interfere w w1 /\
         entry_order_by_client_id 30 account k w1 = Ok o) w1).
  { intros e w1 I1. apply wp_bind, (wp_moves (idle now (oi_id i) interfere)); [by apply observe_idle|].
    intros [[]|e'] w2 I2; (split; [by transitivity w1|done]). }
  intros [[|]|e] w1 I1; cbn [negb]; [|split; done|by apply Hfail].
  apply wp_bind, wp_lift. destruct (entry_order_by_client_id 30 account k w1) as [o|e] eqn:E; [|by apply Hfail].
  split; [done|]. intros o' [= <-]. by exists w1.
Qed.

(** ** The judgement *)

Lemma judge_facts records db db' :
  judge_stale_entry now interfere i records db = (Ok STALE_NOT_SENT, db') ->
  rec_present records = false /\
  (exists c, In c (claims db) /\ by_intent (oi_id i) c = true /\ cl_releasedAt c = None /\
     let s := claim_summary (interfere 280 db) (cl_id c) in
     sum_outcomes s = [] /\
     (cl_status c = "ENTRY_PENDING" \/ cl_status c = "ADMISSION_BLOCKED" \/
      cl_status c = "ENTRY_SUBMITTING" /\ sum_markerProtocol s = true /\ sum_adapterMarkers s = 0)) /\
  exists x, In x (orderIntents (interfere 281 (interfere 280 db))) /\ oi_id x = oi_id i /\ oi_status x = "submitting".
Proof.
  unfold judge_stale_entry, find_claim. intros E.
  apply eff_bind_ok in E as (claim & s & Ec & E). injection Ec as <- <-.
  apply eff_bind_ok in E as ([] & s & Ea & E). injection Ea as <-.
  apply eff_bind_ok in E as (sm & s & Es & E). injection Es as <- <-. cbv zeta in E.
  apply eff_bind_ok in E as ([] & s & Ea & E). injection Ea as <-.
  apply eff_bind_ok in E as (n & s & Eu & E).
  destruct (find_first (by_intent (oi_id i)) (claims db)) as [c|] eqn:Ef; [|done].
  apply find_first_some in Ef as [Hin Hby].
  destruct (negb (n =? 1) || is_some (cl_releasedAt c)) eqn:Eg; [done|].
  apply orb_false_iff in Eg as [En Er]. apply negb_false_iff, Z.eqb_eq in En as ->.
  cbn [option_map] in E. destruct (provenNotSent _ _ _) eqn:Ep.
  2: { apply eff_bind_ok in E as (? & ? & _ & E). apply eff_bind_ok in E as (? & ? & _ & E). discriminate E. }
  unfold provenNotSent in Ep. apply andb_prop in Ep as [Hr Ep]. apply negb_true_iff in Hr.
  apply andb_prop in Ep as [Ep Hst]. apply andb_prop in Ep as [_ Ho]. split; [done|]. split.
  - exists c. split; [done|]. split; [done|]. split; [by destruct (cl_releasedAt c)|]. cbv zeta.
    split; [apply Nat.eqb_eq in Ho; by destruct (sum_outcomes _)|].
    apply orb_prop in Hst as [Hm|Hm].
    + cbn in Hm. apply orb_true_iff in Hm as [->%String.eqb_eq|Hm]; [by left|].
      apply orb_true_iff in Hm as [->%String.eqb_eq|Hm]; [by right; left|discriminate Hm].
    + apply andb_prop in Hm as [Hm Hz]. apply andb_prop in Hm as [->%String.eqb_eq Hp]. right; right.
      split; [done|]. split; [done|]. by apply Z.eqb_eq.
  - set (db2 := interfere 281 (interfere 280 db)) in *. unfold update_order_intents in Eu.
    rewrite update_many_eq in Eu. injection Eu as En _.
    destruct (filterb _ (orderIntents db2)) as [|x l] eqn:Ex; [done|].
    assert (Hx : In x (filterb (still_submitting (oi_id i)) (orderIntents db2))) by (rewrite Ex; by left).
    apply filterb_In in Hx as [Hx (Hid%Z.eqb_eq & Hs%String.eqb_eq)%andb_prop]. by exists x.
Qed.

Definition absent_at (account : Z) (w : EntryWorld) : Prop :=
  exists k w', oi_clientOrderId i = Some k /\ k <> "" /\ idle now (oi_id i) interfere w w' /\
    entry_order_by_client_id 30 account k w' = Ok None.

Lemma waited_retains w w' : waited interfere w w' -> unposted (retains (oi_id i)) w w'.
Proof.
  intros (db' & O & ->). split; [|done]. cbn [ew_db set_ew_db].
  induction O as [db|db db1 db2 [n ->] _ IH]; [reflexivity|]. etransitivity; [apply others_retain|exact IH].
Qed.

(** An entry without an order: its claim stays held, unless it was never sent. *)
Lemma recover_entry_wp account w0 w : idle now (oi_id i) interfere w0 w -> absent_at account w0 ->
  wp (recover_entry now interfere outage i)
    (fun r w' => r <> Ok true /\ unposted (retains (oi_id i)) w w' \/
                 never_sent now interfere account i w0 /\ unposted forward w w') w.
Proof.
  intros I0 Ha. unfold recover_entry. apply wp_bind, read_wp. intros [records|e] w1 W1 E1.
  2: { left. split; [done|]. by apply waited_retains. }
  specialize (E1 _ eq_refl) as ->. pose proof (waited_retains _ _ W1) as U1.
  set (records := loadEntryDispatchRecords (oi_id i) (ew_db w1)).
  pose proof (db_transaction_R (R := retains (oi_id i)) (now := now) outage 2031 _
    (judge_stale_R (R := retains (oi_id i)) i records) w1) as U2.
  pose proof (db_transaction_ok (interfere := interfere) outage 2031 (judge_stale_entry now interfere i records) w1) as Hok.
  apply wp_bind. unfold wp at 1. destruct (db_transaction _ _ _ _ w1) as [[d|e] w2]; cbn [fst snd] in *.
  2: { left. split; [done|]. by transitivity w1. }
  assert (U : unposted (retains (oi_id i)) w w2) by by transitivity w1.
  destruct d as [| |outcome].
  - by left.
  - right. destruct (Hok _ _ eq_refl) as (db' & Ej). apply judge_facts in Ej as (Hr & (c & Hc) & (x & Hx)). split.
    + assert (Iw : undisturbed now (oi_id i) interfere (ew_db w0) (ew_db w1))
        by (transitivity (ew_db w); [by apply idle_undisturbed|by apply others_undisturbed, waited_others]).
      assert (I2 : forall n db, undisturbed now (oi_id i) interfere db (interfere n db))
        by (intros; apply others_undisturbed, others_once).
      assert (I3 : undisturbed now (oi_id i) interfere (ew_db w0) (interfere 2031 (ew_db w1))) by (etransitivity; [exact Iw|apply I2]).
      split; [done|by exists (ew_db w1)| |].
      * exists (interfere 2031 (ew_db w1)), c. destruct Hc as (Hin & Hby & Hrel & Hs).
        repeat (split; [done|]). by exists (interfere 280 (interfere 2031 (ew_db w1))).
      * exists (interfere 281 (interfere 280 (interfere 2031 (ew_db w1)))), x. split; [|done].
        etransitivity; [exact I3|]. etransitivity; apply I2.
    + assert (Uf : unposted forward w w2) by (destruct U as [[F _] P']; by split).
      pose proof (release_or_route_R (R := forward) (now := now) (interfere := interfere) outage) as Hrel.
      etransitivity; [exact Uf|]. revert w2 Hok U2 U Uf. intros w2 _ _ _ _. apply moves_bind; [exact _|apply Hrel|].
      intros r. apply moves_ret. exact _.
  - left. pose proof (emit_R (R := retains (oi_id i)) (now := now) (interfere := interfere) outage) as He.
    unfold wp, mbind, eff_bind. specialize (He outcome "DISPATCH_OUTCOME_UNKNOWN" w2).
    destruct (emitDispatchOutcomeRecorded _ _ _ _ w2) as [[[]|e] w3]; (split; [done|by transitivity w2]).
Qed.

(** ** The whole item *)

(** The waiting of the recovery moves nothing the intent holds. *)
Definition waits (w w' : EntryWorld) : Prop := idle now (oi_id i) interfere w w' /\ unposted (retains (oi_id i)) w w'.

Lemma waits_trans a b c : waits a b -> waits b c -> waits a c.
Proof. intros [I1 U1] [I2 U2]. split; [by transitivity b|by transitivity b]. Qed.

Lemma exit_definite x account w w' : st_intent x = i ->
  recover_exit now interfere outage x account w = (Ok true, w') -> definite_exit i.
Proof.
  unfold recover_exit, definite_exit. intros ->.
  destruct (getRecordedDeliveryClassification (oi_blockReason i)) as [c|]; cbv zeta.
  - destruct (member c _); [done|]. intros (? & ? & _ & E)%eff_bind_ok. discriminate E.
  - intros (? & ? & _ & E)%eff_bind_ok. discriminate E.
Qed.

Lemma exit_wp x account w : st_intent x = i ->
  wp (recover_exit now interfere outage x account)
    (fun r w' => unposted (retains (oi_id i)) w w' /\ (r = Ok true -> definite_exit i)) w.
Proof.
  intros Hx. pose proof (recover_exit_R (R := retains (oi_id i)) (now := now) (interfere := interfere) outage x account w) as U.
  pose proof (exit_definite x account w) as Hd. unfold wp.
  destruct (recover_exit _ _ _ _ _ w) as [r w']. cbn [fst snd]. split; [exact U|]. intros ->. by apply (Hd w').
Qed.

Definition recovery_evidence (account : Z) (w : EntryWorld) : Prop :=
  if isExitIntent i then definite_exit i else never_sent now interfere account i w.

(** The claim stays held, or the entry was never sent. *)
Definition held_or_never_sent (account : Z) (w w' : EntryWorld) : Prop :=
  unposted (retains (oi_id i)) w w' \/
  isExitIntent i = false /\ oi_liveEntryAcceptanceRunId i = None /\ never_sent now interfere account i w /\
  unposted forward w w'.

Definition item_done (account : Z) (s : RecoveryRun) (r : res unit) (s' : RecoveryRun) : Prop :=
  held_or_never_sent account (rr_world s) (rr_world s') /\
  match r with
  | Ok _ => item_counted (oi_id i) (recovery_evidence account (rr_world s)) (rr_counts s) (Ok tt) (rr_counts s')
  | Throw _ => rr_counts s' = rr_counts s \/ rr_counts s' = add_linked (rr_counts s)
  end.

Lemma local_done account persisted w s : unposted (retains (oi_id i)) w (rr_world s) ->
  wp (link_local now interfere outage i persisted)
    (item_done account {| rr_world := w; rr_counts := rr_counts s |}) s.
Proof.
  intros U. pose proof (found_observed_R (R := retains (oi_id i)) (now := now) (interfere := interfere)) as Ho.
  pose proof (fun b => still_R (R := retains (oi_id i)) (now := now) (oi_id i) (Some "submitted") b eq_refl) as Hs.
  unfold link_local. apply wp_bind, wp_in_run, (wp_moves (unposted (retains (oi_id i)))); [solve_entry|].
  intros [n|e] w1 U1; [|split; [left; by transitivity (rr_world s)|by left]].
  apply wp_bind, wp_modify. destruct (isExitIntent i) eqn:Ei.
  { split; [left; by transitivity (rr_world s)|]. apply item_linked. }
  apply wp_bind, wp_in_run, (wp_moves (unposted (retains (oi_id i)))); [solve_entry|].
  intros [c|e] w2 U2; (split; [left; cbn; etransitivity; [exact U|]; by transitivity w1|]).
  - apply item_linked.
  - by right.
Qed.

Lemma kept_done account w s s' f :
  unposted (retains (oi_id i)) w (rr_world s') -> rr_counts s' = rr_counts s ->
  (f = add_linked \/ f = add_retained) ->
  wp (counting f) (item_done account {| rr_world := w; rr_counts := rr_counts s |}) s'.
Proof.
  intros U E Hf. apply wp_modify. split; [by left|]. cbn. rewrite E. destruct Hf as [-> | ->]; constructor.
Qed.

Lemma absent_done account w s x k : st_intent x = i -> oi_liveEntryAcceptanceRunId i = None -> waits w (rr_world s) ->
  oi_clientOrderId i = Some k -> k <> "" ->
  (exists w1, idle now (oi_id i) interfere w w1 /\ entry_order_by_client_id 30 account k w1 = Ok None) ->
  wp (retryable ← in_run (if isExitIntent i then recover_exit now interfere outage x account
                          else recover_entry now interfere outage i); counted retryable)
    (item_done account {| rr_world := w; rr_counts := rr_counts s |}) s.
Proof.
  intros Hx Hacc [I0 U0] Hk Hne (w1 & I1 & E1). apply wp_bind, wp_in_run.
  pose proof (recover_entry_wp account w (rr_world s) I0 (ex_intro _ k (ex_intro _ w1 (conj Hk (conj Hne (conj I1 E1)))))) as Hen.
  unfold item_done, recovery_evidence, held_or_never_sent. destruct (isExitIntent i) eqn:Ei.
  - eapply wp_mono; [by apply exit_wp|]. intros [[|]|e] w' [U Hd]; unfold counted.
    + apply wp_modify. split; [left; cbn; by transitivity (rr_world s)|]. apply item_retryable. by apply Hd.
    + apply wp_modify. split; [left; cbn; by transitivity (rr_world s)|]. apply item_retained.
    + split; [left; cbn; by transitivity (rr_world s)|by left].
  - eapply wp_mono; [apply Hen|]. clear Hen. intros r w' [[Hr U]|[Hn F]].
    + assert (U' : unposted (retains (oi_id i)) w w') by by transitivity (rr_world s).
      destruct r as [[|]|e]; unfold counted; [done|apply wp_modify|]; (split; [by left|]); [apply item_retained|by left].
    + assert (F' : unposted forward w w') by (transitivity (rr_world s); [destruct U0 as [[F0 _] P0]; by split|done]).
      destruct r as [[|]|e]; unfold counted; [apply wp_modify..|]; (split; [by right|]);
        [by apply item_retryable|apply item_retained|by left].
Qed.

Lemma waits_run {A} (m : eff EntryWorld A) (f : A -> eff RecoveryRun unit) account w s :
  moves waits m -> waits w (rr_world s) ->
  (forall a s', waits w (rr_world s') -> rr_counts s' = rr_counts s ->
     wp (f a) (item_done account {| rr_world := w; rr_counts := rr_counts s |}) s') ->
  wp (in_run m ≫= f) (item_done account {| rr_world := w; rr_counts := rr_counts s |}) s.
Proof.
  intros Hm W Hf. apply wp_bind, wp_in_run, (wp_moves waits); [done|]. intros [a|e] w1 W1.
  - apply Hf; [by apply (waits_trans _ (rr_world s))|done].
  - split; [left; apply (waits_trans _ _ _ W W1)|by left].
Qed.

Lemma require_waits : moves waits (_ ← db_call interfere outage 2000 (requireEntryExposureClaim (oi_id i) true); mret tt).
Proof.
  intros w. split.
  - revert w. apply moves_bind; [exact _|apply require_idle|]. intros c. apply moves_ret. exact _.
  - revert w. change (moves (unposted (retains (oi_id i))) (_ ← db_call interfere outage 2000 (requireEntryExposureClaim (oi_id i) true); mret tt)).
    solve_entry.
Qed.

Lemma observe_waits t e : member t DISPATCH_OPPORTUNITY_EVENT_TYPES = false -> moves waits (observe i t e).
Proof.
  intros Ht w. split; [by apply observe_idle|]. apply (observe_R (R := retains (oi_id i)) (now := now) (interfere := interfere)).
Qed.

Lemma stale_item_done account x s : st_intent x = i ->
  wp (recover_stale_intent now interfere outage account x) (item_done account s) s.
Proof.
  intros Hx. destruct s as [w c]. unfold recover_stale_intent. rewrite Hx.
  assert (W0 : waits w w) by (split; reflexivity).
  assert (Hretained : forall w' s', waits w (rr_world s') -> rr_counts s' = c -> w' = w ->
    wp (counting add_retained) (item_done account {| rr_world := w; rr_counts := c |}) s').
  { intros _ s' [_ U] E _. apply (kept_done account w {| rr_world := w; rr_counts := c |}); auto. }
  destruct (oi_clientOrderId i) as [k|] eqn:Hk; [|by apply (Hretained w)].
  destruct (String.eqb k "") eqn:Ek; [apply String.eqb_eq in Ek as ->; by apply (Hretained w)|].
  apply String.eqb_neq in Ek. destruct k as [|a k']; [done|]. set (k := String a k') in *.
  assert (Hrest : forall s', waits w (rr_world s') -> rr_counts s' = c ->
    wp (match st_brokerOrder x with
        | Some persisted => link_local now interfere outage i persisted
        | None =>
            found ← in_run (lookup_order now interfere outage i account k);
            match found with
            | None => counting add_retained
            | Some (Some o) => _ ← in_run (link_found now interfere outage i account k o); counting add_linked
            | Some None =>
                _ ← in_run (observe i "RECOVERY_ABSENCE_CONFIRMED"
                      [("source", JStr "broker_lookup"); ("clientOrderId", JStr k)]);
                match oi_liveEntryAcceptanceRunId i with
                | Some runId => _ ← in_run (retain_acceptance now interfere outage i account runId); counting add_retained
                | None =>
                    retryable ← in_run (if isExitIntent i then recover_exit now interfere outage x account
                                        else recover_entry now interfere outage i);
                    counted retryable
                end
            end
        end) (item_done account {| rr_world := w; rr_counts := c |}) s').
  { intros s1 W1 E1. destruct (st_brokerOrder x) as [o|].
    { pose proof (local_done account o w s1 (proj2 W1)) as Hl. by rewrite E1 in Hl. }
    apply wp_bind, wp_in_run.
    pose proof (lookup_R (R := retains (oi_id i)) (now := now) (interfere := interfere) outage i account k (rr_world s1)) as U2.
    pose proof (lookup_wp account k (rr_world s1)) as Hl. unfold wp at 1 in Hl. unfold wp at 1.
    destruct (lookup_order _ _ _ _ _ _ (rr_world s1)) as [r w2]. cbn [fst snd] in *. destruct Hl as [I2 Hl].
    assert (W2 : waits w w2) by (apply (waits_trans _ _ _ W1); by split).
    destruct r as [[[o|]|]|e].
    - pose proof (link_found_R (R := retains (oi_id i)) (now := now) (interfere := interfere) outage i account k o) as U3.
      apply wp_bind, wp_in_run, (wp_moves (unposted (retains (oi_id i)))); [done|].
      intros [[]|e] w3 U3'; cbn; cbn in U3'.
      + apply (kept_done account w {| rr_world := w; rr_counts := c |}); [|done|by left]. transitivity w2; [apply W2|done].
      + split; [left; transitivity w2; [apply W2|done]|by left].
    - destruct (Hl None eq_refl) as (w1 & J1 & A1).
      replace c with (rr_counts {| rr_world := w2; rr_counts := rr_counts s1 |}) by done.
      apply waits_run; [by apply observe_waits|done|]. intros [] s3 W3 E3. cbn in E3.
      destruct (oi_liveEntryAcceptanceRunId i) as [runId|] eqn:Hacc.
      + pose proof (retain_acceptance_R (R := retains (oi_id i)) (now := now) (interfere := interfere) outage i account runId) as U4.
        apply wp_bind, wp_in_run, (wp_moves (unposted (retains (oi_id i)))); [done|].
        intros [[]|e] w4 U4'.
        * apply (kept_done account w {| rr_world := w; rr_counts := rr_counts s1 |}); [|done|by right].
          transitivity (rr_world s3); [apply W3|done].
        * split; [left; cbn; transitivity (rr_world s3); [apply W3|done]|by left].
      + replace (rr_counts {| rr_world := w2; rr_counts := rr_counts s1 |}) with (rr_counts s3) by done.
        apply (absent_done account w s3 x k); try done. exists w1. split; [|done]. transitivity (rr_world s1); [apply W1|done].
    - by apply (Hretained w).
    - split; [left; apply W2|by left]. }
  destruct (isExitIntent i) eqn:Ei.
  - apply wp_bind. apply Hrest; done.
  - apply (waits_run _ _ account w {| rr_world := w; rr_counts := c |}); [apply require_waits|done|].
    intros [] s1 W1 E1. by apply Hrest.
Qed.
End Recovery.

(** An item always ends, its failure isolated. *)
Lemma isolated_done `{PrismaLaws} `{B : EntryBroker} `{S : EntryServices} (HS : EntryServicesLaws S) now interfere outage
    account x s (i := st_intent x) : (forall n db, retains (oi_id i) db (interfere n db)) ->
  wp (recover_isolated now interfere outage account x)
    (fun r s' => r = Ok tt /\ held_or_never_sent now interfere i account (rr_world s) (rr_world s') /\
       item_counted (oi_id i) (recovery_evidence now interfere i account (rr_world s)) (rr_counts s)
         (fst (recover_stale_intent now interfere outage account x s)) (rr_counts s')) s.
Proof.
  intros Hr. unfold recover_isolated. apply wp_try_catch.
  pose proof (stale_item_done now interfere outage i Hr account x s eq_refl) as Hd. unfold wp at 1 in Hd. unfold wp at 1.
  destruct (recover_stale_intent now interfere outage account x s) as [[[]|e] s1]; cbn [fst snd] in *;
    destruct Hd as [H1 H2]; [done|]. apply wp_bind, wp_modify. apply wp_in_run.
  pose proof (session_retains now interfere i Hr) as HR. cbv zeta.
  pose proof (best_effort_event_R (R := retains (oi_id i)) (now := now) outage 2040
    "order.submission_recovery_action_required" "orderIntent"
    (oi_id i) (Some account) (recoveryDeferredSeverity (st_environment x)) None
    (JObj [("clientOrderId", jopt JStr (oi_clientOrderId i)); ("side", JStr (oi_side i));
           ("recovery", JStr "intent_isolated"); ("error", JStr (error_message e))]) (rr_world s1)) as U.
  destruct (best_effort_total interfere outage 2040 "order.submission_recovery_action_required" "orderIntent"
    (oi_id i) (Some account) (recoveryDeferredSeverity (st_environment x)) None
    (JObj [("clientOrderId", jopt JStr (oi_clientOrderId i)); ("side", JStr (oi_side i));
           ("recovery", JStr "intent_isolated"); ("error", JStr (error_message e))]) (rr_world s1)) as ([] & w2 & E).
  unfold wp. cbn [rr_world rr_counts] in *. subst i. rewrite E in *. cbn [fst snd] in *. split; [done|]. split.
  - destruct H1 as [H1|(A1 & A2 & A3 & A4)]; [left; by transitivity (rr_world s1)|right].
    do 3 (split; [done|]). transitivity (rr_world s1); [done|]. destruct U as [[F _] P']. by split.
  - destruct H2 as [-> | ->]; constructor.
Qed.

(** C5. The recovery of a stale intent releases nothing that may have been
    sent. Whatever fails and whatever other sessions do, the recovery of one
    stale intent ends, hands nothing to the broker adapter and counts once as
    linked, retryable or retained; when its body throws it is retained, after
    the order was linked as well, and reported under its id with that error. The
    claim of its entry stays held unless the broker
    answered that it has no order under the client order id, no dispatch record
    exists, no delivery outcome was ever recorded on the held claim, and the
    claim never reached the submission or a worker of the marker protocol
    claimed it and wrote no adapter marker - all of it read where only other
    sessions, the recovery's own progress mark and telemetry of a lookup had
    changed the database. Only on that evidence does an entry
    count as retryable, and an exit only when its recorded delivery is a refusal
    to send or a rejection. Other sessions are assumed not to release the claim. *)
Theorem stale_release_sound `{PrismaLaws} `{B : EntryBroker} `{S : EntryServices} (HS : EntryServicesLaws S)
    now interfere outage account x s (i := st_intent x)
    (Hother : forall n db, retains (oi_id i) db (interfere n db)) :
  let '(r, s') := recover_isolated now interfere outage account x s in
  let evidence := never_sent now interfere account i (rr_world s) in
  r = Ok tt /\ ew_posts (rr_world s') = ew_posts (rr_world s) /\
  (holds_claim (oi_id i) (ew_db (rr_world s)) ->
     holds_claim (oi_id i) (ew_db (rr_world s')) \/
     isExitIntent i = false /\ oi_liveEntryAcceptanceRunId i = None /\ evidence) /\
  item_counted (oi_id i) (if isExitIntent i then definite_exit i else evidence) (rr_counts s)
    (fst (recover_stale_intent now interfere outage account x s)) (rr_counts s').
Proof.
  pose proof (isolated_done HS now interfere outage account x s Hother) as Hd. unfold wp in Hd.
  destruct (recover_isolated _ _ _ _ _ s) as [r s']. cbn [fst snd] in Hd. destruct Hd as (-> & Hh & Hc). cbv zeta.
  split; [done|]. split; [by destruct Hh as [[_ ?]|(_ & _ & _ & _ & ?)]|]. split; [|exact Hc].
  intros Hheld. destruct Hh as [[[_ Hk] _]|(H1 & H2 & H3 & _)]; [left; by apply Hk|by right].
Qed.

(** * Concrete inputs *)

Definition stale_entry (claim : string) : RecoveryRun :=
  {| rr_world := entry_world "submitting" claim;
     rr_counts := {| sc_linked := 0; sc_retryable := 0; sc_retained := 0; sc_failures := [] |} |}.
Definition stale_intent : StaleIntent :=
  {| st_intent := entry_intent "submitting"; st_brokerOrder := None; st_environment := Some "PAPER" |}.

#[local] Notation recovered claim :=
  (recover_isolated (H := in_order) (H0 := accepting_broker) (H1 := silent_services) 1704214800000 calm no_outage 7
     stale_intent (stale_entry claim)).

(** A claim that never reached the submission is released; a submitting one is
    kept. *)
Lemma stale_release_sound_witness :
  let '(_, s') := recovered "ADMISSION_BLOCKED" in
  map cl_releasedAt (claims (ew_db (rr_world s'))) = [Some 1704214800000] /\
  (holds_claim 31 (ew_db (rr_world s')) \/
   never_sent (H := in_order) (H0 := accepting_broker) 1704214800000 calm 7 (entry_intent "submitting")
     (rr_world (stale_entry "ADMISSION_BLOCKED"))).
Proof.
  pose proof (stale_release_sound (P := in_order) (B := accepting_broker) (S := silent_services) silent_services_laws
    1704214800000 calm no_outage 7 stale_intent (stale_entry "ADMISSION_BLOCKED")) as Hs.
  assert (E : map cl_releasedAt (claims (ew_db (rr_world (snd (recovered "ADMISSION_BLOCKED"))))) = [Some 1704214800000])
    by (vm_compute; reflexivity).
  destruct (recover_isolated _ _ _ _ _ _) as [r s']. split; [exact E|].
  destruct Hs as (_ & _ & Hk & _); [intros n db; cbn; reflexivity|].
  destruct Hk as [Hk|(_ & _ & Hk)]; [|by left|right; exact Hk].
  exists (entry_claim "ADMISSION_BLOCKED"). split; [by left|]. by vm_compute.
Defined.
