(* ===== verification/SubmittedSafety.v ===== *)
(** What the synchronization of submitted orders promises: the account's orders
    take turns, whatever happens to each of them, and its result and the next
    poll account for what was done. *)

From Stdlib Require Import ZArith Lia.
From Stdlib Require Import Strings.String.
From stdpp Require Import base list strings.
From S2P Require Import Prelude JsNumber JsValue JsDate MarketSession AdaptivePolling Prisma OrderStatus DeliveryEvidence.
From S2P Require Import Schema BrokerAccount ExposureClaim ExitWorld ExitState EntryWorld DispatchEvidence DispatchRecovery.
From S2P Require Import EntryMoves OrderWorker StaleRecovery SubmittedSync SyncMoves SyncOutcomes.
From S2P Require Import ExposureSafety SubmissionSafety WorkerSafety.

Open Scope string_scope.
Open Scope Z_scope.

Lemma synced_before_asym x y : synced_before x y = true -> synced_before y x = false.
Proof.
  unfold synced_before. destruct (oi_lastSubmittedOrderSyncAt x) as [a|], (oi_lastSubmittedOrderSyncAt y) as [b|]; try done; lia.
Qed.
Lemma synced_before_trans x y z : synced_before x y = false -> synced_before y z = false -> synced_before x z = false.
Proof.
  unfold synced_before. destruct (oi_lastSubmittedOrderSyncAt x) as [a|], (oi_lastSubmittedOrderSyncAt y) as [b|],
    (oi_lastSubmittedOrderSyncAt z) as [c|]; try done; lia.
Qed.

(** * Turns *)

Section Rotation.
Context `{PrismaLaws}.
Variable now : Z.
(** The intents of the batch, and their broker orders. *)
Variable ids : list Z.
Variable linked : list BrokerOrder.
Hypothesis linked_ids : forall b, In b linked -> In (bo_orderIntentId b) ids.

Definition intent_turns (i i' : OrderIntent) : Prop :=
  oi_id i' = oi_id i /\ oi_createdAt i' = oi_createdAt i /\
  (oi_lastSubmittedOrderSyncAt i' = oi_lastSubmittedOrderSyncAt i \/ oi_lastSubmittedOrderSyncAt i' = Some now) /\
  (~ In (oi_id i) ids -> i' = i).
Definition order_turns (o o' : BrokerOrder) : Prop :=
  bo_id o' = bo_id o /\ bo_orderIntentId o' = bo_orderIntentId o /\ (~ In (bo_orderIntentId o) ids -> o' = o).

(** The rows under the batch's broker order ids are the batch's. *)
Definition well_linked (db : Db) : Prop := forall b r, In b linked -> In r (brokerOrders db) -> bo_id r = bo_id b ->
  bo_orderIntentId r = bo_orderIntentId b.

(** Positions stay, intents and orders outside the batch stay, and those in it
    are at most synchronized now. *)
Record turned (db db' : Db) : Prop := {
  tn_positions : trackedPositions db' = trackedPositions db;
  tn_intents : Forall2 intent_turns (orderIntents db) (orderIntents db');
  tn_orders : Forall2 order_turns (brokerOrders db) (brokerOrders db')
}.
Definition turns (db db' : Db) : Prop := well_linked db -> well_linked db' /\ turned db db'.

Lemma intent_turns_refl i : intent_turns i i.
Proof. repeat split; auto. Qed.
Lemma order_turns_refl o : order_turns o o.
Proof. repeat split; auto. Qed.
Lemma intent_turns_trans i j k : intent_turns i j -> intent_turns j k -> intent_turns i k.
Proof.
  intros (E1 & C1 & L1 & S1) (E2 & C2 & L2 & S2). split; [congruence|]. split; [congruence|].
  split; [destruct L2 as [->|]; [done|by right]|]. intros Hi. rewrite S2; [by apply S1|by rewrite E1].
Qed.
Lemma order_turns_trans i j k : order_turns i j -> order_turns j k -> order_turns i k.
Proof.
  intros (E1 & C1 & S1) (E2 & C2 & S2). split; [congruence|]. split; [congruence|].
  intros Hi. rewrite S2; [by apply S1|by rewrite C1].
Qed.

(** A database with the same rows has turned. *)
Definition same_rows (db db' : Db) : Prop :=
  trackedPositions db' = trackedPositions db /\ orderIntents db' = orderIntents db /\ brokerOrders db' = brokerOrders db.
Lemma same_turned db db' : same_rows db db' -> turns db db'.
Proof.
  intros (Ep & Ei & Eo) Hl. split; [unfold well_linked; by rewrite Eo|].
  split; [done|rewrite Ei; apply Forall2_refl_of, intent_turns_refl|rewrite Eo; apply Forall2_refl_of, order_turns_refl].
Qed.

#[export] Instance turns_preorder : PreOrder turns.
Proof.
  split; [by intros db; apply same_turned|]. intros a b c H1 H2 Ha. destruct (H1 Ha) as [Hb [P1 I1 O1]].
  destruct (H2 Hb) as [Hc [P2 I2 O2]]. split; [done|]. split; [congruence| |].
  - by apply (Forall2_trans_of _ intent_turns_trans _ (orderIntents b)).
  - by apply (Forall2_trans_of _ order_turns_trans _ (brokerOrders b)).
Qed.

Lemma update_claims_same w d db : same_rows db (snd (update_claims w d db)).
Proof. unfold update_claims. destruct (position_taken w d db); [done|]. by destruct (update_many w (apply_data d) (claims db)). Qed.

#[export] Instance turns_releases : RespectsReleases turns now.
Proof. split. intros w r db. apply same_turned, update_claims_same. Qed.

Lemma turns_claims interfere : (forall n db, same_rows db (interfere n db)) -> RespectsClaims turns now interfere.
Proof.
  intros Ho. split; [exact _| | |].
  - intros f db. by apply same_turned.
  - intros n db. by apply same_turned.
  - intros w d _ db. apply same_turned, update_claims_same.
Qed.

Lemma Forall2_update {A} (Q : A -> A -> Prop) (p : A -> bool) (f : A -> A) (l : list A) :
  (forall x, Q x x) -> (forall x, In x l -> p x = true -> Q x (f x)) -> Forall2 Q l (fst (update_many p f l)).
Proof.
  intros Hr Hf. rewrite update_many_eq. cbn [fst]. induction l as [|x l IH]; constructor.
  - destruct (p x) eqn:E; [by apply Hf; [left|]|done].
  - apply IH. intros y Hy. apply Hf. by right.
Qed.

(** Updates of intents of the batch turn. *)
Lemma intents_turn (p : OrderIntent -> bool) f db :
  (forall i, p i = true -> In (oi_id i) ids) ->
  (forall i, oi_id (f i) = oi_id i /\ oi_createdAt (f i) = oi_createdAt i /\
     (oi_lastSubmittedOrderSyncAt (f i) = oi_lastSubmittedOrderSyncAt i \/ oi_lastSubmittedOrderSyncAt (f i) = Some now)) ->
  turns db (set_orderIntents (fun _ => fst (update_many p f (orderIntents db))) db).
Proof.
  intros Hp Hf Hl. split; [done|]. split; [done| |apply Forall2_refl_of, order_turns_refl].
  apply Forall2_update; [apply intent_turns_refl|]. intros i _ Hi. destruct (Hf i) as (E & C & L).
  split; [done|]. split; [done|]. split; [done|]. intros Hn. by destruct Hn; apply Hp.
Qed.

Lemma stamp_turns id : In id ids -> moves turns (stamp_synced now id).
Proof.
  intros Hid db. unfold stamp_synced.
  pose proof (intents_turn (fun i => oi_id i =? id) (intent_synced now) db) as Ht.
  destruct (update_many _ _ _). apply Ht; [|by auto]. intros i ->%Z.eqb_eq. done.
Qed.

Lemma status_turns id s : In id ids -> moves turns (update_order_intent now id s None).
Proof.
  intros Hid. unfold update_order_intent. apply moves_bind; [typeclasses eauto| |].
  - intros db. unfold update_order_intents.
    pose proof (intents_turn (fun i => oi_id i =? id) (intent_data now s None) db) as Ht.
    destruct (update_many _ _ _). apply Ht; [|by auto]. intros i ->%Z.eqb_eq. done.
  - intros n. destruct (n =? 0); [apply moves_throw|apply moves_ret]; typeclasses eauto.
Qed.

Lemma mirror_turns b o : In b linked -> moves turns (mirror_order b o).
Proof.
  intros Hb db Hl. unfold mirror_order.
  assert (HF : Forall2 order_turns (brokerOrders db) (fst (update_many
    (fun r => (bo_id r =? bo_id b) && String.eqb (bo_status r) (bo_status b)) (order_observed o) (brokerOrders db)))).
  { apply Forall2_update; [apply order_turns_refl|]. intros r Hr [Er%Z.eqb_eq _]%andb_true_iff.
    split; [done|]. split; [done|]. intros Hn. destruct Hn. rewrite (Hl b r Hb Hr Er). by apply linked_ids. }
  destruct (update_many _ _ _) as [rows n]. cbn [fst snd] in *. split.
  - intros b' r' Hb' Hr' E. destruct (Forall2_In_r _ _ _ HF r' Hr') as (r & Hr & E1 & E2 & _). rewrite E2. apply Hl; [done..|congruence].
  - split; [done|cbn; apply Forall2_refl_of, intent_turns_refl|done].
Qed.
End Rotation.

Lemma turns_intro now ids linked db db' : turns now ids linked db db' -> well_linked linked db -> turned now ids db db'.
Proof. intros Ht Hl. by apply Ht. Qed.

(** The rows of an intent are synchronized now. *)
Definition stamped (now id : Z) (db : Db) : Prop :=
  forall i, In i (orderIntents db) -> oi_id i = id -> oi_lastSubmittedOrderSyncAt i = Some now.

Lemma turned_stamped now ids id db db' : turned now ids db db' -> stamped now id db -> stamped now id db'.
Proof.
  intros [_ Hi _] Hs i' Hi' E. destruct (Forall2_In_r _ _ _ Hi i' Hi') as (i & Hin & E1 & _ & [L|L] & _); [|done].
  rewrite L. apply Hs; [done|congruence].
Qed.

(** Other sessions leave the intents, the broker orders and the positions. *)
Definition quiet_session (x : Session) : Prop := forall n db, same_rows db (ss_interfere x n db).

Section Loop.
Context `{PrismaLaws} `{B : EntryBroker} `{W : OrderWorkerServices} `{K : SyncBroker}.
Variable now : Z.

(** Whatever happens after a program's first part. *)
Lemma caught_after {T A C} (R : T -> T -> Prop) `{!PreOrder R} (m : eff T A) (k : A -> eff T C) h s r s1 :
  m s = (r, s1) -> (forall x, moves R (k x)) -> (forall e, moves R (h e)) -> R s1 (snd (try_catch (m ≫= k) h s)).
Proof.
  intros E Hk Hh. unfold try_catch, mbind, eff_bind. rewrite E. destruct r as [x|e]; [|apply Hh].
  pose proof (Hk x s1) as H1. destruct (k x s1) as [[y|e] s2]; [done|]. etransitivity; [exact H1|apply Hh].
Qed.

Lemma stamp_stamps id db : stamped now id (snd (stamp_synced now id db)).
Proof.
  unfold stamp_synced. pose proof (update_many_In (fun i => oi_id i =? id) (intent_synced now) (orderIntents db)) as Hu.
  destruct (update_many _ _ _) as [rows n]. cbn [fst snd] in *. intros i Hi Ei. cbn in Hi. apply Hu in Hi as (y & Hy & ->).
  destruct (Z.eqb_spec (oi_id y) id) as [|Hne]; [done|]. by cbn in Ei.
Qed.

Variable ids : list Z.
Variable linked : list BrokerOrder.
Hypothesis linked_ids : forall b, In b linked -> In (bo_orderIntentId b) ids.

(** An item of the batch. *)
Record in_batch (x : SubmittedIntent) : Prop := {
  nb_id : In (oi_id (sm_intent x)) ids;
  nb_order : forall b, sm_brokerOrder x = Some b -> In b linked
}.

Lemma batch_respects x : in_batch x ->
  item_respects (R := turns now ids linked) (now := now) (fun _ => True) x.
Proof.
  intros [Hi Hb]. split; [by apply stamp_turns|]. intros b Eb o _. split; [by apply mirror_turns, Hb|].
  apply status_turns. by apply linked_ids, Hb.
Qed.

Lemma isolated_turns interfere outage a orders x s :
  (forall n db, same_rows db (interfere n db)) -> (forall db, outage 2200%nat db = None) -> in_batch x ->
  well_linked linked (ew_db (sy_entry s)) ->
  let s' := snd (sync_isolated now interfere outage a orders x s) in
  well_linked linked (ew_db (sy_entry s')) /\ turned now ids (ew_db (sy_entry s)) (ew_db (sy_entry s')) /\
  stamped now (oi_id (sm_intent x)) (ew_db (sy_entry s')).
Proof.
  intros Hq Hout Hx Hl s'. pose proof (turns_claims now ids linked interfere Hq) as HR.
  assert (Hall : moves (sync_moved (turns now ids linked)) (sync_isolated now interfere outage a orders x)).
  { apply (sync_isolated_R (R := turns now ids linked) outage (fun _ => True)); [done| |by apply batch_respects].
    by apply Forall_forall. }
  destruct (proj1 (Hall s) Hl) as [Hl' Ht]. split; [done|]. split; [done|].
  assert (Hfirst : exists r s1, in_sync (db_call interfere outage 2200 (stamp_synced now (oi_id (sm_intent x)))) s = (r, s1) /\
    ew_db (sy_entry s1) = snd (stamp_synced now (oi_id (sm_intent x)) (interfere 2200%nat (ew_db (sy_entry s))))).
  { unfold in_sync, EntryWorld.db_call, mbind, eff_bind, step. rewrite Hout. unfold run_db. cbn [ew_db set_ew_db].
    destruct (stamp_synced now (oi_id (sm_intent x)) (interfere 2200%nat (ew_db (sy_entry s)))) as [r db1].
    eexists _, _. split; [done|]. done. }
  destruct Hfirst as (r & s1 & E1 & Edb).
  assert (Hl1 : well_linked linked (ew_db (sy_entry s1))).
  { rewrite Edb. apply (proj1 (stamp_turns now ids linked _ (nb_id x Hx) _
      (proj1 (same_turned now ids linked _ _ (Hq 2200%nat _) Hl)))). }
  assert (Ht1 : sync_moved (turns now ids linked) s1 s').
  { unfold s', sync_isolated, sync_intent. apply (caught_after (sync_moved (turns now ids linked)) _ _ _ s r s1 E1).
    - intros []. apply (sync_evidence_R (R := turns now ids linked) outage (fun _ => True)); [done| |by apply batch_respects].
      by apply Forall_forall.
    - intros e. apply add_failure_R. typeclasses eauto. }
  apply (turned_stamped now ids _ (ew_db (sy_entry s1))); [by apply Ht1|]. rewrite Edb. apply stamp_stamps.
Qed.

Variable around : SyncSurroundings.
Hypothesis working_quiet : forall i, quiet_session (sx_working around i).
Hypothesis stamps_stored : forall i db, ss_outage (sx_working around i) 2200%nat db = None.

Lemma items_turn a orders l s : Forall in_batch l -> well_linked linked (ew_db (sy_entry s)) ->
  let s' := snd (sync_items now around a orders l s) in
  turned now ids (ew_db (sy_entry s)) (ew_db (sy_entry s')) /\
  Forall (fun x => stamped now (oi_id (sm_intent x)) (ew_db (sy_entry s'))) l.
Proof.
  intros Hb. revert s. induction Hb as [|x l Hx Hb IH]; intros s Hl.
  - split; [|constructor]. by apply (proj2 (same_turned now ids linked _ _ (conj eq_refl (conj eq_refl eq_refl)) Hl)).
  - cbn [sync_items]. set (session := sx_working around (oi_id (sm_intent x))).
    destruct (isolated_turns (ss_interfere session) (ss_outage session) a orders x s
      (working_quiet _) (stamps_stored _) Hx Hl) as (Hl1 & Ht1 & Hs1).
    pose proof (isolated_ok now a orders (ss_interfere session) (ss_outage session) x s) as Hok.
    unfold mbind, eff_bind. destruct (sync_isolated _ _ _ _ _ _ s) as [r s1]. cbn [fst snd] in *. subst r.
    destruct (IH s1 Hl1) as [Ht2 Hs2]. split; [|constructor; [|done]].
    + assert (T : turns now ids linked (ew_db (sy_entry s)) (ew_db (sy_entry (snd (sync_items now around a orders l s1))))).
      { transitivity (ew_db (sy_entry s1)); [by intros _|]. intros _. split; [|done].
        intros b r Hb' Hr. destruct (Forall2_In_r _ _ _ (tn_orders _ _ _ _ Ht2) r Hr) as (r0 & Hr0 & E1 & E2 & _).
        rewrite E1, E2. by apply Hl1. }
      by apply T.
    + by apply (turned_stamped now ids _ (ew_db (sy_entry s1))).
Qed.
End Loop.

(** * The account's orders take turns *)

Section Turns.
Context `{PrismaLaws}.

Definition batch_ids (l : list SubmittedIntent) : list Z := map (fun x => oi_id (sm_intent x)) l.
Definition batch_orders (l : list SubmittedIntent) : list BrokerOrder := omap sm_brokerOrder l.

(** An intent to be synchronized that does not wait behind [i]. *)
Definition ahead_of (account : Z) (db : Db) (i j : OrderIntent) : bool :=
  submittedOrderSyncIntentWhere account db j && negb (oi_id j =? oi_id i) && negb (synced_before i j).
Definition ahead (account : Z) (db : Db) (i : OrderIntent) : nat :=
  length (filterb (ahead_of account db i) (orderIntents db)).

Lemma same_where account db db' i : same_rows db db' ->
  submittedOrderSyncIntentWhere account db' i = submittedOrderSyncIntentWhere account db i.
Proof. intros (Ep & _ & Eo). unfold submittedOrderSyncIntentWhere, historical, orders_of, find_position. by rewrite Ep, Eo. Qed.
Lemma same_batch account db db' : same_rows db db' -> submitted_batch account db' = submitted_batch account db.
Proof.
  intros (Ep & Ei & Eo). unfold submitted_batch, submittedOrderSyncIntentWhere, historical, orders_of, find_position.
  by rewrite Ep, Ei, Eo.
Qed.

(** The batch is of intents to be synchronized, and of their own orders. *)
Lemma batch_intent account db x : In x (submitted_batch account db) ->
  In (sm_intent x) (orderIntents db) /\ submittedOrderSyncIntentWhere account db (sm_intent x) = true /\
  forall b, sm_brokerOrder x = Some b -> In b (brokerOrders db) /\ bo_orderIntentId b = oi_id (sm_intent x).
Proof.
  unfold submitted_batch. intros (i & <- & Hi)%in_map_iff. cbn [sm_intent sm_brokerOrder].
  apply take_In, (Permutation_in _ (sort_with_perm _ _)), find_many_In in Hi as [Hi Hw]. split; [done|]. split; [done|].
  intros b Hb. assert (Hin : In b (find_many (fun o => bo_orderIntentId o =? oi_id i) (brokerOrders db))).
  { destruct (find_many _ _) as [|c l]; [done|]. injection Hb as ->. by left. }
  apply find_many_In in Hin as [Hin Eb%Z.eqb_eq]. done.
Qed.

Lemma batch_in_batch account db : Forall (in_batch (batch_ids (submitted_batch account db)) (batch_orders (submitted_batch account db)))
  (submitted_batch account db).
Proof.
  apply Forall_forall. intros x Hx%list_elem_of_In. split; [by apply (in_map (fun x => oi_id (sm_intent x)))|].
  intros b Hb. apply list_elem_of_In, list_elem_of_omap. exists x. split; [by apply list_elem_of_In|done].
Qed.

Lemma batch_order account db b : In b (batch_orders (submitted_batch account db)) ->
  exists x, In x (submitted_batch account db) /\ sm_brokerOrder x = Some b.
Proof. intros (x & Hx%list_elem_of_In & E)%list_elem_of_In%list_elem_of_omap. by exists x. Qed.

Lemma batch_linked_ids account db b : In b (batch_orders (submitted_batch account db)) ->
  In (bo_orderIntentId b) (batch_ids (submitted_batch account db)).
Proof.
  intros (x & Hx & E)%batch_order. destruct (batch_intent _ _ _ Hx) as (_ & _ & Hb). destruct (Hb b E) as [_ ->].
  by apply (in_map (fun x => oi_id (sm_intent x))).
Qed.

Lemma batch_well_linked account db : NoDup (map bo_id (brokerOrders db)) ->
  well_linked (batch_orders (submitted_batch account db)) db.
Proof.
  intros Hnd b r (x & Hx & E)%batch_order Hr Eid. destruct (batch_intent _ _ _ Hx) as (_ & _ & Hb).
  destruct (Hb b E) as [Hin _]. by rewrite (NoDup_key_inj bo_id _ r b Hnd Hr Hin Eid).
Qed.

(** Who is not selected waits behind ten who are. *)
Lemma waits_behind account db i : NoDup (map oi_id (orderIntents db)) -> In i (orderIntents db) ->
  submittedOrderSyncIntentWhere account db i = true -> ~ In (oi_id i) (batch_ids (submitted_batch account db)) ->
  NoDup (batch_ids (submitted_batch account db)) /\ length (batch_ids (submitted_batch account db)) = 10%nat /\
  forall x, In x (submitted_batch account db) -> ahead_of account db i (sm_intent x) = true.
Proof.
  intros Hnd Hi Hw Hn. set (l := sort_with synced_before (find_many (submittedOrderSyncIntentWhere account db) (orderIntents db))).
  assert (Eb : batch_ids (submitted_batch account db) = map oi_id (take 10 l)).
  { unfold batch_ids, submitted_batch. rewrite map_map. done. }
  assert (Hl : In i l).
  { apply (Permutation_in _ (Permutation_sym (sort_with_perm _ _))), find_many_In. done. }
  assert (Hdrop : In i (drop 10 l)).
  { rewrite <- (take_drop 10 l) in Hl. apply in_app_or in Hl as [Hl|Hl]; [|done]. destruct Hn. rewrite Eb. by apply in_map. }
  assert (Hperm : Permutation l (filterb (submittedOrderSyncIntentWhere account db) (orderIntents db))).
  { unfold l. rewrite sort_with_perm. apply find_many_perm. }
  assert (Hndl : NoDup (map oi_id l)).
  { rewrite Hperm. by apply NoDup_map_filterb. }
  split; [|split].
  - rewrite Eb, <- firstn_map. rewrite <- (take_drop 10 (map oi_id l)) in Hndl. by apply NoDup_app in Hndl as [? _].
  - rewrite Eb, length_map, length_take. assert (length (drop 10 l) <> 0)%nat by (destruct (drop 10 l); done).
    rewrite length_drop in *. lia.
  - intros x Hx. destruct (batch_intent _ _ _ Hx) as (_ & Hwx & _). unfold ahead_of. rewrite Hwx. cbn [andb].
    assert (Hxl : In (sm_intent x) (take 10 l)).
    { unfold submitted_batch in Hx. apply in_map_iff in Hx as (y & <- & Hy). exact Hy. }
    rewrite (ordered_take synced_before 10 l (sm_intent x) i); [|apply sort_with_ordered; [apply synced_before_asym|apply synced_before_trans]|done..].
    rewrite andb_true_r. apply negb_true_iff, Z.eqb_neq. intros E. apply Hn. rewrite <- E.
    by apply (in_map (fun x => oi_id (sm_intent x))).
Qed.
End Turns.

Section Progress.
Context `{PrismaLaws}.
Variable now account : Z.

Lemma orders_stay ids n l l' : Forall2 (order_turns ids) l l' -> ~ In n ids ->
  filterb (fun o => bo_orderIntentId o =? n) l' = filterb (fun o => bo_orderIntentId o =? n) l.
Proof.
  intros Hl Hn. induction Hl as [|o o' l l' (E1 & E2 & Es) _ IH]; [done|]. cbn. rewrite E2.
  destruct (Z.eqb_spec (bo_orderIntentId o) n) as [E|]; [|exact IH]. rewrite Es by congruence. f_equal. exact IH.
Qed.

Lemma turned_where ids db db' i : turned now ids db db' -> ~ In (oi_id i) ids ->
  submittedOrderSyncIntentWhere account db' i = submittedOrderSyncIntentWhere account db i.
Proof.
  intros [Ep _ Eo] Hn. unfold submittedOrderSyncIntentWhere, historical, find_position, orders_of.
  by rewrite Ep, (orders_stay _ _ _ _ Eo Hn).
Qed.

(** Nobody outside the batch comes to stand ahead, and the whole batch, stamped,
    leaves. *)
Lemma ahead_shrinks ids db db' i : turned now ids db db' -> NoDup ids ->
  (forall n, In n ids -> stamped now n db') ->
  (forall n, In n ids -> exists j, In j (orderIntents db) /\ oi_id j = n /\ ahead_of account db i j = true) ->
  (forall t, oi_lastSubmittedOrderSyncAt i = Some t -> t < now) ->
  (ahead account db' i + length ids <= ahead account db i)%nat.
Proof.
  intros Ht Hnd Hst Hids Hclock. unfold ahead. set (inb := fun j => existsb (Z.eqb (oi_id j)) ids).
  assert (Hin : forall j, inb j = true <-> In (oi_id j) ids).
  { intros j. unfold inb. rewrite existsb_exists. split.
    - intros (n & Hn & ->%Z.eqb_eq). done.
    - intros Hj. exists (oi_id j). by rewrite Z.eqb_refl. }
  rewrite (filterb_split (ahead_of account db i) inb).
  assert (H1 : (length (filterb (ahead_of account db' i) (orderIntents db')) <=
    length (filterb (fun j => ahead_of account db i j && negb (inb j)) (orderIntents db)))%nat).
  { apply (Forall2_filterb _ _ _ _ _ (tn_intents _ _ _ _ Ht)). intros j j' Hj' (E1 & _ & _ & Es) Ha.
    destruct (inb j) eqn:Ej.
    - exfalso. apply Hin in Ej. pose proof (Hst _ Ej j' Hj' E1) as L. unfold ahead_of in Ha.
      apply andb_true_iff in Ha as [_ Ha]. apply negb_true_iff in Ha. unfold synced_before in Ha. rewrite L in Ha.
      destruct (oi_lastSubmittedOrderSyncAt i) as [t|] eqn:Et; [|done]. specialize (Hclock t eq_refl). lia.
    - assert (Hn : ~ In (oi_id j) ids) by (rewrite <- Hin; congruence). rewrite (Es Hn) in Ha.
      rewrite andb_true_r. unfold ahead_of in *. by rewrite (turned_where ids db db' j Ht Hn) in Ha. }
  assert (H2 : (length ids <= length (filterb (fun j => ahead_of account db i j && inb j) (orderIntents db)))%nat).
  { rewrite <- (length_map oi_id). apply NoDup_incl_length; [by apply NoDup_ListNoDup|]. intros n Hn.
    destruct (Hids n Hn) as (j & Hj & <- & Ha). apply in_map, filterb_In. split; [done|]. rewrite Ha. by apply Hin. }
  lia.
Qed.
End Progress.

Section Polled.
Context `{PrismaLaws} `{B : EntryBroker} `{W : OrderWorkerServices} `{K : SyncBroker}.
Variable now : Z.
Variable around : SyncSurroundings.

(** A run that polled worked through its whole batch. *)
Lemma polled_run account s res s' : sync_submitted now around account s = (Ok res, s') -> sn_polled res = true ->
  exists orders s1, ew_db (sy_entry s1) = ss_interfere (sx_reading around) 2190%nat (ew_db (sy_entry s)) /\
    sy_entry s' = sy_entry (snd (sync_items now around account orders
      (submitted_batch account (ew_db (sy_entry s1))) s1)).
Proof.
  intros E Hp. unfold sync_submitted in E. apply eff_bind_ok in E as (l & s1 & E1 & E).
  assert (H1 : ew_db (sy_entry s1) = ss_interfere (sx_reading around) 2190%nat (ew_db (sy_entry s)) /\
    l = submitted_batch account (ew_db (sy_entry s1))).
  { unfold in_sync, EntryWorld.db_read, EntryWorld.db_call, mbind, eff_bind, step, run_db, asks in E1.
    destruct (ss_outage _ _ _); [done|]. cbn in E1. injection E1 as <- <-. done. }
  destruct H1 as [Edb El]. destruct l as [|y l]; [injection E as <- _; done|].
  apply eff_bind_ok in E as (d & s2 & E2 & E). unfold in_polling in E2. destruct (getDecision _ _ _ _ _ _) as [d' c'].
  injection E2 as <- <-. destruct (negb (dn_due d')); [injection E as <- _; done|].
  apply eff_bind_ok in E as ([] & s3 & E3 & E). unfold polling_do, in_polling in E3. injection E3 as <-.
  apply eff_bind_ok in E as (fetched & s4 & E4 & E). unfold fetch_open_orders in E4. injection E4 as <- <-.
  destruct (getNormalizedOpenOrders _ _) as [orders|e].
  - unfold sync_polled in E. apply eff_bind_ok in E as ([] & s5 & E5 & E).
    apply eff_bind_ok in E as ([] & s6 & E6 & E). unfold polling_do, in_polling in E6. injection E6 as <-.
    apply eff_bind_ok in E as (s7 & s8 & E7 & E). injection E7 as <- <-.
    apply eff_bind_ok in E as ([] & s9 & E9 & E). unfold polling_do, in_polling in E9. injection E9 as <-.
    injection E as <- <-.
    match type of E5 with ?f ?t = _ => exists orders, t end. cbn [sy_entry]. split; [exact Edb|].
    by rewrite <- El, E5.
  - exfalso. unfold fetch_failed in E. destruct (String.eqb _ _); apply eff_bind_ok in E as ([] & s5 & _ & E);
      [injection E as <- _; done|done].
Qed.
End Polled.

(** C13. The account's orders take turns. When a run polls, every intent due for
    synchronization is synchronized now, or waits and has ten fewer before it:
    whatever the broker answers, whichever lookup, mirroring or release fails and
    for however long, an order cannot be passed over for more than a tenth as
    many polls as it has orders before it. The clock is past the intent's last
    synchronization, the stamps are stored, and other sessions leave intents,
    orders and positions for the time of the run. *)
Theorem submitted_sync_rotation `{PrismaLaws} `{B : EntryBroker} `{W : OrderWorkerServices} `{K : SyncBroker}
    now around account w x c i
    (Hreading : quiet_session (sx_reading around)) (Hworking : forall k, quiet_session (sx_working around k))
    (Hstamps : forall k db, ss_outage (sx_working around k) 2200%nat db = None)
    (Hintents : NoDup (map oi_id (orderIntents (ew_db w)))) (Horders : NoDup (map bo_id (brokerOrders (ew_db w))))
    (Hi : In i (orderIntents (ew_db w))) (Hw : submittedOrderSyncIntentWhere account (ew_db w) i = true)
    (Hclock : forall t, oi_lastSubmittedOrderSyncAt i = Some t -> t < now) res s'
    (Hrun : syncSubmittedOrdersForAccountUnlocked now around account w x c = (Ok res, s'))
    (Hpolled : sn_polled res = true) :
  let db' := ew_db (sy_entry s') in
  (exists j, In j (orderIntents db') /\ oi_id j = oi_id i /\ oi_lastSubmittedOrderSyncAt j = Some now) \/
  (In i (orderIntents db') /\ submittedOrderSyncIntentWhere account db' i = true /\
   (ahead account db' i + SUBMITTED_ORDER_BATCH_LIMIT_PER_ACCOUNT <= ahead account (ew_db w) i)%nat).
Proof.
  destruct (polled_run now around account _ res s' Hrun Hpolled) as (orders & s1 & Edb & ->). cbn [sy_entry] in Edb.
  assert (Hq : same_rows (ew_db w) (ew_db (sy_entry s1))) by (rewrite Edb; apply Hreading).
  rewrite (same_batch account _ _ Hq). set (l := submitted_batch account (ew_db w)).
  assert (Hl : well_linked (batch_orders l) (ew_db (sy_entry s1))).
  { apply (proj1 (same_turned now (batch_ids l) (batch_orders l) _ _ Hq (batch_well_linked account _ Horders))). }
  destruct (items_turn now (batch_ids l) (batch_orders l) (batch_linked_ids account (ew_db w)) around Hworking Hstamps
    account orders l s1 (batch_in_batch account (ew_db w)) Hl) as [Ht1 Hst].
  set (s2 := snd (sync_items now around account orders l s1)) in *. set (db' := ew_db (sy_entry s2)) in *.
  assert (Ht : turned now (batch_ids l) (ew_db w) db').
  { apply (turns_intro now (batch_ids l) (batch_orders l)); [|by apply batch_well_linked].
    transitivity (ew_db (sy_entry s1)); [by apply same_turned|]. intros Hl'. split; [|done].
    intros b r Hb Hr. destruct (Forall2_In_r _ _ _ (tn_orders _ _ _ _ Ht1) r Hr) as (r0 & Hr0 & E1 & E2 & _).
    rewrite E1, E2. by apply Hl'. }
  destruct (Forall2_In_l _ _ _ (tn_intents _ _ _ _ Ht) i Hi) as (j & Hj & Ej & _ & _ & Es).
  destruct (in_dec Z.eq_dec (oi_id i) (batch_ids l)) as [Hin|Hout].
  - left. exists j. split; [done|]. split; [done|]. apply in_map_iff in Hin as (y & Ey & Hy).
    apply (proj1 (List.Forall_forall _ _) Hst y Hy j Hj). congruence.
  - right. rewrite (Es Hout) in Hj. split; [done|]. split; [by rewrite (turned_where now account _ _ _ i Ht Hout)|].
    destruct (waits_behind account (ew_db w) i Hintents Hi Hw Hout) as (Hnd & Hlen & Hah). fold l in Hnd, Hlen, Hah.
    change SUBMITTED_ORDER_BATCH_LIMIT_PER_ACCOUNT with 10%nat. rewrite <- Hlen.
    apply (ahead_shrinks now account (batch_ids l)); try done.
    + intros n (y & <- & Hy)%in_map_iff. by apply (proj1 (List.Forall_forall _ _) Hst).
    + intros n (y & <- & Hy)%in_map_iff. exists (sm_intent y). destruct (batch_intent account (ew_db w) y Hy) as (? & _).
      split; [done|]. split; [done|by apply Hah].
Qed.

(** * The account of a run *)

Section Runs.
Context `{PrismaLaws} `{B : EntryBroker} `{W : OrderWorkerServices} `{K : SyncBroker}.
Variable now : Z.
Variable around : SyncSurroundings.

(** The database the batch is read from. *)
Definition read_db (w : EntryWorld) : Db := ss_interfere (sx_reading around) 2190%nat (ew_db w).
Definition next_poll (account : Z) (s : SyncState) : option Z := schedule account submitted_order_sync (sy_polling s).

Lemma batch_at_most account db : (length (submitted_batch account db) <= 10)%nat.
Proof. unfold submitted_batch. rewrite length_map, length_take. change SUBMITTED_ORDER_BATCH_LIMIT_PER_ACCOUNT with 10%nat. lia. Qed.

(** A due decision for submitted orders has an interval. *)
Lemma due_interval a t answers c : let d := fst (getDecision a submitted_order_sync now t answers c) in
  dn_due d = true -> dn_effectiveIntervalMs d = Some 10000 \/ dn_effectiveIntervalMs d = Some 60000.
Proof.
  intros d Hd. destruct (decision_unfold a submitted_order_sync now t answers c) as (_ & Hdue & _ & Hint). fold d in Hdue, Hint.
  rewrite Hint. rewrite Hd in Hdue. unfold judge_due in Hdue. rewrite bool_decide_eq_true_2 in Hdue by done.
  destruct (isActive submitted_order_sync (dn_localActivity d)); [|done].
  unfold intervalFor. cbn [negb]. destruct (me_state (dn_market d)); [by left|by right|by left].
Qed.

Lemma success_schedules a t i c :
  schedule a submitted_order_sync (recordSuccess submitted_order_sync a t (Some i) c) = Some (t + i).
Proof. unfold recordSuccess. by rewrite schedule_set, decide_True. Qed.
Lemma failure_schedules a t c : exists u,
  schedule a submitted_order_sync (recordFailure submitted_order_sync a t c) = Some u /\
  t + RETRY_minimum <= u <= t + RETRY_maximum.
Proof.
  unfold recordFailure. rewrite schedule_set, decide_True by done. eexists. split; [done|].
  pose proof (retry_bounds t (stateFor a submitted_order_sync c)). lia.
Qed.

(** The world a run starts from, and whether the broker may be asked. *)
Definition read_world (w : EntryWorld) : EntryWorld := set_ew_db (fun _ => read_db w) w.
Definition asked (account : Z) (c : AdaptivePollingCoordinator) : bool :=
  dn_due (fst (getDecision account submitted_order_sync now (sx_settled around) (sx_answers around) c)).

(** The items of a run that polled. *)
Record polled_items (account : Z) (w : EntryWorld) (x : list PositionExitState) (res : SubmittedOrderSyncResult)
    (s' : SyncState) (orders : list BrokerOpenOrder) (outcomes : list SyncOutcome) (s1 s2 : SyncState) : Prop := {
  pi_fetched : getNormalizedOpenOrders account (read_world w) = Ok orders;
  pi_starts : sy_entry s1 = read_world w /\ sy_exitStates s1 = x;
  pi_run : run_over (item_run now around account orders) (submitted_batch account (read_db w)) s1 outcomes s2;
  pi_ends : sy_entry s' = sy_entry s2 /\ sy_exitStates s' = sy_exitStates s2;
  pi_synced : sn_synced res = how_many was_mirrored outcomes;
  pi_failures : sn_failures res = item_failures (submitted_batch account (read_db w)) outcomes
}.

(** What a run that ended well reports. *)
Record accounted (account : Z) (w : EntryWorld) (x : list PositionExitState) (c : AdaptivePollingCoordinator)
    (res : SubmittedOrderSyncResult) (s' : SyncState) : Prop := {
  ad_found : sn_found res = Z.of_nat (length (submitted_batch account (read_db w))) /\ sn_found res <= 10;
  ad_skipped : sn_skipped res = true -> sn_polled res = false /\ sn_synced res = 0 /\ sn_failures res = [] /\
    sy_entry s' = read_world w /\ sy_exitStates s' = x /\
    (submitted_batch account (read_db w) = [] \/ asked account c = false \/
     exists e, getNormalizedOpenOrders account (read_world w) = Throw e /\
       error_name e = "AlpacaRateLimitDeferredError");
  ad_polled : sn_skipped res = false -> sn_polled res = true /\
    submitted_batch account (read_db w) <> [] /\ asked account c = true /\
    (exists orders outcomes s1 s2, polled_items account w x res s' orders outcomes s1 s2) /\
    exists i, (i = 10000 \/ i = 60000) /\ sn_effectiveIntervalMs res = Some i /\
    match sn_failures res with
    | [] => next_poll account s' = Some (sx_completedAt around + i)
    | _ => exists t, next_poll account s' = Some t /\
        sx_completedAt around + RETRY_minimum <= t <= sx_completedAt around + RETRY_maximum
    end
}.

(** ... and one that threw: the batch or the open orders could not be read. *)
Definition unread (account : Z) (w : EntryWorld) (x : list PositionExitState) (c : AdaptivePollingCoordinator)
    (e : js_error) (s' : SyncState) : Prop :=
  sy_entry s' = read_world w /\ sy_exitStates s' = x /\
  (ss_outage (sx_reading around) 2190%nat (read_db w) = Some e /\ sy_polling s' = c \/
   getNormalizedOpenOrders account (read_world w) = Throw e /\ error_name e <> "AlpacaRateLimitDeferredError" /\
   exists t, next_poll account s' = Some t /\ now + RETRY_minimum <= t <= now + RETRY_maximum).

Lemma skipped_accounted account w x c res s' : sn_found res = Z.of_nat (length (submitted_batch account (read_db w))) ->
  sn_polled res = false -> sn_synced res = 0 -> sn_failures res = [] -> sn_skipped res = true ->
  sy_entry s' = read_world w -> sy_exitStates s' = x ->
  (submitted_batch account (read_db w) = [] \/ asked account c = false \/
   exists e, getNormalizedOpenOrders account (read_world w) = Throw e /\ error_name e = "AlpacaRateLimitDeferredError") ->
  accounted account w x c res s'.
Proof.
  intros Ef Ep Es El Ek Edb Ex Hwhy. split; [|done|by rewrite Ek]. rewrite Ef.
  pose proof (batch_at_most account (read_db w)). split; [done|lia].
Qed.

Lemma polled_accounted account d w x c orders s : sy_entry s = read_world w -> sy_exitStates s = x ->
  sy_synced s = 0 -> sy_failures s = [] -> getNormalizedOpenOrders account (read_world w) = Ok orders ->
  submitted_batch account (read_db w) <> [] -> asked account c = true ->
  dn_effectiveIntervalMs d = Some 10000 \/ dn_effectiveIntervalMs d = Some 60000 ->
  let '(r, s') := sync_polled now around account d (submitted_batch account (read_db w)) orders s in
  exists res, r = Ok res /\ accounted account w x c res s'.
Proof.
  intros Ew Ex E0 Ef0 Eo Hne Hdue Hi. pose proof (batch_at_most account (read_db w)) as Hmost.
  set (l := submitted_batch account (read_db w)) in *. unfold sync_polled, mbind, eff_bind.
  destruct (sync_items_run now around account orders l s) as (outcomes & s1 & -> & Hrun & Hs & Hf & _).
  rewrite E0 in Hs. rewrite Ef0 in Hf. cbn [app] in Hf.
  unfold polling_do, in_polling, get. cbn [sy_entry sy_exitStates sy_polling sy_synced sy_failures].
  eexists. split; [reflexivity|]. split.
  - split; [done|]. cbn [sn_found]. fold l. lia.
  - by intros [=].
  - intros _. split; [done|]. split; [done|]. split; [done|]. split.
    + exists orders, outcomes, s, s1. by split.
    + assert (Hint : exists i, (i = 10000 \/ i = 60000) /\ dn_effectiveIntervalMs d = Some i)
        by (destruct Hi as [->| ->]; eexists; (split; [|done]); auto).
      destruct Hint as (i & Hi' & Ei). exists i. split; [done|]. split; [exact Ei|].
      cbn [sn_failures]. unfold next_poll. cbn [sy_polling]. destruct (sy_failures s1) as [|f fs'].
      * rewrite Ei. apply success_schedules.
      * apply failure_schedules.
Qed.

Lemma run_accounted account w x c :
  let '(r, s') := syncSubmittedOrdersForAccountUnlocked now around account w x c in
  match r with Ok res => accounted account w x c res s' | Throw e => unread account w x c e s' end.
Proof.
  unfold syncSubmittedOrdersForAccountUnlocked, sync_submitted.
  unfold in_sync, EntryWorld.db_read, EntryWorld.db_call, run_db, step, asks, mbind, eff_bind. cbn [sy_entry ew_db set_ew_db].
  fold (read_db w). destruct (ss_outage (sx_reading around) 2190%nat (read_db w)) as [e|] eqn:Eout.
  { cbn. split; [done|]. split; [done|by left]. }
  cbn [sy_entry ew_db set_ew_db]. fold (read_db w). pose proof (skipped_accounted account w x c) as Hskip.
  assert (Hne : submitted_batch account (read_db w) = [] \/ submitted_batch account (read_db w) <> [])
    by (destruct (submitted_batch account (read_db w)); auto).
  destruct (submitted_batch account (read_db w)) as [|y l'] eqn:El; [by apply Hskip; try left|]. rewrite <- El in *.
  destruct Hne as [Hne|Hne]; [by rewrite Hne in El|].
  unfold in_polling at 1. cbn [sy_entry sy_exitStates sy_polling sy_synced sy_failures].
  pose proof (due_interval account (sx_settled around) (sx_answers around) c) as Hint. cbv zeta in Hint.
  unfold asked in *. assert (Hask : forall b, asked account c = b -> asked account c = b) by done. unfold asked at 1 in Hask.
  destruct (getDecision account submitted_order_sync now (sx_settled around) (sx_answers around) c) as [d c1].
  cbn [fst] in *. destruct (dn_due d) eqn:Edue; cbn [negb]; [specialize (Hint eq_refl)|by apply Hskip; try (right; left)].
  unfold polling_do at 1, in_polling at 1, fetch_open_orders. cbn [sy_entry sy_exitStates sy_polling sy_synced sy_failures].
  destruct (getNormalizedOpenOrders account _) as [orders|e] eqn:Eo.
  - match goal with |- match sync_polled _ _ _ _ _ _ ?s with _ => _ end =>
      pose proof (polled_accounted account d w x c orders s eq_refl eq_refl eq_refl eq_refl Eo Hne (Hask _ eq_refl) Hint) as Hp end.
    destruct (sync_polled _ _ _ _ _ _ _) as [r s']. by destruct Hp as (res & -> & Ha).
  - unfold fetch_failed. destruct (String.eqb_spec (error_name e) "AlpacaRateLimitDeferredError").
    + apply Hskip; try done. right. right. by exists e.
    + cbn. split; [done|]. split; [done|]. right. split; [exact Eo|]. split; [done|]. apply failure_schedules.
Qed.
End Runs.

(** C14. A synchronization accounts for what it did, whatever other sessions do
    and wherever the database or the broker fails. It hands nothing to the
    broker. It throws only when the batch or the open orders could not be read,
    and then has touched nothing and, after a failed read of the broker, asks
    again in 5 to 15 seconds. It is skipped only when the account has nothing to
    synchronize, is not due, or the rate limit defers the read, and has then
    touched nothing either. A run that polled worked on the at most ten intents
    it found one after the other. It counts as synchronized exactly the items
    whose observed status was another, whose compare-and-set on the broker order
    took, and whose remaining work succeeded, each of which published the new
    status; an item that threw is reported once, in order, under its intent with
    its own error, and every other item neither counts nor publishes anything.
    The next poll is at the completion plus the interval reported, or within 5 to
    15 seconds if any item failed. *)
Theorem submitted_sync_accounted `{PrismaLaws} `{B : EntryBroker} `{W : OrderWorkerServices} `{K : SyncBroker}
    now around account w x c :
  let '(r, s') := syncSubmittedOrdersForAccountUnlocked now around account w x c in
  ew_posts (sy_entry s') = ew_posts w /\
  match r with
  | Ok res => accounted now around account w x c res s'
  | Throw e => unread now around account w x c e s'
  end.
Proof.
  pose proof (run_accounted now around account w x c) as Ha.
  assert (Hany : forall interfere, RespectsClaims (fun _ _ => True) now interfere) by (split; [split|..]; done).
  assert (Hrel : RespectsReleases (fun _ _ => True) now) by (split; done).
  assert (Hpre : PreOrder (fun _ _ : Db => True)) by (split; done).
  pose proof (sync_submitted_R (R := fun _ _ => True) around (fun _ => True) (fun _ _ _ _ _ => I)
    (fun i => Hany (ss_interfere (sx_working around i))) (Hany (ss_interfere (sx_reading around))) (fun _ _ _ _ _ _ => I) account) as Hp.
  unfold syncSubmittedOrdersForAccountUnlocked in *. set (s0 := {| sy_entry := w |}) in *.
  assert (Hm : sync_moved (fun _ _ => True) s0 (snd (sync_submitted now around account s0))).
  { apply Hp. intros db. apply Forall_forall. intros y _. by repeat split. }
  destruct (sync_submitted now around account s0) as [r s']. split; [apply Hm|exact Ha].
Qed.

(** * Concrete inputs *)

(** An accepted entry of the sample account, and its order at the broker. *)
Definition working_intent (id createdAt : Z) : OrderIntent :=
  {| oi_id := id; oi_source := "signal"; oi_symbol := "AAPL"; oi_side := "buy"; oi_orderType := "market";
     oi_timeInForce := "day"; oi_qty := None; oi_notional := Some (num_of_Z 1500); oi_limitPrice := None;
     oi_clientOrderId := Some "entry-31"; oi_status := "accepted"; oi_blockReason := None;
     oi_rawRequestJson := JObj []; oi_createdAt := createdAt; oi_updatedAt := createdAt;
     oi_subscriptionId := Some 5; oi_subscriptionKey := Some "aapl-trend"; oi_trackedPositionId := None;
     oi_tradingAccountId := Some 7; oi_tradingAccountSubscriptionId := Some 9;
     oi_liveEntryAcceptanceRunId := None; oi_lastSubmittedOrderSyncAt := None |}.
Definition working_order (id intent : Z) : BrokerOrder :=
  {| bo_id := id; bo_orderIntentId := intent; bo_broker := "ALPACA"; bo_brokerOrderId := "broker-1";
     bo_clientOrderId := "entry-31"; bo_symbol := "AAPL"; bo_side := "buy"; bo_status := "accepted";
     bo_securityId := 1; bo_trackedPositionId := None; bo_tradingAccountId := Some 7; bo_rawBrokerJson := JObj [];
     bo_createdAt := 1704214700000 |}.

Definition working_ids : list Z := [112; 111; 110; 109; 108; 107; 106; 105; 104; 103; 102; 101].

(** Twelve accepted entries, the newest stored first. *)
Definition twelve_world : EntryWorld :=
  {| ew_db := set_brokerOrders (fun _ => map (fun id => working_order (id + 100) id) working_ids)
       (set_orderIntents (fun _ => map (fun id => working_intent id (1704214000000 + id)) working_ids) RiskGate.sample_db);
     ew_events := []; ew_posts := [] |}.

Definition calm_around (working : Session) : SyncSurroundings :=
  {| sx_reading := calm_session; sx_working := fun _ => working; sx_answers := while_open; sx_settled := 1704214800005;
     sx_meanwhile := []; sx_completedAt := 1704214801000 |}.

#[local] Notation twelve_run := (syncSubmittedOrdersForAccountUnlocked (H := in_order) (H0 := accepting_broker)
  (H1 := routed_services) (H2 := no_open_orders) 1704214800000 (calm_around calm_session) 7 twelve_world []
  new_coordinator).

(** The ten oldest are taken, and the eleventh is next. *)
Example twelve_take_turns :
  match twelve_run with
  | (Ok r, s') => sn_found r = 10 /\ sn_polled r = true /\ sn_failures r = [] /\
      map (fun x => oi_id (sm_intent x)) (submitted_batch (H := in_order) 7 (ew_db (sy_entry s'))) =
        [111; 112; 101; 102; 103; 104; 105; 106; 107; 108]
  | _ => False
  end.
Proof. vm_compute. auto. Qed.

Lemma calm_quiet : quiet_session calm_session.
Proof. intros n db. by repeat split. Qed.

Lemma submitted_sync_rotation_witness :
  let db' := ew_db (sy_entry (snd twelve_run)) in
  ahead (P := in_order) 7 (ew_db twelve_world) (working_intent 111 1704214000111) = 10%nat /\
  ahead (P := in_order) 7 db' (working_intent 111 1704214000111) = 0%nat.
Proof.
  pose proof (submitted_sync_rotation (P := in_order) (B := accepting_broker) (W := routed_services) (K := no_open_orders)
    1704214800000 (calm_around calm_session) 7 twelve_world [] new_coordinator (working_intent 111 1704214000111)
    calm_quiet (fun _ => calm_quiet) (fun _ _ => eq_refl)) as Hr.
  assert (E0 : ahead (P := in_order) 7 (ew_db twelve_world) (working_intent 111 1704214000111) = 10%nat) by (vm_compute; reflexivity).
  split; [exact E0|].
  assert (Hn : NoDup (map oi_id (orderIntents (ew_db twelve_world)))) by (apply (bool_decide_unpack _); vm_compute; exact I).
  assert (Ho : NoDup (map bo_id (brokerOrders (ew_db twelve_world)))) by (apply (bool_decide_unpack _); vm_compute; exact I).
  assert (Hi : In (working_intent 111 1704214000111) (orderIntents (ew_db twelve_world))) by (right; left; reflexivity).
  specialize (Hr Hn Ho Hi ltac:(vm_compute; reflexivity) ltac:(intros t [=])).
  assert (Hp : match twelve_run with (Ok r, s') => sn_polled r = true /\
      forallb (fun j => implb (oi_id j =? 111) (match oi_lastSubmittedOrderSyncAt j with None => true | Some _ => false end))
        (orderIntents (ew_db (sy_entry s'))) = true | _ => False end) by (vm_compute; auto).
  destruct twelve_run as [[r|e] s']; [|destruct Hp]. destruct Hp as [Hp Hall].
  destruct (Hr r s' eq_refl Hp) as [(j & Hj & Ej & Lj)|(_ & _ & Ha)].
  - apply (proj1 (forallb_forall _ _)) with (x := j) in Hall; [|exact Hj]. rewrite Ej, Lj in Hall. discriminate Hall.
  - rewrite E0 in Ha. change SUBMITTED_ORDER_BATCH_LIMIT_PER_ACCOUNT with 10%nat in Ha. cbn [snd]. lia.
Defined.

(** The broker has cancelled the order of entry 31, and reports it by its id. *)
Definition canceled_order : AlpacaOrder :=
  {| rawo_id := "broker-1"; rawo_client_order_id := "entry-31"; rawo_symbol := "AAPL"; rawo_side := "buy";
     rawo_type := "market"; rawo_time_in_force := "day"; rawo_qty := None; rawo_notional := None;
     rawo_limit_price := None; rawo_stop_price := None; rawo_status := "canceled";
     rawo_submitted_at := "2024-01-02T17:00:00Z"; rawo_filled_qty := None; rawo_filled_avg_price := None;
     rawo_trail_price := None; rawo_trail_percent := None; rawo_replaced_by := None |}.
Definition canceling_services : OrderWorkerServices :=
  {| placeOrderSchema_parse := placeOrderSchema_parse (OrderWorkerServices := routed_services);
     resolveSubscriptionOrderInput := resolveSubscriptionOrderInput (OrderWorkerServices := routed_services);
     linkEntryDecisionToBrokerOrder _ _ _ := mret tt; entry_order_by_id _ _ _ _ := Ok (Some canceled_order) |}.
Definition working_world : EntryWorld :=
  {| ew_db := set_brokerOrders (fun _ => [working_order 131 31]) (set_claims (fun _ => [entry_claim "BROKER_ORDER_ACTIVE"])
       (set_orderIntents (fun _ => [working_intent 31 1704214700000]) RiskGate.sample_db));
     ew_events := []; ew_posts := [] |}.

(** The database is lost between the update of the broker order and that of its
    intent. *)
Definition lost_at_intent : Session :=
  {| ss_interfere := calm; ss_outage := fun n _ => if (n =? 2205)%nat then Some (PlainError "connection lost") else None |}.

#[local] Notation mirror_run now session w := (syncSubmittedOrdersForAccountUnlocked (H := in_order) (H0 := accepting_broker)
  (H1 := canceling_services) (H2 := no_open_orders) now (calm_around session) 7 w [] new_coordinator).
Definition mirrored (w : EntryWorld) : list string * list string * list (string * option Z) :=
  (map bo_status (brokerOrders (ew_db w)), map oi_status (orderIntents (ew_db w)),
   map (fun c => (cl_status c, cl_releasedAt c)) (claims (ew_db w))).

(** Undisturbed, the run mirrors the status and releases the claim. *)
Example calm_mirror :
  match mirror_run 1704214800000 calm_session working_world with
  | (Ok r, s') => sn_synced r = 1 /\
      mirrored (sy_entry s') = (["canceled"], ["canceled"], [("RELEASED", Some 1704214800000)])
  | _ => False
  end.
Proof. vm_compute. auto. Qed.

(** A failure after the broker order's update leaves the intent and the claim as
    they were, and no later run repairs them: it finds the broker order up to
    date. *)
Example interrupted_mirror_never_repaired :
  match mirror_run 1704214800000 lost_at_intent working_world with
  | (Ok r, s') => sn_synced r = 0 /\ sn_failed r = 1 /\
      mirrored (sy_entry s') = (["canceled"], ["accepted"], [("BROKER_ORDER_ACTIVE", None)]) /\
      match mirror_run 1704214900000 calm_session (sy_entry s') with
      | (Ok r, s'') => sn_found r = 1 /\ sn_synced r = 0 /\ sn_failures r = [] /\
          mirrored (sy_entry s'') = mirrored (sy_entry s')
      | _ => False
      end
  | _ => False
  end.
Proof. vm_compute. repeat split. Qed.

Lemma submitted_sync_accounted_witness :
  match mirror_run 1704214800000 lost_at_intent working_world with
  | (Ok r, s') => sn_synced r = 0 /\ ew_posts (sy_entry s') = [] /\ exists e, sn_failures r =
      [{| sf_orderIntentId := 31; sf_brokerOrderRecordId := Some 131; sf_error := error_message e |}]
  | _ => False
  end.
Proof.
  pose proof (submitted_sync_accounted (P := in_order) (B := accepting_broker) (W := canceling_services)
    (K := no_open_orders) 1704214800000 (calm_around lost_at_intent) 7 working_world [] new_coordinator) as Ha.
  assert (E : match mirror_run 1704214800000 lost_at_intent working_world with
              | (Ok r, _) => sn_synced r = 0 /\ sn_failed r = 1 /\ sn_skipped r = false | _ => False end) by (vm_compute; repeat split).
  destruct (mirror_run 1704214800000 lost_at_intent working_world) as [[r|e] s']; [|destruct E].
  destruct Ha as [Hp Ha], E as (Es & Ef & Ek). split; [exact Es|]. split; [exact Hp|].
  destruct (ad_polled _ _ _ _ _ _ _ _ Ha Ek) as (_ & _ & _ & (orders & outcomes & s1 & s2 & [_ _ Hrun _ _ Hfail]) & _).
  assert (El : submitted_batch (H := in_order) 7 (read_db (calm_around lost_at_intent) working_world) =
    [{| sm_intent := working_intent 31 1704214700000; sm_brokerOrder := Some (working_order 131 31) |}]) by (vm_compute; reflexivity).
  rewrite El in Hrun, Hfail.
  pose proof (run_over_length _ _ _ _ _ Hrun) as Hlen. destruct outcomes as [|o [|]]; try discriminate Hlen.
  unfold sn_failed in Ef. rewrite Hfail in Ef |- *. destruct o as [b o| |e]; [discriminate Ef..|].
  by exists e.
Defined.
